(* ===== verification/_CoqProject ===== *)
-Q . S2P
Prelude.v
DvpTypes.v
Perf.v
GraphLock.v
KernelGraphManager.v
KernelGraphBoss.v
ManagerSelection.v
Configure.v
LoadTable.v
Dispatch.v
Execution.v
BossInit.v
BossProperties.v
KernelGraph.v
GraphProcess.v
GraphProperties.v
Memory.v
Image.v
Allocator.v
ImageLayout.v
ImageAlloc.v
ImageTransfer.v
Moves.v
ImagePatch.v
TransferFacts.v
TransferProperties.v
SetPatch.v
Swizzle.v
AllocProperties.v
Shared.v
SharedProperties.v
SharedImage.v
Ring.v
Queue.v
QueueProperties.v
ThreadPool.v
ThreadPoolFacts.v
ThreadPoolProperties.v
GraphPool.v
GraphInit.v
NodeData.v
ParamTypes.v
NodeAlloc.v
SosalImage.v
SosalImageAlloc.v
SosalText.v
KgmCpu.v
KgmCpuFacts.v
KgmCpuRun.v
PointMap.v
KgmCpuProperties.v
KgmCpuQueue.v
KgmCpuVendor.v
KgmCpuVlib.v
SosalList.v
SosalListFacts.v
SosalListProperties.v
SosalHash.v
SosalHashMap.v
SosalHashProperties.v
SosalHistogram.v
SosalCache.v
SosalCacheProperties.v
SosalBitfield.v
SosalFph.v
SosalTree.v
SosalTreeBuild.v
SosalTreeProperties.v
Rpc.v
RpcRegistry.v
RemoteTables.v
RemoteManager.v
Omaprpc.v
RemoteProperties.v
SosalHeap.v
SosalHeapFacts.v
SosalHeapLists.v
SosalHeapGeometry.v
SosalHeapCalls.v
SosalHeapProperties.v
