(* ===== verification/Prelude.v ===== *)
(** * DVP: a verification library for the Distributed Vision Processing
    kernel-graph runtime and its support library SOSAL

    DVP runs graphs of image-processing kernels.  A client fills an array of
    kernel nodes, groups nodes into sections and sections into a graph, and
    asks the runtime to process it.  The runtime selects for every node a
    graph manager (the CPU, the GPU, a DSP, ...) that implements its kernel,
    accounts for the load in a table shared between processes, and hands each
    run of nodes with the same manager to that manager's module.

    The build modelled is the PC build for Linux on x86-64: no TILER, ION, BO
    or gralloc memory, shared memory enabled, the stub for remote procedure
    calls, [size_t] of 64 bits.  The graph managers of remote cores are not
    part of it; they and their transport are modelled for the PandaBoard: ARM,
    pointers of 32 bits, the OMAPRPC driver, memory from buffer objects.

    ** The program's parts and the files that model them

    - [Prelude] (this file): outcomes of C code, fixed-width integers, arrays
      indexed by [Z], and the lemmas and tactics the components share.
    - [DvpTypes]: nodes, sections, graphs (include/dvp/dvp_types.h).
    - [KernelGraphManager]: the table of entry points of a manager, its
      loading and unloading (dvp_kgraph/include/dvp_kgm.h, dvp_kmdl.c), and the class
      [LawfulKGM] that states what the runtime relies on.  What a
      manager computes is a field of that table.
    - The boss, dvp_kgraph/dvp_kgb.c.  [KernelGraphBoss]: its state and its
      functions, one definition each.  [ManagerSelection]: which manager
      [DVP_GetNextManagerIndex] finds.  [Configure]: routing of a node and of
      a section.  [LoadTable]: commit and decommit.  [Dispatch] and
      [Execution]: how verification and processing cut the node array into
      runs of one manager and call it.  [BossInit]: initialisation and
      teardown.  [BossProperties]: the theorems about the boss.
    - The graph API, dvp_kgraph/dvp_kgraph.c.  [KernelGraph]: its functions.
      [GraphProcess]: the rounds of [DVP_KernelGraph_Process].
      [GraphProperties]: the theorems.  [GraphLock]: the lock between graph
      calls and teardown, as a step relation.  [GraphInit]: initialisation and
      teardown of the runtime.  [Perf]: performance counters.
    - Images, dvp_kgraph/dvp_mem.c.  [Memory]: a byte-addressed memory.
      [Image]: formats, geometry, validation, addressing.  [Allocator]:
      sosal/allocator.c and dvp_kgraph/dvp_mem_int.c.  [ImageAlloc]:
      allocation of images and buffers.  [ImageTransfer]: fill, copy, format
      conversion, comparison, serialization.  [ImageLayout], [Moves],
      [ImagePatch], [TransferFacts]: where the bytes of a
      sample, a line, a patch and a serialized image are.
      [TransferProperties], [SetPatch], [Swizzle], [AllocProperties]: the
      theorems.
    - SOSAL's message queue: [Ring] (sosal/ring.c), [Queue] (sosal/queue.c
      and event.c, with the interleavings of concurrent callers as a step
      relation) and [QueueProperties].
    - The CPU graph manager, dvp_kgm_cpu/dvp_kgm_cpu.c.  [NodeData]: the
      kernels, and where a node's bytes hold their parameters
      (include/dvp/dvp_types.h).  [KgmCpu]: dispatch, verification and the
      kernels of the build without vendor libraries, as a table of entry
      points.  [KgmCpuFacts] (the instance of [LawfulKGM]), [KgmCpuRun] (a
      stretch of nodes, and one of copies), [PointMap] (kernels that work
      pixel by pixel): lemmas.  [KgmCpuProperties]: the
      theorems.  [KgmCpuQueue]: callers and worker threads that exchange
      requests and answers over two queues, as a step relation.
      [KgmCpuVendor]: programs over the calls of a vendor library, whose
      answers are an argument, and the cases of IMGLIB.  [KgmCpuVlib]: those
      of VLIB, of the YUV library, of the image filters and of RVM, with their
      verification, the published kernels and the optimised chains.
    - Portable images, sosal/image.c.  [SosalImage]: allocation layout, fill,
      copy and conversions; [SosalImageAlloc]: its bounds.
    - Text: [SosalText], the INI parser of sosal/ini.c, four-character codes,
      fourcc.c, the name lookups of pyuv.c, and options.c.
    - SOSAL's doubly linked list, sosal/list.c.  [SosalList]: its functions
      over a store of nodes.  [SosalListFacts]: what a well linked list is,
      and the ends.  [SosalListProperties]: sorted insertion, extraction,
      searches, and programs of list operations.
    - SOSAL's heap, sosal/heap.c, a client of the list.  [SosalHeap]: its
      functions.  [SosalHeapFacts], [SosalHeapLists], [SosalHeapGeometry],
      [SosalHeapCalls]: the invariant of its three lists and of the areas of
      its blocks, call by call.  [SosalHeapProperties]: a new heap, and the
      refinement of a set of live blocks.
    - SOSAL's hash table, sosal/hash.c, another client of the list.
      [SosalHash]: its functions.  [SosalHashMap]: records, buckets, and a table as
      a map.  [SosalHashProperties]: its calls one by one, and programs of
      table calls.
    - The thread pool, sosal/threadpool.c, a client of the message queue.
      [ThreadPool]: its functions, and clients, workers and the final
      [threadpool_destroy] as a step relation.  [ThreadPoolFacts]: its
      invariant.  [ThreadPoolProperties]: a measure that every step lowers,
      and the theorems.  [GraphPool]: a round of a graph
      in the pool.
    - SOSAL's other containers.  [SosalTree]: the binary tree list,
      sosal/btreelist.c; [SosalTreeBuild]: the shape of the tree and its
      construction from the list; [SosalTreeProperties]: its calls one by
      one, and programs of tree calls.  [SosalHistogram],
      [SosalBitfield], [SosalFph]: sosal/histogram.c, bitfield.c and fph.c
      with what they promise.  [SosalCache]: the cache, sosal/cache.c, over any
      source with the laws of the class [LawfulSource];
      [SosalCacheProperties]: programs of cache calls, and files as a source.
    - Shared memory.  [Shared]: System V segments and processes, sosal/shared.c,
      the shared case of sosal/allocator.c and its [allocator_memory_t].
      [SharedProperties]: one call and one loop at a time, and the life of a
      shared allocation.  [SharedImage]: sharing and import in dvp_mem_int.c
      and dvp_mem.c.
    - [NodeAlloc]: arrays of kernel nodes, dvp_kgraph/dvp_mem.c.
    - The remote graph managers, dvp_kgm_simcop/dvp_kgm_simcop.c and
      dvp_kgm_dsp/dvp_kgm_dsp.c.  [ParamTypes]: kernel numbers and parameter
      structures by name.  [Rpc]: dvp_kgraph/dvp_rpc_omaprpc.c, the registry of
      shared memory, translations of pointers, and the call; it is a client of
      [SosalTree] and [SosalFph].  [RpcRegistry]: the registry as a map.
      [RemoteTables]: what both managers do for each kernel, as tables of
      their cases.  [RemoteManager]: the functions that run those tables, and
      the modules' entry points.  [RemoteProperties]: the theorems, and the
      instances of [LawfulKGM].
    - The connection of a remote core, omaprpc/omaprpc.c and the cores of
      dvp_rpc_omaprpc.c.  [Omaprpc]: opening, closing, a call, the restart of
      a core that was rebooted, as the driver under a manager, with the
      theorems.

    Definitions keep the names of the C functions.  A definition without a
    counterpart in C (a specification or a notion of a proof) is introduced
    by its comment as such.

    ** How C is rendered

    - An integer is a [Z]; [u8], [u32], [u64], [s32] wrap a result around to
      its type where the C code computes with that type.
    - A function that can reach undefined behaviour or an [assert] returns an
      [outcome]: [Done] with the results, [Undef], or [NoFuel].
    - State is passed explicitly: managers and load table as a record [DVP_t],
      image contents as a [memory], the heap as a memory with its live
      blocks.  A failed lookup in an array is [Undef].
    - The world outside is an argument: clock readings, what the system
      answers to an allocation, what a module exports, the order in which
      worker threads finish ([pool_runs_round] shows that the thread pool
      delivers such an order).
    - Callers of the lock and of the queue run concurrently: [lock_step] and
      [queue_step] interleave them at the points where the code takes or
      waits for a mutex or an event.  [pool_step] interleaves callers and
      workers of the CPU manager, a completed queue call at a time; [tp_step]
      does the same for the thread pool.
    - Linked structures live in a store from addresses to nodes; null, a
      dangling pointer or a tripped assertion is [Undef].
    - Floating-point expressions are evaluated in the Standard Library's
      [SpecFloat], at the precision of the C type.

    ** Fuel

    The only loops without a bound in the code are the retry loop of
    [DVP_KernelGraphBoss_Process] and the order loop of
    [DVP_KernelGraph_Process].  The first is given fuel: one round is enough for
    a section that fits the load table and whose managers are lawful
    ([process_runs_and_restores] holds for any positive fuel), and
    [overloaded_section_never_placed] and [process_empty_section_diverges]
    show sections for which no fuel is enough.  The second runs one order
    more than the graph has distinct ones, at most its number of sections
    plus one, which is the bound the definition uses.  The
    loops over linked lists get fuel too: [list_programs_implement_sequences]
    holds for any fuel above the number of nodes in the store, and the heap
    runs its lists with [fuel_of], one more than its nodes, as the hash table
    does with [fuel_for] and a tree list with the size of its store; a search
    of a tree gets [search_fuel], 32 levels, enough for any number of nodes
    the code can count.  All other recursions
    are structural or run over an explicit range of indices.  A remote manager
    that waits for a lock which nobody posts is [NoFuel] as well.  Restarts of
    a core's connection may call the driver again: [core_calls_return] shows
    that a depth of one is enough.  A request to a cache gets one round more
    than it has bytes; the blocks and steps of rows of a vendor case get two more
    than they are, and end by then.

    ** What the theorems show

    - Routing: a node is configured for the first usable manager in the order
      affinity, then priority; a section's nodes all get a manager that
      implements their kernel, and its load request is the sum of theirs.
    - Load accounting: a commit takes the whole request or nothing; at any
      time the table holds exactly the committed sections, within the limits.
    - Dispatch: verification and processing call every manager on exactly the
      maximal runs of its nodes, in order; processing restores the table.
    - Graphs: processing runs orders 0, 1, ... up to the first empty one, every
      section once, whatever order the workers of a round finish in.
    - Images: samples lie inside of their plane and do not overlap; allocation
      gives an image whose lines are mapped; copying, filling, comparing,
      serializing and converting move the bytes they say and no others.
    - The CPU manager: it runs the kernels of its nodes in order and marks each
      with its result; verification says which nodes pass; a verified copy
      runs; a section of copies processed through the boss copies them all;
      thresholding and the conversions of depth do what they say per pixel.
      Requests through its queues are run once each and answered to the
      caller that made them, and some step is always possible.  With a vendor
      library, a filter on a verified node is called once for each row of its
      output, on rows of the images; staged rows tile the output within their
      buffer; scratch memory is freed; a node is counted once.
    - The remote managers: what a call records for the caches and the driver
      is what the tables of its kernels say, node by node, and the lock is
      given back; every published kernel is prepared and returned with the
      same parameters; a stretch that was verified is run; both managers are
      lawful, so that the theorems about the boss hold with them.  The
      registry of shared memory acts as a map from disjoint ranges to handles.
      A core that was rebooted is opened again and told its initial message
      once, and a call of a core always returns.
    - Containers: programs of list operations act on the sequence of nodes;
      allocations and releases of the heap act on a set of disjoint, aligned
      live blocks; calls on a hash table act on a map, those on a tree list on
      a sorted set, those on a bit field on a pool of numbers; a histogram
      counts; a fast pointer hash finds what was set last.  A cache answers as
      its source would, for requests of whole lines and as long as it has a
      line left; what it does beyond that is shown as well.
    - The thread pool: whatever the interleaving, it ends, every item written
      is worked on exactly once, and the completion event means that all are;
      a round of a graph in it is the sections' workers in some order.
    - Memory: what was allocated can be freed, which restores the heap; what
      one process shares and another imports is the same memory, until both
      have released it.
    - Life cycles: what a successful initialisation of the runtime makes its
      teardown takes down, and nothing else.
    - Text: settings written as an INI file are read back, and a command line
      of options does what its parts mean.
    - Queues: concurrent readers and writers see one FIFO of messages.
    - Errors: the paths on which the code leaks, hangs, reads out of bounds
      or reports the wrong result are stated as theorems of their own.

    ** What is not modelled

    What runs on the remote cores (firmware that is not in the repository),
    the transports other than OMAPRPC, the OpenCL manager, tiler and ION
    memory, displays, the camera, the C++ clients, tests and tools, and the wrappers of
    operating-system calls.  Memory is sequentially consistent and a mutex
    section is one step.

    ** What comes next

    The ORB case of the CPU manager, which keeps static state of a C++
    library; the vendor libraries themselves, which are not in the repository;
    SOSAL's floating-point vectors (vector.c). *)

From stdpp Require Export base tactics numbers list option gmap relations.
From Stdlib Require Export ZArith Lia.

#[export] Set Default Goal Selector "!".
#[global] Open Scope Z_scope.

(** ** Outcomes of C code

    [Done a]: the code returned [a].  [Undef]: the C code has undefined
    behaviour or trips an [assert] (null or out-of-range access, division by
    zero).  [NoFuel]: the loop bound given to the model was not
    enough, or the code waits for something that nobody does. *)
Inductive outcome (A : Type) : Type :=
  | Done (a : A)
  | Undef
  | NoFuel.
Arguments Done {A} a.
Arguments Undef {A}.
Arguments NoFuel {A}.

#[export] Instance outcome_ret : MRet outcome := fun A a => Done a.
#[export] Instance outcome_bind : MBind outcome := fun A B f m =>
  match m with Done a => f a | Undef => Undef | NoFuel => NoFuel end.

Definition of_option {A} (o : option A) : outcome A :=
  match o with Some a => Done a | None => Undef end.

Lemma outcome_bind_assoc {A B C} (m : outcome A) (f : A -> outcome B) (g : B -> outcome C) :
  ((m ≫= f) ≫= g) = (m ≫= fun a => f a ≫= g).
Proof. by destruct m. Qed.

Lemma outcome_bind_Done {A B} (m : outcome A) (f : A -> outcome B) (b : B) :
  (m ≫= f) = Done b -> exists a, m = Done a /\ f a = Done b.
Proof. destruct m; simpl; [by eauto| done | done]. Qed.

Lemma Done_inj {A} (a b : A) : Done a = Done b -> a = b.
Proof. congruence. Qed.
Lemma of_option_Done {A} (o : option A) a : of_option o = Done a -> o = Some a.
Proof. by destruct o; intros [= ->]. Qed.

(** ** Machine integers

    A [w]-bit unsigned integer is a [Z] reduced modulo [2^w]; a 32-bit signed
    integer is the two's complement representative. *)
Definition u8 (z : Z) : Z := z mod 2 ^ 8.
Definition u16 (z : Z) : Z := z mod 2 ^ 16.
Definition u32 (z : Z) : Z := z mod 2 ^ 32.
Definition u64 (z : Z) : Z := z mod 2 ^ 64.
Definition s32 (z : Z) : Z :=
  let m := z mod 2 ^ 32 in if m <? 2 ^ 31 then m else m - 2 ^ 32.

Definition is_u8 (z : Z) : Prop := 0 <= z < 2 ^ 8.
Definition is_u32 (z : Z) : Prop := 0 <= z < 2 ^ 32.
Definition is_u64 (z : Z) : Prop := 0 <= z < 2 ^ 64.
Definition is_s32 (z : Z) : Prop := - 2 ^ 31 <= z < 2 ^ 31.

Declare Scope dvp_scope.
Delimit Scope dvp_scope with dvp.
Infix "⊞" := (fun a b => u32 (a + b)) (at level 50, left associativity) : dvp_scope.
Infix "⊟" := (fun a b => u32 (a - b)) (at level 50, left associativity) : dvp_scope.
Infix "⊠" := (fun a b => u32 (a * b)) (at level 40, left associativity) : dvp_scope.

Create HintDb dvp discriminated.

Lemma u32_range z : is_u32 (u32 z).
Proof. unfold is_u32, u32. apply Z.mod_pos_bound. lia. Qed.
Lemma u64_range z : is_u64 (u64 z).
Proof. unfold is_u64, u64. apply Z.mod_pos_bound. lia. Qed.
Lemma u8_range z : is_u8 (u8 z).
Proof. unfold is_u8, u8. apply Z.mod_pos_bound. lia. Qed.

Lemma u32_small z : is_u32 z -> u32 z = z.
Proof. apply Z.mod_small. Qed.
Lemma u64_small z : is_u64 z -> u64 z = z.
Proof. apply Z.mod_small. Qed.
Lemma u8_small z : is_u8 z -> u8 z = z.
Proof. apply Z.mod_small. Qed.

Lemma u32_idem z : u32 (u32 z) = u32 z.
Proof. apply u32_small, u32_range. Qed.
Lemma u32_add_l a b : u32 (u32 a + b) = u32 (a + b).
Proof. apply Zplus_mod_idemp_l. Qed.
Lemma u32_add_r a b : u32 (a + u32 b) = u32 (a + b).
Proof. apply Zplus_mod_idemp_r. Qed.
Lemma u32_sub_l a b : u32 (u32 a - b) = u32 (a - b).
Proof. apply Zminus_mod_idemp_l. Qed.
Lemma u32_mul_l a b : u32 (u32 a * b) = u32 (a * b).
Proof. apply Zmult_mod_idemp_l. Qed.
Lemma u32_mul_r a b : u32 (a * u32 b) = u32 (a * b).
Proof. apply Zmult_mod_idemp_r. Qed.

Lemma s32_range z : is_s32 (s32 z).
Proof.
  unfold is_s32, s32. pose proof (Z.mod_pos_bound z (2 ^ 32)).
  destruct (Z.ltb_spec (z mod 2 ^ 32) (2 ^ 31)); lia.
Qed.
Lemma s32_small z : is_s32 z -> s32 z = z.
Proof.
  unfold is_s32, s32. intros H. destruct (Z.lt_ge_cases z 0).
  - rewrite <- (Z_mod_plus_full z 1), Z.mod_small by lia.
    destruct (Z.ltb_spec (z + 1 * 2 ^ 32) (2 ^ 31)); lia.
  - rewrite Z.mod_small by lia. destruct (Z.ltb_spec z (2 ^ 31)); lia.
Qed.
(** [s32] only depends on the residue, so sums may be normalised late. *)
Lemma s32_congr a b : a mod 2 ^ 32 = b mod 2 ^ 32 -> s32 a = s32 b.
Proof. unfold s32. by intros ->. Qed.
Lemma s32_mod z : s32 z mod 2 ^ 32 = z mod 2 ^ 32.
Proof.
  unfold s32. destruct (Z.ltb_spec (z mod 2 ^ 32) (2 ^ 31)).
  - by rewrite Zmod_mod.
  - rewrite <- (Z_mod_plus_full _ 1), Z.mul_1_l, Z.sub_add. by rewrite Zmod_mod.
Qed.
Lemma s32_add_sub a b : is_s32 a -> s32 (s32 (a + b) - b) = a.
Proof.
  intros Ha. rewrite <- (s32_small a) at 2 by done. apply s32_congr.
  rewrite <- Zminus_mod_idemp_l, s32_mod, Zminus_mod_idemp_l. f_equal. lia.
Qed.

#[export] Hint Resolve u32_range u64_range u8_range s32_range : dvp.
Create Rewrite HintDb dvp_word.
#[export] Hint Rewrite u32_idem u32_add_l u32_add_r u32_sub_l u32_mul_l u32_mul_r : dvp_word.
#[global] Arguments u32 : simpl never.
#[global] Arguments u64 : simpl never.
#[global] Arguments s32 : simpl never.

(** ** C arrays

    An array is a list indexed by a machine integer; an access outside of it
    is undefined behaviour, so both operations are partial. *)
Definition aget {A} (l : list A) (i : Z) : option A :=
  if 0 <=? i then l !! Z.to_nat i else None.
Definition aset {A} (l : list A) (i : Z) (x : A) : option (list A) :=
  if (0 <=? i) && (i <? Z.of_nat (length l)) then Some (<[Z.to_nat i := x]> l) else None.

Lemma aget_nat {A} (l : list A) (n : nat) : aget l (Z.of_nat n) = l !! n.
Proof. unfold aget. rewrite (proj2 (Z.leb_le _ _)) by lia. by rewrite Nat2Z.id. Qed.
Lemma aget_Some {A} (l : list A) i x :
  aget l i = Some x -> 0 <= i < Z.of_nat (length l) /\ l !! Z.to_nat i = Some x.
Proof.
  unfold aget. destruct (Z.leb_spec 0 i); [|done]. intros Hx.
  split; [|done]. apply lookup_lt_Some in Hx. lia.
Qed.
Lemma aget_in_range {A} (l : list A) i :
  0 <= i < Z.of_nat (length l) -> exists x, aget l i = Some x.
Proof.
  intros H. unfold aget. rewrite (proj2 (Z.leb_le _ _)) by lia.
  apply lookup_lt_is_Some_2. lia.
Qed.
Lemma aset_nat {A} (l : list A) (n : nat) x :
  (n < length l)%nat -> aset l (Z.of_nat n) x = Some (<[n := x]> l).
Proof.
  intros H. unfold aset. rewrite (proj2 (Z.leb_le _ _)), (proj2 (Z.ltb_lt _ _)) by lia.
  simpl. by rewrite Nat2Z.id.
Qed.
Lemma aset_in_range {A} (l : list A) i x :
  0 <= i < Z.of_nat (length l) -> aset l i x = Some (<[Z.to_nat i := x]> l).
Proof. intros H. rewrite <- (Z2Nat.id i) at 1 by lia. apply aset_nat. lia. Qed.
Lemma aset_Some {A} (l l' : list A) i x :
  aset l i x = Some l' ->
  0 <= i < Z.of_nat (length l) /\ l' = <[Z.to_nat i := x]> l.
Proof.
  unfold aset. destruct (Z.leb_spec 0 i); [|done].
  destruct (Z.ltb_spec i (Z.of_nat (length l))); [|done]. by intros [= <-].
Qed.

(** A C loop over the elements of a sequence, with the loop-carried state. *)
Fixpoint ofold {S A} (f : S -> A -> outcome S) (l : list A) (s : S) : outcome S :=
  match l with
  | [] => Done s
  | a :: l' => s' ← f s a; ofold f l' s'
  end.

Lemma ofold_app {S A} (f : S -> A -> outcome S) l k s :
  ofold f (l ++ k) s = (ofold f l s ≫= ofold f k).
Proof. revert s. induction l as [|a l IH]; intros s; simpl; [done|]. by destruct (f s a); simpl. Qed.

(** Rule for loops that cannot fail: the invariant [I] is indexed by the
    elements already consumed. *)
Lemma ofold_total {S A} (f : S -> A -> outcome S) (I : list A -> S -> Prop) l :
  (forall pre a post s, l = pre ++ a :: post -> I pre s ->
     exists s', f s a = Done s' /\ I (pre ++ [a]) s') ->
  forall s, I [] s -> exists s', ofold f l s = Done s' /\ I l s'.
Proof.
  intros Hstep. enough (forall post pre s, l = pre ++ post -> I pre s ->
    exists s', ofold f post s = Done s' /\ I l s') as H.
  { intros s. by apply (H l []). }
  induction post as [|a post IH]; intros pre s -> HI.
  - exists s. by rewrite app_nil_r.
  - destruct (Hstep pre a post s) as (s' & Hs & HI'); [done..|].
    simpl. rewrite Hs. simpl. apply (IH (pre ++ [a])); [|done].
    by rewrite <- app_assoc.
Qed.

(** Sums of integer lists. *)
Definition Zsum (l : list Z) : Z := foldr Z.add 0 l.
Lemma Zsum_cons x l : Zsum (x :: l) = x + Zsum l.
Proof. done. Qed.
Lemma Zsum_app l k : Zsum (l ++ k) = Zsum l + Zsum k.
Proof. induction l; simpl; lia. Qed.
Lemma Zsum_nonneg l : Forall (fun x => 0 <= x) l -> 0 <= Zsum l.
Proof. induction 1; simpl; lia. Qed.

(** An update in the middle of a list, by its parts. *)
Lemma lookup_insert_split {A} (l : list A) (i : nat) x : l !! i = Some x ->
  exists pre post, l = pre ++ x :: post /\ forall y, <[i := y]> l = pre ++ y :: post.
Proof.
  intros Hi. exists (take i l), (drop (S i) l). split; [by rewrite take_drop_middle|].
  intros y. apply lookup_lt_Some in Hi. by apply insert_take_drop.
Qed.
Lemma Zsum_insert {A} (f : A -> Z) l (i : nat) x y : l !! i = Some x ->
  Zsum (f <$> <[i := y]> l) = Zsum (f <$> l) - f x + f y.
Proof.
  intros (pre & post & -> & ->)%lookup_insert_split. rewrite !fmap_app, !fmap_cons, !Zsum_app, !Zsum_cons. lia.
Qed.
Lemma existsb_insert_true {A} (f : A -> bool) l (i : nat) x y :
  l !! i = Some x -> f y = true -> existsb f (<[i := y]> l) = true.
Proof.
  intros (pre & post & _ & ->)%lookup_insert_split Hy. rewrite existsb_app. cbn [existsb]. rewrite Hy. apply orb_true_r.
Qed.
Lemma existsb_insert_same {A} (f : A -> bool) l (i : nat) x y :
  l !! i = Some x -> f y = f x -> existsb f (<[i := y]> l) = existsb f l.
Proof. intros (pre & post & -> & ->)%lookup_insert_split Hy. rewrite !existsb_app. cbn [existsb]. by rewrite Hy. Qed.
(** What an update does to the number of times [z] is there. *)
Lemma count_flat_map_insert {A B} (dec : forall a b : B, {a = b} + {a <> b}) (f : A -> list B) l (i : nat) x y z :
  l !! i = Some x ->
  (count_occ dec (flat_map f (<[i := y]> l)) z + count_occ dec (f x) z =
   count_occ dec (flat_map f l) z + count_occ dec (f y) z)%nat.
Proof.
  intros (pre & post & -> & ->)%lookup_insert_split. rewrite !flat_map_app. cbn [flat_map].
  rewrite !count_occ_app. lia.
Qed.

(** Counting with a stronger and a weaker test. *)
Lemma length_filter_mono {A} (P Q : A -> Prop) `{!forall x, Decision (P x), !forall x, Decision (Q x)}
    (l : list A) :
  (forall x, P x -> Q x) -> (length (filter P l) <= length (filter Q l))%nat.
Proof.
  intros HPQ. induction l as [|x l IH]; [done|]. rewrite !filter_cons.
  destruct (decide (P x)) as [HP|]; [|destruct (decide (Q x)); simpl; lia].
  rewrite decide_True by auto. simpl. lia.
Qed.
Lemma length_filter_strict {A} (P Q : A -> Prop) `{!forall x, Decision (P x), !forall x, Decision (Q x)}
    (l : list A) y :
  (forall x, P x -> Q x) -> y ∈ l -> Q y -> ~ P y ->
  (length (filter P l) < length (filter Q l))%nat.
Proof.
  intros HPQ Hy HQ HP. apply list_elem_of_split in Hy as (l1 & l2 & ->).
  rewrite !filter_app, !length_app, !filter_cons.
  rewrite decide_False, decide_True by done. simpl.
  pose proof (length_filter_mono P Q l1 HPQ). pose proof (length_filter_mono P Q l2 HPQ). lia.
Qed.

(** ** Proof automation *)

(** Case analysis on the integer comparisons the code tests. *)
Ltac zcase :=
  match goal with
  | |- context [?a <? ?b] => destruct (Z.ltb_spec a b)
  | |- context [?a <=? ?b] => destruct (Z.leb_spec a b)
  | |- context [?a =? ?b] => destruct (Z.eqb_spec a b)
  end; simpl; try lia.
Ltac zcases := repeat zcase.
Ltac zcase_in H :=
  match type of H with
  | context [?a <? ?b] => destruct (Z.ltb_spec a b)
  | context [?a <=? ?b] => destruct (Z.leb_spec a b)
  | context [?a =? ?b] => destruct (Z.eqb_spec a b)
  end; simpl in H; try lia.

(** Invert a successful run of a monadic computation. *)
Ltac inv_outcome :=
  repeat match goal with
  | H : Done _ = Done _ |- _ => injection H as H; subst
  | H : Undef = Done _ |- _ => discriminate H
  | H : NoFuel = Done _ |- _ => discriminate H
  | H : of_option _ = Done _ |- _ => apply of_option_Done in H
  | H : mret _ = Done _ |- _ => unfold mret, outcome_ret in H
  | H : _ ≫= _ = Done _ |- _ =>
      let a := fresh "r" in let E := fresh "E" in
      apply outcome_bind_Done in H as (a & E & H)
  | H : (let '(_, _) := ?p in _) = Done _ |- _ =>
      let E := fresh "E" in destruct p eqn:E
  end.
