(* ===== verification/DvpTypes.v ===== *)
(** * The data of the kernel-graph runtime (include/dvp/dvp_types.h)

    Enumerations keep their C values; a field of an integer type is a [Z]
    whose width is stated by the predicates of [Prelude]. *)
From S2P Require Import Prelude.

Definition DVP_FALSE : Z := 0.
Definition DVP_TRUE : Z := 1.

(** [DVP_Error_e] *)
Definition DVP_ERROR_INVALID_PARAMETER : Z := -8.
Definition DVP_ERROR_NOT_IMPLEMENTED : Z := -7.
Definition DVP_ERROR_FAILURE : Z := 0.
Definition DVP_SUCCESS : Z := 1.

(** [DVP_Core_e] *)
Inductive DVP_Core_e : Set :=
  | DVP_CORE_DSP | DVP_CORE_SIMCOP | DVP_CORE_MCU0 | DVP_CORE_MCU1
  | DVP_CORE_GPU | DVP_CORE_EVE | DVP_CORE_CPU.

#[export] Instance DVP_Core_e_eq_dec : EqDecision DVP_Core_e.
Proof. solve_decision. Defined.

Definition core_value (c : DVP_Core_e) : Z :=
  match c with
  | DVP_CORE_DSP => 0 | DVP_CORE_SIMCOP => 1 | DVP_CORE_MCU0 => 2
  | DVP_CORE_MCU1 => 3 | DVP_CORE_GPU => 4 | DVP_CORE_EVE => 5
  | DVP_CORE_CPU => 6
  end.
Definition DVP_CORE_MIN : Z := -1.
Definition DVP_CORE_MAX : Z := 7.

Lemma core_value_inj c d : core_value c = core_value d -> c = d.
Proof. by destruct c, d. Qed.
Lemma core_value_range c : DVP_CORE_MIN < core_value c < DVP_CORE_MAX.
Proof. unfold DVP_CORE_MIN, DVP_CORE_MAX. destruct c; simpl; lia. Qed.

(** [DVP_Perf_t] *)
Record DVP_Perf_t : Set := mkPerf {
  numTimes : Z; tmpTime : Z; minTime : Z; maxTime : Z;
  avgTime : Z; sumTime : Z; rate : Z }.

(** [DVP_KernelNodeHeader_t] and [DVP_KernelNode_t]; the parameter area is
    the kernel's own data and stays a byte string. *)
Record DVP_KernelNodeHeader_t : Set := mkHeader {
  kernel : Z;
  affinity : Z;
  error : Z;
  configured : Z;
  mgrIndex : Z;
  funcIndex : Z;
  perf : DVP_Perf_t }.
Record DVP_KernelNode_t : Set := mkNode {
  header : DVP_KernelNodeHeader_t;
  data : list Z }.

Definition upd_header (f : DVP_KernelNodeHeader_t -> DVP_KernelNodeHeader_t)
    (n : DVP_KernelNode_t) : DVP_KernelNode_t :=
  mkNode (f (header n)) (data n).
Definition set_affinity (v : Z) (h : DVP_KernelNodeHeader_t) :=
  mkHeader (kernel h) v (error h) (configured h) (mgrIndex h) (funcIndex h) (perf h).
Definition set_error (v : Z) (h : DVP_KernelNodeHeader_t) :=
  mkHeader (kernel h) (affinity h) v (configured h) (mgrIndex h) (funcIndex h) (perf h).
Definition set_configured (v : Z) (h : DVP_KernelNodeHeader_t) :=
  mkHeader (kernel h) (affinity h) (error h) v (mgrIndex h) (funcIndex h) (perf h).
Definition set_indices (m f : Z) (h : DVP_KernelNodeHeader_t) :=
  mkHeader (kernel h) (affinity h) (error h) (configured h) m f (perf h).
Definition set_perf (p : DVP_Perf_t) (h : DVP_KernelNodeHeader_t) :=
  mkHeader (kernel h) (affinity h) (error h) (configured h) (mgrIndex h) (funcIndex h) p.

(** [dvp_image_shift_t] *)
Record dvp_image_shift_t : Set := mkShift {
  centerShiftHorz : Z; centerShiftVert : Z; topBorder : Z;
  rightBorder : Z; bottomBorder : Z; leftBorder : Z }.

(** [DVP_CoreFunction_t]: the entry a manager publishes for a kernel. *)
Record DVP_CoreFunction_t : Type := mkCoreFunction {
  cf_kernel : Z;
  cf_load : Z;
  cf_shift : option dvp_image_shift_t;
  cf_shift_func : option (DVP_KernelNode_t -> dvp_image_shift_t -> dvp_image_shift_t) }.

(** [DVP_KernelGraphSection_t]: [pNodes] is the address of the node array,
    whose contents are kept in the memory the graph functions are given. *)
Record DVP_KernelGraphSection_t : Set := mkSection {
  pNodes : Z;
  numNodes : Z;
  sperf : DVP_Perf_t;
  coreLoad : list Z;
  skipSection : Z }.

Definition set_coreLoad (l : list Z) (s : DVP_KernelGraphSection_t) :=
  mkSection (pNodes s) (numNodes s) (sperf s) l (skipSection s).
Definition set_sperf (p : DVP_Perf_t) (s : DVP_KernelGraphSection_t) :=
  mkSection (pNodes s) (numNodes s) p (coreLoad s) (skipSection s).

(** [DVP_KernelGraph_t] *)
Record DVP_KernelGraph_t : Set := mkGraph {
  sections : list DVP_KernelGraphSection_t;
  order : list Z;
  totalperf : DVP_Perf_t;
  verified : Z }.
Definition numSections (g : DVP_KernelGraph_t) : Z := Z.of_nat (length (sections g)).
