(* ===== verification/Perf.v ===== *)
(** * Performance counters (source/dvp/dvp_kgraph/dvp_kgraph.c)

    The clock ([rtimer_now], [rtimer_freq]) is outside of the model: its
    readings are arguments.  [rtime_t] is a 64-bit unsigned integer. *)
From S2P Require Import Prelude DvpTypes.

Definition MAX_RTIMER_T : Z := 2 ^ 64 - 1.

(** [memset] to zero, then [rate] and [minTime]. *)
Definition DVP_Perf_Clear (freq : Z) : DVP_Perf_t :=
  mkPerf 0 0 MAX_RTIMER_T 0 0 0 freq.

Definition DVP_PerformanceClear (freq : Z) (nodes : list DVP_KernelNode_t)
    : list DVP_KernelNode_t :=
  (fun n => upd_header (set_perf (DVP_Perf_Clear freq)) n) <$> nodes.

Definition DVP_PerformanceStart (now : Z) (p : DVP_Perf_t) : DVP_Perf_t :=
  mkPerf (numTimes p) now (minTime p) (maxTime p) (avgTime p) (sumTime p) (rate p).

(** The average is undefined when the 32-bit counter wraps to zero. *)
Definition DVP_PerformanceStop (now : Z) (p : DVP_Perf_t) : outcome DVP_Perf_t :=
  let t := u64 (now - tmpTime p) in
  let n := u32 (numTimes p + 1) in
  let mn := if t <? minTime p then t else minTime p in
  let mx := if maxTime p <? t then t else maxTime p in
  let sum := u64 (sumTime p + t) in
  if n =? 0 then Undef else Done (mkPerf n t mn mx (sum / n) sum (rate p)).

(** One bracketed measurement, and a run of them. *)
Definition perf_sample (p : DVP_Perf_t) (se : Z * Z) : outcome DVP_Perf_t :=
  DVP_PerformanceStop se.2 (DVP_PerformanceStart se.1 p).
Definition perf_run (l : list (Z * Z)) (p : DVP_Perf_t) : outcome DVP_Perf_t :=
  ofold perf_sample l p.

(** ** Specification: the counters summarise the durations measured so far *)
Definition duration (se : Z * Z) : Z := se.2 - se.1.
Definition timed (se : Z * Z) : Prop := 0 <= se.1 <= se.2 /\ se.2 < 2 ^ 64.

Record perf_summary (freq : Z) (ds : list Z) (p : DVP_Perf_t) : Prop := {
  ps_count : numTimes p = Z.of_nat (length ds);
  ps_sum : sumTime p = Zsum ds;
  ps_min : minTime p = foldl Z.min MAX_RTIMER_T ds;
  ps_max : maxTime p = foldl Z.max 0 ds;
  ps_avg : avgTime p = Zsum ds / Z.of_nat (length ds);
  ps_rate : rate p = freq }.

Lemma Zsum_durations_prefix pre se post :
  Forall timed (pre ++ se :: post) ->
  0 <= Zsum (duration <$> pre) /\
  Zsum (duration <$> (pre ++ [se])) <= Zsum (duration <$> (pre ++ se :: post)).
Proof.
  intros Ht. assert (Forall (fun x => 0 <= x) (duration <$> (pre ++ se :: post))) as Hd.
  { apply Forall_fmap. eapply Forall_impl; [exact Ht|]. unfold timed, duration. simpl. lia. }
  replace (pre ++ se :: post) with ((pre ++ [se]) ++ post) in * by by rewrite <- app_assoc.
  rewrite (fmap_app _ _ post) in Hd |- *. rewrite Zsum_app.
  apply Forall_app in Hd as [Hpre Hpost].
  rewrite fmap_app in Hpre. apply Forall_app in Hpre as [Hpre _].
  split; [by apply Zsum_nonneg|]. pose proof (Zsum_nonneg _ Hpost). lia.
Qed.

Lemma perf_clear_summary freq : perf_summary freq [] (DVP_Perf_Clear freq).
Proof. by split. Qed.

(** One measurement extends the summary when nothing overflows. *)
Lemma perf_sample_summary freq ds p se :
  perf_summary freq ds p -> timed se -> 0 <= Zsum ds ->
  Zsum ds + duration se < 2 ^ 64 -> Z.of_nat (length ds) + 1 < 2 ^ 32 ->
  exists p', perf_sample p se = Done p' /\ perf_summary freq (ds ++ [duration se]) p'.
Proof.
  intros [Hc Hs Hmin Hmax Ha Hr] [Ht1 Ht2] Hd Hsum Hlen.
  unfold perf_sample, DVP_PerformanceStop, DVP_PerformanceStart. simpl.
  unfold duration in *. rewrite Hc, Hs, Hmin, Hmax, Hr.
  rewrite (u64_small (se.2 - se.1)) by (unfold is_u64; lia).
  rewrite u64_small by (unfold is_u64; lia). rewrite u32_small by (unfold is_u32; lia).
  rewrite (proj2 (Z.eqb_neq _ _)) by lia.
  eexists. split; [done|]. split; simpl;
    rewrite ?length_app, ?Zsum_app, ?foldl_app; simpl.
  - lia.
  - lia.
  - zcases.
  - zcases.
  - f_equal; lia.
  - done.
Qed.

(** Bounds of the folds used for the extrema. *)
Lemma foldl_min_init ds m : foldl Z.min m ds <= m.
Proof. revert m. induction ds as [|d ds IH]; intros m; simpl; [done|]. specialize (IH (m `min` d)). lia. Qed.
Lemma foldl_max_init ds m : m <= foldl Z.max m ds.
Proof. revert m. induction ds as [|d ds IH]; intros m; simpl; [done|]. specialize (IH (m `max` d)). lia. Qed.
Lemma foldl_min_le ds m x : x ∈ ds -> foldl Z.min m ds <= x.
Proof.
  intros H. revert m. induction H as [x ds|x d ds _ IH]; intros m; simpl; [|done].
  pose proof (foldl_min_init ds (m `min` x)). lia.
Qed.
Lemma foldl_max_ge ds m x : x ∈ ds -> x <= foldl Z.max m ds.
Proof.
  intros H. revert m. induction H as [x ds|x d ds _ IH]; intros m; simpl; [|done].
  pose proof (foldl_max_init ds (m `max` x)). lia.
Qed.
Lemma Zsum_bounds ds lo hi :
  (forall x, x ∈ ds -> lo <= x <= hi) ->
  lo * Z.of_nat (length ds) <= Zsum ds <= hi * Z.of_nat (length ds).
Proof.
  induction ds as [|d ds IH]; intros H; simpl; [lia|].
  assert (lo <= d <= hi) by (apply H; set_solver).
  assert (lo * Z.of_nat (length ds) <= Zsum ds <= hi * Z.of_nat (length ds)).
  { apply IH. intros x Hx. apply H. set_solver. }
  lia.
Qed.

Lemma perf_summary_order freq ds p :
  ds <> [] -> perf_summary freq ds p -> minTime p <= avgTime p <= maxTime p.
Proof.
  intros Hne [_ _ Hmin Hmax Havg _]. rewrite Hmin, Havg, Hmax.
  assert (0 < Z.of_nat (length ds)) by (destruct ds; simpl; [done|lia]).
  destruct (Zsum_bounds ds (foldl Z.min MAX_RTIMER_T ds) (foldl Z.max 0 ds)) as [Hl Hh].
  { intros x Hx. split; [by apply foldl_min_le|by apply foldl_max_ge]. }
  split; [apply Z.div_le_lower_bound; lia|].
  apply Z.div_le_upper_bound; lia.
Qed.

Lemma stop_counts now p :
  numTimes p + 1 < 2 ^ 32 -> 0 <= numTimes p ->
  exists p', DVP_PerformanceStop now p = Done p' /\ numTimes p' = numTimes p + 1.
Proof.
  intros H H0. unfold DVP_PerformanceStop. rewrite (u32_small (numTimes p + 1)) by (unfold is_u32; lia).
  rewrite (proj2 (Z.eqb_neq _ _)) by lia. by eexists.
Qed.

(** ** Properties *)

(** After any sequence of start/stop brackets that does not overflow
    the 64-bit sum or the 32-bit count, the counters hold the number, sum,
    minimum, maximum and truncated average of the measured durations, and
    the average lies between the extrema. *)
Theorem perf_run_summarises freq l :
  Forall timed l -> Zsum (duration <$> l) < 2 ^ 64 -> Z.of_nat (length l) < 2 ^ 32 ->
  exists p, perf_run l (DVP_Perf_Clear freq) = Done p /\
    perf_summary freq (duration <$> l) p /\
    (l <> [] -> minTime p <= avgTime p <= maxTime p).
Proof.
  intros Ht Hsum Hlen.
  destruct (ofold_total perf_sample (fun pre => perf_summary freq (duration <$> pre)) l)
    with (s := DVP_Perf_Clear freq) as (p & Hp & Hps).
  - intros pre se post p -> Hp. rewrite fmap_app.
    destruct (Zsum_durations_prefix pre se post Ht) as [? Hle].
    rewrite fmap_app, Zsum_app in Hle. simpl in Hle. rewrite length_app in Hlen. simpl in Hlen.
    apply perf_sample_summary; rewrite ?length_fmap; [done| |lia..].
    apply Forall_app in Ht as [_ Ht]. by apply Forall_cons in Ht as [? _].
  - apply perf_clear_summary.
  - exists p. split_and!; [done..|]. intros Hne.
    eapply perf_summary_order; [|done]. by destruct l.
Qed.

Lemma perf_run_summarises_witness :
  exists p, perf_run [(10, 14); (20, 30)] (DVP_Perf_Clear 1000) = Done p /\
    minTime p <= avgTime p <= maxTime p.
Proof.
  destruct (perf_run_summarises 1000 [(10, 14); (20, 30)]) as (p & H & _ & Ho).
  - repeat constructor; simpl; lia.
  - simpl. unfold duration. simpl. lia.
  - simpl. lia.
  - exists p. split; [done|]. by apply Ho.
Defined.
