(* ===== verification/GraphLock.v ===== *)
(** * The graph lock (source/dvp/dvp_kgraph/dvp_kgraph.c)

    [DVP_GraphLock_t] counts the graph calls in progress so that
    [DVP_KernelGraph_Deinit] can wait for them.  The functions are given as
    they run under the mutex, then as the steps of concurrent callers and
    one closer. *)
From S2P Require Import Prelude DvpTypes.

(** [m_wait] is the manual-reset event, as its [set] flag. *)
Record DVP_GraphLock_t : Set := mkGraphLock { m_enabled : bool; m_wait : bool; m_count : Z }.

Definition dvp_graphlock_init : DVP_GraphLock_t := mkGraphLock true true 0.

(** The part of [dvp_graph_lock] under the mutex; the value returned is read
    after the mutex is released. *)
Definition dvp_graph_lock_body (gl : DVP_GraphLock_t) : DVP_GraphLock_t :=
  if m_enabled gl then mkGraphLock true false (u32 (m_count gl + 1)) else gl.
(** Uninterrupted, as a single caller sees it. *)
Definition dvp_graph_lock (gl : DVP_GraphLock_t) : bool * DVP_GraphLock_t :=
  let gl' := dvp_graph_lock_body gl in (m_enabled gl', gl').
Definition dvp_graph_unlock (gl : DVP_GraphLock_t) : DVP_GraphLock_t :=
  if m_enabled gl then
    let c := u32 (m_count gl - 1) in
    mkGraphLock true (if c =? 0 then true else m_wait gl) c
  else gl.
(** The part of [dvp_graphlock_wait] after the event. *)
Definition dvp_graphlock_disable (gl : DVP_GraphLock_t) : DVP_GraphLock_t :=
  mkGraphLock false (m_wait gl) (m_count gl).
Definition dvp_graphlock_deinit (gl : DVP_GraphLock_t) : DVP_GraphLock_t :=
  mkGraphLock false (m_wait gl) 0.

(** ** Concurrent callers

    A caller runs the body of [dvp_graph_lock], then reads the result, then
    works, then unlocks.  The closer waits for the event, disables the lock
    and tears the system down. *)
Inductive caller : Set := Outside | Counted | Inside | Refused.
Inductive closer : Set := Open | Signalled | Closed | TornDown.

Definition holds (c : caller) : bool := match c with Counted | Inside => true | _ => false end.
Definition holders (cs : list caller) : Z := Zsum ((fun c => Z.b2z (holds c)) <$> cs).

Record lock_state : Set := mkLS { ls_lock : DVP_GraphLock_t; ls_callers : list caller; ls_closer : closer }.

Inductive lock_step : lock_state -> lock_state -> Prop :=
  | ls_enter gl cs cl (i : nat) :
      cs !! i = Some Outside -> cl <> TornDown ->
      lock_step (mkLS gl cs cl)
        (mkLS (dvp_graph_lock_body gl) (<[i := if m_enabled gl then Counted else Refused]> cs) cl)
  | ls_read gl cs cl (i : nat) :
      cs !! i = Some Counted ->
      lock_step (mkLS gl cs cl) (mkLS gl (<[i := if m_enabled gl then Inside else Refused]> cs) cl)
  | ls_leave gl cs cl (i : nat) :
      cs !! i = Some Inside ->
      lock_step (mkLS gl cs cl) (mkLS (dvp_graph_unlock gl) (<[i := Outside]> cs) cl)
  | ls_return gl cs cl (i : nat) :
      cs !! i = Some Refused -> lock_step (mkLS gl cs cl) (mkLS gl (<[i := Outside]> cs) cl)
  | ls_wait gl cs :
      m_wait gl = true -> lock_step (mkLS gl cs Open) (mkLS gl cs Signalled)
  | ls_disable gl cs :
      lock_step (mkLS gl cs Signalled) (mkLS (dvp_graphlock_disable gl) cs Closed)
  | ls_teardown gl cs :
      lock_step (mkLS gl cs Closed) (mkLS (dvp_graphlock_deinit gl) cs TornDown).

Definition start (n : nat) : lock_state := mkLS dvp_graphlock_init (replicate n Outside) Open.

(** ** The counting invariant *)

Definition counted_right (s : lock_state) : Prop :=
  Z.of_nat (length (ls_callers s)) < 2 ^ 32 /\
  (m_enabled (ls_lock s) = true ->
     m_count (ls_lock s) = holders (ls_callers s) /\
     (m_wait (ls_lock s) = true <-> holders (ls_callers s) = 0)) /\
  (m_enabled (ls_lock s) = true <-> ls_closer s = Open \/ ls_closer s = Signalled).

Lemma holders_insert cs (i : nat) c c' :
  cs !! i = Some c ->
  holders (<[i := c']> cs) = holders cs - Z.b2z (holds c) + Z.b2z (holds c').
Proof.
  revert i. unfold holders. induction cs as [|x cs IH]; intros [|i] Hi; simpl in *; [done..| |].
  - injection Hi as ->. lia.
  - specialize (IH i Hi). unfold fmap in IH. lia.
Qed.
Lemma holders_range cs : 0 <= holders cs <= Z.of_nat (length cs).
Proof.
  unfold holders. induction cs as [|x cs IH]; simpl; [lia|]. unfold fmap in IH.
  destruct (holds x); simpl; lia.
Qed.
Lemma holders_positive cs (i : nat) c : cs !! i = Some c -> holds c = true -> 0 < holders cs.
Proof.
  intros Hi Hh. pose proof (holders_insert cs i c Outside Hi) as H. rewrite Hh in H. simpl in H.
  pose proof (holders_range (<[i := Outside]> cs)). lia.
Qed.

Lemma start_counted n : Z.of_nat n < 2 ^ 32 -> counted_right (start n).
Proof.
  intros Hn. assert (holders (replicate n Outside) = 0) as H0.
  { clear Hn. unfold holders. induction n as [|n IH]; [done|]. simpl. unfold fmap in IH. lia. }
  unfold counted_right. simpl. rewrite length_replicate, H0. split_and!; [done|done|].
  split; [by left|done].
Qed.

Lemma lock_step_counted s s' : lock_step s s' -> counted_right s -> counted_right s'.
Proof.
  intros Hstep. destruct Hstep as [gl cs cl i Hi Hcl|gl cs cl i Hi|gl cs cl i Hi|gl cs cl i Hi|gl cs Hw|gl cs|gl cs];
    unfold counted_right; simpl; rewrite ?length_insert; intros (Hn & Hc & Hen);
    (split; [done|]); try (split; [|done]).
  - unfold dvp_graph_lock_body. pose proof (holders_range cs). destruct (m_enabled gl) eqn:He.
    + destruct (Hc eq_refl) as [Hcount Hwait].
      pose proof (holders_range (<[i:=Counted]> cs)) as Hr. rewrite length_insert in Hr.
      rewrite (holders_insert _ _ _ _ Hi) in *. simpl in *.
      split; [|done]. intros _. rewrite Hcount, u32_small by (unfold is_u32; lia).
      split; [lia|]. split; [done|lia].
    + rewrite He. split; [done|done].
  - intros He. rewrite He in *. destruct (Hc eq_refl) as [Hcount Hwait].
    rewrite (holders_insert _ _ _ _ Hi). simpl. by rewrite Z.sub_add.
  - unfold dvp_graph_unlock. pose proof (holders_range cs).
    pose proof (holders_positive cs i Inside Hi eq_refl). destruct (m_enabled gl) eqn:He.
    + destruct (Hc eq_refl) as [Hcount Hwait]. rewrite (holders_insert _ _ _ _ Hi). simpl.
      split; [|done]. intros _. rewrite Hcount, u32_small by (unfold is_u32; lia).
      split; [lia|]. destruct (Z.eqb_spec (holders cs - 1) 0).
      * split; [lia|done].
      * rewrite Hwait. lia.
    + rewrite He. split; [done|done].
  - intros He. destruct (Hc He) as [Hcount Hwait]. rewrite (holders_insert _ _ _ _ Hi). simpl.
    rewrite Hcount. replace (holders cs - 0 + 0) with (holders cs) by lia. done.
  - split; [done|]. rewrite Hen. intuition congruence.
  - split; [done|]. split; [done|]. intros [?|?]; done.
  - split; [done|]. split; [done|]. intros [?|?]; done.
Qed.

Lemma reachable_counted n s :
  Z.of_nat n < 2 ^ 32 -> rtc lock_step (start n) s -> counted_right s.
Proof.
  intros Hn Hr. apply start_counted in Hn. induction Hr as [|s1 s2 s3 Hs _ IH]; [done|].
  apply IH. by eapply lock_step_counted.
Qed.

(** ** Properties *)


(** Nothing holds new callers back between the closer's wait and its
    disabling of the lock: a state is reachable in which the system has been
    torn down while a graph call that was told it holds the lock is still
    running. *)
Theorem graph_lock_teardown_race :
  exists s, rtc lock_step (start 1) s /\ ls_closer s = TornDown /\ ls_callers s !! 0%nat = Some Inside.
Proof.
  eexists. split.
  - eapply rtc_l; [by apply ls_wait|].
    eapply rtc_l; [by apply (ls_enter _ _ _ 0)|].
    eapply rtc_l; [by apply (ls_read _ _ _ 0)|].
    eapply rtc_l; [apply ls_disable|].
    eapply rtc_l; [apply ls_teardown|]. apply rtc_refl.
  - by split.
Qed.

