(* ===== verification/KernelGraphManager.v ===== *)
(** * Kernel graph managers (dvp_kgraph/include/dvp_kgm.h, dvp_kgraph/dvp_kmdl.c)

    A manager is a dynamically loaded module.  What its entry points compute
    is the module's business: they are the fields of a record of operations
    over an abstract world [W] (the image memory the kernels work on), and
    [LawfulKGM] states what the runtime relies on. *)
From S2P Require Import Prelude DvpTypes.

Definition DVP_PRIORITY_NONE : Z := 0.
Definition DVP_PRIORITY_INC : Z := 1.
Definition DVP_PRIORITY_HIGHEST : Z := 1.
Definition DVP_PRIORITY_USER_BASE : Z := 1000.
Definition DVP_PRIORITY_LOWEST : Z := 0xFFFFFFFE.
Definition DVP_PRIORITY_MAX : Z := 0xFFFFFFFF.

Section Manager.
Context {W : Type}.

(** [manager w nodes start num sync] processes [num] nodes from [start]. *)
Record DVP_GraphManager_Calls_t : Type := mkCalls {
  init : bool;
  manager : W -> list DVP_KernelNode_t -> Z -> Z -> bool -> W * list DVP_KernelNode_t * Z;
  getKernels : option (list DVP_CoreFunction_t);
  getCore : DVP_Core_e;
  getLoad : Z;
  verify : W -> list DVP_KernelNode_t -> Z -> Z -> W * list DVP_KernelNode_t * Z }.

(** [calls = None]: the table holds no callable pointers (never loaded,
    poisoned with [0xFE] after a failed load, or zeroed by an unload).
    [kernels] is the published array; its length is [numSupportedKernels]. *)
Record DVP_GraphManager_t : Type := mkManager {
  enabled : bool;
  handle : Z;
  calls : option DVP_GraphManager_Calls_t;
  kernels : option (list DVP_CoreFunction_t);
  priority : Z }.

Definition numSupportedKernels (m : DVP_GraphManager_t) : Z :=
  Z.of_nat (length (default [] (kernels m))).

(** The symbols a module exports, as [module_symbol] finds them. *)
Record module_symbols : Type := mkSymbols {
  sym_init : option bool;
  sym_manager : option (W -> list DVP_KernelNode_t -> Z -> Z -> bool -> W * list DVP_KernelNode_t * Z);
  sym_getKernels : option (option (list DVP_CoreFunction_t));
  sym_getLocal : option unit;
  sym_getRemote : option unit;
  sym_getCore : option DVP_Core_e;
  sym_getLoad : option Z;
  sym_deinit : option unit;
  sym_restart : option unit;
  sym_verify : option (W -> list DVP_KernelNode_t -> Z -> Z -> W * list DVP_KernelNode_t * Z) }.

(** [loaded] is what [module_load(pManager->dlname)] gives: the handle and
    the symbols behind it. *)
Definition DVP_KernelGraphManagerLoad (loaded : option (Z * module_symbols))
    (pManager : DVP_GraphManager_t) : Z * DVP_GraphManager_t :=
  match loaded with
  | None => (0, mkManager (enabled pManager) 0 (calls pManager) (kernels pManager) (priority pManager))
  | Some (hdl, s) =>
      match sym_init s, sym_manager s, sym_verify s, sym_getKernels s, sym_getLocal s,
            sym_getRemote s, sym_getCore s, sym_getLoad s, sym_deinit s with
      | Some i, Some mg, Some v, Some ks, Some _, Some _, Some c, Some l, Some _ =>
          (1, mkManager (enabled pManager) hdl (Some (mkCalls i mg ks c l v))
                (kernels pManager) (priority pManager))
      | _, _, _, _, _, _, _, _, _ =>
          (0, mkManager (enabled pManager) 0 None (kernels pManager) (priority pManager))
      end
  end.

Definition DVP_KernelGraphManagerUnload (pManager : DVP_GraphManager_t)
    : Z * DVP_GraphManager_t :=
  if handle pManager =? 0 then (1, pManager)
  else (1, mkManager false 0 None None (priority pManager)).

(** ** What the runtime relies on

    Processing and verification return a count of nodes in range and touch
    only the headers of the nodes they were given; the routing fields stay as
    they are. *)
Definition same_routing (n n' : DVP_KernelNode_t) : Prop :=
  kernel (header n) = kernel (header n') /\
  mgrIndex (header n) = mgrIndex (header n') /\
  funcIndex (header n) = funcIndex (header n').

Definition touches_only (start num : Z) (ns ns' : list DVP_KernelNode_t) : Prop :=
  Forall2 same_routing ns ns' /\
  forall i : nat, ~ (start <= Z.of_nat i < start + num) -> header <$> ns' !! i = header <$> ns !! i.

Class LawfulKGM (c : DVP_GraphManager_Calls_t) : Prop := {
  kgm_manager_range w ns st num sync w' ns' k :
    0 <= num -> manager c w ns st num sync = (w', ns', k) ->
    0 <= k <= num /\ touches_only st num ns ns';
  kgm_verify_range w ns st num w' ns' k :
    0 <= num -> verify c w ns st num = (w', ns', k) ->
    0 <= k <= num /\ touches_only st num ns ns' }.

#[export] Instance same_routing_refl : Reflexive same_routing.
Proof. by intros n. Qed.
#[export] Instance same_routing_trans : Transitive same_routing.
Proof. intros a b c (? & ? & ?) (? & ? & ?). unfold same_routing. split_and!; congruence. Qed.

Lemma routing_length ns ns' : Forall2 same_routing ns ns' -> length ns' = length ns.
Proof. intros H. symmetry. by eapply Forall2_length. Qed.
Lemma routing_mgr ns ns' :
  Forall2 same_routing ns ns' ->
  (fun n => mgrIndex (header n)) <$> ns' = (fun n => mgrIndex (header n)) <$> ns.
Proof. induction 1 as [|n n' ns ns' (_ & H & _) _ IH]; [done|]. by rewrite !fmap_cons, H, IH. Qed.

End Manager.
Arguments DVP_GraphManager_Calls_t : clear implicits.
Arguments DVP_GraphManager_t : clear implicits.
Arguments module_symbols : clear implicits.
