(* ===== verification/KernelGraphBoss.v ===== *)
(** * The kernel graph boss (source/dvp/dvp_kgraph/dvp_kgb.c)

    Manager selection, node configuration, the shared load table, and the
    verification and execution of a section.  The configuration modelled is
    the Linux PC build: [DVP_USE_LOAD_TABLE] and [DVP_OPTIMIZED_GRAPHS] are
    defined, [DVP_CONTINUE_ON_ERRORS] is not. *)
From S2P Require Import Prelude DvpTypes Perf KernelGraphManager.

(** ** Data (dvp_kgb.h) *)

Record DVP_Core_Load_t : Set := mkCoreLoad { maximumLoad : Z; currentLoad : Z }.
Record DVP_Load_t : Set := mkLoad { initialized : bool; cores : list DVP_Core_Load_t }.

Record DVP_t {W : Type} : Type := mkDVP {
  managers : list (DVP_GraphManager_t W);
  loads : DVP_Load_t }.
Arguments DVP_t : clear implicits.
Arguments mkDVP {W} managers loads.

Section Boss.
Context {W : Type}.
Implicit Types (dvp : DVP_t W) (w : W).

Definition numMgrs dvp : Z := Z.of_nat (length (managers dvp)).
Definition set_loads (l : DVP_Load_t) dvp : DVP_t W := mkDVP (managers dvp) l.

(** ** Manager selection *)

(** The scan of [DVP_GetNextManagerIndex] from index [i], with the best
    index and priority so far. *)
Fixpoint next_manager_loop (ms : list (DVP_GraphManager_t W)) (i prio : Z)
    (bestIdx bestPri : Z) : Z * Z :=
  match ms with
  | [] => (bestIdx, bestPri)
  | m :: ms' =>
      if enabled m && (priority m <=? bestPri) && (prio <? priority m)
      then next_manager_loop ms' (i + 1) prio i (priority m)
      else next_manager_loop ms' (i + 1) prio bestIdx bestPri
  end.

(** Result and the value stored through [pIndex], if any. *)
Definition DVP_GetNextManagerIndex dvp (prio : Z) : Z * option Z :=
  let '(idx, pri) := next_manager_loop (managers dvp) 0 prio 0 DVP_PRIORITY_MAX in
  if pri =? DVP_PRIORITY_MAX then (0, None) else (pri, Some idx).

Fixpoint find_kernel (ks : list DVP_CoreFunction_t) (k i : Z) : option Z :=
  match ks with
  | [] => None
  | f :: ks' => if cf_kernel f =? k then Some i else find_kernel ks' k (i + 1)
  end.

(** [Some i]: [DVP_TRUE] with [*pIndex = i]. *)
Definition DVP_GetManagerKernelIndex (m : DVP_GraphManager_t W) (k : Z) : option Z :=
  if negb (enabled m) || (handle m =? 0) then None
  else match kernels m with None => None | Some ks => find_kernel ks k 0 end.

Definition get_core (m : DVP_GraphManager_t W) : outcome DVP_Core_e :=
  c ← of_option (calls m); Done (getCore c).

(** ** Node configuration *)

(** The affinity scan: the first manager of the core that has the kernel.
    The core is asked of every manager, loaded or not. *)
Fixpoint affinity_loop (ms : list (DVP_GraphManager_t W)) (m aff k : Z)
    : outcome (option (Z * Z)) :=
  match ms with
  | [] => Done None
  | mg :: ms' =>
      c ← get_core mg;
      if core_value c =? aff then
        match DVP_GetManagerKernelIndex mg k with
        | Some f => Done (Some (m, f))
        | None => affinity_loop ms' (m + 1) aff k
        end
      else affinity_loop ms' (m + 1) aff k
  end.

(** The [do ... while (triedMgrs < numMgrs)] loop: the number of failed
    attempts and, after the [break], the indices found. *)
Fixpoint priority_loop (fuel : nat) dvp (k mgrPriority tried : Z)
    : outcome (Z * option (Z * Z)) :=
  match fuel with
  | O => NoFuel
  | S fuel' =>
      let '(p, oi) := DVP_GetNextManagerIndex dvp mgrPriority in
      found ← match oi with
              | None => Done None
              | Some m =>
                  mg ← of_option (aget (managers dvp) m);
                  Done (option_map (pair m) (DVP_GetManagerKernelIndex mg k))
              end;
      match found with
      | Some mf => Done (tried, Some mf)
      | None =>
          if tried + 1 <? numMgrs dvp then priority_loop fuel' dvp k p (tried + 1)
          else Done (tried + 1, None)
      end
  end.

(** [section->coreLoad[c] += managers[m].kernels[f].load] *)
Definition accumulate_load dvp (cl : list Z) (c m f : Z) : outcome (list Z) :=
  mg ← of_option (aget (managers dvp) m);
  fn ← of_option (aget (default [] (kernels mg)) f);
  old ← of_option (aget cl c);
  of_option (aset cl c (s32 (old + cf_load fn))).

(** One node: [true] when the node faulted. *)
Definition configure_node dvp (cl : list Z) (n : DVP_KernelNode_t)
    : outcome (bool * list Z * DVP_KernelNode_t) :=
  let k := kernel (header n) in
  let aff := affinity (header n) in
  byaff ← (if aff =? DVP_CORE_MIN then Done None else affinity_loop (managers dvp) 0 aff k);
  match byaff with
  | Some (m, f) =>
      cl' ← accumulate_load dvp cl aff m f;
      Done (false, cl', upd_header (fun h => set_configured DVP_TRUE (set_indices m f h)) n)
  | None =>
      let n := upd_header (set_affinity DVP_CORE_MIN) n in
      '(tried, found) ← priority_loop (S (length (managers dvp))) dvp k 0 0;
      if numMgrs dvp <=? tried
      then Done (true, cl, upd_header (set_error DVP_ERROR_NOT_IMPLEMENTED) n)
      else
        '(m, f) ← of_option found;
        mg ← of_option (aget (managers dvp) m);
        c ← get_core mg;
        cl' ← accumulate_load dvp cl (core_value c) m f;
        Done (false, cl', upd_header (fun h => set_configured DVP_TRUE (set_indices m f h)) n)
  end.

(** The node loop; it stops at the first fault. *)
Fixpoint configure_loop dvp (force : bool) (cl : list Z) (nodes : list DVP_KernelNode_t)
    : outcome (Z * list Z * list DVP_KernelNode_t) :=
  match nodes with
  | [] => Done (0, cl, [])
  | n :: ns =>
      if (configured (header n) =? DVP_FALSE) || force then
        '(fault, cl', n') ← configure_node dvp cl n;
        if fault : bool then Done (1, cl', n' :: ns)
        else
          '(faults, cl'', ns') ← configure_loop dvp force cl' ns;
          Done (faults, cl'', n' :: ns')
      else
        '(faults, cl'', ns') ← configure_loop dvp force cl ns;
        Done (faults, cl'', n :: ns')
  end.

(** Faults, the section with its new loads, and the nodes. *)
Definition DVP_ConfigureNodes dvp (section : DVP_KernelGraphSection_t)
    (nodes : list DVP_KernelNode_t) (force : bool)
    : outcome (Z * DVP_KernelGraphSection_t * list DVP_KernelNode_t) :=
  '(faults, cl, nodes') ← configure_loop dvp force (coreLoad section) nodes;
  Done (faults, set_coreLoad cl section, nodes').

(** ** The load table *)

(** [cores[c].currentLoad += d] *)
Definition bump (d : Z) (l : DVP_Core_Load_t) : DVP_Core_Load_t :=
  mkCoreLoad (maximumLoad l) (s32 (currentLoad l + d)).
Definition bump_core (cs : list DVP_Core_Load_t) (c d : Z) : outcome (list DVP_Core_Load_t) :=
  l ← of_option (aget cs c); of_option (aset cs c (bump d l)).

(** [for (; c > DVP_CORE_MIN; c--)], for the [n] cores below. *)
Fixpoint unwind_loads (n : nat) (cs : list DVP_Core_Load_t) (cl : list Z)
    : outcome (list DVP_Core_Load_t) :=
  match n with
  | O => Done cs
  | S c =>
      d ← of_option (aget cl (Z.of_nat c));
      cs' ← bump_core cs (Z.of_nat c) (- d);
      unwind_loads c cs' cl
  end.

(** The commit loop over the cores [c .. c + fuel - 1]. *)
Fixpoint commit_loads (fuel c : nat) (cs : list DVP_Core_Load_t) (cl : list Z)
    : outcome (bool * list DVP_Core_Load_t) :=
  match fuel with
  | O => Done (true, cs)
  | S fuel' =>
      d ← of_option (aget cl (Z.of_nat c));
      cs' ← bump_core cs (Z.of_nat c) d;
      l ← of_option (aget cs' (Z.of_nat c));
      if maximumLoad l <? currentLoad l
      then cs'' ← unwind_loads (S c) cs' cl; Done (false, cs'')
      else commit_loads fuel' (S c) cs' cl
  end.

Definition num_cores : nat := Z.to_nat DVP_CORE_MAX.

(** The two handles are never null at the call sites; the guard that is
    left is the empty section. *)
Definition DVP_CommitLoad dvp (section : DVP_KernelGraphSection_t) : outcome (bool * DVP_t W) :=
  if numNodes section =? 0 then Done (false, dvp)
  else
    '(ret, cs) ← commit_loads num_cores 0 (cores (loads dvp)) (coreLoad section);
    Done (ret, set_loads (mkLoad (initialized (loads dvp)) cs) dvp).

Fixpoint decommit_loads (fuel c : nat) (cs : list DVP_Core_Load_t) (cl : list Z)
    : outcome (list DVP_Core_Load_t) :=
  match fuel with
  | O => Done cs
  | S fuel' =>
      d ← of_option (aget cl (Z.of_nat c));
      cs' ← bump_core cs (Z.of_nat c) (- d);
      decommit_loads fuel' (S c) cs' cl
  end.

Definition DVP_DecommitLoad dvp (section : DVP_KernelGraphSection_t) : outcome (DVP_t W) :=
  cs ← decommit_loads num_cores 0 (cores (loads dvp)) (coreLoad section);
  Done (set_loads (mkLoad (initialized (loads dvp)) cs) dvp).

(** ** Verification and execution

    [nodes] is the array [section->pNodes[0 .. section->numNodes)]. *)

(** The inner [for (i = n+1; ...)] loop: how many of the following nodes are
    on the same manager. *)
Fixpoint count_run (target : Z) (rest : list DVP_KernelNode_t) : Z :=
  match rest with
  | [] => 0
  | x :: rest' => if mgrIndex (header x) =? target then 1 + count_run target rest' else 0
  end.

(** The manager of node [n] and the size of the subgraph that starts there. *)
Definition subgraph_at dvp (nodes : list DVP_KernelNode_t) (n : Z)
    : outcome (DVP_GraphManager_Calls_t W * Z) :=
  nd ← of_option (aget nodes n);
  mg ← of_option (aget (managers dvp) (mgrIndex (header nd)));
  c ← of_option (calls mg);
  Done (c, 1 + count_run (mgrIndex (header nd)) (drop (S (Z.to_nat n)) nodes)).

Fixpoint verify_loop (fuel : nat) dvp w (nodes : list DVP_KernelNode_t) (num n verified : Z)
    : outcome (W * list DVP_KernelNode_t * Z) :=
  if n <? num then
    match fuel with
    | O => NoFuel
    | S fuel' =>
        '(c, cnt) ← subgraph_at dvp nodes n;
        let '(w', nodes', k) := verify c w nodes n cnt in
        verify_loop fuel' dvp w' nodes' num (n + cnt) (u32 (verified + k))
    end
  else Done (w, nodes, verified).

(** Number verified, the section and the nodes. *)
Definition DVP_KernelGraphBoss_Verify dvp w (section : DVP_KernelGraphSection_t)
    (nodes : list DVP_KernelNode_t)
    : outcome (Z * W * DVP_KernelGraphSection_t * list DVP_KernelNode_t) :=
  '(faults, section', nodes') ← DVP_ConfigureNodes dvp section nodes false;
  if faults =? 0 then
    '(w', nodes'', v) ← verify_loop (length nodes) dvp w nodes' (numNodes section) 0 0;
    Done (v, w', section', nodes'')
  else Done (0, w, section', nodes').

Fixpoint execute_loop (fuel : nat) dvp w (nodes : list DVP_KernelNode_t) (num n processed : Z)
    (sync : bool) : outcome (W * list DVP_KernelNode_t * Z) :=
  if n <? num then
    match fuel with
    | O => NoFuel
    | S fuel' =>
        '(c, cnt) ← subgraph_at dvp nodes n;
        let '(w', nodes', k) := manager c w nodes n cnt sync in
        let processed := u32 (processed + k) in
        if negb (k =? cnt) then Done (w', nodes', processed)
        else execute_loop fuel' dvp w' nodes' num (n + cnt) processed sync
    end
  else Done (w, nodes, processed).

Record process_state : Type := mkPS {
  ps_dvp : DVP_t W; ps_w : W; ps_section : DVP_KernelGraphSection_t;
  ps_nodes : list DVP_KernelNode_t; ps_processed : Z; ps_faults : Z }.

(** The [do ... while (faults == 0)] loop: commit and execute, or
    reconfigure and try again. *)
Fixpoint process_loop (fuel : nat) (sync : bool) (s : process_state) : outcome process_state :=
  match fuel with
  | O => NoFuel
  | S fuel' =>
      let '(mkPS dvp w sec nodes processed faults) := s in
      '(committed, dvp1) ← (if faults =? 0 then DVP_CommitLoad dvp sec else Done (false, dvp));
      if committed : bool then
        '(w', nodes', processed') ←
          execute_loop (length nodes) dvp1 w nodes (numNodes sec) 0 processed sync;
        dvp2 ← DVP_DecommitLoad dvp1 sec;
        Done (mkPS dvp2 w' sec nodes' processed' faults)
      else
        '(faults', sec', nodes') ← DVP_ConfigureNodes dvp1 sec nodes true;
        let s' := mkPS dvp1 w sec' nodes' processed faults' in
        if faults' =? 0 then process_loop fuel' sync s' else Done s'
  end.

(** [t0] and [t1] are the clock readings around the loop. *)
Definition DVP_KernelGraphBoss_Process (fuel : nat) dvp w (section : DVP_KernelGraphSection_t)
    (nodes : list DVP_KernelNode_t) (sync : bool) (t0 t1 : Z) : outcome process_state :=
  let section := set_sperf (DVP_PerformanceStart t0 (sperf section)) section in
  s ← process_loop fuel sync (mkPS dvp w section nodes 0 0);
  p ← DVP_PerformanceStop t1 (sperf (ps_section s));
  Done (mkPS (ps_dvp s) (ps_w s) (set_sperf p (ps_section s)) (ps_nodes s)
             (ps_processed s) (ps_faults s)).

(** ** Load limits and queries *)

(** Run [step] for every enabled manager of core [c]. *)
Fixpoint for_core_managers {S} (ms : list (DVP_GraphManager_t W)) (c : Z)
    (step : DVP_GraphManager_t W -> DVP_GraphManager_Calls_t W -> S -> outcome S) (s : S) : outcome S :=
  match ms with
  | [] => Done s
  | m :: ms' =>
      if enabled m then
        cl ← of_option (calls m);
        if core_value (getCore cl) =? c
        then s' ← step m cl s; for_core_managers ms' c step s'
        else for_core_managers ms' c step s
      else for_core_managers ms' c step s
  end.

Definition DVP_SetMaxLoad dvp (core load : Z) : outcome (DVP_t W) :=
  for_core_managers (managers dvp) core (fun _ _ d =>
    if initialized (loads d) then
      l ← of_option (aget (cores (loads d)) core);
      cs ← of_option (aset (cores (loads d)) core (mkCoreLoad (s32 load) (currentLoad l)));
      Done (set_loads (mkLoad true cs) d)
    else Done d) dvp.

(** The table's limit and the hardware limit stored through [pCoreMax]. *)
Definition DVP_GetMaxLoad dvp (core coreMax : Z) : outcome (Z * Z) :=
  for_core_managers (managers dvp) core (fun _ cl '(load, _) =>
    if initialized (loads dvp) then
      l ← of_option (aget (cores (loads dvp)) core);
      Done (u32 (maximumLoad l), getLoad cl)
    else Done (load, getLoad cl)) (0, coreMax).

Definition DVP_KN_LIBRARY_START : Z := 0x40000000.
Definition DVP_KL_LIBRARY_MAX : Z := 0xFF.
Definition DVP_KN_LIBRARY_MASK (k : Z) : Z := Z.shiftr (Z.land 0x000FF000 k) 12.

(** [DVP_CoreInfo_t]; [ci_kernels] is the last table stored. *)
Record DVP_CoreInfo_t : Type := mkCoreInfo {
  ci_enabled : bool; ci_libraries : list bool;
  ci_kernels : option (list DVP_CoreFunction_t); ci_numKernels : Z }.

Fixpoint mark_libraries (ks : list DVP_CoreFunction_t) (libs : list bool) : outcome (list bool) :=
  match ks with
  | [] => Done libs
  | f :: ks' =>
      if DVP_KN_LIBRARY_START <? cf_kernel f
      then libs' ← of_option (aset libs (DVP_KN_LIBRARY_MASK (cf_kernel f)) true);
           mark_libraries ks' libs'
      else mark_libraries ks' libs
  end.

Definition DVP_QueryCore dvp (core : Z) (info : DVP_CoreInfo_t) : outcome DVP_CoreInfo_t :=
  '(found, i) ← for_core_managers (managers dvp) core (fun m _ '(_, i) =>
      libs ← mark_libraries (default [] (kernels m)) (ci_libraries i);
      Done (true, mkCoreInfo true libs (kernels m) (u32 (ci_numKernels i + numSupportedKernels m))))
    (false, info);
  if found : bool then Done i
  else Done (mkCoreInfo false (ci_libraries i) (ci_kernels i) (ci_numKernels i)).

Fixpoint query_kernel_loop (ms : list (DVP_GraphManager_t W)) (k core : Z) : outcome bool :=
  match ms with
  | [] => Done false
  | m :: ms' =>
      if enabled m then
        cl ← of_option (calls m);
        if (core_value (getCore cl) =? core)
           && existsb (fun f => cf_kernel f =? k) (default [] (kernels m))
        then Done true else query_kernel_loop ms' k core
      else query_kernel_loop ms' k core
  end.
Definition DVP_QueryCoreForKernel dvp (k core : Z) : outcome bool :=
  query_kernel_loop (managers dvp) k core.

End Boss.
