(* ===== verification/ManagerSelection.v ===== *)
(** * Which manager runs a node (facts about dvp_kgb.c)

    The reference is declarative: the _representative_ of a priority is the
    last enabled manager of the table that has it, and a node without
    affinity goes to the representative of the least priority that supports
    its kernel. *)
From S2P Require Import Prelude DvpTypes KernelGraphManager KernelGraphBoss.

Section Selection.
Context {W : Type}.
Implicit Types (dvp : DVP_t W) (m : DVP_GraphManager_t W) (ms : list (DVP_GraphManager_t W)).

(** A priority the selection can return. *)
Definition usable (p : Z) : Prop := 0 < p < DVP_PRIORITY_MAX.
Definition runs_at m (p : Z) : Prop := enabled m = true /\ priority m = p.
#[export] Instance runs_at_dec m p : Decision (runs_at m p) := _.

(** Index [i] holds the representative of priority [p]. *)
Definition representative ms (p : Z) (i : nat) : Prop :=
  (exists m, ms !! i = Some m /\ runs_at m p) /\
  forall j m, (i < j)%nat -> ms !! j = Some m -> ~ runs_at m p.

Definition supports ms (i : nat) (k f : Z) : Prop :=
  exists m, ms !! i = Some m /\ DVP_GetManagerKernelIndex m k = Some f.

(** The reference selection. *)
Definition selects ms (k : Z) (i : nat) (p f : Z) : Prop :=
  usable p /\ representative ms p i /\ supports ms i k f /\
  forall q j g, usable q -> representative ms q j -> supports ms j k g -> p <= q.
Definition unsupported ms (k : Z) : Prop :=
  forall q j g, usable q -> representative ms q j -> ~ supports ms j k g.

Lemma representative_cons m ms p j : representative ms p j -> representative (m :: ms) p (S j).
Proof.
  intros [(m' & Hj & Hr) Hlast]. split; [by exists m'|].
  intros [|j'] m'' ??; [lia|]. apply (Hlast j'); [lia|done].
Qed.
Lemma representative_inj ms p i j : representative ms p i -> representative ms p j -> i = j.
Proof.
  intros [(m & Hi & Hr) Hli] [(m' & Hj & Hr') Hlj].
  destruct (lt_eq_lt_dec i j) as [[?|?]|?]; [|done|].
  - by destruct (Hli j m').
  - by destruct (Hlj i m).
Qed.

(** ** The scan *)

Lemma next_manager_loop_spec ms : forall i prio bi bp bi' bp',
  next_manager_loop ms i prio bi bp = (bi', bp') ->
  bp' <= bp /\
  (forall m, m ∈ ms -> enabled m = true -> prio < priority m -> bp' <= priority m) /\
  ((bi' = bi /\ bp' = bp /\ forall m, m ∈ ms -> ~ (runs_at m bp /\ prio < bp)) \/
   (exists j, bi' = i + Z.of_nat j /\ prio < bp' /\ representative ms bp' j)).
Proof.
  induction ms as [|m ms IH]; simpl; intros i prio bi bp bi' bp'.
  { intros [= <- <-]. split_and!; [lia|set_solver|]. left. set_solver. }
  destruct (enabled m && (priority m <=? bp) && (prio <? priority m)) eqn:Etest.
  - apply andb_true_iff in Etest as [[He Hle%Z.leb_le]%andb_true_iff Hlt%Z.ltb_lt].
    intros (? & Hmin & Hcase)%IH. split_and!; [lia| |].
    + intros m' [->|?]%elem_of_cons ? ?; [lia|]. by apply Hmin.
    + right. destruct Hcase as [(-> & -> & Hno)|(j & -> & Hp & Hrep)].
      * exists 0%nat. split_and!; [lia|done|]. split; [by exists m|].
        intros [|j'] m'' ? Hj; [lia|]. intros Hr. apply (Hno m''); [|done].
        by eapply list_elem_of_lookup_2.
      * exists (S j). split_and!; [lia|done|by apply representative_cons].
  - assert (forall q, runs_at m q -> prio < q -> bp < q) as Hskip.
    { intros q [He <-] ?. rewrite He in Etest. repeat zcase_in Etest. }
    intros (? & Hmin & Hcase)%IH. split_and!; [done| |].
    + intros m' [->|?]%elem_of_cons ? ?; [|by apply Hmin].
      assert (bp < priority m) by (apply Hskip; [by split|done]). lia.
    + destruct Hcase as [(-> & -> & Hno)|(j & -> & Hp & Hrep)].
      * left. split_and!; [done..|]. intros m' [->|?]%elem_of_cons [Hr ?]; [|by eapply Hno].
        specialize (Hskip bp Hr). lia.
      * right. exists (S j). split_and!; [lia|done|by apply representative_cons].
Qed.

(** [DVP_GetNextManagerIndex] returns the least usable priority above
    [prio] and its representative, or nothing when there is none. *)
Lemma get_next_spec dvp prio p oi :
  0 <= prio -> DVP_GetNextManagerIndex dvp prio = (p, oi) ->
  match oi with
  | Some i => exists j, i = Z.of_nat j /\ prio < p /\ usable p /\
      representative (managers dvp) p j /\
      forall q j', prio < q -> representative (managers dvp) q j' -> p <= q
  | None => p = 0 /\
      forall q j', prio < q -> usable q -> ~ representative (managers dvp) q j'
  end.
Proof.
  intros Hprio. unfold DVP_GetNextManagerIndex.
  destruct (next_manager_loop _ _ _ _ _) as [bi bp] eqn:E.
  apply next_manager_loop_spec in E as (Hle & Hmin & Hcase).
  assert (forall q j, prio < q -> representative (managers dvp) q j -> bp <= q) as Hmin'.
  { intros q j ? [(m & Hj & He & <-) _]. apply Hmin; [|done..]. by eapply list_elem_of_lookup_2. }
  destruct (Z.eqb_spec bp DVP_PRIORITY_MAX) as [->|Hne]; intros [= <- <-].
  - split; [done|]. intros q j ? [_ ?] Hq%Hmin'; lia.
  - destruct Hcase as [(? & ? & _)|(j & -> & ? & ?)]; [done|].
    exists j. unfold usable. split_and!; [lia..|done|done].
Qed.

Lemma find_kernel_Some ks k i f :
  find_kernel ks k i = Some f ->
  exists n fn, f = i + Z.of_nat n /\ ks !! n = Some fn /\ cf_kernel fn = k.
Proof.
  revert i. induction ks as [|g ks IH]; simpl; intros i; [done|].
  destruct (Z.eqb_spec (cf_kernel g) k) as [?|_].
  - intros [= <-]. exists 0%nat, g. split_and!; [lia|done..].
  - intros (n & fn & -> & ? & ?)%IH. exists (S n), fn. split_and!; [lia|done..].
Qed.
Lemma find_kernel_None ks k i :
  find_kernel ks k i = None -> forall fn, fn ∈ ks -> cf_kernel fn <> k.
Proof.
  revert i. induction ks as [|g ks IH]; simpl; intros i.
  - intros _ fn H. by apply elem_of_nil in H.
  - destruct (Z.eqb_spec (cf_kernel g) k) as [|Hne]; [done|]. intros H fn Hin.
    apply elem_of_cons in Hin as [->|Hin]; [done|]. by apply (IH _ H).
Qed.
Lemma kernel_index_Some m k f :
  DVP_GetManagerKernelIndex m k = Some f ->
  enabled m = true /\ handle m <> 0 /\
  exists n fn, f = Z.of_nat n /\ default [] (kernels m) !! n = Some fn /\ cf_kernel fn = k.
Proof.
  unfold DVP_GetManagerKernelIndex. destruct (enabled m); simpl; [|done].
  destruct (Z.eqb_spec (handle m) 0) as [_|Hh]; [done|]. destruct (kernels m) as [ks|]; [|done].
  intros (n & fn & -> & ?)%find_kernel_Some. split_and!; [done..|]. by exists n, fn.
Qed.

(** ** The priority search *)

(** The managers the search may already have turned down below [p]. *)
Definition rank ms (p : Z) : nat :=
  length (filter (fun m => enabled m = true /\ 0 < priority m <= p) ms).

Lemma rank_lt ms p q j : p < q -> 0 < q -> representative ms q j -> (rank ms p < rank ms q)%nat.
Proof.
  intros Hpq Hq [(m & Hj & He & Hm) _]. unfold rank.
  apply (length_filter_strict _ _ _ m); [|by eapply list_elem_of_lookup_2| |].
  - intros x [? ?]. split; [done|lia].
  - split; [done|lia].
  - intros [_ ?]. lia.
Qed.
Lemma rank_lt_length ms p q j :
  p < q -> representative ms q j -> (rank ms p < length ms)%nat.
Proof.
  intros Hpq [(m & Hj & He & Hm) _]. unfold rank.
  apply (length_filter_lt _ _ m); [by eapply list_elem_of_lookup_2|].
  intros [_ ?]. lia.
Qed.

(** One attempt: what the scan finds for the priority after [p]. *)
Definition attempt dvp (k p : Z) : outcome (Z * option (Z * Z)) :=
  let '(q, oi) := DVP_GetNextManagerIndex dvp p in
  match oi with
  | None => Done (q, None)
  | Some m => mg ← of_option (aget (managers dvp) m);
              Done (q, option_map (pair m) (DVP_GetManagerKernelIndex mg k))
  end.

Lemma priority_loop_S fuel dvp k p t :
  priority_loop (S fuel) dvp k p t =
  '(q, found) ← attempt dvp k p;
  match found with
  | Some mf => Done (t, Some mf)
  | None => if t + 1 <? numMgrs dvp then priority_loop fuel dvp k q (t + 1)
            else Done (t + 1, None)
  end.
Proof.
  unfold attempt. simpl. destruct (DVP_GetNextManagerIndex dvp p) as [q [m|]]; [|done].
  by destruct (aget (managers dvp) m).
Qed.

(** The attempt yields the supporting representative of the next priority,
    or finds that this representative does not support the kernel, or that
    no priority is left and the search restarts. *)
Lemma attempt_spec dvp k p :
  0 <= p -> exists q found, attempt dvp k p = Done (q, found) /\
  match found with
  | Some mf => exists j f, mf = (Z.of_nat j, f) /\ p < q /\ usable q /\
      representative (managers dvp) q j /\ supports (managers dvp) j k f /\
      forall r j', p < r -> representative (managers dvp) r j' -> q <= r
  | None =>
      (q = 0 /\ forall r j, p < r -> usable r -> ~ representative (managers dvp) r j) \/
      (exists j, p < q /\ usable q /\ representative (managers dvp) q j /\
        (forall f, ~ supports (managers dvp) j k f) /\
        forall r j', p < r -> representative (managers dvp) r j' -> q <= r)
  end.
Proof.
  intros Hp. unfold attempt. destruct (DVP_GetNextManagerIndex dvp p) as [q oi] eqn:E.
  apply get_next_spec in E; [|done]. destruct oi as [m|].
  - destruct E as (j & -> & Hlt & Hu & Hrep & Hmin).
    destruct Hrep as [(mg & Hj & Hr) Hlast]. rewrite aget_nat, Hj. simpl.
    eexists _, _. split; [done|].
    destruct (DVP_GetManagerKernelIndex mg k) as [f|] eqn:Ef; simpl.
    + exists j, f. split_and!; [done..|split; [by eexists|done]|by eexists|done].
    + right. exists j. split_and!; [done..|split; [by eexists|done]| |done].
      intros f (mg' & Hj' & Hf). by simplify_eq.
  - destruct E as [-> Hno]. eexists _, _. split; [done|]. by left.
Qed.

(** A kernel that no representative supports is tried [numMgrs] times. *)
Lemma priority_loop_unsupported fuel : forall dvp k p t,
  unsupported (managers dvp) k -> 0 <= p -> 0 <= t ->
  numMgrs dvp - t <= Z.of_nat fuel -> (0 < fuel)%nat ->
  exists t', priority_loop fuel dvp k p t = Done (t', None) /\ numMgrs dvp <= t'.
Proof.
  induction fuel as [|fuel IH]; intros dvp k p t Hun Hp Ht Hf H0; [lia|].
  rewrite priority_loop_S. destruct (attempt_spec dvp k p Hp) as (q & found & -> & Hs).
  simpl. destruct found as [mf|].
  - destruct Hs as (j & f & -> & _ & ? & ? & ? & _). by destruct (Hun q j f).
  - destruct (Z.ltb_spec (t + 1) (numMgrs dvp)); [|eexists; split; [done|lia]].
    apply IH; [done| |lia..]. unfold usable in *. destruct Hs as [[-> _]|(? & ? & _)]; lia.
Qed.

(** The kernel is found before the attempts run out. *)
Lemma priority_loop_selects fuel : forall dvp k p t j ps f,
  selects (managers dvp) k j ps f -> 0 <= p < ps -> 0 <= t ->
  t <= Z.of_nat (rank (managers dvp) p) ->
  numMgrs dvp - t <= Z.of_nat fuel ->
  exists t', priority_loop fuel dvp k p t = Done (t', Some (Z.of_nat j, f)) /\ t' < numMgrs dvp.
Proof.
  induction fuel as [|fuel IH]; intros dvp k p t j ps f Hsel Hp Ht Hr Hf;
    pose proof Hsel as (Hu & Hrep & Hsup & Hbest).
  { pose proof (rank_lt_length _ p _ _ (proj2 Hp) Hrep). unfold numMgrs in *. lia. }
  pose proof (rank_lt_length _ p _ _ (proj2 Hp) Hrep) as Hlen.
  rewrite priority_loop_S. destruct (attempt_spec dvp k p (proj1 Hp)) as (q & found & -> & Hs).
  simpl. destruct found as [mf|].
  - destruct Hs as (j' & f' & -> & ? & ? & Hrep' & Hsup' & Hmin).
    assert (q = ps) as ->.
    { pose proof (Hbest q j' f'). pose proof (Hmin ps j). intuition lia. }
    rewrite (representative_inj _ _ _ _ Hrep' Hrep) in *.
    destruct Hsup as (mg & Hj & Hk), Hsup' as (mg' & Hj' & Hk'). simplify_eq.
    exists t. split; [done|]. unfold numMgrs. lia.
  - destruct Hs as [[_ Hno]|(j' & Hq & Hqu & Hrep' & Hns & Hmin)].
    { destruct (Hno ps j); [lia|done..]. }
    assert (q < ps) as Hlt.
    { pose proof (Hmin ps j (proj2 Hp) Hrep). destruct (Z.eq_dec q ps) as [->|]; [|lia].
      rewrite (representative_inj _ _ _ _ Hrep' Hrep) in Hns. by destruct (Hns f). }
    pose proof (rank_lt _ p q j' Hq ltac:(unfold usable in *; lia) Hrep') as Hrk.
    pose proof (rank_lt_length _ q ps j Hlt Hrep). unfold numMgrs in *.
    rewrite (proj2 (Z.ltb_lt _ _)) by lia.
    apply (IH _ _ _ _ _ ps); [done|unfold usable in *; lia|lia..].
Qed.

End Selection.
