(* ===== verification/Configure.v ===== *)
(** * Node configuration routes every node (facts about dvp_kgb.c)

    [destination] is the declarative routing rule; [configure_node]
    implements it, and [DVP_ConfigureNodes] applies it to a section. *)
From S2P Require Import Prelude DvpTypes Perf KernelGraphManager KernelGraphBoss ManagerSelection.

Section Configure.
Context {W : Type}.
Implicit Types (dvp : DVP_t W) (m : DVP_GraphManager_t W) (ms : list (DVP_GraphManager_t W)).
Implicit Types (n : DVP_KernelNode_t).

(** ** The reference *)

Definition on_core ms (i : nat) (c : Z) : Prop :=
  exists m cl, ms !! i = Some m /\ calls m = Some cl /\ core_value (getCore cl) = c.

(** The first manager of the wanted core that has the kernel. *)
Definition by_affinity ms (aff k : Z) (i : nat) (f : Z) : Prop :=
  aff <> DVP_CORE_MIN /\ on_core ms i aff /\ supports ms i k f /\
  forall j g, (j < i)%nat -> on_core ms j aff -> ~ supports ms j k g.
Definition no_affinity ms (aff k : Z) : Prop :=
  aff = DVP_CORE_MIN \/ forall j g, on_core ms j aff -> ~ supports ms j k g.

(** [destination ms n i f c a]: node [n] runs on manager [i] as function
    [f], on core [c], and its affinity becomes [a]. *)
Inductive destination ms n : nat -> Z -> Z -> Z -> Prop :=
  | to_wanted_core i f :
      by_affinity ms (affinity (header n)) (kernel (header n)) i f ->
      destination ms n i f (affinity (header n)) (affinity (header n))
  | to_best_priority i f p c :
      no_affinity ms (affinity (header n)) (kernel (header n)) ->
      selects ms (kernel (header n)) i p f -> on_core ms i c ->
      destination ms n i f c DVP_CORE_MIN.
Definition homeless ms n : Prop :=
  no_affinity ms (affinity (header n)) (kernel (header n)) /\ unsupported ms (kernel (header n)).

(** Every manager of the table has been loaded. *)
Definition all_loaded ms : Prop := Forall (fun m => is_Some (calls m)) ms.

(** ** The reference selection always decides *)

Definition candidate ms (k : Z) (i : nat) (p f : Z) : Prop :=
  usable p /\ representative ms p i /\ supports ms i k f.

Lemma representative_dec ms p i m :
  ms !! i = Some m -> runs_at m p -> Decision (representative ms p i).
Proof.
  intros Hi Hr. destruct (decide (Forall (fun m => ~ runs_at m p) (drop (S i) ms))) as [Hf|Hf].
  - left. split; [by exists m|]. intros j m' Hij Hj. rewrite Forall_lookup in Hf.
    apply (Hf (j - S i)%nat). rewrite lookup_drop. by replace (S i + (j - S i))%nat with j by lia.
  - right. intros [_ Hl]. apply Hf, Forall_lookup. intros j m' Hj. rewrite lookup_drop in Hj.
    apply (Hl (S i + j)%nat m'); [lia|done].
Defined.

Lemma candidate_at ms k i :
  (exists p f, candidate ms k i p f) \/ (forall p f, ~ candidate ms k i p f).
Proof.
  destruct (ms !! i) as [m|] eqn:Hi.
  2: { right. intros p f (_ & _ & m & ? & _). by simplify_eq. }
  assert (forall p, representative ms p i -> runs_at m p) as Hp.
  { intros p [(m' & ? & ?) _]. by simplify_eq. }
  assert (Decision (usable (priority m))) as [Hu|Hu] by (unfold usable; apply _).
  2: { right. intros p f (? & [_ <-]%Hp & _). done. }
  destruct (DVP_GetManagerKernelIndex m k) as [f|] eqn:Hf.
  2: { right. intros p g (_ & _ & m' & ? & ?). by simplify_eq. }
  pose proof (kernel_index_Some _ _ _ Hf) as [He _].
  destruct (representative_dec ms (priority m) i m) as [Hr|Hr]; [done|by split| |].
  - left. exists (priority m), f. split_and!; [done..|by exists m].
  - right. intros p g (_ & H & _). pose proof (Hp _ H) as [_ <-]. done.
Qed.

Lemma candidate_best ms k b :
  (forall i p f, (i < b)%nat -> ~ candidate ms k i p f) \/
  exists i p f, candidate ms k i p f /\
    forall j q g, (j < b)%nat -> candidate ms k j q g -> p <= q.
Proof.
  induction b as [|b IH]; [left; lia|].
  destruct (candidate_at ms k b) as [(p & f & Hc)|Hno].
  - right. destruct IH as [Hno|(i & q & g & Hb & Hle)].
    + exists b, p, f. split; [done|]. intros j q g Hj Hcj.
      destruct (decide (j = b)) as [->|]; [|destruct (Hno j q g); [lia|done]].
      destruct Hc as (_ & [(m & Hm & _ & <-) _] & _), Hcj as (_ & [(m' & ? & _ & <-) _] & _).
      by simplify_eq.
    + destruct (Z.le_ge_cases p q).
      * exists b, p, f. split; [done|]. intros j r h Hj Hcj.
        destruct (decide (j = b)) as [->|].
        { destruct Hc as (_ & [(m & Hm & _ & <-) _] & _), Hcj as (_ & [(m' & ? & _ & <-) _] & _).
          by simplify_eq. }
        assert (q <= r) by (apply (Hle j r h); [lia|done]). lia.
      * exists i, q, g. split; [done|]. intros j r h Hj Hcj.
        destruct (decide (j = b)) as [->|]; [|apply (Hle j r h); [lia|done]].
        destruct Hc as (_ & [(m & Hm & _ & <-) _] & _), Hcj as (_ & [(m' & ? & _ & <-) _] & _).
        by simplify_eq.
  - destruct IH as [Hn|(i & q & g & Hb & Hle)].
    + left. intros i p f Hi. destruct (decide (i = b)) as [->|]; [done|]. apply Hn. lia.
    + right. exists i, q, g. split; [done|]. intros j r h Hj Hcj.
      destruct (decide (j = b)) as [->|]; [by destruct (Hno r h)|]. apply (Hle j r h); [lia|done].
Qed.

Lemma selection_decides ms k : unsupported ms k \/ exists i p f, selects ms k i p f.
Proof.
  assert (forall i p f, candidate ms k i p f -> (i < length ms)%nat) as Hlen.
  { intros i p f (_ & _ & m & ? & _). by eapply lookup_lt_Some. }
  destruct (candidate_best ms k (length ms)) as [Hno|(i & p & f & (? & ? & ?) & Hle)].
  - left. intros q j g ? ? ?. apply (Hno j q g); [|done]. by apply (Hlen j q g).
  - right. exists i, p, f. split_and!; [done..|]. intros q j g ? ? ?.
    apply (Hle j q g); [|done]. by apply (Hlen j q g).
Qed.

(** ** The affinity scan *)

Lemma affinity_loop_spec ms aff k : forall b,
  all_loaded ms ->
  match affinity_loop ms b aff k with
  | Done (Some (m, f)) => exists i, m = b + Z.of_nat i /\ on_core ms i aff /\ supports ms i k f /\
      forall j g, (j < i)%nat -> on_core ms j aff -> ~ supports ms j k g
  | Done None => forall j g, on_core ms j aff -> ~ supports ms j k g
  | _ => False
  end.
Proof.
  induction ms as [|mg ms IH]; intros b Hl; simpl.
  { intros j g (m & ? & ? & _). done. }
  apply Forall_cons in Hl as [[cl Hcl] Hl]. unfold get_core. rewrite Hcl. simpl.
  specialize (IH (b + 1) Hl).
  assert ((forall g, on_core (mg :: ms) 0 aff -> ~ supports (mg :: ms) 0 k g) ->
    match affinity_loop ms (b + 1) aff k with
    | Done (Some (m, f)) => exists i, m = b + Z.of_nat i /\ on_core (mg :: ms) i aff /\
        supports (mg :: ms) i k f /\
        forall j g, (j < i)%nat -> on_core (mg :: ms) j aff -> ~ supports (mg :: ms) j k g
    | Done None => forall j g, on_core (mg :: ms) j aff -> ~ supports (mg :: ms) j k g
    | _ => False
    end) as Hskip.
  { intros H0. revert IH. destruct (affinity_loop ms (b + 1) aff k) as [[[m f]|]| |];
      intros IH; [| |done..].
    - destruct IH as (i & -> & Hc & Hs & Hmin). exists (S i). split_and!; [lia|done..|].
      intros [|j] g ?; [apply H0|apply Hmin; lia].
    - intros [|j] g; [apply H0|apply IH]. }
  destruct (Z.eqb_spec (core_value (getCore cl)) aff) as [Hc|Hc].
  - destruct (DVP_GetManagerKernelIndex mg k) as [f|] eqn:Hf.
    + exists 0%nat. split_and!; [lia|by exists mg, cl|by exists mg|lia].
    + apply Hskip. intros g _ (m & [= <-] & ?). congruence.
  - apply Hskip. intros g (m & cl' & [= <-] & ? & ?). congruence.
Qed.

Lemma by_affinity_excl ms aff k i f : by_affinity ms aff k i f -> ~ no_affinity ms aff k.
Proof. intros (Hne & ? & ? & _) [?|Hno]; [done|]. by apply (Hno i f). Qed.

(** ** One node *)

Lemma accumulate_load_Done dvp cl c i f mg fn old :
  managers dvp !! i = Some mg -> aget (default [] (kernels mg)) f = Some fn ->
  aget cl c = Some old ->
  accumulate_load dvp cl c (Z.of_nat i) f = Done (<[Z.to_nat c := s32 (old + cf_load fn)]> cl).
Proof.
  intros Hi Hf Hc. unfold accumulate_load. rewrite aget_nat, Hi. simpl. rewrite Hf. simpl.
  rewrite Hc. simpl. apply aget_Some in Hc as [? _]. by rewrite aset_in_range.
Qed.

(** The entry a destination names. *)
Definition entry ms (i : nat) (f : Z) (fn : DVP_CoreFunction_t) : Prop :=
  exists m, ms !! i = Some m /\ aget (default [] (kernels m)) f = Some fn.

Lemma supports_entry ms i k f :
  supports ms i k f -> exists m fn, ms !! i = Some m /\ enabled m = true /\
    aget (default [] (kernels m)) f = Some fn /\ cf_kernel fn = k.
Proof.
  intros (m & Hi & Hk). apply kernel_index_Some in Hk as (He & _ & j & fn & -> & Hf & Hk).
  exists m, fn. by rewrite aget_nat.
Qed.

Definition route (i f a : Z) (h : DVP_KernelNodeHeader_t) : DVP_KernelNodeHeader_t :=
  set_configured DVP_TRUE (set_indices i f (set_affinity a h)).

(** What [configure_node] returns for a destination. *)
Definition routed_to dvp (cl : list Z) n (r : bool * list Z * DVP_KernelNode_t) : Prop :=
  exists i f c a fn old, destination (managers dvp) n i f c a /\
    entry (managers dvp) i f fn /\ cf_kernel fn = kernel (header n) /\
    aget cl c = Some old /\
    r = (false, <[Z.to_nat c := s32 (old + cf_load fn)]> cl, upd_header (route (Z.of_nat i) f a) n).
Definition turned_down dvp (cl : list Z) n (r : bool * list Z * DVP_KernelNode_t) : Prop :=
  homeless (managers dvp) n /\
  r = (true, cl, upd_header (fun h => set_error DVP_ERROR_NOT_IMPLEMENTED (set_affinity DVP_CORE_MIN h)) n).

Lemma loaded_on_core ms i m : all_loaded ms -> ms !! i = Some m -> exists cl,
  calls m = Some cl /\ on_core ms i (core_value (getCore cl)).
Proof.
  intros Hl Hi. pose proof (proj1 (Forall_lookup _ _) Hl i m Hi) as [cl Hcl].
  exists cl. split; [done|]. by exists m, cl.
Qed.

Lemma core_load_slot (cl : list Z) (c : DVP_Core_e) :
  length cl = num_cores -> exists old, aget cl (core_value c) = Some old.
Proof. intros Hl. apply aget_in_range. rewrite Hl. by destruct c. Qed.

Lemma priority_part dvp cl n :
  all_loaded (managers dvp) -> length cl = num_cores ->
  no_affinity (managers dvp) (affinity (header n)) (kernel (header n)) ->
  exists r,
    (let n := upd_header (set_affinity DVP_CORE_MIN) n in
     '(tried, found) ← priority_loop (S (length (managers dvp))) dvp (kernel (header n)) 0 0;
     if numMgrs dvp <=? tried
     then Done (true, cl, upd_header (set_error DVP_ERROR_NOT_IMPLEMENTED) n)
     else
       '(m, f) ← of_option found;
       mg ← of_option (aget (managers dvp) m);
       c ← get_core mg;
       cl' ← accumulate_load dvp cl (core_value c) m f;
       Done (false, cl', upd_header (fun h => set_configured DVP_TRUE (set_indices m f h)) n))
    = Done r /\ (routed_to dvp cl n r \/ turned_down dvp cl n r).
Proof.
  intros Hl Hcl Hna. cbv zeta. set (n' := upd_header _ n).
  replace (kernel (header n')) with (kernel (header n)) by done.
  destruct (selection_decides (managers dvp) (kernel (header n))) as [Hun|(i & p & f & Hsel)].
  - destruct (priority_loop_unsupported (S (length (managers dvp))) dvp _ 0 0 Hun)
      as (t & -> & Ht); [lia|lia|unfold numMgrs; lia|lia|]. simpl.
    rewrite (proj2 (Z.leb_le _ _)) by done. eexists. split; [done|]. by right.
  - destruct (priority_loop_selects (S (length (managers dvp))) dvp _ 0 0 i p f Hsel)
      as (t & -> & Ht); [destruct Hsel as [[? ?] _]; lia|lia|lia|unfold numMgrs; lia|]. simpl.
    rewrite (proj2 (Z.leb_gt _ _)) by done.
    destruct Hsel as (Hu & Hrep & Hsup & Hbest).
    destruct (supports_entry _ _ _ _ Hsup) as (m & fn & Hi & _ & Hf & Hk).
    destruct (loaded_on_core _ _ _ Hl Hi) as (calls & Hcalls & Hcore).
    destruct (core_load_slot cl (getCore calls) Hcl) as [old Hold].
    rewrite aget_nat, Hi. unfold get_core. simpl. rewrite Hcalls. simpl.
    rewrite (accumulate_load_Done dvp cl _ i f m fn old) by done. simpl.
    eexists. split; [done|]. left. exists i, f, (core_value (getCore calls)), DVP_CORE_MIN, fn, old.
    split_and!; [|by exists m|done..]. by eapply to_best_priority.
Qed.

Lemma configure_node_total dvp cl n :
  all_loaded (managers dvp) -> length cl = num_cores ->
  exists r, configure_node dvp cl n = Done r /\ (routed_to dvp cl n r \/ turned_down dvp cl n r).
Proof.
  intros Hl Hcl. unfold configure_node.
  destruct (Z.eqb_spec (affinity (header n)) DVP_CORE_MIN) as [Ha|Ha]; simpl.
  { apply priority_part; [done..|by left]. }
  pose proof (affinity_loop_spec (managers dvp) (affinity (header n)) (kernel (header n)) 0 Hl) as Haff.
  revert Haff. destruct (affinity_loop _ _ _ _) as [[[m f]|]| |]; simpl; intros Haff; [| |done..].
  - destruct Haff as (i & -> & Hc & Hs & Hmin). rewrite Z.add_0_l.
    destruct (supports_entry _ _ _ _ Hs) as (m & fn & Hi & _ & Hf & Hk).
    pose proof Hc as (m' & calls & ? & Hcalls & Hcore). simplify_eq.
    destruct (core_load_slot cl (getCore calls) Hcl) as [old Hold]. rewrite Hcore in Hold.
    rewrite (accumulate_load_Done dvp cl _ i f m fn old) by done. simpl.
    eexists. split; [done|]. left. eexists i, f, _, _, fn, old.
    split_and!; [apply to_wanted_core; done|by exists m|done..|].
    unfold route. by destruct n as [[] ?].
  - apply priority_part; [done..|by right].
Qed.

(** ** A section *)

(** A node the runtime can dispatch: its indices name an enabled manager
    and an entry for its kernel. *)
Definition settled ms n : Prop :=
  exists i m fn, mgrIndex (header n) = Z.of_nat i /\ ms !! i = Some m /\ enabled m = true /\
    aget (default [] (kernels m)) (funcIndex (header n)) = Some fn /\
    cf_kernel fn = kernel (header n).

(** The load a configured node puts on core [c]. *)
Definition node_load ms (c : Z) n : Z :=
  match aget ms (mgrIndex (header n)) with
  | Some m =>
      match calls m, aget (default [] (kernels m)) (funcIndex (header n)) with
      | Some cl, Some fn => if core_value (getCore cl) =? c then cf_load fn else 0
      | _, _ => 0
      end
  | None => 0
  end.

(** Configuration keeps what the user asked for. *)
Definition same_request n n' : Prop :=
  kernel (header n') = kernel (header n) /\ data n' = data n /\
  perf (header n') = perf (header n) /\
  (affinity (header n') = affinity (header n) \/ affinity (header n') = DVP_CORE_MIN).
#[export] Instance same_request_refl : Reflexive same_request.
Proof. intros n. unfold same_request. auto. Qed.

Lemma destination_on_core ms n i f c a :
  destination ms n i f c a -> on_core ms i c /\ supports ms i (kernel (header n)) f /\
  (a = affinity (header n) \/ a = DVP_CORE_MIN).
Proof.
  intros [i' f' (_ & ? & ? & _)|i' f' p c' _ (_ & _ & ? & _) ?]; split_and!; auto.
Qed.

Lemma routed_settled dvp cl n cl' n' :
  length cl = num_cores -> Forall is_s32 cl ->
  routed_to dvp cl n (false, cl', n') ->
  settled (managers dvp) n' /\ configured (header n') = DVP_TRUE /\ same_request n n' /\
  length cl' = num_cores /\ Forall is_s32 cl' /\
  forall (c : nat) old, cl !! c = Some old ->
    cl' !! c = Some (s32 (old + node_load (managers dvp) (Z.of_nat c) n')).
Proof.
  intros Hlen Hs (i & f & c & a & fn & old & Hd & (m & Hi & Hf) & Hk & Hold & [= -> ->]).
  apply destination_on_core in Hd as ((m1 & k1 & Hm1 & Hcalls & Hcore) & (m2 & Hm2 & Hsup) & Ha).
  assert (m1 = m) as -> by congruence. assert (m2 = m) as -> by congruence. clear Hm1 Hm2. subst c.
  pose proof (kernel_index_Some _ _ _ Hsup) as [He _].
  apply aget_Some in Hold as [Hrange Hold]. split_and!.
  - eexists i, _, fn. by split_and!.
  - done.
  - unfold same_request. simpl. by split_and!.
  - by rewrite length_insert.
  - apply Forall_insert; [done|apply s32_range].
  - intros c' old' Hc'. unfold node_load. simpl. rewrite aget_nat, Hi, Hcalls, Hf.
    destruct (Z.eqb_spec (core_value (getCore k1)) (Z.of_nat c')) as [Heq|Hne].
    + rewrite Heq, Nat2Z.id in Hold |- *. simplify_eq.
      apply list_lookup_insert_eq. by eapply lookup_lt_Some.
    + rewrite list_lookup_insert_ne by (pose proof (core_value_range (getCore k1)); lia).
      rewrite Hc', Z.add_0_r, s32_small; [done|]. by eapply Forall_lookup_1.
Qed.

Lemma s32_add_l a b : s32 (s32 a + b) = s32 (a + b).
Proof. apply s32_congr. rewrite <- Zplus_mod_idemp_l, s32_mod. apply Zplus_mod_idemp_l. Qed.

(** The nodes the loop has to place. *)
Definition pending (force : bool) n : Prop := configured (header n) = DVP_FALSE \/ force = true.

(** What a completed loop establishes for one node. *)
Definition placed ms (force : bool) n n' : Prop :=
  same_request n n' /\
  (pending force n -> settled ms n' /\ configured (header n') = DVP_TRUE) /\
  (~ pending force n -> n' = n).

Lemma pending_test force n :
  reflect (pending force n) ((configured (header n) =? DVP_FALSE) || force).
Proof.
  destruct (Z.eqb_spec (configured (header n)) DVP_FALSE); simpl.
  - constructor. by left.
  - destruct force; constructor; [by right|]. by intros [?|?].
Qed.

(** The section's loads after a loop that placed every node. *)
Definition loads_after ms (force : bool) (cl : list Z) (ns ns' : list DVP_KernelNode_t) (cl' : list Z) : Prop :=
  forall (c : nat) old, cl !! c = Some old -> exists added,
    cl' !! c = Some (s32 (old + added)) /\
    (force = true -> added = Zsum (node_load ms (Z.of_nat c) <$> ns')).

Lemma configure_loop_spec dvp force ns : forall cl,
  all_loaded (managers dvp) -> length cl = num_cores -> Forall is_s32 cl ->
  exists faults cl' ns', configure_loop dvp force cl ns = Done (faults, cl', ns') /\
    length cl' = num_cores /\ Forall is_s32 cl' /\ Forall2 same_request ns ns' /\
    ((faults = 0 /\ Forall2 (placed (managers dvp) force) ns ns' /\
        loads_after (managers dvp) force cl ns ns' cl' /\
        Forall (fun n => pending force n -> ~ homeless (managers dvp) n) ns) \/
     (faults = 1 /\ exists n, n ∈ ns /\ pending force n /\ homeless (managers dvp) n)).
Proof.
  induction ns as [|n ns IH]; intros cl Hl Hlen Hs; simpl.
  { eexists _, _, _. split; [done|]. split_and!; [done..|]. left. split_and!; [done..| |done].
    intros c old Hc. exists 0. rewrite Z.add_0_r, s32_small; [done|]. by eapply Forall_lookup_1. }
  destruct (pending_test force n) as [Hp|Hp].
  - destruct (configure_node_total dvp cl n Hl Hlen) as ([[fault cl1] n1] & -> & Hr). simpl.
    destruct Hr as [Hr|[Hh [= -> -> ->]]].
    + assert (fault = false) as ->. { by destruct Hr as (?&?&?&?&?&?&_&_&_&_&[=->]). }
      assert (~ homeless (managers dvp) n) as Hnh.
      { destruct Hr as (i&f&c&a&_&_&Hd&_). intros [Hna Hun].
        destruct Hd as [i f Hb|i f p c _ (? & ? & ? & _) _].
        - by apply by_affinity_excl in Hb.
        - by apply (Hun p i f). }
      destruct (routed_settled _ _ _ _ _ Hlen Hs Hr) as (? & ? & ? & Hlen1 & Hs1 & Hadd).
      destruct (IH cl1 Hl Hlen1 Hs1) as (faults & cl2 & ns2 & -> & ? & ? & ? & Hcase). simpl.
      eexists _, _, _. split; [done|]. split_and!; [done..|by constructor|].
      destruct Hcase as [(-> & ? & Hloads & ?)|(-> & n0 & ? & ? & ?)].
      * left. split_and!; [done| | |by constructor].
        { constructor; [|done]. by split_and!. }
        intros c old Hc. destruct (Hloads c _ (Hadd c old Hc)) as (added & Hc2 & Hforce).
        exists (node_load (managers dvp) (Z.of_nat c) n1 + added). rewrite Hc2, s32_add_l, Z.add_assoc.
        split; [done|]. intros Hf. rewrite (Hforce Hf). by rewrite fmap_cons.
      * right. split; [done|]. exists n0. split_and!; [by right|done..].
    + eexists _, _, _. split; [done|]. split_and!; [done..| |].
      * constructor; [|done]. unfold same_request. simpl. auto.
      * right. split; [done|]. exists n. split_and!; [by left|done..].
  - destruct (IH cl Hl Hlen Hs) as (faults & cl2 & ns2 & -> & ? & ? & ? & Hcase). simpl.
    eexists _, _, _. split; [done|]. split_and!; [done..|by constructor|].
    destruct Hcase as [(-> & ? & Hloads & ?)|(-> & n0 & ? & ? & ?)].
    + left. split_and!; [done| | |by constructor].
      * constructor; [|done]. unfold placed. by split_and!.
      * intros c old Hc. destruct (Hloads c old Hc) as (added & ? & ?). exists added.
        split; [done|]. intros ->. destruct Hp. by right.
    + right. split; [done|]. exists n0. split_and!; [by right|done..].
Qed.

End Configure.
