(* ===== verification/LoadTable.v ===== *)
(** * The shared load table is transactional (facts about dvp_kgb.c)

    [commit_ref] adds a section's loads to every core or leaves the table
    alone; [DVP_CommitLoad] implements it, and interleaved commits and
    decommits of any number of sections keep the table equal to the sum of
    the sections in flight. *)
From S2P Require Import Prelude DvpTypes Perf KernelGraphManager KernelGraphBoss.

(** ** The reference *)

Definition within (l : DVP_Core_Load_t) : bool := currentLoad l <=? maximumLoad l.
Definition add_loads (cl : list Z) (cs : list DVP_Core_Load_t) := zip_with bump cl cs.
Definition sub_loads (cl : list Z) (cs : list DVP_Core_Load_t) := zip_with (fun d => bump (- d)) cl cs.
Definition commit_ref (cl : list Z) (cs : list DVP_Core_Load_t) : bool * list DVP_Core_Load_t :=
  if forallb within (add_loads cl cs) then (true, add_loads cl cs) else (false, cs).

Definition entry_ok (l : DVP_Core_Load_t) : Prop := is_s32 (currentLoad l).

Lemma bump_undo d l : entry_ok l -> bump (- d) (bump d l) = l.
Proof.
  intros H. destruct l as [mx cur]. unfold bump. simpl. f_equal.
  rewrite Z.add_opp_r. by apply s32_add_sub.
Qed.
Lemma sub_add_loads cl : forall cs, length cl = length cs -> Forall entry_ok cs ->
  sub_loads cl (add_loads cl cs) = cs.
Proof.
  induction cl as [|d cl IH]; intros [|l cs] Hl Hok; [done..|].
  apply Forall_cons in Hok as [? ?]. injection Hl as Hl. unfold sub_loads, add_loads in *. simpl.
  by rewrite bump_undo, IH.
Qed.
Lemma add_loads_length cl cs : length cl = length cs -> length (add_loads cl cs) = length cs.
Proof. intros H. unfold add_loads. rewrite length_zip_with. lia. Qed.

(** ** The loops *)

Lemma aget_middle {A} (pre : list A) x post : aget (pre ++ x :: post) (Z.of_nat (length pre)) = Some x.
Proof. rewrite aget_nat. by apply list_lookup_middle. Qed.
Lemma bump_core_middle pre l post d :
  bump_core (pre ++ l :: post) (Z.of_nat (length pre)) d = Done (pre ++ bump d l :: post).
Proof.
  unfold bump_core. rewrite aget_middle. simpl.
  rewrite aset_nat by (rewrite length_app; simpl; lia). simpl.
  by rewrite <- (Nat.add_0_r (length pre)), insert_app_r.
Qed.

Lemma unwind_restores cpre : forall pre cpost post,
  length cpre = length pre -> Forall entry_ok pre ->
  unwind_loads (length pre) (add_loads cpre pre ++ post) (cpre ++ cpost) = Done (pre ++ post).
Proof.
  induction cpre as [|d cpre IH] using rev_ind; intros pre cpost post Hl Hok.
  { by destruct pre. }
  destruct pre as [|l pre _] using rev_ind.
  { rewrite length_app in Hl. simpl in Hl. lia. }
  rewrite !length_app in Hl. simpl in Hl. assert (length cpre = length pre) as Hl' by lia.
  apply Forall_app in Hok as [Hpre [Hok _]%Forall_cons].
  rewrite length_app. simpl. rewrite Nat.add_1_r. simpl.
  unfold add_loads. rewrite zip_with_app by done. simpl. rewrite <- !app_assoc. simpl.
  rewrite <- Hl' at 1. rewrite aget_middle. simpl.
  rewrite <- (add_loads_length cpre pre) at 1 by done. unfold add_loads.
  rewrite bump_core_middle, bump_undo by done. simpl. by apply (IH pre (d :: cpost) (l :: post)).
Qed.

Lemma commit_loads_ref cl : forall cs cpre pre,
  length cl = length cs -> length cpre = length pre -> Forall entry_ok (pre ++ cs) ->
  commit_loads (length cs) (length pre) (add_loads cpre pre ++ cs) (cpre ++ cl) =
  Done (if forallb within (add_loads cl cs) then (true, add_loads (cpre ++ cl) (pre ++ cs))
        else (false, pre ++ cs)).
Proof.
  induction cl as [|d cl IH]; intros [|l cs] cpre pre Hl Hp Hok; [|done|done|].
  { simpl. by rewrite !app_nil_r. }
  injection Hl as Hl. pose proof (add_loads_length cpre pre Hp) as Hap.
  cbn [length commit_loads]. rewrite <- Hp at 1. rewrite aget_middle. simpl.
  rewrite <- Hap at 1. rewrite bump_core_middle. simpl.
  rewrite <- Hap at 1. rewrite aget_middle. simpl.
  assert (forall cs', add_loads cpre pre ++ bump d l :: cs' = add_loads (cpre ++ [d]) (pre ++ [l]) ++ cs') as Hsnoc.
  { intros cs'. unfold add_loads. rewrite zip_with_app by done. by rewrite <- app_assoc. }
  assert (length (cpre ++ [d]) = length (pre ++ [l])) as Hp' by (rewrite !length_app; simpl; lia).
  assert (S (length pre) = length (pre ++ [l])) as Hlen by (rewrite length_app; simpl; lia).
  assert (cpre ++ d :: cl = (cpre ++ [d]) ++ cl) as Hcl by (by rewrite <- app_assoc).
  assert (pre ++ l :: cs = (pre ++ [l]) ++ cs) as Hcs by (by rewrite <- app_assoc).
  rewrite Hsnoc, Hcl. rewrite Hcs in Hok.
  change (within (bump d l)) with (s32 (currentLoad l + d) <=? maximumLoad l).
  destruct (Z.ltb_spec (maximumLoad l) (s32 (currentLoad l + d))) as [Hov|Hok'].
  - rewrite (proj2 (Z.leb_gt _ _)) by done. simpl.
    match goal with |- (?m ≫= _) = _ =>
      change m with (unwind_loads (S (length pre)) (add_loads (cpre ++ [d]) (pre ++ [l]) ++ cs)
                       ((cpre ++ [d]) ++ cl)) end.
    rewrite Hlen, unwind_restores; [|done|by apply Forall_app in Hok as [? _]]. simpl. by rewrite Hcs.
  - rewrite (proj2 (Z.leb_le _ _)) by done. simpl. rewrite Hlen, IH by done. by rewrite Hcs.
Qed.

Lemma decommit_loads_ref cl : forall cs cpre pre,
  length cl = length cs -> length cpre = length pre ->
  decommit_loads (length cs) (length pre) (pre ++ cs) (cpre ++ cl) = Done (pre ++ sub_loads cl cs).
Proof.
  induction cl as [|d cl IH]; intros [|l cs] cpre pre Hl Hp; [done..|].
  injection Hl as Hl. cbn [length decommit_loads].
  rewrite <- Hp at 1. rewrite aget_middle. simpl. rewrite bump_core_middle. simpl.
  replace (S (length pre)) with (length (pre ++ [bump (- d) l])) by (rewrite length_app; simpl; lia).
  replace (cpre ++ d :: cl) with ((cpre ++ [d]) ++ cl) by (by rewrite <- app_assoc).
  replace (pre ++ bump (- d) l :: cs) with ((pre ++ [bump (- d) l]) ++ cs) by (by rewrite <- app_assoc).
  rewrite IH by (rewrite ?length_app; simpl; lia). by rewrite <- app_assoc.
Qed.

(** ** The operations *)

Definition table_ok (t : DVP_Load_t) : Prop := length (cores t) = num_cores /\ Forall entry_ok (cores t).

Section Operations.
Context {W : Type}.
Implicit Types (dvp : DVP_t W) (sec : DVP_KernelGraphSection_t).

Definition with_cores dvp (cs : list DVP_Core_Load_t) : DVP_t W :=
  set_loads (mkLoad (initialized (loads dvp)) cs) dvp.

Lemma with_cores_same dvp : with_cores dvp (cores (loads dvp)) = dvp.
Proof. by destruct dvp as [? []]. Qed.

Lemma with_cores_ok dvp cl :
  table_ok (loads dvp) -> length cl = num_cores ->
  table_ok (loads (with_cores dvp (add_loads cl (cores (loads dvp))))).
Proof.
  intros [Hlen _] Hc. split; simpl; [by rewrite add_loads_length by congruence|].
  apply Forall_lookup. intros c l Hcl. apply lookup_zip_with_Some in Hcl as (d & l0 & -> & _ & _).
  apply s32_range.
Qed.
Lemma with_cores_twice dvp a b : with_cores (with_cores dvp a) b = with_cores dvp b.
Proof. done. Qed.

Lemma CommitLoad_ref dvp sec :
  table_ok (loads dvp) -> length (coreLoad sec) = num_cores -> numNodes sec <> 0 ->
  DVP_CommitLoad dvp sec =
  Done ((commit_ref (coreLoad sec) (cores (loads dvp))).1,
        with_cores dvp (commit_ref (coreLoad sec) (cores (loads dvp))).2).
Proof.
  intros [Hl Hok] Hc Hn. unfold DVP_CommitLoad. rewrite (proj2 (Z.eqb_neq _ _)) by done.
  pose proof (commit_loads_ref (coreLoad sec) (cores (loads dvp)) [] []) as H.
  simpl in H. rewrite Hl in H. rewrite H; [|congruence|done..]. unfold commit_ref.
  by destruct (forallb _ _).
Qed.

Lemma DecommitLoad_ref dvp sec :
  table_ok (loads dvp) -> length (coreLoad sec) = num_cores ->
  DVP_DecommitLoad dvp sec = Done (with_cores dvp (sub_loads (coreLoad sec) (cores (loads dvp)))).
Proof.
  intros [Hl Hok] Hc. unfold DVP_DecommitLoad.
  pose proof (decommit_loads_ref (coreLoad sec) (cores (loads dvp)) [] []) as H.
  simpl in H. rewrite Hl in H. rewrite H; [done|congruence|done].
Qed.

End Operations.

(** ** Concurrent sections

    The semaphore makes each operation atomic, so the clients of the table
    (threads and processes) interleave whole commits and decommits.
    [flight] lists the sections committed and not yet decommitted. *)
Section Interleaving.
Context {W : Type}.
Implicit Types (dvp : DVP_t W) (sec : DVP_KernelGraphSection_t).

(** Loads and limits of real kernels are small against the 32-bit counter. *)
Definition load_bound : Z := 2 ^ 30.
Definition sane_section sec : Prop :=
  length (coreLoad sec) = num_cores /\ Forall (fun d => 0 <= d < load_bound) (coreLoad sec).
Definition load_at (c : nat) sec : Z := nth c (coreLoad sec) 0.

Inductive table_step : DVP_t W * list DVP_KernelGraphSection_t ->
    DVP_t W * list DVP_KernelGraphSection_t -> Prop :=
  | step_commit dvp dvp' flight sec :
      sane_section sec -> DVP_CommitLoad dvp sec = Done (true, dvp') ->
      table_step (dvp, flight) (dvp', sec :: flight)
  | step_refuse dvp dvp' flight sec :
      sane_section sec -> DVP_CommitLoad dvp sec = Done (false, dvp') ->
      table_step (dvp, flight) (dvp', flight)
  | step_finish dvp dvp' before sec after :
      DVP_DecommitLoad dvp sec = Done dvp' ->
      table_step (dvp, before ++ sec :: after) (dvp', before ++ after).

Definition core_accounted (flight : list DVP_KernelGraphSection_t) (c : nat) (l : DVP_Core_Load_t) : Prop :=
  currentLoad l = Zsum (load_at c <$> flight) /\
  0 <= currentLoad l <= maximumLoad l /\ maximumLoad l <= load_bound.

Definition accounted (s : DVP_t W * list DVP_KernelGraphSection_t) : Prop :=
  length (cores (loads s.1)) = num_cores /\ Forall sane_section s.2 /\
  forall c l, cores (loads s.1) !! c = Some l -> core_accounted s.2 c l.

Lemma accounted_ok s : accounted s -> table_ok (loads s.1).
Proof.
  intros (Hl & _ & Hc). split; [done|]. apply Forall_lookup. intros c l Hcl.
  destruct (Hc c l Hcl) as (_ & ? & ?). unfold entry_ok, is_s32, load_bound in *. lia.
Qed.

Lemma sane_load_at sec c d : sane_section sec -> coreLoad sec !! c = Some d ->
  load_at c sec = d /\ 0 <= d < load_bound.
Proof.
  intros [_ Hs] Hd. split; [|by eapply (Forall_lookup_1 _ _ _ _ Hs)].
  unfold load_at. by apply nth_lookup_Some.
Qed.
Lemma sane_load_nonneg sec c : sane_section sec -> 0 <= load_at c sec.
Proof.
  intros Hs. destruct (coreLoad sec !! c) as [d|] eqn:Hd.
  - destruct (sane_load_at _ _ _ Hs Hd). lia.
  - unfold load_at. rewrite nth_lookup, Hd. simpl. lia.
Qed.
Lemma flight_nonneg c flight : Forall sane_section flight -> 0 <= Zsum (load_at c <$> flight).
Proof.
  intros H. apply Zsum_nonneg, Forall_fmap. eapply Forall_impl; [exact H|].
  intros sec Hs. by apply sane_load_nonneg.
Qed.

Lemma accounted_commit dvp flight sec :
  accounted (dvp, flight) -> sane_section sec ->
  forallb within (add_loads (coreLoad sec) (cores (loads dvp))) = true ->
  accounted (with_cores dvp (add_loads (coreLoad sec) (cores (loads dvp))), sec :: flight).
Proof.
  intros (Hl & Hf & Hc) Hs Hw. pose proof Hs as [Hlen _]. unfold accounted. simpl in *.
  split_and!; [by rewrite add_loads_length by congruence|by constructor|].
  intros c l' Hl'. pose proof (proj1 (forallb_forall _ _) Hw l') as Hwl.
  apply lookup_zip_with_Some in Hl' as Hz. destruct Hz as (d & l & -> & Hd & Hcl).
  destruct (Hc c l Hcl) as (Hsum & Hr & Hm). destruct (sane_load_at _ _ _ Hs Hd) as [Hld Hdr].
  assert (s32 (currentLoad l + d) = currentLoad l + d) as Hs32.
  { apply s32_small. unfold is_s32, load_bound in *. lia. }
  assert (within (bump d l) = true) as Hin.
  { apply Hwl, list_elem_of_In. by eapply list_elem_of_lookup_2. }
  unfold within in Hin. apply Z.leb_le in Hin. simpl in Hin. unfold core_accounted.
  rewrite fmap_cons. simpl. rewrite Hs32 in *. lia.
Qed.

Lemma accounted_finish dvp before sec after :
  accounted (dvp, before ++ sec :: after) ->
  accounted (with_cores dvp (sub_loads (coreLoad sec) (cores (loads dvp))), before ++ after).
Proof.
  intros (Hl & Hf & Hc). simpl in *. pose proof (Forall_elt _ _ _ Hf) as Hs. pose proof Hs as [Hlen _].
  apply Forall_app in Hf as [Hb [_ Ha]%Forall_cons].
  unfold accounted. simpl. split_and!; [|by apply Forall_app|].
  { unfold sub_loads. rewrite length_zip_with. lia. }
  intros c l' Hl'. apply lookup_zip_with_Some in Hl' as (d & l & -> & Hd & Hcl).
  destruct (Hc c l Hcl) as (Hsum & Hr & Hm). destruct (sane_load_at _ _ _ Hs Hd) as [Hld Hdr].
  rewrite fmap_app, Zsum_app, fmap_cons in Hsum. simpl in Hsum.
  pose proof (flight_nonneg c _ Hb). pose proof (flight_nonneg c _ Ha).
  unfold core_accounted, bump. simpl. rewrite fmap_app, Zsum_app, s32_small.
  - lia.
  - unfold is_s32, load_bound in *. lia.
Qed.

Lemma table_step_accounted s s' : table_step s s' -> accounted s -> accounted s'.
Proof.
  intros Hstep Hacc. pose proof (accounted_ok _ Hacc) as Hok.
  destruct Hstep as [dvp dvp' flight sec Hs H|dvp dvp' flight sec Hs H|dvp dvp' before sec after H].
  - assert (numNodes sec <> 0) as Hn.
    { intros Hn. unfold DVP_CommitLoad in H. by rewrite Hn in H. }
    rewrite CommitLoad_ref in H; [|done|apply Hs|done]. unfold commit_ref in H.
    destruct (forallb _ _) eqn:Hw; [|done]. injection H as <-. by apply accounted_commit.
  - destruct (Z.eq_dec (numNodes sec) 0) as [Hn|Hn].
    + unfold DVP_CommitLoad in H. rewrite Hn in H. by injection H as <-.
    + rewrite CommitLoad_ref in H; [|done|apply Hs|done]. unfold commit_ref in H.
      destruct (forallb _ _) eqn:Hw; [done|]. injection H as <-. simpl. by rewrite with_cores_same.
  - pose proof Hacc as (_ & Hf & _). pose proof (Forall_elt _ _ _ Hf) as [Hlen _].
    rewrite DecommitLoad_ref in H by done. injection H as <-. by apply accounted_finish.
Qed.

(** A table as the boss initialises it. *)
Definition idle_table dvp : Prop :=
  length (cores (loads dvp)) = num_cores /\
  Forall (fun l => currentLoad l = 0 /\ 0 <= maximumLoad l <= load_bound) (cores (loads dvp)).

Lemma idle_accounted dvp : idle_table dvp -> accounted (dvp, []).
Proof.
  intros [Hl Hi]. split_and!; [done..|]. intros c l Hc. simpl in Hc.
  destruct (Forall_lookup_1 _ _ _ _ Hi Hc). unfold core_accounted. simpl. lia.
Qed.

Lemma reachable_accounted dvp s : idle_table dvp -> rtc table_step (dvp, []) s -> accounted s.
Proof.
  intros Hi Hr. apply idle_accounted in Hi. induction Hr as [|s1 s2 s3 Hstep _ IH]; [done|].
  apply IH. by eapply table_step_accounted.
Qed.

End Interleaving.
