(* ===== verification/Dispatch.v ===== *)
(** * Dispatch of a section to its managers (facts about dvp_kgb.c)

    [runs] is the reference partition of a section into maximal blocks of
    consecutive nodes on one manager; [DVP_KernelGraphBoss_Verify] and the
    execution loop of [DVP_KernelGraphBoss_Process] hand each block to its
    manager, in order, once. *)
From S2P Require Import Prelude DvpTypes Perf KernelGraphManager KernelGraphBoss.

(** ** The reference partition: blocks [(manager, start, count)] *)
Fixpoint runs (start : Z) (ms : list Z) : list (Z * Z * Z) :=
  match ms with
  | [] => []
  | m :: ms' =>
      match runs (start + 1) ms' with
      | (m', s, c) :: rest =>
          if m =? m' then (m, start, c + 1) :: rest else (m, start, 1) :: (m', s, c) :: rest
      | [] => [(m, start, 1)]
      end
  end.

Definition managers_of (nodes : list DVP_KernelNode_t) : list Z :=
  (fun n => mgrIndex (header n)) <$> nodes.

(** [blocks a b ms rs]: the blocks [rs] tile [a, b) and each is a maximal
    stretch of [ms] (which starts at [a]). *)
Inductive blocks (ms : list Z) (b : Z) : Z -> list (Z * Z * Z) -> Prop :=
  | blocks_nil : blocks ms b b []
  | blocks_cons m s c rs :
      0 < c ->
      (forall i : nat, s <= Z.of_nat i < s + c -> ms !! i = Some m) ->
      (forall m' s' c' rs', rs = (m', s', c') :: rs' -> m' <> m) ->
      blocks ms b (s + c) rs ->
      blocks ms b s ((m, s, c) :: rs).

Lemma blocks_le ms b a rs : blocks ms b a rs -> a <= b.
Proof. induction 1; lia. Qed.
Lemma blocks_cons_inv ms b a m s c rs :
  blocks ms b a ((m, s, c) :: rs) -> s = a /\ 0 < c /\ blocks ms b (a + c) rs.
Proof. by inversion 1; subst. Qed.
Lemma blocks_nil_inv ms b a : blocks ms b a [] -> a = b.
Proof. by inversion 1. Qed.

Fixpoint count_same (m : Z) (ms : list Z) : nat :=
  match ms with
  | [] => 0
  | x :: ms' => if x =? m then S (count_same m ms') else 0
  end.

Lemma count_run_same m nodes : count_run m nodes = Z.of_nat (count_same m (managers_of nodes)).
Proof.
  induction nodes as [|x nodes IH]; [done|]. unfold managers_of in *. rewrite fmap_cons.
  cbn [count_run count_same]. destruct (_ =? _); [rewrite IH; lia|done].
Qed.
Lemma count_same_le m ms : (count_same m ms <= length ms)%nat.
Proof. induction ms as [|x ms IH]; simpl; [done|]. destruct (x =? m); lia. Qed.
Lemma count_same_lookup m ms i : (i < count_same m ms)%nat -> ms !! i = Some m.
Proof.
  revert i. induction ms as [|x ms IH]; simpl; intros i; [lia|].
  destruct (Z.eqb_spec x m) as [->|]; [|lia]. destruct i as [|i]; [done|]. intros. apply IH. lia.
Qed.
Lemma count_same_max m ms : ms !! count_same m ms <> Some m.
Proof.
  induction ms as [|x ms IH]; simpl; [done|].
  destruct (Z.eqb_spec x m) as [->|Hne]; [done|]. simpl. congruence.
Qed.

(** The first block is what the inner loop counts. *)
Lemma runs_cons m ms : forall start,
  runs start (m :: ms) =
  (m, start, 1 + Z.of_nat (count_same m ms)) ::
  runs (start + 1 + Z.of_nat (count_same m ms)) (drop (count_same m ms) ms).
Proof.
  revert m. induction ms as [|x ms IH]; intros m start; [done|].
  change (runs start (m :: x :: ms)) with
    (match runs (start + 1) (x :: ms) with
     | (m', s, c) :: rest => if m =? m' then (m, start, c + 1) :: rest else (m, start, 1) :: (m', s, c) :: rest
     | [] => [(m, start, 1)] end).
  cbn [count_same]. destruct (Z.eqb_spec x m) as [->|Hne].
  - rewrite IH. rewrite Z.eqb_refl. cbn [drop]. f_equal; [f_equal; lia|]. f_equal. lia.
  - rewrite IH. rewrite (proj2 (Z.eqb_neq m x)) by congruence.
    cbn [drop]. rewrite <- IH. simpl Z.of_nat. by rewrite !Z.add_0_r.
Qed.

Lemma runs_head start ms m s c rs : runs start ms = (m, s, c) :: rs -> head ms = Some m.
Proof. destruct ms as [|x ms]; [done|]. rewrite runs_cons. by intros [= -> _ _ _]. Qed.

Lemma runs_blocks k : forall ms (a : nat), (length ms - a <= k)%nat -> (a <= length ms)%nat ->
  blocks ms (Z.of_nat (length ms)) (Z.of_nat a) (runs (Z.of_nat a) (drop a ms)).
Proof.
  induction k as [|k IH]; intros ms a Hk Ha.
  { rewrite drop_ge by lia. replace a with (length ms) by lia. constructor. }
  destruct (drop a ms) as [|m rest] eqn:Hd.
  { apply (f_equal length) in Hd. rewrite length_drop in Hd. simpl in Hd.
    replace a with (length ms) by lia. constructor. }
  assert (drop (S a) ms = rest) as Hrest.
  { rewrite <- Nat.add_1_r, <- drop_drop, Hd. done. }
  assert (length rest = (length ms - S a)%nat) as Hlen by (by rewrite <- Hrest, length_drop).
  assert (S a <= length ms)%nat.
  { apply (f_equal length) in Hd. rewrite length_drop in Hd. simpl in Hd. lia. }
  rewrite runs_cons. set (c := count_same m rest). pose proof (count_same_le m rest) as Hc. fold c in Hc.
  replace (Z.of_nat a + 1 + Z.of_nat c) with (Z.of_nat (S a + c)) by lia.
  replace (drop c rest) with (drop (S a + c) ms) by (by rewrite <- Hrest, drop_drop).
  constructor.
  - lia.
  - intros i Hi. destruct (Nat.eq_dec i a) as [->|].
    + by rewrite <- (Nat.add_0_r a), <- lookup_drop, Hd.
    + replace i with (S a + (i - S a))%nat by lia. rewrite <- lookup_drop, Hrest.
      apply count_same_lookup. fold c. lia.
  - intros m' s' c' rs' Hh%runs_head ->. rewrite <- drop_drop, Hrest in Hh.
    apply (count_same_max m rest). fold c. rewrite <- (Nat.add_0_r c), <- lookup_drop.
    by destruct (drop c rest).
  - replace (Z.of_nat a + (1 + Z.of_nat c)) with (Z.of_nat (S a + c)) by lia. apply IH; lia.
Qed.

Section Dispatch.
Context {W : Type}.
Implicit Types (dvp : DVP_t W) (w : W) (nodes : list DVP_KernelNode_t).

Definition calls_at dvp (m : Z) : outcome (DVP_GraphManager_Calls_t W) :=
  mg ← of_option (aget (managers dvp) m); of_option (calls mg).

(** Reference execution and verification over the blocks. *)
Fixpoint exec_runs dvp w nodes (rs : list (Z * Z * Z)) (processed : Z) (sync : bool)
    : outcome (W * list DVP_KernelNode_t * Z) :=
  match rs with
  | [] => Done (w, nodes, processed)
  | (m, s, c) :: rs' =>
      cl ← calls_at dvp m;
      let '(w', nodes', k) := manager cl w nodes s c sync in
      if k =? c then exec_runs dvp w' nodes' rs' (u32 (processed + k)) sync
      else Done (w', nodes', u32 (processed + k))
  end.
Fixpoint verify_runs dvp w nodes (rs : list (Z * Z * Z)) (verified : Z)
    : outcome (W * list DVP_KernelNode_t * Z) :=
  match rs with
  | [] => Done (w, nodes, verified)
  | (m, s, c) :: rs' =>
      cl ← calls_at dvp m;
      let '(w', nodes', k) := verify cl w nodes s c in
      verify_runs dvp w' nodes' rs' (u32 (verified + k))
  end.

Definition lawful dvp : Prop :=
  forall m c, m ∈ managers dvp -> calls m = Some c -> LawfulKGM c.

Lemma calls_at_lawful dvp m c : lawful dvp -> calls_at dvp m = Done c -> LawfulKGM c.
Proof.
  intros Hl H. unfold calls_at in H. inv_outcome.
  apply aget_Some in E as [_ Hm]. apply (Hl r); [|done]. by eapply list_elem_of_lookup_2.
Qed.

Lemma subgraph_at_runs dvp nodes (a : nat) x :
  nodes !! a = Some x ->
  subgraph_at dvp nodes (Z.of_nat a) =
    (c ← calls_at dvp (mgrIndex (header x));
     Done (c, 1 + Z.of_nat (count_same (mgrIndex (header x)) (drop (S a) (managers_of nodes))))).
Proof.
  intros Hx. unfold subgraph_at, calls_at. rewrite aget_nat, Hx, Nat2Z.id. simpl.
  destruct (aget _ _) as [mg|]; simpl; [|done]. destruct (calls mg); simpl; [|done].
  rewrite count_run_same. unfold managers_of. by rewrite fmap_drop.
Qed.

Lemma runs_at_node nodes (a : nat) x :
  nodes !! a = Some x ->
  let c := count_same (mgrIndex (header x)) (drop (S a) (managers_of nodes)) in
  runs (Z.of_nat a) (drop a (managers_of nodes)) =
    (mgrIndex (header x), Z.of_nat a, 1 + Z.of_nat c) ::
    runs (Z.of_nat (S (a + c))) (drop (S (a + c)) (managers_of nodes)) /\ (S (a + c) <= length nodes)%nat.
Proof.
  intros Hx c. assert (managers_of nodes !! a = Some (mgrIndex (header x))) as Hm.
  { unfold managers_of. by rewrite list_lookup_fmap, Hx. }
  rewrite (drop_S _ _ _ Hm), runs_cons. fold c. rewrite drop_drop. split.
  - by replace (Z.of_nat a + 1 + Z.of_nat c) with (Z.of_nat (S (a + c))) by lia.
  - pose proof (count_same_le (mgrIndex (header x)) (drop (S a) (managers_of nodes))) as Hc.
    fold c in Hc. rewrite length_drop in Hc. unfold managers_of in Hc. rewrite length_fmap in Hc.
    apply lookup_lt_Some in Hx. lia.
Qed.

Lemma touched_managers st num nodes nodes' :
  touches_only st num nodes nodes' ->
  managers_of nodes' = managers_of nodes /\ length nodes' = length nodes.
Proof. intros [H _]. split; [by apply routing_mgr|by apply routing_length]. Qed.

Lemma execute_loop_runs dvp sync : lawful dvp -> forall fuel w nodes (a : nat) processed,
  (a <= length nodes)%nat -> (length nodes - a <= fuel)%nat ->
  execute_loop fuel dvp w nodes (Z.of_nat (length nodes)) (Z.of_nat a) processed sync =
  exec_runs dvp w nodes (runs (Z.of_nat a) (drop a (managers_of nodes))) processed sync.
Proof.
  intros Hl. induction fuel as [|fuel IH]; intros w nodes a processed Ha Hf; simpl;
    destruct (Z.ltb_spec (Z.of_nat a) (Z.of_nat (length nodes))) as [Hlt|Hge]; try lia.
  1,3: rewrite drop_ge by (unfold managers_of; rewrite length_fmap; lia); done.
  destruct (lookup_lt_is_Some_2 nodes a ltac:(lia)) as [x Hx].
  rewrite (subgraph_at_runs _ _ _ _ Hx). destruct (runs_at_node _ _ _ Hx) as [-> Hle].
  cbn [exec_runs verify_runs]. destruct (calls_at dvp _) as [cl| |] eqn:Hc;
    cbn [mbind outcome_bind]; [|done..].
  set (c := count_same _ _) in *.
  destruct (manager cl w nodes (Z.of_nat a) (1 + Z.of_nat c) sync) as [[w' nodes'] k] eqn:Hm.
  pose proof (calls_at_lawful _ _ _ Hl Hc) as Hlaw.
  apply kgm_manager_range in Hm as [_ Ht]; [|lia]. apply touched_managers in Ht as [Hms Hlen].
  destruct (k =? 1 + Z.of_nat c); cbn [negb]; [|done].
  replace (Z.of_nat a + (1 + Z.of_nat c)) with (Z.of_nat (S (a + c))) by lia.
  rewrite <- Hms, <- Hlen. apply IH; lia.
Qed.

Lemma verify_loop_runs dvp : lawful dvp -> forall fuel w nodes (a : nat) verified,
  (a <= length nodes)%nat -> (length nodes - a <= fuel)%nat ->
  verify_loop fuel dvp w nodes (Z.of_nat (length nodes)) (Z.of_nat a) verified =
  verify_runs dvp w nodes (runs (Z.of_nat a) (drop a (managers_of nodes))) verified.
Proof.
  intros Hl. induction fuel as [|fuel IH]; intros w nodes a verified Ha Hf; simpl;
    destruct (Z.ltb_spec (Z.of_nat a) (Z.of_nat (length nodes))) as [Hlt|Hge]; try lia.
  1,3: rewrite drop_ge by (unfold managers_of; rewrite length_fmap; lia); done.
  destruct (lookup_lt_is_Some_2 nodes a ltac:(lia)) as [x Hx].
  rewrite (subgraph_at_runs _ _ _ _ Hx). destruct (runs_at_node _ _ _ Hx) as [-> Hle].
  cbn [exec_runs verify_runs]. destruct (calls_at dvp _) as [cl| |] eqn:Hc;
    cbn [mbind outcome_bind]; [|done..].
  set (c := count_same _ _) in *.
  destruct (verify cl w nodes (Z.of_nat a) (1 + Z.of_nat c)) as [[w' nodes'] k] eqn:Hm.
  pose proof (calls_at_lawful _ _ _ Hl Hc) as Hlaw.
  apply kgm_verify_range in Hm as [_ Ht]; [|lia]. apply touched_managers in Ht as [Hms Hlen].
  replace (Z.of_nat a + (1 + Z.of_nat c)) with (Z.of_nat (S (a + c))) by lia.
  rewrite <- Hms, <- Hlen. apply IH; lia.
Qed.

End Dispatch.
