(* ===== verification/Execution.v ===== *)
(** * Verification and execution of a section (facts about dvp_kgb.c)

    What [DVP_KernelGraphBoss_Verify] and [DVP_KernelGraphBoss_Process] do
    with the load table, the blocks of a section and the retries. *)
From S2P Require Import Prelude DvpTypes Perf KernelGraphManager KernelGraphBoss.
From S2P Require Import ManagerSelection Configure LoadTable Dispatch.

Section Execution.
Context {W : Type}.
Implicit Types (dvp : DVP_t W) (w : W) (nodes : list DVP_KernelNode_t).
Implicit Types (sec : DVP_KernelGraphSection_t).

(** ** Executing the blocks *)

Definition dispatchable dvp (m : Z) : Prop := exists c, calls_at dvp m = Done c.

Lemma settled_dispatchable dvp n :
  all_loaded (managers dvp) -> settled (managers dvp) n -> dispatchable dvp (mgrIndex (header n)).
Proof.
  intros Hl (i & m & fn & Hi & Hm & _). unfold dispatchable, calls_at. rewrite Hi, aget_nat, Hm.
  simpl. destruct (loaded_on_core _ _ _ Hl Hm) as (cl & -> & _). by exists cl.
Qed.

Lemma blocks_dispatchable dvp nodes a b rs :
  Forall (fun n => dispatchable dvp (mgrIndex (header n))) nodes ->
  0 <= a -> blocks (managers_of nodes) b a rs -> Forall (fun r => dispatchable dvp r.1.1) rs.
Proof.
  intros Hd Ha Hb. induction Hb as [|m s c rs Hc Hin _ _ IH]; constructor; [|apply IH; lia].
  simpl. pose proof (Hin (Z.to_nat s) ltac:(lia)) as Hm. unfold managers_of in Hm.
  rewrite list_lookup_fmap in Hm. destruct (nodes !! Z.to_nat s) as [x|] eqn:Hx; [|done].
  injection Hm as <-. by apply (Forall_lookup_1 _ _ _ _ Hd Hx).
Qed.

(** The blocks run in order, the counter is the number of nodes processed,
    and it reaches the end of the section exactly when no block fell short. *)
Lemma exec_runs_total dvp sync ms b : lawful dvp -> forall rs a w nodes p,
  Forall (fun r => dispatchable dvp r.1.1) rs -> blocks ms b a rs ->
  0 <= p -> p + (b - a) < 2 ^ 32 ->
  exists w' nodes' p', exec_runs dvp w nodes rs p sync = Done (w', nodes', p') /\
    p <= p' <= p + (b - a) /\ Forall2 same_routing nodes nodes'.
Proof.
  intros Hl. induction rs as [|[[m s] c] rs IH]; intros a w nodes p Hd Hb Hp Hbd.
  { apply blocks_nil_inv in Hb. exists w, nodes, p. split_and!; [done|lia..|]. reflexivity. }
  apply blocks_cons_inv in Hb as (-> & Hc & Hb). pose proof (blocks_le _ _ _ _ Hb).
  apply Forall_cons in Hd as [[cl Hcl] Hd]. simpl in *. rewrite Hcl. simpl.
  pose proof (calls_at_lawful _ _ _ Hl Hcl) as Hlaw.
  destruct (manager cl w nodes a c sync) as [[w1 n1] k] eqn:Hm.
  apply kgm_manager_range in Hm as [Hk [Hr _]]; [|lia].
  rewrite u32_small by (unfold is_u32; lia).
  destruct (Z.eqb_spec k c) as [->|Hne].
  - destruct (IH (a + c) w1 n1 (p + c)) as (w' & n' & p' & -> & Hp' & Hr'); [done|done|lia|lia|].
    exists w', n', p'. split_and!; [done|lia..|]. by transitivity n1.
  - exists w1, n1, (p + k). split_and!; [done|lia..|done].
Qed.

Lemma verify_runs_total dvp ms b : lawful dvp -> forall rs a w nodes p,
  Forall (fun r => dispatchable dvp r.1.1) rs -> blocks ms b a rs ->
  0 <= p -> p + (b - a) < 2 ^ 32 ->
  exists w' nodes' p', verify_runs dvp w nodes rs p = Done (w', nodes', p') /\
    p <= p' <= p + (b - a) /\ Forall2 same_routing nodes nodes'.
Proof.
  intros Hl. induction rs as [|[[m s] c] rs IH]; intros a w nodes p Hd Hb Hp Hbd.
  { apply blocks_nil_inv in Hb. exists w, nodes, p. split_and!; [done|lia..|]. reflexivity. }
  apply blocks_cons_inv in Hb as (-> & Hc & Hb). pose proof (blocks_le _ _ _ _ Hb).
  apply Forall_cons in Hd as [[cl Hcl] Hd]. simpl in *. rewrite Hcl. simpl.
  pose proof (calls_at_lawful _ _ _ Hl Hcl) as Hlaw.
  destruct (verify cl w nodes a c) as [[w1 n1] k] eqn:Hm.
  apply kgm_verify_range in Hm as [Hk [Hr _]]; [|lia].
  rewrite u32_small by (unfold is_u32; lia).
  destruct (IH (a + c) w1 n1 (p + k)) as (w' & n' & p' & -> & Hp' & Hr'); [done|done|lia|lia|].
  exists w', n', p'. split_and!; [done|lia..|]. by transitivity n1.
Qed.

Lemma exec_runs_with_cores dvp cs rs sync : forall w nodes p,
  exec_runs (with_cores dvp cs) w nodes rs p sync = exec_runs dvp w nodes rs p sync.
Proof.
  induction rs as [|[[m s] c] rs IH]; intros w nodes p; [done|]. simpl.
  change (calls_at (with_cores dvp cs) m) with (calls_at dvp m).
  destruct (calls_at dvp m); simpl; [|done..]. destruct (manager _ _ _ _ _ _) as [[??]?].
  destruct (_ =? _); [apply IH|done].
Qed.

(** ** The process loop *)

(** A section whose nodes are in [nodes] and can be dispatched. *)
Definition ready dvp sec nodes : Prop :=
  numNodes sec = Z.of_nat (length nodes) /\ 0 < numNodes sec < 2 ^ 32 /\
  length (coreLoad sec) = num_cores /\
  Forall (fun n => dispatchable dvp (mgrIndex (header n))) nodes.

Definition blocks_of nodes : list (Z * Z * Z) := runs 0 (managers_of nodes).

Lemma blocks_of_tile nodes : blocks (managers_of nodes) (Z.of_nat (length nodes)) 0 (blocks_of nodes).
Proof.
  assert (length (managers_of nodes) = length nodes) as Hl by apply length_fmap.
  rewrite <- Hl. apply (runs_blocks (length (managers_of nodes)) (managers_of nodes) 0); lia.
Qed.

Lemma exec_section_total dvp w sec nodes sync :
  lawful dvp -> ready dvp sec nodes ->
  exists w' nodes' k, exec_runs dvp w nodes (blocks_of nodes) 0 sync = Done (w', nodes', k) /\
    0 <= k <= numNodes sec /\ Forall2 same_routing nodes nodes'.
Proof.
  intros Hl (Hn & Hb & _ & Hd). rewrite Hn in *.
  destruct (exec_runs_total dvp sync (managers_of nodes) (Z.of_nat (length nodes)) Hl
    (blocks_of nodes) 0 w nodes 0) as (w' & n' & k & -> & Hk & Hr).
  - eapply blocks_dispatchable; [done| |apply blocks_of_tile]. lia.
  - apply blocks_of_tile.
  - lia.
  - lia.
  - exists w', n', k. split_and!; [done|lia..|done].
Qed.

Lemma verify_section_total dvp w nodes :
  lawful dvp -> Forall (fun n => dispatchable dvp (mgrIndex (header n))) nodes ->
  Z.of_nat (length nodes) < 2 ^ 32 ->
  exists w' nodes' v, verify_runs dvp w nodes (blocks_of nodes) 0 = Done (w', nodes', v) /\
    0 <= v <= Z.of_nat (length nodes) /\ Forall2 same_routing nodes nodes'.
Proof.
  intros Hl Hd Hb.
  destruct (verify_runs_total dvp (managers_of nodes) (Z.of_nat (length nodes)) Hl
    (blocks_of nodes) 0 w nodes 0) as (w' & n' & k & -> & Hk & Hr).
  - eapply blocks_dispatchable; [done| |apply blocks_of_tile]. lia.
  - apply blocks_of_tile.
  - lia.
  - lia.
  - exists w', n', k. split_and!; [done|lia..|done].
Qed.

(** Every node of a section none of whose nodes is homeless gets settled. *)
Lemma configure_all_settled dvp sec nodes :
  all_loaded (managers dvp) -> length (coreLoad sec) = num_cores -> Forall is_s32 (coreLoad sec) ->
  Forall (fun n => ~ homeless (managers dvp) n) nodes ->
  Forall (fun n => configured (header n) = DVP_TRUE -> settled (managers dvp) n) nodes ->
  Forall (fun n => configured (header n) = DVP_FALSE \/ configured (header n) = DVP_TRUE) nodes ->
  exists sec' nodes', DVP_ConfigureNodes dvp sec nodes false = Done (0, sec', nodes') /\
    numNodes sec' = numNodes sec /\ length nodes' = length nodes /\
    Forall (settled (managers dvp)) nodes'.
Proof.
  intros Hl Hlen Hs Hh Hset Hconf. unfold DVP_ConfigureNodes.
  destruct (configure_loop_spec dvp false nodes (coreLoad sec) Hl Hlen Hs)
    as (faults & cl & ns & -> & _ & _ & Hreq & Hcase). simpl.
  destruct Hcase as [(-> & Hpl & _ & _)|(_ & n & Hin & _ & Hhl)].
  - eexists _, _. split_and!; [done|done|symmetry; by eapply Forall2_length|].
    clear Hreq Hh. induction Hpl as [|n n' ns1 ns2 (_ & Hp & Hnp) _ IH]; [done|].
    apply Forall_cons in Hset as [Hn Hset]. apply Forall_cons in Hconf as [Hc Hconf].
    constructor; [|by apply IH]. destruct Hc as [Hc|Hc].
    + apply Hp. by left.
    + rewrite Hnp; [by apply Hn|]. intros [H|H]; [|done]. by rewrite Hc in H.
  - rewrite Forall_forall in Hh. by destruct (Hh n Hin).
Qed.

(** When the loads fit, one round commits, runs every block and returns the
    load table exactly as it was. *)
Lemma process_loop_commits dvp w sec nodes sync fuel :
  lawful dvp -> ready dvp sec nodes -> table_ok (loads dvp) ->
  (commit_ref (coreLoad sec) (cores (loads dvp))).1 = true ->
  exists w' nodes' k, exec_runs dvp w nodes (blocks_of nodes) 0 sync = Done (w', nodes', k) /\
    0 <= k <= numNodes sec /\ Forall2 same_routing nodes nodes' /\
    process_loop (S fuel) sync (mkPS dvp w sec nodes 0 0) = Done (mkPS dvp w' sec nodes' k 0).
Proof.
  intros Hl Hready Hok Hfit. pose proof Hready as (Hn & Hb & Hc & _).
  destruct (exec_section_total dvp w sec nodes sync Hl Hready) as (w' & n' & k & He & Hk & Hr).
  exists w', n', k. split_and!; [done|lia..|done|]. simpl.
  rewrite CommitLoad_ref by (done || lia).
  unfold commit_ref in *. destruct (forallb _ _) eqn:Hw; [|done]. simpl.
  rewrite Hn. pose proof (execute_loop_runs (with_cores dvp (add_loads (coreLoad sec) (cores (loads dvp))))
    sync Hl (length nodes) w nodes 0 0) as Hx. rewrite exec_runs_with_cores in Hx.
  change (Z.of_nat 0) with 0 in Hx. rewrite drop_0 in Hx. rewrite Hx by lia. unfold blocks_of in He. rewrite He. simpl.
  pose proof Hok as [Hlen Hent].
  rewrite DecommitLoad_ref; [|by apply with_cores_ok|done]. simpl.
  rewrite sub_add_loads by (congruence || done). by rewrite with_cores_twice, with_cores_same.
Qed.

(** The whole of [DVP_KernelGraphBoss_Process] when the loads fit. *)
Lemma process_once dvp w sec nodes sync fuel t0 t1 :
  lawful dvp -> ready dvp sec nodes -> table_ok (loads dvp) ->
  (commit_ref (coreLoad sec) (cores (loads dvp))).1 = true ->
  numTimes (sperf sec) + 1 < 2 ^ 32 -> 0 <= numTimes (sperf sec) -> (0 < fuel)%nat ->
  exists w' nodes' k p,
    exec_runs dvp w nodes (blocks_of nodes) 0 sync = Done (w', nodes', k) /\
    DVP_KernelGraphBoss_Process fuel dvp w sec nodes sync t0 t1 =
      Done (mkPS dvp w' (set_sperf p sec) nodes' k 0) /\
    0 <= k <= numNodes sec /\ Forall2 same_routing nodes nodes' /\
    numTimes p = numTimes (sperf sec) + 1.
Proof.
  intros Hl Hr Hok Hfit Hc Hc0 Hf. destruct fuel as [|fuel]; [lia|].
  set (sec' := set_sperf (DVP_PerformanceStart t0 (sperf sec)) sec).
  destruct (process_loop_commits dvp w sec' nodes sync fuel Hl Hr Hok Hfit)
    as (w' & n' & k & He & Hk & Hsr & Hp).
  change (numNodes sec') with (numNodes sec) in Hk.
  destruct (stop_counts t1 (DVP_PerformanceStart t0 (sperf sec))) as (p & Hstop & Hcount);
    [done..|]. simpl in Hcount.
  exists w', n', k, p. split_and!; [done| |lia..|done|done].
  unfold DVP_KernelGraphBoss_Process. fold sec'. rewrite Hp. simpl. by rewrite Hstop.
Qed.

(** An empty section is never committed and never faults: no number of
    rounds is enough. *)
Lemma process_loop_empty dvp w sec sync fuel : forall p,
  numNodes sec = 0 -> process_loop fuel sync (mkPS dvp w sec [] p 0) = NoFuel.
Proof.
  induction fuel as [|fuel IH]; intros p Hn; [done|]. simpl.
  unfold DVP_CommitLoad. rewrite Hn. simpl.
  replace (set_coreLoad (coreLoad sec) sec) with sec by (by destruct sec). by apply IH.
Qed.

(** ** Reconfiguration

    A configured node is a fixed point of the routing rule, so configuring
    it again changes nothing but the section's loads, which grow. *)

Lemma on_core_functional (ms : list (DVP_GraphManager_t W)) i c c' :
  on_core ms i c -> on_core ms i c' -> c = c'.
Proof. intros (m & k & ? & ? & <-) (m' & k' & ? & ? & <-). congruence. Qed.
Lemma supports_functional (ms : list (DVP_GraphManager_t W)) i k f f' :
  supports ms i k f -> supports ms i k f' -> f = f'.
Proof. intros (m & ? & ?) (m' & ? & ?). congruence. Qed.

Lemma by_affinity_functional (ms : list (DVP_GraphManager_t W)) aff k i f i' f' :
  by_affinity ms aff k i f -> by_affinity ms aff k i' f' -> i = i' /\ f = f'.
Proof.
  intros (_ & Hc & Hs & Hm) (_ & Hc' & Hs' & Hm').
  assert (i = i') as <-.
  { destruct (lt_eq_lt_dec i i') as [[Hlt|]|Hlt]; [|done|].
    - by destruct (Hm' i f Hlt Hc).
    - by destruct (Hm i' f' Hlt Hc'). }
  split; [done|]. by eapply supports_functional.
Qed.
Lemma selects_functional (ms : list (DVP_GraphManager_t W)) k i p f i' p' f' :
  selects ms k i p f -> selects ms k i' p' f' -> i = i' /\ f = f'.
Proof.
  intros (Hu & Hr & Hs & Hb) (Hu' & Hr' & Hs' & Hb').
  assert (p = p') as <-. { pose proof (Hb p' i' f'). pose proof (Hb' p i f). intuition lia. }
  pose proof (representative_inj _ _ _ _ Hr Hr') as <-. split; [done|]. by eapply supports_functional.
Qed.

Lemma destination_functional (ms : list (DVP_GraphManager_t W)) n i f c a i' f' c' a' :
  destination ms n i f c a -> destination ms n i' f' c' a' -> i = i' /\ f = f' /\ c = c' /\ a = a'.
Proof.
  intros [i1 f1 H1|i1 f1 p c1 Hna H1 Hc] [i2 f2 H2|i2 f2 p' c2 Hna' H2 Hc'].
  - by destruct (by_affinity_functional _ _ _ _ _ _ _ H1 H2).
  - by destruct (by_affinity_excl _ _ _ _ _ H1).
  - by destruct (by_affinity_excl _ _ _ _ _ H2).
  - destruct (selects_functional _ _ _ _ _ _ _ _ H1 H2) as [<- <-].
    by pose proof (on_core_functional _ _ _ _ Hc Hc').
Qed.
Lemma destination_stable (ms : list (DVP_GraphManager_t W)) n i f c a m g :
  destination ms n i f c a -> destination ms (upd_header (route m g a) n) i f c a.
Proof.
  intros [i1 f1 H1|i1 f1 p c1 Hna H1 Hc].
  - by apply (to_wanted_core _ (upd_header (route m g (affinity (header n))) n)).
  - apply (to_best_priority _ _ _ _ p); [by left|done..].
Qed.

Lemma destination_not_homeless (ms : list (DVP_GraphManager_t W)) n i f c a :
  destination ms n i f c a -> ~ homeless ms n.
Proof.
  intros [i1 f1 H|i1 f1 p c1 _ (? & ? & ? & _) _] [Hna Hun].
  - by apply by_affinity_excl in H.
  - by eapply Hun.
Qed.

Definition fixed (ms : list (DVP_GraphManager_t W)) n : Prop :=
  exists i f c a, destination ms n i f c a /\ n = upd_header (route (Z.of_nat i) f a) n.

Lemma routed_fixed dvp cl n cl' n' : routed_to dvp cl n (false, cl', n') -> fixed (managers dvp) n'.
Proof.
  intros (i & f & c & a & fn & old & Hd & _ & _ & _ & [= _ ->]). exists i, f, c, a.
  split; [by apply destination_stable|]. by destruct n as [[] ?].
Qed.

Lemma configure_node_fixed dvp cl n :
  all_loaded (managers dvp) -> length cl = num_cores -> Forall is_s32 cl -> fixed (managers dvp) n ->
  exists cl', configure_node dvp cl n = Done (false, cl', n) /\
    length cl' = num_cores /\ Forall is_s32 cl' /\
    forall (c : nat) old, cl !! c = Some old ->
      cl' !! c = Some (s32 (old + node_load (managers dvp) (Z.of_nat c) n)).
Proof.
  intros Hl Hlen Hs (i & f & c & a & Hd & Hn).
  destruct (configure_node_total dvp cl n Hl Hlen) as (r & -> & [Hr|[[Hna Hun] _]]).
  - pose proof Hr as (i' & f' & c' & a' & fn & old & Hd' & _ & _ & _ & ->).
    destruct (destination_functional _ _ _ _ _ _ _ _ _ _ Hd Hd') as (<- & <- & <- & <-).
    rewrite <- Hn in Hr |- *. destruct (routed_settled _ _ _ _ _ Hlen Hs Hr) as (_ & _ & _ & ? & ? & ?).
    eexists. by split_and!.
  - by destruct (destination_not_homeless _ _ _ _ _ _ Hd).
Qed.

(** Reconfiguring a configured section keeps every node and adds every
    node's load a second time. *)
Lemma configure_loop_fixed dvp ns : forall cl,
  all_loaded (managers dvp) -> length cl = num_cores -> Forall is_s32 cl ->
  Forall (fixed (managers dvp)) ns ->
  exists cl', configure_loop dvp true cl ns = Done (0, cl', ns) /\
    length cl' = num_cores /\ Forall is_s32 cl' /\
    forall (c : nat) old, cl !! c = Some old ->
      cl' !! c = Some (s32 (old + Zsum (node_load (managers dvp) (Z.of_nat c) <$> ns))).
Proof.
  induction ns as [|n ns IH]; intros cl Hl Hlen Hs Hf.
  { exists cl. split_and!; [done..|]. intros c old Hc. rewrite Z.add_0_r, s32_small; [done|].
    by eapply Forall_lookup_1. }
  apply Forall_cons in Hf as [Hn Hf].
  destruct (configure_node_fixed dvp cl n Hl Hlen Hs Hn) as (cl1 & Hcn & Hlen1 & Hs1 & Hadd).
  destruct (IH cl1 Hl Hlen1 Hs1 Hf) as (cl2 & Hcl & ? & ? & Hadd2).
  exists cl2. simpl. rewrite orb_true_r, Hcn. simpl. rewrite Hcl. simpl. split_and!; [done..|].
  intros c old Hc. rewrite (Hadd2 c _ (Hadd c old Hc)), s32_add_l, <- Z.add_assoc.
  done.
Qed.

(** ** Retrying an overload *)

Lemma commit_ref_refuses cl cs (c : nat) d l :
  cl !! c = Some d -> cs !! c = Some l -> maximumLoad l < s32 (currentLoad l + d) ->
  commit_ref cl cs = (false, cs).
Proof.
  intros Hd Hl Hov. unfold commit_ref. destruct (forallb _ _) eqn:Hw; [|done].
  assert (within (bump d l) = true) as Hin.
  { apply (proj1 (forallb_forall _ _) Hw), list_elem_of_In.
    apply (list_elem_of_lookup_2 _ c). by apply lookup_zip_with_Some; exists d, l. }
  apply Z.leb_le in Hin. simpl in Hin. lia.
Qed.

(** While no 32-bit load overflows, a section that exceeds a limit is
    refused at every retry. *)
Lemma process_loop_overload dvp w nodes sync (c : nat) l fuel : forall sec d p,
  all_loaded (managers dvp) -> table_ok (loads dvp) -> Forall (fixed (managers dvp)) nodes ->
  numNodes sec <> 0 -> length (coreLoad sec) = num_cores -> Forall is_s32 (coreLoad sec) ->
  cores (loads dvp) !! c = Some l -> coreLoad sec !! c = Some d ->
  0 <= currentLoad l -> 0 <= d -> maximumLoad l < currentLoad l + d ->
  0 <= Zsum (node_load (managers dvp) (Z.of_nat c) <$> nodes) ->
  currentLoad l + d + Z.of_nat fuel * Zsum (node_load (managers dvp) (Z.of_nat c) <$> nodes) < 2 ^ 31 ->
  process_loop fuel sync (mkPS dvp w sec nodes p 0) = NoFuel.
Proof.
  set (S := Zsum _). induction fuel as [|fuel IH];
    intros sec d p Hl Hok Hf Hn Hlen Hs Hc Hd Hcur Hd0 Hov HS Hb; [done|].
  simpl. rewrite CommitLoad_ref by done.
  rewrite (commit_ref_refuses _ _ c d l) by (done || rewrite s32_small; unfold is_s32; nia).
  simpl. rewrite with_cores_same. unfold DVP_ConfigureNodes.
  destruct (configure_loop_fixed dvp nodes (coreLoad sec) Hl Hlen Hs Hf) as (cl' & -> & Hlen' & Hs' & Hadd).
  simpl. specialize (Hadd c d Hd). fold S in Hadd.
  rewrite s32_small in Hadd by (unfold is_s32; nia).
  apply (IH _ (d + S)); [done..|lia|lia|done|nia].
Qed.

End Execution.
