(* ===== verification/BossInit.v ===== *)
(** * Bringing the boss up and down (source/dvp/dvp_kgraph/dvp_kgb.c)

    [DVP_KernelGraphBossInit] loads the modules [DVP_FindManagers] found,
    gives each its priority and its row of the load table, and counts what
    failed.  The directory scan, the dynamic loader, the RPC layer and the
    memory managers are outside: their answers are arguments. *)
From S2P Require Import Prelude DvpTypes Perf KernelGraphManager KernelGraphBoss.

(** [f_corePriorities] of the build for other targets than OMAP *)
Definition f_corePriorities : list (DVP_Core_e * Z) :=
  [ (DVP_CORE_DSP, DVP_PRIORITY_NONE); (DVP_CORE_SIMCOP, DVP_PRIORITY_NONE);
    (DVP_CORE_MCU0, DVP_PRIORITY_NONE); (DVP_CORE_MCU1, DVP_PRIORITY_NONE);
    (DVP_CORE_EVE, DVP_PRIORITY_NONE); (DVP_CORE_GPU, DVP_PRIORITY_HIGHEST);
    (DVP_CORE_CPU, DVP_PRIORITY_LOWEST) ].

(** The loop that overwrites the priority at every matching row. *)
Definition core_priority (c : DVP_Core_e) : Z :=
  foldl (fun p r => if decide (c = r.1) then r.2 else p) DVP_PRIORITY_USER_BASE f_corePriorities.

Definition DVP_KGB_INIT_KGMS : Z := 0x1.
Definition DVP_KGB_INIT_MEM_MGR : Z := 0x2.

Section Init.
Context {W : Type}.

(** What [module_load] finds for a file name. *)
Definition module : Type := option (Z * module_symbols W).

(** A row of the table [DVP_FindManagers] allocates: zeroed, but the name. *)
Definition fresh_manager : DVP_GraphManager_t W := mkManager false 0 None None 0.

(** One turn of the initialisation loop: errors, manager, load rows. *)
Definition init_manager (md : module) (cs : list DVP_Core_Load_t)
    : outcome (Z * DVP_GraphManager_t W * list DVP_Core_Load_t) :=
  let '(ok, m) := DVP_KernelGraphManagerLoad md fresh_manager in
  if ok =? 0 then Done (1, m, cs)
  else
    c ← of_option (calls m);
    row ← of_option (aget cs (core_value (getCore c)));
    cs' ← of_option (aset cs (core_value (getCore c)) (mkCoreLoad (s32 (getLoad c)) (currentLoad row)));
    Done (if init c then 0 else 1,
          mkManager (init c) (handle m) (Some c) (getKernels c) (core_priority (getCore c)), cs').

Fixpoint init_managers (mds : list module) (cs : list DVP_Core_Load_t)
    : outcome (Z * list (DVP_GraphManager_t W) * list DVP_Core_Load_t) :=
  match mds with
  | [] => Done (0, [], cs)
  | md :: mds' =>
      '(e, m, cs') ← init_manager md cs;
      '(es, ms, cs'') ← init_managers mds' cs';
      Done (e + es, m :: ms, cs'')
  end.

Definition zero_cores : list DVP_Core_Load_t := replicate num_cores (mkCoreLoad 0 0).

(** [shm] is the shared segment's contents when there is one; [mem_ok] is
    whether [dvp_mem_init] gave a manager.  [None]: the boss is torn down
    and [NULL] is returned. *)
Definition DVP_KernelGraphBossInit (mask : Z) (mds : list module) (shm : option DVP_Load_t)
    (mem_ok : bool) : outcome (option (DVP_t W)) :=
  let kgms := negb (Z.land mask DVP_KGB_INIT_KGMS =? 0) in
  let wants_mem := negb (Z.land mask DVP_KGB_INIT_MEM_MGR =? 0) in
  let found := if kgms then mds else [] in
  let table := match shm with Some t => cores t | None => zero_cores end in
  '(errors, ms, cs) ← init_managers found table;
  let n := Z.of_nat (length found) in
  let errors := if wants_mem && negb mem_ok then (if kgms then errors + n else errors + 1) else errors in
  if ((n <=? errors) && kgms) || ((0 <? errors) && negb kgms) then Done None
  else Done (Some (mkDVP ms (mkLoad kgms cs))).

(** The managers as they are when the table is freed. *)
Definition DVP_KernelGraphBossDeinit (dvp : DVP_t W) : outcome (list (DVP_GraphManager_t W)) :=
  foldr (fun m acc =>
      m' ← (if enabled m
            then _ ← of_option (calls m);
                 Done (mkManager false (handle m) (calls m) (kernels m) (priority m))
            else Done m);
      ms ← acc;
      Done ((DVP_KernelGraphManagerUnload m').2 :: ms))
    (Done []) (managers dvp).

(** ** Facts *)

Lemma core_priority_cases c :
  core_priority c = match c with
                    | DVP_CORE_GPU => DVP_PRIORITY_HIGHEST
                    | DVP_CORE_CPU => DVP_PRIORITY_LOWEST
                    | _ => DVP_PRIORITY_NONE
                    end.
Proof. by destruct c. Qed.

(** A manager the initialisation enabled. *)
Definition initialised (m : DVP_GraphManager_t W) : Prop :=
  exists c, calls m = Some c /\ init c = true /\ kernels m = getKernels c /\
    priority m = core_priority (getCore c) /\ handle m <> 0.

(** Handles [module_load] returns are not null. *)
Definition good_module (md : module) : Prop :=
  match md with Some (h, _) => h <> 0 | None => True end.

Definition same_currents (cs cs' : list DVP_Core_Load_t) : Prop :=
  currentLoad <$> cs' = currentLoad <$> cs.

Lemma load_cases md :
  (exists m, DVP_KernelGraphManagerLoad md fresh_manager = (0, m) /\ enabled m = false /\ handle m = 0) \/
  (exists h s c, md = Some (h, s) /\
    DVP_KernelGraphManagerLoad md fresh_manager = (1, mkManager false h (Some c) None 0)).
Proof.
  destruct md as [[h s]|]; [|by left; eexists]. simpl.
  destruct (sym_init s), (sym_manager s), (sym_verify s), (sym_getKernels s), (sym_getLocal s),
    (sym_getRemote s), (sym_getCore s), (sym_getLoad s), (sym_deinit s);
    try (left; eexists; split_and!; reflexivity).
  right. eexists _, _, _. by split_and!.
Qed.

Lemma init_manager_spec md cs :
  good_module md -> length cs = num_cores ->
  exists e m cs', init_manager md cs = Done (e, m, cs') /\ length cs' = num_cores /\
    same_currents cs cs' /\
    ((e = 0 /\ enabled m = true /\ initialised m) \/ (e = 1 /\ enabled m = false)).
Proof.
  intros Hg Hlen. unfold init_manager.
  destruct (load_cases md) as [(m & -> & He & Hh)|(h & s & c & -> & ->)]; simpl.
  { eexists _, _, _. split_and!; [done|done|done|]. by right. }
  destruct (aget_in_range cs (core_value (getCore c))) as [row Hrow].
  { rewrite Hlen. by destruct (getCore c). }
  rewrite Hrow. simpl. apply aget_Some in Hrow as [Hr Hl]. rewrite aset_in_range by done. simpl.
  eexists _, _, _. split_and!; [done|by rewrite length_insert| |].
  - unfold same_currents. rewrite list_fmap_insert. simpl. apply list_insert_id.
    by rewrite list_lookup_fmap, Hl.
  - destruct (init c) eqn:Hi; [left|by right]. split_and!; [done..|]. by exists c.
Qed.

Lemma init_managers_spec mds : forall cs,
  Forall good_module mds -> length cs = num_cores ->
  exists e ms cs', init_managers mds cs = Done (e, ms, cs') /\ length cs' = num_cores /\
    length ms = length mds /\ same_currents cs cs' /\ 0 <= e /\
    Z.of_nat (length ms) - e = Z.of_nat (length (filter (fun m => enabled m = true) ms)) /\
    Forall (fun m => enabled m = true -> initialised m) ms.
Proof.
  induction mds as [|md mds IH]; intros cs Hg Hlen; simpl.
  { eexists _, _, _. by split_and!. }
  apply Forall_cons in Hg as [Hg Hgs].
  destruct (init_manager_spec md cs Hg Hlen) as (e & m & cs1 & -> & Hl1 & Hc1 & Hcase). simpl.
  destruct (IH cs1 Hgs Hl1) as (es & ms & cs2 & -> & ? & ? & Hc2 & ? & Hcount & ?). simpl.
  eexists _, _, _. split_and!; [done|done|simpl; lia|congruence|by destruct Hcase as [[-> _]|[-> _]]; lia| |].
  - rewrite filter_cons. destruct Hcase as [(-> & He & _)|(-> & He)].
    + rewrite decide_True by done. simpl. lia.
    + rewrite decide_False by congruence. simpl. lia.
  - constructor; [|done]. destruct Hcase as [(_ & _ & ?)|(_ & He)]; [done|]. congruence.
Qed.

Lemma BossInit_spec mask mds shm mem_ok :
  Forall good_module mds ->
  (forall t, shm = Some t -> length (cores t) = num_cores) ->
  exists r, DVP_KernelGraphBossInit mask mds shm mem_ok = Done r /\
    match r with
    | Some dvp =>
        length (cores (loads dvp)) = num_cores /\
        same_currents (match shm with Some t => cores t | None => zero_cores end) (cores (loads dvp)) /\
        Forall (fun m => enabled m = true -> initialised m) (managers dvp) /\
        (Z.land mask DVP_KGB_INIT_KGMS <> 0 ->
           length (managers dvp) = length mds /\ exists m, m ∈ managers dvp /\ enabled m = true) /\
        (Z.land mask DVP_KGB_INIT_MEM_MGR <> 0 -> mem_ok = true)
    | None => True
    end.
Proof.
  intros Hg Hshm. unfold DVP_KernelGraphBossInit.
  set (kgms := negb (Z.land mask DVP_KGB_INIT_KGMS =? 0)).
  set (found := if kgms then mds else []).
  assert (Forall good_module found) as Hgf by (unfold found; by destruct kgms).
  destruct (init_managers_spec found (match shm with Some t => cores t | None => zero_cores end) Hgf)
    as (e & ms & cs & -> & Hl & Hlm & Hc & He & Hcount & Hall).
  { destruct shm; [by apply Hshm|done]. }
  simpl. destruct (_ || _) eqn:Herr; [by exists None|]. eexists. split; [done|]. simpl.
  apply orb_false_iff in Herr as [H1 H2].
  split_and!; [done..| |].
  - intros Hk. assert (kgms = true) as Hkt by (unfold kgms; by rewrite (proj2 (Z.eqb_neq _ _))).
    assert (found = mds) as Hfm by (unfold found; by rewrite Hkt). split; [congruence|].
    rewrite Hkt in *. rewrite andb_true_r in H1. apply Z.leb_gt in H1.
    assert (0 < length (filter (fun m : DVP_GraphManager_t W => enabled m = true) ms))%nat as Hpos.
    { rewrite Hlm in Hcount. destruct (_ && _); lia. }
    destruct (filter _ ms) as [|m l] eqn:Hf; [simpl in Hpos; lia|]. exists m.
    assert (m ∈ filter (fun m : DVP_GraphManager_t W => enabled m = true) ms) as Hin.
    { rewrite Hf. by left. }
    apply list_elem_of_filter in Hin. tauto.
  - intros Hm. rewrite (proj2 (Z.eqb_neq _ _)) in H1, H2 by done. simpl in H1, H2.
    destruct mem_ok; [done|]. simpl in *. destruct kgms; simpl in *.
    + rewrite andb_true_r in H1. apply Z.leb_gt in H1. lia.
    + rewrite andb_true_r in H2. apply Z.ltb_ge in H2. lia.
Qed.

Lemma BossDeinit_spec dvp :
  Forall (fun m => enabled m = true -> is_Some (calls m)) (managers dvp) ->
  exists ms, DVP_KernelGraphBossDeinit dvp = Done ms /\ length ms = length (managers dvp) /\
    Forall (fun m => enabled m = false /\ handle m = 0) ms.
Proof.
  unfold DVP_KernelGraphBossDeinit. induction (managers dvp) as [|m ms IH]; intros Hall.
  { exists []. by split_and!. }
  apply Forall_cons in Hall as [Hm Hall]. destruct (IH Hall) as (ms' & Hms & ? & ?). simpl in *.
  rewrite Hms.
  assert (forall m0 : DVP_GraphManager_t W, enabled m0 = false ->
    enabled (DVP_KernelGraphManagerUnload m0).2 = false /\ handle (DVP_KernelGraphManagerUnload m0).2 = 0) as Hu.
  { intros m0 ?. unfold DVP_KernelGraphManagerUnload. by destruct (Z.eqb_spec (handle m0) 0). }
  destruct (enabled m) eqn:He.
  - destruct (Hm eq_refl) as [c ->]. simpl. eexists. split_and!; [done|simpl; lia|].
    constructor; [by apply Hu|done].
  - simpl. eexists. split_and!; [done|simpl; lia|]. constructor; [by apply Hu|done].
Qed.

End Init.
