(* ===== verification/BossProperties.v ===== *)
(** * What the kernel graph boss guarantees

    The properties of dvp_kgb.c, each with a small concrete system on which
    its hypotheses hold. *)
From S2P Require Import Prelude DvpTypes Perf KernelGraphManager KernelGraphBoss.
From S2P Require Import ManagerSelection Configure LoadTable Dispatch Execution BossInit.

(** ** A concrete system: a GPU and a CPU manager *)
Module Sample.
Definition world := list (Z * Z).

Definition kernel_fn (k load : Z) : DVP_CoreFunction_t := mkCoreFunction k load None None.
Definition gpu_kernels := [kernel_fn 11 10; kernel_fn 12 10].
Definition cpu_kernels := [kernel_fn 11 20; kernel_fn 12 20; kernel_fn 13 30].

(** Managers that log the blocks they are given and process all of them. *)
Definition sample_calls (c : DVP_Core_e) ks : DVP_GraphManager_Calls_t world :=
  mkCalls true (fun w ns st num sync => (w ++ [(st, num)], ns, num)) (Some ks) c 100
    (fun w ns st num => (w, ns, num)).
#[export] Instance sample_lawful c ks : LawfulKGM (sample_calls c ks).
Proof.
  split; simpl; intros; simplify_eq; (split; [lia|split; [reflexivity|done]]).
Qed.

Definition gpu := mkManager true 1 (Some (sample_calls DVP_CORE_GPU gpu_kernels)) (Some gpu_kernels) 1.
Definition cpu :=
  mkManager true 2 (Some (sample_calls DVP_CORE_CPU cpu_kernels)) (Some cpu_kernels) DVP_PRIORITY_LOWEST.
Definition table : DVP_Load_t := mkLoad true (replicate num_cores (mkCoreLoad 100 0)).
Definition system : DVP_t world := mkDVP [cpu; gpu] table.

Definition no_perf : DVP_Perf_t := DVP_Perf_Clear 1000.
Definition node (k aff : Z) : DVP_KernelNode_t := mkNode (mkHeader k aff 0 0 0 0 no_perf) [].
Definition routed (k aff m f : Z) : DVP_KernelNode_t :=
  mkNode (mkHeader k aff 0 DVP_TRUE m f no_perf) [].
Definition nodes := [node 11 (-1); node 12 6; node 13 (-1); node 12 (-1)].
Definition routed_nodes := [routed 11 (-1) 1 0; routed 12 6 0 1; routed 13 (-1) 0 2; routed 12 (-1) 1 1].
Definition section (loads : list Z) (n : Z) : DVP_KernelGraphSection_t := mkSection 4096 n no_perf loads 0.
Definition no_loads : list Z := replicate num_cores 0.
Definition sample_loads : list Z := [0; 0; 0; 0; 20; 0; 50].

Lemma system_loaded : all_loaded (managers system).
Proof. repeat constructor; by eexists. Qed.
Lemma system_lawful : lawful system.
Proof.
  intros m c Hm Hc. apply elem_of_cons in Hm as [->|[->|[]%elem_of_nil]%elem_of_cons];
    injection Hc as <-; apply _.
Qed.
Lemma table_fine : table_ok (loads system).
Proof. split; [done|]. repeat constructor; unfold entry_ok, is_s32; simpl; lia. Qed.
Lemma no_loads_s32 : Forall is_s32 no_loads.
Proof. repeat constructor; unfold is_s32; lia. Qed.

Example configure_sample :
  DVP_ConfigureNodes system (section no_loads 4) nodes false =
  Done (0, section sample_loads 4, routed_nodes).
Proof. reflexivity. Qed.
Lemma sample_ready : ready system (section sample_loads 4) routed_nodes.
Proof.
  split_and!; [done|simpl; lia|simpl; lia|done|].
  repeat constructor; eexists; reflexivity.
Qed.
Lemma sample_not_homeless : Forall (fun n => ~ homeless (managers system) n) nodes.
Proof.
  destruct (configure_loop_spec system true nodes no_loads system_loaded eq_refl no_loads_s32)
    as (faults & cl & ns & Hr & _ & _ & _ & Hcase). vm_compute in Hr. injection Hr as <- <- <-.
  destruct Hcase as [(_ & _ & _ & H)|[? _]]; [|done].
  eapply Forall_impl; [exact H|]. intros n Hn. apply Hn. by right.
Qed.
End Sample.
Import Sample.

Section Properties.
Context {W : Type}.
Implicit Types (dvp : DVP_t W) (w : W) (nodes : list DVP_KernelNode_t).
Implicit Types (sec : DVP_KernelGraphSection_t).

(** C28: configuring a node always terminates without undefined behaviour
    when every manager of the table is loaded.  A node with an affinity goes
    to the first manager of that core that has its kernel; otherwise to the
    last enabled manager of the least priority that has it, and it becomes
    configured with that manager's index, the index of an entry for its
    kernel, and the entry's load added to the manager's core.  When there is
    no such manager the node faults with [DVP_ERROR_NOT_IMPLEMENTED] and no
    load changes.  The destination is unique. *)
Theorem configure_node_routes dvp cl n :
  all_loaded (managers dvp) -> length cl = num_cores ->
  (exists r, configure_node dvp cl n = Done r /\ (routed_to dvp cl n r \/ turned_down dvp cl n r)) /\
  (homeless (managers dvp) n -> forall i f c a, ~ destination (managers dvp) n i f c a) /\
  (forall i f c a i' f' c' a', destination (managers dvp) n i f c a ->
     destination (managers dvp) n i' f' c' a' -> i = i' /\ f = f' /\ c = c' /\ a = a').
Proof.
  intros Hl Hcl. split_and!.
  - by apply configure_node_total.
  - intros Hh i f c a Hd. by apply (destination_not_homeless _ _ _ _ _ _ Hd).
  - intros *. apply destination_functional.
Qed.

(** Configuring a section stops at the first node no manager can take
    and reports one fault exactly in that case.  Without a fault every
    unconfigured (or forced) node ends on an enabled manager that has its
    kernel, the others are untouched, the kernels, parameters and counters
    of the nodes are kept, and a forced run adds to each core exactly the
    loads of the nodes placed on it. *)
Theorem configure_section_places_nodes dvp sec nodes force :
  all_loaded (managers dvp) -> length (coreLoad sec) = num_cores -> Forall is_s32 (coreLoad sec) ->
  exists faults cl nodes', 
    DVP_ConfigureNodes dvp sec nodes force = Done (faults, set_coreLoad cl sec, nodes') /\
    length cl = num_cores /\ Forall2 same_request nodes nodes' /\
    (faults = 0 /\ Forall2 (placed (managers dvp) force) nodes nodes' /\
       loads_after (managers dvp) force (coreLoad sec) nodes nodes' cl /\
       Forall (fun n => pending force n -> ~ homeless (managers dvp) n) nodes \/
     faults = 1 /\ exists n, n ∈ nodes /\ pending force n /\ homeless (managers dvp) n).
Proof.
  intros Hl Hlen Hs. unfold DVP_ConfigureNodes.
  destruct (configure_loop_spec dvp force nodes (coreLoad sec) Hl Hlen Hs)
    as (faults & cl & ns & -> & ? & _ & ? & Hcase). simpl.
  by exists faults, cl, ns.
Qed.

(** C33: [DVP_CommitLoad] is all or nothing.  It succeeds exactly when every
    core stays within its maximum with the section's load added, and then
    adds every load; on a refusal the table is exactly as before.  Undoing a
    successful commit with [DVP_DecommitLoad] restores the table. *)
Theorem commit_all_or_nothing dvp sec :
  table_ok (loads dvp) -> length (coreLoad sec) = num_cores -> numNodes sec <> 0 ->
  let after := with_cores dvp (add_loads (coreLoad sec) (cores (loads dvp))) in
  DVP_CommitLoad dvp sec =
    (if forallb within (add_loads (coreLoad sec) (cores (loads dvp)))
     then Done (true, after) else Done (false, dvp)) /\
  DVP_DecommitLoad after sec = Done dvp.
Proof.
  intros Hok Hc Hn after. pose proof Hok as [Hlen Hent]. split.
  - rewrite CommitLoad_ref by done. unfold commit_ref.
    destruct (forallb _ _); simpl; [done|]. by rewrite with_cores_same.
  - unfold after. rewrite DecommitLoad_ref; [|by apply with_cores_ok|done]. simpl.
    rewrite sub_add_loads by (congruence || done). by rewrite with_cores_twice, with_cores_same.
Qed.

(** However the commits and decommits of any number of sections
    interleave, each row of the load table is the sum of the loads of the
    sections in flight and never exceeds the core's maximum; when nothing is
    in flight every row is zero. *)
Theorem load_table_accounts dvp dvp' flight :
  idle_table dvp -> rtc table_step (dvp, []) (dvp', flight) ->
  forall (c : nat) l, cores (loads dvp') !! c = Some l ->
    currentLoad l = Zsum (load_at c <$> flight) /\ currentLoad l <= maximumLoad l /\
    (flight = [] -> currentLoad l = 0).
Proof.
  intros Hi Hr c l Hc. destruct (reachable_accounted _ _ Hi Hr) as (_ & _ & Hacc).
  destruct (Hacc c l Hc) as (Hs & ? & ?). simpl in Hs. split_and!; [done|lia|].
  intros ->. by rewrite Hs.
Qed.

(** The blocks [DVP_KernelGraphBoss_Verify] hands to the managers are
    the maximal stretches of consecutive nodes on one manager: they tile the
    section from its first node to its last, and each manager gets its
    stretch once, in order.  The count returned is at most the number of
    nodes and the routing of the nodes is untouched. *)
Theorem verify_visits_every_block dvp w sec nodes :
  lawful dvp -> all_loaded (managers dvp) -> length (coreLoad sec) = num_cores ->
  Forall is_s32 (coreLoad sec) -> numNodes sec = Z.of_nat (length nodes) -> numNodes sec < 2 ^ 32 ->
  Forall (fun n => ~ homeless (managers dvp) n) nodes ->
  Forall (fun n => configured (header n) = DVP_TRUE -> settled (managers dvp) n) nodes ->
  Forall (fun n => configured (header n) = DVP_FALSE \/ configured (header n) = DVP_TRUE) nodes ->
  exists v w' sec' nodes1 nodes2,
    DVP_ConfigureNodes dvp sec nodes false = Done (0, sec', nodes1) /\
    blocks (managers_of nodes1) (numNodes sec) 0 (blocks_of nodes1) /\
    verify_runs dvp w nodes1 (blocks_of nodes1) 0 = Done (w', nodes2, v) /\
    DVP_KernelGraphBoss_Verify dvp w sec nodes = Done (v, w', sec', nodes2) /\
    0 <= v <= numNodes sec /\ Forall2 same_routing nodes1 nodes2.
Proof.
  intros Hl Hall Hlen Hs Hn Hb Hh Hset Hconf.
  destruct (configure_all_settled dvp sec nodes Hall Hlen Hs Hh Hset Hconf)
    as (sec' & n1 & Hc & Hnum & Hln & Hst).
  destruct (verify_section_total dvp w n1 Hl) as (w' & n2 & v & Hv & Hvr & Hr).
  { eapply Forall_impl; [exact Hst|]. intros n. by apply settled_dispatchable. }
  { lia. }
  exists v, w', sec', n1, n2. split_and!; [done| |done| |lia|lia|done].
  - rewrite Hn, <- Hln. apply blocks_of_tile.
  - unfold DVP_KernelGraphBoss_Verify. rewrite Hc. simpl.
    rewrite Hn, <- Hln. pose proof (verify_loop_runs dvp Hl (length n1) w n1 0 0) as Hx.
    change (Z.of_nat 0) with 0 in Hx. rewrite drop_0 in Hx. rewrite Hx by lia. unfold blocks_of in Hv. by rewrite Hv.
Qed.

(** C1: when the section's loads fit, [DVP_KernelGraphBoss_Process] commits
    them once, runs the blocks of the section in order until one falls short
    of its nodes, and gives the loads back: the boss (its managers and its
    load table) ends as it began, the count is the number of nodes
    processed, and the routing of the nodes is untouched.  One round of the
    retry loop is enough. *)
Theorem process_runs_and_restores dvp w sec nodes sync fuel t0 t1 :
  lawful dvp -> ready dvp sec nodes -> table_ok (loads dvp) ->
  (commit_ref (coreLoad sec) (cores (loads dvp))).1 = true ->
  numTimes (sperf sec) + 1 < 2 ^ 32 -> 0 <= numTimes (sperf sec) -> (0 < fuel)%nat ->
  exists w' nodes' k p,
    exec_runs dvp w nodes (blocks_of nodes) 0 sync = Done (w', nodes', k) /\
    DVP_KernelGraphBoss_Process fuel dvp w sec nodes sync t0 t1 =
      Done (mkPS dvp w' (set_sperf p sec) nodes' k 0) /\
    0 <= k <= numNodes sec /\ Forall2 same_routing nodes nodes' /\
    numTimes p = numTimes (sperf sec) + 1.
Proof.
  intros. by apply process_once.
Qed.

(** An empty section is never processed: [DVP_CommitLoad] refuses it
    and [DVP_ConfigureNodes] finds no fault in it, so the retry loop of
    [DVP_KernelGraphBoss_Process] has no exit. *)
Theorem process_empty_section_diverges dvp w sec sync t0 t1 fuel :
  numNodes sec = 0 ->
  DVP_KernelGraphBoss_Process fuel dvp w sec [] sync t0 t1 = NoFuel.
Proof.
  intros Hn. unfold DVP_KernelGraphBoss_Process. by rewrite process_loop_empty.
Qed.

(** A configured section whose load exceeds a core's maximum is not
    placed anew by a retry: reconfiguring keeps every node where it is and
    adds the loads of all nodes to the section a second time, so as long as
    the 32-bit sums do not overflow every further round is refused too and
    the loop does not return. *)
Theorem overloaded_section_never_placed dvp w sec nodes sync t0 t1 fuel (c : nat) l d :
  all_loaded (managers dvp) -> table_ok (loads dvp) -> Forall (fixed (managers dvp)) nodes ->
  numNodes sec <> 0 -> length (coreLoad sec) = num_cores -> Forall is_s32 (coreLoad sec) ->
  cores (loads dvp) !! c = Some l -> coreLoad sec !! c = Some d ->
  0 <= currentLoad l -> 0 <= d -> maximumLoad l < currentLoad l + d ->
  0 <= Zsum (node_load (managers dvp) (Z.of_nat c) <$> nodes) ->
  currentLoad l + d + Z.of_nat fuel * Zsum (node_load (managers dvp) (Z.of_nat c) <$> nodes) < 2 ^ 31 ->
  DVP_KernelGraphBoss_Process fuel dvp w sec nodes sync t0 t1 = NoFuel.
Proof.
  intros. unfold DVP_KernelGraphBoss_Process.
  by rewrite (process_loop_overload dvp w nodes sync c l fuel _ d).
Qed.

(** Of two enabled managers with the same priority only the later one
    in the table is ever chosen by priority, whatever kernels the earlier
    one has. *)
Theorem equal_priority_shadows dvp n (i j : nat) mi mj :
  managers dvp !! i = Some mi -> managers dvp !! j = Some mj -> (i < j)%nat ->
  enabled mj = true -> priority mi = priority mj ->
  affinity (header n) = DVP_CORE_MIN ->
  forall f c a, ~ destination (managers dvp) n i f c a.
Proof.
  intros Hi Hj Hij He Hp Ha f c a Hd. inversion Hd as [? ? [Hne _]|? ? p ? _ (_ & Hrep & _) _]; subst.
  - by rewrite Ha in Hne.
  - destruct Hrep as [(m & Hm & _ & Hr) Hlast]. apply (Hlast j mj Hij Hj). split; [done|congruence].
Qed.


(** Shutting the boss down calls only loaded managers and leaves every
    manager disabled and unloaded. *)
Theorem boss_deinit_unloads dvp :
  Forall (fun m => enabled m = true -> is_Some (calls m)) (managers dvp) ->
  exists ms, DVP_KernelGraphBossDeinit dvp = Done ms /\ length ms = length (managers dvp) /\
    Forall (fun m => enabled m = false /\ handle m = 0) ms.
Proof. apply BossDeinit_spec. Qed.

End Properties.

(** ** Witnesses *)

Lemma configure_node_routes_witness :
  exists r, configure_node system no_loads (node 12 6) = Done r /\
    (routed_to system no_loads (node 12 6) r \/ turned_down system no_loads (node 12 6) r).
Proof. apply (configure_node_routes system no_loads (node 12 6)); [apply system_loaded|done]. Defined.

Lemma configure_section_places_nodes_witness :
  exists faults cl nodes',
    DVP_ConfigureNodes system (section no_loads 4) nodes true =
      Done (faults, set_coreLoad cl (section no_loads 4), nodes') /\ Forall2 same_request nodes nodes'.
Proof.
  destruct (configure_section_places_nodes system (section no_loads 4) nodes true)
    as (faults & cl & ns & H & _ & Hr & _); [apply system_loaded|done|apply no_loads_s32|].
  by exists faults, cl, ns.
Defined.

Lemma commit_all_or_nothing_witness :
  DVP_CommitLoad system (section sample_loads 4) =
  Done (true, with_cores system (add_loads sample_loads (cores (loads system)))).
Proof.
  apply (commit_all_or_nothing system (section sample_loads 4)); [apply table_fine|done|done].
Defined.

Lemma load_table_accounts_witness :
  exists dvp l, DVP_CommitLoad system (section sample_loads 4) = Done (true, dvp) /\
    cores (loads dvp) !! 6%nat = Some l /\ currentLoad l = 50 /\ currentLoad l <= maximumLoad l.
Proof.
  exists (with_cores system (add_loads sample_loads (cores (loads system)))), (mkCoreLoad 100 50).
  split_and!; [reflexivity..|].
  apply (load_table_accounts system
    (with_cores system (add_loads sample_loads (cores (loads system)))) [section sample_loads 4])
    with (c := 6%nat).
  - split; [done|]. repeat constructor; unfold load_bound; simpl; lia.
  - apply rtc_once, step_commit; [|reflexivity].
    split; [done|]. repeat constructor; unfold load_bound; lia.
  - reflexivity.
Defined.

Lemma verify_visits_every_block_witness :
  exists v w' sec' nodes2,
    DVP_KernelGraphBoss_Verify system [] (section no_loads 4) nodes = Done (v, w', sec', nodes2) /\ 0 <= v <= 4.
Proof.
  destruct (verify_visits_every_block system [] (section no_loads 4) nodes)
    as (v & w' & sec' & n1 & n2 & _ & _ & _ & Hv & Hr & _).
  - apply system_lawful.
  - apply system_loaded.
  - done.
  - apply no_loads_s32.
  - done.
  - simpl. lia.
  - apply sample_not_homeless.
  - repeat constructor; discriminate.
  - repeat constructor; by left.
  - by exists v, w', sec', n2.
Defined.

Lemma process_runs_and_restores_witness :
  exists w' nodes' k p,
    DVP_KernelGraphBoss_Process 1 system [] (section sample_loads 4) routed_nodes true 5 9 =
      Done (mkPS system w' (set_sperf p (section sample_loads 4)) nodes' k 0).
Proof.
  destruct (process_runs_and_restores system [] (section sample_loads 4) routed_nodes true 1 5 9)
    as (w' & n' & k & p & _ & H & _);
    [apply system_lawful|apply sample_ready|apply table_fine|reflexivity|simpl; lia|simpl; lia|lia|].
  by exists w', n', k, p.
Defined.

Lemma process_empty_section_diverges_witness :
  DVP_KernelGraphBoss_Process 1000 system [] (section no_loads 0) [] false 0 0 = NoFuel.
Proof. apply (process_empty_section_diverges system [] (section no_loads 0)). reflexivity. Defined.

Lemma overloaded_section_never_placed_witness :
  DVP_KernelGraphBoss_Process 1000 system [] (section [0; 0; 0; 0; 0; 0; 120] 1) [routed 13 (-1) 0 2]
    false 0 0 = NoFuel.
Proof.
  apply (overloaded_section_never_placed system [] (section [0; 0; 0; 0; 0; 0; 120] 1)
    [routed 13 (-1) 0 2] false 0 0 1000 6 (mkCoreLoad 100 0) 120).
  - apply system_loaded.
  - apply table_fine.
  - repeat constructor. apply (routed_fixed system no_loads (node 13 (-1)) [0; 0; 0; 0; 0; 0; 30]).
    destruct (configure_node_total system no_loads (node 13 (-1))) as (r & Hr & Hcase);
      [apply system_loaded|done|]. vm_compute in Hr. injection Hr as <-.
    destruct Hcase as [H|[_ H]]; [exact H|discriminate H].
  - done.
  - done.
  - repeat constructor; unfold is_s32; lia.
  - reflexivity.
  - reflexivity.
  - simpl; lia.
  - lia.
  - simpl; lia.
  - vm_compute; discriminate.
  - vm_compute; reflexivity.
Defined.

Lemma equal_priority_shadows_witness :
  let ms := [cpu; mkManager true 3 (calls gpu) (kernels gpu) DVP_PRIORITY_LOWEST] in
  ~ destination ms (node 13 (-1)) 0 2 6 (-1).
Proof.
  apply (equal_priority_shadows
    (mkDVP [cpu; mkManager true 3 (calls gpu) (kernels gpu) DVP_PRIORITY_LOWEST] table)
    (node 13 (-1)) 0 1 cpu (mkManager true 3 (calls gpu) (kernels gpu) DVP_PRIORITY_LOWEST));
    [reflexivity|reflexivity|lia|reflexivity|reflexivity|reflexivity].
Defined.

Definition cpu_module : module (W:=world) :=
  Some (7, mkSymbols (Some true) (Some (fun w ns st num sync => (w, ns, num)))
             (Some (Some cpu_kernels)) (Some tt) (Some tt) (Some DVP_CORE_CPU) (Some 100)
             (Some tt) (Some tt) (Some (fun w ns st num => (w, ns, num)))).


Lemma boss_deinit_unloads_witness :
  exists ms, DVP_KernelGraphBossDeinit system = Done ms /\ length ms = 2%nat.
Proof.
  destruct (boss_deinit_unloads system) as (ms & H & Hl & _).
  - repeat constructor; by eexists.
  - by exists ms.
Defined.
