(* ===== verification/KernelGraph.v ===== *)
(** * Kernel graphs (source/dvp/dvp_kgraph/dvp_kgraph.c)

    A graph is a list of sections with an order each; sections of one order
    run in parallel, orders run in sequence.  The node arrays live in a
    memory indexed by their address.  A worker thread runs one section to
    its end; the order in which the workers of a round finish is the
    argument [sched], the clock is [now]. *)
From S2P Require Import Prelude DvpTypes Perf GraphLock KernelGraphManager KernelGraphBoss.

Definition MAX_SECTIONS : Z := 4.
Definition MAX_QUEUE_DEPTH : Z := 2.
Definition DVP_CAPACITY_DATA_RANGE : Z := 1000.

Definition update_section (g : DVP_KernelGraph_t) (s : Z) (sec : DVP_KernelGraphSection_t)
    : option DVP_KernelGraph_t :=
  secs ← aset (sections g) s sec;
  Some (mkGraph secs (order g) (totalperf g) (verified g)).
Definition set_verified (v : Z) (g : DVP_KernelGraph_t) : DVP_KernelGraph_t :=
  mkGraph (sections g) (order g) (totalperf g) v.
Definition set_totalperf (p : DVP_Perf_t) (g : DVP_KernelGraph_t) : DVP_KernelGraph_t :=
  mkGraph (sections g) (order g) p (verified g).

Section Graph.
Context {W : Type}.

(** The runtime's state during a call: the boss, the image world, the node
    arrays, the graph, the graph lock, the callbacks made (section index and
    nodes executed), the worker count and the clock ticks read. *)
Record graph_state : Type := mkGS {
  gs_dvp : DVP_t W; gs_w : W; gs_mem : gmap Z (list DVP_KernelNode_t);
  gs_graph : DVP_KernelGraph_t; gs_lock : DVP_GraphLock_t;
  gs_log : list (Z * Z); gs_count : Z; gs_tick : nat }.

Definition with_graph (g : DVP_KernelGraph_t) (st : graph_state) : graph_state :=
  mkGS (gs_dvp st) (gs_w st) (gs_mem st) g (gs_lock st) (gs_log st) (gs_count st) (gs_tick st).
Definition with_lock (gl : DVP_GraphLock_t) (st : graph_state) : graph_state :=
  mkGS (gs_dvp st) (gs_w st) (gs_mem st) (gs_graph st) gl (gs_log st) (gs_count st) (gs_tick st).
Definition tick (n : nat) (st : graph_state) : graph_state :=
  mkGS (gs_dvp st) (gs_w st) (gs_mem st) (gs_graph st) (gs_lock st) (gs_log st) (gs_count st) (gs_tick st + n).
Definition log_callback (callback : bool) (s n : Z) (st : graph_state) : graph_state :=
  if callback
  then mkGS (gs_dvp st) (gs_w st) (gs_mem st) (gs_graph st) (gs_lock st) (gs_log st ++ [(s, n)])
            (gs_count st) (gs_tick st)
  else st.
Definition count_section (st : graph_state) : graph_state :=
  mkGS (gs_dvp st) (gs_w st) (gs_mem st) (gs_graph st) (gs_lock st) (gs_log st)
       (u32 (gs_count st + 1)) (gs_tick st).

(** The nodes of a section and what lies behind them in its array. *)
Definition section_nodes (mem : gmap Z (list DVP_KernelNode_t)) (sec : DVP_KernelGraphSection_t)
    : option (list DVP_KernelNode_t * list DVP_KernelNode_t) :=
  arr ← mem !! pNodes sec;
  if numNodes sec <=? Z.of_nat (length arr)
  then Some (take (Z.to_nat (numNodes sec)) arr, drop (Z.to_nat (numNodes sec)) arr)
  else None.

(** ** Verification *)

(** One turn of the section loop of [DVP_KernelGraph_Verify]. *)
Definition verify_section (acc : Z * Z * graph_state) (s : Z) : outcome (Z * Z * graph_state) :=
  let '(num, ver, st) := acc in
  sec ← of_option (aget (sections (gs_graph st)) s);
  '(nodes, rest) ← of_option (section_nodes (gs_mem st) sec);
  '(v, w', sec', nodes') ← DVP_KernelGraphBoss_Verify (gs_dvp st) (gs_w st) sec nodes;
  g' ← of_option (update_section (gs_graph st) s sec');
  Done (u32 (num + numNodes sec), u32 (ver + v),
        mkGS (gs_dvp st) w' (<[pNodes sec := nodes' ++ rest]> (gs_mem st)) g'
             (gs_lock st) (gs_log st) (gs_count st) (gs_tick st)).

Definition DVP_KernelGraph_Verify (st : graph_state) : outcome (Z * graph_state) :=
  let '(ok, gl) := dvp_graph_lock (gs_lock st) in
  let st := with_lock gl st in
  if negb ok then Done (DVP_FALSE, st)
  else
    st ← (if verified (gs_graph st) =? DVP_FALSE then
            '(num, ver, st) ← ofold verify_section (seqZ 0 (numSections (gs_graph st))) (0, 0, st);
            Done (if num =? ver then with_graph (set_verified DVP_TRUE (gs_graph st)) st else st)
          else Done st);
    let st := with_lock (dvp_graph_unlock (gs_lock st)) st in
    Done (verified (gs_graph st), st).

(** ** Processing *)

Section Process.
Variable fuel : nat.
Variable now : nat -> Z.
Variable sched : nat -> list nat.
Variable callback : bool.

(** [DVP_KernelGraphBoss_Process] on section [s]. *)
Definition process_section (s : Z) (sync : bool) (st : graph_state) : outcome (Z * graph_state) :=
  sec ← of_option (aget (sections (gs_graph st)) s);
  '(nodes, rest) ← of_option (section_nodes (gs_mem st) sec);
  ps ← DVP_KernelGraphBoss_Process fuel (gs_dvp st) (gs_w st) sec nodes sync
         (now (gs_tick st)) (now (S (gs_tick st)));
  g' ← of_option (update_section (gs_graph st) s (ps_section ps));
  Done (ps_processed ps,
        mkGS (ps_dvp ps) (ps_w ps) (<[pNodes sec := ps_nodes ps ++ rest]> (gs_mem st)) g'
             (gs_lock st) (gs_log st) (gs_count st) (gs_tick st + 2)).

(** The scan for the sections of one order, from section [s], with those
    collected so far.  [None]: more than [MAX_SECTIONS] would be needed. *)
Fixpoint collect_loop (o : Z) (orders : list Z) (secs : list DVP_KernelGraphSection_t)
    (s : Z) (acc : list Z) : outcome (option (list Z)) :=
  match secs with
  | [] => Done (Some acc)
  | sec :: secs' =>
      match orders with
      | [] => Undef
      | od :: orders' =>
          if (od =? o) && (Z.of_nat (length acc) <? MAX_SECTIONS) && (skipSection sec =? DVP_FALSE)
          then collect_loop o orders' secs' (s + 1) (acc ++ [s])
          else if MAX_SECTIONS <=? Z.of_nat (length acc) then Done None
          else collect_loop o orders' secs' (s + 1) acc
      end
  end.
Definition collect (g : DVP_KernelGraph_t) (o : Z) : outcome (option (list Z)) :=
  collect_loop o (order g) (sections g) 0 [].

(** The index a collector reports: the last section with the same array. *)
Definition collector_index (secs : list DVP_KernelGraphSection_t) (p : Z) : Z :=
  (foldl (fun '(s, found) sec => (s + 1, if pNodes sec =? p then s else found)) (0, 0) secs).2.

(** [dvp_kernelgraph_worker] for the section [s] of a round. *)
Definition dvp_kernelgraph_worker (st : graph_state) (s : Z) : outcome graph_state :=
  sec ← of_option (aget (sections (gs_graph st)) s);
  let index := collector_index (sections (gs_graph st)) (pNodes sec) in
  '(n, st) ← process_section s false st;
  Done (log_callback callback index n (count_section st)).

(** The sections of a round in the order in which their workers finish. *)
Definition scheduled (o : nat) (secs : list Z) : outcome (list Z) :=
  of_option (mapM (fun g => secs !! g) (sched o)).

(** One order: [None] when the order cannot be run, else the sections run. *)
Definition run_order (o : nat) (st : graph_state) : outcome (option Z * graph_state) :=
  found ← collect (gs_graph st) (Z.of_nat o);
  match found with
  | None => Done (None, st)
  | Some [] => Done (Some 0, st)
  | Some [s] =>
      '(n, st) ← process_section s true st;
      Done (Some 1, log_callback callback s n st)
  | Some secs =>
      todo ← scheduled o secs;
      st ← ofold dvp_kernelgraph_worker todo st;
      Done (Some (Z.of_nat (length secs)), st)
  end.

(** The loop over the orders: [false] after the early error return. *)
Fixpoint order_loop (n : nat) (o : nat) (st : graph_state) (run : Z) : outcome (bool * Z * graph_state) :=
  match n with
  | O => NoFuel
  | S n' =>
      '(r, st) ← run_order o st;
      match r with
      | None => Done (false, run, st)
      | Some k => if k =? 0 then Done (true, run, st) else order_loop n' (S o) st (u32 (run + k))
      end
  end.

Definition DVP_KernelGraph_Process (st : graph_state) : outcome (Z * graph_state) :=
  let '(ok, gl) := dvp_graph_lock (gs_lock st) in
  let st := with_lock gl st in
  if negb ok then Done (0, st)
  else
    '(go, st) ← (if verified (gs_graph st) =? DVP_FALSE then
                   let st := with_lock (dvp_graph_unlock (gs_lock st)) st in
                   '(v, st) ← DVP_KernelGraph_Verify st;
                   if v =? DVP_FALSE then Done (false, st)
                   else Done (true, with_lock (dvp_graph_lock (gs_lock st)).2 st)
                 else Done (true, st));
    if negb go then Done (0, st)
    else
      let g := gs_graph st in
      let st := tick 1 (with_graph (set_totalperf (DVP_PerformanceStart (now (gs_tick st)) (totalperf g)) g) st) in
      '(finished, run, st) ← order_loop (S (length (sections g))) 0 st 0;
      if negb finished then Done (run, st)
      else
        p ← DVP_PerformanceStop (now (gs_tick st)) (totalperf (gs_graph st));
        let st := tick 1 (with_graph (set_totalperf p (gs_graph st)) st) in
        Done (run, with_lock (dvp_graph_unlock (gs_lock st)) st).
End Process.

(** ** Capacity, queries and construction *)

Definition DVP_GetCoreCapacity (dvp : DVP_t W) (core : Z) : outcome Z :=
  '(newMaxload, hwMaxLoad) ← DVP_GetMaxLoad dvp core 0;
  if hwMaxLoad =? 0 then Done 0
  else Done (u32 (newMaxload * DVP_CAPACITY_DATA_RANGE) / hwMaxLoad).

Definition DVP_SetCoreCapacity (dvp : DVP_t W) (core limit : Z) : outcome (DVP_t W) :=
  '(_, hwMaxLoad) ← DVP_GetMaxLoad dvp core 0;
  let limit := if DVP_CAPACITY_DATA_RANGE <? limit then DVP_CAPACITY_DATA_RANGE else limit in
  DVP_SetMaxLoad dvp core (u32 (limit * hwMaxLoad) / DVP_CAPACITY_DATA_RANGE).

Definition all_cores : list Z := seqZ 0 DVP_CORE_MAX.

Definition DVP_QuerySystem (dvp : DVP_t W) (info : list DVP_CoreInfo_t) : outcome (list DVP_CoreInfo_t) :=
  ofold (fun l c => i ← of_option (aget l c); i' ← DVP_QueryCore dvp c i; of_option (aset l c i'))
    all_cores info.

Definition DVP_QueryKernel (dvp : DVP_t W) (k : Z) (present : list bool) : outcome (list bool) :=
  ofold (fun l c => b ← DVP_QueryCoreForKernel dvp k c; of_option (aset l c b)) all_cores present.

Definition DVP_KernelGraphSection_Init (g : DVP_KernelGraph_t) (sectionIndex nodes num : Z)
    : Z * DVP_KernelGraph_t :=
  if sectionIndex <? numSections g then
    match aget (sections g) sectionIndex with
    | Some sec =>
        match update_section g sectionIndex (mkSection nodes num (sperf sec) (coreLoad sec) (skipSection sec)) with
        | Some g' => (DVP_SUCCESS, g')
        | None => (DVP_ERROR_INVALID_PARAMETER, g)
        end
    | None => (DVP_ERROR_INVALID_PARAMETER, g)
    end
  else (DVP_ERROR_INVALID_PARAMETER, g).

(** [graph_ok], [sections_ok] and [order_ok] are whether the three
    allocations succeed. *)
Definition DVP_KernelGraph_Alloc (freq n : Z) (graph_ok sections_ok order_ok : bool)
    : option DVP_KernelGraph_t :=
  let zero := mkPerf 0 0 0 0 0 0 0 in
  let perf := mkPerf 0 0 MAX_RTIMER_T 0 0 0 freq in
  if negb graph_ok then None
  else if 0 <? n then
    if sections_ok && order_ok
    then Some (mkGraph (replicate (Z.to_nat n) (mkSection 0 0 perf (replicate num_cores 0) DVP_FALSE))
                       (replicate (Z.to_nat n) 0) perf DVP_FALSE)
    else None
  else Some (mkGraph [] [] zero DVP_FALSE).

Definition add_shift (s shift : dvp_image_shift_t) : dvp_image_shift_t :=
  mkShift (s32 (centerShiftHorz shift + centerShiftHorz s)) (s32 (centerShiftVert shift + centerShiftVert s))
          (s32 (topBorder shift + topBorder s)) (s32 (rightBorder shift + rightBorder s))
          (s32 (bottomBorder shift + bottomBorder s)) (s32 (leftBorder shift + leftBorder s)).

Definition DVP_KernelGraph_ImageShiftAccum (dvp : DVP_t W) (n : DVP_KernelNode_t)
    (shift : dvp_image_shift_t) : outcome dvp_image_shift_t :=
  if mgrIndex (header n) <? DVP_CORE_MAX then
    m ← of_option (aget (managers dvp) (mgrIndex (header n)));
    if funcIndex (header n) <=? numSupportedKernels m then
      f ← of_option (aget (default [] (kernels m)) (funcIndex (header n)));
      match cf_shift f, cf_shift_func f with
      | Some s, _ => Done (add_shift s shift)
      | None, Some fn => Done (fn n shift)
      | None, None => Done shift
      end
    else Done shift
  else Done shift.

End Graph.
Arguments graph_state : clear implicits.
