(* ===== verification/GraphProcess.v ===== *)
(** * The rounds of a graph, and processing it (facts about dvp_kgraph.c)

    [group g o] is the reference for one order: the indices of the sections
    of that order that are not skipped.  The orders run are those before the
    first empty group.  Under [graph_inv], which every section run preserves,
    each section of a round runs to its end, the load table is given back,
    and the rounds of the graph follow the reference groups. *)
From S2P Require Import Prelude DvpTypes Perf GraphLock KernelGraphManager KernelGraphBoss ManagerSelection.
From S2P Require Import Configure LoadTable Dispatch Execution KernelGraph.

(** ** The reference *)

Definition selected (o od : Z) (sec : DVP_KernelGraphSection_t) : bool :=
  (od =? o) && (skipSection sec =? DVP_FALSE).
Definition selection (g : DVP_KernelGraph_t) (o : Z) : list bool :=
  zip_with (selected o) (order g) (sections g).
Fixpoint trues (s : Z) (ms : list bool) : list Z :=
  match ms with
  | [] => []
  | m :: ms' => if m then s :: trues (s + 1) ms' else trues (s + 1) ms'
  end.
Definition group (g : DVP_KernelGraph_t) (o : Z) : list Z := trues 0 (selection g o).

(** Fewer than four sections are selected ahead of any section. *)
Definition fits (k : nat) (ms : list bool) : Prop :=
  forall pre b post, ms = pre ++ b :: post -> Z.of_nat k + Z.of_nat (length (trues 0 pre)) < MAX_SECTIONS.
Definition fits_in_pool (g : DVP_KernelGraph_t) (o : Z) : Prop := fits 0 (selection g o).

Definition well_formed (g : DVP_KernelGraph_t) : Prop := length (order g) = length (sections g).

Lemma trues_length ms : forall s t, length (trues s ms) = length (trues t ms).
Proof. induction ms as [|[] ms IH]; intros s t; simpl; [done|by rewrite (IH _ (t + 1))|apply IH]. Qed.

Lemma fits_cons k m ms :
  fits k (m :: ms) <-> Z.of_nat k < MAX_SECTIONS /\ fits (if m then S k else k) ms.
Proof.
  split.
  - intros H. split; [specialize (H [] m ms eq_refl); simpl in H; lia|].
    intros pre b post ->. specialize (H (m :: pre) b post eq_refl). destruct m; simpl in H.
    + rewrite (trues_length _ _ 0) in H. lia.
    + by rewrite (trues_length _ _ 0) in H.
  - intros [Hk H] [|x pre] b post [= -> ->]; simpl; [lia|].
    specialize (H pre b post eq_refl). destruct x; simpl; rewrite (trues_length _ _ 0); lia.
Qed.

Lemma collect_loop_spec o secs : forall orders s acc,
  length orders = length secs -> Z.of_nat (length acc) <= MAX_SECTIONS ->
  let ms := zip_with (selected o) orders secs in
  (fits (length acc) ms /\ collect_loop o orders secs s acc = Done (Some (acc ++ trues s ms))) \/
  (~ fits (length acc) ms /\ collect_loop o orders secs s acc = Done None).
Proof.
  induction secs as [|sec secs IH]; intros [|od orders] s acc Hl Ha; try done; simpl.
  { left. split; [by intros [|] ? ? ?|by rewrite app_nil_r]. }
  injection Hl as Hl. rewrite fits_cons.
  destruct (Z.leb_spec MAX_SECTIONS (Z.of_nat (length acc))) as [Hge|Hlt].
  - right. split; [lia|]. rewrite (proj2 (Z.ltb_ge _ _)) by done. by rewrite andb_false_r.
  - rewrite (proj2 (Z.ltb_lt _ _)) by done. rewrite andb_true_r. fold (selected o od sec).
    destruct (selected o od sec); simpl.
    + destruct (IH orders (s + 1) (acc ++ [s]) Hl) as [[Hf ->]|[Hf ->]];
        rewrite ?length_app; simpl; [unfold MAX_SECTIONS in *; lia| |];
        rewrite length_app, Nat.add_1_r in Hf.
      * left. rewrite <- app_assoc. by split_and!.
      * right. split; [tauto|done].
    + destruct (IH orders (s + 1) acc Hl) as [[Hf ->]|[Hf ->]]; [lia| |].
      * left. by split_and!.
      * right. split; [tauto|done].
Qed.

(** ** The rounds end *)

Lemma trues_elem ms s x : x ∈ trues s ms <-> exists i : nat, x = s + Z.of_nat i /\ ms !! i = Some true.
Proof.
  revert s. induction ms as [|m ms IH]; intros s; simpl.
  - split; [by intros ?%elem_of_nil|]. by intros (i & _ & ?).
  - assert (x ∈ trues (s + 1) ms <-> exists i : nat, x = s + Z.of_nat (S i) /\ ms !! i = Some true) as H.
    { rewrite IH. split; intros (i & ? & ?); exists i; (split; [lia|done]). }
    destruct m.
    + rewrite elem_of_cons, H. split.
      * intros [->|(i & ? & ?)]; [exists 0%nat; split; [lia|done]|by exists (S i)].
      * intros ([|i] & ? & ?); [left; lia|right; by exists i].
    + rewrite H. split; [intros (i & ? & ?); by exists (S i)|].
      intros ([|i] & ? & ?); [done|by exists i].
Qed.

Lemma group_elem g o x :
  x ∈ group g o <-> exists i sec od, x = Z.of_nat i /\ sections g !! i = Some sec /\
    order g !! i = Some od /\ od = o /\ skipSection sec = DVP_FALSE.
Proof.
  unfold group. rewrite trues_elem. split.
  - intros (i & -> & Hi). apply lookup_zip_with_Some in Hi as (od & sec & Ht & Ho & Hs).
    symmetry in Ht. apply andb_true_iff in Ht as [?%Z.eqb_eq ?%Z.eqb_eq].
    exists i, sec, od. split_and!; [lia|done..].
  - intros (i & sec & od & -> & Hs & Ho & -> & Hk). exists i. split; [lia|].
    apply lookup_zip_with_Some. exists o, sec. split_and!; [|done..].
    unfold selected. by rewrite Hk, !Z.eqb_refl.
Qed.

Lemma trues_NoDup ms : forall s, NoDup (trues s ms).
Proof.
  induction ms as [|m ms IH]; intros s; simpl; [constructor|]. destruct m; [|apply IH].
  constructor; [|apply IH]. rewrite trues_elem. intros (i & ? & _). lia.
Qed.

(** The first order without a section to run comes before the number of
    sections is exceeded. *)
Lemma rounds_end g : well_formed g -> exists d : nat,
  (d <= length (sections g))%nat /\ group g (Z.of_nat d) = [] /\
  forall o : nat, (o < d)%nat -> group g (Z.of_nat o) <> [].
Proof.
  intros Hw.
  assert (forall k : nat, (forall o : nat, (o < k)%nat -> group g (Z.of_nat o) <> []) \/
    exists d : nat, (d < k)%nat /\ group g (Z.of_nat d) = [] /\
      forall o : nat, (o < d)%nat -> group g (Z.of_nat o) <> []) as Hscan.
  { induction k as [|k [IH|(d & ? & ? & ?)]]; [left; lia| |right; exists d; split_and!; [lia|done..]].
    destruct (decide (group g (Z.of_nat k) = [])) as [He|He].
    - right. exists k. split_and!; [lia|done..].
    - left. intros o Ho. destruct (decide (o = k)) as [->|]; [done|]. apply IH. lia. }
  destruct (Hscan (S (length (sections g)))) as [Hall|(d & ? & ? & ?)].
  2: { exists d. split_and!; [lia|done..]. }
  exfalso.
  assert (incl (Z.of_nat <$> seq 0 (S (length (sections g)))) (order g)) as Hincl.
  { intros x Hx. apply list_elem_of_In, list_elem_of_fmap in Hx as (o & -> & Ho).
    apply elem_of_seq in Ho.
    destruct (group g (Z.of_nat o)) as [|y l] eqn:Hg; [by destruct (Hall o); [lia|]|].
    assert (y ∈ group g (Z.of_nat o)) as Hy by (rewrite Hg; by left).
    apply group_elem in Hy as (i & sec & od & _ & _ & Hod & <- & _).
    apply list_elem_of_In. by eapply list_elem_of_lookup_2. }
  apply NoDup_incl_length in Hincl.
  - rewrite length_map, length_seq in Hincl. unfold well_formed in Hw. lia.
  - apply NoDup_ListNoDup, NoDup_fmap_2; [apply _|apply NoDup_seq].
Qed.

Lemma fits_bound ms : forall k s, fits k ms -> Z.of_nat k <= MAX_SECTIONS ->
  Z.of_nat k + Z.of_nat (length (trues s ms)) <= MAX_SECTIONS.
Proof.
  induction ms as [|m ms IH]; intros k s Hf Hk; simpl; [lia|].
  apply fits_cons in Hf as [Hlt Hf]. destruct m; simpl.
  - specialize (IH (S k) (s + 1) Hf). lia.
  - by apply IH.
Qed.
Lemma group_bound g o : fits_in_pool g o -> Z.of_nat (length (group g o)) <= MAX_SECTIONS.
Proof. intros Hf. apply (fits_bound _ 0 0) in Hf; [|done]. unfold group. lia. Qed.

(** ** Reported indices and schedules *)

Lemma collector_index_none secs p : forall s f,
  (forall sec, sec ∈ secs -> pNodes sec <> p) ->
  (foldl (fun '(s, found) sec => (s + 1, if pNodes sec =? p then s else found)) (s, f) secs).2 = f.
Proof.
  induction secs as [|sec secs IH]; intros s f H; [done|]. simpl.
  rewrite (proj2 (Z.eqb_neq _ _)) by (apply H; by left). apply IH. intros x ?. apply H. by right.
Qed.
Lemma collector_index_spec secs : forall (i : nat) sec s f,
  NoDup (pNodes <$> secs) -> secs !! i = Some sec ->
  (foldl (fun '(s, found) sec' => (s + 1, if pNodes sec' =? pNodes sec then s else found)) (s, f) secs).2
  = s + Z.of_nat i.
Proof.
  induction secs as [|x secs IH]; intros [|i] sec s f Hnd Hi; [done..| |];
    rewrite fmap_cons in Hnd; apply NoDup_cons in Hnd as [Hx Hnd]; simpl in *.
  - injection Hi as ->. rewrite Z.eqb_refl, collector_index_none; [lia|].
    intros y Hy Heq. apply Hx. rewrite <- Heq. by apply list_elem_of_fmap_2.
  - rewrite (IH i sec (s + 1)) by done. lia.
Qed.

Lemma mapM_perm {A B} (f : A -> option B) l l' k :
  l ≡ₚ l' -> mapM f l = Some k -> exists k', mapM f l' = Some k' /\ k ≡ₚ k'.
Proof.
  intros Hp. revert k. induction Hp as [|x l l' Hp IH|x y l|l1 l2 l3 Hp1 IH1 Hp2 IH2]; intros k Hk.
  - by exists k.
  - simpl in *. destruct (f x) as [b|]; [|done]. simpl in *.
    destruct (mapM f l) as [k0|]; [|done]. injection Hk as <-.
    destruct (IH k0 eq_refl) as (k' & -> & ?). exists (b :: k'). split; [done|]. by constructor.
  - simpl in *. destruct (f x), (f y); try done. simpl in *. destruct (mapM f l); [|done].
    injection Hk as <-. eexists. split; [done|]. constructor.
  - destruct (IH1 k Hk) as (k1 & Hk1 & ?). destruct (IH2 k1 Hk1) as (k2 & ? & ?).
    exists k2. split; [done|]. by transitivity k1.
Qed.
Lemma mapM_lookup_seq {A} (l : list A) : mapM (fun i => l !! i) (seq 0 (length l)) = Some l.
Proof.
  apply mapM_Some_2. apply Forall2_same_length_lookup_2; [by rewrite length_seq|].
  intros i j x Hj Hx. apply lookup_seq in Hj as [-> _]. done.
Qed.
Lemma scheduled_perm {sched : nat -> list nat} o (secs : list Z) :
  sched o ≡ₚ seq 0 (length secs) -> exists todo, scheduled sched o secs = Done todo /\ secs ≡ₚ todo.
Proof.
  intros Hp. symmetry in Hp.
  destruct (mapM_perm _ _ _ _ Hp (mapM_lookup_seq secs)) as (todo & Ht & ?).
  exists todo. unfold scheduled. by rewrite Ht.
Qed.

Section Processing.
Context {W : Type}.
Implicit Types (st : graph_state W) (dvp : DVP_t W) (sec : DVP_KernelGraphSection_t).

(** ** The invariant *)

(** The section can be run [b] more times. *)
Definition runnable (b : Z) dvp (mem : gmap Z (list DVP_KernelNode_t)) sec : Prop :=
  exists arr, mem !! pNodes sec = Some arr /\ numNodes sec <= Z.of_nat (length arr) /\
    0 < numNodes sec < 2 ^ 32 /\ length (coreLoad sec) = num_cores /\
    Forall (dispatchable dvp) (managers_of (take (Z.to_nat (numNodes sec)) arr)) /\
    (commit_ref (coreLoad sec) (cores (loads dvp))).1 = true /\
    0 <= numTimes (sperf sec) /\ numTimes (sperf sec) + b < 2 ^ 32.

Definition same_section (s s' : DVP_KernelGraphSection_t) : Prop :=
  pNodes s' = pNodes s /\ numNodes s' = numNodes s /\ coreLoad s' = coreLoad s /\
  skipSection s' = skipSection s.

Record graph_inv (b : Z) dvp (g : DVP_KernelGraph_t) st : Prop := {
  gi_dvp : gs_dvp st = dvp;
  gi_lawful : lawful dvp;
  gi_table : table_ok (loads dvp);
  gi_order : order (gs_graph st) = order g;
  gi_verified : verified (gs_graph st) = verified g;
  gi_total : numTimes (totalperf (gs_graph st)) = numTimes (totalperf g);
  gi_shape : Forall2 same_section (sections g) (sections (gs_graph st));
  gi_run : forall i sec, sections (gs_graph st) !! i = Some sec -> skipSection sec = DVP_FALSE ->
    runnable b dvp (gs_mem st) sec }.

Lemma runnable_weaken b b' dvp mem sec : b' <= b -> runnable b dvp mem sec -> runnable b' dvp mem sec.
Proof. intros ? (arr & ?). exists arr. intuition lia. Qed.

Lemma graph_inv_weaken b b' dvp g st : b' <= b -> graph_inv b dvp g st -> graph_inv b' dvp g st.
Proof.
  intros Hb [? ? ? ? ? ? ? Hrun]. split; [done..|]. intros i sec ? ?.
  eapply runnable_weaken; [exact Hb|by eapply Hrun].
Qed.
Lemma graph_inv_count b dvp g st : graph_inv b dvp g st -> graph_inv b dvp g (count_section st).
Proof. intros [? ? ? ? ? ? ? ?]. by split. Qed.

(** A run that keeps the routing of an array keeps the sections on it. *)
Lemma runnable_mem b dvp mem sec p nodes nodes' rest :
  mem !! p = Some (nodes ++ rest) -> Forall2 same_routing nodes nodes' ->
  runnable b dvp mem sec -> runnable b dvp (<[p := nodes' ++ rest]> mem) sec.
Proof.
  intros Hp Hr (arr & Hm & Hlen & Hn & Hc & Hd & Hfit & Ht).
  destruct (Z.eq_dec (pNodes sec) p) as [<-|Hne].
  - rewrite Hp in Hm. injection Hm as <-. exists (nodes' ++ rest).
    assert (managers_of (nodes' ++ rest) = managers_of (nodes ++ rest)) as Hms.
    { unfold managers_of. rewrite !fmap_app. f_equal. by apply routing_mgr. }
    split_and!; [by simplify_map_eq| |lia..|done| |done|lia|lia].
    + rewrite length_app in *. by rewrite (routing_length _ _ Hr).
    + unfold managers_of in *. rewrite fmap_take in *. by rewrite Hms.
  - exists arr. split_and!; [by simplify_map_eq|lia..|done|done|done|lia|lia].
Qed.

Lemma dispatchable_nodes dvp nodes :
  Forall (dispatchable dvp) (managers_of nodes) ->
  Forall (fun n => dispatchable dvp (mgrIndex (header n))) nodes.
Proof. unfold managers_of. by rewrite Forall_fmap. Qed.

Lemma update_section_at g (i : nat) sec sec' :
  sections g !! i = Some sec ->
  update_section g (Z.of_nat i) sec' =
    Some (mkGraph (<[i := sec']> (sections g)) (order g) (totalperf g) (verified g)).
Proof.
  intros Hi. unfold update_section. rewrite aset_nat; [done|]. by eapply lookup_lt_Some.
Qed.

Variable fuel : nat.
Variable now : nat -> Z.
Variable sched : nat -> list nat.
Variable callback : bool.
Hypothesis fuel_enough : (0 < fuel)%nat.

Lemma graph_inv_log b dvp g st s n : graph_inv b dvp g st -> graph_inv b dvp g (log_callback callback s n st).
Proof. intros [? ? ? ? ? ? ? ?]. unfold log_callback. destruct callback; by split. Qed.

Lemma boss_process_runs dvp w sec nodes sync t0 t1 :
  lawful dvp -> ready dvp sec nodes -> table_ok (loads dvp) ->
  (commit_ref (coreLoad sec) (cores (loads dvp))).1 = true ->
  0 <= numTimes (sperf sec) -> numTimes (sperf sec) + 1 < 2 ^ 32 ->
  exists w' nodes' k p,
    DVP_KernelGraphBoss_Process fuel dvp w sec nodes sync t0 t1 =
      Done (mkPS dvp w' (set_sperf p sec) nodes' k 0) /\
    0 <= k <= numNodes sec /\ Forall2 same_routing nodes nodes' /\
    numTimes p = numTimes (sperf sec) + 1.
Proof.
  intros Hl Hr Hok Hfit Hc Hc0. destruct fuel as [|fuel']; [lia|].
  set (sec' := set_sperf (DVP_PerformanceStart t0 (sperf sec)) sec).
  destruct (process_loop_commits dvp w sec' nodes sync fuel' Hl Hr Hok Hfit)
    as (w' & n' & k & He & Hk & Hsr & Hp).
  change (numNodes sec') with (numNodes sec) in Hk.
  destruct (stop_counts t1 (DVP_PerformanceStart t0 (sperf sec))) as (p & Hstop & Hcount);
    [done..|]. simpl in Hcount.
  exists w', n', k, p. split_and!; [|lia..|done|done].
  unfold DVP_KernelGraphBoss_Process. fold sec'. rewrite Hp. simpl. by rewrite Hstop.
Qed.

(** What a section run leaves alone. *)
Definition same_frame st st' : Prop :=
  gs_lock st' = gs_lock st /\ gs_log st' = gs_log st /\ gs_count st' = gs_count st.

Lemma process_section_inv b dvp g st (i : nat) sec sync :
  0 <= b -> graph_inv (b + 1) dvp g st -> sections (gs_graph st) !! i = Some sec ->
  skipSection sec = DVP_FALSE ->
  exists n st', process_section fuel now (Z.of_nat i) sync st = Done (n, st') /\
    0 <= n <= numNodes sec /\ graph_inv b dvp g st' /\ same_frame st st'.
Proof.
  intros Hb [Hdvp Hlaw Htab Hord Hver Htot Hshape Hrun] Hi Hskip.
  pose proof (Hrun i sec Hi Hskip) as (arr & Hm & Hlen & Hn & Hc & Hd & Hfit & Ht0 & Ht).
  set (nodes := take (Z.to_nat (numNodes sec)) arr) in *. set (rest := drop (Z.to_nat (numNodes sec)) arr).
  assert (arr = nodes ++ rest) as Harr by (symmetry; apply take_drop).
  assert (ready dvp sec nodes) as Hready.
  { split_and!; [|lia..|done|by apply dispatchable_nodes]. unfold nodes. rewrite length_take. lia. }
  destruct (boss_process_runs dvp (gs_w st) sec nodes sync (now (gs_tick st)) (now (S (gs_tick st)))
    Hlaw Hready Htab Hfit) as (w' & n' & k & p & Hp & Hk & Hr & Hcount); [lia|lia|].
  unfold process_section. rewrite aget_nat, Hi. simpl.
  unfold section_nodes. rewrite Hm. simpl. rewrite (proj2 (Z.leb_le _ _)) by done. simpl.
  rewrite Hdvp. fold nodes. rewrite Hp. simpl. rewrite (update_section_at _ _ _ _ Hi). simpl.
  eexists _, _. split_and!; [done|lia|lia| |done]. fold rest.
  split; simpl; [done..| |].
  - destruct (Forall2_lookup_r _ _ _ _ _ Hshape Hi) as (s0 & Hs0 & Hsame).
    rewrite <- (list_insert_id (sections g) i s0) by done. by apply Forall2_insert.
  - intros j s Hj Hs.
    assert (exists s0, sections (gs_graph st) !! j = Some s0 /\ same_section s0 s /\
      0 <= numTimes (sperf s) /\ numTimes (sperf s) <= numTimes (sperf s0) + 1) as (s0 & Hj0 & Hsame & Hq0 & Hq).
    { destruct (decide (j = i)) as [->|Hne].
      - rewrite list_lookup_insert_eq in Hj by (by eapply lookup_lt_Some). injection Hj as <-.
        exists sec. simpl. split_and!; [done|done|lia|lia].
      - rewrite list_lookup_insert_ne in Hj by done. exists s. split_and!; [done|done| |lia].
        by destruct (Hrun j s Hj Hs) as (? & _ & _ & _ & _ & _ & _ & ? & _). }
    destruct Hsame as (Hs1 & Hs2 & Hs3 & Hs4).
    assert (runnable (b + 1) dvp (gs_mem st) s0) as Hr0 by (apply (Hrun j); [done|congruence]).
    apply (runnable_mem _ _ _ _ (pNodes sec) nodes n' rest) in Hr0; [|by rewrite Hm, Harr|done].
    destruct Hr0 as (arr0 & ? & ? & ? & ? & ? & ? & ? & ?). exists arr0.
    rewrite Hs1, Hs2, Hs3. split_and!; [done|lia..|done|done|done|lia|lia].
Qed.

(** ** Workers and rounds *)

(** The callbacks a list of section runs makes. *)
Definition reports (tr : list Z) (log : list (Z * Z)) : Prop :=
  if callback then log.*1 = tr else log = [].

Lemma reports_app tr tr' l l' : reports tr l -> reports tr' l' -> reports (tr ++ tr') (l ++ l').
Proof.
  unfold reports. destruct callback; [|by intros -> ->]. intros <- <-. by rewrite fmap_app.
Qed.
Lemma log_callback_log s n st : exists new, gs_log (log_callback callback s n st) = gs_log st ++ new /\
  reports [s] new /\ gs_lock (log_callback callback s n st) = gs_lock st.
Proof.
  unfold reports, log_callback. destruct callback; [by exists [(s, n)]|].
  exists []. by rewrite app_nil_r.
Qed.

Lemma same_section_arrays l l' : Forall2 same_section l l' -> pNodes <$> l' = pNodes <$> l.
Proof. induction 1 as [|s s' l l' (H & _) _ IH]; [done|]. by rewrite !fmap_cons, H, IH. Qed.

Lemma selection_shape g g' o :
  order g' = order g -> Forall2 same_section (sections g) (sections g') -> selection g' o = selection g o.
Proof.
  unfold selection. intros -> H. generalize (order g). induction H as [|s s' l l' (_ & _ & _ & Hs) _ IH];
    intros [|od ods]; [done..|]. simpl. f_equal; [unfold selected; by rewrite Hs|apply IH].
Qed.

Lemma member_runs b dvp g st o x :
  graph_inv b dvp g st -> x ∈ group g o ->
  exists (i : nat) sec, x = Z.of_nat i /\ sections (gs_graph st) !! i = Some sec /\ skipSection sec = DVP_FALSE.
Proof.
  intros [_ _ _ Hord _ _ Hshape _] Hx.
  assert (group g o = group (gs_graph st) o) as Hg by (unfold group; by rewrite (selection_shape g (gs_graph st))).
  rewrite Hg in Hx. apply group_elem in Hx as (i & sec & od & -> & Hi & _ & _ & ?). by exists i, sec.
Qed.

Lemma worker_inv b dvp g st o x :
  0 <= b -> NoDup (pNodes <$> sections g) -> graph_inv (b + 1) dvp g st -> x ∈ group g o ->
  exists st', dvp_kernelgraph_worker fuel now callback st x = Done st' /\ graph_inv b dvp g st' /\
    gs_lock st' = gs_lock st /\ exists new, gs_log st' = gs_log st ++ new /\ reports [x] new.
Proof.
  intros Hb Hnd Hinv Hx. destruct (member_runs _ _ _ _ _ _ Hinv Hx) as (i & sec & -> & Hi & Hs).
  unfold dvp_kernelgraph_worker. rewrite aget_nat, Hi. simpl.
  destruct (process_section_inv b dvp g st i sec false Hb Hinv Hi Hs)
    as (n & st1 & -> & _ & Hinv1 & Hlock & Hlog & _). simpl.
  unfold collector_index. rewrite (collector_index_spec _ i sec); [|
    by rewrite (same_section_arrays _ _ (gi_shape _ _ _ _ Hinv))|done].
  destruct (log_callback_log (0 + Z.of_nat i) n (count_section st1)) as (new & Hnew & Hrep & Hlk).
  eexists. split_and!; [done|by apply graph_inv_log, graph_inv_count|by rewrite Hlk|].
  exists new. rewrite Hnew. simpl. by rewrite Hlog.
Qed.

Lemma workers_inv dvp g o todo : NoDup (pNodes <$> sections g) -> (forall x, x ∈ todo -> x ∈ group g o) ->
  forall b st, 0 <= b -> graph_inv (b + Z.of_nat (length todo)) dvp g st ->
  exists st', ofold (dvp_kernelgraph_worker fuel now callback) todo st = Done st' /\ graph_inv b dvp g st' /\
    gs_lock st' = gs_lock st /\ exists new, gs_log st' = gs_log st ++ new /\ reports todo new.
Proof.
  intros Hnd. induction todo as [|x todo IH]; intros Hin b st Hb Hinv; simpl in *.
  { exists st. rewrite Z.add_0_r in Hinv. split_and!; [done..|]. exists []. rewrite app_nil_r.
    split; [done|]. unfold reports. by destruct callback. }
  destruct (worker_inv (b + Z.of_nat (length todo)) dvp g st o x) as (st1 & -> & Hinv1 & Hl1 & n1 & Hn1 & Hr1);
    [lia|done|by replace (b + Z.of_nat (length todo) + 1) with (b + Z.of_nat (S (length todo))) by lia|
     apply Hin; by left|]. simpl.
  destruct (IH ltac:(intros y ?; apply Hin; by right) b st1 Hb Hinv1) as (st2 & -> & ? & Hl2 & n2 & Hn2 & Hr2).
  exists st2. split_and!; [done..|congruence|]. exists (n1 ++ n2). split.
  - by rewrite Hn2, Hn1, app_assoc.
  - by apply (reports_app [x]).
Qed.

(** One order runs exactly its group, in some order. *)
Lemma run_order_inv dvp g (o : nat) b st :
  0 <= b -> well_formed g -> NoDup (pNodes <$> sections g) -> fits_in_pool g (Z.of_nat o) ->
  sched o ≡ₚ seq 0 (length (group g (Z.of_nat o))) ->
  graph_inv (b + MAX_SECTIONS) dvp g st ->
  exists tr st', run_order fuel now sched callback o st =
      Done (Some (Z.of_nat (length (group g (Z.of_nat o)))), st') /\
    group g (Z.of_nat o) ≡ₚ tr /\ graph_inv b dvp g st' /\ gs_lock st' = gs_lock st /\
    exists new, gs_log st' = gs_log st ++ new /\ reports tr new.
Proof.
  intros Hb Hw Hnd Hfit Hsched Hinv. pose proof (group_bound _ _ Hfit) as Hbound.
  unfold run_order, collect.
  destruct (collect_loop_spec (Z.of_nat o) (sections (gs_graph st)) (order (gs_graph st)) 0 [])
    as [[_ Hc]|[Hno _]].
  - rewrite (gi_order _ _ _ _ Hinv). unfold well_formed in Hw.
    by rewrite Hw, (Forall2_length _ _ _ (gi_shape _ _ _ _ Hinv)).
  - simpl. unfold MAX_SECTIONS. lia.
  - rewrite Hc. fold (selection (gs_graph st) (Z.of_nat o)).
    rewrite (selection_shape g (gs_graph st)) by apply Hinv. simpl.
    change (trues 0 (selection g (Z.of_nat o))) with (group g (Z.of_nat o)).
    destruct (group g (Z.of_nat o)) as [|s1 [|s2 l]] eqn:Hg.
    + exists [], st. split_and!; [done..| |done|].
      * eapply graph_inv_weaken; [|done]. unfold MAX_SECTIONS. lia.
      * exists []. rewrite app_nil_r. split; [done|]. unfold reports. by destruct callback.
    + destruct (member_runs _ _ _ _ (Z.of_nat o) s1 Hinv) as (i & sec & -> & Hi & Hs);
        [rewrite Hg; by left|].
      apply (graph_inv_weaken _ (b + 1)) in Hinv; [|unfold MAX_SECTIONS; lia].
      destruct (process_section_inv b dvp g st i sec true Hb Hinv Hi Hs)
        as (n & st1 & -> & _ & Hinv1 & Hlock & Hlog & _). simpl.
      destruct (log_callback_log (Z.of_nat i) n st1) as (new & Hnew & Hrep & Hlk).
      eexists _, _. split_and!; [done|done|by apply graph_inv_log|by rewrite Hlk|].
      exists new. by rewrite Hnew, Hlog.
    + rewrite <- Hg in *. destruct (scheduled_perm _ _ Hsched) as (todo & -> & Hp). simpl.
      apply (graph_inv_weaken _ (b + Z.of_nat (length todo))) in Hinv;
        [|rewrite <- (Permutation_length Hp); lia].
      destruct (workers_inv dvp g (Z.of_nat o) todo Hnd) with (b := b) (st := st)
        as (st1 & -> & ? & ? & ?); [intros x; by rewrite Hp|done|done|]. simpl.
      exists todo, st1. by split_and!.
  - destruct Hno. fold (selection (gs_graph st) (Z.of_nat o)).
    rewrite (selection_shape g (gs_graph st)) by apply Hinv. exact Hfit.
Qed.

(** The rounds from order [o] to the first empty one, [d]. *)
Lemma order_loop_inv dvp g (d : nat) :
  well_formed g -> NoDup (pNodes <$> sections g) -> group g (Z.of_nat d) = [] ->
  (forall o : nat, (o <= d)%nat -> fits_in_pool g (Z.of_nat o) /\
     sched o ≡ₚ seq 0 (length (group g (Z.of_nat o)))) ->
  (forall o : nat, (o < d)%nat -> group g (Z.of_nat o) <> []) ->
  forall (k n o : nat) b st run, (o + k = d)%nat -> (k < n)%nat -> 0 <= b -> 0 <= run ->
  run + MAX_SECTIONS * Z.of_nat k < 2 ^ 32 ->
  graph_inv (b + MAX_SECTIONS * Z.of_nat (S k)) dvp g st ->
  exists trs st', order_loop fuel now sched callback n o st run =
      Done (true, run + Z.of_nat (length (concat trs)), st') /\
    length trs = k /\
    (forall (j : nat) t, trs !! j = Some t -> group g (Z.of_nat (o + j)) ≡ₚ t) /\
    graph_inv b dvp g st' /\ gs_lock st' = gs_lock st /\
    exists new, gs_log st' = gs_log st ++ new /\ reports (concat trs) new.
Proof.
  intros Hw Hnd Hend Hfit Hfull. induction k as [|k IH]; intros n o b st run Hk Hn Hb Hrun Hov Hinv;
    (destruct n as [|n]; [lia|]); simpl;
    destruct (Hfit o ltac:(lia)) as [Hf Hs].
  - replace o with d in * by lia. destruct (run_order_inv dvp g d b st) as (tr & st1 & -> & Hp & ? & ? & new & ? & ?);
      [done..| |]. { eapply graph_inv_weaken; [|exact Hinv]. unfold MAX_SECTIONS. lia. }
    rewrite Hend in *. simpl. apply Permutation_nil_l in Hp as <-.
    exists [], st1. simpl. rewrite Z.add_0_r. split_and!; [done|done|by intros ? ? ?|done|done|by exists new].
  - destruct (run_order_inv dvp g o (b + MAX_SECTIONS * Z.of_nat (S k)) st)
      as (tr & st1 & -> & Hp & Hinv1 & Hl1 & n1 & Hlog1 & Hr1); [unfold MAX_SECTIONS in *; lia|done..| |].
    { eapply graph_inv_weaken; [|exact Hinv]. unfold MAX_SECTIONS. lia. }
    pose proof (Permutation_length Hp) as Hlen. pose proof (group_bound _ _ Hf) as Hbd.
    assert (0 < length (group g (Z.of_nat o)))%nat as Hpos.
    { pose proof (Hfull o ltac:(lia)). destruct (group g (Z.of_nat o)); simpl; [done|lia]. }
    simpl. rewrite (proj2 (Z.eqb_neq _ _)) by lia.
    rewrite u32_small by (unfold is_u32, MAX_SECTIONS in *; lia).
    destruct (IH n (S o) b st1 (run + Z.of_nat (length (group g (Z.of_nat o)))))
      as (trs & st2 & -> & Hlt & Htr & ? & Hl2 & n2 & Hlog2 & Hr2);
      [lia..|done|lia|unfold MAX_SECTIONS in *; lia|done|].
    exists (tr :: trs), st2. simpl. rewrite length_app. split_and!.
    + f_equal. f_equal. f_equal. lia.
    + by rewrite Hlt.
    + intros [|j] t Ht; simpl in Ht.
      * injection Ht as <-. by rewrite Nat.add_0_r.
      * replace (o + S j)%nat with (S o + j)%nat by lia. by apply Htr.
    + done.
    + congruence.
    + exists (n1 ++ n2). split; [by rewrite Hlog2, Hlog1, app_assoc|by apply reports_app].
Qed.

End Processing.
