(* ===== verification/GraphProperties.v ===== *)
(** * What the kernel-graph API guarantees

    The properties of dvp_kgraph.c, on the facts of [GraphProcess]. *)
From S2P Require Import Prelude DvpTypes Perf GraphLock KernelGraphManager KernelGraphBoss.
From S2P Require Import ManagerSelection Configure LoadTable Dispatch Execution KernelGraph.
From S2P Require Import BossProperties GraphProcess.
Import Sample.

(** ** The managers of a core *)
Section Cores.
Context {W : Type}.
Implicit Types (dvp : DVP_t W).

Definition core_managers (ms : list (DVP_GraphManager_t W)) (c : Z)
    : list (DVP_GraphManager_t W * DVP_GraphManager_Calls_t W) :=
  omap (fun m => if enabled m then
                   cl ← calls m; if core_value (getCore cl) =? c then Some (m, cl) else None
                 else None) ms.
Definition enabled_loaded (ms : list (DVP_GraphManager_t W)) : Prop :=
  Forall (fun m => enabled m = true -> is_Some (calls m)) ms.

Lemma for_core_managers_ofold {S} ms c (step : _ -> _ -> S -> outcome S) : enabled_loaded ms ->
  forall s, for_core_managers ms c step s = ofold (fun s mc => step mc.1 mc.2 s) (core_managers ms c) s.
Proof.
  induction 1 as [|m ms Hm _ IH]; intros s; [done|]. simpl. destruct (enabled m); [|apply IH].
  destruct (Hm eq_refl) as [cl ->]. simpl. destruct (_ =? _); simpl; [|apply IH].
  destruct (step m cl s); simpl; [apply IH|done..].
Qed.

Definition limit_core dvp (core load : Z) (cs : list DVP_Core_Load_t) : list DVP_Core_Load_t :=
  match core_managers (managers dvp) core with
  | [] => cs
  | _ => match cs !! Z.to_nat core with
         | Some l => <[Z.to_nat core := mkCoreLoad (s32 load) (currentLoad l)]> cs
         | None => cs
         end
  end.

Lemma SetMaxLoad_spec dvp core load :
  enabled_loaded (managers dvp) -> initialized (loads dvp) = true ->
  0 <= core < Z.of_nat (length (cores (loads dvp))) ->
  DVP_SetMaxLoad dvp core load = Done (with_cores dvp (limit_core dvp core load (cores (loads dvp)))).
Proof.
  intros Hl Hi Hc. unfold DVP_SetMaxLoad. rewrite for_core_managers_ofold by done.
  unfold limit_core. destruct (lookup_lt_is_Some_2 (cores (loads dvp)) (Z.to_nat core)) as [l Hl0]; [lia|].
  rewrite Hl0. set (row := mkCoreLoad _ _). set (cs' := <[_ := row]> _).
  set (f := fun s mc => _).
  assert (forall ks, ofold f ks (with_cores dvp cs') = Done (with_cores dvp cs')) as Hagain.
  { induction ks as [|k ks IH]; [done|].
    assert (f (with_cores dvp cs') k = Done (with_cores dvp cs')) as Hf.
    { unfold f, with_cores, set_loads. cbn [loads initialized cores managers]. rewrite Hi.
      unfold aget, aset. rewrite (proj2 (Z.leb_le _ _)) by lia. unfold cs'.
      rewrite list_lookup_insert_eq by lia. simpl.
      rewrite length_insert, (proj2 (Z.ltb_lt _ _)) by lia. simpl.
      by rewrite list_insert_insert_eq. }
    simpl. by rewrite Hf. }
  destruct (core_managers (managers dvp) core) as [|k ks].
  - simpl. by rewrite with_cores_same.
  - assert (f dvp k = Done (with_cores dvp cs')) as Hf.
    { unfold f. rewrite Hi. unfold aget, aset. rewrite (proj2 (Z.leb_le _ _)) by lia.
      rewrite Hl0. simpl. rewrite (proj2 (Z.ltb_lt _ _)) by lia. simpl. by rewrite <- Hi. }
    simpl. rewrite Hf. apply Hagain.
Qed.

Lemma GetMaxLoad_spec dvp core hw l :
  enabled_loaded (managers dvp) -> initialized (loads dvp) = true ->
  aget (cores (loads dvp)) core = Some l -> core_managers (managers dvp) core <> [] ->
  (forall m cl, (m, cl) ∈ core_managers (managers dvp) core -> getLoad cl = hw) ->
  DVP_GetMaxLoad dvp core 0 = Done (u32 (maximumLoad l), hw).
Proof.
  intros Hl Hi Hc Hne Hhw. unfold DVP_GetMaxLoad. rewrite for_core_managers_ofold by done.
  set (f := fun s mc => _).
  assert (forall z m cl, (m, cl) ∈ core_managers (managers dvp) core ->
    f z (m, cl) = Done (u32 (maximumLoad l), hw)) as Hf.
  { intros [z1 z2] m cl Hin. unfold f. cbn [fst snd]. rewrite Hi, Hc. simpl. by rewrite (Hhw m cl). }
  clearbody f. revert Hne Hf. generalize (core_managers (managers dvp) core) as ks. clear -W.
  intros ks Hne Hf. assert (forall ks' z, (forall k, k ∈ ks' -> k ∈ ks) -> ks' <> [] ->
    ofold f ks' z = Done (u32 (maximumLoad l), hw)) as H.
  { induction ks' as [|[m cl] ks' IH]; intros z Hin Hne'; [done|]. simpl.
    rewrite Hf by (apply Hin; by left). simpl. destruct ks' as [|k ks']; [done|].
    apply IH; [|done]. intros k' ?. apply Hin. by right. }
  by apply H.
Qed.

End Cores.
(** ** Properties *)

Section Properties.
Context {W : Type}.
Implicit Types (st : graph_state W) (dvp : DVP_t W).


(** When the first order has four sections to run and any section
    after the fourth, nothing is run, and the early return leaves the graph
    lock held: its count stays raised and its event lowered, so a closer
    waits forever. *)
Theorem graph_process_overflow_keeps_lock fuel now sched callback st :
  m_enabled (gs_lock st) = true -> verified (gs_graph st) <> DVP_FALSE -> well_formed (gs_graph st) ->
  ~ fits_in_pool (gs_graph st) 0 ->
  exists st', DVP_KernelGraph_Process fuel now sched callback st = Done (0, st') /\
    gs_log st' = gs_log st /\
    m_count (gs_lock st') = u32 (m_count (gs_lock st) + 1) /\ m_wait (gs_lock st') = false.
Proof.
  intros Hen Hver Hw Hno.
  unfold DVP_KernelGraph_Process, dvp_graph_lock, dvp_graph_lock_body. rewrite Hen.
  cbn -[collect_loop]. rewrite (proj2 (Z.eqb_neq _ _)) by done. cbn -[collect_loop].
  unfold run_order, collect. cbn -[collect_loop]. change (Z.of_nat 0) with 0.
  destruct (collect_loop_spec 0 (sections (gs_graph st)) (order (gs_graph st)) 0 []) as [[Hf _]|[_ ->]];
    [done|done|by destruct Hno|]. simpl. eexists. by split_and!.
Qed.

(** Limiting a core to [limit] per mille and reading the limit back
    gives at most [limit] (at most 1000) and loses less than one per mille
    step plus [1000 / hw], as long as [1000 * hw] fits in 32 bits. *)
Theorem core_capacity_roundtrip dvp core limit hw :
  enabled_loaded (managers dvp) -> initialized (loads dvp) = true ->
  0 <= core < Z.of_nat (length (cores (loads dvp))) ->
  core_managers (managers dvp) core <> [] ->
  (forall m cl, (m, cl) ∈ core_managers (managers dvp) core -> getLoad cl = hw) ->
  0 < hw -> hw * DVP_CAPACITY_DATA_RANGE < 2 ^ 32 -> 0 <= limit ->
  exists dvp' v, DVP_SetCoreCapacity dvp core limit = Done dvp' /\
    DVP_GetCoreCapacity dvp' core = Done v /\
    let l := Z.min limit DVP_CAPACITY_DATA_RANGE in
    0 <= v <= l /\ l * hw < v * hw + hw + DVP_CAPACITY_DATA_RANGE.
Proof.
  intros Hl Hi Hc Hne Hhw Hpos Hfit Hlim. unfold DVP_CAPACITY_DATA_RANGE in *.
  destruct (aget_in_range (cores (loads dvp)) core Hc) as [row Hrow].
  unfold DVP_SetCoreCapacity. rewrite (GetMaxLoad_spec dvp core hw row) by done. simpl.
  unfold DVP_CAPACITY_DATA_RANGE.
  replace (if 1000 <? limit then 1000 else limit) with (limit `min` 1000) by (zcases).
  set (l := limit `min` 1000). assert (0 <= l <= 1000) as Hlr by lia.
  rewrite (u32_small (l * hw)) by (unfold is_u32; nia).
  set (q := l * hw / 1000).
  assert (q * 1000 <= l * hw < q * 1000 + 1000) as Hq.
  { unfold q. pose proof (Z.div_mod (l * hw) 1000). pose proof (Z.mod_pos_bound (l * hw) 1000). lia. }
  assert (0 <= q <= hw) as Hqr by nia.
  rewrite SetMaxLoad_spec by done. unfold DVP_GetCoreCapacity, DVP_CAPACITY_DATA_RANGE.
  set (dvp' := with_cores _ _).
  assert (aget (cores (loads dvp')) core = Some (mkCoreLoad q (currentLoad row))) as Hrow'.
  { unfold dvp', with_cores, limit_core. simpl. destruct (core_managers _ _); [done|].
    apply aget_Some in Hrow as [_ Hrow]. rewrite Hrow. unfold aget.
    rewrite (proj2 (Z.leb_le _ _)), list_lookup_insert_eq by lia.
    rewrite s32_small by (unfold is_s32; lia). done. }
  exists dvp', (q * 1000 / hw). split; [done|].
  rewrite (GetMaxLoad_spec dvp' core hw _) by done. simpl. rewrite (u32_small q) by (unfold is_u32; lia).
  rewrite (proj2 (Z.eqb_neq _ _)) by lia. rewrite (u32_small (q * 1000)) by (unfold is_u32; lia).
  split; [done|].
  pose proof (Z.div_mod (q * 1000) hw). pose proof (Z.mod_pos_bound (q * 1000) hw).
  assert (0 <= q * 1000 / hw) by (apply Z.div_pos; lia). split; [|lia]. split; [done|]. nia.
Qed.

(** [DVP_KernelGraph_ImageShiftAccum] accepts a function index one past
    the manager's kernel table and then reads past the table; below that it
    adds the kernel's shift, or applies its shift function, or does
    nothing. *)
Theorem image_shift_bounds dvp n shift m :
  managers dvp !! Z.to_nat (mgrIndex (header n)) = Some m -> 0 <= mgrIndex (header n) < DVP_CORE_MAX ->
  (funcIndex (header n) = numSupportedKernels m -> DVP_KernelGraph_ImageShiftAccum dvp n shift = Undef) /\
  (numSupportedKernels m < funcIndex (header n) -> DVP_KernelGraph_ImageShiftAccum dvp n shift = Done shift) /\
  (forall f, aget (default [] (kernels m)) (funcIndex (header n)) = Some f ->
     DVP_KernelGraph_ImageShiftAccum dvp n shift = Done
       (match cf_shift f, cf_shift_func f with
        | Some s, _ => add_shift s shift
        | None, Some fn => fn n shift
        | None, None => shift
        end)).
Proof.
  intros Hm Hr. unfold DVP_KernelGraph_ImageShiftAccum.
  assert (aget (managers dvp) (mgrIndex (header n)) = Some m) as Hg.
  { unfold aget. by rewrite (proj2 (Z.leb_le _ _)) by lia. }
  rewrite (proj2 (Z.ltb_lt _ _)), Hg by lia. simpl. split_and!.
  - intros Hf. rewrite (proj2 (Z.leb_le _ _)) by lia. rewrite Hf. unfold numSupportedKernels.
    by rewrite aget_nat, lookup_ge_None_2.
  - intros Hf. by rewrite (proj2 (Z.leb_gt _ _)) by lia.
  - intros f Hf. pose proof (aget_Some _ _ _ Hf) as [? _]. unfold numSupportedKernels.
    rewrite (proj2 (Z.leb_le _ _)) by lia. rewrite Hf. simpl. by destruct (cf_shift f), (cf_shift_func f).
Qed.

End Properties.

(** ** Witnesses *)

(** Two sections of order 0 on one array each, and one of order 1. *)
Definition sample_graph : DVP_KernelGraph_t :=
  mkGraph [mkSection 4096 2 no_perf sample_loads 0; mkSection 8192 1 no_perf sample_loads 0;
           mkSection 12288 1 no_perf no_loads 0] [0; 0; 1] no_perf DVP_TRUE.
Definition sample_memory : gmap Z (list DVP_KernelNode_t) :=
  {[ 4096 := routed_nodes; 8192 := [routed 11 (-1) 1 0]; 12288 := [routed 13 (-1) 0 2] ]}.
Definition sample_state : graph_state world :=
  mkGS system [] sample_memory sample_graph dvp_graphlock_init [] 0 0.
(** The second worker finishes first. *)
Definition sample_sched (o : nat) : list nat :=
  match o with 0%nat => [1; 0]%nat | 1%nat => [0]%nat | _ => [] end.

Lemma sample_groups o : (2 <= o)%nat -> group sample_graph (Z.of_nat o) = [].
Proof.
  intros Ho. unfold group, selection, selected. cbn -[Z.eqb Z.of_nat].
  rewrite !(proj2 (Z.eqb_neq 0 (Z.of_nat o))), !(proj2 (Z.eqb_neq 1 (Z.of_nat o))) by lia. done.
Qed.

Lemma sample_inv : graph_inv 100 system sample_graph sample_state.
Proof.
  split; try done; [apply system_lawful|apply table_fine|repeat constructor; done|].
  intros i sec Hi _. destruct i as [|[|[|]]]; [injection Hi as <-..|done]; eexists;
    (split_and!; [reflexivity|simpl; lia|simpl; lia|simpl; lia|done| |vm_compute; done|simpl; lia|simpl; lia]);
    repeat constructor; eexists; reflexivity.
Qed.


Definition crowded_state : graph_state world :=
  mkGS system [] sample_memory
    (mkGraph (replicate 5 (mkSection 4096 2 no_perf sample_loads 0)) (replicate 5 0) no_perf DVP_TRUE)
    dvp_graphlock_init [] 0 0.
Lemma graph_process_overflow_keeps_lock_witness :
  exists st', DVP_KernelGraph_Process 1 Z.of_nat sample_sched true crowded_state = Done (0, st') /\
    m_count (gs_lock st') = 1.
Proof.
  destruct (graph_process_overflow_keeps_lock 1 Z.of_nat sample_sched true crowded_state)
    as (st' & H & _ & Hc & _); [done|done|done| |exists st'; split; [exact H|exact Hc]].
  intros Hf. specialize (Hf [true; true; true; true] true [] eq_refl). simpl in Hf.
  unfold MAX_SECTIONS in Hf. lia.
Defined.

Lemma core_capacity_roundtrip_witness :
  exists dvp v, DVP_SetCoreCapacity system 6 700 = Done dvp /\ DVP_GetCoreCapacity dvp 6 = Done v /\
    0 <= v <= 700.
Proof.
  destruct (core_capacity_roundtrip system 6 700 100) as (dvp & v & H1 & H2 & H3 & _);
    [|done|simpl; lia|done| |lia|unfold DVP_CAPACITY_DATA_RANGE; lia|lia|exists dvp, v; split; [exact H1|split; [exact H2|exact H3]]].
  - repeat constructor; by eexists.
  - intros m cl Hin. apply elem_of_cons in Hin as [[= -> ->]|[]%elem_of_nil]. done.
Defined.

Lemma image_shift_bounds_witness :
  DVP_KernelGraph_ImageShiftAccum system (routed 13 (-1) 0 3) (mkShift 0 0 0 0 0 0) = Undef.
Proof.
  apply (image_shift_bounds system (routed 13 (-1) 0 3) (mkShift 0 0 0 0 0 0) cpu);
    [reflexivity|simpl; unfold DVP_CORE_MAX; lia|reflexivity].
Defined.
