(* ===== verification/Memory.v ===== *)
(** * Byte memory

    Memory is a finite map from addresses to bytes; an access to an address
    that is not mapped is undefined behaviour. *)
From S2P Require Import Prelude.

Abbreviation memory := (gmap Z Z).

(** [n] bytes from [a]. *)
Fixpoint load_bytes (a : Z) (n : nat) (m : memory) : option (list Z) :=
  match n with
  | O => Some []
  | S n' => b ← m !! a; bs ← load_bytes (a + 1) n' m; Some (b :: bs)
  end.
Fixpoint put_bytes (a : Z) (bs : list Z) (m : memory) : memory :=
  match bs with
  | [] => m
  | b :: bs' => <[a := b]> (put_bytes (a + 1) bs' m)
  end.
(** A store needs every byte to be mapped. *)
Definition store_bytes (a : Z) (bs : list Z) (m : memory) : option memory :=
  _ ← load_bytes a (length bs) m; Some (put_bytes a bs m).
(** The ranges of [memcpy] may not overlap. *)
Definition memcpy (dst src n : Z) (m : memory) : option memory :=
  if (0 <? n) && (src <? dst + n) && (dst <? src + n) then None else
  bs ← load_bytes src (Z.to_nat n) m; store_bytes dst bs m.
Definition zero_bytes (n : Z) : list Z := replicate (Z.to_nat n) 0.

(** [a, a + n) and [b, b + k) have no address in common. *)
Definition apart (a n b k : Z) : Prop := forall x, ~ (a <= x < a + n /\ b <= x < b + k).

(** [a, a + n) is mapped. *)
Definition mapped (a n : Z) (m : memory) : Prop := forall x, a <= x < a + n -> is_Some (m !! x).

Lemma put_bytes_lookup bs : forall a m x,
  put_bytes a bs m !! x =
    if decide (a <= x < a + Z.of_nat (length bs)) then bs !! Z.to_nat (x - a) else m !! x.
Proof.
  induction bs as [|b bs IH]; intros a m x; simpl.
  { rewrite decide_False by lia. done. }
  destruct (decide (x = a)) as [->|Hne].
  - rewrite lookup_insert_eq, decide_True by lia. by replace (Z.to_nat (a - a)) with 0%nat by lia.
  - rewrite lookup_insert_ne, IH by congruence.
    destruct (decide (a + 1 <= x < a + 1 + Z.of_nat (length bs))) as [H|H].
    + rewrite decide_True by lia. by replace (Z.to_nat (x - a)) with (S (Z.to_nat (x - (a + 1)))) by lia.
    + rewrite decide_False by lia. done.
Qed.

Lemma load_bytes_Some n : forall a m bs,
  load_bytes a n m = Some bs <->
  length bs = n /\ forall i : nat, (i < n)%nat -> m !! (a + Z.of_nat i) = bs !! i.
Proof.
  induction n as [|n IH]; intros a m bs; simpl.
  { split; [intros [= <-]; split; [done|lia]|]. intros [H _]. by destruct bs. }
  split.
  - destruct (m !! a) as [b|] eqn:Hb; simpl; [|done].
    destruct (load_bytes (a + 1) n m) as [bs'|] eqn:Hl; simpl; [|done]. intros [= <-].
    apply IH in Hl as [Hlen Hi]. split; [by simpl; rewrite Hlen|].
    intros [|i] ?; simpl; [by rewrite Z.add_0_r|]. rewrite <- Hi by lia. f_equal. lia.
  - intros [Hlen Hi]. destruct bs as [|b bs]; [done|]. simpl in Hlen.
    pose proof (Hi 0%nat ltac:(lia)) as H0. simpl in H0. rewrite Z.add_0_r in H0. rewrite H0. simpl.
    rewrite (proj2 (IH (a + 1) m bs)); [done|]. split; [lia|].
    intros i ?. pose proof (Hi (S i) ltac:(lia)) as Hs. simpl in Hs. rewrite <- Hs. f_equal. lia.
Qed.

Lemma load_bytes_length a n m bs : load_bytes a n m = Some bs -> length bs = n.
Proof. intros H. by apply load_bytes_Some in H as [? _]. Qed.

Lemma load_bytes_mapped a n m : mapped a (Z.of_nat n) m -> exists bs, load_bytes a n m = Some bs.
Proof.
  revert a. induction n as [|n IH]; intros a Hm; simpl; [by eexists|].
  destruct (Hm a ltac:(lia)) as [b ->]. simpl.
  destruct (IH (a + 1)) as [bs ->]; [intros x ?; apply Hm; lia|]. by eexists.
Qed.
Lemma mapped_load_bytes a n m bs : load_bytes a n m = Some bs -> mapped a (Z.of_nat n) m.
Proof.
  intros [Hlen H]%load_bytes_Some x Hx.
  rewrite <- (Z.sub_add a x), (Z.add_comm _ a), <- (Z2Nat.id (x - a)) by lia.
  rewrite H by lia. apply lookup_lt_is_Some_2. lia.
Qed.

Lemma put_bytes_mapped a bs m b n : mapped b n m -> mapped b n (put_bytes a bs m).
Proof.
  intros Hm x Hx. rewrite put_bytes_lookup. destruct (decide _); [|by apply Hm].
  apply lookup_lt_is_Some_2. lia.
Qed.
Lemma put_bytes_maps a bs m : mapped a (Z.of_nat (length bs)) (put_bytes a bs m).
Proof.
  intros x Hx. rewrite put_bytes_lookup, decide_True by lia. apply lookup_lt_is_Some_2. lia.
Qed.

Lemma load_put_same a bs m : load_bytes a (length bs) (put_bytes a bs m) = Some bs.
Proof.
  apply load_bytes_Some. split; [done|]. intros i Hi.
  rewrite put_bytes_lookup, decide_True by lia. f_equal. lia.
Qed.
Lemma load_put_disjoint a bs m b n :
  b + Z.of_nat n <= a \/ a + Z.of_nat (length bs) <= b ->
  load_bytes b n (put_bytes a bs m) = load_bytes b n m.
Proof.
  revert b. induction n as [|n IH]; intros b Hd; simpl; [done|].
  rewrite put_bytes_lookup, decide_False by lia. by rewrite IH by lia.
Qed.

Lemma store_bytes_Some a bs m :
  mapped a (Z.of_nat (length bs)) m -> store_bytes a bs m = Some (put_bytes a bs m).
Proof. intros Hm. unfold store_bytes. by destruct (load_bytes_mapped _ _ _ Hm) as [? ->]. Qed.
Lemma store_bytes_inv a bs m m' : store_bytes a bs m = Some m' -> m' = put_bytes a bs m.
Proof. unfold store_bytes. destruct (load_bytes _ _ _); simpl; [|done]. by intros [= <-]. Qed.

Lemma apart_sym a n b k : apart a n b k -> apart b k a n.
Proof. intros H x [? ?]. by apply (H x). Qed.
Lemma apart_cases a n b k : 0 <= n -> 0 <= k -> apart a n b k -> a + n <= b \/ b + k <= a \/ n = 0 \/ k = 0.
Proof.
  intros Hn Hk H. destruct (Z.le_gt_cases (a + n) b), (Z.le_gt_cases (b + k) a); [lia..|].
  destruct (Z.eq_dec n 0), (Z.eq_dec k 0); [lia..|]. destruct (H (Z.max a b)). lia.
Qed.
Lemma apart_shrink a n b k a' n' : a <= a' -> a' + n' <= a + n -> apart a n b k -> apart a' n' b k.
Proof. intros ? ? H x [? ?]. apply (H x). lia. Qed.

Lemma mapped_shrink a n a' n' m : a <= a' -> a' + n' <= a + n -> mapped a n m -> mapped a' n' m.
Proof. intros ? ? H x ?. apply H. lia. Qed.

Lemma load_put_apart a bs m b n :
  apart b (Z.of_nat n) a (Z.of_nat (length bs)) ->
  load_bytes b n (put_bytes a bs m) = load_bytes b n m.
Proof.
  intros [H|[H|[H|H]]]%apart_cases; try lia.
  - by apply load_put_disjoint; left.
  - by apply load_put_disjoint; right.
  - by destruct n.
  - by destruct bs.
Qed.

(** [memcpy] moves the source bytes to the target and nothing else. *)
Lemma memcpy_spec dst src n m :
  0 <= n -> apart dst n src n -> mapped src n m -> mapped dst n m ->
  exists bs, load_bytes src (Z.to_nat n) m = Some bs /\ memcpy dst src n m = Some (put_bytes dst bs m).
Proof.
  intros Hn Hap Hs Hd. rewrite <- (Z2Nat.id n) in Hs, Hd by done.
  destruct (load_bytes_mapped _ _ _ Hs) as [bs Hbs]. exists bs. split; [done|].
  unfold memcpy. replace (_ && _ && _) with false.
  - rewrite Hbs. simpl. apply store_bytes_Some. by rewrite (load_bytes_length _ _ _ _ Hbs).
  - symmetry. apply not_true_iff_false. rewrite !andb_true_iff, !Z.ltb_lt. intros [[? ?] ?].
    apply (Hap (Z.max dst src)). lia.
Qed.
