(* ===== verification/Image.v ===== *)
(** * Image geometry (source/dvp/dvp_kgraph/dvp_mem.c)

    The layout arithmetic of [DVP_Image_t], at the widths of the code:
    [DVP_U32] everywhere, two signed strides. *)
From S2P Require Import Prelude DvpTypes.

Open Scope dvp_scope.

(** ** Formats (include/sosal/fourcc.h) *)
Definition FOURCC_UYVY : Z := 0x59565955.
Definition FOURCC_YUY2 : Z := 0x32595559.
Definition FOURCC_YVYU : Z := 0x55595659.
Definition FOURCC_VYUY : Z := 0x59555956.
Definition FOURCC_YUV9 : Z := 0x39565559.
Definition FOURCC_YVU9 : Z := 0x39555659.
Definition FOURCC_YV12 : Z := 0x32315659.
Definition FOURCC_IYUV : Z := 0x56555949.
Definition FOURCC_YV16 : Z := 0x36315659.
Definition FOURCC_YU16 : Z := 0x36315559.
Definition FOURCC_YV24 : Z := 0x34325659.
Definition FOURCC_YU24 : Z := 0x34325559.
Definition FOURCC_Y800 : Z := 0x30303859.
Definition FOURCC_Y16 : Z := 0x20363159.
Definition FOURCC_Y32 : Z := 0x20323359.
Definition FOURCC_Y64 : Z := 0x20343659.
Definition FOURCC_NV12 : Z := 0x3231564E.
Definition FOURCC_NV21 : Z := 0x3132564E.
Definition FOURCC_RGB565 : Z := 0x35424752.
Definition FOURCC_BGR565 : Z := 0x35524742.
Definition FOURCC_BGR : Z := 0x33524742.
Definition FOURCC_RGB : Z := 0x33424752.
Definition FOURCC_RGBA : Z := 0x41424752.
Definition FOURCC_BGRA : Z := 0x41524742.
Definition FOURCC_ARGB : Z := 0x42475241.
Definition FOURCC_RGBP : Z := 0x50424752.
Definition FOURCC_HSLP : Z := 0x504C5348.
Definition FOURCC_BIN1 : Z := 0x314E4942.

(** [fourcc == a || fourcc == b || ...] *)
Definition one_of (c : Z) (l : list Z) : bool := existsb (Z.eqb c) l.

#[global] Arguments one_of : simpl never.

(** ** Data *)

Definition DVP_MAX_PLANES : Z := 4.
Definition DVP_MTYPE_MPUCACHED_VIRTUAL : Z := 0.
Definition DVP_MTYPE_DISPLAY_2DTILED : Z := 1.
Definition DVP_MTYPE_MPUCACHED_VIRTUAL_SHARED : Z := 2.
Definition DVP_MTYPE_CAMERA_1DTILED : Z := 3.
Definition DVP_MTYPE_MAX : Z := 4.

(** [DVP_Image_t], but the bookkeeping fields the modelled code never reads
    ([reserved], [skipCacheOpInval], [skipCacheOpFlush]). *)
Record DVP_Image_t : Set := mkImage {
  pData : list Z;
  pBuffer : list Z;
  planes : Z;
  width : Z;
  height : Z;
  bufWidth : Z;
  bufHeight : Z;
  x_start : Z;
  y_start : Z;
  x_stride : Z;
  y_stride : Z;
  color : Z;
  numBytes : Z;
  memType : Z }.

Definition no_pointers : list Z := replicate (Z.to_nat DVP_MAX_PLANES) 0.

Definition DVP_Image_Init (w h fourcc : Z) : DVP_Image_t :=
  let planes := 1 in
  let stride := 1 in
  let planes := if one_of fourcc [FOURCC_YUV9; FOURCC_YVU9; FOURCC_YV12; FOURCC_IYUV; FOURCC_YU16;
                                  FOURCC_YV16; FOURCC_YU24; FOURCC_YV24; FOURCC_RGBP; FOURCC_HSLP]
                then 3 else planes in
  let stride := if one_of fourcc [FOURCC_UYVY; FOURCC_YUY2; FOURCC_VYUY; FOURCC_YVYU] then 2 else stride in
  let stride := if one_of fourcc [FOURCC_BGR; FOURCC_RGB] then 3 else stride in
  let stride := if one_of fourcc [FOURCC_RGBA; FOURCC_BGRA; FOURCC_ARGB] then 4 else stride in
  let planes := if one_of fourcc [FOURCC_NV12; FOURCC_NV21] then 2 else planes in
  let stride := if fourcc =? FOURCC_Y16 then 2 else stride in
  let stride := if fourcc =? FOURCC_Y32 then 4 else stride in
  let stride := if fourcc =? FOURCC_Y64 then 8 else stride in
  let stride := if one_of fourcc [FOURCC_RGB565; FOURCC_BGR565] then 2 else stride in
  let bytes := h ⊠ w ⊠ stride ⊠ planes in
  let bytes := if one_of fourcc [FOURCC_NV12; FOURCC_NV21; FOURCC_IYUV; FOURCC_YV12]
               then (h ⊠ w ⊠ 3) / 2 else bytes in
  let bytes := if one_of fourcc [FOURCC_YV16; FOURCC_YU16]
               then (h ⊠ w) ⊞ (2 ⊠ ((h ⊠ w) / 2)) else bytes in
  let bytes := if fourcc =? FOURCC_BIN1 then (h ⊠ w) / 8 else bytes in
  mkImage no_pointers no_pointers planes w h w h 0 0 stride 0 fourcc bytes 0.

(** ** Sub-sampling *)

Definition DVP_Image_WidthStep (i : DVP_Image_t) (p : Z) : Z :=
  if (p <? planes i) && (0 <? p) then
    if one_of (color i) [FOURCC_NV12; FOURCC_NV21] then 2 else 1
  else 1.

Definition DVP_Image_HeightDiv (i : DVP_Image_t) (p : Z) : Z :=
  if (p <? planes i) && (0 <? p) then
    if one_of (color i) [FOURCC_IYUV; FOURCC_YV12; FOURCC_NV12; FOURCC_NV21] then 2
    else if one_of (color i) [FOURCC_YUV9; FOURCC_YVU9] then 4
    else 1
  else 1.

Definition DVP_Image_WidthDiv (i : DVP_Image_t) (p : Z) : Z :=
  if p <? planes i then
    if 0 <? p then
      if one_of (color i) [FOURCC_IYUV; FOURCC_YV12; FOURCC_NV12; FOURCC_NV21; FOURCC_YU16; FOURCC_YV16] then 2
      else if one_of (color i) [FOURCC_YUV9; FOURCC_YVU9] then 4
      else 1
    else if color i =? FOURCC_BIN1 then 8 else 1
  else 1.

(** ** Lines, planes and ranges *)

(** [(x_stride * xstep) * (w / xdiv)] *)
Definition line_bytes (i : DVP_Image_t) (p w : Z) : Z :=
  (x_stride i ⊠ DVP_Image_WidthStep i p) ⊠ (w / DVP_Image_WidthDiv i p).

Definition DVP_Image_LineSize (i : DVP_Image_t) (p : Z) : Z :=
  if p <? planes i then line_bytes i p (bufWidth i) else 0.

Definition DVP_Image_LineRange (i : DVP_Image_t) (p : Z) : Z :=
  if p <? planes i then
    let lineRange := u32 (Z.abs (y_stride i)) in
    if 0 <? p then
      if lineRange =? line_bytes i 0 (bufWidth i) then line_bytes i p (bufWidth i) else lineRange
    else lineRange
  else 0.

Definition DVP_Image_PlaneRange (i : DVP_Image_t) (p : Z) : Z :=
  if p <? planes i then (DVP_Image_LineRange i p ⊠ bufHeight i) / DVP_Image_HeightDiv i p else 0.

Definition DVP_Image_PlaneSize (i : DVP_Image_t) (p : Z) : Z :=
  if p <? planes i then (DVP_Image_LineSize i p ⊠ bufHeight i) / DVP_Image_HeightDiv i p else 0.

(** [for (p = 0; p < planes; p++) sum += f(p)] *)
Definition sum_planes (f : Z -> Z) (n : Z) : Z :=
  foldl (fun s p => s ⊞ f p) 0 (seqZ 0 n).

Definition DVP_Image_Range (i : DVP_Image_t) : Z := sum_planes (DVP_Image_PlaneSize i) (planes i).
Definition DVP_Image_Size (i : DVP_Image_t) : Z := sum_planes (DVP_Image_PlaneSize i) (planes i).

Definition DVP_Image_PatchLineSize (i : DVP_Image_t) (p : Z) : Z :=
  if p <? planes i then line_bytes i p (width i) else 0.
Definition DVP_Image_PatchPlaneSize (i : DVP_Image_t) (p : Z) : Z :=
  if p <? planes i then (DVP_Image_PatchLineSize i p ⊠ height i) / DVP_Image_HeightDiv i p else 0.
Definition DVP_Image_PatchSize (i : DVP_Image_t) : Z := sum_planes (DVP_Image_PatchPlaneSize i) (planes i).

(** ** Addressing *)

Definition DVP_Image_Offset (i : DVP_Image_t) (x y p : Z) : Z :=
  if (p <? planes i) && (x <? bufWidth i) && (y <? bufHeight i) then
    ((y / DVP_Image_HeightDiv i p) ⊠ DVP_Image_LineRange i p) ⊞
    ((x / DVP_Image_WidthDiv i p) ⊠ (x_stride i ⊠ DVP_Image_WidthStep i p))
  else 0.

(** The local variable is signed; the result converts back. *)
Definition DVP_Image_PatchOffset (i : DVP_Image_t) (x y p : Z) : Z :=
  if (p <? planes i) && (x <? width i) && (y <? height i) then
    u32 (s32 (((y / DVP_Image_HeightDiv i p) ⊠ DVP_Image_LineRange i p) ⊞
              ((x / DVP_Image_WidthDiv i p) ⊠ (x_stride i ⊠ DVP_Image_WidthStep i p))))
  else 0.

(** [&ptr[i]]; outside of the planes [ptr] is [NULL]. *)
Definition DVP_Image_Addressing (i : DVP_Image_t) (x y p : Z) : outcome Z :=
  ptr ← (if p <? planes i then of_option (aget (pBuffer i) p) else Done 0);
  Done (ptr + DVP_Image_Offset i x y p).
Definition DVP_Image_PatchAddressing (i : DVP_Image_t) (x y p : Z) : outcome Z :=
  ptr ← (if p <? planes i then of_option (aget (pData i) p) else Done 0);
  Done (ptr + DVP_Image_PatchOffset i x y p).

Definition set_pData (l : list Z) (i : DVP_Image_t) : DVP_Image_t :=
  mkImage l (pBuffer i) (planes i) (width i) (height i) (bufWidth i) (bufHeight i) (x_start i) (y_start i)
          (x_stride i) (y_stride i) (color i) (numBytes i) (memType i).
Definition set_rect (x y w h : Z) (i : DVP_Image_t) : DVP_Image_t :=
  mkImage (pData i) (pBuffer i) (planes i) w h (bufWidth i) (bufHeight i) x y
          (x_stride i) (y_stride i) (color i) (numBytes i) (memType i).

(** [set] is never assigned after its initialisation. *)
Definition DVP_Image_SetPatch (i : DVP_Image_t) (x y w h : Z) : outcome (Z * DVP_Image_t) :=
  if ((x ⊞ w) <? bufWidth i) && ((y ⊞ h) <? bufHeight i) then
    i' ← ofold (fun im p =>
           a ← DVP_Image_Addressing im x y p;
           l ← of_option (aset (pData im) p a);
           Done (set_rect x y w h (set_pData l im))) (seqZ 0 (planes i)) i;
    Done (DVP_FALSE, i')
  else Done (DVP_FALSE, i).

(** ** Validation *)

Definition plane_valid (i : DVP_Image_t) (bufAlign p : Z) : outcome bool :=
  let range := DVP_Image_PlaneRange i p in
  let line := DVP_Image_LineSize i p in
  buf ← of_option (aget (pBuffer i) p);
  dat ← of_option (aget (pData i) p);
  if (buf =? 0) || (dat =? 0) then Done false
  else if negb (dat mod bufAlign =? 0) then Done false
  else if negb ((buf <=? dat) && (dat <? buf + range)) then Done false
  else if (line <? Z.abs (y_stride i)) && (bufWidth i =? width i) then
    Done (negb (line <? (dat - buf) mod Z.abs (y_stride i)))
  else Done true.

Fixpoint planes_valid (i : DVP_Image_t) (bufAlign : Z) (ps : list Z) : outcome bool :=
  match ps with
  | [] => Done true
  | p :: ps' => ok ← plane_valid i bufAlign p; if ok : bool then planes_valid i bufAlign ps' else Done false
  end.

(** [y_stride % strideMultiple] converts the stride to [DVP_U32]. *)
Definition DVP_Image_Validate (i : DVP_Image_t) (bufAlign strideMultiple widthMultiple heightMultiple : Z)
    (colors : list Z) : outcome bool :=
  if (bufAlign =? 0) || (strideMultiple =? 0) || (widthMultiple =? 0) || (heightMultiple =? 0) then Done false
  else if (planes i =? 0) || (width i =? 0) || (height i =? 0) || (bufHeight i =? 0) || (bufWidth i =? 0) ||
          (color i =? 0) || (DVP_MTYPE_MAX <? memType i) || (numBytes i =? 0) ||
          (x_stride i =? 0) || (y_stride i =? 0) then Done false
  else if negb (u32 (y_stride i) mod strideMultiple =? 0) || negb (width i mod widthMultiple =? 0) ||
          negb (height i mod heightMultiple =? 0) then Done false
  else
    ok ← planes_valid i bufAlign (seqZ 0 (planes i));
    if ok : bool then Done (match colors with [] => true | _ => one_of (color i) colors end)
    else Done false.

(** ** Dimensions for the allocator *)

(** [DVP_Dim_t]: bytes per pixel, width, height *)
Record DVP_Dim_t : Set := mkDim { dim0 : Z; dim1 : Z; dim2 : Z }.
Definition no_dim : DVP_Dim_t := mkDim 0 0 0.

(** The array has [DVP_MAX_PLANES] entries; the last case writes one for each
    plane the image claims. *)
Definition DVP_Image_Dims (i : DVP_Image_t) : outcome (list DVP_Dim_t) :=
  let w := s32 (bufWidth i) in
  let h := s32 (bufHeight i) in
  let c := color i in
  if one_of c [FOURCC_NV12; FOURCC_NV21] then
    Done [mkDim 1 w h; mkDim 2 (Z.quot w 2) (Z.quot h 2); no_dim; no_dim]
  else if one_of c [FOURCC_YUV9; FOURCC_YVU9] then
    Done [mkDim 1 w h; mkDim 1 (Z.quot w 4) (Z.quot h 4); mkDim 1 (Z.quot w 4) (Z.quot h 4); no_dim]
  else if one_of c [FOURCC_YV12; FOURCC_IYUV] then
    Done [mkDim 1 w h; mkDim 1 (Z.quot w 2) (Z.quot h 2); mkDim 1 (Z.quot w 2) (Z.quot h 2); no_dim]
  else if one_of c [FOURCC_YU16; FOURCC_YV16] then
    Done [mkDim 1 w h; mkDim 2 (Z.quot w 2) h; mkDim 2 (Z.quot w 2) h; no_dim]
  else if DVP_MAX_PLANES <? planes i then Undef
  else
    Done ((fun p => if p <? planes i then mkDim (x_stride i) w h else no_dim) <$> seqZ 0 DVP_MAX_PLANES).
