(* ===== verification/Allocator.v ===== *)
(** * The allocator (source/sosal/allocator.c, source/dvp/dvp_kgraph/dvp_mem_int.c)

    The Linux configuration: virtual memory from [posix_memalign] and shared
    memory.  What the system answers to each request in turn is the argument
    [answers]; a granted block is a fresh range of zeroed bytes. *)
From S2P Require Import Prelude DvpTypes Memory Image.

(** [ALLOCATOR_MEMORY_TYPE_*] *)
Inductive allocator_memory_type : Set := MEMORY_TYPE_VIRTUAL | MEMORY_TYPE_VIRTUAL_SHARED.

Definition mem_correlation : list (allocator_memory_type * Z) :=
  [ (MEMORY_TYPE_VIRTUAL, DVP_MTYPE_MPUCACHED_VIRTUAL);
    (MEMORY_TYPE_VIRTUAL_SHARED, DVP_MTYPE_MPUCACHED_VIRTUAL_SHARED) ].

(** The first row of the table that matches, else plain virtual memory. *)
Definition dvp_mem_type_xlate (t : Z) : allocator_memory_type :=
  foldr (fun r rest => if t =? r.2 then r.1 else rest) MEMORY_TYPE_VIRTUAL mem_correlation.

Definition SOSAL_PAGE_SIZE : Z := 4096.
Definition allocator_page_align_size (size : Z) : Z :=
  let rem := Z.land size (SOSAL_PAGE_SIZE - 1) in
  if 0 <? rem then u64 (size + (SOSAL_PAGE_SIZE - rem)) else size.

(** The heap: the mapped bytes and the size of each live block. *)
Record heap : Type := mkHeap { bytes : memory; blocks : gmap Z Z }.

Definition grant (a size : Z) (h : heap) : heap :=
  mkHeap (put_bytes a (zero_bytes size) (bytes h)) (<[a := size]> (blocks h)).
Definition unmap (a n : Z) (m : memory) : memory :=
  foldr (fun x m => delete x m) m (seqZ a n).
(** [free] of an address that is not a live block is undefined. *)
Definition free (a : Z) (h : heap) : outcome heap :=
  match blocks h !! a with
  | Some n => Done (mkHeap (unmap a n (bytes h)) (delete a (blocks h)))
  | None => Undef
  end.

Definition dims_of (ndims : nat) (d : DVP_Dim_t) : list Z := take ndims [dim0 d; dim1 d; dim2 d].
Definition set_dim (n : nat) (v : Z) (d : DVP_Dim_t) : DVP_Dim_t :=
  match n with
  | 0%nat => mkDim v (dim1 d) (dim2 d)
  | 1%nat => mkDim (dim0 d) v (dim2 d)
  | _ => mkDim (dim0 d) (dim1 d) v
  end.

(** [size *= dims[n]; strides[n] = size] *)
Fixpoint stride_loop (ds : list Z) (n : nat) (size : Z) (s : DVP_Dim_t) : Z * DVP_Dim_t :=
  match ds with
  | [] => (size, s)
  | d :: ds' => let size := u32 (size * d) in stride_loop ds' (S n) size (set_dim n (s32 size) s)
  end.

(** What the allocation loop leaves in one slot of [ptrs] and [strides]. *)
Definition slots : Type := list (Z * DVP_Dim_t).

(** How the virtual loop ends: to the end of the array; at a refused request,
    which returns at once; at a request that was granted but gave [NULL],
    which frees the pointers before it, the last one first. *)
Inductive calloc_end : Set := GRANTED | REFUSED | UNWOUND.

(** [case ALLOCATOR_MEMORY_TYPE_VIRTUAL], the pointers still to do. An answer
    of [posix_memalign] is its error ([None]) or the pointer it stored; the
    block has [rsize] bytes, of which [memset] clears [size]. *)
Fixpoint calloc_virtual (ndims : nat) (ds : list DVP_Dim_t) (sl : slots) (answers : list (option Z)) (h : heap)
    : outcome (calloc_end * slots * heap) :=
  match ds, sl with
  | d :: ds', (_, s) :: sl' =>
      let '(size, s') := stride_loop (dims_of ndims d) 0 1 s in
      let rsize := u32 (allocator_page_align_size size) in
      match answers with
      | [] => NoFuel
      | None :: _ => Done (REFUSED, (0, s') :: sl', h)
      | Some a :: answers' =>
          if a =? 0 then Done (UNWOUND, (0, s') :: sl', h)
          else if rsize <? size then Undef
          else
            '(ret, rest, h') ← calloc_virtual ndims ds' sl' answers' (grant a rsize h);
            match ret with
            | UNWOUND => h'' ← free a h'; Done (UNWOUND, (0, s') :: rest, h'')
            | _ => Done (ret, (a, s') :: rest, h')
            end
      end
  | _, _ => Done (GRANTED, sl, h)
  end.

(** [case ALLOCATOR_MEMORY_TYPE_VIRTUAL_SHARED]. An answer of [shared_alloc]
    is [NULL] ([None], the pointer stays as it was) or the address of the
    segment's data, which is [NULL] when there is no segment. *)
Fixpoint calloc_shared (ndims : nat) (ds : list DVP_Dim_t) (sl : slots) (answers : list (option Z)) (h : heap)
    : outcome (calloc_end * slots * heap) :=
  match ds, sl with
  | d :: ds', (ptr, s) :: sl' =>
      let '(size, s') := stride_loop (dims_of ndims d) 0 1 s in
      match answers with
      | [] => NoFuel
      | None :: _ => Done (REFUSED, (ptr, s') :: sl', h)
      | Some a :: answers' =>
          '(ret, rest, h') ← calloc_shared ndims ds' sl' answers' (if a =? 0 then h else grant a size h);
          Done (ret, (a, s') :: rest, h')
      end
  | _, _ => Done (GRANTED, sl, h)
  end.

(** [dims] and [sl] are the [nptrs] leading entries of the arrays. *)
Definition allocator_calloc (mtype : allocator_memory_type) (nptrs ndims : nat) (dims : list DVP_Dim_t)
    (sl : slots) (answers : list (option Z)) (h : heap) : outcome (bool * slots * heap) :=
  if (nptrs =? 0)%nat || (ndims =? 0)%nat then Done (false, sl, h)
  else if (length dims <? nptrs)%nat || (length sl <? nptrs)%nat then Undef
  else
    let loop := match mtype with
                | MEMORY_TYPE_VIRTUAL => calloc_virtual
                | MEMORY_TYPE_VIRTUAL_SHARED => calloc_shared
                end in
    '(ret, sl', h') ← loop ndims (take nptrs dims) (take nptrs sl) answers h;
    Done (match ret with GRANTED => true | _ => false end, sl' ++ drop nptrs sl, h').

(** [case ALLOCATOR_MEMORY_TYPE_VIRTUAL] of [allocator_free] *)
Fixpoint free_loop (ptrs : list Z) (h : heap) : outcome (list Z * heap) :=
  match ptrs with
  | [] => Done ([], h)
  | a :: ptrs' =>
      h' ← (if a =? 0 then Done h else free a h);
      '(rest, h'') ← free_loop ptrs' h';
      Done (0 :: rest, h'')
  end.

(** A handle of shared memory is identified with the address its segment is
    attached at. *)
Definition shared_free (hdl : Z) (h : heap) : outcome heap :=
  if hdl =? 0 then Done h else free hdl h.
(** [case ALLOCATOR_MEMORY_TYPE_VIRTUAL_SHARED] of [allocator_free] *)
Fixpoint shared_free_loop (hdls : list Z) (h : heap) : outcome (list Z * heap) :=
  match hdls with
  | [] => Done ([], h)
  | s :: hdls' =>
      h' ← shared_free s h;
      '(rest, h'') ← shared_free_loop hdls' h';
      Done (0 :: rest, h'')
  end.
Definition allocator_free (mtype : allocator_memory_type) (nptrs : nat) (ptrs hdls : list Z) (h : heap)
    : outcome (bool * list Z * heap) :=
  if (nptrs =? 0)%nat then Done (false, ptrs, h)
  else if (length ptrs <? nptrs)%nat || (length hdls <? nptrs)%nat then Undef
  else
    '(ps, h') ← match mtype with
                | MEMORY_TYPE_VIRTUAL => free_loop (take nptrs ptrs) h
                | MEMORY_TYPE_VIRTUAL_SHARED => shared_free_loop (take nptrs hdls) h
                end;
    Done (true, ps ++ drop nptrs ptrs, h').

(** The PC build's RPC layer (dvp_rpc_stub.c): no remote core to tell, and
    the handle passed by reference stays as it is. *)
Definition dvp_rpc_associate (ptr hdl size mtype : Z) : Z := DVP_FALSE.
Definition dvp_rpc_dissociate (ptr hdl size mtype : Z) : Z * Z := (DVP_FALSE, hdl).

Definition dvp_mem_calloc (mtype : Z) (nptrs ndims : nat) (dims : list DVP_Dim_t) (sl : slots)
    (answers : list (option Z)) (h : heap) : outcome (Z * slots * heap) :=
  if (nptrs =? 0)%nat || (ndims =? 0)%nat then Done (DVP_FALSE, sl, h)
  else '(ret, sl', h') ← allocator_calloc (dvp_mem_type_xlate mtype) nptrs ndims dims sl answers h;
       Done (if ret : bool then DVP_TRUE else DVP_FALSE, sl', h').

(** [hdls] is a local of [DVP_MAX_PLANES] zeroes, which the dissociations
    were to fill in. *)
Definition dvp_mem_free (mtype : Z) (nptrs ndims : nat) (dims : list DVP_Dim_t) (ptrs : list Z) (h : heap)
    : outcome (Z * list Z * heap) :=
  if (nptrs =? 0)%nat || (ndims =? 0)%nat then Done (DVP_FALSE, ptrs, h)
  else
    hdls ← ofold (fun hdls p =>
             d ← of_option (aget dims p);
             a ← of_option (aget ptrs p);
             hdl ← of_option (aget hdls p);
             of_option (aset hdls p
               (dvp_rpc_dissociate a hdl (stride_loop (dims_of ndims d) 0 1 no_dim).1 mtype).2))
           (seqZ 0 (Z.of_nat nptrs)) no_pointers;
    '(ret, ps, h') ← allocator_free (dvp_mem_type_xlate mtype) nptrs ptrs hdls h;
    Done (if ret : bool then DVP_TRUE else DVP_FALSE, ps, h').

(** ** Facts *)

(** The block [a, a + n) is not in use. *)
Definition fresh (a n : Z) (h : heap) : Prop :=
  0 < a /\ 0 <= n /\ blocks h !! a = None /\ forall x, a <= x < a + n -> bytes h !! x = None.

Lemma unmap_lookup a n m x : unmap a n m !! x = if decide (a <= x < a + n) then None else m !! x.
Proof.
  unfold unmap. assert (forall l, foldr (fun x (m : memory) => delete x m) m l !! x =
    if decide (x ∈ l) then None else m !! x) as H.
  { induction l as [|y l IH]; simpl.
    - destruct (decide (x ∈ [])) as [Hx|]; [by apply elem_of_nil in Hx|done].
    - destruct (decide (x = y)) as [->|Hne].
      + rewrite lookup_delete_eq, decide_True; [done|by left].
      + rewrite lookup_delete_ne, IH by congruence.
        destruct (decide (x ∈ l)); [by rewrite decide_True by (by right)|].
        rewrite decide_False; [done|]. by intros [?|?]%elem_of_cons. }
  rewrite H. destruct (decide (x ∈ seqZ a n)) as [Hx|Hx]; rewrite elem_of_seqZ in Hx.
  - by rewrite decide_True.
  - by rewrite decide_False.
Qed.

(** A block that is granted and freed leaves no trace. *)
Lemma grant_free a n h : fresh a n h -> free a (grant a n h) = Done h.
Proof.
  intros (Ha & Hn & Hb & Hf). unfold free, grant. simpl. rewrite lookup_insert_eq. destruct h as [m b].
  f_equal. f_equal.
  - apply map_eq. intros x. rewrite unmap_lookup, put_bytes_lookup. simpl in *. unfold zero_bytes.
    rewrite length_replicate, Z2Nat.id by done.
    destruct (decide (a <= x < a + n)); [by rewrite Hf|done].
  - simpl. by rewrite delete_insert_id.
Qed.

Lemma grant_mapped a n h : 0 <= n -> mapped a n (bytes (grant a n h)).
Proof.
  intros Hn. unfold grant. simpl. rewrite <- (Z2Nat.id n) at 1 by done.
  rewrite <- (length_replicate (Z.to_nat n) 0). apply put_bytes_maps.
Qed.
Lemma grant_keeps_mapped a n h b k : mapped b k (bytes h) -> mapped b k (bytes (grant a n h)).
Proof. intros H. by apply put_bytes_mapped. Qed.

Definition block_size (ndims : nat) (d : DVP_Dim_t) : Z := (stride_loop (dims_of ndims d) 0 1 no_dim).1.

Lemma stride_loop_size ds : forall n size s s', (stride_loop ds n size s).1 = (stride_loop ds n size s').1.
Proof. induction ds as [|d ds IH]; intros n size s s'; simpl; [done|apply IH]. Qed.

(** What is reserved for a block: whole pages. *)
Definition reserve_size (ndims : nat) (d : DVP_Dim_t) : Z := u32 (allocator_page_align_size (block_size ndims d)).

(** The answers give blocks that are fresh and apart from each other. *)
Fixpoint granted (ndims : nat) (ds : list DVP_Dim_t) (addrs : list Z) (h : heap) : Prop :=
  match ds, addrs with
  | [], [] => True
  | d :: ds', a :: addrs' =>
      block_size ndims d <= 2 ^ 32 - SOSAL_PAGE_SIZE /\ fresh a (reserve_size ndims d) h /\
      Forall (fun da => a <> da.2 /\ apart a (reserve_size ndims d) da.2 (reserve_size ndims da.1)) (zip ds' addrs') /\
      granted ndims ds' addrs' h
  | _, _ => False
  end.

Definition grants (ndims : nat) (ds : list DVP_Dim_t) (addrs : list Z) (h : heap) : heap :=
  foldl (fun h da => grant da.2 (reserve_size ndims da.1) h) h (zip ds addrs).

Lemma grants_keep_mapped ndims ds : forall addrs h b k,
  mapped b k (bytes h) -> mapped b k (bytes (grants ndims ds addrs h)).
Proof.
  unfold grants. induction ds as [|d ds IH]; intros [|a addrs] h b k Hm; try done. simpl.
  by apply IH, grant_keeps_mapped.
Qed.

Lemma block_size_u32 ndims d : is_u32 (block_size ndims d).
Proof.
  unfold block_size. generalize (dims_of ndims d) as ds. intros ds. generalize 0%nat, no_dim.
  assert (is_u32 1) as H by (unfold is_u32; lia). revert H. generalize 1.
  induction ds as [|x ds IH]; intros z Hz n s; simpl; [done|]. apply IH, u32_range.
Qed.

Lemma reserve_size_nonneg ndims d : 0 <= reserve_size ndims d.
Proof. apply u32_range. Qed.
Lemma reserve_size_enough ndims d :
  block_size ndims d <= 2 ^ 32 - SOSAL_PAGE_SIZE -> block_size ndims d <= reserve_size ndims d.
Proof.
  intros Hs. destruct (block_size_u32 ndims d) as [H0 _]. unfold reserve_size, allocator_page_align_size.
  unfold SOSAL_PAGE_SIZE in *. change (4096 - 1) with (Z.ones 12). rewrite Z.land_ones by lia.
  pose proof (Z.mod_pos_bound (block_size ndims d) (2 ^ 12)).
  destruct (Z.ltb_spec 0 (block_size ndims d mod 2 ^ 12)).
  - rewrite u64_small by (unfold is_u64; lia).
    pose proof (Z.div_mod (block_size ndims d) (2 ^ 12)).
    assert (block_size ndims d / 2 ^ 12 < 2 ^ 20 - 1 \/ block_size ndims d / 2 ^ 12 = 2 ^ 20 - 1 \/ 2 ^ 20 - 1 < block_size ndims d / 2 ^ 12) as [Hq|[Hq|Hq]] by lia.
    + rewrite u32_small by (unfold is_u32; lia). lia.
    + lia.
    + lia.
  - rewrite u32_small by (unfold is_u32; lia). lia.
Qed.

(** ** Freeing what was allocated *)

Lemma grant_comm a n b k h : 0 <= n -> 0 <= k -> a <> b -> apart a n b k ->
  grant b k (grant a n h) = grant a n (grant b k h).
Proof.
  intros Hn Hk Hne Hap. unfold grant. simpl. f_equal.
  - apply map_eq. intros x. rewrite !put_bytes_lookup. unfold zero_bytes.
    rewrite !length_replicate, !Z2Nat.id by done.
    destruct (decide (a <= x < a + n)), (decide (b <= x < b + k)); try done. by destruct (Hap x).
  - by rewrite insert_insert_ne.
Qed.

Lemma fresh_grant a n b k h : fresh a n h -> 0 <= k -> a <> b -> apart a n b k -> fresh a n (grant b k h).
Proof.
  intros (Ha & Hn & Hbl & Hby) Hk Hne Hap. split_and!; [done|done| |].
  - unfold grant. simpl. by rewrite lookup_insert_ne.
  - intros x Hx. unfold grant. simpl. rewrite put_bytes_lookup. unfold zero_bytes.
    rewrite length_replicate, Z2Nat.id by done. rewrite decide_False; [by apply Hby|].
    intros ?. by apply (Hap x).
Qed.

Lemma grants_grant ndims a n ds : forall addrs h, 0 <= n ->
  Forall (fun da => a <> da.2 /\ apart a n da.2 (reserve_size ndims da.1)) (zip ds addrs) ->
  grants ndims ds addrs (grant a n h) = grant a n (grants ndims ds addrs h) /\
  (fresh a n h -> fresh a n (grants ndims ds addrs h)).
Proof.
  unfold grants. induction ds as [|d ds IH]; intros [|b addrs] h Hn Hap; try done. simpl in *.
  apply Forall_cons in Hap as [[Hne Hd] Hap]. simpl in *. pose proof (reserve_size_nonneg ndims d).
  rewrite grant_comm by done. destruct (IH addrs (grant b (reserve_size ndims d) h) Hn Hap) as [-> Hf].
  split; [done|]. intros ?. by apply Hf, fresh_grant.
Qed.

Lemma granted_grant ndims a n ds : forall addrs h, 0 <= n ->
  Forall (fun da => a <> da.2 /\ apart a n da.2 (reserve_size ndims da.1)) (zip ds addrs) ->
  granted ndims ds addrs h -> granted ndims ds addrs (grant a n h).
Proof.
  induction ds as [|d ds IH]; intros [|b addrs] h Hn Hap Hg; try done. simpl in *.
  apply Forall_cons in Hap as [[Hne Hd] Hap]. destruct Hg as (Hsz & Hf & Hfa & Hg). simpl in *.
  split_and!; [done| |done|by apply IH].
  apply fresh_grant; [done|done|congruence|]. intros x [? ?]. by apply (Hd x).
Qed.

Lemma calloc_virtual_spec ndims ds : forall sl addrs h,
  length sl = length ds -> granted ndims ds addrs h ->
  exists sl', calloc_virtual ndims ds sl (Some <$> addrs) h = Done (GRANTED, sl', grants ndims ds addrs h) /\
    sl'.*1 = addrs /\ length sl' = length sl /\
    forall (p : nat) d s, ds !! p = Some d -> sl !! p = Some s -> exists a,
      sl' !! p = Some (a, (stride_loop (dims_of ndims d) 0 1 s.2).2) /\ 0 < a /\
      mapped a (block_size ndims d) (bytes (grants ndims ds addrs h)).
Proof.
  induction ds as [|d ds IH]; intros [|[ptr s] sl] [|a addrs] h Hl Hg; try done; simpl.
  { eexists. by split_and!. }
  injection Hl as Hl. destruct Hg as (Hsz & Hf & Hap & Hg).
  destruct (stride_loop (dims_of ndims d) 0 1 s) as [size s1] eqn:Hs.
  assert (size = block_size ndims d) as ->.
  { unfold block_size. by rewrite (stride_loop_size _ _ _ _ s), Hs. }
  pose proof (reserve_size_enough ndims d Hsz) as Hen. pose proof (proj1 Hf) as Hpa.
  rewrite (proj2 (Z.eqb_neq a 0)) by lia. fold (reserve_size ndims d).
  rewrite (proj2 (Z.ltb_ge _ _) Hen).
  change (list_fmap Z (option Z) Some addrs) with (Some <$> addrs).
  destruct (IH sl addrs (grant a (reserve_size ndims d) h) Hl) as (sl' & -> & Hs1 & Hlen & Hsl).
  { by apply granted_grant; [apply reserve_size_nonneg|..]. }
  simpl. eexists. split_and!; [done|by rewrite fmap_cons, Hs1|simpl; lia|].
  intros [|p] d0 s0 Hd Hs0; simpl in *; [|by apply Hsl].
  simplify_eq. simpl. rewrite Hs. exists a.
  split_and!; [done|done|]. apply (mapped_shrink a (reserve_size ndims d0)); [lia|lia|].
  apply (grants_keep_mapped ndims ds), grant_mapped, reserve_size_nonneg.
Qed.

(** Freeing the pointers of a successful allocation gives the heap back. *)
Lemma free_grants ndims ds : forall addrs h, granted ndims ds addrs h ->
  free_loop addrs (grants ndims ds addrs h) = Done (replicate (length addrs) 0, h).
Proof.
  induction ds as [|d ds IH]; intros [|a addrs] h Hg; try done. destruct Hg as (Hsz & Hf & Hap & Hg).
  pose proof (reserve_size_nonneg ndims d) as Hn.
  destruct (grants_grant ndims a (reserve_size ndims d) ds addrs h Hn Hap) as [Heq Hfr].
  change (grants ndims (d :: ds) (a :: addrs) h) with (grants ndims ds addrs (grant a (reserve_size ndims d) h)).
  rewrite Heq. simpl. rewrite (proj2 (Z.eqb_neq _ _)) by (destruct Hf; lia).
  rewrite grant_free by auto. simpl. by rewrite IH.
Qed.

Lemma granted_positive ndims ds : forall addrs h, granted ndims ds addrs h ->
  length addrs = length ds /\ Forall (fun a => 0 < a) addrs.
Proof.
  induction ds as [|d ds IH]; intros [|a addrs] h Hg; try done. destruct Hg as (_ & (? & _) & _ & Hg).
  apply IH in Hg as [? ?]. split; [simpl; lia|by constructor].
Qed.

Lemma free_virtual_all ndims ds ptrs h hdls nptrs :
  (0 < nptrs)%nat -> (nptrs <= length ptrs)%nat -> (nptrs <= length hdls)%nat ->
  granted ndims ds (take nptrs ptrs) h ->
  allocator_free MEMORY_TYPE_VIRTUAL nptrs ptrs hdls (grants ndims ds (take nptrs ptrs) h) =
    Done (true, replicate nptrs 0 ++ drop nptrs ptrs, h).
Proof.
  intros Hp Hl Hh Hg. unfold allocator_free. rewrite (proj2 (Nat.eqb_neq nptrs 0)) by lia.
  rewrite (proj2 (Nat.ltb_ge (length ptrs) nptrs)), (proj2 (Nat.ltb_ge (length hdls) nptrs)) by lia.
  cbn [orb]. rewrite (free_grants ndims ds _ h Hg). cbn [mbind outcome_bind].
  by rewrite length_take, Nat.min_l by lia.
Qed.

Lemma shared_free_nulls hdls h : Forall (eq 0) hdls ->
  shared_free_loop hdls h = Done (replicate (length hdls) 0, h).
Proof. induction 1 as [|? ? <- ? IH]; simpl; [done|]. by rewrite IH. Qed.

(** Without remote cores the handles stay zero. *)
Lemma dvp_mem_free_hdls mtype nptrs ndims dims ptrs h :
  (0 < nptrs <= 4)%nat -> (0 < ndims)%nat -> (nptrs <= length dims)%nat -> (nptrs <= length ptrs)%nat ->
  dvp_mem_free mtype nptrs ndims dims ptrs h =
    ('(ret, ps, h') ← allocator_free (dvp_mem_type_xlate mtype) nptrs ptrs no_pointers h;
     Done (if ret : bool then DVP_TRUE else DVP_FALSE, ps, h')).
Proof.
  intros Hp Hn Hd Hl. unfold dvp_mem_free.
  rewrite (proj2 (Nat.eqb_neq nptrs 0)), (proj2 (Nat.eqb_neq ndims 0)) by lia. cbn [orb].
  match goal with |- (ofold ?f ?l _ ≫= _) = _ =>
    destruct (fun H => ofold_total f (fun _ hs => hs = no_pointers) l H no_pointers eq_refl) as (hs & -> & ->)
  end; [|done].
  intros pre p post hs Hpre ->.
  assert (0 <= p < Z.of_nat nptrs) as Hpr.
  { assert (p ∈ seqZ 0 (Z.of_nat nptrs)) as Hin by (rewrite Hpre; apply elem_of_app; right; by left).
    apply elem_of_seqZ in Hin. lia. }
  destruct (aget_in_range dims p) as [d ->]; [lia|]. destruct (aget_in_range ptrs p) as [a ->]; [lia|].
  assert (p = 0 \/ p = 1 \/ p = 2 \/ p = 3) as [->|[->|[->| ->]]] by lia; by eexists.
Qed.

Lemma calloc_virtual_done mtype nptrs ndims dims sl sl' answers h h' :
  calloc_virtual ndims (take nptrs dims) (take nptrs sl) answers h = Done (GRANTED, sl', h') ->
  dvp_mem_type_xlate mtype = MEMORY_TYPE_VIRTUAL ->
  (0 < nptrs)%nat -> (0 < ndims)%nat -> (nptrs <= length dims)%nat -> (nptrs <= length sl)%nat ->
  dvp_mem_calloc mtype nptrs ndims dims sl answers h = Done (DVP_TRUE, sl' ++ drop nptrs sl, h').
Proof.
  intros Hc Ht Hp Hn Hd Hs. unfold dvp_mem_calloc, allocator_calloc. rewrite Ht.
  rewrite (proj2 (Nat.eqb_neq nptrs 0)), (proj2 (Nat.eqb_neq ndims 0)) by lia. cbn [orb].
  rewrite (proj2 (Nat.ltb_ge (length dims) nptrs)), (proj2 (Nat.ltb_ge (length sl) nptrs)) by lia.
  cbn [orb]. by rewrite Hc.
Qed.

(** ** Properties *)

(** An allocation whose requests are all granted succeeds, gives each
    pointer a block with the product of its dimensions mapped, and records
    the running products as strides; freeing its pointers succeeds, nulls
    them, and leaves the heap as it was before the allocation. *)
Theorem calloc_free_roundtrip (nptrs ndims : nat) dims sl addrs h :
  (0 < nptrs <= 4)%nat -> (0 < ndims)%nat -> length dims = nptrs -> length sl = nptrs ->
  granted ndims dims addrs h ->
  exists sl' h',
    dvp_mem_calloc DVP_MTYPE_MPUCACHED_VIRTUAL nptrs ndims dims sl (Some <$> addrs) h = Done (DVP_TRUE, sl', h') /\
    sl'.*1 = addrs /\
    (forall (p : nat) d s, dims !! p = Some d -> sl !! p = Some s -> exists a,
       sl' !! p = Some (a, (stride_loop (dims_of ndims d) 0 1 s.2).2) /\ 0 < a /\
       mapped a (block_size ndims d) (bytes h')) /\
    dvp_mem_free DVP_MTYPE_MPUCACHED_VIRTUAL nptrs ndims dims addrs h' = Done (DVP_TRUE, replicate nptrs 0, h).
Proof.
  intros Hp Hn Hd Hs Hg. pose proof (granted_positive _ _ _ _ Hg) as [Hla _].
  destruct (calloc_virtual_spec ndims dims sl addrs h) as (sl' & Hc & Hptr & Hlen & Hsl); [congruence|done|].
  exists sl', (grants ndims dims addrs h).
  rewrite (calloc_virtual_done _ nptrs _ _ _ sl' (Some <$> addrs) h (grants ndims dims addrs h))
    by (rewrite ?take_ge by lia; done || lia).
  rewrite (drop_ge sl), app_nil_r, dvp_mem_free_hdls by lia. split_and!; [done..|].
  change (dvp_mem_type_xlate _) with MEMORY_TYPE_VIRTUAL.
  pose proof (free_virtual_all ndims dims addrs h no_pointers nptrs) as Hf.
  rewrite take_ge in Hf by lia. rewrite Hf by (done || simpl; lia || congruence).
  by rewrite drop_ge, app_nil_r by lia.
Qed.

(** Freeing a shared-memory allocation answers that it succeeded and
    nulls the pointers, but on a build without remote cores no handle reaches
    the allocator, so nothing is released. *)
Theorem shared_free_releases_nothing (nptrs ndims : nat) dims ptrs h :
  (0 < nptrs <= 4)%nat -> (0 < ndims)%nat -> length dims = nptrs -> length ptrs = nptrs ->
  dvp_mem_free DVP_MTYPE_MPUCACHED_VIRTUAL_SHARED nptrs ndims dims ptrs h =
    Done (DVP_TRUE, replicate nptrs 0, h).
Proof.
  intros Hp Hn Hd Hs. rewrite dvp_mem_free_hdls by lia.
  change (dvp_mem_type_xlate _) with MEMORY_TYPE_VIRTUAL_SHARED. unfold allocator_free.
  rewrite (proj2 (Nat.eqb_neq nptrs 0)), (proj2 (Nat.ltb_ge (length ptrs) nptrs)) by lia.
  rewrite (proj2 (Nat.ltb_ge (length no_pointers) nptrs)) by (simpl; lia).
  rewrite drop_ge by lia. simpl orb. cbv iota.
  rewrite shared_free_nulls by (apply Forall_take; repeat constructor).
  cbn -[take no_pointers]. rewrite length_take, app_nil_r. do 2 f_equal. f_equal. f_equal. simpl. lia.
Qed.

(** When a request after the first is refused, the allocation fails but
    keeps the block it was granted: the heap still holds the first one, with
    its address left in the caller's pointer array. *)
Theorem calloc_refusal_leaks ndims d1 d2 ds p1 p2 sl s1 s2 a answers h :
  0 < a -> block_size ndims d1 <= 2 ^ 32 - SOSAL_PAGE_SIZE ->
  exists sl', calloc_virtual ndims (d1 :: d2 :: ds) ((p1, s1) :: (p2, s2) :: sl)
      (Some a :: None :: answers) h =
    Done (REFUSED, sl', grant a (reserve_size ndims d1) h) /\
    fst <$> sl' !! 0%nat = Some a /\ fst <$> sl' !! 1%nat = Some 0 /\
    blocks (grant a (reserve_size ndims d1) h) !! a = Some (reserve_size ndims d1).
Proof.
  intros Ha Hsz. pose proof (reserve_size_enough ndims d1 Hsz) as Hen.
  simpl. destruct (stride_loop (dims_of ndims d1) 0 1 s1) as [size1 s1'] eqn:H1.
  destruct (stride_loop (dims_of ndims d2) 0 1 s2) as [size2 s2'] eqn:H2. simpl.
  assert (size1 = block_size ndims d1) as ->.
  { unfold block_size. by rewrite (stride_loop_size _ _ _ _ s1), H1. }
  fold (reserve_size ndims d1). rewrite (proj2 (Z.eqb_neq a 0)), (proj2 (Z.ltb_ge _ _) Hen) by lia. simpl.
  eexists. split; [done|]. split_and!; [done|done|]. by rewrite lookup_insert_eq.
Qed.

(** A heap with nothing allocated, and two blocks for a 4x2 NV12 image. *)
Definition empty_heap : heap := mkHeap ∅ ∅.
Definition nv12_dims : list DVP_Dim_t := [mkDim 1 4 2; mkDim 2 2 1].

Lemma nv12_granted : granted 3 nv12_dims [4096; 8192] empty_heap.
Proof.
  assert (forall a n, 0 < a -> 0 <= n -> fresh a n empty_heap) as Hf by (intros; by split_and!).
  assert (forall d, In d nv12_dims -> reserve_size 3 d = 4096 /\ block_size 3 d <= 2 ^ 32 - SOSAL_PAGE_SIZE) as Hr.
  { intros d [<-|[<-|[]]]; split; vm_compute; congruence. }
  destruct (Hr (mkDim 1 4 2)) as [E1 ?]; [by left|]. destruct (Hr (mkDim 2 2 1)) as [E2 ?]; [by right; left|].
  unfold nv12_dims. cbn [granted zip_with zip]. rewrite E1, E2.
  split; [done|split; [apply Hf; lia|split; [|split; [done|split; [|by split]]]]].
  - repeat constructor; cbn [fst snd]; [lia|]. intros x. rewrite E2. lia.
  - apply Hf; lia.
Qed.

Lemma calloc_free_roundtrip_witness :
  exists sl h', dvp_mem_calloc DVP_MTYPE_MPUCACHED_VIRTUAL 2 3 nv12_dims
      [(0, no_dim); (0, no_dim)] [Some 4096; Some 8192] empty_heap = Done (DVP_TRUE, sl, h') /\
    dvp_mem_free DVP_MTYPE_MPUCACHED_VIRTUAL 2 3 nv12_dims [4096; 8192] h' = Done (DVP_TRUE, [0; 0], empty_heap).
Proof.
  destruct (calloc_free_roundtrip 2 3 nv12_dims [(0, no_dim); (0, no_dim)] [4096; 8192] empty_heap)
    as (sl & h' & Hc & _ & _ & Hf); [lia|lia|done|done|exact nv12_granted|by exists sl, h'].
Defined.

Lemma shared_free_releases_nothing_witness :
  dvp_mem_free DVP_MTYPE_MPUCACHED_VIRTUAL_SHARED 1 3 [mkDim 1 4 2] [4096] (grant 4096 8 empty_heap) =
    Done (DVP_TRUE, [0], grant 4096 8 empty_heap) /\
  blocks (grant 4096 8 empty_heap) !! 4096 = Some 8.
Proof.
  split; [|reflexivity].
  apply (shared_free_releases_nothing 1 3 [mkDim 1 4 2] [4096]); [lia|lia|done|done].
Defined.

Lemma calloc_refusal_leaks_witness :
  exists sl', calloc_virtual 3 nv12_dims [(0, no_dim); (0, no_dim)] [Some 4096; None] empty_heap =
    Done (REFUSED, sl', grant 4096 4096 empty_heap) /\ fst <$> sl' !! 0%nat = Some 4096.
Proof.
  destruct (calloc_refusal_leaks 3 (mkDim 1 4 2) (mkDim 2 2 1) [] 0 0 [] no_dim no_dim 4096 [] empty_heap)
    as (sl' & Hc & Hp & _); [lia|vm_compute; congruence|].
  exists sl'. split; [|done]. change 4096 with (reserve_size 3 (mkDim 1 4 2)) at 3. exact Hc.
Defined.
