(* ===== verification/ImageLayout.v ===== *)
(** * Image addresses stay inside their plane (facts about dvp_mem.c)

    [laid_out] is the condition under which the layout arithmetic does not
    overflow and the sub-sampled planes divide the buffer evenly. *)
From S2P Require Import Prelude DvpTypes Memory Image Allocator.

(** Bytes of one sample, and the sample grid of a plane. *)
Definition sample_bytes (i : DVP_Image_t) (p : Z) : Z := x_stride i * DVP_Image_WidthStep i p.
Definition columns (i : DVP_Image_t) (p : Z) : Z := bufWidth i / DVP_Image_WidthDiv i p.
Definition rows (i : DVP_Image_t) (p : Z) : Z := bufHeight i / DVP_Image_HeightDiv i p.

Record laid_out (i : DVP_Image_t) : Prop := {
  lo_planes : 0 < planes i <= DVP_MAX_PLANES;
  lo_dims : 0 < bufWidth i /\ 0 < bufHeight i;
  lo_stride : 0 < x_stride i;
  lo_even : forall p, 0 <= p < planes i ->
    (DVP_Image_WidthDiv i p | bufWidth i) /\ (DVP_Image_HeightDiv i p | bufHeight i);
  lo_lines : x_stride i * bufWidth i <= Z.abs (y_stride i);
  lo_small : Z.abs (y_stride i) * bufHeight i < 2 ^ 30;
  lo_binary : color i = FOURCC_BIN1 -> planes i = 1 }.

Ltac case_one_of :=
  match goal with
  | |- context [one_of ?c ?l] => destruct (one_of c l) eqn:?
  end.

Lemma one_of_In c l : one_of c l = true <-> In c l.
Proof.
  unfold one_of. rewrite existsb_exists. split.
  - by intros (x & ? & ->%Z.eqb_eq).
  - intros ?. exists c. split; [done|apply Z.eqb_refl].
Qed.

Lemma HeightDiv_range i p : 1 <= DVP_Image_HeightDiv i p <= 4.
Proof. unfold DVP_Image_HeightDiv. destruct (_ && _); [|lia]. repeat case_one_of; lia. Qed.
Lemma WidthStep_range i p : 1 <= DVP_Image_WidthStep i p <= 2.
Proof. unfold DVP_Image_WidthStep. destruct (_ && _); [|lia]. case_one_of; lia. Qed.
Lemma WidthDiv_range i p : 1 <= DVP_Image_WidthDiv i p <= 8.
Proof.
  unfold DVP_Image_WidthDiv. destruct (_ <? _); [|lia]. destruct (_ <? _).
  - repeat case_one_of; lia.
  - destruct (_ =? _); lia.
Qed.

(** No plane packs more bytes into a line than the first. *)
Lemma WidthStep_le_div i p : color i <> FOURCC_BIN1 -> DVP_Image_WidthStep i p <= DVP_Image_WidthDiv i p.
Proof.
  intros Hb. unfold DVP_Image_WidthStep, DVP_Image_WidthDiv.
  destruct (p <? planes i); simpl; [|lia]. destruct (0 <? p); simpl.
  - destruct (one_of (color i) [FOURCC_NV12; FOURCC_NV21]) eqn:Hn.
    + apply one_of_In in Hn. rewrite (proj2 (one_of_In (color i) _)); [lia|]. simpl in *. tauto.
    + repeat case_one_of; lia.
  - destruct (_ =? _); lia.
Qed.

Lemma div_le_pred a b d : 0 < d -> (d | b) -> 0 <= a < b -> 0 <= a / d <= b / d - 1.
Proof.
  intros Hd [k ->] Ha. rewrite Z.div_mul by lia. split; [apply Z.div_pos; lia|].
  assert (a / d < k) by (apply Z.div_lt_upper_bound; lia). lia.
Qed.

Section Layout.
Context (i : DVP_Image_t) (Hlo : laid_out i).

Lemma laid_out_sizes p : 0 <= p < planes i ->
  0 < sample_bytes i p /\ 0 < columns i p /\ 0 < rows i p /\
  columns i p * DVP_Image_WidthDiv i p = bufWidth i /\
  rows i p * DVP_Image_HeightDiv i p = bufHeight i /\
  sample_bytes i p * columns i p <= x_stride i * bufWidth i.
Proof.
  intros Hp. destruct Hlo as [Hpl [Hw Hh] Hxs Heven _ _ Hbin]. destruct (Heven p Hp) as [[cw Hcw] [ch Hch]].
  pose proof (WidthDiv_range i p). pose proof (HeightDiv_range i p). pose proof (WidthStep_range i p).
  unfold sample_bytes, columns, rows. rewrite Hcw, Hch, !Z.div_mul by lia.
  rewrite Hcw in Hw. rewrite Hch in Hh. split_and!; [nia|nia|nia|done|done|].
  assert (DVP_Image_WidthStep i p <= DVP_Image_WidthDiv i p) as Hle; [|nia].
  destruct (decide (color i = FOURCC_BIN1)) as [Hb|Hb]; [|by apply WidthStep_le_div].
  specialize (Hbin Hb). unfold DVP_Image_WidthStep, DVP_Image_WidthDiv.
  rewrite (proj2 (Z.ltb_lt p (planes i))), (proj2 (Z.ltb_ge 0 p)) by lia. simpl. rewrite Hb, Z.eqb_refl. lia.
Qed.

Lemma line_bytes_exact p : 0 <= p < planes i -> line_bytes i p (bufWidth i) = sample_bytes i p * columns i p.
Proof.
  intros Hp. pose proof (laid_out_sizes p Hp) as (Hs & Hc & _ & _ & _ & Hle).
  destruct Hlo as [_ [Hw Hh] Hxs _ Hl Hsm _]. unfold line_bytes. fold (columns i p). fold (sample_bytes i p).
  rewrite (u32_small (sample_bytes i p)) by (unfold is_u32; nia). apply u32_small. unfold is_u32. nia.
Qed.

Lemma LineRange_bounds p : 0 <= p < planes i ->
  sample_bytes i p * columns i p <= DVP_Image_LineRange i p <= Z.abs (y_stride i).
Proof.
  intros Hp. pose proof (laid_out_sizes p Hp) as (Hs & Hc & _ & _ & _ & Hle).
  destruct Hlo as [Hpl [Hw Hh] Hxs _ Hl Hsm _]. unfold DVP_Image_LineRange.
  rewrite (proj2 (Z.ltb_lt _ _)) by lia. rewrite (u32_small (Z.abs _)) by (unfold is_u32; nia).
  destruct (0 <? p); [|lia].
  destruct (_ =? _); [rewrite line_bytes_exact by done; lia|lia].
Qed.

Lemma stride_small : Z.abs (y_stride i) < 2 ^ 30.
Proof.
  destruct Hlo as [_ [_ Hh] _ _ _ Hsm _]. pose proof (Z.abs_nonneg (y_stride i)).
  assert (Z.abs (y_stride i) * 1 <= Z.abs (y_stride i) * bufHeight i) by (apply Z.mul_le_mono_nonneg_l; lia). lia.
Qed.

Lemma PlaneRange_exact p : 0 <= p < planes i ->
  DVP_Image_PlaneRange i p = DVP_Image_LineRange i p * rows i p.
Proof.
  intros Hp. pose proof (laid_out_sizes p Hp) as (Hs & Hc & Hr & _ & Heq & _).
  pose proof (LineRange_bounds p Hp) as [Hlo1 Hhi]. pose proof (HeightDiv_range i p).
  destruct Hlo as [Hpl [Hw Hh] Hxs _ Hl Hsm _]. unfold DVP_Image_PlaneRange.
  rewrite (proj2 (Z.ltb_lt _ _)) by lia. rewrite u32_small by (unfold is_u32; nia).
  rewrite <- Heq at 1. rewrite Z.mul_assoc, Z.div_mul by lia. done.
Qed.

Lemma Offset_exact p x y : 0 <= p < planes i -> 0 <= x < bufWidth i -> 0 <= y < bufHeight i ->
  DVP_Image_Offset i x y p =
    (y / DVP_Image_HeightDiv i p) * DVP_Image_LineRange i p + (x / DVP_Image_WidthDiv i p) * sample_bytes i p /\
  0 <= y / DVP_Image_HeightDiv i p <= rows i p - 1 /\ 0 <= x / DVP_Image_WidthDiv i p <= columns i p - 1.
Proof.
  intros Hp Hx Hy. pose proof (laid_out_sizes p Hp) as (Hs & Hc & Hr & Hcw & Hrh & Hle).
  pose proof (LineRange_bounds p Hp) as [Hl1 Hl2]. pose proof (HeightDiv_range i p). pose proof (WidthDiv_range i p).
  assert (0 <= y / DVP_Image_HeightDiv i p <= rows i p - 1) as Hyr.
  { apply div_le_pred; [lia|by apply (lo_even i Hlo)|done]. }
  assert (0 <= x / DVP_Image_WidthDiv i p <= columns i p - 1) as Hxr.
  { apply div_le_pred; [lia|by apply (lo_even i Hlo)|done]. }
  split; [|done]. destruct Hlo as [Hpl [Hw Hh] Hxs _ Hl Hsm _]. unfold DVP_Image_Offset.
  rewrite !(proj2 (Z.ltb_lt _ _)) by lia. simpl. fold (sample_bytes i p).
  set (r := y / _) in *. set (c := x / _) in *. set (lr := DVP_Image_LineRange i p) in *.
  set (s := sample_bytes i p) in *. set (cols := columns i p) in *. set (rws := rows i p) in *.
  set (A := Z.abs (y_stride i)) in *.
  assert (0 < lr) by nia.
  assert (0 <= c * s <= lr - s) by nia.
  assert (0 <= r * lr <= rws * lr - lr) by nia.
  assert (rws <= bufHeight i) by nia.
  assert (rws * lr <= bufHeight i * A) by nia.
  assert (A < 2 ^ 30) by nia.
  rewrite (u32_small s), (u32_small (r * lr)), (u32_small (c * s)) by (unfold is_u32; lia).
  apply u32_small. unfold is_u32. lia.
Qed.

End Layout.

(** ** Properties *)

(** In a laid-out image every sample of every plane lies inside the
    plane's byte range. *)
Theorem offset_in_plane i p x y :
  laid_out i -> 0 <= p < planes i -> 0 <= x < bufWidth i -> 0 <= y < bufHeight i ->
  0 <= DVP_Image_Offset i x y p /\
  DVP_Image_Offset i x y p + sample_bytes i p <= DVP_Image_PlaneRange i p.
Proof.
  intros Hlo Hp Hx Hy. destruct (Offset_exact i Hlo p x y Hp Hx Hy) as (-> & Hr & Hc).
  rewrite (PlaneRange_exact i Hlo) by done. pose proof (LineRange_bounds i Hlo p Hp).
  pose proof (laid_out_sizes i Hlo p Hp) as (? & ? & ? & _). nia.
Qed.

(** Two pixels share their sample exactly when they fall into the same
    cell of the plane's sub-sampling grid; different samples of a plane
    never overlap. *)
Theorem offset_separates_samples i p x y x' y' :
  laid_out i -> 0 <= p < planes i -> 0 <= x < bufWidth i -> 0 <= y < bufHeight i ->
  0 <= x' < bufWidth i -> 0 <= y' < bufHeight i ->
  let same := x / DVP_Image_WidthDiv i p = x' / DVP_Image_WidthDiv i p /\
              y / DVP_Image_HeightDiv i p = y' / DVP_Image_HeightDiv i p in
  (same -> DVP_Image_Offset i x y p = DVP_Image_Offset i x' y' p) /\
  (~ same -> sample_bytes i p <= Z.abs (DVP_Image_Offset i x y p - DVP_Image_Offset i x' y' p)).
Proof.
  intros Hlo Hp Hx Hy Hx' Hy' same.
  destruct (Offset_exact i Hlo p x y Hp Hx Hy) as (-> & Hr & Hc).
  destruct (Offset_exact i Hlo p x' y' Hp Hx' Hy') as (-> & Hr' & Hc'). unfold same. clear same.
  pose proof (LineRange_bounds i Hlo p Hp) as [Hl _].
  pose proof (laid_out_sizes i Hlo p Hp) as (Hs & Hcols & _).
  split; [by intros [-> ->]|]. intros Hne.
  set (r := y / _) in *. set (r' := y' / _) in *. set (c := x / _) in *. set (c' := x' / _) in *.
  set (l := DVP_Image_LineRange i p) in *. set (s := sample_bytes i p) in *.
  destruct (Z.lt_trichotomy r r') as [Hlt|[->|Hlt]].
  - assert ((r' - r) * l >= l) by nia. assert ((c - c') * s <= (columns i p - 1) * s) by nia. nia.
  - destruct (Z.lt_trichotomy c c') as [?|[->|?]]; [nia|by destruct Hne|nia].
  - assert ((r - r') * l >= l) by nia. assert ((c' - c) * s <= (columns i p - 1) * s) by nia. nia.
Qed.

(** A 4x4 NV12 image, its lines one after the other. *)
Definition nv12_at (a b : Z) : DVP_Image_t :=
  mkImage [a; b; 0; 0] [a; b; 0; 0] 2 4 4 4 4 0 0 1 4 FOURCC_NV12 24 0.
Definition nv12_4x4 : DVP_Image_t := nv12_at 4096 8192.

Lemma nv12_at_laid_out a b : laid_out (nv12_at a b).
Proof.
  split; try (simpl; unfold DVP_MAX_PLANES; lia); [|done].
  intros p Hp. simpl in Hp. assert (p = 0 \/ p = 1) as [->| ->] by lia.
  - split; by exists 4.
  - split; by exists 2.
Qed.

Lemma offset_in_plane_witness :
  0 <= DVP_Image_Offset nv12_4x4 3 3 1 /\ DVP_Image_Offset nv12_4x4 3 3 1 + 2 <= 8.
Proof. apply (offset_in_plane nv12_4x4 1 3 3 (nv12_at_laid_out 4096 8192)); simpl; lia. Defined.

Lemma offset_separates_samples_witness :
  DVP_Image_Offset nv12_4x4 2 3 1 = DVP_Image_Offset nv12_4x4 3 2 1 /\
  2 <= Z.abs (DVP_Image_Offset nv12_4x4 1 3 1 - DVP_Image_Offset nv12_4x4 2 3 1).
Proof.
  split.
  - apply (offset_separates_samples nv12_4x4 1 2 3 3 2 (nv12_at_laid_out 4096 8192)); simpl; try lia. by split.
  - apply (offset_separates_samples nv12_4x4 1 1 3 2 3 (nv12_at_laid_out 4096 8192)); simpl; try lia. intros [? _]. done.
Defined.
