(* ===== verification/ImageAlloc.v ===== *)
(** * Images and buffers in memory (source/dvp/dvp_kgraph/dvp_mem.c)

    Allocation and release over Allocator.  The handle is the boss's and not
    null; [answers] is what the system says to each request. *)
From S2P Require Import Prelude DvpTypes Memory Image Allocator.

Open Scope dvp_scope.

(** ** Images *)

Definition set_pBuffer (l : list Z) (i : DVP_Image_t) : DVP_Image_t :=
  mkImage (pData i) l (planes i) (width i) (height i) (bufWidth i) (bufHeight i) (x_start i) (y_start i)
          (x_stride i) (y_stride i) (color i) (numBytes i) (memType i).
Definition set_memType (t : Z) (i : DVP_Image_t) : DVP_Image_t :=
  mkImage (pData i) (pBuffer i) (planes i) (width i) (height i) (bufWidth i) (bufHeight i) (x_start i) (y_start i)
          (x_stride i) (y_stride i) (color i) (numBytes i) t.
Definition set_strides (x y : Z) (i : DVP_Image_t) : DVP_Image_t :=
  mkImage (pData i) (pBuffer i) (planes i) (width i) (height i) (bufWidth i) (bufHeight i) (x_start i) (y_start i)
          x y (color i) (numBytes i) (memType i).
Definition set_numBytes (n : Z) (i : DVP_Image_t) : DVP_Image_t :=
  mkImage (pData i) (pBuffer i) (planes i) (width i) (height i) (bufWidth i) (bufHeight i) (x_start i) (y_start i)
          (x_stride i) (y_stride i) (color i) n (memType i).

(** The count of pointers is passed as [DVP_S32]. *)
Definition nptrs_of (i : DVP_Image_t) : nat := Z.to_nat (s32 (planes i)).

(** [for (p = 0; p < planes; p++) pData[p] = pBuffer[p]] *)
Definition assign_data (i : DVP_Image_t) : outcome DVP_Image_t :=
  ofold (fun im p =>
    a ← of_option (aget (pBuffer im) p);
    l ← of_option (aset (pData im) p a);
    Done (set_pData l im)) (seqZ 0 (planes i)) i.

(** The display path only reports what the RPC layer answers. *)
Definition DVP_Image_Alloc (i : DVP_Image_t) (dvpMemType : Z) (answers : list (option Z)) (h : heap)
    : outcome (Z * DVP_Image_t * heap) :=
  if negb (dvpMemType =? DVP_MTYPE_DISPLAY_2DTILED) then
    dims ← DVP_Image_Dims i;
    let strides := replicate (Z.to_nat DVP_MAX_PLANES) no_dim in
    '(ret, sl, h') ← dvp_mem_calloc dvpMemType (nptrs_of i) 3 dims (zip (pBuffer i) strides) answers h;
    let i := set_pBuffer sl.*1 i in
    if ret =? DVP_TRUE then
      i ← assign_data i;
      let i := set_memType dvpMemType i in
      s ← of_option (sl !! 0%nat);
      let i := set_strides (dim0 s.2) (dim1 s.2) i in
      Done (DVP_TRUE, set_numBytes (DVP_Image_Range i) i, h')
    else Done (DVP_FALSE, i, h')
  else if one_of (color i) [FOURCC_UYVY; FOURCC_NV12] then
    ptr ← of_option (aget (pBuffer i) 0);
    Done (dvp_rpc_associate ptr 0 (numBytes i) dvpMemType, i, h)
  else Done (DVP_FALSE, i, h).

Definition DVP_Image_Free (i : DVP_Image_t) (h : heap) : outcome (Z * DVP_Image_t * heap) :=
  if negb (memType i =? DVP_MTYPE_DISPLAY_2DTILED) then
    dims ← DVP_Image_Dims i;
    '(ret, ps, h') ← dvp_mem_free (memType i) (nptrs_of i) 3 dims (pBuffer i) h;
    Done (ret, set_pBuffer ps i, h')
  else
    '(ret, _) ← ofold (fun '(_, hdls) p =>
        ptr ← of_option (aget (pBuffer i) p);
        hdl ← of_option (aget hdls p);
        let '(ret, hdl') := dvp_rpc_dissociate ptr hdl (numBytes i) (memType i) in
        hdls' ← of_option (aset hdls p hdl');
        Done (ret, hdls')) (seqZ 0 (planes i)) (DVP_FALSE, no_pointers);
    Done (ret, i, h).

(** ** Buffers *)

(** [DVP_Buffer_t] without its bookkeeping fields *)
Record DVP_Buffer_t : Set := mkBuffer { b_pData : Z; elemSize : Z; b_numBytes : Z; b_memType : Z }.

Definition DVP_Buffer_Init (elemSize numElems : Z) : DVP_Buffer_t := mkBuffer 0 elemSize (elemSize ⊠ numElems) 0.

Definition DVP_Buffer_Validate (b : DVP_Buffer_t) : bool :=
  negb ((elemSize b =? 0) || (b_numBytes b =? 0) || (DVP_MTYPE_MAX <=? b_memType b) || (b_pData b =? 0)).

(** [elemSize] may not be 0: the code divides by it. *)
Definition buffer_dims (b : DVP_Buffer_t) : outcome (list DVP_Dim_t) :=
  if elemSize b =? 0 then Undef
  else Done [mkDim (s32 (elemSize b)) (s32 (b_numBytes b / elemSize b)) 1].

Definition DVP_Buffer_Alloc (b : DVP_Buffer_t) (dvpMemType : Z) (answers : list (option Z)) (h : heap)
    : outcome (Z * DVP_Buffer_t * heap) :=
  dims ← buffer_dims b;
  '(ret, sl, h') ← dvp_mem_calloc dvpMemType 1 2 dims [(0, no_dim)] answers h;
  if ret =? DVP_TRUE then
    s ← of_option (sl !! 0%nat);
    Done (ret, mkBuffer s.1 (elemSize b) (b_numBytes b) dvpMemType, h')
  else Done (ret, b, h').

Definition DVP_Buffer_Free (b : DVP_Buffer_t) (h : heap) : outcome (Z * DVP_Buffer_t * heap) :=
  dims ← buffer_dims b;
  '(ret, ps, h') ← dvp_mem_free (b_memType b) 1 2 dims [b_pData b] h;
  p ← of_option (ps !! 0%nat);
  Done (ret, mkBuffer p (elemSize b) (b_numBytes b) (b_memType b), h').
