(* ===== verification/ImageTransfer.v ===== *)
(** * Moving pixels (source/dvp/dvp_kgraph/dvp_mem.c)

    Fill, copy, compare, serialize: the operations of [DVP_Image_t] that read
    and write the bytes its plane pointers lead to. *)
From S2P Require Import Prelude DvpTypes Memory Image.

Open Scope dvp_scope.

(** ** Loops over the patch *)

(** [for (y = 0; y < height / ydiv; y++)] inside of
    [for (p = 0; p < planes; p++)] *)
Definition for_lines {S} (planes : Z) (rows : Z -> Z) (body : Z -> Z -> S -> outcome S) (s : S) : outcome S :=
  ofold (fun s p => ofold (fun s y => body p y s) (seqZ 0 (rows p)) s) (seqZ 0 planes) s.

Definition patch_rows (i : DVP_Image_t) (p : Z) : Z := height i / DVP_Image_HeightDiv i p.
(** The line [y * ydiv] of a plane, [ydiv] taken from [g]. *)
Definition patch_line (g i : DVP_Image_t) (p y : Z) : outcome Z :=
  DVP_Image_PatchAddressing i 0 (y ⊠ DVP_Image_HeightDiv g p) p.

(** [for (p = 0; p < planes; p++) if (pData[p] == NULL) return DVP_FALSE;] *)
Fixpoint has_null (ptrs : list Z) (ps : list Z) : outcome bool :=
  match ps with
  | [] => Done false
  | p :: ps' => a ← of_option (aget ptrs p); if a =? 0 then Done true else has_null ptrs ps'
  end.
Definition null_plane (i : DVP_Image_t) : outcome bool := has_null (pData i) (seqZ 0 (planes i)).

(** ** DVP_Image_Fill *)
Definition DVP_Image_Fill (i : DVP_Image_t) (buf size : Z) (m : memory) : outcome memory :=
  if size <=? DVP_Image_PatchSize i then
    '(m', _) ← for_lines (planes i) (patch_rows i) (fun p y '(m, off) =>
      let len := DVP_Image_PatchLineSize i p in
      ptr ← patch_line i i p y;
      m' ← of_option (memcpy ptr (buf + off) len m);
      Done (m', off ⊞ len)) (m, 0);
    Done m'
  else Done m.

(** ** DVP_Image_Copy *)

Definition copy_line (dst src : DVP_Image_t) (p y : Z) (m : memory) : outcome memory :=
  d ← patch_line src dst p y;
  s ← patch_line src src p y;
  of_option (memcpy d s (DVP_Image_PatchLineSize src p) m).
Definition copy_same (dst src : DVP_Image_t) (m : memory) : outcome memory :=
  for_lines (planes src) (patch_rows src) (copy_line dst src) m.

(** One byte of a macro pixel: a constant or a byte of the source's. *)
Inductive sample : Set := Const (v : Z) | Src (k : Z).

(** What each pair of formats writes to bytes 0 to 3, in the code's order. *)
Definition swizzle (dst src : Z) : option (list sample) :=
  if (src =? FOURCC_Y800) && one_of dst [FOURCC_UYVY; FOURCC_VYUY] then
    Some [Const 128; Src 0; Const 128; Src 1]
  else if (src =? FOURCC_Y800) && one_of dst [FOURCC_YUY2; FOURCC_YVYU] then
    Some [Src 0; Const 128; Src 1; Const 128]
  else if one_of dst [FOURCC_UYVY; FOURCC_VYUY] && one_of src [FOURCC_YVYU; FOURCC_YUY2] then
    Some (if src =? FOURCC_YUY2 then
            if dst =? FOURCC_UYVY then [Src 1; Src 0; Src 3; Src 2] else [Src 3; Src 0; Src 1; Src 2]
          else
            if dst =? FOURCC_UYVY then [Src 3; Src 0; Src 1; Src 2] else [Src 1; Src 0; Src 3; Src 2])
  else None.

Fixpoint put_samples (d s : Z) (l : list sample) (m : memory) : outcome memory :=
  match l with
  | [] => Done m
  | x :: l' =>
      v ← of_option (match x with Const v => Some v | Src k => m !! (s + k) end);
      m' ← of_option (store_bytes d [v] m);
      put_samples (d + 1) s l' m'
  end.

(** [for (x = 0; x < width; x += 2)], for widths below the last [DVP_U32] *)
Definition macro_columns (w : Z) : list Z := Z.mul 2 <$> seqZ 0 ((w + 1) / 2).

Definition copy_swizzle (dst src : DVP_Image_t) (l : list sample) (m : memory) : outcome memory :=
  ofold (fun m y => ofold (fun m x =>
      s ← DVP_Image_PatchAddressing src x y 0;
      d ← DVP_Image_PatchAddressing dst x y 0;
      put_samples d s l m) (macro_columns (width src)) m) (seqZ 0 (height src)) m.

Definition copy_luma (dst src : DVP_Image_t) (m : memory) : outcome memory :=
  ofold (fun m y =>
      d ← DVP_Image_PatchAddressing dst 0 y 0;
      s ← DVP_Image_PatchAddressing src 0 y 0;
      of_option (memcpy d s (DVP_Image_PatchLineSize src 0) m)) (seqZ 0 (height src)) m.

Definition planar_luma : list Z :=
  [FOURCC_NV12; FOURCC_YU24; FOURCC_YV24; FOURCC_YU16; FOURCC_YV16; FOURCC_IYUV; FOURCC_YV12;
   FOURCC_YUV9; FOURCC_YVU9].

Definition DVP_Image_Copy (dst src : DVP_Image_t) (m : memory) : outcome (Z * memory) :=
  null ← null_plane src;
  if null : bool then Done (DVP_FALSE, m) else
  null ← null_plane dst;
  if null : bool then Done (DVP_FALSE, m)
  else if (width dst <? width src) || (height dst <? height src) then Done (DVP_FALSE, m)
  else if color dst =? color src then
    m' ← copy_same dst src m; Done (DVP_TRUE, m')
  else match swizzle (color dst) (color src) with
  | Some l => m' ← copy_swizzle dst src l m; Done (DVP_TRUE, m')
  | None =>
      if one_of (color src) planar_luma && (color dst =? FOURCC_Y800) then
        m' ← copy_luma dst src m; Done (DVP_TRUE, m')
      else Done (DVP_FALSE, m)
  end.

(** ** Comparisons *)

Definition memcmp_ne (a b n : Z) (m : memory) : outcome bool :=
  x ← of_option (load_bytes a (Z.to_nat n) m);
  y ← of_option (load_bytes b (Z.to_nat n) m);
  Done (negb (bool_decide (x = y))).

(** [true] once a line differs; the code returns at the first. *)
Definition lines_differ (planes : Z) (rows len : Z -> Z) (dst src : Z -> Z -> outcome Z) (m : memory)
    : outcome bool :=
  for_lines planes rows (fun p y ne =>
    if ne : bool then Done true
    else s ← src p y; d ← dst p y; memcmp_ne d s (len p) m) false.

Definition DVP_Image_Equal (dst src : DVP_Image_t) (m : memory) : outcome Z :=
  null ← null_plane src;
  if null : bool then Done DVP_FALSE else
  null ← null_plane dst;
  if null : bool then Done DVP_FALSE
  else if negb (bufWidth src =? bufWidth dst) || negb (bufHeight src =? bufHeight dst) then Done DVP_FALSE
  else if color dst =? color src then
    let line i p y := DVP_Image_Addressing i 0 (y ⊠ DVP_Image_HeightDiv src p) p in
    ne ← lines_differ (planes src) (fun p => bufHeight src / DVP_Image_HeightDiv src p)
           (DVP_Image_LineSize src) (line dst) (line src) m;
    Done (if ne : bool then DVP_FALSE else DVP_TRUE)
  else Done DVP_FALSE.

Definition DVP_Image_PatchEqual (dst src : DVP_Image_t) (m : memory) : outcome Z :=
  null ← null_plane src;
  if null : bool then Done DVP_FALSE else
  null ← null_plane dst;
  if null : bool then Done DVP_FALSE
  else if negb (width src =? width dst) || negb (height src =? height dst) then Done DVP_FALSE
  else if (bufWidth src <? x_start src ⊞ width src) || (bufWidth dst <? x_start dst ⊞ width dst) ||
          (bufHeight src <? y_start src ⊞ height src) || (bufHeight dst <? y_start dst ⊞ height dst)
  then Done DVP_FALSE
  else if color dst =? color src then
    ne ← lines_differ (planes src) (patch_rows src) (DVP_Image_PatchLineSize src)
           (patch_line src dst) (patch_line src src) m;
    Done (if ne : bool then DVP_FALSE else DVP_TRUE)
  else Done DVP_FALSE.

(** ** Serialization (include/sosal/socket.h) *)

(** A [DVP_U32] in memory, least significant byte first. *)
Definition le32 (v : Z) : list Z :=
  [v mod 256; v / 256 mod 256; v / 256 / 256 mod 256; v / 256 / 256 / 256 mod 256].
Definition of_le32 (l : list Z) : Z := foldr (fun b r => b + 256 * r) 0 l.

(** The four macros; [off] and [len] are [size_t]. *)
Definition SERIALIZE_UNIT (buffer len : Z) (v : Z) (st : memory * Z) : outcome (memory * Z) :=
  let '(m, off) := st in
  if u64 (off + 4) <? len then
    m' ← of_option (store_bytes (buffer + off) (le32 v) m); Done (m', u64 (off + 4))
  else Done (m, off).
Definition UNSERIALIZE_UNIT (buffer len : Z) (m : memory) (off : Z) : outcome (option Z * Z) :=
  if u64 (off + 4) <? len then
    l ← of_option (load_bytes (buffer + off) 4 m); Done (Some (of_le32 l), u64 (off + 4))
  else Done (None, off).
Definition SERIALIZE_ARRAY (buffer len ptr ptrlen : Z) (st : memory * Z) : outcome (memory * Z) :=
  let '(m, off) := st in
  if u64 (off + ptrlen) <? len then
    m' ← of_option (memcpy (buffer + off) ptr ptrlen m); Done (m', u64 (off + ptrlen))
  else Done (m, off).
Definition UNSERIALIZE_ARRAY (buffer len ptr ptrlen : Z) (st : memory * Z) : outcome (memory * Z) :=
  let '(m, off) := st in
  if u64 (off + ptrlen) <? len then
    m' ← of_option (memcpy ptr (buffer + off) ptrlen m); Done (m', u64 (off + ptrlen))
  else Done (m, off).

(** The fields on the wire, in order. *)
Definition wire_fields (i : DVP_Image_t) : list Z :=
  [planes i; width i; height i; bufWidth i; bufHeight i; x_start i; y_start i; color i; numBytes i].

Definition DVP_Image_Serialize (i : DVP_Image_t) (buffer len : Z) (m : memory) : outcome (Z * memory) :=
  st ← ofold (fun st v => SERIALIZE_UNIT buffer len v st) (wire_fields i) (m, 0);
  _ ← DVP_Image_Dims i;
  '(m', off) ← for_lines (planes i) (patch_rows i) (fun p y st =>
    ptr ← patch_line i i p y;
    SERIALIZE_ARRAY buffer len ptr (DVP_Image_PatchLineSize i p) st) st;
  Done (off, m').

(** The fields read into the local image; one the buffer was too short for
    is indeterminate, and reading it undefined. *)
Fixpoint read_units (n : nat) (buffer len : Z) (m : memory) (off : Z) : outcome (list (option Z) * Z) :=
  match n with
  | O => Done ([], off)
  | S n' =>
      '(v, off') ← UNSERIALIZE_UNIT buffer len m off;
      '(vs, off'') ← read_units n' buffer len m off';
      Done (v :: vs, off'')
  end.
Definition wire_image (vs : list (option Z)) : outcome DVP_Image_t :=
  match vs with
  | [Some pl; Some w; Some h; Some bw; Some bh; Some xs; Some ys; Some c; nb] =>
      Done (mkImage no_pointers no_pointers pl w h bw bh xs ys 0 0 c (default 0 nb) 0)
  | _ => Undef
  end.

Definition DVP_Image_Unserialize (i : DVP_Image_t) (buffer len : Z) (m : memory) : outcome (Z * memory) :=
  '(vs, off) ← read_units 9 buffer len m 0;
  image ← wire_image vs;
  let copy := (color image =? color i) && (bufWidth image =? bufWidth i) &&
              (bufHeight image =? bufHeight i) in
  _ ← DVP_Image_Dims image;
  '(m', off') ← for_lines (planes image) (patch_rows i) (fun p y '(m, off) =>
    let l := DVP_Image_PatchLineSize i p in
    ptr ← patch_line i i p y;
    if copy then UNSERIALIZE_ARRAY buffer len ptr l (m, off)
    else Done (m, u64 (off + l))) (m, off);
  Done (off', m').
