(* ===== verification/Moves.v ===== *)
(** * Sequences of block moves

    What a loop of [memcpy]s does as a whole: the reference against which the
    image transfers are proved. *)
From S2P Require Import Prelude Memory.

(** A range of memory, and a move of one range onto another. *)
Abbreviation range := (Z * Z)%type.
Record move : Set := mkMove { m_dst : Z; m_src : Z; m_len : Z }.

Definition target (v : move) : range := (m_dst v, m_len v).
Definition source (v : move) : range := (m_src v, m_len v).

Definition do_moves (vs : list move) (m : memory) : outcome memory :=
  ofold (fun m v => of_option (memcpy (m_dst v) (m_src v) (m_len v) m)) vs m.

(** The bytes of some ranges, one after the other. *)
Fixpoint read_ranges (rs : list range) (m : memory) : option (list Z) :=
  match rs with
  | [] => Some []
  | (a, n) :: rs' => bs ← load_bytes a (Z.to_nat n) m; rest ← read_ranges rs' m; Some (bs ++ rest)
  end.

Definition r_apart (r s : range) : Prop := apart r.1 r.2 s.1 s.2.
Definition r_mapped (m : memory) (r : range) : Prop := 0 <= r.2 /\ mapped r.1 r.2 m.
(** [x] is in none of the ranges. *)
Definition outside (x : Z) (rs : list range) : Prop := Forall (fun r => ~ r.1 <= x < r.1 + r.2) rs.

(** Ranges that follow each other from [b]. *)
Fixpoint pieces (b : Z) (lens : list Z) : list range :=
  match lens with [] => [] | n :: lens' => (b, n) :: pieces (b + n) lens' end.

Fixpoint pairwise {A} (R : A -> A -> Prop) (l : list A) : Prop :=
  match l with [] => True | x :: l' => Forall (R x) l' /\ pairwise R l' end.

Lemma pairwise_app {A} (R : A -> A -> Prop) l k :
  pairwise R (l ++ k) <-> pairwise R l /\ pairwise R k /\ Forall (fun x => Forall (R x) k) l.
Proof.
  induction l as [|x l IH]; simpl; [by intuition|].
  rewrite Forall_app, Forall_cons, IH. tauto.
Qed.
Lemma pairwise_fmap {A B} (f : A -> B) (R : B -> B -> Prop) l :
  pairwise R (f <$> l) <-> pairwise (fun x y => R (f x) (f y)) l.
Proof. induction l as [|x l IH]; simpl; [done|]. by rewrite Forall_fmap, IH. Qed.
Lemma pairwise_impl {A} (R R' : A -> A -> Prop) l :
  (forall x y, x ∈ l -> y ∈ l -> R x y -> R' x y) -> pairwise R l -> pairwise R' l.
Proof.
  induction l as [|x l IH]; simpl; [done|]. intros H [Hx Hl]. split.
  - rewrite Forall_forall in *. intros y Hy. apply H; [by left|by right|by apply Hx].
  - apply IH; [|done]. intros a b Ha Hb. apply H; by right.
Qed.
Lemma pairwise_seqZ n m : pairwise Z.lt (seqZ n m).
Proof.
  destruct (Z.le_gt_cases m 0) as [?|Hm]; [by rewrite seqZ_nil|].
  rewrite <- (Z2Nat.id m) by lia. revert n. induction (Z.to_nat m) as [|k IH]; intros n.
  { by rewrite seqZ_nil by lia. }
  rewrite seqZ_cons by lia. replace (Z.pred (Z.of_nat (S k))) with (Z.of_nat k) by lia. simpl. split; [|apply IH].
  apply Forall_forall. intros x Hx%elem_of_seqZ. lia.
Qed.

Lemma read_ranges_frame rs m m' :
  Forall (fun r => forall x, r.1 <= x < r.1 + r.2 -> m' !! x = m !! x) rs ->
  read_ranges rs m' = read_ranges rs m.
Proof.
  induction rs as [|[a n] rs IH]; [done|]. intros [Hh Ht]%Forall_cons. simpl in *. rewrite IH by done.
  assert (forall k b, (forall x, b <= x < b + Z.of_nat k -> m' !! x = m !! x) ->
    load_bytes b k m' = load_bytes b k m) as Hl.
  { induction k as [|k IHk]; intros b Hb; simpl; [done|]. rewrite Hb by lia.
    by rewrite IHk by (intros; apply Hb; lia). }
  rewrite Hl; [done|]. intros x Hx. apply Hh. lia.
Qed.

Lemma read_pieces lens : forall b m, Forall (fun n => 0 <= n) lens ->
  read_ranges (pieces b lens) m = load_bytes b (Z.to_nat (Zsum lens)) m.
Proof.
  assert (forall k j b m, load_bytes b (k + j) m =
    (bs ← load_bytes b k m; cs ← load_bytes (b + Z.of_nat k) j m; Some (bs ++ cs))) as Happ.
  { induction k as [|k IH]; intros j b m; simpl.
    - rewrite Z.add_0_r. by destruct (load_bytes b j m).
    - destruct (m !! b); simpl; [|done]. rewrite IH. replace (b + 1 + Z.of_nat k) with (b + Z.of_nat (S k)) by lia.
      destruct (load_bytes (b + 1) k m); simpl; [|done]. by destruct (load_bytes _ j m). }
  induction lens as [|n lens IH]; intros b m Hn; [done|]. apply Forall_cons in Hn as [Hn Hl].
  pose proof (Zsum_nonneg lens Hl). simpl. rewrite IH, Z2Nat.inj_add, Happ, Z2Nat.id by done. done.
Qed.

Lemma put_bytes_frame a bs m x :
  ~ a <= x < a + Z.of_nat (length bs) -> put_bytes a bs m !! x = m !! x.
Proof. intros H. by rewrite put_bytes_lookup, decide_False. Qed.

(** Moves that do not disturb each other are one transfer: every target ends
    with what its source held at the start, and nothing else changes. *)
Lemma do_moves_spec vs : forall m,
  Forall (r_mapped m) (source <$> vs) -> Forall (r_mapped m) (target <$> vs) ->
  pairwise r_apart (target <$> vs) ->
  Forall (fun v => Forall (r_apart (target v)) (source <$> vs)) vs ->
  exists m', do_moves vs m = Done m' /\
    read_ranges (target <$> vs) m' = read_ranges (source <$> vs) m /\
    (forall x, outside x (target <$> vs) -> m' !! x = m !! x) /\
    (forall a n, mapped a n m -> mapped a n m').
Proof.
  induction vs as [|v vs IH]; intros m Hs Ht Hap Hcross; simpl in *.
  { exists m. split_and!; auto. }
  apply Forall_cons in Hs as [[Hn Hs] Hss]. apply Forall_cons in Ht as [[_ Ht] Hts].
  destruct Hap as [Hap Haps]. apply Forall_cons in Hcross as [Hc Hcs].
  apply Forall_cons in Hc as [Hself Hc]. destruct v as [d s n]. simpl in *.
  change (do_moves (mkMove d s n :: vs) m) with (of_option (memcpy d s n m) ≫= do_moves vs).
  destruct (memcpy_spec d s n m Hn Hself Hs Ht) as (bs & Hbs & ->). simpl.
  pose proof (load_bytes_length _ _ _ _ Hbs) as Hlen.
  assert (forall r, 0 <= r.2 -> r_apart (d, n) r -> forall x, r.1 <= x < r.1 + r.2 -> put_bytes d bs m !! x = m !! x) as Hfr.
  { intros r Hr Ha x Hx. apply put_bytes_frame. rewrite Hlen, Z2Nat.id by done. intros ?. by apply (Ha x). }
  destruct (IH (put_bytes d bs m)) as (m' & Hm' & Hrd & Hframe & Hmap).
  - eapply Forall_impl; [exact Hss|]. intros r [? ?]. split; [done|by apply put_bytes_mapped].
  - eapply Forall_impl; [exact Hts|]. intros r [? ?]. split; [done|by apply put_bytes_mapped].
  - done.
  - eapply Forall_impl; [exact Hcs|]. intros v Hv. by apply Forall_cons in Hv as [_ Hv].
  - exists m'. split; [done|]. split_and!.
    + assert (load_bytes d (Z.to_nat n) m' = Some bs) as Hd.
      { rewrite <- Hlen. apply load_bytes_Some. split; [done|]. intros i Hi.
        rewrite Hframe; [rewrite put_bytes_lookup, decide_True by lia; f_equal; lia|].
        eapply Forall_impl; [exact Hap|]. intros r Hr Hx. apply (Hr (d + Z.of_nat i)). simpl. lia. }
      change (list_fmap move range target vs) with (target <$> vs).
      change (list_fmap move range source vs) with (source <$> vs). rewrite Hd, Hbs, Hrd. simpl.
      rewrite (read_ranges_frame _ m); [done|]. rewrite Forall_forall in *. intros r Hr.
      apply Hfr; [by apply Hss|by apply Hc].
    + intros x [Hx Hxs]%Forall_cons. rewrite Hframe by done. apply put_bytes_frame.
      rewrite Hlen, Z2Nat.id by done. done.
    + intros a k Ha. by apply Hmap, put_bytes_mapped.
Qed.

(** ** Gathering into and scattering from a buffer *)

Fixpoint from_buffer (b : Z) (rs : list range) : list move :=
  match rs with [] => [] | (a, n) :: rs' => mkMove a b n :: from_buffer (b + n) rs' end.
Fixpoint to_buffer (b : Z) (rs : list range) : list move :=
  match rs with [] => [] | (a, n) :: rs' => mkMove b a n :: to_buffer (b + n) rs' end.

Lemma from_buffer_ranges rs : forall b,
  target <$> from_buffer b rs = rs /\ source <$> from_buffer b rs = pieces b rs.*2.
Proof.
  induction rs as [|[a n] rs IH]; intros b; [done|]. destruct (IH (b + n)) as [H1 H2].
  cbn [from_buffer]. rewrite !fmap_cons. cbn [pieces snd target source m_dst m_src m_len]. by rewrite H1, H2.
Qed.
Lemma to_buffer_ranges rs : forall b,
  target <$> to_buffer b rs = pieces b rs.*2 /\ source <$> to_buffer b rs = rs.
Proof.
  induction rs as [|[a n] rs IH]; intros b; [done|]. destruct (IH (b + n)) as [H1 H2].
  cbn [to_buffer]. rewrite !fmap_cons. cbn [pieces snd target source m_dst m_src m_len]. by rewrite H1, H2.
Qed.

(** Every piece lies in the buffer, after the pieces before it. *)
Lemma pieces_within lens : forall b, Forall (fun n => 0 <= n) lens ->
  Forall (fun r => 0 <= r.2 /\ b <= r.1 /\ r.1 + r.2 <= b + Zsum lens) (pieces b lens) /\
  pairwise r_apart (pieces b lens).
Proof.
  induction lens as [|n lens IH]; intros b Hn; simpl; [by split; [constructor|]|].
  apply Forall_cons in Hn as [Hn Hl]. destruct (IH (b + n) Hl) as [Hw Hp].
  pose proof (Zsum_nonneg lens Hl). split_and!; [constructor| |done].
  - simpl. lia.
  - eapply Forall_impl; [exact Hw|]. simpl. lia.
  - eapply Forall_impl; [exact Hw|]. intros r Hr x. simpl in *. lia.
Qed.

Section Buffer.
Context (b : Z) (rs : list range) (m : memory).
Context (Hrs : Forall (r_mapped m) rs) (Hap : pairwise r_apart rs).
Context (Hbuf : mapped b (Zsum rs.*2) m).
Context (Hsep : Forall (fun r => apart r.1 r.2 b (Zsum rs.*2)) rs).

Lemma buffer_lens : Forall (fun n => 0 <= n) rs.*2.
Proof. apply Forall_fmap. eapply Forall_impl; [exact Hrs|]. by intros r [? _]. Qed.

Lemma buffer_pieces : Forall (r_mapped m) (pieces b rs.*2) /\
  Forall (fun r => Forall (r_apart r) (pieces b rs.*2)) rs.
Proof.
  destruct (pieces_within rs.*2 b buffer_lens) as [Hw _]. split.
  - eapply Forall_impl; [exact Hw|]. intros r (? & ? & ?). split; [done|].
    eapply mapped_shrink; [| |exact Hbuf]; lia.
  - eapply Forall_impl; [exact Hsep|]. intros r Hr.
    eapply Forall_impl; [exact Hw|]. intros q (? & ? & ?). apply apart_sym.
    eapply apart_shrink; [| |apply apart_sym, Hr]; lia.
Qed.

(** The bytes of the buffer go to the ranges. *)
Lemma from_buffer_spec : exists m', do_moves (from_buffer b rs) m = Done m' /\
  read_ranges rs m' = load_bytes b (Z.to_nat (Zsum rs.*2)) m /\
  (forall x, outside x rs -> m' !! x = m !! x) /\ (forall a n, mapped a n m -> mapped a n m').
Proof.
  destruct (from_buffer_ranges rs b) as [Ht Hs]. destruct buffer_pieces as [Hpm Hpa].
  destruct (do_moves_spec (from_buffer b rs) m) as (m' & ? & Hr & Hf & ?); rewrite ?Ht, ?Hs; try done.
  - apply (Forall_fmap target (fun r => Forall (r_apart r) (pieces b rs.*2))). by rewrite Ht.
  - exists m'. split_and!; [done| | |done].
    + rewrite <- Ht at 1. rewrite Hr, Hs. apply read_pieces, buffer_lens.
    + by rewrite Ht in Hf.
Qed.

(** The bytes of the ranges go to the buffer. *)
Lemma to_buffer_spec : exists m', do_moves (to_buffer b rs) m = Done m' /\
  load_bytes b (Z.to_nat (Zsum rs.*2)) m' = read_ranges rs m /\
  (forall x, ~ b <= x < b + Zsum rs.*2 -> m' !! x = m !! x) /\ (forall a n, mapped a n m -> mapped a n m').
Proof.
  destruct (to_buffer_ranges rs b) as [Ht Hs]. destruct buffer_pieces as [Hpm Hpa].
  destruct (pieces_within rs.*2 b buffer_lens) as [Hw Hpp].
  destruct (do_moves_spec (to_buffer b rs) m) as (m' & ? & Hr & Hf & ?); rewrite ?Ht, ?Hs; try done.
  - apply (Forall_fmap target (fun r => Forall (r_apart r) rs)). rewrite Ht.
    rewrite Forall_forall in *. intros r Hr. apply Forall_forall. intros q Hq.
    apply apart_sym. specialize (Hpa q Hq). rewrite Forall_forall in Hpa. by apply Hpa.
  - exists m'. split_and!; [done| | |done].
    + rewrite <- read_pieces by apply buffer_lens. by rewrite <- Ht, Hr, Hs.
    + intros x Hx. apply Hf. rewrite Ht. eapply Forall_impl; [exact Hw|]. intros r. simpl. lia.
Qed.
End Buffer.

(** ** Successive stores *)

Lemma put_bytes_app l1 l2 a m :
  put_bytes (a + Z.of_nat (length l1)) l2 (put_bytes a l1 m) = put_bytes a (l1 ++ l2) m.
Proof.
  apply map_eq. intros x. rewrite !put_bytes_lookup, length_app.
  destruct (decide (a <= x < a + Z.of_nat (length l1))).
  - rewrite decide_False, decide_True by lia. rewrite lookup_app_l by lia. done.
  - destruct (decide (a + Z.of_nat (length l1) <= x < a + Z.of_nat (length l1) + Z.of_nat (length l2))).
    + rewrite decide_True by lia. rewrite lookup_app_r by lia. f_equal. lia.
    + by rewrite decide_False by lia.
Qed.

Lemma load_bytes_frame a n m m' :
  (forall x, a <= x < a + Z.of_nat n -> m' !! x = m !! x) -> load_bytes a n m' = load_bytes a n m.
Proof.
  revert a. induction n as [|n IH]; intros a H; simpl; [done|]. rewrite H by lia.
  by rewrite IH by (intros; apply H; lia).
Qed.

Lemma load_bytes_app a n k m :
  load_bytes a (n + k) m = (x ← load_bytes a n m; y ← load_bytes (a + Z.of_nat n) k m; Some (x ++ y)).
Proof.
  revert a. induction n as [|n IH]; intros a; simpl.
  - rewrite Z.add_0_r. by destruct (load_bytes a k m).
  - destruct (m !! a); simpl; [|done]. rewrite IH. replace (a + 1 + Z.of_nat n) with (a + Z.of_nat (S n)) by lia.
    destruct (load_bytes (a + 1) n m); simpl; [|done]. by destruct (load_bytes _ k m).
Qed.
