(* ===== verification/ImagePatch.v ===== *)
(** * The bytes of a patch

    [patch_bytes] is what the transfers of dvp_mem.c move: the lines of the
    patch, plane after plane.  [placed] is the condition under which those
    lines are mapped and do not overlap. *)
From S2P Require Import Prelude DvpTypes Memory Moves Image ImageLayout ImageTransfer.

Open Scope dvp_scope.

(** ** The lines, as one sequence *)

Definition all_lines (planes : Z) (rows : Z -> Z) : list (Z * Z) :=
  flat_map (fun p => pair p <$> seqZ 0 (rows p)) (seqZ 0 planes).

Lemma for_lines_flat {S} planes rows (body : Z -> Z -> S -> outcome S) s :
  for_lines planes rows body s = ofold (fun s l => body l.1 l.2 s) (all_lines planes rows) s.
Proof.
  unfold for_lines, all_lines. generalize (seqZ 0 planes). intros ps. revert s.
  induction ps as [|p ps IH]; intros s; simpl; [done|]. rewrite ofold_app.
  replace (ofold (fun s l => body l.1 l.2 s) (pair p <$> seqZ 0 (rows p)) s)
    with (ofold (fun s y => body p y s) (seqZ 0 (rows p)) s).
  - by destruct (ofold _ (seqZ 0 (rows p)) s); simpl.
  - generalize (seqZ 0 (rows p)). intros ys. revert s.
    induction ys as [|y ys IHy]; intros s; simpl; [done|]. by destruct (body p y s); simpl.
Qed.

Lemma elem_of_all_lines planes rows l :
  l ∈ all_lines planes rows <-> 0 <= l.1 < planes /\ 0 <= l.2 < rows l.1.
Proof.
  unfold all_lines. rewrite list_elem_of_In, in_flat_map. split.
  - intros (p & Hp & Hl). apply list_elem_of_In, elem_of_seqZ in Hp.
    apply list_elem_of_In, list_elem_of_fmap in Hl as (y & -> & Hy%elem_of_seqZ). simpl. lia.
  - destruct l as [p y]. simpl. intros [? ?]. exists p. rewrite <- !list_elem_of_In, elem_of_seqZ.
    split; [lia|]. apply list_elem_of_fmap. exists y. split; [done|]. apply elem_of_seqZ. lia.
Qed.

Definition before (k l : Z * Z) : Prop := k.1 < l.1 \/ (k.1 = l.1 /\ k.2 < l.2).

Lemma all_lines_ordered planes rows : pairwise before (all_lines planes rows).
Proof.
  unfold all_lines. pose proof (pairwise_seqZ 0 planes) as Hp. revert Hp. generalize (seqZ 0 planes).
  induction l as [|p ps IH]; simpl; [done|]. intros [Hlt Hps]. apply pairwise_app. split_and!.
  - apply pairwise_fmap. eapply pairwise_impl; [|apply pairwise_seqZ]. intros x y _ _ ?. by right.
  - by apply IH.
  - apply Forall_fmap, Forall_forall. intros y _. apply Forall_forall. intros l Hl. left. simpl.
    apply list_elem_of_In, in_flat_map in Hl as (q & Hq%list_elem_of_In & Hl%list_elem_of_In).
    rewrite Forall_forall in Hlt. apply Hlt in Hq. by apply list_elem_of_fmap in Hl as (? & -> & _).
Qed.

(** ** Lines of an image *)

Definition ptr_of (l : list Z) (p : Z) : Z := default 0 (l !! Z.to_nat p).

(** Where line [y] of plane [p] starts when the line step is [g]'s. *)
Definition line_at (g i : DVP_Image_t) (p y : Z) : Z :=
  ptr_of (pData i) p + DVP_Image_PatchOffset i 0 (y ⊠ DVP_Image_HeightDiv g p) p.
Definition patch_range (g i : DVP_Image_t) (l : Z * Z) : range :=
  (line_at g i l.1 l.2, DVP_Image_PatchLineSize g l.1).
Definition patch_lines (i : DVP_Image_t) : list (Z * Z) := all_lines (planes i) (patch_rows i).
Definition patch_ranges (i : DVP_Image_t) : list range := patch_range i i <$> patch_lines i.
Definition patch_bytes (i : DVP_Image_t) (m : memory) : option (list Z) := read_ranges (patch_ranges i) m.

Lemma ptr_of_aget l p : 0 <= p < Z.of_nat (length l) -> aget l p = Some (ptr_of l p).
Proof.
  intros Hp. destruct (aget_in_range l p Hp) as [x Hx]. rewrite Hx. apply aget_Some in Hx as [_ Hx].
  unfold ptr_of. by rewrite Hx.
Qed.

Lemma patch_line_at g i p y :
  0 <= p < planes i -> planes i <= Z.of_nat (length (pData i)) -> patch_line g i p y = Done (line_at g i p y).
Proof.
  intros Hp Hl. unfold patch_line, DVP_Image_PatchAddressing, line_at.
  rewrite (proj2 (Z.ltb_lt _ _)), ptr_of_aget by lia. done.
Qed.

(** ** Placed images *)

(** The geometry is sound, the patch lies on the sampling grid inside of the
    buffer, [pData] points at its corner, and every plane is a block of its
    own. *)
Record placed (i : DVP_Image_t) (m : memory) : Prop := {
  pl_laid : laid_out i;
  pl_ptrs : length (pData i) = 4%nat;
  pl_rect : 0 <= x_start i /\ 0 < width i /\ x_start i + width i <= bufWidth i /\
            0 <= y_start i /\ 0 < height i /\ y_start i + height i <= bufHeight i;
  pl_grid : forall p, 0 <= p < planes i ->
    (DVP_Image_WidthDiv i p | x_start i) /\ (DVP_Image_WidthDiv i p | width i) /\
    (DVP_Image_HeightDiv i p | y_start i) /\ (DVP_Image_HeightDiv i p | height i);
  pl_corner : forall p, 0 <= p < planes i ->
    0 < ptr_of (pBuffer i) p /\
    ptr_of (pData i) p = ptr_of (pBuffer i) p + DVP_Image_Offset i (x_start i) (y_start i) p;
  pl_mapped : forall p, 0 <= p < planes i -> mapped (ptr_of (pBuffer i) p) (DVP_Image_PlaneRange i p) m;
  pl_apart : forall p q, 0 <= p < planes i -> 0 <= q < planes i -> p <> q ->
    apart (ptr_of (pBuffer i) p) (DVP_Image_PlaneRange i p) (ptr_of (pBuffer i) q) (DVP_Image_PlaneRange i q) }.

Section Placed.
Context (i : DVP_Image_t) (m : memory) (Hpl : placed i m).

Let Hlo : laid_out i := pl_laid i m Hpl.

Lemma patch_sizes p : 0 <= p < planes i ->
  let s := sample_bytes i p in
  let w := width i / DVP_Image_WidthDiv i p in
  DVP_Image_PatchLineSize i p = s * w /\ 0 < w /\ w <= columns i p /\
  0 < patch_rows i p /\ patch_rows i p * DVP_Image_HeightDiv i p = height i /\
  x_start i / DVP_Image_WidthDiv i p + w <= columns i p /\
  y_start i / DVP_Image_HeightDiv i p + patch_rows i p <= rows i p.
Proof.
  intros Hp s w. pose proof (laid_out_sizes i Hlo p Hp) as (Hs & Hc & Hr & Hcw & Hrh & Hle).
  destruct (pl_grid i m Hpl p Hp) as ([kx Hx] & [kw Hw] & [ky Hy] & [kh Hh]).
  destruct (pl_rect i m Hpl) as (? & ? & ? & ? & ? & ?).
  pose proof (WidthDiv_range i p). pose proof (HeightDiv_range i p).
  pose proof (stride_small i Hlo) as Hsm. pose proof (lo_lines i Hlo) as Hl.
  assert (w = kw) as Hwk by (unfold w; rewrite Hw; by rewrite Z.div_mul by lia).
  assert (patch_rows i p = kh) as Hrk by (unfold patch_rows; rewrite Hh; by rewrite Z.div_mul by lia).
  assert (x_start i / DVP_Image_WidthDiv i p = kx) as -> by (rewrite Hx; by rewrite Z.div_mul by lia).
  assert (y_start i / DVP_Image_HeightDiv i p = ky) as -> by (rewrite Hy; by rewrite Z.div_mul by lia).
  rewrite Hrk, Hwk. clear Hrk. assert (kw <= columns i p) by nia.
  split_and!; try nia. unfold DVP_Image_PatchLineSize, line_bytes.
  rewrite (proj2 (Z.ltb_lt _ _)) by lia. fold w s. fold (sample_bytes i p). fold s. rewrite Hwk.
  fold s in Hs, Hle. assert (0 < kw) by nia.
  assert (s * kw <= s * columns i p) by (apply Z.mul_le_mono_nonneg_l; lia).
  assert (s * 1 <= s * kw) by (apply Z.mul_le_mono_nonneg_l; lia).
  rewrite (u32_small s), u32_small by (unfold is_u32; lia). done.
Qed.

Lemma line_at_exact p y : 0 <= p < planes i -> 0 <= y < patch_rows i p ->
  line_at i i p y = ptr_of (pBuffer i) p +
    (y_start i / DVP_Image_HeightDiv i p + y) * DVP_Image_LineRange i p +
    x_start i / DVP_Image_WidthDiv i p * sample_bytes i p.
Proof.
  intros Hp Hy. pose proof (patch_sizes p Hp) as (_ & Hw & Hwc & Hr & Hrh & Hx & Hyr).
  destruct (pl_corner i m Hpl p Hp) as [_ Hc]. destruct (pl_rect i m Hpl) as (? & ? & ? & ? & ? & ?).
  pose proof (HeightDiv_range i p). pose proof (WidthDiv_range i p).
  unfold line_at. rewrite Hc. set (d := DVP_Image_HeightDiv i p) in *.
  assert (y * d + d <= height i) as Hyd by nia.
  destruct (Offset_exact i Hlo p (x_start i) (y_start i)) as (-> & _ & _); [done|lia|lia|].
  destruct (Offset_exact i Hlo p 0 (y * d)) as (Ho & Hro & _); [done|lia|nia|].
  fold d in Ho, Hro. rewrite Z.div_mul in Ho, Hro by lia. rewrite Z.div_0_l in Ho by lia.
  pose proof (LineRange_bounds i Hlo p Hp) as [Hl1 Hl2].
  pose proof (laid_out_sizes i Hlo p Hp) as (Hs & Hc' & Hr' & Hcw & Hrh' & Hle).
  destruct Hlo as [Hpln [Hbw Hbh] Hxs _ Hl Hsm _].
  assert (0 <= y * DVP_Image_LineRange i p < 2 ^ 30) as Hsmall.
  { split; [nia|]. fold d in Hrh'. assert (rows i p <= bufHeight i) by nia. nia. }
  assert (y ⊠ d = y * d) as -> by (apply u32_small; unfold is_u32; nia).
  unfold DVP_Image_PatchOffset. unfold DVP_Image_Offset in Ho. fold d. fold d in Ho.
  rewrite (proj2 (Z.ltb_lt 0 (bufWidth i))), (proj2 (Z.ltb_lt (y * d) (bufHeight i))) in Ho by lia.
  rewrite (proj2 (Z.ltb_lt 0 (width i))), (proj2 (Z.ltb_lt (y * d) (height i))) by lia.
  rewrite (proj2 (Z.ltb_lt p (planes i))) in * by lia. cbn [andb] in *.
  rewrite Ho. rewrite s32_small by (unfold is_s32; lia). rewrite u32_small by (unfold is_u32; lia). lia.
Qed.

(** A line of the patch lies in its plane's block. *)
Lemma line_in_plane p y : 0 <= p < planes i -> 0 <= y < patch_rows i p ->
  ptr_of (pBuffer i) p <= line_at i i p y /\
  line_at i i p y + DVP_Image_PatchLineSize i p <= ptr_of (pBuffer i) p + DVP_Image_PlaneRange i p.
Proof.
  intros Hp Hy. pose proof (patch_sizes p Hp) as (-> & Hw & Hwc & Hr & Hrh & Hx & Hyr).
  rewrite line_at_exact, (PlaneRange_exact i Hlo) by done.
  pose proof (LineRange_bounds i Hlo p Hp) as [Hl1 Hl2].
  pose proof (laid_out_sizes i Hlo p Hp) as (Hs & Hc' & Hr' & Hcw & Hrh' & Hle).
  destruct (pl_rect i m Hpl) as (? & ? & ? & ? & ? & ?).
  pose proof (HeightDiv_range i p). pose proof (WidthDiv_range i p).
  assert (0 <= y_start i / DVP_Image_HeightDiv i p) by (apply Z.div_pos; lia).
  assert (0 <= x_start i / DVP_Image_WidthDiv i p) by (apply Z.div_pos; lia). nia.
Qed.

Lemma patch_ranges_mapped : Forall (r_mapped m) (patch_ranges i).
Proof.
  unfold patch_ranges. apply Forall_fmap, Forall_forall. intros [p y] [Hp Hy]%elem_of_all_lines. simpl in *.
  pose proof (line_in_plane p y Hp Hy). pose proof (patch_sizes p Hp) as (Hls & Hw & _).
  pose proof (laid_out_sizes i Hlo p Hp) as (Hs & _). split; simpl; [rewrite Hls; nia|].
  eapply mapped_shrink; [| |by apply (pl_mapped i m Hpl p)]; lia.
Qed.

Lemma lines_apart l k :
  0 <= l.1 < planes i -> 0 <= l.2 < patch_rows i l.1 -> 0 <= k.1 < planes i -> 0 <= k.2 < patch_rows i k.1 ->
  before l k -> r_apart (patch_range i i l) (patch_range i i k).
Proof.
  destruct l as [p y], k as [q z]. intros Hp Hy Hq Hz Hbefore. simpl in *.
  unfold r_apart. simpl. destruct (decide (p = q)) as [->|Hne].
  - destruct Hbefore as [?|[_ Hlt]]; simpl in *; [lia|]. intros x.
    pose proof (patch_sizes q Hp) as (-> & Hw & Hwc & _). rewrite !line_at_exact by done.
    pose proof (LineRange_bounds i Hlo q Hp) as [Hl1 Hl2].
    pose proof (laid_out_sizes i Hlo q Hp) as (Hs & _).
    set (s := sample_bytes i q) in *. set (w := width i / _) in *. set (lr := DVP_Image_LineRange i q) in *.
    assert (s * w <= s * columns i q) by (apply Z.mul_le_mono_nonneg_l; lia).
    assert (lr * (y + 1) <= lr * z) by (apply Z.mul_le_mono_nonneg_l; nia). lia.
  - pose proof (line_in_plane p y Hp Hy). pose proof (line_in_plane q z Hq Hz).
    intros x [? ?]. apply (pl_apart i m Hpl p q Hp Hq Hne x). lia.
Qed.

Lemma patch_ranges_apart : pairwise r_apart (patch_ranges i).
Proof.
  unfold patch_ranges. apply pairwise_fmap. eapply pairwise_impl; [|apply all_lines_ordered].
  intros l k [Hp Hy]%elem_of_all_lines [Hq Hz]%elem_of_all_lines Hbefore. by apply lines_apart.
Qed.

End Placed.
