(* ===== verification/TransferFacts.v ===== *)
(** * The image transfers as block moves

    The header of a serialized image, and each loop of ImageTransfer as one
    [do_moves] over the lines of the patch. *)
From S2P Require Import Prelude DvpTypes Memory Image ImageLayout ImageTransfer Moves ImagePatch.

Open Scope dvp_scope.

Lemma le32_roundtrip v : is_u32 v -> of_le32 (le32 v) = v.
Proof.
  unfold is_u32, of_le32, le32. simpl. intros Hv.
  pose proof (Z.div_mod v 256). pose proof (Z.div_mod (v / 256) 256). pose proof (Z.div_mod (v / 256 / 256) 256).
  assert (v / 256 / 256 / 256 mod 256 = v / 256 / 256 / 256) as ->; [|lia].
  apply Z.mod_small. rewrite !Z.div_div by lia. split; [apply Z.div_pos; lia|apply Z.div_lt_upper_bound; lia].
Qed.

Definition wire_header (i : DVP_Image_t) : list Z := flat_map le32 (wire_fields i).

Lemma length_wire_header i : length (wire_header i) = 36%nat.
Proof. done. Qed.

(** With room for them the units follow each other. *)
Lemma serialize_units buf len vs : forall m off,
  0 <= off -> off + 4 * Z.of_nat (length vs) < len -> len <= 2 ^ 64 -> mapped buf len m ->
  ofold (fun st v => SERIALIZE_UNIT buf len v st) vs (m, off) =
    Done (put_bytes (buf + off) (flat_map le32 vs) m, off + 4 * Z.of_nat (length vs)).
Proof.
  induction vs as [|v vs IH]; intros m off Hoff Hlen Hmax Hm; [simpl; by rewrite Z.add_0_r|].
  cbn [ofold length] in *. unfold SERIALIZE_UNIT at 2. rewrite u64_small by (unfold is_u64; lia).
  rewrite (proj2 (Z.ltb_lt _ _)) by lia.
  rewrite store_bytes_Some by (eapply mapped_shrink; [| |exact Hm]; cbn; lia).
  cbn [of_option mbind outcome_bind]. rewrite IH; [|lia|lia|done|by apply put_bytes_mapped].
  cbn [flat_map]. rewrite <- put_bytes_app. change (Z.of_nat (length (le32 v))) with 4.
  rewrite Z.add_assoc. f_equal. f_equal. lia.
Qed.

(** Reading them gives the fields back. *)
Lemma read_units_spec buf len vs : forall m off,
  0 <= off -> off + 4 * Z.of_nat (length vs) < len -> len <= 2 ^ 64 ->
  load_bytes (buf + off) (4 * length vs) m = Some (flat_map le32 vs) ->
  read_units (length vs) buf len m off =
    Done ((fun v => Some (of_le32 (le32 v))) <$> vs, off + 4 * Z.of_nat (length vs)).
Proof.
  induction vs as [|v vs IH]; intros m off Hoff Hlen Hmax Hl; [simpl; by rewrite Z.add_0_r|].
  replace (4 * length (v :: vs))%nat with (4 + 4 * length vs)%nat in Hl by (cbn; lia).
  rewrite load_bytes_app in Hl.
  cbn [read_units length] in *. unfold UNSERIALIZE_UNIT. rewrite u64_small by (unfold is_u64; lia).
  rewrite (proj2 (Z.ltb_lt _ _)) by lia.
  destruct (load_bytes (buf + off) 4 m) as [x|] eqn:Hx; [|done]. cbn [mbind option_bind] in Hl.
  destruct (load_bytes _ (4 * length vs) m) as [y|] eqn:Hy; [|done]. simpl in Hl.
  injection Hl as Hl. apply load_bytes_length in Hx.
  assert (x = le32 v /\ y = flat_map le32 vs) as [-> ->] by (apply app_inj_1; done).
  cbn [of_option mbind outcome_bind]. rewrite IH; [|lia|lia|done|].
  - cbn [mbind outcome_bind]. rewrite fmap_cons. f_equal. f_equal. lia.
  - rewrite <- Hy. f_equal. lia.
Qed.

(** ** One array *)

Lemma SERIALIZE_ARRAY_room buf len ptr n m off : 0 <= off + n < len -> len <= 2 ^ 64 ->
  SERIALIZE_ARRAY buf len ptr n (m, off) =
    (m' ← of_option (memcpy (buf + off) ptr n m); Done (m', off + n)).
Proof.
  intros ? ?. unfold SERIALIZE_ARRAY. rewrite u64_small by (unfold is_u64; lia).
  by rewrite (proj2 (Z.ltb_lt _ _)) by lia.
Qed.
Lemma UNSERIALIZE_ARRAY_room buf len ptr n m off : 0 <= off + n < len -> len <= 2 ^ 64 ->
  UNSERIALIZE_ARRAY buf len ptr n (m, off) =
    (m' ← of_option (memcpy ptr (buf + off) n m); Done (m', off + n)).
Proof.
  intros ? ?. unfold UNSERIALIZE_ARRAY. rewrite u64_small by (unfold is_u64; lia).
  by rewrite (proj2 (Z.ltb_lt _ _)) by lia.
Qed.

(** ** Planes *)

Lemma has_null_false l ps :
  Forall (fun p => 0 <= p < Z.of_nat (length l) /\ ptr_of l p <> 0) ps -> has_null l ps = Done false.
Proof.
  induction 1 as [|p ps [Hp Hn] Hps IH]; simpl; [done|]. rewrite ptr_of_aget by done. simpl.
  by rewrite (proj2 (Z.eqb_neq _ _)) by done.
Qed.

Section Placed.
Context (i : DVP_Image_t) (m : memory) (Hpl : placed i m).
Let Hlo : laid_out i := pl_laid i m Hpl.

Lemma placed_planes : 0 < planes i <= 4.
Proof. exact (lo_planes i Hlo). Qed.

Lemma placed_not_null : null_plane i = Done false.
Proof.
  apply has_null_false, Forall_forall. intros p Hp%elem_of_seqZ. pose proof placed_planes.
  rewrite (pl_ptrs i m Hpl). split; [lia|]. destruct (pl_corner i m Hpl p) as [? ->]; [lia|].
  destruct (pl_rect i m Hpl) as (? & ? & ? & ? & ? & ?).
  destruct (Offset_exact i Hlo p (x_start i) (y_start i)) as (-> & ? & ?); [lia|lia|lia|].
  pose proof (LineRange_bounds i Hlo p). pose proof (laid_out_sizes i Hlo p) as Hs. nia.
Qed.

Lemma placed_line g p y : 0 <= p < planes i -> patch_line g i p y = Done (line_at g i p y).
Proof.
  intros Hp. apply patch_line_at; [done|]. rewrite (pl_ptrs i m Hpl). pose proof placed_planes. lia.
Qed.

Lemma line_small p : 0 <= p < planes i -> 0 <= DVP_Image_PatchLineSize i p < 2 ^ 30.
Proof.
  intros Hp. pose proof (patch_sizes i m Hpl p Hp) as (-> & Hw & Hwc & _).
  pose proof (laid_out_sizes i Hlo p Hp) as (Hs & _). pose proof (LineRange_bounds i Hlo p Hp).
  pose proof (stride_small i Hlo).
  assert (sample_bytes i p * (width i / DVP_Image_WidthDiv i p) <= sample_bytes i p * columns i p)
    by (apply Z.mul_le_mono_nonneg_l; lia). nia.
Qed.

(** ** Sizes *)

Lemma plane_total p : 0 <= p < planes i ->
  DVP_Image_PatchPlaneSize i p = patch_rows i p * DVP_Image_PatchLineSize i p /\
  0 <= patch_rows i p * DVP_Image_PatchLineSize i p < 2 ^ 30.
Proof.
  intros Hp. pose proof (patch_sizes i m Hpl p Hp) as (Hls & Hw & Hwc & Hr & Hrh & Hx & Hy).
  pose proof (laid_out_sizes i Hlo p Hp) as (Hs & Hc & Hrr & Hcw & Hrh' & Hle).
  destruct (pl_rect i m Hpl) as (? & ? & ? & ? & ? & ?).
  pose proof (LineRange_bounds i Hlo p Hp) as [Hl1 Hl2]. pose proof (HeightDiv_range i p).
  destruct Hlo as [_ [Hbw Hbh] Hxs _ Hl Hsm _].
  assert (DVP_Image_PatchLineSize i p <= Z.abs (y_stride i)) as Hll.
  { rewrite Hls. assert (sample_bytes i p * (width i / DVP_Image_WidthDiv i p) <= sample_bytes i p * columns i p)
      by (apply Z.mul_le_mono_nonneg_l; lia). lia. }
  assert (0 <= DVP_Image_PatchLineSize i p) by (apply line_small; done).
  assert (DVP_Image_PatchLineSize i p * height i <= Z.abs (y_stride i) * bufHeight i)
    by (apply Z.mul_le_mono_nonneg; lia).
  set (len := DVP_Image_PatchLineSize i p) in *. set (n := patch_rows i p) in *.
  set (d := DVP_Image_HeightDiv i p) in *.
  assert (len * (n * d) = (n * len) * d) as Hassoc by lia.
  split; [|rewrite Hrh in Hassoc; nia].
  unfold DVP_Image_PatchPlaneSize. rewrite (proj2 (Z.ltb_lt _ _)) by lia. fold len d.
  rewrite u32_small by (unfold is_u32; nia). rewrite <- Hrh, Hassoc. by rewrite Z.div_mul by lia.
Qed.

Lemma Zsum_const_fmap {A} (l : list A) (c : Z) : Zsum ((fun _ => c) <$> l) = Z.of_nat (length l) * c.
Proof. induction l as [|a l IH]; [done|]. rewrite fmap_cons. cbn [Zsum foldr length]. unfold Zsum in IH. lia. Qed.

(** The total of the lines, plane by plane. *)
Lemma patch_total_planes ps : (forall p, p ∈ ps -> 0 <= p < planes i) ->
  Zsum (DVP_Image_PatchLineSize i ∘ fst <$> flat_map (fun p => pair p <$> seqZ 0 (patch_rows i p)) ps) =
  Zsum ((fun p => patch_rows i p * DVP_Image_PatchLineSize i p) <$> ps).
Proof.
  induction ps as [|p ps IH]; intros Hps; [done|]. cbn [flat_map]. rewrite fmap_app, Zsum_app, IH
    by (intros; apply Hps; by right).
  rewrite fmap_cons. cbn [Zsum foldr]. fold (Zsum ((fun p => patch_rows i p * DVP_Image_PatchLineSize i p) <$> ps)).
  f_equal. rewrite <- list_fmap_compose.
  change (DVP_Image_PatchLineSize i ∘ fst ∘ pair p) with (fun _ : Z => DVP_Image_PatchLineSize i p).
  rewrite Zsum_const_fmap, length_seqZ. pose proof (patch_sizes i m Hpl p) as Hs.
  destruct Hs as (_ & _ & _ & ? & _); [apply Hps; by left|]. lia.
Qed.

Lemma patch_ranges_lens : (patch_ranges i).*2 = DVP_Image_PatchLineSize i ∘ fst <$> patch_lines i.
Proof. unfold patch_ranges. rewrite <- list_fmap_compose. done. Qed.

Lemma sum_planes_exact (f : Z -> Z) ps acc :
  (forall p, p ∈ ps -> 0 <= f p < 2 ^ 30) -> 0 <= acc -> acc + Z.of_nat (length ps) * (2 ^ 30 - 1) < 2 ^ 32 ->
  foldl (fun s p => s ⊞ f p) acc ps = acc + Zsum (f <$> ps) /\
  0 <= acc + Zsum (f <$> ps) <= acc + Z.of_nat (length ps) * (2 ^ 30 - 1).
Proof.
  revert acc. induction ps as [|p ps IH]; intros acc Hf Hacc Hsum; [simpl; lia|].
  cbn [foldl length] in *. rewrite fmap_cons. cbn [Zsum foldr]. fold (Zsum (f <$> ps)).
  pose proof (Hf p ltac:(by left)). rewrite u32_small by (unfold is_u32; lia).
  destruct (IH (acc + f p)) as [-> ?]; [intros; apply Hf; by right|lia|lia|]. lia.
Qed.

(** [DVP_Image_PatchSize] is the length of the patch's bytes. *)
Lemma PatchSize_exact :
  DVP_Image_PatchSize i = Zsum (patch_ranges i).*2 /\ 0 <= Zsum (patch_ranges i).*2 < 2 ^ 32.
Proof.
  rewrite patch_ranges_lens. unfold patch_lines, all_lines.
  assert (forall p, p ∈ seqZ 0 (planes i) -> 0 <= p < planes i) as Hin by (intros p Hp%elem_of_seqZ; lia).
  rewrite patch_total_planes by done. unfold DVP_Image_PatchSize, sum_planes.
  pose proof placed_planes as Hp.
  destruct (sum_planes_exact (DVP_Image_PatchPlaneSize i) (seqZ 0 (planes i)) 0) as [-> Hb].
  - intros p Hpp. destruct (plane_total p) as [-> ?]; auto.
  - lia.
  - rewrite length_seqZ. lia.
  - assert (DVP_Image_PatchPlaneSize i <$> seqZ 0 (planes i) =
      (fun p => patch_rows i p * DVP_Image_PatchLineSize i p) <$> seqZ 0 (planes i)) as <-.
    { apply list_fmap_ext. intros ? p Hpp%list_elem_of_lookup_2. by apply plane_total, Hin. }
    rewrite length_seqZ in Hb. lia.
Qed.

(** ** The loops *)

Lemma lens_nonneg ls : (forall l, l ∈ ls -> 0 <= l.1 < planes i) ->
  0 <= Zsum (patch_range i i <$> ls).*2.
Proof.
  intros Hls. apply Zsum_nonneg, Forall_fmap, Forall_fmap, Forall_forall. intros l Hl.
  apply line_small. by apply Hls.
Qed.

Lemma fill_loop buf ls : forall m0 off,
  (forall l, l ∈ ls -> 0 <= l.1 < planes i) -> 0 <= off -> off + Zsum (patch_range i i <$> ls).*2 < 2 ^ 32 ->
  ofold (fun s l => (fun '(m, off) =>
      let len := DVP_Image_PatchLineSize i l.1 in
      ptr ← patch_line i i l.1 l.2;
      m' ← of_option (memcpy ptr (buf + off) len m);
      Done (m', off ⊞ len)) s) ls (m0, off) =
  (m' ← do_moves (from_buffer (buf + off) (patch_range i i <$> ls)) m0;
   Done (m', off + Zsum (patch_range i i <$> ls).*2)).
Proof.
  induction ls as [|l ls IH]; intros m0 off Hls Hoff Hsum; [cbn; by rewrite Z.add_0_r|].
  rewrite fmap_cons in *. cbn [from_buffer patch_range ofold] in *. rewrite fmap_cons in *. cbn [snd] in *.
  cbn [Zsum foldr] in *. fold (Zsum (patch_range i i <$> ls).*2) in *.
  change (patch_range i i l).2 with (DVP_Image_PatchLineSize i l.1) in *.
  pose proof (lens_nonneg ls ltac:(intros; apply Hls; by right)).
  pose proof (line_small l.1 ltac:(apply Hls; by left)).
  rewrite placed_line by (apply Hls; by left). cbn [mbind outcome_bind do_moves ofold m_dst m_src m_len].
  destruct (memcpy _ _ _ m0) as [m1|]; [|done]. cbn [of_option mbind outcome_bind].
  rewrite u32_small by (unfold is_u32; lia). rewrite IH; [|intros; apply Hls; by right|lia|lia].
  unfold do_moves. rewrite <- !Z.add_assoc. by destruct (ofold _ _ m1).
Qed.

Lemma serialize_loop buf len ls : forall m0 off,
  (forall l, l ∈ ls -> 0 <= l.1 < planes i) -> 0 <= off -> len <= 2 ^ 64 ->
  off + Zsum (patch_range i i <$> ls).*2 < len ->
  ofold (fun s l => ptr ← patch_line i i l.1 l.2; SERIALIZE_ARRAY buf len ptr (DVP_Image_PatchLineSize i l.1) s)
    ls (m0, off) =
  (m' ← do_moves (to_buffer (buf + off) (patch_range i i <$> ls)) m0;
   Done (m', off + Zsum (patch_range i i <$> ls).*2)).
Proof.
  induction ls as [|l ls IH]; intros m0 off Hls Hoff Hlen Hsum; [cbn; by rewrite Z.add_0_r|].
  rewrite fmap_cons in *. cbn [to_buffer patch_range ofold] in *. rewrite fmap_cons in *. cbn [snd] in *.
  cbn [Zsum foldr] in *. fold (Zsum (patch_range i i <$> ls).*2) in *.
  change (patch_range i i l).2 with (DVP_Image_PatchLineSize i l.1) in *.
  pose proof (lens_nonneg ls ltac:(intros; apply Hls; by right)).
  pose proof (line_small l.1 ltac:(apply Hls; by left)).
  rewrite placed_line by (apply Hls; by left). cbn [mbind outcome_bind do_moves ofold m_dst m_src m_len].
  rewrite SERIALIZE_ARRAY_room by lia.
  destruct (memcpy _ _ _ m0) as [m1|]; [|done]. cbn [of_option mbind outcome_bind].
  rewrite IH; [|intros; apply Hls; by right|lia|lia|lia].
  unfold do_moves. rewrite <- !Z.add_assoc. by destruct (ofold _ _ m1).
Qed.

Lemma unserialize_loop buf len ls : forall m0 off,
  (forall l, l ∈ ls -> 0 <= l.1 < planes i) -> 0 <= off -> len <= 2 ^ 64 ->
  off + Zsum (patch_range i i <$> ls).*2 < len ->
  ofold (fun s l => (fun '(m, off) =>
      let n := DVP_Image_PatchLineSize i l.1 in
      ptr ← patch_line i i l.1 l.2;
      UNSERIALIZE_ARRAY buf len ptr n (m, off)) s) ls (m0, off) =
  (m' ← do_moves (from_buffer (buf + off) (patch_range i i <$> ls)) m0;
   Done (m', off + Zsum (patch_range i i <$> ls).*2)).
Proof.
  induction ls as [|l ls IH]; intros m0 off Hls Hoff Hlen Hsum; [cbn; by rewrite Z.add_0_r|].
  rewrite fmap_cons in *. cbn [from_buffer patch_range ofold] in *. rewrite fmap_cons in *. cbn [snd] in *.
  cbn [Zsum foldr] in *. fold (Zsum (patch_range i i <$> ls).*2) in *.
  change (patch_range i i l).2 with (DVP_Image_PatchLineSize i l.1) in *.
  pose proof (lens_nonneg ls ltac:(intros; apply Hls; by right)).
  pose proof (line_small l.1 ltac:(apply Hls; by left)).
  rewrite placed_line by (apply Hls; by left). cbn [mbind outcome_bind do_moves ofold m_dst m_src m_len].
  rewrite UNSERIALIZE_ARRAY_room by lia.
  destruct (memcpy _ _ _ m0) as [m1|]; [|done]. cbn [of_option mbind outcome_bind].
  rewrite IH; [|intros; apply Hls; by right|lia|lia|lia].
  unfold do_moves. rewrite <- !Z.add_assoc. by destruct (ofold _ _ m1).
Qed.

(** A buffer of [n] bytes that no plane of the image overlaps. *)
Definition buffer_apart (b n : Z) : Prop := forall p, 0 <= p < planes i ->
  apart (ptr_of (pBuffer i) p) (DVP_Image_PlaneRange i p) b n.

Lemma buffer_apart_lines b n k : 0 <= k <= n -> buffer_apart b n ->
  Forall (fun r => apart r.1 r.2 b k) (patch_ranges i).
Proof.
  intros Hk Hb. apply Forall_fmap, Forall_forall. intros [p y] [Hp Hy]%elem_of_all_lines. simpl in *.
  pose proof (line_in_plane i m Hpl p y Hp Hy). intros x [? ?]. apply (Hb p Hp x). lia.
Qed.

Lemma patch_lines_planes l : l ∈ patch_lines i -> 0 <= l.1 < planes i.
Proof. by intros [? ?]%elem_of_all_lines. Qed.
End Placed.
