(* ===== verification/TransferProperties.v ===== *)
(** * What the image transfers do

    Stated on [patch_bytes], the contents of a patch line by line. *)
From S2P Require Import Prelude DvpTypes Memory Image ImageLayout ImageTransfer Moves ImagePatch TransferFacts.
From S2P Require Import TransferFacts.

Open Scope dvp_scope.

(** Images whose lines mean the same. *)
Definition same_format (i j : DVP_Image_t) : Prop :=
  color i = color j /\ planes i = planes j /\ x_stride i = x_stride j.
Definition same_size (i j : DVP_Image_t) : Prop := width i = width j /\ height i = height j.
(** No plane of one overlaps a plane of the other. *)
Definition images_apart (i j : DVP_Image_t) : Prop := forall p q, 0 <= p < planes i -> 0 <= q < planes j ->
  apart (ptr_of (pBuffer i) p) (DVP_Image_PlaneRange i p) (ptr_of (pBuffer j) q) (DVP_Image_PlaneRange j q).

Lemma same_format_divs i j p : same_format i j ->
  DVP_Image_HeightDiv i p = DVP_Image_HeightDiv j p /\ DVP_Image_WidthDiv i p = DVP_Image_WidthDiv j p /\
  DVP_Image_WidthStep i p = DVP_Image_WidthStep j p.
Proof.
  intros (Hc & Hp & _). unfold DVP_Image_HeightDiv, DVP_Image_WidthDiv, DVP_Image_WidthStep.
  by rewrite Hc, Hp.
Qed.

(** ** Comparing *)

Lemma lines_differ_spec m (ls : list (Z * Z)) (dst src : Z * Z -> Z) (len : Z -> Z)
    (df sf : Z -> Z -> outcome Z) x y :
  (forall l, l ∈ ls -> df l.1 l.2 = Done (dst l) /\ sf l.1 l.2 = Done (src l)) ->
  read_ranges ((fun l => (dst l, len l.1)) <$> ls) m = Some x ->
  read_ranges ((fun l => (src l, len l.1)) <$> ls) m = Some y ->
  ofold (fun ne l => if ne : bool then Done true
                     else s ← sf l.1 l.2; d ← df l.1 l.2; memcmp_ne d s (len l.1) m) ls false =
    Done (negb (bool_decide (x = y))).
Proof.
  assert (forall ls, ofold (fun ne (l : Z * Z) => if ne : bool then Done true
    else s ← sf l.1 l.2; d ← df l.1 l.2; memcmp_ne d s (len l.1) m) ls true = Done true) as Htrue.
  { intros ks. induction ks as [|l ks IH]; [done|]. exact IH. }
  revert x y. induction ls as [|l ls IH]; intros x y Hls Hx Hy.
  { simpl in Hx, Hy. simplify_eq. by rewrite bool_decide_true. }
  rewrite fmap_cons in Hx, Hy. cbn [read_ranges] in Hx, Hy.
  destruct (load_bytes (dst l) _ m) as [x1|] eqn:Hx1; [|done].
  destruct (load_bytes (src l) _ m) as [y1|] eqn:Hy1; [|done]. cbn [mbind option_bind] in Hx, Hy.
  destruct (read_ranges _ m) as [x2|] eqn:Hx2 in Hx; [|done].
  destruct (read_ranges _ m) as [y2|] eqn:Hy2 in Hy; [|done]. simpl in Hx, Hy. simplify_eq.
  cbn [ofold]. destruct (Hls l) as [-> ->]; [by left|]. cbn [mbind outcome_bind].
  unfold memcmp_ne at 2. rewrite Hx1, Hy1. cbn [of_option mbind outcome_bind].
  pose proof (load_bytes_length _ _ _ _ Hx1). pose proof (load_bytes_length _ _ _ _ Hy1).
  destruct (decide (x1 = y1)) as [->|Hne].
  - rewrite bool_decide_true by done. cbn [negb]. rewrite (IH x2 y2); [|intros; apply Hls; by right|done..].
    do 2 f_equal. apply bool_decide_ext. split; [by intros ->|by intros ?%app_inv_head].
  - rewrite (bool_decide_false (x1 = y1)) by done. cbn [negb]. rewrite Htrue.
    rewrite bool_decide_false; [done|]. intros [? ?]%app_inj_1; congruence.
Qed.

Lemma patch_line_same_format dst src m l :
  placed dst m -> same_format dst src -> 0 <= l.1 < planes src ->
  patch_line src dst l.1 l.2 = Done (line_at dst dst l.1 l.2).
Proof.
  intros Hd Hf Hl. rewrite (placed_line dst m Hd) by (destruct Hf as (_ & -> & _); done).
  unfold line_at. by destruct (same_format_divs dst src l.1 Hf) as (-> & _).
Qed.

(** Where the lines of [src] land in [dst]. *)
Definition target_ranges (dst src : DVP_Image_t) : list range :=
  (fun l => (line_at dst dst l.1 l.2, DVP_Image_PatchLineSize src l.1)) <$> patch_lines src.

Lemma all_lines_ext planes rows rows' :
  (forall p, 0 <= p < planes -> rows p = rows' p) -> all_lines planes rows = all_lines planes rows'.
Proof.
  intros H. unfold all_lines. assert (forall p, p ∈ seqZ 0 planes -> rows p = rows' p) as H'.
  { intros p Hp%elem_of_seqZ. apply H. lia. }
  clear H. induction (seqZ 0 planes) as [|p ps IH]; [done|]. simpl. rewrite H' by (by left).
  f_equal. apply IH. intros q Hq. apply H'. by right.
Qed.

Section Two.
Context (dst src : DVP_Image_t) (m : memory) (Hd : placed dst m) (Hs : placed src m).
Context (Hf : same_format dst src).

Lemma same_size_ranges : same_size dst src -> target_ranges dst src = patch_ranges dst.
Proof.
  intros [Hw Hh]. unfold target_ranges, patch_ranges.
  assert (patch_lines src = patch_lines dst) as ->.
  { unfold patch_lines. destruct Hf as (_ & Hpl & _). rewrite Hpl. apply all_lines_ext. intros p _.
    unfold patch_rows. by destruct (same_format_divs dst src p Hf) as (-> & _), Hh. }
  apply list_fmap_ext. intros ? l _. unfold patch_range. f_equal.
  unfold DVP_Image_PatchLineSize, line_bytes. destruct (same_format_divs dst src l.1 Hf) as (_ & -> & ->).
  destruct Hf as (_ & -> & ->). by rewrite Hw.
Qed.

Context (Hw : width src <= width dst) (Hh : height src <= height dst).

(** Every source line fits the target line it goes to. *)
Lemma target_line l : l ∈ patch_lines src ->
  0 <= l.1 < planes dst /\ 0 <= l.2 < patch_rows dst l.1 /\
  0 <= DVP_Image_PatchLineSize src l.1 <= DVP_Image_PatchLineSize dst l.1.
Proof.
  intros [Hp Hy]%elem_of_all_lines. destruct Hf as (_ & Hpl & Hxs). rewrite Hpl.
  split; [done|]. destruct (same_format_divs dst src l.1 Hf) as (Hhd & Hwd & Hws).
  pose proof (patch_sizes dst m Hd l.1 ltac:(lia)) as (-> & _).
  pose proof (line_small src m Hs l.1 Hp) as [? _].
  pose proof (patch_sizes src m Hs l.1 Hp) as (Hls & _). rewrite Hls in *.
  pose proof (HeightDiv_range src l.1). pose proof (WidthDiv_range src l.1).
  pose proof (laid_out_sizes src (pl_laid src m Hs) l.1 Hp) as (Hsb & _).
  unfold patch_rows in *. unfold sample_bytes in *. rewrite Hhd, Hwd, Hws, Hxs.
  assert (height src / DVP_Image_HeightDiv src l.1 <= height dst / DVP_Image_HeightDiv src l.1)
    by (apply Z.div_le_mono; lia).
  split; [lia|]. split; [done|]. apply Z.mul_le_mono_nonneg_l; [lia|]. apply Z.div_le_mono; lia.
Qed.

Lemma target_ranges_mapped : Forall (r_mapped m) (target_ranges dst src).
Proof.
  apply Forall_fmap, Forall_forall. intros l Hl. destruct (target_line l Hl) as (Hp & Hy & Hlen).
  pose proof (line_in_plane dst m Hd l.1 l.2 Hp Hy). split; simpl; [lia|].
  eapply mapped_shrink; [| |by apply (pl_mapped dst m Hd l.1)]; lia.
Qed.

Lemma target_ranges_apart : pairwise r_apart (target_ranges dst src).
Proof.
  apply pairwise_fmap. eapply pairwise_impl; [|apply all_lines_ordered].
  intros l k Hl Hk Hb. destruct (target_line l Hl) as (Hp & Hy & Hlen).
  destruct (target_line k Hk) as (Hq & Hz & Hlen').
  pose proof (lines_apart dst m Hd l k Hp Hy Hq Hz Hb) as Ha. intros x [? ?]. simpl in *. apply (Ha x). simpl. lia.
Qed.

Lemma target_source_apart : images_apart dst src ->
  Forall (fun r => Forall (r_apart r) (patch_ranges src)) (target_ranges dst src).
Proof.
  intros Hap. apply Forall_fmap, Forall_forall. intros l Hl. destruct (target_line l Hl) as (Hp & Hy & Hlen).
  apply Forall_fmap, Forall_forall. intros k [Hq Hz]%elem_of_all_lines. intros x [? ?]. simpl in *.
  pose proof (line_in_plane dst m Hd l.1 l.2 Hp Hy). pose proof (line_in_plane src m Hs k.1 k.2 Hq Hz).
  apply (Hap l.1 k.1 Hp Hq x). lia.
Qed.

(** ** Copying *)

Definition copy_moves : list move :=
  (fun l => mkMove (line_at dst dst l.1 l.2) (line_at src src l.1 l.2) (DVP_Image_PatchLineSize src l.1))
  <$> patch_lines src.

Lemma copy_same_moves : copy_same dst src m = do_moves copy_moves m.
Proof.
  unfold copy_same. rewrite for_lines_flat. fold (patch_lines src). unfold do_moves, copy_moves.
  assert (forall l, l ∈ patch_lines src -> 0 <= l.1 < planes src) as Hin
    by (intros l; apply patch_lines_planes).
  generalize m as m0. induction (patch_lines src) as [|l ls IH]; intros m0; [done|].
  rewrite fmap_cons. cbn [ofold]. unfold copy_line at 2.
  rewrite (patch_line_same_format dst src m), (placed_line src m Hs) by (done || apply Hin; by left).
  cbn [mbind outcome_bind m_dst m_src m_len].
  destruct (memcpy _ _ _ m0) as [m1|]; [|done]. cbn [of_option mbind outcome_bind].
  apply IH. intros k Hk. apply Hin. by right.
Qed.

Lemma copy_same_spec : images_apart dst src ->
  exists m', copy_same dst src m = Done m' /\
    read_ranges (target_ranges dst src) m' = patch_bytes src m /\
    (forall x, outside x (target_ranges dst src) -> m' !! x = m !! x) /\
    (forall a n, mapped a n m -> mapped a n m').
Proof.
  intros Hap. rewrite copy_same_moves.
  assert (target <$> copy_moves = target_ranges dst src) as Ht
    by (unfold copy_moves; by rewrite <- list_fmap_compose).
  assert (source <$> copy_moves = patch_ranges src) as Hsr
    by (unfold copy_moves; by rewrite <- list_fmap_compose).
  unfold patch_bytes. rewrite <- Ht, <- Hsr. apply do_moves_spec; rewrite ?Ht, ?Hsr.
  - by apply patch_ranges_mapped.
  - apply target_ranges_mapped.
  - apply target_ranges_apart.
  - apply (Forall_fmap target (fun r => Forall (r_apart r) (patch_ranges src))). rewrite Ht.
    by apply target_source_apart.
Qed.
End Two.

(** ** Contents after a transfer *)

Lemma placed_mono i m m' : placed i m -> (forall a n, mapped a n m -> mapped a n m') -> placed i m'.
Proof. intros [] Hm. split; auto. Qed.

Lemma patch_bytes_frame i m m' :
  Forall (fun r => forall x, r.1 <= x < r.1 + r.2 -> m' !! x = m !! x) (patch_ranges i) ->
  patch_bytes i m' = patch_bytes i m.
Proof. apply read_ranges_frame. Qed.

(** A patch off [a, a + n) survives a change there. *)
Lemma patch_bytes_survives i m m' a n : placed i m -> buffer_apart i a n ->
  (forall x, ~ a <= x < a + n -> m' !! x = m !! x) -> patch_bytes i m' = patch_bytes i m.
Proof.
  intros Hi Ha Hm. destruct (Z.le_gt_cases n 0) as [Hn|Hn].
  { apply patch_bytes_frame, Forall_forall. intros r _ x _. apply Hm. lia. }
  apply patch_bytes_frame.
  eapply Forall_impl; [apply (buffer_apart_lines i m Hi a n n); [lia|done]|]. intros r Hr x Hx.
  apply Hm. intros ?. by apply (Hr x).
Qed.

Lemma patch_bytes_defined i m : placed i m -> exists bs, patch_bytes i m = Some bs.
Proof.
  intros Hi. unfold patch_bytes. pose proof (patch_ranges_mapped i m Hi) as Hm. revert Hm.
  generalize (patch_ranges i). induction l as [|[a n] l IH]; [by eexists|].
  intros [[Hn Ha] Hl]%Forall_cons. simpl in *. rewrite <- (Z2Nat.id n) in Ha by done.
  destruct (load_bytes_mapped _ _ _ Ha) as [x ->]. destruct (IH Hl) as [y ->]. by eexists.
Qed.

Lemma patch_equal_spec dst src m : placed dst m -> placed src m -> same_format dst src -> same_size dst src ->
  DVP_Image_PatchEqual dst src m =
    Done (if bool_decide (patch_bytes dst m = patch_bytes src m) then DVP_TRUE else DVP_FALSE).
Proof.
  intros Hd Hs Hf Hsz. unfold DVP_Image_PatchEqual.
  rewrite (placed_not_null src m Hs), (placed_not_null dst m Hd). cbn [mbind outcome_bind].
  destruct Hsz as [Hw Hh]. rewrite Hw, Hh, !Z.eqb_refl. cbn [negb orb].
  assert (forall i, placed i m -> (bufWidth i <? u32 (x_start i + width i)) = false /\
    (bufHeight i <? u32 (y_start i + height i)) = false) as Hrect.
  { intros i Hi. destruct (pl_rect i m Hi) as (? & ? & ? & ? & ? & ?).
    pose proof (u32_range (x_start i + width i)). pose proof (u32_range (y_start i + height i)).
    pose proof (Z.mod_le (x_start i + width i) (2 ^ 32)). pose proof (Z.mod_le (y_start i + height i) (2 ^ 32)).
    unfold u32 in *. split; apply Z.ltb_ge; lia. }
  destruct (Hrect src Hs) as [Hsx Hsy]. destruct (Hrect dst Hd) as [Hdx Hdy].
  rewrite Hw in Hdx. rewrite Hh in Hdy. rewrite Hsx, Hsy, Hdx, Hdy. cbn [orb].
  rewrite (proj2 (Z.eqb_eq (color dst) (color src))) by apply Hf.
  destruct (patch_bytes_defined dst m Hd) as [x Hx]. destruct (patch_bytes_defined src m Hs) as [y Hy].
  unfold lines_differ. rewrite for_lines_flat. fold (patch_lines src).
  rewrite (lines_differ_spec m (patch_lines src) (fun l => line_at dst dst l.1 l.2)
    (fun l => line_at src src l.1 l.2) (DVP_Image_PatchLineSize src) _ _ x y).
  - cbn [mbind outcome_bind]. rewrite Hx, Hy. do 2 f_equal.
    destruct (decide (x = y)) as [->|Hne]; [by rewrite !bool_decide_true|].
    rewrite !bool_decide_false by congruence. done.
  - intros l Hl%patch_lines_planes. split; [by apply (patch_line_same_format dst src m)|].
    by apply (placed_line src m Hs).
  - rewrite <- Hx. unfold patch_bytes. by rewrite <- (same_size_ranges dst src Hf (conj Hw Hh)).
  - exact Hy.
Qed.

(** ** Serialization *)

Definition wire_size (i : DVP_Image_t) : Z := 36 + Zsum (patch_ranges i).*2.

Lemma placed_dims i m : placed i m -> exists ds, DVP_Image_Dims i = Done ds.
Proof.
  intros Hi. pose proof (placed_planes i m Hi) as Hp. unfold DVP_Image_Dims.
  rewrite (proj2 (Z.ltb_ge DVP_MAX_PLANES (planes i))) by (unfold DVP_MAX_PLANES; lia).
  repeat case_one_of; by eexists.
Qed.
Lemma dims_planes i j : planes i = planes j -> color i = color j ->
  (exists ds, DVP_Image_Dims j = Done ds) -> exists ds, DVP_Image_Dims i = Done ds.
Proof.
  intros Hp Hc [ds Hds]. revert Hds. unfold DVP_Image_Dims. rewrite Hp, Hc.
  repeat case_one_of; try by (intros; eexists). destruct (_ <? _); [done|]. by eexists.
Qed.

Lemma serialize_spec i buf len m : placed i m -> mapped buf len m -> buffer_apart i buf len ->
  wire_size i < len -> len <= 2 ^ 64 ->
  exists m', DVP_Image_Serialize i buf len m = Done (wire_size i, m') /\
    load_bytes buf 36 m' = Some (wire_header i) /\
    load_bytes (buf + 36) (Z.to_nat (Zsum (patch_ranges i).*2)) m' = patch_bytes i m /\
    (forall x, ~ buf <= x < buf + len -> m' !! x = m !! x) /\ (forall a n, mapped a n m -> mapped a n m').
Proof.
  intros Hi Hb Hap Hlen Hmax. unfold wire_size in *. destruct (PatchSize_exact i m Hi) as [_ Htot].
  set (m1 := put_bytes buf (wire_header i) m).
  assert (placed i m1) as Hi1 by (eapply placed_mono; [exact Hi|]; intros; by apply put_bytes_mapped).
  assert (forall x, ~ buf <= x < buf + 36 -> m1 !! x = m !! x) as Hm1.
  { intros x Hx. apply put_bytes_frame. by rewrite length_wire_header. }
  destruct (to_buffer_spec (buf + 36) (patch_ranges i) m1) as (m' & Hm & Hr & Hfr & Hmap).
  - by apply patch_ranges_mapped.
  - eapply mapped_shrink; [| |by apply put_bytes_mapped, Hb]; lia.
  - eapply Forall_impl; [apply (buffer_apart_lines i m Hi buf len len); [lia|done]|].
    intros r Hr x [? ?]. apply (Hr x). lia.
  - exists m'. split_and!.
    + unfold DVP_Image_Serialize.
      pose proof (serialize_units buf len (wire_fields i) m 0) as Hu. rewrite Hu by (cbn; lia || done).
      cbn [mbind outcome_bind]. rewrite Z.add_0_r. fold (wire_header i). fold m1.
      destruct (placed_dims i m Hi) as [ds ->]. cbn [mbind outcome_bind].
      rewrite for_lines_flat. fold (patch_lines i).
      change (0 + 4 * Z.of_nat (length (wire_fields i))) with 36.
      rewrite (serialize_loop i m1 Hi1) by (try apply patch_lines_planes; fold (patch_ranges i); lia).
      fold (patch_ranges i). rewrite Hm. done.
    + rewrite (load_bytes_frame _ _ m1) by (intros; apply Hfr; lia).
      rewrite <- (length_wire_header i) at 1. apply load_put_same.
    + rewrite Hr. fold (patch_bytes i m1).
      apply (patch_bytes_survives i m m1 buf 36 Hi); [|done].
      intros p Hp x [? ?]. apply (Hap p Hp x). lia.
    + intros x Hx. rewrite Hfr by lia. apply Hm1. lia.
    + intros a n Ha. by apply Hmap, put_bytes_mapped.
Qed.

Lemma unserialize_spec i j buf len m : placed j m -> mapped buf len m -> buffer_apart j buf len ->
  planes i = planes j -> color i = color j -> bufWidth i = bufWidth j -> bufHeight i = bufHeight j ->
  is_u32 (color j) -> wire_size j < len -> len <= 2 ^ 64 ->
  load_bytes buf 36 m = Some (wire_header i) ->
  exists m', DVP_Image_Unserialize j buf len m = Done (wire_size j, m') /\
    patch_bytes j m' = load_bytes (buf + 36) (Z.to_nat (Zsum (patch_ranges j).*2)) m /\
    (forall x, outside x (patch_ranges j) -> m' !! x = m !! x).
Proof.
  intros Hj Hb Hap Hp Hc Hw Hh Hcol Hlen Hmax Hhd. unfold wire_size in *.
  destruct (PatchSize_exact j m Hj) as [_ Htot]. pose proof (placed_planes j m Hj) as Hpl.
  pose proof (pl_laid j m Hj) as [_ [? ?] ? _ Hl Hsm _]. pose proof (stride_small j (pl_laid j m Hj)).
  assert (bufWidth j < 2 ^ 30 /\ bufHeight j < 2 ^ 30) as [? ?] by nia.
  destruct (from_buffer_spec (buf + 36) (patch_ranges j) m) as (m' & Hm & Hr & Hfr & _).
  - by apply patch_ranges_mapped.
  - by apply (patch_ranges_apart j m).
  - eapply mapped_shrink; [| |exact Hb]; lia.
  - eapply Forall_impl; [apply (buffer_apart_lines j m Hj buf len len); [lia|done]|].
    intros r Hrr x [? ?]. apply (Hrr x). lia.
  - exists m'. split_and!; [|done|done]. unfold DVP_Image_Unserialize.
    pose proof (read_units_spec buf len (wire_fields i) m 0) as Hu.
    rewrite Z.add_0_r in Hu. specialize (Hu ltac:(lia) ltac:(cbn; lia) Hmax Hhd).
    change (length (wire_fields i)) with 9%nat in Hu. rewrite Hu. clear Hu.
    unfold wire_fields. rewrite !fmap_cons. cbn [mbind outcome_bind wire_image fmap list_fmap color planes bufWidth bufHeight].
    rewrite !le32_roundtrip by (unfold is_u32 in *; lia). rewrite Hc, Hw, Hh, !Z.eqb_refl. cbn [andb].
    match goal with |- context [DVP_Image_Dims ?im] =>
      destruct (dims_planes im j) as [ds ->]; [done|done|by apply (placed_dims j m)|] end.
    cbn [mbind outcome_bind planes]. rewrite Hp, for_lines_flat. fold (patch_lines j).
    rewrite (unserialize_loop j m Hj) by (try apply patch_lines_planes; fold (patch_ranges j); lia).
    fold (patch_ranges j). change (0 + 4 * Z.of_nat 9) with 36. rewrite Hm. done.
Qed.

(** [DVP_Image_Copy] between images of one format, with what it keeps. *)
Lemma copy_spec dst src m :
  placed dst m -> placed src m -> same_format dst src -> width src <= width dst -> height src <= height dst ->
  images_apart dst src ->
  exists m', DVP_Image_Copy dst src m = Done (DVP_TRUE, m') /\
    read_ranges (target_ranges dst src) m' = patch_bytes src m /\
    (forall x, outside x (target_ranges dst src) -> m' !! x = m !! x) /\
    (forall a n, mapped a n m -> mapped a n m').
Proof.
  intros Hd Hs Hf Hw Hh Hap.
  destruct (copy_same_spec dst src m Hd Hs Hf Hw Hh Hap) as (m' & Hc & Hr & Hfr & Hmap).
  exists m'. split; [|done]. unfold DVP_Image_Copy.
  rewrite (placed_not_null src m Hs), (placed_not_null dst m Hd). cbn [mbind outcome_bind].
  rewrite (proj2 (Z.ltb_ge _ _) Hw), (proj2 (Z.ltb_ge _ _) Hh). cbn [orb].
  rewrite (proj2 (Z.eqb_eq (color dst) (color src))), Hc by apply Hf. done.
Qed.

(** ** Properties *)

(** C29: a copy between images of one format puts the source's patch, line
    for line, into the corner of the target's, and touches nothing else; when
    the patches have the same size the target's contents are the source's,
    and [DVP_Image_PatchEqual] says so. *)
Theorem copy_moves_patch dst src m :
  placed dst m -> placed src m -> same_format dst src -> width src <= width dst -> height src <= height dst ->
  images_apart dst src ->
  exists m', DVP_Image_Copy dst src m = Done (DVP_TRUE, m') /\
    read_ranges (target_ranges dst src) m' = patch_bytes src m /\
    (forall x, outside x (target_ranges dst src) -> m' !! x = m !! x) /\
    (same_size dst src -> patch_bytes dst m' = patch_bytes src m /\
       DVP_Image_PatchEqual dst src m' = Done DVP_TRUE).
Proof.
  intros Hd Hs Hf Hw Hh Hap.
  destruct (copy_spec dst src m Hd Hs Hf Hw Hh Hap) as (m' & Hc & Hr & Hfr & Hmap).
  exists m'. split; [done|split; [done|split; [done|]]].
  intros Hsz. rewrite (same_size_ranges dst src Hf Hsz) in Hr. fold (patch_bytes dst m') in Hr.
    split; [done|]. rewrite patch_equal_spec by (done || by eapply placed_mono).
    rewrite bool_decide_true; [done|]. rewrite Hr. symmetry.
    apply patch_bytes_frame. pose proof (target_source_apart dst src m Hd Hs Hf Hw Hh Hap) as Hts.
    rewrite Forall_forall in Hts. apply Forall_forall. intros r Hrr x Hx. apply Hfr, Forall_forall. intros q Hq ?.
    specialize (Hts q Hq). rewrite Forall_forall in Hts. by apply (Hts r Hrr x).
Qed.

(** On patches of one format and size the comparison answers true
    exactly when their contents are equal. *)
Theorem patch_equal_decides dst src m :
  placed dst m -> placed src m -> same_format dst src -> same_size dst src ->
  DVP_Image_PatchEqual dst src m = Done DVP_TRUE <-> patch_bytes dst m = patch_bytes src m.
Proof.
  intros Hd Hs Hf Hsz. rewrite patch_equal_spec by done.
  destruct (decide (patch_bytes dst m = patch_bytes src m)) as [He|Hne].
  - by rewrite bool_decide_true.
  - rewrite bool_decide_false by done. split; [by intros [=]|done].
Qed.

(** A fill of at most the patch's size makes the buffer's bytes the
    contents of the patch, whatever size was passed; a longer one does
    nothing. *)
Theorem fill_sets_patch i buf size m :
  placed i m -> mapped buf (DVP_Image_PatchSize i) m -> buffer_apart i buf (DVP_Image_PatchSize i) ->
  (size <= DVP_Image_PatchSize i -> exists m',
     DVP_Image_Fill i buf size m = Done m' /\
     patch_bytes i m' = load_bytes buf (Z.to_nat (DVP_Image_PatchSize i)) m /\
     (forall x, outside x (patch_ranges i) -> m' !! x = m !! x)) /\
  (DVP_Image_PatchSize i < size -> DVP_Image_Fill i buf size m = Done m).
Proof.
  intros Hi Hb Hap. destruct (PatchSize_exact i m Hi) as [Heq Hbd]. split; intros Hsz.
  - destruct (from_buffer_spec buf (patch_ranges i) m) as (m' & Hm & Hr & Hfr & _).
    + by apply patch_ranges_mapped.
    + by apply (patch_ranges_apart i m).
    + by rewrite <- Heq.
    + rewrite <- Heq. apply (buffer_apart_lines i m Hi buf (DVP_Image_PatchSize i)); [lia|done].
    + exists m'. split_and!; [|by rewrite Heq|done]. unfold DVP_Image_Fill.
      rewrite (proj2 (Z.leb_le _ _) Hsz), for_lines_flat. fold (patch_lines i).
      rewrite (fill_loop i m Hi) by (try apply patch_lines_planes; fold (patch_ranges i); lia).
      fold (patch_ranges i). rewrite Z.add_0_r, Hm. done.
  - unfold DVP_Image_Fill. by rewrite (proj2 (Z.leb_gt _ _) Hsz).
Qed.

(** C34: what one image serializes, another of the same format and size reads
    back: both runs consume the same number of bytes, and the second image's
    patch ends with the first one's contents. *)
Theorem serialize_roundtrip i j buf len m :
  placed i m -> placed j m -> same_format i j -> same_size i j ->
  bufWidth i = bufWidth j -> bufHeight i = bufHeight j -> is_u32 (color i) ->
  mapped buf len m -> buffer_apart i buf len -> buffer_apart j buf len ->
  wire_size i < len -> len <= 2 ^ 64 ->
  exists m1 m2, DVP_Image_Serialize i buf len m = Done (wire_size i, m1) /\
    DVP_Image_Unserialize j buf len m1 = Done (wire_size i, m2) /\
    patch_bytes j m2 = patch_bytes i m /\
    (forall x, ~ buf <= x < buf + len -> outside x (patch_ranges j) -> m2 !! x = m !! x).
Proof.
  intros Hi Hj Hf Hsz Hw Hh Hcol Hb Hai Haj Hlen Hmax.
  assert (wire_size j = wire_size i) as Hws.
  { unfold wire_size. rewrite <- (same_size_ranges i j Hf Hsz). unfold target_ranges, patch_ranges.
    rewrite <- !list_fmap_compose. done. }
  destruct (serialize_spec i buf len m Hi Hb Hai Hlen Hmax) as (m1 & Hs & Hhd & Hpx & Hfr & Hmap).
  destruct (unserialize_spec i j buf len m1) as (m2 & Hu & Hr & Hfr2);
    [by eapply placed_mono|by apply Hmap|done|apply Hf|apply Hf|done|done|by destruct Hf as (<- & _)|lia|done|done|].
  exists m1, m2. split_and!; [done|by rewrite <- Hws| |].
  - rewrite Hr, <- Hpx. do 2 f_equal. unfold wire_size in Hws. lia.
  - intros x Hx Ho. by rewrite Hfr2, Hfr.
Qed.

(** ** Witnesses: NV12 images of 4x4 pixels in four mapped pages *)

Definition pages : memory := put_bytes 4096 (zero_bytes 16384) ∅.

Lemma pages_mapped a n : 4096 <= a -> a + n <= 20480 -> mapped a n pages.
Proof.
  intros Ha Hn. apply (mapped_shrink 4096 16384); [lia|lia|].
  exact (put_bytes_maps 4096 (zero_bytes 16384) ∅).
Qed.

Lemma nv12_ranges a b p : 0 <= p < 2 ->
  (p = 0 /\ ptr_of (pBuffer (nv12_at a b)) p = a /\ DVP_Image_PlaneRange (nv12_at a b) p = 16) \/
  (p = 1 /\ ptr_of (pBuffer (nv12_at a b)) p = b /\ DVP_Image_PlaneRange (nv12_at a b) p = 8).
Proof. intros Hp. assert (p = 0 \/ p = 1) as [->| ->] by lia; [left|right]; done. Qed.

Lemma nv12_placed a b : 4096 <= a -> a + 16 <= b -> b + 8 <= 20480 -> placed (nv12_at a b) pages.
Proof.
  intros Ha Hab Hb. split.
  - apply nv12_at_laid_out.
  - done.
  - cbn. lia.
  - intros p Hp. pose proof (lo_even _ (nv12_at_laid_out a b) p Hp) as [? ?].
    split_and!; [apply Z.divide_0_r|done|apply Z.divide_0_r|done].
  - intros p Hp. change (planes _) with 2 in Hp. assert (p = 0 \/ p = 1) as [->| ->] by lia.
    + change (0 < a /\ a = a + 0). lia.
    + change (0 < b /\ b = b + 0). lia.
  - intros p Hp. destruct (nv12_ranges a b p Hp) as [(-> & -> & ->)|(-> & -> & ->)]; apply pages_mapped; lia.
  - intros p q Hp Hq Hne x.
    destruct (nv12_ranges a b p Hp) as [(-> & -> & ->)|(-> & -> & ->)],
      (nv12_ranges a b q Hq) as [(-> & -> & ->)|(-> & -> & ->)]; lia.
Qed.

Lemma nv12_images_apart a b a' b' : a + 16 <= b -> b + 8 <= a' -> a' + 16 <= b' ->
  images_apart (nv12_at a b) (nv12_at a' b').
Proof.
  intros ? ? ? p q Hp Hq x.
  destruct (nv12_ranges a b p Hp) as [(-> & -> & ->)|(-> & -> & ->)],
    (nv12_ranges a' b' q Hq) as [(-> & -> & ->)|(-> & -> & ->)]; lia.
Qed.
Lemma nv12_buffer_apart a b c n : a + 16 <= b -> b + 8 <= c -> 0 <= n -> buffer_apart (nv12_at a b) c n.
Proof. intros ? ? ? p Hp x. destruct (nv12_ranges a b p Hp) as [(-> & -> & ->)|(-> & -> & ->)]; lia. Qed.

Definition one : DVP_Image_t := nv12_at 4096 4352.
Definition two : DVP_Image_t := nv12_at 8192 8448.

Lemma copy_moves_patch_witness : exists m', DVP_Image_Copy one two pages = Done (DVP_TRUE, m') /\
  DVP_Image_PatchEqual one two m' = Done DVP_TRUE.
Proof.
  destruct (copy_moves_patch one two pages) as (m' & Hc & _ & _ & He);
    [apply nv12_placed; lia|apply nv12_placed; lia|done|cbn; lia|cbn; lia|apply nv12_images_apart; lia|].
  exists m'. split; [exact Hc|]. exact (proj2 (He (conj eq_refl eq_refl))).
Defined.

Lemma patch_equal_decides_witness :
  DVP_Image_PatchEqual one one pages = Done DVP_TRUE.
Proof. apply (patch_equal_decides one one pages); (apply nv12_placed; lia) || done. Defined.

Lemma fill_sets_patch_witness : exists m', DVP_Image_Fill one 12288 24 pages = Done m' /\
  patch_bytes one m' = load_bytes 12288 24 pages.
Proof.
  destruct (proj1 (fill_sets_patch one 12288 24 pages ltac:(apply nv12_placed; lia)
    ltac:(apply pages_mapped; vm_compute; congruence)
    ltac:(apply nv12_buffer_apart; vm_compute; congruence))) as (m' & Hf & Hb & _); [vm_compute; congruence|].
  exists m'. split; [exact Hf|exact Hb].
Defined.

Lemma serialize_roundtrip_witness : exists m1 m2,
  DVP_Image_Serialize one 12288 100 pages = Done (60, m1) /\
  DVP_Image_Unserialize two 12288 100 m1 = Done (60, m2) /\ patch_bytes two m2 = patch_bytes one pages.
Proof.
  destruct (serialize_roundtrip one two 12288 100 pages) as (m1 & m2 & Hs & Hu & Hp & _);
    [apply nv12_placed; lia|apply nv12_placed; lia|done|done|done|done|by vm_compute|apply pages_mapped; lia
    |apply nv12_buffer_apart; lia|apply nv12_buffer_apart; lia|by vm_compute|lia|].
  exists m1, m2. split; [exact Hs|split; [exact Hu|exact Hp]].
Defined.
