(* ===== verification/SetPatch.v ===== *)
(** * Selecting a patch (DVP_Image_SetPatch) *)
From S2P Require Import Prelude DvpTypes Memory Image ImageLayout ImageTransfer Moves ImagePatch TransferFacts.
From S2P Require Import TransferFacts TransferProperties.

Open Scope dvp_scope.

(** [i] with the patch moved. *)
Definition with_patch (i : DVP_Image_t) (x y w h : Z) (dat : list Z) : DVP_Image_t :=
  set_rect x y w h (set_pData dat i).

Lemma with_patch_offset i x y w h dat a b p :
  DVP_Image_Offset (with_patch i x y w h dat) a b p = DVP_Image_Offset i a b p.
Proof. done. Qed.

Section Select.
Context (i : DVP_Image_t) (m : memory) (Hi : placed i m) (Hbuf : length (pBuffer i) = 4%nat).
Context (x y w h : Z).

Definition selected (pre : list Z) (im : DVP_Image_t) : Prop :=
  exists dat, length dat = 4%nat /\
    (forall p, p ∈ pre -> 0 <= p -> ptr_of dat p = ptr_of (pBuffer i) p + DVP_Image_Offset i x y p) /\
    im = match pre with [] => i | _ => with_patch i x y w h dat end.

Lemma select_loop : exists i',
  ofold (fun im p =>
    a ← DVP_Image_Addressing im x y p;
    l ← of_option (aset (pData im) p a);
    Done (set_rect x y w h (set_pData l im))) (seqZ 0 (planes i)) i = Done i' /\
  selected (seqZ 0 (planes i)) i'.
Proof.
  pose proof (placed_planes i m Hi) as Hpl.
  apply (ofold_total _ selected).
  - intros pre p post im Hpre (dat & Hlen & Hdat & ->).
    assert (p ∈ seqZ 0 (planes i)) as Hp%elem_of_seqZ by (rewrite Hpre; apply elem_of_app; right; by left).
    set (im := match pre with [] => i | _ => _ end).
    assert (length (pData im) = 4%nat /\ DVP_Image_Addressing im x y p =
      Done (ptr_of (pBuffer i) p + DVP_Image_Offset i x y p) /\
      forall l, set_rect x y w h (set_pData l im) = with_patch i x y w h l) as (Hl & Ha & Hset).
    { unfold DVP_Image_Addressing. destruct pre; unfold im; cbn [planes pBuffer pData with_patch set_rect set_pData];
        rewrite (proj2 (Z.ltb_lt p (planes i))), ptr_of_aget by lia;
        (split; [by rewrite ?(pl_ptrs i m Hi)|split; done]). }
    rewrite Ha. cbn [mbind outcome_bind]. rewrite aset_in_range by lia. cbn [of_option mbind outcome_bind].
    rewrite Hset. eexists. split; [reflexivity|]. eexists. split; [by rewrite length_insert|].
    assert (pre = [] \/ pData im = dat) as Hdd by (destruct pre; [by left|by right]).
    split; [|by destruct pre]. intros q [Hq|Hq%list_elem_of_singleton]%elem_of_app Hq0.
    + destruct Hdd as [->|Hdd]; [by apply elem_of_nil in Hq|].
      assert (q ∈ seqZ 0 (planes i)) as Hqs by (rewrite Hpre; apply elem_of_app; by left).
      assert (q <> p) as Hne.
      { intros ->. pose proof (NoDup_seqZ 0 (planes i)) as Hnd. rewrite Hpre in Hnd.
        apply NoDup_app in Hnd as (_ & Hnd & _). apply (Hnd p Hq). by left. }
      unfold ptr_of. rewrite list_lookup_insert_ne by lia. rewrite Hdd. by apply Hdat.
    + subst q. unfold ptr_of. by rewrite list_lookup_insert_eq by lia.
  - exists (pData i). split; [apply (pl_ptrs i m Hi)|]. split; [|done]. intros p Hp. by apply elem_of_nil in Hp.
Qed.
End Select.

(** ** Properties *)

(** Selecting a patch on the sampling grid, strictly inside of the
    buffer, leaves a placed image with that patch, so every transfer on it
    stays in its planes; any other rectangle changes nothing.  The answer is
    false in both cases. *)
Theorem set_patch_places i m x y w h :
  placed i m -> length (pBuffer i) = 4%nat -> 0 <= x -> 0 <= y -> 0 < w -> 0 < h ->
  x + w < 2 ^ 32 -> y + h < 2 ^ 32 ->
  (forall p, 0 <= p < planes i ->
    (DVP_Image_WidthDiv i p | x) /\ (DVP_Image_WidthDiv i p | w) /\
    (DVP_Image_HeightDiv i p | y) /\ (DVP_Image_HeightDiv i p | h)) ->
  (x + w < bufWidth i /\ y + h < bufHeight i -> exists i',
     DVP_Image_SetPatch i x y w h = Done (DVP_FALSE, i') /\ placed i' m /\
     x_start i' = x /\ y_start i' = y /\ width i' = w /\ height i' = h) /\
  (bufWidth i <= x + w \/ bufHeight i <= y + h -> DVP_Image_SetPatch i x y w h = Done (DVP_FALSE, i)).
Proof.
  intros Hi Hb Hx Hy Hw Hh Hxw Hyh Hgrid. unfold DVP_Image_SetPatch.
  rewrite (u32_small (x + w)), (u32_small (y + h)) by (unfold is_u32; lia). split.
  - intros [H1 H2]. rewrite !(proj2 (Z.ltb_lt _ _)) by done. cbn [andb].
    destruct (select_loop i m Hi Hb x y w h) as (i' & -> & dat & Hlen & Hdat & Hi').
    pose proof (placed_planes i m Hi) as Hpl. cbn [mbind outcome_bind]. exists i'. split; [done|].
    assert (i' = with_patch i x y w h dat) as ->.
    { rewrite Hi'. rewrite seqZ_cons by lia. done. }
    clear Hi'. split; [|done]. destruct Hi. split; try done.
    + by destruct pl_laid.
    + change (0 <= x /\ 0 < w /\ x + w <= bufWidth i /\ 0 <= y /\ 0 < h /\ y + h <= bufHeight i). lia.
    + intros p Hp. change (planes _) with (planes i) in Hp. split; [by apply pl_corner|].
      apply Hdat; [apply elem_of_seqZ; lia|lia].
  - intros Hout. replace (_ && _) with false; [done|]. symmetry. apply andb_false_iff.
    rewrite !Z.ltb_ge. done.
Qed.

Lemma set_patch_places_witness : exists i', DVP_Image_SetPatch one 0 0 2 2 = Done (DVP_FALSE, i') /\
  placed i' pages /\ width i' = 2.
Proof.
  destruct (set_patch_places one pages 0 0 2 2) as [Hin _]; [apply nv12_placed; lia|done|lia..| |].
  - intros p Hp. change (planes one) with 2 in Hp. assert (p = 0 \/ p = 1) as [->| ->] by lia.
    + split_and!; [by exists 0|by exists 2|by exists 0|by exists 2].
    + split_and!; [by exists 0|by exists 1|by exists 0|by exists 1].
  - destruct Hin as (i' & Hs & Hp & _ & _ & Hw & _); [split; by vm_compute|].
    exists i'. split; [exact Hs|split; [exact Hp|exact Hw]].
Defined.
