(* ===== verification/Swizzle.v ===== *)
(** * Conversions between interleaved formats

    [copy_swizzle] moves each component of a macro pixel to the byte where
    the target's format keeps it. *)
From S2P Require Import Prelude DvpTypes Memory Image ImageLayout ImageTransfer Moves ImagePatch TransferFacts.
From S2P Require Import TransferFacts TransferProperties.

(** ** Where a format keeps the components of two pixels *)

Inductive component : Set := Y0 | Y1 | U | V.

Definition channel (fmt : Z) (c : component) : option Z :=
  if fmt =? FOURCC_UYVY then Some (match c with U => 0 | Y0 => 1 | V => 2 | Y1 => 3 end)
  else if fmt =? FOURCC_VYUY then Some (match c with V => 0 | Y0 => 1 | U => 2 | Y1 => 3 end)
  else if fmt =? FOURCC_YUY2 then Some (match c with Y0 => 0 | U => 1 | Y1 => 2 | V => 3 end)
  else if fmt =? FOURCC_YVYU then Some (match c with Y0 => 0 | V => 1 | Y1 => 2 | U => 3 end)
  else match c with Y0 => Some 0 | Y1 => Some 1 | _ => None end.

(** Grey has no colour difference: it reads as 128. *)
Definition component_of (fmt : Z) (c : component) : sample :=
  match channel fmt c with Some k => Src k | None => Const 128 end.
Definition macro_bytes (fmt : Z) : Z := if fmt =? FOURCC_Y800 then 2 else 4.

Definition source_fits (n : Z) (x : sample) : Prop := match x with Const _ => True | Src k => 0 <= k < n end.

Lemma swizzle_formats dst src l : swizzle dst src = Some l ->
  In dst [FOURCC_UYVY; FOURCC_VYUY; FOURCC_YUY2; FOURCC_YVYU] /\ In src [FOURCC_Y800; FOURCC_YUY2; FOURCC_YVYU].
Proof.
  unfold swizzle. destruct (Z.eqb_spec src FOURCC_Y800) as [->|Hne]; cbn [andb].
  - case_one_of; [apply one_of_In in Heqb; simpl in *; tauto|].
    case_one_of; [apply one_of_In in Heqb0; simpl in *; tauto|]. done.
  - case_one_of; [|done]. case_one_of; [|done]. apply one_of_In in Heqb, Heqb0. simpl in *. tauto.
Qed.

(** The tables of the code agree with the formats. *)
Lemma swizzle_components dst src l : swizzle dst src = Some l ->
  length l = 4%nat /\ Forall (source_fits (macro_bytes src)) l /\
  (dst <> FOURCC_BIN1 /\ src <> FOURCC_BIN1 /\ dst <> src) /\
  (forall c, exists k, channel dst c = Some k /\ 0 <= k < 4 /\ l !! Z.to_nat k = Some (component_of src c)).
Proof.
  intros H. pose proof (swizzle_formats _ _ _ H) as [Hd Hs].
  simpl in Hd, Hs. destruct Hd as [<-|[<-|[<-|[<-|[]]]]], Hs as [<-|[<-|[<-|[]]]];
    vm_compute in H; try discriminate H; injection H as <-;
    (split; [done|split; [repeat constructor; cbn; lia|split; [done|]]]);
    intros []; vm_compute; eexists; split_and!; (reflexivity || intros [=] || done).
Qed.

(** ** One macro pixel *)

Definition sample_value (s : Z) (m : memory) (x : sample) : option Z :=
  match x with Const v => Some v | Src k => m !! (s + k) end.

Lemma put_samples_spec s n l : forall d m,
  Forall (source_fits n) l -> mapped s n m -> mapped d (Z.of_nat (length l)) m ->
  apart d (Z.of_nat (length l)) s n ->
  exists vs, Forall2 (fun x v => sample_value s m x = Some v) l vs /\
    put_samples d s l m = Done (put_bytes d vs m).
Proof.
  induction l as [|x l IH]; intros d m Hfit Hs Hd Hap; [by exists []|].
  apply Forall_cons in Hfit as [Hx Hl]. cbn [length] in *.
  assert (exists v, sample_value s m x = Some v) as [v Hv].
  { destruct x as [v|k]; [by eexists|]. apply (Hs (s + k)). cbn in Hx. lia. }
  set (m1 := put_bytes d [v] m).
  destruct (IH (d + 1) m1) as (vs & Hvs & Hput); [done|by apply put_bytes_mapped| | |].
  - apply put_bytes_mapped. eapply mapped_shrink; [| |exact Hd]; lia.
  - eapply apart_shrink; [| |exact Hap]; lia.
  - exists (v :: vs). split.
    + constructor; [done|]. eapply Forall2_impl; [|intros ? ? H; exact H].
      apply Forall2_same_length_lookup. apply Forall2_same_length_lookup in Hvs as [Hlen Hvs].
      split; [done|]. intros i y w Hy Hw. specialize (Hvs i y w Hy Hw).
      rewrite Forall_lookup in Hl. specialize (Hl i y Hy). destruct y as [c|k]; [done|]. cbn in *.
      rewrite <- Hvs. symmetry. apply lookup_insert_ne. intros ?. apply (Hap (s + k)). lia.
    + cbn [put_samples]. unfold sample_value in Hv. rewrite Hv. cbn [of_option mbind outcome_bind].
      rewrite store_bytes_Some by (eapply mapped_shrink; [| |exact Hd]; cbn; lia).
      cbn [of_option mbind outcome_bind]. fold m1. rewrite Hput. unfold m1.
      f_equal. exact (put_bytes_app [v] vs d m).
Qed.

(** ** All of them *)

(** Target and source address of each macro pixel, in any order. *)
Lemma swizzle_loop l n (ps : list (Z * Z)) : forall m,
  length l = 4%nat -> Forall (source_fits n) l ->
  Forall (fun p => mapped p.1 4 m /\ mapped p.2 n m) ps ->
  pairwise (fun p q => apart p.1 4 q.1 4) ps ->
  Forall (fun p => Forall (fun q => apart p.1 4 q.2 n) ps) ps ->
  exists m', ofold (fun m p => put_samples p.1 p.2 l m) ps m = Done m' /\
    Forall (fun p => forall k : nat, (k < 4)%nat -> m' !! (p.1 + Z.of_nat k) = l !! k ≫= sample_value p.2 m) ps /\
    (forall x, Forall (fun p => ~ p.1 <= x < p.1 + 4) ps -> m' !! x = m !! x).
Proof.
  induction ps as [|[d s] ps IH]; intros m Hlen Hfit Hm Hap Hx.
  { exists m. split_and!; [done|constructor|done]. }
  apply Forall_cons in Hm as [[Hd Hs] Hm]. destruct Hap as [Ha Hap].
  apply Forall_cons in Hx as [Hc Hx]. apply Forall_cons in Hc as [Hself Hc]. cbn [fst snd] in *.
  destruct (put_samples_spec s n l d m) as (vs & Hvs & Hput); [done|done|by rewrite Hlen|by rewrite Hlen|].
  pose proof (Forall2_length _ _ _ Hvs) as Hlv.
  assert (forall x, ~ d <= x < d + 4 -> put_bytes d vs m !! x = m !! x) as Hfr.
  { intros x Hxx. apply put_bytes_frame. rewrite <- Hlv, Hlen. done. }
  destruct (IH (put_bytes d vs m)) as (m' & Hm' & Hv & Hf); [done|done| |done| |].
  - eapply Forall_impl; [exact Hm|]. intros p [? ?]. split; by apply put_bytes_mapped.
  - eapply Forall_impl; [exact Hx|]. intros p Hp. by apply Forall_cons in Hp as [_ ?].
  - exists m'. cbn [ofold fst snd]. rewrite Hput. cbn [mbind outcome_bind]. split; [done|]. split.
    + constructor.
      * intros k Hk. cbn [fst snd]. rewrite Hf.
        -- rewrite put_bytes_lookup, decide_True by lia.
           replace (Z.to_nat (d + Z.of_nat k - d)) with k by lia.
           apply Forall2_same_length_lookup in Hvs as [_ Hvs].
           destruct (lookup_lt_is_Some_2 l k) as [x Hlx]; [lia|].
           destruct (lookup_lt_is_Some_2 vs k) as [v Hlv']; [lia|]. rewrite Hlx, Hlv'. simpl.
           symmetry. by apply (Hvs k).
        -- eapply Forall_impl; [exact Ha|]. intros p Hp ?. apply (Hp (d + Z.of_nat k)). lia.
      * rewrite Forall_forall in Hv, Hc. apply Forall_forall. intros p Hp k Hk. rewrite (Hv p Hp k Hk).
        destruct (l !! k) as [[c|j]|] eqn:Hlk; [done| |done]. cbn. apply Hfr.
        pose proof (Forall_lookup_1 _ _ _ _ Hfit Hlk) as Hj. cbn in Hj.
        intros ?. apply (Hc p Hp (p.2 + j)). lia.
    + intros x Hxx. apply Forall_cons in Hxx as [? ?]. rewrite Hf by done. by apply Hfr.
Qed.

(** ** The pixels of an image with one plane *)

Definition pixel_at (i : DVP_Image_t) (x y : Z) : Z := ptr_of (pData i) 0 + DVP_Image_PatchOffset i x y 0.

(** The top left corners of the macro pixels, as (row, column). *)
Definition macro_pixels (i : DVP_Image_t) : list (Z * Z) :=
  flat_map (fun y => pair y <$> macro_columns (width i)) (seqZ 0 (height i)).

Lemma macro_columns_even w x : 0 <= w -> Z.Even w -> x ∈ macro_columns w -> 0 <= x /\ x + 2 <= w /\ Z.Even x.
Proof.
  intros Hw [k ->] Hx. apply list_elem_of_fmap in Hx as (j & -> & Hj%elem_of_seqZ).
  assert ((2 * k + 1) / 2 = k) as Hk by (rewrite Z.add_comm, Z.mul_comm, Z.div_add by lia; done).
  rewrite Hk in Hj. split; [lia|]. split; [lia|by exists j].
Qed.
Lemma elem_of_macro_pixels i q : 0 <= width i -> Z.Even (width i) ->
  q ∈ macro_pixels i <-> 0 <= q.1 < height i /\ 0 <= q.2 /\ q.2 + 2 <= width i /\ Z.Even q.2.
Proof.
  intros Hw He. unfold macro_pixels. rewrite list_elem_of_In, in_flat_map. split.
  - intros (y & Hy%list_elem_of_In%elem_of_seqZ & Hq%list_elem_of_In).
    apply list_elem_of_fmap in Hq as (x & -> & Hx). cbn. split; [lia|]. by apply macro_columns_even.
  - destruct q as [y x]. cbn. intros (Hy & Hx & Hxw & [j ->]). exists y.
    rewrite <- !list_elem_of_In. split; [apply elem_of_seqZ; lia|].
    apply list_elem_of_fmap. exists (2 * j). split; [done|]. apply list_elem_of_fmap. exists j.
    split; [done|]. apply elem_of_seqZ. split; [lia|]. rewrite Z.add_0_l.
    apply Z.lt_le_trans with (j + 1); [lia|]. apply Z.div_le_lower_bound; lia.
Qed.

Lemma macro_pixels_ordered i : pairwise before (macro_pixels i).
Proof.
  unfold macro_pixels. pose proof (pairwise_seqZ 0 (height i)) as Hp. revert Hp. generalize (seqZ 0 (height i)).
  induction l as [|y ys IH]; [done|]. intros [Hlt Hps]. cbn [flat_map]. apply pairwise_app. split_and!.
  - apply pairwise_fmap. unfold macro_columns. apply pairwise_fmap.
    eapply pairwise_impl; [|apply pairwise_seqZ]. intros a b _ _ ?. right. cbn. lia.
  - by apply IH.
  - apply Forall_fmap, Forall_forall. intros x _. apply Forall_forall. intros q Hq. left. cbn.
    apply list_elem_of_In, in_flat_map in Hq as (z & Hz%list_elem_of_In & Hq%list_elem_of_In).
    rewrite Forall_forall in Hlt. apply Hlt in Hz. by apply list_elem_of_fmap in Hq as (? & -> & _).
Qed.

Section Pixels.
Context (i : DVP_Image_t) (m : memory) (Hi : placed i m) (Hp : planes i = 1) (Hb : color i <> FOURCC_BIN1).

Lemma one_plane_divs :
  DVP_Image_HeightDiv i 0 = 1 /\ DVP_Image_WidthDiv i 0 = 1 /\ DVP_Image_WidthStep i 0 = 1.
Proof.
  unfold DVP_Image_HeightDiv, DVP_Image_WidthDiv, DVP_Image_WidthStep. rewrite Hp. cbn.
  by rewrite (proj2 (Z.eqb_neq _ _)) by done.
Qed.

Lemma pixel_addressing x y : DVP_Image_PatchAddressing i x y 0 = Done (pixel_at i x y).
Proof.
  unfold DVP_Image_PatchAddressing, pixel_at. rewrite Hp. cbn [Z.ltb Z.compare].
  rewrite ptr_of_aget; [done|]. rewrite (pl_ptrs i m Hi). lia.
Qed.

Lemma pixel_at_exact x y : 0 <= x < width i -> 0 <= y < height i ->
  pixel_at i x y = ptr_of (pBuffer i) 0 + (y_start i + y) * DVP_Image_LineRange i 0 + (x_start i + x) * x_stride i.
Proof.
  intros Hx Hy. pose proof (pl_laid i m Hi) as Hlo. destruct one_plane_divs as (Hhd & Hwd & Hws).
  destruct (pl_rect i m Hi) as (? & ? & ? & ? & ? & ?).
  destruct (pl_corner i m Hi 0 ltac:(lia)) as [_ Hc]. unfold pixel_at. rewrite Hc.
  destruct (Offset_exact i Hlo 0 (x_start i) (y_start i)) as (-> & _ & _); [lia..|].
  destruct (Offset_exact i Hlo 0 x y) as (Ho & Hr & Hcol); [lia..|].
  pose proof (LineRange_bounds i Hlo 0 ltac:(lia)) as [Hl1 Hl2].
  unfold sample_bytes, rows, columns in *. rewrite Hhd, Hwd, Hws in *. rewrite !Z.div_1_r, !Z.mul_1_r in *.
  unfold DVP_Image_PatchOffset. unfold DVP_Image_Offset in Ho. rewrite Hhd, Hwd, Hws in *.
  rewrite !(proj2 (Z.ltb_lt _ _)) in Ho by lia. rewrite !(proj2 (Z.ltb_lt _ _)) by lia. cbn [andb] in *.
  rewrite !Z.div_1_r, !Z.mul_1_r in *. rewrite Ho. destruct Hlo as [_ _ Hxs _ Hl Hsm _].
  assert (0 <= x_stride i * bufWidth i) by (apply Z.mul_nonneg_nonneg; lia).
  assert (0 <= y * DVP_Image_LineRange i 0 <= y * Z.abs (y_stride i))
    by (split; [apply Z.mul_nonneg_nonneg|apply Z.mul_le_mono_nonneg_l]; lia).
  assert ((y + 1) * Z.abs (y_stride i) <= bufHeight i * Z.abs (y_stride i)) by (apply Z.mul_le_mono_nonneg_r; lia).
  assert (x * x_stride i <= bufWidth i * x_stride i) by (apply Z.mul_le_mono_nonneg_r; lia).
  assert (0 <= x * x_stride i) by (apply Z.mul_nonneg_nonneg; lia).
  rewrite s32_small by (unfold is_s32; lia). rewrite u32_small by (unfold is_u32; lia). lia.
Qed.

(** Two neighbouring pixels lie in the plane's block. *)
Lemma macro_in_plane x y : 0 <= x -> x + 2 <= width i -> 0 <= y < height i ->
  ptr_of (pBuffer i) 0 <= pixel_at i x y /\
  pixel_at i x y + 2 * x_stride i <= ptr_of (pBuffer i) 0 + DVP_Image_PlaneRange i 0.
Proof.
  intros Hx Hxw Hy. rewrite pixel_at_exact by lia. pose proof (pl_laid i m Hi) as Hlo.
  rewrite (PlaneRange_exact i Hlo) by lia. destruct one_plane_divs as (Hhd & Hwd & Hws).
  pose proof (LineRange_bounds i Hlo 0 ltac:(lia)) as [Hl1 Hl2].
  destruct (pl_rect i m Hi) as (? & ? & ? & ? & ? & ?). pose proof (lo_stride i Hlo).
  unfold sample_bytes, rows, columns in *. rewrite Hhd, Hwd, Hws in *. rewrite !Z.div_1_r, !Z.mul_1_r in *.
  assert ((x_start i + x + 2) * x_stride i <= bufWidth i * x_stride i) by (apply Z.mul_le_mono_nonneg_r; lia).
  assert ((y_start i + y + 1) * DVP_Image_LineRange i 0 <= bufHeight i * DVP_Image_LineRange i 0)
    by (apply Z.mul_le_mono_nonneg_r; nia). nia.
Qed.

Definition in_macro (q : Z * Z) : Prop := 0 <= q.1 < height i /\ 0 <= q.2 /\ q.2 + 2 <= width i /\ Z.Even q.2.

(** Different macro pixels do not overlap. *)
Lemma macro_apart q r : in_macro q -> in_macro r -> before q r ->
  apart (pixel_at i q.2 q.1) (2 * x_stride i) (pixel_at i r.2 r.1) (2 * x_stride i).
Proof.
  intros (Hqy & Hqx & Hqw & [a Ha]) (Hry & Hrx & Hrw & [b Hb']) Hbe.
  destruct (pl_rect i m Hi) as (? & ? & ? & ? & ? & ?).
  rewrite !pixel_at_exact by lia. pose proof (pl_laid i m Hi) as Hlo.
  pose proof (LineRange_bounds i Hlo 0 ltac:(lia)) as [Hl1 Hl2]. destruct one_plane_divs as (Hhd & Hwd & Hws).
  unfold sample_bytes, columns in *. rewrite Hwd, Hws, Z.div_1_r, Z.mul_1_r in *. pose proof (lo_stride i Hlo).
  set (lr := DVP_Image_LineRange i 0) in *. set (s := x_stride i) in *. intros z.
  destruct Hbe as [Hlt|[Heq Hlt]].
  - assert (lr * (q.1 + 1) <= lr * r.1) by (apply Z.mul_le_mono_nonneg_l; nia).
    assert ((q.2 + 2) * s <= bufWidth i * s) by (apply Z.mul_le_mono_nonneg_r; lia). nia.
  - assert ((q.2 + 2) * s <= r.2 * s) by (apply Z.mul_le_mono_nonneg_r; lia). rewrite Heq. lia.
Qed.
End Pixels.

(** ** Properties *)

Definition pixel_pairs (dst src : DVP_Image_t) : list (Z * Z) :=
  (fun q => (pixel_at dst q.2 q.1, pixel_at src q.2 q.1)) <$> macro_pixels src.

Lemma copy_swizzle_pairs dst src l m0 m : placed dst m0 -> placed src m0 -> planes dst = 1 -> planes src = 1 ->
  copy_swizzle dst src l m = ofold (fun m p => put_samples p.1 p.2 l m) (pixel_pairs dst src) m.
Proof.
  intros Hd Hs Hpd Hps. unfold copy_swizzle, pixel_pairs, macro_pixels. revert m.
  induction (seqZ 0 (height src)) as [|y ys IH]; intros m; [done|]. cbn [ofold flat_map].
  rewrite fmap_app, ofold_app. replace (ofold _ (_ <$> (pair y <$> _)) m) with
    (ofold (fun m x => s ← DVP_Image_PatchAddressing src x y 0; d ← DVP_Image_PatchAddressing dst x y 0;
                       put_samples d s l m) (macro_columns (width src)) m).
  - destruct (ofold _ (macro_columns (width src)) m) as [m1| |]; [|done..]. apply IH.
  - clear IH. revert m. induction (macro_columns (width src)) as [|x xs IH]; intros m; [done|].
    cbn [ofold fmap list_fmap fst snd]. rewrite (pixel_addressing src m0 Hs Hps), (pixel_addressing dst m0 Hd Hpd).
    cbn [mbind outcome_bind]. destruct (put_samples _ _ l m); [|done..]. apply IH.
Qed.


(** ** Witness: a 4x2 YUY2 image copied into a UYVY one *)

Definition packed_at (c a : Z) : DVP_Image_t :=
  mkImage [a; 0; 0; 0] [a; 0; 0; 0] 1 4 2 4 2 0 0 2 8 c 16 0.

Lemma packed_placed c a : In c [FOURCC_UYVY; FOURCC_YUY2] -> 4096 <= a -> a + 16 <= 20480 -> placed (packed_at c a) pages.
Proof.
  intros Hc Ha Hb. assert (forall p, 0 <= p < 1 -> DVP_Image_WidthDiv (packed_at c a) p = 1 /\
    DVP_Image_HeightDiv (packed_at c a) p = 1 /\ DVP_Image_PlaneRange (packed_at c a) p = 16 /\
    ptr_of (pBuffer (packed_at c a)) p = a) as Hp.
  { intros p Hp. assert (p = 0) as -> by lia. by destruct Hc as [<-|[<-|[]]]. }
  split.
  - split; cbn; try lia; try (unfold DVP_MAX_PLANES; lia).
    intros p Hpp. destruct (Hp p Hpp) as (-> & -> & _). split; apply Z.divide_1_l.
  - done.
  - cbn. lia.
  - intros p Hpp. destruct (Hp p Hpp) as (-> & -> & _). split_and!; apply Z.divide_1_l.
  - intros p Hpp. destruct (Hp p Hpp) as (_ & _ & _ & ->). split; [lia|].
    assert (p = 0) as -> by (cbn in Hpp; lia). destruct Hc as [<-|[<-|[]]]; change (a = a + 0); lia.
  - intros p Hpp. destruct (Hp p Hpp) as (_ & _ & -> & ->). apply pages_mapped; lia.
  - intros p q Hpp Hqq Hne. cbn in Hpp, Hqq. lia.
Qed.

