(* ===== verification/AllocProperties.v ===== *)
(** * An allocated image is placed

    The dimensions asked of the allocator cover what the layout arithmetic
    addresses, for every format [DVP_Image_Init] knows. *)
From S2P Require Import Prelude DvpTypes Memory Image Allocator ImageLayout ImageAlloc ImageTransfer ImagePatch.

Open Scope dvp_scope.

(** ** Freshly initialised images *)

Lemma init_planes w h c : In (planes (DVP_Image_Init w h c)) [1; 2; 3].
Proof. unfold DVP_Image_Init. cbn. repeat case_one_of; tauto. Qed.
Lemma init_stride w h c : In (x_stride (DVP_Image_Init w h c)) [1; 2; 3; 4; 8].
Proof.
  unfold DVP_Image_Init. cbn. repeat case_one_of; repeat destruct (_ =? _); tauto.
Qed.

(** Bytes of a plane's samples, and of an entry of the dimensions. *)
Definition plane_area (i : DVP_Image_t) (p : Z) : Z := sample_bytes i p * (columns i p * rows i p).
Definition dim_bytes (d : DVP_Dim_t) : Z := dim0 d * dim1 d * dim2 d.

Definition covers (i : DVP_Image_t) (ds : list DVP_Dim_t) : Prop :=
  length ds = 4%nat /\ ds !! 0%nat = Some (mkDim (x_stride i) (bufWidth i) (bufHeight i)) /\
  forall p : nat, Z.of_nat p < planes i -> exists d, ds !! p = Some d /\
    1 <= dim0 d <= 8 /\ 0 <= dim1 d <= bufWidth i /\ 0 <= dim2 d <= bufHeight i /\
    plane_area i (Z.of_nat p) <= dim_bytes d.

(** Compute the divisors of a concrete format. *)
Ltac plane_facts :=
  match goal with
  | |- plane_area ?i ?p <= _ =>
      let x := eval vm_compute in (x_stride i) in
      let s := eval vm_compute in (DVP_Image_WidthStep i p) in
      let w := eval vm_compute in (DVP_Image_WidthDiv i p) in
      let h := eval vm_compute in (DVP_Image_HeightDiv i p) in
      change (plane_area i p) with (x * s * (bufWidth i / w * (bufHeight i / h)))
  end.

(** Formats whose planes have dimensions of their own. *)
Lemma dims_cover_subsampled w h c : 0 < w < 2 ^ 30 -> 0 < h < 2 ^ 30 ->
  In c [FOURCC_NV12; FOURCC_NV21; FOURCC_YUV9; FOURCC_YVU9; FOURCC_YV12; FOURCC_IYUV; FOURCC_YU16; FOURCC_YV16] ->
  let i := DVP_Image_Init w h c in exists ds, DVP_Image_Dims i = Done ds /\ covers i ds.
Proof.
  intros Hw Hh Hc i. assert (s32 w = w /\ s32 h = h) as [Ew Eh] by (split; apply s32_small; unfold is_s32; lia).
  assert (0 <= w / 2 <= w /\ 0 <= h / 2 <= h /\ 0 <= w / 4 <= w /\ 0 <= h / 4 <= h) as (? & ? & ? & ?)
    by (split_and!; (apply Z.div_pos || apply Z.div_le_upper_bound); lia).
  assert (0 <= w / 2 * h) by nia.
  unfold i, DVP_Image_Dims. change (bufWidth (DVP_Image_Init w h c)) with w.
  change (bufHeight (DVP_Image_Init w h c)) with h. change (color (DVP_Image_Init w h c)) with c.
  rewrite Ew, Eh, !Z.quot_div_nonneg by lia.
  simpl in Hc. destruct Hc as [<-|[<-|[<-|[<-|[<-|[<-|[<-|[<-|[]]]]]]]]];
    (eexists; split; [reflexivity|split; [done|split; [reflexivity|]]]);
    intros [|[|[|p]]] Hp; try (change (planes _) with 2 in Hp); try (change (planes _) with 3 in Hp); try lia;
    (eexists; split; [reflexivity|]); unfold dim_bytes; cbn [dim0 dim1 dim2];
    change (bufWidth (DVP_Image_Init w h _)) with w; change (bufHeight (DVP_Image_Init w h _)) with h;
    (split; [lia|split; [lia|split; [lia|]]]); plane_facts;
    change (bufWidth (DVP_Image_Init w h _)) with w; change (bufHeight (DVP_Image_Init w h _)) with h;
    rewrite ?Z.div_1_r; nia.
Qed.

(** The others: every plane has the size of the first. *)
Lemma dims_cover_uniform w h c : 0 < w < 2 ^ 30 -> 0 < h < 2 ^ 30 ->
  ~ In c [FOURCC_NV12; FOURCC_NV21; FOURCC_YUV9; FOURCC_YVU9; FOURCC_YV12; FOURCC_IYUV; FOURCC_YU16; FOURCC_YV16] ->
  let i := DVP_Image_Init w h c in exists ds, DVP_Image_Dims i = Done ds /\ covers i ds.
Proof.
  intros Hw Hh Hc i. assert (s32 w = w /\ s32 h = h) as [Ew Eh] by (split; apply s32_small; unfold is_s32; lia).
  pose proof (init_planes w h c) as Hpl. pose proof (init_stride w h c) as Hxs. fold i in Hpl, Hxs.
  assert (0 < planes i <= 3) as Hpl3 by (destruct Hpl as [?|[?|[?|[]]]]; lia).
  assert (1 <= x_stride i <= 8) as Hx8 by (destruct Hxs as [?|[?|[?|[?|[?|[]]]]]]; lia).
  assert (forall l, (forall x, In x l -> In x [FOURCC_NV12; FOURCC_NV21; FOURCC_YUV9; FOURCC_YVU9; FOURCC_YV12;
    FOURCC_IYUV; FOURCC_YU16; FOURCC_YV16]) -> one_of c l = false) as Hno.
  { intros l Hl. apply not_true_iff_false. rewrite one_of_In. intros ?. by apply Hc, Hl. }
  assert (forall p, plane_area i p <= x_stride i * w * h) as Harea.
  { intros p. unfold plane_area, sample_bytes, columns, rows.
    change (bufWidth i) with w. change (bufHeight i) with h.
    pose proof (WidthDiv_range i p) as Hwd. assert (0 <= w / DVP_Image_WidthDiv i p <= w)
      by (split; [apply Z.div_pos|apply Z.div_le_upper_bound]; nia).
    unfold DVP_Image_WidthStep, DVP_Image_HeightDiv. change (color i) with c.
    rewrite !Hno by (simpl; tauto). destruct (_ && _); rewrite Z.div_1_r, Z.mul_1_r; nia. }
  unfold DVP_Image_Dims. change (bufWidth i) with w. change (bufHeight i) with h. change (color i) with c.
  rewrite Ew, Eh. rewrite !Hno by (simpl; tauto).
  rewrite (proj2 (Z.ltb_ge DVP_MAX_PLANES (planes i))) by (unfold DVP_MAX_PLANES; lia).
  eexists. split; [reflexivity|]. split; [done|split].
  - rewrite list_lookup_fmap. change (seqZ 0 DVP_MAX_PLANES !! 0%nat) with (Some 0).
    cbn [fmap option_fmap option_map]. by rewrite (proj2 (Z.ltb_lt 0 (planes i))) by lia.
  - intros p Hp. exists (mkDim (x_stride i) w h). split.
    + rewrite list_lookup_fmap, lookup_seqZ_lt by (unfold DVP_MAX_PLANES; lia).
      cbn [fmap option_fmap option_map]. rewrite Z.add_0_l.
      by rewrite (proj2 (Z.ltb_lt (Z.of_nat p) (planes i))) by lia.
    + cbn [dim0 dim1 dim2]. change (bufWidth i) with w. change (bufHeight i) with h.
      split_and!; [lia..|apply Harea].
Qed.

Lemma dims_cover w h c : 0 < w < 2 ^ 30 -> 0 < h < 2 ^ 30 ->
  let i := DVP_Image_Init w h c in exists ds, DVP_Image_Dims i = Done ds /\ covers i ds.
Proof.
  intros Hw Hh.
  destruct (in_dec Z.eq_dec c [FOURCC_NV12; FOURCC_NV21; FOURCC_YUV9; FOURCC_YVU9; FOURCC_YV12; FOURCC_IYUV;
    FOURCC_YU16; FOURCC_YV16]); [by apply dims_cover_subsampled|by apply dims_cover_uniform].
Qed.

(** ** What the allocator is asked and what it gives *)

Lemma stride_loop_exact d : 0 <= dim0 d -> 0 <= dim1 d -> 0 <= dim2 d ->
  dim0 d < 2 ^ 30 -> dim0 d * dim1 d < 2 ^ 30 -> dim_bytes d < 2 ^ 30 ->
  stride_loop (dims_of 3 d) 0 1 no_dim = (dim_bytes d, mkDim (dim0 d) (dim0 d * dim1 d) (dim_bytes d)).
Proof.
  intros H0 H1 H2 Hb0 Hb1 Hb. unfold dim_bytes in *. destruct d as [a b c]. cbn in *.
  assert (0 <= a * b) by nia. assert (0 <= a * b * c) by nia.
  rewrite Z.mul_1_l, (u32_small a) by (unfold is_u32; lia).
  rewrite (u32_small (a * b)) by (unfold is_u32; lia). rewrite (u32_small (a * b * c)) by (unfold is_u32; lia).
  rewrite !s32_small by (unfold is_s32; lia). done.
Qed.

Lemma block_size_exact d : 0 <= dim0 d -> 0 <= dim1 d -> 0 <= dim2 d ->
  dim0 d < 2 ^ 30 -> dim0 d * dim1 d < 2 ^ 30 -> dim_bytes d < 2 ^ 30 -> block_size 3 d = dim_bytes d.
Proof. intros. unfold block_size. by rewrite stride_loop_exact. Qed.

Lemma granted_apart nd ds : forall addrs h p q d e a b, granted nd ds addrs h ->
  ds !! p = Some d -> addrs !! p = Some a -> ds !! q = Some e -> addrs !! q = Some b -> (p < q)%nat ->
  apart a (reserve_size nd d) b (reserve_size nd e).
Proof.
  induction ds as [|x ds IH]; intros [|y addrs] h p q d e a b Hg Hd Ha He Hb Hpq; try done.
  destruct Hg as (_ & _ & Hf & Hg). destruct q as [|q]; [lia|].
  change (ds !! q = Some e) in He. change (addrs !! q = Some b) in Hb. destruct p as [|p].
  - injection Hd as ->. injection Ha as ->. rewrite Forall_lookup in Hf. apply (Hf q (e, b)). by rewrite lookup_zip_with, He, Hb.
  - eapply IH; eauto. lia.
Qed.

Lemma granted_lookup nd ds : forall addrs h p a, granted nd ds addrs h -> addrs !! p = Some a ->
  0 < a /\ exists d, ds !! p = Some d /\ block_size nd d <= reserve_size nd d.
Proof.
  induction ds as [|x ds IH]; intros [|y addrs] h [|p] a Hg Ha; try done.
  - destruct Hg as (Hs & (? & _) & _). simpl in Ha. simplify_eq. split; [done|]. exists x.
    split; [done|]. by apply reserve_size_enough.
  - destruct Hg as (_ & _ & _ & Hg). by apply (IH addrs h p a).
Qed.

Lemma assign_data_spec i : length (pData i) = 4%nat -> length (pBuffer i) = 4%nat -> In (planes i) [1; 2; 3] ->
  drop (Z.to_nat (planes i)) (pData i) = drop (Z.to_nat (planes i)) (pBuffer i) ->
  assign_data i = Done (set_pData (pBuffer i) i).
Proof.
  destruct i as [dat buf pl]. cbn [pData pBuffer planes]. intros Hd Hb Hpl.
  destruct dat as [|d0 [|d1 [|d2 [|d3 [|]]]]]; try done. destruct buf as [|b0 [|b1 [|b2 [|b3 [|]]]]]; try done.
  destruct Hpl as [<-|[<-|[<-|[]]]]; vm_compute drop; intros [=]; subst; reflexivity.
Qed.

(** ** The image an allocation leaves *)

Definition allocated (i : DVP_Image_t) (ptrs : list Z) : DVP_Image_t :=
  let im := set_strides (x_stride i) (x_stride i * bufWidth i)
              (set_memType DVP_MTYPE_MPUCACHED_VIRTUAL (set_pData ptrs (set_pBuffer ptrs i))) in
  set_numBytes (DVP_Image_Range im) im.

Definition image_ptrs (i : DVP_Image_t) (addrs : list Z) : list Z :=
  addrs ++ drop (Z.to_nat (planes i)) no_pointers.

Section Fresh.
Context (w h c : Z) (Hw : 0 < w) (Hh : 0 < h) (Hsmall : 8 * w * h < 2 ^ 30).
Let i : DVP_Image_t := DVP_Image_Init w h c.
Let n : nat := Z.to_nat (planes i).
Context (ds : list DVP_Dim_t) (Hdims : DVP_Image_Dims i = Done ds).
Context (addrs : list Z) (hp : heap) (Hgr : granted 3 (take n ds) addrs hp).

Lemma fresh_bounds : w < 2 ^ 30 /\ h < 2 ^ 30 /\ 8 * w < 2 ^ 30.
Proof. nia. Qed.

Lemma fresh_covers : covers i ds.
Proof.
  destruct fresh_bounds as (? & ? & ?). destruct (dims_cover w h c) as (ds' & Hd & Hc); [lia|lia|].
  fold i in Hd, Hc. rewrite Hdims in Hd. by injection Hd as ->.
Qed.

Lemma fresh_planes : (0 < n <= 3)%nat /\ planes i = Z.of_nat n.
Proof. unfold n. pose proof (init_planes w h c) as [H|[H|[H|[]]]]; fold i in H; rewrite <- H; split; lia. Qed.

Lemma fresh_addrs : length addrs = n.
Proof.
  destruct (granted_positive _ _ _ _ Hgr) as [-> _]. rewrite length_take.
  destruct fresh_covers as (-> & _). destruct fresh_planes. lia.
Qed.

(** Each plane's entry and the block given for it. *)
Lemma fresh_plane (p : nat) : (p < n)%nat -> exists d a, take n ds !! p = Some d /\ addrs !! p = Some a /\ 0 < a /\
  block_size 3 d = dim_bytes d /\ plane_area i (Z.of_nat p) <= dim_bytes d <= reserve_size 3 d.
Proof.
  intros Hp. destruct fresh_covers as (Hlen & _ & Hc). destruct fresh_planes as [Hn Hpl].
  destruct fresh_bounds as (? & ? & ?). destruct (Hc p) as (d & Hd & Hd0 & Hd1 & Hd2 & Ha); [lia|].
  change (bufWidth i) with w in Hd1. change (bufHeight i) with h in Hd2.
  destruct (lookup_lt_is_Some_2 addrs p) as [a Hap]; [rewrite fresh_addrs; lia|].
  destruct (granted_lookup _ _ _ _ _ _ Hgr Hap) as (Hpos & d' & Hd' & Hres).
  rewrite lookup_take_lt in Hd' by lia. rewrite Hd in Hd'. injection Hd' as <-.
  assert (block_size 3 d = dim_bytes d) as Hbs.
  { assert (dim0 d * dim1 d <= 8 * w) by nia. assert (dim_bytes d <= 8 * w * h) by (unfold dim_bytes; nia).
    apply block_size_exact; lia. }
  exists d, a. rewrite lookup_take_lt by lia. rewrite <- Hbs at 3. split_and!; [done|done|done|done|lia|lia].
Qed.

Definition fresh_image : DVP_Image_t := allocated i (image_ptrs i addrs).

Lemma image_ptrs_length : length (image_ptrs i addrs) = 4%nat.
Proof.
  destruct fresh_planes as [Hn _]. unfold image_ptrs. rewrite length_app, length_drop, fresh_addrs. fold n.
  change (length no_pointers) with 4%nat. lia.
Qed.

(** The run of [DVP_Image_Alloc]. *)
Lemma alloc_run :
  DVP_Image_Alloc i DVP_MTYPE_MPUCACHED_VIRTUAL (Some <$> addrs) hp =
    Done (DVP_TRUE, fresh_image, grants 3 (take n ds) addrs hp).
Proof.
  destruct fresh_planes as [Hn Hpl]. destruct fresh_covers as (Hlen & H0 & Hc). destruct fresh_bounds as (? & ? & ?).
  set (sl := zip (pBuffer i) (replicate (Z.to_nat DVP_MAX_PLANES) no_dim)).
  assert (length sl = 4%nat) as Hsl by done.
  destruct (calloc_virtual_spec 3 (take n ds) (take n sl) addrs hp) as (sl' & Hcv & Hptr & Hl' & Hslot);
    [rewrite !length_take; lia|done|].
  unfold DVP_Image_Alloc. change (DVP_MTYPE_MPUCACHED_VIRTUAL =? DVP_MTYPE_DISPLAY_2DTILED) with false. cbn [negb].
  rewrite Hdims. cbn [mbind outcome_bind]. fold sl.
  assert (nptrs_of i = n) as Hnp.
  { unfold nptrs_of, n. rewrite s32_small by (unfold is_s32; lia). done. }
  rewrite Hnp, (calloc_virtual_done _ n 3 ds sl sl' _ hp _ Hcv) by (done || lia).
  cbn [mbind outcome_bind]. change (DVP_TRUE =? DVP_TRUE) with true. cbv beta iota zeta.
  assert ((sl' ++ drop n sl).*1 = image_ptrs i addrs) as ->.
  { rewrite fmap_app, Hptr. unfold image_ptrs. fold n. f_equal. destruct Hn as [_ Hn3].
    clear -Hn3. unfold sl. destruct n as [|[|[|[|]]]]; (reflexivity || lia). }
  rewrite assign_data_spec; [|done|exact image_ptrs_length|apply init_planes|].
  2:{ cbn [pBuffer planes set_pBuffer pData]. fold n. unfold image_ptrs. fold n.
      rewrite drop_app_length' by (symmetry; apply fresh_addrs). done. }
  cbn [mbind outcome_bind]. destruct (Hslot 0%nat (mkDim (x_stride i) w h) (0, no_dim)) as (a & Hs0 & _).
  { rewrite lookup_take_lt by lia. exact H0. }
  { rewrite lookup_take_lt by lia. done. }
  match goal with |- (of_option ?o ≫= _) = _ => assert (o = sl' !! 0%nat) as -> end.
  { apply lookup_app_l. rewrite Hl', length_take. lia. }
  match goal with |- (of_option ?o ≫= _) = _ => change o with (sl' !! 0%nat) end.
  setoid_rewrite Hs0. cbn [of_option mbind outcome_bind snd]. rewrite stride_loop_exact; [done|..]; cbn [dim0 dim1 dim2]; unfold dim_bytes; cbn [dim0 dim1 dim2];
    pose proof (init_stride w h c) as [Hx|[Hx|[Hx|[Hx|[Hx|[]]]]]]; fold i in Hx; rewrite <- ?Hx; lia.
Qed.

Context (Hgrid : forall p, 0 <= p < planes i -> (DVP_Image_WidthDiv i p | w) /\ (DVP_Image_HeightDiv i p | h)).

Lemma fresh_stride : 1 <= x_stride i <= 8.
Proof. pose proof (init_stride w h c) as [Hx|[Hx|[Hx|[Hx|[Hx|[]]]]]]; fold i in Hx; lia. Qed.

Lemma fresh_laid_out : laid_out fresh_image.
Proof.
  destruct fresh_planes as [Hn Hpl]. pose proof fresh_stride as Hx. split.
  - change (planes fresh_image) with (planes i). unfold DVP_MAX_PLANES. lia.
  - done.
  - change (x_stride fresh_image) with (x_stride i). lia.
  - exact Hgrid.
  - change (y_stride fresh_image) with (x_stride i * w). change (x_stride fresh_image) with (x_stride i).
    change (bufWidth fresh_image) with w. lia.
  - change (y_stride fresh_image) with (x_stride i * w). change (bufHeight fresh_image) with h. nia.
  - change (color fresh_image) with c. change (planes fresh_image) with (planes i). intros ->. done.
Qed.

(** A plane's range is what was asked for it, or less. *)
Lemma fresh_range (p : nat) d : (p < n)%nat -> take n ds !! p = Some d ->
  plane_area i (Z.of_nat p) <= dim_bytes d -> DVP_Image_PlaneRange fresh_image (Z.of_nat p) <= dim_bytes d.
Proof.
  intros Hp Hd Ha. destruct fresh_planes as [Hn Hpl]. pose proof fresh_stride as Hx.
  destruct fresh_covers as (_ & H0 & _). destruct fresh_bounds as (? & ? & ?).
  pose proof fresh_laid_out as Hlo.
  rewrite (PlaneRange_exact fresh_image Hlo) by (change (planes fresh_image) with (planes i); lia).
  unfold DVP_Image_LineRange. change (planes fresh_image) with (planes i). rewrite (proj2 (Z.ltb_lt _ _)) by lia.
  change (y_stride fresh_image) with (x_stride i * w). rewrite Z.abs_eq by lia.
  rewrite (u32_small (x_stride i * w)) by (unfold is_u32; nia).
  destruct p as [|p].
  - rewrite lookup_take_lt in Hd by lia. rewrite H0 in Hd. injection Hd as <-. change (Z.of_nat 0) with 0.
    change (0 <? 0) with false. cbv iota.
    change (dim_bytes _) with (x_stride i * w * h). assert (rows fresh_image 0 = h) as ->; [|lia].
    unfold rows, DVP_Image_HeightDiv. change (0 <? 0) with false. rewrite andb_false_r. apply Z.div_1_r.
  - rewrite (proj2 (Z.ltb_lt 0 (Z.of_nat (S p)))) by lia.
    rewrite !(line_bytes_exact fresh_image Hlo) by (change (planes fresh_image) with (planes i); lia).
    assert (sample_bytes fresh_image 0 * columns fresh_image 0 = x_stride i * w) as ->.
    { unfold sample_bytes, columns. change (x_stride fresh_image) with (x_stride i).
      change (bufWidth fresh_image) with w. unfold DVP_Image_WidthStep, DVP_Image_WidthDiv.
      rewrite andb_false_r. change (planes fresh_image) with (planes i). rewrite (proj2 (Z.ltb_lt 0 (planes i))) by lia.
      cbn [Z.ltb Z.compare]. change (color fresh_image) with c. destruct (Z.eqb_spec c FOURCC_BIN1) as [Hbin|_].
      - exfalso. assert (planes i = 1) by (unfold i; by rewrite Hbin). lia.
      - by rewrite Z.mul_1_r, Z.div_1_r. }
    rewrite Z.eqb_refl. rewrite <- Z.mul_assoc. exact Ha.
Qed.

Lemma fresh_ptr (p : nat) a : addrs !! p = Some a -> ptr_of (image_ptrs i addrs) (Z.of_nat p) = a.
Proof.
  intros Ha. unfold ptr_of, image_ptrs. rewrite Nat2Z.id, lookup_app_l by (by eapply lookup_lt_Some).
  by rewrite Ha.
Qed.

Lemma fresh_placed : placed fresh_image (bytes (grants 3 (take n ds) addrs hp)).
Proof.
  destruct fresh_planes as [Hn Hpl]. pose proof fresh_stride as Hx. pose proof fresh_laid_out as Hlo.
  destruct fresh_bounds as (? & ? & ?).
  assert (forall p, 0 <= p < planes i -> exists k, p = Z.of_nat k /\ (k < n)%nat) as Hnat.
  { intros p Hp. exists (Z.to_nat p). lia. }
  split; try done.
  - exact image_ptrs_length.
  - intros p Hp. change (planes fresh_image) with (planes i) in Hp. destruct (Hgrid p Hp) as [? ?].
    split_and!; [apply Z.divide_0_r|done|apply Z.divide_0_r|done].
  - intros p Hp. destruct (Hnat p Hp) as (k & -> & Hk). destruct (fresh_plane k Hk) as (d & a & _ & Ha & Hpos & _).
    change (pBuffer fresh_image) with (image_ptrs i addrs). change (pData fresh_image) with (image_ptrs i addrs).
    rewrite (fresh_ptr k a Ha). split; [done|].
    change (x_start fresh_image) with 0. change (y_start fresh_image) with 0.
    destruct (Offset_exact fresh_image Hlo (Z.of_nat k) 0 0) as (-> & _ & _); [done|cbn; lia|cbn; lia|].
    rewrite !Z.div_0_l by (pose proof (HeightDiv_range fresh_image (Z.of_nat k));
      pose proof (WidthDiv_range fresh_image (Z.of_nat k)); lia). lia.
  - intros p Hp. destruct (Hnat p Hp) as (k & -> & Hk).
    destruct (fresh_plane k Hk) as (d & a & Hd & Ha & Hpos & Hbs & Har & _).
    change (pBuffer fresh_image) with (image_ptrs i addrs). rewrite (fresh_ptr k a Ha).
    apply (mapped_shrink a (dim_bytes d)); [lia|pose proof (fresh_range k d Hk Hd Har); lia|].
    rewrite <- Hbs.
    destruct (calloc_virtual_spec 3 (take n ds) ((fun a => (a, no_dim)) <$> addrs) addrs hp)
      as (sl' & _ & Hptr & _ & Hslot); [by rewrite length_fmap; apply granted_positive in Hgr as [? _]|done|].
    destruct (Hslot k d (a, no_dim)) as (a' & Hs & _ & Hm); [done|by rewrite list_lookup_fmap, Ha|].
    assert (a' = a) as ->; [|done].
    assert (sl'.*1 !! k = Some a') as He by (rewrite list_lookup_fmap; exact (f_equal (fmap fst) Hs)).
    rewrite Hptr, Ha in He. congruence.
  - intros p q Hp Hq Hne. destruct (Hnat p Hp) as (k & -> & Hk). destruct (Hnat q Hq) as (j & -> & Hj).
    destruct (fresh_plane k Hk) as (d & a & Hd & Ha & _ & _ & Har & Hr).
    destruct (fresh_plane j Hj) as (e & b & He & Hb & _ & _ & Har' & Hr').
    change (pBuffer fresh_image) with (image_ptrs i addrs). rewrite (fresh_ptr k a Ha), (fresh_ptr j b Hb).
    pose proof (fresh_range k d Hk Hd Har). pose proof (fresh_range j e Hj He Har').
    assert (apart a (reserve_size 3 d) b (reserve_size 3 e)) as Hap.
    { destruct (Nat.lt_total k j) as [Hlt|[->|Hlt]]; [|done|].
      - by eapply granted_apart.
      - apply apart_sym. by eapply granted_apart. }
    intros x [? ?]. apply (Hap x). lia.
Qed.
End Fresh.

(** ** Properties *)

(** C31: when the requests are granted, allocating a freshly initialised
    image of any format whose dimensions are multiples of its divisors
    succeeds and leaves every line of every plane mapped in a block of its
    own; freeing the image gives the heap back and nulls its pointers. *)
Theorem alloc_places_image w h c ds addrs hp :
  0 < w -> 0 < h -> 8 * w * h < 2 ^ 30 ->
  let i := DVP_Image_Init w h c in
  (forall p, 0 <= p < planes i -> (DVP_Image_WidthDiv i p | w) /\ (DVP_Image_HeightDiv i p | h)) ->
  DVP_Image_Dims i = Done ds -> granted 3 (take (Z.to_nat (planes i)) ds) addrs hp ->
  exists i' hp', DVP_Image_Alloc i DVP_MTYPE_MPUCACHED_VIRTUAL (Some <$> addrs) hp = Done (DVP_TRUE, i', hp') /\
    placed i' (bytes hp') /\ pBuffer i' = image_ptrs i addrs /\
    (width i' = w /\ height i' = h /\ color i' = c /\ x_stride i' = x_stride i) /\
    DVP_Image_Free i' hp' = Done (DVP_TRUE, set_pBuffer no_pointers i', hp).
Proof.
  intros Hw Hh Hs i Hgrid Hd Hg. exists (fresh_image w h c addrs), (grants 3 (take (Z.to_nat (planes i)) ds) addrs hp).
  split; [by apply alloc_run|]. split; [by apply fresh_placed|]. split; [done|]. split; [done|].
  destruct (fresh_planes w h c) as [Hn Hpl]. fold i in Hn, Hpl.
  pose proof (fresh_addrs w h c Hw Hh Hs ds Hd addrs hp Hg) as Hla. fold i in Hla.
  pose proof (fresh_covers w h c Hw Hh Hs ds Hd addrs hp Hg) as [Hlen _].
  unfold DVP_Image_Free. change (memType (fresh_image w h c addrs)) with DVP_MTYPE_MPUCACHED_VIRTUAL.
  change (DVP_MTYPE_MPUCACHED_VIRTUAL =? DVP_MTYPE_DISPLAY_2DTILED) with false. cbn [negb].
  assert (DVP_Image_Dims (fresh_image w h c addrs) = Done ds) as -> by (rewrite <- Hd; reflexivity).
  cbn [mbind outcome_bind].
  assert (nptrs_of (fresh_image w h c addrs) = Z.to_nat (planes i)) as ->.
  { unfold nptrs_of. change (planes (fresh_image w h c addrs)) with (planes i).
    rewrite s32_small by (unfold is_s32; lia). done. }
  change (pBuffer (fresh_image w h c addrs)) with (image_ptrs i addrs).
  assert (length (image_ptrs i addrs) = 4%nat) as Hl4.
  { unfold image_ptrs. rewrite length_app, length_drop, Hla.
    change (length no_pointers) with 4%nat. lia. }
  rewrite dvp_mem_free_hdls by lia. change (dvp_mem_type_xlate _) with MEMORY_TYPE_VIRTUAL.
  assert (take (Z.to_nat (planes i)) (image_ptrs i addrs) = addrs) as Htake.
  { unfold image_ptrs. by rewrite take_app_length' by done. }
  pose proof (free_virtual_all 3 (take (Z.to_nat (planes i)) ds) (image_ptrs i addrs) hp no_pointers
    (Z.to_nat (planes i))) as Hf. rewrite Htake in Hf. rewrite Hf; [|lia|lia|change (length no_pointers) with 4%nat; lia|done].
  assert (forall k, (k <= 3)%nat -> replicate k 0 ++ drop k no_pointers = no_pointers) as Hz
    by (intros [|[|[|[|]]]] ?; (reflexivity || lia)).
  unfold image_ptrs. rewrite drop_app_length' by done. rewrite Hz by lia. done.
Qed.

(** An NV12 image of odd height is allocated for [height / 2] rows of
    colour samples, but its last row addresses one more: the sample starts
    right after the bytes that were asked for. *)
Theorem odd_height_past_block w k addrs ds :
  0 < w -> 0 <= k -> Z.Even w -> 8 * w * (2 * k + 1) < 2 ^ 30 ->
  let i := DVP_Image_Init w (2 * k + 1) FOURCC_NV12 in
  DVP_Image_Dims i = Done ds -> exists d, ds !! 1%nat = Some d /\
    DVP_Image_Offset (allocated i (image_ptrs i addrs)) 0 (2 * k) 1 = block_size 3 d.
Proof.
  intros Hw Hk [j Hj] Hs i Hd. subst w. assert (2 * k + 1 < 2 ^ 30 /\ j < 2 ^ 30) as [? ?] by nia.
  assert ((2 * k + 1) / 2 = k) as Hh by (rewrite Z.add_comm, Z.mul_comm, Z.div_add by lia; done).
  assert (2 * j / 2 = j) as Hj2 by (rewrite Z.mul_comm, Z.div_mul by lia; done).
  assert (2 * k / 2 = k) as Hk2 by (rewrite Z.mul_comm, Z.div_mul by lia; done).
  unfold DVP_Image_Dims in Hd. change (one_of (color i) [FOURCC_NV12; FOURCC_NV21]) with true in Hd.
  cbv beta iota zeta in Hd. change (bufWidth i) with (2 * j) in Hd. change (bufHeight i) with (2 * k + 1) in Hd.
  rewrite !s32_small, !Z.quot_div_nonneg, Hh, Hj2 in Hd by (unfold is_s32; lia). injection Hd as <-.
  exists (mkDim 2 j k). split; [done|].
  rewrite block_size_exact by (unfold dim_bytes; cbn [dim0 dim1 dim2]; nia). unfold dim_bytes. cbn [dim0 dim1 dim2].
  set (im := allocated i (image_ptrs i addrs)). unfold DVP_Image_Offset.
  change (planes im) with 2. change (bufWidth im) with (2 * j). change (bufHeight im) with (2 * k + 1).
  change (1 <? 2) with true. rewrite (proj2 (Z.ltb_lt 0 (2 * j))), (proj2 (Z.ltb_lt (2 * k) _)) by lia. cbn [andb].
  change (DVP_Image_HeightDiv im 1) with 2. change (DVP_Image_WidthDiv im 1) with 2.
  rewrite Hk2, Z.div_0_l, Z.mul_0_l by lia.
  assert (DVP_Image_LineRange im 1 = 2 * j) as ->.
  { unfold DVP_Image_LineRange. change (planes im) with 2. change (y_stride im) with (1 * (2 * j)).
    change (1 <? 2) with true. change (0 <? 1) with true. cbv iota zeta.
    assert (forall p, p = 0 \/ p = 1 -> line_bytes im p (bufWidth im) = 2 * j) as Hl.
    { intros p [->| ->]; unfold line_bytes; change (bufWidth im) with (2 * j).
      - change (DVP_Image_WidthDiv im 0) with 1. change (u32 (x_stride im * DVP_Image_WidthStep im 0)) with 1.
        rewrite Z.div_1_r, u32_small by (unfold is_u32; lia). lia.
      - change (DVP_Image_WidthDiv im 1) with 2. change (u32 (x_stride im * DVP_Image_WidthStep im 1)) with 2.
        rewrite Hj2, u32_small by (unfold is_u32; lia). lia. }
    rewrite !Hl by lia. rewrite Z.abs_eq, u32_small by (unfold is_u32; lia). destruct (_ =? _); lia. }
  change (u32 0) with 0. assert (k * (2 * j) < 2 ^ 30) by nia.
  rewrite (u32_small (k * (2 * j))), u32_small by (unfold is_u32; nia). lia.
Qed.

(** A 4x4 NV12 image in two pages. *)
Definition nv12_4x4_dims : list DVP_Dim_t := [mkDim 1 4 4; mkDim 2 2 2; no_dim; no_dim].

Lemma nv12_4x4_granted : granted 3 (take 2 nv12_4x4_dims) [4096; 8192] empty_heap.
Proof.
  assert (forall a n, 0 < a -> 0 <= n -> fresh a n empty_heap) as Hf by (intros; by split_and!).
  assert (forall d, In d (take 2 nv12_4x4_dims) ->
    reserve_size 3 d = 4096 /\ block_size 3 d <= 2 ^ 32 - SOSAL_PAGE_SIZE) as Hr.
  { intros d [<-|[<-|[]]]; split; vm_compute; congruence. }
  destruct (Hr (mkDim 1 4 4)) as [E1 ?]; [by left|]. destruct (Hr (mkDim 2 2 2)) as [E2 ?]; [by right; left|].
  cbn [take nv12_4x4_dims granted zip_with zip]. rewrite E1, E2.
  split; [done|split; [apply Hf; lia|split; [|split; [done|split; [|by split]]]]].
  - repeat constructor; cbn [fst snd]; [lia|]. intros x. rewrite E2. lia.
  - apply Hf; lia.
Qed.

Lemma nv12_4x4_grid p : 0 <= p < 2 ->
  (DVP_Image_WidthDiv (DVP_Image_Init 4 4 FOURCC_NV12) p | 4) /\
  (DVP_Image_HeightDiv (DVP_Image_Init 4 4 FOURCC_NV12) p | 4).
Proof. intros Hp. assert (p = 0 \/ p = 1) as [->| ->] by lia; split; (by exists 4) || by exists 2. Qed.

Lemma alloc_places_image_witness : exists i hp,
  DVP_Image_Alloc (DVP_Image_Init 4 4 FOURCC_NV12) DVP_MTYPE_MPUCACHED_VIRTUAL [Some 4096; Some 8192] empty_heap =
    Done (DVP_TRUE, i, hp) /\ placed i (bytes hp) /\ pBuffer i = [4096; 8192; 0; 0].
Proof.
  destruct (alloc_places_image 4 4 FOURCC_NV12 nv12_4x4_dims [4096; 8192] empty_heap)
    as (i & hp & Ha & Hp & Hb & _);
    [lia|lia|lia|exact nv12_4x4_grid|reflexivity|exact nv12_4x4_granted|].
  exists i, hp. split; [exact Ha|]. split; [exact Hp|exact Hb].
Defined.

Lemma odd_height_past_block_witness : exists d,
  [mkDim 1 4 3; mkDim 2 2 1; no_dim; no_dim] !! 1%nat = Some d /\
  DVP_Image_Offset (allocated (DVP_Image_Init 4 3 FOURCC_NV12)
    (image_ptrs (DVP_Image_Init 4 3 FOURCC_NV12) [4096; 8192])) 0 2 1 = block_size 3 d.
Proof. apply (odd_height_past_block 4 1 [4096; 8192]); [lia|lia|by exists 2|lia|reflexivity]. Defined.
