(* ===== verification/Shared.v ===== *)
(** * Shared memory between processes (source/sosal/shared.c, the shared case of source/sosal/allocator.c)

    Where Allocator sees a segment as a block of its owner, here it is what
    several processes may attach.  The System V calls do what their manual
    pages say; [shmget] is called with [IPC_CREAT] and without [IPC_EXCL].
    What the system is free to choose is the argument [answers]. *)
From S2P Require Import Prelude DvpTypes Memory Image Allocator.

(** ** System V segments *)

Definition IPC_PRIVATE : Z := 0.

Record shm_segment : Set := mkSegment { seg_key : Z; seg_bytes : list Z; nattch : Z; to_destroy : bool }.
(** The segments by [shmid], and which of them a key names. *)
Record shm_system : Type := mkShm { keys : gmap Z Z; segments : gmap Z shm_segment }.

Definition named (key : Z) (s : shm_system) : option Z := if key =? IPC_PRIVATE then None else keys s !! key.
Definition shmget (key size : Z) (new_id : option Z) (s : shm_system) : Z * shm_system :=
  match named key s with
  | Some id =>
      match segments s !! id with
      | Some g => if Z.of_nat (length (seg_bytes g)) <? size then (-1, s) else (id, s)
      | None => (-1, s)
      end
  | None =>
      match new_id with
      | Some id =>
          if size =? 0 then (-1, s)
          else (id, mkShm (if key =? IPC_PRIVATE then keys s else <[key := id]> (keys s))
                          (<[id := mkSegment key (zero_bytes size) 0 false]> (segments s)))
      | None => (-1, s)
      end
  end.

(** A process: its heap, its [shared_t] structures by address, and which
    segment is attached at which address. *)
Record shared_t : Set := mkShared { un : Z; sh_size : Z; sh_data : Z; shmid : Z }.
Record process : Type := mkProcess { p_heap : heap; p_shared : gmap Z shared_t; attached : gmap Z Z }.

(** [None]: [(void * )-1] *)
Definition shmat (id : Z) (at_ : option Z) (p : process) (s : shm_system) : option Z * process * shm_system :=
  match at_, segments s !! id with
  | Some a, Some g =>
      (Some a, mkProcess (p_heap p) (p_shared p) (<[a := id]> (attached p)),
       mkShm (keys s) (<[id := mkSegment (seg_key g) (seg_bytes g) (nattch g + 1) (to_destroy g)]> (segments s)))
  | _, _ => (None, p, s)
  end.

(** A segment that is to be destroyed goes with its last attachment. *)
Definition drop_attach (id : Z) (s : shm_system) : shm_system :=
  match segments s !! id with
  | Some g =>
      if (nattch g - 1 =? 0) && to_destroy g then mkShm (keys s) (delete id (segments s))
      else mkShm (keys s) (<[id := mkSegment (seg_key g) (seg_bytes g) (nattch g - 1) (to_destroy g)]> (segments s))
  | None => s
  end.
Definition shmdt (a : Z) (p : process) (s : shm_system) : process * shm_system :=
  match attached p !! a with
  | Some id => (mkProcess (p_heap p) (p_shared p) (delete a (attached p)), drop_attach id s)
  | None => (p, s)
  end.
(** [shmctl(id, IPC_RMID, 0)]: the name is gone at once. *)
Definition shm_rmid (id : Z) (s : shm_system) : shm_system :=
  match segments s !! id with
  | Some g =>
      let ks := if seg_key g =? IPC_PRIVATE then keys s else delete (seg_key g) (keys s) in
      if nattch g =? 0 then mkShm ks (delete id (segments s))
      else mkShm ks (<[id := mkSegment IPC_PRIVATE (seg_bytes g) (nattch g) true]> (segments s))
  | None => s
  end.

(** The byte [off] of what is attached at [a]. *)
Definition shm_load (a off : Z) (p : process) (s : shm_system) : option Z :=
  id ← attached p !! a; g ← segments s !! id; aget (seg_bytes g) off.
Definition shm_store (a off v : Z) (p : process) (s : shm_system) : option shm_system :=
  id ← attached p !! a; g ← segments s !! id; bs ← aset (seg_bytes g) off v;
  Some (mkShm (keys s) (<[id := mkSegment (seg_key g) bs (nattch g) (to_destroy g)]> (segments s))).

(** ** [shared_alloc] and [shared_free] *)

(** What the system chooses: the address of the structure (0: no memory), the
    number of a new segment, where it is attached. *)
Record shm_answer : Set := mkAnswer { a_struct : Z; a_id : option Z; a_at : option Z }.

Definition with_shared (m : gmap Z shared_t) (p : process) : process := mkProcess (p_heap p) m (attached p).

Definition shared_free (hdl : Z) (p : process) (s : shm_system) : outcome (process * shm_system) :=
  if hdl =? 0 then Done (p, s)
  else
    shm ← of_option (p_shared p !! hdl);
    let '(p, s) := shmdt (sh_data shm) p s in
    let s := shm_rmid (shmid shm) s in
    Done (with_shared (delete hdl (p_shared p)) p, s).

Definition shared_alloc (key size : Z) (a : shm_answer) (p : process) (s : shm_system)
    : outcome (Z * process * shm_system) :=
  let hdl := a_struct a in
  if hdl =? 0 then Done (0, p, s)
  else
    let '(id, s) := shmget key size (a_id a) s in
    if -1 <? id then
      let '(data, p, s) := shmat id (a_at a) p s in
      match data with
      | Some d => Done (hdl, with_shared (<[hdl := mkShared key size d id]> (p_shared p)) p, s)
      | None =>
          (* no address is -1: nothing to detach *)
          Done (0, p, shm_rmid id s)
      end
    else Done (hdl, with_shared (<[hdl := mkShared key size 0 id]> (p_shared p)) p, s).

(** ** The allocator *)

(** A random number, a byte from each call of [rand]; the highest shift is
    taken as the compiler takes it. *)
Definition allocator_rand (rs : list Z) : Z :=
  s32 (foldr Z.lor 0 (imap (fun n r => Z.shiftl (Z.land r 0xFF) (8 * Z.of_nat n)) rs)).

(** The loops over the planes of [allocator_calloc], with the random numbers
    as [uns], and of [allocator_import], with the numbers that were shared.
    [false]: a plane got no structure, and the loop was left. *)
Fixpoint segment_loop (ndims : nat) (ds : list DVP_Dim_t) (sl : slots) (hdls uns : list Z) (answers : list shm_answer)
    (p : process) (s : shm_system) : outcome (bool * slots * list Z * process * shm_system) :=
  match ds, sl, hdls with
  | d :: ds', (ptr, st) :: sl', h :: hdls' =>
      match uns, answers with
      | key :: uns', a :: answers' =>
          let '(size, st) := stride_loop (dims_of ndims d) 0 1 st in
          '(hdl, p, s) ← shared_alloc key size a p s;
          if hdl =? 0 then Done (false, (ptr, st) :: sl', h :: hdls', p, s)
          else
            shm ← of_option (p_shared p !! hdl);
            '(ok, sl', hdls', p, s) ← segment_loop ndims ds' sl' hdls' uns' answers' p s;
            Done (ok, (sh_data shm, st) :: sl', hdl :: hdls', p, s)
      | _, _ => NoFuel
      end
  | _, _, _ => Done (true, sl, hdls, p, s)
  end.

(** [nptrs] planes of arrays that have at least so many entries *)
Definition calloc_segments (nptrs ndims : nat) (dims : list DVP_Dim_t) (sl : slots) (hdls : list Z) (rands : list (list Z))
    (answers : list shm_answer) (p : process) (s : shm_system) : outcome (bool * slots * list Z * process * shm_system) :=
  if (length dims <? nptrs)%nat || (length sl <? nptrs)%nat || (length hdls <? nptrs)%nat then Undef
  else
    '(ok, sl', hdls', p, s) ← segment_loop ndims (take nptrs dims) (take nptrs sl) (take nptrs hdls)
                                (allocator_rand <$> rands) answers p s;
    Done (ok, sl' ++ drop nptrs sl, hdls' ++ drop nptrs hdls, p, s).

(** The result is true however the loop ends. *)
Definition import_segments (nptrs ndims : nat) (dims : list DVP_Dim_t) (sl : slots) (hdls fds : list Z)
    (answers : list shm_answer) (p : process) (s : shm_system) : outcome (bool * slots * list Z * process * shm_system) :=
  if (length dims <? nptrs)%nat || (length sl <? nptrs)%nat || (length hdls <? nptrs)%nat || (length fds <? nptrs)%nat then Undef
  else
    '(_, sl', hdls', p, s) ← segment_loop ndims (take nptrs dims) (take nptrs sl) (take nptrs hdls) (s32 <$> fds) answers p s;
    Done (true, sl' ++ drop nptrs sl, hdls' ++ drop nptrs hdls, p, s).
Definition allocator_import (mtype : allocator_memory_type) (nptrs ndims : nat) (dims : list DVP_Dim_t) (sl : slots)
    (hdls fds : list Z) (answers : list shm_answer) (p : process) (s : shm_system)
    : outcome (bool * slots * list Z * process * shm_system) :=
  if (nptrs =? 0)%nat || (ndims =? 0)%nat then Done (false, sl, hdls, p, s)
  else match mtype with
       | MEMORY_TYPE_VIRTUAL_SHARED => import_segments nptrs ndims dims sl hdls fds answers p s
       | MEMORY_TYPE_VIRTUAL => Done (false, sl, hdls, p, s)
       end.

(** [fds[p] = shm->un], of a structure that must be there *)
Fixpoint share_loop (hdls fds : list Z) (p : process) : outcome (list Z) :=
  match hdls, fds with
  | [], _ => Done fds
  | h :: hdls', _ :: fds' =>
      shm ← (if h =? 0 then Undef else of_option (p_shared p !! h));
      rest ← share_loop hdls' fds' p;
      Done (s32 (un shm) :: rest)
  | _ :: _, [] => Undef
  end.
Definition allocator_share (mtype : allocator_memory_type) (nptrs : nat) (hdls fds : list Z) (p : process)
    : outcome (bool * list Z) :=
  if (nptrs =? 0)%nat then Done (false, fds)
  else match mtype with
       | MEMORY_TYPE_VIRTUAL_SHARED =>
           if (length hdls <? nptrs)%nat then Undef else fds ← share_loop (take nptrs hdls) fds p; Done (true, fds)
       | MEMORY_TYPE_VIRTUAL => Done (false, fds)
       end.

(** The handles and the pointers become null. *)
Fixpoint free_segments (hdls : list Z) (p : process) (s : shm_system) : outcome (process * shm_system) :=
  match hdls with
  | [] => Done (p, s)
  | h :: hdls' => '(p, s) ← shared_free h p s; free_segments hdls' p s
  end.
Definition with_heap (h : heap) (p : process) : process := mkProcess h (p_shared p) (attached p).
(** [allocator_free], the segments and the handles included *)
Definition memory_free (mtype : allocator_memory_type) (nptrs : nat) (ptrs hdls : list Z) (p : process) (s : shm_system)
    : outcome (bool * list Z * list Z * process * shm_system) :=
  if (nptrs =? 0)%nat then Done (false, ptrs, hdls, p, s)
  else if (length ptrs <? nptrs)%nat || (length hdls <? nptrs)%nat then Undef
  else match mtype with
       | MEMORY_TYPE_VIRTUAL =>
           '(ps, h) ← free_loop (take nptrs ptrs) (p_heap p);
           Done (true, ps ++ drop nptrs ptrs, hdls, with_heap h p, s)
       | MEMORY_TYPE_VIRTUAL_SHARED =>
           '(p, s) ← free_segments (take nptrs hdls) p s;
           Done (true, replicate nptrs 0 ++ drop nptrs ptrs, replicate nptrs 0 ++ drop nptrs hdls, p, s)
       end.
Definition memory_calloc (mtype : allocator_memory_type) (nptrs ndims : nat) (dims : list DVP_Dim_t) (sl : slots)
    (hdls : list Z) (blocks : list (option Z)) (rands : list (list Z)) (answers : list shm_answer) (p : process)
    (s : shm_system) : outcome (bool * slots * list Z * process * shm_system) :=
  if (nptrs =? 0)%nat || (ndims =? 0)%nat then Done (false, sl, hdls, p, s)
  else match mtype with
       | MEMORY_TYPE_VIRTUAL =>
           '(ok, sl, h) ← allocator_calloc mtype nptrs ndims dims sl blocks (p_heap p);
           Done (ok, sl, hdls, with_heap h p, s)
       | MEMORY_TYPE_VIRTUAL_SHARED => calloc_segments nptrs ndims dims sl hdls rands answers p s
       end.

(** ** Memory that keeps its own record, [allocator_memory_t] *)

Record allocator_memory_t : Type := mkMemory {
  allocated : bool; am_type : allocator_memory_type; am_nptrs : nat; am_ndims : nat; am_dims : list DVP_Dim_t;
  am_slots : slots; am_hdls : list Z; am_fds : list Z }.
Definition with_memory (ok : bool) (sl : slots) (hdls : list Z) (m : allocator_memory_t) : allocator_memory_t :=
  mkMemory ok (am_type m) (am_nptrs m) (am_ndims m) (am_dims m) sl hdls (am_fds m).
Definition with_fds (fds : list Z) (m : allocator_memory_t) : allocator_memory_t :=
  mkMemory (allocated m) (am_type m) (am_nptrs m) (am_ndims m) (am_dims m) (am_slots m) (am_hdls m) fds.

Definition allocator_memory_calloc (blocks : list (option Z)) (rands : list (list Z)) (answers : list shm_answer)
    (m : allocator_memory_t) (p : process) (s : shm_system) : outcome (bool * allocator_memory_t * process * shm_system) :=
  if allocated m then Done (false, m, p, s)
  else
    '(ok, sl, hdls, p, s) ← memory_calloc (am_type m) (am_nptrs m) (am_ndims m) (am_dims m) (am_slots m) (am_hdls m)
                              blocks rands answers p s;
    Done (ok, with_memory ok sl hdls m, p, s).
Definition allocator_memory_free (m : allocator_memory_t) (p : process) (s : shm_system)
    : outcome (bool * allocator_memory_t * process * shm_system) :=
  if allocated m then
    '(ok, ptrs, hdls, p, s) ← memory_free (am_type m) (am_nptrs m) (am_slots m).*1 (am_hdls m) p s;
    Done (ok, with_memory (negb ok) (zip ptrs (am_slots m).*2) hdls m, p, s)
  else Done (false, m, p, s).
Definition allocator_memory_share (m : allocator_memory_t) (p : process) : outcome (bool * allocator_memory_t) :=
  if allocated m then '(ok, fds) ← allocator_share (am_type m) (am_nptrs m) (am_hdls m) (am_fds m) p; Done (ok, with_fds fds m)
  else Done (false, m).
Definition allocator_memory_import (answers : list shm_answer) (m : allocator_memory_t) (p : process) (s : shm_system)
    : outcome (bool * allocator_memory_t * process * shm_system) :=
  if allocated m then Done (false, m, p, s)
  else
    '(ok, sl, hdls, p, s) ← allocator_import (am_type m) (am_nptrs m) (am_ndims m) (am_dims m) (am_slots m) (am_hdls m)
                              (am_fds m) answers p s;
    Done (ok, with_memory ok sl hdls m, p, s).
