(* ===== verification/SharedProperties.v ===== *)
(** * What shared memory promises

    One process allocates and shares, another imports: both have the same
    bytes, until both have released them.  A [piece] is what one plane of a
    shared allocation consists of: its segment, and where the owner and an
    importer have it. *)
From S2P Require Import Prelude DvpTypes Memory Image Allocator Shared.

(** ** Many insertions *)

Section AddAll.
Context {P A : Type} (f : P -> Z) (g : P -> A).
Implicit Types m : gmap Z A.

Fixpoint add_all (cs : list P) m : gmap Z A :=
  match cs with [] => m | c :: cs => <[f c := g c]> (add_all cs m) end.

Lemma add_all_out cs m k : k ∉ f <$> cs -> add_all cs m !! k = m !! k.
Proof.
  induction cs as [|c cs IH]; [done|]. cbn. intros [Hk Hcs]%not_elem_of_cons. rewrite lookup_insert_ne by congruence. by apply IH.
Qed.
Lemma add_all_in cs m c : NoDup (f <$> cs) -> c ∈ cs -> add_all cs m !! f c = Some (g c).
Proof.
  induction cs as [|x cs IH]; [by intros _ ?%elem_of_nil|]. cbn. intros [Hx Hnd]%NoDup_cons [->|Hc]%elem_of_cons.
  - apply lookup_insert_eq.
  - rewrite lookup_insert_ne; [by apply IH|]. intros He. apply Hx. rewrite He. by apply list_elem_of_fmap_2.
Qed.
Lemma add_all_insert cs m k v : k ∉ f <$> cs -> add_all cs (<[k := v]> m) = <[k := v]> (add_all cs m).
Proof.
  induction cs as [|c cs IH]; [done|]. cbn. intros [Hk Hcs]%not_elem_of_cons. rewrite IH by done. by apply insert_insert_ne.
Qed.
Lemma add_all_snoc cs c m : f c ∉ f <$> cs -> add_all (cs ++ [c]) m = <[f c := g c]> (add_all cs m).
Proof.
  intros Hc. assert (add_all (cs ++ [c]) m = add_all cs (<[f c := g c]> m)) as ->; [|by apply add_all_insert].
  induction cs as [|x cs IH]; [done|]. cbn in *. apply not_elem_of_cons in Hc as [_ Hc]. by rewrite IH.
Qed.
Lemma add_all_peel c cs m : NoDup (f <$> (c :: cs)) -> (forall x, x ∈ c :: cs -> m !! f x = None) ->
  delete (f c) (add_all (c :: cs) m) = add_all cs m.
Proof.
  intros [Hc _]%NoDup_cons Hm. cbn. rewrite delete_insert_eq. apply delete_id. rewrite add_all_out by done. apply Hm. by left.
Qed.
End AddAll.

(** Later values win. *)
Lemma add_all_over {P A} (f : P -> Z) (g g' : P -> A) cs m : NoDup (f <$> cs) -> add_all f g cs (add_all f g' cs m) = add_all f g cs m.
Proof.
  intros Hnd. apply map_eq. intros k. destruct (decide (k ∈ f <$> cs)) as [Hk|Hk].
  - apply list_elem_of_fmap in Hk as (c & -> & Hc). by rewrite !add_all_in.
  - by rewrite !add_all_out.
Qed.
Lemma add_all_ext {P A} (f : P -> Z) (g g' : P -> A) cs m : (forall c, c ∈ cs -> g c = g' c) -> add_all f g cs m = add_all f g' cs m.
Proof. induction cs as [|c cs IH]; intros H; [done|]. cbn. rewrite H by left. rewrite IH; [done|]. intros x Hx. apply H. by right. Qed.

(** ** Pieces *)

Record piece : Set := mkPiece {
  pc_un : Z; pc_size : Z; pc_id : Z; pc_struct : Z; pc_at : Z; pc_struct2 : Z; pc_at2 : Z }.

(** A segment of [n] attachments, with or without its name. *)
Definition seg_of (content : piece -> list Z) (n : Z) (gone : bool) (c : piece) : shm_segment :=
  mkSegment (if gone then IPC_PRIVATE else pc_un c) (content c) n gone.
Definition owner_rec (c : piece) : shared_t := mkShared (pc_un c) (pc_size c) (pc_at c) (pc_id c).
Definition import_rec (c : piece) : shared_t := mkShared (pc_un c) (pc_size c) (pc_at2 c) (pc_id c).
Definition owner_with (cs : list piece) (p : process) : process :=
  mkProcess (p_heap p) (add_all pc_struct owner_rec cs (p_shared p)) (add_all pc_at pc_id cs (attached p)).
Definition importer_with (cs : list piece) (p : process) : process :=
  mkProcess (p_heap p) (add_all pc_struct2 import_rec cs (p_shared p)) (add_all pc_at2 pc_id cs (attached p)).
Definition named_all (cs : list piece) (s : shm_system) : gmap Z Z := add_all pc_un pc_id cs (keys s).
Definition system_with (st : piece -> shm_segment) (cs : list piece) (s : shm_system) : shm_system :=
  mkShm (named_all cs s) (add_all pc_id st cs (segments s)).

(** What the pieces take is free in both processes and in the system. *)
Record new_pieces (cs : list piece) (p q : process) (s : shm_system) : Prop := {
  np_un : NoDup (pc_un <$> cs); np_id : NoDup (pc_id <$> cs);
  np_struct : NoDup (pc_struct <$> cs); np_at : NoDup (pc_at <$> cs);
  np_struct2 : NoDup (pc_struct2 <$> cs); np_at2 : NoDup (pc_at2 <$> cs);
  np_new : forall c, c ∈ cs -> is_s32 (pc_un c) /\ pc_un c <> IPC_PRIVATE /\ 0 <= pc_id c /\ 0 < pc_size c /\
     pc_struct c <> 0 /\ pc_struct2 c <> 0 /\
     keys s !! pc_un c = None /\ segments s !! pc_id c = None /\
     p_shared p !! pc_struct c = None /\ attached p !! pc_at c = None /\
     p_shared q !! pc_struct2 c = None /\ attached q !! pc_at2 c = None }.

Section Position.
Context (cs : list piece).
Lemma fresh_field (f : piece -> Z) pre c post : NoDup (f <$> cs) -> cs = pre ++ c :: post -> f c ∉ f <$> pre /\ f c ∉ f <$> post.
Proof.
  intros Hnd ->. rewrite fmap_app, fmap_cons in Hnd. apply NoDup_app in Hnd as (_ & Hd & [Hp _]%NoDup_cons).
  split; [|done]. intros Hin. apply (Hd _ Hin). by left.
Qed.
Lemma piece_in pre c post : cs = pre ++ c :: post -> c ∈ cs.
Proof. intros ->. apply elem_of_app. right. by left. Qed.
Lemma prefix_nodup (f : piece -> Z) pre c post : NoDup (f <$> cs) -> cs = pre ++ c :: post -> NoDup (f <$> (pre ++ [c])).
Proof. intros Hnd ->. rewrite cons_middle, app_assoc, fmap_app in Hnd. by apply NoDup_app in Hnd as (? & _). Qed.
End Position.

(** ** One release *)

Section Release.
Context (h : Z) (shm : shared_t) (g : shm_segment) (p : process) (s : shm_system).
Context (Hh : h <> 0) (Hp : p_shared p !! h = Some shm) (Ha : attached p !! sh_data shm = Some (shmid shm))
        (Hg : segments s !! shmid shm = Some g).
Let left_process := mkProcess (p_heap p) (delete h (p_shared p)) (delete (sh_data shm) (attached p)).

(** Others are still attached: the segment loses its name and stays. *)
Lemma release_shared : 1 < nattch g -> to_destroy g = false -> seg_key g <> IPC_PRIVATE ->
  shared_free h p s = Done (left_process,
    mkShm (delete (seg_key g) (keys s)) (<[shmid shm := mkSegment IPC_PRIVATE (seg_bytes g) (nattch g - 1) true]> (segments s))).
Proof.
  intros Hn Hd Hk. unfold shared_free. rewrite (proj2 (Z.eqb_neq h 0) Hh), Hp. cbn [of_option mbind outcome_bind].
  unfold shmdt. rewrite Ha. unfold drop_attach. rewrite Hg, Hd, andb_false_r.
  unfold shm_rmid. cbn [segments keys]. rewrite lookup_insert_eq. cbn [seg_key nattch seg_bytes].
  rewrite (proj2 (Z.eqb_neq _ _) Hk), (proj2 (Z.eqb_neq (nattch g - 1) 0)) by lia. by rewrite insert_insert_eq.
Qed.
(** The last one that is attached to a segment without a name. *)
Lemma release_last : nattch g = 1 -> to_destroy g = true ->
  shared_free h p s = Done (left_process, mkShm (keys s) (delete (shmid shm) (segments s))).
Proof.
  intros Hn Hd. unfold shared_free. rewrite (proj2 (Z.eqb_neq h 0) Hh), Hp. cbn [of_option mbind outcome_bind].
  unfold shmdt. rewrite Ha. unfold drop_attach. rewrite Hg, Hd, Hn. change (1 - 1 =? 0) with true. cbn [andb].
  unfold shm_rmid. cbn [segments keys]. by rewrite lookup_delete_eq.
Qed.
End Release.

Section Pieces.
Context (cs : list piece) (p q : process) (s : shm_system) (Hnew : new_pieces cs p q s).

Definition zeroes (c : piece) : list Z := zero_bytes (pc_size c).
Definition owner_answer (c : piece) : shm_answer := mkAnswer (pc_struct c) (Some (pc_id c)) (Some (pc_at c)).
Definition import_answer (c : piece) : shm_answer := mkAnswer (pc_struct2 c) None (Some (pc_at2 c)).

Lemma owner_alloc pre c post : cs = pre ++ c :: post ->
  shared_alloc (pc_un c) (pc_size c) (owner_answer c) (owner_with pre p) (system_with (seg_of zeroes 1 false) pre s) =
    Done (pc_struct c, owner_with (pre ++ [c]) p, system_with (seg_of zeroes 1 false) (pre ++ [c]) s).
Proof.
  intros Hc. destruct (np_new _ _ _ _ Hnew c (piece_in _ _ _ _ Hc)) as (_ & Hun & Hid & Hsz & Hst & _ & Hk & Hsg & _).
  destruct (fresh_field cs pc_un pre c post (np_un _ _ _ _ Hnew) Hc) as [Fun _]. destruct (fresh_field cs pc_id pre c post (np_id _ _ _ _ Hnew) Hc) as [Fid _].
  destruct (fresh_field cs pc_struct pre c post (np_struct _ _ _ _ Hnew) Hc) as [Fst _]. destruct (fresh_field cs pc_at pre c post (np_at _ _ _ _ Hnew) Hc) as [Fat _].
  unfold shared_alloc. cbn [a_struct owner_answer a_id a_at]. rewrite (proj2 (Z.eqb_neq _ 0) Hst).
  unfold shmget, named. rewrite (proj2 (Z.eqb_neq _ _) Hun). cbn [system_with keys segments]. unfold named_all.
  rewrite add_all_out, Hk by done. rewrite (proj2 (Z.eqb_neq (pc_size c) 0)) by lia. rewrite (proj2 (Z.ltb_lt (-1) (pc_id c))) by lia.
  unfold shmat. cbn [segments]. rewrite lookup_insert_eq. cbn [keys segments seg_key seg_bytes nattch to_destroy]. rewrite insert_insert_eq.
  unfold with_shared, owner_with, system_with, named_all. cbn [p_heap p_shared attached]. rewrite !add_all_snoc by done. reflexivity.
Qed.

Lemma import_alloc content pre c post : cs = pre ++ c :: post -> (forall x, x ∈ cs -> Z.of_nat (length (content x)) = pc_size x) ->
  let sys := (fun l => mkShm (named_all cs s) (add_all pc_id (seg_of content 2 false) l (add_all pc_id (seg_of content 1 false) cs (segments s)))) in
  shared_alloc (pc_un c) (pc_size c) (import_answer c) (importer_with pre q) (sys pre) =
    Done (pc_struct2 c, importer_with (pre ++ [c]) q, sys (pre ++ [c])).
Proof.
  intros Hc Hlen sys. pose proof (piece_in _ _ _ _ Hc) as Hin. destruct (np_new _ _ _ _ Hnew c Hin) as (_ & Hun & Hid & Hsz & _ & Hst & _).
  destruct (fresh_field cs pc_id pre c post (np_id _ _ _ _ Hnew) Hc) as [Fid _].
  destruct (fresh_field cs pc_struct2 pre c post (np_struct2 _ _ _ _ Hnew) Hc) as [Fst _]. destruct (fresh_field cs pc_at2 pre c post (np_at2 _ _ _ _ Hnew) Hc) as [Fat _].
  unfold shared_alloc. cbn [a_struct import_answer a_id a_at]. rewrite (proj2 (Z.eqb_neq _ 0) Hst).
  assert (named (pc_un c) (sys pre) = Some (pc_id c)) as Hn.
  { unfold named. rewrite (proj2 (Z.eqb_neq _ _) Hun). cbn [sys keys]. unfold named_all. by apply add_all_in; [apply Hnew|]. }
  assert (segments (sys pre) !! pc_id c = Some (seg_of content 1 false c)) as Hs.
  { cbn [sys segments]. rewrite add_all_out by done. by apply add_all_in; [apply Hnew|]. }
  unfold shmget. rewrite Hn, Hs. cbn [seg_of seg_bytes]. rewrite Hlen by done. rewrite (proj2 (Z.ltb_ge _ _)) by lia.
  rewrite (proj2 (Z.ltb_lt (-1) (pc_id c))) by lia. unfold shmat. rewrite Hs. cbn [seg_of seg_key seg_bytes nattch to_destroy].
  unfold with_shared, importer_with, sys. cbn [p_heap p_shared attached keys segments]. rewrite !add_all_snoc by done. reflexivity.
Qed.

(** The importer gives a piece up: its segment loses the name. *)
Lemma import_free content pre c post : cs = pre ++ c :: post ->
  let sys := (fun l => mkShm (add_all pc_un pc_id l (keys s))
    (add_all pc_id (seg_of content 2 false) l (add_all pc_id (seg_of content 1 true) cs (segments s)))) in
  shared_free (pc_struct2 c) (importer_with (c :: post) q) (sys (c :: post)) = Done (importer_with post q, sys post).
Proof.
  intros Hc sys. pose proof (piece_in _ _ _ _ Hc) as Hin.
  destruct (np_new _ _ _ _ Hnew c Hin) as (_ & Hun & Hid & Hsz & _ & Hst & Hk & _ & _ & _ & Hq & Ha).
  destruct (fresh_field cs pc_id pre c post (np_id _ _ _ _ Hnew) Hc) as [_ Fid]. destruct (fresh_field cs pc_un pre c post (np_un _ _ _ _ Hnew) Hc) as [_ Fun].
  destruct (fresh_field cs pc_struct2 pre c post (np_struct2 _ _ _ _ Hnew) Hc) as [_ Fst]. destruct (fresh_field cs pc_at2 pre c post (np_at2 _ _ _ _ Hnew) Hc) as [_ Fat].
  rewrite (release_shared (pc_struct2 c) (import_rec c) (seg_of content 2 false c)); try (apply lookup_insert_eq || done || (cbn; lia)).
  unfold importer_with, sys. cbn [p_heap p_shared attached add_all keys segments import_rec sh_data shmid seg_of seg_key seg_bytes nattch].
  rewrite !delete_insert_eq, !delete_id by (by rewrite add_all_out). rewrite insert_insert_eq. do 3 f_equal.
  apply insert_id. rewrite add_all_out by done. apply (add_all_in pc_id (seg_of content 1 true)); [apply Hnew|done].
Qed.

(** The owner gives it up after that: the segment is destroyed. *)
Lemma owner_free content pre c post : cs = pre ++ c :: post ->
  let sys := (fun l => mkShm (keys s) (add_all pc_id (seg_of content 1 true) l (segments s))) in
  shared_free (pc_struct c) (owner_with (c :: post) p) (sys (c :: post)) = Done (owner_with post p, sys post).
Proof.
  intros Hc sys. pose proof (piece_in _ _ _ _ Hc) as Hin.
  destruct (np_new _ _ _ _ Hnew c Hin) as (_ & Hun & Hid & Hsz & Hst & _ & _ & Hs & Hp & Ha & _).
  destruct (fresh_field cs pc_id pre c post (np_id _ _ _ _ Hnew) Hc) as [_ Fid].
  destruct (fresh_field cs pc_struct pre c post (np_struct _ _ _ _ Hnew) Hc) as [_ Fst]. destruct (fresh_field cs pc_at pre c post (np_at _ _ _ _ Hnew) Hc) as [_ Fat].
  rewrite (release_last (pc_struct c) (owner_rec c) (seg_of content 1 true c)); try (apply lookup_insert_eq || done).
  unfold owner_with, sys. cbn [p_heap p_shared attached add_all keys segments owner_rec sh_data shmid].
  by rewrite !delete_insert_eq, !delete_id by (by rewrite add_all_out).
Qed.

End Pieces.

(** ** The loops *)

Section Loops.
Context (cs : list piece) (st at_ : piece -> Z).

Lemma segment_loop_all ndims ans recd (Pr : list piece -> process) (Sy : list piece -> shm_system) :
  (forall pre c post, cs = pre ++ c :: post ->
     shared_alloc (pc_un c) (pc_size c) (ans c) (Pr pre) (Sy pre) = Done (st c, Pr (pre ++ [c]), Sy (pre ++ [c])) /\
     p_shared (Pr (pre ++ [c])) !! st c = Some (recd c) /\ st c <> 0 /\ sh_data (recd c) = at_ c) ->
  forall post pre ds sl hdls uns, cs = pre ++ post -> Forall2 (fun d c => block_size ndims d = pc_size c) ds post ->
  length sl = length post -> length hdls = length post ->
  exists sl', segment_loop ndims ds sl hdls ((pc_un <$> post) ++ uns) (ans <$> post) (Pr pre) (Sy pre) =
    Done (true, sl', st <$> post, Pr cs, Sy cs) /\ sl'.*1 = at_ <$> post /\ length sl' = length post /\
    sl'.*2 = zip_with (fun d s0 => (stride_loop (dims_of ndims d) 0 1 s0.2).2) ds sl.
Proof.
  intros Hstep. induction post as [|c post IH]; intros pre ds sl hdls uns Hcs Hds Hsl Hh.
  { apply Forall2_nil_inv_r in Hds as ->. destruct sl; [|done]. destruct hdls; [|done]. exists []. rewrite app_nil_r in Hcs. by subst pre. }
  destruct sl as [|[ptr s0] sl]; [done|]. destruct hdls as [|h hdls]; [done|]. inversion Hds as [|d ? ds' ? Hd Hds']; subst.
  destruct (Hstep pre c post eq_refl) as (Ha & Hl & Hn & Hat).
  cbn [segment_loop fmap list_fmap app]. destruct (stride_loop (dims_of ndims d) 0 1 s0) as [size s0'] eqn:Hs.
  assert (size = pc_size c) as -> by (rewrite <- Hd; unfold block_size; by rewrite (stride_loop_size _ _ _ _ s0), Hs).
  rewrite Ha. cbn [mbind outcome_bind]. rewrite (proj2 (Z.eqb_neq _ 0) Hn), Hl. cbn [of_option mbind outcome_bind].
  destruct (IH (pre ++ [c]) ds' sl hdls uns) as (sl' & He & Hf & Hlen & Hst); [by rewrite <- app_assoc|done|cbn in *; lia|cbn in *; lia|].
  rewrite He. cbn [mbind outcome_bind]. eexists. split; [reflexivity|]. cbn. by rewrite Hf, Hlen, Hat, Hst, Hs.
Qed.

Lemma free_segments_all (Pr : list piece -> process) (Sy : list piece -> shm_system) :
  (forall pre c post, cs = pre ++ c :: post -> shared_free (st c) (Pr (c :: post)) (Sy (c :: post)) = Done (Pr post, Sy post)) ->
  forall post pre, cs = pre ++ post -> free_segments (st <$> post) (Pr post) (Sy post) = Done (Pr [], Sy []).
Proof.
  intros Hstep. induction post as [|c post IH]; intros pre Hcs; [done|]. cbn [fmap list_fmap free_segments].
  rewrite (Hstep pre c post Hcs). cbn [mbind outcome_bind]. apply (IH (pre ++ [c])). by rewrite <- app_assoc.
Qed.
End Loops.

Lemma nodup_field {A} (f : A -> Z) (l : list A) x y : NoDup (f <$> l) -> x ∈ l -> y ∈ l -> f x = f y -> x = y.
Proof.
  induction l as [|z l IH]; [by intros _ ?%elem_of_nil|]. cbn. intros [Hz Hnd]%NoDup_cons [->|Hx]%elem_of_cons [->|Hy]%elem_of_cons He; [done| | |by apply IH].
  - destruct Hz. rewrite He. by apply list_elem_of_fmap_2.
  - destruct Hz. rewrite <- He. by apply list_elem_of_fmap_2.
Qed.

Section Shared.
Context (cs : list piece) (p q : process) (s : shm_system) (Hnew : new_pieces cs p q s).

(** The system while both processes have the pieces. *)
Definition shared_system (content : piece -> list Z) : shm_system := system_with (seg_of content 2 false) cs s.
Definition good_content (content : piece -> list Z) : Prop :=
  forall c, c ∈ cs -> Z.of_nat (length (content c)) = pc_size c.
Definition change (c : piece) (bs : list Z) (content : piece -> list Z) (x : piece) : list Z :=
  if decide (pc_id x = pc_id c) then bs else content x.

(** Where a process sees the pieces. *)
Definition sees (at_ : piece -> Z) (pr : process) : Prop := forall c, c ∈ cs -> attached pr !! at_ c = Some (pc_id c).
Lemma owner_sees : sees pc_at (owner_with cs p).
Proof. intros c Hc. apply (add_all_in pc_at pc_id); [apply Hnew|done]. Qed.
Lemma importer_sees : sees pc_at2 (importer_with cs q).
Proof. intros c Hc. apply (add_all_in pc_at2 pc_id); [apply Hnew|done]. Qed.

Lemma segment_at content c : c ∈ cs -> segments (shared_system content) !! pc_id c = Some (seg_of content 2 false c).
Proof. intros Hc. apply (add_all_in pc_id (seg_of content 2 false)); [apply Hnew|done]. Qed.

Lemma load_piece at_ pr content c off : sees at_ pr -> c ∈ cs ->
  shm_load (at_ c) off pr (shared_system content) = aget (content c) off.
Proof. intros Hs Hc. unfold shm_load. rewrite (Hs c Hc). cbn [mbind option_bind]. by rewrite segment_at. Qed.

Lemma store_piece at_ pr content c off v : sees at_ pr -> c ∈ cs ->
  shm_store (at_ c) off v pr (shared_system content) =
    (fun bs => shared_system (change c bs content)) <$> aset (content c) off v.
Proof.
  intros Hs Hc. unfold shm_store. rewrite (Hs c Hc). cbn [mbind option_bind]. rewrite segment_at by done. cbn [mbind option_bind seg_of seg_bytes].
  destruct (aset (content c) off v) as [bs|]; [|done]. cbn [mbind option_bind fmap option_fmap option_map]. unfold shared_system, system_with. cbn [keys segments]. do 2 f_equal.
  apply map_eq. intros k. destruct (decide (k = pc_id c)) as [->|Hk].
  - rewrite lookup_insert_eq. rewrite (add_all_in pc_id (seg_of (change c bs content) 2 false)) by (apply Hnew || done).
    unfold seg_of, change. by rewrite decide_True.
  - rewrite lookup_insert_ne by congruence. destruct (decide (k ∈ pc_id <$> cs)) as [Hin|Hout].
    + apply list_elem_of_fmap in Hin as (x & -> & Hx). rewrite !(add_all_in pc_id) by (apply Hnew || done).
      unfold seg_of, change. by rewrite decide_False.
    + by rewrite !add_all_out.
Qed.
Lemma change_good c bs content off v : c ∈ cs -> good_content content -> aset (content c) off v = Some bs -> good_content (change c bs content).
Proof.
  intros Hc Hg Hbs x Hx. unfold change. destruct (decide _) as [He|]; [|by apply Hg].
  assert (x = c) as -> by (apply (nodup_field pc_id cs); [apply Hnew|done..]).
  apply aset_Some in Hbs as (_ & ->). rewrite length_insert. by apply Hg.
Qed.

(** A store to a piece by one of the two processes. *)
Definition shared_write (s1 s2 : shm_system) : Prop := exists c off v, c ∈ cs /\
  (shm_store (pc_at c) off v (owner_with cs p) s1 = Some s2 \/ shm_store (pc_at2 c) off v (importer_with cs q) s1 = Some s2).

Lemma writes_keep_shape s1 s2 : rtc shared_write s1 s2 -> forall content, s1 = shared_system content -> good_content content ->
  exists content', s2 = shared_system content' /\ good_content content'.
Proof.
  induction 1 as [|s1 s2 s3 (c & off & v & Hc & Hw) _ IH]; intros content -> Hg; [by exists content|].
  assert (exists bs, aset (content c) off v = Some bs /\ s2 = shared_system (change c bs content)) as (bs & Hbs & ->).
  { destruct Hw as [Hw|Hw]; rewrite store_piece in Hw by (apply owner_sees || apply importer_sees || done);
      (destruct (aset (content c) off v) as [bs|]; [|done]); injection Hw as <-; by exists bs. }
  by apply (IH (change c bs content)); [|eapply change_good].
Qed.

(** What the one stores the other loads. *)
Lemma store_load at1 at2 pr1 pr2 content c off v : sees at1 pr1 -> sees at2 pr2 -> good_content content -> c ∈ cs -> 0 <= off < pc_size c ->
  exists s', shm_store (at1 c) off v pr1 (shared_system content) = Some s' /\ shm_load (at2 c) off pr2 s' = Some v.
Proof.
  intros H1 H2 Hg Hc Hoff. rewrite store_piece by done. rewrite aset_in_range by (rewrite Hg; done).
  eexists. split; [reflexivity|]. rewrite load_piece by done. unfold change. rewrite decide_True by done.
  rewrite <- (Z2Nat.id off) at 2 by lia. rewrite aget_nat. apply list_lookup_insert_eq. rewrite <- (Hg c Hc) in Hoff. lia.
Qed.

(** ** The calls *)

Lemma owner_with_nil : owner_with [] p = p.
Proof. by destruct p. Qed.
Lemma importer_with_nil : importer_with [] q = q.
Proof. by destruct q. Qed.
Lemma system_with_nil st : system_with st [] s = s.
Proof. by destruct s. Qed.

Lemma owner_calloc ndims ds sl hdls : Forall2 (fun d c => block_size ndims d = pc_size c) ds cs ->
  length sl = length cs -> length hdls = length cs ->
  exists sl', segment_loop ndims ds sl hdls (pc_un <$> cs) (owner_answer <$> cs) p s =
    Done (true, sl', pc_struct <$> cs, owner_with cs p, system_with (seg_of zeroes 1 false) cs s) /\ sl'.*1 = pc_at <$> cs /\ length sl' = length cs.
Proof.
  intros Hds Hsl Hh.
  destruct (segment_loop_all cs pc_struct pc_at ndims owner_answer owner_rec (fun l => owner_with l p)
    (fun l => system_with (seg_of zeroes 1 false) l s)) with (post := cs) (pre := @nil piece) (ds := ds) (sl := sl) (hdls := hdls) (uns := @nil Z)
    as (sl' & He & Hsl' & Hlen & _); [|done..|].
  - intros pre c post Hc. pose proof (piece_in _ _ _ _ Hc) as Hin.
    split; [by eapply owner_alloc|]. split; [|split; [by apply (np_new _ _ _ _ Hnew)|done]].
    apply (add_all_in pc_struct owner_rec); [|apply elem_of_app; right; by left].
    eapply prefix_nodup; [apply Hnew|exact Hc].
  - rewrite owner_with_nil, system_with_nil, app_nil_r in He. by exists sl'.
Qed.

Lemma importer_import content ndims ds sl hdls uns : good_content content ->
  Forall2 (fun d c => block_size ndims d = pc_size c) ds cs -> length sl = length cs -> length hdls = length cs ->
  exists sl', segment_loop ndims ds sl hdls ((pc_un <$> cs) ++ uns) (import_answer <$> cs) q (system_with (seg_of content 1 false) cs s) =
    Done (true, sl', pc_struct2 <$> cs, importer_with cs q, shared_system content) /\ sl'.*1 = pc_at2 <$> cs /\ length sl' = length cs /\
    sl'.*2 = zip_with (fun d s0 => (stride_loop (dims_of ndims d) 0 1 s0.2).2) ds sl.
Proof.
  intros Hg Hds Hsl Hh.
  pose (sys := fun l => mkShm (named_all cs s) (add_all pc_id (seg_of content 2 false) l (add_all pc_id (seg_of content 1 false) cs (segments s)))).
  assert (shared_system content = sys cs) as ->.
  { unfold sys. by rewrite add_all_over by apply Hnew. }
  destruct (segment_loop_all cs pc_struct2 pc_at2 ndims import_answer import_rec (fun l => importer_with l q) sys)
    with (post := cs) (pre := @nil piece) (ds := ds) (sl := sl) (hdls := hdls) (uns := uns) as (sl' & He & Hsl'); [|done..|].
  - intros pre c post Hc. pose proof (piece_in _ _ _ _ Hc) as Hin.
    split; [by eapply import_alloc|]. split; [|split; [by apply (np_new _ _ _ _ Hnew)|done]].
    apply (add_all_in pc_struct2 import_rec); [|apply elem_of_app; right; by left].
    eapply prefix_nodup; [apply Hnew|exact Hc].
  - rewrite importer_with_nil in He. by exists sl'.
Qed.

Lemma owner_shares l : forall fds, (forall c, c ∈ l -> c ∈ cs) -> (length l <= length fds)%nat ->
  share_loop (pc_struct <$> l) fds (owner_with cs p) = Done ((pc_un <$> l) ++ drop (length l) fds).
Proof.
  induction l as [|c l IH]; intros fds Hin Hl; [done|]. destruct fds as [|f fds]; [cbn in Hl; lia|]. cbn [fmap list_fmap share_loop].
  assert (c ∈ cs) as Hc by (apply Hin; by left). destruct (np_new _ _ _ _ Hnew c Hc) as (Hun & _ & _ & _ & Hst & _).
  rewrite (proj2 (Z.eqb_neq _ 0) Hst). cbn [owner_with p_shared]. rewrite (add_all_in pc_struct owner_rec) by (apply Hnew || done).
  cbn [of_option mbind outcome_bind]. rewrite IH by (cbn in Hl; try lia; intros x Hx; apply Hin; by right). cbn [mbind outcome_bind owner_rec un].
  by rewrite s32_small.
Qed.

(** The importer's release, then the owner's. *)
Lemma release_both content : exists s1,
  free_segments (pc_struct2 <$> cs) (importer_with cs q) (shared_system content) = Done (q, s1) /\
  free_segments (pc_struct <$> cs) (owner_with cs p) s1 = Done (p, s).
Proof.
  exists (mkShm (keys s) (add_all pc_id (seg_of content 1 true) cs (segments s))). split.
  - pose proof (free_segments_all cs pc_struct2 (fun l => importer_with l q) (fun l => mkShm (add_all pc_un pc_id l (keys s))
      (add_all pc_id (seg_of content 2 false) l (add_all pc_id (seg_of content 1 true) cs (segments s))))) as H.
    cbn beta in H. specialize (H (fun pre c post => import_free cs p q s Hnew content pre c post) cs [] eq_refl).
    rewrite add_all_over in H by apply Hnew. by rewrite importer_with_nil in H.
  - pose proof (free_segments_all cs pc_struct (fun l => owner_with l p)
      (fun l => mkShm (keys s) (add_all pc_id (seg_of content 1 true) l (segments s)))) as H.
    cbn beta in H. specialize (H (fun pre c post => owner_free cs p q s Hnew content pre c post) cs [] eq_refl).
    rewrite H, owner_with_nil. by destruct s.
Qed.
End Shared.

(** The pointers of a memory. *)
Definition pointers (m : allocator_memory_t) : list Z := take (am_nptrs m) (am_slots m).*1.
(** A memory of [n] shared planes that is not allocated. *)
Definition shared_planes (n ndims : nat) (dims : list DVP_Dim_t) (sl : slots) (hdls fds : list Z) : allocator_memory_t :=
  mkMemory false MEMORY_TYPE_VIRTUAL_SHARED n ndims dims sl hdls fds.
Definition arrays_hold (n : nat) (dims : list DVP_Dim_t) (sl : slots) (hdls : list Z) : Prop :=
  (n <= length dims)%nat /\ (n <= length sl)%nat /\ (n <= length hdls)%nat.

Lemma guard_arrays n dims sl hdls : arrays_hold n dims sl hdls ->
  (length dims <? n)%nat || (length sl <? n)%nat || (length hdls <? n)%nat = false.
Proof. intros (H1 & H2 & H3). by rewrite (proj2 (Nat.ltb_ge _ _) H1), (proj2 (Nat.ltb_ge _ _) H2), (proj2 (Nat.ltb_ge _ _) H3). Qed.
Lemma fmap_s32 l : Forall is_s32 l -> s32 <$> l = l.
Proof. induction 1 as [|x l Hx Hl IH]; [done|]. cbn. by rewrite s32_small, IH. Qed.
Lemma take_drop_fst (n : nat) (sl sl0 : slots) xs : sl.*1 = xs -> length sl = n -> take n (sl ++ sl0).*1 = xs.
Proof. intros <- <-. rewrite fmap_app. by rewrite take_app_length' by (by rewrite length_fmap). Qed.

Section Lifecycle.
Context (cs : list piece) (p q : process) (s : shm_system) (Hnew : new_pieces cs p q s) (Hcs : cs <> []).
Context (ndims : nat) (Hnd : (0 < ndims)%nat) (dims : list DVP_Dim_t).
Context (Hds : Forall2 (fun d c => block_size ndims d = pc_size c) (take (length cs) dims) cs).
Implicit Types (sl : slots) (hdls fds : list Z).

Lemma some_planes : (length cs =? 0)%nat = false /\ (ndims =? 0)%nat = false.
Proof. split; apply Nat.eqb_neq; [by destruct cs|lia]. Qed.

Lemma memory_calloc_spec sl hdls fds rands blocks : arrays_hold (length cs) dims sl hdls -> allocator_rand <$> rands = pc_un <$> cs ->
  exists sl1, let m1 := mkMemory true MEMORY_TYPE_VIRTUAL_SHARED (length cs) ndims dims sl1 ((pc_struct <$> cs) ++ drop (length cs) hdls) fds in
    allocator_memory_calloc blocks rands (owner_answer <$> cs) (shared_planes (length cs) ndims dims sl hdls fds) p s =
      Done (true, m1, owner_with cs p, system_with (seg_of zeroes 1 false) cs s) /\
    pointers m1 = pc_at <$> cs /\ (length cs <= length sl1)%nat.
Proof.
  intros Hl Hr. destruct some_planes as [H1 H2]. pose proof Hl as (_ & Hsl & Hh).
  destruct (owner_calloc cs p q s Hnew ndims (take (length cs) dims) (take (length cs) sl) (take (length cs) hdls) Hds) as (sl1 & He & Hf & Hlen);
    [rewrite length_take; lia..|].
  exists (sl1 ++ drop (length cs) sl). unfold allocator_memory_calloc, memory_calloc, shared_planes.
  cbn [allocated am_type am_nptrs am_ndims am_dims am_slots am_hdls]. rewrite H1, H2. cbn [orb]. unfold calloc_segments.
  rewrite (guard_arrays _ _ _ _ Hl), Hr, He. cbn [mbind outcome_bind]. split; [done|]. split.
  - by apply take_drop_fst.
  - rewrite length_app. lia.
Qed.

Lemma memory_import_spec content sl hdls fds more : good_content cs content -> arrays_hold (length cs) dims sl hdls ->
  fds = (pc_un <$> cs) ++ more ->
  exists sl1, let m1 := mkMemory true MEMORY_TYPE_VIRTUAL_SHARED (length cs) ndims dims sl1 ((pc_struct2 <$> cs) ++ drop (length cs) hdls) fds in
    allocator_memory_import (import_answer <$> cs) (shared_planes (length cs) ndims dims sl hdls fds) q (system_with (seg_of content 1 false) cs s) =
      Done (true, m1, importer_with cs q, shared_system cs s content) /\
    pointers m1 = pc_at2 <$> cs /\ (length cs <= length sl1)%nat.
Proof.
  intros Hg Hl ->. destruct some_planes as [H1 H2]. pose proof Hl as (_ & Hsl & Hh).
  destruct (importer_import cs p q s Hnew content ndims (take (length cs) dims) (take (length cs) sl) (take (length cs) hdls) (s32 <$> more) Hg Hds)
    as (sl1 & He & Hf & Hlen & _); [rewrite length_take; lia..|].
  exists (sl1 ++ drop (length cs) sl). unfold allocator_memory_import, allocator_import, shared_planes.
  cbn [allocated am_type am_nptrs am_ndims am_dims am_slots am_hdls am_fds]. rewrite H1, H2. cbn [orb]. unfold import_segments.
  rewrite (guard_arrays _ _ _ _ Hl), length_app, length_fmap, (proj2 (Nat.ltb_ge _ _)) by lia. cbn [orb].
  rewrite fmap_app, fmap_s32 by (apply Forall_fmap, Forall_forall; intros c Hc; by apply (np_new _ _ _ _ Hnew)).
  rewrite He. cbn [mbind outcome_bind]. split; [done|]. split.
  - by apply take_drop_fst.
  - rewrite length_app. lia.
Qed.

Lemma memory_share_spec m : allocated m = true -> am_type m = MEMORY_TYPE_VIRTUAL_SHARED -> am_nptrs m = length cs ->
  take (length cs) (am_hdls m) = pc_struct <$> cs -> (length cs <= length (am_fds m))%nat ->
  allocator_memory_share m (owner_with cs p) = Done (true, with_fds ((pc_un <$> cs) ++ drop (length cs) (am_fds m)) m).
Proof.
  intros Ha Ht Hn Hh Hf. unfold allocator_memory_share, allocator_share. rewrite Ha, Ht, Hn, (proj1 some_planes), Hh.
  assert (length cs <= length (am_hdls m))%nat as Hl.
  { apply (f_equal length) in Hh. rewrite length_take, length_fmap in Hh. lia. }
  rewrite (proj2 (Nat.ltb_ge _ _) Hl), (owner_shares cs p q s Hnew cs) by done. done.
Qed.

Lemma memory_free_spec m pr pr' s1 s2 : allocated m = true -> am_type m = MEMORY_TYPE_VIRTUAL_SHARED -> am_nptrs m = length cs ->
  (length cs <= length (am_slots m))%nat -> (length cs <= length (am_hdls m))%nat ->
  free_segments (take (length cs) (am_hdls m)) pr s1 = Done (pr', s2) ->
  exists m', allocator_memory_free m pr s1 = Done (true, m', pr', s2) /\ allocated m' = false /\ pointers m' = replicate (length cs) 0.
Proof.
  intros Ha Ht Hn Hl Hh Hf. unfold allocator_memory_free, memory_free. rewrite Ha, Ht, Hn, (proj1 some_planes), length_fmap.
  rewrite (proj2 (Nat.ltb_ge _ _) Hl), (proj2 (Nat.ltb_ge _ _) Hh). cbn [orb]. rewrite Hf. cbn [mbind outcome_bind].
  eexists. split; [reflexivity|]. split; [done|]. unfold pointers. cbn [with_memory am_nptrs am_slots]. rewrite Hn, fst_zip.
  - by rewrite take_app_length' by (by rewrite length_replicate).
  - rewrite length_app, length_replicate, length_drop, !length_fmap. lia.
Qed.
End Lifecycle.

(** C10: memory that one process allocates and shares and another imports is
    the same memory: with segments and addresses granted, every call
    succeeds; the bytes start as zeroes; whatever either process has stored
    meanwhile, what one stores through its pointers the other loads through
    its own; and when the importer and then the owner free it, both
    processes and the system are as they were before the allocation. *)
Theorem shared_memory_lifecycle cs p q s ndims dims sl hdls fds sl' hdls' rands blocks :
  new_pieces cs p q s -> cs <> [] -> (0 < ndims)%nat ->
  Forall2 (fun d c => block_size ndims d = pc_size c) (take (length cs) dims) cs ->
  arrays_hold (length cs) dims sl hdls -> arrays_hold (length cs) dims sl' hdls' -> (length cs <= length fds)%nat ->
  allocator_rand <$> rands = pc_un <$> cs ->
  exists m1 m2 n2 s1 s2,
    allocator_memory_calloc blocks rands (owner_answer <$> cs) (shared_planes (length cs) ndims dims sl hdls fds) p s =
      Done (true, m1, owner_with cs p, s1) /\
    allocator_memory_share m1 (owner_with cs p) = Done (true, m2) /\
    allocator_memory_import (import_answer <$> cs) (shared_planes (length cs) ndims dims sl' hdls' (am_fds m2)) q s1 =
      Done (true, n2, importer_with cs q, s2) /\
    pointers m2 = pc_at <$> cs /\ pointers n2 = pc_at2 <$> cs /\
    (forall c off, c ∈ cs -> 0 <= off < pc_size c -> shm_load (pc_at2 c) off (importer_with cs q) s2 = Some 0) /\
    forall s3, rtc (shared_write cs p q) s2 s3 ->
      (forall c off v, c ∈ cs -> 0 <= off < pc_size c ->
         (exists s4, shm_store (pc_at c) off v (owner_with cs p) s3 = Some s4 /\ shm_load (pc_at2 c) off (importer_with cs q) s4 = Some v) /\
         (exists s4, shm_store (pc_at2 c) off v (importer_with cs q) s3 = Some s4 /\ shm_load (pc_at c) off (owner_with cs p) s4 = Some v)) /\
      exists n3 m3 s4,
        allocator_memory_free n2 (importer_with cs q) s3 = Done (true, n3, q, s4) /\ allocated n3 = false /\
        allocator_memory_free m2 (owner_with cs p) s4 = Done (true, m3, p, s) /\ allocated m3 = false.
Proof.
  intros Hnew Hcs Hnd Hds Hl Hl' Hf Hr.
  assert (good_content cs zeroes) as Hz.
  { intros c Hc. destruct (np_new _ _ _ _ Hnew c Hc) as (_ & _ & _ & Hsz & _). unfold zeroes, zero_bytes. rewrite length_replicate. lia. }
  destruct (memory_calloc_spec cs p q s Hnew Hcs ndims Hnd dims Hds sl hdls fds rands blocks Hl Hr) as (sl1 & Ha & Hpt & Hn1).
  set (m1 := mkMemory true _ _ _ _ sl1 _ fds) in *.
  pose proof (memory_share_spec cs p q s Hnew Hcs ndims Hnd dims Hds m1 eq_refl eq_refl eq_refl) as Hsh. cbn [m1 am_hdls am_fds] in Hsh.
  rewrite take_app_length' in Hsh by (by rewrite length_fmap). specialize (Hsh eq_refl Hf). set (m2 := with_fds _ m1) in *.
  destruct (memory_import_spec cs p q s Hnew Hcs ndims Hnd dims Hds zeroes sl' hdls' (am_fds m2) _ Hz Hl' eq_refl) as (sl2 & Hi & Hpt2 & Hn2).
  set (n2 := mkMemory true _ _ _ _ sl2 _ _) in *.
  eexists m1, m2, n2, _, _. split; [exact Ha|]. split; [exact Hsh|]. split; [exact Hi|]. split; [exact Hpt|]. split; [exact Hpt2|].
  pose proof (owner_sees cs p q s Hnew) as Hso. pose proof (importer_sees cs p q s Hnew) as Hsi. split.
  { intros c off Hc Ho. rewrite (load_piece cs p q s Hnew) by done. unfold zeroes, zero_bytes. rewrite <- (Z2Nat.id off) by lia.
    rewrite aget_nat. apply lookup_replicate_2. lia. }
  intros s3 Hw. destruct (writes_keep_shape cs p q s Hnew _ _ Hw zeroes eq_refl Hz) as (content & -> & Hg). split.
  { intros c off v Hc Ho. split; by apply (store_load cs p q s Hnew). }
  destruct (release_both cs p q s Hnew content) as (s4 & Hf1 & Hf2).
  assert (length cs <= length sl1 /\ length cs <= length sl2)%nat as [Hsl1 Hsl2] by done.
  destruct (memory_free_spec cs p q s Hnew Hcs ndims Hnd dims Hds n2 (importer_with cs q) q (shared_system cs s content) s4) as (n3 & Hn3 & Han3 & _); try done.
  { cbn [n2 am_hdls]. rewrite length_app, length_fmap. lia. }
  { cbn [n2 am_hdls]. by rewrite take_app_length' by (by rewrite length_fmap). }
  destruct (memory_free_spec cs p q s Hnew Hcs ndims Hnd dims Hds m2 (owner_with cs p) p s4 s) as (m3 & Hm3 & Ham3 & _); try done.
  { cbn [m2 m1 with_fds am_hdls]. rewrite length_app, length_fmap. lia. }
  { cbn [m2 m1 with_fds am_hdls]. by rewrite take_app_length' by (by rewrite length_fmap). }
  by exists n3, m3, s4.
Qed.

(** Two planes of a 4x2 NV12 image. *)
Definition sample_pieces : list piece := [mkPiece 1 8 0 16 4096 24 8192; mkPiece 2 4 1 32 12288 40 16384].
Definition fresh_process : process := mkProcess empty_heap ∅ ∅.
Definition fresh_system : shm_system := mkShm ∅ ∅.
Lemma sample_new : new_pieces sample_pieces fresh_process fresh_process fresh_system.
Proof.
  split; [refine (bool_decide_unpack _ _); vm_compute; exact I..|].
  intros c [->|[->|[]%elem_of_nil]%elem_of_cons]%elem_of_cons; repeat (split; [try done; unfold is_s32; cbn; lia|]); done.
Qed.
Lemma shared_memory_lifecycle_witness : exists m1 m2 n2 s1 s2 q',
  allocator_memory_calloc [] [[1; 0; 0; 0]; [2; 0; 0; 0]] (owner_answer <$> sample_pieces)
    (shared_planes 2 3 nv12_dims [(0, no_dim); (0, no_dim)] [0; 0] [0; 0]) fresh_process fresh_system =
    Done (true, m1, owner_with sample_pieces fresh_process, s1) /\
  allocator_memory_share m1 (owner_with sample_pieces fresh_process) = Done (true, m2) /\ am_fds m2 = [1; 2] /\
  allocator_memory_import (import_answer <$> sample_pieces) (shared_planes 2 3 nv12_dims [(0, no_dim); (0, no_dim)] [0; 0] [1; 2]) fresh_process s1 =
    Done (true, n2, q', s2) /\
  exists s4, shm_store 4096 3 9 (owner_with sample_pieces fresh_process) s2 = Some s4 /\ shm_load 8192 3 q' s4 = Some 9.
Proof.
  destruct (shared_memory_lifecycle sample_pieces fresh_process fresh_process fresh_system 3 nv12_dims [(0, no_dim); (0, no_dim)] [0; 0] [0; 0]
    [(0, no_dim); (0, no_dim)] [0; 0] [[1; 0; 0; 0]; [2; 0; 0; 0]] []) as (m1 & m2 & n2 & s1 & s2 & Hc & Hs & Hi & _ & _ & _ & Hw);
    [exact sample_new|discriminate|lia|repeat constructor|split; [|split]; cbn; lia|split; [|split]; cbn; lia|cbn; lia|reflexivity|].
  destruct (Hw s2 (rtc_refl _ _)) as [Hl _]. destruct (Hl (mkPiece 1 8 0 16 4096 24 8192) 3 9) as [[s4 [Hs4 Hl4]] _]; [left|cbn; lia|].
  exists m1, m2, n2, s1, s2, (importer_with sample_pieces fresh_process). split; [exact Hc|]. split; [exact Hs|].
  assert (am_fds m2 = [1; 2]) as Hfd.
  { vm_compute in Hc. injection Hc as <- <-. vm_compute in Hs. injection Hs as <-. reflexivity. }
  split; [exact Hfd|]. split; [rewrite <- Hfd; exact Hi|]. exists s4. split; [exact Hs4|exact Hl4].
Defined.

(** The first release takes the name away although others are attached: a
    process that imports after that is told that it succeeded, and gets
    memory of its own instead of the owner's. *)
Theorem release_takes_name_away : exists p1 s1 p2 s2 s3 q4 s4 p5 s5 s6,
  shared_alloc 1 8 (mkAnswer 16 (Some 0) (Some 4096)) fresh_process fresh_system = Done (16, p1, s1) /\
  shared_alloc 1 8 (mkAnswer 16 None (Some 4096)) fresh_process s1 = Done (16, p2, s2) /\
  shm_store 4096 0 9 p1 s2 = Some s3 /\ shm_load 4096 0 p2 s3 = Some 9 /\
  shared_free 16 p2 s3 = Done (q4, s4) /\
  shared_alloc 1 8 (mkAnswer 16 (Some 1) (Some 4096)) fresh_process s4 = Done (16, p5, s5) /\
  shm_load 4096 0 p5 s5 = Some 0 /\ shm_store 4096 0 7 p1 s5 = Some s6 /\ shm_load 4096 0 p5 s6 = Some 0.
Proof. do 10 eexists. repeat (split; [vm_compute; reflexivity|]). vm_compute. reflexivity. Qed.
