(* ===== verification/SharedImage.v ===== *)
(** * Sharing images and buffers (source/dvp/dvp_kgraph/dvp_mem_int.c, dvp_mem.c)

    The calls that hand the memory of images and buffers to other processes,
    and what the graph manager library asks of caches.  The handle is the
    boss's and not null; remote procedure calls are the stub's. *)
From S2P Require Import Prelude DvpTypes Memory Image Allocator ImageAlloc AllocProperties Shared SharedProperties.

(** The stub knows no handle of any pointer. *)
Definition dvp_rpc_get_handle (ptr : Z) : Z := 0.

(** Nothing needs a cache operation on this build. *)
Definition allocator_flush (nptrs ndims : Z) : bool := negb ((nptrs <=? 0) || (ndims <=? 0)).
Definition allocator_invalidate (nptrs ndims : Z) : bool := negb ((nptrs <=? 0) || (ndims <=? 0)).

(** The handles of [nptrs] pointers, in an array of [DVP_MAX_PLANES] *)
Definition get_handles (nptrs : Z) (ptrs : list Z) : outcome (list Z) :=
  ofold (fun hdls p => ptr ← of_option (aget ptrs p); of_option (aset hdls p (dvp_rpc_get_handle ptr)))
        (seqZ 0 nptrs) no_pointers.
Definition dvp_mem_flush (nptrs ndims : Z) (ptrs : list Z) : outcome Z :=
  if 0 <? nptrs then
    _ ← get_handles nptrs ptrs;
    Done (if allocator_flush nptrs ndims then DVP_TRUE else DVP_FALSE)
  else Done DVP_TRUE.
Definition dvp_mem_invalidate (nptrs ndims : Z) (ptrs : list Z) : outcome Z :=
  if 0 <? nptrs then
    _ ← get_handles nptrs ptrs;
    Done (if allocator_invalidate nptrs ndims then DVP_TRUE else DVP_FALSE)
  else Done DVP_TRUE.

Definition dvp_mem_share (mtype nptrs : Z) (ptrs fds : list Z) (p : process) : outcome (Z * list Z) :=
  if 0 <? nptrs then
    hdls ← get_handles nptrs ptrs;
    '(ok, fds) ← allocator_share (dvp_mem_type_xlate mtype) (Z.to_nat nptrs) hdls fds p;
    Done (if ok : bool then DVP_TRUE else DVP_FALSE, fds)
  else Done (DVP_TRUE, fds).

Definition dvp_mem_import (mtype : Z) (nptrs ndims : nat) (dims : list DVP_Dim_t) (sl : slots) (fds hdls : list Z)
    (answers : list shm_answer) (p : process) (s : shm_system) : outcome (Z * slots * list Z * process * shm_system) :=
  if (nptrs =? 0)%nat || (ndims =? 0)%nat then Done (DVP_FALSE, sl, hdls, p, s)
  else
    '(ok, sl, hdls, p, s) ← allocator_import (dvp_mem_type_xlate mtype) nptrs ndims dims sl hdls fds answers p s;
    Done (if ok : bool then DVP_TRUE else DVP_FALSE, sl, hdls, p, s).

Definition dvp_mem_free_import (mtype : Z) (ndims : nat) (dims : list DVP_Dim_t) (nptrs : nat) (ptrs hdls : list Z)
    (p : process) (s : shm_system) : outcome (Z * list Z * list Z * process * shm_system) :=
  if (nptrs =? 0)%nat || (ndims =? 0)%nat then Done (DVP_FALSE, ptrs, hdls, p, s)
  else
    _ ← ofold (fun dummyHdls i =>
          d ← of_option (aget dims i);
          a ← of_option (aget ptrs i);
          hdl ← of_option (aget dummyHdls i);
          of_option (aset dummyHdls i (dvp_rpc_dissociate a hdl (stride_loop (dims_of ndims d) 0 1 no_dim).1 mtype).2))
        (seqZ 0 (Z.of_nat nptrs)) no_pointers;
    '(ok, ptrs, hdls, p, s) ← memory_free (dvp_mem_type_xlate mtype) nptrs ptrs hdls p s;
    Done (if ok : bool then DVP_TRUE else DVP_FALSE, ptrs, hdls, p, s).

(** ** Images *)

Definition DVP_Image_Share (i : DVP_Image_t) (fds : list Z) (p : process) : outcome (Z * list Z) :=
  if negb (memType i =? DVP_MTYPE_DISPLAY_2DTILED)
  then dvp_mem_share (memType i) (s32 (planes i)) (pBuffer i) fds p
  else Done (DVP_FALSE, fds).

(** [numBytes] gets the size of the first plane only. *)
Definition DVP_Image_Import (i : DVP_Image_t) (shared_fds hdls : list Z) (answers : list shm_answer) (p : process)
    (s : shm_system) : outcome (Z * DVP_Image_t * list Z * process * shm_system) :=
  if negb (memType i =? DVP_MTYPE_DISPLAY_2DTILED) then
    dims ← DVP_Image_Dims i;
    let strides := replicate (Z.to_nat DVP_MAX_PLANES) no_dim in
    '(ret, sl, hdls, p, s) ← dvp_mem_import (memType i) (nptrs_of i) 3 dims (zip (pBuffer i) strides) shared_fds hdls
                               answers p s;
    let i := set_pBuffer sl.*1 i in
    if ret =? DVP_TRUE then
      i ← assign_data i;
      st ← of_option (sl !! 0%nat);
      Done (DVP_TRUE, set_numBytes (u32 (dim2 st.2)) (set_strides (dim0 st.2) (dim1 st.2) i), hdls, p, s)
    else Done (DVP_FALSE, i, hdls, p, s)
  else Done (DVP_FALSE, i, hdls, p, s).

Definition DVP_Image_Free_Import (i : DVP_Image_t) (hdls : list Z) (p : process) (s : shm_system)
    : outcome (Z * DVP_Image_t * list Z * process * shm_system) :=
  if negb (memType i =? DVP_MTYPE_DISPLAY_2DTILED) then
    dims ← DVP_Image_Dims i;
    '(ret, ptrs, hdls, p, s) ← dvp_mem_free_import (memType i) 3 dims (nptrs_of i) (pBuffer i) hdls p s;
    Done (ret, set_pBuffer ptrs i, hdls, p, s)
  else Done (DVP_FALSE, i, hdls, p, s).

(** ** Buffers *)

Definition DVP_Buffer_Share (b : DVP_Buffer_t) (shared_fd : Z) (p : process) : outcome (Z * Z) :=
  '(ret, fds) ← dvp_mem_share (b_memType b) 1 [b_pData b] [shared_fd] p;
  fd ← of_option (fds !! 0%nat);
  Done (ret, fd).

Definition DVP_Buffer_Import (b : DVP_Buffer_t) (shared_fd hdl : Z) (answers : list shm_answer) (p : process) (s : shm_system)
    : outcome (Z * DVP_Buffer_t * Z * process * shm_system) :=
  dims ← buffer_dims b;
  '(ret, sl, hdls, p, s) ← dvp_mem_import (b_memType b) 1 2 dims [(0, no_dim)] [shared_fd] [hdl] answers p s;
  hdl ← of_option (hdls !! 0%nat);
  if ret =? DVP_TRUE then
    st ← of_option (sl !! 0%nat);
    Done (DVP_TRUE, mkBuffer st.1 (elemSize b) (b_numBytes b) (b_memType b), hdl, p, s)
  else Done (DVP_FALSE, b, hdl, p, s).

(** The handle is a copy: the caller keeps its own. *)
Definition DVP_Buffer_Free_Import (b : DVP_Buffer_t) (hdl : Z) (p : process) (s : shm_system)
    : outcome (Z * DVP_Buffer_t * process * shm_system) :=
  dims ← buffer_dims b;
  '(ret, ptrs, _, p, s) ← dvp_mem_free_import (b_memType b) 2 dims 1 [b_pData b] [hdl] p s;
  ptr ← of_option (ptrs !! 0%nat);
  Done (ret, mkBuffer ptr (elemSize b) (b_numBytes b) (b_memType b), p, s).

(** With the stub no handle is known: sharing the memory of an image or a
    buffer goes through a null pointer. *)
Lemma get_handles_null nptrs ptrs : 0 <= nptrs <= DVP_MAX_PLANES -> nptrs <= Z.of_nat (length ptrs) ->
  get_handles nptrs ptrs = Done no_pointers.
Proof.
  intros Hn Hl. unfold get_handles. match goal with |- ofold ?f ?l _ = _ =>
    destruct (fun H => ofold_total f (fun _ hs => hs = no_pointers) l H no_pointers eq_refl) as (hs & -> & ->) end; [|done].
  intros pre i post hs Hpre ->. assert (0 <= i < nptrs) as Hi.
  { assert (i ∈ seqZ 0 nptrs) as Hin by (rewrite Hpre; apply elem_of_app; right; by left). apply elem_of_seqZ in Hin. lia. }
  destruct (aget_in_range ptrs i) as [a ->]; [lia|]. unfold DVP_MAX_PLANES in Hn.
  assert (i = 0 \/ i = 1 \/ i = 2 \/ i = 3) as [->|[->|[->| ->]]] by lia; by eexists.
Qed.

Theorem stub_share_dereferences_null i fds p : memType i = DVP_MTYPE_MPUCACHED_VIRTUAL_SHARED ->
  0 < planes i <= DVP_MAX_PLANES -> length (pBuffer i) = 4%nat -> fds <> [] -> DVP_Image_Share i fds p = Undef.
Proof.
  intros Ht Hp Hb Hf. unfold DVP_Image_Share, dvp_mem_share. rewrite Ht. change (negb _) with true. cbv iota.
  unfold DVP_MAX_PLANES in Hp. rewrite s32_small by (unfold is_s32; lia). rewrite (proj2 (Z.ltb_lt 0 _)) by lia.
  rewrite get_handles_null by (rewrite ?Hb; unfold DVP_MAX_PLANES; lia). cbn [mbind outcome_bind].
  change (dvp_mem_type_xlate _) with MEMORY_TYPE_VIRTUAL_SHARED. unfold allocator_share.
  destruct (Z.to_nat (planes i)) as [|n] eqn:Hn; [lia|]. cbn [Nat.eqb].
  rewrite (proj2 (Nat.ltb_ge _ _)) by (change (length no_pointers) with 4%nat; lia).
  destruct fds as [|f fds]; [done|]. reflexivity.
Qed.
Lemma stub_share_dereferences_null_witness : DVP_Image_Share (set_memType DVP_MTYPE_MPUCACHED_VIRTUAL_SHARED (DVP_Image_Init 4 2 FOURCC_NV12)) [0; 0] fresh_process = Undef.
Proof. apply stub_share_dereferences_null; [reflexivity|vm_compute; split; congruence|reflexivity|discriminate]. Defined.

Lemma free_import_spec mtype ndims dims nptrs ptrs hdls p s : (0 < nptrs <= 4)%nat -> (0 < ndims)%nat ->
  (nptrs <= length dims)%nat -> (nptrs <= length ptrs)%nat ->
  dvp_mem_free_import mtype ndims dims nptrs ptrs hdls p s =
    ('(ok, ptrs, hdls, p, s) ← memory_free (dvp_mem_type_xlate mtype) nptrs ptrs hdls p s;
     Done (if ok : bool then DVP_TRUE else DVP_FALSE, ptrs, hdls, p, s)).
Proof.
  intros Hp Hn Hd Hl. unfold dvp_mem_free_import.
  rewrite (proj2 (Nat.eqb_neq nptrs 0)), (proj2 (Nat.eqb_neq ndims 0)) by lia. cbn [orb].
  match goal with |- (ofold ?f ?l _ ≫= _) = _ =>
    destruct (fun H => ofold_total f (fun _ hs => hs = no_pointers) l H no_pointers eq_refl) as (hs & -> & ->) end; [|done].
  intros pre i post hs Hpre ->. assert (0 <= i < Z.of_nat nptrs) as Hi.
  { assert (i ∈ seqZ 0 (Z.of_nat nptrs)) as Hin by (rewrite Hpre; apply elem_of_app; right; by left). apply elem_of_seqZ in Hin. lia. }
  destruct (aget_in_range dims i) as [d ->]; [lia|]. destruct (aget_in_range ptrs i) as [a ->]; [lia|].
  assert (i = 0 \/ i = 1 \/ i = 2 \/ i = 3) as [->|[->|[->| ->]]] by lia; by eexists.
Qed.

Lemma dims_length i : planes i <= DVP_MAX_PLANES -> exists ds, DVP_Image_Dims i = Done ds /\ length ds = 4%nat.
Proof.
  intros Hp. unfold DVP_Image_Dims. rewrite (proj2 (Z.ltb_ge _ _) Hp).
  repeat (destruct (one_of _ _); [by eexists|]). eexists. split; [reflexivity|]. by rewrite length_fmap, length_seqZ.
Qed.

Lemma u32_s32 z : u32 (s32 z) = u32 z.
Proof. apply s32_mod. Qed.

Section ImageImport.
Context (cs : list piece) (p q : process) (s : shm_system) (Hnew : new_pieces cs p q s).
Context (i : DVP_Image_t) (ds : list DVP_Dim_t) (Hdims : DVP_Image_Dims i = Done ds) (Hlen : length ds = 4%nat).
Context (Ht : memType i = DVP_MTYPE_MPUCACHED_VIRTUAL_SHARED) (Hpl : In (planes i) [1; 2; 3]).
Context (Hpb : pBuffer i = no_pointers) (Hpd : pData i = no_pointers).
Context (Hn : Z.of_nat (length cs) = planes i) (Hds : Forall2 (fun d c => block_size 3 d = pc_size c) (take (length cs) ds) cs).

Definition import_ptrs : list Z := (pc_at2 <$> cs) ++ drop (length cs) no_pointers.
(** The image an import leaves: the size is that of the first plane. *)
Definition imported_image (d : DVP_Dim_t) : DVP_Image_t :=
  let st := (stride_loop (dims_of 3 d) 0 1 no_dim).2 in
  set_numBytes (u32 (dim2 st)) (set_strides (dim0 st) (dim1 st) (set_pData import_ptrs (set_pBuffer import_ptrs i))).

Lemma planes_nat : nptrs_of i = length cs /\ (0 < length cs <= 3)%nat.
Proof. unfold nptrs_of. destruct Hpl as [H|[H|[H|[]]]]; rewrite <- H in *; vm_compute s32; lia. Qed.
Lemma import_ptrs_length : length import_ptrs = 4%nat.
Proof. unfold import_ptrs. rewrite length_app, length_fmap, length_drop. change (length no_pointers) with 4%nat. pose proof planes_nat. lia. Qed.

Lemma image_import_spec content fds hdls more d : good_content cs content -> ds !! 0%nat = Some d -> fds = (pc_un <$> cs) ++ more ->
  (length cs <= length hdls)%nat ->
  DVP_Image_Import i fds hdls (import_answer <$> cs) q (system_with (seg_of content 1 false) cs s) =
    Done (DVP_TRUE, imported_image d, (pc_struct2 <$> cs) ++ drop (length cs) hdls, importer_with cs q, shared_system cs s content).
Proof.
  intros Hg Hd0 -> Hh. destruct planes_nat as [Hnp Hc]. unfold DVP_Image_Import. rewrite Ht, Hdims, Hnp, Hpb. change (negb _) with true. cbv iota.
  cbn [mbind outcome_bind]. unfold dvp_mem_import, allocator_import. rewrite (proj2 (Nat.eqb_neq (length cs) 0)) by lia. cbn [orb Nat.eqb].
  change (dvp_mem_type_xlate _) with MEMORY_TYPE_VIRTUAL_SHARED. unfold import_segments.
  set (sl := zip no_pointers _). assert (length sl = 4%nat) as Hsl by reflexivity.
  rewrite Hlen, Hsl, length_app, length_fmap, !(proj2 (Nat.ltb_ge _ _)) by lia. cbn [orb].
  rewrite fmap_app, fmap_s32 by (apply Forall_fmap, Forall_forall; intros c Hin; by apply (np_new _ _ _ _ Hnew)).
  destruct (importer_import cs p q s Hnew content 3 (take (length cs) ds) (take (length cs) sl) (take (length cs) hdls) (s32 <$> more) Hg Hds)
    as (sl1 & He & Hf & Hl1 & Hst); [rewrite length_take; lia..|].
  rewrite He. cbn [mbind outcome_bind]. unfold slots in *.
  assert ((sl1 ++ drop (length cs) sl).*1 = import_ptrs) as Hptr.
  { rewrite fmap_app, Hf. unfold import_ptrs. f_equal. rewrite fmap_drop. reflexivity. }
  rewrite Hptr. change (DVP_TRUE =? DVP_TRUE) with true. cbv iota. rewrite assign_data_spec.
  - cbn [mbind outcome_bind]. assert (exists a, sl1 !! 0%nat = Some (a, (stride_loop (dims_of 3 d) 0 1 no_dim).2)) as [a Ha].
    { assert (sl1.*2 !! 0%nat = Some (stride_loop (dims_of 3 d) 0 1 no_dim).2) as H0.
      { rewrite Hst, lookup_zip_with, !lookup_take_lt by lia. rewrite Hd0. reflexivity. }
      clear -H0. destruct sl1 as [|[a st] sl1]; [discriminate H0|]. injection H0 as ->. by exists a. }
    replace ((sl1 ++ drop (length cs) sl) !! 0%nat) with (Some (a, (stride_loop (dims_of 3 d) 0 1 no_dim).2)) by (symmetry; rewrite lookup_app_l by lia; exact Ha). cbn [of_option mbind outcome_bind snd]. unfold imported_image. cbn [pBuffer set_pBuffer]. reflexivity.
  - cbn [pData set_pBuffer]. by rewrite Hpd.
  - apply import_ptrs_length.
  - exact Hpl.
  - cbn [pData pBuffer planes set_pBuffer]. rewrite Hpd, <- Hn, Nat2Z.id. unfold import_ptrs.
    by rewrite drop_app_length' by (by rewrite length_fmap).
Qed.

(** Releasing an imported image, whatever its planes hold by then. *)
Lemma image_free_import_spec content hdls d : (length cs <= length hdls)%nat -> take (length cs) hdls = pc_struct2 <$> cs -> exists i' s1,
  DVP_Image_Free_Import (imported_image d) hdls (importer_with cs q) (shared_system cs s content) =
    Done (DVP_TRUE, i', replicate (length cs) 0 ++ drop (length cs) hdls, q, s1) /\ pBuffer i' = no_pointers /\
  free_segments (pc_struct <$> cs) (owner_with cs p) s1 = Done (p, s).
Proof.
  intros Hh Hth. destruct planes_nat as [Hnp Hc]. destruct (release_both cs p q s Hnew content) as (s1 & Hf1 & Hf2).
  destruct (dims_length (imported_image d)) as (ds' & Hd' & Hl'); [unfold DVP_MAX_PLANES; change (planes (imported_image d)) with (planes i); lia|].
  exists (set_pBuffer no_pointers (imported_image d)), s1. unfold DVP_Image_Free_Import.
  change (memType (imported_image d)) with (memType i). change (nptrs_of (imported_image d)) with (nptrs_of i).
  change (pBuffer (imported_image d)) with import_ptrs. rewrite Ht, Hnp, Hd'. change (negb _) with true. cbv iota. cbn [mbind outcome_bind].
  rewrite free_import_spec by (rewrite ?import_ptrs_length; lia). change (dvp_mem_type_xlate _) with MEMORY_TYPE_VIRTUAL_SHARED.
  unfold memory_free. rewrite (proj2 (Nat.eqb_neq (length cs) 0)), import_ptrs_length, !(proj2 (Nat.ltb_ge _ _)) by lia. cbn [orb].
  rewrite Hth, Hf1. cbn [mbind outcome_bind]. split; [|split; [done|exact Hf2]]. do 4 f_equal. unfold import_ptrs.
  rewrite drop_app_length' by (by rewrite length_fmap). f_equal. change no_pointers with (replicate 4 0) at 1.
  assert (length cs = 1 \/ length cs = 2 \/ length cs = 3)%nat as [->|[->| ->]] by lia; reflexivity.
Qed.
End ImageImport.


Definition sample_shared_image : DVP_Image_t := set_memType DVP_MTYPE_MPUCACHED_VIRTUAL_SHARED (DVP_Image_Init 4 2 FOURCC_NV12).
