(* ===== verification/Ring.v ===== *)
(** * The ring buffer (source/sosal/ring.c)

    The four pointers are offsets into the byte array: [start] is 0 and
    [end] is [totalNumBytes].  The reference is the sequence of bytes
    between [front] and [back]. *)
From S2P Require Import Prelude.

Record ring_t : Set := mkRing {
  totalNumBytes : Z; numBytesUsed : Z; numBytesFree : Z;
  front : Z; back : Z; store : list Z }.

(** [memcpy] into and out of the array. *)
Definition blit (l : list Z) (off : Z) (bs : list Z) : option (list Z) :=
  if (0 <=? off) && (off + Z.of_nat (length bs) <=? Z.of_nat (length l))
  then Some (take (Z.to_nat off) l ++ bs ++ drop (Z.to_nat off + length bs) l) else None.
Definition slice (l : list Z) (off n : Z) : option (list Z) :=
  if (0 <=? off) && (0 <=? n) && (off + n <=? Z.of_nat (length l))
  then Some (take (Z.to_nat n) (drop (Z.to_nat off) l)) else None.

(** [allocs] is whether the two allocations succeed. *)
Definition ring_create (total : Z) (allocs : bool * bool) : option ring_t :=
  if allocs.1 && allocs.2
  then Some (mkRing total 0 total 0 0 (replicate (Z.to_nat total) 0)) else None.

(** [live] counts the blocks in use. *)
Definition ring_destroy (rb : option ring_t) (live : Z) : Z := match rb with None => live | Some _ => live - 2 end.

(** [memcpy(rb->back, b, n); rb->back = bk; free -= n; used += n] *)
Definition put (rb : ring_t) (bs : list Z) (bk : Z) : outcome ring_t :=
  let n := Z.of_nat (length bs) in
  s ← of_option (blit (store rb) (back rb) bs);
  Done (mkRing (totalNumBytes rb) (u64 (numBytesUsed rb + n)) (u64 (numBytesFree rb - n)) (front rb) bk s).

(** The part that goes to the end of the array and on from its start. *)
Definition put_wrapped (rb : ring_t) (b : list Z) (end_to_back : Z) : outcome ring_t :=
  let left_over := u64 (Z.of_nat (length b) - end_to_back) in
  rb ← put rb (take (Z.to_nat end_to_back) b) 0;
  if 0 <? left_over
  then put rb (drop (Z.to_nat end_to_back) b) left_over
  else Done rb.

Definition ring_write (rb : ring_t) (b : list Z) : outcome (Z * ring_t) :=
  let len := Z.of_nat (length b) in
  if numBytesFree rb <? len then Done (0, rb)
  else if len =? 1 then
    let bk := back rb + 1 in
    rb ← put rb b (if bk =? totalNumBytes rb then 0 else bk); Done (1, rb)
  else if front rb <? back rb then
    let end_to_back := totalNumBytes rb - back rb in
    if len <? end_to_back then rb ← put rb b (back rb + len); Done (len, rb)
    else rb ← put_wrapped rb b end_to_back; Done (len, rb)
  else if back rb <? front rb then
    if len <=? front rb - back rb then rb ← put rb b (back rb + len); Done (len, rb)
    else Undef
  else if numBytesFree rb =? 0 then Undef
  else if numBytesUsed rb =? 0 then
    if totalNumBytes rb <? len then Undef
    else
      let end_to_back := totalNumBytes rb - back rb in
      if len <? end_to_back then rb ← put rb b (back rb + len); Done (len, rb)
      else rb ← put_wrapped rb b end_to_back; Done (len, rb)
  else if u64 (numBytesFree rb + numBytesUsed rb) =? totalNumBytes rb then Done (0, rb)
  else Undef.

(** [memcpy(b, rb->front, n); rb->front = fr; free += n; used -= n] *)
Definition get (rb : ring_t) (n fr : Z) : outcome (list Z * ring_t) :=
  bs ← of_option (slice (store rb) (front rb) n);
  Done (bs, mkRing (totalNumBytes rb) (u64 (numBytesUsed rb - n)) (u64 (numBytesFree rb + n)) fr (back rb) (store rb)).

Definition get_wrapped (rb : ring_t) (len end_to_front : Z) : outcome (Z * list Z * ring_t) :=
  let left_over := u64 (len - end_to_front) in
  '(b1, rb) ← get rb end_to_front 0;
  if 0 <? left_over then
    let back_to_start := back rb in
    let readLen := if left_over <=? back_to_start then left_over else back_to_start in
    if 0 <? readLen then
      '(b2, rb) ← get rb readLen (front rb + readLen);
      Done (u64 (end_to_front + readLen), b1 ++ b2, rb)
    else Done (u64 (end_to_front + readLen), b1, rb)
  else Done (u64 end_to_front, b1, rb).

(** The count and the bytes put into the caller's buffer. *)
Definition ring_read (rb : ring_t) (len : Z) : outcome (Z * list Z * ring_t) :=
  if numBytesUsed rb =? 0 then Done (0, [], rb)
  else if len =? 1 then
    let fr := front rb + 1 in
    '(b, rb) ← get rb 1 (if fr =? totalNumBytes rb then 0 else fr); Done (1, b, rb)
  else if front rb <? back rb then
    let back_to_front := back rb - front rb in
    let n := if len <? back_to_front then len else back_to_front in
    '(b, rb) ← get rb n (front rb + n); Done (n, b, rb)
  else if back rb <? front rb then
    let end_to_front := totalNumBytes rb - front rb in
    if len <? end_to_front then '(b, rb) ← get rb len (front rb + len); Done (len, b, rb)
    else get_wrapped rb len end_to_front
  else if numBytesFree rb =? 0 then
    let end_to_front := totalNumBytes rb - front rb in
    if len <? end_to_front then '(b, rb) ← get rb len (front rb + len); Done (len, b, rb)
    else get_wrapped rb len end_to_front
  else if u64 (numBytesFree rb + numBytesUsed rb) =? totalNumBytes rb then Done (0, [], rb)
  else Undef.

(** ** The reference *)

(** The position of the [k]-th byte of the ring. *)
Definition at_index (rb : ring_t) (k : Z) : Z :=
  let j := front rb + k in if j <? totalNumBytes rb then j else j - totalNumBytes rb.

Record ring_ok (rb : ring_t) : Prop := {
  ro_total : 0 < totalNumBytes rb < 2 ^ 64;
  ro_store : Z.of_nat (length (store rb)) = totalNumBytes rb;
  ro_count : 0 <= numBytesUsed rb /\ numBytesUsed rb + numBytesFree rb = totalNumBytes rb;
  ro_used : numBytesUsed rb <= totalNumBytes rb;
  ro_front : 0 <= front rb < totalNumBytes rb;
  ro_back : back rb = at_index rb (numBytesUsed rb) }.

Definition contents (rb : ring_t) : list Z :=
  take (Z.to_nat (numBytesUsed rb)) (drop (Z.to_nat (front rb)) (store rb) ++ take (Z.to_nat (front rb)) (store rb)).

(** ** The two primitive moves *)

Lemma blit_Some l off bs : 0 <= off -> off + Z.of_nat (length bs) <= Z.of_nat (length l) ->
  blit l off bs = Some (take (Z.to_nat off) l ++ bs ++ drop (Z.to_nat off + length bs) l).
Proof. intros ? ?. unfold blit. by rewrite !(proj2 (Z.leb_le _ _)) by lia. Qed.
Lemma blit_length (l bs : list Z) (b : nat) : (b + length bs <= length l)%nat ->
  length (take b l ++ bs ++ drop (b + length bs) l) = length l.
Proof. intros. rewrite !length_app, length_take, length_drop. lia. Qed.

(** Bytes put behind the used ones, before or after the array's end. *)
Lemma rotate_put_high (l bs : list Z) (F U : nat) :
  (F + U + length bs <= length l)%nat ->
  take (U + length bs) (drop F (take (F + U) l ++ bs ++ drop (F + U + length bs) l) ++
                        take F (take (F + U) l ++ bs ++ drop (F + U + length bs) l)) =
  take U (drop F l ++ take F l) ++ bs.
Proof.
  intros H. rewrite (take_app_le (drop F l)) by (rewrite length_drop; lia).
  rewrite drop_app_le by (rewrite length_take; lia).
  replace (drop F (take (F + U) l)) with (take U (drop F l)) by (rewrite take_drop_commute; done).
  assert (length (take U (drop F l)) = U) as Hl by (rewrite length_take, length_drop; lia).
  rewrite <- !app_assoc. rewrite (take_app_add' (take U (drop F l))) by done.
  by rewrite take_app_length.
Qed.

Lemma rotate_put_low (l bs : list Z) (F b : nat) :
  (F <= length l)%nat -> (b + length bs <= F)%nat ->
  take (length l - F + b + length bs)
    (drop F (take b l ++ bs ++ drop (b + length bs) l) ++ take F (take b l ++ bs ++ drop (b + length bs) l)) =
  take (length l - F + b) (drop F l ++ take F l) ++ bs.
Proof.
  intros HF Hb.
  assert (drop F (take b l ++ bs ++ drop (b + length bs) l) = drop F l) as ->.
  { rewrite drop_app_ge by (rewrite length_take; lia). rewrite drop_app_ge by (rewrite length_take; lia).
    rewrite drop_drop, length_take. f_equal. lia. }
  replace (length l - F + b + length bs)%nat with (length l - F + (b + length bs))%nat by lia.
  rewrite !(take_app_add' (drop F l)) by (rewrite length_drop; lia). rewrite <- app_assoc. f_equal.
  rewrite !take_take, Nat.min_l, Nat.min_l by lia.
  rewrite take_app_add' by (rewrite length_take; lia). by rewrite take_app_length.
Qed.

Lemma ring_back_cases rb : ring_ok rb ->
  (front rb + numBytesUsed rb < totalNumBytes rb /\ back rb = front rb + numBytesUsed rb) \/
  (totalNumBytes rb <= front rb + numBytesUsed rb /\ back rb = front rb + numBytesUsed rb - totalNumBytes rb).
Proof.
  intros [_ _ _ _ _ Hb]. rewrite Hb. unfold at_index. destruct (Z.ltb_spec (front rb + numBytesUsed rb) (totalNumBytes rb)); lia.
Qed.

(** Room up to [front] when the ring has wrapped, up to the end otherwise. *)
Lemma put_spec rb bs bk : ring_ok rb ->
  Z.of_nat (length bs) <= numBytesFree rb ->
  (front rb + numBytesUsed rb < totalNumBytes rb -> back rb + Z.of_nat (length bs) <= totalNumBytes rb) ->
  bk = at_index rb (numBytesUsed rb + Z.of_nat (length bs)) ->
  exists rb', put rb bs bk = Done rb' /\ ring_ok rb' /\ contents rb' = contents rb ++ bs /\
    totalNumBytes rb' = totalNumBytes rb /\ front rb' = front rb /\ back rb' = bk /\
    numBytesUsed rb' = numBytesUsed rb + Z.of_nat (length bs).
Proof.
  intros Hok Hlen Hroom ->. pose proof (ring_back_cases rb Hok) as Hb.
  destruct Hok as [Htot Hst [Hu Hc] Hut Hf Hbk]. unfold put.
  rewrite blit_Some by lia. cbn [of_option mbind outcome_bind].
  rewrite !u64_small by (unfold is_u64; lia). eexists. split; [reflexivity|].
  split; [|split; [|done]].
  - split; cbn [totalNumBytes numBytesUsed numBytesFree front back store]; try lia.
    + rewrite blit_length; [done|lia].
    + unfold at_index. cbn [totalNumBytes front]. done.
  - unfold contents. cbn [numBytesUsed front store].
    rewrite Z2Nat.inj_add, Nat2Z.id by lia. destruct Hb as [[Hlt Hb]|[Hge Hb]]; rewrite Hb.
    + rewrite (Z2Nat.inj_add (front rb)) by lia. apply rotate_put_high. lia.
    + replace (Z.to_nat (numBytesUsed rb)) with
        (length (store rb) - Z.to_nat (front rb) + Z.to_nat (front rb + numBytesUsed rb - totalNumBytes rb))%nat by lia.
      apply rotate_put_low; lia.
Qed.

Lemma take_add (l : list Z) (a b : nat) : take (a + b) l = take a l ++ take b (drop a l).
Proof.
  revert a. induction l as [|x l IH]; intros a; [by rewrite drop_nil, !take_nil|].
  destruct a as [|a]; [done|]. cbn. by rewrite IH.
Qed.

Lemma slice_Some l off n : 0 <= off -> 0 <= n -> off + n <= Z.of_nat (length l) ->
  slice l off n = Some (take (Z.to_nat n) (drop (Z.to_nat off) l)).
Proof. intros ? ? ?. unfold slice. by rewrite !(proj2 (Z.leb_le _ _)) by lia. Qed.

Lemma rotate_get (l : list Z) (F U n : nat) :
  (F + n <= length l)%nat -> (n <= U)%nat -> (U <= length l)%nat ->
  take n (drop F l) = take n (take U (drop F l ++ take F l)) /\
  take (U - n) (drop (F + n) l ++ take (F + n) l) = drop n (take U (drop F l ++ take F l)).
Proof.
  intros HF Hn HU. split.
  - rewrite take_take, Nat.min_l by lia. by rewrite take_app_le by (rewrite length_drop; lia).
  - replace (take U (drop F l ++ take F l)) with (take (n + (U - n)) (drop F l ++ take F l)) by (f_equal; lia).
    rewrite <- take_drop_commute. rewrite drop_app_le by (rewrite length_drop; lia). rewrite drop_drop.
    destruct (Nat.le_gt_cases (U - n) (length (drop (F + n) l))) as [Hle|Hgt].
    + by rewrite !take_app_le by done.
    + rewrite !take_app_ge by lia. f_equal. rewrite !take_take. rewrite length_drop in *.
      f_equal. lia.
Qed.
Lemma rotate_zero (l : list Z) (k : nat) : (k <= length l)%nat ->
  take k (drop 0 l ++ take 0 l) = take k (drop (length l) l ++ take (length l) l).
Proof. intros H. rewrite drop_0, take_0, app_nil_r, drop_all, firstn_all. done. Qed.

Lemma get_spec rb n fr : ring_ok rb -> 0 <= n <= numBytesUsed rb -> front rb + n <= totalNumBytes rb ->
  fr = (if front rb + n =? totalNumBytes rb then 0 else front rb + n) ->
  exists rb', get rb n fr = Done (take (Z.to_nat n) (contents rb), rb') /\ ring_ok rb' /\
    contents rb' = drop (Z.to_nat n) (contents rb) /\
    totalNumBytes rb' = totalNumBytes rb /\ front rb' = fr /\ back rb' = back rb /\
    numBytesUsed rb' = numBytesUsed rb - n.
Proof.
  intros Hok Hn Hfn ->. pose proof (ring_back_cases rb Hok) as Hb.
  destruct Hok as [Htot Hst [Hu Hc] Hut Hf Hbk]. unfold get.
  rewrite slice_Some by lia. cbn [of_option mbind outcome_bind]. rewrite !u64_small by (unfold is_u64; lia).
  destruct (rotate_get (store rb) (Z.to_nat (front rb)) (Z.to_nat (numBytesUsed rb)) (Z.to_nat n))
    as [Hbs Hrest]; [lia..|].
  fold (contents rb) in Hbs, Hrest. rewrite Hbs. eexists. split; [reflexivity|].
  split; [|split; [|done]].
  - split; cbn [totalNumBytes numBytesUsed numBytesFree front back store]; try lia.
    + destruct (Z.eqb_spec (front rb + n) (totalNumBytes rb)); lia.
    + unfold at_index. cbn [totalNumBytes front].
      destruct (Z.eqb_spec (front rb + n) (totalNumBytes rb)); destruct Hb as [[? ->]|[? ->]]; zcases.
  - unfold contents at 1. cbn [numBytesUsed front store]. rewrite <- Hrest, Z2Nat.inj_sub by lia.
    destruct (Z.eqb_spec (front rb + n) (totalNumBytes rb)) as [He|_].
    + change (Z.to_nat 0) with 0%nat. rewrite rotate_zero by lia.
      by replace (Z.to_nat (front rb) + Z.to_nat n)%nat with (length (store rb)) by lia.
    + by rewrite Z2Nat.inj_add by lia.
Qed.

(** ** Writing and reading as a whole *)

Lemma put_wrapped_spec rb b : ring_ok rb ->
  let e := totalNumBytes rb - back rb in
  front rb + numBytesUsed rb < totalNumBytes rb -> e <= Z.of_nat (length b) <= numBytesFree rb ->
  exists rb', put_wrapped rb b e = Done rb' /\ ring_ok rb' /\ contents rb' = contents rb ++ b /\
    totalNumBytes rb' = totalNumBytes rb.
Proof.
  intros Hok e Hnw He. pose proof (ring_back_cases rb Hok) as [[_ Hb]|[? _]]; [|lia].
  pose proof Hok as [Htot Hst [Hu Hc] Hut Hf _]. unfold put_wrapped.
  assert (Z.of_nat (length (take (Z.to_nat e) b)) = e) as Hle by (rewrite length_take; lia).
  destruct (put_spec rb (take (Z.to_nat e) b) 0) as (rb1 & -> & Hok1 & Hc1 & Ht1 & Hf1 & Hb1 & Hu1);
    [done|lia|lia|unfold at_index; rewrite Hle; unfold e; zcases|]. cbn [mbind outcome_bind].
  rewrite (u64_small (_ - e)) by (unfold is_u64; lia). zcase.
  - assert (Z.of_nat (length (drop (Z.to_nat e) b)) = Z.of_nat (length b) - e) as Hld by (rewrite length_drop; lia).
    pose proof Hok1 as [_ _ [_ Hc1'] _ _ _].
    destruct (put_spec rb1 (drop (Z.to_nat e) b) (Z.of_nat (length b) - e)) as (rb2 & -> & Hok2 & Hc2 & Ht2 & _);
      [done|lia|lia|unfold at_index; rewrite Hld, Ht1, Hf1, Hu1, Hle; unfold e; zcases|].
    exists rb2. split_and!; [done|done| |lia]. by rewrite Hc2, Hc1, <- app_assoc, take_drop.
  - exists rb1. split_and!; [done|done| |done]. rewrite Hc1, take_ge; [done|lia].
Qed.

Lemma ring_write_fits rb b : ring_ok rb -> 0 < Z.of_nat (length b) <= numBytesFree rb ->
  exists rb', ring_write rb b = Done (Z.of_nat (length b), rb') /\ ring_ok rb' /\
    contents rb' = contents rb ++ b /\ totalNumBytes rb' = totalNumBytes rb.
Proof.
  intros Hok Hlen. pose proof (ring_back_cases rb Hok) as Hb. pose proof Hok as [Htot Hst [Hu Hc] Hut Hf _].
  unfold ring_write. rewrite (proj2 (Z.ltb_ge _ _)) by lia.
  assert (forall bk, (front rb + numBytesUsed rb < totalNumBytes rb -> back rb + Z.of_nat (length b) <= totalNumBytes rb) ->
    bk = at_index rb (numBytesUsed rb + Z.of_nat (length b)) ->
    forall n, n = Z.of_nat (length b) ->
    exists rb', (rb ← put rb b bk; Done (n, rb)) = Done (Z.of_nat (length b), rb') /\ ring_ok rb' /\
      contents rb' = contents rb ++ b /\ totalNumBytes rb' = totalNumBytes rb) as Hput.
  { intros bk Hroom Hbk n ->. destruct (put_spec rb b bk) as (rb' & -> & ? & ? & ? & _); [done|lia|done|done|].
    by exists rb'. }
  assert (front rb + numBytesUsed rb < totalNumBytes rb ->
    totalNumBytes rb - back rb <= Z.of_nat (length b) ->
    exists rb', (rb ← put_wrapped rb b (totalNumBytes rb - back rb); Done (Z.of_nat (length b), rb)) =
      Done (Z.of_nat (length b), rb') /\ ring_ok rb' /\
      contents rb' = contents rb ++ b /\ totalNumBytes rb' = totalNumBytes rb) as Hwrap.
  { intros Hnw He. destruct (put_wrapped_spec rb b Hok Hnw) as (rb' & -> & ? & ? & ?); [lia|]. by exists rb'. }
  destruct (Z.eqb_spec (Z.of_nat (length b)) 1) as [H1|H1].
  { apply Hput; [lia| |done]. unfold at_index. destruct (Z.eqb_spec (back rb + 1) (totalNumBytes rb)); zcases. }
  destruct (Z.ltb_spec (front rb) (back rb)).
  { destruct (Z.ltb_spec (Z.of_nat (length b)) (totalNumBytes rb - back rb)); [|apply Hwrap; lia].
    apply Hput; [lia| |done]. unfold at_index. zcases. }
  destruct (Z.ltb_spec (back rb) (front rb)).
  { rewrite (proj2 (Z.leb_le _ _)) by lia. apply Hput; [lia| |done]. unfold at_index. zcases. }
  rewrite (proj2 (Z.eqb_neq (numBytesFree rb) 0)), (proj2 (Z.eqb_eq (numBytesUsed rb) 0)),
    (proj2 (Z.ltb_ge (totalNumBytes rb) _)) by lia.
  destruct (Z.ltb_spec (Z.of_nat (length b)) (totalNumBytes rb - back rb)); [|apply Hwrap; lia].
  apply Hput; [lia| |done]. unfold at_index. zcases.
Qed.

Lemma length_contents rb : ring_ok rb -> length (contents rb) = Z.to_nat (numBytesUsed rb).
Proof.
  intros [? ? ? ? ? _]. unfold contents. rewrite length_take, length_app, length_drop, length_take. lia.
Qed.

(** What a read of [len] bytes leaves and gives. *)
Definition read_spec (rb : ring_t) (len : Z) (r : outcome (Z * list Z * ring_t)) : Prop :=
  let n := Z.min len (numBytesUsed rb) in
  exists rb', r = Done (n, take (Z.to_nat n) (contents rb), rb') /\ ring_ok rb' /\
    contents rb' = drop (Z.to_nat n) (contents rb) /\ totalNumBytes rb' = totalNumBytes rb.

Lemma get_wrapped_spec rb len : ring_ok rb ->
  let e := totalNumBytes rb - front rb in
  e <= len < 2 ^ 64 -> e <= numBytesUsed rb -> read_spec rb len (get_wrapped rb len e).
Proof.
  intros Hok e He Hue. unfold get_wrapped, read_spec.
  pose proof (ring_back_cases rb Hok) as [[? _]|[_ Hb]]; [lia|].
  pose proof Hok as [Htot Hst [Hu Hc] Hut Hf _].
  destruct (get_spec rb e 0) as (rb1 & -> & Hok1 & Hc1 & Ht1 & Hf1 & Hb1 & Hu1);
    [done|lia|lia|unfold e; zcases|]. cbn [mbind outcome_bind].
  rewrite (u64_small (len - e)) by (unfold is_u64; lia). rewrite Hb1.
  destruct (Z.ltb_spec 0 (len - e)) as [Hlo|Hlo].
  - set (r := if len - e <=? back rb then len - e else back rb).
    assert (r = Z.min (len - e) (numBytesUsed rb1)) as Hr by (unfold r; zcases).
    rewrite (u64_small (e + r)) by (unfold is_u64; lia).
    replace (Z.min len (numBytesUsed rb)) with (e + r) by lia.
    rewrite Z2Nat.inj_add by lia.
    destruct (Z.ltb_spec 0 r) as [Hr0|Hr0].
    + destruct (get_spec rb1 r (front rb1 + r)) as (rb2 & -> & Hok2 & Hc2 & Ht2 & _);
        [done|lia|lia|rewrite Hf1, Ht1; rewrite (proj2 (Z.eqb_neq _ _)); lia|].
      exists rb2. cbn [mbind outcome_bind]. split_and!; [|done| |lia].
      * by rewrite Hc1, take_add.
      * by rewrite Hc2, Hc1, drop_drop.
    + exists rb1. replace r with 0 in * by lia. rewrite Nat.add_0_r. by split_and!.
  - exists rb1. rewrite u64_small by (unfold is_u64; lia).
    replace (Z.min len (numBytesUsed rb)) with e by lia. by split_and!.
Qed.

Lemma ring_read_any rb len : ring_ok rb -> 0 <= len < 2 ^ 64 -> read_spec rb len (ring_read rb len).
Proof.
  intros Hok Hlen. pose proof (ring_back_cases rb Hok) as Hb. pose proof Hok as [Htot Hst [Hu Hc] Hut Hf _].
  unfold ring_read.
  assert (forall n fr, n = Z.min len (numBytesUsed rb) -> front rb + n <= totalNumBytes rb ->
    fr = (if front rb + n =? totalNumBytes rb then 0 else front rb + n) ->
    read_spec rb len ('(b, rb) ← get rb n fr; Done (n, b, rb))) as Hget.
  { intros n fr Hn Hfn Hfr. destruct (get_spec rb n fr) as (rb' & -> & ? & ? & ? & _); [done|lia|done|done|].
    exists rb'. rewrite <- Hn. by split_and!. }
  destruct (Z.eqb_spec (numBytesUsed rb) 0) as [H0|H0].
  { exists rb. rewrite H0, Z.min_r by lia. by split_and!. }
  destruct (Z.eqb_spec len 1) as [->|H1].
  { apply Hget; [lia|lia|done]. }
  destruct (Z.ltb_spec (front rb) (back rb)).
  { apply Hget; [zcases|zcases|]. zcases. }
  destruct (Z.ltb_spec (back rb) (front rb)).
  { destruct (Z.ltb_spec len (totalNumBytes rb - front rb)); [|apply get_wrapped_spec; [done|lia|lia]].
    apply Hget; [lia|lia|zcases]. }
  rewrite (proj2 (Z.eqb_eq (numBytesFree rb) 0)) by lia.
  destruct (Z.ltb_spec len (totalNumBytes rb - front rb)); [|apply get_wrapped_spec; [done|lia|lia]].
  apply Hget; [lia|lia|zcases].
Qed.

(** ** Properties *)

(** A write that fits appends its bytes to the ring's sequence and says
    how many they are; one that does not fit writes nothing. *)
Theorem ring_write_appends rb b : ring_ok rb -> b <> [] ->
  (Z.of_nat (length b) <= numBytesFree rb -> exists rb',
     ring_write rb b = Done (Z.of_nat (length b), rb') /\ ring_ok rb' /\ contents rb' = contents rb ++ b) /\
  (numBytesFree rb < Z.of_nat (length b) -> ring_write rb b = Done (0, rb)).
Proof.
  intros Hok Hb. assert (0 < length b)%nat by (destruct b; [done|cbn; lia]). split; intros Hl.
  - destruct (ring_write_fits rb b Hok) as (rb' & ? & ? & ? & _); [lia|]. by exists rb'.
  - unfold ring_write. by rewrite (proj2 (Z.ltb_lt _ _)).
Qed.

(** A read gives the oldest bytes of the ring's sequence, as many as
    were asked for or are there, in order, and leaves the others. *)
Theorem ring_read_takes rb len : ring_ok rb -> 0 <= len < 2 ^ 64 ->
  exists bs rb', ring_read rb len = Done (Z.of_nat (length bs), bs, rb') /\ ring_ok rb' /\
    contents rb = bs ++ contents rb' /\
    Z.of_nat (length bs) = Z.min len (Z.of_nat (length (contents rb))).
Proof.
  intros Hok Hlen. destruct (ring_read_any rb len Hok Hlen) as (rb' & Hr & Hok' & Hc & _).
  pose proof (length_contents rb Hok) as Hl. pose proof (proj1 (ro_count rb Hok)).
  eexists _, rb'. rewrite Hr. rewrite Hc, take_drop, length_take, Hl.
  split_and!; [|done|done|lia]. do 3 f_equal. lia.
Qed.

(** A zero-length write to a full ring trips the assertion. *)
Theorem ring_empty_write_aborts rb : ring_ok rb -> numBytesFree rb = 0 -> ring_write rb [] = Undef.
Proof.
  intros Hok Hf. pose proof (ring_back_cases rb Hok) as Hb. pose proof Hok as [? ? [? ?] ? ? _].
  unfold ring_write. rewrite Hf. change (Z.of_nat (length [])) with 0. cbn [Z.ltb Z.eqb Z.compare].
  rewrite !(proj2 (Z.ltb_ge _ _)) by lia. done.
Qed.

Lemma ring_create_ok total : 0 < total < 2 ^ 64 -> exists rb,
  ring_create total (true, true) = Some rb /\ ring_ok rb /\ contents rb = [] /\ totalNumBytes rb = total /\
  numBytesFree rb = total /\ numBytesUsed rb = 0.
Proof.
  intros Ht. eexists. split; [done|]. split; [|done].
  split; cbn; try lia; [rewrite length_replicate; lia|]. unfold at_index. cbn. zcases.
Qed.

(** A ring of five bytes whose used part has wrapped. *)
Definition wrapped_ring : ring_t := mkRing 5 3 2 3 1 [7; 0; 0; 5; 6].
Lemma wrapped_ring_ok : ring_ok wrapped_ring.
Proof. split; cbn; try lia. done. Qed.

Lemma ring_write_appends_witness : exists rb,
  ring_write wrapped_ring [8; 9] = Done (2, rb) /\ contents rb = [5; 6; 7; 8; 9].
Proof.
  destruct (proj1 (ring_write_appends wrapped_ring [8; 9] wrapped_ring_ok ltac:(done))) as (rb & Hw & _ & Hc);
    [cbn; lia|]. exists rb. split; [exact Hw|exact Hc].
Defined.
Lemma ring_read_takes_witness : exists bs rb,
  ring_read wrapped_ring 4 = Done (Z.of_nat (length bs), bs, rb) /\ [5; 6; 7] = bs ++ contents rb.
Proof.
  destruct (ring_read_takes wrapped_ring 4 wrapped_ring_ok) as (bs & rb & Hr & _ & Hc & _); [lia|].
  exists bs, rb. split; [exact Hr|exact Hc].
Defined.
Lemma ring_empty_write_aborts_witness : ring_write (mkRing 2 2 0 1 1 [4; 3]) [] = Undef.
Proof. apply ring_empty_write_aborts; [split; cbn; try lia; done|done]. Defined.
