(* ===== verification/Queue.v ===== *)
(** * The message queue (source/sosal/queue.c, source/sosal/event.c)

    A ring of whole messages with two manual-reset events.  Every operation
    holds the queue's mutex but for the wait of a blocking one, so an
    operation is two steps: the wait, which needs the event to be set, and
    the rest.  The system of concurrent callers is [queue_step]. *)
From S2P Require Import Prelude Ring.

(** ** Events *)

(** [event_t] as the code keeps it; waiting callers are the scheduler's. *)
Record event_t : Set := mkEvent { set : bool; autoreset : bool }.
Definition event_init (autoreset : bool) : event_t := mkEvent false autoreset.
Definition event_set (e : event_t) : event_t := mkEvent true (autoreset e).
Definition event_reset (e : event_t) : event_t := mkEvent false (autoreset e).

(** [errs] is what the calls of [pthread_cond_destroy] return: while a caller
    waits the event is lowered and the waiters are woken, and it is tried
    again. *)
Definition EBUSY : Z := 16.
Fixpoint event_deinit (errs : list Z) (e : event_t) : outcome event_t :=
  match errs with
  | [] => NoFuel
  | err :: errs =>
      let e := if err =? EBUSY then event_reset e else e in
      if negb (err =? 0) then event_deinit errs e else Done e
  end.

(** How [pthread_cond_wait] came back. *)
Inductive wakeup : Set := ESUCCESS | ETIMEDOUT | WAIT_ERROR.
(** [event_timed_wait] with [set] as it is after the wait. *)
Definition event_timed_wait (r : wakeup) (e : event_t) : bool :=
  match r with WAIT_ERROR => false | _ => set e end.
(** [event_wait]; [wait] is what the wait did, when there is one: how it
    came back and the event then. *)
Definition event_wait (e : event_t) (wait : wakeup * event_t) : bool * event_t :=
  if negb (autoreset e) then
    if negb (set e) then (event_timed_wait wait.1 wait.2, wait.2) else (true, e)
  else
    let ret := event_timed_wait wait.1 wait.2 in
    let e := wait.2 in
    if ret && set e then (true, mkEvent false (autoreset e))
    else if ret && negb (set e) then (false, e) else (ret, e).

(** [milliseconds_from_now] of a time of day, as seconds and nanoseconds. *)
Definition milliseconds_from_now (tv_sec tv_usec milliseconds : Z) : Z * Z :=
  let sec := tv_sec + milliseconds / 1000 in
  let nsec := tv_usec * 1000 + milliseconds mod 1000 * 1000000 in
  if 1000000000 <? nsec then (sec + 1, nsec - 1000000000) else (sec, nsec).

(** ** The queue *)

Record queue_t : Set := mkQueue {
  active : bool; popped : bool; ringb : ring_t;
  msgSize : Z; numMsgs : Z; msgCount : Z;
  readEvent : event_t; writeEvent : event_t }.

(** [None]: no memory for the queue.  When the ring cannot be allocated the
    code frees the queue and returns the pointer to it. *)
Inductive created : Set := NoQueue | Dangling | Queue (q : queue_t).
Definition queue_create (numMsgs msgSize : Z) (q_alloc : bool) (ring_allocs : bool * bool) : created :=
  if negb q_alloc then NoQueue
  else match ring_create (u64 (msgSize * numMsgs)) ring_allocs with
  | None => Dangling
  | Some r => Queue (mkQueue true false r msgSize numMsgs 0
                       (event_reset (event_init false)) (event_set (event_init false)))
  end.

(** [ringb] is null when it could not be made. *)
Definition queue_destroy (q : option (queue_t * option ring_t)) (rd wr : list Z) (live : Z) : outcome Z :=
  match q with
  | None => Done live
  | Some (q, ringb) =>
      let live := ring_destroy ringb live in
      _ ← event_deinit rd (readEvent q); _ ← event_deinit wr (writeEvent q);
      Done (live - 1)
  end.

Definition queue_length (q : queue_t) : Z := msgCount q.

Definition with_ring (r : ring_t) (q : queue_t) : queue_t :=
  mkQueue (active q) (popped q) r (msgSize q) (numMsgs q) (msgCount q) (readEvent q) (writeEvent q).
Definition with_count (n : Z) (q : queue_t) : queue_t :=
  mkQueue (active q) (popped q) (ringb q) (msgSize q) (numMsgs q) n (readEvent q) (writeEvent q).
Definition with_events (r w : event_t) (q : queue_t) : queue_t :=
  mkQueue (active q) (popped q) (ringb q) (msgSize q) (numMsgs q) (msgCount q) r w.
Definition with_flags (a p : bool) (q : queue_t) : queue_t :=
  mkQueue a p (ringb q) (msgSize q) (numMsgs q) (msgCount q) (readEvent q) (writeEvent q).

(** [queue_write] after the wait; [ret] is the result of the wait, or false
    for a call that does not block.  [datum] has [msgSize] bytes. *)
Definition queue_write_locked (q : queue_t) (ret : bool) (datum : list Z) : outcome (bool * queue_t) :=
  if active q && negb (popped q) then
    '(r, rb) ← ring_write (ringb q) datum;
    let q := with_ring rb q in
    let '(ret, q) := if r =? msgSize q then (true, with_count (u64 (msgCount q + 1)) q) else (false, q) in
    let w := if 0 <? numBytesFree rb then event_set (writeEvent q)
             else if numBytesFree rb =? 0 then event_reset (writeEvent q) else writeEvent q in
    let rd := if 0 <? numBytesUsed rb then event_set (readEvent q) else readEvent q in
    Done (ret, with_events rd w q)
  else if popped q then Done (false, q)
  else Done (ret, q).

(** [queue_read] after the wait, with what it put in [datum]. *)
Definition queue_read_locked (q : queue_t) (ret : bool) : outcome (bool * list Z * queue_t) :=
  if active q && negb (popped q) then
    '(r, b, rb) ← ring_read (ringb q) (msgSize q);
    let q := with_ring rb q in
    let '(ret, q) := if r =? msgSize q then (true, with_count (u64 (msgCount q - 1)) q) else (false, q) in
    let w := if 0 <? numBytesFree rb then event_set (writeEvent q) else writeEvent q in
    let rd := if 0 <? numBytesUsed rb then event_set (readEvent q)
              else if numBytesUsed rb =? 0 then event_reset (readEvent q) else readEvent q in
    Done (ret, b, with_events rd w q)
  else if popped q then Done (false, [], q)
  else Done (ret, [], q).

(** [if (numBytesFree > 0) event_set(write); if (numBytesUsed > 0) event_set(read);] *)
Definition raise_events (q : queue_t) : queue_t :=
  with_events (if 0 <? numBytesUsed (ringb q) then event_set (readEvent q) else readEvent q)
              (if 0 <? numBytesFree (ringb q) then event_set (writeEvent q) else writeEvent q) q.

Definition queue_enable (q : queue_t) : queue_t :=
  if negb (active q) then with_flags true (popped q) (raise_events q) else q.
Definition queue_disable (q : queue_t) : queue_t :=
  if active q then
    with_flags false (popped q) (with_events (event_reset (readEvent q)) (event_reset (writeEvent q)) q)
  else q.
Definition queue_pop (q : queue_t) : queue_t :=
  with_events (event_set (readEvent q)) (event_set (writeEvent q)) (with_flags (active q) true q).
Definition queue_unpop (q : queue_t) : queue_t :=
  raise_events (with_events (event_reset (readEvent q)) (event_reset (writeEvent q)) (with_flags (active q) false q)).
(** The mutex of a destroyed queue is unlocked through a null pointer. *)
Definition queue_reset (q : queue_t) (ring_allocs : bool * bool) : outcome queue_t :=
  match ring_create (u64 (msgSize q * numMsgs q)) ring_allocs with
  | None => Undef
  | Some r => Done (with_events (event_reset (readEvent q)) (event_set (writeEvent q))
                      (with_ring r (with_flags true false q)))
  end.

(** ** Concurrent callers *)

Inductive call : Set := Write (datum : list Z) | Read.
(** A caller before its call, with the wait behind it, or back with the
    result. *)
Inductive client : Set := Calling (blocking : bool) (c : call) | Ready (ret : bool) (c : call) | Returned.

(** The queue, the callers and the messages written and read so far. *)
Record queue_state : Set := mkQS {
  qs_q : queue_t; qs_clients : list client; qs_written : list (list Z); qs_read : list (list Z) }.

Definition event_of (c : call) (q : queue_t) : event_t :=
  match c with Write _ => writeEvent q | Read => readEvent q end.

Inductive queue_step : queue_state -> queue_state -> Prop :=
  | qs_nonblocking q cs wr rd (i : nat) c :
      cs !! i = Some (Calling false c) ->
      queue_step (mkQS q cs wr rd) (mkQS q (<[i := Ready false c]> cs) wr rd)
  | qs_wait q cs wr rd (i : nat) c :
      cs !! i = Some (Calling true c) -> set (event_of c q) = true ->
      queue_step (mkQS q cs wr rd) (mkQS q (<[i := Ready true c]> cs) wr rd)
  | qs_write q cs wr rd (i : nat) ret datum ok q' :
      cs !! i = Some (Ready ret (Write datum)) ->
      queue_write_locked q ret datum = Done (ok, q') ->
      queue_step (mkQS q cs wr rd) (mkQS q' (<[i := Returned]> cs) (if ok then wr ++ [datum] else wr) rd)
  | qs_read_msg q cs wr rd (i : nat) ret ok b q' :
      cs !! i = Some (Ready ret Read) ->
      queue_read_locked q ret = Done (ok, b, q') ->
      queue_step (mkQS q cs wr rd) (mkQS q' (<[i := Returned]> cs) wr (if ok then rd ++ [b] else rd))
  | qs_pop q cs wr rd : queue_step (mkQS q cs wr rd) (mkQS (queue_pop q) cs wr rd)
  | qs_unpop q cs wr rd : queue_step (mkQS q cs wr rd) (mkQS (queue_unpop q) cs wr rd).
