(* ===== verification/QueueProperties.v ===== *)
(** * The queue is a bounded FIFO of messages *)
From S2P Require Import Prelude Ring Queue.

(** ** The messages a queue holds *)

Record holds (q : queue_t) (msgs : list (list Z)) : Prop := {
  h_ring : ring_ok (ringb q);
  h_size : 0 < msgSize q /\ 0 < numMsgs q /\ msgSize q * numMsgs q = totalNumBytes (ringb q);
  h_msgs : contents (ringb q) = concat msgs /\ Forall (fun m => Z.of_nat (length m) = msgSize q) msgs;
  h_count : msgCount q = Z.of_nat (length msgs) }.

Definition events_right (q : queue_t) : Prop :=
  (set (writeEvent q) = true <-> 0 < numBytesFree (ringb q)) /\
  (set (readEvent q) = true <-> 0 < numBytesUsed (ringb q)).

Lemma concat_length (msgs : list (list Z)) n : Forall (fun m => Z.of_nat (length m) = n) msgs ->
  Z.of_nat (length (concat msgs)) = n * Z.of_nat (length msgs).
Proof. induction 1 as [|m msgs Hm _ IH]; cbn [concat length]; [lia|]. rewrite length_app. lia. Qed.

Lemma holds_bytes q msgs : holds q msgs ->
  numBytesUsed (ringb q) = msgSize q * Z.of_nat (length msgs) /\
  numBytesFree (ringb q) = msgSize q * (numMsgs q - Z.of_nat (length msgs)) /\
  Z.of_nat (length msgs) <= numMsgs q /\ numMsgs q < 2 ^ 64 /\ msgSize q < 2 ^ 64.
Proof.
  intros [Hok (Hs & Hn & Ht) [Hc Hm] _]. pose proof (length_contents _ Hok) as Hl. rewrite Hc in Hl.
  pose proof (concat_length msgs _ Hm) as Hcl. pose proof Hok as [Htot _ [Hu Huf] Hle _ _].
  assert (numBytesUsed (ringb q) = msgSize q * Z.of_nat (length msgs)) as Hused by lia.
  split; [done|]. split; [lia|]. nia.
Qed.

(** ** Each operation under the mutex *)

Lemma queue_write_spec q msgs ret datum : holds q msgs -> active q = true -> popped q = false ->
  Z.of_nat (length datum) = msgSize q ->
  exists q', queue_write_locked q ret datum = Done (Z.of_nat (length msgs) <? numMsgs q, q') /\
    holds q' (if Z.of_nat (length msgs) <? numMsgs q then msgs ++ [datum] else msgs) /\
    (events_right q -> events_right q') /\ active q' = true /\ popped q' = false /\
    msgSize q' = msgSize q /\ numMsgs q' = numMsgs q.
Proof.
  intros Hq Ha Hp Hd. pose proof (holds_bytes q msgs Hq) as (Hu & Hf & Hle & Hn64 & Hm64).
  pose proof Hq as [Hok (Hs & Hn & Ht) [Hc Hm] Hcnt].
  unfold queue_write_locked. rewrite Ha, Hp. cbn [andb negb].
  destruct (Z.ltb_spec (Z.of_nat (length msgs)) (numMsgs q)) as [Hroom|Hfull].
  - destruct (ring_write_fits (ringb q) datum Hok) as (rb & -> & Hok' & Hc' & Ht'); [nia|].
    cbn [mbind outcome_bind]. rewrite Hd. unfold with_ring at 1. cbn [msgSize]. rewrite Z.eqb_refl.
    eexists. split; [reflexivity|]. pose proof Hok' as [_ _ [Hu' Huf'] _ _ _].
    split; [split|split; [|done]].
    + done.
    + cbn. lia.
    + cbn. rewrite Hc', Hc, concat_app. cbn. rewrite app_nil_r. split; [done|].
      apply Forall_app. split; [done|]. by constructor.
    + cbn. rewrite Hcnt, length_app. cbn. rewrite u64_small by (unfold is_u64; lia). lia.
    + intros _. unfold events_right. cbn.
      assert (0 < numBytesUsed rb) as Hup.
      { pose proof (length_contents rb Hok') as Hl. rewrite Hc', length_app in Hl. lia. }
      rewrite (proj2 (Z.ltb_lt 0 (numBytesUsed rb))) by done. cbn. split; [|tauto].
      destruct (Z.ltb_spec 0 (numBytesFree rb)); cbn; [tauto|].
      pose proof Hok' as [_ _ [_ He] _ _ _]. pose proof (ro_used _ Hok').
      rewrite (proj2 (Z.eqb_eq (numBytesFree rb) 0)) by lia. cbn. split; [done|lia].
  - assert (ring_write (ringb q) datum = Done (0, ringb q)) as ->.
    { unfold ring_write. rewrite (proj2 (Z.ltb_lt _ _)) by nia. done. }
    cbn [mbind outcome_bind]. unfold with_ring at 1. cbn [msgSize]. rewrite (proj2 (Z.eqb_neq 0 (msgSize q))) by lia.
    assert (numBytesFree (ringb q) = 0) as Hf0 by nia. assert (0 < numBytesUsed (ringb q)) as Hu0 by nia.
    rewrite Hf0, (proj2 (Z.ltb_lt 0 (numBytesUsed (ringb q)))) by done.
    eexists. split; [reflexivity|]. split; [by split|split; [|done]].
    intros _. unfold events_right. cbn. rewrite Hf0. split; [by split; [|lia]|tauto].
Qed.

Lemma queue_read_spec q msgs ret : holds q msgs -> active q = true -> popped q = false ->
  exists q', queue_read_locked q ret =
    Done (match msgs with [] => false | _ => true end, default [] (head msgs), q') /\
    holds q' (tail msgs) /\ (events_right q -> events_right q') /\ active q' = true /\ popped q' = false /\
    msgSize q' = msgSize q /\ numMsgs q' = numMsgs q.
Proof.
  intros Hq Ha Hp. pose proof (holds_bytes q msgs Hq) as (Hu & Hf & Hle & Hn64 & Hm64).
  pose proof Hq as [Hok (Hs & Hn & Ht) [Hc Hm] Hcnt].
  unfold queue_read_locked. rewrite Ha, Hp. cbn [andb negb].
  destruct (ring_read_any (ringb q) (msgSize q) Hok) as (rb & Hr & Hok' & Hc' & Ht'); [lia|].
  rewrite Hr. cbn [mbind outcome_bind]. clear Hr. unfold with_ring at 1. cbn [msgSize].
  assert (events_right (with_events
    (if 0 <? numBytesUsed rb then event_set (readEvent q)
     else if numBytesUsed rb =? 0 then event_reset (readEvent q) else readEvent q)
    (if 0 <? numBytesFree rb then event_set (writeEvent q) else writeEvent q) (with_ring rb q)) \/
    numBytesFree rb <= 0) as Hev.
  { pose proof Hok' as [_ _ [Hu0 _] _ _ _]. destruct (Z.ltb_spec 0 (numBytesFree rb)); [left|by right].
    unfold events_right. cbn. split; [tauto|].
    destruct (Z.ltb_spec 0 (numBytesUsed rb)); cbn; [tauto|].
    rewrite (proj2 (Z.eqb_eq (numBytesUsed rb) 0)) by lia. cbn. split; [done|lia]. }
  pose proof (length_contents rb Hok') as Hl'. pose proof Hok' as [_ _ [Hu' Huf'] _ _ _].
  destruct msgs as [|msg msgs].
  - assert (numBytesUsed (ringb q) = 0) as Hu0 by (cbn in Hu; lia). rewrite Hu0 in *.
    rewrite Z.min_r in * by lia. rewrite (proj2 (Z.eqb_neq 0 (msgSize q))) by lia.
    change (Z.to_nat 0) with 0%nat in *. rewrite drop_0 in Hc'. cbn [take] in *. rewrite Hc', Hc in Hl'. cbn in Hl'.
    eexists. split; [reflexivity|]. split; [split|split; [|done]].
    + done.
    + cbn. lia.
    + cbn. rewrite Hc', Hc. split; [done|constructor].
    + cbn. lia.
    + intros _. destruct Hev as [[Hw Hrd]|?]; [|nia]. split; [exact Hw|exact Hrd].
  - apply Forall_cons in Hm as [Hmsg Hm]. cbn [length] in *.
    assert (msgSize q <= numBytesUsed (ringb q)) as Hmu by nia. rewrite Z.min_l in * by lia. rewrite Z.eqb_refl.
    assert (Z.to_nat (msgSize q) = length msg) as Hlm by lia.
    rewrite Hlm, Hc in *. cbn [concat] in *. rewrite take_app_length. rewrite drop_app_length in Hc'.
    eexists. split; [reflexivity|]. split; [split|split; [|done]].
    + done.
    + cbn. lia.
    + cbn. by rewrite Hc'.
    + cbn. rewrite Hcnt, u64_small by (unfold is_u64; lia). lia.
    + intros _. destruct Hev as [[Hw Hrd]|Hf0]; [split; [exact Hw|exact Hrd]|].
      rewrite Hc' in Hl'. pose proof (concat_length msgs _ Hm). nia.
Qed.

(** ** Every interleaving *)

Definition typed (sz : Z) (c : client) : Prop :=
  match c with
  | Calling _ (Write d) | Ready _ (Write d) => Z.of_nat (length d) = sz
  | _ => True
  end.

Definition queue_inv (sz cap : Z) (st : queue_state) : Prop :=
  exists msgs, holds (qs_q st) msgs /\ active (qs_q st) = true /\
    msgSize (qs_q st) = sz /\ numMsgs (qs_q st) = cap /\
    qs_written st = qs_read st ++ msgs /\ Forall (typed sz) (qs_clients st) /\
    (popped (qs_q st) = false -> events_right (qs_q st)).

(** The events and flags do not matter for the messages. *)
Lemma holds_with_events q msgs r w a p : holds q msgs -> holds (with_events r w (with_flags a p q)) msgs.
Proof. intros [? ? ? ?]. by split. Qed.
Lemma raise_events_right q : events_right (raise_events (with_events (event_reset (readEvent q)) (event_reset (writeEvent q)) q)).
Proof.
  unfold events_right, raise_events. cbn.
  destruct (Z.ltb_spec 0 (numBytesFree (ringb q))), (Z.ltb_spec 0 (numBytesUsed (ringb q))); cbn; split; split; (done || lia).
Qed.

Lemma typed_insert sz cs (i : nat) c : Forall (typed sz) cs -> typed sz c -> Forall (typed sz) (<[i := c]> cs).
Proof. intros. by apply Forall_insert. Qed.
Lemma typed_lookup sz cs (i : nat) c : Forall (typed sz) cs -> cs !! i = Some c -> typed sz c.
Proof. intros H Hi. by eapply Forall_lookup_1. Qed.

Lemma queue_inv_step sz cap st st' : queue_step st st' -> queue_inv sz cap st -> queue_inv sz cap st'.
Proof.
  intros Hst (msgs & Hq & Ha & Hs & Hn & Hwr & Hty & Hev). destruct Hst; cbn in *.
  - exists msgs. split_and!; try done. apply typed_insert; [done|]. exact (typed_lookup _ _ _ _ Hty H).
  - exists msgs. split_and!; try done. apply typed_insert; [done|]. exact (typed_lookup _ _ _ _ Hty H).
  - pose proof (typed_lookup _ _ _ _ Hty H) as Hd. cbn in Hd.
    destruct (popped q) eqn:Hp.
    + unfold queue_write_locked in H0. rewrite Ha, Hp in H0. cbn in H0. injection H0 as <- <-.
      exists msgs. split_and!; try done; [by apply typed_insert|cbn; congruence].
    + destruct (queue_write_spec q msgs ret datum Hq Ha Hp) as (q1 & Hw & Hq1 & He & Ha1 & Hp1 & Hs1 & Hn1); [lia|].
      rewrite Hw in H0. injection H0 as <- <-. revert Hq1.
      destruct (Z.ltb_spec (Z.of_nat (length msgs)) (numMsgs q)) as [Hroom|Hroom]; intros Hq1.
      * exists (msgs ++ [datum]). cbn. split_and!; try done; try congruence; [|by apply typed_insert|by auto].
        by rewrite Hwr, app_assoc.
      * exists msgs. cbn. split_and!; try done; try congruence; [by apply typed_insert|by auto].
  - destruct (popped q) eqn:Hp.
    + unfold queue_read_locked in H0. rewrite Ha, Hp in H0. cbn in H0. injection H0 as <- <- <-.
      exists msgs. split_and!; try done; [by apply typed_insert|cbn; congruence].
    + destruct (queue_read_spec q msgs ret Hq Ha Hp) as (q1 & Hr & Hq1 & He & Ha1 & Hp1 & Hs1 & Hn1).
      rewrite Hr in H0. injection H0 as <- <- <-. exists (tail msgs).
      cbn [qs_q qs_clients qs_written qs_read]. split_and!; try done; try congruence; [|by apply typed_insert|by auto].
      rewrite Hwr. destruct msgs as [|msg msgs]; [done|]. cbn. by rewrite <- app_assoc.
  - exists msgs. split_and!; try done. by apply holds_with_events.
  - exists msgs. split_and!; try done.
    + destruct Hq as [? ? ? ?]. by split.
    + intros _. apply (raise_events_right (with_flags (active q) false q)).
Qed.

Lemma queue_inv_reachable sz cap st st' : rtc queue_step st st' -> queue_inv sz cap st -> queue_inv sz cap st'.
Proof. induction 1; [done|]. intros. eauto using queue_inv_step. Qed.

Lemma queue_create_inv num sz q cs : 0 < sz -> 0 < num -> sz * num < 2 ^ 64 ->
  queue_create num sz true (true, true) = Queue q -> Forall (typed sz) cs ->
  queue_inv sz num (mkQS q cs [] []).
Proof.
  intros Hs Hn Ht Hq Hcs. unfold queue_create in Hq. cbn [negb] in Hq.
  rewrite u64_small in Hq by (unfold is_u64; nia).
  destruct (ring_create_ok (sz * num)) as (r & Hr & Hok & Hc & Htot & Hf & Hu); [nia|].
  rewrite Hr in Hq. injection Hq as <-. exists []. split_and!; try done; cbn.
  intros _. unfold events_right. cbn. rewrite Hf, Hu. split; split; intros; (done || nia).
Qed.

(** ** Properties *)

(** C30: whatever callers write and read concurrently, blocking or not, and
    however often the queue is popped and unpopped, the messages read are a
    prefix of the messages written, in order; the rest is in the queue, is
    what [queue_length] counts, and never exceeds the capacity; and unless
    the queue is popped the events are set exactly while there is room or
    data. *)
Theorem queue_is_fifo num sz q cs st : 0 < sz -> 0 < num -> sz * num < 2 ^ 64 ->
  queue_create num sz true (true, true) = Queue q -> Forall (typed sz) cs ->
  rtc queue_step (mkQS q cs [] []) st ->
  exists pending, qs_written st = qs_read st ++ pending /\
    queue_length (qs_q st) = Z.of_nat (length pending) /\ Z.of_nat (length pending) <= num /\
    contents (ringb (qs_q st)) = concat pending /\
    (popped (qs_q st) = false ->
       (set (writeEvent (qs_q st)) = true <-> Z.of_nat (length pending) < num) /\
       (set (readEvent (qs_q st)) = true <-> pending <> [])).
Proof.
  intros Hs Hn Ht Hq Hcs Hst.
  destruct (queue_inv_reachable sz num _ _ Hst (queue_create_inv num sz q cs Hs Hn Ht Hq Hcs))
    as (msgs & Hh & Ha & Hs' & Hn' & Hwr & _ & Hev).
  pose proof (holds_bytes _ _ Hh) as (Hu & Hf & Hle & _). rewrite Hn' in *. rewrite Hs' in *.
  exists msgs. split_and!; [done|apply Hh|done|apply Hh|]. intros Hp. destruct (Hev Hp) as [-> ->].
  rewrite Hu, Hf. split; [nia|]. destruct msgs; cbn; [split; [lia|done]|split; [done|nia]].
Qed.

(** A caller past its wait always finishes its call: no interleaving
    trips an assertion of the ring.  A write then fails only on a full queue
    and a read only on an empty one, unless the queue is popped. *)
Theorem queue_calls_finish num sz q cs st (i : nat) ret c : 0 < sz -> 0 < num -> sz * num < 2 ^ 64 ->
  queue_create num sz true (true, true) = Queue q -> Forall (typed sz) cs ->
  rtc queue_step (mkQS q cs [] []) st -> qs_clients st !! i = Some (Ready ret c) ->
  match c with
  | Write d => exists ok q', queue_write_locked (qs_q st) ret d = Done (ok, q') /\
      (ok = true <-> popped (qs_q st) = false /\ queue_length (qs_q st) < num)
  | Read => exists ok b q', queue_read_locked (qs_q st) ret = Done (ok, b, q') /\
      (ok = true <-> popped (qs_q st) = false /\ 0 < queue_length (qs_q st))
  end.
Proof.
  intros Hs Hn Ht Hq Hcs Hst Hi.
  destruct (queue_inv_reachable sz num _ _ Hst (queue_create_inv num sz q cs Hs Hn Ht Hq Hcs))
    as (msgs & Hh & Ha & Hs' & Hn' & Hwr & Hty & Hev).
  pose proof (typed_lookup _ _ _ _ Hty Hi) as Hd. pose proof (h_count _ _ Hh) as Hcnt.
  unfold queue_length. destruct (popped (qs_q st)) eqn:Hp.
  - destruct c; unfold queue_write_locked, queue_read_locked; rewrite Ha, Hp; cbn [andb negb].
    + eexists _, _. split; [reflexivity|]. by split; [|intros [? _]].
    + eexists _, _, _. split; [reflexivity|]. by split; [|intros [? _]].
  - destruct c as [d|].
    + cbn in Hd. destruct (queue_write_spec _ _ ret d Hh Ha Hp) as (q' & Hw & _); [lia|].
      eexists _, _. split; [exact Hw|]. rewrite Hn', Hcnt, Z.ltb_lt. tauto.
    + destruct (queue_read_spec _ _ ret Hh Ha Hp) as (q' & Hr & _). eexists _, _, _. split; [exact Hr|].
      rewrite Hcnt. destruct msgs; cbn; split; intros; (done || lia || (split; [done|lia])).
Qed.

(** A blocking caller that finds the queue disabled after its wait is
    told it succeeded, with nothing written or read. *)
Theorem disabled_queue_claims_success q datum : popped q = false ->
  queue_write_locked (queue_disable q) true datum = Done (true, queue_disable q) /\
  queue_read_locked (queue_disable q) true = Done (true, [], queue_disable q).
Proof.
  intros Hp. unfold queue_write_locked, queue_read_locked, queue_disable.
  destruct (active q) eqn:Ha; cbn; [by rewrite Hp|]. by rewrite Ha, Hp.
Qed.

(** A reset empties the queue but not its count, so [queue_length] goes
    on reporting the messages that were thrown away. *)
Theorem queue_reset_keeps_count num sz q msgs : 0 < sz * num < 2 ^ 64 -> holds q msgs ->
  msgSize q = sz -> numMsgs q = num -> exists q', queue_reset q (true, true) = Done q' /\
    contents (ringb q') = [] /\ queue_length q' = Z.of_nat (length msgs).
Proof.
  intros Ht Hh <- <-. unfold queue_reset. rewrite u64_small by (unfold is_u64; lia).
  destruct (ring_create_ok (msgSize q * numMsgs q)) as (r & -> & _ & Hc & _); [lia|].
  eexists. split; [reflexivity|]. split; [exact Hc|]. apply Hh.
Qed.

(** The deadline of a timed wait is the time of day plus the timeout, but
    a sum of exactly one second of nanoseconds is not carried, which
    [pthread_cond_timedwait] refuses. *)
Theorem deadline_is_normal s us ms : 0 <= us < 1000000 -> 0 <= ms ->
  let '(sec, nsec) := milliseconds_from_now s us ms in
  sec * 1000000000 + nsec = s * 1000000000 + us * 1000 + ms * 1000000 /\ 0 <= nsec <= 1000000000 /\
  (nsec = 1000000000 <-> us * 1000 + ms mod 1000 * 1000000 = 1000000000).
Proof.
  intros Hu Hm. unfold milliseconds_from_now.
  pose proof (Z.div_mod ms 1000). pose proof (Z.mod_pos_bound ms 1000).
  destruct (Z.ltb_spec 1000000000 (us * 1000 + ms mod 1000 * 1000000)); lia.
Qed.

(** ** Witnesses: a queue of two messages of three bytes, two callers *)

Definition small_queue : queue_t :=
  mkQueue true false (mkRing 6 0 6 0 0 [0; 0; 0; 0; 0; 0]) 3 2 0 (mkEvent false false) (mkEvent true false).
Definition small_start : queue_state := mkQS small_queue [Calling true (Write [1; 2; 3]); Calling false Read] [] [].
Definition small_ready : queue_state := mkQS small_queue [Ready true (Write [1; 2; 3]); Calling false Read] [] [].

Lemma small_reaches : rtc queue_step small_start small_ready.
Proof. eapply rtc_l; [|apply rtc_refl]. by apply (qs_wait small_queue [Calling true (Write [1; 2; 3]); Calling false Read] [] [] 0 (Write [1; 2; 3])). Qed.

Lemma queue_is_fifo_witness : exists pending, qs_written small_ready = qs_read small_ready ++ pending /\
  queue_length small_queue = Z.of_nat (length pending) /\ Z.of_nat (length pending) <= 2.
Proof.
  destruct (queue_is_fifo 2 3 small_queue [Calling true (Write [1; 2; 3]); Calling false Read] small_ready)
    as (p & H1 & H2 & H3 & _); [lia|lia|lia|reflexivity|by repeat constructor|exact small_reaches|].
  exists p. split; [exact H1|split; [exact H2|exact H3]].
Defined.

Lemma queue_calls_finish_witness : exists ok q', queue_write_locked small_queue true [1; 2; 3] = Done (ok, q') /\
  (ok = true <-> popped small_queue = false /\ queue_length small_queue < 2).
Proof.
  apply (queue_calls_finish 2 3 small_queue [Calling true (Write [1; 2; 3]); Calling false Read] small_ready 0 true
    (Write [1; 2; 3])); [lia|lia|lia|reflexivity|by repeat constructor|exact small_reaches|reflexivity].
Defined.

Lemma disabled_queue_claims_success_witness :
  queue_read_locked (queue_disable small_queue) true = Done (true, [], queue_disable small_queue).
Proof. apply (disabled_queue_claims_success small_queue []). reflexivity. Defined.

Lemma queue_reset_keeps_count_witness : exists q',
  queue_reset (mkQueue true false (mkRing 6 3 3 0 3 [7; 8; 9; 0; 0; 0]) 3 2 1 (mkEvent true false) (mkEvent true false))
    (true, true) = Done q' /\ contents (ringb q') = [] /\ queue_length q' = 1.
Proof.
  apply (queue_reset_keeps_count 2 3 _ [[7; 8; 9]]); [lia| |reflexivity|reflexivity].
  split; cbn; [split; cbn; try lia; done|lia|split; [done|by repeat constructor]|done].
Defined.

Lemma deadline_is_normal_witness : let '(sec, nsec) := milliseconds_from_now 5 500000 500 in
  sec * 1000000000 + nsec = 5 * 1000000000 + 500000 * 1000 + 500 * 1000000 /\ 0 <= nsec <= 1000000000 /\
  (nsec = 1000000000 <-> 500000 * 1000 + 500 mod 1000 * 1000000 = 1000000000).
Proof. exact (deadline_is_normal 5 500000 500 ltac:(lia) ltac:(lia)). Defined.

(** ** Teardown *)

Lemma event_deinit_ends errs e : Forall (fun err => err = EBUSY) errs ->
  event_deinit (errs ++ [0]) e = Done (if decide (errs = []) then e else event_reset e).
Proof.
  intros Hf. revert e. induction Hf as [|err errs -> _ IH]; intros e; [done|]. simpl. rewrite IH. by case_decide.
Qed.

(** A queue that was made is destroyed with its three blocks, however often
    its events were busy. *)
Lemma queue_destroy_frees numMsgs msgSize q rd wr live :
  queue_create numMsgs msgSize true (true, true) = Queue q -> Forall (fun err => err = EBUSY) rd -> Forall (fun err => err = EBUSY) wr ->
  queue_destroy (Some (q, Some (ringb q))) (rd ++ [0]) (wr ++ [0]) (live + 3) = Done live.
Proof.
  intros _ Hr Hw. unfold queue_destroy. rewrite !event_deinit_ends by done. simpl. f_equal. lia.
Qed.
