(* ===== verification/ThreadPool.v ===== *)
(** * The thread pool (source/sosal/threadpool.c)

    Every worker thread has a message queue of its own; [threadpool_issue]
    deals work items to them in turn and [threadpool_complete] waits for all
    of them.  The functions are given as they run alone, then as the steps of
    concurrent clients, workers and the final [threadpool_destroy]. *)
From S2P Require Import Prelude Queue.

(** ** The pool *)

(** Where a worker thread is: before the wait of its [queue_read], behind it,
    with an item in [data], back from the worker function, or ended. *)
Inductive worker_at : Set := Reading | Woken | Working | Finishing | Exited.
#[export] Instance worker_at_eq_dec : EqDecision worker_at.
Proof. solve_decision. Defined.
Record threadpool_worker_t : Set := mkWorker { w_queue : queue_t; w_data : list Z; w_at : worker_at }.

(** [sem] is whether the binary semaphore is free. *)
Record threadpool_t : Set := mkThreadpool {
  numWorkers : Z; workers : list threadpool_worker_t; numCurrentItems : Z; nextWorkerIndex : Z;
  sem : bool; completed : event_t }.

Definition with_queue (q : queue_t) (w : threadpool_worker_t) : threadpool_worker_t := mkWorker q (w_data w) (w_at w).
Definition with_at (a : worker_at) (w : threadpool_worker_t) : threadpool_worker_t := mkWorker (w_queue w) (w_data w) a.
Definition with_workers (ws : list threadpool_worker_t) (p : threadpool_t) : threadpool_t :=
  mkThreadpool (numWorkers p) ws (numCurrentItems p) (nextWorkerIndex p) (sem p) (completed p).
Definition with_items (n : Z) (p : threadpool_t) : threadpool_t :=
  mkThreadpool (numWorkers p) (workers p) n (nextWorkerIndex p) (sem p) (completed p).
Definition with_index (i : Z) (p : threadpool_t) : threadpool_t :=
  mkThreadpool (numWorkers p) (workers p) (numCurrentItems p) i (sem p) (completed p).
Definition with_sem (free : bool) (e : event_t) (p : threadpool_t) : threadpool_t :=
  mkThreadpool (numWorkers p) (workers p) (numCurrentItems p) (nextWorkerIndex p) free e.

(** When every allocation succeeds; the threads start at the top of their
    loop. *)
Definition threadpool_create (numThreads numWorkItems sizeWorkItem : Z) : option threadpool_t :=
  match queue_create numWorkItems sizeWorkItem true (true, true) with
  | Queue q =>
      Some (mkThreadpool numThreads
              (replicate (Z.to_nat numThreads) (mkWorker q (replicate (Z.to_nat sizeWorkItem) 0) Reading))
              0 0 true (event_init false))
  | _ => None
  end.

(** ** Issuing *)

(** The semaphore is taken. *)
Definition issue_begin (p : threadpool_t) : threadpool_t := with_sem false (event_reset (completed p)) p.

(** One turn of the [do] loop: the item is offered to the next worker. *)
Definition issue_try (item : list Z) (p : threadpool_t) : outcome (bool * threadpool_t) :=
  let index := nextWorkerIndex p in
  if numWorkers p =? 0 then Undef
  else
    let p := with_index (u32 (nextWorkerIndex p + 1) mod numWorkers p) p in
    let p := with_items (s32 (numCurrentItems p + 1)) p in
    w ← of_option (aget (workers p) index);
    '(wrote, q) ← queue_write_locked (w_queue w) false item;
    ws ← of_option (aset (workers p) index (with_queue q w));
    let p := with_workers ws p in
    Done (wrote, if wrote : bool then p else with_items (s32 (numCurrentItems p - 1)) p).

Definition issue_end (p : threadpool_t) : threadpool_t :=
  with_sem true (if numCurrentItems p =? 0 then event_set (completed p) else completed p) p.

(** [while (wrote == false_e && count < pool->numWorkers)], with the number
    of turns left. *)
Fixpoint issue_item (turns : nat) (item : list Z) (p : threadpool_t) : outcome (bool * threadpool_t) :=
  '(wrote, p) ← issue_try item p;
  if wrote : bool then Done (true, p)
  else match turns with O => Done (false, p) | S turns => issue_item turns item p end.
(** [wrote]: the result of the item before. *)
Fixpoint issue_loop (items : list (list Z)) (wrote : bool) (p : threadpool_t) : outcome (bool * threadpool_t) :=
  match items with
  | [] => Done (wrote, p)
  | item :: items =>
      '(wrote, p) ← issue_item (Z.to_nat (numWorkers p) - 1) item p;
      if wrote : bool then issue_loop items true p else Done (false, p)
  end.
(** With no worker taking part meanwhile. *)
Definition threadpool_issue (p : threadpool_t) (items : list (list Z)) : outcome (bool * threadpool_t) :=
  '(wrote, p) ← issue_loop items false (issue_begin p);
  Done (wrote, issue_end p).

(** Without blocking: whether all work is done. *)
Definition threadpool_complete (p : threadpool_t) : bool := numCurrentItems p =? 0.

(** ** The worker's loop, by steps *)

(** Behind the wait: [queue_read] gives an item, or [false] and the thread
    ends. *)
Definition worker_read (w : threadpool_worker_t) : outcome threadpool_worker_t :=
  '(ok, item, q) ← queue_read_locked (w_queue w) true;
  Done (if ok : bool then mkWorker q item Working else mkWorker q (w_data w) Exited).
(** Between [semaphore_wait] and [semaphore_post]. *)
Definition item_done (p : threadpool_t) : threadpool_t :=
  let p := with_items (s32 (numCurrentItems p - 1)) p in
  if numCurrentItems p <=? 0 then with_sem (sem p) (event_set (completed p)) p else p.

(** ** Concurrent use

    A client issues its items, then waits for completion.  It issues under
    the semaphore, which the workers need to count an item done, but its
    writes interleave with their reads.  When all clients are back the pool
    may be destroyed: worker by worker, its queue is popped and its thread
    joined. *)

(** [acc]: the items written so far; [todo]: the item being offered and
    those behind it; [count]: its turns so far; [wrote]: the last result. *)
Inductive pool_client : Set :=
  | ToIssue (items : list (list Z))
  | Issuing (acc todo : list (list Z)) (count : nat) (wrote : bool)
  | Completing (acc : list (list Z)) (wrote : bool)
  | Left (acc : list (list Z)) (wrote : bool).

(** [threadpool_destroy]: not called, or at a worker, before or behind the
    [queue_pop]. *)
Inductive destroyer : Set := NotCalled | At (i : nat) (popped : bool).
#[export] Instance destroyer_eq_dec : EqDecision destroyer.
Proof. solve_decision. Defined.

Section Steps.
(** The worker function, with the index of the worker, on what the items
    work on. *)
Context {E : Type} (function : nat -> list Z -> E -> E).

(** [tp_log]: the items worked on, with their worker, in the order in which
    the function returned. *)
Record tp_state : Type := mkTP {
  tp_pool : threadpool_t; tp_clients : list pool_client; tp_destroy : destroyer;
  tp_env : E; tp_log : list (nat * list Z) }.

(** What a try leads to: the next item, another turn, or giving up. *)
Definition tried (wrote : bool) (n : Z) (acc : list (list Z)) (item : list Z) (todo : list (list Z)) (count : nat)
    : pool_client :=
  if wrote then Issuing (acc ++ [item]) todo 0 true
  else if Z.of_nat (S count) <? n then Issuing acc (item :: todo) (S count) false
  else Issuing acc [] 0 false.

Inductive tp_step : tp_state -> tp_state -> Prop :=
  | tp_begin p cs d e log (c : nat) items :
      cs !! c = Some (ToIssue items) -> sem p = true ->
      tp_step (mkTP p cs d e log) (mkTP (issue_begin p) (<[c := Issuing [] items 0 false]> cs) d e log)
  | tp_try p cs d e log (c : nat) acc item todo count w wrote p' :
      cs !! c = Some (Issuing acc (item :: todo) count w) ->
      issue_try item p = Done (wrote, p') ->
      tp_step (mkTP p cs d e log) (mkTP p' (<[c := tried wrote (numWorkers p) acc item todo count]> cs) d e log)
  | tp_end p cs d e log (c : nat) acc count w :
      cs !! c = Some (Issuing acc [] count w) ->
      tp_step (mkTP p cs d e log) (mkTP (issue_end p) (<[c := Completing acc w]> cs) d e log)
  | tp_complete p cs d e log (c : nat) acc w :
      cs !! c = Some (Completing acc w) -> set (completed p) = true ->
      tp_step (mkTP p cs d e log) (mkTP p (<[c := Left acc w]> cs) d e log)
  | tp_wake p cs d e log (i : nat) w :
      workers p !! i = Some w -> w_at w = Reading -> set (readEvent (w_queue w)) = true ->
      tp_step (mkTP p cs d e log) (mkTP (with_workers (<[i := with_at Woken w]> (workers p)) p) cs d e log)
  | tp_read p cs d e log (i : nat) w w' :
      workers p !! i = Some w -> w_at w = Woken -> worker_read w = Done w' ->
      tp_step (mkTP p cs d e log) (mkTP (with_workers (<[i := w']> (workers p)) p) cs d e log)
  | tp_work p cs d e log (i : nat) w :
      workers p !! i = Some w -> w_at w = Working ->
      tp_step (mkTP p cs d e log)
        (mkTP (with_workers (<[i := with_at Finishing w]> (workers p)) p) cs d
              (function i (w_data w) e) (log ++ [(i, w_data w)]))
  | tp_done p cs d e log (i : nat) w :
      workers p !! i = Some w -> w_at w = Finishing -> sem p = true ->
      tp_step (mkTP p cs d e log)
        (mkTP (item_done (with_workers (<[i := with_at Reading w]> (workers p)) p)) cs d e log)
  | tp_destroy_begin p cs e log :
      (forall c, c ∈ cs -> exists acc w, c = Left acc w) ->
      tp_step (mkTP p cs NotCalled e log) (mkTP p cs (At 0 false) e log)
  | tp_pop p cs e log (i : nat) w :
      workers p !! i = Some w ->
      tp_step (mkTP p cs (At i false) e log)
        (mkTP (with_workers (<[i := with_queue (queue_pop (w_queue w)) w]> (workers p)) p) cs (At i true) e log)
  | tp_join p cs e log (i : nat) w :
      workers p !! i = Some w -> w_at w = Exited ->
      tp_step (mkTP p cs (At i true) e log) (mkTP p cs (At (S i) false) e log).

Definition tp_start (p : threadpool_t) (items : list (list (list Z))) (e : E) : tp_state :=
  mkTP p (ToIssue <$> items) NotCalled e [].
End Steps.
Arguments tp_state : clear implicits.
