(* ===== verification/ThreadPoolFacts.v ===== *)
(** * Where the items of a thread pool are (facts about threadpool.c)

    The invariant of [tp_step]: every item written is in a queue, with a
    worker, or in the log, the counter counts the first two, and the event
    is set only when there are none. *)
From Stdlib Require Import Permutation.
From S2P Require Import Prelude Ring Queue QueueProperties ThreadPool.

Definition in_work (w : threadpool_worker_t) : list (list Z) := match w_at w with Working => [w_data w] | _ => [] end.
Definition busy (w : threadpool_worker_t) : Z := match w_at w with Working | Finishing => 1 | _ => 0 end.
Definition issues (c : pool_client) : Z := match c with Issuing _ _ _ _ => 1 | _ => 0 end.
Definition acc_of (c : pool_client) : list (list Z) :=
  match c with ToIssue _ => [] | Issuing acc _ _ _ | Completing acc _ | Left acc _ => acc end.
Definition has_left (c : pool_client) : bool := match c with Left _ _ => true | _ => false end.
Definition has_begun (c : pool_client) : bool := match c with ToIssue _ => false | _ => true end.
Definition under_way (c : pool_client) : bool := match c with Issuing _ _ _ _ | Completing _ _ => true | _ => false end.

(** A worker whose queue holds [msgs]. *)
Record worker_ok (sz cap : Z) (w : threadpool_worker_t) (msgs : list (list Z)) : Prop := {
  wk_holds : holds (w_queue w) msgs;
  wk_queue : active (w_queue w) = true /\ msgSize (w_queue w) = sz /\ numMsgs (w_queue w) = cap;
  wk_events : popped (w_queue w) = false -> events_right (w_queue w);
  wk_popped : popped (w_queue w) = true -> set (readEvent (w_queue w)) = true;
  wk_woken : w_at w = Woken -> msgs <> [] \/ popped (w_queue w) = true;
  wk_exited : w_at w = Exited -> popped (w_queue w) = true }.

(** A client that came to issue [items]. *)
Definition client_ok (n : Z) (items : list (list Z)) (c : pool_client) : Prop :=
  match c with
  | ToIssue l => l = items
  | Issuing acc todo k w => (acc ++ todo = items \/ (todo = [] /\ w = false)) /\ Z.of_nat k < n
  | Completing acc w | Left acc w => w = true -> acc = items
  end.

(** ** One worker *)

Section Worker.
Context (sz cap : Z).
Implicit Types (w : threadpool_worker_t) (msgs : list (list Z)).

Lemma worker_room w msgs : worker_ok sz cap w msgs -> Z.of_nat (length msgs) <= cap.
Proof. intros [Hh (_ & _ & <-) _ _ _ _]. by apply holds_bytes in Hh as (_ & _ & ? & _). Qed.

Lemma worker_at w msgs a : worker_ok sz cap w msgs -> a <> Woken -> a <> Exited -> worker_ok sz cap (with_at a w) msgs.
Proof. intros [Hh Hq He Hp _ _] Hw Hx. by split. Qed.

Lemma worker_wakes w msgs : worker_ok sz cap w msgs -> set (readEvent (w_queue w)) = true ->
  worker_ok sz cap (with_at Woken w) msgs.
Proof.
  intros [Hh Hq He Hp _ _] Hs. split; try done. intros _. cbn. destruct (popped (w_queue w)) eqn:Hpop; [by right|left].
  destruct (He eq_refl) as [_ Hr]. apply Hr in Hs. apply holds_bytes in Hh as (Hu & _). intros ->. cbn in Hu. lia.
Qed.

Lemma worker_reads w msgs : worker_ok sz cap w msgs -> w_at w = Woken -> exists w', worker_read w = Done w' /\
  ((w_at w' = Exited /\ worker_ok sz cap w' msgs) \/
   (exists msg msgs', msgs = msg :: msgs' /\ w_at w' = Working /\ w_data w' = msg /\ worker_ok sz cap w' msgs')) /\
  popped (w_queue w') = popped (w_queue w).
Proof.
  intros [Hh (Ha & Hs & Hn) He Hp Hw Hx] Hat. unfold worker_read. destruct (popped (w_queue w)) eqn:Hpop.
  - unfold queue_read_locked. rewrite Ha, Hpop. cbn. eexists. split; [reflexivity|]. split; [|done]. left. split; [done|].
    split; try done; cbn; try congruence. by auto.
  - destruct (queue_read_spec (w_queue w) msgs true Hh Ha Hpop) as (q & -> & Hh' & He' & Ha' & Hp' & Hs' & Hn').
    destruct msgs as [|msg msgs]; [by destruct (Hw Hat)|]. cbn [mbind outcome_bind]. eexists. split; [reflexivity|]. split; [|done].
    right. exists msg, msgs. split_and!; [done..|]. split; cbn; try done; try congruence.
    + split_and!; [done|congruence..].
    + intros _. by apply He', He.
Qed.

Lemma worker_takes w msgs item : worker_ok sz cap w msgs -> popped (w_queue w) = false -> Z.of_nat (length item) = sz ->
  exists q, queue_write_locked (w_queue w) false item = Done (Z.of_nat (length msgs) <? cap, q) /\
    popped q = false /\
    worker_ok sz cap (with_queue q w) (if Z.of_nat (length msgs) <? cap then msgs ++ [item] else msgs).
Proof.
  intros [Hh (Ha & Hs & Hn) He Hp Hw Hx] Hpop Hl.
  destruct (queue_write_spec (w_queue w) msgs false item Hh Ha Hpop) as (q & Hq & Hh' & He' & Ha' & Hp' & Hs' & Hn'); [lia|].
  rewrite Hn in *. exists q. split; [done|]. split; [done|]. split; cbn; try done; try congruence.
  - split_and!; [done|congruence..].
  - intros _. by apply He', He.
  - intros Hat. left. destruct (Z.of_nat (length msgs) <? cap); [by destruct msgs|]. destruct (Hw Hat); [done|congruence].
  - intros Hat. rewrite Hx in Hpop by done. done.
Qed.

Lemma worker_popped w msgs : worker_ok sz cap w msgs -> worker_ok sz cap (with_queue (queue_pop (w_queue w)) w) msgs.
Proof.
  intros [Hh Hq He Hp Hw Hx]. split; cbn; try done; try by right. by apply holds_with_events.
Qed.
End Worker.

Section Invariant.
Context {E : Type} (function : nat -> list Z -> E -> E).
Context (n : nat) (sz cap : Z) (items : list (list (list Z))) (e0 : E).
Implicit Types (st : tp_state E) (p : threadpool_t) (mss : list (list (list Z))).

Definition destroy_ok (ws : list threadpool_worker_t) (cs : list pool_client) (d : destroyer) : Prop :=
  match d with
  | NotCalled => Forall (fun w => popped (w_queue w) = false) ws
  | At i b => Forall (fun c => has_left c = true) cs /\ (i <= length ws)%nat /\
      (b = true -> exists w, ws !! i = Some w /\ popped (w_queue w) = true)
  end.

(** The part about the items. *)
Record flow_ok (p : threadpool_t) (cs : list pool_client) (log : list (nat * list Z)) mss : Prop := {
  fl_workers : Forall2 (worker_ok sz cap) (workers p) mss;
  fl_items : flat_map acc_of cs ≡ₚ log.*2 ++ flat_map in_work (workers p) ++ flat_map id mss;
  fl_count : numCurrentItems p = Z.of_nat (length (flat_map id mss)) + Zsum (busy <$> workers p) }.
(** The part about the semaphore and the event. *)
Record sync_ok (p : threadpool_t) (cs : list pool_client) : Prop := {
  sy_sem : Zsum (issues <$> cs) = if sem p then 0 else 1;
  sy_set : set (completed p) = true -> numCurrentItems p = 0 /\ sem p = true;
  sy_auto : autoreset (completed p) = false;
  sy_idle : existsb has_begun cs = true -> sem p = true -> numCurrentItems p = 0 -> set (completed p) = true;
  sy_left : existsb has_left cs = true -> existsb under_way cs = false -> set (completed p) = true }.

Definition shape_ok (p : threadpool_t) : Prop :=
  numWorkers p = Z.of_nat n /\ length (workers p) = n /\ 0 <= nextWorkerIndex p < Z.of_nat n.

Record tp_inv (st : tp_state E) : Prop := {
  tp_flow : exists mss, flow_ok (tp_pool st) (tp_clients st) (tp_log st) mss;
  tp_sync : sync_ok (tp_pool st) (tp_clients st);
  tp_shape : shape_ok (tp_pool st);
  tp_asked : Forall2 (client_ok (Z.of_nat n)) items (tp_clients st);
  tp_torn : destroy_ok (workers (tp_pool st)) (tp_clients st) (tp_destroy st);
  tp_result : tp_env st = foldl (fun e x => function x.1 x.2 e) e0 (tp_log st) }.
(** ** The items *)

Lemma length_flat_map_insert {A B} (f : A -> list B) l (i : nat) x y : l !! i = Some x ->
  Z.of_nat (length (flat_map f (<[i := y]> l))) =
  Z.of_nat (length (flat_map f l)) - Z.of_nat (length (f x)) + Z.of_nat (length (f y)).
Proof.
  intros (pre & post & -> & ->)%lookup_insert_split. rewrite !flat_map_app. cbn [flat_map]. rewrite !length_app. lia.
Qed.

(** One worker changes, with the clients and the log. *)
Lemma flow_update p cs log mss p' cs' log' (i : nat) w msgs w' msgs' :
  flow_ok p cs log mss -> workers p !! i = Some w -> mss !! i = Some msgs ->
  workers p' = <[i := w']> (workers p) -> worker_ok sz cap w' msgs' ->
  flat_map acc_of cs' ++ log.*2 ++ in_work w ++ msgs ≡ₚ flat_map acc_of cs ++ log'.*2 ++ in_work w' ++ msgs' ->
  numCurrentItems p' - Z.of_nat (length msgs') - busy w' = numCurrentItems p - Z.of_nat (length msgs) - busy w ->
  flow_ok p' cs' log' (<[i := msgs']> mss).
Proof.
  intros [Hw Hi Hc] Hlw Hlm Hp' Hok Hperm Hn. split.
  - rewrite Hp'. by apply Forall2_insert.
  - apply (Permutation_count_occ (decide_rel (=@{list Z}))). intros z.
    apply (Permutation_count_occ (decide_rel (=@{list Z}))) with (x := z) in Hperm, Hi.
    repeat rewrite count_occ_app in Hperm. repeat rewrite count_occ_app in Hi. repeat rewrite count_occ_app. rewrite Hp'.
    pose proof (count_flat_map_insert (decide_rel (=@{list Z})) in_work _ _ _ w' z Hlw).
    pose proof (count_flat_map_insert (decide_rel (=@{list Z})) id _ _ _ msgs' z Hlm). cbn [id] in *. lia.
  - rewrite Hp', (Zsum_insert busy _ _ _ w' Hlw), (length_flat_map_insert id _ _ _ msgs' Hlm). cbn [id]. lia.
Qed.

(** Nothing moves. *)
Lemma flow_keep p cs log mss p' cs' : flow_ok p cs log mss -> workers p' = workers p ->
  numCurrentItems p' = numCurrentItems p -> flat_map acc_of cs' = flat_map acc_of cs -> flow_ok p' cs' log mss.
Proof. intros [Hw Hi Hc] Hp Hn Ha. split; rewrite ?Hp, ?Hn, ?Ha; done. Qed.

Lemma flow_at p cs log mss (i : nat) w : flow_ok p cs log mss -> workers p !! i = Some w ->
  exists msgs, mss !! i = Some msgs /\ worker_ok sz cap w msgs.
Proof. intros [Hw _ _] Hi. by apply (Forall2_lookup_l _ _ _ _ _ Hw). Qed.

(** Every count is between none and all. *)
Lemma flow_bounds p cs log mss : flow_ok p cs log mss -> 0 <= cap ->
  0 <= numCurrentItems p <= Z.of_nat (length (workers p)) * (cap + 1) /\
  (numCurrentItems p = 0 -> flat_map id mss = [] /\ flat_map in_work (workers p) = []).
Proof.
  intros [Hw _ Hc] Hcap. rewrite Hc. clear Hc. induction Hw as [|w msgs ws mss Hok Hw IH]; cbn [flat_map length].
  - split; [cbn; lia|done].
  - rewrite length_app, fmap_cons, Zsum_cons. destruct IH as [IH1 IH2]. pose proof (worker_room _ _ _ _ Hok). cbn [id].
    assert (0 <= busy w <= 1) as Hb by (unfold busy; destruct (w_at w); lia).
    split; [lia|]. intros H0. destruct IH2 as [-> ->]; [lia|].
    assert (msgs = []) as -> by (destruct msgs; cbn [length] in *; [done|lia]).
    assert (busy w = 0) as Hb0 by lia. unfold busy in Hb0. unfold in_work. by destruct (w_at w).
Qed.

(** ** The steps of the pool *)

Lemma Zsum_zero {A} (f : A -> Z) l : (forall x, 0 <= f x) -> Zsum (f <$> l) = 0 -> forall x, x ∈ l -> f x = 0.
Proof.
  intros Hf. induction l as [|y l IH]; intros Hs x Hx; [by apply elem_of_nil in Hx|]. rewrite fmap_cons in Hs.
  rewrite Zsum_cons in Hs. assert (0 <= Zsum (f <$> l)) as Hl by (apply Zsum_nonneg, Forall_fmap, Forall_true; intros; apply Hf).
  pose proof (Hf y). apply elem_of_cons in Hx as [->|Hx]; [lia|]. apply IH; [lia|done].
Qed.
Lemma issues_nonneg c : 0 <= issues c.
Proof. by destruct c. Qed.
Lemma sync_issuing p cs (c : nat) acc todo k w : sync_ok p cs -> cs !! c = Some (Issuing acc todo k w) ->
  sem p = false /\ set (completed p) = false.
Proof.
  intros [Hs Hset _ _ _] Hc. assert (sem p = false) as Hsem.
  { destruct (sem p); [|done]. apply list_elem_of_lookup_2, (Zsum_zero issues cs issues_nonneg Hs) in Hc. done. }
  split; [done|]. destruct (set (completed p)); [|done]. destruct (Hset eq_refl). congruence.
Qed.

(** Neither the counter nor the clients change. *)
Lemma sync_keep p cs p' : sync_ok p cs -> numCurrentItems p' = numCurrentItems p -> sem p' = sem p ->
  completed p' = completed p -> sync_ok p' cs.
Proof. intros [? ? ? ? ?] Hn Hs Hc. by split; rewrite ?Hn, ?Hs, ?Hc. Qed.

Lemma sync_begin p cs (c : nat) its : sync_ok p cs -> cs !! c = Some (ToIssue its) -> sem p = true ->
  sync_ok (issue_begin p) (<[c := Issuing [] its 0 false]> cs).
Proof.
  intros [Hs Hset Ha Hi Hl] Hc Hsem. split; cbn.
  - rewrite (Zsum_insert issues _ _ _ _ Hc), Hs, Hsem. done.
  - done.
  - done.
  - done.
  - intros _. by rewrite (existsb_insert_true under_way _ _ _ _ Hc).
Qed.

Lemma sync_try p cs (c : nat) acc todo k w acc' todo' k' w' p' : sync_ok p cs ->
  cs !! c = Some (Issuing acc todo k w) -> sem p' = sem p -> completed p' = completed p ->
  sync_ok p' (<[c := Issuing acc' todo' k' w']> cs).
Proof.
  intros Hok Hc Hs' Hc'. destruct (sync_issuing _ _ _ _ _ _ _ Hok Hc) as [Hsem Hset]. destruct Hok as [Hs _ Ha Hi Hl].
  split; rewrite ?Hs', ?Hc', ?Hsem.
  - rewrite (Zsum_insert issues _ _ _ _ Hc), Hs, Hsem. done.
  - congruence.
  - done.
  - done.
  - intros _. by rewrite (existsb_insert_true under_way _ _ _ _ Hc).
Qed.

Lemma sync_end p cs (c : nat) acc todo k w : sync_ok p cs -> cs !! c = Some (Issuing acc todo k w) ->
  sync_ok (issue_end p) (<[c := Completing acc w]> cs).
Proof.
  intros Hok Hc. destruct (sync_issuing _ _ _ _ _ _ _ Hok Hc) as [Hsem Hset]. destruct Hok as [Hs _ Ha Hi Hl].
  split; cbn.
  - rewrite (Zsum_insert issues _ _ _ _ Hc), Hs, Hsem. done.
  - destruct (Z.eqb_spec (numCurrentItems p) 0); [done|congruence].
  - by destruct (numCurrentItems p =? 0).
  - intros _ _ ->. done.
  - intros _. by rewrite (existsb_insert_true under_way _ _ _ _ Hc).
Qed.

Lemma sync_complete p cs (c : nat) acc w : sync_ok p cs -> cs !! c = Some (Completing acc w) ->
  set (completed p) = true -> sync_ok p (<[c := Left acc w]> cs).
Proof.
  intros [Hs Hset Ha Hi Hl] Hc He. split; try done. rewrite (Zsum_insert issues _ _ _ _ Hc), Hs. cbn. lia.
Qed.

(** An item is done while the semaphore is free. *)
Lemma sync_done p cs : sync_ok p cs -> 1 <= numCurrentItems p < 2 ^ 31 -> sem p = true -> sync_ok (item_done p) cs.
Proof.
  intros [Hs Hset Ha Hi Hl] Hn Hsem. unfold item_done. cbn. rewrite s32_small by (unfold is_s32; lia).
  assert (set (completed p) = false) as Hns by (destruct (set (completed p)); [destruct (Hset eq_refl); lia|done]).
  destruct (Z.leb_spec (numCurrentItems p - 1) 0); split; cbn; try done; rewrite ?Hns in *; try done; try lia; auto.
  intros _. split; [lia|done].
Qed.
(** ** One try to issue *)

Context (Hcap : 0 < cap) (Hbig : Z.of_nat n * (cap + 1) < 2 ^ 31 - 1).

Lemma flow_count p cs log mss : flow_ok p cs log mss -> shape_ok p -> 0 <= numCurrentItems p < 2 ^ 31 - 1.
Proof. intros Hf (_ & Hl & _). destruct (flow_bounds _ _ _ _ Hf) as [Hb _]; [lia|]. rewrite Hl in Hb. lia. Qed.

Lemma try_spec p cs log mss (c : nat) acc item todo k w : flow_ok p cs log mss -> shape_ok p ->
  Forall (fun w => popped (w_queue w) = false) (workers p) -> Z.of_nat (length item) = sz ->
  cs !! c = Some (Issuing acc (item :: todo) k w) ->
  exists wrote p' msgs, issue_try item p = Done (wrote, p') /\ sem p' = sem p /\ completed p' = completed p /\
    shape_ok p' /\ nextWorkerIndex p' = (nextWorkerIndex p + 1) mod Z.of_nat n /\
    Forall (fun w => popped (w_queue w) = false) (workers p') /\
    mss !! Z.to_nat (nextWorkerIndex p) = Some msgs /\ wrote = (Z.of_nat (length msgs) <? cap) /\
    flow_ok p' (<[c := tried wrote (numWorkers p) acc item todo k]> cs) log
      (<[Z.to_nat (nextWorkerIndex p) := if wrote then msgs ++ [item] else msgs]> mss).
Proof.
  intros Hf Hsh Hpop Hlen Hc. pose proof (flow_count _ _ _ _ Hf Hsh) as Hcnt. destruct Hsh as (Hn & Hl & Hidx).
  unfold issue_try. rewrite (proj2 (Z.eqb_neq (numWorkers p) 0)) by lia. cbn [workers nextWorkerIndex with_items with_index].
  destruct (aget_in_range (workers p) (nextWorkerIndex p)) as (wk & Hwk); [lia|]. rewrite Hwk. cbn [of_option mbind outcome_bind].
  apply aget_Some in Hwk as [_ Hwk]. destruct (flow_at _ _ _ _ _ _ Hf Hwk) as (msgs & Hmsgs & Hok).
  pose proof (Forall_lookup_1 _ _ _ _ Hpop Hwk) as Hp. cbn beta in Hp.
  destruct (worker_takes _ _ _ _ item Hok Hp Hlen) as (q & -> & Hqp & Hok'). cbn [mbind outcome_bind].
  rewrite aset_in_range by lia. cbn [of_option mbind outcome_bind].
  assert (0 <= (nextWorkerIndex p + 1) mod Z.of_nat n < Z.of_nat n) as Hnext by (apply Z.mod_pos_bound; lia).
  eexists _, _, msgs. split; [reflexivity|].
  rewrite u32_small by (unfold is_u32; nia). rewrite Hn.
  assert (s32 (numCurrentItems p + 1) = numCurrentItems p + 1) as Hs1 by (apply s32_small; unfold is_s32; lia).
  assert (s32 (numCurrentItems p + 1 - 1) = numCurrentItems p) as Hs2 by (rewrite s32_small; unfold is_s32; lia).
  destruct (Z.ltb_spec (Z.of_nat (length msgs)) cap) as [Hroom|Hfull]; cbn; split_and!; try done;
    try (by apply Forall_insert); try (unfold shape_ok; cbn; by rewrite length_insert).
  - apply (flow_update p cs log mss _ _ _ _ _ _ (with_queue q wk) (msgs ++ [item]) Hf Hwk Hmsgs); cbn; [done|done| |].
    + rewrite (Permutation_app_comm (flat_map acc_of _)).
      apply (Permutation_count_occ (decide_rel (=@{list Z}))). intros z.
      pose proof (count_flat_map_insert (decide_rel (=@{list Z})) acc_of _ _ _ (Issuing (acc ++ [item]) todo 0 true) z Hc) as H.
      cbn [acc_of] in H. repeat rewrite count_occ_app in H. repeat rewrite count_occ_app. unfold tried.
      change (in_work (with_queue q wk)) with (in_work wk). lia.
    + rewrite length_app. cbn. change (busy (with_queue q wk)) with (busy wk). lia.
  - apply (flow_update p cs log mss _ _ _ _ _ _ (with_queue q wk) msgs Hf Hwk Hmsgs); cbn; [done|done| |].
    + apply (Permutation_count_occ (decide_rel (=@{list Z}))). intros z. unfold tried.
      pose proof (count_flat_map_insert (decide_rel (=@{list Z})) acc_of _ _ _
        (if Z.of_nat (S k) <? Z.of_nat n then Issuing acc (item :: todo) (S k) false else Issuing acc [] 0 false) z Hc) as H.
      change (in_work (with_queue q wk)) with (in_work wk).
      destruct (Z.of_nat (S k) <? Z.of_nat n); cbn [acc_of] in H; repeat rewrite count_occ_app; lia.
    + change (busy (with_queue q wk)) with (busy wk). rewrite Hs1. lia.
Qed.
(** ** The invariant is kept *)

Lemma Forall2_update {A B} (P : A -> B -> Prop) l k (i : nat) x y :
  Forall2 P l k -> k !! i = Some x -> (forall a, P a x -> P a y) -> Forall2 P l (<[i := y]> k).
Proof.
  intros HP Hi Hxy. destruct (Forall2_lookup_r _ _ _ _ _ HP Hi) as (a & Ha & Hax).
  rewrite <- (list_insert_id l i a Ha). apply Forall2_insert; auto.
Qed.

Lemma not_torn ws cs d (c : nat) x : destroy_ok ws cs d -> cs !! c = Some x -> has_left x = false ->
  d = NotCalled /\ Forall (fun w => popped (w_queue w) = false) ws.
Proof.
  intros Hd Hc Hx. destruct d as [|i b]; [done|]. destruct Hd as [Hl _].
  pose proof (Forall_lookup_1 _ _ _ _ Hl Hc). cbn beta in *. congruence.
Qed.
Lemma torn_worker ws cs d (i : nat) w w' : destroy_ok ws cs d -> ws !! i = Some w ->
  popped (w_queue w') = popped (w_queue w) -> destroy_ok (<[i := w']> ws) cs d.
Proof.
  intros Hd Hi Hp. destruct d as [|j b].
  - apply Forall_insert; [done|]. pose proof (Forall_lookup_1 _ _ _ _ Hd Hi). cbn beta in *. congruence.
  - destruct Hd as (Hl & Hj & Hb). rewrite <- (length_insert ws i w') in Hj. split; [done|]. split; [done|].
    intros Hbt. destruct (Hb Hbt) as (v & Hv & Hpv). destruct (decide (i = j)) as [<-|Hne].
    + exists w'. split; [apply list_lookup_insert_eq; by eapply lookup_lt_Some|]. congruence.
    + exists v. by rewrite list_lookup_insert_ne.
Qed.

Implicit Types (d : destroyer) (log : list (nat * list Z)).

(** A client goes on without writing anything. *)
Lemma flow_client p cs log mss p' (c : nat) x y : flow_ok p cs log mss -> cs !! c = Some x -> acc_of y = acc_of x ->
  workers p' = workers p -> numCurrentItems p' = numCurrentItems p -> flow_ok p' (<[c := y]> cs) log mss.
Proof.
  intros Hf Hc Ha Hw Hn. apply (flow_keep p cs); try done.
  destruct (lookup_insert_split _ _ _ Hc) as (pre & post & -> & ->). rewrite !flat_map_app. cbn [flat_map]. by rewrite Ha.
Qed.

Lemma client_step p cs d e log (c : nat) x y p' mss : tp_inv (mkTP p cs d e log) -> flow_ok p cs log mss ->
  cs !! c = Some x -> has_left x = false -> acc_of y = acc_of x -> workers p' = workers p ->
  numWorkers p' = numWorkers p -> nextWorkerIndex p' = nextWorkerIndex p ->
  numCurrentItems p' = numCurrentItems p -> (forall its, client_ok (Z.of_nat n) its x -> client_ok (Z.of_nat n) its y) ->
  sync_ok p' (<[c := y]> cs) -> tp_inv (mkTP p' (<[c := y]> cs) d e log).
Proof.
  intros [_ Hs Hsh Has Ht Hr] Hf Hc Hx Ha Hw Hnw Hix Hn Hok Hs'. cbn in *. split; cbn; try done.
  - exists mss. by eapply flow_client.
  - unfold shape_ok. by rewrite Hw, Hnw, Hix.
  - by eapply Forall2_update.
  - destruct (not_torn _ _ _ _ _ Ht Hc Hx) as [-> ?]. by rewrite Hw.
Qed.

(** A worker goes on without finishing an item. *)
Lemma worker_step p cs d e log e' log' (i : nat) w w' msgs msgs' mss : tp_inv (mkTP p cs d e log) -> flow_ok p cs log mss ->
  workers p !! i = Some w -> mss !! i = Some msgs -> worker_ok sz cap w' msgs' ->
  popped (w_queue w') = popped (w_queue w) -> busy w' + Z.of_nat (length msgs') = busy w + Z.of_nat (length msgs) ->
  log.*2 ++ in_work w ++ msgs ≡ₚ log'.*2 ++ in_work w' ++ msgs' ->
  e' = foldl (fun e x => function x.1 x.2 e) e0 log' ->
  tp_inv (mkTP (with_workers (<[i := w']> (workers p)) p) cs d e' log').
Proof.
  intros [_ Hs Hsh Has Ht Hr] Hf Hw Hm Hok Hp Hb Hl He. cbn in *. split; cbn; try done.
  - exists (<[i := msgs']> mss). apply (flow_update p cs log mss _ _ _ _ w msgs w'); try done; cbn; [|lia]. by rewrite Hl.
  - by apply (sync_keep p).
  - unfold shape_ok. cbn. by rewrite length_insert.
  - by eapply torn_worker.
Qed.
Context (Hlens : Forall (Forall (fun it => Z.of_nat (length it) = sz)) items).

Lemma offered p cs d e log (c : nat) acc item todo k w : tp_inv (mkTP p cs d e log) ->
  cs !! c = Some (Issuing acc (item :: todo) k w) -> Z.of_nat (length item) = sz.
Proof.
  intros [_ _ _ Has _ _] Hc. cbn in Has. destruct (Forall2_lookup_r _ _ _ _ _ Has Hc) as (its & Hi & [[<-|[? _]] _]); [|done].
  pose proof (Forall_lookup_1 _ _ _ _ Hlens Hi) as Hf. by apply Forall_app, proj2, Forall_cons, proj1 in Hf.
Qed.

Lemma try_step p cs d e log (c : nat) acc item todo k w wrote p' : tp_inv (mkTP p cs d e log) ->
  cs !! c = Some (Issuing acc (item :: todo) k w) -> issue_try item p = Done (wrote, p') ->
  tp_inv (mkTP p' (<[c := tried wrote (numWorkers p) acc item todo k]> cs) d e log).
Proof.
  intros Hinv Hc Hp. pose proof (offered _ _ _ _ _ _ _ _ _ _ _ Hinv Hc) as Hlen.
  pose proof Hinv as [[mss Hf] Hs Hsh Has Ht Hr]. cbn in *. destruct (not_torn _ _ _ _ _ Ht Hc eq_refl) as [-> Hpop].
  destruct (try_spec _ _ _ _ _ _ _ _ _ _ Hf Hsh Hpop Hlen Hc)
    as (wr & p1 & msgs & He & Hsem & Hcomp & Hsh' & _ & Hpop' & _ & _ & Hf').
  rewrite He in Hp. injection Hp as <- <-. split; cbn; try done; [by eexists| |].
  - destruct wr; [|unfold tried; destruct (Z.of_nat (S k) <? numWorkers p)]; by eapply sync_try.
  - eapply Forall2_update; [done|done|]. intros its [Hok Hk]. destruct Hsh as (-> & _ & Hn). unfold tried.
    destruct wr; [|destruct (Z.ltb_spec (Z.of_nat (S k)) (Z.of_nat n))]; cbn; (split; [|lia]).
    + left. rewrite <- app_assoc. by destruct Hok as [|[? _]].
    + by left; destruct Hok as [|[? _]].
    + by right.
Qed.

Lemma done_step p cs d e log (i : nat) w : tp_inv (mkTP p cs d e log) ->
  workers p !! i = Some w -> w_at w = Finishing -> sem p = true ->
  tp_inv (mkTP (item_done (with_workers (<[i := with_at Reading w]> (workers p)) p)) cs d e log).
Proof.
  intros [[mss Hf] Hs Hsh Has Ht Hr] Hw Hat Hsem. cbn in *. pose proof (flow_count _ _ _ _ Hf Hsh) as Hcnt.
  destruct (flow_at _ _ _ _ _ _ Hf Hw) as (msgs & Hm & Hok).
  assert (1 <= numCurrentItems p) as Hpos.
  { destruct Hf as [_ _ ->]. rewrite <- (list_insert_id _ _ _ Hw), (Zsum_insert busy _ _ _ w Hw).
    destruct (lookup_insert_split _ _ _ Hw) as (pre & post & -> & _). rewrite fmap_app, fmap_cons, Zsum_app, Zsum_cons.
    assert (forall l, 0 <= Zsum (busy <$> l)) as Hb.
    { intros l. apply Zsum_nonneg, Forall_fmap, Forall_true. intros x. cbn. unfold busy. by destruct (w_at x). }
    pose proof (Hb pre). pose proof (Hb post). unfold busy at 2. rewrite Hat. lia. }
  assert (workers (item_done (with_workers (<[i := with_at Reading w]> (workers p)) p)) = <[i := with_at Reading w]> (workers p) /\
    numCurrentItems (item_done (with_workers (<[i := with_at Reading w]> (workers p)) p)) = numCurrentItems p - 1) as [Hw' Hn'].
  { unfold item_done. cbn. rewrite s32_small by (unfold is_s32; lia). by destruct (numCurrentItems p - 1 <=? 0). }
  split; cbn; try done.
  - exists (<[i := msgs]> mss). apply (flow_update p cs log mss _ _ _ _ w msgs (with_at Reading w)); try done.
    + by apply worker_at.
    + cbn. unfold in_work. by rewrite Hat.
    + rewrite Hn'. unfold busy. rewrite Hat. cbn. lia.
  - apply sync_done; [by apply (sync_keep p)|cbn; lia|done].
  - unfold shape_ok, item_done. cbn. by destruct (s32 _ <=? 0); cbn; rewrite length_insert.
  - rewrite Hw'. by eapply torn_worker.
Qed.
Lemma destroy_step p cs d d' e log : tp_inv (mkTP p cs d e log) -> destroy_ok (workers p) cs d' ->
  tp_inv (mkTP p cs d' e log).
Proof. by intros [? ? ? ? ? ?]; split. Qed.

Lemma tp_step_inv st st' : tp_step function st st' -> tp_inv st -> tp_inv st'.
Proof.
  intros Hst Hinv. pose proof Hinv as [[mss Hf] Hs Hsh Has Ht Hr]. destruct Hst; cbn in Hf, Hs, Hsh, Has, Ht, Hr.
  - eapply client_step; try done; [|by apply sync_begin].
    intros its ->. cbn. split; [by left|]. destruct Hsh as (_ & _ & ?). lia.
  - by eapply try_step.
  - eapply client_step; try done; [|by eapply sync_end].
    intros its [[<-|[_ ->]] _]; cbn; [by rewrite app_nil_r|done].
  - eapply client_step; try done. by apply sync_complete.
  - destruct (flow_at _ _ _ _ _ _ Hf H) as (msgs & Hm & Hok). eapply worker_step; try done.
    + by apply worker_wakes.
    + unfold busy. cbn. by rewrite H0.
    + unfold in_work. cbn. by rewrite H0.
  - destruct (flow_at _ _ _ _ _ _ Hf H) as (msgs & Hm & Hok).
    destruct (worker_reads _ _ _ _ Hok H0) as (w1 & Hw1 & [[Hat Hok']|(msg & msgs' & -> & Hat & Hd & Hok')] & Hp);
      rewrite Hw1 in H1; injection H1 as <-.
    + eapply worker_step; try done; unfold busy, in_work; by rewrite H0, Hat.
    + eapply (worker_step p cs d e log); try done; unfold busy, in_work; rewrite H0, Hat, ?Hd; cbn [length]; [lia|done].
  - destruct (flow_at _ _ _ _ _ _ Hf H) as (msgs & Hm & Hok). eapply worker_step; try done.
    + by apply worker_at.
    + unfold busy. cbn. by rewrite H0.
    + unfold in_work. rewrite H0, fmap_app, <- app_assoc. done.
    + by rewrite foldl_snoc, Hr.
  - by eapply done_step.
  - apply (destroy_step _ _ NotCalled); [done|]. split; [|split; [lia|done]]. apply Forall_forall. intros c Hc.
    by destruct (H c Hc) as (acc & w & ->).
  - destruct (flow_at _ _ _ _ _ _ Hf H) as (msgs & Hm & Hok). destruct Ht as (Hl & Hi & _). split; cbn; try done.
    + exists (<[i := msgs]> mss). apply (flow_update p cs log mss _ _ _ _ w msgs (with_queue (queue_pop (w_queue w)) w)); try done.
      by apply worker_popped.
    + by apply (sync_keep p).
    + unfold shape_ok. cbn. by rewrite length_insert.
    + rewrite length_insert. split; [done|]. split; [done|]. intros _. eexists.
      split; [apply list_lookup_insert_eq; by eapply lookup_lt_Some|done].
  - apply (destroy_step _ _ (At i true)); [done|]. destruct Ht as (Hl & Hi & _). split; [done|].
    apply lookup_lt_Some in H. split; [lia|done].
Qed.

Lemma tp_reachable st st' : rtc (tp_step function) st st' -> tp_inv st -> tp_inv st'.
Proof. induction 1; [done|]. eauto using tp_step_inv. Qed.
End Invariant.
