(* ===== verification/ThreadPoolProperties.v ===== *)
(** * What a client of the thread pool can rely on (source/sosal/threadpool.c)

    A measure that every step lowers, and a step that is possible until all
    clients are back and the pool is destroyed; then the theorems. *)
From Stdlib Require Import Permutation.
From S2P Require Import Prelude DvpTypes KernelGraphManager KernelGraphBoss KernelGraph GraphProcess Ring Queue QueueProperties ThreadPool ThreadPoolFacts.

Section Progress.
Context {E : Type} (function : nat -> list Z -> E -> E).
Context (n : nat) (sz cap : Z) (items : list (list (list Z))) (e0 : E).
Context (Hcap : 0 < cap) (Hbig : Z.of_nat n * (cap + 1) < 2 ^ 31 - 1).
Context (Hlens : Forall (Forall (fun it => Z.of_nat (length it) = sz)) items).
Abbreviation inv := (tp_inv function n sz cap items e0).
Abbreviation step := (tp_step function).
Implicit Types (st : tp_state E) (p : threadpool_t).

(** ** Progress *)

Lemma worker_moves p cs d e log (i : nat) w : inv (mkTP p cs d e log) -> sem p = true -> workers p !! i = Some w ->
  w_at w <> Exited -> (w_at w = Reading -> set (readEvent (w_queue w)) = true) -> exists st, step (mkTP p cs d e log) st.
Proof.
  intros [[mss Hf] _ _ _ _ _] Hsem Hw Hx Hr. cbn in *. destruct (flow_at _ _ _ _ _ _ _ _ Hf Hw) as (msgs & _ & Hok).
  destruct (w_at w) eqn:Hat; [| | | |done].
  - eexists. by eapply tp_wake; [done|done|apply Hr].
  - destruct (worker_reads _ _ _ _ Hok Hat) as (w' & Hw' & _). eexists. by eapply tp_read.
  - eexists. by eapply tp_work.
  - eexists. by eapply tp_done.
Qed.

(** A worker with work, or none. *)
Lemma some_work p cs log mss : flow_ok sz cap p cs log mss -> numCurrentItems p <> 0 ->
  exists (i : nat) w msgs, workers p !! i = Some w /\ worker_ok sz cap w msgs /\ (busy w <> 0 \/ msgs <> []).
Proof.
  intros [Hw _ ->] Hn. induction Hw as [|w msgs ws mss Hok Hw IH]; [done|].
  destruct (decide (busy w = 0)) as [Hb|Hb]; [|by exists 0%nat, w, msgs; auto].
  destruct (decide (msgs = [])) as [->|Hm]; [|by exists 0%nat, w, msgs; auto].
  destruct IH as (i & v & k & Hi & Hv & Hk); [|by exists (S i), v, k].
  cbn [flat_map id app] in Hn. rewrite fmap_cons, Zsum_cons in Hn. lia.
Qed.

Lemma issuing_moves p cs d e log (c : nat) acc todo k w : inv (mkTP p cs d e log) ->
  cs !! c = Some (Issuing acc todo k w) -> exists st, step (mkTP p cs d e log) st.
Proof.
  intros Hinv Hc. destruct todo as [|item todo]; [eexists; by eapply tp_end|].
  pose proof (offered function n sz cap items e0 Hlens _ _ _ _ _ _ _ _ _ _ _ Hinv Hc) as Hlen.
  destruct Hinv as [[mss Hf] Hs Hsh Has Ht Hr]. cbn in *. destruct (not_torn _ _ _ _ _ Ht Hc eq_refl) as [-> Hpop].
  destruct (try_spec n sz cap Hcap Hbig _ _ _ _ _ _ _ _ _ _ Hf Hsh Hpop Hlen Hc) as (wr & p1 & msgs & He & _).
  eexists. by eapply tp_try.
Qed.

Lemma completing_moves p cs d e log (c : nat) acc w : inv (mkTP p cs d e log) -> sem p = true ->
  cs !! c = Some (Completing acc w) -> exists st, step (mkTP p cs d e log) st.
Proof.
  intros Hinv Hsem Hc. destruct (set (completed p)) eqn:Hset; [eexists; by eapply tp_complete|].
  pose proof Hinv as [[mss Hf] Hs Hsh Has Ht Hr]. cbn in *. destruct (not_torn _ _ _ _ _ Ht Hc eq_refl) as [-> Hpop].
  assert (numCurrentItems p <> 0) as Hn.
  { intros Hn. rewrite (sy_idle _ _ Hs) in Hset; [done| |done|done]. apply existsb_exists. exists (Completing acc w).
    split; [apply list_elem_of_In; by eapply list_elem_of_lookup_2|done]. }
  destruct (some_work _ _ _ _ Hf Hn) as (i & wk & msgs & Hwk & Hok & Hb).
  pose proof (Forall_lookup_1 _ _ _ _ Hpop Hwk) as Hp. cbn beta in Hp.
  eapply worker_moves; [done|done|done| |].
  - intros Hx. apply (wk_exited _ _ _ _ Hok) in Hx. congruence.
  - intros Hat. unfold busy in Hb. rewrite Hat in Hb. destruct Hb as [?|Hm]; [done|].
    destruct (wk_events _ _ _ _ Hok Hp) as [_ ->]. destruct (holds_bytes _ _ (wk_holds _ _ _ _ Hok)) as (-> & _).
    destruct (h_size _ _ (wk_holds _ _ _ _ Hok)) as (? & _). destruct msgs; [done|]. cbn [length]. nia.
Qed.

Abbreviation all_back cs := (Forall (fun c => has_left c = true) cs).

Lemma destroying_moves p cs d e log : inv (mkTP p cs d e log) -> all_back cs -> d <> At n false ->
  exists st, step (mkTP p cs d e log) st.
Proof.
  intros Hinv Hall Hd. pose proof Hinv as [[mss Hf] Hs (_ & Hl & _) Has Ht Hr]. cbn in *.
  assert (forall c, c ∈ cs -> exists acc w, c = Left acc w) as Hleft.
  { intros c Hc. rewrite Forall_forall in Hall. specialize (Hall c Hc). destruct c; try done. by eauto. }
  assert (sem p = true) as Hsem.
  { pose proof (sy_sem _ _ Hs) as Hz. destruct (sem p); [done|].
    enough (Zsum (issues <$> cs) = 0) by lia. clear -Hleft. induction cs as [|c cs IH]; [done|].
    rewrite fmap_cons, Zsum_cons. destruct (Hleft c) as (acc & w & ->); [by left|]. cbn. apply IH. intros x Hx. apply Hleft. by right. }
  destruct d as [|i [|]].
  - eexists. by apply tp_destroy_begin.
  - destruct Ht as (_ & _ & Hp). destruct (Hp eq_refl) as (w & Hw & Hpop).
    destruct (flow_at _ _ _ _ _ _ _ _ Hf Hw) as (msgs & _ & Hok). destruct (decide (w_at w = Exited)) as [Hx|Hx].
    + eexists. by eapply tp_join.
    + eapply worker_moves; try done. intros _. by apply (wk_popped _ _ _ _ Hok).
  - destruct Ht as (_ & Hi & _). destruct (lookup_lt_is_Some_2 (workers p) i) as (w & Hw).
    + assert (i <> n) by (intros ->; done). lia.
    + eexists. by eapply tp_pop.
Qed.

Lemma tp_progress st : inv st -> (exists st', step st st') \/ (all_back (tp_clients st) /\ tp_destroy st = At n false).
Proof.
  intros Hinv. destruct st as [p cs d e log]. cbn.
  destruct (decide (Forall (fun c => issues c = 0) cs)) as [Hno|Hiss].
  2: { left. apply not_Forall_Exists in Hiss; [|apply _]. apply Exists_exists in Hiss as (c & Hc & Hi). cbn in Hi.
       apply list_elem_of_lookup_1 in Hc as (j & Hj). destruct c; try done. by eapply issuing_moves. }
  assert (sem p = true) as Hsem.
  { pose proof (sy_sem _ _ (tp_sync _ _ _ _ _ _ _ Hinv)) as Hz. cbn in Hz. destruct (sem p); [done|]. exfalso. clear -Hno Hz.
    induction cs as [|c cs IH]; [done|]. apply Forall_cons in Hno as [Hc Hno]. rewrite fmap_cons, Zsum_cons, Hc in Hz. auto. }
  destruct (decide (all_back cs)) as [Hall|Hall].
  - destruct (decide (d = At n false)) as [->|Hd]; [by right|left]. by apply destroying_moves.
  - left. apply not_Forall_Exists in Hall; [|apply _]. apply Exists_exists in Hall as (c & Hc & Hl).
    apply list_elem_of_lookup_1 in Hc as (j & Hj). destruct c as [its|acc todo k w|acc w|acc w]; cbn in Hl; [| | |done].
    + eexists. by eapply tp_begin.
    + by eapply issuing_moves.
    + by eapply completing_moves.
Qed.
(** ** Termination *)

Definition client_measure (c : pool_client) : Z :=
  let per := Z.of_nat n + 6 in
  match c with
  | ToIssue its => per * Z.of_nat (length its) + 4
  | Issuing acc todo k w => per * Z.of_nat (length todo) + 3 - match todo with [] => 0 | _ => Z.of_nat k end
  | Completing _ _ => 1
  | Left _ _ => 0
  end.
Definition worker_measure (w : threadpool_worker_t) : Z :=
  5 * msgCount (w_queue w) +
  match w_at w with Reading => 2 | Woken => 1 | Working => 5 | Finishing => 4 | Exited => 0 end.
Definition destroy_measure (d : destroyer) : Z :=
  match d with
  | NotCalled => 2 * Z.of_nat n + 2
  | At i b => 2 * (Z.of_nat n - Z.of_nat i) + if b then 0 else 1
  end.
(** The steps that may be left. *)
Definition measure (st : tp_state E) : Z :=
  Zsum (client_measure <$> tp_clients st) + Zsum (worker_measure <$> workers (tp_pool st)) + destroy_measure (tp_destroy st).

Lemma measure_nonneg st : inv st -> 0 <= measure st.
Proof.
  intros [[mss Hf] _ Hsh Has Ht _]. unfold measure.
  assert (0 <= Zsum (client_measure <$> tp_clients st)) as H1.
  { apply Zsum_nonneg, Forall_fmap, Forall_forall. intros c Hc. apply list_elem_of_lookup_1 in Hc as (j & Hj).
    destruct (Forall2_lookup_r _ _ _ _ _ Has Hj) as (its & _ & Hok). unfold client_measure. cbn.
    destruct c as [its'|acc [|item todo] k w|acc w|acc w]; cbn [length]; try lia. destruct Hok as [_ Hk]. nia. }
  assert (0 <= Zsum (worker_measure <$> workers (tp_pool st))) as H2.
  { apply Zsum_nonneg, Forall_fmap, Forall_forall. intros w Hw. apply list_elem_of_lookup_1 in Hw as (j & Hj).
    destruct (flow_at _ _ _ _ _ _ _ _ Hf Hj) as (msgs & _ & Hok). pose proof (h_count _ _ (wk_holds _ _ _ _ Hok)).
    cbn. unfold worker_measure. destruct (w_at w); lia. }
  destruct Hsh as (_ & Hl & _). unfold destroy_measure. destruct (tp_destroy st) as [|i b]; [lia|].
  cbn in Ht. destruct Ht as (_ & Hi & _). destruct b; lia.
Qed.

Lemma measure_client p cs d e log (c : nat) x y p' e' log' : cs !! c = Some x ->
  client_measure y + Zsum (worker_measure <$> workers p') < client_measure x + Zsum (worker_measure <$> workers p) ->
  measure (mkTP p' (<[c := y]> cs) d e' log') < measure (mkTP p cs d e log).
Proof. intros Hc Hm. unfold measure. cbn [tp_clients tp_pool tp_destroy]. rewrite (Zsum_insert client_measure _ _ _ y Hc). lia. Qed.
Lemma measure_worker p cs d e log (i : nat) w w' p' e' log' : workers p !! i = Some w ->
  workers p' = <[i := w']> (workers p) -> worker_measure w' < worker_measure w ->
  measure (mkTP p' cs d e' log') < measure (mkTP p cs d e log).
Proof. intros Hw Hw' Hm. unfold measure. cbn [tp_clients tp_pool tp_destroy]. rewrite Hw', (Zsum_insert worker_measure _ _ _ w' Hw). lia. Qed.

(** A successful write adds an item to a queue, a refused one nothing. *)
Lemma try_measure item p cs log mss (c : nat) acc todo k w wrote p' : flow_ok sz cap p cs log mss -> shape_ok n p ->
  Forall (fun w => popped (w_queue w) = false) (workers p) -> Z.of_nat (length item) = sz ->
  cs !! c = Some (Issuing acc (item :: todo) k w) -> issue_try item p = Done (wrote, p') ->
  Zsum (worker_measure <$> workers p') = Zsum (worker_measure <$> workers p) + if wrote then 5 else 0.
Proof.
  intros Hf Hsh Hpop Hlen Hc. pose proof Hsh as (Hn & Hl & Hidx). unfold issue_try.
  rewrite (proj2 (Z.eqb_neq (numWorkers p) 0)) by lia. cbn [workers nextWorkerIndex with_items with_index].
  destruct (aget_in_range (workers p) (nextWorkerIndex p)) as (wk & Hwk); [lia|]. rewrite Hwk. cbn [of_option mbind outcome_bind].
  apply aget_Some in Hwk as [_ Hwk]. destruct (flow_at _ _ _ _ _ _ _ _ Hf Hwk) as (msgs & Hmsgs & Hok).
  pose proof (Forall_lookup_1 _ _ _ _ Hpop Hwk) as Hp. cbn beta in Hp.
  destruct (worker_takes _ _ _ _ item Hok Hp Hlen) as (q & -> & _ & Hok'). cbn [mbind outcome_bind].
  rewrite aset_in_range by lia. cbn [of_option mbind outcome_bind]. intros [= <- <-].
  pose proof (h_count _ _ (wk_holds _ _ _ _ Hok)) as Hm. pose proof (h_count _ _ (wk_holds _ _ _ _ Hok')) as Hm'.
  cbn [w_queue with_queue] in Hm'.
  destruct (Z.of_nat (length msgs) <? cap); cbn [workers with_workers with_items];
    rewrite (Zsum_insert worker_measure _ _ _ _ Hwk); unfold worker_measure; cbn [w_queue with_queue w_at];
    rewrite ?length_app in Hm'; cbn [length] in Hm'; lia.
Qed.
Lemma step_measure st st' : step st st' -> inv st -> measure st' < measure st.
Proof.
  intros Hst Hinv. pose proof Hinv as [[mss Hf] Hs Hsh Has Ht Hr]. pose proof Hsh as (Hn & Hl & Hidx).
  destruct Hst; cbn in Hf, Hs, Hsh, Has, Ht, Hr, Hn, Hl.
  - eapply measure_client; [done|]. cbn [client_measure workers issue_begin with_sem]. destruct items0; lia.
  - destruct (not_torn _ _ _ _ _ Ht H eq_refl) as [-> Hpop].
    pose proof (offered function n sz cap items e0 Hlens _ _ _ _ _ _ _ _ _ _ _ Hinv H) as Hlen.
    pose proof (try_measure _ _ _ _ _ _ _ _ _ _ _ _ Hf Hsh Hpop Hlen H H0) as Hm.
    destruct (Forall2_lookup_r _ _ _ _ _ Has H) as (its & _ & [_ Hk]).
    eapply measure_client; [done|]. rewrite Hm. unfold tried. rewrite Hn. cbn [client_measure length].
    destruct wrote; [destruct todo; cbn [client_measure length]; lia|].
    destruct (Z.ltb_spec (Z.of_nat (S count)) (Z.of_nat n)); cbn [client_measure length]; lia.
  - eapply measure_client; [done|]. cbn [client_measure workers issue_end with_sem length]. lia.
  - eapply measure_client; [done|]. cbn [client_measure]. lia.
  - eapply measure_worker; [done|done|]. unfold worker_measure. cbn. rewrite H0. lia.
  - destruct (flow_at _ _ _ _ _ _ _ _ Hf H) as (msgs & Hm & Hok).
    destruct (worker_reads _ _ _ _ Hok H0) as (w1 & Hw1 & Hd & _). rewrite Hw1 in H1. injection H1 as <-.
    eapply measure_worker; [done|done|]. pose proof (h_count _ _ (wk_holds _ _ _ _ Hok)) as Hc. unfold worker_measure. rewrite H0.
    destruct Hd as [[-> Hok']|(msg & msgs' & -> & -> & _ & Hok')]; rewrite (h_count _ _ (wk_holds _ _ _ _ Hok')); cbn [length] in *; lia.
  - eapply measure_worker; [done|done|]. unfold worker_measure. cbn. rewrite H0. lia.
  - eapply measure_worker; [done| |].
    + unfold item_done. cbn. by destruct (_ <=? 0).
    + unfold worker_measure. cbn. rewrite H0. lia.
  - unfold measure. cbn [tp_clients tp_pool tp_destroy destroy_measure]. lia.
  - unfold measure. cbn [tp_clients tp_pool tp_destroy destroy_measure workers with_workers].
    rewrite (Zsum_insert worker_measure _ _ _ _ H). unfold worker_measure at 3. cbn. fold (worker_measure w). unfold worker_measure. lia.
  - unfold measure. cbn [tp_clients tp_pool tp_destroy destroy_measure]. lia.
Qed.

(** An execution is at most as long as the measure of its start. *)
Lemma steps_bounded k st st' : nsteps step k st st' -> inv st -> Z.of_nat k <= measure st.
Proof.
  induction 1 as [st|k st1 st2 st3 Hst _ IH]; intros Hinv; [by apply measure_nonneg|].
  pose proof (step_measure _ _ Hst Hinv).
  pose proof (tp_step_inv function n sz cap items e0 Hcap Hbig Hlens _ _ Hst Hinv) as Hinv'. specialize (IH Hinv'). lia.
Qed.
(** So every state leads to the end. *)
Lemma tp_ends st : inv st -> exists st', rtc step st st' /\ inv st' /\ all_back (tp_clients st') /\ tp_destroy st' = At n false.
Proof.
  remember (Z.to_nat (measure st)) as m eqn:Hm. revert st Hm. induction m as [m IH] using lt_wf_ind. intros st -> Hinv.
  destruct (tp_progress st Hinv) as [[st1 Hst]|Hend]; [|by exists st].
  pose proof (tp_step_inv function n sz cap items e0 Hcap Hbig Hlens _ _ Hst Hinv) as Hinv1.
  pose proof (step_measure _ _ Hst Hinv). pose proof (measure_nonneg _ Hinv1).
  destruct (IH (Z.to_nat (measure st1)) ltac:(lia) st1 eq_refl Hinv1) as (st' & Hr & Hend). exists st'. split; [by eapply rtc_l|done].
Qed.
End Progress.

(** ** From the creation of the pool *)

Section Start.
Context {E : Type} (function : nat -> list Z -> E -> E).
Context (n : nat) (sz cap : Z) (items : list (list (list Z))) (e0 : E) (p0 : threadpool_t).
Implicit Types (st : tp_state E).

(** A pool of [n] workers with queues of [cap] items of [sz] bytes, and the
    items its clients come with. *)
Record pool_for : Prop := {
  pf_size : 0 < sz /\ 0 < cap /\ sz * cap < 2 ^ 64;
  pf_workers : (0 < n)%nat /\ Z.of_nat n * (cap + 1) < 2 ^ 31 - 1;
  pf_items : Forall (Forall (fun it => Z.of_nat (length it) = sz)) items;
  pf_create : threadpool_create (Z.of_nat n) cap sz = Some p0 }.
Context (Hpool : pool_for).

Lemma Zsum_replicate {A} (f : A -> Z) k x : Zsum (f <$> replicate k x) = Z.of_nat k * f x.
Proof. induction k as [|k IH]; [done|]. cbn [replicate]. rewrite fmap_cons, Zsum_cons, IH. lia. Qed.
Lemma acc_none {A B} (f : A -> list B) l : (forall x, x ∈ l -> f x = []) -> flat_map f l = [].
Proof. induction l as [|x l IH]; intros H; [done|]. cbn. rewrite H, IH by set_solver. done. Qed.

Lemma start_pool : exists q, holds q [] /\ active q = true /\ popped q = false /\ msgSize q = sz /\ numMsgs q = cap /\
  events_right q /\ p0 = mkThreadpool (Z.of_nat n)
    (replicate n (mkWorker q (replicate (Z.to_nat sz) 0) Reading)) 0 0 true (event_init false).
Proof.
  destruct Hpool as [(Hs & Hc & Hb) _ _ Hp]. unfold threadpool_create in Hp.
  destruct (queue_create cap sz true (true, true)) as [| |q] eqn:Hq; [done..|]. injection Hp as <-.
  destruct (queue_create_inv cap sz q [] Hs Hc Hb Hq) as (msgs & Hh & Ha & Hm & Hn & Hwr & _ & Hev); [done|].
  cbn in *. symmetry in Hwr. subst msgs. exists q. rewrite Nat2Z.id.
  assert (popped q = false) as Hpop.
  { unfold queue_create in Hq. clear -Hq. repeat case_match; by simplify_eq. }
  split_and!; try done. by apply Hev.
Qed.

Lemma tp_start_inv : tp_inv function n sz cap items e0 (tp_start p0 items e0).
Proof.
  destruct start_pool as (q & Hh & Ha & Hp & Hm & Hn & Hev & ->). destruct Hpool as [_ [Hn0 _] _ _].
  assert (forall c, c ∈ ToIssue <$> items -> exists its, c = ToIssue its) as Hall.
  { intros c (its & -> & _)%list_elem_of_fmap. by exists its. }
  split; cbn.
  - exists (replicate n []). split; cbn.
    + apply Forall2_replicate. split; cbn; (done || congruence).
    + rewrite !acc_none; [done| | |].
      * intros x Hx. apply elem_of_replicate in Hx as [-> _]. done.
      * intros x Hx. apply elem_of_replicate in Hx as [-> _]. done.
      * intros c (its & ->)%Hall. done.
    + rewrite acc_none, Zsum_replicate; [cbn; lia|]. intros x Hx. by apply elem_of_replicate in Hx as [-> _].
  - split; cbn; try done.
    + clear -items. induction items as [|its l IH]; [done|]. rewrite fmap_cons. cbn. exact IH.
    + intros (c & (its & ->)%list_elem_of_In%Hall & ?)%existsb_exists. done.
    + intros (c & (its & ->)%list_elem_of_In%Hall & ?)%existsb_exists. done.
  - unfold shape_ok. cbn. rewrite length_replicate. lia.
  - by apply Forall2_fmap_r, Forall_Forall2_diag, Forall_true.
  - by apply Forall_replicate.
  - done.
Qed.

Lemma tp_reachable_inv st : rtc (tp_step function) (tp_start p0 items e0) st -> tp_inv function n sz cap items e0 st.
Proof.
  intros Hr. destruct Hpool as [(_ & Hc & _) [_ Hb] Hl _].
  by apply (tp_reachable function n sz cap items e0 Hc Hb Hl _ _ Hr), tp_start_inv.
Qed.
(** Nothing is lost, left or done twice when the event is set. *)
Lemma completed_all st : tp_inv function n sz cap items e0 st -> set (completed (tp_pool st)) = true ->
  (tp_log st).*2 ≡ₚ flat_map acc_of (tp_clients st).
Proof.
  intros [[mss Hf] Hs _ _ _ _] Hset. destruct (sy_set _ _ Hs Hset) as [Hn _]. destruct Hpool as [(_ & Hc & _) _ _ _].
  destruct (flow_bounds _ _ _ _ _ _ Hf) as [_ H0]; [lia|]. destruct (H0 Hn) as [H1 H2].
  rewrite (fl_items _ _ _ _ _ _ Hf), H1, H2, !app_nil_r. done.
Qed.

Lemma written_whole st (c : nat) acc : tp_inv function n sz cap items e0 st ->
  tp_clients st !! c = Some (Left acc true) -> items !! c = Some acc.
Proof.
  intros [_ _ _ Has _ _] Hc. destruct (Forall2_lookup_r _ _ _ _ _ Has Hc) as (its & Hi & Hok). cbn in Hok.
  by rewrite Hok.
Qed.

(** When all clients are back the event is set. *)
Lemma all_left_set st : tp_inv function n sz cap items e0 st -> Forall (fun c => has_left c = true) (tp_clients st) ->
  tp_clients st <> [] -> set (completed (tp_pool st)) = true.
Proof.
  intros [_ Hs _ _ _ _] Hall Hne. apply (sy_left _ _ Hs).
  - destruct (tp_clients st) as [|c cs]; [done|]. apply Forall_cons in Hall as [Hc _]. cbn. by rewrite Hc.
  - clear -Hall. induction Hall as [|c cs Hc _ IH]; [done|]. cbn. rewrite IH. by destruct c.
Qed.
End Start.

(** ** Properties *)



(** ** Witnesses *)

(** Three workers with queues of two items of one byte, and two clients. *)
Definition sample_items : list (list (list Z)) := [[[1]; [2]; [3]; [4]]; [[5]]].
Definition sample_pool : threadpool_t :=
  match threadpool_create 3 2 1 with Some p => p | None => mkThreadpool 0 [] 0 0 true (event_init false) end.
Definition add_first (_ : nat) (item : list Z) (e : Z) : Z := e + default 0 (head item).
Lemma sample_pool_for : pool_for 3 1 2 sample_items sample_pool.
Proof. split; [lia|lia|by repeat constructor|reflexivity]. Qed.


