(* ===== verification/GraphPool.v ===== *)
(** * A round of a graph in the thread pool (dvp_kgraph.c over threadpool.c)

    [DVP_KernelGraph_Process] gives the sections of a round to an idle pool
    and waits.  The pool has room for them, so the round is the sections'
    workers in some order: the argument [sched] of the model of
    [DVP_KernelGraph_Process] is what the pool delivers. *)
From Stdlib Require Import Permutation.
From S2P Require Import Prelude Ring Queue QueueProperties ThreadPool ThreadPoolFacts ThreadPoolProperties.
From S2P Require Import DvpTypes KernelGraphManager KernelGraphBoss KernelGraph GraphProcess ThreadPoolProperties.
From S2P Require Import GraphProperties.


(** ** One client on an idle pool *)

Section Alone.
Context {E : Type} (function : nat -> list Z -> E -> E).
Context (n : nat) (sz cap : Z) (its : list (list Z)) (e0 : E).
Context (Hcap : 0 < cap) (Hn : (0 < n)%nat) (Hbig : Z.of_nat n * (cap + 1) < 2 ^ 31 - 1).
Context (Hlens : Forall (Forall (fun it => Z.of_nat (length it) = sz)) [its]).
Context (Hroom : Z.of_nat (length its) <= Z.of_nat n * cap).
Abbreviation inv := (tp_inv function n sz cap [its] e0).
Implicit Types (st : tp_state E) (p : threadpool_t).

(** How many of [j] items dealt in turn come to worker [i]. *)
Definition quota (j i : Z) : Z := (j + Z.of_nat n - 1 - i) / Z.of_nat n.

Definition all_written (x : pool_client) : Prop :=
  match x with
  | ToIssue _ => True
  | Issuing acc todo _ w => acc ++ todo = its /\ (w = true \/ acc = [])
  | Completing acc w | Left acc w => acc = its /\ (w = true \/ its = [])
  end.
Record alone_ok (st : tp_state E) : Prop := {
  al_client : exists x, tp_clients st = [x] /\ all_written x;
  al_next : nextWorkerIndex (tp_pool st) = Z.of_nat (length (flat_map acc_of (tp_clients st))) mod Z.of_nat n;
  al_quota : forall (i : nat) w, workers (tp_pool st) !! i = Some w ->
    msgCount (w_queue w) <= quota (Z.of_nat (length (flat_map acc_of (tp_clients st)))) (Z.of_nat i) }.

Lemma quota_mono j i : quota j i <= quota (j + 1) i.
Proof. apply Z.div_le_mono; lia. Qed.
Lemma quota_turn j : 0 <= j -> quota j (j mod Z.of_nat n) = j / Z.of_nat n /\ quota (j + 1) (j mod Z.of_nat n) = j / Z.of_nat n + 1.
Proof.
  intros Hj. unfold quota. pose proof (Z.div_mod j (Z.of_nat n)). pose proof (Z.mod_pos_bound j (Z.of_nat n)).
  split; symmetry; [apply (Z.div_unique _ _ _ (Z.of_nat n - 1))|apply (Z.div_unique _ _ _ 0)]; lia.
Qed.

(** A worker moves without getting items. *)
Lemma alone_worker st p' d e log (i : nat) w w' : alone_ok st -> workers (tp_pool st) !! i = Some w ->
  workers p' = <[i := w']> (workers (tp_pool st)) -> nextWorkerIndex p' = nextWorkerIndex (tp_pool st) ->
  msgCount (w_queue w') <= msgCount (w_queue w) -> alone_ok (mkTP p' (tp_clients st) d e log).
Proof.
  intros [Hx Hnx Hq] Hw Hw' Hp' Hc. split; cbn; [done|congruence|]. intros j v Hv. rewrite Hw' in Hv.
  apply list_lookup_insert_Some in Hv as [(<- & -> & _)|[Hne Hv]]; [|by apply Hq]. specialize (Hq _ _ Hw). lia.
Qed.

Lemma alone_client st p' d e log x y : alone_ok st -> tp_clients st = [x] -> acc_of y = acc_of x -> all_written y ->
  workers p' = workers (tp_pool st) -> nextWorkerIndex p' = nextWorkerIndex (tp_pool st) ->
  alone_ok (mkTP p' [y] d e log).
Proof.
  intros [_ Hnx Hq] Hx Ha Hy Hw Hp'. rewrite Hx in *. cbn [flat_map] in *. split; cbn; [by exists y|congruence|].
  rewrite Hw, Ha. done.
Qed.

Lemma one_client {A} (x y z : A) (c : nat) : [x] !! c = Some y -> c = 0%nat /\ x = y /\ <[c := z]> [x] = [z].
Proof. destruct c as [|c]; [by intros [= ->]|done]. Qed.

Lemma alone_try p d e log acc item todo k w wrote p' :
  inv (mkTP p [Issuing acc (item :: todo) k w] d e log) -> alone_ok (mkTP p [Issuing acc (item :: todo) k w] d e log) ->
  issue_try item p = Done (wrote, p') ->
  alone_ok (mkTP p' [tried wrote (numWorkers p) acc item todo k] d e log).
Proof.
  intros Hinv [(x & [= <-] & Hx & _) Hnx Hq] Hp.
  pose proof (offered function n sz cap [its] e0 Hlens _ _ _ _ _ 0 _ _ _ _ _ Hinv eq_refl) as Hlen.
  pose proof Hinv as [[mss Hf] Hs Hsh Has Ht Hr]. cbn [tp_pool tp_clients tp_log tp_destroy] in *.
  destruct (not_torn _ _ _ 0 _ Ht eq_refl eq_refl) as [-> Hpop].
  destruct (try_spec n sz cap Hcap Hbig _ _ _ _ 0 _ _ _ _ _ Hf Hsh Hpop Hlen eq_refl)
    as (wr & p1 & msgs & He & _ & _ & Hsh' & Hnext & _ & Hm & Hwr & Hf').
  rewrite He in Hp. injection Hp as <- <-. cbn [flat_map acc_of] in Hnx, Hq. rewrite app_nil_r in Hnx, Hq.
  set (j := Z.of_nat (length acc)) in *. destruct (quota_turn j ltac:(lia)) as [Hq0 Hq1].
  pose proof (Z.mod_pos_bound j (Z.of_nat n) ltac:(lia)) as Hjn.
  assert (j < Z.of_nat (length its)) as Hj by (rewrite <- Hx, length_app; cbn [length]; lia).
  assert (forall (i : nat) v k, workers p !! i = Some v -> mss !! i = Some k -> Z.of_nat (length k) <= quota j (Z.of_nat i)) as Hold.
  { intros i v k' Hv Hk. destruct (flow_at _ _ _ _ _ _ _ _ Hf Hv) as (k2 & Hk2 & Hok). rewrite Hk in Hk2. injection Hk2 as <-.
    rewrite <- (h_count _ _ (wk_holds _ _ _ _ Hok)). by apply Hq. }
  destruct Hsh as (HnW & HlW & _). destruct (lookup_lt_is_Some_2 (workers p) (Z.to_nat (nextWorkerIndex p))) as (wk & Hwk); [lia|].
  assert (wr = true) as ->.
  { rewrite Hwr. apply Z.ltb_lt. specialize (Hold _ _ _ Hwk Hm). rewrite Z2Nat.id, Hnx, Hq0 in Hold by lia.
    enough (j / Z.of_nat n < cap) by lia. apply Z.div_lt_upper_bound; lia. }
  cbv iota in Hf'. cbn [tried] in *. split; cbn [tp_clients tp_pool flat_map acc_of].
  - eexists. split; [done|]. cbn. rewrite <- app_assoc. split; [done|by left].
  - rewrite app_nil_r, length_app. cbn [length]. rewrite Hnext, Hnx, Zplus_mod_idemp_l. f_equal. lia.
  - rewrite app_nil_r, length_app. cbn [length]. replace (Z.of_nat (length acc + 1)) with (j + 1) by lia.
    intros i v Hv. destruct (flow_at _ _ _ _ _ _ _ _ Hf' Hv) as (k2 & Hk2 & Hok). rewrite (h_count _ _ (wk_holds _ _ _ _ Hok)).
    pose proof (lookup_lt_Some _ _ _ Hv) as Hi. destruct Hsh' as (_ & Hl' & _).
    destruct (lookup_lt_is_Some_2 (workers p) i) as (v0 & Hv0); [lia|].
    apply list_lookup_insert_Some in Hk2 as [(<- & <- & _)|[Hne Hk2]].
    + specialize (Hold _ _ _ Hwk Hm). rewrite Z2Nat.id, Hnx in Hold by lia. rewrite Z2Nat.id, Hnx, length_app by lia. cbn [length]. lia.
    + specialize (Hold _ _ _ Hv0 Hk2). pose proof (quota_mono j (Z.of_nat i)). lia.
Qed.
Lemma alone_step st st' : tp_step function st st' -> inv st -> alone_ok st -> alone_ok st'.
Proof.
  intros Hst Hinv Hal. pose proof Hinv as [[mss Hf] _ _ Has _ _]. pose proof (al_client _ Hal) as (x & Hx & Hw).
  destruct Hst; cbn [tp_clients tp_pool tp_log] in Hf, Hx, Has; subst cs;
    try (apply (one_client _ _ (ToIssue [])) in H as (-> & -> & _)).
  - cbn [list_insert insert]. apply (alone_client _ _ _ _ _ _ _ Hal eq_refl); try done. cbn.
    apply Forall2_cons_1 in Has as [Hok _]. cbn in Hok. by split; [|right].
  - cbn [list_insert insert]. by eapply alone_try.
  - cbn [list_insert insert]. apply (alone_client _ _ _ _ _ _ _ Hal eq_refl); try done. cbn in *.
    rewrite app_nil_r in Hw. destruct Hw as [-> [->| ->]]; split; auto.
  - cbn [list_insert insert]. by apply (alone_client _ _ _ _ _ _ _ Hal eq_refl).
  - by eapply (alone_worker _ _ _ _ _ _ _ _ Hal H).
  - destruct (flow_at _ _ _ _ _ _ _ _ Hf H) as (msgs & Hm & Hok).
    destruct (worker_reads _ _ _ _ Hok H0) as (w1 & Hw1 & Hd & _). rewrite Hw1 in H1. injection H1 as <-.
    eapply (alone_worker _ _ _ _ _ _ _ _ Hal H); try done. rewrite (h_count _ _ (wk_holds _ _ _ _ Hok)).
    destruct Hd as [[_ Hok']|(msg & msgs' & -> & _ & _ & Hok')]; rewrite (h_count _ _ (wk_holds _ _ _ _ Hok')); cbn [length]; lia.
  - by eapply (alone_worker _ _ _ _ _ _ _ _ Hal H).
  - eapply (alone_worker _ _ _ _ _ _ _ (with_at Reading w) Hal H); [| |done]; unfold item_done; cbn;
      by destruct (s32 (numCurrentItems p - 1) <=? 0).
  - by destruct Hal; split.
  - by eapply (alone_worker _ _ _ _ _ _ _ _ Hal H).
  - by destruct Hal; split.
Qed.

Lemma alone_reachable st st' : rtc (tp_step function) st st' -> inv st -> alone_ok st -> alone_ok st'.
Proof.
  induction 1 as [|st1 st2 st3 Hs _ IH]; [done|]. intros Hinv Hal. apply IH; [|by eapply alone_step].
  by apply (tp_step_inv function n sz cap [its] e0 Hcap Hbig Hlens _ _ Hs).
Qed.
End Alone.

Lemma alone_start {E} n sz cap its (e0 : E) p0 : pool_for n sz cap [its] p0 ->
  alone_ok n its (tp_start p0 [its] e0).
Proof.
  intros Hp. destruct (start_pool n sz cap [its] p0 Hp) as (q & Hh & _ & _ & _ & _ & _ & ->).
  destruct Hp as [_ [Hn _] _ _]. split; cbn.
  - by exists (ToIssue its).
  - done.
  - intros i w Hi. apply lookup_replicate in Hi as [-> Hi]. cbn. rewrite (h_count _ _ Hh). cbn.
    apply Z.div_pos; lia.
Qed.

(** A client alone on an idle pool with room for its items comes back with
    all of them done. *)
Lemma alone_done {E} (function : nat -> list Z -> E -> E) n sz cap its e0 p0 st acc w :
  pool_for n sz cap [its] p0 -> Z.of_nat (length its) <= Z.of_nat n * cap ->
  rtc (tp_step function) (tp_start p0 [its] e0) st -> tp_clients st = [Left acc w] ->
  (its <> [] -> w = true) /\ (tp_log st).*2 ≡ₚ its /\
  tp_env st = foldl (fun e x => function x.1 x.2 e) e0 (tp_log st).
Proof.
  intros Hp Hroom Hr Hc. pose proof Hp as [(_ & Hcap & _) [Hn Hb] Hl _].
  pose proof (tp_start_inv function n sz cap [its] e0 p0 Hp) as Hinv0.
  pose proof (alone_reachable function n sz cap its e0 Hcap Hn Hb Hl Hroom _ _ Hr Hinv0 (alone_start n sz cap its e0 p0 Hp)) as Hal.
  pose proof (tp_reachable_inv function n sz cap [its] e0 p0 Hp st Hr) as Hinv.
  destruct (al_client _ _ _ Hal) as (x & Hx & Hw). rewrite Hc in Hx. injection Hx as <-. cbn in Hw. destruct Hw as [-> Hw].
  split_and!; [by intros; destruct Hw| |apply Hinv].
  assert (set (completed (tp_pool st)) = true) as Hset.
  { apply (all_left_set function n sz cap [its] e0 st Hinv); rewrite Hc; [by constructor|done]. }
  pose proof (completed_all function n sz cap [its] e0 p0 Hp st Hinv Hset) as Hperm. rewrite Hc in Hperm. cbn in Hperm.
  by rewrite app_nil_r in Hperm.
Qed.

(** ** The schedule of a round *)

(** A reordering of a list is a schedule of its positions. *)
Lemma schedule_of {A} (l k : list A) : k ≡ₚ l ->
  exists sched, sched ≡ₚ seq 0 (length l) /\ mapM (fun g => l !! g) sched = Some k.
Proof.
  intros Hp. apply Permutation_inj in Hp as [Hlen (f & Hinj & Hf)]. exists (f <$> seq 0 (length l)). split.
  - symmetry. apply submseteq_length_Permutation; [|by rewrite length_fmap].
    apply NoDup_submseteq; [apply NoDup_seq|]. intros x Hx. apply elem_of_seq in Hx.
    assert (f <$> seq 0 (length l) ⊆+ seq 0 (length l)) as Hsub.
    { apply NoDup_submseteq; [by apply NoDup_fmap_2; [|apply NoDup_seq]|]. intros y (z & -> & Hz)%list_elem_of_fmap.
      apply elem_of_seq in Hz. apply elem_of_seq. split; [lia|].
      destruct (lookup_lt_is_Some_2 k z) as (a & Ha); [lia|]. rewrite Hf in Ha. apply lookup_lt_Some in Ha. lia. }
    apply submseteq_length_Permutation in Hsub; [|by rewrite length_fmap]. rewrite Hsub. apply elem_of_seq. lia.
  - apply mapM_Some. apply Forall2_fmap_l. rewrite <- Hlen. apply Forall2_same_length_lookup_2; [by rewrite length_seq|].
    intros i x y Hx Hy. apply lookup_seq in Hx as [-> Hi]. cbn in *. by rewrite <- Hf.
Qed.

(** ** Properties *)


(** ** Witness: the first round of the sample graph *)

Definition collector_pool : threadpool_t :=
  match threadpool_create MAX_SECTIONS MAX_QUEUE_DEPTH 1 with
  | Some p => p
  | None => mkThreadpool 0 [] 0 0 true (event_init false)
  end.
Definition section_worker (_ : nat) (item : list Z) (e : outcome (graph_state BossProperties.Sample.world)) :=
  e ≫= fun g => dvp_kernelgraph_worker 1 Z.of_nat true g (default 0 (head item)).
Lemma collector_pool_for : pool_for 4 1 MAX_QUEUE_DEPTH [(fun s => [s]) <$> [0; 1]] collector_pool.
Proof. split; [by vm_compute|by vm_compute; split; [lia|]|by repeat constructor|reflexivity]. Qed.

