(* ===== verification/GraphInit.v ===== *)
(** * Bringing the graph API up and down (source/dvp/dvp_kgraph/dvp_kgraph.c)

    [DVP_KernelGraph_Init] and [DVP_KernelGraph_Deinit] over the variables of
    the file, which all graph handles of a process share: the thread pool and
    the semaphore of its workers.  A pool is taken down in one step;
    [ThreadPoolProperties] shows that this ends.  With the theorems. *)
From S2P Require Import Prelude DvpTypes Perf GraphLock KernelGraphManager KernelGraphBoss BossInit Queue ThreadPool KernelGraph.

Definition DVP_KGB_INIT_ALL : Z := Z.lor DVP_KGB_INIT_KGMS DVP_KGB_INIT_MEM_MGR.

Section Process.
Context {W : Type}.

(** A process: the static [pool] and [workData], the thread pools and the
    handles made so far.  A handle, or [pool], is a position in its list
    plus one, zero a null pointer; what was freed is [None]. *)
Record process_t : Type := mkProcess {
  pool : Z; workData : option Z; workCount : Z;
  pools : list (option threadpool_t); handles : list (option (DVP_t W * DVP_GraphLock_t)) }.

Definition add_pool (r : option threadpool_t) (p : process_t) : process_t :=
  match r with
  | None => mkProcess 0 (workData p) (workCount p) (pools p) (handles p)
  | Some tp => mkProcess (Z.of_nat (length (pools p)) + 1) (workData p) (workCount p) (pools p ++ [Some tp]) (handles p)
  end.
Definition with_work (s : option Z) (c : Z) (p : process_t) : process_t := mkProcess (pool p) s c (pools p) (handles p).
Definition add_handle (d : DVP_t W * DVP_GraphLock_t) (p : process_t) : Z * process_t :=
  (Z.of_nat (length (handles p)) + 1, mkProcess (pool p) (workData p) (workCount p) (pools p) (handles p ++ [Some d])).
Definition get_handle (h : Z) (p : process_t) : outcome (DVP_t W * DVP_GraphLock_t) :=
  r ← of_option (aget (handles p) (h - 1)); of_option r.
Definition drop_handle (h : Z) (p : process_t) : outcome process_t :=
  hs ← of_option (aset (handles p) (h - 1) None);
  Done (mkProcess (pool p) (workData p) (workCount p) (pools p) hs).

(** Without a pool nothing is done; one that was freed is not there. *)
Definition threadpool_destroy (a : Z) (p : process_t) : outcome process_t :=
  if a =? 0 then Done p
  else
    r ← of_option (aget (pools p) (a - 1)); _ ← of_option r;
    ps ← of_option (aset (pools p) (a - 1) None);
    Done (mkProcess (pool p) (workData p) (workCount p) ps (handles p)).

(** What the system answers during the initialisation: the modules found, the shared table,
    whether there is a memory manager and whether the pool was made. *)
Record answers : Type := mkAnswers {
  found : list (@module W); table : option DVP_Load_t; mem_ok : bool; pool_ok : bool }.

(** [sizeof(DVP_KernelGraphCollector_t)]: eight words of eight bytes, one of
    them of two 32-bit numbers. *)
Definition COLLECTOR_SIZE : Z := 64.

Definition boss_init (mask : Z) (a : answers) (gl : DVP_GraphLock_t) (p : process_t) : outcome (Z * process_t) :=
  d ← DVP_KernelGraphBossInit mask (found a) (table a) (mem_ok a);
  match d with None => Done (0, p) | Some dvp => Done (add_handle (dvp, gl) p) end.

Definition DVP_KernelGraph_Init (a : answers) (p : process_t) : outcome (Z * process_t) :=
  let p := with_work (Some 1) 0 p in
  let p := add_pool (if pool_ok a then threadpool_create MAX_SECTIONS MAX_QUEUE_DEPTH COLLECTOR_SIZE else None) p in
  boss_init DVP_KGB_INIT_ALL a dvp_graphlock_init p.

(** The lock of the handle of an importer is what [calloc] left. *)
Definition DVP_MemImporter_Create (a : answers) (p : process_t) : outcome (Z * process_t) :=
  boss_init DVP_KGB_INIT_MEM_MGR a (mkGraphLock false false 0) p.

Definition boss_deinit (h : Z) (p : process_t) : outcome (list (DVP_GraphManager_t W) * process_t) :=
  '(dvp, _) ← get_handle h p;
  ms ← DVP_KernelGraphBossDeinit dvp;
  p ← drop_handle h p; Done (ms, p).

(** The wait for an event that is not set does not end by itself.  With the
    managers as they were left. *)
Definition DVP_KernelGraph_Deinit (h : Z) (p : process_t) : outcome (list (DVP_GraphManager_t W) * process_t) :=
  if h =? 0 then Done ([], p)
  else
    '(dvp, gl) ← get_handle h p;
    if negb (m_wait gl) then NoFuel
    else
      p ← threadpool_destroy (pool p) p;
      boss_deinit h (with_work None (workCount p) p).

Definition DVP_MemImporter_Free (h : Z) (p : process_t) : outcome (list (DVP_GraphManager_t W) * process_t) :=
  if h =? 0 then Done ([], p) else boss_deinit h p.

(** ** Facts *)

Lemma add_handle_get d p : get_handle (add_handle d p).1 (add_handle d p).2 = Done d.
Proof.
  unfold get_handle, add_handle. cbn [fst snd handles]. rewrite Z.add_simpl_r, aget_nat, list_lookup_middle by done. done.
Qed.

Definition released (m : DVP_GraphManager_t W) : Prop := enabled m = false /\ handle m = 0.

Lemma boss_deinit_spec h p dvp gl :
  get_handle h p = Done (dvp, gl) -> Forall (fun m => enabled m = true -> initialised m) (managers dvp) ->
  exists ms, boss_deinit h p = Done (ms, mkProcess (pool p) (workData p) (workCount p) (pools p) (<[Z.to_nat (h - 1) := None]> (handles p))) /\
    length ms = length (managers dvp) /\ Forall released ms.
Proof.
  intros Hg Hall. unfold boss_deinit. rewrite Hg. cbn [mbind outcome_bind].
  destruct (BossDeinit_spec dvp) as (ms & -> & Hlen & Hms).
  { eapply Forall_impl; [exact Hall|]. intros m Hm He. destruct (Hm He) as (c & -> & _). by eexists. }
  cbn [mbind outcome_bind]. unfold drop_handle, get_handle in *.
  destruct (aget (handles p) (h - 1)) as [r|] eqn:E; [|done]. apply aget_Some in E as [Hr _].
  rewrite aset_in_range by done. by exists ms.
Qed.

Lemma boss_init_spec mask a gl p :
  Forall good_module (found a) -> (forall t, table a = Some t -> length (cores t) = num_cores) ->
  boss_init mask a gl p = Done (0, p) \/
  exists dvp, boss_init mask a gl p = Done (add_handle (dvp, gl) p) /\
    Forall (fun m => enabled m = true -> initialised m) (managers dvp) /\
    (Z.land mask DVP_KGB_INIT_KGMS <> 0 -> length (managers dvp) = length (found a)).
Proof.
  intros Hf Ht. unfold boss_init. destruct (BossInit_spec mask (found a) (table a) (mem_ok a) Hf Ht) as ([dvp|] & -> & Hr); [right|by left].
  exists dvp. destruct Hr as (_ & _ & Hall & Hk & _). split_and!; [done|done|]. intros Hm. by apply Hk.
Qed.

Definition good_answers (a : answers) : Prop :=
  Forall good_module (found a) /\ forall t, table a = Some t -> length (cores t) = num_cores.

(** ** Properties *)

Lemma threadpool_destroy_last l tp p : pools p = l ++ [Some tp] -> pool p = Z.of_nat (length l) + 1 ->
  threadpool_destroy (pool p) p = Done (mkProcess (pool p) (workData p) (workCount p) (l ++ [None]) (handles p)).
Proof.
  intros Hl Hp. unfold threadpool_destroy. rewrite Hl, Hp, (proj2 (Z.eqb_neq _ _)) by lia.
  rewrite Z.add_simpl_r, aget_nat, list_lookup_middle by done. cbn [of_option mbind outcome_bind].
  rewrite aset_nat by (rewrite length_app; simpl; lia). cbn [of_option mbind outcome_bind].
  rewrite insert_app_r_alt by done. by rewrite Nat.sub_diag.
Qed.

Lemma init_spec a p h p1 : good_answers a -> pool_ok a = true -> DVP_KernelGraph_Init a p = Done (h, p1) -> h <> 0 ->
  exists tp dvp, p1 = mkProcess (Z.of_nat (length (pools p)) + 1) (Some 1) 0 (pools p ++ [Some tp])
      (handles p ++ [Some (dvp, dvp_graphlock_init)]) /\
    h = Z.of_nat (length (handles p)) + 1 /\
    Forall (fun m => enabled m = true -> initialised m) (managers dvp) /\ length (managers dvp) = length (found a).
Proof.
  intros [Hf Ht] Hp. unfold DVP_KernelGraph_Init. rewrite Hp.
  destruct (threadpool_create MAX_SECTIONS MAX_QUEUE_DEPTH COLLECTOR_SIZE) as [tp|] eqn:Etp; [|by vm_compute in Etp].
  destruct (boss_init_spec DVP_KGB_INIT_ALL a dvp_graphlock_init (add_pool (Some tp) (with_work (Some 1) 0 p)) Hf Ht)
    as [->|(dvp & -> & Hall & Hlen)]; [by intros [= <- <-]|].
  intros [= <- <-] _. exists tp, dvp. split_and!; [done|done|done|by apply Hlen].
Qed.

Lemma deinit_spec h p dvp gl l tp : h <> 0 -> get_handle h p = Done (dvp, gl) -> m_wait gl = true ->
  Forall (fun m => enabled m = true -> initialised m) (managers dvp) ->
  pools p = l ++ [Some tp] -> pool p = Z.of_nat (length l) + 1 ->
  exists ms, DVP_KernelGraph_Deinit h p = Done (ms, mkProcess (pool p) None (workCount p) (l ++ [None]) (<[Z.to_nat (h - 1) := None]> (handles p))) /\
    length ms = length (managers dvp) /\ Forall released ms.
Proof.
  intros Hh Hg Hw Hall Hl Hp. unfold DVP_KernelGraph_Deinit. rewrite (proj2 (Z.eqb_neq _ _)) by done. rewrite Hg.
  cbn [mbind outcome_bind]. rewrite Hw. cbn [negb]. rewrite (threadpool_destroy_last l tp) by done. cbn [mbind outcome_bind].
  exact (boss_deinit_spec h (with_work None (workCount p) (mkProcess (pool p) (workData p) (workCount p) (l ++ [None]) (handles p))) dvp gl Hg Hall).
Qed.

Lemma last_handle {A} (l : list A) x y : <[Z.to_nat (Z.of_nat (length l) + 1 - 1) := y]> (l ++ [x]) = l ++ [y].
Proof. rewrite Z.add_simpl_r, Nat2Z.id, insert_app_r_alt by done. by rewrite Nat.sub_diag. Qed.

(** What a successful initialisation makes, its teardown takes down: the
    pool of this initialisation, every manager loaded, and the handle, and
    nothing else of the process.  Nothing blocks when no graph call is in
    progress. *)
Theorem graph_init_then_deinit a p h p1 : good_answers a -> pool_ok a = true ->
  DVP_KernelGraph_Init a p = Done (h, p1) -> h <> 0 ->
  exists ms p2, DVP_KernelGraph_Deinit h p1 = Done (ms, p2) /\
    length ms = length (found a) /\ Forall released ms /\
    pools p2 = pools p ++ [None] /\ handles p2 = handles p ++ [None].
Proof.
  intros Ha Hp E Hh. destruct (init_spec a p h p1 Ha Hp E Hh) as (tp & dvp & -> & -> & Hall & Hlen).
  match goal with |- context [DVP_KernelGraph_Deinit _ ?q] =>
    destruct (deinit_spec (Z.of_nat (length (handles p)) + 1) q dvp dvp_graphlock_init (pools p) tp) as (ms & -> & Hms & Hrel) end;
    [done|apply (add_handle_get _ p)|done|done|done|done|].
  eexists _, _. split_and!; [done|congruence|done|done|apply last_handle].
Qed.

(** An initialisation that fails leaves its pool running, with a null handle
    to stop it by. *)
Lemma failed_init_leaks_pool a p p1 : pool_ok a = true ->
  DVP_KernelGraph_Init a p = Done (0, p1) -> exists tp, pools p1 = pools p ++ [Some tp] /\ handles p1 = handles p /\
    DVP_KernelGraph_Deinit 0 p1 = Done ([], p1).
Proof.
  intros Hp. unfold DVP_KernelGraph_Init, boss_init. rewrite Hp.
  destruct (threadpool_create MAX_SECTIONS MAX_QUEUE_DEPTH COLLECTOR_SIZE) as [tp|] eqn:Etp; [|by vm_compute in Etp].
  intros H. apply outcome_bind_Done in H as (d & _ & H). destruct d as [dvp|].
  - unfold add_handle in H. injection H as H _. lia.
  - injection H as <-. by exists tp.
Qed.

(** Two runtimes in a process share one variable for their pools: the
    pool of the first is never taken down, and taking both down frees the
    second one's pool twice. *)
Theorem second_runtime_breaks_teardown a p h1 p1 b h2 p2 : good_answers b -> pool_ok a = true -> pool_ok b = true ->
  DVP_KernelGraph_Init a p = Done (h1, p1) -> h1 <> 0 -> DVP_KernelGraph_Init b p1 = Done (h2, p2) -> h2 <> 0 ->
  exists tp ms p3, DVP_KernelGraph_Deinit h2 p2 = Done (ms, p3) /\ pools p3 = pools p ++ [Some tp; None] /\
    DVP_KernelGraph_Deinit h1 p3 = Undef.
Proof.
  intros Hb Hpa Hpb Ea Ha Eb Hh.
  assert (exists tp d, p1 = mkProcess (Z.of_nat (length (pools p)) + 1) (Some 1) 0 (pools p ++ [Some tp]) (handles p ++ [Some (d, dvp_graphlock_init)]) /\
    h1 = Z.of_nat (length (handles p)) + 1) as (tp & d & -> & ->).
  { unfold DVP_KernelGraph_Init, boss_init in Ea. rewrite Hpa in Ea.
    destruct (threadpool_create MAX_SECTIONS MAX_QUEUE_DEPTH COLLECTOR_SIZE) as [tp|] eqn:Etp; [|by vm_compute in Etp].
    apply outcome_bind_Done in Ea as ([d|] & _ & Ea); [|by injection Ea as <- <-]. injection Ea as <- <-. by exists tp, d. }
  destruct (init_spec b _ h2 p2 Hb Hpb Eb Hh) as (tp2 & d2 & -> & -> & Hall & _). cbn [pools handles] in *.
  match goal with |- context [DVP_KernelGraph_Deinit (Z.of_nat (length (handles p ++ _)) + 1) ?q] =>
    destruct (deinit_spec (Z.of_nat (length (handles p ++ [Some (d, dvp_graphlock_init)])) + 1) q d2 dvp_graphlock_init
      (pools p ++ [Some tp]) tp2) as (ms & -> & _) end; [done| |done|done|done|done|].
  { apply (add_handle_get _ (mkProcess 0 None 0 [] (handles p ++ [Some (d, dvp_graphlock_init)]))). }
  eexists tp, _, _. split; [done|]. cbn [pools handles pool]. split; [by rewrite <- app_assoc|].
  unfold DVP_KernelGraph_Deinit. rewrite (proj2 (Z.eqb_neq _ _)) by done. unfold get_handle. cbn [handles].
  rewrite last_handle, Z.add_simpl_r, aget_nat. rewrite lookup_app_l by (rewrite length_app; simpl; lia).
  rewrite list_lookup_middle by done. cbn [of_option mbind outcome_bind m_wait negb].
  unfold threadpool_destroy. cbn [pool pools]. rewrite (proj2 (Z.eqb_neq _ _)) by lia.
  by rewrite Z.add_simpl_r, aget_nat, list_lookup_middle.
Qed.
End Process.

(** ** Witnesses *)

Definition cpu_answers : answers (W:=unit) :=
  mkAnswers [Some (7, mkSymbols (Some true) (Some (fun w ns st num sync => (w, ns, num))) (Some None) (Some tt) (Some tt)
    (Some DVP_CORE_CPU) (Some 100) (Some tt) (Some tt) (Some (fun w ns st num => (w, ns, num))))] None true true.
Definition new_process : process_t (W:=unit) := mkProcess 0 None 0 [] [].
Definition after_init (a : answers) (p : process_t (W:=unit)) : Z * process_t (W:=unit) :=
  match DVP_KernelGraph_Init a p with Done r => r | _ => (0, p) end.

Example graph_init_then_deinit_witness : exists ms p2,
  DVP_KernelGraph_Deinit 1 (after_init cpu_answers new_process).2 = Done (ms, p2) /\ length ms = 1%nat /\ handles p2 = [None].
Proof.
  destruct (graph_init_then_deinit cpu_answers new_process 1 (after_init cpu_answers new_process).2) as (ms & p2 & H & Hl & _ & _ & Hh).
  - split; [repeat constructor; simpl; lia|discriminate].
  - reflexivity.
  - vm_compute. reflexivity.
  - lia.
  - exists ms, p2. split; [exact H|]. split; [exact Hl|exact Hh].
Defined.

Example second_runtime_breaks_teardown_witness :
  let p1 := (after_init cpu_answers new_process).2 in
  exists ms p3, DVP_KernelGraph_Deinit 2 (after_init cpu_answers p1).2 = Done (ms, p3) /\ DVP_KernelGraph_Deinit 1 p3 = Undef.
Proof.
  cbv zeta. destruct (second_runtime_breaks_teardown cpu_answers new_process 1 (after_init cpu_answers new_process).2
    cpu_answers 2 (after_init cpu_answers (after_init cpu_answers new_process).2).2) as (tp & ms & p3 & H & _ & H').
  - split; [repeat constructor; simpl; lia|discriminate].
  - reflexivity.
  - reflexivity.
  - vm_compute. reflexivity.
  - lia.
  - vm_compute. reflexivity.
  - lia.
  - exists ms, p3. split; [exact H|exact H'].
Defined.
