(* ===== verification/NodeData.v ===== *)
(** * Kernels and the parameters of a kernel node (include/dvp/dvp_types.h)

    The kernels the CPU manager of the PC build executes or checks; a kernel's
    number is its feature's base, [0x1000] times the feature, plus its rank.
    A node carries its kernel's parameters as bytes, which the kernel casts to
    its own structure.  The layouts are those of the x86-64 ABI: integers
    little-endian, pointers of eight bytes, members aligned to their size. *)
From S2P Require Import Prelude DvpTypes Image ImageAlloc.

Definition DVP_KN_COPY : Z := 0x1001.
Definition DVP_KN_IMAGE_DEBUG : Z := 0x1002.
Definition DVP_KN_BUFFER_DEBUG : Z := 0x1003.
Definition DVP_KN_NOOP : Z := 0x1004.
Definition DVP_KN_XYXY_TO_Y800 : Z := 0x2001.
Definition DVP_KN_YXYX_TO_Y800 : Z := 0x2002.
Definition DVP_KN_Y800_TO_XYXY : Z := 0x2003.
Definition DVP_KN_UYVY_TO_RGBp : Z := 0x2004.
Definition DVP_KN_UYVY_TO_YUV420p : Z := 0x2005.
Definition DVP_KN_UYVY_TO_YUV422p : Z := 0x2006.
Definition DVP_KN_UYVY_TO_YUV444p : Z := 0x2007.
Definition DVP_KN_UYVY_TO_BGR : Z := 0x2008.
Definition DVP_KN_YUV420p_TO_UYVY : Z := 0x200c.
Definition DVP_KN_YUV422p_TO_UYVY : Z := 0x200d.
Definition DVP_KN_YUV444p_TO_UYVY : Z := 0x200e.
Definition DVP_KN_YUV444p_TO_RGBp : Z := 0x200f.
Definition DVP_KN_NV12_TO_YUV444p : Z := 0x2010.
Definition DVP_KN_BGR3_TO_UYVY : Z := 0x2011.
Definition DVP_KN_BGR3_TO_NV12 : Z := 0x2012.
Definition DVP_KN_NV12_TO_UYVY : Z := 0x2013.
Definition DVP_KN_YUV420p_TO_RGBp : Z := 0x2014.
Definition DVP_KN_BGR3_TO_IYUV : Z := 0x2015.
Definition DVP_KN_SOBEL_8 : Z := 0x3001.
Definition DVP_KN_SCHARR_8 : Z := 0x3002.
Definition DVP_KN_KROON_8 : Z := 0x3003.
Definition DVP_KN_PREWITT_8 : Z := 0x3004.
Definition DVP_KN_DILATE_CROSS : Z := 0x4001.
Definition DVP_KN_DILATE_MASK : Z := 0x4002.
Definition DVP_KN_DILATE_SQUARE : Z := 0x4003.
Definition DVP_KN_ERODE_CROSS : Z := 0x4004.
Definition DVP_KN_ERODE_MASK : Z := 0x4005.
Definition DVP_KN_ERODE_SQUARE : Z := 0x4006.
Definition DVP_KN_CANNY_IMAGE_SMOOTHING : Z := 0x5001.
Definition DVP_KN_CANNY_2D_GRADIENT : Z := 0x5002.
Definition DVP_KN_CANNY_NONMAX_SUPPRESSION : Z := 0x5003.
Definition DVP_KN_CANNY_HYST_THRESHHOLD : Z := 0x5004.
Definition DVP_KN_THRESHOLD : Z := 0x6001.
Definition DVP_KN_XSTRIDE_CONVERT : Z := 0x6002.
Definition DVP_KN_XSTRIDE_SHIFT : Z := 0x6003.
Definition DVP_KN_IIR_HORZ : Z := 0x7001.
Definition DVP_KN_IIR_VERT : Z := 0x7002.
Definition DVP_KN_NONMAXSUPPRESS_3x3_S16 : Z := 0x8001.
Definition DVP_KN_NONMAXSUPPRESS_5x5_S16 : Z := 0x8002.
Definition DVP_KN_NONMAXSUPPRESS_7x7_S16 : Z := 0x8003.
Definition DVP_KN_CONV_3x3 : Z := 0x9001.
Definition DVP_KN_CONV_5x5 : Z := 0x9002.
Definition DVP_KN_CONV_7x7 : Z := 0x9003.
Definition DVP_KN_THR_GT2MAX_8 : Z := 0xa001.
Definition DVP_KN_THR_GT2MAX_16 : Z := 0xa002.
Definition DVP_KN_THR_GT2THR_8 : Z := 0xa003.
Definition DVP_KN_THR_GT2THR_16 : Z := 0xa004.
Definition DVP_KN_THR_LE2MIN_8 : Z := 0xa005.
Definition DVP_KN_THR_LE2MIN_16 : Z := 0xa006.
Definition DVP_KN_THR_LE2THR_8 : Z := 0xa007.
Definition DVP_KN_THR_LE2THR_16 : Z := 0xa008.
Definition DVP_KN_SOBEL_3x3_8s : Z := 0xb001.
Definition DVP_KN_SOBEL_3x3_8 : Z := 0xb002.
Definition DVP_KN_SOBEL_3x3_16s : Z := 0xb003.
Definition DVP_KN_SOBEL_3x3_16 : Z := 0xb004.
Definition DVP_KN_INTEGRAL_IMAGE_8 : Z := 0xc001.
Definition DVP_KN_GAMMA : Z := 0xc002.

(** [DVP_KNODE_DATA_SIZE]: a page less the header's 88 bytes *)
Definition DVP_KNODE_DATA_SIZE : Z := 4096 - 88.
Definition DVP_MAX_NAME : Z := 32.
Definition MAX_PATH : Z := 255.

(** ** Scalars at a byte offset *)

Definition bytes_at (data : list Z) (off n : Z) : option (list Z) :=
  if (0 <=? off) && (0 <=? n) && (off + n <=? Z.of_nat (length data))
  then Some (take (Z.to_nat n) (drop (Z.to_nat off) data)) else None.
Definition of_le (bs : list Z) : Z := foldr (fun b v => b + 256 * v) 0 bs.
Fixpoint to_le (n : nat) (v : Z) : list Z :=
  match n with O => [] | S n' => v mod 256 :: to_le n' (v / 256) end.

Definition u16_at (data : list Z) (off : Z) : option Z := of_le <$> bytes_at data off 2.
Definition u32_at (data : list Z) (off : Z) : option Z := of_le <$> bytes_at data off 4.
Definition s32_at (data : list Z) (off : Z) : option Z := s32 <$> u32_at data off.
Definition ptr_at (data : list Z) (off : Z) : option Z := of_le <$> bytes_at data off 8.
Definition set_bytes (data : list Z) (off : Z) (bs : list Z) : option (list Z) :=
  _ ← bytes_at data off (Z.of_nat (length bs));
  Some (take (Z.to_nat off) data ++ bs ++ drop (Z.to_nat off + length bs) data).
Definition set_ptr (data : list Z) (off v : Z) : option (list Z) := set_bytes data off (to_le 8 v).

(** ** Structures at a byte offset *)

(** [DVP_Image_t]: 128 bytes *)
Definition image_at (data : list Z) (off : Z) : option DVP_Image_t :=
  pD ← mapM (fun p => ptr_at data (off + 8 * p)) (seqZ 0 DVP_MAX_PLANES);
  pB ← mapM (fun p => ptr_at data (off + 32 + 8 * p)) (seqZ 0 DVP_MAX_PLANES);
  pl ← u32_at data (off + 64);
  w ← u32_at data (off + 68);
  h ← u32_at data (off + 72);
  bw ← u32_at data (off + 76);
  bh ← u32_at data (off + 80);
  xs ← u32_at data (off + 84);
  ys ← u32_at data (off + 88);
  xst ← s32_at data (off + 92);
  yst ← s32_at data (off + 96);
  c ← u32_at data (off + 100);
  nb ← u32_at data (off + 104);
  mt ← u32_at data (off + 108);
  Some (mkImage pD pB pl w h bw bh xs ys xst yst c nb mt).

(** [DVP_Buffer_t]: 40 bytes *)
Definition buffer_at (data : list Z) (off : Z) : option DVP_Buffer_t :=
  p ← ptr_at data off;
  e ← u32_at data (off + 8);
  n ← u32_at data (off + 12);
  mt ← u32_at data (off + 16);
  Some (mkBuffer p e n mt).
