(* ===== verification/ParamTypes.v ===== *)
(** * Kernel numbers and parameter structures by name

    The enumerations of kernels of include/dvp/dvp_types.h and of the public
    libraries (dvp_kl_vrun.h, dvp_kl_dsplib.h, dvp_kl_dei.h) in their order, and
    the layout of the parameter structures, for pointers of [word] bytes. *)
From S2P Require Import Prelude DvpTypes Image ImageAlloc NodeData.
From stdpp Require Import strings.

Open Scope string_scope.
Open Scope list_scope.
Open Scope Z_scope.

(** ** Kernels *)

Definition DVP_KN_RANGE : Z := 0x1000.
Definition DVP_KN_LIBRARY_BASE (library : Z) : Z := 0x40000000 + library * DVP_KN_RANGE.
Definition DVP_KN_FEATURE_BASE (set : Z) : Z := set * DVP_KN_RANGE.
Definition DVP_KL_VRUN : Z := 7.
Definition DVP_KL_DSPLIB : Z := 12.
Definition DVP_KL_DEI : Z := 13.

(** Names are numbered from the base of their range, which counts as 0. *)
Definition enumerate (base : Z) (names : list string) : list (string * Z) :=
  zip names (seqZ (base + 1) (Z.of_nat (length names))).

(** The features [DVP_KF_DEBUG] to [DVP_KF_INTEGRAL], in that order *)
Definition feature_kernels : list (list string) :=
  [ ["DVP_KN_COPY"; "DVP_KN_IMAGE_DEBUG"; "DVP_KN_BUFFER_DEBUG"; "DVP_KN_NOOP"];
    ["DVP_KN_XYXY_TO_Y800"; "DVP_KN_YXYX_TO_Y800"; "DVP_KN_Y800_TO_XYXY"; "DVP_KN_UYVY_TO_RGBp";
     "DVP_KN_UYVY_TO_YUV420p"; "DVP_KN_UYVY_TO_YUV422p"; "DVP_KN_UYVY_TO_YUV444p"; "DVP_KN_UYVY_TO_BGR";
     "DVP_KN_YUV422p_TO_RGB565"; "DVP_KN_UYVY_TO_HSLp"; "DVP_KN_UYVY_TO_LABp"; "DVP_KN_YUV420p_TO_UYVY";
     "DVP_KN_YUV422p_TO_UYVY"; "DVP_KN_YUV444p_TO_UYVY"; "DVP_KN_YUV444p_TO_RGBp"; "DVP_KN_NV12_TO_YUV444p";
     "DVP_KN_BGR3_TO_UYVY"; "DVP_KN_BGR3_TO_NV12"; "DVP_KN_NV12_TO_UYVY"; "DVP_KN_YUV420p_TO_RGBp";
     "DVP_KN_BGR3_TO_IYUV"];
    ["DVP_KN_SOBEL_8"; "DVP_KN_SCHARR_8"; "DVP_KN_KROON_8"; "DVP_KN_PREWITT_8"];
    ["DVP_KN_DILATE_CROSS"; "DVP_KN_DILATE_MASK"; "DVP_KN_DILATE_SQUARE"; "DVP_KN_ERODE_CROSS";
     "DVP_KN_ERODE_MASK"; "DVP_KN_ERODE_SQUARE"];
    ["DVP_KN_CANNY_IMAGE_SMOOTHING"; "DVP_KN_CANNY_2D_GRADIENT"; "DVP_KN_CANNY_NONMAX_SUPPRESSION";
     "DVP_KN_CANNY_HYST_THRESHHOLD"];
    ["DVP_KN_THRESHOLD"; "DVP_KN_XSTRIDE_CONVERT"; "DVP_KN_XSTRIDE_SHIFT"];
    ["DVP_KN_IIR_HORZ"; "DVP_KN_IIR_VERT"];
    ["DVP_KN_NONMAXSUPPRESS_3x3_S16"; "DVP_KN_NONMAXSUPPRESS_5x5_S16"; "DVP_KN_NONMAXSUPPRESS_7x7_S16"];
    ["DVP_KN_CONV_3x3"; "DVP_KN_CONV_5x5"; "DVP_KN_CONV_7x7"];
    ["DVP_KN_THR_GT2MAX_8"; "DVP_KN_THR_GT2MAX_16"; "DVP_KN_THR_GT2THR_8"; "DVP_KN_THR_GT2THR_16";
     "DVP_KN_THR_LE2MIN_8"; "DVP_KN_THR_LE2MIN_16"; "DVP_KN_THR_LE2THR_8"; "DVP_KN_THR_LE2THR_16"];
    ["DVP_KN_SOBEL_3x3_8s"; "DVP_KN_SOBEL_3x3_8"; "DVP_KN_SOBEL_3x3_16s"; "DVP_KN_SOBEL_3x3_16";
     "DVP_KN_SOBEL_5x5_8s"; "DVP_KN_SOBEL_5x5_8"; "DVP_KN_SOBEL_5x5_16s"; "DVP_KN_SOBEL_5x5_16";
     "DVP_KN_SOBEL_7x7_8s"; "DVP_KN_SOBEL_7x7_8"; "DVP_KN_SOBEL_7x7_16s"; "DVP_KN_SOBEL_7x7_16"];
    ["DVP_KN_INTEGRAL_IMAGE_8"; "DVP_KN_GAMMA"] ].
Definition vrun_kernels : list string :=
  ["DVP_KN_VRUN_DILATE_CROSS"; "DVP_KN_VRUN_DILATE_MASK"; "DVP_KN_VRUN_DILATE_SQUARE"; "DVP_KN_VRUN_ERODE_CROSS";
   "DVP_KN_VRUN_ERODE_MASK"; "DVP_KN_VRUN_ERODE_SQUARE"; "DVP_KN_VRUN_IIR_HORZ"; "DVP_KN_VRUN_IIR_VERT";
   "DVP_KN_VRUN_NONMAXSUPPRESS_3x3_S16"; "DVP_KN_VRUN_NONMAXSUPPRESS_5x5_S16";
   "DVP_KN_VRUN_NONMAXSUPPRESS_7x7_S16"; "DVP_KN_VRUN_CONV_3x3"; "DVP_KN_VRUN_CONV_5x5"; "DVP_KN_VRUN_CONV_7x7";
   "DVP_KN_VRUN_CONV_MxN"; "DVP_KN_VRUN_THR_GT2MAX_8"; "DVP_KN_VRUN_THR_GT2MAX_16"; "DVP_KN_VRUN_THR_GT2THR_8";
   "DVP_KN_VRUN_THR_GT2THR_16"; "DVP_KN_VRUN_THR_LE2MIN_8"; "DVP_KN_VRUN_THR_LE2MIN_16";
   "DVP_KN_VRUN_THR_LE2THR_8"; "DVP_KN_VRUN_THR_LE2THR_16"; "DVP_KN_VRUN_SOBEL_3x3_8s"; "DVP_KN_VRUN_SOBEL_3x3_8";
   "DVP_KN_VRUN_SOBEL_3x3_16s"; "DVP_KN_VRUN_SOBEL_3x3_16"; "DVP_KN_VRUN_SOBEL_5x5_8s"; "DVP_KN_VRUN_SOBEL_5x5_8";
   "DVP_KN_VRUN_SOBEL_5x5_16s"; "DVP_KN_VRUN_SOBEL_5x5_16"; "DVP_KN_VRUN_SOBEL_7x7_8s"; "DVP_KN_VRUN_SOBEL_7x7_8";
   "DVP_KN_VRUN_SOBEL_7x7_16s"; "DVP_KN_VRUN_SOBEL_7x7_16"; "DVP_KN_VRUN_HARRIS_CORNERS";
   "DVP_KN_VRUN_HARRIS_SCORE_7x7"; "DVP_KN_VRUN_BLOCK_MAXIMA"; "DVP_KN_VRUN_NMS_STEP1";
   "DVP_KN_VRUN_CANNY_IMAGE_SMOOTHING"; "DVP_KN_VRUN_CANNY_2D_GRADIENT"; "DVP_KN_VRUN_CANNY_NONMAX_SUPPRESSION";
   "DVP_KN_VRUN_CANNY_HYST_THRESHHOLD"; "DVP_KN_VRUN_UYVY_TO_YUV444p"; "DVP_KN_VRUN_UYVY_TO_RGBp";
   "DVP_KN_VRUN_UYVY_TO_YUV420p"; "DVP_KN_VRUN_XYXY_TO_Y800"; "DVP_KN_VRUN_NV12_TO_YUV444p";
   "DVP_KN_VRUN_YUV444p_TO_RGBp"; "DVP_KN_VRUN_INTEGRAL_IMAGE_8"; "DVP_KN_LDC_AFFINE_TRANSFORM";
   "DVP_KN_VRUN_SAD_8x8"; "DVP_KN_VRUN_SAD_16x16"; "DVP_KN_VRUN_SAD_3x3"; "DVP_KN_VRUN_SAD_5x5";
   "DVP_KN_VRUN_SAD_7x7"; "DVP_KN_LDC_DISTORTION_CORRECTION"; "DVP_KN_LDC_DISTORTION_AND_AFFINE";
   "DVP_KN_VRUN_IMAGE_PYRAMID_8"; "DVP_KN_VRUN_GAUSSIAN_3x3_PYRAMID_8"; "DVP_KN_VRUN_GAUSSIAN_5x5_PYRAMID_8";
   "DVP_KN_VRUN_GAUSSIAN_7x7_PYRAMID_8"; "DVP_KN_VRUN_GRADIENT_H3x3_PYRAMID_8";
   "DVP_KN_VRUN_GRADIENT_H5x5_PYRAMID_8"; "DVP_KN_VRUN_GRADIENT_H7x7_PYRAMID_8";
   "DVP_KN_VRUN_GRADIENT_V3x3_PYRAMID_8"; "DVP_KN_VRUN_GRADIENT_V5x5_PYRAMID_8";
   "DVP_KN_VRUN_GRADIENT_V7x7_PYRAMID_8"].
Definition dsplib_kernels : list string :=
  ["DVP_KN_DSP_ADD16"; "DVP_KN_DSP_ADD32"; "DVP_KN_DSP_AUTOCORR16"; "DVP_KN_DSP_BITEXP32"; "DVP_KN_DSP_BLKESWAP16";
   "DVP_KN_DSP_BLKESWAP32"; "DVP_KN_DSP_BLKESWAP64"; "DVP_KN_DSP_BLKMOVE"; "DVP_KN_DSP_DOTPRODSQR";
   "DVP_KN_DSP_DOTPROD"; "DVP_KN_DSP_FFT_16x16"; "DVP_KN_DSP_FFT_16x16R"; "DVP_KN_DSP_FFT_16x16_IMRE";
   "DVP_KN_DSP_FFT_16x32"; "DVP_KN_DSP_FFT_32x32"; "DVP_KN_DSP_FFT_32x32s"; "DVP_KN_DSP_FIR_CPLX";
   "DVP_KN_DSP_FIR_HM4x4"; "DVP_KN_DSP_FIR_GEN"; "DVP_KN_DSP_FIR_HM17_RA8x8"; "DVP_KN_DSP_FIR_LMS2";
   "DVP_KN_DSP_FIR_R4"; "DVP_KN_DSP_FIR_R8"; "DVP_KN_DSP_FIR_HM16_RM8A8x8"; "DVP_KN_DSP_FIR_SYM";
   "DVP_KN_DSP_IFFT_16x16"; "DVP_KN_DSP_IFFT_16x16_IMRE"; "DVP_KN_DSP_IFFT_16x32"; "DVP_KN_DSP_IFFT_32x32";
   "DVP_KN_DSP_IIR"; "DVP_KN_DSP_IIR_LAT"; "DVP_KN_DSP_IIR_SS"; "DVP_KN_DSP_MUL"; "DVP_KN_DSP_MUL_CPLX";
   "DVP_KN_DSP_MAT_TRANS"; "DVP_KN_DSP_MAXIDX"; "DVP_KN_DSP_MAXVAL"; "DVP_KN_DSP_MINERROR"; "DVP_KN_DSP_MINVAL";
   "DVP_KN_DSP_MUL32"; "DVP_KN_DSP_NEG32"; "DVP_KN_DSP_Q15TOFL"; "DVP_KN_DSP_RECIP16"; "DVP_KN_DSP_VECSUMSQ";
   "DVP_KN_DSP_W_VEC"; "DVP_KN_GEN_TWIDDLE_FFT_16X16"; "DVP_KN_GEN_TWIDDLE_FFT_16X16_IMRE";
   "DVP_KN_GEN_TWIDDLE_FFT_16X32"; "DVP_KN_GEN_TWIDDLE_FFT_32x32"; "DVP_KN_GEN_TWIDDLE_IFFT_16X16";
   "DVP_KN_GEN_TWIDDLE_IFFT_16X16_IMRE"].
Definition dei_kernels : list string :=
  ["DVP_KN_DEI_DEINTERLACER"; "DVP_KN_DEI_DEINTERLACER_INIT"; "DVP_KN_DEI_DEINTERLACER_DEINIT"].
Definition public_kernels : list (string * Z) :=
  concat (imap (fun i names => enumerate (DVP_KN_FEATURE_BASE (1 + Z.of_nat i)) names) feature_kernels) ++
  enumerate (DVP_KN_LIBRARY_BASE DVP_KL_VRUN) vrun_kernels ++
  enumerate (DVP_KN_LIBRARY_BASE DVP_KL_DSPLIB) dsplib_kernels ++
  enumerate (DVP_KN_LIBRARY_BASE DVP_KL_DEI) dei_kernels.

Fixpoint named {A} (l : list (string * A)) (s : string) : option A :=
  match l with [] => None | (s', a) :: l' => if String.eqb s s' then Some a else named l' s end.
(** Names that are not in the public headers are no kernels: -1. *)
Definition public_num (s : string) : Z := default (-1) (named public_kernels s).

Lemma public_kernels_distinct : NoDup (public_kernels.*1) /\ NoDup (public_kernels.*2).
Proof. split; apply (bool_decide_unpack _); vm_compute; exact I. Qed.

(** ** Layouts *)

Module Struct.
(** A member's size and alignment *)
Definition member : Set := Z * Z.
Section Layout.
Context (word : Z).
Definition num (n : Z) : member := (n, n).
Definition ptr : member := (word, word).
Definition bytes (n : Z) : member := (n, 1).

Definition align_up (off a : Z) : Z := (off + a - 1) / a * a.
Fixpoint layout_from (off : Z) (fs : list (string * member)) : list (string * (Z * Z)) * Z :=
  match fs with
  | [] => ([], off)
  | (f, (n, a)) :: fs' =>
      let o := align_up off a in
      let '(l, e) := layout_from (o + n) fs' in ((f, (o, n)) :: l, e)
  end.
Definition align_of (fs : list (string * member)) : Z := foldr (fun f a => Z.max f.2.2 a) 1 fs.
Definition size_of (fs : list (string * member)) : Z := align_up (layout_from 0 fs).2 (align_of fs).
Definition sub (fs : list (string * member)) : member := (size_of fs, align_of fs).

Definition DVP_Buffer_t : list (string * member) :=
  [("pData", ptr); ("elemSize", num 4); ("numBytes", num 4); ("memType", num 4); ("reserved", ptr);
   ("skipCacheOpInval", num 4); ("skipCacheOpFlush", num 4)].
Definition DVP_Image_t : list (string * member) :=
  [("pData[0]", ptr); ("pData[1]", ptr); ("pData[2]", ptr); ("pData[3]", ptr);
   ("pBuffer[0]", ptr); ("pBuffer[1]", ptr); ("pBuffer[2]", ptr); ("pBuffer[3]", ptr);
   ("planes", num 4); ("width", num 4); ("height", num 4); ("bufWidth", num 4); ("bufHeight", num 4);
   ("x_start", num 4); ("y_start", num 4); ("x_stride", num 4); ("y_stride", num 4); ("color", num 4);
   ("numBytes", num 4); ("memType", num 4); ("reserved", ptr);
   ("skipCacheOpInval", num 4); ("skipCacheOpFlush", num 4)].
Definition DVP_ImageDebug_t : list (string * member) :=
  [("image", sub DVP_Image_t); ("name", bytes DVP_MAX_NAME); ("path", bytes MAX_PATH);
   ("fullname", bytes MAX_PATH); ("fp", ptr)].
Definition DVP_BufferDebug_t : list (string * member) :=
  [("buffer", sub DVP_Buffer_t); ("fullname", bytes MAX_PATH); ("fp", ptr)].
Definition DVP_Transform_t : list (string * member) :=
  [("input", sub DVP_Image_t); ("output", sub DVP_Image_t)].
Definition DVP_Morphology_t : list (string * member) :=
  [("input", sub DVP_Image_t); ("output", sub DVP_Image_t); ("mask", sub DVP_Image_t)].
Definition DVP_Bounds_t : list (string * member) :=
  [("pData", ptr); ("width", num 4); ("height", num 4)].
Definition DVP_IIR_t : list (string * member) :=
  [("input", sub DVP_Image_t); ("output", sub DVP_Image_t); ("bounds[0]", sub DVP_Bounds_t);
   ("bounds[1]", sub DVP_Bounds_t); ("scratch", sub DVP_Image_t); ("weight", num 2)].
Definition DVP_ImageConvolution_t : list (string * member) :=
  [("input", sub DVP_Image_t); ("output", sub DVP_Image_t); ("mask", sub DVP_Image_t); ("shiftMask", num 2)].
Definition DVP_Canny2dGradient_t : list (string * member) :=
  [("input", sub DVP_Image_t); ("outGradX", sub DVP_Image_t); ("outGradY", sub DVP_Image_t);
   ("outMag", sub DVP_Image_t)].
Definition DVP_CannyNonMaxSuppression_t : list (string * member) :=
  [("inMag", sub DVP_Image_t); ("inGradX", sub DVP_Image_t); ("inGradY", sub DVP_Image_t);
   ("output", sub DVP_Image_t)].
Definition DVP_CannyHystThresholding_t : list (string * member) :=
  [("inMag", sub DVP_Image_t); ("inEdgeMap", sub DVP_Image_t); ("output", sub DVP_Image_t); ("loThresh", num 1);
   ("hiThresh", num 1); ("numEdges", num 4)].
Definition DVP_Threshold_t : list (string * member) :=
  [("input", sub DVP_Image_t); ("output", sub DVP_Image_t); ("thresh", num 2)].
Definition DVP_Int2Pl_t : list (string * member) :=
  [("input", sub DVP_Image_t); ("output1", sub DVP_Image_t); ("output2", sub DVP_Image_t);
   ("output3", sub DVP_Image_t); ("scratch", sub DVP_Buffer_t); ("factor", num 4)].
Definition DVP_SAD_t : list (string * member) :=
  [("input", sub DVP_Image_t); ("output", sub DVP_Image_t); ("refImg", sub DVP_Image_t); ("shiftMask", num 2);
   ("refPitch", num 4); ("refStartOffset", num 2)].
Definition DVP_Histogram_t : list (string * member) :=
  [("input", sub DVP_Image_t); ("edges", sub DVP_Buffer_t); ("numBins", num 4); ("dimX", num 4);
   ("binWeight", num 2); ("clearFlag", num 2); ("numBinsArray", sub DVP_Buffer_t);
   ("binWeights", sub DVP_Buffer_t); ("hOut", sub DVP_Buffer_t); ("histArray", sub DVP_Buffer_t);
   ("h[0]", sub DVP_Buffer_t); ("h[1]", sub DVP_Buffer_t); ("h[2]", sub DVP_Buffer_t);
   ("scratch", sub DVP_Buffer_t)].
Definition DVP_Pyramid_t : list (string * member) :=
  [("input", sub DVP_Image_t); ("output", sub DVP_Buffer_t)].
Definition DVP_Gamma_t : list (string * member) :=
  [("input", sub DVP_Image_t); ("output", sub DVP_Image_t); ("gammaLut", bytes 256)].
Definition DVP_Ldc_t : list (string * member) :=
  [("input", sub DVP_Image_t); ("output", sub DVP_Image_t); ("affine[0]", num 2); ("affine[1]", num 2);
   ("affine[2]", num 2); ("affine[3]", num 2); ("affine[4]", num 2); ("affine[5]", num 2); ("pixpad", num 2);
   ("interpolationLuma", num 2); ("ldcLut", sub DVP_Buffer_t); ("ldcLensCenterX", num 2);
   ("ldcLensCenterY", num 2); ("ldcKhl", num 1); ("ldcKhr", num 1); ("ldcKvu", num 1); ("ldcKvl", num 1);
   ("ldcRth", num 2); ("ldcRightShiftBits", num 1)].
Definition DVP_HarrisCorners_t : list (string * member) :=
  [("input", sub DVP_Image_t); ("output", sub DVP_Image_t); ("tempBuf1", sub DVP_Image_t);
   ("tempBuf2", sub DVP_Image_t); ("tempBuf3", sub DVP_Image_t); ("tempBuf4", sub DVP_Image_t); ("nplus1", num 2);
   ("k", num 2)].
Definition DVP_Harris_t : list (string * member) :=
  [("input", sub DVP_Image_t); ("harrisScore", sub DVP_Image_t); ("k", num 2)].
Definition DVP_BlockMaxima_t : list (string * member) :=
  [("input", sub DVP_Image_t); ("blockMaximaX", sub DVP_Image_t); ("blockMaximaY", sub DVP_Image_t);
   ("blockMaximaMAX", sub DVP_Image_t); ("nplus1", num 2)].
Definition DVP_NMSStep1_t : list (string * member) :=
  [("nmsStep1X", sub DVP_Image_t); ("nmsStep1Y", sub DVP_Image_t); ("nmsStep1Dst", sub DVP_Image_t);
   ("nplus1", num 2)].
Definition DVP_DSP_MatMul : list (string * member) :=
  [("input0", sub DVP_Buffer_t); ("input1", sub DVP_Buffer_t); ("output0", sub DVP_Buffer_t); ("r1", num 4);
   ("c1", num 4); ("r2", num 4); ("c2", num 4); ("qs", num 4)].
Definition DVP_DSPFunc : list (string * member) :=
  [("input0", sub DVP_Buffer_t); ("input1", sub DVP_Buffer_t); ("twoway", sub DVP_Buffer_t);
   ("output0", sub DVP_Buffer_t); ("output1", sub DVP_Buffer_t); ("val1", num 4); ("val2", num 4); ("val3", num 4)].
Definition DVP_Deinterlacer_t : list (string * member) :=
  [("phy_fld_in_current", sub DVP_Image_t); ("phy_fld_in_prev", sub DVP_Image_t);
   ("phy_luma_d0", sub DVP_Buffer_t); ("phy_luma_d1", sub DVP_Buffer_t); ("phy_luma_d2", sub DVP_Buffer_t);
   ("bias", num 4); ("sad_corr", num 4); ("sad_scale", num 4); ("fldnum", num 4); ("initialized", num 4);
   ("Width", num 4); ("Height", num 4); ("stride", num 4); ("phy_virt_flag", num 4); ("phy_in_current", num 4);
   ("phy_in_prev", num 4); ("dbg_param0", num 4); ("dbg_param1", num 4); ("dbg_param2", num 4);
   ("dbg_param3", num 4); ("dbg_param4", num 4)].

(** The structures that a kernel node can hold *)
Definition public_structs : list (string * list (string * member)) :=
  [("DVP_ImageDebug_t", DVP_ImageDebug_t); ("DVP_BufferDebug_t", DVP_BufferDebug_t);
   ("DVP_Transform_t", DVP_Transform_t); ("DVP_Morphology_t", DVP_Morphology_t); ("DVP_Bounds_t", DVP_Bounds_t);
   ("DVP_IIR_t", DVP_IIR_t); ("DVP_ImageConvolution_t", DVP_ImageConvolution_t);
   ("DVP_Canny2dGradient_t", DVP_Canny2dGradient_t);
   ("DVP_CannyNonMaxSuppression_t", DVP_CannyNonMaxSuppression_t);
   ("DVP_CannyHystThresholding_t", DVP_CannyHystThresholding_t); ("DVP_Threshold_t", DVP_Threshold_t);
   ("DVP_Int2Pl_t", DVP_Int2Pl_t); ("DVP_SAD_t", DVP_SAD_t); ("DVP_Histogram_t", DVP_Histogram_t);
   ("DVP_Pyramid_t", DVP_Pyramid_t); ("DVP_Gamma_t", DVP_Gamma_t); ("DVP_Ldc_t", DVP_Ldc_t);
   ("DVP_HarrisCorners_t", DVP_HarrisCorners_t); ("DVP_Harris_t", DVP_Harris_t);
   ("DVP_BlockMaxima_t", DVP_BlockMaxima_t); ("DVP_NMSStep1_t", DVP_NMSStep1_t);
   ("DVP_DSP_MatMul", DVP_DSP_MatMul); ("DVP_DSPFunc", DVP_DSPFunc); ("DVP_Deinterlacer_t", DVP_Deinterlacer_t)].
(** [offsetof(s, f)] *)
Definition public_layout (s f : string) : option Z :=
  fs ← named public_structs s; r ← named (layout_from 0 fs).1 f; Some r.1.
End Layout.
End Struct.

(** Every structure fits in a node, on 32 and on 64 bits. *)
Lemma public_structs_fit w : w = 4 \/ w = 8 ->
  Forall (fun s => Struct.size_of s.2 <= DVP_KNODE_DATA_SIZE) (Struct.public_structs w).
Proof. intros [-> | ->]; repeat constructor; vm_compute; discriminate. Qed.

(** The offsets at which the CPU manager reads *)
Lemma x86_offsets : Forall (fun '(s, f, o) => Struct.public_layout 8 s f = Some o)
  [("DVP_Transform_t", "output", 128); ("DVP_ImageConvolution_t", "mask", 256); ("DVP_Gamma_t", "gammaLut", 256);
   ("DVP_Canny2dGradient_t", "outGradY", 256); ("DVP_Canny2dGradient_t", "outMag", 384); ("DVP_IIR_t", "weight", 416);
   ("DVP_ImageDebug_t", "name", 128); ("DVP_ImageDebug_t", "path", 160); ("DVP_ImageDebug_t", "fullname", 415);
   ("DVP_ImageDebug_t", "fp", 672); ("DVP_BufferDebug_t", "fullname", 40); ("DVP_BufferDebug_t", "fp", 296)].
Proof. repeat constructor. Qed.

(** ** Structures in a node's bytes, with pointers of 32 bits *)

Definition image32_at (data : list Z) (off : Z) : option (DVP_Image_t * Z * Z) :=
  pD ← mapM (fun p => u32_at data (off + 4 * p)) (seqZ 0 DVP_MAX_PLANES);
  pB ← mapM (fun p => u32_at data (off + 16 + 4 * p)) (seqZ 0 DVP_MAX_PLANES);
  pl ← u32_at data (off + 32);
  w ← u32_at data (off + 36);
  h ← u32_at data (off + 40);
  bw ← u32_at data (off + 44);
  bh ← u32_at data (off + 48);
  xs ← u32_at data (off + 52);
  ys ← u32_at data (off + 56);
  xst ← s32_at data (off + 60);
  yst ← s32_at data (off + 64);
  c ← u32_at data (off + 68);
  nb ← u32_at data (off + 72);
  mt ← u32_at data (off + 76);
  si ← s32_at data (off + 84);
  sf ← s32_at data (off + 88);
  Some (mkImage pD pB pl w h bw bh xs ys xst yst c nb mt, si, sf).
(** [pData], [numBytes], [memType] and the two flags *)
Definition buffer32_at (data : list Z) (off : Z) : option (DVP_Buffer_t * Z * Z) :=
  p ← u32_at data off;
  e ← u32_at data (off + 4);
  n ← u32_at data (off + 8);
  mt ← u32_at data (off + 12);
  si ← s32_at data (off + 20);
  sf ← s32_at data (off + 24);
  Some (mkBuffer p e n mt, si, sf).

Lemma image32_offsets : Forall (fun '(f, o) => (fst <$> named (Struct.layout_from 0 (Struct.DVP_Image_t 4)).1 f) = Some o)
  [("pData[0]", 0); ("pBuffer[0]", 16); ("planes", 32); ("width", 36); ("height", 40); ("bufWidth", 44);
   ("bufHeight", 48); ("x_start", 52); ("y_start", 56); ("x_stride", 60); ("y_stride", 64); ("color", 68);
   ("numBytes", 72); ("memType", 76); ("skipCacheOpInval", 84); ("skipCacheOpFlush", 88)].
Proof. repeat constructor. Qed.
