(* ===== verification/NodeAlloc.v ===== *)
(** * Allocation of kernel nodes (source/dvp/dvp_kgraph/dvp_mem.c)

    An array of nodes is a block of pages in the heap, a page a node; what
    the nodes hold is kept by the address of the array, as in KernelGraph. *)
From S2P Require Import Prelude DvpTypes Perf Memory Image Allocator ImageAlloc NodeData.

Definition SIZEOF_DVP_KernelNode_t : Z := 4096.
Definition DVP_MTYPE_KERNELGRAPH : Z := DVP_MTYPE_MPUCACHED_VIRTUAL.

(** A node of zeroes, as the allocator leaves it *)
Definition zero_node : DVP_KernelNode_t := mkNode (mkHeader 0 0 0 0 0 0 (mkPerf 0 0 0 0 0 0 0)) (zero_bytes DVP_KNODE_DATA_SIZE).

Record node_heap : Type := mkNodeHeap { nh_heap : heap; nh_nodes : gmap Z (list DVP_KernelNode_t) }.

Definition node_dims (numNodes : Z) : list DVP_Dim_t := [mkDim (s32 SIZEOF_DVP_KernelNode_t) (s32 numNodes) 1].

(** The turn of the loop for one node *)
Definition reset_node (freq : Z) (n : DVP_KernelNode_t) : DVP_KernelNode_t :=
  upd_header (fun h => set_perf (DVP_Perf_Clear freq) (set_affinity DVP_CORE_MIN (set_configured DVP_FALSE h))) n.

(** The loop runs over [numNodes] nodes, whatever the size of the block. *)
Definition DVP_KernelNode_Alloc (freq numNodes : Z) (answers : list (option Z)) (st : node_heap) : outcome (Z * node_heap) :=
  '(ret, sl, h) ← dvp_mem_calloc DVP_MTYPE_KERNELGRAPH 1 2 (node_dims numNodes) [(0, no_dim)] answers (nh_heap st);
  if ret =? DVP_TRUE then
    s ← of_option (sl !! 0%nat);
    size ← of_option (blocks h !! s.1);
    if size <? numNodes * SIZEOF_DVP_KernelNode_t then Undef
    else Done (s.1, mkNodeHeap h (<[s.1 := reset_node freq <$> replicate (Z.to_nat numNodes) zero_node]> (nh_nodes st)))
  else Done (0, mkNodeHeap h (nh_nodes st)).

(** The node as a [DVP_ImageDebug_t], whose file is at 672, for both debug
    kernels; what is closed. *)
Definition close_node (n : DVP_KernelNode_t) : outcome (list Z) :=
  if one_of (kernel (header n)) [DVP_KN_IMAGE_DEBUG; DVP_KN_BUFFER_DEBUG] then
    fp ← of_option (ptr_at (data n) 672);
    Done (if fp =? 0 then [] else [fp])
  else Done [].
Fixpoint close_nodes (ns : list DVP_KernelNode_t) : outcome (list Z) :=
  match ns with [] => Done [] | n :: ns => fps ← close_node n; rest ← close_nodes ns; Done (fps ++ rest) end.

Definition DVP_KernelNode_Free (pNodes numNodes : Z) (st : node_heap) : outcome (list Z * node_heap) :=
  if (pNodes =? 0) || (numNodes =? 0) then Done ([], st)
  else
    ns ← of_option (nh_nodes st !! pNodes);
    if Z.of_nat (length ns) <? numNodes then Undef
    else
      fps ← close_nodes (take (Z.to_nat numNodes) ns);
      '(_, _, h) ← dvp_mem_free DVP_MTYPE_KERNELGRAPH 1 2 (node_dims numNodes) [pNodes] (nh_heap st);
      Done (fps, mkNodeHeap h (delete pNodes (nh_nodes st))).

(** ** Properties *)

Lemma node_block n : 0 <= n < 2 ^ 20 -> block_size 2 (mkDim (s32 SIZEOF_DVP_KernelNode_t) (s32 n) 1) = n * SIZEOF_DVP_KernelNode_t.
Proof.
  intros Hn. unfold block_size, SIZEOF_DVP_KernelNode_t. change (s32 4096) with 4096. rewrite s32_small by (unfold is_s32; lia).
  cbn [dims_of take dim0 dim1 dim2 stride_loop fst]. change (u32 (1 * 4096)) with 4096. rewrite u32_small by (unfold is_u32; lia). lia.
Qed.
Lemma node_reserve n : 0 <= n < 2 ^ 20 -> reserve_size 2 (mkDim (s32 SIZEOF_DVP_KernelNode_t) (s32 n) 1) = n * SIZEOF_DVP_KernelNode_t.
Proof.
  intros Hn. unfold reserve_size. rewrite node_block by done. unfold allocator_page_align_size, SOSAL_PAGE_SIZE, SIZEOF_DVP_KernelNode_t.
  change (4096 - 1) with (Z.ones 12). rewrite Z.land_ones by lia. change (2 ^ 12) with 4096. rewrite Z.mod_mul by lia. cbn [Z.ltb Z.compare].
  apply u32_small. unfold is_u32. lia.
Qed.
Lemma granted_block a n h : blocks (grant a n h) !! a = Some n.
Proof. apply lookup_insert_eq. Qed.
Lemma close_reset freq n : close_nodes (replicate n (reset_node freq zero_node)) = Done [].
Proof. induction n as [|n IH]; [done|]. cbn [replicate close_nodes]. by rewrite IH. Qed.

(** An array of nodes that is granted has its nodes unconfigured,
    without affinity, their counters cleared and their parameters zero;
    freeing it closes no file and restores heap and node arrays. *)
Theorem nodes_alloc_free freq numNodes a st : 0 < numNodes < 2 ^ 20 -> nh_nodes st !! a = None ->
  granted 2 (node_dims numNodes) [a] (nh_heap st) -> exists st',
  DVP_KernelNode_Alloc freq numNodes [Some a] st = Done (a, st') /\
  nh_nodes st' !! a = Some (replicate (Z.to_nat numNodes) (reset_node freq zero_node)) /\
  mapped a (numNodes * SIZEOF_DVP_KernelNode_t) (bytes (nh_heap st')) /\
  DVP_KernelNode_Free a numNodes st' = Done ([], st).
Proof.
  intros Hn Hf Hg. pose proof Hg as (Hsz & (Ha & _) & _).
  destruct (calloc_virtual_spec 2 (node_dims numNodes) [(0, no_dim)] [a] (nh_heap st)) as (sl' & Hc & Hptr & _ & _); [done|done|].
  pose proof (free_virtual_all 2 (node_dims numNodes) [a] (nh_heap st) no_pointers 1 ltac:(lia) ltac:(cbn; lia) ltac:(vm_compute; lia) Hg) as Hfr.
  exists (mkNodeHeap (grants 2 (node_dims numNodes) [a] (nh_heap st)) (<[a := replicate (Z.to_nat numNodes) (reset_node freq zero_node)]> (nh_nodes st))).
  destruct sl' as [|[x s0] [|]]; [done| |done]. injection Hptr as ->.
  unfold DVP_KernelNode_Alloc. change DVP_MTYPE_KERNELGRAPH with DVP_MTYPE_MPUCACHED_VIRTUAL.
  rewrite (calloc_virtual_done _ 1 2 (node_dims numNodes) [(0, no_dim)] [(a, s0)] [Some a] (nh_heap st) (grants 2 (node_dims numNodes) [a] (nh_heap st)))
    by (exact Hc || done || (cbn; lia)).
  cbn [mbind outcome_bind app drop lookup list_lookup of_option fst grants zip zip_with foldl node_dims]. change (DVP_TRUE =? DVP_TRUE) with true. cbv iota.
  cbn [snd]. rewrite granted_block. cbn [of_option mbind outcome_bind]. rewrite node_reserve by lia. rewrite Z.ltb_irrefl, fmap_replicate.
  cbn [nh_nodes nh_heap]. split; [done|]. split; [apply lookup_insert_eq|]. split.
  - apply grant_mapped. unfold SIZEOF_DVP_KernelNode_t. lia.
  - unfold DVP_KernelNode_Free. rewrite (proj2 (Z.eqb_neq a 0)), (proj2 (Z.eqb_neq numNodes 0)) by lia. cbn [orb nh_nodes]. rewrite lookup_insert_eq.
    cbn [of_option mbind outcome_bind]. rewrite length_replicate, Z2Nat.id, Z.ltb_irrefl, take_ge, close_reset by (rewrite ?length_replicate; lia).
    cbn [mbind outcome_bind nh_heap]. rewrite dvp_mem_free_hdls by (cbn; lia).
    change (dvp_mem_type_xlate _) with MEMORY_TYPE_VIRTUAL.
    rewrite <- (node_reserve numNodes) by lia. change (grant a _ (nh_heap st)) with (grants 2 (node_dims numNodes) (take 1 [a]) (nh_heap st)). rewrite Hfr. cbn [mbind outcome_bind].
    rewrite delete_insert_id by done. by destruct st.
Qed.
Lemma nodes_alloc_free_witness : exists st', DVP_KernelNode_Alloc 1000 2 [Some 4096] (mkNodeHeap empty_heap ∅) = Done (4096, st') /\
  DVP_KernelNode_Free 4096 2 st' = Done ([], mkNodeHeap empty_heap ∅).
Proof.
  destruct (nodes_alloc_free 1000 2 4096 (mkNodeHeap empty_heap ∅)) as (st' & Ha & _ & _ & Hf); [lia|reflexivity| |by exists st'].
  split; [|split; [|split; [constructor|exact I]]].
  - vm_compute. discriminate.
  - split; [lia|]. split; [vm_compute; discriminate|]. split; [reflexivity|]. intros x _. reflexivity.
Defined.

(** The number of bytes is computed in 32 bits: a request for [2 ^ 20] nodes
    gets no byte at all, and the nodes are then written behind it. *)
Theorem many_nodes_overrun freq a st : 0 < a -> DVP_KernelNode_Alloc freq (2 ^ 20) [Some a] st = Undef.
Proof.
  intros Ha. unfold DVP_KernelNode_Alloc, dvp_mem_calloc. cbn [Nat.eqb orb]. change (dvp_mem_type_xlate _) with MEMORY_TYPE_VIRTUAL.
  unfold allocator_calloc. cbn [Nat.eqb orb length node_dims Nat.ltb Nat.leb take].
  unfold calloc_virtual. replace (stride_loop (dims_of 2 (mkDim (s32 SIZEOF_DVP_KernelNode_t) (s32 (2 ^ 20)) 1)) 0 1 no_dim)
    with (0, mkDim 4096 0 0) by reflexivity.
  rewrite (proj2 (Z.eqb_neq a 0)) by lia. replace (u32 (allocator_page_align_size 0)) with 0 by reflexivity. cbn [Z.ltb Z.compare].
  cbn [mbind outcome_bind app drop]. change (DVP_TRUE =? DVP_TRUE) with true. cbv iota. cbn [lookup list_lookup of_option fst mbind outcome_bind].
  rewrite granted_block. reflexivity.
Qed.
Lemma many_nodes_overrun_witness : DVP_KernelNode_Alloc 1000 (2 ^ 20) [Some 4096] (mkNodeHeap empty_heap ∅) = Undef.
Proof. apply many_nodes_overrun. lia. Defined.

(** The file of a buffer's debug kernel is elsewhere in its parameters and
    stays open. *)
Theorem buffer_debug_file_stays_open : exists d,
  ptr_at d 296 = Some 77 /\ Z.of_nat (length d) = DVP_KNODE_DATA_SIZE /\
  close_node (mkNode (mkHeader DVP_KN_BUFFER_DEBUG 0 0 0 0 0 (DVP_Perf_Clear 1000)) d) = Done [].
Proof. exists (default [] (set_ptr (zero_bytes DVP_KNODE_DATA_SIZE) 296 77)). split; [|split]; vm_compute; reflexivity. Qed.
