(* ===== verification/SosalImage.v ===== *)
(** * Portable image conversions (source/sosal/image.c)

    SOSAL's own image type and the conversions the CPU manager of the PC build
    runs.  Doubles are IEEE 754 binary64, computed by [SpecFloat]. *)
From Stdlib Require Import SpecFloat.
From S2P Require Import Prelude DvpTypes Memory Image.

Open Scope dvp_scope.

(** ** Data (include/sosal/image.h) *)

Record plane_t : Set := mkPlane {
  ptr : Z; xdim : Z; ydim : Z; xscale : Z; yscale : Z;
  xstride : Z; ystride : Z; xstep : Z; p_numBytes : Z }.
Record image_t : Set := mkImageT { i_color : Z; plane : list plane_t; numPlanes : Z }.

Definition zero_plane : plane_t := mkPlane 0 0 0 0 0 0 0 0 0.

(** [image_pixel(img, p, x, y)]: the offset is computed in [uint32_t]; a scale
    of zero divides by zero. *)
Definition plane_pixel (pl : plane_t) (col row : Z) : Z :=
  ptr pl + ((u32 (ystride pl) ⊠ row) ⊞ (u32 (xstride pl) ⊠ col)).
Definition image_pixel (img : image_t) (p x y : Z) : outcome Z :=
  pl ← of_option (aget (plane img) p);
  if (xscale pl =? 0) || (yscale pl =? 0) then Undef
  else Done (plane_pixel pl (x / xscale pl) (y / yscale pl)).
(** The macro puts its arguments next to the division without parentheses:
    with [x+dx] for [x] the column is [x + dx/xscale]. *)
Definition image_pixel_plus (img : image_t) (p x dx y dy : Z) : outcome Z :=
  pl ← of_option (aget (plane img) p);
  if (xscale pl =? 0) || (yscale pl =? 0) then Undef
  else Done (plane_pixel pl (if dx =? 0 then x / xscale pl else x ⊞ dx / xscale pl)
                            (if dy =? 0 then y / yscale pl else y ⊞ dy / yscale pl)).

(** ** Pixels *)

Definition saturate_to_uint8 (a : Z) : Z :=
  let a := if 255 <? a then 255 else a in
  let a := if a <? 0 then 0 else a in u8 a.

(** A double literal with significand [m] and exponent [e]. *)
Definition lit (m : positive) (e : Z) : spec_float := S754_finite false m e.
Definition neg (x : spec_float) : spec_float := SFopp x.
Definition fmul : spec_float -> spec_float -> spec_float := SFmul 53 1024.
Definition fadd : spec_float -> spec_float -> spec_float := SFadd 53 1024.
Definition fsub : spec_float -> spec_float -> spec_float := SFsub 53 1024.
(** [(double)z] *)
Definition of_int (z : Z) : spec_float := binary_normalize 53 1024 z 0 false.
(** [(int32_t)x] truncates; what does not fit is undefined in C and gives the
    x86 processor's indefinite integer. *)
Definition to_int (x : spec_float) : Z :=
  let v := match x with
           | S754_zero _ => 0
           | S754_finite s m e =>
               let a := if 0 <=? e then Z.pos m * 2 ^ e else Z.pos m / 2 ^ (- e) in if s then - a else a
           | _ => 2 ^ 31
           end in
  if (- 2 ^ 31 <=? v) && (v <? 2 ^ 31) then v else - 2 ^ 31.

Definition d1_164 := lit 5242189966259257 (-52).
Definition d1_596 := lit 7187745005283312 (-52).
Definition d0_813 := lit 7322852994104426 (-53).
Definition d0_391 := lit 7043629817207456 (-54).
Definition d2_018 := lit 4544132024016830 (-51).
Definition d0_257 := lit 4629700416936870 (-54).
Definition d0_504 := lit 4539628424389460 (-53).
Definition d0_098 := lit 7061644215716938 (-56).
Definition d0_148 := lit 5332261958806667 (-55).
Definition d0_291 := lit 5242189966259257 (-54).
Definition d0_439 := lit 7908320945662591 (-54).
Definition d0_368 := lit 6629298651489370 (-54).
Definition d0_071 := lit 5116089176692883 (-56).

(** Red, green and blue. *)
Definition yuv_to_rgb_pixel (y cb cr : Z) : Z * Z * Z :=
  let l := fmul d1_164 (of_int (y - 16)) in
  (saturate_to_uint8 (to_int (fadd l (fmul d1_596 (of_int (cb - 128))))),
   saturate_to_uint8 (to_int (fsub (fsub l (fmul d0_813 (of_int (cr - 128)))) (fmul d0_391 (of_int (cb - 128))))),
   saturate_to_uint8 (to_int (fadd l (fmul d2_018 (of_int (cr - 128)))))).

(** Luma and the two colour differences. The third expression of the code
    reads [0.439*r - 0.368*(double) - 0.071*b]: the cast applies to [-0.071],
    so green is not in it. *)
Definition rgb_to_yuv_pixel (r g b : Z) : Z * Z * Z :=
  let fr := of_int r in let fg := of_int g in let fb := of_int b in
  (saturate_to_uint8 (to_int (fadd (fadd (fmul d0_257 fr) (fmul d0_504 fg)) (fmul d0_098 fb)) + 16),
   saturate_to_uint8 (to_int (fadd (fsub (fmul (neg d0_148) fr) (fmul d0_291 fg)) (fmul d0_439 fb)) + 128),
   saturate_to_uint8 (to_int (fsub (fmul d0_439 fr) (fmul (fmul d0_368 (neg d0_071)) fb)) + 128)).

(** ** Loops and accesses *)

Definition ld (a : Z) (m : memory) : outcome Z := of_option (m !! a).
Definition st (a v : Z) (m : memory) : outcome memory := of_option (store_bytes a [v] m).

(** [for (i = 0; i < dim; i += inc)], for bounds below the wrap of [i]; with
    no increment the loop does not end. *)
Definition steps (dim inc : Z) : outcome (list Z) :=
  if dim <=? 0 then Done []
  else if 0 <? inc then Done (Z.mul inc <$> seqZ 0 ((dim + inc - 1) / inc))
  else NoFuel.
Definition for_pixels (ydim yinc xdim xinc : Z) (body : Z -> Z -> memory -> outcome memory) (m : memory)
    : outcome memory :=
  ys ← steps ydim yinc;
  ofold (fun m y => xs ← steps xdim xinc; ofold (fun m x => body x y m) xs m) ys m.

(** [yuv_to_rgb_pixel(y, cb, cr, r, g, b)] with its three stores. *)
Definition put_rgb (y cb cr : Z) (r g b : Z) (m : memory) : outcome memory :=
  let '(vr, vg, vb) := yuv_to_rgb_pixel y cb cr in
  m ← st r vr m; m ← st g vg m; st b vb m.

(** [plane[0]], of the source where not said otherwise *)
Definition plane0 (img : image_t) : outcome plane_t := of_option (aget (plane img) 0).

(** ** image_query_format, image_copy *)

Definition supportedColors : list Z :=
  [FOURCC_RGB; FOURCC_BGR; FOURCC_Y800; FOURCC_UYVY; FOURCC_YUY2; FOURCC_NV12; FOURCC_RGBP; FOURCC_YU24; FOURCC_YV24].
Definition image_query_format (color : Z) : bool := one_of color supportedColors.

(** The lines of the target are copied from the source's offsets. *)
Definition image_copy (dst src : image_t) (m : memory) : outcome (Z * memory) :=
  if i_color dst =? i_color src then
    ofold (fun '(b, m) p =>
      d ← of_option (aget (plane dst) p);
      s ← of_option (aget (plane src) p);
      ofold (fun '(b, m) y =>
        let l := u32 (xstride s) ⊠ xdim s in
        let i := y ⊠ u32 (ystride s) in
        m ← of_option (memcpy (ptr d + i) (ptr s + i) l m);
        Done (b ⊞ l, m)) (seqZ 0 (ydim d)) (b, m))
      (seqZ 0 (Z.min (numPlanes dst) (numPlanes src))) (0, m)
  else Done (0, m).

(** ** Conversion bodies

    One turn of the inner loop at pixel [x], [y], for each pair of formats;
    the accesses are in the code's order. *)
Section Bodies.
Context (dst src : image_t).

(** [yuv_to_rgb_pixel] from four packed bytes at [a]: luma at [l], the colour
    differences at [c] and [d], into a BGR pixel. *)
Definition packed_to_bgr (a l c d bgr : Z) (m : memory) : outcome memory :=
  y ← ld (a + l) m; cb ← ld (a + c) m; cr ← ld (a + d) m;
  put_rgb y cb cr (bgr + 2) (bgr + 1) bgr m.

Definition uyvy_to_bgr (x y : Z) (m : memory) : outcome memory :=
  uyvy ← image_pixel src 0 x y;
  bgr ← image_pixel dst 0 x y;
  m ← packed_to_bgr uyvy 1 0 2 bgr m;
  packed_to_bgr uyvy 3 0 2 (bgr + 3) m.

Definition yuy2_to_bgr (x y : Z) (m : memory) : outcome memory :=
  yuyv ← image_pixel src 0 x y;
  bgr ← image_pixel dst 0 x y;
  m ← packed_to_bgr yuyv 0 1 3 bgr m;
  packed_to_bgr yuyv 2 1 3 (bgr + 3) m.

Definition nv12_to_bgr (x y : Z) (m : memory) : outcome memory :=
  luma ← image_pixel src 0 x y;
  uv ← image_pixel src 1 x y;
  bgr ← image_pixel dst 0 x y;
  l ← ld luma m; u ← ld uv m; v ← ld (uv + 1) m;
  put_rgb l u v (bgr + 2) (bgr + 1) bgr m.

Definition nv12_to_uyvy (x y : Z) (m : memory) : outcome memory :=
  luma ← image_pixel src 0 x y;
  uv ← image_pixel src 1 x y;
  uyvy ← image_pixel dst 0 x y;
  v ← ld uv m; m ← st uyvy v m;
  v ← ld luma m; m ← st (uyvy + 1) v m;
  v ← ld (uv + 1) m; m ← st (uyvy + 2) v m;
  v ← ld (luma + 1) m; st (uyvy + 3) v m.

(** The planes of U and V. *)
Definition p1 : Z := if i_color src =? FOURCC_YV24 then 2 else 1.
Definition p2 : Z := if i_color src =? FOURCC_YV24 then 1 else 2.

Definition yuv444_to_bgr (x y : Z) (m : memory) : outcome memory :=
  luma ← image_pixel src 0 x y;
  cb ← image_pixel src p1 x y;
  cr ← image_pixel src p2 x y;
  bgr ← image_pixel dst 0 x y;
  l ← ld luma m; u ← ld cb m; v ← ld cr m;
  put_rgb l u v (bgr + 2) (bgr + 1) bgr m.

Definition yuv444_to_uyvy (x y : Z) (m : memory) : outcome memory :=
  luma ← image_pixel src 0 x y;
  cb ← image_pixel src p1 x y;
  cr ← image_pixel src p2 x y;
  uyvy ← image_pixel dst 0 x y;
  a ← ld cb m; b ← ld (cb + 1) m; m ← st uyvy (u8 ((a + b) / 2)) m;
  v ← ld luma m; m ← st (uyvy + 1) v m;
  a ← ld cr m; b ← ld (cr + 1) m; m ← st (uyvy + 2) (u8 ((a + b) / 2)) m;
  v ← ld (luma + 1) m; st (uyvy + 3) v m.

Definition y800_to_bgr (x y : Z) (m : memory) : outcome memory :=
  luma ← image_pixel src 0 x y;
  bgr ← image_pixel dst 0 x y;
  l ← ld luma m;
  put_rgb l 128 128 (bgr + 2) (bgr + 1) bgr m.

Definition rgb_to_bgr (x y : Z) (m : memory) : outcome memory :=
  rgb ← image_pixel src 0 x y;
  bgr ← image_pixel dst 0 x y;
  v ← ld (rgb + 2) m; m ← st bgr v m;
  v ← ld (rgb + 1) m; m ← st (bgr + 1) v m;
  v ← ld rgb m; st (bgr + 2) v m.

(** [rgb_to_yuv_pixel] of the bytes at [r], [g], [b], the luma stored at
    [luma]; the colour differences go to locals. *)
Definition luma_of (r g b luma : Z) (m : memory) : outcome (memory * Z * Z) :=
  vr ← ld r m; vg ← ld g m; vb ← ld b m;
  let '(y, u, v) := rgb_to_yuv_pixel vr vg vb in
  m ← st luma y m; Done (m, u, v).

(** Two pixels of three bytes, red at [r] and blue at [b], to a macro pixel. *)
Definition pair_to_uyvy (px r b uyvy : Z) (m : memory) : outcome memory :=
  '(m, u0, v0) ← luma_of (px + r) (px + 1) (px + b) (uyvy + 1) m;
  '(m, u1, v1) ← luma_of (px + 3 + r) (px + 4) (px + 3 + b) (uyvy + 3) m;
  m ← st uyvy (saturate_to_uint8 ((u0 + u1) / 2)) m;
  st (uyvy + 2) (saturate_to_uint8 ((v0 + v1) / 2)) m.

Definition rgb_to_uyvy (x y : Z) (m : memory) : outcome memory :=
  rgb ← image_pixel src 0 x y; uyvy ← image_pixel dst 0 x y; pair_to_uyvy rgb 0 2 uyvy m.
Definition bgr_to_uyvy (x y : Z) (m : memory) : outcome memory :=
  bgr ← image_pixel src 0 x y; uyvy ← image_pixel dst 0 x y; pair_to_uyvy bgr 2 0 uyvy m.

Definition rgb_to_nv12 (x y : Z) (m : memory) : outcome memory :=
  rgb ← image_pixel src 0 x y;
  luma ← image_pixel dst 0 x y;
  uv ← image_pixel dst 1 x y;
  '(m, u, v) ← luma_of rgb (rgb + 1) (rgb + 2) luma m;
  m ← st uv u m; st (uv + 1) v m.

(** The four luma stores of the BGR conversions with averaged colour
    differences: only the first of the four pixels is read from the source,
    and the red byte of the last is the third one's. *)
Definition bgr_block (x y : Z) (m : memory) : outcome (memory * Z * Z) :=
  bgr0 ← image_pixel src 0 x y;
  l0 ← image_pixel dst 0 x y;
  l1 ← image_pixel_plus dst 0 x 1 y 0;
  l2 ← image_pixel_plus dst 0 x 0 y 1;
  l3 ← image_pixel_plus dst 0 x 1 y 1;
  '(m, u0, v0) ← luma_of (bgr0 + 2) (bgr0 + 1) bgr0 l0 m;
  '(m, u1, v1) ← luma_of (l1 + 2) (l1 + 1) l1 l1 m;
  '(m, u2, v2) ← luma_of (l2 + 2) (l2 + 1) l2 l2 m;
  '(m, u3, v3) ← luma_of (l2 + 2) (l3 + 1) l3 l3 m;
  Done (m, (u0 + u1 + u2 + u3) / 4, (v0 + v1 + v2 + v3) / 4).

Definition bgr_to_nv12 (x y : Z) (m : memory) : outcome memory :=
  uv ← image_pixel dst 1 x y;
  '(m, u, v) ← bgr_block x y m;
  m ← st uv u m; st (uv + 1) v m.

(** [pu] and [pv] are the planes the code takes [us] and [vs] from; the
    second store goes to [vs[1]]. *)
Definition bgr_to_yuv420 (pu pv x y : Z) (m : memory) : outcome memory :=
  us ← image_pixel dst pu x y;
  vs ← image_pixel dst pv x y;
  '(m, u, v) ← bgr_block x y m;
  m ← st us u m; st (vs + 1) v m.

(** [po] and [qo] are the planes of the target for U and V. *)
Definition nv12_to_yuv444 (po qo x y : Z) (m : memory) : outcome memory :=
  sp ← plane0 src;
  let str := ystride sp in
  l0 ← image_pixel src 0 x y;
  uv ← image_pixel src 1 x y;
  lo ← image_pixel dst 0 x y;
  uo ← image_pixel dst po x y;
  vo ← image_pixel dst qo x y;
  a ← ld l0 m; b ← ld (l0 + 1) m; c ← ld (l0 + str) m; d ← ld (l0 + (str + 1)) m;
  m ← st lo (u8 (Z.shiftr (a + b + c + d) 2)) m;
  v ← ld uv m; m ← st uo v m;
  v ← ld (uv + 1) m; st vo v m.

Definition yuv444_to_rgbp (x y : Z) (m : memory) : outcome memory :=
  luma ← image_pixel src 0 x y;
  cb ← image_pixel src p1 x y;
  cr ← image_pixel src p2 x y;
  r ← image_pixel dst 0 x y;
  g ← image_pixel dst 1 x y;
  b ← image_pixel dst 2 x y;
  l ← ld luma m; u ← ld cb m; v ← ld cr m;
  put_rgb l u v r g b m.

Definition y800_to_uyvy (x y : Z) (m : memory) : outcome memory :=
  luma ← image_pixel src 0 x y;
  uyvy ← image_pixel dst 0 x y;
  m ← st uyvy 0x80 m;
  v ← ld luma m; m ← st (uyvy + 1) v m;
  m ← st (uyvy + 2) 0x80 m;
  v ← ld (luma + 1) m; st (uyvy + 3) v m.

(** ** image_convert *)

(** The body for a pair of formats, the step of [y] and the step of [x]; the
    bounds are the source's, but for grey to UYVY. *)
Definition conversion (sp dp : plane_t) : option (plane_t * Z * Z * (Z -> Z -> memory -> outcome memory)) :=
  let d := i_color dst in let s := i_color src in
  let pair a b := (d =? a) && (s =? b) in
  let s444 := one_of s [FOURCC_YU24; FOURCC_YV24] in
  if pair FOURCC_BGR FOURCC_UYVY then Some (sp, 1, xstep sp, uyvy_to_bgr)
  else if pair FOURCC_BGR FOURCC_YUY2 then Some (sp, 1, xstep sp, yuy2_to_bgr)
  else if pair FOURCC_BGR FOURCC_NV12 then Some (sp, 1, xstep sp, nv12_to_bgr)
  else if pair FOURCC_UYVY FOURCC_NV12 then Some (sp, 1, xstep dp, nv12_to_uyvy)
  else if (d =? FOURCC_BGR) && s444 then Some (sp, 1, xstep sp, yuv444_to_bgr)
  else if (d =? FOURCC_UYVY) && s444 then Some (sp, 1, xstep dp, yuv444_to_uyvy)
  else if pair FOURCC_BGR FOURCC_Y800 then Some (sp, 1, xstep sp, y800_to_bgr)
  else if pair FOURCC_BGR FOURCC_RGB then Some (sp, 1, xstep sp, rgb_to_bgr)
  else if pair FOURCC_UYVY FOURCC_RGB then Some (sp, 1, 2 * xstep sp, rgb_to_uyvy)
  else if pair FOURCC_NV12 FOURCC_RGB then Some (sp, 1, xstep sp, rgb_to_nv12)
  else if pair FOURCC_UYVY FOURCC_BGR then Some (sp, 1, 2 * xstep sp, bgr_to_uyvy)
  else if pair FOURCC_NV12 FOURCC_BGR then Some (sp, 2, 2, bgr_to_nv12)
  else if pair FOURCC_IYUV FOURCC_BGR then Some (sp, 2, 2, bgr_to_yuv420 1 2)
  else if pair FOURCC_YV12 FOURCC_BGR then Some (sp, 2, 2, bgr_to_yuv420 2 1)
  else if pair FOURCC_YU24 FOURCC_NV12 then Some (sp, 2, 2 * xstep sp, nv12_to_yuv444 1 2)
  else if pair FOURCC_YV24 FOURCC_NV12 then Some (sp, 2, 2 * xstep sp, nv12_to_yuv444 2 1)
  else if (d =? FOURCC_RGBP) && s444 then Some (sp, 1, xstep sp, yuv444_to_rgbp)
  else if pair FOURCC_UYVY FOURCC_Y800 then Some (dp, 1, xstep dp, y800_to_uyvy)
  else None.

(** A pair without a conversion changes nothing. *)
Definition image_convert (m : memory) : outcome memory :=
  if i_color dst =? i_color src then '(_, m) ← image_copy dst src m; Done m
  else
    sp ← plane0 src;
    dp ← plane0 dst;
    match conversion sp dp with
    | Some (b, yinc, xinc, body) => for_pixels (ydim b) yinc (xdim b) xinc body m
    | None => Done m
    end.
End Bodies.

(** ** From [DVP_Image_t] (dvp_kgm_cpu.c) *)

Definition map_plane (p : Z) (f : plane_t -> plane_t) (l : list plane_t) : outcome (list plane_t) :=
  pl ← of_option (aget l p); of_option (aset l p (f pl)).
Definition set_xstep (v : Z) (pl : plane_t) : plane_t :=
  mkPlane (ptr pl) (xdim pl) (ydim pl) (xscale pl) (yscale pl) (xstride pl) (ystride pl) v (p_numBytes pl).
Definition set_xscale (v : Z) (pl : plane_t) : plane_t :=
  mkPlane (ptr pl) (xdim pl) (ydim pl) v (yscale pl) (xstride pl) (ystride pl) (xstep pl) (p_numBytes pl).
Definition set_yscale (v : Z) (pl : plane_t) : plane_t :=
  mkPlane (ptr pl) (xdim pl) (ydim pl) (xscale pl) v (xstride pl) (ystride pl) (xstep pl) (p_numBytes pl).

(** More than four planes write past the array. *)
Definition DVP_Image_to_image_t (i : DVP_Image_t) : outcome image_t :=
  l ← ofold (fun l p =>
        a ← of_option (aget (pData i) p);
        of_option (aset l p (mkPlane a (width i) (height i) 1 1 (x_stride i) (y_stride i) 1 0)))
      (seqZ 0 (planes i)) (replicate 4 zero_plane);
  l ← (if color i =? FOURCC_BIN1 then map_plane 0 (set_xscale 8) l
       else if one_of (color i) [FOURCC_UYVY; FOURCC_YUY2; FOURCC_VYUY; FOURCC_YVYU]
       then map_plane 0 (set_xstep 2) l
       else if color i =? FOURCC_NV12 then map_plane 1 (fun pl => set_yscale 2 (set_xscale 2 (set_xstep 2 pl))) l
       else if one_of (color i) [FOURCC_IYUV; FOURCC_YV12]
       then l ← map_plane 1 (fun pl => set_yscale 2 (set_xscale 2 pl)) l;
            map_plane 2 (fun pl => set_yscale 2 (set_xscale 2 pl)) l
       else if one_of (color i) [FOURCC_YU16; FOURCC_YV16]
       then l ← map_plane 1 (set_xscale 2) l; map_plane 2 (set_xscale 2) l
       else Done l);
  Done (mkImageT (color i) l (planes i)).
