(* ===== verification/SosalImageAlloc.v ===== *)
(** * Allocation and filling of portable images (source/sosal/image.c)

    The planes [image_allocate] describes, the memory [image_back] gives them,
    and [image_fill]. *)
From S2P Require Import Prelude DvpTypes Memory Image SosalImage.

Open Scope dvp_scope.

(** A plane of [w] by [h] pixels, [stride] bytes apart; [step] and [scale] as
    in [plane_t]. *)
Definition plane_of (w h step scale stride : Z) : plane_t :=
  let ys := w ⊠ stride in
  mkPlane 0 w h scale scale stride (s32 ys) step (h ⊠ ys).
(** A format the [switch] does not list leaves the structure zero. *)
Definition image_allocate (width height color : Z) : image_t :=
  let planes l := mkImageT color (take 4 (l ++ replicate 4 zero_plane)) (Z.of_nat (length l)) in
  if one_of color [FOURCC_RGBP; FOURCC_YU24; FOURCC_YV24] then planes (replicate 3 (plane_of width height 1 1 1))
  else if one_of color [FOURCC_BGR; FOURCC_RGB] then planes [plane_of width height 1 1 3]
  else if one_of color [FOURCC_UYVY; FOURCC_YUY2] then planes [plane_of width height 2 1 2]
  else if color =? FOURCC_Y800 then planes [plane_of width height 1 1 1]
  else if color =? FOURCC_NV12 then planes [plane_of width height 1 1 1; plane_of width height 1 2 2]
  else if one_of color [FOURCC_IYUV; FOURCC_YV12] then
    planes [plane_of width width 1 1 1; plane_of (width / 2) (width / 2) 1 2 1; plane_of (width / 2) (width / 2) 1 2 1]
  else planes [].

Definition set_ptr_of (a : Z) (pl : plane_t) : plane_t :=
  mkPlane a (xdim pl) (ydim pl) (xscale pl) (yscale pl) (xstride pl) (ystride pl) (xstep pl) (p_numBytes pl).

(** [calloc n k]: what the [k]-th request, of [n] bytes, answers. *)
Definition image_back (calloc : Z -> Z -> Z) (img : image_t) : outcome (bool * image_t) :=
  if negb (i_color img =? FOURCC_NV12) then
    '(ok, l) ← ofold (fun '(ok, l) p =>
      pl ← of_option (aget l p);
      let a := calloc (p_numBytes pl) p in
      l ← of_option (aset l p (set_ptr_of a pl));
      Done (ok && negb (a =? 0), l)) (seqZ 0 (numPlanes img)) (true, plane img);
    Done (ok, mkImageT (i_color img) l (numPlanes img))
  else
    p0 ← of_option (aget (plane img) 0);
    p1 ← of_option (aget (plane img) 1);
    let a := calloc (p_numBytes p0 ⊞ p_numBytes p1) 0 in
    l ← of_option (aset (plane img) 0 (set_ptr_of a p0));
    if a =? 0 then Done (false, mkImageT (i_color img) l (numPlanes img))
    else
      l ← of_option (aset l 1 (set_ptr_of (a + (ydim p0 ⊠ u32 (ystride p0))) p1));
      Done (true, mkImageT (i_color img) l (numPlanes img)).

(** The blocks [image_unback] frees. *)
Definition image_unback (img : image_t) : outcome (list Z) :=
  if negb (i_color img =? FOURCC_NV12)
  then of_option (mapM (fun p => pl ← aget (plane img) p; Some (ptr pl)) (seqZ 0 (numPlanes img)))
  else of_option (pl ← aget (plane img) 0; Some [ptr pl]).

(** The bytes at each pixel of a plane, for the formats [image_fill] knows. *)
Definition fill_pattern (color a b c p : Z) : option (list Z) :=
  if color =? FOURCC_BGR then Some [c; b; a]
  else if color =? FOURCC_RGB then Some [a; b; c]
  else if color =? FOURCC_UYVY then Some [b; a; c; a]
  else if color =? FOURCC_YUY2 then Some [a; b; a; c]
  else if color =? FOURCC_NV12 then Some (if p =? 0 then [a] else [b; c])
  else if color =? FOURCC_Y800 then Some [a]
  else None.
(** NV12 and grey name their planes, the others count them. *)
Definition filled_planes (img : image_t) : list Z :=
  if i_color img =? FOURCC_NV12 then [0; 1]
  else if i_color img =? FOURCC_Y800 then [0] else seqZ 0 (numPlanes img).
Definition image_fill (img : image_t) (a b c : Z) (m : memory) : outcome memory :=
  ofold (fun m p =>
    match fill_pattern (i_color img) a b c p with
    | None => Done m
    | Some bs =>
        pl ← of_option (aget (plane img) p);
        for_pixels (ydim pl) 1 (xdim pl) (xstep pl) (fun x y m =>
          q ← image_pixel img p x y;
          of_option (store_bytes q bs m)) m
    end) (filled_planes img) m.

(** ** Pixels stay in their plane *)

Definition small_dims (w h : Z) : Prop := 0 < w /\ 0 < h /\ w * h * 3 < 2 ^ 31 /\ w * w < 2 ^ 31.

Lemma plane_of_pixel w h step scale stride x y :
  0 < w -> 0 < h -> w * h * stride < 2 ^ 31 -> 0 < stride -> 1 <= scale ->
  0 <= x < w -> 0 <= y < h ->
  let pl := plane_of w h step scale stride in
  0 <= plane_pixel pl (x / scale) (y / scale) /\
  plane_pixel pl (x / scale) (y / scale) + stride <= p_numBytes pl.
Proof.
  intros Hw Hh Hb Hs Hsc Hx Hy pl. unfold plane_pixel, pl, plane_of. cbn [ptr xstride ystride p_numBytes].
  assert (w * stride <= w * stride * h) by nia.
  assert (0 <= x / scale <= x /\ 0 <= y / scale <= y) as [Hxs Hys].
  { split; (split; [apply Z.div_pos; lia|apply Z.div_le_upper_bound; nia]). }
  rewrite (u32_small (w * stride)) by (unfold is_u32; nia).
  rewrite s32_small by (unfold is_s32; nia). rewrite (u32_small (w * stride)) by (unfold is_u32; nia).
  rewrite (u32_small stride) by (unfold is_u32; nia).
  set (i := x / scale) in *. set (j := y / scale) in *.
  assert (w * stride * j <= w * stride * (h - 1)) by (apply Z.mul_le_mono_nonneg_l; nia).
  assert (stride * i + stride <= w * stride) by nia.
  rewrite (u32_small (h * (w * stride))) by (unfold is_u32; nia).
  rewrite (u32_small (w * stride * j)), (u32_small (stride * i)) by (unfold is_u32; nia).
  rewrite u32_small by (unfold is_u32; nia). nia.
Qed.

Definition whole_formats : list Z :=
  [FOURCC_RGBP; FOURCC_YU24; FOURCC_YV24; FOURCC_BGR; FOURCC_RGB; FOURCC_UYVY; FOURCC_YUY2; FOURCC_Y800; FOURCC_NV12].

(** The planes of these formats *)
Lemma allocated_plane w h c p : c ∈ whole_formats -> 0 <= p < numPlanes (image_allocate w h c) ->
  exists step scale stride, aget (plane (image_allocate w h c)) p = Some (plane_of w h step scale stride) /\
    1 <= scale /\ 0 < stride <= 3.
Proof.
  intros Hc Hp. unfold whole_formats in Hc.
  repeat (apply elem_of_cons in Hc as [->|Hc];
    [change (numPlanes _) with 3 in Hp || change (numPlanes _) with 1 in Hp || change (numPlanes _) with 2 in Hp;
     assert (p = 0 \/ p = 1 \/ p = 2) as [->|[->| ->]] by lia; try lia;
     eexists _, _, _; (split; [reflexivity|lia])|]).
  by apply elem_of_nil in Hc.
Qed.

(** C38: for every format but the ones of three sub-sampled planes, each pixel of
    an allocated image lies in its plane. *)
Theorem allocated_pixel_in_plane w h c p x y :
  c ∈ whole_formats -> small_dims w h -> 0 <= p < numPlanes (image_allocate w h c) ->
  0 <= x < w -> 0 <= y < h ->
  exists pl q, aget (plane (image_allocate w h c)) p = Some pl /\
    image_pixel (image_allocate w h c) p x y = Done q /\ 0 <= q /\ q + xstride pl <= p_numBytes pl.
Proof.
  intros Hc (Hw & Hh & Hb & _) Hp Hx Hy. destruct (allocated_plane w h c p Hc Hp) as (step & scale & stride & Hpl & Hs & Ht).
  destruct (plane_of_pixel w h step scale stride x y Hw Hh ltac:(nia) ltac:(lia) Hs Hx Hy) as [H0 H1].
  exists (plane_of w h step scale stride), (plane_pixel (plane_of w h step scale stride) (x / scale) (y / scale)).
  split_and!; [done| |done|done]. unfold image_pixel. rewrite Hpl. cbn [of_option mbind outcome_bind plane_of xscale yscale].
  rewrite (proj2 (Z.eqb_neq scale 0)) by lia. done.
Qed.

Lemma allocated_pixel_in_plane_witness : exists q,
  image_pixel (image_allocate 4 2 FOURCC_NV12) 1 3 1 = Done q /\ 0 <= q /\ q + 2 <= 16.
Proof.
  destruct (allocated_pixel_in_plane 4 2 FOURCC_NV12 1 3 1) as (pl & q & Hpl & Hq & H0 & H1).
  - unfold whole_formats. set_solver.
  - unfold small_dims. lia.
  - split; done.
  - lia.
  - lia.
  - exists q. vm_compute in Hpl. injection Hpl as <-. split; [exact Hq|]. split; [exact H0|exact H1].
Defined.

(** A 4:2:0 image of three planes gets the width for its height: of a tall
    image the lines beyond have no memory. *)
Lemma tall_iyuv_past_plane :
  image_pixel (image_allocate 2 6 FOURCC_IYUV) 0 0 5 = Done 10 /\
  p_numBytes <$> aget (plane (image_allocate 2 6 FOURCC_IYUV)) 0 = Some 4.
Proof. by vm_compute. Qed.
