(* ===== verification/SosalText.v ===== *)
(** * Text: names of image dumps, four-character codes, INI files, options
    (source/sosal/pyuv.c, fourcc.c, ini.c, options.c)

    Characters are their codes, strings and arrays of characters are lists.
    What is written as settings is read back; comments and settings outside
    of a section are not read as one would expect. *)
From Stdlib Require Import String Ascii.
From S2P Require Import Prelude Image.

(** ** Names of image dumps *)

Definition chars (s : string) : list Z :=
  map (fun c => Z.of_N (N_of_ascii c)) (list_ascii_of_string s).

(** The characters of an array before its terminator; without one the read
    runs past the array. *)
Fixpoint c_string (a : list Z) : option (list Z) :=
  match a with
  | [] => None
  | c :: a' => if c =? 0 then Some [] else s ← c_string a'; Some (c :: s)
  end.

(** [%u] of a 32-bit number, of at most ten digits *)
Fixpoint digits (fuel : nat) (n : Z) (acc : list Z) : list Z :=
  match fuel with
  | O => acc
  | S f => let acc := 48 + n mod 10 :: acc in if n <? 10 then acc else digits f (n / 10) acc
  end.
Definition decimal (n : Z) : list Z := digits 10 n [].

(** Format, name and extension. *)
Definition fourccNames : list (Z * list Z * list Z) :=
  [ (FOURCC_UYVY, chars "UYVY", chars "yuv"); (FOURCC_YUY2, chars "YUY2", chars "yuv");
    (FOURCC_YVYU, chars "YVYU", chars "yuv"); (FOURCC_YUV9, chars "P411", chars "yuv");
    (FOURCC_YVU9, chars "P411", chars "yuv"); (FOURCC_YV12, chars "P420", chars "yuv");
    (FOURCC_IYUV, chars "IYUV", chars "yuv"); (FOURCC_YU16, chars "P422", chars "yuv");
    (FOURCC_YV16, chars "P422", chars "yuv"); (FOURCC_YU24, chars "P444", chars "yuv");
    (FOURCC_YV24, chars "P444", chars "yuv"); (FOURCC_Y800, chars "P400", chars "bw");
    (FOURCC_Y16, chars "P400_16b", chars "bw"); (FOURCC_Y32, chars "P400_32b", chars "bw");
    (FOURCC_RGBP, chars "P444", chars "rgb"); (FOURCC_BGR, chars "I444", chars "rgb");
    (FOURCC_HSLP, chars "P444", chars "hsl"); (FOURCC_RGBA, chars "I32", chars "rgba");
    (FOURCC_NV12, chars "P400", chars "bw"); (FOURCC_NV21, chars "P400", chars "bw");
    (FOURCC_RGB565, chars "I565", chars "rgb"); (FOURCC_BGR565, chars "I565", chars "rgb") ].

Fixpoint lookup_fourcc (l : list (Z * list Z * list Z)) (fourcc : Z) : option (list Z * list Z) :=
  match l with
  | [] => None
  | (f, name, ext) :: l' => if fourcc =? f then Some (name, ext) else lookup_fourcc l' fourcc
  end.
Definition PYUV_GetColorSpaceName (fourcc : Z) : option (list Z) := fst <$> lookup_fourcc fourccNames fourcc.
Definition PYUV_GetFileExtension (fourcc : Z) : option (list Z) := snd <$> lookup_fourcc fourccNames fourcc.

(** The first row with the name and extension; grey when there is none. *)
Definition PYUV_GetColorSpace (name ext : list Z) : Z :=
  foldr (fun '(f, n, e) rest => if bool_decide (n = name) && bool_decide (e = ext) then f else rest)
    FOURCC_Y800 fourccNames.

(** What [sprintf] writes, without the terminator; a format without a name
    passes it [NULL]. *)
Definition PYUV_GetFilename (path name : list Z) (width height fps fourcc : Z) : option (list Z) :=
  let modHeight := if one_of fourcc [FOURCC_NV12; FOURCC_NV21] then u32 (height * 3) / 2 else height in
  cs ← PYUV_GetColorSpaceName fourcc;
  ext ← PYUV_GetFileExtension fourcc;
  Some (path ++ name ++ chars "_" ++ decimal width ++ chars "x" ++ decimal modHeight ++ chars "_" ++
        decimal fps ++ chars "Hz_" ++ cs ++ chars "." ++ ext).

(** ** Four-character codes

    The result of [fourcctostr] is read as a string: a zero byte ends it. *)
Definition strtofourcc (s : list Z) : outcome Z :=
  a ← of_option (s !! 0%nat); b ← of_option (s !! 1%nat); c ← of_option (s !! 2%nat); d ← of_option (s !! 3%nat);
  Done (u32 (Z.lor (Z.lor (Z.lor (u8 a) (Z.shiftl (u8 b) 8)) (Z.shiftl (u8 c) 16)) (Z.shiftl (u8 d) 24))).
Definition fourcc_bytes (fcc : Z) : list Z := (fun i => u8 (Z.shiftr fcc (8 * i))) <$> [0; 1; 2; 3].
Definition fourcctostr (fcc : Z) : option (list Z) := c_string (fourcc_bytes fcc ++ [0]).

(** ** The parser *)

Inductive ini_state_e : Set := INI_NONE | INI_SEC | INI_VAR | INI_VAL | INI_COM.
Inductive ini_chars_e : Set := INI_NATURAL | INI_LOWER | INI_UPPER.
#[export] Instance ini_state_dec : EqDecision ini_state_e.
Proof. solve_decision. Defined.

(** An array of 255 characters and the index of the next one. *)
Record field : Set := mkField { text : list Z; next : Z }.
Definition FIELD_SIZE : Z := 255.
Definition clear (f : field) : field := mkField (replicate 255 0) (next f).
Definition rewind (f : field) : field := mkField (text f) 0.
Definition put (c : Z) (f : field) : field :=
  if next f <? FIELD_SIZE then mkField (<[Z.to_nat (next f) := c]> (text f)) (next f + 1) else f.
Definition filled (f : field) : bool := negb (default 0 (text f !! 0%nat) =? 0).

(** The locals of [ini_parse], and the calls it made. *)
Record ini_t : Set := mkIni {
  state : ini_state_e; section : field; variable : field; value : field; calls : list (list Z * list Z * list Z) }.

Definition ini_start : ini_t :=
  let none := mkField (replicate 255 0) 0 in
  mkIni INI_SEC (mkField (chars "GLOBAL" ++ replicate 249 0) 0) none none [].

Definition to_case (k : ini_chars_e) (c : Z) : Z :=
  match k with
  | INI_UPPER => if (97 <=? c) && (c <=? 122) then c - 97 + 65 else c
  | INI_LOWER => if (65 <=? c) && (c <=? 90) then c - 65 + 97 else c
  | INI_NATURAL => c
  end.

Definition recase (k : ini_chars_e) (n : list Z) : list Z := to_case k <$> n.

(** The callback reads its arguments as strings: an array without a
    terminator is read beyond its end. *)
Definition report (s : ini_t) : outcome ini_t :=
  if filled (section s) && filled (variable s) && filled (value s) then
    a ← of_option (c_string (text (section s))); b ← of_option (c_string (text (variable s)));
    v ← of_option (c_string (text (value s)));
    Done (mkIni (state s) (section s) (rewind (clear (variable s))) (rewind (clear (value s))) (calls s ++ [(a, b, v)]))
  else Done s.

Definition place (c : Z) (s : ini_t) : ini_t :=
  match state s with
  | INI_NONE | INI_COM => s
  | INI_SEC => mkIni INI_SEC (put c (section s)) (variable s) (value s) (calls s)
  | INI_VAR => mkIni INI_VAR (section s) (put c (variable s)) (value s) (calls s)
  | INI_VAL => mkIni INI_VAL (section s) (variable s) (put c (value s)) (calls s)
  end.
Definition with_state (st : ini_state_e) (s : ini_t) : ini_t := mkIni st (section s) (variable s) (value s) (calls s).

(** # ; [ ] = tab space quote, and the ends of a line *)
Definition ini_char (c : Z) (s : ini_t) : outcome ini_t :=
  if (c =? 35) || (c =? 59) then Done (with_state INI_COM s)
  else if c =? 91 then
    Done (mkIni INI_SEC (rewind (clear (section s))) (clear (variable s)) (clear (value s)) (calls s))
  else if c =? 93 then Done (mkIni INI_VAR (section s) (rewind (clear (variable s))) (clear (value s)) (calls s))
  else if c =? 61 then Done (mkIni INI_VAL (section s) (variable s) (rewind (clear (value s))) (calls s))
  else if (c =? 9) || (c =? 32) || (c =? 34) then Done s
  else if (c =? 10) || (c =? 13) || (c =? 0) then
    if decide (state s = INI_VAL) then s ← report s; Done (with_state INI_VAR s) else Done s
  else Done (place c s).

Definition ini_parse (k : ini_chars_e) (buffer : list Z) : outcome (list (list Z * list Z * list Z)) :=
  s ← ofold (fun s c => ini_char (to_case k c) s) buffer ini_start;
  s ← report s; Done (calls s).

(** ** What is written is read back

    Settings by section, and a file with them. *)
Definition settings : Type := list (list Z * list (list Z * list Z)).
Definition write_setting (x : list Z * list Z) : list Z := x.1 ++ [61] ++ x.2 ++ [10].
Definition write_section (x : list Z * list (list Z * list Z)) : list Z :=
  [91] ++ x.1 ++ [93; 10] ++ concat (write_setting <$> x.2).
Definition write_ini (s : settings) : list Z := concat (write_section <$> s).

Definition read_section (k : ini_chars_e) (x : list Z * list (list Z * list Z)) : list (list Z * list Z * list Z) :=
  map (fun '(v, w) => (recase k x.1, recase k v, recase k w)) x.2.

Definition special (c : Z) : bool := one_of c [35; 59; 91; 93; 61; 9; 32; 34; 10; 13; 0].
Definition name_ok (n : list Z) : Prop := n <> [] /\ Z.of_nat (length n) < FIELD_SIZE /\ Forall (fun c => special c = false) n.
Definition section_ok (x : list Z * list (list Z * list Z)) : Prop :=
  name_ok x.1 /\ Forall (fun p => name_ok p.1 /\ name_ok p.2) x.2.

Lemma special_case k c : special (to_case k c) = special c.
Proof.
  unfold special, to_case, one_of. destruct k; [done| |].
  - destruct (Z.leb_spec 65 c), (Z.leb_spec c 90); simpl; [|done..]. repeat zcase.
  - destruct (Z.leb_spec 97 c), (Z.leb_spec c 122); simpl; [|done..]. repeat zcase.
Qed.

Lemma plain_char c s : special c = false -> ini_char c s = Done (place c s).
Proof.
  unfold special, one_of, ini_char. cbn [existsb]. intros H.
  repeat (apply orb_false_iff in H as [? H]). repeat match goal with E : (c =? _) = false |- _ => rewrite E; clear E end. done.
Qed.

(** A field that holds a name. *)
Definition holds (n : list Z) : field := mkField (n ++ replicate (255 - length n) 0) (Z.of_nat (length n)).

Lemma put_holds n c : Z.of_nat (length n) < FIELD_SIZE -> put c (holds n) = holds (n ++ [c]).
Proof.
  unfold FIELD_SIZE. intros Hn. unfold put, holds, FIELD_SIZE. cbn [next text]. rewrite (proj2 (Z.ltb_lt _ _)) by done.
  rewrite Nat2Z.id, length_app. cbn [length]. f_equal; [|lia].
  replace (255 - length n)%nat with (S (255 - (length n + 1))) by lia. cbn [replicate].
  rewrite insert_app_r_alt by lia. rewrite Nat.sub_diag. cbn [insert list_insert]. by rewrite <- app_assoc.
Qed.
Lemma clear_holds f : rewind (clear f) = holds [].
Proof. done. Qed.

Lemma c_string_holds n : Z.of_nat (length n) < FIELD_SIZE -> Forall (fun c => special c = false) n -> c_string (text (holds n)) = Some n.
Proof.
  unfold FIELD_SIZE. intros Hn Hf. unfold holds. cbn [text]. replace (255 - length n)%nat with (S (254 - length n)) by lia.
  clear Hn. generalize (254 - length n)%nat as m. induction Hf as [|c n Hc Hn IH]; intros m; [done|]. cbn [app c_string].
  destruct (Z.eqb_spec c 0) as [->|]; [done|]. by rewrite IH.
Qed.
Lemma filled_holds n : name_ok n -> filled (holds n) = true.
Proof.
  intros (Hne & _ & Hf). destruct n as [|c n]; [done|]. apply Forall_cons in Hf as [Hc _]. unfold filled. simpl.
  by destruct (Z.eqb_spec c 0) as [->|].
Qed.
Lemma c_string_name n : name_ok n -> c_string (text (holds n)) = Some n.
Proof. intros (_ & ? & ?). by apply c_string_holds. Qed.
Lemma name_case k n : name_ok n -> name_ok (recase k n).
Proof.
  intros (Hne & Hl & Hf). unfold recase. split_and!; [by destruct n|by rewrite length_fmap|]. apply Forall_fmap. eapply Forall_impl; [exact Hf|].
  intros c Hc. cbn. by rewrite special_case.
Qed.

(** What reading the characters of a name does to a field. *)
Lemma put_all n p : Z.of_nat (length p + length n) <= FIELD_SIZE -> foldl (fun f c => put c f) (holds p) n = holds (p ++ n).
Proof.
  revert p. induction n as [|c n IH]; intros p Hl; cbn [foldl length] in *; [by rewrite app_nil_r|].
  rewrite put_holds by lia. rewrite IH by (rewrite length_app; simpl; lia). by rewrite <- app_assoc.
Qed.

Definition write_field (f : field -> field) (s : ini_t) : ini_t :=
  match state s with
  | INI_SEC => mkIni INI_SEC (f (section s)) (variable s) (value s) (calls s)
  | INI_VAR => mkIni INI_VAR (section s) (f (variable s)) (value s) (calls s)
  | INI_VAL => mkIni INI_VAL (section s) (variable s) (f (value s)) (calls s)
  | _ => s
  end.
Lemma read_name k n s : Forall (fun c => special c = false) n ->
  ofold (fun s c => ini_char (to_case k c) s) n s = Done (write_field (fun f => foldl (fun f c => put c f) f (recase k n)) s).
Proof.
  intros Hf. revert s. induction Hf as [|c n Hc _ IH]; intros s; [by destruct s as [[] ? ? ? ?]|].
  cbn [ofold]. rewrite plain_char by (by rewrite special_case). cbn [mbind outcome_bind]. rewrite IH.
  by destruct s as [[] ? ? ? ?].
Qed.

Section Read.
Context (k : ini_chars_e).
Abbreviation read := (ofold (fun s c => ini_char (to_case k c) s)).

(** Between two settings. *)
Definition between (sec : list Z) (cs : list (list Z * list Z * list Z)) (s : ini_t) : Prop :=
  state s = INI_VAR /\ section s = holds sec /\ variable s = holds [] /\ text (value s) = replicate 255 0 /\ calls s = cs.

Lemma special_char c s : special c = true -> read [c] s = ini_char c s.
Proof.
  intros Hc. cbn [ofold]. replace (to_case k c) with c.
  { by destruct (ini_char c s). }
  destruct k; [done| |]; unfold special, one_of in Hc; cbn [existsb] in Hc;
    repeat (apply orb_true_iff in Hc as [Hc|Hc]); try done; apply Z.eqb_eq in Hc as ->; done.
Qed.

Lemma read_setting sec cs x s : name_ok sec -> name_ok x.1 -> name_ok x.2 -> between sec cs s ->
  exists s', read (write_setting x) s = Done s' /\ between sec (cs ++ [(sec, recase k x.1, recase k x.2)]) s'.
Proof.
  destruct x as [v w]. cbn [fst snd]. intros Hsec Hv Hw (Hst & Hse & Hva & Hvl & Hcs). unfold write_setting. cbn [fst snd].
  pose proof (name_case k _ Hv) as (_ & Hlv & _). pose proof (name_case k _ Hw) as (_ & Hlw & _).
  rewrite ofold_app, read_name by apply Hv. cbn [mbind outcome_bind]. unfold write_field. rewrite Hst, Hva, put_all by (simpl; lia).
  rewrite ofold_app, special_char by done. cbn [ini_char Z.eqb Pos.eqb orb mbind outcome_bind].
  cbn [section variable value calls]. rewrite ofold_app, read_name by apply Hw. cbn [mbind outcome_bind]. unfold write_field. cbn [state section variable value calls].
  rewrite clear_holds, put_all by (simpl; lia). rewrite special_char by done.
  cbn [ini_char Z.eqb Pos.eqb orb section variable value calls state]. rewrite decide_True by done.
  unfold report. cbn [section variable value calls state app]. rewrite Hse.
  pose proof (name_case k _ Hv) as Hv'. pose proof (name_case k _ Hw) as Hw'.
  rewrite !filled_holds by done. cbn [andb]. rewrite !c_string_name by done. cbn [of_option mbind outcome_bind].
  eexists. split; [done|]. unfold with_state, between. cbn. by rewrite Hcs.
Qed.

Lemma read_settings sec xs cs s : name_ok sec -> Forall (fun p => name_ok p.1 /\ name_ok p.2) xs -> between sec cs s ->
  exists s', read (concat (write_setting <$> xs)) s = Done s' /\
    between sec (cs ++ map (fun '(v, w) => (sec, recase k v, recase k w)) xs) s'.
Proof.
  intros Hsec Hf. revert cs s. induction Hf as [|[v w] xs [Hv Hw] _ IH]; intros cs s Hb; [exists s; by rewrite app_nil_r|].
  destruct (read_setting sec cs (v, w) s) as (s1 & E1 & Hb1); [done..|]. cbn [fmap list_fmap concat]. rewrite ofold_app, E1.
  cbn [mbind outcome_bind]. destruct (IH _ _ Hb1) as (s2 & -> & Hb2). exists s2. split; [done|].
  by rewrite <- app_assoc in Hb2.
Qed.

(** From a state with nothing to report. *)
Lemma read_section_spec x s : section_ok x ->
  exists s', read (write_section x) s = Done s' /\ between (recase k x.1) (calls s ++ read_section k x) s'.
Proof.
  destruct x as [sec xs]. intros [Hsec Hxs]. cbn [fst snd] in *. unfold write_section, read_section. cbn [fst snd].
  pose proof (name_case k _ Hsec) as Hsec'. pose proof Hsec' as (_ & Hl & _).
  rewrite ofold_app, special_char by done. cbn [ini_char Z.eqb Pos.eqb orb mbind outcome_bind].
  rewrite ofold_app, read_name by apply Hsec. cbn [mbind outcome_bind]. unfold write_field. cbn [state section variable value calls].
  rewrite clear_holds, put_all by (simpl; lia). rewrite ofold_app.
  change [93; 10] with ([93] ++ [10]). rewrite ofold_app, special_char by done.
  cbn [ini_char Z.eqb Pos.eqb orb mbind outcome_bind section variable value calls]. rewrite special_char by done.
  cbn [ini_char Z.eqb Pos.eqb orb mbind outcome_bind state]. rewrite decide_False by done. cbn [mbind outcome_bind app].
  apply read_settings; [done|done|]. by split_and!.
Qed.

Lemma read_sections xs s : Forall section_ok xs -> filled (variable s) = false ->
  exists s', read (write_ini xs) s = Done s' /\ filled (variable s') = false /\ calls s' = calls s ++ concat (read_section k <$> xs).
Proof.
  unfold write_ini. intros Hf. revert s. induction Hf as [|x xs Hx _ IH]; intros s Hs; [exists s; by rewrite app_nil_r|].
  destruct (read_section_spec x s Hx) as (s1 & E & Hb). cbn [fmap list_fmap concat]. rewrite ofold_app, E. cbn [mbind outcome_bind].
  destruct Hb as (_ & _ & Hv & _ & Hc). destruct (IH s1) as (s2 & -> & Hs2 & Hc2); [by rewrite Hv|].
  exists s2. split_and!; [done|done|]. by rewrite Hc2, Hc, app_assoc.
Qed.
End Read.

(** C37: Settings that are written section by section are read back: the
    callback gets each of them once, in order, with the name of its section,
    and in the case asked for.  Names and values are not empty, shorter than the arrays they are
    read to, and without the characters that mean something in the file. *)
Theorem ini_reads_what_is_written k xs : Forall section_ok xs ->
  ini_parse k (write_ini xs) = Done (concat (read_section k <$> xs)).
Proof.
  intros Hf. unfold ini_parse. destruct (read_sections k xs ini_start Hf) as (s & -> & Hs & Hc); [done|].
  cbn [mbind outcome_bind]. unfold report. rewrite Hs, andb_false_r. cbn. by rewrite Hc.
Qed.

Example ini_reads_what_is_written_witness :
  ini_parse INI_UPPER (chars "[Cam]" ++ [10] ++ chars "w=640" ++ [10] ++ chars "fmt=uyvy" ++ [10] ++ chars "[out]" ++ [10] ++ chars "x=1" ++ [10]) =
  Done [(chars "CAM", chars "W", chars "640"); (chars "CAM", chars "FMT", chars "UYVY"); (chars "OUT", chars "X", chars "1")].
Proof.
  apply (ini_reads_what_is_written INI_UPPER
    [(chars "Cam", [(chars "w", chars "640"); (chars "fmt", chars "uyvy")]); (chars "out", [(chars "x", chars "1")])]).
  repeat constructor; intros Hx; discriminate Hx.
Defined.

(** Settings before the first section: the first one is lost and its name
    overwrites the start of [GLOBAL]. *)
Example globals_misread :
  ini_parse INI_NATURAL (chars "a=1" ++ [10] ++ chars "b=2" ++ [10]) = Done [(chars "aLOBAL", chars "b", chars "2")].
Proof. reflexivity. Qed.

(** A comment ends with the next [=], not with its line: a setting behind a
    comment line is lost, and behind a setting with a comment the value goes
    to the wrong name. *)
Example setting_after_comment_lost :
  ini_parse INI_NATURAL (chars "[s]" ++ [10] ++ chars "# note" ++ [10] ++ chars "a=1" ++ [10] ++ chars "b=2" ++ [10]) =
  Done [(chars "s", chars "b", chars "2")].
Proof. reflexivity. Qed.
Example comment_behind_setting_swaps :
  ini_parse INI_NATURAL (chars "[s]" ++ [10] ++ chars "a=1 # note" ++ [10] ++ chars "b=2" ++ [10]) =
  Done [(chars "s", chars "a", chars "2")].
Proof. reflexivity. Qed.

(** A name that fills its array is passed on without a terminator. *)
Lemma long_name_unterminated n : Z.of_nat (length n) = FIELD_SIZE -> Forall (fun c => special c = false) n ->
  ini_parse INI_NATURAL (chars "[s]" ++ n ++ [61; 49; 10]) = Undef.
Proof.
  intros Hn Hf. unfold ini_parse. rewrite ofold_app.
  set (s := mkIni INI_VAR (holds [115]) (holds []) (mkField (replicate 255 0) 0) []).
  assert (ofold (fun s c => ini_char (to_case INI_NATURAL c) s) (chars "[s]") ini_start = Done s) as -> by reflexivity.
  cbn [mbind outcome_bind]. rewrite ofold_app, read_name by done. cbn [mbind outcome_bind].
  assert (recase INI_NATURAL n = n) as -> by (apply list_fmap_id).
  unfold write_field, s. cbn [state section variable value calls]. rewrite put_all by (simpl; lia). cbn [app].
  assert (text (holds n) = n) as Ht. { unfold holds, FIELD_SIZE in *. cbn [text]. replace (255 - length n)%nat with 0%nat by lia. apply app_nil_r. }
  assert (filled (holds n) = true) as Hfl.
  { unfold filled. rewrite Ht. destruct n as [|c n']; [done|]. apply Forall_cons in Hf as [Hc _]. simpl. by destruct (Z.eqb_spec c 0) as [->|]. }
  assert (c_string n = None) as Hc0.
  { clear - Hf. induction Hf as [|c n Hc _ IH]; [done|]. simpl. destruct (Z.eqb_spec c 0) as [->|]; [done|]. by rewrite IH. }
  generalize dependent (holds n). intros f Ht Hfl. cbn - [filled c_string replicate].
  unfold report. cbn - [filled c_string replicate]. rewrite Hfl, Ht, Hc0. done.
Qed.

Lemma lor_high a b n : 0 <= n -> 0 <= a < 2 ^ n -> Z.lor a (Z.shiftl b n) = a + Z.shiftl b n.
Proof.
  intros Hn Ha. assert (Z.land a (Z.shiftl b n) = 0) as H.
  { apply Z.bits_inj'. intros m Hm. rewrite Z.land_spec, Z.bits_0. destruct (Z.lt_ge_cases m n).
    - rewrite Z.shiftl_spec_low by done. apply andb_false_r.
    - replace (Z.testbit a m) with false; [done|]. symmetry. rewrite <- (Z.mod_small a (2 ^ n)) by done. apply Z.mod_pow2_bits_high. lia. }
  by rewrite <- Z.lxor_lor, <- Z.add_nocarry_lxor.
Qed.

(** The characters of a code give it back, and the code is shown as them. *)
Lemma fourcc_roundtrip fcc : is_u32 fcc ->
  strtofourcc (fourcc_bytes fcc) = Done fcc /\
  (Forall (fun c => c <> 0) (fourcc_bytes fcc) -> fourcctostr fcc = Some (fourcc_bytes fcc)).
Proof.
  intros Hf. split.
  - unfold strtofourcc, fourcc_bytes. cbn [fmap list_fmap lookup list_lookup of_option mbind outcome_bind]. f_equal.
    assert (forall x, 0 <= u8 x < 256) as Hb by (intros x; unfold u8; apply Z.mod_pos_bound; lia).
    pose proof (Hb (u8 (Z.shiftr fcc (8 * 0)))). pose proof (Hb (u8 (Z.shiftr fcc (8 * 1)))). pose proof (Hb (u8 (Z.shiftr fcc (8 * 2)))).
    rewrite (lor_high _ _ 8), (lor_high _ _ 16), (lor_high _ _ 24) by (rewrite ?Z.shiftl_mul_pow2 by lia; lia). clear Hb H H0 H1.
    rewrite !Z.shiftl_mul_pow2, !Z.shiftr_div_pow2 by lia. unfold u8, u32, is_u32 in *.
    change (8 * 0) with 0. change (8 * 1) with 8. change (8 * 2) with 16. change (8 * 3) with 24.
    rewrite Z.pow_0_r, Z.div_1_r, !Zmod_mod.
    replace (2 ^ 24) with (2 ^ 16 * 2 ^ 8) by done. replace (2 ^ 16) with (2 ^ 8 * 2 ^ 8) by done.
    rewrite <- !Z.div_div by lia. set (a := fcc / 2 ^ 8). set (b := a / 2 ^ 8). set (c := b / 2 ^ 8).
    pose proof (Z.div_mod fcc (2 ^ 8) ltac:(lia)). pose proof (Z.div_mod a (2 ^ 8) ltac:(lia)). pose proof (Z.div_mod b (2 ^ 8) ltac:(lia)).
    assert (0 <= c < 2 ^ 8) as Hc. { unfold c, b, a. rewrite !Z.div_div by lia. split; [apply Z.div_pos; lia|apply Z.div_lt_upper_bound; lia]. }
    rewrite (Z.mod_small c) by done. fold a in H; fold b in H0; fold c in H1.
    rewrite Z.mod_small; [lia|]. pose proof (Z.mod_pos_bound fcc (2 ^ 8)). pose proof (Z.mod_pos_bound a (2 ^ 8)).
    pose proof (Z.mod_pos_bound b (2 ^ 8)). lia.
  - unfold fourcctostr, fourcc_bytes. cbn [fmap list_fmap]. intros Hn.
    repeat (apply Forall_cons in Hn as [? Hn]). cbn [app c_string].
    repeat match goal with H : u8 ?x <> 0 |- _ => rewrite (proj2 (Z.eqb_neq _ _) H); clear H end. done.
Qed.

(** ** Options of a command line (source/sosal/options.c)

    What the options do to their variables is recorded in order: a flag set, a
    word scanned in a format, or a word copied to a buffer. *)

Inductive option_type_e : Set :=
  OPTION_TYPE_BOOL | OPTION_TYPE_INT | OPTION_TYPE_HEX | OPTION_TYPE_FLOAT | OPTION_TYPE_STRING.
Record option_t : Type := mkOption { o_type : option_type_e; o_datum : Z; o_size : Z;
  short_switch : option (list Z); long_switch : option (list Z) }.
Inductive assignment : Type :=
  | SetTrue (datum : Z)
  | Scan (format : option_type_e) (word : list Z) (datum : Z)
  | CopyChars (bytes : list Z) (datum : Z).

(** [strncpy]: the word, cut at [n] or filled up with zeros *)
Definition strncpy_bytes (n : Z) (word : list Z) : list Z :=
  take (Z.to_nat n) word ++ replicate (Z.to_nat n - length word) 0.
Definition is_switch (o : option_t) (word : list Z) : bool :=
  match short_switch o with Some s => bool_decide (s = word) | None => false end ||
  match long_switch o with Some s => bool_decide (s = word) | None => false end.
(** What an option does with the next word, if it uses it; [int], [uint32_t]
    and [float] have four bytes. *)
Definition assign_word (o : option_t) (word : list Z) : option assignment :=
  match o_type o with
  | OPTION_TYPE_BOOL => None
  | OPTION_TYPE_STRING => Some (CopyChars (strncpy_bytes (o_size o) word) (o_datum o))
  | format => if o_size o =? 4 then Some (Scan format word (o_datum o)) else None
  end.
Fixpoint option_process (opts : list option_t) (argv : list (list Z)) : list assignment * Z :=
  match argv with
  | [] => ([], 0)
  | arg :: argv =>
      match List.find (fun o => is_switch o arg) opts with
      | None => option_process opts argv
      | Some o =>
          match o_type o with
          | OPTION_TYPE_BOOL => let '(l, c) := option_process opts argv in (SetTrue (o_datum o) :: l, c + 1)
          | _ =>
              match argv with
              | [] => ([], 0)
              | word :: rest =>
                  match assign_word o word with
                  | Some a => let '(l, c) := option_process opts rest in (a :: l, c + 1)
                  | None => option_process opts argv
                  end
              end
          end
      end
  end.

(** A command line as it is meant *)
Inductive part : Type :=
  | Flag (switch : list Z)
  | Value (switch word : list Z)
  | Other (word : list Z).
Definition words (x : part) : list (list Z) :=
  match x with Flag s => [s] | Value s w => [s; w] | Other w => [w] end.
(** What a part does, when it is one: [None] when it is not *)
Definition meaning (opts : list option_t) (x : part) : option (list assignment) :=
  match x with
  | Flag s => match List.find (fun o => is_switch o s) opts with
              | Some o => match o_type o with OPTION_TYPE_BOOL => Some [SetTrue (o_datum o)] | _ => None end
              | None => None
              end
  | Value s w => match List.find (fun o => is_switch o s) opts with
                 | Some o => a ← assign_word o w; Some [a]
                 | None => None
                 end
  | Other w => match List.find (fun o => is_switch o w) opts with Some _ => None | None => Some [] end
  end.

(** A line of flags, of switches with their words, whatever those are, and of
    other words sets what they mean, in order, and the result is the number of
    options. *)
Theorem options_are_processed opts xs ls : mapM (meaning opts) xs = Some ls ->
  option_process opts (concat (words <$> xs)) = (concat ls, Z.of_nat (length (concat ls))).
Proof.
  revert ls. induction xs as [|x xs IH]; intros ls; cbn [mapM]; [by intros [= <-]|].
  destruct (meaning opts x) as [l|] eqn:E; [|done]. cbn. destruct (mapM _ xs) as [ls'|]; [|done].
  intros [= <-]. specialize (IH ls' eq_refl). cbn [fmap list_fmap concat]. rewrite length_app.
  destruct x as [s|s w|w]; cbn [meaning words app option_process] in *; destruct (List.find _ opts) as [o|]; try done.
  - destruct (o_type o); try done. injection E as <-. rewrite IH. cbn [length app]. f_equal. lia.
  - destruct (assign_word o w) as [a|] eqn:Ea; [|done]. injection E as <-.
    destruct (o_type o) eqn:Et; [by unfold assign_word in Ea; rewrite Et in Ea|..];
      rewrite IH; cbn [length app]; f_equal; lia.
  - injection E as <-. rewrite IH. cbn [length app]. by rewrite Nat.add_0_l.
Qed.
(** A word as long as its buffer is copied without a terminator. *)
Theorem long_option_unterminated opts o s w : List.find (fun o => is_switch o s) opts = Some o ->
  o_type o = OPTION_TYPE_STRING -> o_size o <= Z.of_nat (length w) -> Forall (fun c => c <> 0) w ->
  exists bytes, option_process opts [s; w] = ([CopyChars bytes (o_datum o)], 1) /\ c_string bytes = None.
Proof.
  intros Hf Ht Hl Hw. exists (strncpy_bytes (o_size o) w). cbn [option_process]. rewrite Hf, Ht.
  unfold assign_word. rewrite Ht. split; [done|]. unfold strncpy_bytes.
  rewrite (proj2 (Nat.sub_0_le _ _)) by lia. rewrite app_nil_r. apply (Forall_take _ (Z.to_nat (o_size o))) in Hw.
  induction Hw as [|c l Hc _ IH]; [done|]. cbn. by rewrite (proj2 (Z.eqb_neq c 0)), IH.
Qed.

Definition sample_options : list option_t :=
  [mkOption OPTION_TYPE_BOOL 100 1 (Some (chars "-t")) (Some (chars "--toggle"));
   mkOption OPTION_TYPE_INT 104 4 (Some (chars "-i")) (Some (chars "--integer"));
   mkOption OPTION_TYPE_STRING 200 4 (Some (chars "-s")) None].
Lemma options_are_processed_witness :
  option_process sample_options (map chars ["tool"; "-i"; "-t"; "--toggle"; "-s"; "ab"]%string) =
    ([Scan OPTION_TYPE_INT (chars "-t") 104; SetTrue 100; CopyChars (chars "ab" ++ [0; 0]) 200], 3).
Proof.
  apply (options_are_processed sample_options [Other (chars "tool"); Value (chars "-i") (chars "-t");
    Flag (chars "--toggle"); Value (chars "-s") (chars "ab")]
    [[]; [Scan OPTION_TYPE_INT (chars "-t") 104]; [SetTrue 100]; [CopyChars (chars "ab" ++ [0; 0]) 200]]).
  reflexivity.
Defined.
Lemma long_option_unterminated_witness : exists bytes,
  option_process sample_options [chars "-s"; chars "abcde"] = ([CopyChars bytes 200], 1) /\ c_string bytes = None.
Proof.
  apply (long_option_unterminated sample_options (mkOption OPTION_TYPE_STRING 200 4 (Some (chars "-s")) None)
    (chars "-s") (chars "abcde")); [reflexivity | reflexivity | cbn; lia | repeat constructor; by vm_compute].
Defined.
