(* ===== verification/KgmCpu.v ===== *)
(** * The CPU graph manager (source/dvp/dvp_kgm_cpu/dvp_kgm_cpu.c)

    The kernels of the PC build, which has SOSAL's image conversions
    ([DVP_USE_IMAGE]) and none of the vendor libraries.  The manager's world is
    the memory the images live in and the dump files it writes; once a kernel
    has reached undefined behaviour the world stays undefined. *)
From S2P Require Import Prelude DvpTypes Perf KernelGraphManager Memory Image ImageAlloc ImageTransfer.
From S2P Require Import NodeData SosalImage SosalText.

Open Scope dvp_scope.

(** [cw_files]: what was written to which [FILE], in order; [cw_tick] counts
    the readings of the clock. *)
Record cpu_world : Type := mkCpu {
  cw_mem : memory; cw_files : list (Z * list Z); cw_tick : Z }.
Definition with_mem (m : memory) (w : cpu_world) : cpu_world := mkCpu m (cw_files w) (cw_tick w).
Definition cw_next (w : cpu_world) : cpu_world := mkCpu (cw_mem w) (cw_files w) (cw_tick w + 1).
Definition fwrite (fp a n : Z) (w : cpu_world) : outcome cpu_world :=
  bs ← of_option (load_bytes a (Z.to_nat n) (cw_mem w));
  Done (mkCpu (cw_mem w) (cw_files w ++ [(fp, bs)]) (cw_tick w)).

(** ** The published kernels *)

Definition cpu_function (k : Z) : DVP_CoreFunction_t := mkCoreFunction k 0 None None.
Definition local_kernels : list DVP_CoreFunction_t :=
  cpu_function <$>
    [ DVP_KN_NOOP; DVP_KN_THRESHOLD; DVP_KN_XSTRIDE_CONVERT; DVP_KN_XSTRIDE_SHIFT; DVP_KN_COPY;
      DVP_KN_IMAGE_DEBUG; DVP_KN_BUFFER_DEBUG; DVP_KN_GAMMA; DVP_KN_NV12_TO_YUV444p; DVP_KN_BGR3_TO_UYVY;
      DVP_KN_BGR3_TO_IYUV; DVP_KN_YUV444p_TO_UYVY; DVP_KN_NV12_TO_UYVY; DVP_KN_BGR3_TO_NV12 ].

(** ** Kernels on pixels *)

Definition same_shape (i o : DVP_Image_t) : bool :=
  (planes i =? planes o) && (height i =? height o) && (width i =? width o).

(** The lines of the buffer, from its first pixel: [for (p) for (y)]. *)
Definition for_rows (i o : DVP_Image_t) (body : Z -> Z -> Z -> memory -> outcome memory) (m : memory)
    : outcome memory :=
  ofold (fun m p => ofold (fun m y =>
    tmpIn ← DVP_Image_Addressing i 0 y p;
    tmpOut ← DVP_Image_Addressing o 0 y p;
    ofold (fun m j => body tmpIn tmpOut j m) (seqZ 0 (width i)) m) (seqZ 0 (height i)) m)
    (seqZ 0 (planes i)) m.

Definition threshold_pixel (tmpIn tmpOut j : Z) (m : memory) : outcome memory :=
  v ← ld (tmpIn + j) m; st (tmpOut + j) (Z.shiftr v 7) m.
(** [false]: the shapes differ. *)
Definition threshold (i o : DVP_Image_t) (m : memory) : outcome (bool * memory) :=
  if same_shape i o && (x_stride i =? x_stride o)
  then m ← for_rows i o threshold_pixel m; Done (true, m)
  else Done (false, m).

(** A 16-bit pixel is two bytes, the low one first. *)
Definition ld16 (a : Z) (m : memory) : outcome Z := bs ← of_option (load_bytes a 2 m); Done (of_le bs).
Definition st16 (a v : Z) (m : memory) : outcome memory := of_option (store_bytes a (to_le 2 v) m).

(** 8 to 16 bits and back, by value or by the high byte. *)
Definition widen (shift : bool) (tmpIn tmpOut j : Z) (m : memory) : outcome memory :=
  v ← ld (tmpIn + j) m; st16 (tmpOut + 2 * j) (if shift then u16 (Z.shiftl v 8) else v) m.
Definition narrow (shift : bool) (tmpIn tmpOut j : Z) (m : memory) : outcome memory :=
  v ← ld16 (tmpIn + 2 * j) m; st (tmpOut + j) (u8 (if shift then Z.shiftr v 8 else v)) m.
(** The test of the strides is inside of the loop over the planes. *)
Definition xstride (shift : bool) (i o : DVP_Image_t) (m : memory) : outcome (bool * memory) :=
  if same_shape i o then
    if (x_stride i =? 1) && (x_stride o =? 2) then m ← for_rows i o (widen shift) m; Done (true, m)
    else if (x_stride i =? 2) && (x_stride o =? 1) then m ← for_rows i o (narrow shift) m; Done (true, m)
    else Done (planes i <=? 0, m)
  else Done (false, m).

(** Nothing is done, and no error reported, when the sizes differ; the pixel
    offsets are sums of strides in [uint32_t]. *)
Definition gamma_apply (i o : DVP_Image_t) (lut : list Z) (m : memory) : outcome memory :=
  inp ← of_option (aget (pData i) 0);
  out ← of_option (aget (pData o) 0);
  if negb (width i =? width o) || negb (height i =? height o) then Done m
  else
    ofold (fun m r => ofold (fun m j =>
      indx ← ld (inp + ((r ⊠ u32 (y_stride i)) ⊞ (j ⊠ u32 (x_stride i)))) m;
      v ← of_option (aget lut indx);
      st (out + ((r ⊠ u32 (y_stride o)) ⊞ (j ⊠ u32 (x_stride o)))) v m)
      (seqZ 0 (width i)) m) (seqZ 0 (height i)) m.

(** ** One node *)

Section Manager.
Context (TARGET_NUM_CORES freq : Z) (now : Z -> Z) (fopen : Z -> list Z -> Z).
Implicit Types (ns : list DVP_KernelNode_t) (w : cpu_world).

Definition set_data ns (n : Z) (d : list Z) : outcome (list DVP_KernelNode_t) :=
  nd ← of_option (aget ns n); of_option (aset ns n (mkNode (header nd) d)).

(** [dvp_knode_to(&pSubNodes[n], DVP_Transform_t)]: input and output. *)
Definition transform (d : list Z) : outcome (DVP_Image_t * DVP_Image_t) :=
  i ← of_option (image_at d 0); o ← of_option (image_at d 128); Done (i, o).

(** A string into the array of [MAX_PATH] characters at [off]. *)
Definition put_path (d : list Z) (off : Z) (s : list Z) : outcome (list Z) :=
  if Z.of_nat (length s) <? MAX_PATH then of_option (set_bytes d off (s ++ [0])) else Undef.

(** [DVP_ImageDebug_t]: name at 128, path at 160, fullname at 415, fp at 672. *)
Definition image_debug w ns (n : Z) : outcome (cpu_world * list DVP_KernelNode_t) :=
  nd ← of_option (aget ns n);
  let d := data nd in
  img ← of_option (image_at d 0);
  fp ← of_option (ptr_at d 672);
  '(d, fp) ← (if fp =? 0 then
                path ← of_option (bytes_at d 160 MAX_PATH ≫= c_string);
                name ← of_option (bytes_at d 128 DVP_MAX_NAME ≫= c_string);
                full ← of_option (PYUV_GetFilename path name (width img) (height img) 1 (color img));
                d ← put_path d 415 full;
                let fp := fopen (cw_tick w) full in
                d ← of_option (set_ptr d 672 fp);
                Done (d, fp)
              else Done (d, fp));
  ns ← set_data ns n d;
  if fp =? 0 then Done (w, ns)
  else
    w ← for_lines (planes img) (patch_rows img) (fun p y w =>
          ptr ← patch_line img img p y;
          fwrite fp ptr (DVP_Image_PatchLineSize img p) w) w;
    Done (w, ns).

(** [DVP_BufferDebug_t]: fullname at 40, fp at 296. The local [n] of the case
    hides the loop's, so the node is always the first of the array. *)
Definition buffer_debug w ns : outcome (cpu_world * list DVP_KernelNode_t) :=
  nd ← of_option (aget ns 0);
  let d := data nd in
  buf ← of_option (buffer_at d 0);
  fp ← of_option (ptr_at d 296);
  '(d, fp) ← (if fp =? 0 then
                full ← of_option (bytes_at d 40 MAX_PATH ≫= c_string);
                let fp := fopen (cw_tick w) full in
                d ← of_option (set_ptr d 296 fp);
                Done (d, fp)
              else Done (d, fp));
  ns ← set_data ns 0 d;
  if fp =? 0 then Done (w, ns)
  else w ← fwrite fp (b_pData buf) (b_numBytes buf) w; Done (w, ns).

Definition convert_kernels : list Z :=
  [ DVP_KN_BGR3_TO_UYVY; DVP_KN_BGR3_TO_IYUV; DVP_KN_NV12_TO_YUV444p; DVP_KN_YUV444p_TO_UYVY;
    DVP_KN_NV12_TO_UYVY; DVP_KN_BGR3_TO_NV12 ].

(** The kernels that only work on the images: [false] is an error. *)
Definition run_kernel (k : Z) (d : list Z) (m : memory) : outcome (bool * memory) :=
  if k =? DVP_KN_NOOP then Done (true, m)
  else if k =? DVP_KN_COPY then
    '(i, o) ← transform d;
    '(r, m) ← DVP_Image_Copy o i m;
    Done (negb (r =? DVP_FALSE), m)
  else if k =? DVP_KN_THRESHOLD then '(i, o) ← transform d; threshold i o m
  else if k =? DVP_KN_XSTRIDE_CONVERT then '(i, o) ← transform d; xstride false i o m
  else if k =? DVP_KN_XSTRIDE_SHIFT then '(i, o) ← transform d; xstride true i o m
  else if k =? DVP_KN_GAMMA then
    '(i, o) ← transform d;
    lut ← of_option (bytes_at d 256 256);
    m ← gamma_apply i o lut m; Done (true, m)
  else if one_of k convert_kernels then
    '(i, o) ← transform d;
    src ← DVP_Image_to_image_t i;
    dst ← DVP_Image_to_image_t o;
    m ← image_convert dst src m; Done (true, m)
  else Done (false, m).

(** The [switch] of [DVP_KernelGraphManager_CPU] *)
Definition exec_kernel w ns (n k : Z) : outcome (cpu_world * list DVP_KernelNode_t * bool) :=
  if k =? DVP_KN_IMAGE_DEBUG then '(w, ns) ← image_debug w ns n; Done (w, ns, true)
  else if k =? DVP_KN_BUFFER_DEBUG then '(w, ns) ← buffer_debug w ns; Done (w, ns, true)
  else
    nd ← of_option (aget ns n);
    '(ok, m) ← run_kernel k (data nd) (cw_mem w);
    Done (with_mem m w, ns, ok).

Definition set_rate (f : Z) (p : DVP_Perf_t) : DVP_Perf_t :=
  mkPerf (numTimes p) (tmpTime p) (minTime p) (maxTime p) (avgTime p) (sumTime p) f.
Definition upd_node ns (n : Z) (f : DVP_KernelNodeHeader_t -> DVP_KernelNodeHeader_t)
    : outcome (list DVP_KernelNode_t) :=
  nd ← of_option (aget ns n); of_option (aset ns n (upd_header f nd)).

Definition run_node (s : cpu_world * list DVP_KernelNode_t * Z) (n : Z)
    : outcome (cpu_world * list DVP_KernelNode_t * Z) :=
  let '(w, ns, processed) := s in
  nd ← of_option (aget ns n);
  let p := DVP_PerformanceStart (now (cw_tick w)) (set_rate freq (perf (header nd))) in
  ns ← upd_node ns n (fun h => set_error DVP_SUCCESS (set_perf p h));
  '(w, ns, ok) ← exec_kernel (cw_next w) ns n (kernel (header nd));
  nd ← of_option (aget ns n);
  p ← DVP_PerformanceStop (now (cw_tick w)) (perf (header nd));
  ns ← upd_node ns n (fun h => set_perf p (if ok : bool then h else set_error DVP_ERROR_INVALID_PARAMETER h));
  Done (cw_next w, ns, if ok : bool then processed + 1 else processed).

(** [for (n = startNode; n < startNode + numNodes; n++)] *)
Definition node_range (startNode numNodes : Z) : list Z := seqZ startNode ((startNode ⊞ numNodes) - startNode).

Definition DVP_KernelGraphManager_CPU w ns (startNode numNodes : Z)
    : outcome (cpu_world * list DVP_KernelNode_t * Z) :=
  ofold run_node (node_range startNode numNodes) (w, ns, 0).
(** ** Verification *)

(** [DVP_Image_Validate] of some images, up to the first that fails. *)
Fixpoint all_valid (l : list (DVP_Image_t * list Z)) : outcome bool :=
  match l with
  | [] => Done true
  | (i, colors) :: l' =>
      ok ← DVP_Image_Validate i 1 1 1 1 colors;
      if ok : bool then all_valid l' else Done false
  end.
Definition and_test (v : outcome bool) (t : bool) : outcome bool := ok ← v; Done (ok && t).
Definition fits_in (i o : DVP_Image_t) : bool := (width i <=? width o) && (height i <=? height o).
Definition same_dims (i o : DVP_Image_t) : bool := (width i =? width o) && (height i =? height o).

Definition DVP_Transform_Check (d : list Z) (from to : list Z) : outcome bool :=
  '(i, o) ← transform d;
  and_test (all_valid [(i, from); (o, to)]) (fits_in i o).

(** The colour conversions: formats of the input and of the output. *)
Definition transform_colors : list (Z * (list Z * list Z)) :=
  [ (DVP_KN_XYXY_TO_Y800, ([FOURCC_UYVY; FOURCC_VYUY], [FOURCC_Y800]));
    (DVP_KN_YXYX_TO_Y800, ([FOURCC_YUY2; FOURCC_YVYU], [FOURCC_Y800]));
    (DVP_KN_Y800_TO_XYXY, ([FOURCC_Y800], [FOURCC_UYVY; FOURCC_VYUY]));
    (DVP_KN_UYVY_TO_RGBp, ([FOURCC_UYVY], [FOURCC_RGBP]));
    (DVP_KN_UYVY_TO_BGR, ([FOURCC_UYVY], [FOURCC_BGR]));
    (DVP_KN_UYVY_TO_YUV420p, ([FOURCC_UYVY], [FOURCC_IYUV; FOURCC_YV12]));
    (DVP_KN_UYVY_TO_YUV422p, ([FOURCC_UYVY], [FOURCC_YU16; FOURCC_YV16]));
    (DVP_KN_UYVY_TO_YUV444p, ([FOURCC_UYVY], [FOURCC_YU24; FOURCC_YV24]));
    (DVP_KN_YUV420p_TO_RGBp, ([FOURCC_IYUV; FOURCC_YV12], [FOURCC_RGBP]));
    (DVP_KN_YUV420p_TO_UYVY, ([FOURCC_IYUV; FOURCC_YV12], [FOURCC_UYVY]));
    (DVP_KN_YUV422p_TO_UYVY, ([FOURCC_YU16; FOURCC_YV16], [FOURCC_UYVY]));
    (DVP_KN_YUV444p_TO_RGBp, ([FOURCC_YU24; FOURCC_YV24], [FOURCC_RGBP]));
    (DVP_KN_YUV444p_TO_UYVY, ([FOURCC_YU24; FOURCC_YV24], [FOURCC_UYVY]));
    (DVP_KN_NV12_TO_UYVY, ([FOURCC_NV12], [FOURCC_UYVY]));
    (DVP_KN_BGR3_TO_UYVY, ([FOURCC_BGR], [FOURCC_UYVY]));
    (DVP_KN_BGR3_TO_IYUV, ([FOURCC_BGR], [FOURCC_IYUV]));
    (DVP_KN_BGR3_TO_NV12, ([FOURCC_BGR], [FOURCC_NV12])) ].

Fixpoint row_of {A} (l : list (Z * A)) (k : Z) : option A :=
  match l with [] => None | (k', a) :: l' => if k =? k' then Some a else row_of l' k end.

(** The kernels on 8 bits and those on 16 bits that are checked alike. *)
Definition y800_kernels : list Z :=
  [ DVP_KN_SOBEL_8; DVP_KN_PREWITT_8; DVP_KN_SCHARR_8; DVP_KN_KROON_8; DVP_KN_SOBEL_3x3_8; DVP_KN_SOBEL_3x3_8s ].
Definition thr_8_kernels : list Z :=
  [ DVP_KN_THR_GT2MAX_8; DVP_KN_THR_GT2THR_8; DVP_KN_THR_LE2MIN_8; DVP_KN_THR_LE2THR_8 ].
Definition y16_kernels : list Z := [ DVP_KN_SOBEL_3x3_16; DVP_KN_SOBEL_3x3_16s ].
Definition thr_16_kernels : list Z :=
  [ DVP_KN_THR_GT2MAX_16; DVP_KN_THR_GT2THR_16; DVP_KN_THR_LE2MIN_16; DVP_KN_THR_LE2THR_16 ].
Definition morph_kernels : list Z :=
  [ DVP_KN_DILATE_CROSS; DVP_KN_DILATE_MASK; DVP_KN_DILATE_SQUARE;
    DVP_KN_ERODE_CROSS; DVP_KN_ERODE_MASK; DVP_KN_ERODE_SQUARE ].

(** The cases of the [switch] of [DVP_KernelGraphManagerVerify]. *)
Definition verify_copy (d : list Z) : outcome bool :=
  '(i, o) ← transform d;
  and_test (all_valid [(i, [color o]); (o, [color i])]) (fits_in i o).
Definition verify_nv12_to_yuv444 (d : list Z) : outcome bool :=
  '(i, o) ← transform d;
  and_test (all_valid [(i, [FOURCC_NV12]); (o, [FOURCC_YU24; FOURCC_YV24])])
    ((width i <=? width o ⊠ 2) && (height i <=? height o ⊠ 2)).
Definition verify_threshold (d : list Z) : outcome bool := DVP_Transform_Check d [FOURCC_Y800] [FOURCC_Y800].
Definition verify_xstride (d : list Z) : outcome bool :=
  '(i, o) ← transform d;
  and_test (all_valid [(i, []); (o, [])])
    (fits_in i o && negb (x_stride i =? x_stride o) && (x_stride i <=? 2)).
Definition verify_image_debug (d : list Z) : outcome bool := i ← of_option (image_at d 0); all_valid [(i, [])].
Definition verify_buffer_debug (d : list Z) : outcome bool :=
  b ← of_option (buffer_at d 0); Done (DVP_Buffer_Validate b).
Definition verify_morph (d : list Z) : outcome bool :=
  '(i, o) ← transform d;
  and_test (all_valid [(i, []); (o, [])])
    (same_dims i o && (color i =? FOURCC_Y800) && (color o =? FOURCC_Y800)).
Definition verify_canny (d : list Z) : outcome bool :=
  '(i, gx) ← transform d;
  gy ← of_option (image_at d 256);
  mag ← of_option (image_at d 384);
  and_test (all_valid [(i, []); (gx, []); (gy, []); (mag, [])])
    (same_dims i gx && same_dims i gy && same_dims i mag && (color i =? FOURCC_Y800) &&
     (color gx =? FOURCC_Y16) && (color gy =? FOURCC_Y16) && (color mag =? FOURCC_Y16)).
Definition verify_conv (d : list Z) : outcome bool :=
  '(i, o) ← transform d;
  mask ← of_option (image_at d 256);
  and_test (all_valid [(i, [FOURCC_Y800]); (o, [FOURCC_Y800]); (mask, [FOURCC_Y800])]) (fits_in i o).
Definition verify_iir (d : list Z) : outcome bool :=
  '(i, o) ← transform d;
  weight ← of_option (u16_at d 416);
  and_test (all_valid [(i, []); (o, [])]) (negb (weight =? 0)).
Definition verify_integral (d : list Z) : outcome bool :=
  '(i, o) ← transform d;
  and_test (all_valid [(i, []); (o, [])])
    (same_dims i o && (color i =? FOURCC_Y800) && (color o =? FOURCC_Y32)).
Definition verify_nonmax (d : list Z) : outcome bool := DVP_Transform_Check d [FOURCC_Y16] [FOURCC_Y800].
Definition verify_gamma (d : list Z) : outcome bool :=
  '(i, o) ← transform d; all_valid [(i, [FOURCC_Y800]); (o, [FOURCC_Y800])].

(** What is not in the [switch] passes. *)
Definition verify_kernel (k : Z) (d : list Z) : outcome bool :=
  if k =? DVP_KN_COPY then verify_copy d
  else if row_of transform_colors k is Some (from, to) then DVP_Transform_Check d from to
  else if k =? DVP_KN_NV12_TO_YUV444p then verify_nv12_to_yuv444 d
  else if one_of k y800_kernels then DVP_Transform_Check d [FOURCC_Y800] [FOURCC_Y800]
  else if k =? DVP_KN_THRESHOLD then verify_threshold d
  else if one_of k thr_8_kernels then DVP_Transform_Check d [FOURCC_Y800] [FOURCC_Y800]
  else if one_of k y16_kernels then DVP_Transform_Check d [FOURCC_Y16] [FOURCC_Y16]
  else if one_of k thr_16_kernels then DVP_Transform_Check d [FOURCC_Y16] [FOURCC_Y16]
  else if one_of k [DVP_KN_XSTRIDE_CONVERT; DVP_KN_XSTRIDE_SHIFT] then verify_xstride d
  else if k =? DVP_KN_IMAGE_DEBUG then verify_image_debug d
  else if k =? DVP_KN_BUFFER_DEBUG then verify_buffer_debug d
  else if one_of k morph_kernels then verify_morph d
  else if k =? DVP_KN_CANNY_2D_GRADIENT then verify_canny d
  else if one_of k [DVP_KN_CONV_3x3; DVP_KN_CONV_5x5; DVP_KN_CONV_7x7; DVP_KN_CANNY_IMAGE_SMOOTHING] then verify_conv d
  else if one_of k [DVP_KN_IIR_HORZ; DVP_KN_IIR_VERT] then verify_iir d
  else if k =? DVP_KN_INTEGRAL_IMAGE_8 then verify_integral d
  else if one_of k [DVP_KN_NONMAXSUPPRESS_3x3_S16; DVP_KN_NONMAXSUPPRESS_5x5_S16; DVP_KN_NONMAXSUPPRESS_7x7_S16]
  then verify_nonmax d
  else if k =? DVP_KN_GAMMA then verify_gamma d
  else Done true.

Definition verify_node (s : list DVP_KernelNode_t * Z) (n : Z) : outcome (list DVP_KernelNode_t * Z) :=
  let '(ns, verified) := s in
  nd ← of_option (aget ns n);
  ok ← verify_kernel (kernel (header nd)) (data nd);
  ns ← upd_node ns n (set_error (if ok : bool then DVP_SUCCESS else DVP_ERROR_INVALID_PARAMETER));
  Done (ns, if ok : bool then verified + 1 else verified).

Definition DVP_KernelGraphManagerVerify ns (startNode numNodes : Z) : outcome (list DVP_KernelNode_t * Z) :=
  ofold verify_node (node_range startNode numNodes) (ns, 0).

(** ** The module's entry points

    After undefined behaviour the world is [Undef] and no node counts. *)
Definition cpu_manager (w : outcome cpu_world) ns (startNode numNodes : Z) (sync : bool)
    : outcome cpu_world * list DVP_KernelNode_t * Z :=
  match w ≫= fun w => DVP_KernelGraphManager_CPU w ns startNode numNodes with
  | Done (w', ns', k) => (Done w', ns', u32 k)
  | Undef => (Undef, ns, 0)
  | NoFuel => (NoFuel, ns, 0)
  end.
Definition cpu_verify (w : outcome cpu_world) ns (startNode numNodes : Z)
    : outcome cpu_world * list DVP_KernelNode_t * Z :=
  match w ≫= fun w => '(ns', k) ← DVP_KernelGraphManagerVerify ns startNode numNodes; Done (w, ns', k) with
  | Done (w', ns', k) => (Done w', ns', u32 k)
  | Undef => (Undef, ns, 0)
  | NoFuel => (NoFuel, ns, 0)
  end.

Definition DVP_GetMaximumLoad : Z := u32 (TARGET_NUM_CORES * 1000).
Definition cpu_calls : DVP_GraphManager_Calls_t (outcome cpu_world) :=
  mkCalls true cpu_manager (Some local_kernels) DVP_CORE_CPU DVP_GetMaximumLoad cpu_verify.
End Manager.
