(* ===== verification/KgmCpuFacts.v ===== *)
(** * Facts about the CPU graph manager

    What a node does to the node array, and the laws of [LawfulKGM]. *)
From S2P Require Import Prelude DvpTypes Perf KernelGraphManager Memory Image NodeData KgmCpu.

Implicit Types (ns : list DVP_KernelNode_t).

(** ** Updates of the node array *)

Lemma upd_node_spec ns n f ns' :
  upd_node ns n f = Done ns' <-> exists nd, aget ns n = Some nd /\ ns' = <[Z.to_nat n := upd_header f nd]> ns.
Proof.
  unfold upd_node. destruct (aget ns n) as [nd|] eqn:Hn; cbn [of_option mbind outcome_bind].
  - pose proof (aget_Some _ _ _ Hn) as [Hr _]. rewrite (aset_in_range ns n) by done. simpl. split.
    + intros [= <-]. by exists nd.
    + by intros (nd' & [= <-] & ->).
  - split; [done|]. by intros (nd & ? & _).
Qed.

Lemma set_data_headers ns n d ns' : set_data ns n d = Done ns' -> header <$> ns' = header <$> ns.
Proof.
  unfold set_data. destruct (aget ns n) as [nd|] eqn:Hn; cbn [of_option mbind outcome_bind]; [|done].
  pose proof (aget_Some _ _ _ Hn) as [Hr Hl]. rewrite (aset_in_range ns n) by done. intros [= <-].
  rewrite list_fmap_insert. apply list_insert_id. by rewrite list_lookup_fmap, Hl.
Qed.

(** Peels the binds of a computation known to be [Done]. *)
Ltac peel H :=
  repeat match type of H with
  | (_ ≫= _) = Done _ => apply outcome_bind_Done in H as (? & ? & H)
  | (let '(_, _) := ?p in _) = Done _ => destruct p; cbn [fst snd] in H
  | (if ?b then _ else _) = Done _ => destruct b
  | Done _ = Done _ => injection H as <- <-
  end.

Lemma image_debug_headers fopen w ns n w' ns' :
  image_debug fopen w ns n = Done (w', ns') -> header <$> ns' = header <$> ns.
Proof. unfold image_debug. intros H. peel H; by eapply set_data_headers. Qed.
Lemma buffer_debug_headers fopen w ns w' ns' :
  buffer_debug fopen w ns = Done (w', ns') -> header <$> ns' = header <$> ns.
Proof. unfold buffer_debug. intros H. peel H; by eapply set_data_headers. Qed.

Lemma exec_kernel_headers fopen w ns n k w' ns' ok :
  exec_kernel fopen w ns n k = Done (w', ns', ok) -> header <$> ns' = header <$> ns.
Proof.
  unfold exec_kernel. destruct (k =? _); [|destruct (k =? _)]; intros H.
  - apply outcome_bind_Done in H as ([? ?] & Hd & H). injection H as <- <- <-. by eapply image_debug_headers.
  - apply outcome_bind_Done in H as ([? ?] & Hd & H). injection H as <- <- <-. by eapply buffer_debug_headers.
  - apply outcome_bind_Done in H as (nd & _ & H). apply outcome_bind_Done in H as ([? ?] & _ & H).
    by injection H as <- <- <-.
Qed.

(** ** The loops *)

(** Only the headers of the nodes in [l] change, and not their routing. *)
Definition touches (l : list Z) (ns ns' : list DVP_KernelNode_t) : Prop :=
  Forall2 same_routing ns ns' /\
  forall i : nat, Z.of_nat i ∉ l -> header <$> ns' !! i = header <$> ns !! i.

Lemma touches_refl l ns : touches l ns ns.
Proof. by split. Qed.
Lemma touches_trans l k ns ns' ns'' : touches l ns ns' -> touches k ns' ns'' -> touches (l ++ k) ns ns''.
Proof.
  intros [Hr Hh] [Hr' Hh']. split; [by transitivity ns'|].
  intros i Hi. rewrite not_elem_of_app in Hi. rewrite Hh' by tauto. apply Hh. tauto.
Qed.

Lemma touches_headers l ns ns' : header <$> ns' = header <$> ns -> touches l ns ns'.
Proof.
  intros H. split.
  - apply Forall2_same_length_lookup. split; [by rewrite <- (length_fmap header ns'), H, length_fmap|].
    intros i x y Hx Hy. assert ((header <$> ns') !! i = (header <$> ns) !! i) as He by by rewrite H.
    rewrite !list_lookup_fmap, Hx, Hy in He. injection He as He. unfold same_routing. by rewrite He.
  - intros i _. rewrite <- !list_lookup_fmap. by rewrite H.
Qed.

Lemma touches_upd ns n f ns' :
  (forall h, kernel (f h) = kernel h /\ mgrIndex (f h) = mgrIndex h /\ funcIndex (f h) = funcIndex h) ->
  upd_node ns n f = Done ns' -> touches [n] ns ns'.
Proof.
  intros Hf (nd & Hn & ->)%upd_node_spec. apply aget_Some in Hn as [Hr Hn]. split.
  - apply Forall2_same_length_lookup. rewrite length_insert. split; [done|]. intros i x y Hx Hy.
    destruct (decide (i = Z.to_nat n)) as [->|Hne].
    + rewrite list_lookup_insert_eq in Hy by (by eapply lookup_lt_Some). simplify_eq.
      destruct (Hf (header nd)) as (? & ? & ?). by split_and!.
    + rewrite list_lookup_insert_ne in Hy by done. by simplify_eq.
  - intros i Hi. rewrite list_lookup_insert_ne; [done|]. intros <-. apply Hi, list_elem_of_singleton. lia.
Qed.

Lemma ofold_inv {S A} (f : S -> A -> outcome S) (R : list A -> S -> S -> Prop) :
  (forall s, R [] s s) ->
  (forall a l s s1 s2, f s a = Done s1 -> R l s1 s2 -> R (a :: l) s s2) ->
  forall l s s', ofold f l s = Done s' -> R l s s'.
Proof.
  intros H0 H1 l. induction l as [|a l IH]; simpl; intros s s' H; [by injection H as <-|].
  apply outcome_bind_Done in H as (s1 & Hs & H). eapply H1; [done|]. by apply IH.
Qed.

Section Manager.
Context (freq : Z) (now : Z -> Z) (fopen : Z -> list Z -> Z).

Lemma run_node_touches s n s' : run_node freq now fopen s n = Done s' ->
  touches [n] s.1.2 s'.1.2 /\ s.2 <= s'.2 <= s.2 + 1.
Proof.
  destruct s as [[w ns] k]. unfold run_node. intros H.
  apply outcome_bind_Done in H as (nd & _ & H). apply outcome_bind_Done in H as (ns1 & Hn1 & H).
  apply outcome_bind_Done in H as ([[w1 ns2] ok] & He & H). apply outcome_bind_Done in H as (nd1 & _ & H).
  apply outcome_bind_Done in H as (p & _ & H). apply outcome_bind_Done in H as (ns3 & Hn3 & H).
  injection H as <-. cbn [fst snd]. split; [|destruct ok; lia].
  assert (forall ns ns', touches ([n] ++ [n] ++ [n]) ns ns' -> touches [n] ns ns') as Hd.
  { intros a b [? Hh]. split; [done|]. intros i Hi. apply Hh. set_solver. }
  apply Hd. eapply touches_trans; [|eapply touches_trans].
  - eapply touches_upd; [|exact Hn1]. done.
  - apply touches_headers. by eapply exec_kernel_headers.
  - eapply touches_upd; [|exact Hn3]. intros h. by destruct ok.
Qed.

Lemma verify_node_touches s n s' : verify_node s n = Done s' ->
  touches [n] s.1 s'.1 /\ s.2 <= s'.2 <= s.2 + 1.
Proof.
  destruct s as [ns k]. unfold verify_node. intros H.
  apply outcome_bind_Done in H as (nd & _ & H). apply outcome_bind_Done in H as (ok & _ & H).
  apply outcome_bind_Done in H as (ns1 & Hn1 & H). injection H as <-. cbn [fst snd].
  split; [|destruct ok; lia]. eapply touches_upd; [|exact Hn1]. done.
Qed.

Lemma loop_touches {S} (f : S -> Z -> outcome S) (nodes : S -> list DVP_KernelNode_t) (count : S -> Z) :
  (forall s n s', f s n = Done s' -> touches [n] (nodes s) (nodes s') /\ count s <= count s' <= count s + 1) ->
  forall l s s', ofold f l s = Done s' ->
    touches l (nodes s) (nodes s') /\ count s <= count s' <= count s + Z.of_nat (length l).
Proof.
  intros Hf. apply ofold_inv.
  - intros s. split; [apply touches_refl|simpl; lia].
  - intros n l s s1 s2 H1 [Ht Hc]. destruct (Hf _ _ _ H1) as [Ht1 Hc1]. cbn [length]. split; [|lia].
    by apply (touches_trans [n] l _ (nodes s1)).
Qed.

(** Node numbers start at zero, so a range that leaves the array fails. *)
Lemma node_range_bounds st num : 0 <= num -> 0 <= st ->
  Z.of_nat (length (node_range st num)) <= num /\ (forall n, n ∈ node_range st num -> st <= n < st + num).
Proof.
  intros Hn Hs. unfold node_range. pose proof (Z.mod_le (st + num) (2 ^ 32) ltac:(lia) ltac:(lia)) as Hm.
  change ((st + num) mod 2 ^ 32) with (u32 (st + num)) in Hm. split; [rewrite length_seqZ; lia|].
  intros n Hin%elem_of_seqZ. lia.
Qed.

Lemma touches_range st num ns ns' : 0 <= num -> 0 <= st ->
  touches (node_range st num) ns ns' -> touches_only st num ns ns'.
Proof.
  intros Hn Hs [Hr Hh]. split; [done|]. intros i Hi. apply Hh. intros Hin.
  by apply (node_range_bounds st num Hn Hs) in Hin.
Qed.

Lemma negative_start {S} (f : S -> Z -> outcome S) st num s s' :
  (forall s n, n < 0 -> f s n = Undef) -> st < 0 -> ofold f (node_range st num) s = Done s' ->
  s' = s.
Proof.
  intros Hf Hs. unfold node_range. destruct (Z.le_gt_cases ((u32 (st + num)) - st) 0) as [Hle|Hgt].
  - rewrite seqZ_nil by lia. by intros [= ->].
  - rewrite seqZ_cons by lia. cbn [ofold]. by rewrite Hf.
Qed.

(** The law both entry points share. *)
Lemma loop_law {S} (f : S -> Z -> outcome S) (nodes : S -> list DVP_KernelNode_t) (count : S -> Z) st num s s' :
  (forall s n s', f s n = Done s' -> touches [n] (nodes s) (nodes s') /\ count s <= count s' <= count s + 1) ->
  (forall s n, n < 0 -> f s n = Undef) ->
  0 <= num -> count s = 0 -> ofold f (node_range st num) s = Done s' ->
  0 <= u32 (count s') <= num /\ touches_only st num (nodes s) (nodes s').
Proof.
  intros Hf Hneg Hn Hc H. destruct (Z.lt_ge_cases st 0) as [Hs|Hs].
  - rewrite (negative_start f st num s s' Hneg Hs H), Hc. split; [rewrite u32_small by (unfold is_u32; lia); lia|].
    split; [reflexivity|done].
  - destruct (loop_touches f nodes count Hf _ _ _ H) as [Ht Hcount].
    destruct (node_range_bounds st num Hn Hs) as [Hl _]. split; [|by apply touches_range].
    pose proof (u32_range (count s')) as Hu. unfold is_u32 in Hu.
    pose proof (Z.mod_le (count s') (2 ^ 32) ltac:(lia) ltac:(lia)) as Hm.
    change (count s' mod 2 ^ 32) with (u32 (count s')) in Hm. lia.
Qed.

Lemma aget_negative {A} (l : list A) n : n < 0 -> aget l n = None.
Proof. intros H. unfold aget. by rewrite (proj2 (Z.leb_gt _ _)). Qed.

#[export] Instance cpu_lawful cores : LawfulKGM (cpu_calls cores freq now fopen).
Proof.
  split; intros w ns st num.
  - intros sync w' ns' k Hn. cbn [manager cpu_calls]. unfold cpu_manager.
    destruct w as [w| |]; cbn [mbind outcome_bind].
    2,3: intros [= <- <- <-]; split; [lia|split; [reflexivity|done]].
    destruct (DVP_KernelGraphManager_CPU freq now fopen w ns st num) as [[[w1 ns1] k1]| |] eqn:He.
    2,3: intros [= <- <- <-]; split; [lia|split; [reflexivity|done]].
    intros [= <- <- <-].
    apply (loop_law (run_node freq now fopen) (fun s => s.1.2) snd st num (w, ns, 0) (w1, ns1, k1)); try done.
    + apply run_node_touches.
    + intros [[? ?] ?] n Hneg. unfold run_node. by rewrite aget_negative.
  - intros w' ns' k Hn. cbn [verify cpu_calls]. unfold cpu_verify.
    destruct w as [w| |]; cbn [mbind outcome_bind].
    2,3: intros [= <- <- <-]; split; [lia|split; [reflexivity|done]].
    destruct (DVP_KernelGraphManagerVerify ns st num) as [[ns1 k1]| |] eqn:He; cbn [mbind outcome_bind].
    2,3: intros [= <- <- <-]; split; [lia|split; [reflexivity|done]].
    intros [= <- <- <-]. apply (loop_law verify_node fst snd st num (ns, 0) (ns1, k1)); try done.
    + apply verify_node_touches.
    + intros [? ?] n Hneg. unfold verify_node. by rewrite aget_negative.
Qed.
End Manager.
