(* ===== verification/KgmCpuRun.v ===== *)
(** * A stretch of nodes on the CPU graph manager

    What one node does to its header, and the loop over a stretch, against
    the fold of the kernels over memory; then the fold for copies, when no
    output meets an input or another output. *)
From S2P Require Import Prelude DvpTypes Perf KernelGraphManager Memory Image ImageLayout ImageTransfer Moves.
From S2P Require Import ImagePatch TransferFacts TransferProperties NodeData KgmCpu KgmCpuFacts.

Implicit Types (ns : list DVP_KernelNode_t) (m : memory).

(** The two kernels that write files. *)
Definition debug_kernel (k : Z) : bool := one_of k [DVP_KN_IMAGE_DEBUG; DVP_KN_BUFFER_DEBUG].

(** The kernels of [nds] over memory, one after the other. *)
Fixpoint run_all (nds : list DVP_KernelNode_t) m : outcome (list bool * memory) :=
  match nds with
  | [] => Done ([], m)
  | nd :: nds' =>
      '(ok, m) ← run_kernel (kernel (header nd)) (data nd) m;
      '(oks, m) ← run_all nds' m; Done (ok :: oks, m)
  end.
Definition successes (oks : list bool) : Z := Z.of_nat (length (filter (eq true) oks)).

(** What a run leaves in a node. *)
Definition error_of (ok : bool) : Z := if ok then DVP_SUCCESS else DVP_ERROR_INVALID_PARAMETER.
Definition ran (ok : bool) (nd nd' : DVP_KernelNode_t) : Prop :=
  data nd' = data nd /\ same_routing nd nd' /\ error (header nd') = error_of ok /\
  numTimes (perf (header nd')) = numTimes (perf (header nd)) + 1.
Definition measurable (nd : DVP_KernelNode_t) : Prop :=
  0 <= numTimes (perf (header nd)) /\ numTimes (perf (header nd)) + 1 < 2 ^ 32.

Lemma successes_cons ok oks : successes (ok :: oks) = (if ok then 1 else 0) + successes oks.
Proof. unfold successes. rewrite filter_cons. destruct ok; simpl; lia. Qed.
Lemma successes_range oks : 0 <= successes oks <= Z.of_nat (length oks).
Proof. induction oks as [|[] oks IH]; [by vm_compute|rewrite successes_cons; simpl; lia..]. Qed.
Lemma successes_all oks : Forall (eq true) oks -> successes oks = Z.of_nat (length oks).
Proof. induction 1 as [|? oks <- _ IH]; [done|]. rewrite successes_cons, IH. simpl. lia. Qed.

Lemma run_all_length nds : forall m oks m', run_all nds m = Done (oks, m') -> length oks = length nds.
Proof.
  induction nds as [|nd nds IH]; intros m oks m' H; [by injection H as <-|]. simpl in H.
  apply outcome_bind_Done in H as ([ok m1] & _ & H). apply outcome_bind_Done in H as ([oks1 m2] & H1 & H).
  injection H as <- <-. simpl. f_equal. by eapply IH.
Qed.

(** ** One node *)

Lemma aget_app {A} (pre : list A) x post : aget (pre ++ x :: post) (Z.of_nat (length pre)) = Some x.
Proof. rewrite aget_nat. by rewrite list_lookup_middle. Qed.
Lemma aset_app {A} (pre : list A) x y post :
  aset (pre ++ x :: post) (Z.of_nat (length pre)) y = Some (pre ++ y :: post).
Proof.
  rewrite aset_nat by (rewrite length_app; simpl; lia). f_equal.
  rewrite insert_app_r_alt by lia. by rewrite Nat.sub_diag.
Qed.
Lemma upd_node_app pre nd post f :
  upd_node (pre ++ nd :: post) (Z.of_nat (length pre)) f = Done (pre ++ upd_header f nd :: post).
Proof. unfold upd_node. rewrite aget_app. cbn [of_option mbind outcome_bind]. by rewrite aset_app. Qed.

Lemma exec_kernel_pure fopen w ns n k nd :
  debug_kernel k = false -> aget ns n = Some nd ->
  exec_kernel fopen w ns n k =
    ('(ok, m) ← run_kernel k (data nd) (cw_mem w); Done (with_mem m w, ns, ok)).
Proof.
  intros Hk Hn. unfold exec_kernel, debug_kernel, one_of in *. simpl in Hk.
  destruct (k =? DVP_KN_IMAGE_DEBUG); [done|]. destruct (k =? DVP_KN_BUFFER_DEBUG); [done|].
  by rewrite Hn.
Qed.

Section Run.
Context (freq : Z) (now : Z -> Z) (fopen : Z -> list Z -> Z).

Lemma run_node_pure w pre nd post p ok m :
  debug_kernel (kernel (header nd)) = false -> measurable nd ->
  run_kernel (kernel (header nd)) (data nd) (cw_mem w) = Done (ok, m) ->
  exists nd', run_node freq now fopen (w, pre ++ nd :: post, p) (Z.of_nat (length pre)) =
      Done (mkCpu m (cw_files w) (cw_tick w + 1 + 1), pre ++ nd' :: post, if ok then p + 1 else p) /\
    ran ok nd nd'.
Proof.
  intros Hk [Hc0 Hc] Hr. unfold run_node. rewrite aget_app. cbn [of_option mbind outcome_bind].
  rewrite upd_node_app. cbn [mbind outcome_bind]. erewrite exec_kernel_pure; [|done|apply aget_app].
  cbn [upd_header data cw_next cw_mem]. rewrite Hr. cbn [mbind outcome_bind]. rewrite aget_app.
  cbn [of_option mbind outcome_bind with_mem cw_tick header upd_header set_error set_perf perf].
  match goal with |- context [DVP_PerformanceStop ?t ?q] =>
    destruct (stop_counts t q) as (q' & -> & Hq); [done..|] end.
  cbn [mbind outcome_bind]. rewrite upd_node_app. cbn [mbind outcome_bind].
  eexists. split; [done|]. by destruct ok; split_and!.
Qed.

Lemma run_nodes_pure mid : forall w pre post p oks m,
  Forall (fun nd => debug_kernel (kernel (header nd)) = false) mid -> Forall measurable mid ->
  run_all mid (cw_mem w) = Done (oks, m) ->
  exists t mid', ofold (run_node freq now fopen) (seqZ (Z.of_nat (length pre)) (Z.of_nat (length mid)))
      (w, pre ++ mid ++ post, p) = Done (mkCpu m (cw_files w) t, pre ++ mid' ++ post, p + successes oks) /\
    Forall3 ran oks mid mid'.
Proof.
  induction mid as [|nd mid IH]; intros w pre post p oks m Hk Hc Hr; simpl in Hr.
  { injection Hr as <- <-. exists (cw_tick w), []. split; [|constructor]. destruct w. simpl.
    by rewrite Z.add_0_r. }
  apply Forall_cons in Hk as [Hk Hks]. apply Forall_cons in Hc as [Hc Hcs].
  apply outcome_bind_Done in Hr as ([ok m1] & Hr & Hrs).
  apply outcome_bind_Done in Hrs as ([oks1 m2] & Hrs & H). injection H as <- <-.
  rewrite seqZ_cons by (simpl; lia). cbn [ofold].
  destruct (run_node_pure w pre nd (mid ++ post) p ok m1 Hk Hc Hr) as (nd' & Hn & Hran).
  rewrite <- app_comm_cons, Hn. cbn [mbind outcome_bind].
  destruct (IH (mkCpu m1 (cw_files w) (cw_tick w + 1 + 1)) (pre ++ [nd']) post
    (if ok then p + 1 else p) oks1 m2 Hks Hcs Hrs) as (t & mid' & Hm & Hrans).
  rewrite length_app, <- !app_assoc in Hm. cbn [length app cw_files] in Hm.
  replace (Z.of_nat (length pre + 1)) with (Z.succ (Z.of_nat (length pre))) in Hm by lia.
  replace (Z.pred (Z.of_nat (length (nd :: mid)))) with (Z.of_nat (length mid)) by (simpl; lia).
  rewrite Hm. exists t, (nd' :: mid'). split; [|by constructor].
  rewrite successes_cons. destruct ok; do 2 f_equal; lia.
Qed.

Lemma node_range_nat (a : nat) (c : nat) : Z.of_nat a + Z.of_nat c < 2 ^ 32 ->
  node_range (Z.of_nat a) (Z.of_nat c) = seqZ (Z.of_nat a) (Z.of_nat c).
Proof. intros H. unfold node_range. rewrite u32_small by (unfold is_u32; lia). f_equal. lia. Qed.

(** The manager on a stretch [mid] of the section. *)
Lemma cpu_manager_runs w pre mid post sync oks m :
  Forall (fun nd => debug_kernel (kernel (header nd)) = false) mid -> Forall measurable mid ->
  Z.of_nat (length pre) + Z.of_nat (length mid) < 2 ^ 32 ->
  run_all mid (cw_mem w) = Done (oks, m) ->
  exists t mid', cpu_manager freq now fopen (Done w) (pre ++ mid ++ post) (Z.of_nat (length pre))
      (Z.of_nat (length mid)) sync =
      (Done (mkCpu m (cw_files w) t), pre ++ mid' ++ post, successes oks) /\ Forall3 ran oks mid mid'.
Proof.
  intros Hk Hc Hb Hr. unfold cpu_manager, DVP_KernelGraphManager_CPU. cbn [mbind outcome_bind].
  rewrite node_range_nat by done.
  destruct (run_nodes_pure mid w pre post 0 oks m Hk Hc Hr) as (t & mid' & -> & Hran).
  exists t, mid'. split; [|done]. rewrite Z.add_0_l, u32_small; [done|].
  pose proof (successes_range oks). rewrite (run_all_length _ _ _ _ Hr) in *. unfold is_u32. lia.
Qed.

(** ** Verification *)

Definition mark (nd : DVP_KernelNode_t) (ok : bool) : DVP_KernelNode_t := upd_header (set_error (error_of ok)) nd.

Lemma verify_nodes mid : forall pre post v oks,
  Forall2 (fun nd ok => verify_kernel (kernel (header nd)) (data nd) = Done ok) mid oks ->
  ofold verify_node (seqZ (Z.of_nat (length pre)) (Z.of_nat (length mid))) (pre ++ mid ++ post, v) =
    Done (pre ++ zip_with mark mid oks ++ post, v + successes oks).
Proof.
  induction mid as [|nd mid IH]; intros pre post v oks Hok.
  { apply Forall2_nil_inv_l in Hok as ->. simpl. by rewrite Z.add_0_r. }
  apply Forall2_cons_inv_l in Hok as (ok & oks' & Hv & Hok & ->).
  rewrite seqZ_cons by (simpl; lia). cbn [ofold]. unfold verify_node at 2.
  rewrite <- app_comm_cons, aget_app. cbn [of_option mbind outcome_bind]. rewrite Hv.
  cbn [mbind outcome_bind]. rewrite upd_node_app. cbn [mbind outcome_bind].
  fold (error_of ok). fold (mark nd ok).
  specialize (IH (pre ++ [mark nd ok]) post (if ok then v + 1 else v) oks' Hok).
  rewrite length_app, <- !app_assoc in IH. cbn [length app] in IH.
  replace (Z.of_nat (length pre + 1)) with (Z.succ (Z.of_nat (length pre))) in IH by lia.
  replace (Z.pred (Z.of_nat (length (nd :: mid)))) with (Z.of_nat (length mid)) by (simpl; lia).
  rewrite IH, successes_cons. cbn [zip_with]. destruct ok; do 2 f_equal; lia.
Qed.
End Run.

Implicit Types (c d : DVP_Image_t * DVP_Image_t).

(** A node that copies the first image to the second one. *)
Definition copy_node (nd : DVP_KernelNode_t) c : Prop :=
  kernel (header nd) = DVP_KN_COPY /\ transform (data nd) = Done c.
Record copyable m c : Prop := {
  cp_input : placed c.1 m;
  cp_output : placed c.2 m;
  cp_format : same_format c.2 c.1;
  cp_width : width c.1 <= width c.2;
  cp_height : height c.1 <= height c.2 }.

(** Where a node writes. *)
Definition writes c : list range := target_ranges c.2 c.1.

Record independent (cs : list (DVP_Image_t * DVP_Image_t)) : Prop := {
  ind_input c d : c ∈ cs -> d ∈ cs -> images_apart d.2 c.1;
  ind_output : pairwise (fun c d => images_apart c.2 d.2) cs }.

Lemma writes_in_plane m c r : copyable m c -> r ∈ writes c ->
  exists p, 0 <= p < planes c.2 /\ forall x, r.1 <= x < r.1 + r.2 ->
    ptr_of (pBuffer c.2) p <= x < ptr_of (pBuffer c.2) p + DVP_Image_PlaneRange c.2 p.
Proof.
  intros [] Hr. apply list_elem_of_fmap in Hr as (l & -> & Hl).
  destruct (target_line c.2 c.1 m cp_output0 cp_input0 cp_format0 cp_width0 cp_height0 l Hl) as (Hp & Hy & Hlen).
  pose proof (line_in_plane c.2 m cp_output0 l.1 l.2 Hp Hy). exists l.1. split; [done|].
  intros x Hx. simpl in *. lia.
Qed.

Lemma writes_apart m c d : copyable m c -> copyable m d -> images_apart c.2 d.2 ->
  forall r, r ∈ writes c -> forall x, r.1 <= x < r.1 + r.2 -> outside x (writes d).
Proof.
  intros Hc Hd Ha r Hr x Hx. apply Forall_forall. intros q Hq Hxq.
  destruct (writes_in_plane m c r Hc Hr) as (p & Hp & Hin). destruct (writes_in_plane m d q Hd Hq) as (p' & Hp' & Hin').
  apply (Ha p p' Hp Hp' x). split; [by apply Hin|by apply Hin'].
Qed.

Lemma copyable_mono m m' c : copyable m c -> (forall a n, mapped a n m -> mapped a n m') -> copyable m' c.
Proof. intros [] Hm. split; [by eapply placed_mono..|done|done|done]. Qed.

Lemma run_copy nd m c : copy_node nd c -> copyable m c -> images_apart c.2 c.1 ->
  exists m', run_kernel (kernel (header nd)) (data nd) m = Done (true, m') /\
    read_ranges (writes c) m' = patch_bytes c.1 m /\
    (forall x, outside x (writes c) -> m' !! x = m !! x) /\ (forall a n, mapped a n m -> mapped a n m').
Proof.
  intros [Hk Ht] [] Ha. destruct (copy_spec c.2 c.1 m) as (m' & Hc & Hr & Hf & Hm); [done..|].
  exists m'. split; [|done]. rewrite Hk. unfold run_kernel.
  change (DVP_KN_COPY =? DVP_KN_NOOP) with false. change (DVP_KN_COPY =? DVP_KN_COPY) with true.
  cbv iota. rewrite Ht. cbn [mbind outcome_bind]. destruct c as [i o]. cbn [fst snd] in *. by rewrite Hc.
Qed.

(** Every output receives its input's patch; nothing else changes. *)
Lemma run_copies nds cs : Forall2 copy_node nds cs -> forall m, Forall (copyable m) cs -> independent cs ->
  exists m', run_all nds m = Done (replicate (length nds) true, m') /\
    Forall (fun c => read_ranges (writes c) m' = patch_bytes c.1 m) cs /\
    (forall x, Forall (fun c => outside x (writes c)) cs -> m' !! x = m !! x).
Proof.
  induction 1 as [|nd c nds cs Hn _ IH]; intros m Hcs Hi; [by exists m|].
  destruct Hi as [Hin [Hout Houts]]. apply Forall_cons in Hcs as [Hc Hcs].
  destruct (run_copy nd m c Hn Hc) as (m1 & Hr & Hw & Hf & Hm); [apply Hin; by left|].
  destruct (IH m1) as (m' & Hrs & Hws & Hfs).
  { eapply Forall_impl; [exact Hcs|]. intros d Hd. by eapply copyable_mono. }
  { split; [|done]. intros d e Hd He. apply Hin; by right. }
  exists m'. split_and!.
  - cbn [run_all]. rewrite Hr. cbn [mbind outcome_bind]. rewrite Hrs. done.
  - rewrite Forall_forall in Hws, Hout, Hcs. apply Forall_cons. split.
    + rewrite <- Hw. apply read_ranges_frame, Forall_forall. intros r Hrr x Hx. apply Hfs, Forall_forall.
      intros d Hd. by eapply (writes_apart m c d Hc (Hcs d Hd) (Hout d Hd)).
    + apply Forall_forall. intros d Hd. rewrite (Hws d Hd). apply patch_bytes_frame, Forall_forall.
      intros r Hrr x Hx. apply Hf, Forall_forall. intros q Hq Hxq.
      destruct (writes_in_plane m c q Hc Hq) as (p & Hp & Hpl).
      apply list_elem_of_fmap in Hrr as (l & -> & [Hlp Hly]%elem_of_all_lines).
      pose proof (line_in_plane d.1 m (cp_input m d (Hcs d Hd)) l.1 l.2 Hlp Hly). simpl in Hx.
      apply (Hin d c ltac:(by right) ltac:(by left) p l.1 Hp Hlp x). split; [by apply Hpl|lia].
  - intros x [Hx Hxs]%Forall_cons. rewrite Hfs by done. by apply Hf.
Qed.
