(* ===== verification/PointMap.v ===== *)
(** * Loops that compute a pixel from a pixel

    The thresholding and the changes of stride go over the lines of an image
    and write, for each pixel, bytes computed from the same pixel of another
    image (or of the same one). *)
From S2P Require Import Prelude Memory Moves Image ImageLayout ImageTransfer ImagePatch TransferFacts NodeData.
From S2P Require Import SosalImage KgmCpu.

Open Scope dvp_scope.
Implicit Types (m : memory) (i o : DVP_Image_t).

(** ** Any order of points *)

Section Points.
Context {A : Type} (src dst : A -> Z) (n k : nat) (f : list Z -> list Z).
Context (Hf : forall bs, length bs = n -> length (f bs) = k).

Definition point (m : memory) (a : A) : outcome memory :=
  bs ← of_option (load_bytes (src a) n m); of_option (store_bytes (dst a) (f bs) m).
(** What [a] writes meets neither what [b] reads nor what it writes. *)
Definition undisturbed (a b : A) : Prop :=
  apart (dst a) (Z.of_nat k) (dst b) (Z.of_nat k) /\ apart (dst a) (Z.of_nat k) (src b) (Z.of_nat n).

Lemma apart_load a p b q bs m : apart a p b (Z.of_nat q) -> Z.of_nat (length bs) = p ->
  load_bytes b q (put_bytes a bs m) = load_bytes b q m.
Proof.
  intros Ha Hl. apply load_bytes_frame. intros x Hx. rewrite put_bytes_lookup, decide_False; [done|].
  intros ?. apply (Ha x). lia.
Qed.

Lemma points_spec items : forall m,
  (forall a, a ∈ items -> mapped (src a) (Z.of_nat n) m /\ mapped (dst a) (Z.of_nat k) m) ->
  pairwise undisturbed items ->
  exists m', ofold point items m = Done m' /\
    (forall a, a ∈ items -> exists bs, load_bytes (src a) n m = Some bs /\ load_bytes (dst a) k m' = Some (f bs)) /\
    (forall x, (forall a, a ∈ items -> ~ dst a <= x < dst a + Z.of_nat k) -> m' !! x = m !! x) /\
    (forall b p, mapped b p m -> mapped b p m').
Proof.
  induction items as [|a items IH]; intros m Hm Hap.
  { exists m. split_and!; [done| |done..]. intros a Ha. by apply elem_of_nil in Ha. }
  destruct Hap as [Ha Hap]. rewrite Forall_forall in Ha. destruct (Hm a ltac:(by left)) as [Hs Hd].
  destruct (load_bytes_mapped _ _ _ Hs) as [bs Hbs]. pose proof (Hf bs (load_bytes_length _ _ _ _ Hbs)) as Hl.
  destruct (IH (put_bytes (dst a) (f bs) m)) as (m' & Hr & Hv & Hfr & Hmap); [|done|].
  { intros b Hb. destruct (Hm b ltac:(by right)). split; by apply put_bytes_mapped. }
  exists m'. split_and!.
  - cbn [ofold]. unfold point at 2. rewrite Hbs. cbn [of_option mbind outcome_bind].
    by rewrite store_bytes_Some by by rewrite Hl.
  - intros b [->|Hb]%elem_of_cons.
    + exists bs. split; [done|]. rewrite (load_bytes_frame _ _ (put_bytes (dst a) (f bs) m)).
      * rewrite <- Hl. apply load_put_same.
      * intros x Hx. apply Hfr. intros b Hb ?. by apply (proj1 (Ha b Hb) x).
    + destruct (Hv b Hb) as (cs & Hcs & Hv'). exists cs. split; [|done]. rewrite <- Hcs. symmetry.
      apply (apart_load _ (Z.of_nat k)); [by apply Ha|lia].
  - intros x Hx. rewrite Hfr by (intros b Hb; apply Hx; by right).
    apply put_bytes_frame. rewrite Hl. apply Hx. by left.
  - intros b p Hb. by apply Hmap, put_bytes_mapped.
Qed.
End Points.

(** ** The lines of one-plane images *)

(** The address of line [y] of the buffer. *)
Definition row i (y : Z) : Z := ptr_of (pBuffer i) 0 + y * DVP_Image_LineRange i 0.
Definition pixels i : list (Z * Z) := all_lines (height i) (fun _ => width i).

Lemma row_address i m y : placed i m -> 0 <= y < bufHeight i -> DVP_Image_Addressing i 0 y 0 = Done (row i y).
Proof.
  intros Hi Hy. pose proof (placed_planes i m Hi). pose proof (lo_dims i (pl_laid i m Hi)).
  destruct (Offset_exact i (pl_laid i m Hi) 0 0 y) as (Ho & _ & _); [lia|lia|done|].
  unfold DVP_Image_Addressing. rewrite (proj2 (Z.ltb_lt _ _)) by lia.
  rewrite ptr_of_aget by (pose proof (pl_ptrs i m Hi); destruct (pl_corner i m Hi 0) as [Hp _]; [lia|];
    unfold ptr_of in Hp; destruct (pBuffer i); simpl in *; lia).
  cbn [of_option mbind outcome_bind]. rewrite Ho. unfold row, DVP_Image_HeightDiv.
  rewrite andb_false_r, Z.div_1_r. do 2 f_equal. rewrite Z.div_0_l; [lia|].
  pose proof (WidthDiv_range i 0). lia.
Qed.

Lemma for_rows_flat i o body m : placed i m -> placed o m -> same_shape i o = true -> planes i = 1 ->
  forall m0, for_rows i o body m0 = ofold (fun m l => body (row i l.1) (row o l.1) l.2 m) (pixels i) m0.
Proof.
  intros Hi Ho Hsh Hp m0. unfold for_rows. rewrite Hp. change (seqZ 0 1) with [0]. cbn [ofold].
  unfold same_shape in Hsh. apply andb_true_iff in Hsh as [[_ Hh]%andb_true_iff Hw].
  apply Z.eqb_eq in Hh. destruct (pl_rect i m Hi) as (? & ? & ? & ? & ? & ?).
  destruct (pl_rect o m Ho) as (? & ? & ? & ? & ? & ?).
  unfold pixels. rewrite <- (for_lines_flat (height i) (fun _ => width i)
    (fun y j m => body (row i y) (row o y) j m)). unfold for_lines.
  assert (forall y, y ∈ seqZ 0 (height i) -> 0 <= y < height i) as Hin by (intros y ?%elem_of_seqZ; lia).
  revert m0 Hin. induction (seqZ 0 (height i)) as [|y ys IH]; intros m0 Hin; [done|]. cbn [ofold].
  specialize (Hin y ltac:(by left)) as Hy.
  rewrite (row_address i m), (row_address o m) by (done || lia). cbn [mbind outcome_bind].
  destruct (ofold _ (seqZ 0 (width i)) m0) as [m1| |]; cbn [mbind outcome_bind]; [|done..].
  apply IH. intros z Hz. apply Hin. by right.
Qed.

Section Rows.
Context (i o : DVP_Image_t) (m : memory) (Hi : placed i m) (Ho : placed o m).
Context (Hsh : same_shape i o = true) (Hp : planes i = 1).
Context (n k : nat) (f : list Z -> list Z) (Hf : forall bs, length bs = n -> length (f bs) = k).
Context (Hn : Z.of_nat n <= x_stride i) (Hk : Z.of_nat k <= x_stride o) (Hn0 : (0 < n)%nat) (Hk0 : (0 < k)%nat).

(** The two planes are apart, or the same one, pixel by pixel. *)
Definition separate : Prop :=
  apart (ptr_of (pBuffer o) 0) (DVP_Image_PlaneRange o 0) (ptr_of (pBuffer i) 0) (DVP_Image_PlaneRange i 0).
Definition in_place : Prop :=
  ptr_of (pBuffer i) 0 = ptr_of (pBuffer o) 0 /\ DVP_Image_LineRange i 0 = DVP_Image_LineRange o 0 /\ n = k.

Definition in_pixel (l : Z * Z) : Z := row i l.1 + Z.of_nat n * l.2.
Definition out_pixel (l : Z * Z) : Z := row o l.1 + Z.of_nat k * l.2.

Lemma shape : height i = height o /\ width i = width o.
Proof.
  unfold same_shape in Hsh. apply andb_true_iff in Hsh as [[_ ?]%andb_true_iff ?]. split; by apply Z.eqb_eq.
Qed.

Lemma pixel_in_line im (c : Z) (l : Z * Z) : placed im m -> height im = height i -> width im = width i ->
  0 < c <= x_stride im -> l ∈ pixels i ->
  0 <= c * l.2 /\ c * l.2 + c <= DVP_Image_LineRange im 0 /\ 0 <= l.1 /\
  ptr_of (pBuffer im) 0 <= row im l.1 + c * l.2 /\
  row im l.1 + c * l.2 + c <= ptr_of (pBuffer im) 0 + DVP_Image_PlaneRange im 0.
Proof.
  intros Him Hh Hw Hc [Hy Hx]%elem_of_all_lines. pose proof (pl_laid im m Him) as Hlo.
  pose proof (placed_planes im m Him) as Hpl. destruct (pl_rect im m Him) as (? & ? & ? & ? & ? & ?).
  rewrite (PlaneRange_exact im Hlo) by lia. unfold row.
  assert (rows im 0 = bufHeight im) as ->.
  { unfold rows, DVP_Image_HeightDiv. by rewrite andb_false_r, Z.div_1_r. }
  assert (DVP_Image_LineRange im 0 = Z.abs (y_stride im)) as ->.
  { unfold DVP_Image_LineRange. rewrite (proj2 (Z.ltb_lt _ _)) by lia. destruct Hlo as [_ ? ? _ _ Hsm _].
    rewrite u32_small by (unfold is_u32; nia). done. }
  pose proof (lo_lines im Hlo). assert (c * (l.2 + 1) <= x_stride im * bufWidth im) by nia. nia.
Qed.

Lemma pixels_undisturbed : separate \/ in_place -> pairwise (undisturbed in_pixel out_pixel n k) (pixels i).
Proof.
  intros Hs. destruct shape as [Hh Hw]. eapply pairwise_impl; [|apply all_lines_ordered]. intros l q Hl Hq Hb.
  pose proof (pixel_in_line o (Z.of_nat k) l Ho) as Hol. pose proof (pixel_in_line o (Z.of_nat k) q Ho) as Hoq.
  pose proof (pixel_in_line i (Z.of_nat n) q Hi) as Hiq.
  specialize (Hol ltac:(done) ltac:(done) ltac:(lia) Hl). specialize (Hoq ltac:(done) ltac:(done) ltac:(lia) Hq).
  specialize (Hiq ltac:(done) ltac:(done) ltac:(lia) Hq).
  assert (row o l.1 + Z.of_nat k * l.2 + Z.of_nat k <= row o q.1 + Z.of_nat k * q.2) as Hord.
  { unfold row. destruct Hb as [Hlt|[-> Hlt]]; nia. }
  unfold undisturbed, in_pixel, out_pixel. split; intros x Hx; [lia|].
  destruct Hs as [Hs|(Hb1 & Hb2 & Hb3)]; [apply (Hs x); lia|]. unfold row in *. rewrite Hb1, Hb2, Hb3 in Hx. lia.
Qed.

(** Every pixel of the output is computed from the input's. *)
Definition pointwise (m' : memory) : Prop :=
  (forall y j, 0 <= y < height i -> 0 <= j < width i -> exists bs,
     load_bytes (row i y + Z.of_nat n * j) n m = Some bs /\
     load_bytes (row o y + Z.of_nat k * j) k m' = Some (f bs)) /\
  (forall x, ~ ptr_of (pBuffer o) 0 <= x < ptr_of (pBuffer o) 0 + DVP_Image_PlaneRange o 0 -> m' !! x = m !! x) /\
  (forall b p, mapped b p m -> mapped b p m').

Lemma for_rows_points body : separate \/ in_place ->
  (forall l m0, body (row i l.1) (row o l.1) l.2 m0 = point in_pixel out_pixel n f m0 l) ->
  exists m', for_rows i o body m = Done m' /\ pointwise m'.
Proof.
  intros Hs Hbody. destruct shape as [Hh Hw]. rewrite (for_rows_flat i o body m) by done.
  assert (forall l, l ∈ pixels i ->
    mapped (in_pixel l) (Z.of_nat n) m /\ mapped (out_pixel l) (Z.of_nat k) m) as Hmap.
  { intros l Hl. pose proof (placed_planes i m Hi). pose proof (placed_planes o m Ho).
    pose proof (pixel_in_line o (Z.of_nat k) l Ho ltac:(done) ltac:(done) ltac:(lia) Hl).
    pose proof (pixel_in_line i (Z.of_nat n) l Hi ltac:(done) ltac:(done) ltac:(lia) Hl).
    unfold in_pixel, out_pixel. split.
    - eapply mapped_shrink; [| |apply (pl_mapped i m Hi 0); lia]; lia.
    - eapply mapped_shrink; [| |apply (pl_mapped o m Ho 0); lia]; lia. }
  destruct (points_spec in_pixel out_pixel n k f Hf (pixels i) m Hmap (pixels_undisturbed Hs))
    as (m' & Hr & Hv & Hfr & Hkeep).
  exists m'. split; [|split; [|split; [|done]]].
  - rewrite <- Hr. clear -Hbody. revert m. induction (pixels i) as [|l ls IH]; intros m; [done|].
    cbn [ofold]. rewrite Hbody. destruct (point _ _ _ _ m l); cbn [mbind outcome_bind]; [apply IH|done..].
  - intros y j Hy Hj. apply (Hv (y, j)). by apply elem_of_all_lines.
  - intros x Hx. apply Hfr. intros l Hl Hxl.
    pose proof (pixel_in_line o (Z.of_nat k) l Ho ltac:(done) ltac:(done) ltac:(lia) Hl). unfold out_pixel in Hxl. lia.
Qed.
End Rows.
