(* ===== verification/KgmCpuProperties.v ===== *)
(** * What the CPU graph manager guarantees

    Its contract towards the boss in terms of the kernels, a section of
    copies through the boss, and what the pixel kernels compute. *)
From S2P Require Import Prelude DvpTypes Perf KernelGraphManager KernelGraphBoss LoadTable Dispatch Execution.
From S2P Require Import Memory Moves Image ImageLayout ImageTransfer ImagePatch TransferFacts TransferProperties.
From S2P Require Import NodeData SosalImage KgmCpu KgmCpuFacts KgmCpuRun PointMap.

Open Scope dvp_scope.

(** ** The pixel kernels on the bytes of one pixel *)

Definition threshold_bytes (bs : list Z) : list Z := (fun v => Z.shiftr v 7) <$> bs.
Definition widen_bytes (shift : bool) (bs : list Z) : list Z :=
  match bs with v :: _ => to_le 2 (if shift then u16 (Z.shiftl v 8) else v) | [] => [] end.
Definition narrow_bytes (shift : bool) (bs : list Z) : list Z :=
  [u8 (if shift then Z.shiftr (of_le bs) 8 else of_le bs)].

(** The planes the two images use are apart. *)
Definition planes_apart (i o : DVP_Image_t) : Prop :=
  apart (ptr_of (pBuffer o) 0) (DVP_Image_PlaneRange o 0) (ptr_of (pBuffer i) 0) (DVP_Image_PlaneRange i 0).
(** Both are one plane of the same size. *)
Definition one_plane (i o : DVP_Image_t) : Prop := same_shape i o = true /\ planes i = 1.

(** ** A section on one manager *)

Lemma count_same_all m ms : Forall (eq m) ms -> count_same m ms = length ms.
Proof. induction 1 as [|? ms <- _ IH]; [done|]. simpl. rewrite Z.eqb_refl. by rewrite IH. Qed.
Lemma blocks_of_one nodes i : nodes <> [] -> Forall (fun nd => mgrIndex (header nd) = i) nodes ->
  blocks_of nodes = [(i, 0, Z.of_nat (length nodes))].
Proof.
  intros Hne Hi. destruct nodes as [|nd nodes]; [done|]. apply Forall_cons in Hi as [Hnd Hi].
  unfold blocks_of. cbn [managers_of fmap list_fmap]. rewrite runs_cons, Hnd.
  assert (Forall (eq i) (managers_of nodes)) as Ha.
  { apply Forall_fmap. eapply Forall_impl; [exact Hi|]. by intros ? <-. }
  fold (managers_of nodes). rewrite (count_same_all _ _ Ha), drop_all. simpl.
  assert (length (managers_of nodes) = length nodes) as -> by apply length_fmap. do 2 f_equal. lia.
Qed.

Lemma copy_not_debug nd c : copy_node nd c -> debug_kernel (kernel (header nd)) = false.
Proof. by intros [-> _]. Qed.

(** ** Pixels *)

Lemma ld_one a m : ld a m = (bs ← of_option (load_bytes a 1 m); of_option (head bs)).
Proof. unfold ld. simpl. by destruct (m !! a). Qed.

Lemma threshold_point i o l m :
  threshold_pixel (row i l.1) (row o l.1) l.2 m = point (in_pixel i 1) (out_pixel o 1) 1 threshold_bytes m l.
Proof.
  unfold threshold_pixel, point, in_pixel, out_pixel, st. rewrite !Z.mul_1_l, ld_one.
  simpl. by destruct (m !! _).
Qed.
Lemma widen_point shift i o l m :
  widen shift (row i l.1) (row o l.1) l.2 m = point (in_pixel i 1) (out_pixel o 2) 1 (widen_bytes shift) m l.
Proof.
  unfold widen, point, in_pixel, out_pixel, st16. rewrite Z.mul_1_l, ld_one.
  simpl. by destruct (m !! _).
Qed.
Lemma narrow_point shift i o l m :
  narrow shift (row i l.1) (row o l.1) l.2 m = point (in_pixel i 2) (out_pixel o 1) 2 (narrow_bytes shift) m l.
Proof.
  unfold narrow, point, in_pixel, out_pixel, ld16, st. rewrite Z.mul_1_l. change (Z.of_nat 2) with 2.
  destruct (load_bytes _ 2 m); done.
Qed.

Lemma narrow_widen shift v : is_u8 v -> narrow_bytes shift (widen_bytes shift [v]) = [v].
Proof.
  unfold is_u8. intros Hv. unfold narrow_bytes, widen_bytes. f_equal. destruct shift; simpl; unfold u8, u16.
  - rewrite Z.shiftl_mul_pow2, Z.shiftr_div_pow2 by lia.
    rewrite (Z.mod_small (v * 2 ^ 8)) by lia. change (2 ^ 8) with 256.
    rewrite Z.mod_mul, Z.div_mul, (Z.mod_small v) by lia.
    replace (0 + 256 * (v + 256 * 0)) with (v * 256) by lia. rewrite Z.div_mul, Z.mod_small; lia.
  - rewrite (Z.mod_small v 256), (Z.div_small v 256) by lia. rewrite Zmod_0_l, Z.mod_small; lia.
Qed.

Lemma load_bytes_one a m v : load_bytes a 1 m = Some [v] <-> m !! a = Some v.
Proof. simpl. destruct (m !! a); simpl; split; congruence. Qed.

Lemma threshold_spec i o m : placed i m -> placed o m -> one_plane i o -> x_stride i = x_stride o ->
  planes_apart i o \/ in_place i o 1 1 ->
  exists m', threshold i o m = Done (true, m') /\ pointwise i o m 1 1 threshold_bytes m'.
Proof.
  intros Hi Ho [Hsh Hp] Hx Hs. unfold threshold. rewrite Hsh, Hx, Z.eqb_refl. cbn [andb].
  pose proof (lo_stride i (pl_laid i m Hi)). pose proof (lo_stride o (pl_laid o m Ho)).
  destruct (for_rows_points i o m Hi Ho Hsh Hp 1 1 threshold_bytes) with (body := threshold_pixel)
    as (m' & -> & Hpt); [|lia..|done| |by exists m'].
  - intros bs. by unfold threshold_bytes; rewrite length_fmap.
  - intros l m0. apply threshold_point.
Qed.

Lemma xstride_widen shift i o m : placed i m -> placed o m -> one_plane i o -> x_stride i = 1 -> x_stride o = 2 ->
  planes_apart i o ->
  exists m', xstride shift i o m = Done (true, m') /\ pointwise i o m 1 2 (widen_bytes shift) m'.
Proof.
  intros Hi Ho [Hsh Hp] Hxi Hxo Hs. unfold xstride. rewrite Hsh, Hxi, Hxo. cbn [Z.eqb Pos.eqb andb].
  destruct (for_rows_points i o m Hi Ho Hsh Hp 1 2 (widen_bytes shift)) with (body := widen shift)
    as (m' & -> & Hpt); [|lia..|by left| |by exists m'].
  - intros [|v [|? ?]]; done.
  - intros l m0. apply widen_point.
Qed.
Lemma xstride_narrow shift i o m : placed i m -> placed o m -> one_plane i o -> x_stride i = 2 -> x_stride o = 1 ->
  planes_apart i o ->
  exists m', xstride shift i o m = Done (true, m') /\ pointwise i o m 2 1 (narrow_bytes shift) m'.
Proof.
  intros Hi Ho [Hsh Hp] Hxi Hxo Hs. unfold xstride. rewrite Hsh, Hxi, Hxo. cbn [Z.eqb Pos.eqb andb].
  destruct (for_rows_points i o m Hi Ho Hsh Hp 2 1 (narrow_bytes shift)) with (body := narrow shift)
    as (m' & -> & Hpt); [done|lia..|by left| |by exists m'].
  intros l m0. apply narrow_point.
Qed.

Definition xstride_kernel (shift : bool) : Z := if shift then DVP_KN_XSTRIDE_SHIFT else DVP_KN_XSTRIDE_CONVERT.
Lemma run_xstride shift d i o m : transform d = Done (i, o) ->
  run_kernel (xstride_kernel shift) d m = xstride shift i o m.
Proof. intros Ht. destruct shift; unfold run_kernel; cbn [xstride_kernel]; cbv [Z.eqb Pos.eqb]; by rewrite Ht. Qed.
Lemma run_threshold d i o m : transform d = Done (i, o) -> run_kernel DVP_KN_THRESHOLD d m = threshold i o m.
Proof. intros Ht. unfold run_kernel. cbv [Z.eqb Pos.eqb]. by rewrite Ht. Qed.

Lemma validate_color i colors : DVP_Image_Validate i 1 1 1 1 colors = Done true ->
  colors = [] \/ one_of (color i) colors = true.
Proof.
  unfold DVP_Image_Validate. cbn [Z.eqb orb]. destruct (_ || _); [done|]. destruct (_ || _); [done|].
  intros H. inv_outcome. destruct r; [|done]. destruct colors as [|c cs]; [by left|]. right. congruence.
Qed.

(** ** Properties *)

(** C21: on a stretch of nodes without the file-writing kernels, the CPU
    manager computes the kernels of the nodes one after the other over the
    memory, marks each node with its own result, takes one measurement in
    each, and returns the number of successes; nothing outside of the stretch
    and no file changes. *)
Theorem cpu_runs_kernels freq now fopen w pre mid post sync oks m :
  Forall (fun nd => debug_kernel (kernel (header nd)) = false) mid -> Forall measurable mid ->
  Z.of_nat (length pre) + Z.of_nat (length mid) < 2 ^ 32 ->
  run_all mid (cw_mem w) = Done (oks, m) ->
  exists t mid', cpu_manager freq now fopen (Done w) (pre ++ mid ++ post) (Z.of_nat (length pre))
      (Z.of_nat (length mid)) sync =
      (Done (mkCpu m (cw_files w) t), pre ++ mid' ++ post, successes oks) /\ Forall3 ran oks mid mid'.
Proof. apply cpu_manager_runs. Qed.

(** Verification gives each node of the stretch the verdict of its
    kernel's checks, counts the nodes that pass, and changes neither the
    images nor any other node. *)
Theorem cpu_verify_marks w pre mid post oks :
  Forall2 (fun nd ok => verify_kernel (kernel (header nd)) (data nd) = Done ok) mid oks ->
  Z.of_nat (length pre) + Z.of_nat (length mid) < 2 ^ 32 ->
  cpu_verify (Done w) (pre ++ mid ++ post) (Z.of_nat (length pre)) (Z.of_nat (length mid)) =
    (Done w, pre ++ zip_with mark mid oks ++ post, successes oks).
Proof.
  intros Hok Hb. unfold cpu_verify, DVP_KernelGraphManagerVerify. cbn [mbind outcome_bind].
  rewrite node_range_nat by done. rewrite (verify_nodes mid pre post 0 oks Hok). cbn [mbind outcome_bind].
  rewrite Z.add_0_l, u32_small; [done|]. pose proof (successes_range oks).
  pose proof (Forall2_length _ _ _ Hok). unfold is_u32. lia.
Qed.

(** C2: a section of copies routed to the CPU manager, processed through the
    boss, succeeds as a whole when its loads fit and no output meets an input
    or another output: every node is processed without an error, every output
    holds its input's patch, the rest of the memory and the load table are as
    before. *)
Theorem cpu_section_copies (dvp : DVP_t (outcome cpu_world)) cores freq now fopen w sec nodes i cs sync fuel t0 t1 :
  lawful dvp -> ready dvp sec nodes -> table_ok (loads dvp) ->
  (commit_ref (coreLoad sec) (KernelGraphBoss.cores (loads dvp))).1 = true ->
  numTimes (sperf sec) + 1 < 2 ^ 32 -> 0 <= numTimes (sperf sec) -> (0 < fuel)%nat ->
  calls_at dvp i = Done (cpu_calls cores freq now fopen) ->
  Forall (fun nd => mgrIndex (header nd) = i) nodes -> Forall measurable nodes ->
  Forall2 copy_node nodes cs -> Forall (copyable (cw_mem w)) cs -> independent cs ->
  exists w' nodes' p,
    DVP_KernelGraphBoss_Process fuel dvp (Done w) sec nodes sync t0 t1 =
      Done (mkPS dvp (Done w') (set_sperf p sec) nodes' (numNodes sec) 0) /\
    Forall2 (ran true) nodes nodes' /\
    Forall (fun c => read_ranges (target_ranges c.2 c.1) (cw_mem w') = patch_bytes c.1 (cw_mem w)) cs /\
    (forall x, Forall (fun c => outside x (writes c)) cs -> cw_mem w' !! x = cw_mem w !! x).
Proof.
  intros Hl Hr Hok Hfit Hc Hc0 Hf Hcl Hm Hms Hcs Hcp Hind.
  destruct (process_once dvp (Done w) sec nodes sync fuel t0 t1 Hl Hr Hok Hfit Hc Hc0 Hf)
    as (w' & nodes' & k & p & He & Hp & _).
  destruct Hr as (Hn & Hb & _). rewrite (blocks_of_one nodes i) in He; [|by destruct nodes; simpl in *; [lia|]|done].
  cbn [exec_runs] in He. rewrite Hcl in He. cbn [mbind outcome_bind manager cpu_calls] in He.
  destruct (run_copies nodes cs Hcs (cw_mem w) Hcp Hind) as (m & Hrun & Hw & Hfr).
  destruct (cpu_manager_runs freq now fopen w [] nodes [] sync (replicate (length nodes) true) m)
    as (t & mid' & Hman & Hran).
  { apply Forall_forall. intros nd Hnd. apply (list_elem_of_lookup_1 _ _) in Hnd as [j Hj].
    destruct (Forall2_lookup_l _ _ _ _ _ Hcs Hj) as (c & _ & ?). by eapply copy_not_debug. }
  { done. } { simpl. lia. } { done. }
  cbn [length app] in Hman. rewrite !app_nil_r in Hman. change (Z.of_nat 0) with 0 in Hman.
  rewrite Hman in He. rewrite successes_all, length_replicate, Z.eqb_refl in He by by apply Forall_replicate.
  rewrite Z.add_0_l, u32_small in He by (unfold is_u32; lia). injection He as <- <- <-.
  exists (mkCpu m (cw_files w) t), mid', p. rewrite Hn. split_and!; [done| |done|done].
  clear -Hran. remember (replicate _ true) as oks eqn:Ho. revert Ho.
  induction Hran as [|ok nd nd' oks nds nds' ? _ IH]; intros Ho; [done|]. injection Ho as -> ?. by auto.
Qed.

(** Thresholding. Images whose shapes or strides differ are refused and
    nothing changes; otherwise every pixel of the output is the input pixel's
    top bit, also when the image is thresholded in place. *)
Theorem threshold_takes_top_bit d i o m : transform d = Done (i, o) ->
  (same_shape i o && (x_stride i =? x_stride o) = false -> run_kernel DVP_KN_THRESHOLD d m = Done (false, m)) /\
  (placed i m -> placed o m -> one_plane i o -> x_stride i = x_stride o ->
   planes_apart i o \/ (ptr_of (pBuffer i) 0 = ptr_of (pBuffer o) 0 /\ DVP_Image_LineRange i 0 = DVP_Image_LineRange o 0) ->
   exists m', run_kernel DVP_KN_THRESHOLD d m = Done (true, m') /\
     (forall y x, 0 <= y < height i -> 0 <= x < width i -> exists v,
        m !! (row i y + x) = Some v /\ m' !! (row o y + x) = Some (Z.shiftr v 7)) /\
     (forall x, ~ ptr_of (pBuffer o) 0 <= x < ptr_of (pBuffer o) 0 + DVP_Image_PlaneRange o 0 -> m' !! x = m !! x)).
Proof.
  intros Ht. rewrite (run_threshold d i o) by done. split.
  - intros Hne. unfold threshold. by rewrite Hne.
  - intros Hi Ho H1 Hx Hs. destruct (threshold_spec i o m Hi Ho H1 Hx) as (m' & -> & Hpt & Hfr & _).
    { destruct Hs as [|[? ?]]; [by left|by right]. }
    exists m'. split_and!; [done| |done]. intros y x Hy Hxx.
    destruct (Hpt y x Hy Hxx) as (bs & Hbs & Hv). change (Z.of_nat 1) with 1 in *. rewrite Z.mul_1_l in *.
    pose proof (load_bytes_length _ _ _ _ Hbs). destruct bs as [|v [|]]; [done| |done].
    exists v. split; by apply load_bytes_one.
Qed.

(** Widening an 8-bit image to 16 bits and narrowing it again, both by
    value or both by the high byte, gives every pixel back. *)
Theorem xstride_roundtrip shift d1 d2 a b c m :
  transform d1 = Done (a, b) -> transform d2 = Done (b, c) ->
  placed a m -> placed b m -> placed c m -> one_plane a b -> one_plane b c ->
  x_stride a = 1 -> x_stride b = 2 -> x_stride c = 1 -> planes_apart a b -> planes_apart b c ->
  exists m1 m2, run_kernel (xstride_kernel shift) d1 m = Done (true, m1) /\
    run_kernel (xstride_kernel shift) d2 m1 = Done (true, m2) /\
    forall y x v, 0 <= y < height a -> 0 <= x < width a ->
      m !! (row a y + x) = Some v -> is_u8 v -> m2 !! (row c y + x) = Some v.
Proof.
  intros H1 H2 Ha Hb Hc Hab Hbc Hxa Hxb Hxc Hpab Hpbc. rewrite (run_xstride shift d1 a b) by done.
  destruct (xstride_widen shift a b m Ha Hb Hab Hxa Hxb Hpab) as (m1 & -> & Hw & _ & Hmap).
  destruct (xstride_narrow shift b c m1) as (m2 & Hm2 & Hn & _ & _); [by eapply placed_mono..|done|done|done|done|].
  exists m1, m2. split_and!; [done|by rewrite (run_xstride shift d2 b c)|]. intros y x v Hy Hx Hv Hv8.
  destruct (Hw y x Hy Hx) as (bs & Hbs & Hst). rewrite Z.mul_1_l in Hbs.
  apply load_bytes_one in Hv. rewrite Hv in Hbs. injection Hbs as <-.
  destruct Hab as [Hab _]. destruct (shape a b Hab) as [Hh Hww].
  destruct (Hn y x ltac:(lia) ltac:(lia)) as (cs & Hcs & Hfin). change (Z.of_nat 1) with 1 in Hfin.
  rewrite Z.mul_1_l in Hfin. assert (cs = widen_bytes shift [v]) as -> by congruence. rewrite narrow_widen in Hfin by done.
  by apply load_bytes_one.
Qed.

(** C16: a copy node that passes verification succeeds: with its two images in
    place, of one geometry and apart, the checks of the verification are the
    ones [DVP_Image_Copy] needs, and the output ends with the input's patch. *)
Theorem verified_copy_succeeds d i o m :
  transform d = Done (i, o) -> verify_kernel DVP_KN_COPY d = Done true ->
  placed i m -> placed o m -> planes o = planes i -> x_stride o = x_stride i -> images_apart o i ->
  exists m', run_kernel DVP_KN_COPY d m = Done (true, m') /\
    read_ranges (target_ranges o i) m' = patch_bytes i m.
Proof.
  intros Ht Hv Hi Ho Hp Hx Ha. unfold verify_kernel in Hv. change (DVP_KN_COPY =? DVP_KN_COPY) with true in Hv. unfold verify_copy in Hv.
  cbv iota in Hv. rewrite Ht in Hv. cbn [mbind outcome_bind all_valid] in Hv. unfold and_test in Hv. inv_outcome.
  apply andb_true_iff in Hv as [-> [Hw Hh]%andb_true_iff]. destruct r0; [|done].
  destruct (validate_color i [color o] E0) as [|Hc]; [done|]. unfold one_of in Hc. cbn [existsb] in Hc.
  rewrite orb_false_r in Hc. apply Z.eqb_eq in Hc.
  destruct (copy_spec o i m) as (m' & Hm & Hr & _); [done|done|by split_and!|lia|lia|done|].
  exists m'. split; [|done]. unfold run_kernel. change (DVP_KN_COPY =? DVP_KN_NOOP) with false.
  change (DVP_KN_COPY =? DVP_KN_COPY) with true. cbv iota. rewrite Ht. cbn [mbind outcome_bind]. by rewrite Hm.
Qed.

(** ** Witnesses: two copies of one NV12 image, and 4x2 grey images *)

Definition image_bytes (i : DVP_Image_t) : list Z :=
  flat_map (to_le 8) (pData i) ++ flat_map (to_le 8) (pBuffer i) ++
  flat_map (to_le 4)
    [planes i; width i; height i; bufWidth i; bufHeight i; x_start i; y_start i; x_stride i; y_stride i;
     color i; numBytes i; memType i; 0; 0; 0; 0].
Definition three : DVP_Image_t := nv12_at 12288 12544.
Definition copy_params (i o : DVP_Image_t) : list Z := image_bytes i ++ image_bytes o.
Definition sample_node (k : Z) (d : list Z) : DVP_KernelNode_t :=
  mkNode (mkHeader k (-1) 0 DVP_TRUE 0 4 (DVP_Perf_Clear 1000)) d.
Definition copy_nodes : list DVP_KernelNode_t :=
  [sample_node DVP_KN_COPY (copy_params one two); sample_node DVP_KN_COPY (copy_params one three)].
Definition clock (t : Z) : Z := 10 * t.
Definition no_file (t : Z) (name : list Z) : Z := 0.
Definition sample_cpu : DVP_t (outcome cpu_world) :=
  mkDVP [mkManager true 1 (Some (cpu_calls 2 1000 clock no_file)) (Some local_kernels) DVP_PRIORITY_LOWEST]
    (mkLoad true (replicate num_cores (mkCoreLoad 2000 0))).
Definition copy_section : DVP_KernelGraphSection_t :=
  mkSection 4096 2 (DVP_Perf_Clear 1000) (replicate num_cores 0) 0.
Definition sample_world : cpu_world := mkCpu pages [] 0.

Lemma copy_nodes_copy : Forall2 copy_node copy_nodes [(one, two); (one, three)].
Proof. repeat constructor; by vm_compute. Qed.
Lemma copies_copyable : Forall (copyable pages) [(one, two); (one, three)].
Proof.
  apply Forall_cons; split; [|apply Forall_cons; split; [|done]];
    (split; cbn [fst snd]; [apply nv12_placed; lia|apply nv12_placed; lia|done|cbn; lia|cbn; lia]).
Qed.
Lemma copies_independent : independent [(one, two); (one, three)].
Proof.
  assert (images_apart two one) as H21 by (intros p q Hp Hq x [? ?];
    by apply (nv12_images_apart 4096 4352 8192 8448 ltac:(lia) ltac:(lia) ltac:(lia) q p Hq Hp x)).
  assert (images_apart three one) as H31 by (intros p q Hp Hq x [? ?];
    by apply (nv12_images_apart 4096 4352 12288 12544 ltac:(lia) ltac:(lia) ltac:(lia) q p Hq Hp x)).
  split.
  - intros c d Hc Hd. repeat (apply elem_of_cons in Hc as [->|Hc]; [|try by apply elem_of_nil in Hc]);
      repeat (apply elem_of_cons in Hd as [->|Hd]; [|try by apply elem_of_nil in Hd]); done.
  - repeat constructor. apply nv12_images_apart; lia.
Qed.

Lemma cpu_section_copies_witness : exists w' nodes' p,
  DVP_KernelGraphBoss_Process 1 sample_cpu (Done sample_world) copy_section copy_nodes true 0 5 =
    Done (mkPS sample_cpu (Done w') (set_sperf p copy_section) nodes' 2 0) /\
  read_ranges (target_ranges three one) (cw_mem w') = patch_bytes one (cw_mem sample_world).
Proof.
  destruct (cpu_section_copies sample_cpu 2 1000 clock no_file sample_world copy_section copy_nodes 0
    [(one, two); (one, three)] true 1 0 5) as (w' & nodes' & p & Hp & _ & Hw & _).
  - intros m c Hm Hc. apply elem_of_cons in Hm as [->|[]%elem_of_nil]. injection Hc as <-. apply cpu_lawful.
  - split_and!; [done|simpl; lia|simpl; lia|done|]. repeat constructor; eexists; reflexivity.
  - split; [done|]. repeat constructor; unfold entry_ok, is_s32; simpl; lia.
  - reflexivity.
  - simpl. lia.
  - simpl. lia.
  - lia.
  - reflexivity.
  - repeat constructor.
  - repeat constructor; simpl; lia.
  - apply copy_nodes_copy.
  - apply copies_copyable.
  - apply copies_independent.
  - exists w', nodes', p. split; [exact Hp|]. apply Forall_cons in Hw as [_ Hw].
    apply Forall_cons in Hw as [Hw _]. exact Hw.
Defined.

Lemma cpu_runs_kernels_witness : exists m oks t mid',
  run_all copy_nodes (cw_mem sample_world) = Done (oks, m) /\
  cpu_manager 1000 clock no_file (Done sample_world) copy_nodes 0 2 true =
    (Done (mkCpu m [] t), mid', successes oks).
Proof.
  destruct (run_copies copy_nodes _ copy_nodes_copy (cw_mem sample_world) copies_copyable copies_independent)
    as (m & Hr & _).
  destruct (cpu_runs_kernels 1000 clock no_file sample_world [] copy_nodes [] true [true; true] m)
    as (t & mid' & Hm & _).
  - by repeat constructor.
  - repeat constructor; simpl; lia.
  - simpl. lia.
  - exact Hr.
  - exists m, [true; true], t, mid'. rewrite !app_nil_r in Hm. split; [exact Hr|exact Hm].
Defined.

(** A copy to a smaller image does not pass. *)
Definition small_image : DVP_Image_t :=
  mkImage [12288; 12544; 0; 0] [12288; 12544; 0; 0] 2 2 2 4 4 0 0 1 4 FOURCC_NV12 24 0.
Definition checked_nodes : list DVP_KernelNode_t :=
  [sample_node DVP_KN_COPY (copy_params one two); sample_node DVP_KN_COPY (copy_params one small_image)].
Lemma cpu_verify_marks_witness :
  cpu_verify (Done sample_world) checked_nodes 0 2 =
    (Done sample_world, zip_with mark checked_nodes [true; false], 1).
Proof.
  pose proof (cpu_verify_marks sample_world [] checked_nodes [] [true; false]) as H.
  rewrite !app_nil_r in H. apply H; [|simpl; lia].
  constructor; [by vm_compute|constructor; [by vm_compute|constructor]].
Defined.

Lemma verified_copy_succeeds_witness :
  exists m', run_kernel DVP_KN_COPY (copy_params one two) pages = Done (true, m').
Proof.
  destruct (verified_copy_succeeds (copy_params one two) one two pages) as (m' & Hm & _);
    [by vm_compute|by vm_compute|apply nv12_placed; lia|apply nv12_placed; lia|done|done| |by exists m'].
  intros p q Hp Hq x [? ?].
  by apply (nv12_images_apart 4096 4352 8192 8448 ltac:(lia) ltac:(lia) ltac:(lia) q p Hq Hp x).
Defined.

(** 4x2 pixels of [s] bytes *)
Definition grey (s a : Z) : DVP_Image_t :=
  mkImage [a; 0; 0; 0] [a; 0; 0; 0] 1 4 2 4 2 0 0 s (4 * s) FOURCC_Y800 (8 * s) 0.
Lemma grey_placed s a : s = 1 \/ s = 2 -> 4096 <= a -> a + 16 <= 20480 -> placed (grey s a) pages.
Proof.
  intros Hs Ha Hb.
  assert (laid_out (grey s a)) as Hlo.
  { assert (forall p, 0 <= p < 1 -> p = 0) as H0 by lia.
    split; [cbn; unfold DVP_MAX_PLANES; lia|cbn; lia|cbn; lia| |cbn; lia|cbn; lia|done].
    intros p ->%H0. split; [by exists 4|by exists 2]. }
  assert (forall p, 0 <= p < planes (grey s a) -> p = 0) as Hp0 by (intros p Hp; change (planes _) with 1 in Hp; lia).
  split; [done|done|cbn; lia| | | |].
  - intros p ->%Hp0. split_and!; [apply Z.divide_0_r|by exists 4|apply Z.divide_0_r|by exists 2].
  - intros p ->%Hp0. change (0 < a /\ a = a + 0). lia.
  - intros p ->%Hp0. apply pages_mapped; [exact Ha|].
    assert (DVP_Image_PlaneRange (grey s a) 0 <= 16) by (destruct Hs as [->| ->]; by vm_compute).
    change (ptr_of _ 0) with a. lia.
  - intros p q ->%Hp0 ->%Hp0. done.
Qed.
Lemma grey_apart s a s' b : s = 1 \/ s = 2 -> s' = 1 \/ s' = 2 -> a + 16 <= b ->
  planes_apart (grey s a) (grey s' b).
Proof.
  intros Hs Hs' Hab x. change (ptr_of (pBuffer (grey s a)) 0) with a. change (ptr_of (pBuffer (grey s' b)) 0) with b.
  assert (DVP_Image_PlaneRange (grey s a) 0 <= 16) by (destruct Hs as [->| ->]; by vm_compute). lia.
Qed.

Lemma threshold_takes_top_bit_witness : exists m',
  run_kernel DVP_KN_THRESHOLD (copy_params (grey 1 4096) (grey 1 4096)) pages = Done (true, m') /\
  run_kernel DVP_KN_THRESHOLD (copy_params (grey 1 4096) (grey 2 8192)) pages = Done (false, pages).
Proof.
  destruct (threshold_takes_top_bit (copy_params (grey 1 4096) (grey 1 4096)) (grey 1 4096) (grey 1 4096) pages)
    as [_ Hok]; [by vm_compute|].
  destruct Hok as (m' & Hm & _);
    [apply grey_placed; [by left|lia|lia]|apply grey_placed; [by left|lia|lia]|done|done|by right|].
  exists m'. split; [exact Hm|].
  destruct (threshold_takes_top_bit (copy_params (grey 1 4096) (grey 2 8192)) (grey 1 4096) (grey 2 8192) pages)
    as [Hno _]; [by vm_compute|]. apply Hno. reflexivity.
Defined.

Lemma xstride_roundtrip_witness : exists m1 m2,
  run_kernel DVP_KN_XSTRIDE_SHIFT (copy_params (grey 1 4096) (grey 2 8192)) pages = Done (true, m1) /\
  run_kernel DVP_KN_XSTRIDE_SHIFT (copy_params (grey 2 8192) (grey 1 12288)) m1 = Done (true, m2).
Proof.
  destruct (xstride_roundtrip true (copy_params (grey 1 4096) (grey 2 8192)) (copy_params (grey 2 8192) (grey 1 12288))
    (grey 1 4096) (grey 2 8192) (grey 1 12288) pages) as (m1 & m2 & H1 & H2 & _);
    [by vm_compute|by vm_compute|apply grey_placed; [by left|lia|lia]|apply grey_placed; [by right|lia|lia]
    |apply grey_placed; [by left|lia|lia]|done|done|done|done|done
    |apply grey_apart; [by left|by right|lia]|apply grey_apart; [by right|by left|lia]|].
  exists m1, m2. split; [exact H1|exact H2].
Defined.
