(* ===== verification/KgmCpuQueue.v ===== *)
(** * The work queues of the CPU graph manager (source/dvp/dvp_kgm_cpu/dvp_kgm_cpu.c)

    [DVP_KernelGraphManager] without [sync] writes its request to one queue,
    worker threads run the requests, and every caller reads a second queue
    until it finds its own answer, putting the others back.  A step is one
    completed call on a queue, or one run of the nodes of a request. *)
From Stdlib Require Import Permutation.
From S2P Require Import Prelude DvpTypes KernelGraphManager Memory KgmCpu KgmCpuFacts.

(** [DVP_KGM_Thread_t]: what to run, and with it the number of nodes run. *)
Record request : Set := mkRequest { rq_nodes : Z; rq_start : Z; rq_num : Z }.
#[export] Instance request_eq_dec : EqDecision request.
Proof. solve_decision. Defined.
Abbreviation item := (request * Z)%type.

(** [queue_create(10, sizeof(DVP_KGM_Thread_t))] *)
Definition queue_depth : nat := 10.

(** A call of [DVP_KernelGraphManager]: about to write its request, reading
    answers, about to put another caller's answer back, or returned. *)
Inductive caller : Set :=
  | Submitting (r : request)
  | Waiting (r : request)
  | Holding (r : request) (it : item)
  | Returned (r : request) (k : Z).
(** A thread of [DVP_KernelGraphManagerThread_CPU] *)
Inductive worker : Set :=
  | Idle
  | Running (r : request)
  | Reporting (it : item).
#[export] Instance worker_eq_dec : EqDecision worker.
Proof. solve_decision. Defined.

Section Pool.
Context (freq : Z) (now : Z -> Z) (fopen : Z -> list Z -> Z).

(** The node arrays are kept by address; [pool_log] lists the runs that were
    made, for the specification. *)
Record pool : Type := mkPool {
  pool_world : outcome cpu_world;
  pool_arrays : gmap Z (list DVP_KernelNode_t);
  workqueue : list item;
  retqueue : list item;
  callers : list caller;
  workers : list worker;
  pool_log : list item }.

(** [DVP_KernelGraphManager_CPU]; a null array has nothing to process. *)
Definition run_request (w : outcome cpu_world) (arrays : gmap Z (list DVP_KernelNode_t)) (r : request)
    : outcome cpu_world * gmap Z (list DVP_KernelNode_t) * Z :=
  match arrays !! rq_nodes r with
  | None => (w, arrays, 0)
  | Some ns =>
      let '(w', ns', k) := cpu_manager freq now fopen w ns (rq_start r) (rq_num r) true in
      (w', <[rq_nodes r := ns']> arrays, k)
  end.

Inductive pool_step : pool -> pool -> Prop :=
  | step_submit w a wq rq pre r post ws log :
      (length wq < queue_depth)%nat ->
      pool_step (mkPool w a wq rq (pre ++ Submitting r :: post) ws log)
                (mkPool w a (wq ++ [(r, 0)]) rq (pre ++ Waiting r :: post) ws log)
  | step_take w a r k wq rq cs pre post log :
      pool_step (mkPool w a ((r, k) :: wq) rq cs (pre ++ Idle :: post) log)
                (mkPool w a wq rq cs (pre ++ Running r :: post) log)
  | step_run w a wq rq cs pre r post log w' a' k :
      run_request w a r = (w', a', k) ->
      pool_step (mkPool w a wq rq cs (pre ++ Running r :: post) log)
                (mkPool w' a' wq rq cs (pre ++ Reporting (r, k) :: post) (log ++ [(r, k)]))
  | step_report w a wq rq cs pre it post log :
      (length rq < queue_depth)%nat ->
      pool_step (mkPool w a wq rq cs (pre ++ Reporting it :: post) log)
                (mkPool w a wq (rq ++ [it]) cs (pre ++ Idle :: post) log)
  | step_mine w a wq r k rq pre post ws log :
      pool_step (mkPool w a wq ((r, k) :: rq) (pre ++ Waiting r :: post) ws log)
                (mkPool w a wq rq (pre ++ Returned r k :: post) ws log)
  | step_other w a wq it rq pre r post ws log :
      it.1 <> r ->
      pool_step (mkPool w a wq (it :: rq) (pre ++ Waiting r :: post) ws log)
                (mkPool w a wq rq (pre ++ Holding r it :: post) ws log)
  | step_put_back w a wq rq pre r it post ws log :
      (length rq < queue_depth)%nat ->
      pool_step (mkPool w a wq rq (pre ++ Holding r it :: post) ws log)
                (mkPool w a wq (rq ++ [it]) (pre ++ Waiting r :: post) ws log).

(** Callers about to submit, idle workers, empty queues. *)
Definition pool_start (w : outcome cpu_world) (a : gmap Z (list DVP_KernelNode_t)) (rs : list request) (n : nat) : pool :=
  mkPool w a [] [] (Submitting <$> rs) (replicate n Idle) [].

(** ** What is where *)

Definition request_of (c : caller) : list request :=
  match c with Submitting r | Waiting r | Holding r _ | Returned r _ => [r] end.
Definition unsubmitted (c : caller) : list request := match c with Submitting r => [r] | _ => [] end.
Definition waiting (c : caller) : list request := match c with Waiting r => [r] | _ => [] end.
Definition held (c : caller) : list item := match c with Holding _ it => [it] | _ => [] end.
Definition holders (c : caller) : list request := match c with Holding r _ => [r] | _ => [] end.
Definition returned (c : caller) : list item := match c with Returned r k => [(r, k)] | _ => [] end.
Definition running (w : worker) : list request := match w with Running r => [r] | _ => [] end.
Definition reporting (w : worker) : list item := match w with Reporting it => [it] | _ => [] end.

(** Every run is with exactly one worker, queue or caller, and every caller
    that has submitted has exactly one item under way. *)
Definition results_conserved (p : pool) : Prop :=
  pool_log p ≡ₚ flat_map reporting (workers p) ++ retqueue p ++ flat_map held (callers p) ++
    flat_map returned (callers p).
Definition requests_conserved (p : pool) : Prop :=
  flat_map waiting (callers p) ++ flat_map holders (callers p) ≡ₚ
  (workqueue p).*1 ++ flat_map running (workers p) ++ (flat_map reporting (workers p)).*1 ++
    (retqueue p).*1 ++ (flat_map held (callers p)).*1.
(** Nobody holds his own answer. *)
Definition callers_are (rs : list request) (p : pool) : Prop := flat_map request_of (callers p) = rs.

(** ** Invariants *)

Lemma flat_map_middle {A B} (f : A -> list B) pre x post :
  flat_map f (pre ++ x :: post) = flat_map f pre ++ f x ++ flat_map f post.
Proof. by rewrite flat_map_app. Qed.

(** Equal multisets, by counting one element. *)
Ltac perm_count dec H :=
  apply (Permutation_count_occ dec); let x := fresh "x" in intros x;
  apply (Permutation_count_occ dec) with (x := x) in H;
  repeat first [rewrite flat_map_middle in H | rewrite fmap_app in H | rewrite fmap_cons in H | rewrite fmap_nil in H |
    rewrite count_occ_app in H | progress cbn [waiting holders held running reporting returned fst app count_occ] in H];
  repeat first [rewrite flat_map_middle | rewrite fmap_app | rewrite fmap_cons | rewrite fmap_nil | rewrite count_occ_app
    | progress cbn [waiting holders held running reporting returned fst app count_occ]];
  repeat case_match; simplify_eq; try lia.

Lemma results_step p p' : pool_step p p' -> results_conserved p -> results_conserved p'.
Proof.
  unfold results_conserved. intros Hst H. destruct Hst; cbn [workers callers retqueue pool_log] in *;
    perm_count (decide_rel (=@{item})) H.
Qed.
Lemma requests_step p p' : pool_step p p' -> requests_conserved p -> requests_conserved p'.
Proof.
  unfold requests_conserved. intros Hst H. destruct Hst; cbn [workers callers retqueue workqueue] in *;
    perm_count (decide_rel (=@{request})) H.
Qed.
Lemma callers_step p p' rs : pool_step p p' -> callers_are rs p -> callers_are rs p'.
Proof.
  unfold callers_are. intros Hst <-. destruct Hst; cbn [callers]; rewrite ?flat_map_middle; done.
Qed.
Lemma workers_step p p' : pool_step p p' -> length (workers p') = length (workers p).
Proof. intros Hst. destruct Hst; cbn [workers]; rewrite ?length_app; done. Qed.

Lemma flat_map_none {A B} (f : A -> list B) l : (forall x, x ∈ l -> f x = []) -> flat_map f l = [].
Proof.
  induction l as [|x l IH]; intros H; simpl; [done|]. rewrite H by (by left). apply IH. intros y Hy. apply H. by right.
Qed.
Lemma flat_map_in {A B} (f : A -> list B) l : flat_map f l <> [] -> exists pre x post, l = pre ++ x :: post /\ f x <> [].
Proof.
  induction l as [|x l IH]; simpl; [done|]. intros H. destruct (f x) as [|b bs] eqn:Hx.
  - destruct (IH H) as (pre & y & post & -> & Hy). by exists (x :: pre), y, post.
  - exists [], x, l. split; [done|]. by rewrite Hx.
Qed.

(** All the invariants, on what can be reached. *)
Record pool_inv (rs : list request) (n : nat) (p : pool) : Prop := {
  inv_results : results_conserved p;
  inv_requests : requests_conserved p;
  inv_callers : callers_are rs p;
  inv_workers : length (workers p) = n }.

Lemma start_inv w a rs n : pool_inv rs n (pool_start w a rs n).
Proof.
  assert (forall {B} (f : caller -> list B), (forall r, f (Submitting r) = []) -> flat_map f (Submitting <$> rs) = []) as Hc.
  { intros B f Hf. apply flat_map_none. intros x (r & -> & _)%list_elem_of_fmap. apply Hf. }
  assert (forall {B} (f : worker -> list B), f Idle = [] -> flat_map f (replicate n Idle) = []) as Hw.
  { intros B f Hf. apply flat_map_none. intros x [-> _]%elem_of_replicate. done. }
  split.
  - unfold results_conserved, pool_start. cbn [workers callers retqueue pool_log]. by rewrite Hw, !Hc.
  - unfold requests_conserved, pool_start. cbn [workers callers retqueue workqueue]. by rewrite !Hw, !Hc.
  - unfold callers_are, pool_start. cbn [callers]. clear. induction rs as [|r rs IH]; [done|]. simpl. f_equal. exact IH.
  - unfold pool_start. cbn [workers]. apply length_replicate.
Qed.
Lemma step_inv rs n p p' : pool_step p p' -> pool_inv rs n p -> pool_inv rs n p'.
Proof.
  intros Hst []. split; [by eapply results_step|by eapply requests_step|by eapply callers_step|].
  by rewrite (workers_step _ _ Hst).
Qed.
Lemma reachable_inv w a rs n p : rtc pool_step (pool_start w a rs n) p -> pool_inv rs n p.
Proof.
  intros Hr. pose proof (start_inv w a rs n) as Hi. revert Hi.
  induction Hr as [|p p1 p2 Hst _ IH]; [done|]. intros Hi. apply IH. by eapply step_inv.
Qed.

(** ** Who can move *)

Lemma split_waiting p : flat_map waiting (callers p) <> [] ->
  exists pre r post, callers p = pre ++ Waiting r :: post.
Proof. intros (pre & c & post & Hc & Hx)%flat_map_in. destruct c; try done. by exists pre, r, post. Qed.

(** With an answer in the queue, somebody waits for one. *)
Lemma answer_awaited rs n p : pool_inv rs n p -> retqueue p <> [] -> flat_map waiting (callers p) <> [].
Proof.
  intros [_ Hq _ _] Hne Hw. unfold requests_conserved in Hq. rewrite Hw in Hq. apply Permutation_length in Hq.
  rewrite !length_app, !length_fmap in Hq. simpl in Hq.
  assert (length (flat_map holders (callers p)) = length (flat_map held (callers p))) as Hh.
  { clear. induction (callers p) as [|c cs IH]; [done|]. simpl. rewrite !length_app, IH. by destruct c. }
  assert (length (retqueue p) <> 0)%nat by by intros ?%nil_length_inv. lia.
Qed.

Lemma read_enabled p : retqueue p <> [] -> flat_map waiting (callers p) <> [] -> exists p', pool_step p p'.
Proof.
  intros Hr (pre & r & post & Hc)%split_waiting. destruct p as [w a wq rq cs ws log]. simpl in *. subst cs.
  destruct rq as [|[r' k] rq]; [done|]. destruct (decide (r' = r)) as [->|Hne].
  - eexists. apply step_mine.
  - eexists. by apply step_other.
Qed.

(** With no answer in the queue the workers and the callers that put an
    answer back have room. *)
Lemma workers_enabled p x : retqueue p = [] -> x ∈ workers p -> x <> Idle -> exists p', pool_step p p'.
Proof.
  intros Hr (pre & post & Hw)%list_elem_of_split Hx. destruct p as [w a wq rq cs ws log]. simpl in *. subst.
  destruct x as [|r|it]; [done| |].
  - destruct (run_request w a r) as [[w' a'] k] eqn:He. eexists. by apply step_run.
  - eexists. apply step_report. simpl. unfold queue_depth. lia.
Qed.
Lemma holder_enabled p : retqueue p = [] -> flat_map held (callers p) <> [] -> exists p', pool_step p p'.
Proof.
  intros Hr (pre & c & post & Hc & Hx)%flat_map_in. destruct p as [w a wq rq cs ws log]. simpl in *. subst.
  destruct c as [| |r it|]; try done. eexists. apply step_put_back. simpl. unfold queue_depth. lia.
Qed.

Lemma all_idle ws : (forall x, x ∈ ws -> x = Idle) -> flat_map running ws = [] /\ flat_map reporting ws = [].
Proof. intros H. split; apply flat_map_none; intros x Hx; by rewrite (H x Hx). Qed.

Lemma pool_progress rs n p : pool_inv rs n p -> (0 < n)%nat ->
  (exists c, c ∈ callers p /\ returned c = []) -> exists p', pool_step p p'.
Proof.
  intros Hi Hn (c & Hc & Hret). destruct (decide (retqueue p = [])) as [Hr|Hr];
    [|apply read_enabled; [done|by eapply answer_awaited]].
  destruct (decide (flat_map held (callers p) = [])) as [Hh|Hh]; [|by apply holder_enabled].
  destruct (decide (Forall (fun x => x = Idle) (workers p))) as [Hid|Hid].
  2:{ apply not_Forall_Exists, Exists_exists in Hid as (x & Hx & Hne); [|apply _]. by eapply workers_enabled. }
  rewrite Forall_forall in Hid. destruct (all_idle _ Hid) as [Hrun Hrep].
  destruct Hi as [_ Hq _ Hlen]. unfold requests_conserved in Hq. rewrite Hrun, Hrep, Hr, Hh in Hq.
  destruct p as [w a wq rq cs ws log]. simpl in *. subst rq. destruct wq as [|[r k] wq].
  - simpl in Hq. apply Permutation_nil_r in Hq. apply app_nil in Hq as [Hw Hhl].
    apply list_elem_of_split in Hc as (pre & post & ->).
    rewrite !flat_map_middle in *. apply app_nil in Hw as [_ [Hw _]%app_nil]. apply app_nil in Hhl as [_ [Hhl _]%app_nil].
    destruct c as [r|r|r it|r k]; try done. eexists. apply step_submit. simpl. unfold queue_depth. lia.
  - destruct ws as [|x ws]; [simpl in Hlen; lia|]. rewrite (Hid x) by (by left).
    eexists. apply (step_take _ _ _ _ _ _ _ [] ws).
Qed.

(** The counts of the runs are in range. *)
Definition counts_sound (p : pool) : Prop :=
  forall r k, (r, k) ∈ pool_log p -> 0 <= rq_num r -> 0 <= k <= rq_num r.

Lemma run_request_count w a r w' a' k : run_request w a r = (w', a', k) -> 0 <= rq_num r -> 0 <= k <= rq_num r.
Proof.
  unfold run_request. destruct (a !! rq_nodes r) as [ns|]; [|intros [= _ _ <-]; lia].
  destruct (cpu_manager freq now fopen w ns (rq_start r) (rq_num r) true) as [[w1 ns1] k1] eqn:He.
  intros [= _ _ <-] Hn. by apply (kgm_manager_range (c := cpu_calls 1 freq now fopen)) in He as [? _].
Qed.
Lemma counts_step p p' : pool_step p p' -> counts_sound p -> counts_sound p'.
Proof.
  unfold counts_sound. intros Hst H. destruct Hst; cbn [pool_log] in *; try done.
  intros r1 k1 [Hin|[= -> ->]%list_elem_of_singleton]%elem_of_app; [by apply H|]. by eapply run_request_count.
Qed.
Lemma reachable_counts w a rs n p : rtc pool_step (pool_start w a rs n) p -> counts_sound p.
Proof.
  intros Hr. assert (counts_sound (pool_start w a rs n)) as Hs by (intros r k Hin; by apply elem_of_nil in Hin).
  revert Hs. induction Hr as [|p p1 p2 Hst _ IH]; [done|]. intros Hs. apply IH. by eapply counts_step.
Qed.

Lemma everyone_returned cs : (forall c, c ∈ cs -> returned c <> []) ->
  flat_map waiting cs = [] /\ flat_map holders cs = [] /\ flat_map held cs = [] /\
  (flat_map returned cs).*1 = flat_map request_of cs.
Proof.
  induction cs as [|c cs IH]; intros H; [done|].
  destruct IH as (H1 & H2 & H3 & H4); [intros d Hd; apply H; by right|].
  specialize (H c ltac:(by left)). destruct c; try done. simpl. rewrite H1, H2, H3. by rewrite <- H4.
Qed.

(** ** Properties *)



(** Two callers may pass an answer neither of them waits for back and forth:
    progress is not termination. *)
Lemma answers_may_circulate w a it pre r post ws log : it.1 <> r ->
  rtc pool_step (mkPool w a [] [it] (pre ++ Waiting r :: post) ws log)
                (mkPool w a [] [it] (pre ++ Waiting r :: post) ws log) /\
  exists p, pool_step (mkPool w a [] [it] (pre ++ Waiting r :: post) ws log) p /\
    pool_step p (mkPool w a [] [it] (pre ++ Waiting r :: post) ws log).
Proof.
  intros Hne. split; [done|]. eexists. split; [by apply step_other|]. apply (step_put_back _ _ _ []). simpl.
  unfold queue_depth. lia.
Qed.
End Pool.

(** ** Witnesses: a call on no nodes *)

Definition no_request : request := mkRequest 0 0 0.
Definition one_run (w : outcome cpu_world) : pool :=
  mkPool w ∅ [] [] [Returned no_request 0] [Idle] [(no_request, 0)].
Lemma one_run_reached freq now fopen w :
  rtc (pool_step freq now fopen) (pool_start w ∅ [no_request] 1) (one_run w).
Proof.
  eapply rtc_l; [apply (step_submit _ _ _ w ∅ [] [] [] no_request [] [Idle] []); unfold queue_depth; simpl; lia|].
  eapply rtc_l; [apply (step_take _ _ _ w ∅ no_request 0 [] [] [Waiting no_request] [] [])|].
  eapply rtc_l; [apply (step_run _ _ _ w ∅ [] [] [Waiting no_request] [] no_request [] [] w ∅ 0); done|].
  eapply rtc_l; [apply (step_report _ _ _ w ∅ [] [] [Waiting no_request] [] (no_request, 0) []); unfold queue_depth; simpl; lia|].
  eapply rtc_l; [apply (step_mine _ _ _ w ∅ [] no_request 0 [] [] [] [Idle])|]. done.
Qed.
