(* ===== verification/KgmCpuVendor.v ===== *)
(** * Kernels of the vendor libraries on the CPU graph manager: IMGLIB
    (source/dvp/dvp_kgm_cpu/dvp_kgm_cpu.c)

    A build with [DVP_USE_IMGLIB], [DVP_USE_VLIB] or [DVP_USE_YUV] has a case of
    the manager's [switch] for each kernel of the library.  A case computes row
    pointers, sizes and strides, stages rows in a temporary buffer where the
    library wants them packed, and calls the library.  The libraries are not in
    the repository: a case is a program over their calls, whose trace is what
    the manager is responsible for, and an environment answers the calls.  The
    kernels' numbers and some parameter structures are in the libraries'
    headers, so kernels and members go by name here.  Arguments are the values
    before the conversion to the library's parameter types; pointer
    arithmetic is in bytes. *)
From S2P Require Import Prelude DvpTypes Image ImageAlloc.
From stdpp Require Import strings.

Open Scope string_scope.
Open Scope list_scope.
Open Scope Z_scope.
Open Scope bool_scope.

(** ** Programs over library calls *)

(** [Store]: an assignment to a member of the node; [Count]: [processed += d]. *)
Inductive event : Set :=
  | Call (f : string) (args : list Z)
  | Memcpy (dst src n : Z)
  | Memset (dst v n : Z)
  | Load (a : Z)
  | Malloc (n : Z)
  | Calloc (n : Z)
  | Memalign (align n : Z)
  | Free (a : Z)
  | Store (member : string) (v : Z)
  | Count (d : Z).

(** What the last event of a trace returned, and what it wrote through the
    pointer it was given for a result *)
Record env : Type := mkEnv { returns : list event -> Z; writes : list event -> Z }.

Definition M (A : Type) : Type := env -> list event -> outcome (A * list event).
#[export] Instance M_ret : MRet M := fun A a _ log => Done (a, log).
#[export] Instance M_bind : MBind M := fun A B f m e log =>
  match m e log with Done (a, log) => f a e log | Undef => Undef | NoFuel => NoFuel end.

Definition stop : M unit := mret tt.
Definition undef {A} : M A := fun _ _ => Undef.
Definition no_fuel {A} : M A := fun _ _ => NoFuel.
Definition emit (ev : event) : M unit := fun _ log => Done (tt, log ++ [ev]).
Definition ask (ev : event) : M Z := fun e log => Done (returns e (log ++ [ev]), log ++ [ev]).
Definition ask_out (ev : event) : M (Z * Z) := fun e log =>
  Done ((returns e (log ++ [ev]), writes e (log ++ [ev])), log ++ [ev]).

Definition malloc (n : Z) : M Z := ask (Malloc n).
Definition calloc (count size : Z) : M Z := ask (Calloc (count * size)).
(** [None]: the status is not 0. *)
Definition posix_memalign (align n : Z) : M (option Z) :=
  '(status, a) ← ask_out (Memalign align n); mret (if status =? 0 then Some a else None).
(** Into a buffer of [malloc], which no case tests for null *)
Definition memcpy_to (buffer off src n : Z) : M unit :=
  if buffer =? 0 then undef else emit (Memcpy (buffer + off) src n).
(** An integer division; the quotient of two unsigned numbers is the same. *)
Definition quotient (a b : Z) : M Z :=
  if (b =? 0) || ((a =? - 2 ^ 31) && (b =? -1)) then undef else mret (Z.quot a b).
(** A node that fails does not count. *)
Definition DVP_ERROR_NO_MEMORY : Z := -9.
Definition reject (err : Z) : M unit := emit (Store "header.error" err);; emit (Count (-1)).

(** [for (i = from; i < n; i++)], with what the body carries along *)
Fixpoint each {S} (body : Z -> S -> M S) (l : list Z) (s : S) : M S :=
  match l with [] => mret s | i :: l => s ← body i s; each body l s end.
Definition count_with {S} (n : Z) (body : Z -> S -> M S) (s : S) : M S := each body (seqZ 0 n) s.
Definition count_from (from n : Z) (body : Z -> M unit) : M unit :=
  each (fun i _ => body i) (seqZ from (n - from)) tt.
Definition count (n : Z) (body : Z -> M unit) : M unit := count_from 0 n body.
Definition rows {S} (n : Z) (body : S -> M S) (s : S) : M S := count_with n (fun _ => body) s.

(** [blockHeight = 16; for (y = 0; y < n; y += blockHeight)], whose body first
    cuts [blockHeight], a [DVP_U08], at the end *)
Fixpoint block_loop {S} (fuel : nat) (n : Z) (body : Z -> Z -> S -> M S) (y blockHeight : Z) (s : S) : M S :=
  match fuel with
  | O => no_fuel
  | Datatypes.S fuel =>
      if y <? n then
        let blockHeight := if n <? u32 (y + blockHeight) then u8 (n - y) else blockHeight in
        s ← body y blockHeight s;
        block_loop fuel n body (u32 (y + blockHeight)) blockHeight s
      else mret s
  end.
Definition row_blocks {S} (n : Z) (body : Z -> Z -> S -> M S) (s : S) : M S :=
  block_loop (Z.to_nat (n / 16) + 2) n body 0 16 s.
(** [for (y = 0; y < n; y += step)] *)
Fixpoint step_loop (fuel : nat) (n step : Z) (body : Z -> M unit) (y : Z) : M unit :=
  match fuel with
  | O => no_fuel
  | S fuel => if y <? n then body y;; step_loop fuel n step body (u32 (y + step)) else mret tt
  end.
Definition every (n step : Z) (body : Z -> M unit) : M unit := step_loop (Z.to_nat (n / step) + 2) n step body 0.

(** ** The parameters of a node

    [kn]: the node's kernel; [img], [buf], [num]: the members of its structure
    that are images, buffers (or bounds) and numbers; [addr]: the address of a
    member, a local or a table of constants; [constant]: constants of the
    libraries' headers. *)
Record params : Type := mkParams {
  kn : string; img : string -> DVP_Image_t; buf : string -> DVP_Buffer_t;
  num : string -> Z; addr : string -> Z; constant : string -> Z }.
Definition bdata (p : params) (f : string) : Z := b_pData (buf p f).
(** [pData[k]] *)
Definition ptr (i : DVP_Image_t) (k : Z) : Z := default 0 (aget (pData i) k).

Definition plane_ptr (i : DVP_Image_t) (k : Z) : M Z :=
  match aget (pData i) k with Some a => mret a | None => undef end.

Definition s16 (z : Z) : Z := let m := u16 z in if m <? 2 ^ 15 then m else m - 2 ^ 16.

(** The body of the first case with a label *)
Fixpoint case_of {A} (cases : list (list string * A)) (k : string) : option A :=
  match cases with
  | [] => None
  | (labels, body) :: cases => if existsb (String.eqb k) labels then Some body else case_of cases k
  end.

(** ** The cases of IMGLIB *)

Definition exec_IMG_SOBEL_3x3_8 (p : params) : M unit :=
  let input := img p "input" in
  let output := img p "output" in
  if y_stride input =? s32 (width input) then
    emit (Call "IMG_sobel_3x3_8" [ptr input 0; ptr output 0; width input; height input])
  else
    tmpBuf ← malloc (u32 (width input * (16 + (3 - 1))));
    let out := ptr output 0 in
    let newheight := u32 (height input - (3 - 1)) in
    row_blocks newheight (fun y blockHeight _ =>
      count (blockHeight + (3 - 1)) (fun i =>
        memcpy_to tmpBuf (u32 (i * width input)) (ptr input 0 + u32 (u32 (y + i) * u32 (y_stride input)))
          (width input));;
      emit (Call "IMG_sobel_3x3_8" [tmpBuf; out + u32 (y * u32 (y_stride output)); width input;
        blockHeight + 2])) tt;;
    emit (Free tmpBuf).

Definition exec_IMG_SOBEL_3x3_16s (p : params) : M unit :=
  let input := img p "input" in
  let output := img p "output" in
  emit (Call "IMG_sobel_3x3_16s" [ptr input 0; ptr output 0; s16 (width input); s16 (height input)]).

Definition exec_IMG_SOBEL_5x5_16s (p : params) : M unit :=
  let input := img p "input" in
  let output := img p "output" in
  emit (Call "IMG_sobel_5x5_16s" [ptr input 0; ptr output 0; s16 (width input); s16 (height input)]).

Definition exec_IMG_SOBEL_7x7_16s (p : params) : M unit :=
  let input := img p "input" in
  let output := img p "output" in
  emit (Call "IMG_sobel_7x7_16s" [ptr input 0; ptr output 0; s16 (width input); s16 (height input)]).

Definition exec_IMG_CONV_3x3 (p : params) : M unit :=
  let input := img p "input" in
  let output := img p "output" in
  let mask := img p "mask" in
  let filterSize := 3 in
  let newheight := u32 (height input - u32 (filterSize - 1)) in
  let in_ := ptr input 0 in
  let out := ptr output 0 in
  if s32 (width input) =? y_stride input then
    _ ← rows newheight (fun '(in_, out) =>
      emit (Call "IMG_conv_3x3_i8_c8s" [in_; out; s16 (width input); s16 (y_stride input); ptr mask 0;
        num p "shiftMask"]);;
      mret (in_ + y_stride input, out + y_stride output)) (in_, out);
    stop
  else
    tmpBuf ← malloc (u32 (width input * (16 + u32 (filterSize - 1))));
    _ ← row_blocks newheight (fun y blockHeight out =>
      count (blockHeight + u32 (filterSize - 1)) (fun i =>
        memcpy_to tmpBuf (u32 (i * width input)) (ptr input 0 + u32 (u32 (y + i) * u32 (y_stride input)))
          (width input));;
      count_with blockHeight (fun i out =>
        emit (Call "IMG_conv_3x3_i8_c8s" [tmpBuf + u32 (i * width input); out; s16 (width input);
          s16 (y_stride input); ptr mask 0; num p "shiftMask"]);;
        mret (out + y_stride output)) out) out;
    emit (Free tmpBuf).

Definition exec_IMG_CONV_5x5 (p : params) : M unit :=
  let input := img p "input" in
  let output := img p "output" in
  let mask := img p "mask" in
  let filterSize := 5 in
  let newheight := u32 (height input - u32 (filterSize - 1)) in
  let in_ := ptr input 0 in
  let out := ptr output 0 in
  _ ← rows newheight (fun '(in_, out) =>
    emit (Call "IMG_conv_5x5_i8_c8s" [in_; out; s16 (u32 (width input - u32 (filterSize - 1)));
      s16 (y_stride input); ptr mask 0; s16 (num p "shiftMask")]);;
    mret (in_ + y_stride input, out + y_stride output)) (in_, out);
  stop.

Definition exec_CANNY_IMAGE_SMOOTHING (p : params) : M unit :=
  let input := img p "input" in
  let output := img p "output" in
  let mask := img p "mask" in
  let filterSize := 7 in
  let newheight := u32 (height input - u32 (filterSize - 1)) in
  let in_ := ptr input 0 in
  let out := ptr output 0 in
  _ ← rows newheight (fun '(in_, out) =>
    emit (Call "IMG_conv_7x7_i8_c8s" [in_; out; s16 (u32 (width input - u32 (filterSize - 1)));
      s16 (y_stride input); ptr mask 0; s16 (num p "shiftMask")]);;
    mret (in_ + y_stride input, out + y_stride output)) (in_, out);
  stop.

Definition exec_IMG_CONV_3x3_I16s_C16 (p : params) : M unit :=
  let input := img p "input" in
  let output := img p "output" in
  let mask := img p "mask" in
  let filterSize := 3 in
  let newheight := u32 (height input - u32 (filterSize - 1)) in
  let in_ := ptr input 0 in
  let out := ptr output 0 in
  let inStride := u32 (y_stride input) in
  let outStride := u32 (y_stride output) in
  _ ← rows newheight (fun '(in_, out) =>
    emit (Call "IMG_conv_3x3_i16s_c16s" [in_; out; s16 (u32 (width input - u32 (filterSize - 1)));
      s32 (width input); ptr mask 0; num p "shiftMask"]);;
    mret (in_ + inStride, out + outStride)) (in_, out);
  stop.

Definition exec_IMG_CONV_5x5_I8_C16 (p : params) : M unit :=
  let input := img p "input" in
  let output := img p "output" in
  let mask := img p "mask" in
  let filterSize := 5 in
  let newheight := u32 (height input - u32 (filterSize - 1)) in
  let in_ := ptr input 0 in
  let out := ptr output 0 in
  let inStride := u32 (y_stride input) in
  let outStride := u32 (y_stride output) in
  _ ← rows newheight (fun '(in_, out) =>
    emit (Call "IMG_conv_5x5_i8_c16s" [in_; out; s16 (u32 (width input - u32 (filterSize - 1)));
      s16 (width input); ptr mask 0; s16 (num p "shiftMask")]);;
    mret (in_ + inStride, out + outStride)) (in_, out);
  stop.

Definition exec_IMG_CONV_5x5_I16s_C16 (p : params) : M unit :=
  let input := img p "input" in
  let output := img p "output" in
  let mask := img p "mask" in
  let filterSize := 5 in
  let newheight := u32 (height input - u32 (filterSize - 1)) in
  let in_ := ptr input 0 in
  let out := ptr output 0 in
  let inStride := u32 (y_stride input) in
  let outStride := u32 (y_stride output) in
  _ ← rows newheight (fun '(in_, out) =>
    emit (Call "IMG_conv_5x5_i16s_c16s" [in_; out; s16 (u32 (width input - u32 (filterSize - 1)));
      s16 (width input); ptr mask 0; s16 (num p "shiftMask")]);;
    mret (in_ + inStride, out + outStride)) (in_, out);
  stop.

Definition exec_IMG_CONV_7x7_I8_C16 (p : params) : M unit :=
  let input := img p "input" in
  let output := img p "output" in
  let mask := img p "mask" in
  let filterSize := 7 in
  let newheight := u32 (height input - u32 (filterSize - 1)) in
  let in_ := ptr input 0 in
  let out := ptr output 0 in
  let inStride := u32 (y_stride input) in
  let outStride := u32 (y_stride output) in
  _ ← rows newheight (fun '(in_, out) =>
    emit (Call "IMG_conv_7x7_i8_c16s" [in_; out; s16 (u32 (width input - u32 (filterSize - 1)));
      s16 (width input); ptr mask 0; s16 (num p "shiftMask")]);;
    mret (in_ + inStride, out + outStride)) (in_, out);
  stop.

Definition exec_IMG_CONV_7x7_I16s_C16 (p : params) : M unit :=
  let input := img p "input" in
  let output := img p "output" in
  let mask := img p "mask" in
  let filterSize := 7 in
  let newheight := u32 (height input - u32 (filterSize - 1)) in
  let in_ := ptr input 0 in
  let out := ptr output 0 in
  let inStride := u32 (y_stride input) in
  let outStride := u32 (y_stride output) in
  _ ← rows newheight (fun '(in_, out) =>
    emit (Call "IMG_conv_7x7_i16s_c16s" [in_; out; s16 (u32 (width input - u32 (filterSize - 1)));
      s16 (width input); ptr mask 0; s16 (num p "shiftMask")]);;
    mret (in_ + inStride, out + outStride)) (in_, out);
  stop.

Definition exec_IMG_CONV_11x11 (p : params) : M unit :=
  let input := img p "input" in
  let output := img p "output" in
  let mask := img p "mask" in
  let filterSize := 11 in
  let newheight := u32 (height input - u32 (filterSize - 1)) in
  let in_ := ptr input 0 in
  let out := ptr output 0 in
  let inStride := u32 (y_stride input) in
  let outStride := u32 (y_stride output) in
  _ ← rows newheight (fun '(in_, out) =>
    emit (Call "IMG_conv_11x11_i8_c8s" [in_; out; s16 (u32 (width input - u32 (filterSize - 1)));
      s16 (width input); ptr mask 0; s16 (num p "shiftMask")]);;
    mret (in_ + inStride, out + outStride)) (in_, out);
  stop.

Definition exec_IMG_CONV_11x11_I16s_C16 (p : params) : M unit :=
  let input := img p "input" in
  let output := img p "output" in
  let mask := img p "mask" in
  let filterSize := 11 in
  let newheight := u32 (height input - u32 (filterSize - 1)) in
  let in_ := ptr input 0 in
  let out := ptr output 0 in
  let inStride := u32 (y_stride input) in
  let outStride := u32 (y_stride output) in
  _ ← rows newheight (fun '(in_, out) =>
    emit (Call "IMG_conv_11x11_i16s_c16s" [in_; out; s16 (u32 (width input - u32 (filterSize - 1)));
      s16 (width input); ptr mask 0; s16 (num p "shiftMask")]);;
    mret (in_ + inStride, out + outStride)) (in_, out);
  stop.

Definition exec_IMG_CORR_3x3 (p : params) : M unit :=
  let input := img p "input" in
  let output := img p "output" in
  let mask := img p "mask" in
  let filterSize := 3 in
  let newheight := u32 (height input - u32 (filterSize - 1)) in
  let in_ := ptr input 0 in
  let out := ptr output 0 in
  let inStride := u32 (y_stride input) in
  let outStride := u32 (y_stride output) in
  _ ← rows newheight (fun '(in_, out) =>
    emit (Call "IMG_corr_3x3_i8_c8" [in_; out; u32 (u32 (s32 (width input)) - u32 (filterSize - 1));
      s32 (width input); ptr mask 0; num p "shift"; num p "round"]);;
    mret (in_ + inStride, out + outStride)) (in_, out);
  stop.

Definition exec_IMG_CORR_3x3_I8_C16s (p : params) : M unit :=
  let input := img p "input" in
  let output := img p "output" in
  let mask := img p "mask" in
  let filterSize := 3 in
  let newheight := u32 (height input - u32 (filterSize - 1)) in
  let in_ := ptr input 0 in
  let out := ptr output 0 in
  let inStride := u32 (y_stride input) in
  let outStride := u32 (y_stride output) in
  _ ← rows newheight (fun '(in_, out) =>
    emit (Call "IMG_corr_3x3_i8_c16s" [in_; out; u32 (u32 (s16 (width input)) - u32 (filterSize - 1));
      s16 (width input); ptr mask 0]);;
    mret (in_ + inStride, out + outStride)) (in_, out);
  stop.

Definition exec_IMG_CORR_3x3_I16s_C16s (p : params) : M unit :=
  let input := img p "input" in
  let output := img p "output" in
  let mask := img p "mask" in
  let filterSize := 3 in
  let newheight := u32 (height input - u32 (filterSize - 1)) in
  let in_ := ptr input 0 in
  let out := ptr output 0 in
  let inStride := u32 (y_stride input) in
  let outStride := u32 (y_stride output) in
  _ ← rows newheight (fun '(in_, out) =>
    emit (Call "IMG_corr_3x3_i16s_c16s" [in_; out; u32 (u32 (s16 (width input)) - u32 (filterSize - 1));
      s16 (width input); ptr mask 0; s16 (num p "shift"); num p "round"]);;
    mret (in_ + inStride, out + outStride)) (in_, out);
  stop.

Definition exec_IMG_CORR_5x5_I16s_C16s (p : params) : M unit :=
  let input := img p "input" in
  let output := img p "output" in
  let mask := img p "mask" in
  let filterSize := 5 in
  let newheight := u32 (height input - u32 (filterSize - 1)) in
  let in_ := ptr input 0 in
  let out := ptr output 0 in
  let inStride := u32 (y_stride input) in
  let outStride := u32 (y_stride output) in
  _ ← rows newheight (fun '(in_, out) =>
    emit (Call "IMG_corr_5x5_i16s_c16s" [in_; out; u32 (u32 (s16 (width input)) - u32 (filterSize - 1));
      s16 (width input); ptr mask 0; s16 (num p "shift"); num p "round"]);;
    mret (in_ + inStride, out + outStride)) (in_, out);
  stop.

Definition exec_IMG_CORR_11x11_I8_C16s (p : params) : M unit :=
  let input := img p "input" in
  let output := img p "output" in
  let mask := img p "mask" in
  let filterSize := 11 in
  let newheight := u32 (height input - u32 (filterSize - 1)) in
  let in_ := ptr input 0 in
  let out := ptr output 0 in
  let inStride := u32 (y_stride input) in
  let outStride := u32 (y_stride output) in
  _ ← rows newheight (fun '(in_, out) =>
    emit (Call "IMG_corr_11x11_i8_c16s" [in_; out; u32 (u32 (s16 (width input)) - u32 (filterSize - 1));
      s16 (width input); ptr mask 0]);;
    mret (in_ + inStride, out + outStride)) (in_, out);
  stop.

Definition exec_IMG_CORR_11x11_I16s_C16s (p : params) : M unit :=
  let input := img p "input" in
  let output := img p "output" in
  let mask := img p "mask" in
  let filterSize := 11 in
  let newheight := u32 (height input - u32 (filterSize - 1)) in
  let in_ := ptr input 0 in
  let out := ptr output 0 in
  let inStride := u32 (y_stride input) in
  let outStride := u32 (y_stride output) in
  _ ← rows newheight (fun '(in_, out) =>
    emit (Call "IMG_corr_11x11_i16s_c16s" [in_; out; u32 (u32 (s16 (width input)) - u32 (filterSize - 1));
      s16 (width input); ptr mask 0; s16 (num p "shift"); num p "round"]);;
    mret (in_ + inStride, out + outStride)) (in_, out);
  stop.

Definition exec_IMG_CORR_GEN_I16s_C16s (p : params) : M unit :=
  let input := img p "input" in
  let output := img p "output" in
  let mask := img p "mask" in
  let filterSize := u32 (num p "m") in
  let newheight := u32 (height input - u32 (filterSize - 1)) in
  let in_ := ptr input 0 in
  let out := ptr output 0 in
  let inStride := u32 (y_stride input) in
  let outStride := u32 (y_stride output) in
  _ ← rows newheight (fun '(in_, out) =>
    emit (Call "IMG_corr_gen_i16s_c16s" [in_; ptr mask 0; out; filterSize; s16 (width input)]);;
    mret (in_ + inStride, out + outStride)) (in_, out);
  stop.

Definition exec_IMG_CORR_GEN_IQ (p : params) : M unit :=
  let input := img p "input" in
  let output := img p "output" in
  let mask := img p "mask" in
  let filterSize := u32 (num p "m") in
  let newheight := u32 (height input - u32 (filterSize - 1)) in
  let in_ := ptr input 0 in
  let out := ptr output 0 in
  let inStride := u32 (y_stride input) in
  let outStride := u32 (y_stride output) in
  _ ← rows newheight (fun '(in_, out) =>
    emit (Call "IMG_corr_gen_iq" [in_; ptr mask 0; out; filterSize; s16 (width input); num p "x_qpt";
      num p "h_qpt"; num p "y_qpt"]);;
    mret (in_ + inStride, out + outStride)) (in_, out);
  stop.

Definition exec_IMG_HISTOGRAM_8 (p : params) : M unit :=
  let input := img p "input" in
  emit (Call "IMG_histogram_8" [ptr input 0; u32 (width input * height input); num p "binWeight";
    bdata p "histArray"; bdata p "hOut"]).

Definition exec_IMG_HISTOGRAM_16 (p : params) : M unit :=
  let input := img p "input" in
  emit (Memset (bdata p "histArray") 0 (Z.shiftl 1 (num p "numBins") * 4));;
  emit (Call "IMG_histogram_16" [ptr input 0; u32 (width input * height input); num p "binWeight";
    bdata p "histArray"; bdata p "hOut"; s32 (num p "numBins")]).

Definition exec_IMG_CLIPPING_16 (p : params) : M unit :=
  let inMag := img p "inMag" in
  let output := img p "output" in
  emit (Call "IMG_clipping_16s" [ptr inMag 0; s16 (height inMag); s16 (width inMag); ptr output 0;
    s16 (num p "hiThresh"); s16 (num p "loThresh")]).

Definition exec_IMG_MEDIAN_3x3_8 (p : params) : M unit :=
  let input := img p "input" in
  let output := img p "output" in
  let in_ := ptr input 0 in
  let out := ptr output 0 in
  let newheight := u32 (height input - 2) in
  let inStride := u32 (y_stride input) in
  let outStride := u32 (y_stride output) in
  _ ← rows newheight (fun '(in_, out) =>
    emit (Call "IMG_median_3x3_8" [in_; s32 (width input); out]);;
    mret (in_ + inStride, out + outStride)) (in_, out);
  stop.

Definition exec_IMG_MEDIAN_3x3_16s (p : params) : M unit :=
  let input := img p "input" in
  let output := img p "output" in
  let in_ := ptr input 0 in
  let out := ptr output 0 in
  let newheight := u32 (height input - 2) in
  let inStride := u32 (y_stride input) in
  let outStride := u32 (y_stride output) in
  _ ← rows newheight (fun '(in_, out) =>
    emit (Call "IMG_median_3x3_16s" [in_; s32 (width input); out]);;
    mret (in_ + inStride, out + outStride)) (in_, out);
  stop.

Definition exec_IMG_PIX_EXPAND (p : params) : M unit :=
  let input := img p "input" in
  let output := img p "output" in
  emit (Call "IMG_pix_expand" [s32 (u32 (width input * height input)); ptr input 0; ptr output 0]).

Definition exec_IMG_PIX_SAT (p : params) : M unit :=
  let input := img p "input" in
  let output := img p "output" in
  emit (Call "IMG_pix_sat" [s32 (u32 (width input * height input)); ptr input 0; ptr output 0]).

Definition exec_IMG_YC_DEMUX_BE16_8 (p : params) : M unit :=
  let input := img p "input" in
  let output1 := img p "output1" in
  let output2 := img p "output2" in
  let output3 := img p "output3" in
  let in_ := ptr input 0 in
  let y := ptr output1 0 in
  let cr := ptr output2 0 in
  let cb := ptr output3 0 in
  count (height input) (fun i =>
    emit (Call "IMG_yc_demux_be16_8" [width input; in_ + u32 (i * u32 (y_stride input));
      y + u32 (i * u32 (y_stride output1)); cr + u32 (i * u32 (y_stride output2));
      cb + u32 (i * u32 (y_stride output3))])).

Definition exec_IMG_YC_DEMUX_LE16_8 (p : params) : M unit :=
  let input := img p "input" in
  let output1 := img p "output1" in
  let output2 := img p "output2" in
  let output3 := img p "output3" in
  let in_ := ptr input 0 in
  let y := ptr output1 0 in
  let cr := ptr output2 0 in
  let cb := ptr output3 0 in
  count (height input) (fun i =>
    emit (Call "IMG_yc_demux_le16_8" [width input; in_ + u32 (i * u32 (y_stride input));
      y + u32 (i * u32 (y_stride output1)); cr + u32 (i * u32 (y_stride output2));
      cb + u32 (i * u32 (y_stride output3))])).

Definition exec_IMG_YUV422p_TO_RGB565 (p : params) : M unit :=
  let input := img p "input" in
  let output := img p "output" in
  let y := ptr input 0 in
  let rgb := ptr output 0 in
  let '(cb, cr) := if color input =? FOURCC_YU16 then (ptr input 1, ptr input 2) else (ptr input 2, ptr input 1) in
  emit (Call "IMG_ycbcr422pl_to_rgb565" [addr p "yuv2rgbMatrix"; y; cb; cr; rgb;
    u32 (width input * height input)]);;
  emit (Count 1).

Definition exec_IMG_SAD_8x8 (p : params) : M unit :=
  let input := img p "input" in
  let output := img p "output" in
  let refImg := img p "refImg" in
  let filterSize := 8 in
  let newheight := u32 (height input - u32 (filterSize - 1)) in
  let in_ := ptr input 0 in
  let out := ptr output 0 in
  emit (Call "IMG_sad_8x8_i8_c8" [in_; ptr refImg 0; out; s32 (width input); s32 newheight; num p "shiftMask";
    0; 8]).

Definition exec_IMG_SAD_16x16 (p : params) : M unit :=
  let input := img p "input" in
  let output := img p "output" in
  let refImg := img p "refImg" in
  let filterSize := 16 in
  let newheight := u32 (height input - u32 (filterSize - 1)) in
  let in_ := ptr input 0 in
  let out := ptr output 0 in
  emit (Call "IMG_sad_16x16_i8_c8" [in_; ptr refImg 0; out; s32 (width input); s32 newheight;
    num p "shiftMask"; 0; 8]).

Definition exec_IMG_SAD_3x3 (p : params) : M unit :=
  let input := img p "input" in
  let output := img p "output" in
  let refImg := img p "refImg" in
  let filterSize := 3 in
  let newheight := u32 (height input - u32 (filterSize - 1)) in
  let in_ := ptr input 0 in
  let out := ptr output 0 in
  emit (Call "IMG_sad_3x3_i8_c8" [in_; ptr refImg 0; out; s32 (width input); s32 newheight; 0; 3]).

Definition exec_IMG_SAD_5x5 (p : params) : M unit :=
  stop.

Definition exec_IMG_SAD_7x7 (p : params) : M unit :=
  let input := img p "input" in
  let output := img p "output" in
  let refImg := img p "refImg" in
  let filterSize := 7 in
  let newheight := u32 (height input - u32 (filterSize - 1)) in
  let in_ := ptr input 0 in
  let out := ptr output 0 in
  emit (Call "IMG_sad_7x7_i8_c8" [in_; ptr refImg 0; out; s32 (width input); s32 newheight; 0; 7]).

Definition exec_IMG_MAD_8x8 (p : params) : M unit :=
  let input := img p "input" in
  let output := img p "output" in
  let refImg := img p "refImg" in
  let filterSize := 8 in
  let newheight := u32 (height input - u32 (filterSize - 1)) in
  let in_ := ptr input 0 in
  let out := ptr output 0 in
  emit (Call "IMG_mad_8x8" [in_; ptr refImg 0; s32 (width input);
    u32 (u32 (s32 (width input)) - u32 (filterSize - 1)); s32 newheight; out]).

Definition exec_IMG_MAD_16x16 (p : params) : M unit :=
  let input := img p "input" in
  let output := img p "output" in
  let refImg := img p "refImg" in
  let filterSize := 16 in
  let newheight := u32 (height input - u32 (filterSize - 1)) in
  let in_ := ptr input 0 in
  let out := ptr output 0 in
  emit (Call "IMG_mad_16x16" [in_; ptr refImg 0; s32 (width input);
    u32 (u32 (s32 (width input)) - u32 (filterSize - 1)); s32 newheight; out]).

Definition exec_IMG_THR_GT2MAX_8 (p : params) : M unit :=
  let input := img p "input" in
  let output := img p "output" in
  let in_ := ptr input 0 in
  let out := ptr output 0 in
  _ ← rows (height input) (fun '(in_, out) =>
    emit (Call "IMG_thr_gt2max_8" [in_; out; s16 (width input); 1; u8 (num p "thresh")]);;
    mret (in_ + y_stride input, out + y_stride output)) (in_, out);
  stop.

Definition exec_IMG_THR_GT2MAX_16 (p : params) : M unit :=
  let input := img p "input" in
  let output := img p "output" in
  let in_ := ptr input 0 in
  let out := ptr output 0 in
  _ ← rows (height input) (fun '(in_, out) =>
    emit (Call "IMG_thr_gt2max_16" [in_; out; s16 (width input); 1; u16 (num p "thresh")]);;
    mret (in_ + y_stride input, out + y_stride output)) (in_, out);
  stop.

Definition exec_IMG_THR_GT2THR_8 (p : params) : M unit :=
  let input := img p "input" in
  let output := img p "output" in
  let in_ := ptr input 0 in
  let out := ptr output 0 in
  _ ← rows (height input) (fun '(in_, out) =>
    emit (Call "IMG_thr_gt2thr_8" [in_; out; s16 (width input); 1; u8 (num p "thresh")]);;
    mret (in_ + y_stride input, out + y_stride output)) (in_, out);
  stop.

Definition exec_IMG_THR_GT2THR_16 (p : params) : M unit :=
  let input := img p "input" in
  let output := img p "output" in
  let in_ := ptr input 0 in
  let out := ptr output 0 in
  _ ← rows (height input) (fun '(in_, out) =>
    emit (Call "IMG_thr_gt2thr_16" [in_; out; s16 (width input); 1; u16 (num p "thresh")]);;
    mret (in_ + y_stride input, out + y_stride output)) (in_, out);
  stop.

Definition exec_IMG_THR_LE2MIN_8 (p : params) : M unit :=
  let input := img p "input" in
  let output := img p "output" in
  let in_ := ptr input 0 in
  let out := ptr output 0 in
  _ ← rows (height input) (fun '(in_, out) =>
    emit (Call "IMG_thr_le2min_8" [in_; out; s16 (width input); 1; u8 (num p "thresh")]);;
    mret (in_ + y_stride input, out + y_stride output)) (in_, out);
  stop.

Definition exec_IMG_THR_LE2MIN_16 (p : params) : M unit :=
  let input := img p "input" in
  let output := img p "output" in
  let in_ := ptr input 0 in
  let out := ptr output 0 in
  _ ← rows (height input) (fun '(in_, out) =>
    emit (Call "IMG_thr_le2min_16" [in_; out; s16 (width input); 1; u16 (num p "thresh")]);;
    mret (in_ + y_stride input, out + y_stride output)) (in_, out);
  stop.

Definition exec_IMG_THR_LE2THR_8 (p : params) : M unit :=
  let input := img p "input" in
  let output := img p "output" in
  let in_ := ptr input 0 in
  let out := ptr output 0 in
  _ ← rows (height input) (fun '(in_, out) =>
    emit (Call "IMG_thr_le2thr_8" [in_; out; s16 (width input); 1; u8 (num p "thresh")]);;
    mret (in_ + y_stride input, out + y_stride output)) (in_, out);
  stop.

Definition exec_IMG_THR_LE2THR_16 (p : params) : M unit :=
  let input := img p "input" in
  let output := img p "output" in
  let in_ := ptr input 0 in
  let out := ptr output 0 in
  _ ← rows (height input) (fun '(in_, out) =>
    emit (Call "IMG_thr_le2thr_16" [in_; out; s16 (width input); 1; u16 (num p "thresh")]);;
    mret (in_ + y_stride input, out + y_stride output)) (in_, out);
  stop.

Definition exec_IMG_BOUNDARY_8 (p : params) : M unit :=
  let input := img p "input" in
  emit (Call "IMG_boundary_8" [ptr input 0; s32 (height input); s32 (width input); bdata p "outCoord";
    bdata p "outGray"]).

Definition exec_IMG_BOUNDARY_16s (p : params) : M unit :=
  let input := img p "input" in
  emit (Call "IMG_boundary_16s" [ptr input 0; s32 (height input); s32 (width input); bdata p "outCoord";
    bdata p "outGray"]).

Definition exec_IMG_PERIMETER_8 (p : params) : M unit :=
  let input := img p "input" in
  let output := img p "output" in
  let in_ := ptr input 0 + y_stride input in
  let out := ptr output 0 in
  _ ← rows (u32 (height input - 2)) (fun '(in_, out) =>
    emit (Call "IMG_perimeter_8" [in_; s32 (width input); out]);;
    mret (in_ + y_stride input, out + y_stride output)) (in_, out);
  stop.

Definition exec_IMG_PERIMETER_16 (p : params) : M unit :=
  let input := img p "input" in
  let output := img p "output" in
  let in_ := ptr input 0 + y_stride input in
  let out := ptr output 0 in
  _ ← rows (u32 (height input - 2)) (fun '(in_, out) =>
    emit (Call "IMG_perimeter_16" [in_; s32 (width input); out]);;
    mret (in_ + 2 * Z.quot (y_stride input) 2, out + 2 * Z.quot (y_stride output) 2)) (in_, out);
  stop.

Definition exec_IMG_ERRDIFF_BIN_8 (p : params) : M unit :=
  let input := img p "input" in
  let output := img p "output" in
  let in_ := ptr input 0 in
  let tmp_height := 0 in
  let inStride := u32 (y_stride input) in
  let tmp_height := if s32 (width input) <? y_stride input then s32 (height input) else 1 in
  q1 ← quotient (height input) (u32 tmp_height);
  _ ← rows q1 (fun in_ =>
    emit (Call "IMG_errdif_bin_8" [in_; s32 (width input); tmp_height; ptr output 0; num p "thresh"]);;
    mret (in_ + inStride)) in_;
  stop.

Definition exec_IMG_ERRDIFF_BIN_16 (p : params) : M unit :=
  let input := img p "input" in
  let output := img p "output" in
  let in_ := ptr input 0 in
  let tmp_height := 0 in
  let inStride := u32 (y_stride input) in
  let tmp_height := if s32 (u32 (2 * width input)) <? y_stride input then s32 (height input) else 1 in
  q1 ← quotient (height input) (u32 tmp_height);
  _ ← rows q1 (fun in_ =>
    emit (Call "IMG_errdif_bin_16" [in_; s32 (width input); tmp_height; ptr output 0; num p "thresh"]);;
    mret (in_ + inStride)) in_;
  stop.

Definition exec_IMG_FDCT_8x8 (p : params) : M unit :=
  let input := img p "input" in
  let in_ := ptr input 0 in
  let inStride := u32 (y_stride input) in
  let num_fdcts := s32 (u32 (width input / 8 * (height input / 8))) in
  if inStride =? u32 (2 * width input) then emit (Call "IMG_fdct_8x8" [in_; num_fdcts])
  else stop.

Definition exec_IMG_IDCT_8x8_12Q4 (p : params) : M unit :=
  let input := img p "input" in
  let in_ := ptr input 0 in
  let inStride := u32 (y_stride input) in
  let num_fdcts := s32 (u32 (width input / 8 * (height input / 8))) in
  if inStride =? u32 (2 * width input) then emit (Call "IMG_idct_8x8_12q4" [in_; num_fdcts])
  else stop.

Definition exec_IMG_QUANTIZE_16 (p : params) : M unit :=
  let input := img p "input" in
  let data := ptr input 0 in
  let inStride := u32 (y_stride input) in
  let n_blocks := 0 in
  let loop_cnt := 0 in
  '(n_blocks, loop_cnt) ← (if inStride =? u32 (2 * width input)
    then q1 ← quotient (u32 (width input * height input)) (u32 (num p "block_size"));
         let n_blocks := q1 in let loop_cnt := 1 in mret (n_blocks, loop_cnt)
    else q2 ← quotient (width input) (u32 (num p "block_size"));
         let n_blocks := q2 in let loop_cnt := height input in mret (n_blocks, loop_cnt));
  _ ← rows loop_cnt (fun data =>
    emit (Call "IMG_quantize" [data; n_blocks; num p "block_size"; bdata p "recip_tbl"; num p "q_pt"]);;
    mret (data + inStride)) data;
  stop.

(** The labels of each case *)
Definition imglib_cases : list (list string * (params -> M unit)) :=
  [ (["DVP_KN_SOBEL_3x3_8"; "DVP_KN_IMG_SOBEL_3x3_8"], exec_IMG_SOBEL_3x3_8);
    (["DVP_KN_SOBEL_3x3_16s"; "DVP_KN_IMG_SOBEL_3x3_16s"], exec_IMG_SOBEL_3x3_16s);
    (["DVP_KN_SOBEL_5x5_16s"; "DVP_KN_IMG_SOBEL_5x5_16s"], exec_IMG_SOBEL_5x5_16s);
    (["DVP_KN_SOBEL_7x7_16s"; "DVP_KN_IMG_SOBEL_7x7_16s"], exec_IMG_SOBEL_7x7_16s);
    (["DVP_KN_CONV_3x3"; "DVP_KN_IMG_CONV_3x3"], exec_IMG_CONV_3x3);
    (["DVP_KN_CONV_5x5"; "DVP_KN_IMG_CONV_5x5"], exec_IMG_CONV_5x5);
    (["DVP_KN_CONV_7x7"; "DVP_KN_IMG_CONV_7x7"; "DVP_KN_CANNY_IMAGE_SMOOTHING"], exec_CANNY_IMAGE_SMOOTHING);
    (["DVP_KN_IMG_CONV_3x3_I16s_C16"], exec_IMG_CONV_3x3_I16s_C16);
    (["DVP_KN_IMG_CONV_5x5_I8_C16"], exec_IMG_CONV_5x5_I8_C16);
    (["DVP_KN_IMG_CONV_5x5_I16s_C16"], exec_IMG_CONV_5x5_I16s_C16);
    (["DVP_KN_IMG_CONV_7x7_I8_C16"], exec_IMG_CONV_7x7_I8_C16);
    (["DVP_KN_IMG_CONV_7x7_I16s_C16"], exec_IMG_CONV_7x7_I16s_C16);
    (["DVP_KN_IMG_CONV_11x11"], exec_IMG_CONV_11x11);
    (["DVP_KN_IMG_CONV_11x11_I16s_C16"], exec_IMG_CONV_11x11_I16s_C16);
    (["DVP_KN_IMG_CORR_3x3"], exec_IMG_CORR_3x3);
    (["DVP_KN_IMG_CORR_3x3_I8_C16s"], exec_IMG_CORR_3x3_I8_C16s);
    (["DVP_KN_IMG_CORR_3x3_I16s_C16s"], exec_IMG_CORR_3x3_I16s_C16s);
    (["DVP_KN_IMG_CORR_5x5_I16s_C16s"], exec_IMG_CORR_5x5_I16s_C16s);
    (["DVP_KN_IMG_CORR_11x11_I8_C16s"], exec_IMG_CORR_11x11_I8_C16s);
    (["DVP_KN_IMG_CORR_11x11_I16s_C16s"], exec_IMG_CORR_11x11_I16s_C16s);
    (["DVP_KN_IMG_CORR_GEN_I16s_C16s"], exec_IMG_CORR_GEN_I16s_C16s);
    (["DVP_KN_IMG_CORR_GEN_IQ"], exec_IMG_CORR_GEN_IQ);
    (["DVP_KN_IMG_HISTOGRAM_8"], exec_IMG_HISTOGRAM_8);
    (["DVP_KN_IMG_HISTOGRAM_16"], exec_IMG_HISTOGRAM_16);
    (["DVP_KN_IMG_CLIPPING_16"], exec_IMG_CLIPPING_16);
    (["DVP_KN_IMG_MEDIAN_3x3_8"], exec_IMG_MEDIAN_3x3_8);
    (["DVP_KN_IMG_MEDIAN_3x3_16s"], exec_IMG_MEDIAN_3x3_16s);
    (["DVP_KN_IMG_PIX_EXPAND"], exec_IMG_PIX_EXPAND);
    (["DVP_KN_IMG_PIX_SAT"], exec_IMG_PIX_SAT);
    (["DVP_KN_IMG_YC_DEMUX_BE16_8"], exec_IMG_YC_DEMUX_BE16_8);
    (["DVP_KN_IMG_YC_DEMUX_LE16_8"], exec_IMG_YC_DEMUX_LE16_8);
    (["DVP_KN_IMG_YUV422p_TO_RGB565"], exec_IMG_YUV422p_TO_RGB565);
    (["DVP_KN_IMG_SAD_8x8"], exec_IMG_SAD_8x8);
    (["DVP_KN_IMG_SAD_16x16"], exec_IMG_SAD_16x16);
    (["DVP_KN_IMG_SAD_3x3"], exec_IMG_SAD_3x3);
    (["DVP_KN_IMG_SAD_5x5"], exec_IMG_SAD_5x5);
    (["DVP_KN_IMG_SAD_7x7"], exec_IMG_SAD_7x7);
    (["DVP_KN_IMG_MAD_8x8"], exec_IMG_MAD_8x8);
    (["DVP_KN_IMG_MAD_16x16"], exec_IMG_MAD_16x16);
    (["DVP_KN_THR_GT2MAX_8"; "DVP_KN_IMG_THR_GT2MAX_8"], exec_IMG_THR_GT2MAX_8);
    (["DVP_KN_THR_GT2MAX_16"; "DVP_KN_IMG_THR_GT2MAX_16"], exec_IMG_THR_GT2MAX_16);
    (["DVP_KN_THR_GT2THR_8"; "DVP_KN_IMG_THR_GT2THR_8"], exec_IMG_THR_GT2THR_8);
    (["DVP_KN_THR_GT2THR_16"; "DVP_KN_IMG_THR_GT2THR_16"], exec_IMG_THR_GT2THR_16);
    (["DVP_KN_THR_LE2MIN_8"; "DVP_KN_IMG_THR_LE2MIN_8"], exec_IMG_THR_LE2MIN_8);
    (["DVP_KN_THR_LE2MIN_16"; "DVP_KN_IMG_THR_LE2MIN_16"], exec_IMG_THR_LE2MIN_16);
    (["DVP_KN_THR_LE2THR_8"; "DVP_KN_IMG_THR_LE2THR_8"], exec_IMG_THR_LE2THR_8);
    (["DVP_KN_THR_LE2THR_16"; "DVP_KN_IMG_THR_LE2THR_16"], exec_IMG_THR_LE2THR_16);
    (["DVP_KN_IMG_BOUNDARY_8"], exec_IMG_BOUNDARY_8);
    (["DVP_KN_IMG_BOUNDARY_16s"], exec_IMG_BOUNDARY_16s);
    (["DVP_KN_IMG_PERIMETER_8"], exec_IMG_PERIMETER_8);
    (["DVP_KN_IMG_PERIMETER_16"], exec_IMG_PERIMETER_16);
    (["DVP_KN_IMG_ERRDIFF_BIN_8"], exec_IMG_ERRDIFF_BIN_8);
    (["DVP_KN_IMG_ERRDIFF_BIN_16"], exec_IMG_ERRDIFF_BIN_16);
    (["DVP_KN_IMG_FDCT_8x8"], exec_IMG_FDCT_8x8);
    (["DVP_KN_IMG_IDCT_8x8_12Q4"], exec_IMG_IDCT_8x8_12Q4);
    (["DVP_KN_IMG_QUANTIZE_16"], exec_IMG_QUANTIZE_16) ].

(** ** Programs whose trace does not depend on the answers *)

Definition emits {A} (m : M A) (a : A) (l : list event) : Prop :=
  forall e log, m e log = Done (a, log ++ l).

Lemma emits_ret {A} (a : A) : emits (mret a) a [].
Proof. intros e log. by rewrite app_nil_r. Qed.
Lemma emits_emit ev : emits (emit ev) tt [ev].
Proof. done. Qed.
Lemma bind_run {A B} (m : M A) (f : A -> M B) e log a log' :
  m e log = Done (a, log') -> (m ≫= f) e log = f a e log'.
Proof. intros H. unfold mbind, M_bind. by rewrite H. Qed.
Lemma emits_bind {A B} (m : M A) (f : A -> M B) a b l k :
  emits m a l -> emits (f a) b k -> emits (m ≫= f) b (l ++ k).
Proof. intros Hm Hf e log. rewrite (bind_run m f e log a _ (Hm e log)), Hf. by rewrite <- app_assoc. Qed.
Lemma each_rows (f : Z -> Z -> event) di d (n : nat) : forall k a b,
  emits (each (fun _ '(x, y) => emit (f x y);; mret (x + di, y + d)) (seqZ k (Z.of_nat n)) (a, b))
    (a + Z.of_nat n * di, b + Z.of_nat n * d)
    ((fun i => f (a + Z.of_nat i * di) (b + Z.of_nat i * d)) <$> seq 0 n).
Proof.
  induction n as [|n IH]; intros k a b.
  - rewrite !Z.add_0_r. apply emits_ret.
  - rewrite seqZ_cons by lia. replace (Z.pred (Z.of_nat (S n))) with (Z.of_nat n) by lia. cbn [each].
    change ((fun i => f (a + Z.of_nat i * di) (b + Z.of_nat i * d)) <$> seq 0 (S n))
      with ([f (a + Z.of_nat 0 * di) (b + Z.of_nat 0 * d)] ++
            ((fun i => f (a + Z.of_nat i * di) (b + Z.of_nat i * d)) <$> seq 1 n)).
    eapply emits_bind.
    + rewrite !Z.mul_0_l, !Z.add_0_r. eapply (emits_bind _ _ _ _ [_] []); [apply emits_emit | apply emits_ret].
    + rewrite <- (fmap_S_seq 0), <- list_fmap_compose.
      erewrite list_fmap_ext; [|intros i j _; cbn [compose];
        rewrite Nat2Z.inj_succ, !Z.mul_succ_l, !(Z.add_comm (_ * _)), !Z.add_assoc; reflexivity].
      replace (a + Z.of_nat (S n) * di) with (a + di + Z.of_nat n * di) by lia.
      replace (b + Z.of_nat (S n) * d) with (b + d + Z.of_nat n * d) by lia. apply IH.
Qed.
Lemma emits_rows (f : Z -> Z -> event) di d n a b : 0 <= n ->
  emits (_ ← rows n (fun '(x, y) => emit (f x y);; mret (x + di, y + d)) (a, b); stop) tt
    ((fun i => f (a + Z.of_nat i * di) (b + Z.of_nat i * d)) <$> seq 0 (Z.to_nat n)).
Proof.
  intros Hn. rewrite <- (app_nil_r (_ <$> _)). eapply emits_bind; [|apply emits_ret].
  unfold rows, count_with. rewrite <- (Z2Nat.id n) at 1 by done. apply each_rows.
Qed.

(** ** Filters that go row by row

    A filter of [rf_size] rows calls the library once for each row of its
    output, with the address of the first input row that it needs and that of
    the output row, the [rf_out]-th argument. *)
Record row_filter : Type := mkFilter {
  rf_label : string; rf_exec : params -> M unit; rf_fun : string; rf_size : params -> Z; rf_out : nat }.
Definition row_filters : list row_filter :=
  [ mkFilter "DVP_KN_IMG_CONV_5x5" exec_IMG_CONV_5x5 "IMG_conv_5x5_i8_c8s" (fun _ => 5) 1;
    mkFilter "DVP_KN_IMG_CONV_7x7" exec_CANNY_IMAGE_SMOOTHING "IMG_conv_7x7_i8_c8s" (fun _ => 7) 1;
    mkFilter "DVP_KN_IMG_CONV_3x3_I16s_C16" exec_IMG_CONV_3x3_I16s_C16 "IMG_conv_3x3_i16s_c16s" (fun _ => 3) 1;
    mkFilter "DVP_KN_IMG_CONV_5x5_I8_C16" exec_IMG_CONV_5x5_I8_C16 "IMG_conv_5x5_i8_c16s" (fun _ => 5) 1;
    mkFilter "DVP_KN_IMG_CONV_5x5_I16s_C16" exec_IMG_CONV_5x5_I16s_C16 "IMG_conv_5x5_i16s_c16s" (fun _ => 5) 1;
    mkFilter "DVP_KN_IMG_CONV_7x7_I8_C16" exec_IMG_CONV_7x7_I8_C16 "IMG_conv_7x7_i8_c16s" (fun _ => 7) 1;
    mkFilter "DVP_KN_IMG_CONV_7x7_I16s_C16" exec_IMG_CONV_7x7_I16s_C16 "IMG_conv_7x7_i16s_c16s" (fun _ => 7) 1;
    mkFilter "DVP_KN_IMG_CONV_11x11" exec_IMG_CONV_11x11 "IMG_conv_11x11_i8_c8s" (fun _ => 11) 1;
    mkFilter "DVP_KN_IMG_CONV_11x11_I16s_C16" exec_IMG_CONV_11x11_I16s_C16 "IMG_conv_11x11_i16s_c16s" (fun _ => 11) 1;
    mkFilter "DVP_KN_IMG_CORR_3x3" exec_IMG_CORR_3x3 "IMG_corr_3x3_i8_c8" (fun _ => 3) 1;
    mkFilter "DVP_KN_IMG_CORR_3x3_I8_C16s" exec_IMG_CORR_3x3_I8_C16s "IMG_corr_3x3_i8_c16s" (fun _ => 3) 1;
    mkFilter "DVP_KN_IMG_CORR_3x3_I16s_C16s" exec_IMG_CORR_3x3_I16s_C16s "IMG_corr_3x3_i16s_c16s" (fun _ => 3) 1;
    mkFilter "DVP_KN_IMG_CORR_5x5_I16s_C16s" exec_IMG_CORR_5x5_I16s_C16s "IMG_corr_5x5_i16s_c16s" (fun _ => 5) 1;
    mkFilter "DVP_KN_IMG_CORR_11x11_I8_C16s" exec_IMG_CORR_11x11_I8_C16s "IMG_corr_11x11_i8_c16s" (fun _ => 11) 1;
    mkFilter "DVP_KN_IMG_CORR_11x11_I16s_C16s" exec_IMG_CORR_11x11_I16s_C16s "IMG_corr_11x11_i16s_c16s"
      (fun _ => 11) 1;
    mkFilter "DVP_KN_IMG_CORR_GEN_I16s_C16s" exec_IMG_CORR_GEN_I16s_C16s "IMG_corr_gen_i16s_c16s"
      (fun p => u32 (num p "m")) 2;
    mkFilter "DVP_KN_IMG_CORR_GEN_IQ" exec_IMG_CORR_GEN_IQ "IMG_corr_gen_iq" (fun p => u32 (num p "m")) 2;
    mkFilter "DVP_KN_IMG_MEDIAN_3x3_8" exec_IMG_MEDIAN_3x3_8 "IMG_median_3x3_8" (fun _ => 3) 2;
    mkFilter "DVP_KN_IMG_MEDIAN_3x3_16s" exec_IMG_MEDIAN_3x3_16s "IMG_median_3x3_16s" (fun _ => 3) 2;
    mkFilter "DVP_KN_IMG_THR_GT2MAX_8" exec_IMG_THR_GT2MAX_8 "IMG_thr_gt2max_8" (fun _ => 1) 1;
    mkFilter "DVP_KN_IMG_THR_GT2MAX_16" exec_IMG_THR_GT2MAX_16 "IMG_thr_gt2max_16" (fun _ => 1) 1;
    mkFilter "DVP_KN_IMG_THR_GT2THR_8" exec_IMG_THR_GT2THR_8 "IMG_thr_gt2thr_8" (fun _ => 1) 1;
    mkFilter "DVP_KN_IMG_THR_GT2THR_16" exec_IMG_THR_GT2THR_16 "IMG_thr_gt2thr_16" (fun _ => 1) 1;
    mkFilter "DVP_KN_IMG_THR_LE2MIN_8" exec_IMG_THR_LE2MIN_8 "IMG_thr_le2min_8" (fun _ => 1) 1;
    mkFilter "DVP_KN_IMG_THR_LE2MIN_16" exec_IMG_THR_LE2MIN_16 "IMG_thr_le2min_16" (fun _ => 1) 1;
    mkFilter "DVP_KN_IMG_THR_LE2THR_8" exec_IMG_THR_LE2THR_8 "IMG_thr_le2thr_8" (fun _ => 1) 1;
    mkFilter "DVP_KN_IMG_THR_LE2THR_16" exec_IMG_THR_LE2THR_16 "IMG_thr_le2thr_16" (fun _ => 1) 1 ].

Definition row_addr (i : DVP_Image_t) (y : Z) : Z := ptr i 0 + y * y_stride i.
Definition row_call (rf : row_filter) (p : params) (i : Z) (ev : event) : Prop :=
  exists args, ev = Call (rf_fun rf) args /\
    args !! 0%nat = Some (row_addr (img p "input") i) /\ args !! rf_out rf = Some (row_addr (img p "output") i).
(** Rows of the output: [height - (size - 1)], in unsigned arithmetic *)
Definition row_count (rf : row_filter) (p : params) : Z := u32 (height (img p "input") - (rf_size rf p - 1)).
Definition upright (i : DVP_Image_t) : Prop := is_u32 (height i) /\ 0 <= y_stride i < 2 ^ 31.
Definition row_filter_ok (rf : row_filter) : Prop := forall p,
  upright (img p "input") -> upright (img p "output") ->
  exists l, emits (rf_exec rf p) tt l /\ Z.of_nat (length l) = row_count rf p /\
    forall i ev, l !! i = Some ev -> row_call rf p (Z.of_nat i) ev.

Lemma row_filter_intro rf p (args : Z -> Z -> list Z) n di d :
  (forall x y, args x y !! 0%nat = Some x /\ args x y !! rf_out rf = Some y) ->
  n = row_count rf p -> di = y_stride (img p "input") -> d = y_stride (img p "output") ->
  exists l, emits (_ ← rows n (fun '(x, y) => emit (Call (rf_fun rf) (args x y));; mret (x + di, y + d))
    (ptr (img p "input") 0, ptr (img p "output") 0); stop) tt l /\ Z.of_nat (length l) = row_count rf p /\
    forall i ev, l !! i = Some ev -> row_call rf p (Z.of_nat i) ev.
Proof.
  intros Ha -> -> ->. eexists. split; [apply (emits_rows (fun x y => Call _ (args x y))), u32_range|]. split.
  - rewrite length_fmap, length_seq, Z2Nat.id; [done|]. apply u32_range.
  - intros i ev (j & -> & [-> _]%lookup_seq)%list_lookup_fmap_Some. eexists. split; [done|]. apply Ha.
Qed.
Lemma u32_sub_r a b : u32 (a - u32 b) = u32 (a - b).
Proof. apply Zminus_mod_idemp_r. Qed.
Lemma u32_sub_0 h : is_u32 h -> h = u32 (h - 0).
Proof. intros H. by rewrite Z.sub_0_r, u32_small. Qed.
Lemma upright_stride i : upright i -> u32 (y_stride i) = y_stride i.
Proof. intros [_ ?]. apply u32_small. unfold is_u32. lia. Qed.

Lemma row_filters_ok : Forall row_filter_ok row_filters.
Proof.
  unfold row_filters. repeat (apply Forall_cons; split); [..|apply Forall_nil; exact I].
  all: intros p Hi Ho.
  all: match goal with |- context [mkFilter ?l ?e ?f ?s ?o] =>
    set (rf := mkFilter l e f s o); cbn [rf_exec rf]; unfold e; cbv zeta end.
  all: apply (row_filter_intro rf p (fun x y => _)); [by split|..|try reflexivity; by apply upright_stride |
    try reflexivity; by apply upright_stride].
  all: try reflexivity; unfold row_count; cbn [rf rf_size]; rewrite ?u32_sub_r; try reflexivity.
  all: apply u32_sub_0, Hi.
Qed.

(** ** Filters that stage blocks of rows *)

Lemma emits_nil {A} (m : M A) a l : emits m a (l ++ []) -> emits m a l.
Proof. by rewrite app_nil_r. Qed.
Lemma each_concat {S} (body : Z -> S -> M S) (g : Z -> S) (ev : Z -> list event) (n : nat) : forall k,
  (forall i, k <= i < k + Z.of_nat n -> emits (body i (g i)) (g (i + 1)) (ev i)) ->
  emits (each body (seqZ k (Z.of_nat n)) (g k)) (g (k + Z.of_nat n)) (concat (ev <$> seqZ k (Z.of_nat n))).
Proof.
  induction n as [|n IH]; intros k H.
  - rewrite Z.add_0_r. apply emits_ret.
  - rewrite seqZ_cons by lia. replace (Z.pred (Z.of_nat (Datatypes.S n))) with (Z.of_nat n) by lia.
    cbn [each fmap list_fmap concat]. eapply emits_bind; [apply H; lia|].
    replace (k + Z.of_nat (Datatypes.S n)) with (Z.succ k + Z.of_nat n) by lia. apply IH. intros. apply H. lia.
Qed.
Lemma emits_count n (body : Z -> M unit) (ev : Z -> list event) :
  (forall i, 0 <= i < n -> emits (body i) tt (ev i)) -> emits (count n body) tt (concat (ev <$> seqZ 0 n)).
Proof.
  intros H. unfold count, count_from. rewrite Z.sub_0_r. destruct (Z.lt_ge_cases n 0).
  - rewrite (seqZ_nil 0 n) by lia. apply emits_ret.
  - rewrite <- (Z2Nat.id n) by done. apply (each_concat _ (fun _ => tt)). intros i Hi. apply H. lia.
Qed.
Lemma emits_count_with {S} n (body : Z -> S -> M S) (g : Z -> S) (ev : Z -> list event) : 0 <= n ->
  (forall i, 0 <= i < n -> emits (body i (g i)) (g (i + 1)) (ev i)) ->
  emits (count_with n body (g 0)) (g n) (concat (ev <$> seqZ 0 n)).
Proof.
  intros Hn H. unfold count_with. rewrite <- (Z2Nat.id n) by done. apply each_concat.
  intros i Hi. apply H. lia.
Qed.

(** The blocks of [n] rows start at the multiples of 16. *)
Definition block_starts (n : Z) : list Z := (fun j => 16 * j) <$> seqZ 0 ((n + 15) / 16).
Definition block_height (n y : Z) : Z := Z.min 16 (n - y).
Lemma block_loop_run {S} n (body : Z -> Z -> S -> M S) (g : Z -> S) (ev : Z -> list event) (k : nat) :
  0 <= n < 2 ^ 32 - 16 ->
  (forall y, 0 <= y < n -> emits (body y (block_height n y) (g y)) (g (y + block_height n y)) (ev y)) ->
  forall fuel j, (k < fuel)%nat -> 0 <= j -> 16 * (j + Z.of_nat k) < n + 16 -> n <= 16 * (j + Z.of_nat k) ->
  emits (block_loop fuel n body (16 * j) 16 (g (16 * j))) (g (Z.max (16 * j) n))
    (concat ((fun j => ev (16 * j)) <$> seqZ j (Z.of_nat k))).
Proof.
  intros Hn Hbody. induction k as [|k IH]; intros [|fuel] j Hf Hj Hk1 Hk2; try lia; cbn [block_loop].
  - rewrite (proj2 (Z.ltb_ge _ _)), Z.max_l by lia. apply emits_ret.
  - rewrite (proj2 (Z.ltb_lt (16 * j) n)) by lia.
    rewrite (u32_small (16 * j + 16)) by (unfold is_u32; lia).
    replace (if n <? 16 * j + 16 then u8 (n - 16 * j) else 16) with (block_height n (16 * j)) by
      (unfold block_height; zcase; rewrite ?u8_small by (unfold is_u8; lia); lia).
    rewrite seqZ_cons by lia. replace (Z.pred (Z.of_nat (Datatypes.S k))) with (Z.of_nat k) by lia.
    rewrite fmap_cons. cbn [concat]. eapply emits_bind; [apply Hbody; lia|].
    rewrite u32_small by (unfold is_u32, block_height; lia).
    destruct (Z.le_gt_cases 16 (n - 16 * j)) as [Hl|Hl].
    + replace (block_height n (16 * j)) with 16 by (unfold block_height; lia).
      replace (16 * j + 16) with (16 * Z.succ j) by lia.
      replace (Z.max (16 * j) n) with (Z.max (16 * Z.succ j) n) by lia. apply IH; lia.
    + replace (16 * j + block_height n (16 * j)) with n by (unfold block_height; lia).
      assert (k = O) as -> by lia. cbn. rewrite Z.max_r by lia.
      destruct fuel as [|fuel]; [lia|]. cbn [block_loop]. rewrite Z.ltb_irrefl. apply emits_ret.
Qed.
Lemma emits_blocks {S} n (body : Z -> Z -> S -> M S) (g : Z -> S) (ev : Z -> list event) :
  0 <= n < 2 ^ 32 - 16 ->
  (forall y, 0 <= y < n -> emits (body y (block_height n y) (g y)) (g (y + block_height n y)) (ev y)) ->
  emits (row_blocks n body (g 0)) (g n) (concat (ev <$> block_starts n)).
Proof.
  intros Hn H. unfold row_blocks, block_starts. rewrite <- list_fmap_compose.
  pose proof (Z.div_mod (n + 15) 16) as Hd. pose proof (Z.mod_pos_bound (n + 15) 16) as Hm.
  pose proof (Z.div_mod n 16) as Hd'. pose proof (Z.mod_pos_bound n 16) as Hm'.
  pose proof (block_loop_run n body g ev (Z.to_nat ((n + 15) / 16)) Hn H (Z.to_nat (n / 16) + 2) 0) as R.
  rewrite Z.max_r, Z2Nat.id in R by lia. apply R; lia.
Qed.

(** *** Sobel *)

(** What the case does when the rows are apart: blocks of up to 16 rows, and
    two more, are copied to a packed buffer at [t]. *)
Definition stage_rows (i : DVP_Image_t) (t y n : Z) : list event :=
  (fun k => Memcpy (t + k * width i) (row_addr i (y + k)) (width i)) <$> seqZ 0 n.
Definition sobel_block (i o : DVP_Image_t) (t y : Z) : list event :=
  let n := block_height (height i - 2) y in
  stage_rows i t y (n + 2) ++ [Call "IMG_sobel_3x3_8" [t; row_addr o y; width i; n + 2]].
Definition sobel_trace (i o : DVP_Image_t) (t : Z) : list event :=
  [Malloc (width i * 18)] ++ concat (sobel_block i o t <$> block_starts (height i - 2)) ++ [Free t].

(** The rows of the image are apart, and its last byte is within 32 bits. *)
Definition apart (i : DVP_Image_t) : Prop :=
  0 < width i < 2 ^ 26 /\ width i < y_stride i < 2 ^ 31 /\ 0 <= height i /\ height i * y_stride i < 2 ^ 32.

Lemma emits_memcpy t off src n : t <> 0 -> emits (memcpy_to t off src n) tt [Memcpy (t + off) src n].
Proof. intros Ht. unfold memcpy_to. by rewrite (proj2 (Z.eqb_neq t 0)). Qed.
Lemma concat_singles {A B} (f : A -> B) l : concat ((fun x => [f x]) <$> l) = f <$> l.
Proof. induction l; simpl; [done|]. by f_equal. Qed.
Lemma emits_stage_rows i t y n : t <> 0 -> 0 < width i < 2 ^ 26 -> width i < y_stride i < 2 ^ 31 -> 0 <= y ->
  0 <= n <= 18 -> (y + n) * y_stride i < 2 ^ 32 ->
  emits (count n (fun k => memcpy_to t (u32 (k * width i)) (ptr i 0 + u32 (u32 (y + k) * u32 (y_stride i))) (width i)))
    tt (stage_rows i t y n).
Proof.
  intros Ht Hw Hs Hy Hn Hyn. unfold stage_rows. rewrite <- concat_singles.
  apply emits_count. intros k Hk. unfold row_addr. assert (y + n < 2 ^ 32) by nia.
  rewrite (u32_small (y + k)), (u32_small (y_stride i)), (u32_small (k * _)), (u32_small ((y + k) * _));
    [by apply emits_memcpy | unfold is_u32; nia..].
Qed.
Lemma emits_stage i t y n : t <> 0 -> apart i -> 0 <= y -> 0 <= n <= 18 -> y + n <= height i ->
  emits (count n (fun k => memcpy_to t (u32 (k * width i)) (ptr i 0 + u32 (u32 (y + k) * u32 (y_stride i))) (width i)))
    tt (stage_rows i t y n).
Proof. intros Ht (Hw & Hs & Hh & Hb) Hy Hn Hyn. apply emits_stage_rows; try done. nia. Qed.
Lemma ask_run {B} ev (f : Z -> M B) e log : (ask ev ≫= f) e log = f (returns e (log ++ [ev])) e (log ++ [ev]).
Proof. done. Qed.
Lemma run_emits {A} (m : M A) a l e log : emits m a l -> m e log = Done (a, log ++ l).
Proof. intros H. apply H. Qed.

Lemma sobel_staged p e log t : let i := img p "input" in let o := img p "output" in
  apart i -> upright o -> 2 <= height i -> height i * y_stride o < 2 ^ 32 ->
  t = returns e (log ++ [Malloc (width i * 18)]) -> t <> 0 ->
  exec_IMG_SOBEL_3x3_8 p e log = Done (tt, log ++ sobel_trace i o t).
Proof.
  intros i o Hi Ho Hh Hb Ht Ht0. pose proof Hi as (Hw & Hs & Hh0 & Hb').
  unfold exec_IMG_SOBEL_3x3_8. cbv zeta. fold i o.
  assert (is_s32 (width i)) by (unfold is_s32; lia). assert (height i < 2 ^ 32 - 16) by nia.
  rewrite (s32_small (width i)), (proj2 (Z.eqb_neq _ _)) by (done || lia).
  change (16 + (3 - 1)) with 18. change (3 - 1) with 2.
  rewrite (u32_small (width i * 18)), (u32_small (height i - 2)) by (unfold is_u32; lia).
  unfold malloc. rewrite ask_run, <- Ht. unfold sobel_trace. rewrite app_assoc. apply run_emits.
  eapply emits_bind; [|apply emits_emit].
  apply (emits_blocks _ _ (fun _ => tt)); [lia|]. intros y Hy. unfold sobel_block.
  set (n := block_height (height i - 2) y). assert (0 <= n <= 16 /\ y + n <= height i - 2) as [Hn1 Hn2] by
    (unfold n, block_height; lia).
  eapply emits_bind; [by apply emits_stage; try lia|].
  rewrite (upright_stride o Ho), (u32_small (y * _)); [apply emits_emit|].
  destruct Ho as [_ Ho]. unfold is_u32. nia.
Qed.
Lemma blocks_tile n : 0 <= n ->
  concat ((fun y => seqZ y (block_height n y)) <$> block_starts n) = seqZ 0 n.
Proof.
  intros Hn. unfold block_starts. rewrite <- list_fmap_compose.
  pose proof (Z.div_mod (n + 15) 16) as Hd. pose proof (Z.mod_pos_bound (n + 15) 16) as Hm.
  rewrite <- (Z2Nat.id ((n + 15) / 16)) by lia.
  assert (forall (k : nat) j, 0 <= j -> n <= 16 * (j + Z.of_nat k) < n + 16 ->
    concat ((fun y => seqZ y (block_height n y)) ∘ Z.mul 16 <$> seqZ j (Z.of_nat k)) =
    seqZ (16 * j) (n - 16 * j)) as R.
  { induction k as [|k IH]; intros j Hj Hk; [by rewrite (seqZ_nil (16 * j)) by lia|].
    rewrite seqZ_cons by lia. replace (Z.pred (Z.of_nat (Datatypes.S k))) with (Z.of_nat k) by lia.
    cbn [fmap list_fmap concat compose]. destruct (Z.le_gt_cases 16 (n - 16 * j)) as [Hl|Hl].
    - rewrite IH by lia. unfold block_height. rewrite Z.min_l by lia.
      replace (16 * Z.succ j) with (16 * j + 16) by lia. rewrite <- seqZ_app by lia. f_equal. lia.
    - assert (k = O) as -> by lia. cbn. rewrite app_nil_r. unfold block_height. f_equal. lia. }
  rewrite (R _ 0) by lia. f_equal; lia.
Qed.

(** A staged copy reads a row of the image and stays in the buffer. *)
Definition copy_inside (i : DVP_Image_t) (t : Z) (ev : event) : Prop :=
  match ev with
  | Memcpy dst src n => t <= dst /\ dst + n <= t + width i * 18 /\ exists y, 0 <= y < height i /\ src = row_addr i y
  | _ => True
  end.
Lemma stage_inside i t y n : 0 <= width i -> 0 <= y -> n <= 18 -> y + n <= height i ->
  Forall (copy_inside i t) (stage_rows i t y n).
Proof.
  intros Hw Hy Hn Hyn. apply Forall_fmap, Forall_forall. intros k Hk%elem_of_seqZ. cbn.
  split; [nia|]. split; [nia|]. exists (y + k). split; [lia|done].
Qed.
Lemma elem_of_block_starts n y : y ∈ block_starts n -> 0 <= y < n.
Proof.
  intros (j & -> & Hj%elem_of_seqZ)%list_elem_of_fmap.
  pose proof (Z.div_mod (n + 15) 16). pose proof (Z.mod_pos_bound (n + 15) 16). lia.
Qed.

(** *** Convolution of 3x3 *)

Definition conv_block (p : params) (i o : DVP_Image_t) (t y : Z) : list event :=
  let n := block_height (height i - 2) y in
  stage_rows i t y (n + 2) ++
  ((fun k => Call "IMG_conv_3x3_i8_c8s" [t + k * width i; row_addr o (y + k); s16 (width i); s16 (y_stride i);
     ptr (img p "mask") 0; num p "shiftMask"]) <$> seqZ 0 n).
Definition conv_trace (p : params) (i o : DVP_Image_t) (t : Z) : list event :=
  [Malloc (width i * 18)] ++ concat (conv_block p i o t <$> block_starts (height i - 2)) ++ [Free t].
Lemma conv_staged p e log t : let i := img p "input" in let o := img p "output" in
  apart i -> 2 <= height i ->
  t = returns e (log ++ [Malloc (width i * 18)]) -> t <> 0 ->
  exec_IMG_CONV_3x3 p e log = Done (tt, log ++ conv_trace p i o t).
Proof.
  intros i o Hi Hh Ht Ht0. pose proof Hi as (Hw & Hs & Hh0 & Hb').
  unfold exec_IMG_CONV_3x3. cbv zeta. fold i o.
  assert (is_s32 (width i)) by (unfold is_s32; lia). assert (height i < 2 ^ 32 - 16) by nia.
  rewrite (s32_small (width i)), (proj2 (Z.eqb_neq _ _)) by (done || lia).
  change (u32 (3 - 1)) with 2. change (16 + 2) with 18.
  rewrite (u32_small (width i * 18)), (u32_small (height i - 2)) by (unfold is_u32; lia).
  unfold malloc. rewrite ask_run, <- Ht. unfold conv_trace. rewrite app_assoc. apply run_emits.
  eapply emits_bind; [|apply emits_emit].
  replace (ptr o 0) with (row_addr o 0) by (unfold row_addr; lia).
  apply (emits_blocks _ _ (row_addr o)); [lia|]. intros y Hy. unfold conv_block.
  set (n := block_height (height i - 2) y). assert (0 <= n <= 16 /\ y + n <= height i - 2) as [Hn1 Hn2] by
    (unfold n, block_height; lia).
  eapply emits_bind; [by apply emits_stage; try lia|].
  rewrite <- concat_singles. replace (row_addr o y) with (row_addr o (y + 0)) by (f_equal; lia).
  apply (emits_count_with n _ (fun k => row_addr o (y + k))); [lia|]. intros k Hk.
  rewrite (u32_small (k * _)) by (unfold is_u32; nia).
  replace (row_addr o (y + (k + 1))) with (row_addr o (y + k) + y_stride o) by (unfold row_addr; lia).
  eapply (emits_bind _ _ _ _ [_] []); [apply emits_emit | apply emits_ret].
Qed.

(** ** Properties *)

(** C23: A Sobel filter of 3x3 on an image with padded rows goes through the
    rows of its output in blocks of 16 that follow each other up to the last
    row, and nothing else: for each block it copies the rows that the library
    needs, all of the image, into the temporary buffer, within its size, and
    the buffer is freed once at the end. *)
Theorem staged_sobel_tiles p e log t : let i := img p "input" in let o := img p "output" in
  apart i -> upright o -> 2 <= height i -> height i * y_stride o < 2 ^ 32 ->
  t = returns e (log ++ [Malloc (width i * 18)]) -> t <> 0 ->
  exec_IMG_SOBEL_3x3_8 p e log = Done (tt, log ++ sobel_trace i o t) /\
  Forall (copy_inside i t) (sobel_trace i o t) /\
  concat ((fun y => seqZ y (block_height (height i - 2) y)) <$> block_starts (height i - 2)) = seqZ 0 (height i - 2).
Proof.
  intros i o Hi Ho Hh Hb Ht Ht0. split; [by apply sobel_staged|]. split; [|apply blocks_tile; lia].
  unfold sobel_trace. apply Forall_app. split; [by repeat constructor|].
  apply Forall_app. split; [|by repeat constructor].
  apply Forall_concat, Forall_fmap, Forall_forall. intros y Hy%elem_of_block_starts. unfold compose, sobel_block.
  destruct Hi as (Hw & _). apply Forall_app. split; [|by repeat constructor].
  assert (0 <= block_height (height i - 2) y <= height i - 2 - y) by (unfold block_height; lia).
  apply stage_inside; unfold block_height in *; lia.
Qed.

(** A convolution of 3x3 on an image with padded rows packs rows of [width]
    bytes and tells the library that they are [y_stride] bytes apart: for the
    last row of every full block the three rows that the library is told of
    end behind the temporary buffer. *)
Theorem staged_conv_overruns p e log t : let i := img p "input" in let o := img p "output" in
  apart i -> y_stride i < 2 ^ 15 -> 18 <= height i ->
  t = returns e (log ++ [Malloc (width i * 18)]) -> t <> 0 ->
  exists l dst args, exec_IMG_CONV_3x3 p e log = Done (tt, log ++ l) /\
    Call "IMG_conv_3x3_i8_c8s" (t + 15 * width i :: dst :: s16 (width i) :: y_stride i :: args) ∈ l /\
    t + width i * 18 < t + 15 * width i + 2 * y_stride i + width i.
Proof.
  intros i o Hi Hs Hh Ht Ht0. exists (conv_trace p i o t), (row_addr o 15), [ptr (img p "mask") 0; num p "shiftMask"].
  split; [apply conv_staged; [done | by apply (Z.le_trans _ 18) | done..]|].
  destruct Hi as (Hw & Hs' & _). split; [|lia].
  unfold conv_trace. apply elem_of_app. right. apply elem_of_app. left.
  apply list_elem_of_In, in_concat. exists (conv_block p i o t 0). split.
  - apply list_elem_of_In, list_elem_of_fmap. exists 0. split; [done|]. unfold block_starts.
    apply list_elem_of_fmap. exists 0. split; [done|]. apply elem_of_seqZ.
    pose proof (Z.div_mod (height i - 2 + 15) 16). pose proof (Z.mod_pos_bound (height i - 2 + 15) 16). lia.
  - apply list_elem_of_In. unfold conv_block. apply elem_of_app. right. apply list_elem_of_fmap. exists 15.
    split; [|apply elem_of_seqZ; unfold block_height; lia].
    replace (s16 (y_stride i)) with (y_stride i); [done|].
    unfold s16, u16. rewrite Z.mod_small by lia. by rewrite (proj2 (Z.ltb_lt _ _)).
Qed.

(** ** Witnesses *)

Definition padded (a h : Z) : DVP_Image_t :=
  mkImage [a; 0; 0; 0] [a; 0; 0; 0] 1 4 h 4 h 0 0 1 8 FOURCC_Y800 (8 * h) 0.
Definition sample_params (k : string) (h : Z) : params :=
  mkParams k (fun f => if String.eqb f "output" then padded 8192 h else padded 4096 h)
    (fun _ => mkBuffer 12288 1 16 0) (fun _ => 1) (fun _ => 0) (fun _ => 0).
Definition granting (a : Z) : env := mkEnv (fun _ => a) (fun _ => a).

Lemma padded_apart a h : 2 <= h < 2 ^ 20 -> apart (padded a h).
Proof. intros H. unfold apart. simpl. lia. Qed.
Lemma padded_upright a h : 0 <= h < 2 ^ 32 -> upright (padded a h).
Proof. intros H. unfold upright, is_u32. simpl. lia. Qed.

Lemma staged_sobel_tiles_witness :
  exec_IMG_SOBEL_3x3_8 (sample_params "DVP_KN_SOBEL_3x3_8" 20) (granting 65536) [] =
    Done (tt, sobel_trace (padded 4096 20) (padded 8192 20) 65536) /\
  block_starts 18 = [0; 16].
Proof.
  split; [|reflexivity].
  apply (staged_sobel_tiles (sample_params "DVP_KN_SOBEL_3x3_8" 20) (granting 65536) [] 65536);
    [apply padded_apart; lia | apply padded_upright; lia | simpl; lia | simpl; lia | reflexivity | lia].
Defined.
Lemma staged_conv_overruns_witness : exists l dst args,
  exec_IMG_CONV_3x3 (sample_params "DVP_KN_CONV_3x3" 20) (granting 65536) [] = Done (tt, l) /\
  Call "IMG_conv_3x3_i8_c8s" (65536 + 15 * 4 :: dst :: 4 :: 8 :: args) ∈ l /\
  65536 + 4 * 18 < 65536 + 15 * 4 + 2 * 8 + 4.
Proof.
  apply (staged_conv_overruns (sample_params "DVP_KN_CONV_3x3" 20) (granting 65536) [] 65536);
    [apply padded_apart; lia | simpl; lia | simpl; lia | reflexivity | lia].
Defined.
