(* ===== verification/KgmCpuVlib.v ===== *)
(** * Kernels of the vendor libraries on the CPU graph manager: VLIB, YUV,
    image filters, RVM (source/dvp/dvp_kgm_cpu/dvp_kgm_cpu.c)

    The remaining cases of the manager's [switch], the kernels each library
    publishes, the [switch] of [DVP_KernelGraphManagerVerify] with the
    libraries, and the chains of kernels that the YUV library has an optimised
    routine for. *)
From S2P Require Import Prelude DvpTypes Image ImageAlloc KgmCpuVendor.
From stdpp Require Import strings.

Open Scope string_scope.
Open Scope list_scope.
Open Scope Z_scope.
Open Scope bool_scope.

(** ** The cases of VLIB *)

(** The inner [switch] of the morphology case: the routine, and whether it is
    given the mask *)
Definition morphology : list (list string * (string * bool)) :=
  [ (["DVP_KN_DILATE_CROSS"; "DVP_KN_VLIB_DILATE_CROSS"], ("VLIB_dilate_bin_cross", false));
    (["DVP_KN_DILATE_MASK"; "DVP_KN_VLIB_DILATE_MASK"], ("VLIB_dilate_bin_mask", true));
    (["DVP_KN_DILATE_SQUARE"; "DVP_KN_VLIB_DILATE_SQUARE"], ("VLIB_dilate_bin_square", false));
    (["DVP_KN_ERODE_CROSS"; "DVP_KN_VLIB_ERODE_CROSS"], ("VLIB_erode_bin_cross", false));
    (["DVP_KN_ERODE_MASK"; "DVP_KN_VLIB_ERODE_MASK"], ("VLIB_erode_bin_mask", true));
    (["DVP_KN_ERODE_SQUARE"; "DVP_KN_VLIB_ERODE_SQUARE"], ("VLIB_erode_bin_square", false));
    (["DVP_KN_VLIB_ERODE_SINGLEPIXEL"], ("VLIB_erode_bin_singlePixel", false)) ].
Definition morph_function (k : string) : option (string * bool) := case_of morphology k.

Definition saturate_s16 (p : params) (v : Z) : Z :=
  let max := constant p "MAX_S16" in
  let v := if max <? v then max else v in s16 (if v <? - max then - max else v).

Definition exec_VLIB_MOG_S16 (p : params) : M unit :=
  let image := img p "image" in
  let wts := img p "wts" in
  let means := img p "means" in
  let vars := img p "vars" in
  let compIndex := img p "compIndex" in
  let scratch := img p "scratch" in
  let fgmask := img p "fgmask" in
  emit (Call "VLIB_mixtureOfGaussiansS16" [ptr image 0; ptr wts 0; ptr means 0; ptr vars 0; ptr compIndex 0;
    ptr scratch 0; ptr fgmask 0; s32 (u32 (width image * height image)); s16 (num p "alpha");
    s16 (num p "rho"); s16 (num p "delta"); s16 (num p "T"); s16 (num p "ini_wt"); s16 (num p "ini_var")]).

Definition exec_VLIB_MOG_S32 (p : params) : M unit :=
  let image := img p "image" in
  let wts := img p "wts" in
  let means := img p "means" in
  let vars := img p "vars" in
  let compIndex := img p "compIndex" in
  let scratch := img p "scratch" in
  let fgmask := img p "fgmask" in
  emit (Call "VLIB_mixtureOfGaussiansS32" [ptr image 0; ptr wts 0; ptr means 0; ptr vars 0; ptr compIndex 0;
    ptr scratch 0; ptr fgmask 0; s32 (u32 (width image * height image)); s16 (num p "alpha"); num p "rho";
    num p "delta"; s16 (num p "T"); s16 (num p "ini_wt"); num p "ini_var"]).

Definition exec_VLIB_EWR_MEAN_S16 (p : params) : M unit :=
  let data := img p "data" in
  let mean := img p "mean" in
  let mask := img p "mask" in
  count (height data) (fun y =>
    emit (Call "VLIB_updateEWRMeanS16" [ptr mean 0 + u32 (y * u32 (y_stride mean));
      ptr data 0 + u32 (y * u32 (y_stride data)); ptr mask 0 + u32 (y * u32 (y_stride mask));
      saturate_s16 p (num p "weight"); width data])).

Definition exec_VLIB_EWR_VAR_S16 (p : params) : M unit :=
  let data := img p "data" in
  let var := img p "var" in
  let mean := img p "mean" in
  let mask := img p "mask" in
  count (height data) (fun y =>
    emit (Call "VLIB_updateEWRVarianceS16" [ptr var 0 + u32 (y * u32 (y_stride var));
      ptr mean 0 + u32 (y * u32 (y_stride mean)); ptr data 0 + u32 (y * u32 (y_stride data));
      ptr mask 0 + u32 (y * u32 (y_stride mask)); saturate_s16 p (num p "weight"); width data])).

Definition exec_VLIB_EWR_MEAN_S32 (p : params) : M unit :=
  let data := img p "data" in
  let mean := img p "mean" in
  let mask := img p "mask" in
  count (height data) (fun y =>
    emit (Call "VLIB_updateEWRMeanS32" [ptr mean 0 + u32 (y * u32 (y_stride mean));
      ptr data 0 + u32 (y * u32 (y_stride data)); ptr mask 0 + u32 (y * u32 (y_stride mask)); num p "weight";
      width data])).

Definition exec_VLIB_EWR_VAR_S32 (p : params) : M unit :=
  let data := img p "data" in
  let var := img p "var" in
  let mean := img p "mean" in
  let mask := img p "mask" in
  count (height data) (fun y =>
    emit (Call "VLIB_updateEWRVarianceS32" [ptr var 0 + u32 (y * u32 (y_stride var));
      ptr mean 0 + u32 (y * u32 (y_stride mean)); ptr data 0 + u32 (y * u32 (y_stride data));
      ptr mask 0 + u32 (y * u32 (y_stride mask)); num p "weight"; width data])).

Definition exec_VLIB_UWR_MEAN_S16 (p : params) : M unit :=
  let new_data := img p "new_data" in
  let new_mean := img p "new_mean" in
  let old_mean := img p "old_mean" in
  let old_data := img p "old_data" in
  let new_mask := img p "new_mask" in
  let old_mask := img p "old_mask" in
  count (height new_data) (fun y =>
    emit (Call "VLIB_updateUWRMeanS16" [ptr new_mean 0 + u32 (y * u32 (y_stride new_mean));
      ptr old_mean 0 + u32 (y * u32 (y_stride old_mean)); ptr new_data 0 + u32 (y * u32 (y_stride new_data));
      ptr old_data 0 + u32 (y * u32 (y_stride old_data)); ptr new_mask 0 + u32 (y * u32 (y_stride new_mask));
      ptr old_mask 0 + u32 (y * u32 (y_stride old_mask)); width new_data; num p "bufferLength"])).

Definition exec_VLIB_UWR_VAR_S16 (p : params) : M unit :=
  let new_data := img p "new_data" in
  let new_var := img p "new_var" in
  let old_var := img p "old_var" in
  let new_mean := img p "new_mean" in
  let old_mean := img p "old_mean" in
  let new_mask := img p "new_mask" in
  let old_mask := img p "old_mask" in
  count (height new_data) (fun y =>
    emit (Call "VLIB_updateUWRVarianceS16" [ptr new_var 0 + u32 (y * u32 (y_stride new_var));
      ptr old_var 0 + u32 (y * u32 (y_stride old_var)); ptr new_mean 0 + u32 (y * u32 (y_stride new_mean));
      ptr old_mean 0 + u32 (y * u32 (y_stride old_mean)); ptr new_data 0 + u32 (y * u32 (y_stride new_data));
      ptr new_mask 0 + u32 (y * u32 (y_stride new_mask)); ptr old_mask 0 + u32 (y * u32 (y_stride old_mask));
      width new_data; num p "bufferLength"])).

Definition exec_VLIB_SUB_BACK_S16 (p : params) : M unit :=
  let output32packed := img p "output32packed" in
  let newestData := img p "newestData" in
  let currentMean := img p "currentMean" in
  let currentVar := img p "currentVar" in
  emit (Call "VLIB_subtractBackgroundS16" [ptr output32packed 0; ptr newestData 0; ptr currentMean 0;
    ptr currentVar 0; s16 (num p "thresholdGlobal"); s16 (num p "thresholdFactor");
    u32 (width newestData * height newestData)]).

Definition exec_VLIB_SUB_BACK_S32 (p : params) : M unit :=
  let output32packed := img p "output32packed" in
  let newestData := img p "newestData" in
  let currentMean := img p "currentMean" in
  let currentVar := img p "currentVar" in
  emit (Call "VLIB_subtractBackgroundS32" [ptr output32packed 0; ptr newestData 0; ptr currentMean 0;
    ptr currentVar 0; num p "thresholdGlobal"; num p "thresholdFactor";
    u32 (width newestData * height newestData)]).

Definition exec_VLIB_EXTRACT_BACK_8_16 (p : params) : M unit :=
  let input := img p "input" in
  let output := img p "output" in
  let pBack := ptr input 0 in
  let out := ptr output 0 in
  count (height input) (fun y =>
    emit (Call "VLIB_extract8bitBackgroundS16" [pBack + u32 (y * u32 (y_stride input));
      out + u32 (y * u32 (y_stride output)); width input])).

Definition exec_VLIB_PACK_MASK_32 (p : params) : M unit :=
  let input := img p "input" in
  let output := img p "output" in
  count (height input) (fun y =>
    emit (Call "VLIB_packMask32" [ptr input 0 + u32 (y * u32 (y_stride input));
      ptr output 0 + u32 (y * u32 (y_stride output)); width input])).

Definition exec_VLIB_UNPACK_MASK_32 (p : params) : M unit :=
  let input := img p "input" in
  let output := img p "output" in
  count (height input) (fun y =>
    emit (Call "VLIB_unpackMask32" [ptr input 0 + u32 (y * u32 (y_stride input));
      ptr output 0 + u32 (y * u32 (y_stride output)); width input])).

Definition exec_VLIB_MORPHOLOGY (p : params) : M unit :=
  let input := img p "input" in
  let output := img p "output" in
  let mask := img p "mask" in
  let packed32Line := width input / 32 in
  let packed32Size := u32 (height input * packed32Line) * 4 in
  packed_in ← posix_memalign 64 packed32Size;
  if packed_in is Some pPacked32in then
    packed_out ← posix_memalign 64 packed32Size;
    if packed_out is Some pPacked32out then
      let line jv := 4 * u32 (jv * packed32Line) in
      count (height input) (fun jv =>
        emit (Call "VLIB_packMask32" [ptr input 0 + u32 (jv * u32 (y_stride input)); pPacked32in + line jv;
          width input]));;
      (if morph_function (kn p) is Some (f, masked) then
         count (u32 (height input - 2)) (fun y =>
           emit (Call f ([pPacked32in + line y; pPacked32out + line y] ++
             (if masked : bool then [ptr mask 0] else []) ++ [width input; width input])))
       else stop);;
      count (height output) (fun jv =>
        emit (Call "VLIB_unpackMask32" [pPacked32out + line jv; ptr output 0 + u32 (jv * u32 (y_stride output));
          width output]));;
      emit (Free pPacked32in);;
      emit (Free pPacked32out)
    else stop
  else stop.

Definition exec_VLIB_CCL (p : params) : M unit :=
  let input := img p "input" in
  let output := img p "output" in
  '(_, scratchSize) ← ask_out (Call "VLIB_calcConnectedComponentsMaxBufferSize" [width input; height input;
    num p "minBlobAreaInPixels"; addr p "&scratchSize"]);
  size ← ask (Call "VLIB_GetSizeOfCCHandle" []);
  handle ← malloc size;
  scratch ← posix_memalign 64 scratchSize;
  if scratch is Some pScratch then
    status ← ask (Call "VLIB_initConnectedComponentsList" [handle; pScratch; scratchSize]);
    if negb (status =? constant p "VLIB_NO_ERROR") then reject DVP_ERROR_INVALID_PARAMETER
    else
      let packed32Line := width input / 32 in
      let packed32Size := u32 (u32 (height input * packed32Line) * 4) in
      packed ← posix_memalign 64 packed32Size;
      if packed is Some pPacked32 then
        count (height input) (fun jv =>
          emit (Call "VLIB_packMask32" [ptr input 0 + u32 (jv * u32 (y_stride input));
            pPacked32 + 4 * u32 (jv * packed32Line); width input]));;
        status ← ask (Call "VLIB_createConnectedComponentsList" [handle; width input; height input; pPacked32;
          num p "minBlobAreaInPixels"; num p "connected8Flag"]);
        if negb (status =? constant p "VLIB_WARNING_LOW_MEMORY") && negb (status =? constant p "VLIB_NO_ERROR")
        then reject DVP_ERROR_INVALID_PARAMETER
        else
          '(_, numCCs) ← ask_out (Call "VLIB_getNumCCs" [handle; addr p "&numCCs"]);
          emit (Store "numCCs" numCCs);;
          emit (Memset (ptr output 0) 0 (u32 (width input * height input)));;
          status ← ask (Call "VLIB_createCCMap8Bit" [handle; ptr output 0; width input; height input]);
          if negb (status =? 0) then reject DVP_ERROR_NO_MEMORY
          else emit (Free pPacked32);; emit (Free pScratch);; emit (Free handle)
      else stop
  else stop.

Definition exec_VLIB_CANNY_2D_GRADIENT (p : params) : M unit :=
  let input := img p "input" in
  let outGradX := img p "outGradX" in
  let outGradY := img p "outGradY" in
  let outMag := img p "outMag" in
  emit (Call "VLIB_xyGradientsAndMagnitude" [ptr input 0; ptr outGradX 0; ptr outGradY 0; ptr outMag 0;
    u16 (width input); u16 (height input)]).

Definition exec_VLIB_CANNY_NONMAX_SUPPRESSION (p : params) : M unit :=
  let inMag := img p "inMag" in
  let inGradX := img p "inGradX" in
  let inGradY := img p "inGradY" in
  let output := img p "output" in
  emit (Call "VLIB_nonMaximumSuppressionCanny" [ptr inMag 0; ptr inGradX 0; ptr inGradY 0; ptr output 0;
    u16 (width inMag); Z.quot (u16 (y_stride inMag)) 2; u16 (height inMag)]).

Definition exec_VLIB_CANNY_HYST_THRESHHOLD (p : params) : M unit :=
  let inMag := img p "inMag" in
  let inEdgeMap := img p "inEdgeMap" in
  let output := img p "output" in
  q1 ← quotient (y_stride inMag) (x_stride inMag);
  emit (Call "VLIB_doublethresholding" [ptr inMag 0; ptr inEdgeMap 0; ptr output 0; addr p "numEdges";
    u16 (width inMag); u16 q1; u16 (height inMag); num p "loThresh"; num p "hiThresh"; num p "numEdges"]);;
  stop.

Definition exec_VLIB_IMAGE_PYRAMID_8 (p : params) : M unit :=
  let input := img p "input" in
  let output := img p "output" in
  emit (Call "VLIB_imagePyramid8" [ptr input 0; u16 (width input); u16 (height input); ptr output 0]).

Definition exec_VLIB_IMAGE_PYRAMID_16 (p : params) : M unit :=
  let input := img p "input" in
  let output := img p "output" in
  emit (Call "VLIB_imagePyramid16" [ptr input 0; u16 (width input); u16 (height input); ptr output 0]).

Definition exec_VLIB_GAUSSIAN_5x5_PYRAMID_8 (p : params) : M unit :=
  let input := img p "input" in
  let scratch := img p "scratch" in
  let output := img p "output" in
  count (height input / 2) (fun i =>
    emit (Call "VLIB_gauss5x5PyramidKernel_8" [ptr input 0 + u32 (u32 (2 * i) * u32 (y_stride input));
      ptr scratch 0; width input; width input; 1; ptr output 0 + u32 (i * u32 (y_stride output))])).

Definition exec_VLIB_GAUSSIAN_5x5_PYRAMID_16 (p : params) : M unit :=
  let input := img p "input" in
  let scratch := img p "scratch" in
  let output := img p "output" in
  count (height input / 2) (fun i =>
    emit (Call "VLIB_gauss5x5PyramidKernel_16" [ptr input 0 + u32 (u32 (2 * i) * u32 (y_stride input));
      ptr scratch 0; width input; width input; 1; ptr output 0 + u32 (i * u32 (y_stride output))])).

Definition exec_VLIB_GRADIENT_H5x5_PYRAMID_8 (p : params) : M unit :=
  let input := img p "input" in
  let scratch := img p "scratch" in
  let output := img p "output" in
  q1 ← quotient (y_stride input) (x_stride input);
  emit (Call "VLIB_gradientH5x5PyramidKernel_8" [ptr input 0; ptr scratch 0; width input; q1; height input;
    ptr output 0]).

Definition exec_VLIB_GRADIENT_V5x5_PYRAMID_8 (p : params) : M unit :=
  let input := img p "input" in
  let scratch := img p "scratch" in
  let output := img p "output" in
  q1 ← quotient (y_stride input) (x_stride input);
  emit (Call "VLIB_gradientV5x5PyramidKernel_8" [ptr input 0; ptr scratch 0; width input; q1; height input;
    ptr output 0]).

Definition exec_VLIB_HARRIS_SCORE_7x7 (p : params) : M unit :=
  let inGradX := img p "inGradX" in
  let inGradY := img p "inGradY" in
  let harrisScore := img p "harrisScore" in
  emit (Call "VLIB_harrisScore_7x7" [ptr inGradX 0; ptr inGradY 0; width inGradX; height inGradX;
    ptr harrisScore 0; num p "k"; bdata p "scratch"]).

Definition exec_VLIB_HARRIS_SCORE_7x7_U32 (p : params) : M unit :=
  let inGradX := img p "inGradX" in
  let inGradY := img p "inGradY" in
  let harrisScore := img p "harrisScore" in
  emit (Call "VLIB_harrisScore_U32_7x7" [ptr inGradX 0; ptr inGradY 0; width inGradX; height inGradX;
    ptr harrisScore 0; num p "k"; bdata p "scratch"]).

Definition exec_VLIB_TRACK_FEATURES_LUCAS_7x7 (p : params) : M unit :=
  let im1 := img p "im1" in
  let im2 := img p "im2" in
  let gradx := img p "gradx" in
  let grady := img p "grady" in
  emit (Call "VLIB_trackFeaturesLucasKanade_7x7" [ptr im1 0; ptr im2 0; ptr gradx 0; ptr grady 0; width im1;
    height im1; num p "nfeatures"; bdata p "x"; bdata p "y"; bdata p "outx"; bdata p "outy"; num p "max_iters";
    bdata p "scratch"]).

Definition exec_VLIB_IIR_HORZ (p : params) : M unit :=
  let input := img p "input" in
  let output := img p "output" in
  let scratch := img p "scratch" in
  if s32 (width input) =? y_stride input then
    emit (Call "VLIB_recursiveFilterHoriz1stOrder" [ptr output 0; ptr input 0; width input; height input;
      num p "weight"; bdata p "bounds[0]"; bdata p "bounds[1]"; ptr scratch 0])
  else
    tmpBuf ← malloc (u32 (width input * 8));
    every (height input) 8 (fun y =>
      count 8 (fun i =>
        memcpy_to tmpBuf (u32 (i * width input))
          (ptr input 0 + u32 (u32 (y + i) * u32 (y_stride input))) (width input));;
      emit (Call "VLIB_recursiveFilterHoriz1stOrder" [ptr output 0 + u32 (y * u32 (y_stride output)); tmpBuf;
        width input; 8; num p "weight"; bdata p "bounds[0]"; bdata p "bounds[1]"; ptr scratch 0]));;
    emit (Free tmpBuf).

Definition exec_VLIB_IIR_HORZ_16 (p : params) : M unit :=
  let input := img p "input" in
  let output := img p "output" in
  let scratch := img p "scratch" in
  if s32 (u32 (2 * width input)) =? y_stride input then
    emit (Call "VLIB_recursiveFilterHoriz1stOrderS16" [ptr output 0; ptr input 0; width input; height input;
      num p "weight"; bdata p "bounds[0]"; bdata p "bounds[1]"; ptr scratch 0])
  else
    tmpBuf ← malloc (u32 (width input * 8) * 2);
    every (height input) 8 (fun y =>
      count 8 (fun i =>
        memcpy_to tmpBuf (u32 (i * width input) * 2)
          (ptr input 0 + u32 (u32 (y + i) * u32 (y_stride input))) (width input * 2));;
      emit (Call "VLIB_recursiveFilterHoriz1stOrderS16" [ptr output 0 + u32 (y * u32 (y_stride output)); tmpBuf;
        width input; 8; num p "weight"; bdata p "bounds[0]"; bdata p "bounds[1]"; ptr scratch 0]));;
    emit (Free tmpBuf).

Definition exec_VLIB_IIR_VERT (p : params) : M unit :=
  let input := img p "input" in
  let output := img p "output" in
  let scratch := img p "scratch" in
  if s32 (width input) =? y_stride input then
    emit (Call "VLIB_recursiveFilterVert1stOrder" [ptr output 0; ptr input 0; width input; height input;
      num p "weight"; bdata p "bounds[0]"; bdata p "bounds[1]"; ptr scratch 0])
  else
    tmpBufIn ← malloc (u32 (height input * width input));
    count (height input) (fun i =>
      memcpy_to tmpBufIn (u32 (i * width input)) (ptr input 0 + u32 (i * u32 (y_stride input))) (width input));;
    emit (Call "VLIB_recursiveFilterVert1stOrder" [ptr output 0; tmpBufIn; width input; height input;
      num p "weight"; bdata p "bounds[0]"; bdata p "bounds[1]"; ptr scratch 0]);;
    emit (Free tmpBufIn).

Definition exec_VLIB_IIR_VERT_16 (p : params) : M unit :=
  let input := img p "input" in
  let output := img p "output" in
  let scratch := img p "scratch" in
  if s32 (u32 (2 * width input)) =? y_stride input then
    emit (Call "VLIB_recursiveFilterVert1stOrderS16" [ptr output 0; ptr input 0; width input; height input;
      num p "weight"; bdata p "bounds[0]"; bdata p "bounds[1]"; ptr scratch 0])
  else
    tmpBufIn ← malloc (u32 (height input * width input) * 2);
    count (height input) (fun i =>
      memcpy_to tmpBufIn (u32 (i * width input) * 2) (ptr input 0 + u32 (i * u32 (y_stride input))) (width input * 2));;
    emit (Call "VLIB_recursiveFilterVert1stOrderS16" [ptr output 0; tmpBufIn; width input; height input;
      num p "weight"; bdata p "bounds[0]"; bdata p "bounds[1]"; ptr scratch 0]);;
    emit (Free tmpBufIn).

Definition exec_VLIB_INTEGRAL_IMAGE_8 (p : params) : M unit :=
  let input := img p "input" in
  let output := img p "output" in
  count (u32 (height input - 1)) (fun i =>
    emit (Call "VLIB_integralImage8" [ptr input 0 + u32 (i * u32 (y_stride input)); u16 (width input); 1;
      ptr output 0 + u32 (u32 (height output - 1) * u32 (y_stride output));
      ptr output 0 + u32 (i * u32 (y_stride output))])).

Definition exec_VLIB_INTEGRAL_IMAGE_16 (p : params) : M unit :=
  let input := img p "input" in
  let output := img p "output" in
  emit (Call "VLIB_integralImage16" [ptr input 0; width input; height input;
    ptr output 0 + u32 (u32 (height output - 1) * u32 (y_stride output)); ptr output 0]).

Definition exec_VLIB_HOUGH_LINE_FROM_LIST (p : params) : M unit :=
  let pOutHoughSpace := img p "pOutHoughSpace" in
  emit (Call "VLIB_houghLineFromList" [bdata p "pEdgeMapList"; ptr pOutHoughSpace 0; u16 (num p "outBlkWidth");
    u16 (num p "outBlkHeight"); u32 (num p "listSize"); u16 (num p "thetaRange"); u16 (num p "rhoMaxLength");
    bdata p "pSIN"; bdata p "pCOS"; bdata p "ping"; bdata p "pong"; bdata p "pang"; bdata p "peng"]).

Definition exec_VLIB_HYST_THRESHOLD (p : params) : M unit :=
  let inMag := img p "inMag" in
  let inEdgeMap := img p "inEdgeMap" in
  let output := img p "output" in
  emit (Call "VLIB_hysteresisThresholding" [ptr inMag 0; ptr inEdgeMap 0; ptr output 0; u16 (height inMag);
    u16 (width inMag); num p "loThresh"; num p "hiThresh"]).

Definition exec_VLIB_NONMAXSUPPRESS_3x3_S16 (p : params) : M unit :=
  let input := img p "input" in
  let output := img p "output" in
  emit (Call "VLIB_nonMaxSuppress_3x3_S16" [ptr input 0; u16 (width input); u16 (height input); num p "thresh";
    ptr output 0 + u32 (width output * 2)]).

Definition exec_VLIB_NONMAXSUPPRESS_5x5_S16 (p : params) : M unit :=
  let input := img p "input" in
  let output := img p "output" in
  emit (Call "VLIB_nonMaxSuppress_5x5_S16" [ptr input 0; u16 (width input); u16 (height input); num p "thresh";
    ptr output 0 + u32 (width output * 4)]).

Definition exec_VLIB_NONMAXSUPPRESS_7x7_S16 (p : params) : M unit :=
  let input := img p "input" in
  let output := img p "output" in
  emit (Call "VLIB_nonMaxSuppress_7x7_S16" [ptr input 0; u16 (width input); u16 (height input); num p "thresh";
    ptr output 0 + u32 (width output * 6)]).

Definition exec_VLIB_NORMALFLOW_16 (p : params) : M unit :=
  let input := img p "input" in
  let mag := img p "mag" in
  let x := img p "x" in
  let y := img p "y" in
  let lut := img p "lut" in
  let u := img p "u" in
  let v := img p "v" in
  emit (Call "VLIB_normalFlow_16" [ptr input 0; ptr mag 0; ptr x 0; ptr y 0; ptr lut 0; num p "thresh";
    u32 (width input * height input); ptr u 0; ptr v 0]).

Definition exec_VLIB_NEDLER_MEAD_SIMPLEX_16 (p : params) : M unit :=
  let addtlArgsPtr := addr p "addtlArgs" in
  emit (Call "VLIB_simplex" [addr p "rosenbrock32"; bdata p "start"; bdata p "step"; num p "N_val";
    num p "N_INV"; num p "MaxIteration"; num p "EPSILON"; bdata p "intBuf[0]"; bdata p "intBuf[1]";
    bdata p "intBuf[2]"; bdata p "intBuf[3]"; bdata p "intBuf[4]"; bdata p "intBuf[5]"; addtlArgsPtr;
    bdata p "stop"; addr p "minValue"]).

Definition exec_VLIB_NEDLER_MEAD_SIMPLEX_3D (p : params) : M unit :=
  let addtlArgsPtr := addr p "addtlArgs" in
  emit (Call "VLIB_simplex_3D" [addr p "rosenbrock32"; bdata p "start"; bdata p "step"; num p "MaxIteration";
    num p "EPSILON"; bdata p "intBuf[0]"; bdata p "intBuf[1]"; bdata p "intBuf[2]"; bdata p "intBuf[3]";
    bdata p "intBuf[4]"; bdata p "intBuf[5]"; addtlArgsPtr; bdata p "stop"; addr p "minValue"]).

Definition exec_VLIB_INIT_HISTOGRAM_8 (p : params) : M unit :=
  emit (Call "VLIB_histogram_1D_Init_U8" [bdata p "edges"; num p "numBins"; bdata p "histArray"]).

Definition exec_VLIB_HISTOGRAM_8 (p : params) : M unit :=
  let input := img p "input" in
  (if num p "header.resv[0]" =? 0
    then emit (Call "VLIB_histogram_1D_Init_U8" [bdata p "edges";
         num p "numBins";
         bdata p "histArray"]);;
         emit (Store "header.resv[0]" 1)
    else stop);;
  (if negb (num p "clearFlag" =? 0)
    then emit (Memset (bdata p "h[0]") 0 (u32 (num p "numBins" * 2)));;
         emit (Memset (bdata p "h[1]") 0 (u32 (num p "numBins" * 2)));;
         emit (Memset (bdata p "h[2]") 0 (u32 (num p "numBins" * 2)));;
         emit (Memset (bdata p "hOut") 0 (u32 (num p "numBins" * 2)))
    else stop);;
  emit (Call "VLIB_histogram_1D_U8" [ptr input 0; numBytes input; num p "numBins"; num p "binWeight";
    bdata p "histArray"; bdata p "h[0]"; bdata p "h[1]"; bdata p "h[2]"; bdata p "hOut"]).

Definition exec_VLIB_WEIGHTED_HISTOGRAM_8 (p : params) : M unit :=
  let input := img p "input" in
  (if num p "header.resv[0]" =? 0
    then emit (Call "VLIB_histogram_1D_Init_U8" [bdata p "edges";
         num p "numBins";
         bdata p "histArray"]);;
         emit (Store "header.resv[0]" 1)
    else stop);;
  (if negb (num p "clearFlag" =? 0)
    then emit (Memset (bdata p "h[0]") 0 (u32 (num p "numBins" * 2)));;
         emit (Memset (bdata p "h[1]") 0 (u32 (num p "numBins" * 2)));;
         emit (Memset (bdata p "h[2]") 0 (u32 (num p "numBins" * 2)));;
         emit (Memset (bdata p "hOut") 0 (u32 (num p "numBins" * 2)))
    else stop);;
  emit (Call "VLIB_weightedHistogram_1D_U8" [ptr input 0; numBytes input; num p "numBins";
    bdata p "binWeights"; bdata p "histArray"; bdata p "h[0]"; bdata p "h[1]"; bdata p "h[2]"; bdata p "hOut"]).

Definition exec_VLIB_INIT_HISTOGRAM_16 (p : params) : M unit :=
  emit (Call "VLIB_histogram_1D_Init_U16" [bdata p "edges"; num p "numBins"; bdata p "histArray"]).

Definition exec_VLIB_HISTOGRAM_16 (p : params) : M unit :=
  let input := img p "input" in
  (if num p "header.resv[0]" =? 0
    then emit (Call "VLIB_histogram_1D_Init_U16" [bdata p "edges";
         num p "numBins";
         bdata p "histArray"]);;
         emit (Store "header.resv[0]" 1)
    else stop);;
  (if negb (num p "clearFlag" =? 0)
    then emit (Memset (bdata p "h[0]") 0 (u32 (num p "numBins" * 2)));;
         emit (Memset (bdata p "hOut") 0 (u32 (num p "numBins" * 2)))
    else stop);;
  emit (Call "VLIB_histogram_1D_U16" [ptr input 0; numBytes input / 2; num p "numBins"; num p "binWeight";
    bdata p "histArray"; bdata p "h[0]"; bdata p "hOut"]).

Definition exec_VLIB_WEIGHTED_HISTOGRAM_16 (p : params) : M unit :=
  let input := img p "input" in
  (if num p "header.resv[0]" =? 0
    then emit (Call "VLIB_histogram_1D_Init_U16" [bdata p "edges";
         num p "numBins";
         bdata p "histArray"]);;
         emit (Store "header.resv[0]" 1)
    else stop);;
  (if negb (num p "clearFlag" =? 0)
    then emit (Memset (bdata p "h[0]") 0 (u32 (num p "numBins" * 2)));;
         emit (Memset (bdata p "hOut") 0 (u32 (num p "numBins" * 2)))
    else stop);;
  emit (Call "VLIB_weightedHistogram_1D_U16" [ptr input 0; numBytes input / 2; num p "numBins";
    bdata p "binWeights"; bdata p "histArray"; bdata p "h[0]"; bdata p "hOut"]).

Definition exec_VLIB_HISTOGRAM_ND_16 (p : params) : M unit :=
  let input := img p "input" in
  totBins ← count_with (num p "dimX") (fun i totBins =>
    bins ← ask (Load (bdata p "numBinsArray" + i)); mret (u32 (totBins * bins))) 1;
  (if negb (num p "clearFlag" =? 0) then emit (Memset (bdata p "hOut") 0 (u32 (totBins * 2))) else stop);;
  q1 ← quotient (numBytes input / 2) (num p "dimX");
  emit (Call "VLIB_histogram_nD_U16" [ptr input 0; q1; num p "dimX"; num p "binWeight"; bdata p "numBinsArray";
    bdata p "h[0]"; bdata p "h[1]"; bdata p "h[2]"; bdata p "hOut"]).

Definition exec_VLIB_NONMAXSUPPRESS_U32 (p : params) : M unit :=
  let input := img p "input" in
  emit (Call "VLIB_nonMaxSuppress_U32" [ptr input 0; s32 (width input); s32 (height input); num p "p";
    u32 (num p "threshold"); bdata p "scratch"; bdata p "pixIndex"]).

Definition exec_VLIB_BHATTACHAYA_DISTANCE (p : params) : M unit :=
  let X := img p "X" in
  let Y := img p "Y" in
  _ ← count_with (height X) (fun y total =>
    '(_, distance) ← ask_out (Call "VLIB_bhattacharyaDistance_U32" [ptr X 0 + u32 (y * u32 (y_stride X));
      ptr Y 0 + u32 (y * u32 (y_stride Y)); width X; addr p "&distance"]);
    emit (Store "distance" (u32 (total + distance)));;
    mret (u32 (total + distance))) (num p "distance");
  stop.

Definition exec_VLIB_L1DISTANCE (p : params) : M unit :=
  let X := img p "X" in
  let Y := img p "Y" in
  emit (Store "distance" 0);;
  _ ← count_with (height X) (fun y total =>
    '(_, distance) ← ask_out (Call "VLIB_L1DistanceS16" [ptr X 0 + u32 (y * u32 (y_stride X));
      ptr Y 0 + u32 (y * u32 (y_stride Y)); width X; addr p "&distance"]);
    emit (Store "distance" (u32 (total + distance)));;
    mret (u32 (total + distance))) 0;
  stop.

Definition exec_VLIB_UYVY_TO_YUV420p (p : params) : M unit :=
  let input := img p "input" in
  let output := img p "output" in
  if (color input =? FOURCC_UYVY) && ((color output =? FOURCC_IYUV) || (color output =? FOURCC_YV12)) then
    let y_step := y_stride output in
    let uv_stride := Z.shiftr y_step 1 in
    let '(pV, pU) :=
      if color output =? FOURCC_YV12
      then (ptr output 1, ptr output 2)
      else (ptr output 2, ptr output 1) in
    if negb (uv_stride =? y_stride output) then
      q1 ← quotient (y_stride input) (x_stride input);
      emit (Call "VLIB_convertUYVYint_to_YUV420pl" [ptr input 0; width input; q1; height input; ptr output 0;
        pV; pU])
    else
      let in_ := ptr input 0 in
      let Y := ptr output 0 in
      _ ← rows (height input / 2) (fun '(in_, Y, pU, pV) =>
        q2 ← quotient (y_stride input) (x_stride input);
        emit (Call "VLIB_convertUYVYint_to_YUV420pl" [in_; width input; q2; 2; Y; pV; pU]);;
        mret (in_ + y_stride input * 2, Y + y_stride output * 2, pU + uv_stride, pV + uv_stride)) (in_, Y, pU, pV);
      stop
  else stop.

Definition exec_VLIB_UYVY_TO_RGBp (p : params) : M unit :=
  let input := img p "input" in
  let output := img p "output" in
  if (color input =? FOURCC_UYVY) && (color output =? FOURCC_RGBP) then
    q1 ← quotient (y_stride input) (x_stride input);
    emit (Call "VLIB_convertUYVYint_to_RGBpl" [ptr input 0; width input; q1; height input; addr p "coeff";
      ptr output 0; ptr output 1; ptr output 2])
  else stop.

Definition exec_VLIB_XYXY_TO_Y800 (p : params) : M unit :=
  let input := img p "input" in
  let output := img p "output" in
  if color input =? FOURCC_UYVY then
    q1 ← quotient (y_stride input) (x_stride input);
    emit (Call "VLIB_extractLumaFromxYxY" [ptr input 0; width input; q1; height input; ptr output 0])
  else stop.

Definition exec_VLIB_UYVY_TO_YUV444p (p : params) : M unit :=
  let input := img p "input" in
  let output := img p "output" in
  if (color input =? FOURCC_UYVY) && ((color output =? FOURCC_YV24) || (color output =? FOURCC_YU24)) then
    let '(pV, pU) :=
      if color output =? FOURCC_YV24
      then (ptr output 1, ptr output 2)
      else (ptr output 2, ptr output 1) in
    q1 ← quotient (y_stride input) (x_stride input);
    emit (Call "VLIB_convertUYVYint_to_YUV444pl" [ptr input 0; width input; q1; height input; ptr output 0; pV;
      pU])
  else stop.

Definition exec_VLIB_YXYX_TO_Y800 (p : params) : M unit :=
  let input := img p "input" in
  let output := img p "output" in
  if color input =? FOURCC_YUY2 then
    q1 ← quotient (y_stride input) (x_stride input);
    emit (Call "VLIB_extractLumaFromYxYx" [ptr input 0; width input; q1; height input; ptr output 0])
  else stop.

Definition exec_VLIB_YUV422p_TO_UYVY (p : params) : M unit :=
  let input := img p "input" in
  let output := img p "output" in
  if ((color input =? FOURCC_YV16) || (color input =? FOURCC_YU16)) && (color output =? FOURCC_UYVY) then
    let '(pV, pU) := if color input =? FOURCC_YV16 then (ptr input 1, ptr input 2) else (ptr input 2, ptr input 1) in
    q1 ← quotient (y_stride input) (x_stride input);
    emit (Call "VLIB_ConvertUYVYpl_to_YUVint" [ptr input 0; pU; pV; width input; q1; height input; ptr output 0])
  else stop.

Definition exec_VLIB_UYVY_TO_YUV422p (p : params) : M unit :=
  let input := img p "input" in
  let output := img p "output" in
  if (color input =? FOURCC_UYVY) && ((color output =? FOURCC_YV16) || (color output =? FOURCC_YU16)) then
    let '(pV, pU) :=
      if color output =? FOURCC_YV16
      then (ptr output 1, ptr output 2)
      else (ptr output 2, ptr output 1) in
    q1 ← quotient (y_stride input) (x_stride input);
    emit (Call "VLIB_convertUYVYint_to_YUV422pl" [ptr input 0; width input; q1; height input; ptr output 0; pU;
      pV])
  else stop.

Definition exec_VLIB_DISPARITY_SAD8 (p : params) : M unit :=
  let left := img p "left" in
  let right := img p "right" in
  let cost := img p "cost" in
  let mincost := img p "mincost" in
  let disparity := img p "disparity" in
  let disparityWindow := s32 (u32 (20 * width left) / 100) in
  let half := Z.quot disparityWindow 2 in
  scratch ← calloc 1 (width left);
  if negb (scratch =? 0) then
    count_from 1 (num p "displacement") (fun d =>
      emit (Memset scratch 0 (width left));;
      emit (Call "VLIB_disparity_SAD_firstRow8" [ptr left 0 + half; ptr right 0 + half; ptr cost 0; ptr mincost 0;
        scratch; ptr disparity 0; d; width left; y_stride left; disparityWindow]);;
      count_from 1 (height left) (fun y =>
        let row (i : DVP_Image_t) := u32 (y * u32 (y_stride i)) in
        emit (Call "VLIB_disparity_SAD8" [ptr left 0 + u32 (row left + u32 half);
          ptr right 0 + u32 (row right + u32 half); ptr cost 0 + row cost; ptr mincost 0 + row mincost;
          ptr disparity 0 + row disparity; d; width left; y_stride left; disparityWindow])));;
    emit (Free scratch)
  else stop.

Definition exec_VLIB_DISPARITY_SAD16 (p : params) : M unit :=
  let left := img p "left" in
  let right := img p "right" in
  let cost := img p "cost" in
  let mincost := img p "mincost" in
  let disparity := img p "disparity" in
  count (height left) (fun y =>
    q1 ← quotient (y_stride left) (x_stride left);
    emit (Call "VLIB_disparity_SAD16" [ptr left 0 + u32 (y * u32 (y_stride left));
      ptr right 0 + u32 (y * u32 (y_stride right)); ptr cost 0 + u32 (y * u32 (y_stride cost));
      ptr mincost 0 + u32 (y * u32 (y_stride mincost)); ptr disparity 0 + u32 (y * u32 (y_stride disparity));
      num p "displacement"; width left; q1; 1])).

Definition exec_VLIB_UYVY_TO_HSLp (p : params) : M unit :=
  let input := img p "input" in
  let output1 := img p "output1" in
  let output2 := img p "output2" in
  let output3 := img p "output3" in
  if color input =? FOURCC_UYVY then
    let in_ := ptr input 0 in
    let out0 := ptr output1 0 in
    let out1 := ptr output2 0 in
    let out2 := ptr output3 0 in
    let inStride := u32 (y_stride input) in
    let outStride1 := u32 (y_stride output1) in
    let outStride2 := u32 (y_stride output2) in
    if width output1 <? outStride1 then
      _ ← rows (height input) (fun '(in_, out0, out1, out2) =>
        emit (Call "VLIB_convertUYVYint_to_HSLpl" [in_; width input; 1; 1; addr p "yuv2rgbMatrix";
          addr p "div_table_DDR2"; out0; out1; out2]);;
        mret (in_ + inStride, out0 + outStride1, out1 + outStride2, out2 + outStride2)) (in_, out0, out1, out2);
      stop
    else
      q1 ← quotient inStride (u32 (x_stride input));
      emit (Call "VLIB_convertUYVYint_to_HSLpl" [in_; width input; q1; height input; addr p "yuv2rgbMatrix";
        addr p "div_table_DDR2"; out0; out1; out2])
  else stop.

Definition exec_VLIB_UYVY_TO_LABp (p : params) : M unit :=
  let input := img p "input" in
  let output1 := img p "output1" in
  let output2 := img p "output2" in
  let output3 := img p "output3" in
  if color input =? FOURCC_UYVY then
    let in_ := ptr input 0 in
    let L := ptr output1 0 in
    let a := ptr output2 0 in
    let b := ptr output3 0 in
    let LUT := bdata p "scratch" in
    let inStride := u32 (y_stride input) in
    let outStride := u32 (y_stride output1) in
    if width output1 <? outStride then
      emit (Call "VLIB_initUYVYint_to_LABpl_LUT" [num p "factor"; addr p "yuv2rgbMatrix"; addr p "whitePoint";
        LUT]);;
      _ ← rows (height input) (fun '(in_, L, a, b) =>
        emit (Call "VLIB_convertUYVYint_to_LABpl_LUT" [in_; width input; width input; 1; num p "factor"; LUT;
          L; a; b]);;
        mret (in_ + inStride, L + outStride, a + outStride, b + outStride)) (in_, L, a, b);
      stop
    else
      emit (Call "VLIB_convertUYVYint_to_LABpl_LUT" [in_; width input; width input; height input;
        num p "factor"; LUT; L; a; b])
  else stop.

Definition exec_VLIB_INIT_MEAN_LUMA_S16 (p : params) : M unit :=
  let input := img p "input" in
  let output := img p "output" in
  count (height input) (fun y =>
    emit (Call "VLIB_initMeanWithLumaS16" [ptr output 0 + u32 (y * u32 (y_stride output));
      ptr input 0 + u32 (y * u32 (y_stride input)); width input])).

Definition exec_VLIB_INIT_MEAN_LUMA_S32 (p : params) : M unit :=
  let input := img p "input" in
  let output := img p "output" in
  count (height input) (fun y =>
    emit (Call "VLIB_initMeanWithLumaS32" [ptr output 0 + u32 (y * u32 (y_stride output));
      ptr input 0 + u32 (y * u32 (y_stride input)); width input])).

Definition exec_VLIB_INIT_VAR_CONST_S16 (p : params) : M unit :=
  let var := img p "var" in
  count (height var) (fun y =>
    emit (Call "VLIB_initVarWithConstS16" [ptr var 0 + u32 (y * u32 (y_stride var)); num p "constVar"; width var])).

Definition exec_VLIB_INIT_VAR_CONST_S32 (p : params) : M unit :=
  let var := img p "var" in
  count (height var) (fun y =>
    emit (Call "VLIB_initVarWithConstS32" [ptr var 0 + u32 (y * u32 (y_stride var)); num p "constVar"; width var])).

Definition exec_VLIB_SOBEL_8 (p : params) : M unit :=
  let input := img p "input" in
  let output := img p "output" in
  emit (Call "VLIB_sobelFilter_U8" [ptr input 0; width input; height input; y_stride input; ptr output 0]).

Definition exec_VLIB_SCHARR_8 (p : params) : M unit :=
  let input := img p "input" in
  let output := img p "output" in
  emit (Call "VLIB_scharrFilter_U8" [ptr input 0; width input; height input; y_stride input; ptr output 0]).

Definition exec_VLIB_KROON_8 (p : params) : M unit :=
  let input := img p "input" in
  let output := img p "output" in
  emit (Call "VLIB_kroonFilter_U8" [ptr input 0; width input; height input; y_stride input; ptr output 0]).

Definition exec_VLIB_PREWITT_8 (p : params) : M unit :=
  let input := img p "input" in
  let output := img p "output" in
  emit (Call "VLIB_prewittFilter_U8" [ptr input 0; width input; height input; y_stride input; ptr output 0]).

(** The labels of each case *)
Definition vlib_cases : list (list string * (params -> M unit)) :=
  [ (["DVP_KN_VLIB_MOG_S16"], exec_VLIB_MOG_S16);
    (["DVP_KN_VLIB_MOG_S32"], exec_VLIB_MOG_S32);
    (["DVP_KN_VLIB_EWR_MEAN_S16"], exec_VLIB_EWR_MEAN_S16);
    (["DVP_KN_VLIB_EWR_VAR_S16"], exec_VLIB_EWR_VAR_S16);
    (["DVP_KN_VLIB_EWR_MEAN_S32"], exec_VLIB_EWR_MEAN_S32);
    (["DVP_KN_VLIB_EWR_VAR_S32"], exec_VLIB_EWR_VAR_S32);
    (["DVP_KN_VLIB_UWR_MEAN_S16"], exec_VLIB_UWR_MEAN_S16);
    (["DVP_KN_VLIB_UWR_VAR_S16"], exec_VLIB_UWR_VAR_S16);
    (["DVP_KN_VLIB_SUB_BACK_S16"], exec_VLIB_SUB_BACK_S16);
    (["DVP_KN_VLIB_SUB_BACK_S32"], exec_VLIB_SUB_BACK_S32);
    (["DVP_KN_VLIB_EXTRACT_BACK_8_16"], exec_VLIB_EXTRACT_BACK_8_16);
    (["DVP_KN_VLIB_PACK_MASK_32"], exec_VLIB_PACK_MASK_32);
    (["DVP_KN_VLIB_UNPACK_MASK_32"], exec_VLIB_UNPACK_MASK_32);
    (["DVP_KN_DILATE_CROSS"; "DVP_KN_DILATE_MASK"; "DVP_KN_DILATE_SQUARE"; "DVP_KN_ERODE_CROSS";
      "DVP_KN_ERODE_MASK"; "DVP_KN_ERODE_SQUARE"; "DVP_KN_VLIB_DILATE_CROSS"; "DVP_KN_VLIB_DILATE_MASK";
      "DVP_KN_VLIB_DILATE_SQUARE"; "DVP_KN_VLIB_ERODE_CROSS"; "DVP_KN_VLIB_ERODE_MASK";
      "DVP_KN_VLIB_ERODE_SQUARE"; "DVP_KN_VLIB_ERODE_SINGLEPIXEL"], exec_VLIB_MORPHOLOGY);
    (["DVP_KN_VLIB_CCL"], exec_VLIB_CCL);
    (["DVP_KN_CANNY_2D_GRADIENT"; "DVP_KN_VLIB_CANNY_2D_GRADIENT"], exec_VLIB_CANNY_2D_GRADIENT);
    (["DVP_KN_CANNY_NONMAX_SUPPRESSION"; "DVP_KN_VLIB_CANNY_NONMAX_SUPPRESSION"],
      exec_VLIB_CANNY_NONMAX_SUPPRESSION);
    (["DVP_KN_CANNY_HYST_THRESHHOLD"; "DVP_KN_VLIB_CANNY_HYST_THRESHHOLD"], exec_VLIB_CANNY_HYST_THRESHHOLD);
    (["DVP_KN_VLIB_IMAGE_PYRAMID_8"], exec_VLIB_IMAGE_PYRAMID_8);
    (["DVP_KN_VLIB_IMAGE_PYRAMID_16"], exec_VLIB_IMAGE_PYRAMID_16);
    (["DVP_KN_VLIB_GAUSSIAN_5x5_PYRAMID_8"], exec_VLIB_GAUSSIAN_5x5_PYRAMID_8);
    (["DVP_KN_VLIB_GAUSSIAN_5x5_PYRAMID_16"], exec_VLIB_GAUSSIAN_5x5_PYRAMID_16);
    (["DVP_KN_VLIB_GRADIENT_H5x5_PYRAMID_8"], exec_VLIB_GRADIENT_H5x5_PYRAMID_8);
    (["DVP_KN_VLIB_GRADIENT_V5x5_PYRAMID_8"], exec_VLIB_GRADIENT_V5x5_PYRAMID_8);
    (["DVP_KN_VLIB_HARRIS_SCORE_7x7"], exec_VLIB_HARRIS_SCORE_7x7);
    (["DVP_KN_VLIB_HARRIS_SCORE_7x7_U32"], exec_VLIB_HARRIS_SCORE_7x7_U32);
    (["DVP_KN_VLIB_TRACK_FEATURES_LUCAS_7x7"], exec_VLIB_TRACK_FEATURES_LUCAS_7x7);
    (["DVP_KN_IIR_HORZ"; "DVP_KN_VLIB_IIR_HORZ"], exec_VLIB_IIR_HORZ);
    (["DVP_KN_VLIB_IIR_HORZ_16"], exec_VLIB_IIR_HORZ_16);
    (["DVP_KN_IIR_VERT"; "DVP_KN_VLIB_IIR_VERT"], exec_VLIB_IIR_VERT);
    (["DVP_KN_VLIB_IIR_VERT_16"], exec_VLIB_IIR_VERT_16);
    (["DVP_KN_INTEGRAL_IMAGE_8"; "DVP_KN_VLIB_INTEGRAL_IMAGE_8"], exec_VLIB_INTEGRAL_IMAGE_8);
    (["DVP_KN_VLIB_INTEGRAL_IMAGE_16"], exec_VLIB_INTEGRAL_IMAGE_16);
    (["DVP_KN_VLIB_HOUGH_LINE_FROM_LIST"], exec_VLIB_HOUGH_LINE_FROM_LIST);
    (["DVP_KN_VLIB_HYST_THRESHOLD"], exec_VLIB_HYST_THRESHOLD);
    (["DVP_KN_NONMAXSUPPRESS_3x3_S16"; "DVP_KN_VLIB_NONMAXSUPPRESS_3x3_S16"],
      exec_VLIB_NONMAXSUPPRESS_3x3_S16);
    (["DVP_KN_NONMAXSUPPRESS_5x5_S16"; "DVP_KN_VLIB_NONMAXSUPPRESS_5x5_S16"],
      exec_VLIB_NONMAXSUPPRESS_5x5_S16);
    (["DVP_KN_NONMAXSUPPRESS_7x7_S16"; "DVP_KN_VLIB_NONMAXSUPPRESS_7x7_S16"],
      exec_VLIB_NONMAXSUPPRESS_7x7_S16);
    (["DVP_KN_VLIB_NORMALFLOW_16"], exec_VLIB_NORMALFLOW_16);
    (["DVP_KN_VLIB_NEDLER_MEAD_SIMPLEX_16"], exec_VLIB_NEDLER_MEAD_SIMPLEX_16);
    (["DVP_KN_VLIB_NEDLER_MEAD_SIMPLEX_3D"], exec_VLIB_NEDLER_MEAD_SIMPLEX_3D);
    (["DVP_KN_VLIB_INIT_HISTOGRAM_8"], exec_VLIB_INIT_HISTOGRAM_8);
    (["DVP_KN_VLIB_HISTOGRAM_8"], exec_VLIB_HISTOGRAM_8);
    (["DVP_KN_VLIB_WEIGHTED_HISTOGRAM_8"], exec_VLIB_WEIGHTED_HISTOGRAM_8);
    (["DVP_KN_VLIB_INIT_HISTOGRAM_16"], exec_VLIB_INIT_HISTOGRAM_16);
    (["DVP_KN_VLIB_HISTOGRAM_16"], exec_VLIB_HISTOGRAM_16);
    (["DVP_KN_VLIB_WEIGHTED_HISTOGRAM_16"], exec_VLIB_WEIGHTED_HISTOGRAM_16);
    (["DVP_KN_VLIB_HISTOGRAM_ND_16"], exec_VLIB_HISTOGRAM_ND_16);
    (["DVP_KN_VLIB_NONMAXSUPPRESS_U32"], exec_VLIB_NONMAXSUPPRESS_U32);
    (["DVP_KN_VLIB_BHATTACHAYA_DISTANCE"], exec_VLIB_BHATTACHAYA_DISTANCE);
    (["DVP_KN_VLIB_L1DISTANCE"], exec_VLIB_L1DISTANCE);
    (["DVP_KN_UYVY_TO_YUV420p"; "DVP_KN_VLIB_UYVY_TO_YUV420p"], exec_VLIB_UYVY_TO_YUV420p);
    (["DVP_KN_UYVY_TO_RGBp"; "DVP_KN_VLIB_UYVY_TO_RGBp"], exec_VLIB_UYVY_TO_RGBp);
    (["DVP_KN_XYXY_TO_Y800"; "DVP_KN_VLIB_XYXY_TO_Y800"], exec_VLIB_XYXY_TO_Y800);
    (["DVP_KN_UYVY_TO_YUV444p"; "DVP_KN_VLIB_UYVY_TO_YUV444p"], exec_VLIB_UYVY_TO_YUV444p);
    (["DVP_KN_YXYX_TO_Y800"; "DVP_KN_VLIB_YXYX_TO_Y800"], exec_VLIB_YXYX_TO_Y800);
    (["DVP_KN_YUV422p_TO_UYVY"; "DVP_KN_VLIB_YUV422p_TO_UYVY"], exec_VLIB_YUV422p_TO_UYVY);
    (["DVP_KN_UYVY_TO_YUV422p"; "DVP_KN_VLIB_UYVY_TO_YUV422p"], exec_VLIB_UYVY_TO_YUV422p);
    (["DVP_KN_VLIB_DISPARITY_SAD8"], exec_VLIB_DISPARITY_SAD8);
    (["DVP_KN_VLIB_DISPARITY_SAD16"], exec_VLIB_DISPARITY_SAD16);
    (["DVP_KN_VLIB_UYVY_TO_HSLp"], exec_VLIB_UYVY_TO_HSLp);
    (["DVP_KN_VLIB_UYVY_TO_LABp"], exec_VLIB_UYVY_TO_LABp);
    (["DVP_KN_VLIB_INIT_MEAN_LUMA_S16"], exec_VLIB_INIT_MEAN_LUMA_S16);
    (["DVP_KN_VLIB_INIT_MEAN_LUMA_S32"], exec_VLIB_INIT_MEAN_LUMA_S32);
    (["DVP_KN_VLIB_INIT_VAR_CONST_S16"], exec_VLIB_INIT_VAR_CONST_S16);
    (["DVP_KN_VLIB_INIT_VAR_CONST_S32"], exec_VLIB_INIT_VAR_CONST_S32);
    (["DVP_KN_SOBEL_8"; "DVP_KN_VLIB_SOBEL_8"], exec_VLIB_SOBEL_8);
    (["DVP_KN_SCHARR_8"; "DVP_KN_VLIB_SCHARR_8"], exec_VLIB_SCHARR_8);
    (["DVP_KN_KROON_8"; "DVP_KN_VLIB_KROON_8"], exec_VLIB_KROON_8);
    (["DVP_KN_PREWITT_8"; "DVP_KN_VLIB_PREWITT_8"], exec_VLIB_PREWITT_8) ].

(** ** The cases of the YUV library, of the image filters and of RVM *)

Definition exec_YUV_UYVY_HALF_SCALE (p : params) : M unit :=
  let input := img p "input" in
  let output := img p "output" in
  if (color input =? FOURCC_UYVY) && (color output =? FOURCC_UYVY) &&
     (width input =? u32 (2 * width output)) && (height input =? u32 (2 * height output)) then
    emit (Call "__uyvy_half_scale_image" [width input; height input; ptr input 0; y_stride input; ptr output 0;
      y_stride output])
  else emit (Count (-1)).

Definition exec_YUV_UYVY_QTR_SCALE (p : params) : M unit :=
  let input := img p "input" in
  let output := img p "output" in
  if (color input =? FOURCC_UYVY) && (color output =? FOURCC_UYVY) &&
     (width input =? u32 (4 * width output)) && (height input =? u32 (4 * height output)) then
    emit (Call "__uyvy_qtr_scale_image" [width input; height input; ptr input 0; y_stride input; ptr output 0;
      y_stride output])
  else emit (Count (-1)).

Definition exec_YUV_NV12_TO_YU24_HALF_SCALE (p : params) : M unit :=
  let input := img p "input" in
  let output := img p "output" in
  if (color input =? FOURCC_NV12) && (color output =? FOURCC_YV24) then
    emit (Call "__nv12_to_half_yuv444_image" [width input; height input; ptr input 0; ptr input 1;
      y_stride input; ptr output 0; ptr output 2; ptr output 1; y_stride output])
  else if (color input =? FOURCC_NV12) && (color output =? FOURCC_YU24) then
    emit (Call "__nv12_to_half_yuv444_image" [width input; height input; ptr input 0; ptr input 1;
      y_stride input; ptr output 0; ptr output 1; ptr output 2; y_stride output])
  else stop.

Definition exec_YUV_YUV444_TO_RGBp (p : params) : M unit :=
  let input := img p "input" in
  let output := img p "output" in
  if (color input =? FOURCC_YU24) && (color output =? FOURCC_RGBP) then
    emit (Call "__yuv444_to_rgbp_image_bt601" [width input; height input; ptr input 0; ptr input 1;
      ptr input 2; y_stride input; ptr output 0; ptr output 1; ptr output 2; y_stride output])
  else if (color input =? FOURCC_YV24) && (color output =? FOURCC_RGBP) then
    emit (Call "__yuv444_to_rgbp_image_bt601" [width input; height input; ptr input 0; ptr input 2;
      ptr input 1; y_stride input; ptr output 0; ptr output 1; ptr output 2; y_stride output])
  else stop.

Definition exec_YUV_Y800_ROTATE_CCW_90 (p : params) : M unit :=
  let input := img p "input" in
  let output := img p "output" in
  if (color input =? color output) && (width input =? height output) && (height input =? width output) &&
     (planes input =? planes output) && (u32 (y_stride input) =? width input) &&
     (u32 (y_stride output) =? width output) then
    count (planes input) (fun pl =>
      let '(div_x, div_y) :=
        if 0 <? pl then
          if (color input =? FOURCC_IYUV) || (color input =? FOURCC_YV12) then (2, 2)
          else if (color input =? FOURCC_YU16) || (color input =? FOURCC_YV16) then (2, 1)
          else (1, 1)
        else (1, 1) in
      src ← plane_ptr input pl;
      dst ← plane_ptr output pl;
      if String.eqb (kn p) "DVP_KN_YUV_Y800_ROTATE_CW_90" then
        emit (Call "__planar_rotate_cw90" [width input / div_x; height input / div_y; src; dst])
      else if String.eqb (kn p) "DVP_KN_YUV_Y800_ROTATE_CCW_90" then
        emit (Call "__planar_rotate_ccw90" [width input / div_x; height input / div_y; src; dst])
      else stop)
  else emit (Count (-1)).

Definition exec_YUV_UYVY_ROTATE_CCW_90 (p : params) : M unit :=
  let input := img p "input" in
  let output := img p "output" in
  if (color input =? color output) && (color input =? FOURCC_UYVY) && (width input =? height output) &&
     (height input =? width output) then
    if String.eqb (kn p) "DVP_KN_YUV_UYVY_ROTATE_CW_90" then
      emit (Call "__uyvy_rotate_cw90" [width input; height input; ptr input 0; ptr output 0; y_stride input;
        y_stride output])
    else if String.eqb (kn p) "DVP_KN_YUV_UYVY_ROTATE_CCW_90" then
      emit (Call "__uyvy_rotate_ccw90" [width input; height input; ptr input 0; ptr output 0; y_stride input;
        y_stride output])
    else stop
  else emit (Count (-1)).

Definition exec_YUV_Y800_TO_XYXY (p : params) : M unit :=
  let input := img p "input" in
  let output := img p "output" in
  if (color input =? FOURCC_Y800) && (color output =? FOURCC_UYVY) then
    emit (Call "__luma_to_uyvy_image" [width input; height input; ptr input 0; y_stride input; ptr output 0;
      y_stride output])
  else stop.

Definition exec_YUV_UYVY_TO_BGR (p : params) : M unit :=
  let input := img p "input" in
  let output := img p "output" in
  if (color input =? FOURCC_UYVY) && (color output =? FOURCC_BGR) then
    emit (Call "__uyvy_to_bgr_image_bt601" [width input; height input; ptr input 0; y_stride input;
      ptr output 0; y_stride output])
  else stop.

Definition exec_YUV_ARGB_TO_UYVY (p : params) : M unit :=
  let input := img p "input" in
  let output := img p "output" in
  if (color input =? FOURCC_ARGB) && (color output =? FOURCC_UYVY) then
    emit (Call "__argb_to_uyvy_image_bt601" [width input; height input; ptr input 0; y_stride input;
      ptr output 0; y_stride output])
  else stop.

Definition exec_YUV_UYVY_TO_IYUV (p : params) : M unit :=
  let input := img p "input" in
  let output := img p "output" in
  if (color input =? FOURCC_UYVY) && ((color output =? FOURCC_IYUV) || (color output =? FOURCC_YV12)) then
    let y_step := y_stride output in
    let uv_stride := Z.shiftr y_step 1 in
    let '(pV, pU) :=
      if color output =? FOURCC_YV12
      then (ptr output 1, ptr output 2)
      else (ptr output 2, ptr output 1) in
    emit (Call "__uyvy_to_yuv420_image" [width input; height input; ptr input 0; y_stride input; ptr output 0;
      pU; pV; y_step; uv_stride])
  else stop.

Definition exec_YUV_UYVY_TO_RGBp (p : params) : M unit :=
  let input := img p "input" in
  let output := img p "output" in
  if (color input =? FOURCC_UYVY) && (color output =? FOURCC_RGBP) then
    emit (Call "__uyvy_to_rgbp_image_bt601" [width input; height input; ptr input 0; y_stride input;
      ptr output 0; ptr output 1; ptr output 2; y_stride output])
  else stop.

Definition exec_YUV_XYXY_TO_Y800 (p : params) : M unit :=
  let input := img p "input" in
  let output := img p "output" in
  if color input =? FOURCC_UYVY then
    emit (Call "__uyvy_luma_extract" [width input; height input; ptr input 0; y_stride input; ptr output 0;
      y_stride output])
  else stop.

Definition exec_YUV_UYVY_TO_YUV444p (p : params) : M unit :=
  let input := img p "input" in
  let output := img p "output" in
  if (color input =? FOURCC_UYVY) && ((color output =? FOURCC_YV24) || (color output =? FOURCC_YU24)) then
    let '(pV, pU) :=
      if color output =? FOURCC_YV24
      then (ptr output 1, ptr output 2)
      else (ptr output 2, ptr output 1) in
    emit (Call "__uyvy_to_yuv444p_image" [width input; height input; ptr input 0; y_stride input; ptr output 0;
      pU; pV; y_stride output])
  else stop.

Definition exec_YUV_BGR_TO_IYUV (p : params) : M unit :=
  let input := img p "input" in
  let output := img p "output" in
  if String.eqb (kn p) "DVP_KN_YUV_BGR_TO_UYVY" || String.eqb (kn p) "DVP_KN_BGR3_TO_UYVY" then
    emit (Call "__bgr_to_uyvy_image_bt601" [width input; height input; ptr input 0; y_stride input; ptr output 0;
      y_stride output])
  else if String.eqb (kn p) "DVP_KN_YUV_BGR_TO_IYUV" || String.eqb (kn p) "DVP_KN_BGR3_TO_IYUV" then
    emit (Call "__bgr_to_iyuv_image_bt601" [width input; height input; ptr input 0; y_stride input; ptr output 0;
      ptr output 1; ptr output 2])
  else
    emit (Call "image_convert" [addr p "output"; addr p "input"]).

Definition exec_IMGFILTER_SOBEL (p : params) : M unit :=
  emit (Call "DVP_imgFilter" [addr p "input"; constant p "DVP_IMGFILTER_SOBEL"; addr p "output"]).

Definition exec_IMGFILTER_SCHARR (p : params) : M unit :=
  emit (Call "DVP_imgFilter" [addr p "input"; constant p "DVP_IMGFILTER_SCHARR"; addr p "output"]).

Definition exec_IMGFILTER_KROON (p : params) : M unit :=
  emit (Call "DVP_imgFilter" [addr p "input"; constant p "DVP_IMGFILTER_KROON"; addr p "output"]).

Definition exec_IMGFILTER_PREWITT (p : params) : M unit :=
  emit (Call "DVP_imgFilter" [addr p "input"; constant p "DVP_IMGFILTER_PREWITT"; addr p "output"]).

Definition exec_RVM (p : params) : M unit :=
  let input := img p "input" in
  let output := img p "output" in
  let run color planes :=
    scratchSize ← ask (Call "RVM_getScratchSize" [bdata p "lut"; color]);
    scratch ← malloc (u32 scratchSize);
    if negb (scratch =? 0) then
      emit (Call "RVM_wrapper" (planes ++ [color; bdata p "lut"; scratch; u32 scratchSize; 0]));;
      emit (Free scratch)
    else emit (Count (-1));; emit (Store "header.error" DVP_ERROR_NO_MEMORY) in
  let first := [ptr input 0; y_stride input; ptr output 0; y_stride output] in
  if color input =? FOURCC_UYVY then run (constant p "RVM_COLORFORMAT_YUV422") first
  else if color input =? FOURCC_Y800 then run (constant p "RVM_COLORFORMAT_LUMA8") first
  else if color input =? FOURCC_NV12 then
    run (constant p "RVM_COLORFORMAT_NV12") (first ++ [ptr input 1; y_stride input; ptr output 1; y_stride output])
  else emit (Count (-1));; emit (Store "header.error" DVP_ERROR_INVALID_PARAMETER).

(** With [DVP_USE_YUV] *)
Definition yuv_cases : list (list string * (params -> M unit)) :=
  [ (["DVP_KN_YUV_UYVY_HALF_SCALE"], exec_YUV_UYVY_HALF_SCALE);
    (["DVP_KN_YUV_UYVY_QTR_SCALE"], exec_YUV_UYVY_QTR_SCALE);
    (["DVP_KN_NV12_TO_YUV444p"; "DVP_KN_YUV_NV12_TO_YU24_HALF_SCALE"], exec_YUV_NV12_TO_YU24_HALF_SCALE);
    (["DVP_KN_YUV444p_TO_RGBp"; "DVP_KN_YUV_YUV444_TO_RGBp"], exec_YUV_YUV444_TO_RGBp);
    (["DVP_KN_YUV_Y800_ROTATE_CW_90"; "DVP_KN_YUV_Y800_ROTATE_CCW_90"], exec_YUV_Y800_ROTATE_CCW_90);
    (["DVP_KN_YUV_UYVY_ROTATE_CW_90"; "DVP_KN_YUV_UYVY_ROTATE_CCW_90"], exec_YUV_UYVY_ROTATE_CCW_90);
    (["DVP_KN_Y800_TO_XYXY"; "DVP_KN_YUV_Y800_TO_XYXY"], exec_YUV_Y800_TO_XYXY);
    (["DVP_KN_UYVY_TO_BGR"; "DVP_KN_YUV_UYVY_TO_BGR"], exec_YUV_UYVY_TO_BGR);
    (["DVP_KN_YUV_ARGB_TO_UYVY"], exec_YUV_ARGB_TO_UYVY);
    (["DVP_KN_UYVY_TO_YUV420p"; "DVP_KN_YUV_UYVY_TO_IYUV"], exec_YUV_UYVY_TO_IYUV);
    (["DVP_KN_UYVY_TO_RGBp"; "DVP_KN_YUV_UYVY_TO_RGBp"], exec_YUV_UYVY_TO_RGBp);
    (["DVP_KN_XYXY_TO_Y800"; "DVP_KN_YUV_XYXY_TO_Y800"], exec_YUV_XYXY_TO_Y800);
    (["DVP_KN_UYVY_TO_YUV444p"; "DVP_KN_YUV_UYVY_TO_YUV444p"], exec_YUV_UYVY_TO_YUV444p);
    (["DVP_KN_BGR3_TO_UYVY"; "DVP_KN_BGR3_TO_IYUV"; "DVP_KN_YUV_BGR_TO_UYVY"; "DVP_KN_YUV_BGR_TO_IYUV"],
      exec_YUV_BGR_TO_IYUV) ].

(** With [DVP_USE_IMGFILTER] *)
Definition filter_cases : list (list string * (params -> M unit)) :=
  [ (["DVP_KN_SOBEL_8"; "DVP_KN_IMGFILTER_SOBEL"], exec_IMGFILTER_SOBEL);
    (["DVP_KN_SCHARR_8"; "DVP_KN_IMGFILTER_SCHARR"], exec_IMGFILTER_SCHARR);
    (["DVP_KN_KROON_8"; "DVP_KN_IMGFILTER_KROON"], exec_IMGFILTER_KROON);
    (["DVP_KN_PREWITT_8"; "DVP_KN_IMGFILTER_PREWITT"], exec_IMGFILTER_PREWITT) ].

(** With [DVP_USE_RVM] *)
Definition rvm_cases : list (list string * (params -> M unit)) :=
  [ (["DVP_KN_RVM"], exec_RVM) ].

(** ** Verification

    [DVP_KernelGraphManagerVerify] with the libraries: a case is a chain of
    checks, and the first one that fails makes the node invalid. *)
Inductive node_check : Type :=
  | Image (f : string) (colors : list Z)
  | ImageOf (f g : string)
  | Buffer (f : string)
  | Fits (f g : string)
  | Test (t : params -> bool).
Definition vendor_row : Type := list string * list node_check.


Definition verify_rows_1 : list vendor_row :=
  [ (["DVP_KN_COPY"], [ImageOf "input" "output"; ImageOf "output" "input"; Fits "input" "output"]);
    (["DVP_KN_XYXY_TO_Y800"],
      [Image "input" [FOURCC_UYVY; FOURCC_VYUY]; Image "output" [FOURCC_Y800]; Fits "input" "output"]);
    (["DVP_KN_YXYX_TO_Y800"; "DVP_KN_VLIB_YXYX_TO_Y800"],
      [Image "input" [FOURCC_YUY2; FOURCC_YVYU]; Image "output" [FOURCC_Y800]; Fits "input" "output"]);
    (["DVP_KN_Y800_TO_XYXY"],
      [Image "input" [FOURCC_Y800]; Image "output" [FOURCC_UYVY; FOURCC_VYUY]; Fits "input" "output"]);
    (["DVP_KN_UYVY_TO_RGBp"; "DVP_KN_VLIB_UYVY_TO_RGBp"],
      [Image "input" [FOURCC_UYVY]; Image "output" [FOURCC_RGBP]; Fits "input" "output"]);
    (["DVP_KN_UYVY_TO_BGR"],
      [Image "input" [FOURCC_UYVY]; Image "output" [FOURCC_BGR]; Fits "input" "output"]);
    (["DVP_KN_UYVY_TO_YUV420p"; "DVP_KN_VLIB_UYVY_TO_YUV420p"],
      [Image "input" [FOURCC_UYVY]; Image "output" [FOURCC_IYUV; FOURCC_YV12]; Fits "input" "output"]);
    (["DVP_KN_UYVY_TO_YUV422p"; "DVP_KN_VLIB_UYVY_TO_YUV422p"],
      [Image "input" [FOURCC_UYVY]; Image "output" [FOURCC_YU16; FOURCC_YV16]; Fits "input" "output"]);
    (["DVP_KN_UYVY_TO_YUV444p"; "DVP_KN_VLIB_UYVY_TO_YUV444p"],
      [Image "input" [FOURCC_UYVY]; Image "output" [FOURCC_YU24; FOURCC_YV24]; Fits "input" "output"]);
    (["DVP_KN_YUV420p_TO_RGBp"; "DVP_KN_YUV_IYUV_TO_RGBp"],
      [Image "input" [FOURCC_IYUV; FOURCC_YV12]; Image "output" [FOURCC_RGBP]; Fits "input" "output"]);
    (["DVP_KN_YUV420p_TO_UYVY"],
      [Image "input" [FOURCC_IYUV; FOURCC_YV12]; Image "output" [FOURCC_UYVY]; Fits "input" "output"]);
    (["DVP_KN_YUV422p_TO_UYVY"; "DVP_KN_VLIB_YUV422p_TO_UYVY"],
      [Image "input" [FOURCC_YU16; FOURCC_YV16]; Image "output" [FOURCC_UYVY]; Fits "input" "output"]);
    (["DVP_KN_YUV444p_TO_RGBp"; "DVP_KN_YUV_YUV444_TO_RGBp"],
      [Image "input" [FOURCC_YU24; FOURCC_YV24]; Image "output" [FOURCC_RGBP]; Fits "input" "output"]);
    (["DVP_KN_YUV444p_TO_UYVY"],
      [Image "input" [FOURCC_YU24; FOURCC_YV24]; Image "output" [FOURCC_UYVY]; Fits "input" "output"]);
    (["DVP_KN_NV12_TO_UYVY"],
      [Image "input" [FOURCC_NV12]; Image "output" [FOURCC_UYVY]; Fits "input" "output"]);
    (["DVP_KN_NV12_TO_YUV444p"],
      [Image "input" [FOURCC_NV12]; Image "output" [FOURCC_YU24; FOURCC_YV24];
       Test (fun p => width (img p "input") <=? u32 (width (img p "output") * 2));
       Test (fun p => height (img p "input") <=? u32 (height (img p "output") * 2))]) ].
Definition verify_rows_2 : list vendor_row :=
  [ (["DVP_KN_BGR3_TO_UYVY"; "DVP_KN_YUV_BGR_TO_UYVY"],
      [Image "input" [FOURCC_BGR]; Image "output" [FOURCC_UYVY]; Fits "input" "output"]);
    (["DVP_KN_BGR3_TO_IYUV"; "DVP_KN_YUV_BGR_TO_IYUV"],
      [Image "input" [FOURCC_BGR]; Image "output" [FOURCC_IYUV]; Fits "input" "output"]);
    (["DVP_KN_BGR3_TO_NV12"],
      [Image "input" [FOURCC_BGR]; Image "output" [FOURCC_NV12]; Fits "input" "output"]);
    (["DVP_KN_YUV_ARGB_TO_UYVY"],
      [Image "input" [FOURCC_ARGB]; Image "output" [FOURCC_UYVY]; Fits "input" "output"]);
    (["DVP_KN_YUV_IYUV_TO_BGR"],
      [Image "input" [FOURCC_IYUV; FOURCC_YV12]; Image "output" [FOURCC_BGR]; Fits "input" "output"]);
    (["DVP_KN_YUV_IYUV_TO_RGB565"],
      [Image "input" [FOURCC_IYUV; FOURCC_YV12]; Image "output" [FOURCC_RGB565]; Fits "input" "output"]);
    (["DVP_KN_YUV_UYVY_TO_BGR"; "DVP_KN_YUV_UYVY_TO_IYUV"; "DVP_KN_YUV_UYVY_TO_RGBp";
       "DVP_KN_YUV_UYVY_TO_YUV444p"; "DVP_KN_YUV_XYXY_TO_Y800"; "DVP_KN_YUV_Y800_TO_XYXY";
       "DVP_KN_YUV_YXYX_TO_Y800"; "DVP_KN_VLIB_INIT_MEAN_LUMA_S16"; "DVP_KN_VLIB_INIT_MEAN_LUMA_S32";
       "DVP_KN_IMG_YUV422p_TO_RGB565"],
      [Image "input" []; Image "output" []; Fits "input" "output"]);
    (["DVP_KN_SOBEL_8"; "DVP_KN_PREWITT_8"; "DVP_KN_SCHARR_8"; "DVP_KN_KROON_8"; "DVP_KN_SOBEL_3x3_8";
       "DVP_KN_SOBEL_3x3_8s"; "DVP_KN_IMG_SOBEL_3x3_8"; "DVP_KN_IMG_SOBEL_5x5_8"; "DVP_KN_IMG_SOBEL_7x7_8";
       "DVP_KN_IMG_SOBEL_3x3_8s"; "DVP_KN_IMG_SOBEL_5x5_8s"; "DVP_KN_IMG_SOBEL_7x7_8s";
       "DVP_KN_IMG_MEDIAN_3x3_8"; "DVP_KN_IMG_PERIMETER_8"; "DVP_KN_VLIB_IMAGE_PYRAMID_8"],
      [Image "input" [FOURCC_Y800]; Image "output" [FOURCC_Y800]; Fits "input" "output"]);
    (["DVP_KN_SOBEL_3x3_16"; "DVP_KN_SOBEL_3x3_16s"; "DVP_KN_IMG_SOBEL_3x3_16"; "DVP_KN_IMG_SOBEL_5x5_16";
       "DVP_KN_IMG_SOBEL_7x7_16"; "DVP_KN_IMG_SOBEL_3x3_16s"; "DVP_KN_IMG_SOBEL_5x5_16s";
       "DVP_KN_IMG_SOBEL_7x7_16s"; "DVP_KN_IMG_MEDIAN_3x3_16s"; "DVP_KN_IMG_PERIMETER_16";
       "DVP_KN_IMG_FDCT_8x8"; "DVP_KN_IMG_IDCT_8x8_12Q4"; "DVP_KN_VLIB_IMAGE_PYRAMID_16"],
      [Image "input" [FOURCC_Y16]; Image "output" [FOURCC_Y16]; Fits "input" "output"]);
    (["DVP_KN_IMG_PIX_EXPAND"],
      [Image "input" [FOURCC_Y800]; Image "output" [FOURCC_Y16]; Fits "input" "output"]) ].
Definition verify_rows_3 : list vendor_row :=
  [ (["DVP_KN_VLIB_EXTRACT_BACK_8_16"; "DVP_KN_IMG_PIX_SAT"],
      [Image "input" [FOURCC_Y16]; Image "output" [FOURCC_Y800]; Fits "input" "output"]);
    (["DVP_KN_THRESHOLD"], [Image "input" [FOURCC_Y800]; Image "output" [FOURCC_Y800]; Fits "input" "output"]);
    (["DVP_KN_XSTRIDE_CONVERT"; "DVP_KN_XSTRIDE_SHIFT"],
      [Image "input" []; Image "output" []; Fits "input" "output";
       Test (fun p => negb (x_stride (img p "input") =? x_stride (img p "output")));
       Test (fun p => x_stride (img p "input") <=? 2)]);
    (["DVP_KN_IMAGE_DEBUG"], [Image "image" []]);
    (["DVP_KN_BUFFER_DEBUG"], [Buffer "buffer"]);
    (["DVP_KN_DILATE_CROSS"; "DVP_KN_DILATE_MASK"; "DVP_KN_DILATE_SQUARE"; "DVP_KN_ERODE_CROSS";
       "DVP_KN_ERODE_MASK"; "DVP_KN_ERODE_SQUARE"; "DVP_KN_VLIB_DILATE_CROSS"; "DVP_KN_VLIB_DILATE_MASK";
       "DVP_KN_VLIB_DILATE_SQUARE"; "DVP_KN_VLIB_ERODE_CROSS"; "DVP_KN_VLIB_ERODE_MASK";
       "DVP_KN_VLIB_ERODE_SQUARE"; "DVP_KN_VLIB_ERODE_SINGLEPIXEL"],
      [Image "input" []; Image "output" []; Test (fun p => width (img p "input") =? width (img p "output"));
       Test (fun p => height (img p "input") =? height (img p "output"));
       Test (fun p => color (img p "input") =? FOURCC_Y800);
       Test (fun p => color (img p "output") =? FOURCC_Y800)]);
    (["DVP_KN_CANNY_2D_GRADIENT"; "DVP_KN_VLIB_CANNY_2D_GRADIENT"],
      [Image "input" []; Image "outGradX" []; Image "outGradY" []; Image "outMag" [];
       Test (fun p => width (img p "input") =? width (img p "outGradX"));
       Test (fun p => width (img p "input") =? width (img p "outGradY"));
       Test (fun p => width (img p "input") =? width (img p "outMag"));
       Test (fun p => height (img p "input") =? height (img p "outGradX"));
       Test (fun p => height (img p "input") =? height (img p "outGradY"));
       Test (fun p => height (img p "input") =? height (img p "outMag"));
       Test (fun p => color (img p "input") =? FOURCC_Y800);
       Test (fun p => color (img p "outGradX") =? FOURCC_Y16);
       Test (fun p => color (img p "outGradY") =? FOURCC_Y16);
       Test (fun p => color (img p "outMag") =? FOURCC_Y16)]);
    (["DVP_KN_CANNY_HYST_THRESHHOLD"; "DVP_KN_VLIB_CANNY_HYST_THRESHHOLD"], []);
    (["DVP_KN_CANNY_NONMAX_SUPPRESSION"; "DVP_KN_VLIB_CANNY_NONMAX_SUPPRESSION"], []) ].
Definition verify_rows_4 : list vendor_row :=
  [ (["DVP_KN_CONV_3x3"; "DVP_KN_CONV_5x5"; "DVP_KN_CONV_7x7"; "DVP_KN_IMG_CONV_3x3"; "DVP_KN_IMG_CONV_5x5";
       "DVP_KN_IMG_CONV_7x7"; "DVP_KN_IMG_CONV_11x11"; "DVP_KN_CANNY_IMAGE_SMOOTHING"],
      [Image "input" [FOURCC_Y800]; Image "output" [FOURCC_Y800]; Image "mask" [FOURCC_Y800];
       Fits "input" "output"]);
    (["DVP_KN_IMG_CONV_3x3_I16s_C16"; "DVP_KN_IMG_CONV_7x7_I16s_C16"; "DVP_KN_IMG_CONV_11x11_I16s_C16"],
      [Image "input" [FOURCC_Y16]; Image "output" [FOURCC_Y16]; Image "mask" [FOURCC_Y16];
       Fits "input" "output"]);
    (["DVP_KN_IMG_CONV_5x5_I8_C16"; "DVP_KN_IMG_CONV_7x7_I8_C16"],
      [Image "input" [FOURCC_Y800]; Image "output" [FOURCC_Y800]; Image "mask" [FOURCC_Y16];
       Fits "input" "output"; Test (fun p => negb (bdata p "scratch" =? 0))]);
    (["DVP_KN_IMG_CONV_5x5_I16s_C16"],
      [Image "input" [FOURCC_Y16]; Image "output" [FOURCC_Y16]; Image "mask" [FOURCC_Y16];
       Fits "input" "output"; Test (fun p => negb (bdata p "scratch" =? 0))]);
    (["DVP_KN_IMG_CORR_3x3"],
      [Image "input" []; Image "output" []; Test (fun p => width (img p "input") =? width (img p "output"));
       Test (fun p => height (img p "input") =? height (img p "output"));
       Test (fun p => color (img p "input") =? FOURCC_Y800);
       Test (fun p => color (img p "output") =? FOURCC_RGBA);
       Test (fun p => color (img p "mask") =? FOURCC_Y800); Test (fun p => num p "shift" <=? 8)]);
    (["DVP_KN_IMG_CORR_3x3_I16s_C16s"; "DVP_KN_IMG_CORR_5x5_I16s_C16s"; "DVP_KN_IMG_CORR_11x11_I16s_C16s"],
      [Image "input" []; Image "output" []; Test (fun p => width (img p "input") =? width (img p "output"));
       Test (fun p => height (img p "input") =? height (img p "output"));
       Test (fun p => color (img p "input") =? FOURCC_Y16);
       Test (fun p => color (img p "output") =? FOURCC_RGBA);
       Test (fun p => color (img p "mask") =? FOURCC_Y16); Test (fun p => num p "shift" <=? 16)]);
    (["DVP_KN_IMG_CORR_3x3_I8_C16s"; "DVP_KN_IMG_CORR_11x11_I8_C16s"],
      [Image "input" []; Image "output" []; Test (fun p => width (img p "input") =? width (img p "output"));
       Test (fun p => height (img p "input") =? height (img p "output"));
       Test (fun p => color (img p "input") =? FOURCC_Y800);
       Test (fun p => color (img p "output") =? FOURCC_RGBA);
       Test (fun p => color (img p "mask") =? FOURCC_Y16); Test (fun p => num p "shift" <=? 16)]);
    (["DVP_KN_IMG_CORR_GEN_I16s_C16s"],
      [Image "input" [FOURCC_Y16]; Image "output" [FOURCC_Y16]; Image "mask" [FOURCC_Y16];
       Fits "input" "output"; Test (fun p => num p "m" =? width (img p "mask"))]);
    (["DVP_KN_IMG_CORR_GEN_IQ"],
      [Image "input" [FOURCC_Y32]; Image "output" [FOURCC_Y16]; Image "mask" [FOURCC_Y16];
       Fits "input" "output"]) ].
Definition verify_rows_5 : list vendor_row :=
  [ (["DVP_KN_IIR_HORZ"; "DVP_KN_IIR_VERT"; "DVP_KN_VLIB_IIR_HORZ"; "DVP_KN_VLIB_IIR_HORZ_16";
       "DVP_KN_VLIB_IIR_VERT"; "DVP_KN_VLIB_IIR_VERT_16"],
      [Image "input" []; Image "output" []; Test (fun p => negb (num p "weight" =? 0))]);
    (["DVP_KN_INTEGRAL_IMAGE_8"; "DVP_KN_VLIB_INTEGRAL_IMAGE_8"],
      [Image "input" []; Image "output" []; Test (fun p => width (img p "input") =? width (img p "output"));
       Test (fun p => height (img p "input") =? height (img p "output"));
       Test (fun p => color (img p "input") =? FOURCC_Y800);
       Test (fun p => color (img p "output") =? FOURCC_Y32)]);
    (["DVP_KN_VLIB_INTEGRAL_IMAGE_16"],
      [Image "input" []; Image "output" []; Test (fun p => width (img p "input") =? width (img p "output"));
       Test (fun p => height (img p "input") =? height (img p "output"));
       Test (fun p => color (img p "input") =? FOURCC_Y16);
       Test (fun p => color (img p "output") =? FOURCC_Y32)]);
    (["DVP_KN_NONMAXSUPPRESS_3x3_S16"; "DVP_KN_NONMAXSUPPRESS_5x5_S16"; "DVP_KN_NONMAXSUPPRESS_7x7_S16";
       "DVP_KN_VLIB_NONMAXSUPPRESS_3x3_S16"; "DVP_KN_VLIB_NONMAXSUPPRESS_5x5_S16";
       "DVP_KN_VLIB_NONMAXSUPPRESS_7x7_S16"],
      [Image "input" [FOURCC_Y16]; Image "output" [FOURCC_Y800]; Fits "input" "output"]);
    (["DVP_KN_THR_GT2MAX_8"; "DVP_KN_THR_GT2THR_8"; "DVP_KN_THR_LE2MIN_8"; "DVP_KN_THR_LE2THR_8";
       "DVP_KN_IMG_THR_GT2MAX_8"; "DVP_KN_IMG_THR_GT2THR_8"; "DVP_KN_IMG_THR_LE2MIN_8";
       "DVP_KN_IMG_THR_LE2THR_8"],
      [Image "input" [FOURCC_Y800]; Image "output" [FOURCC_Y800]; Fits "input" "output"]);
    (["DVP_KN_IMG_ERRDIFF_BIN_8"],
      [Image "input" [FOURCC_Y800]; Image "output" [FOURCC_Y16]; Fits "input" "output"]);
    (["DVP_KN_THR_GT2MAX_16"; "DVP_KN_THR_GT2THR_16"; "DVP_KN_THR_LE2MIN_16"; "DVP_KN_THR_LE2THR_16";
       "DVP_KN_IMG_THR_GT2MAX_16"; "DVP_KN_IMG_THR_GT2THR_16"; "DVP_KN_IMG_THR_LE2MIN_16";
       "DVP_KN_IMG_THR_LE2THR_16"; "DVP_KN_IMG_ERRDIFF_BIN_16"],
      [Image "input" [FOURCC_Y16]; Image "output" [FOURCC_Y16]; Fits "input" "output"]);
    (["DVP_KN_VLIB_NORMALFLOW_16"],
      [Image "input" [FOURCC_Y16]; Image "x" [FOURCC_Y16]; Image "y" [FOURCC_Y16]; Image "u" [FOURCC_Y16];
       Image "v" [FOURCC_Y16]; Image "lut" [FOURCC_Y16]; Image "mag" [FOURCC_Y16]]) ].
Definition verify_rows_6 : list vendor_row :=
  [ (["DVP_KN_VLIB_NEDLER_MEAD_SIMPLEX_16"; "DVP_KN_VLIB_NEDLER_MEAD_SIMPLEX_3D"],
      [Buffer "start"; Buffer "step"; Buffer "stop"; Buffer "intBuf[0]"; Buffer "intBuf[1]";
       Buffer "intBuf[2]"; Buffer "intBuf[3]"; Buffer "intBuf[4]"; Buffer "intBuf[5]"]);
    (["DVP_KN_VLIB_INIT_HISTOGRAM_8"; "DVP_KN_VLIB_HISTOGRAM_8"; "DVP_KN_VLIB_WEIGHTED_HISTOGRAM_8"],
      [Image "input" [FOURCC_Y800]; Buffer "edges"; Buffer "hOut"; Buffer "histArray"]);
    (["DVP_KN_VLIB_INIT_HISTOGRAM_16"; "DVP_KN_VLIB_HISTOGRAM_16"; "DVP_KN_VLIB_WEIGHTED_HISTOGRAM_16";
       "DVP_KN_VLIB_HISTOGRAM_ND_16"],
      [Image "input" [FOURCC_Y16]; Buffer "edges"; Buffer "hOut"; Buffer "histArray"]);
    (["DVP_KN_VLIB_NONMAXSUPPRESS_U32"], [Image "input" [FOURCC_Y32]; Buffer "pixIndex"]);
    (["DVP_KN_VLIB_BHATTACHAYA_DISTANCE"; "DVP_KN_VLIB_L1DISTANCE"],
      [Image "X" [FOURCC_Y16]; Image "Y" [FOURCC_Y16]]);
    (["DVP_KN_VLIB_TRACK_FEATURES_LUCAS_7x7"],
      [Image "im1" [FOURCC_Y800]; Image "im2" [FOURCC_Y800]; Image "gradx" [FOURCC_Y16];
       Image "grady" [FOURCC_Y16]; Buffer "x"; Buffer "y"; Buffer "outx"; Buffer "outy"]);
    (["DVP_KN_VLIB_DISPARITY_SAD8"],
      [Image "left" [FOURCC_Y800]; Image "right" [FOURCC_Y800]; Image "cost" [FOURCC_Y800];
       Image "mincost" [FOURCC_Y16]; Image "disparity" [FOURCC_Y16]]);
    (["DVP_KN_VLIB_DISPARITY_SAD16"],
      [Image "left" [FOURCC_Y16]; Image "right" [FOURCC_Y16]; Image "cost" [FOURCC_Y800];
       Image "mincost" [FOURCC_Y16]; Image "disparity" [FOURCC_Y16]]);
    (["DVP_KN_VLIB_EWR_MEAN_S16"],
      [Image "mean" [FOURCC_Y16]; Image "mask" [FOURCC_Y800]; Image "data" [FOURCC_Y800];
       Test (fun p => width (img p "mask") =? width (img p "data") / 8)]);
    (["DVP_KN_VLIB_EWR_MEAN_S32"],
      [Image "mean" [FOURCC_Y32]; Image "mask" [FOURCC_Y800]; Image "data" [FOURCC_Y800];
       Test (fun p => width (img p "mask") =? width (img p "data") / 8)]) ].
Definition verify_rows_7 : list vendor_row :=
  [ (["DVP_KN_VLIB_EWR_VAR_S16"],
      [Image "var" [FOURCC_Y16]; Image "mean" [FOURCC_Y16]; Image "mask" [FOURCC_Y800];
       Image "data" [FOURCC_Y800]; Test (fun p => width (img p "mask") =? width (img p "data") / 8)]);
    (["DVP_KN_VLIB_EWR_VAR_S32"],
      [Image "var" [FOURCC_Y32]; Image "mean" [FOURCC_Y32]; Image "mask" [FOURCC_Y800];
       Image "data" [FOURCC_Y800]; Test (fun p => width (img p "mask") =? width (img p "data") / 8)]);
    (["DVP_KN_VLIB_UWR_MEAN_S16"],
      [Image "old_mean" [FOURCC_Y16]; Image "old_mask" [FOURCC_Y800]; Image "old_data" [FOURCC_Y800];
       Image "new_mean" [FOURCC_Y16]; Image "new_mask" [FOURCC_Y800]; Image "new_data" [FOURCC_Y800];
       Test (fun p => width (img p "old_mask") =? width (img p "old_data") / 8);
       Test (fun p => width (img p "new_mask") =? width (img p "new_data") / 8)]);
    (["DVP_KN_VLIB_UWR_VAR_S16"],
      [Image "old_var" [FOURCC_Y16]; Image "old_mean" [FOURCC_Y16]; Image "old_mask" [FOURCC_Y800];
       Image "old_data" [FOURCC_Y800]; Image "new_var" [FOURCC_Y16]; Image "new_mean" [FOURCC_Y16];
       Image "new_mask" [FOURCC_Y800]; Image "new_data" [FOURCC_Y800];
       Test (fun p => width (img p "old_mask") =? width (img p "old_data") / 8);
       Test (fun p => width (img p "new_mask") =? width (img p "new_data") / 8)]);
    (["DVP_KN_VLIB_SUB_BACK_S16"],
      [Image "output32packed" [FOURCC_Y32]; Image "newestData" [FOURCC_Y800]; Image "currentMean" [FOURCC_Y16];
       Image "currentVar" [FOURCC_Y16]]);
    (["DVP_KN_VLIB_SUB_BACK_S32"],
      [Image "output32packed" [FOURCC_Y32]; Image "newestData" [FOURCC_Y800]; Image "currentMean" [FOURCC_Y32];
       Image "currentVar" [FOURCC_Y32]]);
    (["DVP_KN_VLIB_MOG_S16"],
      [Image "image" [FOURCC_Y800]; Image "wts" [FOURCC_Y16]; Image "means" [FOURCC_Y16];
       Image "vars" [FOURCC_Y16]; Image "scratch" [FOURCC_Y800]; Image "compIndex" [FOURCC_Y800];
       Image "fgmask" [FOURCC_Y32]]);
    (["DVP_KN_VLIB_MOG_S32"],
      [Image "image" [FOURCC_Y800]; Image "wts" [FOURCC_Y16]; Image "means" [FOURCC_Y32];
       Image "vars" [FOURCC_Y32]; Image "scratch" [FOURCC_Y800]; Image "compIndex" [FOURCC_Y800];
       Image "fgmask" [FOURCC_Y32]]);
    (["DVP_KN_VLIB_PACK_MASK_32"],
      [Image "input" [FOURCC_Y800]; Image "output" [FOURCC_BIN1]; Fits "input" "output"]);
    (["DVP_KN_VLIB_UNPACK_MASK_32"],
      [Image "input" [FOURCC_BIN1]; Image "output" [FOURCC_Y800]; Fits "input" "output"]);
    (["DVP_KN_VLIB_CCL"],
      [Image "input" [FOURCC_Y800]; Image "output" [FOURCC_Y800]; Fits "input" "output";
       Test (fun p => (num p "connected8Flag" =? constant p "DVP_CCL_4_CONNECTED") ||
         (num p "connected8Flag" =? constant p "DVP_CCL_8_CONNECTED"))]);
    (["DVP_KN_VLIB_HOUGH_LINE_FROM_LIST"],
      [Image "pOutHoughSpace" [FOURCC_Y16]; Buffer "pEdgeMapList"; Buffer "pSIN"; Buffer "pCOS"; Buffer "ping";
       Buffer "pong"; Buffer "pang"; Buffer "peng"]) ].
Definition verify_rows_8 : list vendor_row :=
  [ (["DVP_KN_VLIB_HARRIS_SCORE_7x7"],
      [Image "inGradX" [FOURCC_Y16]; Image "inGradY" [FOURCC_Y16]; Image "harrisScore" [FOURCC_Y16]]);
    (["DVP_KN_VLIB_HARRIS_SCORE_7x7_U32"],
      [Image "inGradX" [FOURCC_Y16]; Image "inGradY" [FOURCC_Y16]; Image "harrisScore" [FOURCC_Y32]]);
    (["DVP_KN_VLIB_INIT_VAR_CONST_S16"], [Image "var" [FOURCC_Y16]]);
    (["DVP_KN_VLIB_INIT_VAR_CONST_S32"], [Image "var" [FOURCC_Y32]]);
    (["DVP_KN_VLIB_GAUSSIAN_5x5_PYRAMID_8"; "DVP_KN_VLIB_GAUSSIAN_5x5_PYRAMID_16"],
      [Image "input" [FOURCC_Y16]; Image "output" [FOURCC_Y16]; Image "scratch" [FOURCC_Y16]]);
    (["DVP_KN_VLIB_GRADIENT_H5x5_PYRAMID_8"; "DVP_KN_VLIB_GRADIENT_V5x5_PYRAMID_8"],
      [Image "input" [FOURCC_Y800]; Image "output" [FOURCC_Y800]; Image "scratch" [FOURCC_Y800]]);
    (["DVP_KN_IMG_CLIPPING_16"], [Image "inMag" [FOURCC_Y16]; Image "output" [FOURCC_Y16]]);
    (["DVP_KN_IMG_BOUNDARY_8"], [Image "input" [FOURCC_Y800]; Buffer "outCoord"; Buffer "outGray"]);
    (["DVP_KN_IMG_BOUNDARY_16s"], [Image "input" [FOURCC_Y16]; Buffer "outCoord"; Buffer "outGray"]);
    (["DVP_KN_IMG_HISTOGRAM_8"], [Image "input" [FOURCC_Y800]; Buffer "hOut"; Buffer "histArray"]);
    (["DVP_KN_IMG_HISTOGRAM_16"], [Image "input" [FOURCC_Y16]; Buffer "hOut"; Buffer "histArray"]);
    (["DVP_KN_VLIB_UYVY_TO_HSLp"; "DVP_KN_VLIB_UYVY_TO_LABp"; "DVP_KN_IMG_YC_DEMUX_BE16_8";
       "DVP_KN_IMG_YC_DEMUX_LE16_8"],
      [Image "input" [FOURCC_UYVY]; Image "output1" [FOURCC_Y800; FOURCC_Y16; FOURCC_RGBA];
       Image "output2" [FOURCC_Y800; FOURCC_Y16; FOURCC_RGBA];
       Image "output3" [FOURCC_Y800; FOURCC_Y16; FOURCC_RGBA]]);
    (["DVP_KN_ORB"],
      [Image "inputImage" [FOURCC_Y800]; Image "harrisImage" [FOURCC_Y16]; Image "integralImage" [FOURCC_Y32]]) ].
Definition verify_rows_9 : list vendor_row :=
  [ (["DVP_KN_RVM"],
      [Image "input" [FOURCC_Y800; FOURCC_UYVY]; Image "output" [FOURCC_Y800; FOURCC_UYVY];
       Test (fun p => color (img p "input") =? color (img p "output")); Buffer "lut"]);
    (["DVP_KN_IMG_SAD_3x3"; "DVP_KN_IMG_SAD_5x5"; "DVP_KN_IMG_SAD_7x7"; "DVP_KN_IMG_SAD_8x8";
       "DVP_KN_IMG_SAD_16x16"],
      [Image "input" [FOURCC_Y800]; Image "output" [FOURCC_Y800]; Image "refImg" [FOURCC_Y800]]);
    (["DVP_KN_IMG_MAD_8x8"; "DVP_KN_IMG_MAD_16x16"],
      [Image "input" [FOURCC_Y800]; Image "output" [FOURCC_Y32]; Image "refImg" [FOURCC_Y800]]);
    (["DVP_KN_IMG_QUANTIZE_16"], [Image "input" [FOURCC_Y16]]);
    (["DVP_KN_GAMMA"], [Image "input" [FOURCC_Y800]; Image "output" [FOURCC_Y800]]);
    (["DVP_KN_NOOP"], []) ].
Definition verify_rows : list vendor_row :=
  verify_rows_1 ++ verify_rows_2 ++ verify_rows_3 ++ verify_rows_4 ++ verify_rows_5 ++
  verify_rows_6 ++ verify_rows_7 ++ verify_rows_8 ++ verify_rows_9.

(** ** The published kernels

    [local_kernels]: for each kernel, how its output is shifted, by constants
    or by a function of the node.  First the general names, then the
    library's own. *)
Definition no_shift : option dvp_image_shift_t * option (params -> dvp_image_shift_t -> dvp_image_shift_t) :=
  (None, None).
Definition shift (s : dvp_image_shift_t)
    : option dvp_image_shift_t * option (params -> dvp_image_shift_t -> dvp_image_shift_t) := (Some s, None).
Definition cpu_shift3 : dvp_image_shift_t := mkShift (-1) (-1) 0 2 2 0.
Definition cpu_shift5 : dvp_image_shift_t := mkShift (-2) (-2) 0 4 4 0.
Definition cpu_shift7 : dvp_image_shift_t := mkShift (-3) (-3) 0 6 6 0.
Definition cpu_shift8 : dvp_image_shift_t := mkShift (-4) (-4) 0 7 7 0.
Definition cpu_shift11 : dvp_image_shift_t := mkShift (-5) (-5) 0 10 10 0.
Definition cpu_shift16 : dvp_image_shift_t := mkShift (-8) (-8) 0 15 15 0.
Definition cpu_nonmax_shift3 : dvp_image_shift_t := mkShift (-1) 1 2 2 0 0.
Definition cpu_nonmax_shift5 : dvp_image_shift_t := mkShift (-2) 2 4 4 0 0.
Definition cpu_nonmax_shift7 : dvp_image_shift_t := mkShift (-3) 3 6 6 0 0.
Definition dvp_vlib_nms_mxn_shift (p : params) (s : dvp_image_shift_t) : dvp_image_shift_t :=
  let n := s32 (num p "p") in
  mkShift (Z.quot (- n) 2) (Z.quot (- n) 2) (topBorder s) (num p "p" - 1) (num p "p" - 1) (leftBorder s).
Definition nms : option dvp_image_shift_t * option (params -> dvp_image_shift_t -> dvp_image_shift_t) :=
  (None, Some dvp_vlib_nms_mxn_shift).
Definition published : Type :=
  string * (option dvp_image_shift_t * option (params -> dvp_image_shift_t -> dvp_image_shift_t)).
Definition vlib_features : list published :=
  [ ("DVP_KN_YXYX_TO_Y800", no_shift); ("DVP_KN_DILATE_CROSS", shift cpu_shift3);
    ("DVP_KN_DILATE_MASK", shift cpu_shift3); ("DVP_KN_DILATE_SQUARE", shift cpu_shift3);
    ("DVP_KN_ERODE_CROSS", shift cpu_shift3); ("DVP_KN_ERODE_MASK", shift cpu_shift3);
    ("DVP_KN_ERODE_SQUARE", shift cpu_shift3); ("DVP_KN_CANNY_2D_GRADIENT", shift cpu_shift3);
    ("DVP_KN_CANNY_NONMAX_SUPPRESSION", shift cpu_shift3); ("DVP_KN_CANNY_HYST_THRESHHOLD", no_shift);
    ("DVP_KN_IIR_HORZ", no_shift); ("DVP_KN_IIR_VERT", no_shift); ("DVP_KN_INTEGRAL_IMAGE_8", no_shift);
    ("DVP_KN_NONMAXSUPPRESS_3x3_S16", shift cpu_nonmax_shift3);
    ("DVP_KN_NONMAXSUPPRESS_5x5_S16", shift cpu_nonmax_shift5);
    ("DVP_KN_NONMAXSUPPRESS_7x7_S16", shift cpu_nonmax_shift7); ("DVP_KN_YUV422p_TO_UYVY", no_shift);
    ("DVP_KN_UYVY_TO_YUV422p", no_shift); ("DVP_KN_XYXY_TO_Y800", no_shift);
    ("DVP_KN_UYVY_TO_YUV420p", no_shift); ("DVP_KN_UYVY_TO_YUV444p", no_shift);
    ("DVP_KN_UYVY_TO_RGBp", no_shift); ("DVP_KN_SOBEL_8", no_shift); ("DVP_KN_SCHARR_8", no_shift);
    ("DVP_KN_KROON_8", no_shift); ("DVP_KN_PREWITT_8", no_shift) ].
Definition vlib_functions : list published :=
  [ ("DVP_KN_VLIB_UYVY_TO_HSLp", no_shift); ("DVP_KN_VLIB_UYVY_TO_LABp", no_shift);
    ("DVP_KN_VLIB_YUV422p_TO_UYVY", no_shift); ("DVP_KN_VLIB_EWR_MEAN_S16", no_shift);
    ("DVP_KN_VLIB_EWR_VAR_S16", no_shift); ("DVP_KN_VLIB_EWR_MEAN_S32", no_shift);
    ("DVP_KN_VLIB_EWR_VAR_S32", no_shift); ("DVP_KN_VLIB_UWR_MEAN_S16", no_shift);
    ("DVP_KN_VLIB_UWR_VAR_S16", no_shift); ("DVP_KN_VLIB_SUB_BACK_S16", no_shift);
    ("DVP_KN_VLIB_SUB_BACK_S32", no_shift); ("DVP_KN_VLIB_MOG_S16", no_shift);
    ("DVP_KN_VLIB_MOG_S32", no_shift); ("DVP_KN_VLIB_EXTRACT_BACK_8_16", no_shift);
    ("DVP_KN_VLIB_PACK_MASK_32", no_shift); ("DVP_KN_VLIB_UNPACK_MASK_32", no_shift);
    ("DVP_KN_VLIB_DILATE_CROSS", shift cpu_shift3); ("DVP_KN_VLIB_DILATE_MASK", shift cpu_shift3);
    ("DVP_KN_VLIB_DILATE_SQUARE", shift cpu_shift3); ("DVP_KN_VLIB_ERODE_CROSS", shift cpu_shift3);
    ("DVP_KN_VLIB_ERODE_MASK", shift cpu_shift3); ("DVP_KN_VLIB_ERODE_SQUARE", shift cpu_shift3);
    ("DVP_KN_VLIB_ERODE_SINGLEPIXEL", no_shift); ("DVP_KN_VLIB_CCL", no_shift);
    ("DVP_KN_VLIB_CANNY_2D_GRADIENT", shift cpu_shift3);
    ("DVP_KN_VLIB_CANNY_NONMAX_SUPPRESSION", shift cpu_shift3);
    ("DVP_KN_VLIB_CANNY_HYST_THRESHHOLD", no_shift); ("DVP_KN_VLIB_IMAGE_PYRAMID_8", no_shift);
    ("DVP_KN_VLIB_IMAGE_PYRAMID_16", no_shift); ("DVP_KN_VLIB_GAUSSIAN_5x5_PYRAMID_8", shift cpu_shift5);
    ("DVP_KN_VLIB_GAUSSIAN_5x5_PYRAMID_16", shift cpu_shift5);
    ("DVP_KN_VLIB_GRADIENT_H5x5_PYRAMID_8", shift cpu_shift5);
    ("DVP_KN_VLIB_GRADIENT_V5x5_PYRAMID_8", shift cpu_shift5); ("DVP_KN_VLIB_HARRIS_SCORE_7x7", no_shift);
    ("DVP_KN_VLIB_HARRIS_SCORE_7x7_U32", no_shift); ("DVP_KN_VLIB_IIR_HORZ", no_shift);
    ("DVP_KN_VLIB_IIR_HORZ_16", no_shift); ("DVP_KN_VLIB_IIR_VERT", no_shift);
    ("DVP_KN_VLIB_IIR_VERT_16", no_shift); ("DVP_KN_VLIB_INTEGRAL_IMAGE_8", no_shift);
    ("DVP_KN_VLIB_INTEGRAL_IMAGE_16", no_shift); ("DVP_KN_VLIB_HOUGH_LINE_FROM_LIST", no_shift);
    ("DVP_KN_VLIB_HYST_THRESHOLD", no_shift);
    ("DVP_KN_VLIB_NONMAXSUPPRESS_3x3_S16", shift cpu_nonmax_shift3);
    ("DVP_KN_VLIB_NONMAXSUPPRESS_5x5_S16", shift cpu_nonmax_shift5);
    ("DVP_KN_VLIB_NONMAXSUPPRESS_7x7_S16", shift cpu_nonmax_shift7); ("DVP_KN_VLIB_NONMAXSUPPRESS_U32", nms);
    ("DVP_KN_VLIB_NORMALFLOW_16", no_shift); ("DVP_KN_VLIB_NEDLER_MEAD_SIMPLEX_16", no_shift);
    ("DVP_KN_VLIB_NEDLER_MEAD_SIMPLEX_3D", no_shift); ("DVP_KN_VLIB_INIT_HISTOGRAM_8", no_shift);
    ("DVP_KN_VLIB_HISTOGRAM_8", no_shift); ("DVP_KN_VLIB_INIT_HISTOGRAM_16", no_shift);
    ("DVP_KN_VLIB_HISTOGRAM_16", no_shift); ("DVP_KN_VLIB_WEIGHTED_HISTOGRAM_8", no_shift);
    ("DVP_KN_VLIB_WEIGHTED_HISTOGRAM_16", no_shift); ("DVP_KN_VLIB_HISTOGRAM_ND_16", no_shift);
    ("DVP_KN_VLIB_BHATTACHAYA_DISTANCE", no_shift); ("DVP_KN_VLIB_L1DISTANCE", no_shift);
    ("DVP_KN_VLIB_TRACK_FEATURES_LUCAS_7x7", no_shift); ("DVP_KN_VLIB_DISPARITY_SAD8", no_shift);
    ("DVP_KN_VLIB_DISPARITY_SAD16", no_shift); ("DVP_KN_VLIB_INIT_MEAN_LUMA_S16", no_shift);
    ("DVP_KN_VLIB_INIT_MEAN_LUMA_S32", no_shift); ("DVP_KN_VLIB_INIT_VAR_CONST_S16", no_shift);
    ("DVP_KN_VLIB_INIT_VAR_CONST_S32", no_shift); ("DVP_KN_VLIB_YXYX_TO_Y800", no_shift);
    ("DVP_KN_VLIB_YUV422p_TO_UYVY", no_shift); ("DVP_KN_VLIB_UYVY_TO_YUV422p", no_shift);
    ("DVP_KN_VLIB_XYXY_TO_Y800", no_shift); ("DVP_KN_VLIB_UYVY_TO_YUV420p", no_shift);
    ("DVP_KN_VLIB_UYVY_TO_YUV444p", no_shift); ("DVP_KN_VLIB_UYVY_TO_RGBp", no_shift);
    ("DVP_KN_VLIB_SOBEL_8", no_shift); ("DVP_KN_VLIB_SCHARR_8", no_shift); ("DVP_KN_VLIB_KROON_8", no_shift);
    ("DVP_KN_VLIB_PREWITT_8", no_shift) ].
Definition imglib_features : list published :=
  [ ("DVP_KN_YUV422p_TO_RGB565", no_shift); ("DVP_KN_SOBEL_3x3_8", shift cpu_shift3);
    ("DVP_KN_CONV_3x3", shift cpu_shift3); ("DVP_KN_CONV_5x5", shift cpu_shift5);
    ("DVP_KN_CONV_7x7", shift cpu_shift7); ("DVP_KN_CANNY_IMAGE_SMOOTHING", shift cpu_shift7);
    ("DVP_KN_THR_GT2MAX_8", no_shift); ("DVP_KN_THR_GT2MAX_16", no_shift); ("DVP_KN_THR_GT2THR_8", no_shift);
    ("DVP_KN_THR_GT2THR_16", no_shift); ("DVP_KN_THR_LE2MIN_8", no_shift);
    ("DVP_KN_THR_LE2MIN_16", no_shift); ("DVP_KN_THR_LE2THR_8", no_shift);
    ("DVP_KN_THR_LE2THR_16", no_shift) ].
Definition imglib_functions : list published :=
  [ ("DVP_KN_IMG_YUV422p_TO_RGB565", no_shift); ("DVP_KN_IMG_SOBEL_3x3_8", shift cpu_shift3);
    ("DVP_KN_IMG_SOBEL_3x3_16s", shift cpu_shift3); ("DVP_KN_IMG_SOBEL_5x5_16s", shift cpu_shift5);
    ("DVP_KN_IMG_SOBEL_7x7_16s", shift cpu_shift7); ("DVP_KN_IMG_CLIPPING_16", no_shift);
    ("DVP_KN_IMG_BOUNDARY_8", no_shift); ("DVP_KN_IMG_BOUNDARY_16s", no_shift);
    ("DVP_KN_IMG_CORR_3x3", shift cpu_shift3); ("DVP_KN_IMG_CORR_3x3_I8_C16s", shift cpu_shift3);
    ("DVP_KN_IMG_CORR_3x3_I16s_C16s", shift cpu_shift3); ("DVP_KN_IMG_CORR_5x5_I16s_C16s", shift cpu_shift5);
    ("DVP_KN_IMG_CORR_11x11_I8_C16s", shift cpu_shift11);
    ("DVP_KN_IMG_CORR_11x11_I16s_C16s", shift cpu_shift11);
    ("DVP_KN_IMG_CORR_GEN_I16s_C16s", shift cpu_shift11); ("DVP_KN_IMG_CORR_GEN_IQ", no_shift);
    ("DVP_KN_IMG_HISTOGRAM_8", no_shift); ("DVP_KN_IMG_HISTOGRAM_16", no_shift);
    ("DVP_KN_IMG_MEDIAN_3x3_8", shift cpu_shift3); ("DVP_KN_IMG_MEDIAN_3x3_16s", shift cpu_shift3);
    ("DVP_KN_IMG_YC_DEMUX_LE16_8", no_shift); ("DVP_KN_IMG_YC_DEMUX_BE16_8", no_shift);
    ("DVP_KN_IMG_PIX_SAT", no_shift); ("DVP_KN_IMG_PIX_EXPAND", no_shift);
    ("DVP_KN_IMG_SAD_3x3", shift cpu_shift3); ("DVP_KN_IMG_SAD_5x5", shift cpu_shift5);
    ("DVP_KN_IMG_SAD_7x7", shift cpu_shift7); ("DVP_KN_IMG_SAD_8x8", shift cpu_shift8);
    ("DVP_KN_IMG_SAD_16x16", shift cpu_shift16); ("DVP_KN_IMG_CONV_3x3", shift cpu_shift3);
    ("DVP_KN_IMG_CONV_5x5", shift cpu_shift5); ("DVP_KN_IMG_CONV_7x7", shift cpu_shift7);
    ("DVP_KN_IMG_CONV_11x11", shift cpu_shift11); ("DVP_KN_IMG_CONV_5x5_I8_C16", shift cpu_shift5);
    ("DVP_KN_IMG_CONV_7x7_I8_C16", shift cpu_shift7); ("DVP_KN_IMG_CONV_3x3_I16s_C16", shift cpu_shift3);
    ("DVP_KN_IMG_CONV_5x5_I16s_C16", shift cpu_shift5); ("DVP_KN_IMG_CONV_7x7_I16s_C16", shift cpu_shift7);
    ("DVP_KN_IMG_CONV_11x11_I16s_C16", shift cpu_shift11); ("DVP_KN_IMG_THR_GT2MAX_8", no_shift);
    ("DVP_KN_IMG_THR_GT2MAX_16", no_shift); ("DVP_KN_IMG_THR_GT2THR_8", no_shift);
    ("DVP_KN_IMG_THR_GT2THR_16", no_shift); ("DVP_KN_IMG_THR_LE2MIN_8", no_shift);
    ("DVP_KN_IMG_THR_LE2MIN_16", no_shift); ("DVP_KN_IMG_THR_LE2THR_8", no_shift);
    ("DVP_KN_IMG_THR_LE2THR_16", no_shift); ("DVP_KN_IMG_PERIMETER_8", no_shift);
    ("DVP_KN_IMG_PERIMETER_16", no_shift); ("DVP_KN_IMG_ERRDIFF_BIN_8", no_shift);
    ("DVP_KN_IMG_ERRDIFF_BIN_16", no_shift); ("DVP_KN_IMG_FDCT_8x8", no_shift);
    ("DVP_KN_IMG_IDCT_8x8_12Q4", no_shift); ("DVP_KN_IMG_MAD_8x8", no_shift);
    ("DVP_KN_IMG_MAD_16x16", no_shift); ("DVP_KN_IMG_QUANTIZE_16", no_shift) ].
Definition yuv_features : list published :=
  [ ("DVP_KN_YUV_YXYX_TO_Y800", no_shift); ("DVP_KN_YXYX_TO_Y800", no_shift);
    ("DVP_KN_XYXY_TO_Y800", no_shift); ("DVP_KN_UYVY_TO_YUV420p", no_shift);
    ("DVP_KN_UYVY_TO_YUV444p", no_shift); ("DVP_KN_UYVY_TO_RGBp", no_shift);
    ("DVP_KN_NV12_TO_YUV444p", no_shift); ("DVP_KN_BGR3_TO_UYVY", no_shift);
    ("DVP_KN_BGR3_TO_IYUV", no_shift); ("DVP_KN_YUV444p_TO_RGBp", no_shift);
    ("DVP_KN_Y800_TO_XYXY", no_shift); ("DVP_KN_YUV420p_TO_RGBp", no_shift);
    ("DVP_KN_UYVY_TO_BGR", no_shift) ].
Definition yuv_functions : list published :=
  [ ("DVP_KN_YUV_XYXY_TO_Y800", no_shift); ("DVP_KN_YUV_UYVY_TO_IYUV", no_shift);
    ("DVP_KN_YUV_UYVY_TO_YUV444p", no_shift); ("DVP_KN_YUV_UYVY_TO_RGBp", no_shift);
    ("DVP_KN_YUV_Y800_TO_XYXY", no_shift); ("DVP_KN_YUV_NV12_TO_YU24_HALF_SCALE", no_shift);
    ("DVP_KN_YUV_UYVY_HALF_SCALE", no_shift); ("DVP_KN_YUV_UYVY_QTR_SCALE", no_shift);
    ("DVP_KN_YUV_Y800_ROTATE_CW_90", no_shift); ("DVP_KN_YUV_Y800_ROTATE_CCW_90", no_shift);
    ("DVP_KN_YUV_UYVY_ROTATE_CW_90", no_shift); ("DVP_KN_YUV_UYVY_ROTATE_CCW_90", no_shift);
    ("DVP_KN_YUV_UYVY_TO_BGR", no_shift); ("DVP_KN_YUV_ARGB_TO_UYVY", no_shift);
    ("DVP_KN_YUV_BGR_TO_UYVY", no_shift); ("DVP_KN_YUV_BGR_TO_IYUV", no_shift) ].
Definition filter_features : list published :=
  [ ("DVP_KN_SOBEL_8", no_shift); ("DVP_KN_SCHARR_8", no_shift); ("DVP_KN_KROON_8", no_shift);
    ("DVP_KN_PREWITT_8", no_shift) ].
Definition filter_functions : list published :=
  [ ("DVP_KN_IMGFILTER_SOBEL", no_shift); ("DVP_KN_IMGFILTER_SCHARR", no_shift);
    ("DVP_KN_IMGFILTER_KROON", no_shift); ("DVP_KN_IMGFILTER_PREWITT", no_shift) ].
Definition rvm_functions : list published :=
  [ ("DVP_KN_RVM", no_shift) ].

(** ** Running and verifying a node *)

(** The [switch]: the [default] case rejects the node. *)
Definition exec_vendor (cases : list (list string * (params -> M unit))) (p : params) : M unit :=
  match case_of cases (kn p) with Some body => body p | None => reject DVP_ERROR_INVALID_PARAMETER end.
(** What a node adds to [processed], which the loop raises by one after the
    [switch], and its error, which is [DVP_SUCCESS] before *)
Definition count_of (ev : event) : Z := match ev with Count d => d | _ => 0 end.
Definition processed_by (l : list event) : Z := Zsum (count_of <$> l) + 1.
Definition set_by (err : Z) (ev : event) : Z :=
  match ev with Store f v => if String.eqb f "header.error" then v else err | _ => err end.
Definition error_after (l : list event) : Z := foldl set_by DVP_SUCCESS l.

Definition check_node (p : params) (c : node_check) : outcome bool :=
  match c with
  | Image f colors => DVP_Image_Validate (img p f) 1 1 1 1 colors
  | ImageOf f g => DVP_Image_Validate (img p f) 1 1 1 1 [color (img p g)]
  | Buffer f => Done (DVP_Buffer_Validate (buf p f))
  | Fits f g => Done ((width (img p f) <=? width (img p g)) && (height (img p f) <=? height (img p g)))
  | Test t => Done (t p)
  end.
Fixpoint all_hold (p : params) (cs : list node_check) : outcome bool :=
  match cs with
  | [] => Done true
  | c :: cs => ok ← check_node p c; if ok : bool then all_hold p cs else Done false
  end.
(** A kernel without a case passes. *)
Definition verify_vendor (p : params) : outcome bool :=
  match case_of verify_rows (kn p) with Some cs => all_hold p cs | None => Done true end.

(** ** Optimised chains of kernels *)

(** [optkerns]: three kernels that one routine does together *)
Definition optkerns : list (string * list string) :=
  [ ("DVP_KN_OPT_UYVY_TO_RGBp_LUMA_YUV444p",
      ["DVP_KN_UYVY_TO_RGBp"; "DVP_KN_XYXY_TO_Y800"; "DVP_KN_UYVY_TO_YUV444p"]);
    ("DVP_KN_OPT_UYVY_TO_RGBp_YUV444p_LUMA",
      ["DVP_KN_UYVY_TO_RGBp"; "DVP_KN_UYVY_TO_YUV444p"; "DVP_KN_XYXY_TO_Y800"]);
    ("DVP_KN_OPT_UYVY_TO_YUV444p_LUMA_RGBp",
      ["DVP_KN_UYVY_TO_YUV444p"; "DVP_KN_XYXY_TO_Y800"; "DVP_KN_UYVY_TO_RGBp"]);
    ("DVP_KN_OPT_UYVY_TO_YUV444p_RGBp_LUMA",
      ["DVP_KN_UYVY_TO_YUV444p"; "DVP_KN_UYVY_TO_RGBp"; "DVP_KN_XYXY_TO_Y800"]);
    ("DVP_KN_OPT_UYVY_TO_LUMA_YUV444p_RGBp",
      ["DVP_KN_XYXY_TO_Y800"; "DVP_KN_UYVY_TO_YUV444p"; "DVP_KN_UYVY_TO_RGBp"]);
    ("DVP_KN_OPT_UYVY_TO_LUMA_RGBp_YUV444p",
      ["DVP_KN_XYXY_TO_Y800"; "DVP_KN_UYVY_TO_RGBp"; "DVP_KN_UYVY_TO_YUV444p"]) ].
(** [for (j = 1, k = n+1; j < numKernels && k < numNodes; j++,k++)]: the nodes
    from [k] on have these kernels, and [numNodes] does not end before them. *)
Fixpoint chain_matches (kernel_at : Z -> string) (numNodes k : Z) (chain : list string) : bool :=
  match chain with
  | [] => true
  | c :: chain => (k <? numNodes) && String.eqb (kernel_at k) c && chain_matches kernel_at numNodes (k + 1) chain
  end.
(** The kernel to run for node [n], and the node to go on from *)
Fixpoint find_optimized (opts : list (string * list string)) (kernel_at : Z -> string) (numNodes n : Z)
    : string * Z :=
  match opts with
  | [] => (kernel_at n, n)
  | (optkernel, chain) :: opts =>
      if match chain with
         | first :: rest => String.eqb first (kernel_at n) && chain_matches kernel_at numNodes (n + 1) rest
         | [] => false
         end
      then (optkernel, n + Z.of_nat (length chain) - 1)
      else find_optimized opts kernel_at numNodes n
  end.
(** The cases of the optimised kernels read the two nodes before their own. *)
Definition exec_OPT_UYVY_TO_RGBp_LUMA_YUV444p (node : Z -> params) (n : Z) : M unit :=
  let uyvy := img (node (n - 2)) "input" in
  let rgb := img (node (n - 2)) "output" in
  let luma := img (node (n - 1)) "output" in
  let yuv444p := img (node n) "output" in
  emit (Call "__uyvy_to_rgbp_luma_yuv444p_image" [width uyvy; height uyvy; ptr uyvy 0; y_stride uyvy; ptr rgb 0;
    ptr rgb 1; ptr rgb 2; ptr luma 0; ptr yuv444p 0; ptr yuv444p 1; ptr yuv444p 2]);;
  emit (Count 2).
Definition exec_OPT_UYVY_TO_YUV444p_LUMA_RGBp (node : Z -> params) (n : Z) : M unit :=
  let uyvy := img (node (n - 2)) "input" in
  let yuv444p := img (node (n - 2)) "output" in
  let luma := img (node (n - 1)) "output" in
  let rgb := img (node n) "output" in
  emit (Call "__uyvy_to_rgbp_luma_yuv444p_image" [width uyvy; height uyvy; ptr uyvy 0; y_stride uyvy; ptr rgb 0;
    ptr rgb 1; ptr rgb 2; ptr luma 0; ptr yuv444p 0; ptr yuv444p 1; ptr yuv444p 2]);;
  emit (Count 2).
Definition opt_cases : list (list string * ((Z -> params) -> Z -> M unit)) :=
  [ (["DVP_KN_OPT_UYVY_TO_RGBp_LUMA_YUV444p"], exec_OPT_UYVY_TO_RGBp_LUMA_YUV444p);
    (["DVP_KN_OPT_UYVY_TO_YUV444p_LUMA_RGBp"], exec_OPT_UYVY_TO_YUV444p_LUMA_RGBp) ].
(** Node [n] of the loop in a build with the YUV library, and the next [n] *)
Definition exec_yuv (cases : list (list string * (params -> M unit))) (node : Z -> params) (numNodes n : Z) : M Z :=
  let '(kernel, n) := find_optimized optkerns (fun k => kn (node k)) numNodes n in
  match case_of opt_cases kernel with
  | Some body => body node n
  | None => match case_of cases kernel with
            | Some body => body (node n)
            | None => reject DVP_ERROR_INVALID_PARAMETER
            end
  end;;
  mret (n + 1).

(** What the tables have and what they lack *)
Definition has_case {A} (cases : list (list string * A)) (k : string) : bool :=
  match case_of cases k with Some _ => true | None => false end.
Definition without_case (cases : list (list string * (params -> M unit))) (ks : list published) : list string :=
  List.filter (fun k => negb (has_case cases k)) (ks.*1).
Fixpoint shift_of (ks : list published) (k : string)
    : option (option dvp_image_shift_t * option (params -> dvp_image_shift_t -> dvp_image_shift_t)) :=
  match ks with [] => None | (k', s) :: ks => if String.eqb k k' then Some s else shift_of ks k end.
Definition done_together : list string :=
  ["DVP_KN_OPT_UYVY_TO_RGBp_LUMA_YUV444p"; "DVP_KN_OPT_UYVY_TO_YUV444p_LUMA_RGBp"].
Definition named_only : list string :=
  ["DVP_KN_OPT_UYVY_TO_RGBp_YUV444p_LUMA"; "DVP_KN_OPT_UYVY_TO_YUV444p_RGBp_LUMA";
   "DVP_KN_OPT_UYVY_TO_LUMA_YUV444p_RGBp"; "DVP_KN_OPT_UYVY_TO_LUMA_RGBp_YUV444p"].

(** ** Programs all of whose events satisfy a predicate *)

Definition only (Q : event -> Prop) {A} (m : M A) : Prop := forall e log a log',
  m e log = Done (a, log') -> exists l, log' = log ++ l /\ Forall Q l.

Section Only.
Context (Q : event -> Prop).

Lemma only_ret {A} (a : A) : only Q (mret a).
Proof. intros e log b log' [= _ <-]. exists []. by rewrite app_nil_r. Qed.
Lemma only_bind {A B} (m : M A) (f : A -> M B) : only Q m -> (forall a, only Q (f a)) -> only Q (m ≫= f).
Proof.
  intros Hm Hf e log b log' H. unfold mbind, M_bind in H. destruct (m e log) as [[a log1]| |] eqn:E; try done.
  apply Hm in E as (l & -> & Hl). apply Hf in H as (k & -> & Hk). exists (l ++ k).
  rewrite <- app_assoc. split; [done|]. by apply Forall_app.
Qed.
Lemma only_event {A} (f : env -> list event -> A) ev : Q ev -> only Q (fun e log => Done (f e log, log ++ [ev])).
Proof. intros H e log a log' [= _ <-]. exists [ev]. split; [done|]. by constructor. Qed.
Lemma only_undef {A} : only Q (undef : M A).
Proof. done. Qed.
Lemma only_no_fuel {A} : only Q (no_fuel : M A).
Proof. done. Qed.
Lemma only_emit ev : Q ev -> only Q (emit ev).
Proof. apply (only_event (fun _ _ => tt)). Qed.
Lemma only_ask ev : Q ev -> only Q (ask ev).
Proof. apply (only_event (fun e log => returns e (log ++ [ev]))). Qed.
Lemma only_ask_out ev : Q ev -> only Q (ask_out ev).
Proof. apply (only_event (fun e log => (returns e (log ++ [ev]), writes e (log ++ [ev])))). Qed.
Lemma only_if {A} (b : bool) (m k : M A) : only Q m -> only Q k -> only Q (if b then m else k).
Proof. by destruct b. Qed.
Lemma only_memcpy t off src n : Q (Memcpy (t + off) src n) -> only Q (memcpy_to t off src n).
Proof. intros H. apply only_if; [apply only_undef | by apply only_emit]. Qed.
Lemma only_quotient a b : only Q (quotient a b).
Proof. apply only_if; [apply only_undef | apply only_ret]. Qed.
Lemma only_plane i k : only Q (plane_ptr i k).
Proof. unfold plane_ptr. destruct (aget _ _); [apply only_ret | apply only_undef]. Qed.
Lemma only_each {S} (body : Z -> S -> M S) l : forall s, (forall i s, only Q (body i s)) -> only Q (each body l s).
Proof. induction l as [|i l IH]; intros s H; [apply only_ret|]. apply only_bind; [done|]. intros. by apply IH. Qed.
Lemma only_block_loop {S} n (body : Z -> Z -> S -> M S) fuel : forall y bh s,
  (forall y bh s, only Q (body y bh s)) -> only Q (block_loop fuel n body y bh s).
Proof.
  induction fuel as [|fuel IH]; intros y bh s H; cbn [block_loop]; [apply only_no_fuel|].
  apply only_if; [|apply only_ret]. apply only_bind; [apply H|]. intros. by apply IH.
Qed.
Lemma only_step_loop n step body fuel : forall y,
  (forall y, only Q (body y)) -> only Q (step_loop fuel n step body y).
Proof.
  induction fuel as [|fuel IH]; intros y H; cbn [step_loop]; [apply only_no_fuel|].
  apply only_if; [|apply only_ret]. apply only_bind; [apply H|]. intros. by apply IH.
Qed.
End Only.

(** Follows the structure of a program. *)
Ltac only_step :=
  match goal with
  | |- forall _, _ => intro
  | |- only _ (_ ≫= _) => apply only_bind
  | |- only _ (mret _) => apply only_ret
  | |- only _ stop => apply only_ret
  | |- only _ (emit _) => apply only_emit; cbn; done
  | |- only _ (ask _) => apply only_ask; cbn; done
  | |- only _ (ask_out _) => apply only_ask_out; cbn; done
  | |- only _ (malloc _) => apply only_ask; cbn; done
  | |- only _ (calloc _ _) => apply only_ask; cbn; done
  | |- only _ (memcpy_to _ _ _ _) => apply only_memcpy; cbn; done
  | |- only _ (quotient _ _) => apply only_quotient
  | |- only _ (plane_ptr _ _) => apply only_plane
  | |- only _ (posix_memalign _ _) => unfold posix_memalign
  | |- only _ (count _ _) => apply only_each
  | |- only _ (count_from _ _ _) => apply only_each
  | |- only _ (count_with _ _ _) => apply only_each
  | |- only _ (rows _ _ _) => apply only_each
  | |- only _ (row_blocks _ _ _) => apply only_block_loop
  | |- only _ (every _ _ _) => apply only_step_loop
  | |- only _ (if ?b then _ else _) => destruct b
  | |- only _ (let '(_, _) := ?x in _) => destruct x
  | |- only _ (match ?x with _ => _ end) => destruct x
  end.
Ltac solve_only := cbv zeta; repeat (only_step; cbv zeta beta).

(** ** Nodes are counted once *)

Definition quiet (ev : event) : Prop :=
  match ev with Count _ => False | Store f _ => f <> "header.error" | _ => True end.
Lemma quiet_counts l : Forall quiet l -> processed_by l = 1 /\ error_after l = DVP_SUCCESS.
Proof.
  unfold processed_by, error_after. generalize DVP_SUCCESS. intros err H.
  induction H as [|ev l Hev _ IH]; [done|]. destruct IH as [IH1 IH2]. cbn [fmap list_fmap foldl].
  rewrite Zsum_cons. destruct ev; cbn [count_of set_by quiet] in *; try done;
    try (destruct (String.eqb_spec member "header.error"); [done|]); by split; [lia|].
Qed.

Definition once (c : list string * (params -> M unit)) : Prop := forall p, only quiet (c.2 p).
(** The cases that count otherwise *)
Definition exceptions : list string :=
  ["DVP_KN_IMG_YUV422p_TO_RGB565"; "DVP_KN_VLIB_CCL"; "DVP_KN_YUV_UYVY_HALF_SCALE"; "DVP_KN_YUV_UYVY_QTR_SCALE";
   "DVP_KN_YUV_Y800_ROTATE_CW_90"; "DVP_KN_YUV_UYVY_ROTATE_CW_90"].
Definition excepted (c : list string * (params -> M unit)) : bool :=
  existsb (fun k => existsb (String.eqb k) exceptions) c.1.
Definition regular (cases : list (list string * (params -> M unit))) : Prop :=
  Forall (fun c => excepted c = false -> once c) cases.
Ltac solve_regular := repeat (apply Forall_cons; split); [..|apply Forall_nil; exact I];
  intros H; try discriminate H; intros p; cbn [snd];
  match goal with |- only _ (?f p) => unfold f end; solve_only.
Lemma imglib_regular : regular imglib_cases.
Proof. unfold imglib_cases. solve_regular. Qed.
Lemma vlib_regular : regular vlib_cases.
Proof. unfold vlib_cases. solve_regular. Qed.
Lemma yuv_regular : regular yuv_cases.
Proof. unfold yuv_cases. solve_regular. Qed.
Lemma filter_regular : regular filter_cases.
Proof. unfold filter_cases. solve_regular. Qed.
Lemma all_regular : Forall regular [imglib_cases; vlib_cases; yuv_cases; filter_cases].
Proof.
  apply Forall_cons; split; [exact imglib_regular|]. apply Forall_cons; split; [exact vlib_regular|].
  apply Forall_cons; split; [exact yuv_regular|]. apply Forall_cons; split; [exact filter_regular|].
  by apply Forall_nil.
Qed.

(** ** Temporary memory *)

Fixpoint free_block (a : Z) (blocks : list Z) : list Z :=
  match blocks with [] => [] | b :: blocks => if b =? a then blocks else b :: free_block a blocks end.
(** The blocks allocated and not freed, after a trace *)
Definition heap_step (e : env) (s : list event * list Z) (ev : event) : list event * list Z :=
  let log := s.1 ++ [ev] in
  (log, match ev with
        | Malloc _ | Calloc _ => if returns e log =? 0 then s.2 else returns e log :: s.2
        | Memalign _ _ => if returns e log =? 0 then writes e log :: s.2 else s.2
        | Free a => if a =? 0 then s.2 else free_block a s.2
        | _ => s.2
        end).
Definition live (e : env) (log : list event) : list Z := (foldl (heap_step e) ([], []) log).2.
Definition no_heap (ev : event) : Prop :=
  match ev with Malloc _ | Calloc _ | Memalign _ _ | Free _ => False | _ => True end.

Lemma heap_log e log : foldl (heap_step e) ([], []) log = (log, live e log).
Proof.
  unfold live. induction log as [|ev log IH] using rev_ind; [done|]. rewrite foldl_app. cbn [foldl].
  unfold heap_step at 1 3. by rewrite IH.
Qed.
Lemma live_snoc e log ev : live e (log ++ [ev]) = (heap_step e (log, live e log) ev).2.
Proof. unfold live at 1. rewrite foldl_app, heap_log. done. Qed.
Lemma live_no_heap e log l : Forall no_heap l -> live e (log ++ l) = live e log.
Proof.
  intros H. revert log. induction H as [|ev l Hev _ IH]; intros log; [by rewrite app_nil_r|].
  rewrite cons_middle, app_assoc, IH, live_snoc. by destruct ev.
Qed.

Definition balanced {A} (m : M A) : Prop := forall e log a log', m e log = Done (a, log') -> live e log' = live e log.
Lemma balanced_only {A} (m : M A) : only no_heap m -> balanced m.
Proof. intros H e log a log' (l & -> & Hl)%H. by apply live_no_heap. Qed.
Lemma balanced_bind {A B} (m : M A) (f : A -> M B) : balanced m -> (forall a, balanced (f a)) -> balanced (m ≫= f).
Proof.
  intros Hm Hf e log b log' H. unfold mbind, M_bind in H. destruct (m e log) as [[a log1]| |] eqn:E; try done.
  rewrite (Hf a e log1 b log' H). by eapply Hm.
Qed.
Lemma balanced_if {A} (b : bool) (m k : M A) : balanced m -> balanced k -> balanced (if b then m else k).
Proof. by destruct b. Qed.
(** A block that is allocated, used and freed; freeing null does nothing. *)
Definition frees (t : Z) {A} (m : M A) : Prop := forall e log a log' h, m e log = Done (a, log') ->
  live e log = (if t =? 0 then h else t :: h) -> live e log' = h.
Lemma frees_emit t : frees t (emit (Free t)).
Proof.
  intros e log a log' h [= _ <-] Hl. rewrite live_snoc. cbn. rewrite Hl. destruct (t =? 0); [done|].
  cbn. by rewrite Z.eqb_refl.
Qed.
Lemma frees_bind {A B} (m : M A) (f : A -> M B) t : only no_heap m -> (forall a, frees t (f a)) -> frees t (m ≫= f).
Proof.
  intros Hm Hf e log b log' h H Hl. unfold mbind, M_bind in H. destruct (m e log) as [[a log1]| |] eqn:E; try done.
  apply balanced_only in E; [|done]. eapply Hf; [exact H|]. by rewrite E.
Qed.
Lemma balanced_alloc {A} ev (f : Z -> M A) : match ev with Malloc _ | Calloc _ => True | _ => False end ->
  (forall t, frees t (f t)) -> balanced (ask ev ≫= f).
Proof.
  intros Hev Hf e log a log' H. rewrite ask_run in H. eapply Hf; [exact H|]. rewrite live_snoc. by destruct ev.
Qed.
Lemma frees_if {A} t (m k : M A) : (t <> 0 -> frees t m) -> (t = 0 -> balanced k) ->
  frees t (if negb (t =? 0) then m else k).
Proof.
  intros Hm Hk e log a log' h. destruct (Z.eqb_spec t 0) as [->|Ht]; cbn.
  - intros H <-. by eapply Hk.
  - intros H Hl. eapply Hm; [done|exact H|]. by rewrite (proj2 (Z.eqb_neq t 0)).
Qed.

Definition temporary_users : list (params -> M unit) :=
  [exec_IMG_SOBEL_3x3_8; exec_IMG_CONV_3x3; exec_VLIB_IIR_HORZ; exec_VLIB_IIR_HORZ_16; exec_VLIB_IIR_VERT;
   exec_VLIB_IIR_VERT_16; exec_VLIB_DISPARITY_SAD8; exec_RVM].
Ltac solve_balanced :=
  repeat first
    [ apply balanced_only; solve_only; fail
    | apply balanced_alloc; [exact I|intros]
    | apply frees_emit
    | apply frees_bind; [solve_only; fail|intros]
    | apply frees_if; intros
    | apply balanced_if
    | apply balanced_bind; [|intros] ].
Lemma temporaries_balanced : Forall (fun f => forall p, balanced (f p)) temporary_users.
Proof.
  unfold temporary_users. repeat (apply Forall_cons; split); [..|apply Forall_nil; exact I].
  all: intros p; match goal with |- balanced (?f p) => unfold f end; cbv zeta.
  all: solve_balanced.
Qed.

(** ** Verified filters *)

Lemma all_hold_in p cs c : all_hold p cs = Done true -> In c cs -> check_node p c = Done true.
Proof.
  induction cs as [|c' cs IH]; [done|]. cbn [all_hold]. intros H [->|Hc]; inv_outcome.
  - by destruct r.
  - destruct r; [by apply IH|done].
Qed.
Definition as_high : node_check := Test (fun p => height (img p "input") =? height (img p "output")).
Definition height_checked (label : string) : Prop := match case_of verify_rows label with
  | Some cs => In (Fits "input" "output") cs \/ In as_high cs
  | None => False
  end.
Lemma row_filters_checked : Forall (fun rf => height_checked (rf_label rf)) row_filters.
Proof.
  unfold row_filters. repeat (apply Forall_cons; split); [..|apply Forall_nil; exact I].
  all: unfold height_checked; cbn [rf_label]; lazy; auto 10.
Qed.
Lemma verified_heights rf p : rf ∈ row_filters -> kn p = rf_label rf -> verify_vendor p = Done true ->
  height (img p "input") <= height (img p "output").
Proof.
  intros Hrf Hk H. pose proof (proj1 (Forall_forall _ _) row_filters_checked rf Hrf) as Hc.
  unfold verify_vendor in H. rewrite Hk in H. unfold height_checked in Hc.
  destruct (case_of _ _) as [cs|]; [|done]. destruct Hc as [Hc|Hc]; apply (all_hold_in _ _ _ H) in Hc; cbn in Hc.
  - injection Hc as [_ Hh]%andb_prop. by apply Z.leb_le.
  - injection Hc as Hh. apply Z.eqb_eq in Hh. lia.
Qed.

(** ** Filters that stage eight rows at a time *)

(** The multiples of [step] below [n] *)
Definition starts_by (step n : Z) : list Z := (fun j => step * j) <$> seqZ 0 ((n + step - 1) / step).
Lemma elem_of_starts_by step n y : 0 < step -> y ∈ starts_by step n <-> 0 <= y < n /\ y mod step = 0.
Proof.
  intros Hs. unfold starts_by. rewrite list_elem_of_fmap.
  pose proof (Z.div_mod (n + step - 1) step). pose proof (Z.mod_pos_bound (n + step - 1) step). split.
  - intros (j & -> & Hj%elem_of_seqZ). split; [nia|]. rewrite Z.mul_comm. apply Z.mod_mul. lia.
  - intros [Hy Hm]. pose proof (Z.div_mod y step). exists (y / step). split; [lia|]. apply elem_of_seqZ. nia.
Qed.
Lemma step_loop_run n step body (ev : Z -> list event) (k : nat) : 0 < step -> n + step < 2 ^ 32 ->
  (forall y, 0 <= y < n -> emits (body y) tt (ev y)) ->
  forall fuel j, (k < fuel)%nat -> 0 <= j -> step * (j + Z.of_nat k) < n + step -> n <= step * (j + Z.of_nat k) ->
  emits (step_loop fuel n step body (step * j)) tt (concat ((fun j => ev (step * j)) <$> seqZ j (Z.of_nat k))).
Proof.
  intros Hs Hn Hbody. induction k as [|k IH]; intros [|fuel] j Hf Hj Hk1 Hk2; try lia; cbn [step_loop].
  - rewrite (proj2 (Z.ltb_ge _ _)) by lia. apply emits_ret.
  - rewrite (proj2 (Z.ltb_lt (step * j) n)) by nia.
    rewrite seqZ_cons by lia. replace (Z.pred (Z.of_nat (Datatypes.S k))) with (Z.of_nat k) by lia.
    rewrite fmap_cons. cbn [concat]. eapply emits_bind; [apply Hbody; nia|].
    rewrite u32_small by (unfold is_u32; nia). replace (step * j + step) with (step * Z.succ j) by lia.
    apply IH; lia.
Qed.
Lemma emits_every n step body (ev : Z -> list event) : 0 < step -> 0 <= n -> n + step < 2 ^ 32 ->
  (forall y, 0 <= y < n -> emits (body y) tt (ev y)) ->
  emits (every n step body) tt (concat (ev <$> starts_by step n)).
Proof.
  intros Hs Hn Hb H. unfold every, starts_by. rewrite <- list_fmap_compose.
  set (k := (n + step - 1) / step). assert (0 <= k) as Hk by (apply Z.div_pos; lia).
  assert (step * k < n + step /\ n <= step * k) as [Hk1 Hk2] by (unfold k;
    pose proof (Z.div_mod (n + step - 1) step); pose proof (Z.mod_pos_bound (n + step - 1) step); lia).
  assert (k <= n / step + 1) as Hkn.
  { replace (n / step + 1) with ((n + 1 * step) / step) by (apply Z.div_add; lia). apply Z.div_le_mono; lia. }
  pose proof (Z.div_pos n step Hn Hs).
  pose proof (step_loop_run n step body ev (Z.to_nat k) Hs Hb H (Z.to_nat (n / step) + 2) 0) as R.
  rewrite Z.mul_0_r, Z2Nat.id in R by done. apply R; lia.
Qed.

Definition iir_block (p : params) (i o : DVP_Image_t) (t y : Z) : list event :=
  stage_rows i t y 8 ++ [Call "VLIB_recursiveFilterHoriz1stOrder" [row_addr o y; t; width i; 8; num p "weight";
    bdata p "bounds[0]"; bdata p "bounds[1]"; ptr (img p "scratch") 0]].
Definition iir_trace (p : params) (i o : DVP_Image_t) (t : Z) : list event :=
  [Malloc (width i * 8)] ++ concat (iir_block p i o t <$> starts_by 8 (height i)) ++ [Free t].
Lemma iir_staged p e log t : let i := img p "input" in let o := img p "output" in
  apart i -> upright o -> (height i + 8) * y_stride i < 2 ^ 32 -> height i * y_stride o < 2 ^ 32 ->
  t = returns e (log ++ [Malloc (width i * 8)]) -> t <> 0 ->
  exec_VLIB_IIR_HORZ p e log = Done (tt, log ++ iir_trace p i o t).
Proof.
  intros i o (Hw & Hs & Hh & _) Ho Hb Hbo Ht Ht0. unfold exec_VLIB_IIR_HORZ. cbv zeta. fold i o.
  rewrite (s32_small (width i)), (proj2 (Z.eqb_neq _ _)) by (unfold is_s32; lia).
  rewrite (u32_small (width i * 8)) by (unfold is_u32; lia).
  unfold malloc. rewrite ask_run, <- Ht. unfold iir_trace. rewrite app_assoc. apply run_emits.
  eapply emits_bind; [|apply emits_emit].
  apply emits_every; [lia..|nia|]. intros y Hy. unfold iir_block.
  eapply emits_bind; [apply emits_stage_rows; try done; nia|].
  rewrite (upright_stride o Ho), (u32_small (y * _)); [apply emits_emit|].
  destruct Ho as [_ Ho]. unfold is_u32. nia.
Qed.

(** A program that ends with an error still holds a block. *)
Definition keeps {A} (m : M A) : Prop := forall e log a log', m e log = Done (a, log') -> live e log <> [] ->
  error_after log = DVP_SUCCESS -> error_after log' = DVP_SUCCESS \/ live e log' <> [].
Lemma quiet_error log l : Forall quiet l -> error_after (log ++ l) = error_after log.
Proof.
  intros H. revert log. induction H as [|ev l Hev _ IH]; intros log; [by rewrite app_nil_r|].
  rewrite cons_middle, app_assoc, IH. unfold error_after. rewrite foldl_app. destruct ev; try done.
  cbn in *. by destruct (String.eqb_spec member "header.error").
Qed.
Lemma keeps_heap {A} (m : M A) : only no_heap m -> keeps m.
Proof. intros H e log a log' (l & -> & Hl)%H Hh _. right. by rewrite live_no_heap. Qed.
Lemma keeps_quiet {A} (m : M A) : only quiet m -> keeps m.
Proof. intros H e log a log' (l & -> & Hl)%H _ He. left. by rewrite quiet_error. Qed.
Lemma keeps_bind {A B} (m : M A) (f : A -> M B) : only no_heap m -> only quiet m -> (forall a, keeps (f a)) ->
  keeps (m ≫= f).
Proof.
  intros Hh Hq Hf e log b log' H Hl He. unfold mbind, M_bind in H.
  destruct (m e log) as [[a log1]| |] eqn:E; try done.
  eapply Hf; [exact H|..].
  - by rewrite (balanced_only m Hh e log a log1 E).
  - apply Hq in E as (l & -> & Hq'). by rewrite quiet_error.
Qed.
Lemma memalign_error log align n : error_after (log ++ [Memalign align n]) = error_after log.
Proof. apply quiet_error. by repeat constructor. Qed.
Lemma keeps_memalign {B} align n (f : option Z -> M B) : (forall o, keeps (f o)) ->
  keeps (posix_memalign align n ≫= f).
Proof.
  intros Hf e log b log' H Hl He. cbn in H. eapply Hf; [exact H|..]; [|by rewrite memalign_error].
  rewrite live_snoc. cbn. by destruct (_ =? 0).
Qed.
Lemma keeps_if {A} (b : bool) (m k : M A) : keeps m -> keeps k -> keeps (if b then m else k).
Proof. by destruct b. Qed.
Lemma keeps_some {B} (o : option Z) (f : Z -> M B) (m : M B) : (forall a, keeps (f a)) -> keeps m ->
  keeps (match o with Some a => f a | None => m end).
Proof. by destruct o. Qed.
Ltac solve_keeps :=
  repeat first
    [ lazymatch goal with |- keeps (reject _) => unfold reject end
    | lazymatch goal with |- keeps (match ?x with pair _ _ => _ end) => destruct x end
    | apply keeps_heap; solve_only; fail
    | apply keeps_quiet; solve_only; fail
    | apply keeps_memalign; intros
    | apply keeps_if
    | apply keeps_some; intros
    | apply keeps_bind; [solve_only; fail|solve_only; fail|intros] ].
(** The same for a program that need not hold a block when it starts *)
Definition safe {A} (m : M A) : Prop := forall e log a log', m e log = Done (a, log') ->
  error_after log = DVP_SUCCESS -> error_after log' = DVP_SUCCESS \/ live e log' <> [].
Lemma safe_quiet {A} (m : M A) : only quiet m -> safe m.
Proof. intros H e log a log' (l & -> & Hl)%H He. left. by rewrite quiet_error. Qed.
Lemma safe_bind {A B} (m : M A) (f : A -> M B) : only quiet m -> (forall a, safe (f a)) -> safe (m ≫= f).
Proof.
  intros Hq Hf e log b log' H He. unfold mbind, M_bind in H.
  destruct (m e log) as [[a log1]| |] eqn:E; try done.
  eapply Hf; [exact H|]. apply Hq in E as (l & -> & Hq'). by rewrite quiet_error.
Qed.
Lemma safe_memalign {B} align n (f : option Z -> M B) : (forall a, keeps (f (Some a))) -> safe (f None) ->
  safe (posix_memalign align n ≫= f).
Proof.
  intros Hs Hn e log b log' H He. unfold posix_memalign, ask_out, mbind, M_bind in H.
  destruct (returns e (log ++ [Memalign align n]) =? 0) eqn:E; cbn in H.
  - eapply Hs; [exact H| |by rewrite memalign_error]. rewrite live_snoc. cbn. by rewrite E.
  - eapply Hn; [exact H|]. by rewrite memalign_error.
Qed.
Lemma row_filters_dispatched : Forall (fun rf => case_of imglib_cases (rf_label rf) = Some (rf_exec rf)) row_filters.
Proof. unfold row_filters. repeat (apply Forall_cons; split); [..|apply Forall_nil; exact I]; reflexivity. Qed.
Lemma row_filter_run rf p : rf ∈ row_filters -> kn p = rf_label rf -> exec_vendor imglib_cases p = rf_exec rf p.
Proof.
  intros Hrf Hk. unfold exec_vendor. rewrite Hk.
  by rewrite (proj1 (Forall_forall _ _) row_filters_dispatched rf Hrf).
Qed.
Lemma row_filter_calls rf p : rf ∈ row_filters -> kn p = rf_label rf ->
  upright (img p "input") -> upright (img p "output") ->
  exists l, emits (exec_vendor imglib_cases p) tt l /\ Z.of_nat (length l) = row_count rf p /\
    forall i ev, l !! i = Some ev -> row_call rf p (Z.of_nat i) ev.
Proof.
  intros Hrf Hk Hi Ho. rewrite (row_filter_run rf p Hrf Hk).
  by apply (proj1 (Forall_forall _ _) row_filters_ok rf Hrf).
Qed.

Lemma find_chain kernel_at opt chain : (opt, chain) ∈ optkerns -> [kernel_at 0; kernel_at 1; kernel_at 2] = chain ->
  find_optimized optkerns kernel_at 3 0 = (opt, 2).
Proof.
  intros H <-. unfold optkerns in H. rewrite !elem_of_cons in H.
  destruct H as [H|[H|[H|[H|[H|[H|H]]]]]]; [..|by apply not_elem_of_nil in H].
  all: injection H as -> H0 H1 H2; unfold optkerns; cbn [find_optimized chain_matches length].
  all: change (0 + 1) with 1; change (1 + 1) with 2; rewrite H0, H1, H2; reflexivity.
Qed.

(** ** Properties *)

(** C22: A filter of IMGLIB that goes row by row, on a node that passed
    verification with an image at least as high as the filter, calls the
    library exactly once for each row that the output has, in order; the rows
    that each call is given are rows of the input, and the row it is to write
    is a row of the output. *)
Theorem verified_row_filters_stay_inside rf p : rf ∈ row_filters -> kn p = rf_label rf ->
  verify_vendor p = Done true -> upright (img p "input") -> upright (img p "output") ->
  1 <= rf_size rf p <= height (img p "input") ->
  exists l, emits (exec_vendor imglib_cases p) tt l /\
    Z.of_nat (length l) = height (img p "input") - rf_size rf p + 1 /\
    forall i ev, l !! i = Some ev -> row_call rf p (Z.of_nat i) ev /\
      Z.of_nat i + rf_size rf p <= height (img p "input") /\ Z.of_nat i < height (img p "output").
Proof.
  intros Hrf Hk Hv Hi Ho Hs. destruct (row_filter_calls rf p Hrf Hk Hi Ho) as (l & Hl & Hn & Hc).
  pose proof (verified_heights rf p Hrf Hk Hv) as Hh. destruct Hi as [Hh32 _].
  unfold row_count in Hn. rewrite u32_small in Hn by (unfold is_u32 in *; lia).
  exists l. split; [done|]. split; [lia|]. intros i ev Hev. split; [by apply Hc|].
  apply lookup_lt_Some in Hev. lia.
Qed.

(** On an image that is lower than the filter by more than one row, the
    number of rows wraps around: the library is called more than [2 ^ 31]
    times, and is given rows behind the images. *)
Theorem short_images_overrun rf p : rf ∈ row_filters -> kn p = rf_label rf ->
  upright (img p "input") -> upright (img p "output") ->
  1 <= height (img p "input") -> height (img p "input") + 1 < rf_size rf p < 2 ^ 31 ->
  exists l, emits (exec_vendor imglib_cases p) tt l /\ 2 ^ 31 < Z.of_nat (length l) /\
    exists ev, ev ∈ l /\ row_call rf p (height (img p "input")) ev.
Proof.
  intros Hrf Hk Hi Ho Hs1 Hs. destruct (row_filter_calls rf p Hrf Hk Hi Ho) as (l & Hl & Hn & Hc).
  assert (row_count rf p = 2 ^ 32 + height (img p "input") - rf_size rf p + 1) as Hr.
  { unfold row_count, u32. destruct Hi as [Hh _]. unfold is_u32 in Hh.
    rewrite <- (Z_mod_plus_full _ 1), Z.mod_small by lia. lia. }
  rewrite Hr in Hn. exists l. split; [done|]. split; [lia|].
  destruct (lookup_lt_is_Some_2 l (Z.to_nat (height (img p "input")))) as [ev Hev]; [lia|].
  exists ev. split; [by eapply list_elem_of_lookup_2|]. apply Hc in Hev. by rewrite Z2Nat.id in Hev by lia.
Qed.


(** C6: [DVP_KN_IMG_YUV422p_TO_RGB565] counts twice, and a UYVY image is not
    counted when its scaling is given other formats or sizes, although its
    node ends without an error. *)
Theorem odd_counts p e a l :
  (exec_IMG_YUV422p_TO_RGB565 p e [] = Done (a, l) -> processed_by l = 2 /\ error_after l = DVP_SUCCESS) /\
  (color (img p "input") <> FOURCC_UYVY -> exec_YUV_UYVY_HALF_SCALE p e [] = Done (a, l) ->
   processed_by l = 0 /\ error_after l = DVP_SUCCESS).
Proof.
  split.
  - unfold exec_IMG_YUV422p_TO_RGB565. destruct (_ =? _); cbn; by intros [= <- <-].
  - intros Hc%Z.eqb_neq. unfold exec_YUV_UYVY_HALF_SCALE. rewrite Hc. cbn. by intros [= <- <-].
Qed.


(** The published kernels of each library that have no case to run them:
    one of IMGLIB's, and three of the YUV library's; a node with such a kernel
    is rejected without a call. *)
Theorem published_without_case cases p e :
  without_case vlib_cases (vlib_features ++ vlib_functions) = [] /\
  without_case imglib_cases (imglib_features ++ imglib_functions) = ["DVP_KN_YUV422p_TO_RGB565"] /\
  without_case yuv_cases (yuv_features ++ yuv_functions) =
    ["DVP_KN_YUV_YXYX_TO_Y800"; "DVP_KN_YXYX_TO_Y800"; "DVP_KN_YUV420p_TO_RGBp"] /\
  without_case filter_cases (filter_features ++ filter_functions) = [] /\
  without_case rvm_cases rvm_functions = [] /\
  (has_case cases (kn p) = false -> exists l, exec_vendor cases p e [] = Done (tt, l) /\
    processed_by l = 0 /\ error_after l = DVP_ERROR_INVALID_PARAMETER /\ forall f args, Call f args ∉ l).
Proof.
  do 5 (split; [reflexivity|]). unfold has_case, exec_vendor. destruct (case_of cases (kn p)); [done|]. intros _.
  eexists. split; [reflexivity|]. split; [done|]. split; [done|]. intros f args H.
  cbn in H. rewrite !elem_of_cons in H. by destruct H as [?|[?|?%not_elem_of_nil]].
Qed.

Definition borders_match (rf : row_filter) : Prop := forall p,
  rf_label rf ∉ ["DVP_KN_IMG_CORR_GEN_I16s_C16s"; "DVP_KN_IMG_CORR_GEN_IQ"] ->
  match shift_of (imglib_features ++ imglib_functions) (rf_label rf) with
  | Some (Some s, _) =>
      s = mkShift (- (rf_size rf p / 2)) (- (rf_size rf p / 2)) 0 (rf_size rf p - 1) (rf_size rf p - 1) 0
  | Some (None, _) => rf_size rf p = 1
  | None => False
  end.
(** What a filter publishes of its output's borders agrees with the rows it
    does not write: a filter of [n] rows and columns leaves [n - 1] at the
    bottom and at the right and moves the centre by half of [n]; a filter
    without borders has one row.  This leaves out correlations with masks of
    any size. *)
Theorem published_borders_match rf : rf ∈ row_filters -> borders_match rf.
Proof.
  revert rf. apply Forall_forall. unfold row_filters.
  repeat (apply Forall_cons; split); [..|apply Forall_nil; exact I].
  all: intros p Hl; try reflexivity; exfalso; apply Hl; cbn [rf_label]; set_solver.
Qed.


(** A labelling of connected components that ends with an error has not
    freed the memory it allocated. *)
Theorem failed_labelling_leaks p e a l : exec_VLIB_CCL p e [] = Done (a, l) ->
  error_after l <> DVP_SUCCESS -> live e l <> [].
Proof.
  intros H Hl. enough (safe (exec_VLIB_CCL p)) as Hs by (destruct (Hs e [] a l H); done). clear H Hl.
  unfold exec_VLIB_CCL. cbv zeta. apply safe_bind; [solve_only|]. intros [_ scratchSize].
  apply safe_bind; [solve_only|]. intros size. apply safe_bind; [solve_only|]. intros handle.
  apply safe_memalign; [intros scratch; solve_keeps | by apply safe_quiet, only_ret].
Qed.

(** The horizontal IIR filter on an image with padded rows goes through
    its rows eight at a time, up to the last one.  When their number is no
    multiple of eight, the last copy reads rows behind the image, and the
    library writes rows behind the output. *)
Theorem staged_iir_overruns p e log t : let i := img p "input" in let o := img p "output" in
  apart i -> upright o -> (height i + 8) * y_stride i < 2 ^ 32 -> height i * y_stride o < 2 ^ 32 ->
  t = returns e (log ++ [Malloc (width i * 8)]) -> t <> 0 ->
  exec_VLIB_IIR_HORZ p e log = Done (tt, log ++ iir_trace p i o t) /\
  (forall y, y ∈ starts_by 8 (height i) <-> 0 <= y < height i /\ y mod 8 = 0) /\
  (height i mod 8 = 0 -> Forall (copy_inside i t) (iir_trace p i o t)) /\
  (height i mod 8 <> 0 -> exists dst y, height i <= y /\ Memcpy dst (row_addr i y) (width i) ∈ iir_trace p i o t).
Proof.
  intros i o Hi Ho Hb Hbo Ht Ht0. pose proof Hi as (Hw & Hs & Hh & _).
  split; [by apply iir_staged|]. split; [intros y; by apply elem_of_starts_by|].
  pose proof (Z.div_mod (height i) 8). pose proof (Z.mod_pos_bound (height i) 8). unfold iir_trace. split; intros Hm.
  - repeat (apply Forall_app; split); [by repeat constructor| |by repeat constructor].
    apply Forall_concat, Forall_fmap, Forall_forall. intros y [Hy Hy8]%elem_of_starts_by; [|lia].
    pose proof (Z.div_mod y 8). apply Forall_app. split; [apply stage_inside; lia | by repeat constructor].
  - set (y := 8 * (height i / 8)). exists (t + 7 * width i), (y + 7). split; [lia|].
    apply elem_of_app. right. apply elem_of_app. left. apply list_elem_of_In, in_concat.
    exists (iir_block p i o t y). split; apply list_elem_of_In.
    + apply list_elem_of_fmap. exists y. split; [done|]. apply elem_of_starts_by; [lia|]. split; [lia|].
      unfold y. rewrite Z.mul_comm. apply Z.mod_mul. lia.
    + apply elem_of_app. left. apply list_elem_of_fmap. exists 7. split; [done|]. by apply elem_of_seqZ.
Qed.

(** ** Witnesses *)

Definition conv_5x5 : row_filter :=
  mkFilter "DVP_KN_IMG_CONV_5x5" exec_IMG_CONV_5x5 "IMG_conv_5x5_i8_c8s" (fun _ => 5) 1.
Definition failing_scratch : env :=
  mkEnv (fun log => match last log with Some (Memalign _ _) => 0 | _ => 1 end) (fun _ => 4096).

Lemma verified_row_filters_stay_inside_witness :
  let p := sample_params "DVP_KN_IMG_CONV_5x5" 8 in
  verify_vendor p = Done true /\
  exists l, emits (exec_vendor imglib_cases p) tt l /\ Z.of_nat (length l) = 4 /\
    forall i ev, l !! i = Some ev -> row_call conv_5x5 p (Z.of_nat i) ev /\ Z.of_nat i + 5 <= 8 /\ Z.of_nat i < 8.
Proof.
  intros p. split; [by vm_compute|].
  apply (verified_row_filters_stay_inside conv_5x5 p);
    [apply list_elem_of_here | reflexivity | by vm_compute | apply padded_upright; lia | apply padded_upright; lia |].
  cbn; lia.
Defined.
Lemma short_images_overrun_witness :
  let p := sample_params "DVP_KN_IMG_CONV_5x5" 2 in
  verify_vendor p = Done true /\
  exists l, emits (exec_vendor imglib_cases p) tt l /\ 2 ^ 31 < Z.of_nat (length l) /\
    exists ev, ev ∈ l /\ row_call conv_5x5 p 2 ev.
Proof.
  intros p. split; [by vm_compute|].
  apply (short_images_overrun conv_5x5 p);
    [apply list_elem_of_here | reflexivity | apply padded_upright; lia | apply padded_upright; lia | cbn; lia |].
  cbn; lia.
Defined.
Lemma odd_counts_witness : exists l k,
  exec_IMG_YUV422p_TO_RGB565 (sample_params "DVP_KN_IMG_YUV422p_TO_RGB565" 8) (granting 1) [] = Done (tt, l) /\
  processed_by l = 2 /\
  exec_YUV_UYVY_HALF_SCALE (sample_params "DVP_KN_YUV_UYVY_HALF_SCALE" 8) (granting 1) [] = Done (tt, k) /\
  processed_by k = 0 /\ error_after k = DVP_SUCCESS.
Proof.
  eexists _, _. split; [reflexivity|]. split; [|split; [reflexivity|]].
  - apply (odd_counts (sample_params "DVP_KN_IMG_YUV422p_TO_RGB565" 8) (granting 1) tt). reflexivity.
  - apply (odd_counts (sample_params "DVP_KN_YUV_UYVY_HALF_SCALE" 8) (granting 1) tt); [by vm_compute | reflexivity].
Defined.
Lemma published_without_case_witness : exists l,
  exec_vendor yuv_cases (sample_params "DVP_KN_YUV420p_TO_RGBp" 8) (granting 1) [] = Done (tt, l) /\
  processed_by l = 0 /\ error_after l = DVP_ERROR_INVALID_PARAMETER /\ forall f args, Call f args ∉ l.
Proof.
  apply (published_without_case yuv_cases (sample_params "DVP_KN_YUV420p_TO_RGBp" 8) (granting 1)). reflexivity.
Defined.
Lemma published_borders_match_witness : borders_match conv_5x5.
Proof. apply (published_borders_match conv_5x5). apply list_elem_of_here. Defined.
(** The library refuses the scratch memory: both blocks stay. *)
Lemma failed_labelling_leaks_witness : exists l,
  exec_VLIB_CCL (sample_params "DVP_KN_VLIB_CCL" 8) failing_scratch [] = Done (tt, l) /\
  error_after l = DVP_ERROR_INVALID_PARAMETER /\ live failing_scratch l <> [].
Proof.
  eexists. split; [reflexivity|]. split; [reflexivity|].
  apply (failed_labelling_leaks (sample_params "DVP_KN_VLIB_CCL" 8) failing_scratch tt); [reflexivity | by vm_compute].
Defined.
Lemma staged_iir_overruns_witness :
  let p := sample_params "DVP_KN_VLIB_IIR_HORZ" 12 in
  exec_VLIB_IIR_HORZ p (granting 65536) [] = Done (tt, iir_trace p (padded 4096 12) (padded 8192 12) 65536) /\
  starts_by 8 12 = [0; 8] /\
  exists dst y, 12 <= y /\ Memcpy dst (4096 + y * 8) 4 ∈ iir_trace p (padded 4096 12) (padded 8192 12) 65536.
Proof.
  intros p.
  destruct (staged_iir_overruns p (granting 65536) [] 65536) as (H & _ & _ & Hm);
    [apply padded_apart; lia | apply padded_upright; lia | simpl; lia | simpl; lia | reflexivity | lia |].
  split; [exact H|]. split; [reflexivity|]. apply Hm. by vm_compute.
Defined.
