(* ===== verification/SosalList.v ===== *)
(** * Doubly linked lists (source/sosal/list.c, include/sosal/list.h)

    Nodes are kept in a store by address, [NULL] is 0.  The operations are
    given the list's head and tail; their null checks of the list itself
    return at once and are left out. *)
From S2P Require Import Prelude.

Record node_t : Set := mkListNode { next : Z; prev : Z; node_data : Z }.
Record list_t : Set := mkList { head : Z; tail : Z }.
Abbreviation store := (gmap Z node_t).
Definition MIN_SCORE : Z := 0.
Definition MAX_SCORE : Z := 0xFFFFFFFF.

Definition deref (p : Z) (s : store) : outcome node_t := if p =? 0 then Undef else of_option (s !! p).
Definition set_next (p v : Z) (s : store) : outcome store :=
  n ← deref p s; Done (<[p := mkListNode v (prev n) (node_data n)]> s).
Definition set_prev (p v : Z) (s : store) : outcome store :=
  n ← deref p s; Done (<[p := mkListNode (next n) v (node_data n)]> s).
Definition c_assert (b : bool) : outcome unit := if b then Done tt else Undef.

(** [a], the address [calloc] answers. *)
Definition node_create (data a : Z) (s : store) : Z * store :=
  if a =? 0 then (0, s) else (a, <[a := mkListNode 0 0 data]> s).
Definition node_destroy (p : Z) (s : store) : outcome (Z * store) :=
  if p =? 0 then Done (0, s) else n ← deref p s; Done (node_data n, delete p s).

Definition list_create : list_t := mkList 0 0.

Definition list_append (l : list_t) (node : Z) (s : store) : outcome (list_t * store) :=
  if node =? 0 then Done (l, s)
  else
    '(l, s) ← (if negb (tail l =? 0) then
                 _ ← c_assert (negb (tail l =? node));
                 s ← set_next (tail l) node s;
                 s ← set_prev node (tail l) s; Done (l, s)
               else s ← set_prev node 0 s; Done (mkList node (tail l), s));
    s ← set_next node 0 s;
    Done (mkList (head l) node, s).

Definition list_trim (l : list_t) (s : store) : outcome (Z * list_t * store) :=
  if tail l =? 0 then Done (0, l, s)
  else
    let node := tail l in
    n ← deref node s;
    _ ← c_assert (negb (node =? prev n));
    let t := prev n in
    '(l, s) ← (if negb (t =? 0) then s ← set_next t 0 s; Done (mkList (head l) t, s)
               else Done (mkList 0 t, s));
    _ ← c_assert (negb (head l =? 0) || (tail l =? 0));
    s ← set_prev node 0 s;
    s ← set_next node 0 s;
    Done (node, l, s).

Definition list_push (l : list_t) (node : Z) (s : store) : outcome (list_t * store) :=
  '(l, s) ← (if negb (head l =? 0) then
               _ ← c_assert (negb (head l =? node));
               s ← set_prev (head l) node s;
               s ← set_next node (head l) s; Done (l, s)
             else s ← set_next node 0 s; Done (mkList (head l) node, s));
  s ← set_prev node 0 s;
  Done (mkList node (tail l), s).

Definition list_pop (l : list_t) (s : store) : outcome (Z * list_t * store) :=
  if head l =? 0 then Done (0, l, s)
  else
    let node := head l in
    n ← deref node s;
    _ ← c_assert (negb (node =? next n));
    let h := next n in
    '(l, s) ← (if negb (h =? 0) then s ← set_prev h 0 s; Done (mkList h (tail l), s)
               else Done (mkList h 0, s));
    _ ← c_assert (negb (tail l =? 0) || (head l =? 0));
    s ← set_next node 0 s;
    s ← set_prev node 0 s;
    Done (node, l, s).

(** What [list_destroy] pops. *)
Fixpoint pop_all (fuel : nat) (l : list_t) (s : store) : outcome (list Z * list_t * store) :=
  match fuel with
  | O => NoFuel
  | S f =>
      '(p, l, s) ← list_pop l s;
      if p =? 0 then Done ([], l, s) else '(ps, l, s) ← pop_all f l s; Done (p :: ps, l, s)
  end.

Section Compare.
(** [compare] reads the nodes' data. *)
Context (compare : store -> Z -> Z -> outcome Z).

(** [node] before [n] *)
Definition insert_before (l : list_t) (node n : Z) (s : store) : outcome (list_t * store) :=
  s ← set_next node n s;
  nn ← deref n s;
  s ← set_prev node (prev nn) s;
  s ← (if negb (prev nn =? 0) then set_next (prev nn) node s else Done s);
  s ← set_prev n node s;
  Done (if n =? head l then mkList node (tail l) else l, s).
(** [node] after [n] *)
Definition insert_after (l : list_t) (node n : Z) (s : store) : outcome (list_t * store) :=
  nn ← deref n s;
  s ← set_next node (next nn) s;
  s ← set_prev node n s;
  s ← (if negb (next nn =? 0) then set_prev (next nn) node s else Done s);
  s ← set_next n node s;
  Done (if n =? tail l then mkList (head l) node else l, s).

(** The two branches of the code, for ascending and descending order, differ
    in the tests only. *)
Fixpoint insert_loop (fuel : nat) (l : list_t) (node : Z) (ascending : bool) (n : Z) (s : store)
    : outcome (Z * list_t * store) :=
  match fuel with
  | O => NoFuel
  | S f =>
      if n =? 0 then Done (0, l, s)
      else
        let lt c := if ascending then c <? 0 else 0 <? c in
        let le c := if ascending then c <=? 0 else 0 <=? c in
        c ← compare s node n;
        if lt c then '(l, s) ← insert_before l node n s; Done (node, l, s)
        else
          c1 ← compare s n node;
          nn ← deref n s;
          c2 ← (if le c1 then compare s node (next nn) else Done 0);
          if le c1 && le c2 then '(l, s) ← insert_after l node n s; Done (node, l, s)
          else insert_loop f l node ascending (next nn) s
  end.
Definition list_insert (fuel : nat) (l : list_t) (node : Z) (ascending : bool) (s : store)
    : outcome (Z * list_t * store) :=
  if negb (head l =? 0) then insert_loop fuel l node ascending (head l) s
  else
    s ← set_prev node 0 s;
    s ← set_next node 0 s;
    Done (node, mkList node node, s).

(** The neighbours decide which end is taken, not the node. *)
Definition list_extract (l : list_t) (node : Z) (s : store) : outcome (Z * list_t * store) :=
  if (node =? 0) || (head l =? 0) || (tail l =? 0) then Done (0, l, s)
  else
    n ← deref node s;
    '(node, l, s) ← (if prev n =? 0 then list_pop l s
                     else if next n =? 0 then list_trim l s
                     else s ← set_prev (next n) (prev n) s;
                          s ← set_next (prev n) (next n) s; Done (node, l, s));
    s ← set_next node 0 s;
    s ← set_prev node 0 s;
    Done (node, l, s).

Fixpoint search_loop (fuel : nat) (temp node : Z) (s : store) : outcome Z :=
  match fuel with
  | O => NoFuel
  | S f =>
      if temp =? 0 then Done 0
      else
        c ← compare s temp node;
        if c =? 0 then Done temp else n ← deref temp s; search_loop f (next n) node s
  end.
Definition list_search (fuel : nat) (l : list_t) (node : Z) (s : store) : outcome Z :=
  if node =? 0 then Done 0 else search_loop fuel (head l) node s.

Definition list_remove_match (fuel : nat) (l : list_t) (node : Z) (s : store) : outcome (Z * list_t * store) :=
  temp ← list_search fuel l node s;
  if temp =? 0 then Done (0, l, s) else list_extract l temp s.
End Compare.

(** The first node of the best positive score; a node that follows itself
    is reported as a cycle. *)
Fixpoint score_loop (rate : store -> Z -> Z -> outcome Z) (fuel : nat) (temp node best rating : Z) (s : store)
    : outcome Z :=
  match fuel with
  | O => NoFuel
  | S f =>
      if temp =? 0 then Done best
      else
        this_score ← rate s temp node;
        n ← deref temp s;
        let '(rating, best) := if rating <? this_score then (this_score, temp) else (rating, best) in
        if temp =? next n then Done 0 else score_loop rate f (next n) node best rating s
  end.
Definition list_score (rate : store -> Z -> Z -> outcome Z) (fuel : nat) (l : list_t) (node : Z) (s : store)
    : outcome Z :=
  if node =? 0 then Done 0 else score_loop rate fuel (head l) node 0 MIN_SCORE s.

Fixpoint length_loop (fuel : nat) (temp len : Z) (s : store) : outcome Z :=
  match fuel with
  | O => NoFuel
  | S f => if temp =? 0 then Done len else n ← deref temp s; length_loop f (next n) (u64 (len + 1)) s
  end.
Definition list_length (fuel : nat) (l : list_t) (s : store) : outcome Z := length_loop fuel (head l) 0 s.

(** The comparison by data, with NULL equal to everything. *)
Definition node_sorter (s : store) (a b : Z) : outcome Z :=
  if (a =? 0) || (b =? 0) then Done 0
  else n ← deref a s; m ← deref b s;
       Done (if node_data n <? node_data m then -1 else if node_data n =? node_data m then 0 else 1).
