(* ===== verification/SosalListFacts.v ===== *)
(** * Facts about doubly linked lists

    [dll l s xs]: the list [l] in the store [s] has the nodes [xs], in order.
    [seg s p xs n] is a stretch of it between the nodes [p] and [n]. *)
From S2P Require Import Prelude SosalList.

Implicit Types (s : store) (xs ys : list Z).

(** ** Stretches *)

Definition first xs (n : Z) : Z := match xs with [] => n | x :: _ => x end.
Definition final (p : Z) xs : Z := default p (last xs).

Fixpoint seg s (p : Z) xs (n : Z) : Prop :=
  match xs with
  | [] => True
  | x :: xs' => (exists d, s !! x = Some (mkListNode (first xs' n) p d)) /\ seg s x xs' n
  end.

Record dll (l : list_t) s xs : Prop := {
  dll_head : head l = first xs 0;
  dll_tail : tail l = final 0 xs;
  dll_seg : seg s 0 xs 0;
  dll_nodup : NoDup xs;
  dll_null : 0 ∉ xs }.

(** Only the links change. *)
Definition same_data s s' : Prop := forall x, node_data <$> s' !! x = node_data <$> s !! x.
Definition same_off xs s s' : Prop := forall x, x ∉ xs -> s' !! x = s !! x.

Lemma first_app xs ys n : first (xs ++ ys) n = first xs (first ys n).
Proof. by destruct xs. Qed.
Lemma final_app p xs ys : final p (xs ++ ys) = final (final p xs) ys.
Proof. unfold final. rewrite last_app. by destruct (last ys). Qed.
Lemma final_snoc p xs x : final p (xs ++ [x]) = x.
Proof. unfold final. by rewrite last_snoc. Qed.
Lemma final_cons p x xs : final p (x :: xs) = final x xs.
Proof. apply (final_app p [x] xs). Qed.

Lemma seg_app s xs : forall p ys n, seg s p (xs ++ ys) n <-> seg s p xs (first ys n) /\ seg s (final p xs) ys n.
Proof.
  induction xs as [|x xs IH]; intros p ys n; [simpl; tauto|].
  rewrite final_cons. cbn [app seg]. rewrite IH, first_app. tauto.
Qed.
Lemma seg_frame s s' xs : forall p n, (forall x, x ∈ xs -> s' !! x = s !! x) -> seg s p xs n -> seg s' p xs n.
Proof.
  induction xs as [|x xs IH]; intros p n H; [done|]. intros [[d Hx] Hs]. split.
  - exists d. by rewrite H by (by left).
  - apply IH; [|done]. intros y Hy. apply H. by right.
Qed.

Lemma final_in x xs : final x xs ∈ x :: xs.
Proof.
  unfold final. destruct (last xs) as [y|] eqn:Hl; [|by left].
  right. apply last_Some in Hl as [l' ->]. apply elem_of_app. right. by left.
Qed.
Lemma final_elem p xs : xs <> [] -> final p xs ∈ xs.
Proof. destruct xs as [|x xs]; [done|]. intros _. rewrite final_cons. apply final_in. Qed.

(** ** Single links *)

Lemma deref_Some p s n : p <> 0 -> s !! p = Some n -> deref p s = Done n.
Proof. intros Hp Hs. unfold deref. rewrite (proj2 (Z.eqb_neq p 0)) by done. by rewrite Hs. Qed.
Lemma set_next_Some p v s n : p <> 0 -> s !! p = Some n ->
  set_next p v s = Done (<[p := mkListNode v (prev n) (node_data n)]> s).
Proof. intros Hp Hs. unfold set_next. by rewrite (deref_Some p s n). Qed.
Lemma set_prev_Some p v s n : p <> 0 -> s !! p = Some n ->
  set_prev p v s = Done (<[p := mkListNode (next n) v (node_data n)]> s).
Proof. intros Hp Hs. unfold set_prev. by rewrite (deref_Some p s n). Qed.

Lemma same_data_refl s : same_data s s.
Proof. done. Qed.
Lemma same_data_trans s s' s'' : same_data s s' -> same_data s' s'' -> same_data s s''.
Proof. intros H H' x. by rewrite H', H. Qed.
Lemma same_data_insert s p n a b : s !! p = Some n -> same_data s (<[p := mkListNode a b (node_data n)]> s).
Proof.
  intros Hp x. destruct (decide (x = p)) as [->|Hne].
  - by rewrite lookup_insert_eq, Hp.
  - by rewrite lookup_insert_ne.
Qed.
Lemma same_data_is_Some s s' x : same_data s s' -> is_Some (s !! x) -> is_Some (s' !! x).
Proof. intros H [n Hn]. specialize (H x). rewrite Hn in H. destruct (s' !! x); [by eexists|done]. Qed.

Lemma same_data_size s s' : same_data s s' -> base.size s' = base.size s.
Proof.
  intros H. rewrite <- !size_dom. f_equal. apply set_eq. intros x. rewrite !elem_of_dom, <- !(fmap_is_Some node_data). by rewrite H.
Qed.

(** Redirecting the link out of a stretch at its end. *)
Lemma set_next_seg s p xs x n v : NoDup (xs ++ [x]) -> x <> 0 -> seg s p (xs ++ [x]) n ->
  exists s', set_next x v s = Done s' /\ seg s' p (xs ++ [x]) v /\ same_data s s' /\ same_off [x] s s'.
Proof.
  intros Hnd Hx [Hxs [[d Hd] _]]%seg_app. eexists. split; [by apply (set_next_Some x v s _ Hx Hd)|].
  apply NoDup_app in Hnd as (_ & Hni & _). split_and!.
  - apply seg_app. split.
    + eapply seg_frame; [|exact Hxs]. intros y Hy. rewrite lookup_insert_ne; [done|].
      intros <-. apply (Hni x Hy). by left.
    + split; [|done]. exists d. by rewrite lookup_insert_eq.
  - by apply (same_data_insert s x _ _ _ Hd).
  - intros y Hy. rewrite lookup_insert_ne; [done|]. intros <-. apply Hy. by left.
Qed.
Lemma set_prev_seg s p x xs n v : NoDup (x :: xs) -> x <> 0 -> seg s p (x :: xs) n ->
  exists s', set_prev x v s = Done s' /\ seg s' v (x :: xs) n /\ same_data s s' /\ same_off [x] s s'.
Proof.
  intros [Hni Hnd]%NoDup_cons Hx [[d Hd] Hxs]. eexists. split; [by apply (set_prev_Some x v s _ Hx Hd)|].
  split_and!.
  - split; [exists d; by rewrite lookup_insert_eq|].
    eapply seg_frame; [|exact Hxs]. intros y Hy. rewrite lookup_insert_ne; [done|]. by intros <-.
  - by apply (same_data_insert s x _ _ _ Hd).
  - intros y Hy. rewrite lookup_insert_ne; [done|]. intros <-. apply Hy. by left.
Qed.
(** Links of a node that is in no list. *)
Lemma set_links s x v : x <> 0 -> is_Some (s !! x) ->
  (exists s', set_next x v s = Done s' /\ same_data s s' /\ same_off [x] s s' /\
     forall n, s !! x = Some n -> s' !! x = Some (mkListNode v (prev n) (node_data n))) /\
  (exists s', set_prev x v s = Done s' /\ same_data s s' /\ same_off [x] s s' /\
     forall n, s !! x = Some n -> s' !! x = Some (mkListNode (next n) v (node_data n))).
Proof.
  intros Hx [n Hn]. split; (eexists; split; [by first [apply (set_next_Some x v s n)|apply (set_prev_Some x v s n)]|];
    split_and!; [by apply same_data_insert| |intros ? [= <-]%(eq_trans (eq_sym Hn)); by rewrite lookup_insert_eq]);
    (intros y Hy; rewrite lookup_insert_ne; [done|]; intros <-; apply Hy; by left).
Qed.

(** ** The ends of a stretch, which may be empty *)

Lemma null_not_in xs x : 0 ∉ xs -> x ∈ xs -> (x =? 0) = false.
Proof. intros H Hx. apply Z.eqb_neq. by intros ->. Qed.
Lemma final_null xs : 0 ∉ xs -> final 0 xs = 0 -> xs = [].
Proof. intros H Hf. destruct xs as [|x xs]; [done|]. destruct H. rewrite <- Hf. by apply final_elem. Qed.
Lemma first_null xs : 0 ∉ xs -> first xs 0 = 0 -> xs = [].
Proof. intros H Hf. destruct xs as [|x xs]; [done|]. destruct H. rewrite <- Hf. by left. Qed.

Lemma end_next ys p n v s : NoDup ys -> 0 ∉ ys -> seg s p ys n ->
  exists s', (if negb (final 0 ys =? 0) then set_next (final 0 ys) v s else Done s) = Done s' /\
    seg s' p ys v /\ same_data s s' /\ same_off ys s s'.
Proof.
  intros Hnd H0 Hs. destruct (last ys) as [x|] eqn:Hl.
  - apply last_Some in Hl as [ys' ->]. rewrite final_snoc.
    rewrite (null_not_in (ys' ++ [x])) by (done || set_solver). cbn [negb].
    destruct (set_next_seg s p ys' x n v Hnd) as (s' & -> & ? & ? & Hoff); [intros ->; set_solver|done|].
    exists s'. split_and!; [done..|]. intros y Hy. apply Hoff. set_solver.
  - apply last_None in Hl as ->. by exists s.
Qed.
Lemma start_prev zs p v s : NoDup zs -> 0 ∉ zs -> seg s p zs 0 ->
  exists s', (if negb (first zs 0 =? 0) then set_prev (first zs 0) v s else Done s) = Done s' /\
    seg s' v zs 0 /\ same_data s s' /\ same_off zs s s'.
Proof.
  intros Hnd H0 Hs. destruct zs as [|z zs]; [by exists s|]. cbn [first].
  rewrite (null_not_in (z :: zs)) by (done || by left). cbn [negb].
  destruct (set_prev_seg s p z zs 0 v Hnd) as (s' & -> & ? & ? & Hoff); [intros ->; set_solver|done|].
  exists s'. split_and!; [done..|]. intros y Hy. apply Hoff. set_solver.
Qed.

(** A node between two stretches, and its removal. *)
Lemma seg_middle s ys p zs d : s !! p = Some (mkListNode (first zs 0) (final 0 ys) d) ->
  seg s 0 ys p -> seg s p zs 0 -> seg s 0 (ys ++ p :: zs) 0.
Proof. intros Hp Hy Hz. apply seg_app. split; [done|]. split; [by exists d|done]. Qed.
Lemma seg_split s ys p zs : seg s 0 (ys ++ p :: zs) 0 ->
  seg s 0 ys p /\ seg s p zs 0 /\ exists d, s !! p = Some (mkListNode (first zs 0) (final 0 ys) d).
Proof. intros [Hy [Hd Hz]]%seg_app. done. Qed.

Lemma seg_same_off s s' ys p n zs : seg s p ys n -> same_off zs s s' -> (forall y, y ∈ ys -> y ∉ zs) -> seg s' p ys n.
Proof. intros Hs Ho Hd. eapply seg_frame; [|exact Hs]. intros y Hy. by apply Ho, Hd. Qed.

(** ** Adding at the ends *)

Section Ops.
Context (l : list_t) (s : store) (xs : list Z) (Hl : dll l s xs).

(** A node that may be added. *)
Definition fresh_node (p : Z) : Prop := p <> 0 /\ p ∉ xs /\ is_Some (s !! p).

Lemma append_spec p : fresh_node p -> exists l' s', list_append l p s = Done (l', s') /\ dll l' s' (xs ++ [p]) /\
  same_data s s' /\ same_off (p :: xs) s s'.
Proof.
  intros (Hp & Hni & [d Hd]). destruct Hl as [Hh Ht Hseg Hnd H0].
  assert (NoDup (xs ++ [p]) /\ 0 ∉ xs ++ [p]) as [Hnd' H0'].
  { split; [|set_solver]. apply NoDup_app. split_and!; [done| |apply NoDup_singleton]. set_solver. }
  unfold list_append. rewrite (proj2 (Z.eqb_neq p 0)) by done.
  destruct (end_next xs 0 0 p s Hnd H0 Hseg) as (s1 & H1 & Hs1 & Hd1 & Ho1). rewrite <- Ht in H1.
  destruct (set_links s1 p (tail l) Hp) as [_ (s2 & H2 & Hd2 & Ho2 & Hv2)]; [rewrite Ho1 by done; by eexists|].
  destruct (set_links s2 p 0 Hp) as [(s3 & H3 & Hd3 & Ho3 & Hv3) _];
    [apply (same_data_is_Some s1), (same_data_is_Some s); [done..|by eexists]|].
  assert (seg s3 0 (xs ++ [p]) 0) as Hs3.
  { rewrite <- (app_nil_r (xs ++ [p])), <- app_assoc. cbn [app].
    apply (seg_middle s3 xs p [] (node_data d)); [|eapply seg_same_off; [|exact Ho3|set_solver];
      eapply seg_same_off; [exact Hs1|exact Ho2|set_solver]|done].
    rewrite (Hv3 _ (Hv2 _ (eq_trans (Ho1 p Hni) Hd))). by rewrite <- Ht. }
  exists (mkList (first (xs ++ [p]) 0) p), s3. split; [|split; [split; simpl; try done; by rewrite final_snoc|split]].
  - destruct (tail l =? 0) eqn:Hz; cbn [negb] in H1 |- *.
    + apply Z.eqb_eq in Hz. rewrite Hz in *. apply Done_inj in H1 as <-. rewrite H2. cbn [mbind outcome_bind].
      rewrite H3. cbn [mbind outcome_bind head]. do 3 f_equal. by rewrite (final_null xs) by congruence.
    + unfold c_assert. rewrite (proj2 (Z.eqb_neq (tail l) p)).
      * cbn [negb mbind outcome_bind]. rewrite H1. cbn [mbind outcome_bind]. rewrite H2. cbn [mbind outcome_bind].
        rewrite H3. cbn [mbind outcome_bind]. do 3 f_equal. rewrite Hh. destruct xs; [by rewrite Ht in Hz|done].
      * intros <-. apply Hni. rewrite Ht. apply final_elem. intros ->. by rewrite Ht in Hz.
  - by eapply same_data_trans; [eapply same_data_trans|].
  - intros y Hy. rewrite Ho3, Ho2, Ho1 by set_solver. done.
Qed.

Lemma push_spec p : fresh_node p -> exists l' s', list_push l p s = Done (l', s') /\ dll l' s' (p :: xs) /\
  same_data s s' /\ same_off (p :: xs) s s'.
Proof.
  intros (Hp & Hni & [d Hd]). destruct Hl as [Hh Ht Hseg Hnd H0]. unfold list_push.
  destruct (start_prev xs 0 p s Hnd H0 Hseg) as (s1 & H1 & Hs1 & Hd1 & Ho1). rewrite <- Hh in H1.
  destruct (set_links s1 p (head l) Hp) as [(s2 & H2 & Hd2 & Ho2 & Hv2) _]; [rewrite Ho1 by done; by eexists|].
  destruct (set_links s2 p 0 Hp) as [_ (s3 & H3 & Hd3 & Ho3 & Hv3)];
    [apply (same_data_is_Some s1), (same_data_is_Some s); [done..|by eexists]|].
  assert (seg s3 0 (p :: xs) 0) as Hs3.
  { apply (seg_middle s3 [] p xs (node_data d)); [|done|eapply seg_same_off; [|exact Ho3|set_solver];
      eapply seg_same_off; [exact Hs1|exact Ho2|set_solver]].
    rewrite (Hv3 _ (Hv2 _ (eq_trans (Ho1 p Hni) Hd))). by rewrite <- Hh. }
  exists (mkList p (final 0 (p :: xs))), s3. split; [|split; [split; simpl; try done; [by constructor|set_solver]|split]].
  - destruct (head l =? 0) eqn:Hz; cbn [negb] in H1 |- *.
    + apply Z.eqb_eq in Hz. rewrite Hz in *. apply Done_inj in H1 as <-. rewrite H2. cbn [mbind outcome_bind].
      rewrite H3. cbn [mbind outcome_bind tail]. by rewrite (first_null xs) by congruence.
    + unfold c_assert. rewrite (proj2 (Z.eqb_neq (head l) p)).
      * cbn [negb mbind outcome_bind]. rewrite H1. cbn [mbind outcome_bind]. rewrite H2. cbn [mbind outcome_bind].
        rewrite H3. cbn [mbind outcome_bind]. do 3 f_equal. rewrite Ht. by destruct xs; [rewrite Hh in Hz|].
      * intros <-. apply Hni. rewrite Hh. destruct xs; [by rewrite Hh in Hz|by left].
  - by eapply same_data_trans; [eapply same_data_trans|].
  - intros y Hy. rewrite Ho3, Ho2, Ho1 by set_solver. done.
Qed.
End Ops.

(** ** Taking off the ends *)

(** The forward chain alone: of the tail nothing is said. *)
Definition chain (l : list_t) s xs : Prop := head l = first xs 0 /\ seg s 0 xs 0 /\ NoDup xs /\ 0 ∉ xs.

Lemma dll_chain l s xs : dll l s xs <-> chain l s xs /\ tail l = final 0 xs.
Proof. split; [by intros []|by intros ((? & ? & ? & ?) & ?)]. Qed.

Lemma pop_empty l s : dll l s [] -> list_pop l s = Done (0, l, s).
Proof. intros [Hh _ _ _ _]. unfold list_pop. by rewrite Hh. Qed.
Lemma trim_empty l s : dll l s [] -> list_trim l s = Done (0, l, s).
Proof. intros [_ Ht _ _ _]. unfold list_trim. by rewrite Ht. Qed.

(** What a removal does to the node it returns. *)
Definition unlinked s p : Prop := exists d, s !! p = Some (mkListNode 0 0 d).

Lemma unlink_next_prev s p : p <> 0 -> is_Some (s !! p) -> exists s',
  (s ← set_next p 0 s; set_prev p 0 s) = Done s' /\ same_data s s' /\ same_off [p] s s' /\ unlinked s' p.
Proof.
  intros Hp [n Hn]. rewrite (set_next_Some p 0 s n Hp Hn). cbn [mbind outcome_bind].
  rewrite (set_prev_Some p 0 _ _ Hp (lookup_insert_eq _ _ _)). cbn [next node_data]. rewrite insert_insert_eq.
  eexists. split; [done|]. split_and!.
  - by apply same_data_insert.
  - intros y Hy. rewrite lookup_insert_ne; [done|]. intros <-. apply Hy. by left.
  - exists (node_data n). by rewrite lookup_insert_eq.
Qed.
Lemma set_swap s p : p <> 0 -> is_Some (s !! p) ->
  (s ← set_prev p 0 s; set_next p 0 s) = (s ← set_next p 0 s; set_prev p 0 s).
Proof.
  intros Hp [n Hn]. rewrite (set_next_Some p 0 s n Hp Hn), (set_prev_Some p 0 s n Hp Hn). cbn [mbind outcome_bind].
  rewrite (set_prev_Some p 0 _ _ Hp (lookup_insert_eq _ _ _)), (set_next_Some p 0 _ _ Hp (lookup_insert_eq _ _ _)).
  by rewrite !insert_insert_eq.
Qed.

Section Removal.
Context (l : list_t) (s : store).

Definition tail_after_pop (xs : list Z) : Z := match xs with [] => 0 | _ => tail l end.
Lemma pop_chain x xs : chain l s (x :: xs) -> tail l <> 0 -> exists s',
  list_pop l s = Done (x, mkList (first xs 0) (tail_after_pop xs), s') /\
  chain (mkList (first xs 0) (tail_after_pop xs)) s' xs /\
  same_data s s' /\ same_off (x :: xs) s s' /\ unlinked s' x.
Proof.
  intros (Hh & Hseg & [Hni Hnd]%NoDup_cons & H0) Ht. destruct (seg_split s [] x xs Hseg) as (_ & Hxs & d & Hd).
  cbn [first final last default] in *. assert (x <> 0) as Hx by (intros ->; set_solver).
  assert (0 ∉ xs) as H0' by set_solver. unfold list_pop. rewrite Hh, (proj2 (Z.eqb_neq x 0)) by done.
  rewrite (deref_Some x s _ Hx Hd). cbn [mbind outcome_bind next]. unfold c_assert.
  rewrite (proj2 (Z.eqb_neq x (first xs 0))) by (intros He; destruct xs; simpl in He; [done|set_solver]).
  cbn [negb mbind outcome_bind].
  destruct (start_prev xs x 0 s Hnd H0' Hxs) as (s1 & H1 & Hs1 & Hd1 & Ho1).
  destruct (unlink_next_prev s1 x Hx) as (s2 & H2 & Hd2 & Ho2 & Hu); [rewrite Ho1 by done; by eexists|].
  exists s2. unfold chain; split_and!; [|done|eapply seg_same_off; [exact Hs1|exact Ho2|set_solver]|done|done| | |done].
  - transitivity ('(l', s') ← Done (mkList (first xs 0) (tail_after_pop xs), s1);
      _ ← (if negb (tail l' =? 0) || (head l' =? 0) then Done tt else Undef);
      s' ← set_next x 0 s'; s' ← set_prev x 0 s'; Done (x, l', s')).
    + f_equal. destruct xs as [|y xs]; cbn [first negb Z.eqb] in H1 |- *; [by apply Done_inj in H1 as <-|].
      rewrite (null_not_in (y :: xs) y) in H1 |- * by (done || by left). cbn [negb] in H1 |- *. by rewrite H1.
    + cbn [mbind outcome_bind head tail].
      assert (negb (tail_after_pop xs =? 0) || (first xs 0 =? 0) = true) as ->
        by (destruct xs; [done|simpl; by rewrite (proj2 (Z.eqb_neq _ _) Ht)]).
      cbn [mbind outcome_bind]. revert H2. destruct (set_next x 0 s1) as [s1'| |]; cbn [mbind outcome_bind]; [|done..].
      by intros ->.
  - by eapply same_data_trans.
  - intros y Hy. rewrite Ho2, Ho1 by set_solver. done.
Qed.
Lemma pop_spec x xs : dll l s (x :: xs) -> exists l' s', list_pop l s = Done (x, l', s') /\ dll l' s' xs /\
  same_data s s' /\ same_off (x :: xs) s s' /\ unlinked s' x.
Proof.
  intros [Hc Ht]%dll_chain. assert (tail l <> 0) as Hz.
  { rewrite Ht. destruct Hc as (_ & _ & _ & H0). intros He. by apply final_null in He. }
  destruct (pop_chain x xs Hc Hz) as (s' & -> & Hc' & Hr). eexists _, s'. split; [done|]. split; [|done].
  apply dll_chain. split; [done|]. cbn [tail]. unfold tail_after_pop. rewrite Ht.
  destruct xs; [done|by rewrite !final_cons].
Qed.

Lemma trim_spec x xs : dll l s (xs ++ [x]) -> exists l' s', list_trim l s = Done (x, l', s') /\ dll l' s' xs /\
  same_data s s' /\ same_off (x :: xs) s s' /\ unlinked s' x.
Proof.
  intros [Hh Ht Hseg Hnd H0]. destruct (seg_split s xs x [] Hseg) as (Hxs & _ & d & Hd).
  apply NoDup_app in Hnd as (Hnd & Hni & _). cbn [first] in *. rewrite final_snoc in Ht.
  assert (x <> 0) as Hx by (intros ->; set_solver). assert (0 ∉ xs) as H0' by set_solver.
  assert (x ∉ xs) as Hxn by (intros Hin; apply (Hni x Hin); by left).
  unfold list_trim. rewrite Ht, (proj2 (Z.eqb_neq x 0)) by done.
  rewrite (deref_Some x s _ Hx Hd). cbn [mbind outcome_bind prev]. unfold c_assert.
  rewrite (proj2 (Z.eqb_neq x (final 0 xs))) by (intros He; destruct xs as [|y ys]; [done|];
    apply Hxn; rewrite He; by apply final_elem).
  cbn [negb mbind outcome_bind].
  destruct (end_next xs 0 x 0 s Hnd H0' Hxs) as (s1 & H1 & Hs1 & Hd1 & Ho1).
  destruct (unlink_next_prev s1 x Hx) as (s2 & H2 & Hd2 & Ho2 & Hu); [rewrite Ho1 by done; by eexists|].
  rewrite <- set_swap in H2 by (done || rewrite Ho1 by done; by eexists).
  exists (mkList (first xs 0) (final 0 xs)), s2. split_and!.
  - transitivity ('(l', s') ← Done (mkList (first xs 0) (final 0 xs), s1);
      _ ← (if negb (head l' =? 0) || (tail l' =? 0) then Done tt else Undef);
      s' ← set_prev x 0 s'; s' ← set_next x 0 s'; Done (x, l', s')).
    + f_equal. destruct (final 0 xs =? 0) eqn:Hz; cbn [negb] in H1 |- *.
      * apply Done_inj in H1 as <-. apply Z.eqb_eq, final_null in Hz as ->; [done|done].
      * rewrite H1. cbn [mbind outcome_bind]. rewrite Hh, first_app. by destruct xs.
    + cbn [mbind outcome_bind head tail]. destruct (negb (first xs 0 =? 0) || (final 0 xs =? 0)) eqn:Ha.
      * cbn [mbind outcome_bind]. revert H2. destruct (set_prev x 0 s1) as [s1'| |]; cbn [mbind outcome_bind]; [|done..].
        by intros ->.
      * apply orb_false_iff in Ha as [Ha Hb]. apply negb_false_iff, Z.eqb_eq, first_null in Ha; [|done]. by subst.
  - split; try done. eapply seg_same_off; [exact Hs1|exact Ho2|set_solver].
  - by eapply same_data_trans.
  - intros y Hy. rewrite Ho2, Ho1 by set_solver. done.
  - done.
Qed.
End Removal.

(** ** Adding in the middle *)

(** A tail that was right stays right, one that was not is kept or mended. *)
Definition tail_follows (l : list_t) xs (l' : list_t) xs' : Prop :=
  (tail l = final 0 xs -> tail l' = final 0 xs') /\
  (tail l ∉ xs -> tail l' = final 0 xs' \/ tail l' = tail l).

Lemma new_links s p a b : p <> 0 -> is_Some (s !! p) -> exists s',
  (s ← set_next p a s; set_prev p b s) = Done s' /\ (s ← set_prev p b s; set_next p a s) = Done s' /\
  same_data s s' /\ same_off [p] s s' /\ exists d, s' !! p = Some (mkListNode a b d).
Proof.
  intros Hp [n Hn]. rewrite (set_next_Some p a s n Hp Hn), (set_prev_Some p b s n Hp Hn). cbn [mbind outcome_bind].
  rewrite (set_prev_Some p b _ _ Hp (lookup_insert_eq _ _ _)), (set_next_Some p a _ _ Hp (lookup_insert_eq _ _ _)).
  cbn [next prev node_data]. rewrite !insert_insert_eq. eexists. split_and!; [done..|by apply same_data_insert| |].
  - intros y Hy. rewrite lookup_insert_ne; [done|]. intros <-. apply Hy. by left.
  - exists (node_data n). by rewrite lookup_insert_eq.
Qed.

Lemma chain_parts l s ys p zs : chain l s (ys ++ p :: zs) ->
  seg s 0 ys p /\ seg s p zs 0 /\ (exists d, s !! p = Some (mkListNode (first zs 0) (final 0 ys) d)) /\
  NoDup ys /\ NoDup (p :: zs) /\ (forall y, y ∈ ys -> y ∉ p :: zs) /\ 0 ∉ ys /\ 0 ∉ p :: zs.
Proof.
  intros (_ & (? & ? & ?)%seg_split & (? & ? & ?)%NoDup_app & ?). split_and!; [done..| |]; set_solver.
Qed.
Lemma deref_off s s' p x n : same_off [x] s s' -> p <> x -> p <> 0 -> s !! p = Some n -> deref p s' = Done n.
Proof. intros Ho Hx Hp Hs. apply deref_Some; [done|]. rewrite Ho; [done|]. set_solver. Qed.
Lemma NoDup_middle_cons ys p zs x : NoDup (ys ++ x :: zs) -> p ∉ ys ++ x :: zs -> NoDup (ys ++ p :: x :: zs).
Proof. intros Hnd Hp. rewrite <- Permutation_middle. by constructor. Qed.

Section Middle.
Context (l : list_t) (s : store) (ys zs : list Z) (n p : Z).
Context (Hl : chain l s (ys ++ n :: zs)) (Hf : fresh_node s (ys ++ n :: zs) p).

Lemma insert_before_spec : exists l' s', insert_before l p n s = Done (l', s') /\
  chain l' s' (ys ++ p :: n :: zs) /\ tail l' = tail l /\ same_data s s' /\ same_off (p :: ys ++ n :: zs) s s'.
Proof.
  destruct Hf as (Hp & Hni & [m Hm]). destruct (chain_parts l s ys n zs Hl) as (Hy & Hz & [d Hd] & Hny & Hnz & _ & H0y & H0z).
  assert (n <> 0 /\ n <> p) as [Hn Hnp] by set_solver.
  unfold insert_before. rewrite (set_next_Some p n s m Hp Hm). cbn [mbind outcome_bind].
  rewrite (deref_Some n _ (mkListNode (first zs 0) (final 0 ys) d)) by (done || by rewrite lookup_insert_ne).
  cbn [mbind outcome_bind prev]. rewrite (set_prev_Some p _ _ _ Hp (lookup_insert_eq _ _ _)), insert_insert_eq.
  cbn [mbind outcome_bind next node_data]. set (s1 := <[p := _]> s).
  assert (same_off [p] s s1) as Ho1 by (intros y Hyp; unfold s1; rewrite lookup_insert_ne; [done|set_solver]).
  assert (same_data s s1) as Hd1 by (by apply same_data_insert).
  destruct (end_next ys 0 n p s1 Hny H0y) as (s2 & -> & Hy2 & Hd2 & Ho2);
    [by eapply seg_same_off; [exact Hy|exact Ho1|set_solver]|]. cbn [mbind outcome_bind].
  assert (seg s2 (final 0 ys) (n :: zs) 0) as Hz2.
  { eapply seg_same_off; [|exact Ho2|pose proof (NoDup_app ys (n :: zs)); destruct Hl as (_ & _ & ? & _); set_solver].
    eapply seg_same_off; [|exact Ho1|set_solver]. split; [by exists d|exact Hz]. }
  destruct (set_prev_seg s2 _ n zs 0 p Hnz Hn Hz2) as (s3 & -> & Hz3 & Hd3 & Ho3). cbn [mbind outcome_bind].
  eexists _, s3. split; [done|]. split_and!.
  - destruct Hl as (Hh & _ & Hnd & H0). split_and!; [|apply (seg_middle s3 ys p (n :: zs) (node_data m))| |set_solver].
    + destruct ys as [|y ys']; [by rewrite Hh, Z.eqb_refl|]. rewrite (proj2 (Z.eqb_neq n _)); [done|].
      rewrite Hh. cbn [first app]. apply NoDup_app in Hnd as (_ & Hd' & _). intros ->. apply (Hd' y); by left.
    + rewrite Ho3, Ho2 by set_solver. unfold s1. by rewrite lookup_insert_eq.
    + eapply seg_same_off; [exact Hy2|exact Ho3|]. apply NoDup_app in Hnd as (_ & Hd' & _).
      intros y Hyy Hy'. apply (Hd' y Hyy). set_solver.
    + exact Hz3.
    + by apply NoDup_middle_cons.
  - by destruct (n =? head l).
  - by eapply same_data_trans; [eapply same_data_trans|].
  - intros y Hyy. rewrite Ho3, Ho2, Ho1 by set_solver. done.
Qed.

Lemma insert_after_spec : exists l' s', insert_after l p n s = Done (l', s') /\
  chain l' s' (ys ++ n :: p :: zs) /\ tail_follows l (ys ++ n :: zs) l' (ys ++ n :: p :: zs) /\
  same_data s s' /\ same_off (p :: ys ++ n :: zs) s s'.
Proof.
  destruct Hf as (Hp & Hni & [m Hm]). destruct (chain_parts l s ys n zs Hl) as (Hy & Hz & [d Hd] & Hny & Hnz & Hdis & H0y & H0z).
  assert (n <> 0 /\ n <> p) as [Hn Hnp] by set_solver.
  unfold insert_after. rewrite (deref_Some n s _ Hn Hd). cbn [mbind outcome_bind next].
  rewrite (set_next_Some p _ s m Hp Hm). cbn [mbind outcome_bind].
  rewrite (set_prev_Some p _ _ _ Hp (lookup_insert_eq _ _ _)), insert_insert_eq.
  cbn [mbind outcome_bind next node_data]. set (s1 := <[p := _]> s).
  assert (same_off [p] s s1) as Ho1 by (intros y Hyp; unfold s1; rewrite lookup_insert_ne; [done|set_solver]).
  assert (same_data s s1) as Hd1 by (by apply same_data_insert).
  apply NoDup_cons in Hnz as [Hnz Hndz]. assert (0 ∉ zs) as H0z' by set_solver.
  destruct (start_prev zs n p s1 Hndz H0z') as (s2 & -> & Hz2 & Hd2 & Ho2);
    [by eapply seg_same_off; [exact Hz|exact Ho1|set_solver]|]. cbn [mbind outcome_bind].
  assert (s2 !! n = Some (mkListNode (first zs 0) (final 0 ys) d)) as Hn2 by (rewrite Ho2, Ho1 by set_solver; done).
  rewrite (set_next_Some n p s2 _ Hn Hn2). cbn [mbind outcome_bind prev node_data]. eexists _, _. split; [done|].
  assert (forall y, y <> n -> <[n := mkListNode p (final 0 ys) d]> s2 !! y = s2 !! y) as Ho3
    by (intros y Hyn; by rewrite lookup_insert_ne).
  split_and!.
  - destruct Hl as (Hh & _ & Hnd & H0). split_and!.
    + destruct (n =? tail l); rewrite ?Hh; by destruct ys.
    + apply (seg_middle _ ys n (p :: zs) d); [by rewrite lookup_insert_eq| |].
      * eapply seg_frame; [|exact Hy]. intros y Hyy. rewrite Ho3 by set_solver. rewrite Ho2, Ho1 by set_solver. done.
      * split; [|eapply seg_frame; [|exact Hz2]; intros y Hyz; apply Ho3; set_solver].
        exists (node_data m). rewrite Ho3 by done. rewrite Ho2 by set_solver. unfold s1. by rewrite lookup_insert_eq.
    + rewrite (Permutation_swap p n zs). by apply NoDup_middle_cons.
    + set_solver.
  - unfold tail_follows. rewrite !final_app, !final_cons. destruct zs as [|z zs'].
    + change (final n []) with n. change (final p []) with p.
      destruct (Z.eqb_spec n (tail l)) as [<-|Hne]; cbn [tail]; [split; intros _; [done|by left]|]. split; [congruence|intros _; by right].
    + rewrite !final_cons. destruct (Z.eqb_spec n (tail l)) as [He|Hne]; cbn [tail]; [|split; [done|intros _; by right]].
      split; intros Ht; [|destruct Ht; rewrite <- He; set_solver]. destruct Hnz. rewrite He, Ht. apply final_in.
  - eapply same_data_trans; [by eapply same_data_trans|]. apply (same_data_insert s2 n _ p (final 0 ys) Hn2).
  - intros y Hyy. rewrite Ho3 by set_solver. rewrite Ho2, Ho1 by set_solver. done.
Qed.
End Middle.

(** ** Lists next to each other *)

Lemma chain_frame l s s' xs zs : same_off zs s s' -> (forall x, x ∈ xs -> x ∉ zs) -> chain l s xs -> chain l s' xs.
Proof. intros Ho Hx (? & ? & ? & ?). split_and!; [done| |done|done]. by eapply seg_same_off. Qed.
Lemma dll_frame l s s' xs zs : same_off zs s s' -> (forall x, x ∈ xs -> x ∉ zs) -> dll l s xs -> dll l s' xs.
Proof. intros Ho Hx [Hc Ht]%dll_chain. apply dll_chain. split; [|done]. by eapply chain_frame. Qed.
Lemma chain_dom l s xs x : chain l s xs -> x ∈ xs -> exists n, s !! x = Some n.
Proof.
  intros (_ & Hs & _) (ys & zs & ->)%list_elem_of_split. apply seg_split in Hs as (_ & _ & d & Hd). by eexists.
Qed.
Lemma chain_length l s xs : chain l s xs -> (length xs <= base.size s)%nat.
Proof.
  intros Hc. rewrite <- size_dom, <- (size_list_to_set (C:=gset Z)) by apply Hc.
  apply subseteq_size. intros x Hx%elem_of_list_to_set. apply elem_of_dom. by eapply chain_dom.
Qed.

(** What the data of a node points to. *)
Definition bptr s (x : Z) : Z := from_option node_data 0 (s !! x).
Lemma bptr_same s s' x : same_data s s' -> bptr s' x = bptr s x.
Proof. intros H. specialize (H x). unfold bptr. destruct (s !! x), (s' !! x); simplify_eq/=; congruence. Qed.
Lemma bptr_lookup s x n : s !! x = Some n -> bptr s x = node_data n.
Proof. unfold bptr. by intros ->. Qed.
