(* ===== verification/SosalListProperties.v ===== *)
(** * Lists: operations and programs compute on sequences

    What the sorted insertion, the searches and the removals of [SosalList]
    do to a list whose nodes are in sequence.  Then any sequence of list
    operations does to the linked nodes what the corresponding operations do
    to a sequence of nodes. *)
From stdpp Require Import sorting.
From S2P Require Import Prelude SosalList SosalListFacts.

Implicit Types (s : store) (xs ys zs : list Z).

(** ** Removal *)

Lemma final_split p x ys zs : final p (ys ++ x :: zs) = final x zs.
Proof. by rewrite final_app, final_cons. Qed.

(** Taking out a node from between two others. *)
Lemma unlink_middle s ys p zs : NoDup (ys ++ p :: zs) -> 0 ∉ ys ++ p :: zs -> seg s 0 (ys ++ p :: zs) 0 ->
  ys <> [] -> zs <> [] -> exists s',
  (s ← set_prev (first zs 0) (final 0 ys) s; set_next (final 0 ys) (first zs 0) s) = Done s' /\
  seg s' 0 (ys ++ zs) 0 /\ same_data s s' /\ same_off (ys ++ zs) s s'.
Proof.
  intros (Hny & Hdis & [Hpz Hnz]%NoDup_cons)%NoDup_app H0 (Hy & Hz & d & Hd)%seg_split Hye Hze.
  assert (0 ∉ ys /\ 0 ∉ zs) as [H0y H0z] by set_solver.
  destruct (start_prev zs p (final 0 ys) s Hnz H0z Hz) as (s1 & H1 & Hz1 & Hd1 & Ho1).
  assert (seg s1 0 ys p) as Hy1 by (eapply seg_same_off; [exact Hy|exact Ho1|set_solver]).
  destruct (end_next ys 0 p (first zs 0) s1 Hny H0y Hy1) as (s2 & H2 & Hy2 & Hd2 & Ho2).
  assert (first zs 0 <> 0) as Hf by (intros He; by apply first_null in He).
  assert (final 0 ys <> 0) as Hl by (intros He; by apply final_null in He).
  rewrite (proj2 (Z.eqb_neq _ _) Hf) in H1. rewrite (proj2 (Z.eqb_neq _ _) Hl) in H2. cbn [negb] in H1, H2.
  exists s2. rewrite H1. cbn [mbind outcome_bind]. split_and!; [exact H2| |by eapply same_data_trans|].
  - apply seg_app. split; [done|]. eapply seg_same_off; [exact Hz1|exact Ho2|set_solver].
  - intros y Hyy. rewrite Ho2, Ho1 by set_solver. done.
Qed.

Definition may_extract (l : list_t) ys p zs : Prop :=
  tail l = final 0 (ys ++ p :: zs) \/ (tail l <> 0 /\ tail l ∉ ys ++ p :: zs /\ (ys = [] \/ zs <> [])).

(** The branches of [list_extract] before the links are cleared. *)
Lemma extract_branches l s ys p zs : chain l s (ys ++ p :: zs) -> may_extract l ys p zs -> exists l' s',
  (if final 0 ys =? 0 then list_pop l s
   else if first zs 0 =? 0 then list_trim l s
   else s ← set_prev (first zs 0) (final 0 ys) s; s ← set_next (final 0 ys) (first zs 0) s; Done (p, l, s)) =
  Done (p, l', s') /\
  chain l' s' (ys ++ zs) /\ tail_follows l (ys ++ p :: zs) l' (ys ++ zs) /\ same_data s s' /\
  same_off (ys ++ p :: zs) s s'.
Proof.
  intros Hl Hm. pose proof Hl as (Hh & Hs & Hnd & H0).
  assert (tail l <> 0) as Ht.
  { destruct Hm as [->|(? & _)]; [|done]. intros He. apply final_null in He; [|done]. by destruct ys. }
  destruct (Z.eqb_spec (final 0 ys) 0) as [Hy|Hy].
  - assert (ys = []) as -> by (apply final_null; [set_solver|done]).
    destruct (pop_chain l s p zs Hl Ht) as (s' & -> & Hc & Hd & Ho & _). eexists _, s'. split; [done|].
    split_and!; [exact Hc| |done|done]. unfold tail_follows. cbn [app tail]. rewrite final_cons.
    unfold tail_after_pop. destruct zs; [split; intros _; [done|by left]|]. rewrite !final_cons. split; [done|intros _; by right].
  - destruct (Z.eqb_spec (first zs 0) 0) as [Hz|Hz].
    + assert (zs = []) as -> by (apply first_null; [set_solver|done]).
      assert (tail l = final 0 (ys ++ [p])) as Ht' by (destruct Hm as [?|(_ & _ & [->|?])]; done).
      destruct (trim_spec l s p ys (proj2 (dll_chain l s _) (conj Hl Ht'))) as (l' & s' & -> & Hd' & Hsd & Ho & _).
      exists l', s'. rewrite app_nil_r. apply dll_chain in Hd' as [Hc Hf]. split_and!; [done|done| |done|].
      * split; intros _; [done|by left].
      * intros y Hyy. apply Ho. set_solver.
    + destruct (unlink_middle s ys p zs Hnd H0 Hs) as (s' & He & Hseg & Hd & Ho); [by intros ->..|].
      exists l, s'. split_and!; [|split_and!| |done|].
      * revert He. destruct (set_prev (first zs 0) _ s) as [s1| |]; cbn [mbind outcome_bind]; [|done..]. by intros ->.
      * rewrite Hh, !first_app. destruct ys; [done|done].
      * done.
      * apply (NoDup_app ys). apply NoDup_app in Hnd as (? & Hdis & [? ?]%NoDup_cons). split_and!; [done|set_solver|done].
      * set_solver.
      * unfold tail_follows. rewrite final_split, final_app. destruct zs as [|z zs]; [done|]. rewrite !final_cons.
        split; [done|intros _; by right].
      * intros y Hyy. apply Ho. set_solver.
Qed.

Lemma extract_spec l s ys p zs : chain l s (ys ++ p :: zs) -> may_extract l ys p zs -> exists l' s',
  list_extract l p s = Done (p, l', s') /\ chain l' s' (ys ++ zs) /\
  tail_follows l (ys ++ p :: zs) l' (ys ++ zs) /\ same_data s s' /\ same_off (ys ++ p :: zs) s s' /\ unlinked s' p.
Proof.
  intros Hl Hm. destruct (extract_branches l s ys p zs Hl Hm) as (l1 & s1 & He & Hc & Ht & Hd & Ho).
  pose proof Hl as (Hh & Hs & Hnd & H0). destruct (chain_parts l s ys p zs Hl) as (_ & _ & [d Hp] & _ & [Hni _]%NoDup_cons & Hdis & _).
  assert (p <> 0) as Hp0 by set_solver.
  unfold list_extract. rewrite (proj2 (Z.eqb_neq p 0)) by done.
  rewrite (proj2 (Z.eqb_neq (head l) 0)) by (rewrite Hh; intros He0; apply first_null in He0; [by destruct ys|done]).
  rewrite (proj2 (Z.eqb_neq (tail l) 0)).
  2: { destruct Hm as [->|(? & _)]; [|done]. intros He0. apply final_null in He0; [by destruct ys|done]. }
  cbn [orb]. rewrite (deref_Some p s _ Hp0 Hp). cbn [mbind outcome_bind next prev]. rewrite He. cbn [mbind outcome_bind].
  destruct (unlink_next_prev s1 p Hp0) as (s2 & H2 & Hd2 & Ho2 & Hu); [by eapply same_data_is_Some; [|by eexists]|].
  exists l1, s2. split_and!; [| |done|by eapply same_data_trans| |done].
  - revert H2. destruct (set_next p 0 s1) as [s1'| |]; cbn [mbind outcome_bind]; [|done..]. by intros ->.
  - destruct Hc as (? & ? & ? & ?). split_and!; [done| |done|done]. eapply seg_same_off; [done|exact Ho2|set_solver].
  - intros y Hy. rewrite Ho2, Ho by set_solver. done.
Qed.

(** ** Sorted insertion *)

(** Before the first node that is greater, and after the first one whose
    successor is at least as great, whichever comes first. *)
Fixpoint ins (k : Z -> Z) (p : Z) xs : list Z :=
  match xs with
  | [] => [p]
  | x :: xs' =>
      if k p <? k x then p :: xs
      else match xs' with
           | [] => [x; p]
           | y :: _ => if k p <=? k y then x :: p :: xs' else x :: ins k p xs'
           end
  end.
Definition key_le (k : Z -> Z) (x y : Z) : Prop := k x <= k y.

Lemma ins_perm k p xs : ins k p xs ≡ₚ p :: xs.
Proof.
  induction xs as [|x xs IH]; [done|]. cbn [ins]. destruct (k p <? k x); [done|].
  destruct xs as [|y xs]; [apply perm_swap|]. destruct (k p <=? k y); [apply perm_swap|]. by rewrite IH, perm_swap.
Qed.
Lemma ins_sorted k p xs : Sorted (key_le k) xs -> Sorted (key_le k) (ins k p xs).
Proof.
  induction xs as [|x xs IH]; intros Hs; [by repeat constructor|]. cbn [ins].
  destruct (Z.ltb_spec (k p) (k x)) as [Hlt|Hge]; [constructor; [done|constructor; unfold key_le; lia]|].
  apply Sorted_inv in Hs as [Hs Hx]. destruct xs as [|y xs]; [repeat constructor; unfold key_le; lia|].
  destruct (Z.leb_spec (k p) (k y)) as [Hle|Hgt];
    [constructor; [constructor; [done|by constructor]|by constructor]|].
  constructor; [by apply IH|]. apply HdRel_inv in Hx. cbn [ins].
  rewrite (proj2 (Z.ltb_ge (k p) (k y))) by lia. destruct xs as [|z xs]; [by constructor|].
  destruct (k p <=? k z); by constructor.
Qed.

(** ** The comparison *)

Section Compare.
Context (compare : store -> Z -> Z -> outcome Z) (key : Z -> Z).

(** [compare] orders the nodes [xs] by [key], and takes every node for equal to [NULL]. *)
Definition compares s xs : Prop :=
  (forall a b, a ∈ xs -> b ∈ xs -> exists c, compare s a b = Done c /\ Z.sgn c = Z.sgn (key a - key b)) /\
  (forall a, a ∈ xs -> compare s a 0 = Done 0).
Definition rank (ascending : bool) (x : Z) : Z := if ascending then key x else - key x.

Lemma list_rank_lt (asc : bool) c p x : Z.sgn c = Z.sgn (key p - key x) ->
  (if asc then c <? 0 else 0 <? c) = (rank asc p <? rank asc x).
Proof.
  intros Hc. unfold rank. destruct asc.
  - destruct (Z.ltb_spec c 0), (Z.ltb_spec (key p) (key x)); lia.
  - destruct (Z.ltb_spec 0 c), (Z.ltb_spec (- key p) (- key x)); lia.
Qed.
Lemma list_rank_le (asc : bool) c p x : Z.sgn c = Z.sgn (key p - key x) ->
  (if asc then c <=? 0 else 0 <=? c) = (rank asc p <=? rank asc x).
Proof.
  intros Hc. unfold rank. destruct asc.
  - destruct (Z.leb_spec c 0), (Z.leb_spec (key p) (key x)); lia.
  - destruct (Z.leb_spec 0 c), (Z.leb_spec (- key p) (- key x)); lia.
Qed.

Lemma insert_loop_spec (asc : bool) l s p zs : forall ys fuel, chain l s (ys ++ zs) -> fresh_node s (ys ++ zs) p ->
  compares s (p :: ys ++ zs) -> zs <> [] -> (length zs <= fuel)%nat ->
  exists l' s', insert_loop compare fuel l p asc (first zs 0) s = Done (p, l', s') /\
    chain l' s' (ys ++ ins (rank asc) p zs) /\ tail_follows l (ys ++ zs) l' (ys ++ ins (rank asc) p zs) /\
    same_data s s' /\ same_off (p :: ys ++ zs) s s'.
Proof.
  induction zs as [|x zs IH]; intros ys fuel Hl Hp Hc Hz Hf; [done|].
  destruct fuel as [|f]; [simpl in Hf; lia|]. cbn [first insert_loop].
  pose proof (chain_parts l s ys x zs Hl) as (_ & _ & [d Hd] & _ & _ & _ & _ & H0).
  assert (x <> 0) as Hx by set_solver. rewrite (proj2 (Z.eqb_neq x 0)) by done.
  destruct Hc as [Hc Hnull]. destruct (Hc p x) as (c & -> & Hs); [set_solver..|]. cbn [mbind outcome_bind].
  rewrite (list_rank_lt asc c p x Hs). cbn [ins].
  destruct (Z.ltb_spec (rank asc p) (rank asc x)) as [Hlt|Hge].
  { destruct (insert_before_spec l s ys zs x p Hl Hp) as (l' & s' & -> & Hl' & Ht & Hd' & Ho').
    cbn [mbind outcome_bind]. eexists l', s'. split_and!; try done. unfold tail_follows.
    rewrite Ht, !final_app, !final_cons. split; [done|by right]. }
  destruct (Hc x p) as (c1 & -> & Hs1); [set_solver..|]. cbn [mbind outcome_bind].
  rewrite (deref_Some x s _ Hx Hd). cbn [mbind outcome_bind next]. rewrite (list_rank_le asc c1 x p Hs1).
  rewrite (proj2 (Z.leb_le (rank asc x) (rank asc p))) by lia.
  destruct zs as [|y zs].
  { cbn [first]. rewrite Hnull by set_solver. cbn [mbind outcome_bind].
    assert ((if asc then 0 <=? 0 else 0 <=? 0) = true) as -> by (by destruct asc). cbn [andb].
    destruct (insert_after_spec l s ys [] x p Hl Hp) as (l' & s' & -> & Hl' & Ht & Hd' & Ho').
    cbn [mbind outcome_bind]. by eexists l', s'. }
  cbn [first]. destruct (Hc p y) as (c2 & -> & Hs2); [set_solver..|]. cbn [mbind outcome_bind].
  rewrite (list_rank_le asc c2 p y Hs2). destruct (Z.leb_spec (rank asc p) (rank asc y)) as [Hle|Hgt]; cbn [andb].
  - destruct (insert_after_spec l s ys (y :: zs) x p Hl Hp) as (l' & s' & -> & Hl' & Ht & Hd' & Ho').
    cbn [mbind outcome_bind]. by eexists l', s'.
  - rewrite (cons_middle x ys), (app_assoc ys [x]) in Hl, Hp.
    destruct (IH (ys ++ [x]) f Hl Hp) as (l' & s' & He & Hl' & Ht & Hd' & Ho');
      [rewrite <- app_assoc; exact (conj Hc Hnull)|done|simpl in *; lia|].
    rewrite <- (app_assoc ys [x]) in Hl', Ho'. rewrite <- (app_assoc ys [x] (ins _ _ _)), <- app_assoc in Ht. by exists l', s'.
Qed.

Lemma insert_spec (asc : bool) l s p xs fuel : chain l s xs -> fresh_node s xs p -> compares s (p :: xs) ->
  (length xs <= fuel)%nat ->
  exists l' s', list_insert compare fuel l p asc s = Done (p, l', s') /\
    chain l' s' (ins (rank asc) p xs) /\ tail_follows l xs l' (ins (rank asc) p xs) /\
    same_data s s' /\ same_off (p :: xs) s s'.
Proof.
  intros Hl Hp Hc Hf. pose proof Hl as (Hh & _ & _ & H0). unfold list_insert. rewrite Hh. destruct xs as [|x xs].
  - cbn [first negb Z.eqb]. destruct Hp as (Hp & _ & Hs).
    destruct (new_links s p 0 0 Hp Hs) as (s' & _ & He & Hd & Ho & Hn). exists (mkList p p), s'. split_and!; [|split_and!|split; intros _; [done|by left]|done|].
    + revert He. destruct (set_prev p 0 s) as [s1| |]; cbn [mbind outcome_bind]; [|done..]. by intros ->.
    + done.
    + by split.
    + by apply NoDup_singleton.
    + set_solver.
    + intros y Hy. by apply Ho.
  - cbn [first]. rewrite (null_not_in _ x H0) by (by left). cbn [negb].
    exact (insert_loop_spec asc l s p (x :: xs) [] fuel Hl Hp Hc ltac:(done) Hf).
Qed.

(** ** Searches *)

Lemma search_loop_spec s p node zs : forall fuel, seg s p zs 0 -> 0 ∉ zs -> compares s (node :: zs) ->
  (length zs < fuel)%nat ->
  search_loop compare fuel (first zs 0) node s = Done (first (filter (fun x => key x = key node) zs) 0).
Proof.
  revert p. induction zs as [|x zs IH]; intros p fuel Hs H0 Hc Hf; (destruct fuel as [|f]; [simpl in Hf; lia|]); [done|].
  cbn [first search_loop]. rewrite (null_not_in _ x H0) by (by left). destruct Hs as [[d Hd] Hs].
  destruct (proj1 Hc x node) as (c & -> & Hsg); [set_solver..|]. cbn [mbind outcome_bind].
  rewrite filter_cons. destruct (Z.eqb_spec c 0) as [->|Hne], (decide (key x = key node)) as [He|He]; try lia; [done|].
  rewrite (deref_Some x s _ ltac:(set_solver) Hd). cbn [mbind outcome_bind next].
  apply (IH x); [done|set_solver| |simpl in Hf; lia]. destruct Hc as [Hc Hnull].
  split; [intros a b Ha Hb; apply Hc|intros a Ha; apply Hnull]; set_solver.
Qed.
End Compare.

Lemma list_search_spec compare key l s xs node fuel : chain l s xs -> node <> 0 ->
  compares compare key s (node :: xs) -> (length xs < fuel)%nat ->
  list_search compare fuel l node s = Done (first (filter (fun x => key x = key node) xs) 0).
Proof.
  intros (Hh & Hs & _ & H0) Hn Hc Hf. unfold list_search. rewrite (proj2 (Z.eqb_neq node 0)), Hh by done.
  by apply (search_loop_spec compare key s 0).
Qed.

(** The sequence without one of its nodes. *)
Definition without (p : Z) xs : list Z := filter (fun x => x <> p) xs.
Lemma without_not_in p xs : p ∉ xs -> without p xs = xs.
Proof.
  unfold without. induction xs as [|x xs IH]; intros Hp; [done|]. rewrite filter_cons_True by (intros ->; set_solver).
  f_equal. apply IH. set_solver.
Qed.
Lemma without_split ys p zs : NoDup (ys ++ p :: zs) -> without p (ys ++ p :: zs) = ys ++ zs.
Proof.
  intros (Hny & Hdis & [Hpz Hnz]%NoDup_cons)%NoDup_app. unfold without.
  rewrite filter_app, filter_cons_False by (by intros H). f_equal; apply without_not_in; set_solver.
Qed.

Lemma extract_dll l s xs p : dll l s xs -> p ∈ xs -> exists l' s', list_extract l p s = Done (p, l', s') /\
  dll l' s' (without p xs) /\ same_data s s' /\ same_off xs s s' /\ unlinked s' p.
Proof.
  intros [Hc Ht]%dll_chain (ys & zs & ->)%list_elem_of_split.
  destruct (extract_spec l s ys p zs Hc) as (l' & s' & He & Hc' & [Hf _] & Hr); [by left|].
  exists l', s'. rewrite without_split by apply Hc. split; [done|]. split; [|done]. apply dll_chain. auto.
Qed.

Lemma remove_match_spec compare key l s xs node fuel : dll l s xs -> node <> 0 ->
  compares compare key s (node :: xs) -> (length xs < fuel)%nat ->
  let found := first (filter (fun x => key x = key node) xs) 0 in
  exists l' s', list_remove_match compare fuel l node s = Done (found, l', s') /\
    dll l' s' (without found xs) /\ same_data s s' /\ same_off xs s s'.
Proof.
  intros Hl Hn Hc Hf found. pose proof Hl as [Hch _]%dll_chain. unfold list_remove_match.
  rewrite (list_search_spec compare key l s xs) by done. fold found. cbn [mbind outcome_bind].
  destruct (Z.eqb_spec found 0) as [He|He].
  - exists l, s. rewrite He. rewrite without_not_in by apply Hl. by split_and!.
  - assert (found ∈ xs) as Hin.
    { unfold found in *. destruct (filter _ xs) as [|x r] eqn:Hfl; [done|]. cbn [first].
      apply (list_elem_of_filter (fun x => key x = key node)). rewrite Hfl. by left. }
    destruct (extract_dll l s xs found Hl Hin) as (l' & s' & Hx & Hd & Hsd & Ho & _). by exists l', s'.
Qed.

(** ** Ratings and lengths *)

(** The first node of the best score above [rating], or [best]. *)
Fixpoint best_of (score : Z -> Z) xs (best rating : Z) : Z :=
  match xs with
  | [] => best
  | x :: xs => if rating <? score x then best_of score xs x (score x) else best_of score xs best rating
  end.

Lemma best_of_max score xs : forall best rating, let b := best_of score xs best rating in
  (b = best /\ (forall x, x ∈ xs -> score x <= rating)) \/
  (b ∈ xs /\ rating < score b /\ forall x, x ∈ xs -> score x <= score b).
Proof.
  induction xs as [|x xs IH]; intros best rating; cbn [best_of]; [left; split; [done|set_solver]|].
  destruct (Z.ltb_spec rating (score x)) as [Hlt|Hge].
  - destruct (IH x (score x)) as [[Hb Hx]|(Hb & Hr & Hx)]; right.
    + rewrite Hb. split_and!; [by left|done|]. intros y [->|Hy]%elem_of_cons; [lia|auto].
    + split_and!; [by right|lia|]. intros y [->|Hy]%elem_of_cons; [lia|auto].
  - destruct (IH best rating) as [[Hb Hx]|(Hb & Hr & Hx)]; [left|right].
    + split; [done|]. intros y [->|Hy]%elem_of_cons; [lia|auto].
    + split_and!; [by right|done|]. intros y [->|Hy]%elem_of_cons; [lia|auto].
Qed.

Lemma score_loop_spec rate score s node xs : forall p fuel best rating, seg s p xs 0 -> NoDup xs -> 0 ∉ xs ->
  (forall x, x ∈ xs -> rate s x node = Done (score x)) -> (length xs < fuel)%nat ->
  score_loop rate fuel (first xs 0) node best rating s = Done (best_of score xs best rating).
Proof.
  induction xs as [|x xs IH]; intros p fuel best rating Hs Hnd H0 Hr Hf; (destruct fuel as [|f]; [simpl in Hf; lia|]); [done|].
  cbn [first score_loop best_of]. rewrite (null_not_in _ x H0), Hr by (by left). cbn [mbind outcome_bind].
  destruct Hs as [[d Hd] Hs]. apply NoDup_cons in Hnd as [Hx Hnd].
  rewrite (deref_Some x s _ ltac:(set_solver) Hd). cbn [mbind outcome_bind next].
  assert ((x =? first xs 0) = false) as Hne.
  { apply Z.eqb_neq. intros He. destruct xs; cbn [first] in He; set_solver. }
  assert (0 ∉ xs) as H0' by set_solver. assert (length xs < f)%nat as Hf' by (simpl in Hf; lia).
  destruct (rating <? score x); rewrite Hne; (apply (IH x); [done..| |done]); intros y Hy; apply Hr; by right.
Qed.
Lemma length_loop_spec s xs : forall p fuel len, seg s p xs 0 -> 0 ∉ xs -> (length xs < fuel)%nat ->
  0 <= len -> len + Z.of_nat (length xs) < 2 ^ 64 ->
  length_loop fuel (first xs 0) len s = Done (len + Z.of_nat (length xs)).
Proof.
  induction xs as [|x xs IH]; intros p fuel len Hs H0 Hf Hl Hb; (destruct fuel as [|f]; [simpl in Hf; lia|]).
  - cbn [first length_loop Z.eqb]. f_equal. simpl. lia.
  - cbn [first length_loop]. rewrite (null_not_in _ x H0) by (by left). destruct Hs as [[d Hd] Hs].
    rewrite (deref_Some x s _ ltac:(set_solver) Hd). cbn [mbind outcome_bind next]. cbn [length] in *.
    unfold u64. rewrite Z.mod_small by lia. rewrite (IH x) by (done || set_solver || lia). f_equal. lia.
Qed.

(** ** Operations and their meaning on sequences *)

Inductive list_op : Set :=
  | Append (p : Z) | Push (p : Z) | Pop | Trim
  | Insert (p : Z) (ascending : bool)
  | Extract (p : Z) | RemoveMatch (p : Z) | Search (p : Z) | Length.

Section Programs.
Context (compare : store -> Z -> Z -> outcome Z).

(** An operation of the code, with the value it answers. *)
Definition run_op (fuel : nat) (o : list_op) (l : list_t) s : outcome (Z * list_t * store) :=
  match o with
  | Append p => '(l, s) ← list_append l p s; Done (p, l, s)
  | Push p => '(l, s) ← list_push l p s; Done (p, l, s)
  | Pop => list_pop l s
  | Trim => list_trim l s
  | Insert p ascending => list_insert compare fuel l p ascending s
  | Extract p => list_extract l p s
  | RemoveMatch p => list_remove_match compare fuel l p s
  | Search p => r ← list_search compare fuel l p s; Done (r, l, s)
  | Length => r ← list_length fuel l s; Done (r, l, s)
  end.
Fixpoint run_ops (fuel : nat) (os : list list_op) (l : list_t) s : outcome (list Z * list_t * store) :=
  match os with
  | [] => Done ([], l, s)
  | o :: os => '(r, l, s) ← run_op fuel o l s; '(rs, l, s) ← run_ops fuel os l s; Done (r :: rs, l, s)
  end.

(** The same on a sequence, with the key of each node. *)
Definition spec_op (key : Z -> Z) (o : list_op) xs : Z * list Z :=
  match o with
  | Append p => (p, xs ++ [p])
  | Push p => (p, p :: xs)
  | Pop => (first xs 0, drop 1 xs)
  | Trim => (final 0 xs, without (final 0 xs) xs)
  | Insert p ascending => (p, ins (rank key ascending) p xs)
  | Extract p => (p, without p xs)
  | RemoveMatch p => let q := first (filter (fun x => key x = key p) xs) 0 in (q, without q xs)
  | Search p => (first (filter (fun x => key x = key p) xs) 0, xs)
  | Length => (Z.of_nat (length xs), xs)
  end.
Fixpoint spec_ops (key : Z -> Z) (os : list list_op) xs : list Z * list Z :=
  match os with
  | [] => ([], xs)
  | o :: os =>
      let '(r, xs) := spec_op key o xs in let '(rs, xs) := spec_ops key os xs in (r :: rs, xs)
  end.

(** What is added is a node and not in the list, what is taken out is in it,
    what is compared with is a node. *)
Definition legal_op s (o : list_op) xs : Prop :=
  match o with
  | Append p | Push p | Insert p _ => fresh_node s xs p
  | Extract p => p ∈ xs
  | RemoveMatch p | Search p => p <> 0 /\ is_Some (s !! p)
  | Pop | Trim | Length => True
  end.
Fixpoint legal (key : Z -> Z) s (os : list list_op) xs : Prop :=
  match os with
  | [] => True
  | o :: os => legal_op s o xs /\ legal key s os (spec_op key o xs).2
  end.

(** ** A step *)

(** The comparison is one of the nodes' data. *)
Context (dkey : Z -> Z).
Definition node_key s (x : Z) : Z := from_option (fun n => dkey (node_data n)) 0 (s !! x).
Definition by_data : Prop := forall s a n, a <> 0 -> s !! a = Some n ->
  compare s a 0 = Done 0 /\
  forall b m, b <> 0 -> s !! b = Some m ->
  exists c, compare s a b = Done c /\ Z.sgn c = Z.sgn (dkey (node_data n) - dkey (node_data m)).
Context (Hc : by_data).

Lemma node_key_same s s' x : same_data s s' -> node_key s' x = node_key s x.
Proof. intros H. specialize (H x). unfold node_key. destruct (s !! x), (s' !! x); simplify_eq/=; congruence. Qed.

Lemma seg_dom s xs : forall p n x, seg s p xs n -> x ∈ xs -> is_Some (s !! x).
Proof.
  induction xs as [|y xs IH]; intros p n x Hs Hx; [set_solver|]. destruct Hs as [[d Hd] Hs].
  apply elem_of_cons in Hx as [->|Hx]; [by eexists|]. by eapply IH.
Qed.
Lemma nodes_compare s xs : 0 ∉ xs -> (forall x, x ∈ xs -> is_Some (s !! x)) -> compares compare (node_key s) s xs.
Proof.
  intros H0 Hx. split.
  - intros a b Ha Hb. destruct (Hx a Ha) as [n Hn], (Hx b Hb) as [m Hm].
    destruct (proj2 (Hc s a n ltac:(set_solver) Hn) b m ltac:(set_solver) Hm) as (c & He & Hs).
    exists c. split; [done|]. unfold node_key. by rewrite Hn, Hm.
  - intros a Ha. destruct (Hx a Ha) as [n Hn]. by apply (Hc s a n); [set_solver|].
Qed.
Lemma list_nodes l s xs p : dll l s xs -> p <> 0 -> is_Some (s !! p) ->
  compares compare (node_key s) s (p :: xs).
Proof.
  intros [_ _ Hs _ H0] Hp Hd. apply nodes_compare; [set_solver|].
  intros x [->|Hx]%elem_of_cons; [done|]. by eapply seg_dom.
Qed.
Lemma dll_length l s xs : dll l s xs -> (length xs <= size s)%nat.
Proof.
  intros [_ _ Hs Hnd _]. rewrite <- size_dom, <- (size_list_to_set (C:=gset Z)) by done.
  apply subseteq_size. intros x Hx%elem_of_list_to_set. apply elem_of_dom. by eapply seg_dom.
Qed.
Lemma final_without xs : NoDup xs -> xs <> [] -> exists ys, xs = ys ++ [final 0 xs] /\ without (final 0 xs) xs = ys.
Proof.
  intros Hnd Hx. destruct (last xs) as [x|] eqn:Hl; [|by apply last_None in Hl].
  apply last_Some in Hl as [ys ->]. exists ys. rewrite final_snoc. split; [done|].
  rewrite without_split by done. apply app_nil_r.
Qed.

Lemma op_spec o l s xs fuel : dll l s xs -> legal_op s o xs -> (size s < fuel)%nat -> Z.of_nat (size s) < 2 ^ 64 ->
  exists l' s', run_op fuel o l s = Done ((spec_op (node_key s) o xs).1, l', s') /\
    dll l' s' (spec_op (node_key s) o xs).2 /\ same_data s s'.
Proof.
  intros Hl Ho Hf Hb. pose proof (dll_length l s xs Hl) as Hlen. pose proof Hl as [Hch Ht]%dll_chain.
  destruct o as [p|p| | |p asc|p|p|p|]; cbn [run_op spec_op fst snd legal_op] in *.
  - destruct (append_spec l s xs Hl p Ho) as (l' & s' & -> & Hd & Hs & _). by exists l', s'.
  - destruct (push_spec l s xs Hl p Ho) as (l' & s' & -> & Hd & Hs & _). by exists l', s'.
  - destruct xs as [|x xs]; [exists l, s; by rewrite pop_empty|].
    destruct (pop_spec l s x xs Hl) as (l' & s' & -> & Hd & Hs & _). by exists l', s'.
  - destruct (decide (xs = [])) as [->|Hne]; [exists l, s; by rewrite trim_empty|].
    destruct (final_without xs) as (ys & Hy & ->); [apply Hl|done|].
    rewrite Hy in Hl. destruct (trim_spec l s _ ys Hl) as (l' & s' & -> & Hd & Hs & _). by exists l', s'.
  - destruct Ho as (Hp & Hni & Hs).
    destruct (insert_spec compare (node_key s) asc l s p xs fuel Hch) as (l' & s' & -> & Hd & [Hf' _] & Hsd & _);
      [done|by eapply list_nodes|lia|].
    exists l', s'. split; [done|]. split; [|done]. apply dll_chain. auto.
  - destruct (extract_dll l s xs p Hl Ho) as (l' & s' & -> & Hd & Hs & _). by exists l', s'.
  - destruct Ho as [Hp Hs].
    destruct (remove_match_spec compare (node_key s) l s xs p fuel Hl Hp) as (l' & s' & -> & Hd & Hsd & _);
      [by eapply list_nodes|lia|]. by exists l', s'.
  - destruct Ho as [Hp Hs]. rewrite (list_search_spec compare (node_key s) l s xs p) by (done || lia || by eapply list_nodes).
    by exists l, s.
  - pose proof Hl as [Hh _ Hs _ H0]. unfold list_length. rewrite Hh, (length_loop_spec s xs 0) by (done || lia).
    by exists l, s.
Qed.

(** ** Programs *)

Lemma spec_op_key k k' o xs : (forall x, k' x = k x) -> spec_op k' o xs = spec_op k o xs.
Proof.
  intros He. assert (forall asc p, ins (rank k' asc) p xs = ins (rank k asc) p xs) as Hi.
  { intros asc p. assert (forall x, rank k' asc x = rank k asc x) as Hr by (intros x; unfold rank; by rewrite He).
    induction xs as [|x ys IH]; [done|]. cbn [ins]. rewrite !Hr. destruct ys as [|y ys]; [done|].
    by rewrite !Hr, IH. }
  assert (forall p, filter (fun x => k' x = k' p) xs = filter (fun x => k x = k p) xs) as Hf.
  { intros p. apply list_filter_iff. intros x. by rewrite !He. }
  destruct o; cbn [spec_op]; rewrite ?Hi, ?Hf; done.
Qed.
Lemma spec_ops_key k k' os : forall xs, (forall x, k' x = k x) -> spec_ops k' os xs = spec_ops k os xs.
Proof.
  induction os as [|o os IH]; intros xs He; [done|]. cbn [spec_ops]. rewrite (spec_op_key k k') by done.
  destruct (spec_op k o xs) as [r ys]. by rewrite IH.
Qed.
Lemma same_data_some s s' x : same_data s s' -> is_Some (s' !! x) <-> is_Some (s !! x).
Proof. intros H. specialize (H x). rewrite <- !not_eq_None_Some. destruct (s !! x), (s' !! x); simplify_eq/=; done. Qed.
Lemma legal_same k k' s s' os : forall xs, same_data s s' -> (forall x, k' x = k x) ->
  legal k s os xs -> legal k' s' os xs.
Proof.
  induction os as [|o os IH]; intros xs Hd He; [done|]. intros [Ho Hos]. split.
  - destruct o; cbn [legal_op] in *; unfold fresh_node in *; by rewrite ?(same_data_some s s') by done.
  - rewrite (spec_op_key k k') by done. by apply IH.
Qed.
End Programs.

(** C5: any sequence of list operations that adds nodes that are not in the
    list, takes out nodes that are, and compares nodes by their data, runs
    without a null dereference, a tripped assertion or an endless loop, and
    does to the linked nodes, and answers, what the operations on the
    sequence of nodes do: the list stays doubly linked from head to tail, and
    no node's data changes. *)
Theorem list_programs_implement_sequences compare dkey os l s xs fuel :
  by_data compare dkey -> dll l s xs -> legal (node_key dkey s) s os xs ->
  (size s < fuel)%nat -> Z.of_nat (size s) < 2 ^ 64 ->
  exists l' s', run_ops compare fuel os l s = Done ((spec_ops (node_key dkey s) os xs).1, l', s') /\
    dll l' s' (spec_ops (node_key dkey s) os xs).2 /\ same_data s s'.
Proof.
  intros Hc. revert l s xs. induction os as [|o os IH]; intros l s xs Hl Hle Hf Hb; [by exists l, s|].
  destruct Hle as [Ho Hle]. destruct (op_spec compare dkey Hc o l s xs fuel Hl Ho Hf Hb) as (l1 & s1 & H1 & Hl1 & Hd1).
  cbn [run_ops spec_ops]. rewrite H1. cbn [mbind outcome_bind].
  destruct (spec_op (node_key dkey s) o xs) as [r ys] eqn:Hs. cbn [fst snd] in *.
  assert (size s1 = size s) as Hsz by (by apply same_data_size).
  destruct (IH l1 s1 ys Hl1) as (l2 & s2 & H2 & Hl2 & Hd2); [apply (legal_same (node_key dkey s) _ s); [done|intros x; by apply node_key_same|done]|by rewrite Hsz..|].
  rewrite (spec_ops_key (node_key dkey s) (node_key dkey s1)) in H2, Hl2 by (intros x; by apply node_key_same).
  rewrite H2. cbn [mbind outcome_bind]. destruct (spec_ops (node_key dkey s) os ys) as [rs zs].
  exists l2, s2. split_and!; [done|done|by eapply same_data_trans].
Qed.

Lemma node_sorter_by_data : by_data node_sorter id.
Proof.
  intros s a n Ha Hn. split; [unfold node_sorter; by rewrite orb_true_r|].
  intros b m Hb Hm. unfold node_sorter. rewrite (proj2 (Z.eqb_neq a 0)), (proj2 (Z.eqb_neq b 0)) by done. cbn [orb].
  rewrite (deref_Some a s n), (deref_Some b s m) by done. cbn [mbind outcome_bind]. eexists. split; [done|].
  unfold id. destruct (Z.ltb_spec (node_data n) (node_data m)), (Z.eqb_spec (node_data n) (node_data m)); lia.
Qed.

Lemma dll_create s : dll list_create s [].
Proof. split; [done..|by constructor|set_solver]. Qed.

(** Four nodes, sorted in both orders, searched and taken out at both ends
    and in the middle. *)
Definition sample_store : store :=
  list_to_map [(8, mkListNode 0 0 30); (16, mkListNode 0 0 10); (24, mkListNode 0 0 20); (32, mkListNode 0 0 20)].
Definition sample_ops : list list_op :=
  [Insert 8 true; Insert 16 true; Insert 24 true; Length; Search 32; RemoveMatch 32; Push 24; Append 32; Trim; Extract 16; Pop; Pop; Pop].
Lemma sample_legal : legal (node_key id sample_store) sample_store sample_ops [].
Proof.
  repeat split; first [by eexists|done|by cbn [legal_op]; refine (bool_decide_unpack _ _); vm_compute].
Qed.

Lemma list_programs_implement_sequences_witness : exists l' s',
  run_ops node_sorter 10 sample_ops list_create sample_store =
    Done ([8; 16; 24; 3; 24; 24; 24; 32; 32; 16; 24; 8; 0], l', s') /\ dll l' s' [].
Proof.
  destruct (list_programs_implement_sequences node_sorter id sample_ops list_create sample_store [] 10)
    as (l' & s' & He & Hl & _); [exact node_sorter_by_data|by apply dll_create|exact sample_legal|vm_compute; lia|done|].
  exists l', s'. split; [exact He|exact Hl].
Defined.

(** [list_destroy] takes every node out, from the head. *)
Lemma pop_all_spec xs : forall l s fuel, dll l s xs -> (length xs < fuel)%nat -> exists l' s',
  pop_all fuel l s = Done (xs, l', s') /\ dll l' s' [] /\ same_data s s'.
Proof.
  induction xs as [|x xs IH]; intros l s fuel Hl Hf; (destruct fuel as [|f]; [simpl in Hf; lia|]); cbn [pop_all].
  - rewrite (pop_empty l s Hl). by exists l, s.
  - destruct (pop_spec l s x xs Hl) as (l1 & s1 & -> & Hl1 & Hd1 & _). cbn [mbind outcome_bind].
    rewrite (null_not_in (x :: xs) x) by (apply Hl || by left).
    destruct (IH l1 s1 f Hl1) as (l2 & s2 & -> & Hl2 & Hd2); [simpl in Hf; lia|]. cbn [mbind outcome_bind].
    exists l2, s2. split_and!; [done|done|by eapply same_data_trans].
Qed.
