(* ===== verification/SosalHash.v ===== *)
(** * Hash tables (source/sosal/hash.c, include/sosal/hash.h)

    Buckets of sorted lists, created when a slot is first used.  A node of a
    bucket points to the record of its key.  Addresses of new nodes and
    records are arguments, as [calloc] answers them. *)
From S2P Require Import Prelude SosalList.

Record record_t : Set := mkRecord { r_key : Z; r_value : Z }.
(** [bucket]: [None] is a slot without a list. *)
Record hash_t : Set := mkHash {
  size : Z; numTotalElem : Z; numActiveSlots : Z; numSlots : Z; bucket : list (option list_t) }.
Record hash_mem : Set := mkHashMem { nodes : store; records : gmap Z record_t }.

Definition HASH_SIZE_SMALL : Z := 8.
Definition HASH_SIZE_MEDIUM : Z := 12.
Definition HASH_SIZE_LARGE : Z := 16.

Definition with_store (s : store) (m : hash_mem) : hash_mem := mkHashMem s (records m).
Definition with_slot (i : Z) (b : option list_t) (h : hash_t) : outcome hash_t :=
  bs ← of_option (aset (bucket h) i b);
  Done (mkHash (size h) (numTotalElem h) (numActiveSlots h) (numSlots h) bs).
Definition with_total (t a : Z) (h : hash_t) : hash_t := mkHash (size h) t a (numSlots h) (bucket h).
Definition fuel_for (s : store) : nat := S (base.size s).

(** ** Records *)

Definition record_create (key value a : Z) (m : hash_mem) : Z * hash_mem :=
  if a =? 0 then (0, m) else (a, mkHashMem (nodes m) (<[a := mkRecord key value]> (records m))).
Definition record_destroy (r : Z) (m : hash_mem) : outcome hash_mem :=
  if r =? 0 then Done m
  else _ ← of_option (records m !! r); Done (mkHashMem (nodes m) (delete r (records m))).

(** Without two records everything is equal. *)
Definition hash_compare_record (rs : gmap Z record_t) (s : store) (a b : Z) : outcome Z :=
  if (a =? 0) || (b =? 0) then Done 0
  else
    na ← deref a s; nb ← deref b s;
    if (node_data na =? 0) || (node_data nb =? 0) then Done 0
    else
      ra ← of_option (rs !! node_data na); rb ← of_option (rs !! node_data nb);
      Done (if r_key rb <? r_key ra then 1 else if r_key ra =? r_key rb then 0 else -1).

(** ** Slots *)

Definition valid_size (sz : Z) : bool :=
  (sz =? HASH_SIZE_SMALL) || (sz =? HASH_SIZE_MEDIUM) || (sz =? HASH_SIZE_LARGE).
Definition hash_is_valid_index (h : hash_t) (hKey : Z) : bool := valid_size (size h) && (hKey <? numSlots h).
Definition hash_key_to_index (h : hash_t) (hKey : Z) : Z := if valid_size (size h) then u32 hKey else 0.

(** The default keying function, on 64-bit words. *)
Definition hash_key (numElem keyin : Z) : Z :=
  let key := u64 (keyin + u64 (Z.shiftl keyin 10)) in
  let key := Z.lxor key (Z.shiftr key 6) in
  let key := u64 (key + u64 (Z.shiftl key 3)) in
  let key := Z.lxor key (Z.shiftr key 11) in
  let key := u64 (key + u64 (Z.shiftl key 15)) in
  Z.land key (u32 (Z.shiftl 1 numElem - 1)).

(** [h_ok] and [bucket_ok] are whether the allocations succeed; without the
    buckets the table is freed twice. *)
Definition hash_create (size : Z) (h_ok bucket_ok : bool) : outcome (option hash_t) :=
  let hashElem := Z.shiftl 1 size in
  if h_ok then
    if bucket_ok then Done (Some (mkHash size 0 0 hashElem (replicate (Z.to_nat hashElem) None))) else Undef
  else Done None.

Section Hash.
Context (keyFunc : Z -> Z -> Z).

(** The node that [list_remove_match] answered is freed with its record. *)
Definition release (removed : Z) (m : hash_mem) : outcome hash_mem :=
  '(r, s) ← node_destroy removed (nodes m);
  record_destroy r (with_store s m).

(** [do ... while (removed != NULL)]: what is left of a list is destroyed
    with its last node. *)
Fixpoint remove_loop (fuel : nat) (h : hash_t) (index node : Z) (m : hash_mem) : outcome (hash_t * hash_mem) :=
  match fuel with
  | O => NoFuel
  | S f =>
      b ← of_option (aget (bucket h) index);
      match b with
      | None => Done (h, m)
      | Some l =>
          '(removed, l, s) ← list_remove_match (hash_compare_record (records m)) (fuel_for (nodes m)) l node (nodes m);
          let m := with_store s m in
          if removed =? 0 then h ← with_slot index (Some l) h; Done (h, m)
          else
            let h := with_total (u64 (numTotalElem h - 1)) (numActiveSlots h) h in
            len ← list_length (fuel_for s) l s;
            '(h, m) ← (if len =? 0 then
                         '(_, _, s) ← pop_all (fuel_for s) l s;
                         h ← with_slot index None (with_total (numTotalElem h) (u64 (numActiveSlots h - 1)) h);
                         Done (h, with_store s m)
                       else h ← with_slot index (Some l) h; Done (h, m));
            m ← release removed m;
            remove_loop f h index node m
      end
  end.

(** [ra], [na]: the new record and node.  The list of a new bucket is taken
    to be granted. *)
Definition hash_set (h : hash_t) (key value ra na : Z) (m : hash_mem) : outcome (hash_t * hash_mem) :=
  let hKey := keyFunc (size h) key in
  if negb (hash_is_valid_index h hKey) then Done (h, m)
  else
    let index := hash_key_to_index h hKey in
    let '(record, m) := record_create key value ra m in
    let '(node, s) := node_create record na (nodes m) in
    let m := with_store s m in
    b ← of_option (aget (bucket h) index);
    match b with
    | None =>
        if negb (value =? 0) then
          '(l, s) ← list_push list_create node (nodes m);
          h ← with_slot index (Some l) h;
          Done (with_total (u64 (numTotalElem h + 1)) (u64 (numActiveSlots h + 1)) h, with_store s m)
        else
          m ← release node m; Done (h, m)
    | Some l =>
        if value =? 0 then remove_loop (fuel_for (nodes m)) h index node m
        else
          '(removed, l, s) ← list_remove_match (hash_compare_record (records m)) (fuel_for (nodes m)) l node (nodes m);
          let m := with_store s m in
          '(h, m) ← (if removed =? 0 then Done (h, m)
                     else m ← release removed m;
                          Done (with_total (u64 (numTotalElem h - 1)) (numActiveSlots h) h, m));
          '(node, l, s) ← list_insert (hash_compare_record (records m)) (fuel_for (nodes m)) l node true (nodes m);
          h ← with_slot index (Some l) h;
          Done (if node =? 0 then h else with_total (u64 (numTotalElem h + 1)) (numActiveSlots h) h, with_store s m)
    end.

(** [None]: not found, and the value is not written. *)
Definition hash_get (h : hash_t) (key ra na : Z) (m : hash_mem) : outcome (option Z * hash_mem) :=
  let hKey := keyFunc (size h) key in
  if negb (0 <? numActiveSlots h) || negb (hash_is_valid_index h hKey) then Done (None, m)
  else
    b ← of_option (aget (bucket h) (hash_key_to_index h hKey));
    match b with
    | None => Done (None, m)
    | Some l =>
        let '(record, m) := record_create key 0 ra m in
        let '(node, s) := node_create record na (nodes m) in
        let m := with_store s m in
        desired ← list_search (hash_compare_record (records m)) (fuel_for s) l node s;
        found ← (if desired =? 0 then Done None
                 else n ← deref desired s; r ← of_option (records m !! node_data n); Done (Some (r_value r)));
        '(_, s) ← node_destroy node s;
        m ← record_destroy record (with_store s m);
        Done (found, m)
    end.

(** [while (h->bucket[index] == NULL && index < h->numSlots)]: the slot is
    read before the bound is tested. *)
Fixpoint clean_scan (fuel : nat) (h : hash_t) (index : Z) : outcome Z :=
  match fuel with
  | O => NoFuel
  | S f =>
      b ← of_option (aget (bucket h) index);
      match b with
      | None => if index <? numSlots h then clean_scan f h (u32 (index + 1)) else Done index
      | Some _ => Done index
      end
  end.

(** [index] is the function's static variable; the answer is the count, and
    the value when one is written. *)
Definition hash_clean (h : hash_t) (index : Z) (m : hash_mem) : outcome (Z * option Z * hash_t * Z * hash_mem) :=
  if negb (0 <? numActiveSlots h) then Done (0, None, h, index, m)
  else
    index ← clean_scan (S (S (Z.to_nat (numSlots h)))) h index;
    let index := if numSlots h <=? index then 0 else index in
    if index <? numSlots h then
      b ← of_option (aget (bucket h) index);
      match b with
      | None => Done (numTotalElem h, None, h, index, m)
      | Some l =>
          '(node, l, s) ← list_pop l (nodes m);
          let m := with_store s m in
          h ← with_slot index (Some l) h;
          if node =? 0 then Done (numTotalElem h, None, h, index, m)
          else
            n ← deref node s;
            r ← of_option (records m !! node_data n);
            let h := with_total (u64 (numTotalElem h - 1)) (numActiveSlots h) h in
            len ← list_length (fuel_for s) l s;
            '(h, m) ← (if len =? 0 then
                         '(_, _, s) ← pop_all (fuel_for s) l s;
                         h ← with_slot index None (with_total (numTotalElem h) (u64 (numActiveSlots h - 1)) h);
                         Done (h, with_store s m)
                       else Done (h, m));
            Done (numTotalElem h, Some (r_value r), h, index, m)
      end
    else Done (numTotalElem h, None, h, index, m).

Definition hash_length (h : hash_t) : Z := numTotalElem h.
End Hash.
