(* ===== verification/SosalHashMap.v ===== *)
(** * Facts about hash tables: records, buckets, and a table as a map *)
From S2P Require Import Prelude SosalList SosalListFacts SosalListProperties SosalHash.

Implicit Types (s : store) (rs : gmap Z record_t) (m : hash_mem) (h : hash_t) (xs ys : list Z) (mp : gmap Z Z).

(** ** The record of a node *)

Definition rptr m (x : Z) : Z := bptr (nodes m) x.
Definition rec_at m (x : Z) : record_t := default (mkRecord 0 0) (records m !! rptr m x).
Definition has_rec m (x : Z) : Prop := x <> 0 /\ rptr m x <> 0 /\ is_Some (records m !! rptr m x).
Abbreviation rkey m x := (r_key (rec_at m x)).
Abbreviation rval m x := (r_value (rec_at m x)).

(** [x] points to the same record, with the same contents. *)
Definition same_rec m m' (x : Z) : Prop :=
  rptr m' x = rptr m x /\ records m' !! rptr m x = records m !! rptr m x.

Lemma same_rec_refl m x : same_rec m m x.
Proof. done. Qed.
Lemma same_rec_trans m m' m'' x : same_rec m m' x -> same_rec m' m'' x -> same_rec m m'' x.
Proof. intros [H1 H2] [H3 H4]. split; [congruence|]. rewrite H1 in H4. congruence. Qed.
Lemma same_rec_at m m' x : same_rec m m' x -> rec_at m' x = rec_at m x.
Proof. intros [H1 H2]. unfold rec_at. by rewrite H1, H2. Qed.
Lemma same_rec_has m m' x : same_rec m m' x -> has_rec m x -> has_rec m' x.
Proof. intros [H1 H2] (? & ? & ?). unfold has_rec. by rewrite H1, H2. Qed.
Lemma same_data_rec m s x : same_data (nodes m) s -> same_rec m (with_store s m) x.
Proof. intros H. split; [by apply bptr_same|done]. Qed.

Lemma has_rec_node m x : has_rec m x -> exists n, nodes m !! x = Some n /\ deref x (nodes m) = Done n /\
  node_data n = rptr m x /\ records m !! node_data n = Some (rec_at m x).
Proof.
  intros (Hx & Hp & [r Hr]). unfold rec_at, rptr, bptr in *. destruct (nodes m !! x) as [n|] eqn:Hn; [|done]. cbn [from_option] in *.
  exists n. split_and!; [done|by apply deref_Some|done|by rewrite Hr].
Qed.

Lemma rec_compares m xs : (forall x, x ∈ xs -> has_rec m x) ->
  compares (hash_compare_record (records m)) (fun x => rkey m x) (nodes m) xs.
Proof.
  intros Hx. split.
  - intros a b Ha Hb. destruct (has_rec_node m a (Hx a Ha)) as (na & _ & Hna & Hpa & Hra).
    destruct (has_rec_node m b (Hx b Hb)) as (nb & _ & Hnb & Hpb & Hrb).
    destruct (Hx a Ha) as (Ha0 & Hpa0 & _), (Hx b Hb) as (Hb0 & Hpb0 & _). unfold hash_compare_record.
    rewrite (proj2 (Z.eqb_neq a 0)), (proj2 (Z.eqb_neq b 0)), Hna, Hnb by done. cbn [orb mbind outcome_bind].
    rewrite (proj2 (Z.eqb_neq (node_data na) 0)), (proj2 (Z.eqb_neq (node_data nb) 0)), Hra, Hrb by congruence.
    cbn [orb of_option mbind outcome_bind]. eexists. split; [done|].
    destruct (Z.ltb_spec (rkey m b) (rkey m a)), (Z.eqb_spec (rkey m a) (rkey m b)); lia.
  - intros a Ha. unfold hash_compare_record. by rewrite orb_true_r.
Qed.

(** What a search with a node of the key [k] finds. *)
Lemma first_filter (P : Z -> Prop) `{!forall x, Decision (P x)} xs : 0 ∉ xs ->
  (first (filter P xs) 0 = 0 /\ forall x, x ∈ xs -> ~ P x) \/
  (first (filter P xs) 0 ∈ xs /\ P (first (filter P xs) 0)).
Proof.
  intros H0. destruct (filter P xs) as [|x r] eqn:Hf; [left|right]; cbn [first].
  - split; [done|]. intros x Hx HP. assert (x ∈ filter P xs) as Hin by by apply list_elem_of_filter. rewrite Hf in Hin. by apply elem_of_nil in Hin.
  - assert (x ∈ filter P xs) as Hin by (rewrite Hf; by left). by apply list_elem_of_filter in Hin as [? ?].
Qed.

(** ** New and released records *)

(** [record_create] and [node_create] with granted memory *)
Definition new_mem (key value ra na : Z) m : hash_mem :=
  mkHashMem (<[na := mkListNode 0 0 ra]> (nodes m)) (<[ra := mkRecord key value]> (records m)).
(** Addresses as [calloc] answers them. *)
Definition fresh_rec (ra na : Z) m : Prop :=
  ra <> 0 /\ na <> 0 /\ nodes m !! na = None /\ records m !! ra = None.

Section New.
Context (key value ra na : Z) (m : hash_mem) (Hf : fresh_rec ra na m).

Lemma new_steps : record_create key value ra m = (ra, mkHashMem (nodes m) (<[ra := mkRecord key value]> (records m))) /\
  node_create ra na (nodes m) = (na, <[na := mkListNode 0 0 ra]> (nodes m)).
Proof.
  destruct Hf as (Hr & Hn & _). unfold record_create, node_create.
  by rewrite (proj2 (Z.eqb_neq ra 0)), (proj2 (Z.eqb_neq na 0)).
Qed.
Lemma new_has : has_rec (new_mem key value ra na m) na /\ rec_at (new_mem key value ra na m) na = mkRecord key value /\
  rptr (new_mem key value ra na m) na = ra.
Proof.
  destruct Hf as (Hr & Hn & _). unfold has_rec, rec_at, rptr, bptr, new_mem. cbn [nodes records].
  rewrite lookup_insert_eq. cbn [from_option node_data]. rewrite lookup_insert_eq. by split_and!.
Qed.
Lemma new_other x : has_rec m x -> x <> na /\ rptr m x <> ra /\ same_rec m (new_mem key value ra na m) x.
Proof.
  destruct Hf as (Hr & Hn & Hna & Hra). intros Hx. pose proof Hx as (_ & Hp & [r Hrec]).
  destruct (has_rec_node m x Hx) as (n & Hnx & _). assert (x <> na) as Hxn by congruence.
  assert (rptr m x <> ra) as Hpr by congruence. split; [done|]. split; [done|].
  unfold same_rec, rptr, bptr, new_mem. cbn [nodes records]. rewrite lookup_insert_ne by done. split; [done|].
  by rewrite lookup_insert_ne.
Qed.
Lemma new_dll l xs : dll l (nodes m) xs -> dll l (nodes (new_mem key value ra na m)) xs.
Proof.
  intros Hd. apply (dll_frame l (nodes m) _ xs [na]); [| |done].
  - intros x Hx. cbn. apply lookup_insert_ne. set_solver.
  - intros x Hx ->%list_elem_of_singleton. apply dll_chain, proj1 in Hd.
    destruct (chain_dom _ _ _ _ Hd Hx). destruct Hf as (_ & _ & ? & _). congruence.
Qed.
End New.

Lemma release_spec x m : has_rec m x -> release x m = Done (mkHashMem (delete x (nodes m)) (delete (rptr m x) (records m))).
Proof.
  intros Hx. destruct (has_rec_node m x Hx) as (n & _ & Hn & Hp & Hr). destruct Hx as (Hx0 & Hp0 & _).
  unfold release, node_destroy. rewrite (proj2 (Z.eqb_neq x 0)), Hn by done. cbn [mbind outcome_bind].
  unfold record_destroy. rewrite Hp. rewrite (proj2 (Z.eqb_neq (rptr m x) 0)) by done. cbn [records with_store].
  rewrite <- Hp, Hr. done.
Qed.
Lemma released_other m x y : has_rec m x -> has_rec m y -> y <> x -> rptr m y <> rptr m x ->
  same_rec m (mkHashMem (delete x (nodes m)) (delete (rptr m x) (records m))) y.
Proof.
  intros Hx Hy Hne Hp. unfold same_rec, rptr, bptr. cbn [nodes records]. rewrite lookup_delete_ne by done. split; [done|].
  by apply lookup_delete_ne.
Qed.

(** ** Taking a key out of a bucket *)

Lemma fuel_enough l s xs : dll l s xs -> (length xs < fuel_for s)%nat.
Proof. intros [Hc _]%dll_chain. apply chain_length in Hc. unfold fuel_for. lia. Qed.

Lemma bucket_length l s xs : dll l s xs -> Z.of_nat (base.size s) < 2 ^ 64 ->
  list_length (fuel_for s) l s = Done (Z.of_nat (length xs)).
Proof.
  intros Hd Hs. pose proof (fuel_enough l s xs Hd) as Hf. pose proof Hd as [Hc _]%dll_chain. pose proof (chain_length _ _ _ Hc).
  destruct Hc as (Hh & Hseg & _ & H0). unfold list_length. rewrite Hh. rewrite (length_loop_spec s xs 0) by (done || lia). done.
Qed.

Section Bucket.
Context (l : list_t) (xs : list Z) (na : Z) (m : hash_mem).
Context (Hl : dll l (nodes m) xs) (Hrec : forall x, x ∈ na :: xs -> has_rec m x) (Hna : na ∉ xs).

Lemma bucket_search : let found := first (filter (fun x => rkey m x = rkey m na) xs) 0 in
  list_search (hash_compare_record (records m)) (fuel_for (nodes m)) l na (nodes m) = Done found /\
  ((found = 0 /\ forall x, x ∈ xs -> rkey m x <> rkey m na) \/ (found ∈ xs /\ rkey m found = rkey m na)).
Proof.
  intros found. split.
  - apply (list_search_spec _ (fun x => rkey m x) l (nodes m) xs).
    + by apply dll_chain in Hl as [? _].
    + apply (Hrec na). by left.
    + by apply rec_compares.
    + by apply (fuel_enough l).
  - apply (first_filter (fun x => rkey m x = rkey m na)), Hl.
Qed.

Lemma bucket_remove : exists found l' s',
  list_remove_match (hash_compare_record (records m)) (fuel_for (nodes m)) l na (nodes m) = Done (found, l', s') /\
  dll l' s' (without found xs) /\ same_data (nodes m) s' /\ same_off xs (nodes m) s' /\
  ((found = 0 /\ forall x, x ∈ xs -> rkey m x <> rkey m na) \/ (found ∈ xs /\ rkey m found = rkey m na)).
Proof.
  destruct (remove_match_spec (hash_compare_record (records m)) (fun x => rkey m x) l (nodes m) xs na (fuel_for (nodes m)) Hl)
    as (l' & s' & He & Hd & Hsd & Ho).
  - apply (Hrec na). by left.
  - by apply rec_compares.
  - by apply (fuel_enough l).
  - eexists _, l', s'. split; [exact He|]. split; [exact Hd|]. split; [exact Hsd|]. split; [exact Ho|].
    apply (first_filter (fun x => rkey m x = rkey m na)), Hl.
Qed.

(** The node in its place; the order is that of [ins]. *)
Lemma bucket_insert : exists l' s' xs',
  list_insert (hash_compare_record (records m)) (fuel_for (nodes m)) l na true (nodes m) = Done (na, l', s') /\
  dll l' s' xs' /\ xs' ≡ₚ na :: xs /\ same_data (nodes m) s' /\ same_off (na :: xs) (nodes m) s'.
Proof.
  pose proof Hl as [Hc Ht]%dll_chain. destruct (has_rec_node m na (Hrec na ltac:(by left))) as (n & Hn & _).
  destruct (insert_spec (hash_compare_record (records m)) (fun x => rkey m x) true l (nodes m) na xs (fuel_for (nodes m)) Hc)
    as (l' & s' & He & Hc' & [Htf _] & Hsd).
  - split_and!; [apply (Hrec na); by left|done|by eexists].
  - by apply rec_compares.
  - by apply Nat.lt_le_incl, (fuel_enough l).
  - eexists l', s', _. split; [exact He|]. split; [apply dll_chain; split; [exact Hc'|by apply Htf]|]. split; [apply ins_perm|done].
Qed.
(** No node has the key, or one has. *)
Lemma bucket_cases : (forall x, x ∈ xs -> rkey m x <> rkey m na) \/ exists x, x ∈ xs /\ rkey m x = rkey m na.
Proof. destruct bucket_search as [_ [[_ H]|H]]; [by left|right; by eexists]. Qed.

Lemma bucket_miss : (forall x, x ∈ xs -> rkey m x <> rkey m na) ->
  list_remove_match (hash_compare_record (records m)) (fuel_for (nodes m)) l na (nodes m) = Done (0, l, nodes m).
Proof.
  intros Hno. destruct bucket_search as [He [[Hz _]|[Hin Hkey]]]; [|by destruct (Hno _ Hin)].
  unfold list_remove_match. by rewrite He, Hz.
Qed.

(** The node found is freed with its record, and the rest of the bucket is
    as it was. *)
Lemma bucket_drop x : (forall y z, y ∈ xs -> z ∈ xs -> rkey m y = rkey m z \/ rptr m y = rptr m z -> y = z) ->
  x ∈ xs -> rkey m x = rkey m na ->
  exists l' s' m', list_remove_match (hash_compare_record (records m)) (fuel_for (nodes m)) l na (nodes m) = Done (x, l', s') /\
    dll l' s' (without x xs) /\ release x (with_store s' m) = Done m' /\ dll l' (nodes m') (without x xs) /\
    (forall y, has_rec m y -> y <> x -> rptr m y <> rptr m x -> same_rec m m' y) /\
    same_off xs (nodes m) (nodes m') /\ (S (base.size (nodes m')) = base.size (nodes m))%nat /\ base.size s' = base.size (nodes m).
Proof.
  intros Hinj Hx Hk. destruct bucket_remove as (found & l' & s' & He & Hd & Hsd & Ho & [[_ Hno]|[Hin Hkey]]); [by destruct (Hno x Hx)|].
  assert (found = x) as -> by (apply Hinj; [done|done|left; congruence]).
  assert (forall y, has_rec m y -> has_rec (with_store s' m) y) as Hs by (intros y; by apply same_rec_has, same_data_rec).
  assert (has_rec m x) as Hrx by (apply Hrec; by right).
  assert (rptr (with_store s' m) x = rptr m x) as Hpx by (by apply same_data_rec).
  eexists l', s', _. split; [exact He|]. split; [exact Hd|]. split; [by apply release_spec, Hs|]. rewrite Hpx. cbn [nodes with_store].
  pose proof (same_data_size _ _ Hsd) as Hsz. split_and!.
  - apply (dll_frame l' s' _ _ [x]); [| |done].
    + intros y Hy. cbn. apply lookup_delete_ne. set_solver.
    + intros y Hy ->%list_elem_of_singleton. unfold without in Hy. by apply list_elem_of_filter in Hy as [? _].
  - intros y Hy Hne Hp. apply (same_rec_trans _ (with_store s' m)); [by apply same_data_rec|].
    pose proof (released_other (with_store s' m) x y (Hs x Hrx) (Hs y Hy) Hne) as Hr. rewrite Hpx in Hr. apply Hr.
    by rewrite (proj1 (same_data_rec m s' y Hsd)).
  - intros y Hy. rewrite lookup_delete_ne by (by intros ->). by apply Ho.
  - rewrite <- Hsz. destruct (has_rec_node _ x (Hs x Hrx)) as (n & Hn & _). cbn [nodes with_store] in Hn.
    rewrite (map_size_delete_Some x s') by by eexists. apply Nat.succ_pred. intros H0. apply map_size_empty_inv in H0. subst s'. done.
  - done.
Qed.
End Bucket.

Implicit Types (xss : list (list Z)).

(** A slot has no list, or one that is not empty. *)
Definition bucket_ok s (b : option list_t) xs : Prop :=
  match b with None => xs = [] | Some l => dll l s xs /\ xs <> [] end.
Definition active (b : option list_t) : Z := match b with None => 0 | Some _ => 1 end.
(** [x] is in some bucket. *)
Definition member xss (x : Z) : Prop := exists (i : nat) xs, xss !! i = Some xs /\ x ∈ xs.

Section Map.
Context (keyFunc : Z -> Z -> Z).

(** [xss]: the nodes of every slot; [mp]: the map they make. *)
Record hash_rep h m xss mp : Prop := {
  hr_lists : Forall2 (bucket_ok (nodes m)) (bucket h) xss;
  hr_recs : forall (i : nat) xs x, xss !! i = Some xs -> x ∈ xs ->
    has_rec m x /\ rval m x <> 0 /\ keyFunc (size h) (rkey m x) = Z.of_nat i;
  hr_inj : forall x y, member xss x -> member xss y -> rkey m x = rkey m y \/ rptr m x = rptr m y -> x = y;
  hr_map : forall k v, mp !! k = Some v <-> exists x, member xss x /\ rkey m x = k /\ rval m x = v;
  hr_total : numTotalElem h = Z.of_nat (base.size mp) /\ Z.of_nat (base.size mp) < 2 ^ 64;
  hr_active : numActiveSlots h = Zsum (active <$> bucket h) }.

Lemma member_rec h m xss mp x : hash_rep h m xss mp -> member xss x -> has_rec m x.
Proof. intros Hr (i & xs & Hi & Hx). by apply (hr_recs _ _ _ _ Hr i xs). Qed.

(** The key of a node tells its slot. *)
Lemma member_at h m xss mp x (i : nat) xs : hash_rep h m xss mp -> member xss x -> xss !! i = Some xs ->
  keyFunc (size h) (rkey m x) = Z.of_nat i -> x ∈ xs.
Proof.
  intros Hr (j & ys & Hj & Hx) Hi Hk. destruct (hr_recs _ _ _ _ Hr j ys x Hj Hx) as (_ & _ & Hk').
  assert (i = j) as -> by lia. congruence.
Qed.

Lemma elsewhere h m xss mp x (i j : nat) xs ys : hash_rep h m xss mp -> xss !! i = Some xs -> xss !! j = Some ys ->
  i <> j -> x ∈ ys -> member xss x /\ x ∉ xs.
Proof.
  intros Hr Hi Hj Hne Hx. split; [by exists j, ys|]. intros Hxs. destruct (hr_recs _ _ _ _ Hr i xs x Hi Hxs) as (_ & _ & H1).
  destruct (hr_recs _ _ _ _ Hr j ys x Hj Hx) as (_ & _ & H2). lia.
Qed.
Lemma member_insert h m xss mp (i : nat) xs xs' x : hash_rep h m xss mp -> xss !! i = Some xs ->
  member (<[i := xs']> xss) x <-> x ∈ xs' \/ (member xss x /\ x ∉ xs).
Proof.
  intros Hr Hi. split.
  - intros (j & ys & Hj & Hx). apply list_lookup_insert_Some in Hj as [(<- & <- & _)|[Hne Hj]]; [by left|right].
    by eapply elsewhere.
  - intros [Hx|[(j & ys & Hj & Hx) Hn]].
    + exists i, xs'. split; [apply list_lookup_insert_eq; by eapply lookup_lt_Some|done].
    + exists j, ys. split; [|done]. rewrite list_lookup_insert_ne; [done|]. intros <-. congruence.
Qed.

(** A slot changes from [xs] to [xs']. *)
Lemma hash_update h m xss mp (i : nat) xs b h' m' b' xs' mp' :
  hash_rep h m xss mp -> xss !! i = Some xs -> bucket h !! i = Some b ->
  (forall x, member xss x -> x ∉ xs -> same_rec m m' x) ->
  (forall l ys, (forall x, x ∈ ys -> member xss x /\ x ∉ xs) -> dll l (nodes m) ys -> dll l (nodes m') ys) ->
  bucket_ok (nodes m') b' xs' ->
  (forall x, x ∈ xs' -> has_rec m' x /\ rval m' x <> 0 /\ keyFunc (size h) (rkey m' x) = Z.of_nat i) ->
  (forall x y, x ∈ xs' -> y ∈ xs' -> rkey m' x = rkey m' y \/ rptr m' x = rptr m' y -> x = y) ->
  (forall x y, x ∈ xs' -> member xss y -> y ∉ xs -> rptr m' x <> rptr m y) ->
  (forall k, keyFunc (size h) k <> Z.of_nat i -> mp' !! k = mp !! k) ->
  (forall k v, keyFunc (size h) k = Z.of_nat i -> mp' !! k = Some v <-> exists x, x ∈ xs' /\ rkey m' x = k /\ rval m' x = v) ->
  size h' = size h -> bucket h' = <[i := b']> (bucket h) ->
  numTotalElem h' = Z.of_nat (base.size mp') /\ Z.of_nat (base.size mp') < 2 ^ 64 ->
  numActiveSlots h' - active b' = numActiveSlots h - active b ->
  hash_rep h' m' (<[i := xs']> xss) mp'.
Proof.
  intros Hr Hi Hb Hsame Hdll Hb' Hrec' Hinj' Hptr' Hmo Hmi Hsz Hbk Ht Ha.
  pose proof Hr as [Hls Hrecs Hinj Hmap _ Hact].
  assert (forall x, member (<[i := xs']> xss) x <-> x ∈ xs' \/ (member xss x /\ x ∉ xs)) as Hmem.
  { intros x. by eapply member_insert. }
  assert (forall x, member xss x -> x ∉ xs -> rec_at m' x = rec_at m x) as Hat by (intros; by apply same_rec_at, Hsame).
  assert (forall x, member xss x -> x ∉ xs -> keyFunc (size h) (rkey m x) <> Z.of_nat i) as Hout.
  { intros x Hx Hn He. apply Hn. by eapply member_at. }
  split.
  - rewrite Hbk. apply Forall2_same_length_lookup_2; [by rewrite !length_insert, (Forall2_length _ _ _ Hls)|].
    intros j c ys Hc Hy. apply list_lookup_insert_Some in Hy as [(<- & <- & _)|[Hne Hy]].
    + rewrite list_lookup_insert_eq in Hc by (by eapply lookup_lt_Some). by injection Hc as <-.
    + rewrite list_lookup_insert_ne in Hc by done. pose proof (Forall2_lookup_lr _ _ _ _ _ _ Hls Hc Hy) as Hok.
      destruct c as [l|]; [|done]. destruct Hok as [Hd Hn]. split; [|done]. apply Hdll; [|done].
      intros x Hx. by eapply elsewhere.
  - intros j ys x Hj Hx. rewrite Hsz. apply list_lookup_insert_Some in Hj as [(<- & <- & _)|[Hne Hj]]; [by apply Hrec'|].
    destruct (elsewhere _ _ _ _ x _ _ _ _ Hr Hi Hj Hne Hx) as [Hm Hn].
    rewrite Hat by done. destruct (Hrecs j ys x Hj Hx) as (H1 & H2 & H3). split; [|done].
    by apply (same_rec_has m); [apply Hsame|].
  - intros x y [Hx|[Hx Hxn]]%Hmem [Hy|[Hy Hyn]]%Hmem He; [by apply Hinj'| | |].
    + exfalso. rewrite (Hat y), (proj1 (Hsame y Hy Hyn)) in He by done. destruct He as [He|He]; [|by apply (Hptr' x y)].
      destruct (Hrec' x Hx) as (_ & _ & H1). apply (Hout y Hy Hyn). congruence.
    + exfalso. rewrite (Hat x), (proj1 (Hsame x Hx Hxn)) in He by done. destruct He as [He|He]; [|by apply (Hptr' y x)].
      destruct (Hrec' y Hy) as (_ & _ & H1). apply (Hout x Hx Hxn). congruence.
    + rewrite !Hat, (proj1 (Hsame x Hx Hxn)), (proj1 (Hsame y Hy Hyn)) in He by done. by apply Hinj.
  - intros k v. destruct (decide (keyFunc (size h) k = Z.of_nat i)) as [Hk|Hk].
    + rewrite Hmi by done. split.
      * intros (x & Hx & Hkv). exists x. split; [apply Hmem; by left|done].
      * intros (x & [Hx|[Hx Hn]]%Hmem & H1 & H2); [by exists x|]. rewrite Hat in H1 by done.
        exfalso. apply (Hout x Hx Hn). congruence.
    + rewrite Hmo, Hmap by done. split.
      * intros (x & Hx & H1 & H2). assert (x ∉ xs) as Hn.
        { intros Hxs. destruct (Hrecs i xs x Hi Hxs) as (_ & _ & H3). congruence. }
        exists x. rewrite Hat by done. split; [apply Hmem; by right|done].
      * intros (x & [Hx|[Hx Hn]]%Hmem & H1 & H2).
        { destruct (Hrec' x Hx) as (_ & _ & H3). congruence. }
        rewrite Hat in H1, H2 by done. by exists x.
  - done.
  - rewrite Hbk, (Zsum_insert active _ _ _ b' Hb). lia.
Qed.
(** ** The slot of a key *)

Definition hash_shape h m : Prop :=
  valid_size (size h) = true /\ numSlots h = 2 ^ size h /\ Z.of_nat (length (bucket h)) = numSlots h /\
  Z.of_nat (base.size (nodes m)) < 2 ^ 64 - 1.
Definition good_key h (k : Z) : Prop := 0 <= keyFunc (size h) k < 2 ^ size h.

Lemma size_bound sz : valid_size sz = true -> 8 <= sz <= 16.
Proof. unfold valid_size, HASH_SIZE_SMALL, HASH_SIZE_MEDIUM, HASH_SIZE_LARGE. intros H. repeat (apply orb_true_iff in H as [H|H]); lia. Qed.

Lemma slot_of h m xss mp k : hash_rep h m xss mp -> hash_shape h m -> good_key h k ->
  hash_is_valid_index h (keyFunc (size h) k) = true /\
  exists (i : nat) b xs, keyFunc (size h) k = Z.of_nat i /\ hash_key_to_index h (keyFunc (size h) k) = Z.of_nat i /\
    aget (bucket h) (Z.of_nat i) = Some b /\ bucket h !! i = Some b /\ xss !! i = Some xs /\ bucket_ok (nodes m) b xs /\
    (forall v, mp !! k = Some v <-> exists x, x ∈ xs /\ rkey m x = k /\ rval m x = v).
Proof.
  intros Hr (Hv & Hn & Hl & _) Hk. unfold good_key in Hk. pose proof (size_bound _ Hv) as Hsz.
  assert (2 ^ size h <= 2 ^ 16) as Hp by (apply Z.pow_le_mono_r; lia).
  unfold hash_is_valid_index, hash_key_to_index. rewrite Hv, Hn, (proj2 (Z.ltb_lt _ _)) by lia. split; [done|].
  assert (Z.of_nat (Z.to_nat (keyFunc (size h) k)) = keyFunc (size h) k) as Hi by lia.
  destruct (lookup_lt_is_Some_2 (bucket h) (Z.to_nat (keyFunc (size h) k))) as (b & Hb); [lia|].
  destruct (Forall2_lookup_l _ _ _ _ _ (hr_lists _ _ _ _ Hr) Hb) as (xs & Hxs & Hok).
  exists (Z.to_nat (keyFunc (size h) k)), b, xs. rewrite Hi. split_and!; try done.
  - by rewrite u32_small by (unfold is_u32; lia).
  - rewrite <- Hi, aget_nat. done.
  - intros v. rewrite (hr_map _ _ _ _ Hr). split; intros (x & Hx & H1 & H2).
    + exists x. split; [|done]. eapply (member_at _ _ _ _ _ _ _ Hr); [done|done|]. by rewrite H1.
    + exists x. split; [by exists (Z.to_nat (keyFunc (size h) k)), xs|done].
Qed.

(** A bucket without the key, and one with it. *)
Lemma key_absent m mp xs k : (forall v, mp !! k = Some v <-> exists x, x ∈ xs /\ rkey m x = k /\ rval m x = v) ->
  (forall x, x ∈ xs -> rkey m x <> k) -> mp !! k = None.
Proof. intros Hm Hx. apply eq_None_not_Some. intros [v (x & Hin & H & _)%Hm]. by destruct (Hx x). Qed.
Lemma key_present m mp xs x : (forall v, mp !! rkey m x = Some v <-> exists y, y ∈ xs /\ rkey m y = rkey m x /\ rval m y = v) ->
  x ∈ xs -> mp !! rkey m x = Some (rval m x).
Proof. intros Hm Hx. apply Hm. by exists x. Qed.

Lemma with_slot_at h (i : nat) b : (i < length (bucket h))%nat ->
  with_slot (Z.of_nat i) b h = Done (mkHash (size h) (numTotalElem h) (numActiveSlots h) (numSlots h) (<[i := b]> (bucket h))).
Proof. intros Hi. unfold with_slot. by rewrite aset_nat. Qed.
End Map.
