(* ===== verification/SosalHashProperties.v ===== *)
(** * The operations of a hash table and their properties

    What each call does to the map of a table; then programs: calls on a
    table are calls on a map. *)
From S2P Require Import Prelude SosalList SosalListFacts SosalListProperties SosalHash SosalHashMap.

Implicit Types (m : hash_mem) (h : hash_t) (xs : list Z) (xss : list (list Z)) (mp : gmap Z Z).

Section Ops.
Context (keyFunc : Z -> Z -> Z).

(** The table [h] in the memory [m] is the map [mp]. *)
Definition hash_ok h m mp : Prop := hash_shape h m /\ exists xss, hash_rep keyFunc h m xss mp.
Abbreviation good_key := (good_key keyFunc).

Lemma active_nonneg bs : 0 <= Zsum (active <$> bs).
Proof. apply Zsum_nonneg, Forall_fmap, Forall_true. by intros [?|]. Qed.
Lemma active_pos bs (i : nat) l : bs !! i = Some (Some l) -> 0 < Zsum (active <$> bs).
Proof.
  intros (pre & post & -> & _)%lookup_insert_split. rewrite fmap_app, fmap_cons, Zsum_app, Zsum_cons.
  pose proof (active_nonneg pre). pose proof (active_nonneg post). cbn [active]. lia.
Qed.

(** Creating a node and its record leaves the table as it is. *)
Lemma create_node key value ra na m : fresh_rec ra na m ->
  (let '(record, m) := record_create key value ra m in
   let '(node, s) := node_create record na (nodes m) in (record, node, with_store s m)) =
  (ra, na, new_mem key value ra na m).
Proof. intros Hf. destruct (new_steps key value ra na m Hf) as [-> H]. cbn [nodes]. by rewrite H. Qed.

Lemma table_get_spec h m mp k ra na : hash_ok h m mp -> good_key h k -> fresh_rec ra na m ->
  hash_get keyFunc h k ra na m = Done (mp !! k, m).
Proof.
  intros (Hsh & xss & Hr) Hk Hf. destruct (slot_of keyFunc h m xss mp k Hr Hsh Hk)
    as (Hv & i & b & xs & Hi & Hx & Hg & Hb & Hxs & Hok & Hm).
  assert (b = None -> mp !! k = None) as Hnone.
  { intros ->. cbn in Hok. subst xs. eapply key_absent; [exact Hm|]. by intros x ?%elem_of_nil. }
  unfold hash_get. rewrite Hv, (hr_active _ _ _ _ _ Hr). destruct (Z.ltb_spec 0 (Zsum (active <$> bucket h))) as [Ha|Ha]; cbn [negb orb].
  2: { destruct b as [l|]; [|by rewrite Hnone]. pose proof (active_pos _ _ _ Hb). lia. }
  rewrite Hx, Hg. cbn [of_option mbind outcome_bind]. destruct b as [l|]; [|by rewrite Hnone].
  destruct Hok as [Hd _]. destruct (new_steps k 0 ra na m Hf) as [-> Hn]. cbn [nodes]. rewrite Hn. cbn [with_store records].
  destruct (new_has k 0 ra na m Hf) as (Hhas & Hat & Hptr).
  assert (forall x, x ∈ xs -> has_rec m x) as Hrec by (intros x Hin; by apply (hr_recs _ _ _ _ _ Hr i xs)).
  assert (na ∉ xs) as Hna by (intros Hin; by destruct (new_other k 0 ra na m Hf na (Hrec na Hin)) as [? _]).
  destruct (bucket_search l xs na (new_mem k 0 ra na m)) as [Hs Hfound].
  { by apply new_dll. }
  { intros x [->|Hin]%elem_of_cons; [done|]. destruct (new_other k 0 ra na m Hf x (Hrec x Hin)) as (_ & _ & Hsame).
    by apply (same_rec_has m); [|apply Hrec]. }
  set (found := first _ 0) in Hs, Hfound. cbn [nodes records new_mem] in Hs. rewrite Hs. clear Hs. cbn [mbind outcome_bind].
  rewrite Hat in Hfound. cbn [r_key] in Hfound. clearbody found.
  assert ((if found =? 0 then Done None
     else n ← deref found (<[na:=mkListNode 0 0 ra]> (nodes m));
          r ← of_option (<[ra:=mkRecord k 0]> (records m) !! node_data n); Done (Some (r_value r))) = Done (mp !! k)) as ->.
  { destruct Hfound as [[-> Hno]|[Hin Hkey]].
    - cbn. rewrite (key_absent m mp xs k); [done|done|]. intros x Hin.
      destruct (new_other k 0 ra na m Hf x (Hrec x Hin)) as (_ & _ & Hsame). rewrite <- (same_rec_at _ _ _ Hsame). by apply Hno.
    - destruct (new_other k 0 ra na m Hf found (Hrec _ Hin)) as (_ & _ & Hsame).
      rewrite (proj2 (Z.eqb_neq found 0)) by apply (Hrec _ Hin).
      destruct (has_rec_node (new_mem k 0 ra na m) found) as (n & _ & Hdn & _ & Hrn); [by apply (same_rec_has m); [|apply Hrec]|].
      cbn [nodes records new_mem] in Hdn, Hrn. rewrite Hdn. cbn [mbind outcome_bind]. rewrite Hrn. cbn [of_option mbind outcome_bind].
      rewrite (same_rec_at _ _ _ Hsame) in *. subst k. by rewrite (key_present m mp xs found). }
  cbn [mbind outcome_bind]. destruct Hf as (Hr0 & Hn0 & Hnn & Hrr). unfold node_destroy, deref. rewrite (proj2 (Z.eqb_neq na 0)) by done.
  rewrite lookup_insert_eq. cbn [of_option mbind outcome_bind]. rewrite delete_insert_id by done.
  unfold record_destroy. rewrite (proj2 (Z.eqb_neq ra 0)) by done. cbn [with_store records nodes].
  rewrite lookup_insert_eq. cbn [of_option mbind outcome_bind]. rewrite delete_insert_id by done. by destruct m.
Qed.

Section Change.
Context (h : hash_t) (m : hash_mem) (xss : list (list Z)) (mp : gmap Z Z) (k v ra na : Z).
Context (i : nat) (b : option list_t) (xs : list Z).
Context (Hr : hash_rep keyFunc h m xss mp) (Hi : xss !! i = Some xs) (Hb : bucket h !! i = Some b).
Context (Hk : keyFunc (size h) k = Z.of_nat i) (Hf : fresh_rec ra na m).

Definition map_set mp k v : gmap Z Z := if v =? 0 then delete k mp else <[k := v]> mp.

Lemma map_set_lookup k' : map_set mp k v !! k' = if decide (k' = k) then if v =? 0 then None else Some v else mp !! k'.
Proof. unfold map_set. case_decide; destruct (v =? 0); subst; by simplify_map_eq. Qed.

(** The slot of [k] after [hash_set]: the node of [k] is out, and the new
    one in unless the value is zero. *)
Lemma hash_change h' m' b' xs' :
  same_off (na :: xs) (nodes m) (nodes m') ->
  (forall x, member xss x -> x ∉ xs \/ rkey m x <> k -> same_rec m m' x) ->
  bucket_ok (nodes m') b' xs' ->
  (forall x, x ∈ xs' <-> (x = na /\ v <> 0) \/ (x ∈ xs /\ rkey m x <> k)) ->
  (v <> 0 -> has_rec m' na /\ rec_at m' na = mkRecord k v /\ rptr m' na = ra) ->
  size h' = size h -> bucket h' = <[i := b']> (bucket h) ->
  numTotalElem h' = Z.of_nat (base.size (map_set mp k v)) -> Z.of_nat (base.size (map_set mp k v)) < 2 ^ 64 ->
  numActiveSlots h' - active b' = numActiveSlots h - active b ->
  hash_rep keyFunc h' m' (<[i := xs']> xss) (map_set mp k v).
Proof.
  intros Hoff Hsame Hb' Hxs' Hna Hsz Hbk Ht Hlt Ha. pose proof (hr_recs _ _ _ _ _ Hr i xs) as Hrec.
  assert (forall x, x ∈ xs -> member xss x) as Hmem by (intros; by exists i, xs).
  assert (forall x, x ∈ xs -> rkey m x <> k -> same_rec m m' x) as Hkept by auto.
  assert (forall x, member xss x -> x <> na /\ rptr m x <> ra) as Hfr.
  { intros x Hx. destruct (new_other k v ra na m Hf x) as (? & ? & _); [by eapply member_rec|done]. }
  eapply hash_update; [exact Hr|exact Hi|exact Hb| | |exact Hb'| | | | | |done|done|done|done].
  - auto.
  - intros l ys Hys. apply dll_frame with (zs := na :: xs); [exact Hoff|]. intros x Hx. destruct (Hys x Hx) as [Hx' Hn].
    intros [->|?]%elem_of_cons; [by destruct (Hfr na Hx')|done].
  - intros x [[-> Hv]|[Hx Hne]]%Hxs'; [destruct (Hna Hv) as (? & -> & _); done|].
    rewrite (same_rec_at _ _ _ (Hkept x Hx Hne)). destruct (Hrec x Hi Hx) as (? & ? & ?).
    split; [|done]. apply (same_rec_has m); auto.
  - intros x y Hx Hy He. apply Hxs' in Hx as [[-> Hv]|[Hx Hnx]], Hy as [[-> Hv']|[Hy Hny]]; [done| | |].
    + exfalso. destruct (Hna Hv) as (_ & Hat & Hp). rewrite Hat, Hp, (same_rec_at _ _ _ (Hkept y Hy Hny)), (proj1 (Hkept y Hy Hny)) in He.
      cbn [r_key] in He. destruct (Hfr y (Hmem y Hy)). destruct He; congruence.
    + exfalso. destruct (Hna Hv') as (_ & Hat & Hp). rewrite Hat, Hp, (same_rec_at _ _ _ (Hkept x Hx Hnx)), (proj1 (Hkept x Hx Hnx)) in He.
      cbn [r_key] in He. destruct (Hfr x (Hmem x Hx)). destruct He; congruence.
    + rewrite (same_rec_at _ _ _ (Hkept x Hx Hnx)), (same_rec_at _ _ _ (Hkept y Hy Hny)), (proj1 (Hkept x Hx Hnx)), (proj1 (Hkept y Hy Hny)) in He.
      apply (hr_inj _ _ _ _ _ Hr); auto.
  - intros x y [[-> Hv]|[Hx Hne]]%Hxs' Hy Hyn.
    + destruct (Hna Hv) as (_ & _ & ->). by destruct (Hfr y Hy) as [_ ?%not_eq_sym].
    + rewrite (proj1 (Hkept x Hx Hne)). intros He. apply Hyn. by rewrite <- (hr_inj _ _ _ _ _ Hr x y (Hmem x Hx) Hy (or_intror He)).
  - intros k' Hk'. rewrite map_set_lookup. case_decide; [congruence|done].
  - intros k' w Hk'. rewrite map_set_lookup. case_decide as Hkk.
    + subst k'. split.
      * destruct (Z.eqb_spec v 0) as [?|Hv]; [done|]. intros [= <-]. exists na. destruct (Hna Hv) as (_ & -> & _).
        split; [apply Hxs'; by left|done].
      * intros (x & [[-> Hv]|[Hx Hne]]%Hxs' & H1 & H2).
        { rewrite (proj2 (Z.eqb_neq v 0)) by done. destruct (Hna Hv) as (_ & Hat & _). rewrite Hat in H2. by subst w. }
        rewrite (same_rec_at _ _ _ (Hkept x Hx Hne)) in H1. done.
    + rewrite (hr_map _ _ _ _ _ Hr). split; intros (x & Hx & H1 & H2); exists x.
      * assert (x ∈ xs) as Hin by (eapply member_at; [exact Hr|done|done|by rewrite H1]).
        rewrite (same_rec_at m m') by (apply Hkept; congruence). split; [|done]. apply Hxs'. right. split; [done|congruence].
      * apply Hxs' in Hx as [[-> Hv]|[Hx Hne]]; [destruct (Hna Hv) as (_ & Hat & _); rewrite Hat in H1; by subst k'|].
        rewrite (same_rec_at _ _ _ (Hkept x Hx Hne)) in H1, H2. auto.
Qed.

Lemma map_set_size : base.size (map_set mp k v) =
  match mp !! k with
  | Some _ => if v =? 0 then pred (base.size mp) else base.size mp
  | None => if v =? 0 then base.size mp else S (base.size mp)
  end.
Proof. unfold map_set. destruct (v =? 0); [rewrite map_size_delete|rewrite map_size_insert]; by destruct (mp !! k). Qed.

(** What the table is after [hash_set]. *)
Definition set_to (r : outcome (hash_t * hash_mem)) : Prop := exists h' m',
  r = Done (h', m') /\ (exists xss', hash_rep keyFunc h' m' xss' (map_set mp k v)) /\
  size h' = size h /\ numSlots h' = numSlots h /\ length (bucket h') = length (bucket h) /\
  (base.size (nodes m') <= S (base.size (nodes m)))%nat.

Context (Hroom : Z.of_nat (base.size mp) + 1 < 2 ^ 64) (Hbig : Z.of_nat (length (bucket h)) < 2 ^ 64 - 1).
Context (Hok : bucket_ok (nodes m) b xs) (Hv : hash_is_valid_index h (keyFunc (size h) k) = true).
Context (Hx : hash_key_to_index h (keyFunc (size h) k) = Z.of_nat i).
Let m1 := new_mem k v ra na m.

Lemma set_active : 0 <= numActiveSlots h < 2 ^ 64 - 1.
Proof.
  rewrite (hr_active _ _ _ _ _ Hr). pose proof (active_nonneg (bucket h)). split; [done|].
  enough (Zsum (active <$> bucket h) <= Z.of_nat (length (bucket h))) by lia. clear.
  induction (bucket h) as [|[l|] bs IH]; [done|..]; rewrite fmap_cons, Zsum_cons, length_cons; cbn [active]; lia.
Qed.
Lemma set_aget : aget (bucket h) (Z.of_nat i) = Some b.
Proof. by rewrite aget_nat. Qed.
Lemma set_lt : (i < length (bucket h))%nat.
Proof. by eapply lookup_lt_Some. Qed.
Lemma set_nodes1 : base.size (nodes m1) = S (base.size (nodes m)).
Proof. destruct Hf as (_ & _ & Hn & _). unfold m1, new_mem. cbn [nodes]. by rewrite map_size_insert, Hn. Qed.

Lemma off_new zs s' : zs ⊆ na :: xs -> same_off zs (nodes m1) s' -> same_off (na :: xs) (nodes m) s'.
Proof. intros Hz Ho x Hn. rewrite Ho by set_solver. unfold m1. cbn [nodes new_mem]. apply lookup_insert_ne. set_solver. Qed.

(** The value in the map is that of the node with the key. *)
Lemma set_found x : x ∈ xs -> rkey m x = k -> mp !! k = Some (rval m x).
Proof. intros Hin <-. apply (hr_map _ _ _ _ _ Hr). exists x. split; [by exists i, xs|done]. Qed.
Lemma set_missing : (forall x, x ∈ xs -> rkey m x <> k) -> mp !! k = None.
Proof.
  intros Hno. apply (key_absent m mp xs k); [|done]. intros w. rewrite (hr_map _ _ _ _ _ Hr).
  split; intros (x & Hin & H1 & H2); exists x; (split; [|done]); [|by exists i, xs].
  eapply member_at; [exact Hr|done|done|by rewrite H1].
Qed.

(** The bucket with the new node made. *)
Lemma set_bucket1 : (forall x, x ∈ na :: xs -> has_rec m1 x) /\ na ∉ xs /\
  (forall x, member xss x -> same_rec m m1 x) /\ rkey m1 na = k /\
  (forall x, x ∈ xs -> rkey m1 x = rkey m x) /\
  (forall y z, y ∈ xs -> z ∈ xs -> rkey m1 y = rkey m1 z \/ rptr m1 y = rptr m1 z -> y = z).
Proof.
  assert (forall x, member xss x -> same_rec m m1 x) as Hsame.
  { intros x Hm. eapply new_other; [done|by eapply member_rec]. }
  assert (forall x, x ∈ xs -> member xss x) as Hmem by (intros; by exists i, xs).
  destruct (new_has k v ra na m Hf) as (Hhas & Hat & _). split_and!.
  - intros x [->|Hin]%elem_of_cons; [done|]. apply (same_rec_has m); [auto|]. by eapply member_rec; [|apply Hmem].
  - intros Hin. by destruct (new_other k v ra na m Hf na (member_rec _ _ _ _ _ _ Hr (Hmem na Hin))) as [? _].
  - done.
  - unfold m1. by rewrite Hat.
  - intros x Hin. by rewrite (same_rec_at _ _ _ (Hsame x (Hmem x Hin))).
  - intros y z Hy Hz He. rewrite (same_rec_at _ _ _ (Hsame y (Hmem y Hy))), (same_rec_at _ _ _ (Hsame z (Hmem z Hz))),
      (proj1 (Hsame y (Hmem y Hy))), (proj1 (Hsame z (Hmem z Hz))) in He. apply (hr_inj _ _ _ _ _ Hr); auto.
Qed.

Ltac open_set := unfold hash_set; rewrite Hv, Hx; cbn [negb];
  destruct (new_steps k v ra na m Hf) as [-> Hnew]; cbn [nodes]; rewrite Hnew; clear Hnew;
  change (with_store (<[na := mkListNode 0 0 ra]> (nodes m)) (mkHashMem (nodes m) (<[ra := mkRecord k v]> (records m)))) with m1;
  change (<[na := mkListNode 0 0 ra]> (nodes m)) with (nodes m1);
  rewrite set_aget; cbn [of_option mbind outcome_bind].

(** An empty slot: a new list, or the node is dropped. *)
Lemma set_fresh : b = None -> set_to (hash_set keyFunc h k v ra na m).
Proof.
  intros Hnone. assert (xs = []) as Hnil by (pose proof Hok as H; by rewrite Hnone in H).
  pose proof (set_missing ltac:(rewrite Hnil; by intros ? ?%elem_of_nil)) as Hno. open_set. rewrite Hnone.
  pose proof set_active as Hact. destruct (hr_total _ _ _ _ _ Hr) as [Ht Hlt].
  destruct (new_has k v ra na m Hf) as (Hhas & Hat & Hptr). destruct set_bucket1 as (_ & _ & Hs1 & _).
  destruct (Z.eqb_spec v 0) as [Hv0|Hv0]; cbn [negb].
  - rewrite (release_spec na m1 Hhas). unfold m1. rewrite Hptr. cbn [mbind outcome_bind].
    exists h, m. destruct Hf as (_ & _ & Hn & Hra). unfold new_mem. cbn [nodes records]. rewrite !delete_insert_id by done.
    split; [by destruct m|]. unfold map_set. rewrite Hv0, delete_id by done. split; [by eexists|]. by split_and!; [..|lia].
  - destruct (push_spec list_create (nodes m1) []) with (p := na) as (l' & s' & He & Hd & Hsd & Ho).
    { split; [done|done|done|apply NoDup_nil_2|by intros ?%elem_of_nil]. }
    { destruct (has_rec_node m1 na Hhas) as (n & Hn & _). split_and!; [apply Hhas|by intros ?%elem_of_nil|by eexists]. }
    rewrite He. cbn [mbind outcome_bind]. rewrite with_slot_at by apply set_lt. cbn [mbind outcome_bind].
    eexists _, (with_store s' m1). split; [done|]. split; [|split_and!; try done]; cbn [bucket with_total size numTotalElem numActiveSlots].
    + exists (<[i := [na]]> xss). eapply hash_change with (b' := Some l'); [..|done|done| | |]; cbn [nodes with_store].
      * apply (off_new [na]); [set_solver|done].
      * intros x Hm _. apply (same_rec_trans _ m1); [auto|by apply same_data_rec].
      * by split.
      * intros x. rewrite Hnil, list_elem_of_singleton. split; [by left|intros [[? _]|[Hin _]]; [done|by apply elem_of_nil in Hin]].
      * intros _. pose proof (same_data_rec m1 s' na Hsd) as Hsr. rewrite (same_rec_at _ _ _ Hsr), (proj1 Hsr).
        split; [by apply (same_rec_has m1)|done].
      * cbn [numTotalElem with_total]. rewrite map_set_size, Hno, (proj2 (Z.eqb_neq v 0)), u64_small by (done || unfold is_u64; lia). lia.
      * rewrite map_set_size, Hno, (proj2 (Z.eqb_neq v 0)) by done. lia.
      * rewrite Hnone. cbn [numActiveSlots with_total active]. rewrite u64_small by (unfold is_u64; lia). lia.
    + by rewrite length_insert.
    + change (nodes (with_store s' m1)) with s'. rewrite (same_data_size _ _ Hsd), set_nodes1. lia.
Qed.

(** The bucket without the key. *)
Record taken (m2 : hash_mem) (l2 : list_t) (ys : list Z) : Prop := {
  tk_dll : dll l2 (nodes m2) ys;
  tk_in : forall x, x ∈ ys <-> x ∈ xs /\ rkey m x <> k;
  tk_off : same_off (na :: xs) (nodes m) (nodes m2);
  tk_same : forall x, member xss x -> x ∉ xs \/ rkey m x <> k -> same_rec m m2 x;
  tk_new : same_rec m1 m2 na;
  tk_size : (base.size (nodes m2) <= S (base.size (nodes m)))%nat }.

Lemma take_miss l : b = Some l -> (forall x, x ∈ xs -> rkey m x <> k) ->
  list_remove_match (hash_compare_record (records m1)) (fuel_for (nodes m1)) l na (nodes m1) = Done (0, l, nodes m1) /\
  taken m1 l xs.
Proof.
  intros Hl Hno. pose proof Hok as H. rewrite Hl in H. destruct H as [Hd _]. apply (new_dll k v ra na m Hf) in Hd.
  destruct set_bucket1 as (Hrec & Hna & Hs1 & Hka & Hkeys & _). split.
  - apply (bucket_miss l xs na m1 Hd Hrec). intros x Hin. rewrite Hkeys, Hka by done. auto.
  - split; [done| | | |done|by rewrite set_nodes1].
    + intros x. split; [auto|by intros [? _]].
    + by apply (off_new []); [set_solver|].
    + auto.
Qed.
Lemma take_hit l x : b = Some l -> x ∈ xs -> rkey m x = k -> exists l2 s2 m2,
  list_remove_match (hash_compare_record (records m1)) (fuel_for (nodes m1)) l na (nodes m1) = Done (x, l2, s2) /\
  dll l2 s2 (without x xs) /\ release x (with_store s2 m1) = Done m2 /\ taken m2 l2 (without x xs) /\
  x <> 0 /\ base.size s2 = S (base.size (nodes m)) /\ (base.size (nodes m2) = base.size (nodes m)).
Proof.
  intros Hl Hin Hkx. pose proof Hok as H. rewrite Hl in H. destruct H as [Hd _]. apply (new_dll k v ra na m Hf) in Hd.
  destruct set_bucket1 as (Hrec & Hna & Hs1 & Hka & Hkeys & Hinj).
  assert (forall y, y ∈ xs -> member xss y) as Hmem by (intros; by exists i, xs).
  destruct (bucket_drop l xs na m1 Hd Hrec Hna x Hinj Hin) as (l2 & s2 & m2 & He & Hd2 & Hrl & Hdm & Hsame & Ho & Hsz & Hsz2).
  { by rewrite Hkeys, Hka. }
  destruct (new_other k v ra na m Hf x) as (_ & Hpx & _); [by eapply member_rec; [|apply Hmem]|].
  destruct (new_has k v ra na m Hf) as (Hhas & _ & Hptr).
  rewrite set_nodes1 in Hsz, Hsz2. exists l2, s2, m2. split; [done|]. split; [done|]. split; [done|].
  split; [|split_and!; [apply (Hrec x); by right|done|lia]]. split; [done| | | | |lia].
  - intros y. unfold without. rewrite list_elem_of_filter. split.
    + intros [Hne Hy]. split; [done|]. intros Hky. apply Hne. apply Hinj; [done..|left]. rewrite !Hkeys by done. congruence.
    + intros [Hy Hne]. split; [congruence|done].
  - apply (off_new xs); [set_solver|done].
  - intros y Hy Hor. apply (same_rec_trans _ m1); [auto|]. pose proof (Hs1 y Hy) as Hsy. pose proof (Hs1 x (Hmem x Hin)) as Hsx.
    assert (y <> x) as Hne by (intros ->; by destruct Hor).
    apply Hsame; [apply (same_rec_has m); [done|by eapply member_rec]|done|]. rewrite (proj1 Hsy), (proj1 Hsx). intros Hp.
    apply Hne, (hr_inj _ _ _ _ _ Hr); auto.
  - apply Hsame; [done|by intros ->|]. unfold m1 at 1. rewrite Hptr, (proj1 (Hs1 x (Hmem x Hin))). auto.
Qed.

(** The new node goes into the bucket. *)
Lemma set_insert_stage (h0 : hash_t) m2 l2 ys : v <> 0 -> is_Some b -> taken m2 l2 ys ->
  size h0 = size h -> numSlots h0 = numSlots h -> bucket h0 = bucket h -> numActiveSlots h0 = numActiveSlots h ->
  numTotalElem h0 + 1 = Z.of_nat (base.size (map_set mp k v)) -> is_u64 (numTotalElem h0 + 1) ->
  set_to ('(node, l, s) ← list_insert (hash_compare_record (records m2)) (fuel_for (nodes m2)) l2 na true (nodes m2);
          h0 ← with_slot (Z.of_nat i) (Some l) h0;
          Done (if node =? 0 then h0 else with_total (u64 (numTotalElem h0 + 1)) (numActiveSlots h0) h0, with_store s m2)).
Proof.
  intros Hv0 [l Hl] [Hd Hys Hoff Hsame Hna Hsz] Hs0 Hn0 Hb0 Ha0 Ht0 Hu.
  destruct set_bucket1 as (Hrec & Hnn & _). destruct (new_has k v ra na m Hf) as (Hhas & Hat & Hptr).
  assert (na <> 0) as Hn0' by apply Hhas. assert (na ∉ ys) as Hny by (by intros [? _]%Hys).
  destruct (bucket_insert l2 ys na m2 Hd) as (l' & s' & xs' & He & Hd' & Hp & Hsd & Ho); [|done|].
  { intros x [->|[Hin Hkx]%Hys]%elem_of_cons; [by apply (same_rec_has m1)|].
    apply (same_rec_has m); [apply Hsame; [by exists i, xs|by right]|by apply (hr_recs _ _ _ _ _ Hr i xs)]. }
  rewrite He. cbn [mbind outcome_bind]. rewrite with_slot_at by (rewrite Hb0; apply set_lt). cbn [mbind outcome_bind].
  rewrite (proj2 (Z.eqb_neq na 0)) by done. eexists _, (with_store s' m2). split; [done|].
  split; [|split_and!; [done|done|cbn [bucket with_total]; by rewrite length_insert, Hb0|]].
  - exists (<[i := xs']> xss). eapply hash_change with (b' := Some l'); [| | | | |done|cbn; by rewrite Hb0|cbn; by rewrite u64_small|..].
    + intros x Hn. change (nodes (with_store s' m2)) with s'. rewrite Ho; [by apply Hoff|]. intros [->|[Hin _]%Hys]%elem_of_cons; set_solver.
    + intros x Hm Hor. apply (same_rec_trans _ m2); [auto|by apply same_data_rec].
    + split; [done|]. intros ->. by apply Permutation_nil_cons in Hp.
    + intros x. rewrite Hp, elem_of_cons, Hys. tauto.
    + intros _. pose proof (same_rec_trans _ _ _ _ Hna (same_data_rec m2 s' na Hsd)) as Hsr.
      rewrite (same_rec_at _ _ _ Hsr), (proj1 Hsr). split; [by apply (same_rec_has m1)|done].
    + rewrite <- Ht0. apply Hu.
    + cbn [numActiveSlots with_total active]. by rewrite Ha0, Hl.
  - change (nodes (with_store s' m2)) with s'. by rewrite (same_data_size _ _ Hsd).
Qed.

Lemma set_key_cases : (forall x, x ∈ xs -> rkey m x <> k) \/ exists x, x ∈ xs /\ rkey m x = k.
Proof.
  destruct (decide (Exists (fun x => rkey m x = k) xs)) as [H|H]; [right; by apply Exists_exists in H|left].
  intros x Hin He. apply H, Exists_exists. by exists x.
Qed.

Lemma set_replace l : b = Some l -> v <> 0 -> set_to (hash_set keyFunc h k v ra na m).
Proof.
  intros Hl Hv0. destruct (hr_total _ _ _ _ _ Hr) as [Ht Hlt]. pose proof map_set_size as Hms. pose proof set_active as Hact.
  rewrite (proj2 (Z.eqb_neq v 0)) in Hms by done. open_set. rewrite Hl, (proj2 (Z.eqb_neq v 0)) by done. cbn [negb].
  destruct set_key_cases as [Hno|(x & Hin & Hkx)].
  - destruct (take_miss l Hl Hno) as [He Htk]. rewrite He. cbn [mbind outcome_bind]. cbn [Z.eqb]. cbn [mbind outcome_bind].
    rewrite (set_missing Hno) in Hms. replace (with_store (nodes m1) m1) with m1 by done.
    apply (set_insert_stage h m1 l xs); (done || lia || by eexists) || (unfold is_u64; lia).
  - destruct (take_hit l x Hl Hin Hkx) as (l2 & s2 & m2 & He & Hd & Hrl & Htk & Hx0 & _). rewrite He. cbn [mbind outcome_bind].
    rewrite (proj2 (Z.eqb_neq x 0)) by done. rewrite Hrl. cbn [mbind outcome_bind].
    assert (mp !! k = Some (rval m x)) as Hmk by (by apply set_found). rewrite Hmk in Hms.
    assert (base.size mp <> 0%nat) as Hne by (intros H; apply map_size_empty_inv in H; by rewrite H in Hmk).
    apply (set_insert_stage _ m2 l2 (without x xs)); (done || by eexists) || cbn [numTotalElem with_total];
      rewrite u64_small by (unfold is_u64; lia); unfold is_u64; lia.
Qed.

Lemma set_remove_stage h2 m2 l2 b2 ys : v = 0 -> taken m2 l2 ys -> bucket_ok (nodes m2) b2 ys ->
  size h2 = size h -> numSlots h2 = numSlots h -> bucket h2 = <[i := b2]> (bucket h) ->
  numActiveSlots h2 - active b2 = numActiveSlots h - active b ->
  numTotalElem h2 = Z.of_nat (base.size (map_set mp k v)) -> set_to (Done (h2, m2)).
Proof.
  intros Hv0 [Hd Hys Hoff Hsame Hna Hsz] Hb2 Hs2 Hn2 Hbk2 Ha2 Ht2. exists h2, m2. split; [done|].
  split; [|split_and!; [done|done|by rewrite Hbk2, length_insert|done]].
  exists (<[i := ys]> xss). eapply hash_change with (b' := b2); try done.
  - intros x. rewrite Hys, Hv0. split; [by right|by intros [[_ ?]|?]].
  - rewrite map_set_size, Hv0. destruct (mp !! k); cbn [Z.eqb]; lia.
Qed.

Context (Hmemory : Z.of_nat (base.size (nodes m)) + 1 < 2 ^ 64).

Lemma remove_step f h2 m2 l2 : aget (bucket h2) (Z.of_nat i) = Some (Some l2) ->
  list_remove_match (hash_compare_record (records m2)) (fuel_for (nodes m2)) l2 na (nodes m2) = Done (0, l2, nodes m2) ->
  bucket h2 !! i = Some (Some l2) -> remove_loop (S f) h2 (Z.of_nat i) na m2 = Done (h2, m2).
Proof.
  intros Hg He Hbk. cbn [remove_loop]. rewrite Hg. cbn [of_option mbind outcome_bind]. rewrite He. cbn [mbind outcome_bind Z.eqb].
  rewrite with_slot_at by (by eapply lookup_lt_Some). cbn [mbind outcome_bind]. rewrite list_insert_id by done. by destruct h2, m2.
Qed.

Lemma set_remove l : b = Some l -> v = 0 -> set_to (hash_set keyFunc h k v ra na m).
Proof.
  intros Hl Hv0. destruct (hr_total _ _ _ _ _ Hr) as [Ht Hlt]. pose proof map_set_size as Hms. pose proof set_active as Hact.
  rewrite (proj2 (Z.eqb_eq v 0) Hv0) in Hms. open_set. rewrite Hl, (proj2 (Z.eqb_eq v 0) Hv0).
  unfold fuel_for at 1. rewrite set_nodes1. destruct set_key_cases as [Hno|(x & Hin & Hkx)].
  - destruct (take_miss l Hl Hno) as [He Htk]. rewrite (set_missing Hno) in Hms.
    rewrite (remove_step _ h m1 l) by (try done; rewrite ?set_aget; congruence).
    eapply (set_remove_stage h m1 l b); try done; [|by rewrite list_insert_id|congruence].
    rewrite Hl. split; [apply Htk|]. pose proof Hok as H. rewrite Hl in H. apply H.
  - destruct (take_hit l x Hl Hin Hkx) as (l2 & s2 & m2 & He & Hd & Hrl & Htk & Hx0 & Hsz2 & _).
    assert (mp !! k = Some (rval m x)) as Hmk by (by apply set_found). rewrite Hmk in Hms.
    assert (base.size mp <> 0%nat) as Hne by (intros H; apply map_size_empty_inv in H; by rewrite H in Hmk).
    assert (0 < numActiveSlots h) as Hpos by (rewrite (hr_active _ _ _ _ _ Hr); apply (active_pos _ i l); by rewrite <- Hl).
    set (f := S (base.size (nodes m))) in |- *. cbn [remove_loop]. rewrite set_aget, Hl. cbn [of_option mbind outcome_bind]. rewrite He. cbn [mbind outcome_bind].
    rewrite (proj2 (Z.eqb_neq x 0)) by done. pose proof (fuel_enough _ _ _ Hd) as Hfu.
    pose proof Hd as [Hc _]%dll_chain. pose proof (chain_length _ _ _ Hc) as Hcl.
    rewrite (bucket_length l2 s2 (without x xs)) by (done || lia). cbn [mbind outcome_bind].
    destruct (without x xs) as [|y ys] eqn:Hw.
    + change (Z.of_nat (length (@nil Z)) =? 0) with true. cbn iota. change (fuel_for s2) with (S (base.size s2)). cbn [pop_all]. rewrite (pop_empty l2 s2 Hd). cbn [mbind outcome_bind Z.eqb].
      rewrite with_slot_at by apply set_lt. cbn [mbind outcome_bind]. replace (with_store s2 (with_store s2 m1)) with (with_store s2 m1) by done.
      rewrite Hrl. unfold f. cbn [mbind outcome_bind remove_loop bucket with_total]. rewrite aget_nat, list_lookup_insert_eq by apply set_lt.
      cbn [of_option mbind outcome_bind]. eapply (set_remove_stage _ m2 l2 None []); try done; cbn.
      * rewrite Hl, u64_small by (unfold is_u64; lia). cbn. lia.
      * rewrite Hms, u64_small by (unfold is_u64; lia). lia.
    + rewrite (proj2 (Z.eqb_neq _ 0)) by (cbn [length]; lia). rewrite with_slot_at by apply set_lt. cbn [mbind outcome_bind].
      rewrite Hrl. unfold f. cbn [mbind outcome_bind]. rewrite (remove_step _ _ m2 l2).
      * eapply (set_remove_stage _ m2 l2 (Some l2)); try done; cbn; [by split; [apply Htk|]|by rewrite Hl|].
        rewrite Hms, u64_small by (unfold is_u64; lia). lia.
      * cbn [bucket with_total]. rewrite aget_nat. apply list_lookup_insert_eq, set_lt.
      * apply (bucket_miss l2 (y :: ys) na m2); [apply Htk|..].
        -- intros z [->|Hz]%elem_of_cons; [apply (same_rec_has m1); [apply Htk|apply set_bucket1; by left]|].
           apply (tk_in _ _ _ Htk) in Hz as [Hz Hne']. apply (same_rec_has m).
           ++ apply (tk_same _ _ _ Htk); [by exists i, xs|by right].
           ++ by apply (hr_recs _ _ _ _ _ Hr i xs).
        -- intros z Hz. apply (tk_in _ _ _ Htk) in Hz as [Hz Hne'].
           rewrite (same_rec_at _ _ _ (tk_new _ _ _ Htk)), (same_rec_at _ _ _ (tk_same _ _ _ Htk z (ex_intro _ i (ex_intro _ xs (conj Hi Hz))) (or_intror Hne'))).
           destruct set_bucket1 as (_ & _ & _ & -> & _). done.
      * cbn [bucket with_total]. apply list_lookup_insert_eq, set_lt.
Qed.
End Change.

Lemma table_set_spec h m mp k v ra na : hash_ok h m mp -> good_key h k -> fresh_rec ra na m ->
  Z.of_nat (base.size mp) + 1 < 2 ^ 64 -> Z.of_nat (base.size (nodes m)) + 2 < 2 ^ 64 -> exists h' m',
  hash_set keyFunc h k v ra na m = Done (h', m') /\ hash_ok h' m' (map_set mp k v) /\ size h' = size h /\
  (base.size (nodes m') <= S (base.size (nodes m)))%nat.
Proof.
  intros (Hsh & xss & Hr) Hk Hf Hmp Hn. destruct (slot_of keyFunc h m xss mp k Hr Hsh Hk)
    as (Hv & i & b & xs & Hi & Hx & _ & Hb & Hxs & Hok & _). destruct Hsh as (Hvs & Hns & Hlen & _).
  assert (2 ^ size h <= 2 ^ 16) as Hp by (pose proof (size_bound _ Hvs); apply Z.pow_le_mono_r; lia).
  assert (set_to h m mp k v (hash_set keyFunc h k v ra na m)) as (h' & m' & He & Hrep & Hs & Hns' & Hl & Hsz).
  { destruct b as [l|]; [destruct (decide (v = 0))|].
    - eapply set_remove; try done; lia.
    - eapply set_replace; try done; lia.
    - eapply set_fresh; try done; lia. }
  exists h', m'. split; [done|]. split; [|done]. split; [|done]. unfold hash_shape. rewrite Hs, Hns', Hl. split_and!; try done. lia.
Qed.

(** A new table is the empty map. *)
Lemma create_spec sz : valid_size sz = true -> exists h, hash_create sz true true = Done (Some h) /\ size h = sz /\
  hash_ok h (mkHashMem ∅ ∅) ∅.
Proof.
  intros Hv. pose proof (size_bound _ Hv). eexists. split; [done|]. split; [done|].
  assert (Z.shiftl 1 sz = 2 ^ sz) as Hs by (rewrite Z.shiftl_mul_pow2; lia). assert (0 < 2 ^ sz) by (apply Z.pow_pos_nonneg; lia).
  split.
  - unfold hash_shape. cbn [size numSlots bucket nodes]. rewrite Hs, length_replicate, map_size_empty. split_and!; [done|done|lia|done].
  - exists (replicate (Z.to_nat (Z.shiftl 1 sz)) []). split; cbn [size numSlots bucket nodes numTotalElem numActiveSlots].
    + apply Forall2_replicate. done.
    + intros i xs x Hi Hx. apply lookup_replicate in Hi as [-> _]. by apply elem_of_nil in Hx.
    + intros x y (i & xs & Hi & Hx). apply lookup_replicate in Hi as [-> _]. by apply elem_of_nil in Hx.
    + intros k v. split; [done|]. intros (x & (i & xs & Hi & Hx) & _). apply lookup_replicate in Hi as [-> _]. by apply elem_of_nil in Hx.
    + done.
    + induction (Z.to_nat (Z.shiftl 1 sz)) as [|n IH]; [done|]. cbn [replicate]. by rewrite fmap_cons, Zsum_cons, <- IH.
Qed.
End Ops.

(** The default keys are slots. *)
Lemma hash_key_range sz k : valid_size sz = true -> 0 <= hash_key sz k < 2 ^ sz.
Proof.
  intros Hv. pose proof (size_bound _ Hv). unfold hash_key. cbv zeta.
  assert (2 ^ sz <= 2 ^ 16) by (apply Z.pow_le_mono_r; lia). assert (0 < 2 ^ sz) by (apply Z.pow_pos_nonneg; lia).
  rewrite (Z.shiftl_mul_pow2 1 sz), u32_small by (unfold is_u32; lia). replace (1 * 2 ^ sz - 1) with (Z.ones sz) by (rewrite Z.ones_equiv; lia).
  rewrite Z.land_ones by lia. apply Z.mod_pos_bound. lia.
Qed.

(** ** Programs of table calls *)

Inductive hash_call : Set := HashSet (key value : Z) | HashGet (key : Z) | HashLength.
(** What a call answers: nothing, the value when there is one, a count. *)
Inductive hash_answer : Set := NoAnswer | Value (v : option Z) | Count (n : Z).

(** The map that a table is for; a zero value removes its key. *)
Definition map_call (c : hash_call) (mp : gmap Z Z) : hash_answer * gmap Z Z :=
  match c with
  | HashSet k v => (NoAnswer, if v =? 0 then delete k mp else <[k := v]> mp)
  | HashGet k => (Value (mp !! k), mp)
  | HashLength => (Count (Z.of_nat (base.size mp)), mp)
  end.
Fixpoint map_calls (cs : list hash_call) (mp : gmap Z Z) : list hash_answer * gmap Z Z :=
  match cs with
  | [] => ([], mp)
  | c :: cs => let '(a, mp) := map_call c mp in let '(rest, mp) := map_calls cs mp in (a :: rest, mp)
  end.

Section Calls.
Context (keyFunc : Z -> Z -> Z).
(** The addresses of the next record and of the next node. *)
Context (calloc : hash_mem -> Z * Z) (Hcalloc : forall m, fresh_rec (calloc m).1 (calloc m).2 m).

Definition table_call (c : hash_call) (h : hash_t) (m : hash_mem) : outcome (hash_answer * hash_t * hash_mem) :=
  let '(ra, na) := calloc m in
  match c with
  | HashSet k v => '(h, m) ← hash_set keyFunc h k v ra na m; Done (NoAnswer, h, m)
  | HashGet k => '(v, m) ← hash_get keyFunc h k ra na m; Done (Value v, h, m)
  | HashLength => Done (Count (hash_length h), h, m)
  end.
Fixpoint table_calls (cs : list hash_call) (h : hash_t) (m : hash_mem) : outcome (list hash_answer * hash_t * hash_mem) :=
  match cs with
  | [] => Done ([], h, m)
  | c :: cs => '(a, h, m) ← table_call c h m; '(rest, h, m) ← table_calls cs h m; Done (a :: rest, h, m)
  end.

Context (sz : Z) (Hkeys : forall k, 0 <= keyFunc sz k < 2 ^ sz).

(** After [n] calls there are at most [n] nodes and keys. *)
Definition room (n : nat) (m : hash_mem) (mp : gmap Z Z) : Prop := (base.size (nodes m) <= n)%nat /\ (base.size mp <= n)%nat.

Lemma map_set_room mp k v : (base.size (map_set mp k v) <= S (base.size mp))%nat.
Proof. rewrite map_set_size. destruct (mp !! k), (v =? 0); lia. Qed.

Lemma table_call_spec c h m mp n : hash_ok keyFunc h m mp -> size h = sz -> room n m mp -> Z.of_nat n + 2 < 2 ^ 64 ->
  exists h' m', table_call c h m = Done ((map_call c mp).1, h', m') /\ hash_ok keyFunc h' m' (map_call c mp).2 /\
  size h' = sz /\ room (S n) m' (map_call c mp).2.
Proof.
  intros Hok Hs [Hn Hm] Hb. unfold table_call. pose proof (Hcalloc m) as Hf. destruct (calloc m) as [ra na]. cbn [fst snd] in Hf.
  assert (forall k, good_key keyFunc h k) as Hgood by (intros k; unfold good_key; rewrite Hs; apply Hkeys).
  destruct c as [k v|k|].
  - destruct (table_set_spec keyFunc h m mp k v ra na Hok (Hgood k) Hf) as (h' & m' & -> & Hok' & Hs' & Hn'); [lia..|].
    exists h', m'. cbn [mbind outcome_bind map_call fst snd]. split; [done|]. split; [done|]. split; [congruence|].
    pose proof (map_set_room mp k v) as Hr. unfold map_set in Hr. split; lia.
  - rewrite (table_get_spec keyFunc h m mp k ra na Hok (Hgood k) Hf). exists h, m. by split_and!; [..|split; cbn; lia].
  - exists h, m. unfold hash_length. destruct Hok as (Hsh & xss & Hr). cbn [map_call fst snd]. rewrite (proj1 (hr_total _ _ _ _ _ Hr)).
    split; [done|]. split; [split; [done|by exists xss]|]. split; [done|]. split; lia.
Qed.

Lemma table_calls_spec cs : forall h m mp n, hash_ok keyFunc h m mp -> size h = sz -> room n m mp ->
  Z.of_nat (n + length cs) + 2 < 2 ^ 64 -> exists h' m',
  table_calls cs h m = Done ((map_calls cs mp).1, h', m') /\ hash_ok keyFunc h' m' (map_calls cs mp).2.
Proof.
  induction cs as [|c cs IH]; intros h m mp n Hok Hs Hr Hb; [by exists h, m|]. cbn [length] in Hb. cbn [table_calls map_calls].
  destruct (table_call_spec c h m mp n Hok Hs Hr) as (h1 & m1 & -> & Hok1 & Hs1 & Hr1); [lia|]. cbn [mbind outcome_bind].
  destruct (map_call c mp) as [a mp1]. cbn [fst snd] in *.
  destruct (IH h1 m1 mp1 (S n) Hok1 Hs1 Hr1) as (h2 & m2 & -> & Hok2); [lia|]. exists h2, m2.
  by destruct (map_calls cs mp1).
Qed.
End Calls.


(** An allocator that answers the first free addresses. *)
Definition sample_calloc (m : hash_mem) : Z * Z :=
  (fresh ({[0]} ∪ dom (records m) : gset Z), fresh ({[0]} ∪ dom (nodes m) : gset Z)).
Lemma sample_calloc_fresh m : fresh_rec (sample_calloc m).1 (sample_calloc m).2 m.
Proof.
  unfold fresh_rec, sample_calloc. cbn [fst snd].
  pose proof (is_fresh ({[0]} ∪ dom (records m) : gset Z)) as Hr. pose proof (is_fresh ({[0]} ∪ dom (nodes m) : gset Z)) as Hn.
  apply not_elem_of_union in Hr as [Hr1 Hr2], Hn as [Hn1 Hn2]. split_and!; [set_solver..| |]; by apply not_elem_of_dom.
Qed.
Definition sample_calls : list hash_call :=
  [HashSet 1 10; HashSet 257 20; HashGet 1; HashSet 1 11; HashGet 1; HashLength; HashSet 257 0; HashGet 257; HashLength].


(** ** Draining *)

Lemma clean_scan_step f h (j : nat) : bucket h !! j = Some None -> Z.of_nat (length (bucket h)) = numSlots h -> numSlots h < 2 ^ 32 ->
  clean_scan (S f) h (Z.of_nat j) = clean_scan f h (Z.of_nat (S j)).
Proof.
  intros Hj Hl Hb. pose proof (lookup_lt_Some _ _ _ Hj). cbn [clean_scan]. rewrite aget_nat, Hj. cbn [of_option mbind outcome_bind].
  rewrite (proj2 (Z.ltb_lt _ _)) by lia. rewrite u32_small by (unfold is_u32; lia). do 2 f_equal. lia.
Qed.
Lemma clean_scan_skip h (i n : nat) : forall f, (forall j, (i <= j < i + n)%nat -> bucket h !! j = Some None) ->
  Z.of_nat (length (bucket h)) = numSlots h -> numSlots h < 2 ^ 32 ->
  clean_scan (n + f) h (Z.of_nat i) = clean_scan f h (Z.of_nat (i + n)).
Proof.
  revert i. induction n as [|n IH]; intros i f Hn Hl Hb; [by rewrite Nat.add_0_r|]. cbn [Nat.add].
  rewrite clean_scan_step by (done || apply Hn; lia). rewrite IH by (done || (intros j Hj; apply Hn; lia)). do 2 f_equal. lia.
Qed.

(** [hash_clean]'s search for a list: it stops at the first slot that has
    one from the static index on, and reads past the slots when none has. *)
Theorem clean_scan_first_list h (i : nat) : Z.of_nat (length (bucket h)) = numSlots h -> numSlots h < 2 ^ 32 ->
  (forall (n : nat) l, bucket h !! (i + n)%nat = Some (Some l) -> (forall j, (i <= j < i + n)%nat -> bucket h !! j = Some None) ->
    clean_scan (S (S (Z.to_nat (numSlots h)))) h (Z.of_nat i) = Done (Z.of_nat (i + n))) /\
  ((forall j, (i <= j < length (bucket h))%nat -> bucket h !! j = Some None) -> (i <= length (bucket h))%nat ->
    clean_scan (S (S (Z.to_nat (numSlots h)))) h (Z.of_nat i) = Undef).
Proof.
  intros Hl Hb. split.
  - intros n l Hn Hno. pose proof (lookup_lt_Some _ _ _ Hn).
    replace (S (S (Z.to_nat (numSlots h)))) with (n + S (S (Z.to_nat (numSlots h)) - n))%nat by lia.
    rewrite clean_scan_skip by done. cbn [clean_scan]. by rewrite aget_nat, Hn.
  - intros Hno Hi. replace (S (S (Z.to_nat (numSlots h)))) with ((length (bucket h) - i) + S (S i))%nat by lia.
    rewrite clean_scan_skip by (done || (intros j Hj; apply Hno; lia)). cbn [clean_scan]. rewrite aget_nat.
    by rewrite lookup_ge_None_2 by lia.
Qed.
Example clean_scan_first_list_witness :
  clean_scan 258 (mkHash 8 1 1 256 (<[3%nat := Some (mkList 5 5)]> (replicate 256 None))) (Z.of_nat 4) = Undef.
Proof.
  destruct (clean_scan_first_list (mkHash 8 1 1 256 (<[3%nat := Some (mkList 5 5)]> (replicate 256 None))) 4) as [_ H]; [reflexivity|reflexivity|].
  apply H; [|vm_compute; lia]. intros j [Hj Hl]. cbn [bucket] in Hl. rewrite length_insert, length_replicate in Hl. cbn [bucket].
  rewrite list_lookup_insert_ne by lia. apply lookup_replicate. split; [reflexivity|exact Hl].
Defined.
