(* ===== verification/SosalHistogram.v ===== *)
(** * Histograms (source/sosal/histogram.c, include/sosal/histogram.h) *)
From S2P Require Import Prelude.

Record histogram_t : Set := mkHistogram { bins : list Z; numBins : Z; binRange : Z; h_min : Z; h_max : Z }.

(** With the memory for the bins granted; the difference of the bounds is
    taken in [int32_t], its quotient in [uint32_t]. *)
Definition histogram_init (n min max : Z) : outcome histogram_t :=
  if (n =? 0) || negb (s32 (max - min) =? max - min) then Undef
  else
    let range := s32 (u32 (max - min) / n) in
    let range := if 0 <? u32 (max - min) mod n then s32 (range + 1) else range in
    Done (mkHistogram (replicate (Z.to_nat n) 0) n range min max).

Definition in_range (h : histogram_t) (value : Z) : bool := (h_min h <=? value) && (value <? h_max h).
Definition bin_index (h : histogram_t) (value : Z) : outcome Z :=
  if binRange h =? 0 then Undef else Done (u32 (Z.quot (value - h_min h) (binRange h))).

Definition histogram_inc (h : histogram_t) (value : Z) : outcome histogram_t :=
  if in_range h value then
    i ← bin_index h value;
    if i <? numBins h then
      n ← of_option (aget (bins h) i);
      bs ← of_option (aset (bins h) i (u32 (n + 1)));
      Done (mkHistogram bs (numBins h) (binRange h) (h_min h) (h_max h))
    else Done h
  else Done h.
Definition histogram_get (h : histogram_t) (value : Z) : outcome Z :=
  if in_range h value then
    i ← bin_index h value;
    if i <? numBins h then of_option (aget (bins h) i) else Done 0
  else Done 0.
(** Only empties the bins. *)
Definition histogram_deinit (h : histogram_t) : histogram_t :=
  mkHistogram (replicate (length (bins h)) 0) (numBins h) (binRange h) (h_min h) (h_max h).

(** ** What the bins count *)

Fixpoint histogram_incs (h : histogram_t) (vs : list Z) : outcome histogram_t :=
  match vs with [] => Done h | v :: vs => h ← histogram_inc h v; histogram_incs h vs end.

(** The width of a bin: the range divided by the number of bins, rounded up. *)
Definition bin_width (n min max : Z) : Z := (max - min + n - 1) / n.

Record counts_of (h : histogram_t) (n min max : Z) (vs : list Z) : Prop := {
  co_geometry : numBins h = n /\ binRange h = bin_width n min max /\ h_min h = min /\ h_max h = max;
  co_bins : length (bins h) = Z.to_nat n;
  co_counts : forall i : nat, (i < Z.to_nat n)%nat -> bins h !! i =
    Some (u32 (Z.of_nat (length (filter (fun v => min <= v < max /\ (v - min) / bin_width n min max = Z.of_nat i) vs)))) }.

Section Counts.
Context (n min max : Z) (Hn : 0 < n < 2 ^ 31) (Hmin : is_s32 min) (Hmax : is_s32 max) (Hmm : min <= max) (Hd : max - min + n < 2 ^ 31).

Lemma init_counts : exists h, histogram_init n min max = Done h /\ counts_of h n min max [].
Proof.
  unfold is_s32 in *. unfold histogram_init. rewrite (proj2 (Z.eqb_neq n 0)), s32_small, Z.eqb_refl by (unfold is_s32; lia). cbn [orb negb].
  rewrite u32_small by (unfold is_u32; lia). set (q := (max - min) / n). set (r := (max - min) mod n).
  pose proof (Z.div_mod (max - min) n ltac:(lia)) as Hdm. pose proof (Z.mod_pos_bound (max - min) n ltac:(lia)) as Hr. fold q r in Hdm, Hr.
  assert (0 <= q <= max - min) as Hq by (split; [apply Z.div_pos; lia|apply Z.div_le_upper_bound; nia]).
  eexists. split; [done|]. split; cbn [numBins binRange h_min h_max bins].
  - split; [done|]. split; [|done]. unfold bin_width. rewrite (s32_small q) by (unfold is_s32; lia).
    destruct (Z.ltb_spec 0 r) as [Hr0|Hr0].
    + rewrite s32_small by (unfold is_s32; lia). apply (Z.div_unique _ _ _ (r - 1)); lia.
    + apply (Z.div_unique _ _ _ (n - 1)); lia.
  - apply length_replicate.
  - intros i Hi. rewrite lookup_replicate_2 by done. done.
Qed.

Lemma width_bounds v : min <= v < max -> 0 < bin_width n min max <= max - min + n /\ 0 <= (v - min) / bin_width n min max < n.
Proof.
  intros Hv. unfold bin_width. set (w := (max - min + n - 1) / n).
  pose proof (Z.div_mod (max - min + n - 1) n ltac:(lia)) as Hdm. pose proof (Z.mod_pos_bound (max - min + n - 1) n ltac:(lia)) as Hr. fold w in Hdm.
  assert (0 < w) as Hw by nia. split; [split; [done|nia]|]. split; [apply Z.div_pos; lia|]. apply Z.div_lt_upper_bound; nia.
Qed.

Lemma bin_index_spec h vs v : counts_of h n min max vs -> min <= v < max ->
  bin_index h v = Done ((v - min) / bin_width n min max) /\ ((v - min) / bin_width n min max <? numBins h) = true.
Proof.
  intros [(Hnb & Hw & Hm & _) _ _] Hv. destruct (width_bounds v Hv) as [Hwb Hi]. unfold is_s32 in *.
  unfold bin_index. rewrite Hw, Hm, (proj2 (Z.eqb_neq _ 0)) by lia. rewrite Z.quot_div_nonneg, u32_small by (unfold is_u32; lia).
  split; [done|]. rewrite Hnb. lia.
Qed.
Lemma in_range_spec h vs v : counts_of h n min max vs -> in_range h v = true <-> min <= v < max.
Proof. intros [(_ & _ & Hm & Hx) _ _]. unfold in_range. rewrite Hm, Hx. lia. Qed.

Lemma inc_counts h vs v : counts_of h n min max vs -> exists h', histogram_inc h v = Done h' /\ counts_of h' n min max (vs ++ [v]).
Proof.
  intros Hc. pose proof (in_range_spec h vs v Hc) as Hir. pose proof Hc as [Hg Hl Hcs]. unfold histogram_inc. destruct (in_range h v) eqn:Hin.
  - assert (min <= v < max) as Hv by (by apply Hir). destruct (bin_index_spec h vs v Hc Hv) as [-> Hlt]. cbn [mbind outcome_bind].
    rewrite Hlt. destruct (width_bounds v Hv) as [_ Hi]. set (i := (v - min) / bin_width n min max) in *.
    rewrite <- (Z2Nat.id i) by lia. assert (Z.to_nat i < Z.to_nat n)%nat as Hin' by lia.
    rewrite aget_nat, (Hcs _ Hin'). cbn [of_option mbind outcome_bind]. rewrite aset_nat by lia. cbn [of_option mbind outcome_bind].
    eexists. split; [done|]. split; cbn [numBins binRange h_min h_max bins]; [done|by rewrite length_insert|].
    intros j Hj. rewrite filter_app, length_app. destruct (decide (j = Z.to_nat i)) as [->|Hne].
    + rewrite list_lookup_insert_eq by lia. rewrite filter_cons_True by (split; [done|by rewrite Z2Nat.id by lia]).
      rewrite u32_add_l. rewrite filter_nil. cbn [length]. f_equal. f_equal. lia.
    + rewrite list_lookup_insert_ne by done. rewrite (Hcs j Hj), filter_cons_False by (intros [_ He]; apply Hne; unfold i; by rewrite He, Nat2Z.id).
      do 3 f_equal. cbn. lia.
  - exists h. split; [done|]. split; [done|done|]. intros j Hj. rewrite (Hcs j Hj), filter_app, length_app, filter_cons_False.
    + do 3 f_equal. cbn. lia.
    + intros [Hv _]. apply Hir in Hv. done.
Qed.
Lemma incs_counts vs : forall h ws, counts_of h n min max ws ->
  exists h', histogram_incs h vs = Done h' /\ counts_of h' n min max (ws ++ vs).
Proof.
  induction vs as [|v vs IH]; intros h ws Hc; [exists h; by rewrite app_nil_r|]. cbn [histogram_incs].
  destruct (inc_counts h ws v Hc) as (h1 & -> & Hc1). cbn [mbind outcome_bind]. destruct (IH h1 _ Hc1) as (h2 & -> & Hc2).
  exists h2. by rewrite <- app_assoc in Hc2.
Qed.
End Counts.

(** A histogram counts (modulo [2 ^ 32]): whatever values are given to
    it, the frequency of a value of its range is the number of values so far
    that fell in the same of its [n] bins, and that of any other is 0. *)
Theorem histogram_counts_bins n min max vs v : 0 < n < 2 ^ 31 -> is_s32 min -> is_s32 max -> min <= max -> max - min + n < 2 ^ 31 ->
  exists h h', histogram_init n min max = Done h /\ histogram_incs h vs = Done h' /\
    histogram_get h' v = Done (if decide (min <= v < max)
      then u32 (Z.of_nat (length (filter (fun x => min <= x < max /\
             (x - min) / bin_width n min max = (v - min) / bin_width n min max) vs)))
      else 0).
Proof.
  intros Hn Hmin Hmax Hmm Hd. assert (exists h, histogram_init n min max = Done h /\ counts_of h n min max []) as (h & Hh & Hc0) by (by apply init_counts).
  assert (exists h', histogram_incs h vs = Done h' /\ counts_of h' n min max vs) as (h' & Hh' & Hc) by (by eapply (incs_counts _ _ _) with (ws := [])). exists h, h'. split; [done|]. split; [done|].
  pose proof (in_range_spec n min max h' vs v Hc) as Hir. unfold histogram_get. destruct (in_range h' v).
  - assert (min <= v < max) as Hv by (by apply Hir). assert (bin_index h' v = Done ((v - min) / bin_width n min max) /\ ((v - min) / bin_width n min max <? numBins h') = true) as [-> Hlt]
      by (by eapply bin_index_spec). cbn [mbind outcome_bind]. rewrite Hlt.
    assert (0 <= (v - min) / bin_width n min max < n) as Hi by (by eapply width_bounds). rewrite decide_True by done. set (i := (v - min) / bin_width n min max) in *.
    rewrite <- (Z2Nat.id i) at 1 by lia. rewrite aget_nat, (co_counts _ _ _ _ _ Hc) by lia. by rewrite Z2Nat.id by lia.
  - rewrite decide_False; [done|]. intros Hv. by apply Hir in Hv.
Qed.
Example histogram_counts_bins_witness : exists h h', histogram_init 3 0 10 = Done h /\ histogram_incs h [1; 5; 2; 9; 12; 3] = Done h' /\
  histogram_get h' 0 = Done 3.
Proof.
  destruct (histogram_counts_bins 3 0 10 [1; 5; 2; 9; 12; 3] 0) as (h & h' & Hh & Hh' & Hg); [lia|unfold is_s32; lia|unfold is_s32; lia|lia|lia|].
  exists h, h'. split; [exact Hh|]. split; [exact Hh'|]. rewrite Hg. vm_compute. reflexivity.
Defined.
