(* ===== verification/SosalCache.v ===== *)
(** * Caches (source/sosal/cache.c, include/sosal/cache.h)

    A cache in front of a slow source of bytes.  A call holds the mutex of the
    cache from its start to its end, so that it is one step.  Then what a
    good cache is, what a client sees in it, and replacing a line. *)
From S2P Require Import Prelude.

Inductive cache_policy_e : Set := CACHE_POLICY_WRITE_THROUGH | CACHE_POLICY_WRITE_BACK.
#[export] Instance cache_policy_dec : EqDecision cache_policy_e.
Proof. solve_decision. Defined.

(** [data]: the buffer of [lineSize] bytes; [None] is a null pointer. *)
Record cache_line_t : Set := mkLine {
  locked : bool; valid : bool; age : Z; start_offset : Z; end_offset : Z; data : option (list Z) }.
(** [numLines] is the length of [line]. *)
Record cache_t : Set := mkCache { line : list cache_line_t; lineSize : Z; policy : cache_policy_e }.

(** What [calloc] gives for a line. *)
Definition no_line : cache_line_t := mkLine false false 0 0 0 None.
Definition with_data (d : list Z) (l : cache_line_t) : cache_line_t :=
  mkLine (locked l) (valid l) (age l) (start_offset l) (end_offset l) (Some d).
Definition with_valid (v : bool) (l : cache_line_t) : cache_line_t :=
  mkLine (locked l) v (age l) (start_offset l) (end_offset l) (data l).
Definition with_age (a : Z) (l : cache_line_t) : cache_line_t :=
  mkLine (locked l) (valid l) a (start_offset l) (end_offset l) (data l).
Definition with_range (s e : Z) (l : cache_line_t) : cache_line_t :=
  mkLine (locked l) (valid l) (age l) s e (data l).

(** [memcpy] from and to a buffer; outside of it is undefined. *)
Definition bytes_at (buf : list Z) (off size : Z) : option (list Z) :=
  if (0 <=? off) && (off + size <=? Z.of_nat (length buf))
  then Some (take (Z.to_nat size) (drop (Z.to_nat off) buf)) else None.
Definition overwrite (buf : list Z) (off : Z) (bs : list Z) : option (list Z) :=
  if (0 <=? off) && (off + Z.of_nat (length bs) <=? Z.of_nat (length buf))
  then Some (take (Z.to_nat off) buf ++ bs ++ drop (Z.to_nat off + length bs) buf) else None.

(** ** The source behind a cache

    The two functions a cache is created with, which take the state of the
    source ([cookie]), a buffer, its size and an offset. *)
Class CacheSource (Src : Type) := {
  fillLine : Src -> list Z -> Z -> Z -> Src * list Z;
  commitLine : Src -> list Z -> Z -> Z -> Src }.

(** What a cache relies on, for offsets below [extent]: [content] is what the
    source holds. *)
Class LawfulSource (Src : Type) `{CacheSource Src} := {
  content : Src -> Z -> Z;
  extent : Z;
  source_ok : Src -> Prop;
  extent_u64 : extent < 2 ^ 64;
  fill_law s buf n off : source_ok s -> Z.of_nat (length buf) = n -> 0 <= off -> off + n <= extent ->
    source_ok (fillLine s buf n off).1 /\
    (forall o, 0 <= o < extent -> content (fillLine s buf n off).1 o = content s o) /\
    (fillLine s buf n off).2 = content s <$> seqZ off n;
  commit_law s buf n off : source_ok s -> Z.of_nat (length buf) = n -> 0 <= off -> off + n <= extent ->
    source_ok (commitLine s buf n off) /\
    (forall o, 0 <= o < extent -> content (commitLine s buf n off) o =
       if (off <=? o) && (o <? off + n) then default 0 (buf !! Z.to_nat (o - off)) else content s o) }.

(** ** Creation and destruction

    [answers] are the successes of the calls of [calloc]; [live] counts the
    blocks in use. *)
Definition calloc_answer (answers : list bool) (live : Z) : bool * list bool * Z :=
  match answers with true :: rest => (true, rest, live + 1) | _ :: rest => (false, rest, live) | [] => (false, [], live) end.

Fixpoint free_lines (numLines : nat) (lines : list cache_line_t) (live : Z) : outcome Z :=
  match numLines, lines with
  | O, _ => Done live
  | S n, l :: lines => free_lines n lines (match data l with Some _ => live - 1 | None => live end)
  | S _, [] => Undef
  end.
(** [lines]: null when their array was not granted. *)
Definition cache_destroy (lines : option (list cache_line_t)) (numLines : nat) (live : Z) : outcome Z :=
  match lines with
  | None => if decide (numLines = 0%nat) then Done (live - 1) else Undef
  | Some ls => live ← free_lines numLines ls live; Done (live - 1 - 1)
  end.

(** The buffers of the lines: those made, and whether all were granted. *)
Fixpoint make_lines (numLines : nat) (size : Z) (answers : list bool) (live : Z) : list cache_line_t * bool * Z :=
  match numLines with
  | O => ([], true, live)
  | S n =>
      let '(ok, answers, live) := calloc_answer answers live in
      if ok then
        let '(ls, all, live) := make_lines n size answers live in
        (with_data (replicate (Z.to_nat size) 0) no_line :: ls, all, live)
      else (replicate numLines no_line, false, live)
  end.
Definition cache_create (size : Z) (numLines : nat) (policy : cache_policy_e) (answers : list bool) (live : Z) :
    outcome (option cache_t * Z) :=
  let '(ok, answers, live) := calloc_answer answers live in
  if negb ok then Done (None, live)
  else
    let '(ok, answers, live) := calloc_answer answers live in
    if negb ok then live ← cache_destroy None numLines live; Done (None, live)
    else
      let '(ls, all, live) := make_lines numLines size answers live in
      if all then Done (Some (mkCache ls size policy), live)
      else live ← cache_destroy (Some ls) numLines live; Done (None, live).

(** ** Lookup and replacement *)

Definition covers (offset : Z) (l : cache_line_t) : bool :=
  valid l && (start_offset l <=? offset) && (offset <? end_offset l).
Fixpoint index_loop (offset : Z) (i : nat) (ls : list cache_line_t) : option nat :=
  match ls with [] => None | l :: ls => if covers offset l then Some i else index_loop offset (S i) ls end.
Definition cache_index (c : cache_t) (offset : Z) : option nat := index_loop offset 0 (line c).
Definition cache_round_offset (c : cache_t) (offset : Z) : Z := u64 (offset / lineSize c * lineSize c).

(** The last line that is free, if any, and the oldest of the others. *)
Fixpoint next_loop (ls : list cache_line_t) (i : nat) (found : option nat) (oldest_clock : Z) (oldest : nat) : option nat * nat :=
  match ls with
  | [] => (found, oldest)
  | l :: ls =>
      if valid l then
        if negb (locked l) && (age l <? oldest_clock) then next_loop ls (S i) found (age l) i
        else next_loop ls (S i) found oldest_clock oldest
      else next_loop ls (S i) (Some i) oldest_clock oldest
  end.

Section Cache.
Context {Src : Type} `{CacheSource Src}.
(** The readings of [clock()], one after the other. *)
Context (clock : nat -> Z).

(** A cache, its source, and how often the clock was read. *)
Record cache_world := mkWorld { w_cache : cache_t; w_src : Src; w_ticks : nat }.
Definition with_lines (ls : list cache_line_t) (w : cache_world) : cache_world :=
  mkWorld (mkCache ls (lineSize (w_cache w)) (policy (w_cache w))) (w_src w) (w_ticks w).
Definition set_line (i : nat) (l : cache_line_t) (w : cache_world) : cache_world :=
  with_lines (<[i := l]> (line (w_cache w))) w.
Definition with_src (s : Src) (w : cache_world) : cache_world := mkWorld (w_cache w) s (w_ticks w).
Definition tick (w : cache_world) : cache_world := mkWorld (w_cache w) (w_src w) (S (w_ticks w)).
Definition get_line (w : cache_world) (i : nat) : outcome cache_line_t := of_option (line (w_cache w) !! i).

Definition commit (l : cache_line_t) (w : cache_world) : outcome cache_world :=
  d ← of_option (data l);
  Done (with_src (commitLine (w_src w) d (lineSize (w_cache w)) (start_offset l)) w).

(** Without a free line the code commits and drops the line behind the last
    one, where the index of its loop has come to, not the oldest. *)
Definition cache_next (w : cache_world) : outcome (nat * cache_world) :=
  let '(found, oldest) := next_loop (line (w_cache w)) 0 None (clock (w_ticks w)) 0 in
  let w := tick w in
  match found with
  | Some i => Done (i, w)
  | None =>
      l ← get_line w (length (line (w_cache w)));
      w ← (if decide (policy (w_cache w) = CACHE_POLICY_WRITE_BACK) then commit l w else Done w);
      Done (oldest, set_line (length (line (w_cache w))) (with_valid false l) w)
  end.

(** ** Reading and writing

    The part of a request that one line serves. *)
Definition piece_size (c : cache_t) (len offset : Z) : Z :=
  if len <? lineSize c then len else lineSize c - offset mod lineSize c.

Definition fill (i : nat) (offset : Z) (w : cache_world) : outcome cache_world :=
  let c := w_cache w in
  l ← get_line w i; d ← of_option (data l);
  let '(s, d) := fillLine (w_src w) d (lineSize c) (cache_round_offset c offset) in
  Done (set_line i (with_data d l) (with_src s w)).

Definition read_piece (len offset : Z) (w : cache_world) : outcome (list Z * cache_world) :=
  let c := w_cache w in
  if lineSize c =? 0 then Undef
  else
    '(i, w) ← match cache_index c offset with
              | Some i => Done (i, w)
              | None => '(i, w) ← cache_next w; w ← fill i offset w; Done (i, w)
              end;
    l ← get_line w i; d ← of_option (data l);
    bs ← of_option (bytes_at d (offset mod lineSize c) (piece_size c len offset));
    Done (bs, w).

Fixpoint read_loop (fuel : nat) (len offset bytesRead : Z) (w : cache_world) : outcome (Z * list Z * cache_world) :=
  match fuel with
  | O => NoFuel
  | S f =>
      let size := piece_size (w_cache w) len offset in
      '(bs, w) ← read_piece len offset w;
      if 0 <? len - size then
        '(n, rest, w) ← read_loop f (len - size) (u64 (offset + size)) (u64 (bytesRead + size)) w;
        Done (n, bs ++ rest, w)
      else Done (u64 (bytesRead + size), bs, w)
  end.
(** The bytes are what is written to [data].  One round more than there are
    bytes is enough. *)
Definition cache_read (len offset : Z) (w : cache_world) : outcome (Z * list Z * cache_world) :=
  read_loop (S (Z.to_nat len)) len offset 0 w.

Definition write_piece (bs : list Z) (len offset : Z) (w : cache_world) : outcome cache_world :=
  let c := w_cache w in
  if lineSize c =? 0 then Undef
  else
    '(i, w) ← match cache_index c offset with
              | Some i => Done (i, w)
              | None =>
                  '(i, w) ← cache_next w;
                  l ← get_line w i;
                  let start := cache_round_offset c offset in
                  Done (i, set_line i (with_range start (u64 (start + lineSize c)) l) w)
              end;
    l ← get_line w i; d ← of_option (data l);
    bs ← of_option (bytes_at bs 0 (piece_size c len offset));
    d ← of_option (overwrite d (offset mod lineSize c) bs);
    let l := with_age (clock (w_ticks w)) (with_valid true (with_data d l)) in
    let w := tick (set_line i l w) in
    if decide (policy c = CACHE_POLICY_WRITE_THROUGH) then commit l w else Done w.

Fixpoint write_loop (fuel : nat) (bs : list Z) (len offset written : Z) (w : cache_world) : outcome (Z * cache_world) :=
  match fuel with
  | O => NoFuel
  | S f =>
      let size := piece_size (w_cache w) len offset in
      w ← write_piece bs len offset w;
      if 0 <? len - size then
        write_loop f (drop (Z.to_nat size) bs) (len - size) (u64 (offset + size)) (u64 (written + size)) w
      else Done (u64 (written + size), w)
  end.
(** [bs]: what [data] points to. *)
Definition cache_write (bs : list Z) (len offset : Z) (w : cache_world) : outcome (Z * cache_world) :=
  write_loop (S (Z.to_nat len)) bs len offset 0 w.

(** ** All lines *)

Definition drop_line (l : cache_line_t) : cache_line_t := if valid l then with_valid false (with_age 0 l) else l.
Definition cache_invalidate (w : cache_world) : cache_world := with_lines (drop_line <$> line (w_cache w)) w.

Definition flush_line (w : cache_world) (i : nat) : outcome cache_world :=
  l ← get_line w i;
  if valid l then w ← commit l w; Done (set_line i (drop_line l) w) else Done w.
Definition cache_flush (w : cache_world) : outcome cache_world :=
  ofold flush_line (seq 0 (length (line (w_cache w)))) w.
End Cache.
Arguments cache_world Src : clear implicits.

(** ** What a cache holds *)

Definition byte_of (d : list Z) (k : Z) : Z := default 0 (d !! Z.to_nat k).

Lemma bytes_at_Some buf off n bs : bytes_at buf off n = Some bs ->
  0 <= off /\ off + n <= Z.of_nat (length buf) /\ bs = take (Z.to_nat n) (drop (Z.to_nat off) buf).
Proof. unfold bytes_at. destruct (Z.leb_spec 0 off), (Z.leb_spec (off + n) (Z.of_nat (length buf))); intros [= <-]; auto. Qed.
Lemma bytes_at_in buf off n : 0 <= off -> off + n <= Z.of_nat (length buf) ->
  bytes_at buf off n = Some (take (Z.to_nat n) (drop (Z.to_nat off) buf)).
Proof. intros. unfold bytes_at. by rewrite (proj2 (Z.leb_le _ _)), (proj2 (Z.leb_le _ _)) by lia. Qed.
Lemma bytes_at_out buf off n : Z.of_nat (length buf) < off + n -> bytes_at buf off n = None.
Proof. intros. unfold bytes_at. rewrite (proj2 (Z.leb_gt (off + n) _)) by lia. by rewrite andb_false_r. Qed.

Lemma overwrite_byte buf off bs d k : overwrite buf off bs = Some d -> 0 <= k < Z.of_nat (length buf) ->
  length d = length buf /\
  byte_of d k = if (off <=? k) && (k <? off + Z.of_nat (length bs)) then byte_of bs (k - off) else byte_of buf k.
Proof.
  unfold overwrite, byte_of. destruct (Z.leb_spec 0 off), (Z.leb_spec (off + Z.of_nat (length bs)) (Z.of_nat (length buf)));
    intros [= <-] Hk; (split; [rewrite !length_app, length_take, length_drop; lia|]).
  destruct (Z.leb_spec off k); simpl.
  - rewrite lookup_app_r by (rewrite length_take; lia). rewrite length_take, Nat.min_l by lia.
    destruct (Z.ltb_spec k (off + Z.of_nat (length bs))).
    + rewrite lookup_app_l by lia. do 2 f_equal. lia.
    + rewrite lookup_app_r, lookup_drop by lia. do 2 f_equal. lia.
  - rewrite lookup_app_l by (rewrite length_take; lia). by rewrite lookup_take_lt by lia.
Qed.

Section Facts.
Context {Src : Type} `{LawfulSource Src}.
Implicit Types (w : cache_world Src) (l : cache_line_t).

(** A line has its buffer, and a valid one a place of its own. *)
Record line_ok (sz : Z) (l : cache_line_t) : Prop := {
  lo_data : exists d, data l = Some d /\ Z.of_nat (length d) = sz;
  lo_range : valid l = true -> 0 <= start_offset l /\ start_offset l mod sz = 0 /\
    end_offset l = start_offset l + sz /\ end_offset l <= extent }.

Definition agrees (s : Src) (l : cache_line_t) : Prop := forall d o, data l = Some d -> covers o l = true ->
  content s o = byte_of d (o - start_offset l).

Record cache_ok (w : cache_world Src) : Prop := {
  co_size : 0 < lineSize (w_cache w);
  co_extent : extent mod lineSize (w_cache w) = 0;
  co_some : line (w_cache w) <> [];
  co_lines : Forall (line_ok (lineSize (w_cache w))) (line (w_cache w));
  co_apart i j l k : line (w_cache w) !! i = Some l -> line (w_cache w) !! j = Some k ->
    valid l = true -> valid k = true -> start_offset l = start_offset k -> i = j;
  co_source : source_ok (w_src w);
  co_through : policy (w_cache w) = CACHE_POLICY_WRITE_THROUGH -> Forall (agrees (w_src w)) (line (w_cache w)) }.

(** The byte at an offset, as a client sees it. *)
Definition view (w : cache_world Src) (o : Z) : Z :=
  match cache_index (w_cache w) o ≫= (line (w_cache w) !!.) with
  | Some l => byte_of (default [] (data l)) (o - start_offset l)
  | None => content (w_src w) o
  end.

Lemma index_loop_spec o ls n :
  match index_loop o n ls with
  | Some i => (n <= i)%nat /\ exists l, ls !! (i - n)%nat = Some l /\ covers o l = true
  | None => Forall (fun l => covers o l = false) ls
  end.
Proof.
  revert n. induction ls as [|l ls IH]; intros n; simpl; [constructor|].
  destruct (covers o l) eqn:E; [split; [lia|]; exists l; by rewrite Nat.sub_diag|].
  specialize (IH (S n)). destruct (index_loop o (S n) ls) as [i|]; [|by constructor].
  destruct IH as (Hi & k & Hk & Hc). split; [lia|]. exists k. by replace (i - n)%nat with (S (i - S n)) by lia.
Qed.

Lemma covers_iff o l : covers o l = true <-> valid l = true /\ start_offset l <= o < end_offset l.
Proof. unfold covers. rewrite !andb_true_iff, Z.leb_le, Z.ltb_lt. tauto. Qed.

(** A line of an offset starts where the offset is rounded to. *)
Lemma covers_start sz o l : 0 < sz -> line_ok sz l -> covers o l = true -> start_offset l = o / sz * sz.
Proof.
  intros Hs [_ Hr] (Hv & Ho)%covers_iff. destruct (Hr Hv) as (_ & Hm & He & _).
  pose proof (Z.div_mod (start_offset l) sz ltac:(lia)) as Hd. rewrite Hm in Hd.
  rewrite <- (Z.div_unique_pos o sz (start_offset l / sz) (o - start_offset l)) by lia. lia.
Qed.
Lemma start_covers sz o l : 0 < sz -> line_ok sz l -> valid l = true -> start_offset l = o / sz * sz -> covers o l = true.
Proof.
  intros Hs [_ Hr] Hv He. destruct (Hr Hv) as (_ & _ & Hend & _). apply covers_iff. split; [done|].
  pose proof (Z.div_mod o sz ltac:(lia)). pose proof (Z.mod_pos_bound o sz Hs). lia.
Qed.

Lemma ok_line w i l : cache_ok w -> line (w_cache w) !! i = Some l -> line_ok (lineSize (w_cache w)) l.
Proof. intros Hok. by apply Forall_lookup_1, co_lines. Qed.

Lemma covers_apart w i j l k o : cache_ok w -> line (w_cache w) !! i = Some l -> line (w_cache w) !! j = Some k ->
  covers o l = true -> covers o k = true -> i = j.
Proof.
  intros Hok Hi Hj Hl Hk. pose proof (co_size w Hok). apply (co_apart w Hok i j l k); [done..| | |].
  - by apply covers_iff in Hl as [].
  - by apply covers_iff in Hk as [].
  - trans (o / lineSize (w_cache w) * lineSize (w_cache w)); [|symmetry]; eapply covers_start; by eauto using ok_line.
Qed.

Lemma view_hit w i l d o : cache_ok w -> line (w_cache w) !! i = Some l -> covers o l = true -> data l = Some d ->
  cache_index (w_cache w) o = Some i /\ view w o = byte_of d (o - start_offset l).
Proof.
  intros Hok Hi Hc Hd. unfold view. pose proof (index_loop_spec o (line (w_cache w)) 0) as Hx.
  unfold cache_index. destruct (index_loop o 0 _) as [j|].
  - destruct Hx as (_ & k & Hk & Hck). rewrite Nat.sub_0_r in Hk.
    rewrite (covers_apart w j i k l o) by done. simpl. rewrite Hi. simpl. by rewrite Hd.
  - by rewrite (Forall_lookup_1 _ _ _ _ Hx Hi) in Hc.
Qed.
Lemma view_miss w o : Forall (fun l => covers o l = false) (line (w_cache w)) ->
  cache_index (w_cache w) o = None /\ view w o = content (w_src w) o.
Proof.
  intros Hf. unfold view. pose proof (index_loop_spec o (line (w_cache w)) 0) as Hx. unfold cache_index.
  destruct (index_loop o 0 _) as [j|]; [|done]. destruct Hx as (_ & k & Hk & Hck). by rewrite (Forall_lookup_1 _ _ _ _ Hf Hk) in Hck.
Qed.
Lemma view_cases w o : cache_ok w ->
  (exists i l d, line (w_cache w) !! i = Some l /\ covers o l = true /\ data l = Some d /\
     cache_index (w_cache w) o = Some i /\ view w o = byte_of d (o - start_offset l)) \/
  (Forall (fun l => covers o l = false) (line (w_cache w)) /\ cache_index (w_cache w) o = None /\
     view w o = content (w_src w) o).
Proof.
  intros Hok. pose proof (index_loop_spec o (line (w_cache w)) 0) as Hx. destruct (index_loop o 0 _) as [j|].
  - left. destruct Hx as (_ & k & Hk & Hck). rewrite Nat.sub_0_r in Hk.
    destruct (lo_data _ _ (ok_line w j k Hok Hk)) as (d & Hd & _). exists j, k, d.
    destruct (view_hit w j k d o Hok Hk Hck Hd). by split_and!.
  - right. split; [done|]. by apply view_miss.
Qed.

(** ** One line replaced

    What the result of a step needs to be a good cache again, and to show
    the bytes [v]. *)
Definition replaced (w w' : cache_world Src) (i : nat) (l' : cache_line_t) : Prop :=
  w_cache w' = mkCache (<[i := l']> (line (w_cache w))) (lineSize (w_cache w)) (policy (w_cache w)).

Lemma replace_ok w w' i l l' : cache_ok w -> line (w_cache w) !! i = Some l -> replaced w w' i l' ->
  line_ok (lineSize (w_cache w)) l' -> source_ok (w_src w') ->
  (forall j k, j <> i -> line (w_cache w) !! j = Some k -> valid k = true -> valid l' = true -> start_offset k <> start_offset l') ->
  (policy (w_cache w) = CACHE_POLICY_WRITE_THROUGH -> agrees (w_src w') l' /\
     forall j k, j <> i -> line (w_cache w) !! j = Some k -> agrees (w_src w') k) ->
  cache_ok w'.
Proof.
  intros Hok Hi Hw Hl Hs Hap Hwt. pose proof (lookup_lt_Some _ _ _ Hi) as Hlt.
  split; rewrite ?Hw; cbn [line lineSize policy]; [by apply Hok| by apply Hok| | | |done|].
  - intros E. apply (f_equal length) in E. rewrite length_insert in E. simpl in E. lia.
  - apply Forall_insert; [by apply Hok|done].
  - intros a b la lb Ha Hb Hva Hvb E.
    destruct (decide (a = i)) as [->|], (decide (b = i)) as [->|]; [done| | |].
    + rewrite list_lookup_insert_eq in Ha by done. rewrite list_lookup_insert_ne in Hb by done. simplify_eq.
      by destruct (Hap b lb).
    + rewrite list_lookup_insert_eq in Hb by done. rewrite list_lookup_insert_ne in Ha by done. simplify_eq.
      by destruct (Hap a la).
    + rewrite list_lookup_insert_ne in Ha, Hb by done. by apply (co_apart w Hok a b la lb).
  - intros Hp. destruct (Hwt Hp) as [Hl' Hother]. apply Forall_lookup_2. intros j k Hj.
    destruct (decide (j = i)) as [->|]; [rewrite list_lookup_insert_eq in Hj by done; by simplify_eq|].
    rewrite list_lookup_insert_ne in Hj by done. by eauto.
Qed.

Lemma replace_view w w' i l l' d' o v : cache_ok w -> cache_ok w' -> line (w_cache w) !! i = Some l ->
  replaced w w' i l' -> data l' = Some d' ->
  (covers o l' = true -> v = byte_of d' (o - start_offset l')) ->
  (covers o l' = false -> (exists j k, j <> i /\ line (w_cache w) !! j = Some k /\ covers o k = true) -> v = view w o) ->
  (covers o l' = false -> (forall j k, j <> i -> line (w_cache w) !! j = Some k -> covers o k = false) -> v = content (w_src w') o) ->
  view w' o = v.
Proof.
  intros Hok Hok' Hi Hw Hd H1 H2 H3. pose proof (lookup_lt_Some _ _ _ Hi) as Hlt.
  assert (forall j, line (w_cache w') !! j = if decide (j = i) then Some l' else line (w_cache w) !! j) as Hls.
  { intros j. rewrite Hw. cbn [line]. destruct (decide (j = i)) as [->|];
      [by apply list_lookup_insert_eq | by apply list_lookup_insert_ne]. }
  destruct (view_cases w' o Hok') as [(j & k & d & Hj & Hc & Hdk & _ & ->)|(Hno & _ & ->)].
  - rewrite Hls in Hj. case_decide as E; [simplify_eq; by rewrite H1|].
    assert (covers o l' = false) as Hl'.
    { apply not_true_iff_false. intros Hl'. apply E. apply (covers_apart w' j i k l' o Hok'); [|..|done|done];
        rewrite Hls; [by rewrite decide_False|by rewrite decide_True]. }
    destruct (view_hit w j k d o Hok Hj Hc Hdk) as [_ <-]. symmetry. apply H2; [done|]. by exists j, k.
  - assert (covers o l' = false) as Hl'. { apply (Forall_lookup_1 _ _ i _ Hno). rewrite Hls. by rewrite decide_True. }
    symmetry. apply H3; [done|]. intros j k Hji Hj. apply (Forall_lookup_1 _ _ j _ Hno). rewrite Hls. by rewrite decide_False.
Qed.
(** ** Steps that change nothing for a client *)

Definition same_view (w w' : cache_world Src) : Prop := forall o, 0 <= o < extent -> view w' o = view w o.

(** The line of an offset lies in the source. *)
Lemma round_range w o : cache_ok w -> 0 <= o < extent ->
  let r := o / lineSize (w_cache w) * lineSize (w_cache w) in
  cache_round_offset (w_cache w) o = r /\ 0 <= r <= o /\ o < r + lineSize (w_cache w) <= extent /\
  r mod lineSize (w_cache w) = 0 /\ o - r = o mod lineSize (w_cache w).
Proof.
  intros Hok Ho r. pose proof (co_size w Hok) as Hs. pose proof (co_extent w Hok) as He. pose proof extent_u64.
  pose proof (Z.div_mod o (lineSize (w_cache w)) ltac:(lia)) as Hd. pose proof (Z.mod_pos_bound o _ Hs).
  pose proof (Z.div_mod extent (lineSize (w_cache w)) ltac:(lia)) as Hx. rewrite He in Hx.
  assert (o / lineSize (w_cache w) < extent / lineSize (w_cache w)) by (apply Z.div_lt_upper_bound; lia).
  assert (0 <= o / lineSize (w_cache w)) by (apply Z.div_pos; lia).
  assert (0 <= r <= o) by (unfold r; nia). split_and!; [|lia|lia|unfold r; lia|unfold r; nia|by apply Z_mod_mult|unfold r; lia].
  apply u64_small. unfold is_u64. lia.
Qed.

(** A valid line is dropped, after its commit or when the source has its
    bytes already. *)
Lemma drop_step w w' i l d l' : cache_ok w -> line (w_cache w) !! i = Some l -> valid l = true -> data l = Some d ->
  replaced w w' i l' -> valid l' = false -> data l' = data l ->
  w_src w' = commitLine (w_src w) d (lineSize (w_cache w)) (start_offset l) \/
    (policy (w_cache w) = CACHE_POLICY_WRITE_THROUGH /\ w_src w' = w_src w) ->
  cache_ok w' /\ same_view w w'.
Proof.
  intros Hok Hi Hv Hd Hw Hv' Hd' Hs.
  destruct (lo_data _ _ (ok_line w i l Hok Hi)) as (d0 & Hd0 & Hlen). rewrite Hd in Hd0. simplify_eq.
  destruct (lo_range _ _ (ok_line w i l Hok Hi) Hv) as (Hst & Hm & He & Hx).
  assert (source_ok (w_src w') /\ forall o, 0 <= o < extent -> content (w_src w') o =
            if covers o l then byte_of d0 (o - start_offset l) else content (w_src w) o) as [Hok' Hc].
  { destruct Hs as [->|[Hp ->]].
    - destruct (commit_law (w_src w) d0 (lineSize (w_cache w)) (start_offset l)) as [? Hc]; [by apply Hok|lia..|].
      split; [done|]. intros o Ho. rewrite Hc by done. unfold covers. rewrite Hv, He. done.
    - split; [by apply Hok|]. intros o Ho. destruct (covers o l) eqn:E; [|done].
      by apply (Forall_lookup_1 _ _ i _ (co_through w Hok Hp) Hi). }
  assert (forall o, covers o l' = false) as Hno by (intros o; unfold covers; by rewrite Hv').
  assert (forall j k o, j <> i -> line (w_cache w) !! j = Some k -> covers o k = true -> covers o l = false) as Hone.
  { intros j k o Hj Hk Hck. apply not_true_iff_false. intros E. apply Hj. by apply (covers_apart w j i k l o). }
  assert (cache_ok w') as Hgood.
  { apply (replace_ok w w' i l l'); [done..| |done|congruence|].
    - split; [by rewrite Hd'; eauto|congruence].
    - intros Hp. split; [intros d1 o _; by rewrite Hno|]. intros j k Hj Hk d1 o Hd1 Hck.
      pose proof (Forall_lookup_1 _ _ j _ (co_through w Hok Hp) Hk d1 o Hd1 Hck) as Ha.
      pose proof (proj1 (covers_iff o k) Hck) as [Hvk Hok2].
      destruct (lo_range _ _ (ok_line w j k Hok Hk) Hvk) as (? & _ & ? & ?).
      rewrite Hc by lia. by rewrite (Hone j k o). }
  split; [done|]. intros o Ho. apply (replace_view w w' i l l' d0); [done..|congruence|by rewrite Hno|done|].
  intros _ Hothers. rewrite Hc by done. destruct (covers o l) eqn:E.
  - by destruct (view_hit w i l d0 o Hok Hi E Hd).
  - apply view_miss. apply Forall_lookup_2. intros j k Hj. destruct (decide (j = i)) as [->|]; [by simplify_eq|by eauto].
Qed.

Lemma next_loop_spec ls n f oc old :
  match next_loop ls n f oc old with
  | (Some i, _) => f = Some i \/ ((n <= i)%nat /\ exists l, ls !! (i - n)%nat = Some l /\ valid l = false)
  | (None, _) => f = None /\ Forall (fun l => valid l = true) ls
  end.
Proof.
  revert n f oc old. induction ls as [|l ls IH]; intros n f oc old; simpl; [by destruct f; auto|].
  destruct (valid l) eqn:E.
  - assert (forall oc' old',
      match next_loop ls (S n) f oc' old' with
      | (Some i, _) => f = Some i \/ ((n <= i)%nat /\ exists k, (l :: ls) !! (i - n)%nat = Some k /\ valid k = false)
      | (None, _) => f = None /\ Forall (fun l => valid l = true) (l :: ls)
      end) as Hrest.
    { intros oc' old'. specialize (IH (S n) f oc' old'). destruct (next_loop ls (S n) f oc' old') as [[i|] i'].
      - destruct IH as [|(Hn & k & Hk & Hvk)]; [by left|right]. split; [lia|]. exists k.
        by replace (i - n)%nat with (S (i - S n)) by lia.
      - destruct IH as (? & ?). split; [done|by constructor]. }
    destruct (negb (locked l) && (age l <? oc)); apply Hrest.
  - specialize (IH (S n) (Some n) oc old). destruct (next_loop ls (S n) (Some n) oc old) as [[i|] i'].
    + destruct IH as [[= <-]|(Hn & k & Hk & Hvk)]; right; [split; [lia|]; exists l; by rewrite Nat.sub_diag|].
      split; [lia|]. exists k. by replace (i - n)%nat with (S (i - S n)) by lia.
    + by destruct IH.
Qed.

(** ** The lines in use

    The places of the valid lines. *)
Definition resident (w : cache_world Src) : gset Z :=
  list_to_set (start_offset <$> filter (fun l => valid l = true) (line (w_cache w))).

Lemma elem_resident w x : x ∈ resident w <-> exists j k, line (w_cache w) !! j = Some k /\ valid k = true /\ start_offset k = x.
Proof.
  unfold resident. rewrite elem_of_list_to_set, list_elem_of_fmap. split.
  - intros (k & -> & (Hv & (j & Hj)%list_elem_of_lookup)%list_elem_of_filter). by exists j, k.
  - intros (j & k & Hj & Hv & <-). exists k. split; [done|]. apply list_elem_of_filter. split; [done|]. by apply list_elem_of_lookup_2 in Hj.
Qed.

Lemma replaced_resident w w' i l l' : line (w_cache w) !! i = Some l -> replaced w w' i l' ->
  (valid l = true -> valid l' = true /\ start_offset l' = start_offset l) ->
  resident w' = (if valid l' then {[start_offset l']} else ∅) ∪ resident w.
Proof.
  intros Hi Hw Hl. pose proof (lookup_lt_Some _ _ _ Hi) as Hlt. apply set_eq. intros x.
  rewrite elem_of_union, !elem_resident. rewrite Hw. cbn [line].
  assert (x ∈ (if valid l' then {[start_offset l']} else ∅ : gset Z) <-> valid l' = true /\ start_offset l' = x) as ->
    by (destruct (valid l'); set_solver +).
  split.
  - intros (j & k & Hj & Hv & Hx). destruct (decide (j = i)) as [->|].
    + rewrite list_lookup_insert_eq in Hj by done. simplify_eq. by left.
    + rewrite list_lookup_insert_ne in Hj by done. right. by exists j, k.
  - intros [[Hv Hx]|(j & k & Hj & Hv & Hx)]; [exists i, l'; by rewrite list_lookup_insert_eq|].
    destruct (decide (j = i)) as [->|]; [|exists j, k; by rewrite list_lookup_insert_ne].
    simplify_eq. destruct (Hl Hv). exists i, l'. rewrite list_lookup_insert_eq by done. split_and!; [done|done|congruence].
Qed.

(** A place has a line already, or there is a free one. *)
Definition room (w : cache_world Src) (o : Z) : Prop :=
  o / lineSize (w_cache w) * lineSize (w_cache w) ∈ resident w \/ (size (resident w) < length (line (w_cache w)))%nat.

Lemma all_valid_size w : cache_ok w -> Forall (fun l => valid l = true) (line (w_cache w)) ->
  size (resident w) = length (line (w_cache w)).
Proof.
  intros Hok Hall. unfold resident. replace (filter _ (line (w_cache w))) with (line (w_cache w)).
  2: { clear Hok. induction Hall as [|l ls Hv Hall IH]; [done|]. rewrite filter_cons_True by done. by f_equal. }
  rewrite size_list_to_set, length_fmap; [done|]. apply NoDup_alt. intros i j x Hi Hj.
  rewrite list_lookup_fmap in Hi, Hj. destruct (line (w_cache w) !! i) as [l|] eqn:El; [|done].
  destruct (line (w_cache w) !! j) as [k|] eqn:Ek; [|done]. simpl in Hi, Hj. simplify_eq.
  apply (co_apart w Hok i j l k); [done..| | |done]; [by apply (Forall_lookup_1 _ _ i _ Hall El)|by apply (Forall_lookup_1 _ _ j _ Hall Ek)].
Qed.

Lemma tick_ok w : cache_ok w -> cache_ok (tick w).
Proof. intros []. by split. Qed.

Lemma cache_next_spec clock w o : cache_ok w -> room w o -> Forall (fun l => covers o l = false) (line (w_cache w)) ->
  exists i l, cache_next clock w = Done (i, tick w) /\ line (w_cache w) !! i = Some l /\ valid l = false.
Proof.
  intros Hok Hroom Hno. unfold cache_next. pose proof (next_loop_spec (line (w_cache w)) 0 None (clock (w_ticks w)) 0) as Hn.
  destruct (next_loop _ _ _ _ _) as [[i|] old].
  - destruct Hn as [|(_ & l & Hl & Hv)]; [done|]. rewrite Nat.sub_0_r in Hl. by exists i, l.
  - destruct Hn as [_ Hall]. exfalso. destruct Hroom as [(j & k & Hj & Hv & Hst)%elem_resident|Hlt].
    + pose proof (Forall_lookup_1 _ _ j _ Hno Hj) as Hc. cbn beta in Hc.
      rewrite (start_covers (lineSize (w_cache w)) o k) in Hc; [done|by apply Hok|by eapply ok_line|done|done].
    + rewrite all_valid_size in Hlt by done. lia.
Qed.

Lemma cache_next_full clock w : Forall (fun l => valid l = true) (line (w_cache w)) -> cache_next clock w = Undef.
Proof.
  intros Hall. unfold cache_next. pose proof (next_loop_spec (line (w_cache w)) 0 None (clock (w_ticks w)) 0) as Hn.
  destruct (next_loop _ _ _ _ _) as [[i|] old].
  - destruct Hn as [|(_ & l & Hl & Hv)]; [done|]. by rewrite (Forall_lookup_1 _ _ _ _ Hall Hl) in Hv.
  - unfold get_line. cbn [w_cache tick]. by rewrite lookup_ge_None_2 by lia.
Qed.
End Facts.
