(* ===== verification/SosalCacheProperties.v ===== *)
(** * Properties of caches: calls on a cache act as calls on its source

    Reads inside of the lines and writes of whole lines; what other calls
    do; the files of cache.c as a source. *)
From S2P Require Import Prelude SosalCache.

Section Facts.
Context {Src : Type} `{LawfulSource Src}.
Implicit Types (w : cache_world Src) (l : cache_line_t).

(** What all steps leave as it is, and what reading leaves. *)
Definition frame (w w' : cache_world Src) : Prop := lineSize (w_cache w') = lineSize (w_cache w) /\
  policy (w_cache w') = policy (w_cache w) /\ length (line (w_cache w')) = length (line (w_cache w)).
Definition kept (w w' : cache_world Src) : Prop := frame w w' /\ resident w' = resident w.

Lemma kept_refl w : kept w w.
Proof. done. Qed.
Lemma kept_trans w w1 w2 : kept w w1 -> kept w1 w2 -> kept w w2.
Proof. intros [(? & ? & ?) ?] [(? & ? & ?) ?]. split; [split_and!|]; congruence. Qed.
Lemma kept_room w w' o : kept w w' -> room w o -> room w' o.
Proof. intros [(Hs & _ & Hl) Hr]. unfold room. by rewrite Hs, Hl, Hr. Qed.

(** ** Reading

    Line [i] has the bytes that a client sees around [o]. *)
Definition serves (w : cache_world Src) (i : nat) (o : Z) : Prop := exists l d,
  line (w_cache w) !! i = Some l /\ data l = Some d /\ Z.of_nat (length d) = lineSize (w_cache w) /\
  forall k, 0 <= k < lineSize (w_cache w) -> byte_of d k = view w (o - o mod lineSize (w_cache w) + k).

Lemma covers_near w l o o' : cache_ok w -> line_ok (lineSize (w_cache w)) l ->
  0 <= o' - (o - o mod lineSize (w_cache w)) < lineSize (w_cache w) -> covers o' l = covers o l.
Proof.
  intros Hok Hl Ho. pose proof (co_size w Hok) as Hs.
  pose proof (Z.div_mod o (lineSize (w_cache w)) ltac:(lia)) as Hd.
  assert (o' / lineSize (w_cache w) = o / lineSize (w_cache w)) as Hq.
  { symmetry. apply (Z.div_unique_pos o' _ _ (o' - (o - o mod lineSize (w_cache w)))); lia. }
  apply eq_true_iff_eq. split; intros Hc; pose proof (proj1 (covers_iff _ _) Hc) as [Hv _];
    apply (start_covers (lineSize (w_cache w))); try done; [rewrite <- Hq|rewrite Hq]; by apply covers_start.
Qed.

Lemma hit_serves w i l o : cache_ok w -> line (w_cache w) !! i = Some l -> covers o l = true -> serves w i o.
Proof.
  intros Hok Hi Hc. pose proof (ok_line w i l Hok Hi) as Hl. destruct (lo_data _ _ Hl) as (d & Hd & Hlen).
  exists l, d. split_and!; [done..|]. intros k Hk. pose proof (co_size w Hok) as Hs.
  pose proof (Z.div_mod o (lineSize (w_cache w)) ltac:(lia)). pose proof (covers_start _ o l Hs Hl Hc).
  assert (covers (o - o mod lineSize (w_cache w) + k) l = true) as Hck by (rewrite (covers_near w l o); [done..|lia]).
  destruct (view_hit w i l d _ Hok Hi Hck Hd) as [_ ->]. f_equal. lia.
Qed.

Lemma content_byte s n off k : 0 <= k < n -> byte_of (content s <$> seqZ off n) k = content s (off + k).
Proof.
  intros Hk. unfold byte_of. rewrite list_lookup_fmap, lookup_seqZ_lt by lia. simpl. f_equal. lia.
Qed.

Lemma fill_spec w i l o : cache_ok w -> line (w_cache w) !! i = Some l -> valid l = false -> 0 <= o < extent ->
  Forall (fun l => covers o l = false) (line (w_cache w)) ->
  exists w', fill i o w = Done w' /\ cache_ok w' /\ same_view w w' /\ serves w' i o /\ kept w w'.
Proof.
  intros Hok Hi Hv Ho Hno. unfold fill, get_line. rewrite Hi. cbn [of_option mbind outcome_bind].
  destruct (lo_data _ _ (ok_line w i l Hok Hi)) as (d & Hd & Hlen). rewrite Hd. cbn [of_option mbind outcome_bind].
  destruct (round_range w o Hok Ho) as (-> & Hr & Hr' & _ & Hrem). set (r := o / _ * _) in *.
  destruct (fill_law (w_src w) d (lineSize (w_cache w)) r) as (Hs & Hc & Hbytes); [by apply Hok|lia..|].
  destruct (fillLine _ _ _ _) as [s d'] eqn:E. cbn [fst snd] in *. subst d'.
  set (bs := content (w_src w) <$> _). set (w' := set_line i (with_data bs l) (with_src s w)).
  pose proof (lookup_lt_Some _ _ _ Hi) as Hlt.
  assert (Z.of_nat (length bs) = lineSize (w_cache w)) as Hbl by (unfold bs; rewrite length_fmap, length_seqZ; lia).
  assert (forall q, covers q (with_data bs l) = false) as Hnc by (intros q; unfold covers; cbn; by rewrite Hv).
  assert (cache_ok w') as Hok'.
  { apply (replace_ok w w' i l (with_data bs l)); [done..| |done|cbn; congruence|].
    - split; [by exists bs|cbn; congruence].
    - intros Hp. split; [intros d1 q _; by rewrite Hnc|]. intros j k Hj Hk d1 q Hd1 Hck. cbn.
      pose proof (proj1 (covers_iff q k) Hck) as [Hvk Hq].
      destruct (lo_range _ _ (ok_line w j k Hok Hk) Hvk) as (? & _ & ? & ?).
      rewrite Hc by lia. by apply (Forall_lookup_1 _ _ j _ (co_through w Hok Hp) Hk). }
  assert (same_view w w') as Hview.
  { intros q Hq. apply (replace_view w w' i l (with_data bs l) bs); [done..|by rewrite Hnc|done|]. intros _ Hothers.
    cbn. rewrite Hc by done. apply view_miss. apply Forall_lookup_2. intros j k Hj.
    destruct (decide (j = i)) as [->|]; [|by eauto]. simplify_eq. unfold covers. by rewrite Hv. }
  exists w'. split; [done|]. split_and!; [done|done| |].
  2: { split; [split_and!; [done|done|apply length_insert]|].
       rewrite (replaced_resident w w' i l (with_data bs l)) by (done || (cbn; congruence)). cbn. rewrite Hv. set_solver +. }
  exists (with_data bs l), bs. split_and!; [by apply list_lookup_insert_eq|done|done|].
  cbn. intros k Hk. rewrite <- Hrem. rewrite Hview by lia.
  unfold bs. rewrite content_byte by done. replace (o - (o - r) + k) with (r + k) by lia.
  symmetry. apply view_miss. eapply Forall_lookup_2. intros j x Hj.
  rewrite (covers_near w x o); [by apply (Forall_lookup_1 _ _ j _ Hno)|done|by eauto using ok_line|lia].
Qed.

(** The part of a request that the code takes to be in one line, and is. *)
Definition piece_fits (c : cache_t) (len offset : Z) : Prop :=
  0 <= len /\ offset mod lineSize c + piece_size c len offset <= lineSize c.

Lemma piece_range w len off : cache_ok w -> 0 <= len ->
  0 <= piece_size (w_cache w) len off <= len /\ (0 < len -> 0 < piece_size (w_cache w) len off).
Proof.
  intros Hok Hl. pose proof (co_size w Hok) as Hs. pose proof (Z.mod_pos_bound off _ Hs).
  unfold piece_size. zcase.
Qed.

Lemma serves_bytes w i off n : cache_ok w -> serves w i off -> 0 <= n ->
  off mod lineSize (w_cache w) + n <= lineSize (w_cache w) ->
  exists l d, line (w_cache w) !! i = Some l /\ data l = Some d /\
    bytes_at d (off mod lineSize (w_cache w)) n = Some (view w <$> seqZ off n).
Proof.
  intros Hok (l & d & Hi & Hd & Hlen & Hb) Hn Hfit. exists l, d. split_and!; [done..|].
  pose proof (Z.mod_pos_bound off _ (co_size w Hok)). rewrite bytes_at_in by lia. f_equal. apply list_eq. intros k.
  destruct (decide (k < Z.to_nat n)%nat).
  - rewrite lookup_take_lt, lookup_drop, list_lookup_fmap, lookup_seqZ_lt by lia. simpl.
    specialize (Hb (off mod lineSize (w_cache w) + Z.of_nat k) ltac:(lia)). unfold byte_of in Hb.
    replace (Z.to_nat (off mod lineSize (w_cache w) + Z.of_nat k)) with (Z.to_nat (off mod lineSize (w_cache w)) + k)%nat in Hb by lia.
    destruct (lookup_lt_is_Some_2 d (Z.to_nat (off mod lineSize (w_cache w)) + k)) as [x Hx]; [lia|].
    rewrite Hx in *. simpl in Hb. rewrite Hb. do 2 f_equal. lia.
  - rewrite lookup_take_ge by lia. rewrite list_lookup_fmap, lookup_seqZ_ge by lia. done.
Qed.

Lemma read_piece_spec clock w len off : cache_ok w -> piece_fits (w_cache w) len off -> 0 <= off < extent -> room w off ->
  exists w', read_piece clock len off w = Done (view w <$> seqZ off (piece_size (w_cache w) len off), w') /\
    cache_ok w' /\ same_view w w' /\ kept w w'.
Proof.
  intros Hok [Hlen Hfit] Ho Hroom. unfold read_piece. pose proof (co_size w Hok) as Hs. rewrite (proj2 (Z.eqb_neq _ _)) by lia.
  enough (exists i w', (match cache_index (w_cache w) off with
              | Some i => Done (i, w)
              | None => '(i, w) ← cache_next clock w; w ← fill i off w; Done (i, w)
              end) = Done (i, w') /\ cache_ok w' /\ same_view w w' /\ serves w' i off /\
              kept w w') as (i & w' & -> & Hok' & Hv & Hsv & Hk).
  { exists w'. pose proof Hk as [(Hl & _) _]. cbn [mbind outcome_bind].
    destruct (piece_range w len off Hok Hlen) as [Hpr _].
    destruct (serves_bytes w' i off (piece_size (w_cache w) len off) Hok' Hsv) as (l & d & Hi & Hd & Hb); [lia|by rewrite Hl|].
    unfold get_line. rewrite Hi. cbn [of_option mbind outcome_bind]. rewrite Hd. cbn [of_option mbind outcome_bind].
    rewrite Hl in Hb. rewrite Hb. cbn [of_option mbind outcome_bind]. split; [|done]. do 2 f_equal.
    apply list_fmap_ext. intros k x Hx. apply Hv. apply lookup_seqZ in Hx as [-> Hkk].
    destruct (round_range w off Hok Ho) as (_ & ? & ? & _ & ?). lia. }
  destruct (view_cases w off Hok) as [(i & l & d & Hi & Hc & Hd & -> & _)|(Hno & -> & _)].
  - exists i, w. split_and!; [done|done|done|by apply (hit_serves w i l)|done].
  - destruct (cache_next_spec clock w off Hok Hroom Hno) as (i & l & -> & Hi & Hvl). cbn [mbind outcome_bind].
    destruct (fill_spec (tick w) i l off (tick_ok w Hok) Hi Hvl Ho Hno) as (w2 & -> & Hok2 & Hv2 & Hs2 & Hk2).
    exists i, w2. by cbn [mbind outcome_bind].
Qed.
(** ** Writing

    A piece may be written to a line that is there, or be a whole line. *)
Definition piece_writable (w : cache_world Src) (n off : Z) : Prop :=
  Exists (fun l => covers off l = true) (line (w_cache w)) \/
  (off mod lineSize (w_cache w) = 0 /\ n = lineSize (w_cache w)).

(** The line that a piece goes to. *)
Definition target (w : cache_world Src) (i : nat) (n off : Z) (l : cache_line_t) : Prop :=
  let sz := lineSize (w_cache w) in
  line (w_cache w) !! i = Some l /\ start_offset l = off / sz * sz /\ end_offset l = off / sz * sz + sz /\
  (forall j k, j <> i -> line (w_cache w) !! j = Some k -> valid k = true -> start_offset k <> off / sz * sz) /\
  (valid l = true \/ (off mod sz = 0 /\ n = sz)).

Lemma find_target clock w n off : cache_ok w -> 0 <= off < extent -> piece_writable w n off -> room w off ->
  exists i w1 l, match cache_index (w_cache w) off with
    | Some i => Done (i, w)
    | None =>
        '(i, w1) ← cache_next clock w;
        l ← get_line w1 i;
        let start := cache_round_offset (w_cache w) off in
        Done (i, set_line i (with_range start (u64 (start + lineSize (w_cache w))) l) w1)
    end = Done (i, w1) /\ cache_ok w1 /\ same_view w w1 /\ target w1 i n off l /\ kept w w1.
Proof.
  intros Hok Ho Hwr Hroom. pose proof (co_size w Hok) as Hs. pose proof extent_u64.
  destruct (round_range w off Hok Ho) as (Hro & Hr & Hr' & _ & _).
  destruct (view_cases w off Hok) as [(i & l & d & Hi & Hc & Hd & -> & _)|(Hno & -> & _)].
  - exists i, w, l. pose proof (ok_line w i l Hok Hi) as Hl. pose proof (proj1 (covers_iff _ _) Hc) as [Hv _].
    pose proof (covers_start _ off l Hs Hl Hc) as Hst. destruct (lo_range _ _ Hl Hv) as (_ & _ & He & _).
    split_and!; [done|done|done| |done]. unfold target. split_and!; [done|done|congruence| |by left].
    intros j k Hj Hk Hvk E. apply Hj. apply (co_apart w Hok j i k l); [done..|congruence].
  - destruct Hwr as [Hx|Hwhole].
    { apply Exists_exists in Hx as (x & Hx & Hcx). rewrite Forall_forall in Hno. by rewrite Hno in Hcx. }
    destruct (cache_next_spec clock w off Hok Hroom Hno) as (i & l & -> & Hi & Hvl).
    pose proof (tick_ok w Hok) as Hok1. set (w1 := tick w) in *. change (line (w_cache w)) with (line (w_cache w1)) in Hno, Hi.
    change (lineSize (w_cache w)) with (lineSize (w_cache w1)) in *.
    cbn [mbind outcome_bind]. unfold get_line. rewrite Hi. cbn [of_option mbind outcome_bind]. rewrite Hro.
    rewrite u64_small by (unfold is_u64; lia). set (r := off / _ * _) in *. set (l' := with_range r (r + lineSize (w_cache w1)) l).
    set (w2 := set_line i l' w1). pose proof (lookup_lt_Some _ _ _ Hi) as Hlt.
    destruct (lo_data _ _ (ok_line w1 i l Hok1 Hi)) as (d & Hd & Hlen).
    assert (cache_ok w2) as Hok2.
    { apply (replace_ok w1 w2 i l l'); [done..| |by apply Hok1| |].
      - split; [by exists d|cbn; congruence].
      - cbn. congruence.
      - intros Hpol. split; [|intros j k _ Hk; by apply (Forall_lookup_1 _ _ j _ (co_through w1 Hok1 Hpol))].
        intros d1 q _. unfold covers. cbn. by rewrite Hvl. }
    assert (same_view w w2) as Hview.
    { intros q Hq. change (view w q) with (view w1 q). assert (covers q l' = false) as Hl' by (unfold covers; cbn; by rewrite Hvl).
      apply (replace_view w1 w2 i l l' d); [done..|by rewrite Hl'|done|]. intros _ Hothers.
      change (w_src w2) with (w_src w1). apply view_miss. apply Forall_lookup_2. intros j k Hj. destruct (decide (j = i)) as [->|]; [|by eauto].
      simplify_eq. unfold covers. by rewrite Hvl. }
    exists i, w2, l'. split_and!; [done|done|done| |].
    2: { split; [split_and!; [done|done|apply length_insert]|].
         rewrite (replaced_resident w1 w2 i l l') by (done || congruence). cbn. rewrite Hvl. set_solver +. }
    unfold target. change (lineSize (w_cache w2)) with (lineSize (w_cache w1)).
    split_and!; [by apply list_lookup_insert_eq|done|done| |right].
    + intros j k Hj Hk Hvk. cbn in Hk. rewrite list_lookup_insert_ne in Hk by done. intros E.
      pose proof (Forall_lookup_1 _ _ j _ Hno Hk) as Hc. cbn beta in Hc.
      rewrite (start_covers (lineSize (w_cache w1)) off k) in Hc; [done..|by eauto using ok_line|done|done].
    + done.
Qed.

Lemma put_piece w w' i l d d' off bs a : cache_ok w -> 0 <= off < extent ->
  target w i (Z.of_nat (length bs)) off l ->
  data l = Some d -> overwrite d (off mod lineSize (w_cache w)) bs = Some d' ->
  replaced w w' i (with_age a (with_valid true (with_data d' l))) ->
  w_src w' = (if decide (policy (w_cache w) = CACHE_POLICY_WRITE_THROUGH)
              then commitLine (w_src w) d' (lineSize (w_cache w)) (start_offset l) else w_src w) ->
  cache_ok w' /\ resident w' = {[off / lineSize (w_cache w) * lineSize (w_cache w)]} ∪ resident w /\ forall o, 0 <= o < extent ->
    view w' o = if (off <=? o) && (o <? off + Z.of_nat (length bs)) then byte_of bs (o - off) else view w o.
Proof.
  intros Hok Ho (Hi & Hst & Hend & Hap & Hwh) Hd Hov Hw Hsrc.
  destruct (round_range w off Hok Ho) as (_ & Hr & Hr' & Hrm & Hrem). set (r := off / _ * _) in *.
  pose proof (ok_line w i l Hok Hi) as Hl. destruct (lo_data _ _ Hl) as (dd & Hd0 & Hlen).
  rewrite Hd in Hd0. injection Hd0 as <-.
  pose proof (co_size w Hok) as Hs.
  assert (length d' = length d) as Hlen' by (apply (overwrite_byte d _ bs d' 0 Hov); lia).
  set (l' := with_age a (with_valid true (with_data d' l))) in *.
  assert (forall o, covers o l' = (r <=? o) && (o <? r + lineSize (w_cache w))) as Hcov.
  { intros o. unfold covers. cbn. by rewrite Hst, Hend. }
  assert (source_ok (w_src w') /\ forall o, 0 <= o < extent -> content (w_src w') o =
    if decide (policy (w_cache w) = CACHE_POLICY_WRITE_THROUGH) then (if covers o l' then byte_of d' (o - r) else content (w_src w) o)
    else content (w_src w) o) as [Hso Hc].
  { rewrite Hsrc, Hst. case_decide; [|split; [by apply Hok|done]].
    destruct (commit_law (w_src w) d' (lineSize (w_cache w)) r) as [? Hc]; [by apply Hok|lia..|]. split; [done|].
    intros o Hoo. rewrite Hc by done. rewrite Hcov. done. }
  assert (forall j k o, j <> i -> line (w_cache w) !! j = Some k -> covers o k = true -> covers o l' = false) as Hone.
  { intros j k o Hj Hk Hck. apply not_true_iff_false. rewrite Hcov, andb_true_iff, Z.leb_le, Z.ltb_lt. intros Hoo.
    pose proof (proj1 (covers_iff _ _) Hck) as [Hvk _]. apply (Hap j k Hj Hk Hvk).
    assert (covers off k = true) as Hoff.
    { rewrite <- Hck. symmetry. apply (covers_near w k off o Hok (ok_line w j k Hok Hk)). lia. }
    exact (covers_start _ off k Hs (ok_line w j k Hok Hk) Hoff). }
  assert (forall o, covers o l' = false -> (off <=? o) && (o <? off + Z.of_nat (length bs)) = false) as Hout.
  { intros o. rewrite Hcov. unfold overwrite in Hov. destruct (Z.leb_spec (off mod lineSize (w_cache w) + Z.of_nat (length bs)) (Z.of_nat (length d)));
      [|by rewrite andb_false_r in Hov]. zcases. }
  assert (cache_ok w') as Hok'.
  { apply (replace_ok w w' i l l'); [done..| |done| |].
    - split; [exists d'; split; [done|lia]|]. cbn. rewrite Hst, Hend. lia.
    - intros j k Hj Hk Hvk _. cbn. rewrite Hst. by eauto.
    - intros Hp. split.
      + intros d1 o [= <-] Hco. pose proof (proj1 (covers_iff _ _) Hco) as [_ Hoo]. cbn in Hoo. cbn. rewrite Hst, Hend in *.
        rewrite Hc by lia. rewrite decide_True by done. by rewrite Hco.
      + intros j k Hj Hk d1 o Hd1 Hck. pose proof (proj1 (covers_iff _ _) Hck) as [Hvk Hoo].
        destruct (lo_range _ _ (ok_line w j k Hok Hk) Hvk) as (? & _ & ? & ?). rewrite Hc by lia. rewrite decide_True by done.
        rewrite (Hone j k o) by done. by apply (Forall_lookup_1 _ _ j _ (co_through w Hok Hp) Hk). }
  split; [done|]. split; [by rewrite (replaced_resident w w' i l l'), <- Hst|].
  intros o Hoo. apply (replace_view w w' i l l' d'); [done..| | |].
  - rewrite Hcov, andb_true_iff, Z.leb_le, Z.ltb_lt. intros Hin. cbn. rewrite Hst.
    destruct (overwrite_byte d _ bs d' (o - r) Hov ltac:(lia)) as [_ ->]. rewrite <- Hrem.
    replace ((off - r <=? o - r) && (o - r <? off - r + Z.of_nat (length bs))) with ((off <=? o) && (o <? off + Z.of_nat (length bs)))
      by (f_equal; zcases).
    destruct Hwh as [Hv|[Hm Hwhole]].
    + destruct (_ && _); [by replace (o - off) with (o - r - (off - r)) by lia|].
      destruct (view_hit w i l d o Hok Hi) as [_ ->]; [|done|by rewrite Hst].
      apply covers_iff. split; [done|lia].
    + rewrite (proj2 (Z.leb_le _ _)), (proj2 (Z.ltb_lt _ _)) by lia. by replace (o - off) with (o - r - (off - r)) by lia.
  - intros Hnc _. by rewrite Hout.
  - intros Hnc Hothers. rewrite Hc by done. rewrite Hnc.
    replace (if decide _ then content (w_src w) o else content (w_src w) o) with (content (w_src w) o) by (by case_decide).
    rewrite Hout by done. rewrite Hcov in Hnc.
    apply view_miss. apply Forall_lookup_2. intros j k Hj. destruct (decide (j = i)) as [->|]; [|by eauto]. simplify_eq.
      unfold covers. rewrite Hst, Hend, <- andb_assoc, Hnc. apply andb_false_r.
Qed.
Lemma write_piece_spec clock w bs len off : cache_ok w -> 0 <= off < extent -> piece_fits (w_cache w) len off ->
  len <= Z.of_nat (length bs) -> piece_writable w (piece_size (w_cache w) len off) off -> room w off ->
  exists w', write_piece clock bs len off w = Done w' /\ cache_ok w' /\ frame w w' /\
    resident w' = {[off / lineSize (w_cache w) * lineSize (w_cache w)]} ∪ resident w /\
    forall o, 0 <= o < extent -> view w' o =
      if (off <=? o) && (o <? off + piece_size (w_cache w) len off) then byte_of bs (o - off) else view w o.
Proof.
  intros Hok Ho [Hlen Hfit] Hbs Hwr Hroom. pose proof (co_size w Hok) as Hs. pose proof (Z.mod_pos_bound off _ Hs).
  destruct (piece_range w len off Hok Hlen) as [Hn _]. set (n := piece_size (w_cache w) len off) in *.
  destruct (find_target clock w n off Hok Ho Hwr Hroom) as (i & w1 & l & E & Hok1 & Hv1 & Ht & (Hl1 & Hp1 & Hn1) & Hr1).
  unfold write_piece. rewrite (proj2 (Z.eqb_neq _ _)) by lia. cbv zeta in E |- *. rewrite E. cbn [mbind outcome_bind].
  pose proof Ht as (Hi & _). unfold get_line. rewrite Hi. cbn [of_option mbind outcome_bind].
  destruct (lo_data _ _ (ok_line w1 i l Hok1 Hi)) as (d & Hd & Hdl). rewrite Hd. cbn [of_option mbind outcome_bind]. fold n.
  rewrite bytes_at_in by lia. cbn [of_option mbind outcome_bind]. change (drop (Z.to_nat 0) bs) with bs. set (bs1 := take (Z.to_nat n) bs).
  assert (Z.of_nat (length bs1) = n) as Hb1 by (unfold bs1; rewrite length_take; lia).
  destruct (overwrite d (off mod lineSize (w_cache w)) bs1) as [d'|] eqn:Hov.
  2: { unfold overwrite in Hov. rewrite (proj2 (Z.leb_le 0 _)), (proj2 (Z.leb_le (_ + _) _)) in Hov by lia. done. }
  cbn [of_option mbind outcome_bind]. set (l' := with_age (clock (w_ticks w1)) (with_valid true (with_data d' l))).
  set (w2 := with_src (if decide (policy (w_cache w1) = CACHE_POLICY_WRITE_THROUGH)
                       then commitLine (w_src w1) d' (lineSize (w_cache w1)) (start_offset l) else w_src w1) (tick (set_line i l' w1))).
  destruct (put_piece w1 w2 i l d d' off bs1 (clock (w_ticks w1)) Hok1 Ho) as (Hok2 & Hr2 & Hv2);
    [by rewrite Hb1|done|by rewrite Hl1|done|done|].
  exists w2. split; [|split; [done|split; [split_and!; [done|done|]|split; [by rewrite Hr2, Hr1, Hl1|]]]].
  - unfold w2. rewrite <- Hp1. by case_decide.
  - unfold w2. cbn. rewrite length_insert. exact Hn1.
  - intros o Hoo. rewrite Hv2, Hv1, Hb1 by done. destruct (Z.leb_spec off o); [|done]. destruct (Z.ltb_spec o (off + n)); [|done].
    simpl. unfold byte_of, bs1. by rewrite lookup_take_lt by lia.
Qed.

(** ** Whole requests *)

(** A request is read right when it reaches the end of a line, or lies in
    one. *)
Definition read_fits (sz len off : Z) : Prop := 0 <= off /\ 0 <= len /\ (sz <= len \/ off mod sz + len <= sz).

Lemma next_fits w len off : cache_ok w -> read_fits (lineSize (w_cache w)) len off ->
  let n := piece_size (w_cache w) len off in
  piece_fits (w_cache w) len off /\ (0 < len - n -> read_fits (lineSize (w_cache w)) (len - n) (off + n) /\ (off + n) mod lineSize (w_cache w) = 0).
Proof.
  intros Hok (Ho & Hl & Hr) n. pose proof (co_size w Hok) as Hs. pose proof (Z.mod_pos_bound off _ Hs).
  unfold piece_fits, read_fits, n, piece_size. destruct (Z.ltb_spec len (lineSize (w_cache w))).
  - split; [lia|]. lia.
  - split; [lia|]. intros Hpos.
    assert ((off + (lineSize (w_cache w) - off mod lineSize (w_cache w))) mod lineSize (w_cache w) = 0) as ->.
    { replace (off + _) with ((off / lineSize (w_cache w) + 1) * lineSize (w_cache w)); [apply Z_mod_mult|].
      pose proof (Z.div_mod off (lineSize (w_cache w)) ltac:(lia)). lia. }
    lia.
Qed.

Lemma seqZ_split off n m : 0 <= n -> 0 <= m -> seqZ off (n + m) = seqZ off n ++ seqZ (off + n) m.
Proof. intros. rewrite seqZ_app by done. done. Qed.

Lemma read_loop_spec clock fuel w len off done_ : cache_ok w -> read_fits (lineSize (w_cache w)) len off ->
  off < extent -> off + len <= extent -> (forall o, off <= o < off + Z.max 1 len -> room w o) ->
  (Z.to_nat len < fuel)%nat -> 0 <= done_ -> done_ + len < 2 ^ 64 ->
  exists w', read_loop clock fuel len off done_ w = Done (done_ + len, view w <$> seqZ off len, w') /\
    cache_ok w' /\ same_view w w' /\ kept w w'.
Proof.
  revert w len off done_. induction fuel as [|f IH]; intros w len off dn Hok Hfit Ho Hend Hroom Hf Hd Hdl; [lia|].
  pose proof extent_u64. destruct (next_fits w len off Hok Hfit) as [Hp Hnext]. pose proof Hfit as (Ho0 & Hl0 & _).
  destruct (read_piece_spec clock w len off Hok Hp) as (w1 & E & Hok1 & Hv1 & Hk1); [lia|apply Hroom; lia|].
  pose proof Hk1 as [(Hl1 & _) _].
  destruct (piece_range w len off Hok Hl0) as [Hn Hn']. cbn [read_loop]. rewrite E. cbn [mbind outcome_bind].
  set (n := piece_size (w_cache w) len off) in *. destruct (Z.ltb_spec 0 (len - n)) as [Hpos|Hle].
  - destruct (Hnext Hpos) as [Hfit1 _]. specialize (Hn' ltac:(lia)). rewrite !u64_small by (unfold is_u64; lia). rewrite <- Hl1 in Hfit1.
    destruct (IH w1 (len - n) (off + n) (dn + n)) as (w2 & -> & Hok2 & Hv2 & Hk2);
      [done..|lia|lia|intros o Hoo; apply (kept_room w); [done|apply Hroom; lia]|lia|lia|lia|].
    exists w2. cbn [mbind outcome_bind]. split; [|split_and!; [done| |by apply (kept_trans w w1)]].
    + f_equal. f_equal. f_equal; [lia|]. replace len with (n + (len - n)) at 2 by lia. rewrite seqZ_split, fmap_app by lia.
      f_equal. apply list_fmap_ext. intros k x Hx. apply lookup_seqZ in Hx as [-> Hk]. apply Hv1. lia.
    + intros o Hoo. rewrite Hv2, Hv1 by done. done.
  - assert (n = len) as -> by lia. rewrite u64_small by (unfold is_u64; lia). by exists w1.
Qed.

(** Whole lines, at least one; where they start. *)
Definition whole_lines (sz len off : Z) : Prop := 0 <= off /\ 0 < len /\ off mod sz = 0 /\ len mod sz = 0.
Definition starts (sz len off : Z) : gset Z := list_to_set ((fun k => off + k * sz) <$> seqZ 0 (len / sz)).

Lemma starts_step sz len off : 0 < sz <= len -> starts sz len off = {[off]} ∪ starts sz (len - sz) (off + sz).
Proof.
  intros Hs. unfold starts. assert (len / sz = 1 + (len - sz) / sz) as E.
  { replace len with (len - sz + 1 * sz) at 1 by lia. rewrite Z.div_add by lia. lia. }
  assert (0 <= (len - sz) / sz) by (apply Z.div_pos; lia).
  rewrite E, seqZ_cons by lia. cbn [fmap list_fmap list_to_set]. f_equal; [f_equal; lia|]. f_equal.
  replace (Z.pred (1 + (len - sz) / sz)) with ((len - sz) / sz) by lia. change (Z.succ 0) with (1 + 0). rewrite <- fmap_add_seqZ, <- list_fmap_compose.
  apply list_fmap_ext. intros k x _. simpl. lia.
Qed.

Lemma write_loop_spec clock fuel w bs len off done_ : cache_ok w -> whole_lines (lineSize (w_cache w)) len off ->
  off + len <= extent -> len <= Z.of_nat (length bs) ->
  (size (starts (lineSize (w_cache w)) len off ∪ resident w) <= length (line (w_cache w)))%nat ->
  (Z.to_nat len < fuel)%nat -> 0 <= done_ -> done_ + len < 2 ^ 64 ->
  exists w', write_loop clock fuel bs len off done_ w = Done (done_ + len, w') /\
    cache_ok w' /\ frame w w' /\ resident w' = starts (lineSize (w_cache w)) len off ∪ resident w /\
    forall o, 0 <= o < extent -> view w' o = if (off <=? o) && (o <? off + len) then byte_of bs (o - off) else view w o.
Proof.
  revert w bs len off done_. induction fuel as [|f IH]; intros w bs len off dn Hok (Ho & Hl & Hom & Hlm) Hend Hbs Hsize Hf Hd Hdl; [lia|].
  pose proof extent_u64. pose proof (co_size w Hok) as Hs. set (sz := lineSize (w_cache w)) in *.
  assert (sz <= len) as Hge by (destruct (Z.lt_ge_cases len sz); [rewrite Z.mod_small in Hlm by lia; lia|done]).
  assert (piece_size (w_cache w) len off = sz) as Hn.
  { unfold piece_size. fold sz. rewrite (proj2 (Z.ltb_ge _ _)) by lia. lia. }
  assert (off / sz * sz = off) as Hst by (pose proof (Z.div_mod off sz ltac:(lia)); lia).
  rewrite starts_step in Hsize by lia.
  assert (room w off) as Hroom.
  { unfold room. fold sz. rewrite Hst. destruct (decide (off ∈ resident w)) as [|Hnew]; [by left|right].
    assert (size ({[off]} ∪ resident w) <= size ({[off]} ∪ starts sz (len - sz) (off + sz) ∪ resident w))%nat
      by (apply subseteq_size; set_solver +).
    rewrite size_union, size_singleton in * by set_solver. lia. }
  destruct (write_piece_spec clock w bs len off Hok) as (w1 & E & Hok1 & (Hl1 & Hp1 & Hn1) & Hr1 & Hv1);
    [lia|unfold piece_fits; fold sz; lia|done|by right|done|].
  fold sz in Hl1, Hr1. rewrite Hst in Hr1.
  cbn [write_loop]. rewrite E. cbn [mbind outcome_bind]. rewrite Hn in *.
  destruct (Z.ltb_spec 0 (len - sz)).
  - rewrite !u64_small by (unfold is_u64; lia).
    destruct (IH w1 (drop (Z.to_nat sz) bs) (len - sz) (off + sz) (dn + sz)) as (w2 & -> & Hok2 & (Hl2 & Hp2 & Hn2) & Hr2 & Hv2);
      [done| |lia|rewrite length_drop; lia| |lia|lia|lia|].
    + rewrite Hl1. split_and!; [lia|lia| |].
      * by rewrite Zplus_mod, Hom, Z_mod_same_full.
      * by rewrite Zminus_mod, Hlm, Z_mod_same_full.
    + rewrite Hl1, Hn1, Hr1. eapply Nat.le_trans; [|exact Hsize]. apply subseteq_size. set_solver +.
    + exists w2. split; [do 2 f_equal; lia|]. split; [done|]. split; [split_and!; [by rewrite Hl2, Hl1|congruence..]|].
      split; [rewrite Hr2, Hr1, Hl1, (starts_step sz len) by lia; set_solver +|]. intros o Hoo. rewrite Hv2, Hv1 by done.
      unfold byte_of. rewrite lookup_drop.
      destruct (Z.leb_spec (off + sz) o), (Z.leb_spec off o), (Z.ltb_spec o (off + sz + (len - sz))), (Z.ltb_spec o (off + len)),
        (Z.ltb_spec o (off + sz)); simpl; try lia; try done. do 2 f_equal. lia.
  - assert (len = sz) as -> by lia. rewrite u64_small by (unfold is_u64; lia). exists w1. split; [done|]. split; [done|].
    split; [done|]. split; [|done]. rewrite Hr1, starts_step by lia. unfold starts. rewrite Z.sub_diag, Z.div_0_l by lia. set_solver +.
Qed.

(** ** All lines *)

Definition dropped (w w' : cache_world Src) : Prop := cache_ok w' /\ same_view w w' /\ frame w w'.

Lemma none_resident w : Forall (fun l => valid l = false) (line (w_cache w)) -> resident w = ∅.
Proof.
  intros Hall. apply set_eq. intros x. rewrite elem_resident. split; [|set_solver]. intros (j & k & Hj & Hv & _).
  by rewrite (Forall_lookup_1 _ _ j k Hall Hj) in Hv.
Qed.

Lemma flush_line_spec w i : cache_ok w -> (i < length (line (w_cache w)))%nat -> exists w', flush_line w i = Done w' /\ dropped w w' /\
  (exists l, line (w_cache w') !! i = Some l /\ valid l = false) /\
  (forall j, j <> i -> line (w_cache w') !! j = line (w_cache w) !! j).
Proof.
  intros Hok Hlt. destruct (lookup_lt_is_Some_2 _ _ Hlt) as [l Hi]. unfold flush_line, get_line. rewrite Hi.
  cbn [of_option mbind outcome_bind]. destruct (valid l) eqn:Hv.
  - destruct (lo_data _ _ (ok_line w i l Hok Hi)) as (d & Hd & _). unfold commit. rewrite Hd. cbn [of_option mbind outcome_bind].
    set (w' := set_line i _ _). exists w'. split; [done|].
    destruct (drop_step w w' i l d (drop_line l)) as [Hok' Hview]; [done..|unfold drop_line; by rewrite Hv|
      unfold drop_line; by rewrite Hv|by left|].
    split; [|split].
    + split; [done|split; [done|]]. split_and!; [done|done|apply length_insert].
    + exists (drop_line l). split; [by apply list_lookup_insert_eq|]. unfold drop_line. by rewrite Hv.
    + intros j Hj. by apply list_lookup_insert_ne.
  - exists w. split; [done|]. split; [by split_and!|]. by eauto.
Qed.

Lemma cache_flush_spec w : cache_ok w -> exists w', cache_flush w = Done w' /\ dropped w w' /\ resident w' = ∅ /\
  forall o, 0 <= o < extent -> content (w_src w') o = view w o.
Proof.
  intros Hok. unfold cache_flush.
  destruct (ofold_total flush_line (fun pre w' => dropped w w' /\ forall j, (j < length pre)%nat ->
      exists l, line (w_cache w') !! j = Some l /\ valid l = false) (seq 0 (length (line (w_cache w))))) with (s := w)
    as (w' & E & Hd & Hall).
  - intros pre i post w1 Hseq [(Hok1 & Hv1 & Hl1 & Hp1 & Hn1) Hpre].
    assert (i = length pre /\ (i < length (line (w_cache w)))%nat) as [-> Hlt].
    { assert (seq 0 (length (line (w_cache w))) !! length pre = Some i) as Hx by (rewrite Hseq; by apply list_lookup_middle).
      apply lookup_seq in Hx as [-> ?]. lia. }
    destruct (flush_line_spec w1 (length pre)) as (w2 & E2 & (Hok2 & Hv2 & Hl2 & Hp2 & Hn2) & Hi & Hoth); [done|lia|].
    exists w2. split; [done|]. split.
    + split; [done|split; [|split_and!; congruence]]. intros o Ho. rewrite Hv2, Hv1 by done. done.
    + intros j Hj. rewrite length_app in Hj. simpl in Hj. destruct (decide (j = length pre)) as [->|]; [done|].
      rewrite Hoth by done. apply Hpre. lia.
  - split; [by split_and!|]. simpl. lia.
  - exists w'. split; [done|]. split; [done|]. destruct Hd as (_ & Hv & _ & _ & Hn). rewrite length_seq in Hall.
    assert (Forall (fun l => valid l = false) (line (w_cache w'))) as Hnone.
    { apply Forall_lookup_2. intros j l Hj. destruct (Hall j) as (k & Hk & Hvk); [apply lookup_lt_Some in Hj; lia|]. by simplify_eq. }
    split; [by apply none_resident|]. intros o Ho. rewrite <- Hv by done.
    symmetry. apply view_miss. eapply Forall_impl; [exact Hnone|]. intros l Hvl. unfold covers. by rewrite Hvl.
Qed.

Lemma through_view w o : cache_ok w -> policy (w_cache w) = CACHE_POLICY_WRITE_THROUGH -> view w o = content (w_src w) o.
Proof.
  intros Hok Hp. destruct (view_cases w o Hok) as [(i & l & d & Hi & Hc & Hd & _ & ->)|(_ & _ & ->)]; [|done].
  symmetry. by apply (Forall_lookup_1 _ _ i _ (co_through w Hok Hp) Hi).
Qed.

Lemma drop_line_data l : data (drop_line l) = data l /\ valid (drop_line l) = false.
Proof. unfold drop_line. by destruct (valid l) eqn:E. Qed.

(** What was not committed is gone. *)
Lemma cache_invalidate_spec w : cache_ok w ->
  cache_ok (cache_invalidate w) /\ frame w (cache_invalidate w) /\ resident (cache_invalidate w) = ∅ /\ forall o, view (cache_invalidate w) o = content (w_src w) o.
Proof.
  intros Hok. assert (Forall (fun l => valid l = false) (line (w_cache (cache_invalidate w)))) as Hall.
  { apply Forall_fmap, Forall_true. intros l. apply drop_line_data. }
  assert (forall j l, line (w_cache (cache_invalidate w)) !! j = Some l -> valid l = false) as Hinv
    by (intros j l Hj; exact (Forall_lookup_1 _ _ j l Hall Hj)).
  split.
  - split; [apply Hok|apply Hok| | | |apply Hok|].
    + cbn. pose proof (co_some w Hok). by destruct (line (w_cache w)).
    + cbn. apply Forall_fmap. eapply Forall_impl; [apply (co_lines w Hok)|]. intros l [Hd _]. cbn.
      destruct (drop_line_data l) as [E1 E2]. split; [by rewrite E1|by rewrite E2].
    + intros i j l k Hi _ Hv. by rewrite (Hinv i l) in Hv.
    + intros _. apply Forall_lookup_2. intros j l Hj d o _ Hc. apply covers_iff in Hc as [Hv _]. by rewrite (Hinv j l) in Hv.
  - split; [split_and!; [done|done|apply length_fmap]|]. split; [by apply none_resident|].
    intros o. change (w_src w) with (w_src (cache_invalidate w)). apply view_miss. eapply Forall_impl; [exact Hall|]. intros l Hv. unfold covers. by rewrite Hv.
Qed.

(** ** Programs of calls *)

Inductive cache_call : Set := CacheRead (len off : Z) | CacheWrite (bs : list Z) (off : Z) | CacheFlush | CacheInvalidate.
Inductive cache_answer : Set := Bytes (count : Z) (bs : list Z) | Wrote (count : Z) | Returned.

(** The calls on the bytes of the source itself. *)
Definition store_call (c : cache_call) (st : Z -> Z) : cache_answer * (Z -> Z) :=
  match c with
  | CacheRead len off => (Bytes len (st <$> seqZ off len), st)
  | CacheWrite bs off => (Wrote (Z.of_nat (length bs)),
      fun o => if (off <=? o) && (o <? off + Z.of_nat (length bs)) then byte_of bs (o - off) else st o)
  | CacheFlush | CacheInvalidate => (Returned, st)
  end.
Fixpoint store_calls (cs : list cache_call) (st : Z -> Z) : list cache_answer * (Z -> Z) :=
  match cs with
  | [] => ([], st)
  | c :: cs => let '(a, st) := store_call c st in let '(rest, st) := store_calls cs st in (a :: rest, st)
  end.

Definition do_call (clock : nat -> Z) (c : cache_call) (w : cache_world Src) : outcome (cache_answer * cache_world Src) :=
  match c with
  | CacheRead len off => '(n, bs, w) ← cache_read clock len off w; Done (Bytes n bs, w)
  | CacheWrite bs off => '(n, w) ← cache_write clock bs (Z.of_nat (length bs)) off w; Done (Wrote n, w)
  | CacheFlush => w ← cache_flush w; Done (Returned, w)
  | CacheInvalidate => Done (Returned, cache_invalidate w)
  end.
Fixpoint do_calls (clock : nat -> Z) (cs : list cache_call) (w : cache_world Src) : outcome (list cache_answer * cache_world Src) :=
  match cs with
  | [] => Done ([], w)
  | c :: cs => '(a, w) ← do_call clock c w; '(rest, w) ← do_calls clock cs w; Done (a :: rest, w)
  end.

(** The calls a cache serves: reads that do not cross into a next line half
    way, writes of whole lines; a cache that writes back loses what it has
    when it is invalidated. *)
Definition call_fits (sz : Z) (pol : cache_policy_e) (c : cache_call) : Prop :=
  match c with
  | CacheRead len off => read_fits sz len off /\ off < extent /\ off + len <= extent
  | CacheWrite bs off => whole_lines sz (Z.of_nat (length bs)) off /\ off + Z.of_nat (length bs) <= extent
  | CacheFlush => True
  | CacheInvalidate => pol = CACHE_POLICY_WRITE_THROUGH
  end.

(** The places that have a line after a call, and the calls for which the
    [n] lines of a cache are enough. *)
Definition used_after (sz : Z) (c : cache_call) (used : gset Z) : gset Z :=
  match c with
  | CacheRead _ _ => used
  | CacheWrite bs off => starts sz (Z.of_nat (length bs)) off ∪ used
  | CacheFlush | CacheInvalidate => ∅
  end.
Definition has_room (sz : Z) (n : nat) (used : gset Z) (c : cache_call) : Prop :=
  match c with
  | CacheRead len off => (size used < n)%nat \/ forall o, off <= o < off + Z.max 1 len -> o / sz * sz ∈ used
  | CacheWrite _ _ => (size (used_after sz c used) <= n)%nat
  | CacheFlush | CacheInvalidate => True
  end.
Fixpoint calls_fit (sz : Z) (pol : cache_policy_e) (n : nat) (used : gset Z) (cs : list cache_call) : Prop :=
  match cs with
  | [] => True
  | c :: cs => call_fits sz pol c /\ has_room sz n used c /\ calls_fit sz pol n (used_after sz c used) cs
  end.

Definition shows (w : cache_world Src) (st : Z -> Z) : Prop := forall o, 0 <= o < extent -> view w o = st o.

Lemma do_call_spec clock c w st : cache_ok w -> shows w st -> call_fits (lineSize (w_cache w)) (policy (w_cache w)) c ->
  has_room (lineSize (w_cache w)) (length (line (w_cache w))) (resident w) c ->
  exists w', do_call clock c w = Done ((store_call c st).1, w') /\ cache_ok w' /\ shows w' (store_call c st).2 /\
    frame w w' /\ resident w' = used_after (lineSize (w_cache w)) c (resident w).
Proof.
  intros Hok Hst Hfit Hroom. pose proof extent_u64. destruct c as [len off|bs off| |]; simpl.
  - destruct Hfit as (Hr & Ho & Hend). pose proof Hr as (? & ? & _).
    destruct (read_loop_spec clock (S (Z.to_nat len)) w len off 0) as (w' & E & Hok' & Hv & Hf & Hk);
      [done..| |lia|lia|lia|]. { intros o Hoo. destruct Hroom as [Hn|Hin]; [by right|left; by apply Hin]. }
    unfold cache_read. rewrite E. exists w'. simpl. split; [|split_and!; [done| |done|done]].
    + do 2 f_equal. f_equal. apply list_fmap_ext. intros k x Hx. apply lookup_seqZ in Hx as [-> Hkk]. apply Hst. lia.
    + intros o Hoo. rewrite Hv by done. by apply Hst.
  - destruct Hfit as (Hr & Hend). pose proof Hr as (? & ? & _).
    destruct (write_loop_spec clock (S (Z.to_nat (Z.of_nat (length bs)))) w bs (Z.of_nat (length bs)) off 0)
      as (w' & E & Hok' & Hf & Hk & Hv); [done..|lia|lia|lia|].
    unfold cache_write. rewrite E. exists w'. simpl. split_and!; [done|done| |done|done].
    intros o Hoo. rewrite Hv by done. destruct (_ && _); [done|by apply Hst].
  - destruct (cache_flush_spec w Hok) as (w' & -> & (Hok' & Hv & Hf) & Hk & _). exists w'. simpl.
    split_and!; [done|done| |done|done]. intros o Hoo. rewrite Hv by done. by apply Hst.
  - destruct (cache_invalidate_spec w Hok) as (Hok' & Hf & Hk & Hv). exists (cache_invalidate w). split_and!; [done|done| |done|done].
    intros o Hoo. rewrite Hv, <- through_view by done. by apply Hst.
Qed.

Lemma do_calls_spec clock cs w st : cache_ok w -> shows w st ->
  calls_fit (lineSize (w_cache w)) (policy (w_cache w)) (length (line (w_cache w))) (resident w) cs ->
  exists w', do_calls clock cs w = Done ((store_calls cs st).1, w') /\ cache_ok w' /\ shows w' (store_calls cs st).2.
Proof.
  revert w st. induction cs as [|c cs IH]; intros w st Hok Hst Hall; [by exists w|].
  destruct Hall as (Hc & Hroom & Hcs).
  destruct (do_call_spec clock c w st Hok Hst Hc Hroom) as (w1 & E & Hok1 & Hst1 & (Hl & Hp & Hn) & Hr).
  rewrite <- Hr, <- Hl, <- Hp, <- Hn in Hcs. destruct (IH w1 _ Hok1 Hst1 Hcs) as (w2 & E2 & Hok2 & Hst2).
  exists w2. cbn [do_calls store_calls]. rewrite E. cbn [mbind outcome_bind]. destruct (store_call c st) as [a st1]. cbn [fst snd] in *.
  rewrite E2. cbn [mbind outcome_bind]. by destruct (store_calls cs st1).
Qed.

(** ** The life of a cache *)

Lemma make_lines_spec n sz answers live ls all live' : 0 <= sz -> make_lines n sz answers live = (ls, all, live') ->
  length ls = n /\ free_lines n ls live' = Done live /\
  (all = true -> ls = replicate n (with_data (replicate (Z.to_nat sz) 0) no_line)).
Proof.
  intros Hsz. revert answers live ls all live'. induction n as [|n IH]; intros answers live ls all live' E; simpl in E.
  { by injection E as <- <- <-. }
  destruct (calloc_answer answers live) as [[ok rest] live1] eqn:Ea.
  assert (live1 = if ok : bool then live + 1 else live) as ->
    by (destruct answers as [|[] ?]; simpl in Ea; by simplify_eq).
  destruct ok.
  - destruct (make_lines n sz rest (live + 1)) as [[ls1 all1] live2] eqn:E1. injection E as <- <- <-.
    destruct (IH _ _ _ _ _ E1) as (<- & Hf & Hall). cbn [length]. split_and!; [done| |intros Ht; simpl; by rewrite <- Hall].
    simpl. clear - Hf. assert (forall m k x y, free_lines m k x = Done y -> free_lines m k (x - 1) = Done (y - 1)) as Hsh.
    { induction m as [|m IHm]; intros [|l k] x y; simpl; intros E; try done; try (by injection E as <-).
      destruct (data l); [|by apply IHm]. replace (x - 1 - 1) with ((x - 1) - 1) by lia. by apply IHm. }
    rewrite (Hsh _ _ _ _ Hf). f_equal. lia.
  - injection E as <- <- <-. cbn [length]. rewrite length_replicate. split_and!; [done| |done].
    simpl. clear. induction n as [|n IHn]; [done|]. done.
Qed.
Definition empty_lines (n : nat) (sz : Z) : list cache_line_t :=
  replicate n (with_data (replicate (Z.to_nat sz) 0) no_line).

(** A cache that was made can be destroyed; one that was not leaves no
    block behind. *)
Lemma cache_create_spec sz n pol answers live r live' : 0 <= sz ->
  cache_create sz n pol answers live = Done (r, live') ->
  match r with
  | None => live' = live
  | Some c => c = mkCache (empty_lines n sz) sz pol /\ cache_destroy (Some (line c)) n live' = Done live
  end.
Proof.
  intros Hsz. unfold cache_create.
  destruct answers as [|[] answers]; cbn [calloc_answer negb]; [by intros [= <- <-]| |by intros [= <- <-]].
  destruct answers as [|[] answers]; cbn [calloc_answer negb].
  - unfold cache_destroy. case_decide; [|done]. simpl. intros [= <- <-]. lia.
  - destruct (make_lines _ _ _ _) as [[ls all] live2] eqn:E. apply make_lines_spec in E as (Hlen & Hf & Hall); [|done].
    unfold cache_destroy. destruct all; cbn [line mbind outcome_bind].
    + intros [= <- <-]. cbn [line]. rewrite Hf. simpl. split; [by rewrite Hall|]. f_equal. lia.
    + rewrite Hf. simpl. intros [= <- <-]. lia.
  - unfold cache_destroy. case_decide; [|done]. simpl. intros [= <- <-]. lia.
Qed.

Lemma empty_cache_ok n sz pol (s : Src) : 0 < sz -> (0 < n)%nat -> extent mod sz = 0 -> source_ok s ->
  let w := mkWorld (mkCache (empty_lines n sz) sz pol) s 0 in
  cache_ok w /\ resident w = ∅ /\ forall o, view w o = content s o.
Proof.
  intros Hs Hn He Hok w. assert (Forall (fun l => valid l = false) (line (w_cache w))) as Hall by by apply Forall_replicate.
  split.
  - split; [done|done| | | |done|].
    + destruct n; [lia|done].
    + apply Forall_replicate. split; [|done]. eexists. split; [done|]. rewrite length_replicate. cbn. lia.
    + intros i j l k Hi _ Hv. by rewrite (Forall_lookup_1 _ _ i l Hall Hi) in Hv.
    + intros _. eapply Forall_impl; [exact Hall|]. intros l Hv d o _ Hc. apply covers_iff in Hc as [Hc _]. cbn in Hv. congruence.
  - split; [by apply none_resident|]. intros o. change s with (w_src w). apply view_miss. eapply Forall_impl; [exact Hall|]. intros l Hv. unfold covers. by rewrite Hv.
Qed.


(** When all lines are valid and none has the byte that is asked for, a
    call does not give up the oldest line, as it is meant to: it takes the line
    behind the last one, which is no line of the cache. *)
Theorem full_cache_miss_overruns (clock : nat -> Z) (w : cache_world Src) len off bs :
  0 < lineSize (w_cache w) -> Forall (fun l => valid l = true /\ covers off l = false) (line (w_cache w)) ->
  cache_read clock len off w = Undef /\ cache_write clock bs len off w = Undef.
Proof.
  intros Hs [Hall Hno]%Forall_and. unfold cache_read, cache_write. cbn [read_loop write_loop]. unfold read_piece, write_piece.
  rewrite (proj2 (Z.eqb_neq _ _)) by lia. cbv zeta.
  destruct (view_miss w off Hno) as [-> _]. by rewrite cache_next_full.
Qed.

(** A read of less than a line that crosses into the next line copies
    bytes from behind the buffer of its line. *)
Theorem read_across_lines_overruns (clock : nat -> Z) (w : cache_world Src) len off :
  cache_ok w -> 0 <= off < extent -> len < lineSize (w_cache w) ->
  lineSize (w_cache w) < off mod lineSize (w_cache w) + len -> room w off ->
  cache_read clock len off w = Undef.
Proof.
  intros Hok Ho Hlt Hx Hroom. pose proof (co_size w Hok) as Hs. pose proof (Z.mod_pos_bound off _ Hs).
  unfold cache_read, read_loop. fold (@read_loop Src). enough (read_piece clock len off w = Undef) as -> by done.
  unfold read_piece. rewrite (proj2 (Z.eqb_neq _ _)) by lia.
  assert (forall i w', cache_ok w' -> lineSize (w_cache w') = lineSize (w_cache w) -> serves w' i off ->
    (l ← get_line w' i; d ← of_option (data l);
     bs ← of_option (bytes_at d (off mod lineSize (w_cache w)) (piece_size (w_cache w) len off)); Done (bs, w')) = Undef) as Hover.
  { intros i w' _ Hl (l & d & Hi & Hd & Hlen & _). unfold get_line. rewrite Hi. cbn [of_option mbind outcome_bind].
    rewrite Hd. cbn [of_option mbind outcome_bind]. rewrite bytes_at_out; [done|]. unfold piece_size.
    rewrite (proj2 (Z.ltb_lt _ _)) by done. lia. }
  destruct (view_cases w off Hok) as [(i & l & d & Hi & Hc & Hd & -> & _)|(Hno & -> & _)].
  - cbn [mbind outcome_bind]. apply Hover; [done..|by apply (hit_serves w i l)].
  - destruct (cache_next_spec clock w off Hok Hroom Hno) as (i & l & -> & Hi & Hvl). cbn [mbind outcome_bind].
    destruct (fill_spec (tick w) i l off (tick_ok w Hok) Hi Hvl Ho Hno) as (w2 & -> & Hok2 & _ & Hs2 & [(Hl2 & _) _]). cbn [mbind outcome_bind].
    by apply Hover.
Qed.
End Facts.

(** ** Files as a source

    [cache_fill] and [cache_commit]: a file is its bytes; a buffer keeps what
    was not read, a write behind the end leaves zeros. *)
Definition FILE : Type := list Z.
Definition cache_fill (f : FILE) (ptr : list Z) (size offset : Z) : FILE * list Z :=
  let bs := take (Z.to_nat size) (drop (Z.to_nat offset) f) in (f, bs ++ drop (length bs) ptr).
Definition cache_commit (f : FILE) (ptr : list Z) (size offset : Z) : FILE :=
  let f' := f ++ replicate (Z.to_nat offset - length f) 0 in
  take (Z.to_nat offset) f' ++ take (Z.to_nat size) ptr ++ drop (Z.to_nat offset + Z.to_nat size) f'.

#[export] Instance file_source : CacheSource FILE := {| fillLine := cache_fill; commitLine := cache_commit |}.

(** The first [n] bytes of files that have them. *)
#[program] Definition lawful_file (n : Z) (Hn : n < 2 ^ 64) : LawfulSource FILE :=
  {| content := byte_of; extent := n; source_ok f := n <= Z.of_nat (length f) |}.
Next Obligation. done. Qed.
Next Obligation.
  cbn. intros n _ f buf sz off Hf Hb Ho He. split_and!; [done|done|]. unfold cache_fill. cbn [snd].
  rewrite (drop_ge buf) by (rewrite length_take, length_drop; lia). rewrite app_nil_r. apply list_eq. intros k. rewrite list_lookup_fmap.
  destruct (decide (k < Z.to_nat sz)%nat).
  - rewrite lookup_take_lt, lookup_drop, lookup_seqZ_lt by lia. simpl. unfold byte_of.
    destruct (lookup_lt_is_Some_2 f (Z.to_nat off + k)) as [x Hx]; [lia|].
    rewrite Hx. f_equal. replace (Z.to_nat (off + Z.of_nat k)) with (Z.to_nat off + k)%nat by lia. by rewrite Hx.
  - rewrite lookup_take_ge, lookup_seqZ_ge by lia. done.
Qed.
Next Obligation.
  cbn. intros n _ f buf sz off Hf Hb Ho He. unfold cache_commit.
  replace (Z.to_nat off - length f)%nat with 0%nat by lia. simpl. rewrite app_nil_r, (take_ge buf) by lia. split.
  - rewrite !length_app, length_take, length_drop. lia.
  - intros o Hoo. unfold byte_of. destruct (Z.leb_spec off o); simpl.
    + rewrite lookup_app_r by (rewrite length_take; lia). rewrite length_take, Nat.min_l by lia.
      replace (Z.to_nat o - Z.to_nat off)%nat with (Z.to_nat (o - off)) by lia.
      destruct (Z.ltb_spec o (off + sz)).
      * by rewrite lookup_app_l by lia.
      * rewrite lookup_app_r, lookup_drop by lia. do 2 f_equal. lia.
    + rewrite lookup_app_l by (rewrite length_take; lia). by rewrite lookup_take_lt by lia.
Qed.



Example full_cache_miss_overruns_witness :
  let w := mkWorld (Src := FILE) (mkCache [mkLine false true 3 4 8 (Some [5; 6; 7; 8])] 4 CACHE_POLICY_WRITE_BACK) [1; 2; 3; 4; 5; 6; 7; 8] 0 in
  cache_read (fun _ => 7) 1 0 w = Undef /\ cache_write (fun _ => 7) [9] 1 0 w = Undef.
Proof.
  cbv zeta. apply (@full_cache_miss_overruns FILE file_source (lawful_file 8 eq_refl)); [reflexivity|].
  repeat constructor.
Defined.

Example read_across_lines_overruns_witness :
  cache_read (fun _ => 7) 3 3 (mkWorld (Src := FILE) (mkCache (empty_lines 2 4) 4 CACHE_POLICY_WRITE_BACK) [1; 2; 3; 4; 5; 6; 7; 8] 0) = Undef.
Proof.
  apply (@read_across_lines_overruns FILE file_source (lawful_file 8 eq_refl)).
  - apply (empty_cache_ok (H0 := lawful_file 8 eq_refl) 2 4 CACHE_POLICY_WRITE_BACK); simpl; [lia..|reflexivity|lia].
  - simpl. lia.
  - simpl. lia.
  - reflexivity.
  - right. apply Nat.ltb_lt. vm_compute. reflexivity.
Defined.

(** A write of a part of a line that is not in the cache takes the rest of
    the line from the buffer, as it was: neither the cache nor, after the
    commit, the file has the bytes of the file any more. *)
Example partial_write_replaces_line : exists w,
  do_calls (fun _ => 7) [CacheWrite [9] 1; CacheRead 3 0]
    (mkWorld (Src := FILE) (mkCache (empty_lines 2 4) 4 CACHE_POLICY_WRITE_THROUGH) [1; 2; 3; 4; 5; 6; 7; 8] 0) =
    Done ([Wrote 1; Bytes 3 [0; 9; 0]], w) /\ w_src w = [0; 9; 0; 0; 5; 6; 7; 8].
Proof. eexists. split; vm_compute; reflexivity. Qed.
