(* ===== verification/SosalBitfield.v ===== *)
(** * Bit fields (source/sosal/bitfield.c, include/sosal/bitfield.h)

    A pool of numbers below [max]: [bitfield_get] hands out the lowest free
    one, [bitfield_rls] takes it back.  [1 << 31] is taken as the compiler
    takes it, the highest bit of the word. *)
From S2P Require Import Prelude.

Record bitfield_t : Set := mkBitfield { fields : list Z; max : Z; b_count : Z }.

Definition BIT_TST (field bit : Z) : bool := Z.land (Z.shiftr field bit) 1 =? 1.
Definition BIT_CLR (field bit : Z) : Z := Z.land field (u32 (Z.lnot (Z.shiftl 1 bit))).
Definition BIT_SET (field bit : Z) : Z := Z.lor field (Z.shiftl 1 bit).

(** In bytes *)
Definition bitfield_length (b : bitfield_t) : Z :=
  let len := max b / 32 in
  let len := u32 (len + (if max b mod 32 =? 0 then 0 else 1)) in
  u32 (len * 4).

(** Of a zeroed structure, with the memory granted. *)
Definition bitfield_init (m : Z) : bitfield_t :=
  mkBitfield (replicate (Z.to_nat (bitfield_length (mkBitfield [] m 0) / 4)) 0) m 0.
Definition bitfield_deinit (b : bitfield_t) : bitfield_t := mkBitfield [] 0 0.

(** The loops over the words and their bits; [n] turns of the inner loop are
    left. *)
Fixpoint rls_bits (n : nat) (b : bitfield_t) (bit i d : Z) : outcome (option bitfield_t) :=
  match n with
  | O => Done None
  | S n' =>
      let c := u32 (d + u32 (i * 32)) in
      if c =? bit then
        w ← of_option (aget (fields b) i);
        if BIT_TST w d then
          fs ← of_option (aset (fields b) i (BIT_CLR w d)); Done (Some (mkBitfield fs (max b) (b_count b)))
        else rls_bits n' b bit i (d + 1)
      else rls_bits n' b bit i (d + 1)
  end.
Fixpoint rls_words (n : nat) (b : bitfield_t) (bit i : Z) : outcome (bool * bitfield_t) :=
  match n with
  | O => Done (false, b)
  | S n' =>
      r ← rls_bits 32 b bit i 0;
      match r with Some b' => Done (true, b') | None => rls_words n' b bit (i + 1) end
  end.
(** With fields; [b] is not null. *)
Definition bitfield_rls (b : bitfield_t) (bit : Z) : outcome (bool * bitfield_t) :=
  rls_words (Z.to_nat (bitfield_length b / 4)) b bit 0.

(** What the inner loop of [bitfield_get] ends with. *)
Inductive get_result : Set := Next | Fail | Got (bit : Z) (b : bitfield_t).
Fixpoint get_bits (n : nat) (b : bitfield_t) (i d : Z) : outcome get_result :=
  match n with
  | O => Done Next
  | S n' =>
      let c := u32 (d + u32 (i * 32)) in
      if max b <=? c then Done Fail
      else
        w ← of_option (aget (fields b) i);
        if negb (BIT_TST w d) then
          fs ← of_option (aset (fields b) i (BIT_SET w d)); Done (Got c (mkBitfield fs (max b) (b_count b)))
        else get_bits n' b i (d + 1)
  end.
Fixpoint get_words (n : nat) (b : bitfield_t) (i : Z) : outcome (bool * Z * bitfield_t) :=
  match n with
  | O => Done (false, 0xFFFFFFFF, b)
  | S n' =>
      r ← get_bits 32 b i 0;
      match r with
      | Next => get_words n' b (i + 1)
      | Fail => Done (false, 0xFFFFFFFF, b)
      | Got c b' => Done (true, c, b')
      end
  end.
Definition bitfield_get (b : bitfield_t) : outcome (bool * Z * bitfield_t) :=
  get_words (Z.to_nat (bitfield_length b / 4)) b 0.

(** The number of bits there are, not that of those set. *)
Definition bitfield_count (b : bitfield_t) : Z := max b.

(** ** The set of numbers that are out *)

Definition word (b : bitfield_t) (i : nat) : Z := default 0 (fields b !! i).
Definition is_set (b : bitfield_t) (c : Z) : bool := Z.testbit (word b (Z.to_nat (c / 32))) (c mod 32).
Record field_ok (b : bitfield_t) : Prop := {
  fo_max : 0 <= max b < 2 ^ 31;
  fo_length : Z.of_nat (length (fields b)) = (max b + 31) / 32;
  fo_words : forall (i : nat) w, fields b !! i = Some w -> is_u32 w }.

Lemma words_of m : 0 <= m < 2 ^ 31 -> bitfield_length (mkBitfield [] m 0) / 4 = (m + 31) / 32.
Proof.
  intros Hm. unfold bitfield_length. cbn [max]. pose proof (Z.div_mod m 32 ltac:(lia)) as Hd. pose proof (Z.mod_pos_bound m 32 ltac:(lia)) as Hr.
  assert (0 <= m / 32 <= m) as Hq by (split; [apply Z.div_pos; lia|apply Z.div_le_upper_bound; lia]).
  assert (m / 32 + (if m mod 32 =? 0 then 0 else 1) = (m + 31) / 32) as ->.
  { destruct (Z.eqb_spec (m mod 32) 0); [apply (Z.div_unique _ _ _ 31)|apply (Z.div_unique _ _ _ (m mod 32 - 1))]; lia. }
  assert (0 <= (m + 31) / 32 < 2 ^ 27) as Hw by (split; [apply Z.div_pos; lia|apply Z.div_lt_upper_bound; lia]).
  rewrite (u32_small ((m + 31) / 32)) by (unfold is_u32; lia). rewrite u32_small by (unfold is_u32; lia). by rewrite Z.div_mul.
Qed.
Lemma words_ok b : field_ok b -> Z.to_nat (bitfield_length b / 4) = length (fields b).
Proof.
  intros [Hm Hl _]. replace (bitfield_length b) with (bitfield_length (mkBitfield [] (max b) 0)) by done. rewrite words_of by done. lia.
Qed.

Lemma BIT_TST_testbit w d : 0 <= d -> BIT_TST w d = Z.testbit w d.
Proof.
  intros Hd. unfold BIT_TST. change 1 with (Z.ones 1) at 1. rewrite Z.land_ones by lia. change (2 ^ 1) with 2.
  rewrite <- Z.bit0_mod, Z.shiftr_spec by lia. rewrite Z.add_0_l. by destruct (Z.testbit w d).
Qed.
Lemma BIT_SET_spec w d : is_u32 w -> 0 <= d < 32 -> is_u32 (BIT_SET w d) /\
  forall e, 0 <= e -> Z.testbit (BIT_SET w d) e = (e =? d) || Z.testbit w e.
Proof.
  intros Hw Hd. unfold BIT_SET.
  assert (forall e, 0 <= e -> Z.testbit (Z.lor w (Z.shiftl 1 d)) e = (e =? d) || Z.testbit w e) as Hb.
  { intros e He. rewrite Z.lor_spec, Z.shiftl_spec by lia. destruct (Z.eqb_spec e d) as [->|Hne]; [by rewrite Z.sub_diag, orb_true_r|].
    cbn [orb]. destruct (Z.ltb_spec e d); [by rewrite (Z.testbit_neg_r 1), orb_false_r by lia|].
    rewrite (Z.bits_above_log2 1 (e - d)), orb_false_r by (cbn; lia). done. }
  split; [|done]. unfold is_u32 in *. split; [apply Z.lor_nonneg; split; [lia|by apply Z.shiftl_nonneg]|].
  destruct (Z.eq_dec (Z.lor w (Z.shiftl 1 d)) 0) as [->|Hz]; [lia|]. apply Z.log2_lt_pow2; [apply Z.le_neq; split; [apply Z.lor_nonneg; split; [lia|by apply Z.shiftl_nonneg]|done]|].
  rewrite Z.log2_lor by (lia || by apply Z.shiftl_nonneg). rewrite Z.log2_shiftl by lia. cbn [Z.log2].
  apply Z.max_lub_lt; [|lia]. destruct (Z.eq_dec w 0) as [->|]; [cbn; lia|]. apply Z.log2_lt_pow2; lia.
Qed.
Lemma BIT_CLR_spec w d : is_u32 w -> 0 <= d < 32 -> is_u32 (BIT_CLR w d) /\
  forall e, 0 <= e < 32 -> Z.testbit (BIT_CLR w d) e = negb (e =? d) && Z.testbit w e.
Proof.
  intros Hw Hd. unfold BIT_CLR. unfold is_u32 in *. split.
  - assert (0 <= u32 (Z.lnot (Z.shiftl 1 d)) < 2 ^ 32) as Hu by apply u32_range.
    replace (u32 (Z.lnot (Z.shiftl 1 d))) with (Z.land (u32 (Z.lnot (Z.shiftl 1 d))) (Z.ones 32)).
    + rewrite Z.land_assoc, Z.land_ones by lia. apply Z.mod_pos_bound. lia.
    + rewrite Z.land_ones by lia. by apply Z.mod_small.
  - intros e He. rewrite Z.land_spec. unfold u32. rewrite <- Z.land_ones, Z.land_spec, Z.ones_spec_low, andb_true_r, Z.lnot_spec, Z.shiftl_spec by lia.
    rewrite andb_comm. f_equal. destruct (Z.eqb_spec e d) as [->|Hne]; [by rewrite Z.sub_diag|]. cbn [negb].
    destruct (Z.ltb_spec e d); [by rewrite (Z.testbit_neg_r 1) by lia|]. rewrite (Z.bits_above_log2 1 (e - d)) by (cbn; lia). done.
Qed.

(** The bit [c] is now [v]; nothing else changes. *)
Record switched (b : bitfield_t) (c : Z) (v : bool) (b' : bitfield_t) : Prop := {
  sw_ok : field_ok b';
  sw_max : max b' = max b;
  sw_bits : forall e, 0 <= e < 32 * Z.of_nat (length (fields b)) -> is_set b' e = if e =? c then v else is_set b e }.

Section Field.
Context (b : bitfield_t) (Hok : field_ok b).

Lemma field_at (i : nat) : (i < length (fields b))%nat -> aget (fields b) (Z.of_nat i) = Some (word b i) /\ is_u32 (word b i).
Proof.
  intros Hi. rewrite aget_nat. unfold word. destruct (lookup_lt_is_Some_2 _ _ Hi) as [w Hw]. rewrite Hw. split; [done|]. by apply (fo_words b Hok i).
Qed.
Lemma bit_number (i : nat) d : (i < length (fields b))%nat -> 0 <= d < 32 -> u32 (d + u32 (Z.of_nat i * 32)) = 32 * Z.of_nat i + d.
Proof.
  intros Hi Hd. destruct Hok as [Hm Hl _]. assert ((max b + 31) / 32 <= 2 ^ 26 + 1) by (apply Z.div_le_upper_bound; lia).
  rewrite (u32_small (_ * 32)) by (unfold is_u32; lia). rewrite u32_small by (unfold is_u32; lia). lia.
Qed.
Lemma is_set_at (i : nat) d : 0 <= d < 32 -> is_set b (32 * Z.of_nat i + d) = Z.testbit (word b i) d.
Proof.
  intros Hd. unfold is_set. replace ((32 * Z.of_nat i + d) / 32) with (Z.of_nat i) by (apply (Z.div_unique _ _ _ d); lia).
  rewrite Nat2Z.id. f_equal. symmetry. apply (Z.mod_unique _ _ (Z.of_nat i)); lia.
Qed.

Lemma switch (i : nat) d w v : (i < length (fields b))%nat -> 0 <= d < 32 -> is_u32 w ->
  (forall e, 0 <= e < 32 -> Z.testbit w e = if e =? d then v else Z.testbit (word b i) e) ->
  aset (fields b) (Z.of_nat i) w = Some (<[i := w]> (fields b)) /\
  switched b (32 * Z.of_nat i + d) v (mkBitfield (<[i := w]> (fields b)) (max b) (b_count b)).
Proof.
  intros Hi Hd Hw Hbits. split; [by apply aset_nat|]. split; [|done|].
  - destruct Hok as [Hm Hl Hws]. split; cbn [max fields]; [done|by rewrite length_insert|].
    intros j u Hu. apply list_lookup_insert_Some in Hu as [(_ & -> & _)|[_ Hu]]; [done|by apply (Hws j)].
  - intros e He. unfold is_set, word at 1. cbn [fields]. pose proof (Z.div_mod e 32 ltac:(lia)) as Hdm. pose proof (Z.mod_pos_bound e 32 ltac:(lia)) as Hr.
    destruct (decide (Z.to_nat (e / 32) = i)) as [Hei|Hei].
    + rewrite Hei, list_lookup_insert_eq by done. cbn [default]. rewrite Hbits by done. assert (e / 32 = Z.of_nat i) as Hq.
      { rewrite <- Hei, Z2Nat.id; [done|]. apply Z.div_pos; lia. }
      destruct (Z.eqb_spec (e mod 32) d), (Z.eqb_spec e (32 * Z.of_nat i + d)); (done || lia).
    + rewrite list_lookup_insert_ne by done. destruct (Z.eqb_spec e (32 * Z.of_nat i + d)) as [He2|]; [|done].
      exfalso. apply Hei. rewrite He2. replace ((32 * Z.of_nat i + d) / 32) with (Z.of_nat i) by (apply (Z.div_unique _ _ _ d); lia). apply Nat2Z.id.
Qed.

Lemma get_bits_spec (i : nat) : (i < length (fields b))%nat -> forall (n : nat) d, d + Z.of_nat n = 32 -> 0 <= d ->
  exists r, get_bits n b (Z.of_nat i) d = Done r /\
  match r with
  | Next => forall c, 32 * Z.of_nat i + d <= c < 32 * Z.of_nat i + 32 -> is_set b c = true
  | Fail => max b < 32 * Z.of_nat i + 32 /\ forall c, 32 * Z.of_nat i + d <= c < max b -> is_set b c = true
  | Got c b' => 32 * Z.of_nat i + d <= c < max b /\ is_set b c = false /\ (forall e, 32 * Z.of_nat i + d <= e < c -> is_set b e = true) /\
      switched b c true b'
  end.
Proof.
  intros Hi n. induction n as [|n IH]; intros d Hd Hd0; cbn [get_bits]; [exists Next; split; [done|]; intros c Hc; lia|].
  rewrite (bit_number i d Hi) by lia. destruct (Z.leb_spec (max b) (32 * Z.of_nat i + d)) as [Hm|Hm].
  - exists Fail. split; [done|]. split; [lia|]. intros c Hc. lia.
  - destruct (field_at i Hi) as [Hg Hw]. rewrite Hg. cbn [of_option mbind outcome_bind]. rewrite BIT_TST_testbit by done.
    pose proof (is_set_at i d ltac:(lia)) as Hset. destruct (Z.testbit (word b i) d) eqn:Hb; cbn [negb].
    + destruct (IH (d + 1)) as (r & -> & Hr); [lia|lia|]. exists r. split; [done|].
      assert (forall c, 32 * Z.of_nat i + d <= c -> c = 32 * Z.of_nat i + d \/ 32 * Z.of_nat i + (d + 1) <= c) as Hc by lia.
      destruct r as [| |c b'].
      * intros c Hcb. destruct (Hc c) as [->|]; [lia|done|apply Hr; lia].
      * destruct Hr as [Hr1 Hr2]. split; [done|]. intros c Hcb. destruct (Hc c) as [->|]; [lia|done|apply Hr2; lia].
      * destruct Hr as (Hr1 & Hr2 & Hr3 & Hr4). split_and!; [lia|lia|done| |done]. intros e He. destruct (Hc e) as [->|]; [lia|done|apply Hr3; lia].
    + destruct (BIT_SET_spec (word b i) d Hw) as [Hw' Hbits]; [lia|].
      destruct (switch i d (BIT_SET (word b i) d) true Hi) as [-> Hsw]; [lia|done| |].
      { intros e He. rewrite Hbits by lia. by destruct (e =? d). }
      cbn [of_option mbind outcome_bind]. eexists. split; [done|]. cbn. split_and!; [lia|lia|done| |done]. intros e He. lia.
Qed.

Lemma get_words_spec n : forall i : nat, (i + n = length (fields b))%nat -> exists ok c b',
  get_words n b (Z.of_nat i) = Done (ok, c, b') /\
  if ok : bool then 32 * Z.of_nat i <= c < max b /\ is_set b c = false /\ (forall e, 32 * Z.of_nat i <= e < c -> is_set b e = true) /\ switched b c true b'
  else b' = b /\ forall c, 32 * Z.of_nat i <= c < max b -> is_set b c = true.
Proof.
  induction n as [|n IH]; intros i Hi; cbn [get_words].
  - eexists false, _, b. split; [done|]. split; [done|]. intros c Hc. destruct Hok as [Hm Hl _]. rewrite Nat.add_0_r in Hi. subst i. rewrite Hl in Hc.
    pose proof (Z.div_mod (max b + 31) 32). pose proof (Z.mod_pos_bound (max b + 31) 32). lia.
  - destruct (get_bits_spec i ltac:(lia) 32 0) as (r & -> & Hr); [done|done|]. cbn [mbind outcome_bind]. rewrite Z.add_0_r in Hr. destruct r as [| |c b'].
    + replace (Z.of_nat i + 1) with (Z.of_nat (S i)) by lia. destruct (IH (S i)) as (ok & c & b' & -> & Hres); [lia|]. exists ok, c, b'. split; [done|].
      assert (forall e, 32 * Z.of_nat i <= e -> e < 32 * Z.of_nat i + 32 \/ 32 * Z.of_nat (S i) <= e) as Hs by lia.
      destruct ok; [destruct Hres as (H1 & H2 & H3 & H4); split_and!; [lia|lia|done| |done]|destruct Hres as [H1 H2]; split; [done|]];
        intros e He; (destruct (Hs e) as [?|?]; [lia|apply Hr; lia|]); [apply H3|apply H2]; lia.
    + eexists false, _, b. split; [done|]. split; [done|]. apply Hr.
    + by eexists true, c, b'.
Qed.

Lemma rls_bits_spec (i : nat) bit : (i < length (fields b))%nat -> forall (n : nat) d, d + Z.of_nat n = 32 -> 0 <= d ->
  exists r, rls_bits n b bit (Z.of_nat i) d = Done r /\
  match r with
  | Some b' => 32 * Z.of_nat i + d <= bit < 32 * Z.of_nat i + 32 /\ is_set b bit = true /\ switched b bit false b'
  | None => 32 * Z.of_nat i + d <= bit < 32 * Z.of_nat i + 32 -> is_set b bit = false
  end.
Proof.
  intros Hi n. induction n as [|n IH]; intros d Hd Hd0; cbn [rls_bits]; [exists None; split; [done|lia]|].
  rewrite (bit_number i d Hi) by lia. assert (0 <= d < 32) as Hd32 by lia. pose proof (is_set_at i d Hd32) as Hset.
  destruct (IH (d + 1)) as (r & Hr1 & Hr2); [lia|lia|].
  destruct (Z.eqb_spec (32 * Z.of_nat i + d) bit) as [<-|Hne].
  - destruct (field_at i Hi) as [Hg Hw]. rewrite Hg. cbn [of_option mbind outcome_bind]. rewrite BIT_TST_testbit by done.
    destruct (Z.testbit (word b i) d) eqn:Hb.
    + destruct (BIT_CLR_spec (word b i) d Hw Hd32) as [Hw' Hbits].
      destruct (switch i d (BIT_CLR (word b i) d) false Hi) as [-> Hsw]; [lia|done| |].
      { intros e He. rewrite Hbits by lia. by destruct (e =? d). }
      cbn [of_option mbind outcome_bind]. eexists. split; [done|]. cbn. split_and!; [lia|lia|done|done].
    + rewrite Hr1. exists r. split; [done|]. destruct r as [b'|]; [destruct Hr2 as (? & _); lia|done].
  - rewrite Hr1. exists r. split; [done|]. destruct r as [b'|]; [destruct Hr2 as (? & ? & ?); split_and!; [lia|lia|done|done]|].
    intros H. apply Hr2. lia.
Qed.
Lemma rls_words_spec bit n : forall i : nat, (i + n = length (fields b))%nat -> exists ok b',
  rls_words n b bit (Z.of_nat i) = Done (ok, b') /\
  if ok : bool then 32 * Z.of_nat i <= bit < 32 * Z.of_nat (length (fields b)) /\ is_set b bit = true /\ switched b bit false b'
  else b' = b /\ (32 * Z.of_nat i <= bit < 32 * Z.of_nat (length (fields b)) -> is_set b bit = false).
Proof.
  induction n as [|n IH]; intros i Hi; cbn [rls_words]; [exists false, b; split; [done|]; split; [done|lia]|].
  destruct (rls_bits_spec i bit ltac:(lia) 32 0) as (r & -> & Hr); [done|done|]. cbn [mbind outcome_bind]. rewrite Z.add_0_r in Hr. destruct r as [b'|].
  - exists true, b'. split; [done|]. destruct Hr as (? & ? & ?). split_and!; [lia|lia|done|done].
  - replace (Z.of_nat i + 1) with (Z.of_nat (S i)) by lia. destruct (IH (S i)) as (ok & b' & -> & Hres); [lia|]. exists ok, b'. split; [done|].
    destruct ok; [destruct Hres as (? & ? & ?); split_and!; [lia|lia|done|done]|]. destruct Hres as [-> Hf]. split; [done|].
    intros H. destruct (Z.ltb_spec bit (32 * Z.of_nat i + 32)); [apply Hr|apply Hf]; lia.
Qed.
End Field.

(** ** Programs *)

Inductive field_call : Set := BitGet | BitRls (bit : Z).
Inductive field_answer : Set := Given (bit : option Z) | Released (ok : bool).

Definition run_field_call (c : field_call) (b : bitfield_t) : outcome (field_answer * bitfield_t) :=
  match c with
  | BitGet => '(ok, bit, b) ← bitfield_get b; Done (Given (if ok : bool then Some bit else None), b)
  | BitRls bit => '(ok, b) ← bitfield_rls b bit; Done (Released ok, b)
  end.
Fixpoint run_field_calls (cs : list field_call) (b : bitfield_t) : outcome (list field_answer * bitfield_t) :=
  match cs with
  | [] => Done ([], b)
  | c :: cs => '(a, b) ← run_field_call c b; '(rest, b) ← run_field_calls cs b; Done (a :: rest, b)
  end.

(** The numbers below [m] that are out: the lowest other one is given. *)
Definition pool_call (m : Z) (c : field_call) (X : gset Z) : field_answer * gset Z :=
  match c with
  | BitGet =>
      match list_find (fun e => e ∉ X) (seqZ 0 m) with
      | Some (_, e) => (Given (Some e), {[e]} ∪ X)
      | None => (Given None, X)
      end
  | BitRls e => (Released (bool_decide (e ∈ X)), X ∖ {[e]})
  end.
Fixpoint pool_calls (m : Z) (cs : list field_call) (X : gset Z) : list field_answer * gset Z :=
  match cs with
  | [] => ([], X)
  | c :: cs => let '(a, X) := pool_call m c X in let '(rest, X) := pool_calls m cs X in (a :: rest, X)
  end.

Record field_is (m : Z) (b : bitfield_t) (X : gset Z) : Prop := {
  fi_ok : field_ok b;
  fi_max : max b = m;
  fi_set : forall e, 0 <= e < 32 * Z.of_nat (length (fields b)) -> is_set b e = bool_decide (e ∈ X);
  fi_below : forall e, e ∈ X -> 0 <= e < m }.

Lemma below_fields m b X e : field_is m b X -> 0 <= e < m -> 0 <= e < 32 * Z.of_nat (length (fields b)).
Proof.
  intros [[Hm Hl _] <- _ _] He. rewrite Hl. pose proof (Z.div_mod (max b + 31) 32). pose proof (Z.mod_pos_bound (max b + 31) 32). lia.
Qed.
Lemma switched_length b c v b' : field_ok b -> switched b c v b' -> length (fields b') = length (fields b).
Proof. intros [_ Hl _] [[_ Hl' _] Hm _]. rewrite Hm in Hl'. lia. Qed.
Lemma switched_is m b X c v b' : field_is m b X -> 0 <= c < m -> switched b c v b' ->
  field_is m b' (if v then {[c]} ∪ X else X ∖ {[c]}).
Proof.
  intros Hi Hc Hsw. pose proof (switched_length _ _ _ _ (fi_ok _ _ _ Hi) Hsw) as Hl. destruct Hi as [Hok Hmx Hset Hb], Hsw as [Hok' Hm' Hbits].
  split; [done|congruence| |].
  - intros e He. rewrite Hl in He. rewrite Hbits, Hset by done. destruct (Z.eqb_spec e c) as [->|Hne], v; symmetry.
    + apply bool_decide_eq_true. set_solver.
    + apply bool_decide_eq_false. set_solver.
    + apply bool_decide_ext. set_solver.
    + apply bool_decide_ext. set_solver.
  - intros e. destruct v; [intros [->%elem_of_singleton|He]%elem_of_union; [done|by apply Hb]|intros [He _]%elem_of_difference; by apply Hb].
Qed.

(** The list of numbers is searched from its start. *)
Lemma find_free (X : gset Z) m c : 0 <= c < m -> c ∉ X -> (forall e, 0 <= e < c -> e ∈ X) ->
  list_find (fun e => e ∉ X) (seqZ 0 m) = Some (Z.to_nat c, c).
Proof.
  intros Hc Hn Hlow. apply list_find_Some. split_and!; [|done|].
  - apply lookup_seqZ. lia.
  - intros j y Hj Hlt. apply lookup_seqZ in Hj as [-> Hj]. intros H. apply H, Hlow. lia.
Qed.
Lemma find_none (X : gset Z) m : (forall e, 0 <= e < m -> e ∈ X) -> list_find (fun e => e ∉ X) (seqZ 0 m) = None.
Proof. intros Hall. apply list_find_None, Forall_forall. intros e He%elem_of_seqZ H. apply H, Hall. lia. Qed.

Lemma run_field_call_spec m c b X : field_is m b X -> exists b',
  run_field_call c b = Done ((pool_call m c X).1, b') /\ field_is m b' (pool_call m c X).2.
Proof.
  intros Hi. pose proof Hi as [Hok Hm Hset Hb]. assert (forall e, 0 <= e < m -> is_set b e = bool_decide (e ∈ X)) as Hin.
  { intros e He. apply Hset. by eapply below_fields. }
  destruct c as [|bit]; cbn [run_field_call pool_call].
  - unfold bitfield_get. rewrite words_ok by done. destruct (get_words_spec b Hok (length (fields b)) 0) as (ok & c & b' & He & Hr); [done|].
    change (Z.of_nat 0) with 0 in He. rewrite He. cbn [mbind outcome_bind]. rewrite Hm in Hr. destruct ok.
    + destruct Hr as (Hc & Hn & Hlow & Hsw). rewrite (find_free X m c).
      * exists b'. split; [done|]. apply (switched_is m b X c true b'); [done|lia|done].
      * lia.
      * rewrite Hin in Hn by lia. by apply bool_decide_eq_false in Hn.
      * intros e Hel. specialize (Hlow e ltac:(lia)). rewrite Hin in Hlow by lia. by apply bool_decide_eq_true in Hlow.
    + destruct Hr as [-> Hall]. rewrite find_none; [by exists b|]. intros e Hel. specialize (Hall e ltac:(lia)). rewrite Hin in Hall by lia.
      by apply bool_decide_eq_true in Hall.
  - unfold bitfield_rls. rewrite words_ok by done. destruct (rls_words_spec b Hok bit (length (fields b)) 0) as (ok & b' & He & Hr); [done|].
    change (Z.of_nat 0) with 0 in He. rewrite He. cbn [mbind outcome_bind]. destruct ok.
    + destruct Hr as (Hc & Hs & Hsw). rewrite Hset in Hs by lia. apply bool_decide_eq_true in Hs. exists b'.
      rewrite bool_decide_eq_true_2 by done. split; [done|]. apply (switched_is m b X bit false b'); [done|by apply Hb|done].
    + destruct Hr as [-> Hf]. exists b. assert (bit ∉ X) as Hn.
      { intros Hx. pose proof (Hb bit Hx) as Hbb. assert (0 <= bit < 32 * Z.of_nat (length (fields b))) as Hbl by (by eapply below_fields).
        specialize (Hf ltac:(lia)). rewrite Hset in Hf by done. by apply bool_decide_eq_false in Hf. }
      rewrite bool_decide_eq_false_2 by done. split; [done|]. replace (X ∖ {[bit]}) with X by set_solver. done.
Qed.
Lemma run_field_calls_spec m cs : forall b X, field_is m b X -> exists b',
  run_field_calls cs b = Done ((pool_calls m cs X).1, b') /\ field_is m b' (pool_calls m cs X).2.
Proof.
  induction cs as [|c cs IH]; intros b X Hi; [by exists b|]. cbn [run_field_calls pool_calls].
  destruct (run_field_call_spec m c b X Hi) as (b1 & -> & Hi1). cbn [mbind outcome_bind]. destruct (pool_call m c X) as [a X1].
  destruct (IH b1 X1 Hi1) as (b2 & -> & Hi2). exists b2. cbn [mbind outcome_bind]. by destruct (pool_calls m cs X1).
Qed.

(** C39: a bit field is a pool of numbers: from a new field of [m] bits any
    sequence of [bitfield_get] and [bitfield_rls] runs to its end and answers
    what a set of the numbers that are out answers, [bitfield_get] the
    lowest number below [m] that is not out, or that there is none,
    [bitfield_rls] whether the number was out. *)
Theorem bitfield_is_number_pool m cs : 0 <= m < 2 ^ 31 -> exists b',
  run_field_calls cs (bitfield_init m) = Done ((pool_calls m cs ∅).1, b') /\ field_is m b' (pool_calls m cs ∅).2.
Proof.
  intros Hm. apply run_field_calls_spec. unfold bitfield_init. rewrite words_of by done. assert (0 <= (m + 31) / 32) by (apply Z.div_pos; lia).
  split; cbn [max fields]; [split; cbn [max fields]| | |].
  - done.
  - rewrite length_replicate. lia.
  - intros i w Hw. apply lookup_replicate in Hw as [-> _]. unfold is_u32. lia.
  - done.
  - intros e He. rewrite bool_decide_eq_false_2 by set_solver. unfold is_set, word. cbn [fields].
    destruct (replicate _ 0 !! _) as [w|] eqn:Hw; [apply lookup_replicate in Hw as [-> _]|]; by rewrite Z.testbit_0_l.
  - set_solver.
Qed.
Example bitfield_is_number_pool_witness : exists b',
  run_field_calls [BitGet; BitGet; BitGet; BitRls 1; BitRls 1; BitGet; BitGet; BitGet] (bitfield_init 4) =
  Done ([Given (Some 0); Given (Some 1); Given (Some 2); Released true; Released false; Given (Some 1); Given (Some 3); Given None], b').
Proof.
  destruct (bitfield_is_number_pool 4 [BitGet; BitGet; BitGet; BitRls 1; BitRls 1; BitGet; BitGet; BitGet]) as (b' & He & _); [lia|].
  exists b'. rewrite He. vm_compute. reflexivity.
Defined.
