(* ===== verification/SosalFph.v ===== *)
(** * Fast pointer hashes (source/sosal/fph.c, include/sosal/fph.h)

    A flat array of key/value pairs in blocks, one block for all keys of one
    hash value; [NULL], 0, is the key of an empty slot.  With the metrics
    compiled in, as the header does. *)
From S2P Require Import Prelude.

Record fph_kv_t : Set := mkKV { kv_key : Z; kv_value : Z }.
Record fph_t : Set := mkFph {
  hash : list fph_kv_t; blockSize : Z; numBlocks : Z; numElem : Z;
  collisions : list Z; block_length : list Z; numReplacements : Z; numPtrs : Z; numMisses : Z }.

(** The supplied hash function *)
Definition fph_hash (f : fph_t) (value : Z) : outcome Z :=
  if numBlocks f =? 0 then Undef else Done (u64 (Z.shiftr value 8 mod numBlocks f * blockSize f)).

(** With the memory granted. *)
Definition fph_init (blocks size : Z) : fph_t :=
  let n := u64 (blocks * size) in
  mkFph (replicate (Z.to_nat n) (mkKV 0 0)) size blocks n
    (replicate (Z.to_nat blocks) 0) (replicate (Z.to_nat blocks) 0) 0 0 0.

Definition with_kv (h : list fph_kv_t) (f : fph_t) : fph_t :=
  mkFph h (blockSize f) (numBlocks f) (numElem f) (collisions f) (block_length f) (numReplacements f) (numPtrs f) (numMisses f).
Definition with_metrics (c l : list Z) (repl ptrs miss : Z) (f : fph_t) : fph_t :=
  mkFph (hash f) (blockSize f) (numBlocks f) (numElem f) c l repl ptrs miss.

Section Fph.
Context (keyFunc : fph_t -> Z -> outcome Z).

(** [n] turns of a loop are left. *)
Fixpoint get_loop (n : nat) (f : fph_t) (i k : Z) : outcome (option Z) :=
  match n with
  | O => Done None
  | S n' =>
      kv ← of_option (aget (hash f) i);
      if kv_key kv =? k then Done (Some (kv_value kv)) else get_loop n' f (u32 (i + 1)) k
  end.
(** [None] is a result of 0, with [*v] set to [NULL]. *)
Definition fph_get (f : fph_t) (k : Z) : outcome (option Z) :=
  index ← keyFunc f k;
  get_loop (Z.to_nat (blockSize f)) f (u32 index) k.

Definition clear_slot (f : fph_t) (index i : Z) : outcome fph_t :=
  h ← of_option (aset (hash f) i (mkKV 0 0));
  let block := index / blockSize f in
  l ← of_option (aget (block_length f) block);
  c ← of_option (aget (collisions f) block);
  cs ← of_option (aset (collisions f) block (if 1 <? l then u32 (c - 1) else if l =? 1 then 0 else c));
  ls ← of_option (aset (block_length f) block (u32 (l - 1)));
  Done (with_metrics cs ls (numReplacements f) (u32 (numPtrs f - 1)) (numMisses f) (with_kv h f)).
Fixpoint clr_loop (n : nat) (f : fph_t) (index i k : Z) : outcome (bool * fph_t) :=
  match n with
  | O => Done (false, f)
  | S n' =>
      kv ← of_option (aget (hash f) i);
      if kv_key kv =? k then f ← clear_slot f index i; Done (true, f) else clr_loop n' f index (u32 (i + 1)) k
  end.
Definition fph_clr (f : fph_t) (k : Z) : outcome (bool * fph_t) :=
  index ← keyFunc f k;
  clr_loop (Z.to_nat (blockSize f)) f (u32 index) (u32 index) k.

Definition replace_slot (f : fph_t) (block i k v : Z) : outcome fph_t :=
  h ← of_option (aset (hash f) i (mkKV k v));
  c ← of_option (aget (collisions f) block);
  cs ← of_option (aset (collisions f) block (u32 (c + 1)));
  Done (with_metrics cs (block_length f) (u32 (numReplacements f + 1)) (numPtrs f) (numMisses f) (with_kv h f)).
Definition fill_slot (f : fph_t) (block i k v : Z) : outcome fph_t :=
  h ← of_option (aset (hash f) i (mkKV k v));
  l ← of_option (aget (block_length f) block);
  ls ← of_option (aset (block_length f) block (u32 (l + 1)));
  Done (with_metrics (collisions f) ls (numReplacements f) (u32 (numPtrs f + 1)) (numMisses f) (with_kv h f)).
Fixpoint set_loop (n : nat) (f : fph_t) (block i k v : Z) : outcome (bool * fph_t) :=
  match n with
  | O => Done (false, with_metrics (collisions f) (block_length f) (numReplacements f) (numPtrs f) (u32 (numMisses f + 1)) f)
  | S n' =>
      kv ← of_option (aget (hash f) i);
      if kv_key kv =? k then f ← replace_slot f block i k v; Done (true, f)
      else if kv_key kv =? 0 then f ← fill_slot f block i k v; Done (true, f)
      else set_loop n' f block (u32 (i + 1)) k v
  end.
Definition fph_set (f : fph_t) (k v : Z) : outcome (bool * fph_t) :=
  if k =? 0 then Done (false, f)
  else
    index ← keyFunc f k;
    let index := u32 index in
    if blockSize f =? 0 then Undef
    else set_loop (Z.to_nat (blockSize f)) f (index / blockSize f) index k v.
End Fph.

(** ** Gets after sets and clears *)

Definition same_geometry (f f' : fph_t) : Prop := blockSize f' = blockSize f /\ numBlocks f' = numBlocks f.
(** The slot [j], which had the key [old], has become [x]. *)
Definition one_slot (f f' : fph_t) (j : nat) (old : Z) (x : fph_kv_t) : Prop :=
  same_geometry f f' /\ hash f' = <[j := x]> (hash f) /\ exists kv, hash f !! j = Some kv /\ kv_key kv = old.

Lemma get_other f f' j old x k n : forall i, one_slot f f' j old x -> old <> k -> kv_key x <> k ->
  get_loop n f' i k = get_loop n f i k.
Proof.
  intros i (_ & Hh & kv & Hj & Hold) Hk Hx. revert i. induction n as [|n IH]; intros i; [done|]. cbn [get_loop]. rewrite Hh. unfold aget.
  destruct (0 <=? i); [|done]. destruct (decide (j = Z.to_nat i)) as [<-|Hne].
  - rewrite list_lookup_insert_eq, Hj by (by eapply lookup_lt_Some). cbn [of_option mbind outcome_bind].
    rewrite !(proj2 (Z.eqb_neq _ k)) by congruence. apply IH.
  - rewrite list_lookup_insert_ne by done. destruct (hash f !! Z.to_nat i); [|done]. cbn [of_option mbind outcome_bind]. by rewrite IH.
Qed.

Ltac steps := repeat match goal with
  | H : (of_option ?o ≫= _) = Done _ |- _ => let E := fresh "E" in destruct o eqn:E; cbn [of_option mbind outcome_bind] in H; [|done]
  | H : Done _ = Done _ |- _ => injection H as <-
  end.

Lemma replace_slot_spec f block i k v f' kv : aget (hash f) i = Some kv -> replace_slot f block i k v = Done f' ->
  one_slot f f' (Z.to_nat i) (kv_key kv) (mkKV k v) /\ 0 <= i.
Proof.
  intros Hkv H. unfold replace_slot in H. steps. apply aset_Some in E as [Hi ->]. apply aget_Some in Hkv as [_ Hkv].
  split; [|lia]. split; [done|]. split; [done|]. by exists kv.
Qed.
Lemma fill_slot_spec f block i k v f' kv : aget (hash f) i = Some kv -> fill_slot f block i k v = Done f' ->
  one_slot f f' (Z.to_nat i) (kv_key kv) (mkKV k v) /\ 0 <= i.
Proof.
  intros Hkv H. unfold fill_slot in H. steps. apply aset_Some in E as [Hi ->]. apply aget_Some in Hkv as [_ Hkv].
  split; [|lia]. split; [done|]. split; [done|]. by exists kv.
Qed.
Lemma clear_slot_spec f index i f' kv : aget (hash f) i = Some kv -> clear_slot f index i = Done f' ->
  one_slot f f' (Z.to_nat i) (kv_key kv) (mkKV 0 0).
Proof.
  intros Hkv H. unfold clear_slot in H. steps. apply aset_Some in E as [Hi ->]. apply aget_Some in Hkv as [_ Hkv].
  split; [done|]. split; [done|]. by exists kv.
Qed.

(** What has just been written is what a search over the same slots finds. *)
Lemma written_found f f' k v n i : one_slot f f' (Z.to_nat i) k (mkKV k v) \/ one_slot f f' (Z.to_nat i) 0 (mkKV k v) -> 0 <= i ->
  get_loop (S n) f' i k = Done (Some v).
Proof.
  intros H Hi. cbn [get_loop]. unfold aget. rewrite (proj2 (Z.leb_le 0 i)) by done.
  assert (hash f' !! Z.to_nat i = Some (mkKV k v)) as ->.
  { destruct H as [(_ & -> & kv & Hj & _)|(_ & -> & kv & Hj & _)]; apply list_lookup_insert_eq; by eapply lookup_lt_Some. }
  cbn. by rewrite Z.eqb_refl.
Qed.

Lemma set_loop_spec k v block n : forall f i ok f', k <> 0 -> set_loop n f block i k v = Done (ok, f') ->
  if ok : bool then (exists j old, one_slot f f' j old (mkKV k v) /\ (old = k \/ old = 0)) /\ get_loop n f' i k = Done (Some v)
  else hash f' = hash f /\ same_geometry f f'.
Proof.
  induction n as [|n IH]; intros f i ok f' Hk H; cbn [set_loop] in H.
  - injection H as <- <-. done.
  - destruct (aget (hash f) i) as [kv|] eqn:Hkv; cbn [of_option mbind outcome_bind] in H; [|done].
    destruct (Z.eqb_spec (kv_key kv) k) as [He|He].
    + destruct (replace_slot f block i k v) as [f1| |] eqn:Hr; cbn [mbind outcome_bind] in H; [|done..]. injection H as <- <-.
      destruct (replace_slot_spec f block i k v f1 kv Hkv Hr) as [Ho Hi]. rewrite He in Ho. split.
      * exists (Z.to_nat i), k. split; [done|by left].
      * apply (written_found f); [by left|done].
    + destruct (Z.eqb_spec (kv_key kv) 0) as [H0|H0].
      * destruct (fill_slot f block i k v) as [f1| |] eqn:Hr; cbn [mbind outcome_bind] in H; [|done..]. injection H as <- <-.
        destruct (fill_slot_spec f block i k v f1 kv Hkv Hr) as [Ho Hi]. rewrite H0 in Ho. split.
        -- exists (Z.to_nat i), 0. split; [done|by right].
        -- apply (written_found f); [by right|done].
      * specialize (IH f (u32 (i + 1)) ok f' Hk H). destruct ok; [|done]. destruct IH as [(j & old & Ho & Hold) Hg]. split; [by exists j, old|].
        cbn [get_loop]. destruct Ho as (_ & Hh & kv' & Hj & Hjk). apply aget_Some in Hkv as [Hi Hkv]. rewrite Hh. unfold aget.
        rewrite (proj2 (Z.leb_le 0 i)) by lia. rewrite list_lookup_insert_ne, Hkv by (intros ->; rewrite Hkv in Hj; injection Hj as ->; destruct Hold; congruence).
        cbn [of_option mbind outcome_bind]. by rewrite (proj2 (Z.eqb_neq _ k)) by done.
Qed.
Lemma clr_loop_spec k index n : forall f i f', clr_loop n f index i k = Done (true, f') ->
  exists j, one_slot f f' j k (mkKV 0 0).
Proof.
  induction n as [|n IH]; intros f i f' H; cbn [clr_loop] in H; [done|].
  destruct (aget (hash f) i) as [kv|] eqn:Hkv; cbn [of_option mbind outcome_bind] in H; [|done].
  destruct (Z.eqb_spec (kv_key kv) k) as [He|He]; [|by eapply IH].
  destruct (clear_slot f index i) as [f1| |] eqn:Hr; cbn [mbind outcome_bind] in H; [|done..]. injection H as <-.
  exists (Z.to_nat i). rewrite <- He. by eapply clear_slot_spec.
Qed.

(** A hash function looks at the geometry only. *)
Definition by_geometry (keyFunc : fph_t -> Z -> outcome Z) : Prop :=
  forall f f' k, same_geometry f f' -> keyFunc f' k = keyFunc f k.
Lemma fph_hash_geometry : by_geometry fph_hash.
Proof. intros f f' k [H1 H2]. unfold fph_hash. by rewrite H1, H2. Qed.
Lemma get_by_slot keyFunc f f' j old x k : by_geometry keyFunc -> one_slot f f' j old x -> old <> k -> kv_key x <> k ->
  fph_get keyFunc f' k = fph_get keyFunc f k.
Proof.
  intros Hg Ho H1 H2. pose proof Ho as (Hgeo & _). unfold fph_get. rewrite (Hg f f' k Hgeo). destruct (keyFunc f k) as [index| |]; [|done..].
  cbn [mbind outcome_bind]. destruct Hgeo as [-> _]. by eapply get_other.
Qed.

Lemma fph_set_then_get keyFunc f f' k v ok k' : by_geometry keyFunc -> k <> 0 -> fph_set keyFunc f k v = Done (ok, f') ->
  k' <> 0 -> fph_get keyFunc f' k' = if decide (ok = true /\ k' = k) then Done (Some v) else fph_get keyFunc f k'.
Proof.
  intros Hg Hk H Hk'. unfold fph_set in H. rewrite (proj2 (Z.eqb_neq k 0)) in H by done.
  destruct (keyFunc f k) as [index| |] eqn:Hi; [|done..]. cbn [mbind outcome_bind] in H. destruct (blockSize f =? 0); [done|].
  apply set_loop_spec in H; [|done]. destruct ok.
  - destruct H as [(j & old & Ho & Hold) Hf]. destruct (decide (true = true /\ k' = k)) as [[_ ->]|Hn].
    + pose proof Ho as (Hgeo & _). unfold fph_get. rewrite (Hg f f' k Hgeo), Hi. cbn [mbind outcome_bind]. destruct Hgeo as [-> _]. done.
    + assert (k' <> k) as Hne by (intros ->; by apply Hn). apply (get_by_slot keyFunc f f' j old _ k' Hg Ho); [destruct Hold; congruence|done].
  - rewrite decide_False by (by intros [? _]). destruct H as [Hh Hgeo]. unfold fph_get. rewrite (Hg f f' k' Hgeo).
    destruct (keyFunc f k') as [ix| |]; [|done..]. cbn [mbind outcome_bind]. destruct Hgeo as [-> _]. generalize (u32 ix).
    generalize (Z.to_nat (blockSize f)). intros n. induction n as [|n IH]; intros i; [done|]. cbn [get_loop]. rewrite Hh.
    destruct (aget (hash f) i); [|done]. cbn [of_option mbind outcome_bind]. by rewrite IH.
Qed.

(** The laws of a fast pointer hash, for any of its states: a set that
    succeeds is found by the next get of its key and leaves what a get of
    any other key finds; a set that fails, as its block is full, leaves what
    all gets find; a clear that succeeds leaves what a get of any other key
    finds. *)
Theorem fph_get_laws keyFunc f f' k v ok : by_geometry keyFunc -> k <> 0 ->
  (fph_set keyFunc f k v = Done (ok, f') -> forall k', k' <> 0 ->
     fph_get keyFunc f' k' = if decide (ok = true /\ k' = k) then Done (Some v) else fph_get keyFunc f k') /\
  (fph_clr keyFunc f k = Done (true, f') -> forall k', k' <> 0 -> k' <> k -> fph_get keyFunc f' k' = fph_get keyFunc f k').
Proof.
  intros Hg Hk. split; [intros H k' Hk'; by apply fph_set_then_get|].
  intros H k' Hk' Hne. unfold fph_clr in H. destruct (keyFunc f k) as [index| |] eqn:Hi; [|done..]. cbn [mbind outcome_bind] in H.
  apply clr_loop_spec in H as [j Ho]. apply (get_by_slot keyFunc f f' j k _ k' Hg Ho); [congruence|]. cbn. congruence.
Qed.
Example fph_get_laws_witness : exists f', fph_set fph_hash (fph_init 4 2) 0x300 7 = Done (true, f') /\
  fph_get fph_hash f' 0x300 = Done (Some 7).
Proof.
  destruct (fph_set fph_hash (fph_init 4 2) 0x300 7) as [[ok f']| |] eqn:H; [|discriminate H|discriminate H].
  assert (ok = true) as -> by (vm_compute in H; congruence). exists f'. split; [reflexivity|].
  destruct (fph_get_laws fph_hash (fph_init 4 2) f' 0x300 7 true fph_hash_geometry) as [Hs _]; [discriminate|].
  rewrite (Hs H 0x300); [reflexivity|discriminate].
Defined.

(** A key that is set again after a slot before it was cleared is there
    twice: once cleared, its first value is found. *)
Theorem fph_stale_value : exists f1 f2 f3 f4 f5 f6,
  fph_set fph_hash (fph_init 4 2) 0x300 1 = Done (true, f1) /\ fph_set fph_hash f1 0x700 2 = Done (true, f2) /\
  fph_clr fph_hash f2 0x300 = Done (true, f3) /\ fph_set fph_hash f3 0x700 5 = Done (true, f4) /\
  fph_get fph_hash f4 0x700 = Done (Some 5) /\ fph_clr fph_hash f4 0x700 = Done (true, f5) /\
  fph_get fph_hash f5 0x700 = Done (Some 2) /\ fph_clr fph_hash f5 0x700 = Done (true, f6).
Proof. do 6 eexists. repeat (split; [vm_compute; reflexivity|]). vm_compute. reflexivity. Qed.
