(* ===== verification/SosalTree.v ===== *)
(** * Binary tree lists (source/sosal/btreelist.c, include/sosal/btreelist.h)

    The nodes form a doubly linked list in the order of their keys and, at
    the same time, a binary search tree that is built anew from the list
    after every change.  Nodes are kept in a store by address, [NULL] is 0;
    debug output is left out. *)
From S2P Require Import Prelude.

Record btreelistnode_t : Set := mkTreeNode { t_next : Z; t_prev : Z; t_left : Z; t_right : Z }.
Record btreelist_t : Set := mkTree { root : Z; t_head : Z; t_tail : Z; array : list Z; count : Z }.
Abbreviation tree_store := (gmap Z btreelistnode_t).

Definition t_deref (p : Z) (s : tree_store) : outcome btreelistnode_t := if p =? 0 then Undef else of_option (s !! p).
Definition t_set_next (p v : Z) (s : tree_store) : outcome tree_store :=
  n ← t_deref p s; Done (<[p := mkTreeNode v (t_prev n) (t_left n) (t_right n)]> s).
Definition t_set_prev (p v : Z) (s : tree_store) : outcome tree_store :=
  n ← t_deref p s; Done (<[p := mkTreeNode (t_next n) v (t_left n) (t_right n)]> s).
Definition t_set_left (p v : Z) (s : tree_store) : outcome tree_store :=
  n ← t_deref p s; Done (<[p := mkTreeNode (t_next n) (t_prev n) v (t_right n)]> s).
Definition t_set_right (p v : Z) (s : tree_store) : outcome tree_store :=
  n ← t_deref p s; Done (<[p := mkTreeNode (t_next n) (t_prev n) (t_left n) v]> s).
(** [memset(node, 0, sizeof(btreelistnode_t))] *)
Definition t_clear (p : Z) (s : tree_store) : outcome tree_store :=
  _ ← t_deref p s; Done (<[p := mkTreeNode 0 0 0 0]> s).

Definition with_root (r : Z) (b : btreelist_t) : btreelist_t := mkTree r (t_head b) (t_tail b) (array b) (count b).
Definition with_head (p : Z) (b : btreelist_t) : btreelist_t := mkTree (root b) p (t_tail b) (array b) (count b).
Definition with_tail (p : Z) (b : btreelist_t) : btreelist_t := mkTree (root b) (t_head b) p (array b) (count b).
Definition with_array (a : list Z) (b : btreelist_t) : btreelist_t := mkTree (root b) (t_head b) (t_tail b) a (count b).
Definition with_length (n : Z) (b : btreelist_t) : btreelist_t := mkTree (root b) (t_head b) (t_tail b) (array b) n.

Definition btreelist_create : btreelist_t := mkTree 0 0 0 [] 0.

(** ** Building the tree *)

(** The loop that fills the array: [i] is the next index. *)
Fixpoint fill_array (fuel : nat) (node i : Z) (a : list Z) (s : tree_store) : outcome (list Z) :=
  match fuel with
  | O => NoFuel
  | S f =>
      if node =? 0 then Done a
      else a ← of_option (aset a i node); n ← t_deref node s; fill_array f (t_next n) (i + 1) a s
  end.

(** The array is taken to be granted. *)
Definition new_array (b : btreelist_t) (count : Z) (s : tree_store) : outcome btreelist_t :=
  a ← fill_array (S (base.size s)) (t_head b) 0 (replicate (Z.to_nat count) 0) s;
  Done (with_array a b).

Fixpoint btreelist_rebtree (fuel : nat) (b : btreelist_t) (center n : Z) (s : tree_store)
    : outcome (Z * btreelist_t * tree_store) :=
  match fuel with
  | O => NoFuel
  | S f =>
      let left_of node center n b s :=
        '(p, b, s) ← btreelist_rebtree f b center n s; s ← t_set_left node p s; Done (b, s) in
      let right_of node center n b s :=
        '(p, b, s) ← btreelist_rebtree f b center n s; s ← t_set_right node p s; Done (b, s) in
      b ← (if n =? count b then new_array b n s else Done b);
      if center <? 0 then Done (0, b, s)
      else if 0 <? n then
        node ← of_option (aget (array b) center);
        '(b, s) ← (if n =? 1 then s ← t_set_left node 0 s; s ← t_set_right node 0 s; Done (b, s)
                   else if n =? 2 then
                     '(b, s) ← left_of node (center - 1) 1 b s; s ← t_set_right node 0 s; Done (b, s)
                   else if n =? 3 then
                     '(b, s) ← left_of node (center - 1) 1 b s; right_of node (center + 1) 1 b s
                   else if n =? 4 then
                     '(b, s) ← left_of node (center - 1) 2 b s; right_of node (center + 1) 1 b s
                   else
                     let '(ll, rl) := if Z.land n 1 =? 1 then (n / 2, n / 2) else (n / 2, u32 (n / 2 - 1)) in
                     let lc := u32 (center - ll / 2) in
                     let lc := if Z.land ll 1 =? 1 then u32 (lc - 1) else lc in
                     let rc := u32 (center + rl / 2 + 1) in
                     '(b, s) ← left_of node (s32 lc) (s32 ll) b s; right_of node (s32 rc) (s32 rl) b s);
        Done (node, b, s)
      else Done (0, b, s)
  end.
(** The call for the whole list *)
Definition rebuild (b : btreelist_t) (s : tree_store) : outcome (btreelist_t * tree_store) :=
  '(p, b, s) ← btreelist_rebtree (S (Z.to_nat (count b))) b (Z.quot (count b) 2) (count b) s;
  Done (with_root p b, s).

(** ** Operations *)

Section Tree.
(** The callbacks read the data behind the nodes' links. *)
Context (compare : Z -> Z -> Z) (sort : Z -> Z -> Z).

Definition link_after (b : btreelist_t) (node obj : Z) (n : btreelistnode_t) (s : tree_store)
    : outcome (btreelist_t * tree_store) :=
  s ← t_set_next obj (t_next n) s;
  '(b, s) ← (if t_next n =? 0 then Done (with_tail obj b, s) else s ← t_set_prev (t_next n) obj s; Done (b, s));
  s ← t_set_next node obj s;
  s ← t_set_prev obj node s;
  Done (with_length (s32 (count b + 1)) b, s).
Definition link_before (b : btreelist_t) (node obj : Z) (n : btreelistnode_t) (s : tree_store)
    : outcome (btreelist_t * tree_store) :=
  s ← t_set_prev obj (t_prev n) s;
  '(b, s) ← (if t_prev n =? 0 then Done (with_head obj b, s) else s ← t_set_next (t_prev n) obj s; Done (b, s));
  s ← t_set_prev node obj s;
  s ← t_set_next obj node s;
  Done (with_length (s32 (count b + 1)) b, s).

Fixpoint btreelist_insert (fuel : nat) (b : btreelist_t) (node obj : Z) (s : tree_store)
    : outcome (btreelist_t * tree_store) :=
  match fuel with
  | O => NoFuel
  | S f =>
      if (root b =? 0) && (t_head b =? 0) && (t_tail b =? 0) then
        s ← t_clear obj s; Done (mkTree obj obj obj (array b) 1, s)
      else if node =? 0 then Done (b, s)
      else
        let ret := sort node obj in
        if ret =? 0 then Done (b, s)
        else
          n ← t_deref node s;
          if ret =? 1 then
            if negb (t_right n =? 0) then btreelist_insert f b (t_right n) obj s else link_after b node obj n s
          else if ret =? -1 then
            if negb (t_left n =? 0) then btreelist_insert f b (t_left n) obj s else link_before b node obj n s
          else Done (b, s)
  end.
Definition btreelist_add (fuel : nat) (b : btreelist_t) (obj : Z) (s : tree_store) : outcome (btreelist_t * tree_store) :=
  '(b, s) ← btreelist_insert fuel b (root b) obj s;
  rebuild b s.

Fixpoint btree_find (fuel : nat) (node value : Z) (s : tree_store) : outcome Z :=
  match fuel with
  | O => NoFuel
  | S f =>
      if node =? 0 then Done 0
      else
        let ret := compare node value in
        if ret =? 0 then Done node
        else n ← t_deref node s; btree_find f (if ret =? 1 then t_right n else t_left n) value s
  end.
Definition btreelist_find (fuel : nat) (b : btreelist_t) (value : Z) (s : tree_store) : outcome Z :=
  btree_find fuel (root b) value s.

Definition btreelist_remove (fuel : nat) (b : btreelist_t) (value : Z) (s : tree_store)
    : outcome (Z * btreelist_t * tree_store) :=
  node ← btreelist_find fuel b value s;
  if node =? 0 then Done (0, b, s)
  else
    n ← t_deref node s;
    '(b, s) ← (if t_prev n =? 0 then Done (with_head (t_next n) b, s)
               else s ← t_set_next (t_prev n) (t_next n) s; Done (b, s));
    '(b, s) ← (if t_next n =? 0 then Done (with_tail (t_prev n) b, s)
               else s ← t_set_prev (t_next n) (t_prev n) s; Done (b, s));
    let b := with_length (s32 (count b - 1)) b in
    s ← t_clear node s;
    '(b, s) ← rebuild b s;
    Done (node, b, s).
End Tree.

(** The nodes are freed, the tree with them. *)
Fixpoint btreelist_destroy (fuel : nat) (node : Z) (s : tree_store) : outcome tree_store :=
  match fuel with
  | O => NoFuel
  | S f => if node =? 0 then Done s else n ← t_deref node s; btreelist_destroy f (t_next n) (delete node s)
  end.
