(* ===== verification/SosalTreeBuild.v ===== *)
(** * Binary tree lists: links, trees, and building the tree from the list (btreelist_rebtree) *)
From S2P Require Import Prelude SosalList SosalListFacts SosalTree.

Implicit Types (L : store) (s : tree_store) (b : btreelist_t) (xs ys zs : list Z).

(** ** The doubly linked list *)

(** The list links of the nodes, as nodes of a plain list. *)
Definition link_of (n : btreelistnode_t) : node_t := mkListNode (t_next n) (t_prev n) 0.
Definition links s : store := link_of <$> s.

Lemma links_insert p n s : links (<[p := n]> s) = <[p := link_of n]> (links s).
Proof. apply fmap_insert. Qed.
Lemma links_some s p : is_Some (links s !! p) <-> is_Some (s !! p).
Proof. unfold links. rewrite lookup_fmap. apply fmap_is_Some. Qed.
Lemma t_deref_Some p s n : p <> 0 -> s !! p = Some n -> t_deref p s = Done n.
Proof. intros Hp Hn. unfold t_deref. by rewrite (proj2 (Z.eqb_neq p 0)), Hn. Qed.
Lemma links_deref p s n : deref p (links s) = Done n -> exists m, t_deref p s = Done m /\ link_of m = n.
Proof.
  unfold deref, t_deref, links. destruct (p =? 0); [done|]. rewrite lookup_fmap. destruct (s !! p) as [m|]; [|done].
  intros [= <-]. by exists m.
Qed.

Lemma t_set_next_links p v s L : set_next p v (links s) = Done L -> exists s', t_set_next p v s = Done s' /\ links s' = L.
Proof.
  unfold set_next, t_set_next. destruct (deref p (links s)) as [n| |] eqn:Hn; [|done..].
  apply links_deref in Hn as (m & -> & <-). intros [= <-]. eexists. split; [done|]. apply links_insert.
Qed.
Lemma t_set_prev_links p v s L : set_prev p v (links s) = Done L -> exists s', t_set_prev p v s = Done s' /\ links s' = L.
Proof.
  unfold set_prev, t_set_prev. destruct (deref p (links s)) as [n| |] eqn:Hn; [|done..].
  apply links_deref in Hn as (m & -> & <-). intros [= <-]. eexists. split; [done|]. apply links_insert.
Qed.

(** A node comes between two stretches, linked from either side first. *)
Section Weave.
Context (L : store) (ys zs : list Z) (obj : Z).
Context (Hseg : seg L 0 (ys ++ zs) 0) (Hnd : NoDup (ys ++ zs)) (H0 : 0 ∉ ys ++ zs).
Context (Hobj : obj <> 0) (Hni : obj ∉ ys ++ zs) (Hs : is_Some (L !! obj)).

Definition next_from (v : Z) L : outcome store := if negb (final 0 ys =? 0) then set_next (final 0 ys) v L else Done L.
Definition prev_from (v : Z) L : outcome store := if negb (first zs 0 =? 0) then set_prev (first zs 0) v L else Done L.

Lemma ends_next L' v : seg L' 0 ys (first zs 0) -> exists L'', next_from v L' = Done L'' /\ seg L'' 0 ys v /\
  same_data L' L'' /\ same_off ys L' L''.
Proof. pose proof Hnd as (Hny & _ & _)%NoDup_app. intros H. apply (end_next ys 0 (first zs 0)); [done|set_solver|done]. Qed.
Lemma starts_prev L' p v : seg L' p zs 0 -> exists L'', prev_from v L' = Done L'' /\ seg L'' v zs 0 /\
  same_data L' L'' /\ same_off zs L' L''.
Proof. pose proof Hnd as (_ & _ & Hnz)%NoDup_app. intros H. apply (start_prev zs p); [done|set_solver|done]. Qed.

Lemma weave_after : exists L1 L2 L3 L4, set_next obj (first zs 0) L = Done L1 /\ prev_from obj L1 = Done L2 /\
  next_from obj L2 = Done L3 /\ set_prev obj (final 0 ys) L3 = Done L4 /\ seg L4 0 (ys ++ obj :: zs) 0 /\ same_data L L4.
Proof.
  pose proof Hseg as [Hy Hz]%seg_app. pose proof Hnd as (_ & Hdis & _)%NoDup_app.
  destruct (set_links L obj (first zs 0) Hobj Hs) as [(L1 & H1 & Hd1 & Ho1 & Hv1) _].
  destruct (starts_prev L1 (final 0 ys) obj) as (L2 & H2 & Hz2 & Hd2 & Ho2).
  { eapply seg_same_off; [exact Hz|exact Ho1|set_solver]. }
  destruct (ends_next L2 obj) as (L3 & H3 & Hy3 & Hd3 & Ho3).
  { eapply seg_same_off; [|exact Ho2|set_solver]. eapply seg_same_off; [exact Hy|exact Ho1|set_solver]. }
  destruct (set_links L3 obj (final 0 ys) Hobj) as [_ (L4 & H4 & Hd4 & Ho4 & Hv4)].
  { by eapply same_data_is_Some, same_data_is_Some, same_data_is_Some. }
  exists L1, L2, L3, L4. split_and!; [done..| |by do 3 (eapply same_data_trans; [done|])].
  destruct Hs as [n Hn]. apply (seg_middle _ _ _ _ (node_data n)).
  - apply (Hv4 (mkListNode (first zs 0) (prev n) (node_data n))). rewrite Ho3, Ho2 by set_solver. by apply Hv1.
  - eapply seg_same_off; [exact Hy3|exact Ho4|set_solver].
  - eapply seg_same_off; [|exact Ho4|set_solver]. eapply seg_same_off; [exact Hz2|exact Ho3|set_solver].
Qed.
Lemma weave_before : exists L1 L2 L3 L4, set_prev obj (final 0 ys) L = Done L1 /\ next_from obj L1 = Done L2 /\
  prev_from obj L2 = Done L3 /\ set_next obj (first zs 0) L3 = Done L4 /\ seg L4 0 (ys ++ obj :: zs) 0 /\ same_data L L4.
Proof.
  pose proof Hseg as [Hy Hz]%seg_app. pose proof Hnd as (_ & Hdis & _)%NoDup_app.
  destruct (set_links L obj (final 0 ys) Hobj Hs) as [_ (L1 & H1 & Hd1 & Ho1 & Hv1)].
  destruct (ends_next L1 obj) as (L2 & H2 & Hy2 & Hd2 & Ho2).
  { eapply seg_same_off; [exact Hy|exact Ho1|set_solver]. }
  destruct (starts_prev L2 (final 0 ys) obj) as (L3 & H3 & Hz3 & Hd3 & Ho3).
  { eapply seg_same_off; [|exact Ho2|set_solver]. eapply seg_same_off; [exact Hz|exact Ho1|set_solver]. }
  destruct (set_links L3 obj (first zs 0) Hobj) as [(L4 & H4 & Hd4 & Ho4 & Hv4) _].
  { by eapply same_data_is_Some, same_data_is_Some, same_data_is_Some. }
  exists L1, L2, L3, L4. split_and!; [done..| |by do 3 (eapply same_data_trans; [done|])].
  destruct Hs as [n Hn]. apply (seg_middle _ _ _ _ (node_data n)).
  - apply (Hv4 (mkListNode (next n) (final 0 ys) (node_data n))). rewrite Ho3, Ho2 by set_solver. by apply Hv1.
  - eapply seg_same_off; [|exact Ho4|set_solver]. eapply seg_same_off; [exact Hy2|exact Ho3|set_solver].
  - eapply seg_same_off; [exact Hz3|exact Ho4|set_solver].
Qed.
End Weave.

(** ** Trees *)

(** The tree below a node, as a value. *)
Inductive bt : Set := Leaf | Node (l : bt) (x : Z) (r : bt).
Fixpoint inorder (t : bt) : list Z := match t with Leaf => [] | Node l x r => inorder l ++ x :: inorder r end.
Fixpoint depth (t : bt) : nat := match t with Leaf => 0 | Node l _ r => S (Nat.max (depth l) (depth r)) end.
Fixpoint bt_at s (p : Z) (t : bt) : Prop :=
  match t with
  | Leaf => p = 0
  | Node l x r => p = x /\ x <> 0 /\ exists n, s !! x = Some n /\ bt_at s (t_left n) l /\ bt_at s (t_right n) r
  end.

Lemma bt_frame s s' t : forall p, (forall x, x ∈ inorder t -> s' !! x = s !! x) -> bt_at s p t -> bt_at s' p t.
Proof.
  induction t as [|l IHl x r IHr]; intros p Hf; [done|]. intros (Hp & Hx & n & Hn & Hl & Hr). split; [done|]. split; [done|].
  exists n. cbn [inorder] in Hf. split; [rewrite Hf; [done|set_solver]|]. split; [apply IHl|apply IHr]; [|done| |done]; set_solver.
Qed.

(** *** The array of the nodes *)

Lemma fill_array_spec s zs : forall p fuel pre, seg (links s) p zs 0 -> 0 ∉ zs -> (length zs < fuel)%nat ->
  fill_array fuel (first zs 0) (Z.of_nat (length pre)) (pre ++ replicate (length zs) 0) s = Done (pre ++ zs).
Proof.
  induction zs as [|z zs IH]; intros p fuel pre Hs H0 Hf; (destruct fuel as [|f]; [cbn in Hf; lia|]); [done|].
  destruct Hs as [[d Hd] Hs]. apply not_elem_of_cons in H0 as [Hz H0]. cbn [first fill_array length replicate].
  rewrite (proj2 (Z.eqb_neq z 0)) by done. rewrite aset_nat by (rewrite length_app; cbn; lia). cbn [of_option mbind outcome_bind].
  rewrite insert_app_r_alt, Nat.sub_diag by done. change (<[0%nat := z]> (0 :: replicate (length zs) 0)) with (z :: replicate (length zs) 0).
  destruct (links_deref z s (mkListNode (first zs 0) p d)) as (m & -> & Hm); [by apply deref_Some|]. cbn [mbind outcome_bind].
  injection Hm as -> _ _. specialize (IH z f (pre ++ [z]) Hs H0). rewrite length_app, <- !app_assoc in IH. cbn [length app] in IH.
  replace (Z.of_nat (length pre) + 1) with (Z.of_nat (length pre + 1)) by lia. apply IH. cbn [length] in Hf. lia.
Qed.


(** A part of the array, of which nothing is left when it is empty. *)
Definition part (f : nat) b (center n : Z) s : outcome (Z * btreelist_t * tree_store) :=
  if n =? 0 then Done (0, b, s) else btreelist_rebtree f b center n s.

Lemma half_odd n : 0 <= n -> (if Z.land n 1 =? 1 then n - n / 2 * 2 = 1 else n - n / 2 * 2 = 0).
Proof.
  intros Hn. change 1 with (Z.ones 1) at 1. rewrite Z.land_ones by lia. change (2 ^ 1) with 2.
  pose proof (Z.div_mod n 2). pose proof (Z.mod_pos_bound n 2). destruct (Z.eqb_spec (n mod 2) 1); lia.
Qed.

(** Halves of numbers *)
Ltac halves := repeat match goal with
  | |- context [?a - 1 - ?b] => let v := eval vm_compute in (a - 1 - b) in match v with Zpos _ => idtac | Z0 => idtac end; change (a - 1 - b) with v
  | |- context [?a / 2] => let v := eval vm_compute in (a / 2) in match v with Zpos _ => idtac | Z0 => idtac end; change (a / 2) with v
  end.

(** Every case of the [switch] does the same: the node in the middle gets
    the part before it and the part behind it. *)
Lemma rebtree_body f b lo n s : 1 <= n -> 0 <= lo -> lo + n < 2 ^ 31 ->
  btreelist_rebtree (S f) b (lo + n / 2) n s =
  (b ← (if n =? count b then new_array b n s else Done b);
   node ← of_option (aget (array b) (lo + n / 2));
   '(p, b, s) ← part f b (lo + n / 2 / 2) (n / 2) s;
   s ← t_set_left node p s;
   '(q, b, s) ← part f b (lo + n / 2 + 1 + (n - 1 - n / 2) / 2) (n - 1 - n / 2) s;
   s ← t_set_right node q s;
   Done (node, b, s)).
Proof.
  intros Hn Hlo Hb. cbn [btreelist_rebtree]. destruct (if n =? count b then _ else _) as [b0| |]; [|done..].
  clear b. rename b0 into b. cbn [mbind outcome_bind].
  assert (0 <= n / 2) as Hd by (apply Z.div_pos; lia). rewrite (proj2 (Z.ltb_ge _ _)) by lia. rewrite (proj2 (Z.ltb_lt 0 n)) by lia.
  destruct (of_option (aget (array b) (lo + n / 2))) as [node| |]; [|done..]. cbn [mbind outcome_bind]. unfold part.
  pose proof (half_odd n ltac:(lia)) as Hodd. pose proof (half_odd (n / 2) Hd) as Hodd2.
  destruct (Z.eqb_spec n 1) as [->|H1]; [|destruct (Z.eqb_spec n 2) as [->|H2]; [|destruct (Z.eqb_spec n 3) as [->|H3];
    [|destruct (Z.eqb_spec n 4) as [->|H4]]]].
  - halves. cbn. destruct (t_set_left node 0 s) as [s'| |]; [|done..]. cbn. by destruct (t_set_right node 0 s').
  - halves. cbn. replace (lo + 1 - 1) with (lo + 0) by lia. destruct (btreelist_rebtree f b (lo + 0) 1 s) as [[[p b'] s']| |]; [|done..]. cbn.
    destruct (t_set_left node p s') as [s2| |]; [|done..]. cbn. by destruct (t_set_right node 0 s2).
  - halves. cbn. replace (lo + 1 - 1) with (lo + 0) by lia. replace (lo + 1 + 1 + 0) with (lo + 1 + 1) by lia.
    destruct (btreelist_rebtree f b (lo + 0) 1 s) as [[[p b'] s']| |]; [|done..]. cbn.
    destruct (t_set_left node p s') as [s2| |]; [|done..]. cbn.
    destruct (btreelist_rebtree f b' (lo + 1 + 1) 1 s2) as [[[q b2] s3]| |]; [|done..]. cbn. by destruct (t_set_right node q s3).
  - halves. cbn. replace (lo + 2 - 1) with (lo + 1) by lia. replace (lo + 2 + 1 + 0) with (lo + 2 + 1) by lia.
    destruct (btreelist_rebtree f b (lo + 1) 2 s) as [[[p b'] s']| |]; [|done..]. cbn.
    destruct (t_set_left node p s') as [s2| |]; [|done..]. cbn.
    destruct (btreelist_rebtree f b' (lo + 2 + 1) 1 s2) as [[[q b2] s3]| |]; [|done..]. cbn. by destruct (t_set_right node q s3).
  - set (lc := lo + n / 2 / 2). set (rc := lo + n / 2 + 1 + (n - 1 - n / 2) / 2).
    assert (2 * (n / 2) <= n <= 2 * (n / 2) + 1) as Hn2 by (pose proof (Z.div_mod n 2); pose proof (Z.mod_pos_bound n 2); lia).
    assert (0 <= n / 2 / 2 <= n / 2) as Hq by (split; [apply Z.div_pos; lia|apply Z.div_le_upper_bound; lia]).
    assert (0 <= (n - 1 - n / 2) / 2 <= n - 1 - n / 2) as Hr by (split; [apply Z.div_pos; lia|apply Z.div_le_upper_bound; lia]).
    assert (forall X, (let '(ll, rl) := if Z.land n 1 =? 1 then (n / 2, n / 2) else (n / 2, u32 (n / 2 - 1)) in X ll rl) =
      X (n / 2) (n - 1 - n / 2) :> outcome (btreelist_t * tree_store)) as Hll.
    { intros X. revert Hodd. destruct (Z.land n 1 =? 1); intros Hodd; cbv iota in Hodd; cbv iota in Hodd; [by replace (n - 1 - n / 2) with (n / 2) by lia|].
      rewrite u32_small by (unfold is_u32; lia). by replace (n - 1 - n / 2) with (n / 2 - 1) by lia. }
    rewrite Hll. clear Hll.
    replace (s32 (if Z.land (n / 2) 1 =? 1 then u32 (u32 (lo + n / 2 - n / 2 / 2) - 1) else u32 (lo + n / 2 - n / 2 / 2))) with lc.
    2: { rewrite (u32_small (lo + n / 2 - n / 2 / 2)) by (unfold is_u32; lia).
         revert Hodd2. destruct (Z.land (n / 2) 1 =? 1); intros Hodd2; cbv iota in Hodd2; [rewrite u32_small by (unfold is_u32; lia)|]; rewrite s32_small by (unfold is_s32; lia); lia. }
    replace (s32 (u32 (lo + n / 2 + (n - 1 - n / 2) / 2 + 1))) with rc.
    2: { rewrite u32_small by (unfold is_u32; lia). rewrite s32_small by (unfold is_s32; lia). lia. }
    rewrite !s32_small by (unfold is_s32; lia). rewrite !(proj2 (Z.eqb_neq _ 0)) by lia.
    destruct (btreelist_rebtree f b lc (n / 2) s) as [[[p b'] s']| |]; [|done..]. cbn [mbind outcome_bind].
    destruct (t_set_left node p s') as [s2| |]; [|done..]. cbn [mbind outcome_bind].
    destruct (btreelist_rebtree f b' rc (n - 1 - n / 2) s2) as [[[q b2] s3]| |]; [|done..]. cbn [mbind outcome_bind].
    by destruct (t_set_right node q s3).
Qed.

(** ** The tree is the list *)

Lemma t_set_left_spec x v s : x <> 0 -> is_Some (s !! x) -> exists s' n, t_set_left x v s = Done s' /\ links s' = links s /\
  (forall y, y <> x -> s' !! y = s !! y) /\ s !! x = Some n /\
  s' !! x = Some (mkTreeNode (t_next n) (t_prev n) v (t_right n)).
Proof.
  intros Hx [n Hn]. unfold t_set_left. rewrite (t_deref_Some x s n Hx Hn). eexists _, n. split; [done|]. split_and!.
  - rewrite links_insert. apply insert_id. unfold links. by rewrite lookup_fmap, Hn.
  - intros y Hy. by rewrite lookup_insert_ne.
  - done.
  - by rewrite lookup_insert_eq.
Qed.
Lemma t_set_right_spec x v s : x <> 0 -> is_Some (s !! x) -> exists s' n, t_set_right x v s = Done s' /\ links s' = links s /\
  (forall y, y <> x -> s' !! y = s !! y) /\ s !! x = Some n /\
  s' !! x = Some (mkTreeNode (t_next n) (t_prev n) (t_left n) v).
Proof.
  intros Hx [n Hn]. unfold t_set_right. rewrite (t_deref_Some x s n Hx Hn). eexists _, n. split; [done|]. split_and!.
  - rewrite links_insert. apply insert_id. unfold links. by rewrite lookup_fmap, Hn.
  - intros y Hy. by rewrite lookup_insert_ne.
  - done.
  - by rewrite lookup_insert_eq.
Qed.

Definition levels (n : nat) : nat := match n with O => 0 | _ => S (Nat.log2 n) end.
Lemma levels_mono n m : (n <= m)%nat -> (levels n <= levels m)%nat.
Proof. intros H. destruct n, m; cbn [levels]; [lia..|]. apply le_n_S, Nat.log2_le_mono. lia. Qed.
Lemma levels_half n : (1 <= n)%nat -> S (levels (n / 2)) = levels n.
Proof.
  intros Hn. destruct n as [|[|n]]; [lia|done|]. assert (1 <= S (S n) / 2)%nat as Hh by (apply Nat.div_le_lower_bound; lia).
  destruct (S (S n) / 2)%nat as [|k] eqn:Hk; [lia|]. cbn [levels]. f_equal.
  pose proof (Nat.div_mod (S (S n)) 2 ltac:(lia)) as Hd. pose proof (Nat.mod_upper_bound (S (S n)) 2 ltac:(lia)) as Hm. rewrite Hk in Hd.
  destruct (S (S n) mod 2)%nat as [|[|]]; [|..|lia].
  - rewrite Hd, Nat.add_0_r, Nat.log2_double by lia. done.
  - by rewrite Hd, Nat.log2_succ_double by lia.
Qed.

(** The tree [t] at [p] for the [n] nodes from [lo] on; nothing else changes. *)
Record built xs (lo n : nat) s (p : Z) s' (t : bt) : Prop := {
  bu_at : bt_at s' p t;
  bu_order : inorder t = take n (drop lo xs);
  bu_links : links s' = links s;
  bu_frame : forall y, y ∉ take n (drop lo xs) -> s' !! y = s !! y;
  bu_depth : (depth t <= levels n)%nat }.

Section Build.
Context (xs : list Z) (Hnd : NoDup xs) (H0 : 0 ∉ xs) (Hbig : Z.of_nat (length xs) < 2 ^ 31).
Definition have s : Prop := forall x, x ∈ xs -> is_Some (s !! x).

Lemma have_links s s' : links s' = links s -> have s -> have s'.
Proof. intros Hl Hs x Hx. apply links_some. rewrite Hl. by apply links_some, Hs. Qed.
Lemma segment lo n k x : (k < n)%nat -> xs !! (lo + k)%nat = Some x ->
  take n (drop lo xs) = take k (drop lo xs) ++ x :: take (n - 1 - k) (drop (lo + k + 1) xs).
Proof.
  intros Hk Hx. replace n with (k + (n - k))%nat at 1 by lia. rewrite <- take_take_drop, drop_drop. f_equal.
  rewrite (drop_S xs x (lo + k)) by done. replace (n - k)%nat with (S (n - 1 - k)) by lia. cbn [take].
  by replace (S (lo + k)) with (lo + k + 1)%nat by lia.
Qed.

(** A node with the parts before and behind it. *)
Lemma build_node f b s (lo n : nat) : (1 <= n)%nat -> (lo + n <= length xs)%nat -> array b = xs -> have s ->
  (forall (lo' n' : nat) s, (n' < n)%nat -> (lo' + n' <= length xs)%nat -> have s -> exists p s' t,
    part f b (Z.of_nat lo' + Z.of_nat n' / 2) (Z.of_nat n') s = Done (p, b, s') /\ built xs lo' n' s p s' t) ->
  exists p s' t,
  (node ← of_option (aget (array b) (Z.of_nat lo + Z.of_nat n / 2));
   '(p, b, s) ← part f b (Z.of_nat lo + Z.of_nat n / 2 / 2) (Z.of_nat n / 2) s;
   s ← t_set_left node p s;
   '(q, b, s) ← part f b (Z.of_nat lo + Z.of_nat n / 2 + 1 + (Z.of_nat n - 1 - Z.of_nat n / 2) / 2) (Z.of_nat n - 1 - Z.of_nat n / 2) s;
   s ← t_set_right node q s;
   Done (node, b, s)) = Done (p, b, s') /\ built xs lo n s p s' t.
Proof.
  intros Hn Hlo Ha Hs IH. set (k := (n / 2)%nat). assert (Z.of_nat n / 2 = Z.of_nat k) as Hk by (unfold k; by rewrite Nat2Z.inj_div).
  assert (k < n)%nat as Hkn by (apply Nat.div_lt; lia). rewrite Hk.
  replace (Z.of_nat n - 1 - Z.of_nat k) with (Z.of_nat (n - 1 - k)) by lia.
  replace (Z.of_nat lo + Z.of_nat k + 1) with (Z.of_nat (lo + k + 1)) by lia.
  rewrite <- Nat2Z.inj_add, aget_nat, Ha. destruct (lookup_lt_is_Some_2 xs (lo + k)) as (x & Hx); [lia|]. rewrite Hx. cbn [of_option mbind outcome_bind].
  pose proof (segment lo n k x Hkn Hx) as Hseg. set (ls := take k (drop lo xs)) in *. set (rs := take (n - 1 - k) (drop (lo + k + 1) xs)) in *.
  assert (NoDup (ls ++ x :: rs)) as (Hndl & Hdis & [Hxr Hndr]%NoDup_cons)%NoDup_app.
  { rewrite <- Hseg. apply (sublist_NoDup _ xs Hnd). etransitivity; [apply sublist_take|apply sublist_drop]. }
  assert (x ∈ xs) as Hxin by (by eapply list_elem_of_lookup_2). assert (x <> 0) as Hx0 by (by intros ->).
  destruct (IH lo k s) as (p & s1 & tl & -> & [Hatl Hol Hll Hfl Hdl]); [done|lia|done|]. cbn [mbind outcome_bind].
  assert (have s1) as Hs1 by (by eapply have_links).
  destruct (t_set_left_spec x p s1 Hx0 (Hs1 x Hxin)) as (s2 & m & -> & Hl2 & Hf2 & Hm & Hx2). cbn [mbind outcome_bind].
  assert (have s2) as Hs2 by (by eapply have_links; [|exact Hs1]).
  destruct (IH (lo + k + 1)%nat (n - 1 - k)%nat s2) as (q & s3 & tr & -> & [Hatr Hor Hlr Hfr Hdr]); [lia|lia|done|]. cbn [mbind outcome_bind].
  assert (have s3) as Hs3 by (by eapply have_links; [|exact Hs2]).
  destruct (t_set_right_spec x q s3 Hx0 (Hs3 x Hxin)) as (s4 & m3 & -> & Hl4 & Hf4 & Hm3 & Hx4). cbn [mbind outcome_bind].
  fold ls in Hol, Hfl. fold rs in Hor, Hfr. rewrite Hfr, Hx2 in Hm3 by done. injection Hm3 as <-. cbn [t_next t_prev t_left] in Hx4.
  exists x, s4, (Node tl x tr). split; [done|]. split.
  - split; [done|]. split; [done|]. eexists. split; [exact Hx4|]. cbn [t_left t_right]. split.
    + apply (bt_frame s1); [|done]. rewrite Hol. intros y Hy. assert (y <> x) by set_solver.
      rewrite Hf4, Hfr, Hf2 by (done || set_solver). done.
    + apply (bt_frame s3); [|done]. rewrite Hor. intros y Hy. apply Hf4. by intros ->.
  - cbn [inorder]. by rewrite Hol, Hor.
  - congruence.
  - rewrite Hseg. intros y Hy. rewrite Hf4, Hfr, Hf2, Hfl by set_solver. done.
  - cbn [depth]. rewrite <- (levels_half n) by done. fold k. apply le_n_S, Nat.max_lub; [done|].
    etransitivity; [exact Hdr|]. apply levels_mono. unfold k. pose proof (Nat.div_mod n 2). pose proof (Nat.mod_upper_bound n 2). lia.
Qed.

Lemma rebtree_part n : forall fuel (lo : nat) b s, (n <= fuel)%nat -> (lo + n <= length xs)%nat -> array b = xs ->
  Z.of_nat n < count b -> have s -> exists p s' t,
  part fuel b (Z.of_nat lo + Z.of_nat n / 2) (Z.of_nat n) s = Done (p, b, s') /\ built xs lo n s p s' t.
Proof.
  induction (lt_wf n) as [n _ IH]. intros fuel lo b s Hf Hlo Ha Hc Hs. unfold part. destruct (Z.eqb_spec (Z.of_nat n) 0) as [Hz|Hz].
  - assert (n = 0%nat) as -> by lia. exists 0, s, Leaf. by split.
  - destruct fuel as [|f]; [lia|]. rewrite rebtree_body by lia. rewrite (proj2 (Z.eqb_neq _ (count b))) by lia. cbn [mbind outcome_bind].
    apply build_node; [lia|done..|]. intros lo' n' s' Hn' Hlo' Hs'. apply IH; [done|lia|done|done|lia|done].
Qed.

(** The call for the whole list *)
Lemma rebuild_spec b s : seg (links s) 0 xs 0 -> t_head b = first xs 0 -> count b = Z.of_nat (length xs) -> have s ->
  exists p a s' t, rebuild b s = Done (with_root p (with_array a b), s') /\ bt_at s' p t /\ inorder t = xs /\
    links s' = links s /\ (forall y, y ∉ xs -> s' !! y = s !! y) /\ (depth t <= levels (length xs))%nat.
Proof.
  intros Hseg Hh Hc Hs. unfold rebuild. rewrite Hc, Z.quot_div_nonneg by lia.
  assert (new_array b (Z.of_nat (length xs)) s = Done (with_array xs b)) as Hnew.
  { unfold new_array. rewrite Hh, Nat2Z.id. rewrite (fill_array_spec s xs 0 _ []); [done|done|done|].
    assert (length xs <= base.size s)%nat; [|lia].
    rewrite <- size_dom, <- (size_list_to_set (C:=gset Z)) by done. apply subseteq_size.
    intros x Hx%elem_of_list_to_set. by apply elem_of_dom, Hs. }
  replace (Z.of_nat (length xs) / 2) with (Z.of_nat 0 + Z.of_nat (length xs) / 2) by lia.
  destruct (decide (xs = [])) as [->|Hne].
  - cbn [length Z.of_nat Z.to_nat btreelist_rebtree] in *. rewrite Hc. cbn [Z.eqb]. rewrite Hnew.
    exists 0, [], s, Leaf. by split_and!.
  - assert (1 <= length xs)%nat as Hl by (destruct xs; [done|cbn; lia]).
    rewrite rebtree_body by lia. rewrite Hc, Z.eqb_refl, Hnew. cbn [mbind outcome_bind].
    destruct (build_node (Z.to_nat (Z.of_nat (length xs))) (with_array xs b) s 0 (length xs)) as (p & s' & t & -> & [Hat Ho Hlk Hfr Hd]); [done|lia|done|done| |].
    { intros lo' n' s' Hn' Hlo' Hs'. apply rebtree_part; [lia|done|done|cbn [count with_array]; lia|done]. }
    rewrite drop_0, take_ge in Ho, Hfr by lia. exists p, xs, s', t. by split_and!.
Qed.
End Build.
