(* ===== verification/SosalTreeProperties.v ===== *)
(** * The operations of a binary tree list and their properties

    What each call does to a tree in the shape of its list; then programs:
    calls on a tree are calls on a sorted set. *)
From Stdlib Require Import Sorted.
From S2P Require Import Prelude SosalList SosalListFacts SosalTree SosalTreeBuild.

Implicit Types (s : tree_store) (b : btreelist_t) (xs ys zs : list Z).

Section Ops.
(** The data of a node, by which it is sorted *)
Context (key : Z -> Z).

(** The callbacks, as those of the unit test in btreelist.c *)
Definition value_compare (node value : Z) : Z := if key node =? value then 0 else if key node <? value then 1 else -1.
Definition value_sort (node obj : Z) : Z := if key node =? key obj then 0 else if key obj <? key node then -1 else 1.

Lemma value_compare_cases x v : (value_compare x v = 0 /\ key x = v) \/ (value_compare x v = 1 /\ key x < v) \/
  (value_compare x v = -1 /\ v < key x).
Proof. unfold value_compare. destruct (Z.eqb_spec (key x) v); [auto|]. destruct (Z.ltb_spec (key x) v); [auto|]. right. right. split; [done|lia]. Qed.
Lemma value_sort_cases x y : (value_sort x y = 0 /\ key x = key y) \/ (value_sort x y = 1 /\ key x < key y) \/
  (value_sort x y = -1 /\ key y < key x).
Proof. unfold value_sort. destruct (Z.eqb_spec (key x) (key y)); [auto|]. destruct (Z.ltb_spec (key y) (key x)); [auto|]. right. left. split; [done|lia]. Qed.

Definition key_lt (x y : Z) : Prop := key x < key y.
(** The tree is searched for the nodes [xs] and their list is [xs]. *)
Record tree_ok b s xs : Prop := {
  ok_tree : exists t, bt_at s (root b) t /\ inorder t = xs /\ (depth t <= levels (length xs))%nat;
  ok_seg : seg (links s) 0 xs 0;
  ok_head : t_head b = first xs 0;
  ok_tail : t_tail b = final 0 xs;
  ok_count : count b = Z.of_nat (length xs);
  ok_nodup : NoDup xs;
  ok_null : 0 ∉ xs;
  ok_sorted : StronglySorted key_lt xs }.

Lemma sorted_app xs ys : StronglySorted key_lt (xs ++ ys) <->
  StronglySorted key_lt xs /\ StronglySorted key_lt ys /\ forall x y, x ∈ xs -> y ∈ ys -> key x < key y.
Proof.
  induction xs as [|x xs IH]; cbn [app].
  - split; [intros H; split; [constructor|split; [done|by intros ? ? ?%elem_of_nil]]|by intros (_ & ? & _)].
  - split.
    + intros [Hs Hf]%StronglySorted_inv. apply IH in Hs as (Hx & Hy & Hxy). rewrite Forall_app in Hf. destruct Hf as [Hf1 Hf2].
      split; [by constructor|]. split; [done|]. intros u v [->|Hu]%elem_of_cons Hv; [|by apply Hxy].
      rewrite Forall_forall in Hf2. by apply Hf2.
    + intros ([Hx Hf]%StronglySorted_inv & Hy & Hxy). constructor.
      * apply IH. split; [done|]. split; [done|]. intros u v Hu Hv. apply Hxy; [by right|done].
      * apply Forall_app. split; [done|]. apply Forall_forall. intros v Hv. apply Hxy; [by left|done].
Qed.

(** ** Finding *)

Lemma btree_find_spec s value t : forall p fuel, bt_at s p t -> StronglySorted key_lt (inorder t) -> (depth t < fuel)%nat ->
  exists q, btree_find value_compare fuel p value s = Done q /\
  ((q = 0 /\ forall x, x ∈ inorder t -> key x <> value) \/ (q ∈ inorder t /\ q <> 0 /\ key q = value)).
Proof.
  induction t as [|l IHl x r IHr]; intros p fuel Hat Hs Hf; (destruct fuel as [|f]; [lia|]); cbn [btree_find].
  - cbn in Hat. subst p. exists 0. split; [done|]. left. split; [done|]. by intros ? ?%elem_of_nil.
  - destruct Hat as (-> & Hx & n & Hn & Hl & Hr). cbn [inorder] in *. apply sorted_app in Hs as (Hsl & Hsx & Hlx).
    pose proof Hsx as [Hsr Hxr]%StronglySorted_inv. rewrite Forall_forall in Hxr. unfold key_lt in Hxr.
    rewrite (proj2 (Z.eqb_neq x 0)) by done. cbn [depth] in Hf. cbv zeta.
    destruct (value_compare_cases x value) as [[-> Hk]|[[-> Hlt]|[-> Hlt]]].
    + exists x. split; [done|]. right. split; [set_solver|done].
    + cbn [Z.eqb Pos.eqb]. rewrite (t_deref_Some x s n Hx Hn). cbn [mbind outcome_bind].
      destruct (IHr (t_right n) f Hr Hsr) as (q & -> & Hq); [lia|]. exists q. split; [done|].
      destruct Hq as [[-> Hno]|[Hin Hq]]; [left|right; split; [set_solver|done]]. split; [done|].
      intros y [Hy|[->|Hy]%elem_of_cons]%elem_of_app; [|lia|by apply Hno]. specialize (Hlx y x Hy ltac:(by left)). lia.
    + cbn [Z.eqb Pos.eqb]. rewrite (t_deref_Some x s n Hx Hn). cbn [mbind outcome_bind].
      destruct (IHl (t_left n) f Hl Hsl) as (q & -> & Hq); [lia|]. exists q. split; [done|].
      destruct Hq as [[-> Hno]|[Hin Hq]]; [left|right; split; [set_solver|done]]. split; [done|].
      intros y [Hy|[->|Hy]%elem_of_cons]%elem_of_app; [by apply Hno|lia|]. specialize (Hxr y Hy). lia.
Qed.

(** ** Adding *)

(** [obj] is in the list between [ys] and [zs], not yet in the tree. *)
Record linked b s (obj : Z) ys zs b' s' : Prop := {
  ln_seg : seg (links s') 0 (ys ++ obj :: zs) 0;
  ln_same : same_data (links s) (links s');
  ln_head : t_head b' = first (ys ++ obj :: zs) 0;
  ln_tail : t_tail b' = final 0 (ys ++ obj :: zs);
  ln_count : count b' = s32 (count b + 1) }.

Section Add.
Context (b : btreelist_t) (s : tree_store) (ys zs : list Z) (obj : Z) (n : btreelistnode_t).
Context (Hseg : seg (links s) 0 (ys ++ zs) 0) (Hnd : NoDup (ys ++ zs)) (H0 : 0 ∉ ys ++ zs).
Context (Hh : t_head b = first (ys ++ zs) 0) (Ht : t_tail b = final 0 (ys ++ zs)).
Context (Hobj : obj <> 0) (Hni : obj ∉ ys ++ zs) (Hs : is_Some (s !! obj)).

Lemma final_any p q xs : xs <> [] -> final p xs = final q xs.
Proof. intros H. destruct xs as [|x xs]; [done|]. by rewrite !final_cons. Qed.

Lemma link_after_spec x : ys <> [] -> final 0 ys = x -> t_next n = first zs 0 ->
  exists b' s', link_after b x obj n s = Done (b', s') /\ linked b s obj ys zs b' s'.
Proof.
  intros Hy Hx Hn. apply links_some in Hs. destruct (weave_after (links s) ys zs obj Hseg Hnd H0 Hobj Hni Hs) as (L1 & L2 & L3 & L4 & E1 & E2 & E3 & E4 & Hw & Hsd).
  assert (x <> 0) as Hx0 by (intros ->; assert (final 0 ys ∈ ys) as Hin by (by apply final_elem); rewrite Hx in Hin; set_solver).
  unfold link_after. rewrite Hn. apply t_set_next_links in E1 as (s1 & -> & <-). cbn [mbind outcome_bind]. unfold prev_from in E2.
  assert (exists b2 s2, (if first zs 0 =? 0 then Done (with_tail obj b, s1) else s ← t_set_prev (first zs 0) obj s1; Done (b, s)) = Done (b2, s2) /\
    links s2 = L2 /\ t_head b2 = t_head b /\ count b2 = count b /\ t_tail b2 = final 0 (ys ++ obj :: zs)) as (b2 & s2 & -> & <- & Hh2 & Hc2 & Ht2).
  { destruct (Z.eqb_spec (first zs 0) 0) as [Hz|Hz]; cbn [negb] in E2.
    - apply Done_inj in E2. exists (with_tail obj b), s1. assert (zs = []) as -> by (apply first_null; [set_solver|done]).
      split_and!; [done..|]. by rewrite final_snoc.
    - apply t_set_prev_links in E2 as (s2 & -> & <-). exists b, s2. split_and!; [done..|]. rewrite Ht, !final_app, final_cons.
      apply final_any. by intros ->. }
  cbn [mbind outcome_bind]. unfold next_from in E3. rewrite Hx, (proj2 (Z.eqb_neq x 0)) in E3 by done. cbn [negb] in E3.
  apply t_set_next_links in E3 as (s3 & -> & <-). cbn [mbind outcome_bind]. rewrite Hx in E4.
  apply t_set_prev_links in E4 as (s4 & -> & <-). cbn [mbind outcome_bind]. rewrite Hc2. eexists _, s4. split; [done|]. split; cbn; try done.
  rewrite Hh2, Hh. by destruct ys.
Qed.
Lemma link_before_spec x : zs <> [] -> first zs 0 = x -> t_prev n = final 0 ys ->
  exists b' s', link_before b x obj n s = Done (b', s') /\ linked b s obj ys zs b' s'.
Proof.
  intros Hy Hx Hn. apply links_some in Hs. destruct (weave_before (links s) ys zs obj Hseg Hnd H0 Hobj Hni Hs) as (L1 & L2 & L3 & L4 & E1 & E2 & E3 & E4 & Hw & Hsd).
  assert (x <> 0) as Hx0 by (intros ->; destruct zs; [done|cbn in Hx; set_solver]).
  unfold link_before. rewrite Hn. apply t_set_prev_links in E1 as (s1 & -> & <-). cbn [mbind outcome_bind]. unfold next_from in E2.
  assert (exists b2 s2, (if final 0 ys =? 0 then Done (with_head obj b, s1) else s ← t_set_next (final 0 ys) obj s1; Done (b, s)) = Done (b2, s2) /\
    links s2 = L2 /\ t_tail b2 = t_tail b /\ count b2 = count b /\ t_head b2 = first (ys ++ obj :: zs) 0) as (b2 & s2 & -> & <- & Hh2 & Hc2 & Ht2).
  { destruct (Z.eqb_spec (final 0 ys) 0) as [Hz|Hz]; cbn [negb] in E2.
    - apply Done_inj in E2. exists (with_head obj b), s1. assert (ys = []) as -> by (apply final_null; [set_solver|done]). by split_and!.
    - apply t_set_next_links in E2 as (s2 & -> & <-). exists b, s2. split_and!; [done..|]. rewrite Hh. by destruct ys. }
  cbn [mbind outcome_bind]. unfold prev_from in E3. rewrite Hx, (proj2 (Z.eqb_neq x 0)) in E3 by done. cbn [negb] in E3.
  apply t_set_prev_links in E3 as (s3 & -> & <-). cbn [mbind outcome_bind]. rewrite Hx in E4.
  apply t_set_next_links in E4 as (s4 & -> & <-). cbn [mbind outcome_bind]. rewrite Hc2. eexists _, s4. split; [done|]. split; cbn; try done.
  rewrite Hh2, Ht, !final_app, final_cons. by apply final_any.
Qed.
End Add.

Lemma bt_leaf s p t : bt_at s p t -> (p = 0 <-> t = Leaf).
Proof. destruct t as [|l x r]; cbn; [done|]. intros (-> & Hx & _). by split. Qed.
Lemma seg_have s xs : seg (links s) 0 xs 0 -> have xs s.
Proof.
  intros Hs x (ys & zs & ->)%list_elem_of_split. apply seg_split in Hs as (_ & _ & d & Hd). apply links_some. by rewrite Hd.
Qed.
Lemma link_node s ys x zs : seg (links s) 0 (ys ++ x :: zs) 0 -> exists n, s !! x = Some n /\ t_next n = first zs 0 /\ t_prev n = final 0 ys.
Proof.
  intros (_ & _ & d & Hd)%seg_split. unfold links in Hd. rewrite lookup_fmap in Hd. destruct (s !! x) as [n|]; [|done].
  injection Hd as H1 H2 _. by exists n.
Qed.

(** After any change of the list the tree is made for it again. *)
Lemma rebuild_ok b s xs : seg (links s) 0 xs 0 -> t_head b = first xs 0 -> t_tail b = final 0 xs ->
  count b = Z.of_nat (length xs) -> NoDup xs -> 0 ∉ xs -> StronglySorted key_lt xs -> Z.of_nat (length xs) < 2 ^ 31 ->
  exists b' s', rebuild b s = Done (b', s') /\ tree_ok b' s' xs /\ links s' = links s.
Proof.
  intros Hseg Hh Ht Hc Hnd H0 Hs Hb. destruct (rebuild_spec xs Hnd H0 Hb b s Hseg Hh Hc (seg_have _ _ Hseg)) as (p & a & s' & t & -> & Hat & Hin & Hl & _ & Hd).
  eexists _, s'. split; [done|]. split; [|done]. split; cbn; try done; [by exists t|by rewrite Hl].
Qed.

Section Insert.
Context (b : btreelist_t) (s : tree_store) (xs : list Z) (obj : Z).
Context (Hseg : seg (links s) 0 xs 0) (Hnd : NoDup xs) (H0 : 0 ∉ xs).
Context (Hh : t_head b = first xs 0) (Ht : t_tail b = final 0 xs) (Hroot : root b <> 0).
Context (Hobj : obj <> 0) (Hs : is_Some (s !! obj)).

Definition inserted (r : outcome (btreelist_t * tree_store)) : Prop :=
  (exists x, x ∈ xs /\ key x = key obj /\ r = Done (b, s)) \/
  (exists ys zs b' s', xs = ys ++ zs /\ (forall y, y ∈ ys -> key y < key obj) /\ (forall z, z ∈ zs -> key obj < key z) /\
     r = Done (b', s') /\ linked b s obj ys zs b' s').

Lemma tree_insert_spec t : forall p fuel ys zs, bt_at s p t -> t <> Leaf -> (depth t <= fuel)%nat -> xs = ys ++ inorder t ++ zs ->
  (forall y, y ∈ ys -> key y < key obj) -> (forall z, z ∈ zs -> key obj < key z) -> StronglySorted key_lt xs ->
  inserted (btreelist_insert value_sort fuel b p obj s).
Proof.
  induction t as [|l IHl x r IHr]; intros p fuel ys zs Hat Hne Hf Hxs Hys Hzs Hsort; [done|].
  destruct Hat as (-> & Hx & n & Hn & Hl & Hr). destruct fuel as [|f]; [cbn in Hf; lia|]. cbn [depth inorder] in *.
  assert (xs = (ys ++ inorder l) ++ x :: inorder r ++ zs) as Hxs2 by (by rewrite Hxs, <- !app_assoc).
  destruct (link_node s (ys ++ inorder l) x (inorder r ++ zs)) as (n' & Hn' & Hnext & Hprev); [by rewrite <- Hxs2|].
  rewrite Hn in Hn'. injection Hn' as <-. pose proof Hsort as Hsort2. rewrite Hxs2 in Hsort2.
  apply sorted_app in Hsort2 as (Hs1 & [Hs2 Hxr]%StronglySorted_inv & Hlx). rewrite Forall_forall in Hxr. unfold key_lt in Hxr.
  cbn [btreelist_insert]. rewrite (proj2 (Z.eqb_neq (root b) 0)) by done. cbn [andb]. rewrite (proj2 (Z.eqb_neq x 0)) by done. cbv zeta.
  destruct (value_sort_cases x obj) as [[-> Hk]|[[-> Hk]|[-> Hk]]].
  - left. exists x. split; [rewrite Hxs2; set_solver|done].
  - cbn [Z.eqb Pos.eqb]. rewrite (t_deref_Some x s n Hx Hn). cbn [mbind outcome_bind].
    assert (forall y, y ∈ (ys ++ inorder l) ++ [x] -> key y < key obj) as Hlt.
    { intros y [Hy| ->%list_elem_of_singleton]%elem_of_app; [|done]. specialize (Hlx y x Hy ltac:(by left)). lia. }
    destruct (Z.eqb_spec (t_right n) 0) as [Hz|Hz]; cbn [negb].
    + rewrite Hz in Hr. apply (bt_leaf s 0) in Hr as [Hr _]. rewrite Hr in Hnext, Hxs2 by done. cbn [inorder app] in Hnext, Hxs2.
      assert (xs = ((ys ++ inorder l) ++ [x]) ++ zs) as Hxs3 by (by rewrite Hxs2, <- !app_assoc). right. exists ((ys ++ inorder l) ++ [x]), zs.
      rewrite Hxs3 in Hseg, Hnd, H0, Hh, Ht. destruct (link_after_spec b s ((ys ++ inorder l) ++ [x]) zs obj n Hseg Hnd H0 Hh Ht Hobj) with (x := x) as (b' & s' & He & Hlk).
      * intros [Hin|Hin]%elem_of_app; [specialize (Hlt _ Hin)|specialize (Hzs _ Hin)]; lia.
      * done.
      * by destruct (ys ++ inorder l).
      * by rewrite final_snoc.
      * done.
      * exists b', s'. by split_and!.
    + apply (IHr _ _ ((ys ++ inorder l) ++ [x]) zs); [done| |lia|by rewrite Hxs2, <- !app_assoc|done|done|done].
      by rewrite <- (bt_leaf s (t_right n)).
  - cbn [Z.eqb Pos.eqb]. rewrite (t_deref_Some x s n Hx Hn). cbn [mbind outcome_bind].
    assert (forall z, z ∈ x :: inorder r ++ zs -> key obj < key z) as Hgt.
    { intros z [->|Hin]%elem_of_cons; [done|]. specialize (Hxr z Hin). lia. }
    destruct (Z.eqb_spec (t_left n) 0) as [Hz|Hz]; cbn [negb].
    + rewrite Hz in Hl. apply (bt_leaf s 0) in Hl as [Hl _]. rewrite Hl in Hprev, Hxs2 by done. cbn [inorder] in Hprev, Hxs2. rewrite app_nil_r in Hprev, Hxs2.
      right. exists ys, (x :: inorder r ++ zs).
      rewrite Hxs2 in Hseg, Hnd, H0, Hh, Ht. destruct (link_before_spec b s ys (x :: inorder r ++ zs) obj n Hseg Hnd H0 Hh Ht Hobj) with (x := x) as (b' & s' & He & Hlk).
      * intros [Hin|Hin]%elem_of_app; [specialize (Hys _ Hin)|specialize (Hgt _ Hin)]; lia.
      * done.
      * done.
      * done.
      * done.
      * exists b', s'. by split_and!.
    + apply (IHl _ _ ys (x :: inorder r ++ zs)); [done| |lia|by rewrite Hxs2, <- !app_assoc|done|done|done].
      by rewrite <- (bt_leaf s (t_left n)).
Qed.
End Insert.

(** ** The operations *)

Lemma same_have s s' x : same_data (links s) (links s') -> is_Some (s !! x) -> is_Some (s' !! x).
Proof. intros Hd Hs. apply links_some. eapply same_data_is_Some; [exact Hd|]. by apply links_some. Qed.

Lemma add_spec fuel b s xs obj : tree_ok b s xs -> obj <> 0 -> is_Some (s !! obj) -> Z.of_nat (length xs) + 1 < 2 ^ 31 ->
  (levels (length xs) < fuel)%nat -> exists b' s', btreelist_add value_sort fuel b obj s = Done (b', s') /\
  (forall x, is_Some (s !! x) -> is_Some (s' !! x)) /\
  (((exists x, x ∈ xs /\ key x = key obj) /\ tree_ok b' s' xs) \/
   (exists ys zs, xs = ys ++ zs /\ (forall x, x ∈ xs -> key x <> key obj) /\ tree_ok b' s' (ys ++ obj :: zs))).
Proof.
  intros [(t & Hat & Hin & Hd) Hseg Hh Ht Hc Hnd H0 Hsort] Hobj Hs Hb Hf. unfold btreelist_add.
  destruct t as [|l x r].
  - cbn in Hat, Hin. subst xs. destruct fuel as [|f]; [cbn in Hf; lia|]. cbn [btreelist_insert]. rewrite Hat, Hh, Ht. cbn [final first last default Z.eqb andb].
    destruct Hs as [n Hn]. unfold t_clear. rewrite (t_deref_Some obj s n Hobj Hn). cbn [mbind outcome_bind].
    destruct (rebuild_ok (mkTree obj obj obj (array b) 1) (<[obj := mkTreeNode 0 0 0 0]> s) [obj]) as (b' & s' & -> & Hok & Hl); try done.
    { split; [|done]. exists 0. by rewrite links_insert, lookup_insert_eq. }
    { apply NoDup_singleton. } { set_solver. } { by repeat constructor. }
    exists b', s'. split; [done|]. split.
    + intros y Hy. apply links_some. rewrite Hl, links_insert. destruct (decide (y = obj)) as [->|Hne]; [by rewrite lookup_insert_eq; eexists|].
      rewrite lookup_insert_ne by done. by apply links_some.
    + right. exists [], []. split; [done|]. split; [by intros ? ?%elem_of_nil|done].
  - assert (root b <> 0) as Hroot by (destruct Hat as (-> & ? & _); done).
    destruct (tree_insert_spec b s xs obj Hseg Hnd H0 Hh Ht Hroot Hobj Hs (Node l x r) (root b) fuel [] []) as
      [(y & Hy & Hk & ->)|(ys & zs & b1 & s1 & Hxs & Hlt & Hgt & -> & [Hseg1 Hsame Hh1 Ht1 Hc1])];
      [done|done|lia|by rewrite Hin, app_nil_r|by intros ? ?%elem_of_nil|by intros ? ?%elem_of_nil|done| |]; cbn [mbind outcome_bind].
    + destruct (rebuild_ok b s xs) as (b' & s' & -> & Hok & Hl); [done..|lia|]. exists b', s'. split; [done|]. split.
      * intros z Hz. apply links_some. rewrite Hl. by apply links_some.
      * left. split; [by exists y|done].
    + assert (obj ∉ xs) as Hni by (rewrite Hxs; intros [H|H]%elem_of_app; [specialize (Hlt _ H)|specialize (Hgt _ H)]; lia).
      destruct (rebuild_ok b1 s1 (ys ++ obj :: zs)) as (b' & s' & -> & Hok & Hl); try done.
      * rewrite Hc1, Hc, s32_small by (unfold is_s32; lia). rewrite Hxs, !length_app. cbn [length]. lia.
      * rewrite Hxs in Hnd, Hni. apply NoDup_app in Hnd as (? & ? & ?). apply NoDup_app. split_and!; [done| |apply NoDup_cons; set_solver]. set_solver.
      * rewrite Hxs in H0. set_solver.
      * rewrite Hxs in Hsort. apply sorted_app in Hsort as (Hs1 & Hs2 & Hs12). apply sorted_app. split_and!; [done| |].
        -- constructor; [done|]. by apply Forall_forall.
        -- intros u w Hu [->|Hw]%elem_of_cons; [by apply Hlt|by apply Hs12].
      * rewrite length_app. cbn [length]. rewrite Hxs, length_app in Hb. lia.
      * exists b', s'. split; [done|]. split.
        -- intros z Hz. apply links_some. rewrite Hl. by apply links_some, (same_have s).
        -- right. exists ys, zs. split; [done|]. split; [|done]. intros y. rewrite Hxs.
           intros [H|H]%elem_of_app; [specialize (Hlt _ H)|specialize (Hgt _ H)]; lia.
Qed.

Lemma tree_find_spec fuel b s xs value : tree_ok b s xs -> (levels (length xs) < fuel)%nat ->
  exists q, btreelist_find value_compare fuel b value s = Done q /\
  ((q = 0 /\ forall x, x ∈ xs -> key x <> value) \/ (q ∈ xs /\ q <> 0 /\ key q = value)).
Proof.
  intros [(t & Hat & Hin & Hd) _ _ _ _ _ _ Hsort] Hf. rewrite <- Hin in Hsort. unfold btreelist_find.
  destruct (btree_find_spec s value t (root b) fuel Hat Hsort) as (q & -> & Hq); [lia|]. exists q. by rewrite Hin in Hq.
Qed.

Lemma remove_spec fuel b s xs value : tree_ok b s xs -> Z.of_nat (length xs) < 2 ^ 31 -> (levels (length xs) < fuel)%nat ->
  exists q b' s', btreelist_remove value_compare fuel b value s = Done (q, b', s') /\
  (forall x, is_Some (s !! x) -> is_Some (s' !! x)) /\
  ((q = 0 /\ (forall x, x ∈ xs -> key x <> value) /\ tree_ok b' s' xs) \/
   (exists ys zs, xs = ys ++ q :: zs /\ q <> 0 /\ key q = value /\ tree_ok b' s' (ys ++ zs))).
Proof.
  intros Hok Hb Hf. destruct (tree_find_spec fuel b s xs value Hok Hf) as (q & Hq & Hcase). unfold btreelist_remove. rewrite Hq. cbn [mbind outcome_bind].
  destruct Hcase as [[-> Hno]|(Hin & Hq0 & Hk)]; [exists 0, b, s; split; [done|]; split; [done|left; done]|].
  destruct Hok as [_ Hseg Hh Ht Hc Hnd H0 Hsort]. apply list_elem_of_split in Hin as (ys & zs & ->).
  rewrite (proj2 (Z.eqb_neq q 0)) by done. destruct (link_node s ys q zs Hseg) as (n & Hn & Hnext & Hprev).
  rewrite (t_deref_Some q s n Hq0 Hn). cbn [mbind outcome_bind]. rewrite Hnext, Hprev.
  apply NoDup_app in Hnd as (Hny & Hdis & [Hqz Hnz]%NoDup_cons). pose proof Hseg as (Hys & Hzs & _)%seg_split.
  destruct (end_next ys 0 q (first zs 0) (links s) Hny) as (L1 & E1 & Hys1 & Hd1 & Ho1); [set_solver|done|].
  assert (exists b1 s1, (if final 0 ys =? 0 then Done (with_head (first zs 0) b, s) else s ← t_set_next (final 0 ys) (first zs 0) s; Done (b, s)) = Done (b1, s1) /\
    links s1 = L1 /\ t_tail b1 = t_tail b /\ count b1 = count b /\ t_head b1 = first (ys ++ zs) 0) as (b1 & s1 & -> & <- & Ht1 & Hc1 & Hh1).
  { destruct (Z.eqb_spec (final 0 ys) 0) as [Hz|Hz]; cbn [negb] in E1.
    - apply Done_inj in E1. exists (with_head (first zs 0) b), s. assert (ys = []) as -> by (apply final_null; [set_solver|done]). by split_and!.
    - apply t_set_next_links in E1 as (s1 & -> & <-). exists b, s1. split_and!; [done..|]. rewrite Hh. by destruct ys. }
  cbn [mbind outcome_bind].
  destruct (start_prev zs q (final 0 ys) (links s1) Hnz) as (L2 & E2 & Hzs2 & Hd2 & Ho2); [set_solver|by eapply seg_same_off; [exact Hzs|exact Ho1|set_solver]|].
  assert (exists b2 s2, (if first zs 0 =? 0 then Done (with_tail (final 0 ys) b1, s1) else s ← t_set_prev (first zs 0) (final 0 ys) s1; Done (b1, s)) = Done (b2, s2) /\
    links s2 = L2 /\ t_head b2 = t_head b1 /\ count b2 = count b1 /\ t_tail b2 = final 0 (ys ++ zs)) as (b2 & s2 & -> & <- & Hh2 & Hc2 & Ht2).
  { destruct (Z.eqb_spec (first zs 0) 0) as [Hz|Hz]; cbn [negb] in E2.
    - apply Done_inj in E2. exists (with_tail (final 0 ys) b1), s1. assert (zs = []) as -> by (apply first_null; [set_solver|done]).
      split_and!; [done..|]. by rewrite app_nil_r.
    - apply t_set_prev_links in E2 as (s2 & -> & <-). exists b1, s2. split_and!; [done..|]. rewrite Ht1, Ht, !final_app, final_cons.
      apply final_any. by intros ->. }
  cbn [mbind outcome_bind]. assert (is_Some (s2 !! q)) as [n2 Hn2] by (apply (same_have s1), (same_have s); [done|done|by eexists]).
  unfold t_clear. rewrite (t_deref_Some q s2 n2 Hq0 Hn2). cbn [mbind outcome_bind].
  assert (q ∉ ys) as Hqy by set_solver. assert (same_off [q] (links s2) (links (<[q := mkTreeNode 0 0 0 0]> s2))) as Ho3.
  { intros y Hy. rewrite links_insert, lookup_insert_ne; [done|set_solver]. }
  destruct (rebuild_ok (with_length (s32 (count b2 - 1)) b2) (<[q := mkTreeNode 0 0 0 0]> s2) (ys ++ zs)) as (b' & s' & -> & Hok & Hl).
  - apply seg_app. split; (eapply seg_same_off; [|exact Ho3|set_solver]); [|done]. eapply seg_same_off; [exact Hys1|exact Ho2|set_solver].
  - cbn [t_head with_length]. congruence.
  - done.
  - cbn [count with_length]. rewrite Hc2, Hc1, Hc, !length_app in *. cbn [length] in *. rewrite s32_small by (unfold is_s32; lia). lia.
  - apply NoDup_app. split_and!; [done|set_solver|done].
  - set_solver.
  - apply sorted_app in Hsort as (Hs1 & [Hs2 _]%StronglySorted_inv & Hs12). apply sorted_app. split_and!; [done|done|].
    intros u w Hu Hw. apply Hs12; [done|by right].
  - rewrite length_app in *. cbn [length] in Hb. lia.
  - exists q, b', s'. split; [done|]. split.
    + intros y Hy. apply links_some. rewrite Hl, links_insert. destruct (decide (y = q)) as [->|Hne]; [by rewrite lookup_insert_eq; eexists|].
      rewrite lookup_insert_ne by done. by apply links_some, (same_have s1), (same_have s).
    + right. by exists ys, zs.
Qed.

Lemma create_ok s : tree_ok btreelist_create s [].
Proof. split; try done; [by exists Leaf|apply NoDup_nil_2|by intros ?%elem_of_nil|constructor]. Qed.
End Ops.

Implicit Types mp : gmap Z Z.

(** A search looks at [2 ^ 31] nodes by looking at 31 of them. *)
Definition search_fuel : nat := 32.
Lemma levels_fuel n : Z.of_nat n < 2 ^ 31 -> (levels n < search_fuel)%nat.
Proof.
  intros Hn. unfold search_fuel. destruct n as [|n]; [cbn; lia|]. cbn [levels].
  assert (Nat.log2 (S n) < 31)%nat; [|lia]. apply Nat.log2_lt_pow2; [lia|]. apply Nat2Z.inj_lt. rewrite Nat2Z.inj_pow. done.
Qed.

Inductive tree_call : Set := TreeAdd (obj : Z) | TreeFind (value : Z) | TreeRemove (value : Z).

Section Calls.
Context (key : Z -> Z).

(** The set of nodes by key; an answer is a node or 0. *)
Definition set_call (c : tree_call) mp : Z * gmap Z Z :=
  match c with
  | TreeAdd obj => (0, match mp !! key obj with Some _ => mp | None => <[key obj := obj]> mp end)
  | TreeFind v => (default 0 (mp !! v), mp)
  | TreeRemove v => (default 0 (mp !! v), delete v mp)
  end.
Fixpoint set_calls (cs : list tree_call) mp : list Z * gmap Z Z :=
  match cs with
  | [] => ([], mp)
  | c :: cs => let '(a, mp) := set_call c mp in let '(rest, mp) := set_calls cs mp in (a :: rest, mp)
  end.

Definition run_tree_call (c : tree_call) b s : outcome (Z * btreelist_t * tree_store) :=
  match c with
  | TreeAdd obj => '(b, s) ← btreelist_add (value_sort key) search_fuel b obj s; Done (0, b, s)
  | TreeFind v => q ← btreelist_find (value_compare key) search_fuel b v s; Done (q, b, s)
  | TreeRemove v => btreelist_remove (value_compare key) search_fuel b v s
  end.
Fixpoint run_tree_calls (cs : list tree_call) b s : outcome (list Z * btreelist_t * tree_store) :=
  match cs with
  | [] => Done ([], b, s)
  | c :: cs => '(a, b, s) ← run_tree_call c b s; '(rest, b, s) ← run_tree_calls cs b s; Done (a :: rest, b, s)
  end.

(** Nodes that are added exist. *)
Definition exists_in s (c : tree_call) : Prop :=
  match c with TreeAdd obj => obj <> 0 /\ is_Some (s !! obj) | _ => True end.
Definition same_set xs mp : Prop := forall k v, mp !! k = Some v <-> v ∈ xs /\ key v = k.

Lemma sorted_key_inj xs x y : StronglySorted (key_lt key) xs -> x ∈ xs -> y ∈ xs -> key x = key y -> x = y.
Proof.
  induction xs as [|z xs IH]; [by intros _ ?%elem_of_nil|]. intros [Hs Hz]%StronglySorted_inv. rewrite Forall_forall in Hz. unfold key_lt in Hz.
  intros [->|Hx]%elem_of_cons [->|Hy]%elem_of_cons Hk; [done|specialize (Hz _ Hy)|specialize (Hz _ Hx)|by apply IH]; lia.
Qed.
Lemma same_set_answer xs mp q v : same_set xs mp ->
  (q = 0 /\ (forall x, x ∈ xs -> key x <> v)) \/ (q ∈ xs /\ q <> 0 /\ key q = v) -> q = default 0 (mp !! v).
Proof.
  intros Hm [[-> Hno]|(Hin & _ & Hk)].
  - destruct (mp !! v) as [x|] eqn:Hx; [|done]. apply Hm in Hx as [Hx Hk]. by destruct (Hno x).
  - by rewrite (proj2 (Hm v q) (conj Hin Hk)).
Qed.

Lemma run_tree_call_spec c b s xs mp : tree_ok key b s xs -> same_set xs mp -> exists_in s c -> Z.of_nat (length xs) + 1 < 2 ^ 31 ->
  exists b' s' xs', run_tree_call c b s = Done ((set_call c mp).1, b', s') /\ tree_ok key b' s' xs' /\
  same_set xs' (set_call c mp).2 /\ (length xs' <= S (length xs))%nat /\ (forall x, is_Some (s !! x) -> is_Some (s' !! x)).
Proof.
  intros Hok Hm Hc Hb. pose proof (levels_fuel (length xs) ltac:(lia)) as Hf. destruct c as [obj|v|v]; cbn [run_tree_call set_call fst snd].
  - destruct Hc as [Ho Hs]. destruct (add_spec key search_fuel b s xs obj Hok Ho Hs Hb Hf) as (b' & s' & -> & Hd & Hcase).
    cbn [mbind outcome_bind]. destruct Hcase as [[(x & Hx & Hk) Hok']|(ys & zs & -> & Hno & Hok')].
    + exists b', s', xs. rewrite (proj2 (Hm (key obj) x) (conj Hx Hk)). by split_and!; [..|lia|].
    + exists b', s', (ys ++ obj :: zs). assert (mp !! key obj = None) as Hn.
      { apply eq_None_not_Some. intros [x Hx]. apply Hm in Hx as [Hx Hk]. by destruct (Hno x). }
      rewrite Hn. split; [done|]. split; [done|]. split; [|split; [rewrite !length_app; cbn; lia|done]].
      intros k v. destruct (decide (k = key obj)) as [->|Hne].
      * rewrite lookup_insert_eq. split; [intros [= <-]; split; [set_solver|done]|]. intros [Hin Hk].
        assert (v = obj) as ->; [|done]. destruct (decide (v = obj)) as [|Hv]; [done|]. destruct (Hno v); [set_solver|done].
      * rewrite lookup_insert_ne by done. etransitivity; [apply Hm|]. split; intros [Hin Hk]; (split; [|done]); [set_solver|].
        apply elem_of_app in Hin as [Hin|[->|Hin]%elem_of_cons]; [set_solver|done|set_solver].
  - destruct (tree_find_spec key search_fuel b s xs v Hok Hf) as (q & -> & Hq). exists b, s, xs. cbn [mbind outcome_bind].
    rewrite (same_set_answer xs mp q v Hm Hq). by split_and!; [..|lia|].
  - destruct (remove_spec key search_fuel b s xs v Hok ltac:(lia) Hf) as (q & b' & s' & -> & Hd & Hcase).
    destruct Hcase as [(-> & Hno & Hok')|(ys & zs & -> & Hq & Hk & Hok')].
    + exists b', s', xs. rewrite <- (same_set_answer xs mp 0 v Hm) by (by left). split; [done|]. split; [done|]. split; [|by split; [lia|]].
      assert (mp !! v = None) as Hn by (apply eq_None_not_Some; intros [x Hx]; apply Hm in Hx as [Hx Hk]; by destruct (Hno x)).
      by rewrite delete_id.
    + exists b', s', (ys ++ zs). rewrite <- (same_set_answer _ mp q v Hm) by (right; split; [set_solver|done]).
      split; [done|]. split; [done|]. split; [|split; [rewrite !length_app; cbn; lia|done]].
      pose proof (ok_sorted _ _ _ _ Hok) as Hs. pose proof (ok_nodup _ _ _ _ Hok) as Hnd.
      intros k x. destruct (decide (k = v)) as [->|Hne].
      * rewrite lookup_delete_eq. split; [done|]. intros [Hx Hkx]. exfalso.
        assert (x = q) as -> by (apply (sorted_key_inj _ x q Hs); [set_solver|set_solver|congruence]).
        apply NoDup_app in Hnd as (_ & Hdis & [Hqz _]%NoDup_cons). set_solver.
      * rewrite lookup_delete_ne by done. etransitivity; [apply Hm|]. split; intros [Hx Hkx]; (split; [|done]); [|set_solver].
        apply elem_of_app in Hx as [Hx|[->|Hx]%elem_of_cons]; [set_solver|congruence|set_solver].
Qed.

Lemma run_tree_calls_spec cs : forall b s xs mp, tree_ok key b s xs -> same_set xs mp -> Forall (exists_in s) cs ->
  Z.of_nat (length xs + length cs) + 1 < 2 ^ 31 -> exists b' s' xs',
  run_tree_calls cs b s = Done ((set_calls cs mp).1, b', s') /\ tree_ok key b' s' xs' /\ same_set xs' (set_calls cs mp).2.
Proof.
  induction cs as [|c cs IH]; intros b s xs mp Hok Hm Hc Hb; [by exists b, s, xs|]. apply Forall_cons in Hc as [Hc Hcs]. cbn [length] in Hb.
  cbn [run_tree_calls set_calls]. destruct (run_tree_call_spec c b s xs mp Hok Hm Hc) as (b1 & s1 & xs1 & -> & Hok1 & Hm1 & Hl & Hd); [lia|].
  cbn [mbind outcome_bind]. destruct (set_call c mp) as [a mp1]. cbn [fst snd] in *.
  destruct (IH b1 s1 xs1 mp1 Hok1 Hm1) as (b2 & s2 & xs2 & -> & Hok2 & Hm2); [|lia|].
  - eapply Forall_impl; [exact Hcs|]. intros [obj|v|v]; cbn; [|done..]. intros [Ho Hs]. split; [done|by apply Hd].
  - cbn [mbind outcome_bind]. exists b2, s2, xs2. by destruct (set_calls cs mp1).
Qed.
End Calls.

(** C7: a binary tree list is a sorted set of nodes: from an empty tree any
    sequence of additions, searches and removals runs to its end and answers
    what a finite map from keys to nodes answers (an added node whose key is
    there already is ignored); after every call the nodes of the list are
    those of the map in the order of their keys, and the tree built from it
    has them in that order and is so flat that 32 comparisons are enough for
    any search. *)
Theorem tree_implements_sorted_set (key : Z -> Z) cs (s : tree_store) :
  Forall (exists_in s) cs -> Z.of_nat (length cs) + 1 < 2 ^ 31 ->
  exists b' s' xs, run_tree_calls key cs btreelist_create s = Done ((set_calls key cs ∅).1, b', s') /\
    tree_ok key b' s' xs /\ same_set key xs (set_calls key cs ∅).2.
Proof.
  intros Hc Hb. apply (run_tree_calls_spec key cs btreelist_create s [] ∅); [apply create_ok| |done|done].
  intros k v. rewrite lookup_empty. split; [done|]. by intros [?%elem_of_nil _].
Qed.

Definition sample_tree_store : tree_store := list_to_map ((fun p => (p, mkTreeNode 0 0 0 0)) <$> [1; 2; 3; 4; 5; 6; 7]).
Definition sample_tree_calls : list tree_call :=
  [TreeAdd 4; TreeAdd 2; TreeAdd 7; TreeAdd 1; TreeAdd 6; TreeAdd 3; TreeFind 30; TreeRemove 40; TreeFind 40; TreeAdd 5; TreeRemove 10; TreeFind 70].
Example tree_implements_sorted_set_witness : exists b' s',
  run_tree_calls (fun x => 10 * x) sample_tree_calls btreelist_create sample_tree_store =
    Done ([0; 0; 0; 0; 0; 0; 3; 4; 0; 0; 1; 7], b', s').
Proof.
  destruct (tree_implements_sorted_set (fun x => 10 * x) sample_tree_calls sample_tree_store) as (b' & s' & xs & He & _).
  - repeat constructor; vm_compute; discriminate || (eexists; reflexivity).
  - reflexivity.
  - exists b', s'. rewrite He. vm_compute. reflexivity.
Defined.
