(* ===== verification/Rpc.v ===== *)
(** * Remote procedure calls (source/dvp/dvp_kgraph/dvp_rpc_omaprpc.c)

    The build for the PandaBoard, which has graph managers on remote cores:
    ARM, pointers of 32 bits, [DVP_USE_OMAPRPC], memory from the DRM buffer
    objects of OMAP ([DVP_USE_BO]) and shared memory.  What the caches and the
    driver do is recorded as events; a range of memory that is registered is a
    node of a binary tree list and its handle an entry of a pointer hash. *)
From S2P Require Import Prelude DvpTypes Image SosalTree SosalTreeProperties SosalFph.

Open Scope dvp_scope.

(** ** Memory types of this build (include/dvp/dvp_types.h) *)
Module Bo.
Definition DVP_MTYPE_MPUCACHED_VIRTUAL : Z := 0.
Definition DVP_MTYPE_MPUCACHED_1DTILED : Z := 1.
Definition DVP_MTYPE_MPUNONCACHED_1DTILED : Z := 2.
Definition DVP_MTYPE_MPUNONCACHED_2DTILED : Z := 3.
Definition DVP_MTYPE_DISPLAY_2DTILED : Z := 4.
Definition DVP_MTYPE_GRALLOC_2DTILED : Z := 5.
Definition DVP_MTYPE_MPUCACHED_VIRTUAL_SHARED : Z := 6.
Definition DVP_MTYPE_KERNELGRAPH : Z := DVP_MTYPE_MPUNONCACHED_1DTILED.
End Bo.

(** ** Registered memory *)

Definition DVP_RPC_BLOCK_SIZE : Z := 64.
Definition DVP_RPC_NUM_BLOCKS : Z := 64.

(** [hndl_hash], [ranges], and behind the nodes of the tree their links and
    the first and the last address plus one of their range *)
Record DVP_RPC_t : Type := mkRpc {
  hndl_hash : fph_t; ranges : btreelist_t; range_nodes : tree_store; range_data : gmap Z (Z * Z) }.
Definition DVP_Memory_Range_t (d : gmap Z (Z * Z)) (p : Z) : Z * Z := default (0, 0) (d !! p).

Definition dvp_mem_range_sort (d : gmap Z (Z * Z)) (node obj : Z) : Z :=
  let r := DVP_Memory_Range_t d node in
  let s := DVP_Memory_Range_t d obj in
  if s.2 <=? r.1 then -1 else if r.2 <=? s.1 then 1 else 0.
Definition dvp_mem_range_compare (d : gmap Z (Z * Z)) (node value : Z) : Z :=
  let r := DVP_Memory_Range_t d node in
  if (r.1 <=? value) && (value <? r.2) then 0 else if value <? r.1 then -1 else 1.

Definition dvp_rpc_init : DVP_RPC_t :=
  mkRpc (fph_init DVP_RPC_NUM_BLOCKS DVP_RPC_BLOCK_SIZE) btreelist_create ∅ ∅.

Definition associated_types : list Z :=
  [ Bo.DVP_MTYPE_MPUCACHED_1DTILED; Bo.DVP_MTYPE_MPUNONCACHED_1DTILED; Bo.DVP_MTYPE_MPUNONCACHED_2DTILED;
    Bo.DVP_MTYPE_MPUCACHED_VIRTUAL_SHARED ].

(** Removes a range by an address in it and frees its node. *)
Definition forget_range (rpc : DVP_RPC_t) (ptr : Z) : outcome DVP_RPC_t :=
  '(mrange, b, s) ← btreelist_remove (dvp_mem_range_compare (range_data rpc)) search_fuel (ranges rpc) ptr (range_nodes rpc);
  Done (mkRpc (hndl_hash rpc) b (delete mrange s) (delete mrange (range_data rpc))).

(** A new node of the tree for [ptr, ptr + size) *)
Definition add_range (rpc : DVP_RPC_t) (mrange ptr size : Z) : outcome DVP_RPC_t :=
  let d := <[mrange := (ptr, ptr ⊞ size)]> (range_data rpc) in
  '(b, s) ← btreelist_add (dvp_mem_range_sort d) search_fuel (ranges rpc) mrange
    (<[mrange := mkTreeNode 0 0 0 0]> (range_nodes rpc));
  Done (mkRpc (hndl_hash rpc) b s d).

(** [mrange] is what [calloc] answers; the result is [DVP_TRUE] also when the
    hash has no room. *)
Definition dvp_rpc_associate (rpc : DVP_RPC_t) (mrange ptr handle size mtype : Z) : outcome (bool * DVP_RPC_t) :=
  if (ptr =? 0) || (size =? 0) then Done (false, rpc)
  else if one_of mtype associated_types then
    if mrange =? 0 then Undef
    else
      rpc ← add_range rpc mrange ptr size;
      '(ok, h) ← fph_set fph_hash (hndl_hash rpc) ptr handle;
      let rpc := mkRpc h (ranges rpc) (range_nodes rpc) (range_data rpc) in
      if ok : bool then Done (true, rpc) else rpc ← forget_range rpc ptr; Done (true, rpc)
  else Done (false, rpc).

(** The handle is set to [NULL] in the hash, its slot is kept. The answer's
    second part is what [*pHandle] becomes. *)
Definition dvp_rpc_dissociate (rpc : DVP_RPC_t) (ptr size mtype : Z) : outcome (bool * option Z * DVP_RPC_t) :=
  if (ptr =? 0) || (size =? 0) then Done (false, None, rpc)
  else if one_of mtype associated_types then
    found ← fph_get fph_hash (hndl_hash rpc) ptr;
    match found with
    | Some handle =>
        '(_, h) ← fph_set fph_hash (hndl_hash rpc) ptr 0;
        rpc ← forget_range (mkRpc h (ranges rpc) (range_nodes rpc) (range_data rpc)) ptr;
        Done (true, Some handle, rpc)
    | None => Done (false, Some 0, rpc)
    end
  else Done (false, None, rpc).

Section Rpc.
(** [dmabuf_fd] of the [alloc_omap_bo_t]s, which handles point to *)
Context (dmabuf_fd : gmap Z Z).

Definition dvp_rpc_get_handle (rpc : DVP_RPC_t) (ptr : Z) : outcome Z :=
  if ptr =? 0 then Done 0
  else
    mrange ← btreelist_find (dvp_mem_range_compare (range_data rpc)) search_fuel (ranges rpc) ptr (range_nodes rpc);
    let ptr := if mrange =? 0 then ptr else (DVP_Memory_Range_t (range_data rpc) mrange).1 in
    found ← fph_get fph_hash (hndl_hash rpc) ptr;
    match found with
    | Some handle => of_option (dmabuf_fd !! handle)
    | None => Done 0
    end.

(** ** Parameters on their way to the remote core *)

Definition DVP_MAX_TRANSLATIONS : Z := 1024.
Record DVP_RPC_PointerTranslation_t : Set := mkTranslation {
  tr_index : Z; tr_offset : Z; tr_base : Z; tr_cacheops : bool; tr_reserved : Z }.

(** What the caches are told, by address, size and memory type. *)
Inductive rpc_event : Set :=
  | Flush (a n mtype : Z)
  | Invalidate (a n mtype : Z).

(** The image and buffer structures in a node, with their flags *)
Record rpc_image : Set := mkRpcImage { rimg : DVP_Image_t; skipCacheOpInval : bool; skipCacheOpFlush : bool }.
Record rpc_buffer : Set := mkRpcBuffer { rb_pData : Z; rb_numBytes : Z; rb_memType : Z; rb_skipInval : bool; rb_skipFlush : bool }.

Definition rpc_log : Type := list rpc_event * list DVP_RPC_PointerTranslation_t.
Definition dvp_rpc_flush (a n mtype : Z) (l : rpc_log) : rpc_log := (l.1 ++ [Flush a n mtype], l.2).
Definition dvp_rpc_invalidate (a n mtype : Z) (l : rpc_log) : rpc_log := (l.1 ++ [Invalidate a n mtype], l.2).
(** The array has [DVP_MAX_TRANSLATIONS] elements, its length is not checked. *)
Definition add_translation (t : DVP_RPC_PointerTranslation_t) (l : rpc_log) : outcome rpc_log :=
  if Z.of_nat (length l.2) <? DVP_MAX_TRANSLATIONS then Done (l.1, l.2 ++ [t]) else Undef.

Definition uncached_image_types : list Z :=
  [ Bo.DVP_MTYPE_DISPLAY_2DTILED; Bo.DVP_MTYPE_MPUNONCACHED_1DTILED; Bo.DVP_MTYPE_MPUNONCACHED_2DTILED ].
(** Images of these types are named to the driver by a file descriptor. *)
Definition fd_types : list Z :=
  [ Bo.DVP_MTYPE_MPUCACHED_1DTILED; Bo.DVP_MTYPE_MPUNONCACHED_1DTILED; Bo.DVP_MTYPE_MPUNONCACHED_2DTILED;
    Bo.DVP_MTYPE_DISPLAY_2DTILED ].

(** [addr] is the address of the structure, [base] that of the node array. *)
Definition prepare_plane (rpc : DVP_RPC_t) (pImage : rpc_image) (addr : Z) (cacheOp : bool) (base : Z)
    (l : rpc_log) (p : Z) : outcome rpc_log :=
  let i := rimg pImage in
  pBuffer_p ← of_option (aget (pBuffer i) p);
  let cached := negb (one_of (memType i) uncached_image_types) in
  let l := if cached && cacheOp && negb (skipCacheOpFlush pImage)
           then dvp_rpc_flush pBuffer_p (DVP_Image_PlaneSize i p) (memType i) l else l in
  found ← fph_get fph_hash (hndl_hash rpc) pBuffer_p;
  let handle := default 0 found in
  reserved ← (if one_of (memType i) fd_types then of_option (dmabuf_fd !! handle) else Done handle);
  add_translation (mkTranslation 0 (u32 (addr + 4 * p - base)) pBuffer_p cacheOp reserved) l.
Definition dvp_rpc_prepare_image (rpc : DVP_RPC_t) (pImage : rpc_image) (addr : Z) (cacheOp : bool) (base : Z) (l : rpc_log)
    : outcome rpc_log :=
  ofold (prepare_plane rpc pImage addr cacheOp base) (seqZ 0 (planes (rimg pImage))) l.

(** The pointers stay as they are: [dvp_rpc_mem_xlate_back] is the identity. *)
Definition dvp_rpc_return_image (pImage : rpc_image) (cacheOp : bool) (l : rpc_log) : outcome rpc_log :=
  let i := rimg pImage in
  let cached := negb (one_of (memType i) uncached_image_types) in
  ofold (fun l p =>
    pBuffer_p ← of_option (aget (pBuffer i) p);
    Done (if cached && cacheOp && negb (skipCacheOpInval pImage)
          then dvp_rpc_invalidate pBuffer_p (DVP_Image_PlaneSize i p) (memType i) l else l)) (seqZ 0 (planes i)) l.

Definition cached_buffer (b : rpc_buffer) : bool := negb (rb_memType b =? Bo.DVP_MTYPE_MPUNONCACHED_1DTILED).
Definition dvp_rpc_prepare_buffer (rpc : DVP_RPC_t) (b : rpc_buffer) (addr : Z) (cacheOp : bool) (base : Z) (l : rpc_log)
    : outcome rpc_log :=
  let l := if cached_buffer b && cacheOp && negb (rb_skipFlush b) then dvp_rpc_flush (rb_pData b) (rb_numBytes b) (rb_memType b) l else l in
  found ← fph_get fph_hash (hndl_hash rpc) (rb_pData b);
  reserved ← of_option (dmabuf_fd !! default 0 found);
  add_translation (mkTranslation 0 (u32 (addr - base)) (rb_pData b) cacheOp reserved) l.
Definition dvp_rpc_return_buffer (b : rpc_buffer) (cacheOp : bool) (l : rpc_log) : rpc_log :=
  if cached_buffer b && cacheOp && negb (rb_skipInval b) then dvp_rpc_invalidate (rb_pData b) (rb_numBytes b) (rb_memType b) l else l.

(** ** The call (include/linux/omap_rpc.h) *)

Definition OMAPRPC_MAX_PARAMETERS : Z := 10.
Definition OMAPRPC_PARAM_TYPE_ATOMIC : Z := 1.
Definition OMAPRPC_PARAM_TYPE_PTR : Z := 2.
Definition OMAPRPC_PARAM_TYPE_STRUCT : Z := 3.
Record omaprpc_param_t : Set := mkOmapParam { op_type : Z; op_size : Z; op_data : Z; op_base : Z; op_reserved : Z }.
Record omaprpc_call_function_t : Set := mkCallFunction {
  func_index : Z; call_params : list omaprpc_param_t; call_translations : list DVP_RPC_PointerTranslation_t }.

(** [data] is the value the parameter's pointer leads to. *)
Record DVP_RPC_Parameter_t : Set := mkParameter { rp_size : Z; rp_data : Z; rp_reserved : Z }.

Definition omap_param (rpc : DVP_RPC_t) (p : DVP_RPC_Parameter_t) : outcome omaprpc_param_t :=
  if negb (rp_reserved p =? 0) then
    r ← btreelist_find (dvp_mem_range_compare (range_data rpc)) search_fuel (ranges rpc) (rp_data p) (range_nodes rpc);
    Done (mkOmapParam OMAPRPC_PARAM_TYPE_PTR (rp_size p) (rp_data p)
            (if r =? 0 then rp_data p else (DVP_Memory_Range_t (range_data rpc) r).1) (rp_reserved p))
  else if rp_size p =? 1 then Done (mkOmapParam OMAPRPC_PARAM_TYPE_ATOMIC 1 (u8 (rp_data p)) 0 0)
  else if rp_size p =? 2 then Done (mkOmapParam OMAPRPC_PARAM_TYPE_ATOMIC 2 (u16 (rp_data p)) 0 0)
  else if rp_size p =? 4 then Done (mkOmapParam OMAPRPC_PARAM_TYPE_ATOMIC 4 (u32 (rp_data p)) 0 0)
  else Done (mkOmapParam OMAPRPC_PARAM_TYPE_STRUCT (rp_size p) 0 0 0).

Fixpoint omap_params (rpc : DVP_RPC_t) (ps : list DVP_RPC_Parameter_t) : outcome (list omaprpc_param_t) :=
  match ps with
  | [] => Done []
  | p :: ps => q ← omap_param rpc p; qs ← omap_params rpc ps; Done (q :: qs)
  end.

(** Every translation is printed with the word it is about, which is read
    through the parameter it belongs to. *)
Definition readable (qs : list omaprpc_param_t) (t : DVP_RPC_PointerTranslation_t) : bool :=
  if aget qs (tr_index t) is Some q then negb (op_data q =? 0) else false.

Section Execute.
(** The driver: [omaprpc_call], [None] when it answers [false_e] *)
Context {W : Type} (omaprpc_call : omaprpc_call_function_t -> W -> outcome (option Z * W)).

(** [granted]: the structure for the call was allocated. *)
Definition dvp_rpc_remote_execute (granted : bool) (rpc : DVP_RPC_t) (cliIndex : Z) (params : list DVP_RPC_Parameter_t)
    (trans : list DVP_RPC_PointerTranslation_t) (w : W) : outcome (Z * W) :=
  if OMAPRPC_MAX_PARAMETERS <? Z.of_nat (length params) then Done (-1, w)
  else if granted then
    qs ← omap_params rpc params;
    if forallb (readable qs) trans then
      '(returned, w) ← omaprpc_call (mkCallFunction cliIndex qs trans) w;
      Done (match returned with Some status => s32 status | None => -1 end, w)
    else Undef
  else Done (0, w).
End Execute.
End Rpc.
