(* ===== verification/RpcRegistry.v ===== *)
(** * The registry of memory behind remote procedure calls

    [dvp_rpc_associate], [dvp_rpc_dissociate] and [dvp_rpc_get_handle] keep a
    map from the bases of disjoint ranges to their lengths and handles: a tree
    of ranges, which is a tree of bases as long as ranges are disjoint, and a
    hash of handles. *)
From S2P Require Import Prelude Image SosalListFacts SosalFph SosalTree SosalTreeBuild SosalTreeProperties Rpc.

Implicit Types (d : gmap Z (Z * Z)) (R : gmap Z (Z * Z)) (s : tree_store) (b : btreelist_t).

(** ** Trees with callbacks that agree *)

Lemma btree_find_ext cmp cmp' s v v' : (forall p, cmp p v = cmp' p v') ->
  forall fuel p, btree_find cmp fuel p v s = btree_find cmp' fuel p v' s.
Proof.
  intros H fuel. induction fuel as [|f IH]; intros p; [done|]. cbn [btree_find]. rewrite H.
  destruct (p =? 0); [done|]. destruct (cmp' p v' =? 0); [done|]. destruct (t_deref p s); [|done..]. apply IH.
Qed.
Lemma btreelist_remove_ext cmp cmp' fuel b s v v' : (forall p, cmp p v = cmp' p v') ->
  btreelist_remove cmp fuel b v s = btreelist_remove cmp' fuel b v' s.
Proof. intros H. unfold btreelist_remove, btreelist_find. by rewrite (btree_find_ext cmp cmp' s v v' H). Qed.
Lemma btreelist_insert_ext srt srt' b obj s : (forall p, srt p obj = srt' p obj) ->
  forall fuel p, btreelist_insert srt fuel b p obj s = btreelist_insert srt' fuel b p obj s.
Proof.
  intros H fuel. induction fuel as [|f IH]; intros p; [done|]. cbn [btreelist_insert]. rewrite H.
  destruct (_ && _); [done|]. destruct (p =? 0); [done|]. destruct (srt' p obj =? 0); [done|].
  destruct (t_deref p s) as [n| |]; [|done..]. cbn [mbind outcome_bind]. by rewrite !IH.
Qed.
Lemma btreelist_add_ext srt srt' fuel b obj s : (forall p, srt p obj = srt' p obj) ->
  btreelist_add srt fuel b obj s = btreelist_add srt' fuel b obj s.
Proof. intros H. unfold btreelist_add. by rewrite (btreelist_insert_ext srt srt' b obj s H). Qed.

(** ** Disjoint ranges are ordered by their bases *)

Definition base_of d (p : Z) : Z := (DVP_Memory_Range_t d p).1.
Definition proper_range (r : Z * Z) : Prop := 0 < r.1 < r.2.
Definition separate (r q : Z * Z) : Prop := r.2 <= q.1 \/ q.2 <= r.1.
Record ranges_ok d : Prop := {
  ranges_proper p r : d !! p = Some r -> proper_range r;
  ranges_separate p q r t : d !! p = Some r -> d !! q = Some t -> p <> q -> separate r t }.
Definition contains (r : Z * Z) (v : Z) : Prop := r.1 <= v < r.2.

Lemma mem_range d p r : d !! p = Some r -> DVP_Memory_Range_t d p = r.
Proof. intros H. unfold DVP_Memory_Range_t. by rewrite H. Qed.
Lemma no_mem_range d p : d !! p = None -> DVP_Memory_Range_t d p = (0, 0).
Proof. intros H. unfold DVP_Memory_Range_t. by rewrite H. Qed.

(** A comparison with an address is one with the base of its range. *)
Lemma compare_in_range d q r v : ranges_ok d -> d !! q = Some r -> contains r v ->
  forall p, dvp_mem_range_compare d p v = value_compare (base_of d) p r.1.
Proof.
  intros [Hp Hs] Hq Hv p. unfold dvp_mem_range_compare, value_compare, base_of, contains in *.
  pose proof (Hp q r Hq) as Hr. unfold proper_range in Hr. destruct (decide (p = q)) as [->|Hne].
  { rewrite (mem_range d q r Hq), Z.eqb_refl. by rewrite (proj2 (Z.leb_le _ _)), (proj2 (Z.ltb_lt _ _)) by lia. }
  destruct (d !! p) as [t|] eqn:Ht.
  - rewrite (mem_range d p t Ht). pose proof (Hp p t Ht) as Htp. specialize (Hs p q t r Ht Hq Hne).
    unfold proper_range, separate in *. repeat case_match; lia.
  - rewrite (no_mem_range d p Ht). cbn [fst snd]. repeat case_match; lia.
Qed.
Lemma compare_outside d v : ranges_ok d -> 0 < v -> (forall p r, d !! p = Some r -> ~ contains r v) ->
  forall p, dvp_mem_range_compare d p v = value_compare (base_of d) p v.
Proof.
  intros [Hp Hs] Hv Hn p. unfold dvp_mem_range_compare, value_compare, base_of, contains in *.
  destruct (d !! p) as [t|] eqn:Ht.
  - rewrite (mem_range d p t Ht). specialize (Hn p t Ht). pose proof (Hp p t Ht) as Htp. unfold proper_range in *.
    repeat case_match; lia.
  - rewrite (no_mem_range d p Ht). cbn [fst snd]. repeat case_match; lia.
Qed.
Lemma sort_by_base d q r : ranges_ok d -> d !! q = Some r ->
  forall p, dvp_mem_range_sort d p q = value_sort (base_of d) p q.
Proof.
  intros [Hp Hs] Hq p. unfold dvp_mem_range_sort, value_sort, base_of. rewrite (mem_range d q r Hq).
  pose proof (Hp q r Hq) as Hr. unfold proper_range in Hr. destruct (decide (p = q)) as [->|Hne].
  { rewrite (mem_range d q r Hq), Z.eqb_refl. repeat case_match; lia. }
  destruct (d !! p) as [t|] eqn:Ht.
  - rewrite (mem_range d p t Ht). pose proof (Hp p t Ht) as Htp. specialize (Hs p q t r Ht Hq Hne).
    unfold proper_range, separate in *. repeat case_match; lia.
  - rewrite (no_mem_range d p Ht). cbn [fst snd]. repeat case_match; lia.
Qed.

(** A tree stays one when the store changes elsewhere, and with other keys
    for other nodes. *)
Lemma tree_ok_frame key key' b s s' xs : tree_ok key b s xs -> (forall x, x ∈ xs -> s' !! x = s !! x) ->
  (forall x, x ∈ xs -> key' x = key x) -> tree_ok key' b s' xs.
Proof.
  intros [(t & Hat & Hin & Hd) Hseg ? ? ? ? ? Hsort] Hs Hk. split; try done.
  - exists t. split; [|done]. eapply bt_frame; [|exact Hat]. by rewrite Hin.
  - eapply seg_frame; [|exact Hseg]. intros x Hx. unfold links. by rewrite !lookup_fmap, Hs.
  - clear -Hsort Hk. induction Hsort as [|x xs Hs IH Hf]; constructor; [apply IH; set_solver|].
    rewrite Forall_forall in Hf |- *. intros y Hy. unfold key_lt in *. rewrite !Hk by set_solver. by apply Hf.
Qed.

(** ** The hash *)

Record fph_wf (f : fph_t) : Prop := {
  wf_size : blockSize f = 64 /\ numBlocks f = 64;
  wf_hash : length (hash f) = 4096%nat;
  wf_lists : length (collisions f) = 64%nat /\ length (block_length f) = 64%nat }.

Lemma fph_init_wf : fph_wf (fph_init 64 64).
Proof. split; done. Qed.

Lemma fph_index f k : fph_wf f -> exists j, fph_hash f k = Done (64 * j) /\ 0 <= j < 64.
Proof.
  intros [[Hb Hn] _ _]. unfold fph_hash. rewrite Hb, Hn. cbn [Z.eqb]. exists (Z.shiftr k 8 mod 64).
  pose proof (Z.mod_pos_bound (Z.shiftr k 8) 64 ltac:(lia)). split; [|done]. rewrite u64_small by (unfold is_u64; lia). f_equal. lia.
Qed.
Lemma block_of j i : 0 <= j < 64 -> 64 * j <= i < 64 * j + 64 -> u32 i = i.
Proof. intros. apply u32_small. unfold is_u32. lia. Qed.

Lemma get_loop_total f j k n : fph_wf f -> 0 <= j < 64 -> forall i, 64 * j <= i -> i + Z.of_nat n <= 64 * j + 64 ->
  exists r, get_loop n f i k = Done r.
Proof.
  intros [_ Hh _] Hj. induction n as [|n IH]; intros i Hi Hb; [by eexists|]. cbn [get_loop].
  destruct (aget_in_range (hash f) i) as [kv ->]; [rewrite Hh; lia|]. cbn [of_option mbind outcome_bind].
  destruct (kv_key kv =? k); [by eexists|]. destruct n as [|n]; [by eexists|].
  rewrite (block_of j) by lia. apply IH; lia.
Qed.
Lemma fph_get_total f k : fph_wf f -> exists r, fph_get fph_hash f k = Done r.
Proof.
  intros H. unfold fph_get. destruct (fph_index f k H) as (j & -> & Hj). cbn [mbind outcome_bind].
  pose proof H as [[-> _] _ _]. rewrite u32_small by (unfold is_u32; lia). apply (get_loop_total f j); [done..|lia|lia].
Qed.

Lemma set_loop_total f j k v n : fph_wf f -> 0 <= j < 64 -> forall i, 64 * j <= i -> i + Z.of_nat n <= 64 * j + 64 ->
  exists ok f', set_loop n f j i k v = Done (ok, f') /\ fph_wf f'.
Proof.
  intros Hwf Hj. pose proof Hwf as [[Hbs Hnb] Hh [Hc Hl]]. induction n as [|n IH]; intros i Hi Hb.
  { cbn [set_loop]. eexists _, _. split; [done|]. by split. }
  cbn [set_loop]. destruct (aget_in_range (hash f) i) as [kv ->]; [rewrite Hh; lia|]. cbn [of_option mbind outcome_bind].
  destruct (aget_in_range (collisions f) j) as [c Hcj]; [rewrite Hc; lia|].
  destruct (aget_in_range (block_length f) j) as [l Hlj]; [rewrite Hl; lia|].
  destruct (kv_key kv =? k).
  { unfold replace_slot. rewrite aset_in_range by (rewrite Hh; lia). cbn [of_option mbind outcome_bind]. rewrite Hcj.
    cbn [of_option mbind outcome_bind]. rewrite aset_in_range by (rewrite Hc; lia). eexists _, _. split; [done|].
    split; cbn [with_metrics with_kv blockSize numBlocks hash collisions block_length]; rewrite ?length_insert; done. }
  destruct (kv_key kv =? 0).
  { unfold fill_slot. rewrite aset_in_range by (rewrite Hh; lia). cbn [of_option mbind outcome_bind]. rewrite Hlj.
    cbn [of_option mbind outcome_bind]. rewrite aset_in_range by (rewrite Hl; lia). eexists _, _. split; [done|].
    split; cbn [with_metrics with_kv blockSize numBlocks hash collisions block_length]; rewrite ?length_insert; done. }
  destruct n as [|n]; [cbn [set_loop]; eexists _, _; split; [done|by split]|]. rewrite (block_of j) by lia. apply IH; lia.
Qed.
Lemma fph_set_total f k v : fph_wf f -> k <> 0 -> exists ok f', fph_set fph_hash f k v = Done (ok, f') /\ fph_wf f'.
Proof.
  intros H Hk. unfold fph_set. rewrite (proj2 (Z.eqb_neq k 0)) by done. destruct (fph_index f k H) as (j & -> & Hj).
  cbn [mbind outcome_bind]. pose proof H as [[Hb _] _ _]. rewrite Hb. cbn [Z.eqb]. rewrite u32_small by (unfold is_u32; lia).
  replace (64 * j / 64) with j by (rewrite Z.mul_comm, Z.div_mul; lia). apply set_loop_total; [done..|lia|lia].
Qed.

(** ** The invariant *)

(** The tree holds the ranges of [R], a map from bases to lengths and handles. *)
Record range_tree (rpc : DVP_RPC_t) R : Prop := {
  rt_tree : exists xs, tree_ok (base_of (range_data rpc)) (ranges rpc) (range_nodes rpc) xs /\ length xs = size R /\
    forall x, x ∈ xs <-> is_Some (range_data rpc !! x);
  rt_ranges : ranges_ok (range_data rpc);
  rt_in a n h : R !! a = Some (n, h) -> exists p, range_data rpc !! p = Some (a, a + n);
  rt_out p r : range_data rpc !! p = Some r -> exists n h, R !! r.1 = Some (n, h) /\ r.2 = r.1 + n }.
Record registry (rpc : DVP_RPC_t) R : Prop := {
  reg_ranges : range_tree rpc R;
  reg_hash a n h : R !! a = Some (n, h) -> fph_get fph_hash (hndl_hash rpc) a = Done (Some h);
  reg_wf : fph_wf (hndl_hash rpc) }.
Definition room R : Prop := Z.of_nat (size R) <= 2 ^ 30.

Lemma registry_init : registry dvp_rpc_init ∅.
Proof.
  split; [|by intros ? ? ?|apply fph_init_wf]. split; [|split|done|]; cbn [dvp_rpc_init range_data ranges range_nodes].
  - exists []. split; [apply create_ok|]. split; [done|]. intros x. rewrite lookup_empty. split; [by intros ?%elem_of_nil|by intros [? ?]].
  - intros p r H. by rewrite lookup_empty in H.
  - intros p q r t H. by rewrite lookup_empty in H.
  - intros p r H. by rewrite lookup_empty in H.
Qed.

Lemma registered_range rpc R a n h : range_tree rpc R -> R !! a = Some (n, h) -> 0 < a /\ 0 < n.
Proof.
  intros Ht Ha. destruct (rt_in rpc R Ht a n h Ha) as [p Hp]. pose proof (ranges_proper _ (rt_ranges rpc R Ht) p _ Hp) as H.
  unfold proper_range in H. cbn in H. lia.
Qed.

(** What a search finds *)
Lemma find_range rpc R a n h v : range_tree rpc R -> room R -> R !! a = Some (n, h) -> a <= v < a + n ->
  exists q, btreelist_find (dvp_mem_range_compare (range_data rpc)) search_fuel (ranges rpc) v (range_nodes rpc) = Done q /\
    q <> 0 /\ range_data rpc !! q = Some (a, a + n).
Proof.
  intros Ht Hr Ha Hv. destruct (rt_in rpc R Ht a n h Ha) as [p Hp]. pose proof (rt_ranges rpc R Ht) as Hd.
  destruct (rt_tree rpc R Ht) as (xs & Hok & Hlen & Hin). unfold btreelist_find.
  rewrite (btree_find_ext _ (value_compare (base_of (range_data rpc))) _ v a)
    by (intros x; by apply (compare_in_range _ p (a, a + n))).
  destruct (tree_find_spec _ search_fuel (ranges rpc) (range_nodes rpc) xs a Hok) as (q & Hq & Hcase);
    [apply levels_fuel; unfold room in Hr; lia|].
  exists q. split; [exact Hq|]. destruct Hcase as [[_ Hno]|(Hqx & Hq0 & Hk)].
  - destruct (Hno p); [apply Hin; by eexists|]. unfold base_of. by rewrite (mem_range _ p _ Hp).
  - split; [done|]. apply Hin in Hqx as [r Hqr]. destruct (decide (q = p)) as [->|Hne]; [done|].
    pose proof (ranges_separate _ Hd q p r _ Hqr Hp Hne) as Hs. pose proof (ranges_proper _ Hd q r Hqr) as Hpr.
    unfold base_of in Hk. rewrite (mem_range _ q r Hqr) in Hk. pose proof (ranges_proper _ Hd p _ Hp) as Hpp.
    unfold separate, proper_range in *. cbn in *. lia.
Qed.

(** The handle of the range an address is in *)
Lemma get_handle_spec dmabuf_fd rpc R a n h v : registry rpc R -> room R -> R !! a = Some (n, h) -> a <= v < a + n ->
  dvp_rpc_get_handle dmabuf_fd rpc v = of_option (dmabuf_fd !! h).
Proof.
  intros [Ht Hh _] Hr Ha Hv. pose proof (registered_range rpc R a n h Ht Ha). unfold dvp_rpc_get_handle.
  rewrite (proj2 (Z.eqb_neq v 0)) by lia. destruct (find_range rpc R a n h v Ht Hr Ha Hv) as (q & -> & Hq & Hd).
  cbn [mbind outcome_bind]. rewrite (proj2 (Z.eqb_neq q 0)) by done. rewrite (mem_range _ q _ Hd). cbn [fst].
  by rewrite (Hh a n h Ha).
Qed.

(** ** Removing and adding ranges *)

Lemma forget_range_spec rpc R a n h : range_tree rpc R -> room R -> R !! a = Some (n, h) ->
  exists rpc', forget_range rpc a = Done rpc' /\ range_tree rpc' (delete a R) /\ hndl_hash rpc' = hndl_hash rpc.
Proof.
  intros Ht Hr Ha. destruct (rt_in rpc R Ht a n h Ha) as [p Hp]. pose proof (rt_ranges rpc R Ht) as Hd.
  pose proof (registered_range rpc R a n h Ht Ha) as [Ha0 Hn0]. destruct (rt_tree rpc R Ht) as (xs & Hok & Hlen & Hin).
  unfold forget_range. rewrite (btreelist_remove_ext _ (value_compare (base_of (range_data rpc))) _ _ _ a a).
  2:{ intros x. apply (compare_in_range _ p (a, a + n)); [done..|]. unfold contains. cbn. lia. }
  assert (Z.of_nat (length xs) + 1 < 2 ^ 31) as Hlx by (unfold room in Hr; lia).
  destruct (remove_spec _ search_fuel (ranges rpc) (range_nodes rpc) xs a Hok) as (q & b' & s' & -> & _ & Hcase);
    [lia|apply levels_fuel; lia|]. cbn [mbind outcome_bind]. eexists. split; [done|]. split; [|done].
  destruct Hcase as [(_ & Hno & _)|(ys & zs & -> & Hq0 & Hk & Hok')].
  { destruct (Hno p); [apply Hin; by eexists|]. unfold base_of. by rewrite (mem_range _ p _ Hp). }
  pose proof (ok_nodup _ _ _ _ Hok) as Hnd. apply NoDup_app in Hnd as (_ & Hdis & [Hqz _]%NoDup_cons).
  assert (q ∉ ys ++ zs) as Hqn by set_solver.
  assert (range_data rpc !! q = Some (a, a + n)) as Hqd.
  { destruct (proj1 (Hin q)) as [r Hqr]; [set_solver|]. destruct (decide (q = p)) as [->|Hne]; [done|].
    pose proof (ranges_separate _ Hd q p r _ Hqr Hp Hne) as Hs. pose proof (ranges_proper _ Hd q r Hqr) as Hpr.
    unfold base_of in Hk. rewrite (mem_range _ q r Hqr) in Hk. unfold separate, proper_range in *. cbn in *. lia. }
  split; cbn [range_data ranges range_nodes].
  - exists (ys ++ zs). split; [|split].
    + eapply tree_ok_frame; [exact Hok'|intros x Hx; by rewrite lookup_delete_ne by (intros <-; done)|].
      intros x Hx. unfold base_of, DVP_Memory_Range_t. by rewrite lookup_delete_ne by (intros <-; done).
    + rewrite map_size_delete_Some by by eexists. rewrite !length_app in *. cbn [length] in Hlen. lia.
    + intros x. rewrite lookup_delete_is_Some, <- Hin. split; [intros Hx; split; [by intros ->|set_solver]|].
      intros [Hx [H|[->|H]%elem_of_cons]%elem_of_app]; [set_solver|done|set_solver].
  - split; [intros x r [_ Hx]%lookup_delete_Some; by eapply ranges_proper|].
    intros x y r t [_ Hx]%lookup_delete_Some [_ Hy]%lookup_delete_Some. by eapply ranges_separate.
  - intros a' n' h' [Hne Ha']%lookup_delete_Some. destruct (rt_in rpc R Ht a' n' h' Ha') as [x Hx].
    exists x. rewrite lookup_delete_ne; [done|]. intros ->. simplify_eq.
  - intros x r [Hne Hx]%lookup_delete_Some. destruct (rt_out rpc R Ht x r Hx) as (n' & h' & Hr' & He).
    exists n', h'. split; [|done]. rewrite lookup_delete_ne; [done|]. intros Hrx.
    pose proof (ranges_separate _ Hd q x _ r Hqd Hx Hne) as Hs. pose proof (ranges_proper _ Hd x r Hx) as Hpr.
    unfold separate, proper_range in *. cbn in *. lia.
Qed.

(** A new range is apart from those there. *)
Definition apart_from R (a n : Z) : Prop := forall a' n' h', R !! a' = Some (n', h') -> separate (a, a + n) (a', a' + n').

Lemma add_range_spec rpc R q a n h : range_tree rpc R -> room R -> q <> 0 -> range_data rpc !! q = None ->
  0 < a -> 0 < n -> a + n < 2 ^ 32 -> apart_from R a n ->
  exists rpc', add_range rpc q a n = Done rpc' /\ range_tree rpc' (<[a := (n, h)]> R) /\ hndl_hash rpc' = hndl_hash rpc.
Proof.
  intros Ht Hr Hq Hqn Ha Hn Hb Hap. pose proof (rt_ranges rpc R Ht) as Hd. destruct (rt_tree rpc R Ht) as (xs & Hok & Hlen & Hin).
  unfold add_range. rewrite (u32_small (a + n)) by (unfold is_u32; lia).
  set (d := <[q := (a, a + n)]> (range_data rpc)).
  assert (forall p r, range_data rpc !! p = Some r -> separate (a, a + n) r) as Hsep.
  { intros p r Hp. destruct (rt_out rpc R Ht p r Hp) as (n' & h' & Hr' & He). specialize (Hap _ _ _ Hr').
    unfold separate in *. cbn in *. lia. }
  assert (ranges_ok d) as Hd'.
  { unfold d. split.
    - intros p r [[<- <-]|[_ Hp]]%lookup_insert_Some; [unfold proper_range; cbn; lia|by eapply ranges_proper].
    - intros p p' r r' [[<- <-]|[Hne Hp]]%lookup_insert_Some [[<- <-]|[Hne' Hp']]%lookup_insert_Some Hpp; [done|by eapply Hsep| |by eapply ranges_separate].
      specialize (Hsep _ _ Hp). unfold separate in *. lia. }
  assert (d !! q = Some (a, a + n)) as Hdq by apply lookup_insert_eq.
  rewrite (btreelist_add_ext _ (value_sort (base_of d))) by (intros p; by apply (sort_by_base d q (a, a + n))).
  assert (q ∉ xs) as Hqx by (intros [? Hx]%Hin; congruence).
  assert (forall x, x ∈ xs -> base_of d x = base_of (range_data rpc) x) as Hbase.
  { intros x Hx. unfold base_of, DVP_Memory_Range_t, d. by rewrite lookup_insert_ne by (intros <-; done). }
  assert (Z.of_nat (length xs) + 1 < 2 ^ 31) as Hlx by (unfold room in Hr; lia).
  destruct (add_spec (base_of d) search_fuel (ranges rpc) (<[q := mkTreeNode 0 0 0 0]> (range_nodes rpc)) xs q) as (b' & s' & -> & _ & Hcase).
  { eapply tree_ok_frame; [exact Hok| |done]. intros x Hx. by rewrite lookup_insert_ne by (intros <-; done). }
  { done. } { rewrite lookup_insert_eq. by eexists. } { lia. } { apply levels_fuel. lia. }
  assert (base_of d q = a) as Hbq by (unfold base_of; by rewrite (mem_range _ q _ Hdq)).
  assert (forall x, x ∈ xs -> base_of d x <> base_of d q) as Hdiff.
  { intros x Hx. rewrite (Hbase x Hx), Hbq. apply Hin in Hx as [r Hx]. unfold base_of. rewrite (mem_range _ x r Hx).
    specialize (Hsep x r Hx). pose proof (ranges_proper _ Hd x r Hx) as Hp. unfold separate, proper_range in *. cbn in *. lia. }
  assert (R !! a = None) as Hna.
  { apply eq_None_not_Some. intros [[n' h'] Hra]. specialize (Hap _ _ _ Hra). pose proof (registered_range rpc R a n' h' Ht Hra).
    unfold separate in Hap. cbn in Hap. lia. }
  cbn [mbind outcome_bind]. eexists. split; [done|]. split; [|done].
  destruct Hcase as [[(x & Hx & Hk) _]|(ys & zs & -> & _ & Hok')]; [by destruct (Hdiff x Hx)|].
  split; cbn [range_data ranges range_nodes]; [|done| |].
  - exists (ys ++ q :: zs). split; [done|]. split.
    + rewrite map_size_insert_None by done. rewrite length_app in *. cbn [length]. lia.
    + intros x. unfold d. rewrite lookup_insert_is_Some, <- Hin. split.
      * intros [H|[->|H]%elem_of_cons]%elem_of_app; [|by left|]; (destruct (decide (q = x)); [by left|right; set_solver]).
      * intros [->|[_ H]]; set_solver.
  - intros a' n' h' [[<- [= <- <-]]|[Hne Ha']]%lookup_insert_Some; [by exists q|].
    destruct (rt_in rpc R Ht a' n' h' Ha') as [x Hx]. exists x. unfold d. rewrite lookup_insert_ne; [done|]. intros ->. congruence.
  - intros x r [[<- <-]|[Hne Hx]]%lookup_insert_Some; [exists n, h; cbn; by rewrite lookup_insert_eq|].
    destruct (rt_out rpc R Ht x r Hx) as (n' & h' & Hr' & He). exists n', h'. split; [|done].
    rewrite lookup_insert_ne; [done|]. intros Heq. congruence.
Qed.

(** ** The calls *)

(** The range is added also when the hash has no room; then it is removed again. *)
Lemma associate_spec rpc R q a n h mtype : registry rpc R -> room (<[a := (n, h)]> R) ->
  one_of mtype associated_types = true -> q <> 0 -> range_data rpc !! q = None ->
  0 < a -> 0 < n -> a + n < 2 ^ 32 -> apart_from R a n ->
  exists ok h' rpc', dvp_rpc_associate rpc q a h n mtype = Done (true, rpc') /\
    fph_set fph_hash (hndl_hash rpc) a h = Done (ok, h') /\
    hndl_hash rpc' = h' /\ registry rpc' (if ok : bool then <[a := (n, h)]> R else R).
Proof.
  intros [Ht Hh Hwf] Hr Hm Hq Hqn Ha Hn Hb Hap.
  assert (R !! a = None) as Hna.
  { apply eq_None_not_Some. intros [[n' h1] Hra]. specialize (Hap _ _ _ Hra). pose proof (registered_range rpc R a n' h1 Ht Hra).
    unfold separate in Hap. cbn in Hap. lia. }
  assert (room R) as Hr0 by (unfold room in *; rewrite map_size_insert_None in Hr by done; lia).
  destruct (add_range_spec rpc R q a n h Ht Hr0 Hq Hqn Ha Hn Hb Hap) as (rpc1 & Hadd & Ht1 & Hh1).
  destruct (fph_set_total (hndl_hash rpc) a h Hwf ltac:(lia)) as (ok & h' & Hset & Hwf').
  exists ok, h'. unfold dvp_rpc_associate. rewrite (proj2 (Z.eqb_neq a 0)), (proj2 (Z.eqb_neq n 0)) by lia. cbn [orb]. rewrite Hm.
  rewrite (proj2 (Z.eqb_neq q 0)) by done. rewrite Hadd. cbn [mbind outcome_bind]. rewrite Hh1, Hset. cbn [mbind outcome_bind].
  assert (forall a' n' h1, R !! a' = Some (n', h1) -> fph_get fph_hash h' a' = Done (Some h1)) as Hold.
  { intros a' n' h1 Ha'. pose proof (registered_range rpc R a' n' h1 Ht Ha').
    rewrite (fph_set_then_get fph_hash (hndl_hash rpc) h' a h ok a' fph_hash_geometry ltac:(lia) Hset ltac:(lia)).
    rewrite decide_False by (intros [_ ->]; congruence). by eapply Hh. }
  destruct ok.
  - eexists. split; [done|]. split; [done|]. split; [done|]. split; [destruct Ht1; by split| |done].
    intros a' n' h1 [[<- [= <- <-]]|[Hne Ha']]%lookup_insert_Some; [|by eapply Hold].
    cbn [hndl_hash]. rewrite (fph_set_then_get fph_hash (hndl_hash rpc) h' a h true a fph_hash_geometry ltac:(lia) Hset ltac:(lia)). by rewrite decide_True.
  - destruct (forget_range_spec (mkRpc h' (ranges rpc1) (range_nodes rpc1) (range_data rpc1)) (<[a := (n, h)]> R) a n h)
      as (rpc2 & -> & Ht2 & Hh2).
    + destruct Ht1; by split.
    + done.
    + apply lookup_insert_eq.
    + rewrite delete_insert_id in Ht2 by done. cbn [hndl_hash] in Hh2. eexists. split; [done|]. split; [done|]. split; [done|].
      split; [done| |by rewrite Hh2]. rewrite Hh2. done.
Qed.

Lemma dissociate_spec rpc R a n h size mtype : registry rpc R -> room R -> one_of mtype associated_types = true ->
  size <> 0 -> R !! a = Some (n, h) ->
  exists rpc', dvp_rpc_dissociate rpc a size mtype = Done (true, Some h, rpc') /\ registry rpc' (delete a R).
Proof.
  intros [Ht Hh Hwf] Hr Hm Hs Ha. pose proof (registered_range rpc R a n h Ht Ha) as [Ha0 Hn0].
  unfold dvp_rpc_dissociate. rewrite (proj2 (Z.eqb_neq a 0)), (proj2 (Z.eqb_neq size 0)) by lia. cbn [orb]. rewrite Hm.
  rewrite (Hh a n h Ha). cbn [mbind outcome_bind].
  destruct (fph_set_total (hndl_hash rpc) a 0 Hwf ltac:(lia)) as (ok & h' & Hset & Hwf'). rewrite Hset. cbn [mbind outcome_bind].
  destruct (forget_range_spec (mkRpc h' (ranges rpc) (range_nodes rpc) (range_data rpc)) R a n h) as (rpc' & -> & Ht' & Hh');
    [destruct Ht; by split|done|done|].
  cbn [mbind outcome_bind]. exists rpc'. split; [done|]. cbn [hndl_hash] in Hh'. split; [done| |by rewrite Hh'].
  intros a' n' h1 [Hne Ha']%lookup_delete_Some. pose proof (registered_range rpc R a' n' h1 Ht Ha'). rewrite Hh'.
  rewrite (fph_set_then_get fph_hash (hndl_hash rpc) h' a 0 ok a' fph_hash_geometry ltac:(lia) Hset ltac:(lia)).
  rewrite decide_False by (intros [_ ->]; congruence). by eapply Hh.
Qed.

(** ** The registry as a map *)

(** C9: the registry of memory is a map of disjoint ranges: it starts empty;
    associating a range that is apart from those there adds it with its
    handle, unless the hash of handles has no room, when the registry stays
    as it is and the answer is true all the same; dissociating a range hands
    out its handle and removes it; and the handle found for any address in a
    range, not only its first one, is the file of that range's buffer. *)
Theorem rpc_registry_is_map (dmabuf_fd : gmap Z Z) :
  registry dvp_rpc_init ∅ /\
  forall rpc R, registry rpc R -> room R ->
  (forall q a n h mtype, one_of mtype associated_types = true -> q <> 0 -> range_data rpc !! q = None ->
     0 < a -> 0 < n -> a + n < 2 ^ 32 -> apart_from R a n -> room (<[a := (n, h)]> R) ->
     exists ok h' rpc', dvp_rpc_associate rpc q a h n mtype = Done (true, rpc') /\
       fph_set fph_hash (hndl_hash rpc) a h = Done (ok, h') /\ registry rpc' (if ok : bool then <[a := (n, h)]> R else R)) /\
  (forall a n h size mtype, one_of mtype associated_types = true -> size <> 0 -> R !! a = Some (n, h) ->
     exists rpc', dvp_rpc_dissociate rpc a size mtype = Done (true, Some h, rpc') /\ registry rpc' (delete a R)) /\
  (forall a n h v, R !! a = Some (n, h) -> a <= v < a + n -> dvp_rpc_get_handle dmabuf_fd rpc v = of_option (dmabuf_fd !! h)).
Proof.
  split; [apply registry_init|]. intros rpc R Hreg Hr. split_and!.
  - intros q a n h mtype Hm Hq Hqn Ha Hn Hb Hap Hr'.
    destruct (associate_spec rpc R q a n h mtype Hreg Hr' Hm Hq Hqn Ha Hn Hb Hap) as (ok & h' & rpc' & H1 & H2 & _ & H3).
    by exists ok, h', rpc'.
  - intros a n h size mtype Hm Hs Ha. by eapply dissociate_spec.
  - intros a n h v Ha Hv. by eapply get_handle_spec.
Qed.

(** A hash that has room *)
Definition granted_set (r : outcome (bool * fph_t)) : bool := if r is Done (ok, _) then ok else false.
Definition hash_after (f : fph_t) (k v : Z) : fph_t := if fph_set fph_hash f k v is Done (_, f') then f' else f.
Lemma register_one rpc R a n h : registry rpc R -> room (<[a := (n, h)]> R) ->
  granted_set (fph_set fph_hash (hndl_hash rpc) a h) = true -> 0 < a -> 0 < n -> a + n < 2 ^ 32 -> apart_from R a n ->
  exists rpc', registry rpc' (<[a := (n, h)]> R) /\ hndl_hash rpc' = hash_after (hndl_hash rpc) a h.
Proof.
  intros Hreg Hr Hset Ha Hn Hb Hap. pose (q := fresh (dom (range_data rpc) ∪ {[0]})).
  assert (q ∉ dom (range_data rpc) ∪ {[0]}) as Hq by apply is_fresh.
  destruct (associate_spec rpc R q a n h Bo.DVP_MTYPE_KERNELGRAPH Hreg Hr) as (ok & h' & rpc' & _ & Hs & Hh & Hreg'); try done; [set_solver|apply not_elem_of_dom; set_solver|].
  unfold granted_set in Hset. rewrite Hs in Hset. subst ok. exists rpc'. split; [done|]. unfold hash_after. by rewrite Hs.
Qed.

Lemma rpc_registry_is_map_witness : exists rpc rpc', dvp_rpc_associate dvp_rpc_init 1 0x1000 7 0x100 2 = Done (true, rpc) /\
  dvp_rpc_get_handle {[7 := 33]} rpc 0x10ff = Done 33 /\ dvp_rpc_dissociate rpc 0x1000 0x100 2 = Done (true, Some 7, rpc').
Proof.
  destruct (rpc_registry_is_map {[7 := 33]}) as [Hi Hcalls]. destruct (Hcalls dvp_rpc_init ∅ Hi) as (Has & _ & _); [done|].
  destruct (Has 1 0x1000 0x100 7 2) as (ok & h' & rpc & H1 & H2 & Hreg); [done..|by intros ? ? ?|done|].
  destruct ok; [|vm_compute in H2; discriminate H2].
  destruct (Hcalls rpc _ Hreg) as (_ & Hdis & Hget); [done|]. destruct (Hdis 0x1000 0x100 7 0x100 2) as (rpc' & H3 & _); [done..|].
  exists rpc, rpc'. split; [exact H1|]. split; [|exact H3]. rewrite (Hget 0x1000 0x100 7 0x10ff); [reflexivity|done|lia].
Defined.
