(* ===== verification/RemoteTables.v ===== *)
(** * The kernels of the remote graph managers

    What dvp_kgm_simcop.c and dvp_kgm_dsp.c say of each kernel, row by row:
    the kernels they publish, the [switch] before the remote call, which
    prepares a node's images and buffers, and the [switch] after it, which
    returns them.  A row is a list of [case] labels with one body.  Labels are
    names, as the numbers of the kernels of TI's own libraries (VLIB, IMGLIB,
    ...) are in headers outside of the repository. *)
From S2P Require Import Prelude DvpTypes Image NodeData ParamTypes.
From stdpp Require Import strings.

Open Scope string_scope.
Open Scope list_scope.
Open Scope Z_scope.

(** One statement about a member of the node's structure: an image or a
    buffer with its [cacheOp], the pointer of a [DVP_Bounds_t] if it is not
    null, a statement under an [if] on the kernel or on a number. *)
Inductive step : Set :=
  | Img (f : string) (cacheOp : bool)
  | Buf (f : string) (cacheOp : bool)
  | Bound (f : string)
  | Only (kernels : list string) (s : step)
  | IfZero (f : string) (s : step).
(** The labels, the structure the node is cast to, and the body *)
Record kernel_row : Set := mkRow { row_kernels : list string; row_struct : string; row_steps : list step }.

(** ** SIMCOP *)

Definition simcop_prepare_1 : list kernel_row :=
  [ mkRow
      ["DVP_KN_NOOP"; "DVP_KN_DEI_DEINTERLACER_INIT"; "DVP_KN_DEI_DEINTERLACER_DEINIT"]
      ""
      [];
    mkRow
      ["DVP_KN_COPY"]
      "DVP_Transform_t"
      [Img "input" true; Img "output" false];
    mkRow
      ["DVP_KN_DILATE_CROSS"; "DVP_KN_DILATE_SQUARE"; "DVP_KN_DILATE_MASK"; "DVP_KN_ERODE_CROSS";
       "DVP_KN_ERODE_MASK"; "DVP_KN_ERODE_SQUARE"; "DVP_KN_VRUN_DILATE_CROSS"; "DVP_KN_VRUN_DILATE_SQUARE";
       "DVP_KN_VRUN_DILATE_MASK"; "DVP_KN_VRUN_ERODE_CROSS"; "DVP_KN_VRUN_ERODE_MASK"; "DVP_KN_VRUN_ERODE_SQUARE"]
      "DVP_Morphology_t"
      [Img "input" true; Img "output" false;
       Only ["DVP_KN_ERODE_MASK"; "DVP_KN_DILATE_MASK"; "DVP_KN_VRUN_ERODE_MASK"; "DVP_KN_VRUN_DILATE_MASK"]
         (Img "mask" true)];
    mkRow
      ["DVP_KN_IIR_HORZ"; "DVP_KN_IIR_VERT"; "DVP_KN_VRUN_IIR_HORZ"; "DVP_KN_VRUN_IIR_VERT"]
      "DVP_IIR_t"
      [Img "input" true; Img "output" false; Img "scratch" false; Bound "bounds[0]"; Bound "bounds[1]"];
    mkRow
      ["DVP_KN_NONMAXSUPPRESS_3x3_S16"; "DVP_KN_NONMAXSUPPRESS_5x5_S16"; "DVP_KN_NONMAXSUPPRESS_7x7_S16";
       "DVP_KN_THR_GT2MAX_8"; "DVP_KN_THR_GT2MAX_16"; "DVP_KN_THR_GT2THR_8"; "DVP_KN_THR_GT2THR_16";
       "DVP_KN_THR_LE2MIN_8"; "DVP_KN_THR_LE2MIN_16"; "DVP_KN_THR_LE2THR_8"; "DVP_KN_THR_LE2THR_16";
       "DVP_KN_VRUN_NONMAXSUPPRESS_3x3_S16"; "DVP_KN_VRUN_NONMAXSUPPRESS_5x5_S16";
       "DVP_KN_VRUN_NONMAXSUPPRESS_7x7_S16"; "DVP_KN_VRUN_THR_GT2MAX_8"; "DVP_KN_VRUN_THR_GT2MAX_16";
       "DVP_KN_VRUN_THR_GT2THR_8"; "DVP_KN_VRUN_THR_GT2THR_16"; "DVP_KN_VRUN_THR_LE2MIN_8";
       "DVP_KN_VRUN_THR_LE2MIN_16"; "DVP_KN_VRUN_THR_LE2THR_8"; "DVP_KN_VRUN_THR_LE2THR_16"]
      "DVP_Threshold_t"
      [Img "input" true; Img "output" false];
    mkRow
      ["DVP_KN_CANNY_IMAGE_SMOOTHING"; "DVP_KN_CONV_3x3"; "DVP_KN_CONV_5x5"; "DVP_KN_CONV_7x7";
       "DVP_KN_VRUN_CANNY_IMAGE_SMOOTHING"; "DVP_KN_VRUN_CONV_3x3"; "DVP_KN_VRUN_CONV_5x5"; "DVP_KN_VRUN_CONV_7x7";
       "DVP_KN_VRUN_CONV_MxN"]
      "DVP_ImageConvolution_t"
      [Img "input" true; Img "output" false; Img "mask" true];
    mkRow
      ["DVP_KN_VRUN_SAD_8x8"; "DVP_KN_VRUN_SAD_16x16"; "DVP_KN_VRUN_SAD_3x3"; "DVP_KN_VRUN_SAD_5x5";
       "DVP_KN_VRUN_SAD_7x7"]
      "DVP_SAD_t"
      [Img "input" true; Img "output" false; Img "refImg" true] ].
Definition simcop_prepare_2 : list kernel_row :=
  [ mkRow
      ["DVP_KN_CANNY_2D_GRADIENT"; "DVP_KN_VRUN_CANNY_2D_GRADIENT"]
      "DVP_Canny2dGradient_t"
      [Img "input" true; Img "outGradX" false; Img "outGradY" false; Img "outMag" false];
    mkRow
      ["DVP_KN_CANNY_NONMAX_SUPPRESSION"; "DVP_KN_VRUN_CANNY_NONMAX_SUPPRESSION"]
      "DVP_CannyNonMaxSuppression_t"
      [Img "inMag" true; Img "inGradX" true; Img "inGradY" true; Img "output" false];
    mkRow
      ["DVP_KN_CANNY_HYST_THRESHHOLD"; "DVP_KN_VRUN_CANNY_HYST_THRESHHOLD"]
      "DVP_CannyHystThresholding_t"
      [Img "inMag" true; Img "inEdgeMap" true; Img "output" false];
    mkRow
      ["DVP_KN_XYXY_TO_Y800"; "DVP_KN_UYVY_TO_YUV444p"; "DVP_KN_UYVY_TO_RGBp"; "DVP_KN_UYVY_TO_YUV420p";
       "DVP_KN_INTEGRAL_IMAGE_8"; "DVP_KN_NV12_TO_YUV444p"; "DVP_KN_YUV444p_TO_RGBp"; "DVP_KN_SOBEL_3x3_8s";
       "DVP_KN_SOBEL_3x3_8"; "DVP_KN_SOBEL_3x3_16s"; "DVP_KN_SOBEL_3x3_16"; "DVP_KN_SOBEL_5x5_8s";
       "DVP_KN_SOBEL_5x5_8"; "DVP_KN_SOBEL_5x5_16s"; "DVP_KN_SOBEL_5x5_16"; "DVP_KN_SOBEL_7x7_8s";
       "DVP_KN_SOBEL_7x7_8"; "DVP_KN_SOBEL_7x7_16s"; "DVP_KN_SOBEL_7x7_16"; "DVP_KN_VRUN_XYXY_TO_Y800";
       "DVP_KN_VRUN_UYVY_TO_YUV444p"; "DVP_KN_VRUN_UYVY_TO_RGBp"; "DVP_KN_VRUN_UYVY_TO_YUV420p";
       "DVP_KN_VRUN_INTEGRAL_IMAGE_8"; "DVP_KN_VRUN_NV12_TO_YUV444p"; "DVP_KN_VRUN_YUV444p_TO_RGBp";
       "DVP_KN_VRUN_SOBEL_3x3_8s"; "DVP_KN_VRUN_SOBEL_3x3_8"; "DVP_KN_VRUN_SOBEL_3x3_16s";
       "DVP_KN_VRUN_SOBEL_3x3_16"; "DVP_KN_VRUN_SOBEL_5x5_8s"; "DVP_KN_VRUN_SOBEL_5x5_8";
       "DVP_KN_VRUN_SOBEL_5x5_16s"; "DVP_KN_VRUN_SOBEL_5x5_16"; "DVP_KN_VRUN_SOBEL_7x7_8s";
       "DVP_KN_VRUN_SOBEL_7x7_8"; "DVP_KN_VRUN_SOBEL_7x7_16s"; "DVP_KN_VRUN_SOBEL_7x7_16";
       "DVP_KN_LDC_AFFINE_TRANSFORM"]
      "DVP_Transform_t"
      [Img "input" true; Img "output" false];
    mkRow
      ["DVP_KN_LDC_DISTORTION_CORRECTION"; "DVP_KN_LDC_DISTORTION_AND_AFFINE"]
      "DVP_Ldc_t"
      [Img "input" true; Img "output" false; Buf "ldcLut" true];
    mkRow
      ["DVP_KN_VRUN_HARRIS_CORNERS"]
      "DVP_HarrisCorners_t"
      [Img "input" true; Img "tempBuf1" true; Img "tempBuf2" true; Img "tempBuf3" true; Img "tempBuf4" true;
       Img "output" false];
    mkRow
      ["DVP_KN_VRUN_HARRIS_SCORE_7x7"]
      "DVP_Harris_t"
      [Img "input" true; Img "harrisScore" false];
    mkRow
      ["DVP_KN_VRUN_BLOCK_MAXIMA"]
      "DVP_BlockMaxima_t"
      [Img "input" false; Img "blockMaximaX" true; Img "blockMaximaY" true; Img "blockMaximaMAX" true];
    mkRow
      ["DVP_KN_VRUN_NMS_STEP1"]
      "DVP_NMSStep1_t"
      [Img "nmsStep1X" true; Img "nmsStep1Y" true; Img "nmsStep1Dst" false];
    mkRow
      ["DVP_KN_VRUN_GAUSSIAN_3x3_PYRAMID_8"; "DVP_KN_VRUN_GAUSSIAN_5x5_PYRAMID_8";
       "DVP_KN_VRUN_GAUSSIAN_7x7_PYRAMID_8"; "DVP_KN_VRUN_GRADIENT_H3x3_PYRAMID_8";
       "DVP_KN_VRUN_GRADIENT_H5x5_PYRAMID_8"; "DVP_KN_VRUN_GRADIENT_H7x7_PYRAMID_8";
       "DVP_KN_VRUN_GRADIENT_V3x3_PYRAMID_8"; "DVP_KN_VRUN_GRADIENT_V5x5_PYRAMID_8";
       "DVP_KN_VRUN_GRADIENT_V7x7_PYRAMID_8"]
      "DVP_Transform_t"
      [Img "input" true; Img "output" false];
    mkRow
      ["DVP_KN_VRUN_IMAGE_PYRAMID_8"]
      "DVP_Pyramid_t"
      [Img "input" true; Buf "output" false] ].
Definition simcop_prepare : list kernel_row :=
  simcop_prepare_1 ++ simcop_prepare_2.

Definition simcop_return_1 : list kernel_row :=
  [ mkRow
      ["DVP_KN_NOOP"; "DVP_KN_DEI_DEINTERLACER_INIT"; "DVP_KN_DEI_DEINTERLACER_DEINIT"]
      ""
      [];
    mkRow
      ["DVP_KN_COPY"]
      "DVP_Transform_t"
      [Img "input" false; Img "output" true];
    mkRow
      ["DVP_KN_DILATE_CROSS"; "DVP_KN_DILATE_SQUARE"; "DVP_KN_DILATE_MASK"; "DVP_KN_ERODE_CROSS";
       "DVP_KN_ERODE_MASK"; "DVP_KN_ERODE_SQUARE"; "DVP_KN_VRUN_DILATE_CROSS"; "DVP_KN_VRUN_DILATE_SQUARE";
       "DVP_KN_VRUN_DILATE_MASK"; "DVP_KN_VRUN_ERODE_CROSS"; "DVP_KN_VRUN_ERODE_MASK"; "DVP_KN_VRUN_ERODE_SQUARE"]
      "DVP_Morphology_t"
      [Img "input" false; Img "output" true;
       Only ["DVP_KN_ERODE_MASK"; "DVP_KN_DILATE_MASK"; "DVP_KN_VRUN_ERODE_MASK"; "DVP_KN_VRUN_DILATE_MASK"]
         (Img "mask" false)];
    mkRow
      ["DVP_KN_IIR_HORZ"; "DVP_KN_IIR_VERT"; "DVP_KN_VRUN_IIR_HORZ"; "DVP_KN_VRUN_IIR_VERT"]
      "DVP_IIR_t"
      [Img "input" false; Img "output" true; Img "scratch" false; Bound "bounds[0]"; Bound "bounds[1]"];
    mkRow
      ["DVP_KN_NONMAXSUPPRESS_3x3_S16"; "DVP_KN_NONMAXSUPPRESS_5x5_S16"; "DVP_KN_NONMAXSUPPRESS_7x7_S16";
       "DVP_KN_THR_GT2MAX_8"; "DVP_KN_THR_GT2MAX_16"; "DVP_KN_THR_GT2THR_8"; "DVP_KN_THR_GT2THR_16";
       "DVP_KN_THR_LE2MIN_8"; "DVP_KN_THR_LE2MIN_16"; "DVP_KN_THR_LE2THR_8"; "DVP_KN_THR_LE2THR_16";
       "DVP_KN_VRUN_NONMAXSUPPRESS_3x3_S16"; "DVP_KN_VRUN_NONMAXSUPPRESS_5x5_S16";
       "DVP_KN_VRUN_NONMAXSUPPRESS_7x7_S16"; "DVP_KN_VRUN_THR_GT2MAX_8"; "DVP_KN_VRUN_THR_GT2MAX_16";
       "DVP_KN_VRUN_THR_GT2THR_8"; "DVP_KN_VRUN_THR_GT2THR_16"; "DVP_KN_VRUN_THR_LE2MIN_8";
       "DVP_KN_VRUN_THR_LE2MIN_16"; "DVP_KN_VRUN_THR_LE2THR_8"; "DVP_KN_VRUN_THR_LE2THR_16"]
      "DVP_Threshold_t"
      [Img "input" false; Img "output" true];
    mkRow
      ["DVP_KN_CANNY_IMAGE_SMOOTHING"; "DVP_KN_CONV_3x3"; "DVP_KN_CONV_5x5"; "DVP_KN_CONV_7x7";
       "DVP_KN_VRUN_CANNY_IMAGE_SMOOTHING"; "DVP_KN_VRUN_CONV_3x3"; "DVP_KN_VRUN_CONV_5x5"; "DVP_KN_VRUN_CONV_7x7";
       "DVP_KN_VRUN_CONV_MxN"]
      "DVP_ImageConvolution_t"
      [Img "input" false; Img "output" true; Img "mask" false];
    mkRow
      ["DVP_KN_VRUN_SAD_8x8"; "DVP_KN_VRUN_SAD_16x16"; "DVP_KN_VRUN_SAD_3x3"; "DVP_KN_VRUN_SAD_5x5";
       "DVP_KN_VRUN_SAD_7x7"]
      "DVP_SAD_t"
      [Img "input" false; Img "output" true; Img "refImg" false];
    mkRow
      ["DVP_KN_CANNY_2D_GRADIENT"; "DVP_KN_VRUN_CANNY_2D_GRADIENT"]
      "DVP_Canny2dGradient_t"
      [Img "input" false; Img "outGradX" true; Img "outGradY" true; Img "outMag" true];
    mkRow
      ["DVP_KN_CANNY_NONMAX_SUPPRESSION"; "DVP_KN_VRUN_CANNY_NONMAX_SUPPRESSION"]
      "DVP_CannyNonMaxSuppression_t"
      [Img "inMag" false; Img "inGradX" false; Img "inGradY" false; Img "output" true];
    mkRow
      ["DVP_KN_CANNY_HYST_THRESHHOLD"; "DVP_KN_VRUN_CANNY_HYST_THRESHHOLD"]
      "DVP_CannyHystThresholding_t"
      [Img "inMag" false; Img "inEdgeMap" false; Img "output" true] ].
Definition simcop_return_2 : list kernel_row :=
  [ mkRow
      ["DVP_KN_XYXY_TO_Y800"; "DVP_KN_UYVY_TO_YUV444p"; "DVP_KN_UYVY_TO_RGBp"; "DVP_KN_UYVY_TO_YUV420p";
       "DVP_KN_INTEGRAL_IMAGE_8"; "DVP_KN_NV12_TO_YUV444p"; "DVP_KN_YUV444p_TO_RGBp"; "DVP_KN_SOBEL_3x3_8s";
       "DVP_KN_SOBEL_3x3_8"; "DVP_KN_SOBEL_3x3_16s"; "DVP_KN_SOBEL_3x3_16"; "DVP_KN_SOBEL_5x5_8s";
       "DVP_KN_SOBEL_5x5_8"; "DVP_KN_SOBEL_5x5_16s"; "DVP_KN_SOBEL_5x5_16"; "DVP_KN_SOBEL_7x7_8s";
       "DVP_KN_SOBEL_7x7_8"; "DVP_KN_SOBEL_7x7_16s"; "DVP_KN_SOBEL_7x7_16"; "DVP_KN_VRUN_XYXY_TO_Y800";
       "DVP_KN_VRUN_UYVY_TO_YUV444p"; "DVP_KN_VRUN_UYVY_TO_RGBp"; "DVP_KN_VRUN_UYVY_TO_YUV420p";
       "DVP_KN_VRUN_INTEGRAL_IMAGE_8"; "DVP_KN_VRUN_NV12_TO_YUV444p"; "DVP_KN_VRUN_YUV444p_TO_RGBp";
       "DVP_KN_VRUN_SOBEL_3x3_8s"; "DVP_KN_VRUN_SOBEL_3x3_8"; "DVP_KN_VRUN_SOBEL_3x3_16s";
       "DVP_KN_VRUN_SOBEL_3x3_16"; "DVP_KN_VRUN_SOBEL_5x5_8s"; "DVP_KN_VRUN_SOBEL_5x5_8";
       "DVP_KN_VRUN_SOBEL_5x5_16s"; "DVP_KN_VRUN_SOBEL_5x5_16"; "DVP_KN_VRUN_SOBEL_7x7_8s";
       "DVP_KN_VRUN_SOBEL_7x7_8"; "DVP_KN_VRUN_SOBEL_7x7_16s"; "DVP_KN_VRUN_SOBEL_7x7_16";
       "DVP_KN_LDC_AFFINE_TRANSFORM"]
      "DVP_Transform_t"
      [Img "input" false; Img "output" true];
    mkRow
      ["DVP_KN_LDC_DISTORTION_CORRECTION"; "DVP_KN_LDC_DISTORTION_AND_AFFINE"]
      "DVP_Ldc_t"
      [Img "input" false; Img "output" true; Buf "ldcLut" false];
    mkRow
      ["DVP_KN_VRUN_HARRIS_CORNERS"]
      "DVP_HarrisCorners_t"
      [Img "input" false; Img "tempBuf1" true; Img "tempBuf2" true; Img "tempBuf3" true; Img "tempBuf4" true;
       Img "output" true];
    mkRow
      ["DVP_KN_VRUN_HARRIS_SCORE_7x7"]
      "DVP_Harris_t"
      [Img "input" false; Img "harrisScore" true];
    mkRow
      ["DVP_KN_VRUN_BLOCK_MAXIMA"]
      "DVP_BlockMaxima_t"
      [Img "input" false; Img "blockMaximaX" true; Img "blockMaximaY" true; Img "blockMaximaMAX" true];
    mkRow
      ["DVP_KN_VRUN_NMS_STEP1"]
      "DVP_NMSStep1_t"
      [Img "nmsStep1X" false; Img "nmsStep1Y" false; Img "nmsStep1Dst" true];
    mkRow
      ["DVP_KN_VRUN_GAUSSIAN_3x3_PYRAMID_8"; "DVP_KN_VRUN_GAUSSIAN_5x5_PYRAMID_8";
       "DVP_KN_VRUN_GAUSSIAN_7x7_PYRAMID_8"; "DVP_KN_VRUN_GRADIENT_H3x3_PYRAMID_8";
       "DVP_KN_VRUN_GRADIENT_H5x5_PYRAMID_8"; "DVP_KN_VRUN_GRADIENT_H7x7_PYRAMID_8";
       "DVP_KN_VRUN_GRADIENT_V3x3_PYRAMID_8"; "DVP_KN_VRUN_GRADIENT_V5x5_PYRAMID_8";
       "DVP_KN_VRUN_GRADIENT_V7x7_PYRAMID_8"]
      "DVP_Transform_t"
      [Img "input" false; Img "output" true];
    mkRow
      ["DVP_KN_VRUN_IMAGE_PYRAMID_8"]
      "DVP_Pyramid_t"
      [Img "input" false; Buf "output" true] ].
Definition simcop_return : list kernel_row :=
  simcop_return_1 ++ simcop_return_2.

(** ** DSP *)

Definition dsp_prepare_1 : list kernel_row :=
  [ mkRow
      ["DVP_KN_NOOP"]
      ""
      [];
    mkRow
      ["DVP_KN_COPY"]
      "DVP_Transform_t"
      [Img "input" true; Img "output" false];
    mkRow
      ["DVP_KN_XYXY_TO_Y800"; "DVP_KN_UYVY_TO_RGBp"; "DVP_KN_UYVY_TO_YUV420p"; "DVP_KN_UYVY_TO_YUV422p";
       "DVP_KN_YUV422p_TO_UYVY"; "DVP_KN_NV12_TO_YUV444p"; "DVP_KN_INTEGRAL_IMAGE_8"; "DVP_KN_VLIB_XYXY_TO_Y800";
       "DVP_KN_VLIB_UYVY_TO_RGBp"; "DVP_KN_VLIB_UYVY_TO_YUV420p"; "DVP_KN_VLIB_UYVY_TO_YUV422p";
       "DVP_KN_VLIB_YUV422p_TO_UYVY"; "DVP_KN_VLIB_INTEGRAL_IMAGE_8"; "DVP_KN_VLIB_INTEGRAL_IMAGE_16";
       "DVP_KN_VLIB_PACK_MASK_32"; "DVP_KN_VLIB_UNPACK_MASK_32"; "DVP_KN_VLIB_IMAGE_PYRAMID_8";
       "DVP_KN_VLIB_IMAGE_PYRAMID_16"; "DVP_KN_VLIB_INIT_MEAN_LUMA_S16"; "DVP_KN_VLIB_INIT_MEAN_LUMA_S32";
       "DVP_KN_VLIB_EXTRACT_BACK_8_16"]
      "DVP_Transform_t"
      [Img "input" true; Img "output" false];
    mkRow
      ["DVP_KN_DILATE_CROSS"; "DVP_KN_DILATE_SQUARE"; "DVP_KN_DILATE_MASK"; "DVP_KN_ERODE_CROSS";
       "DVP_KN_ERODE_MASK"; "DVP_KN_ERODE_SQUARE"; "DVP_KN_VLIB_DILATE_CROSS"; "DVP_KN_VLIB_DILATE_SQUARE";
       "DVP_KN_VLIB_DILATE_MASK"; "DVP_KN_VLIB_ERODE_CROSS"; "DVP_KN_VLIB_ERODE_MASK"; "DVP_KN_VLIB_ERODE_SQUARE";
       "DVP_KN_VLIB_ERODE_SINGLEPIXEL"]
      "DVP_Morphology_t"
      [Img "input" true; Img "output" false; Only ["DVP_KN_ERODE_MASK"; "DVP_KN_DILATE_MASK"] (Img "mask" true)];
    mkRow
      ["DVP_KN_IIR_HORZ"; "DVP_KN_IIR_VERT"; "DVP_KN_VLIB_IIR_HORZ"; "DVP_KN_VLIB_IIR_VERT";
       "DVP_KN_VLIB_IIR_HORZ_16"; "DVP_KN_VLIB_IIR_VERT_16"]
      "DVP_IIR_t"
      [Img "input" true; Img "output" false; Img "scratch" false; Bound "bounds[0]"; Bound "bounds[1]"];
    mkRow
      ["DVP_KN_VLIB_CCL"]
      "DVP_CCL_t"
      [Img "input" true; Img "output" false];
    mkRow
      ["DVP_KN_CANNY_2D_GRADIENT"; "DVP_KN_VLIB_CANNY_2D_GRADIENT"]
      "DVP_Canny2dGradient_t"
      [Img "input" true; Img "outGradX" false; Img "outGradY" false; Img "outMag" false];
    mkRow
      ["DVP_KN_CANNY_NONMAX_SUPPRESSION"; "DVP_KN_VLIB_CANNY_NONMAX_SUPPRESSION"]
      "DVP_CannyNonMaxSuppression_t"
      [Img "inMag" true; Img "inGradX" true; Img "inGradY" true; Img "output" false] ].
Definition dsp_prepare_2 : list kernel_row :=
  [ mkRow
      ["DVP_KN_VLIB_GRADIENT_V5x5_PYRAMID_8"; "DVP_KN_VLIB_GRADIENT_H5x5_PYRAMID_8";
       "DVP_KN_VLIB_GAUSSIAN_5x5_PYRAMID_8"; "DVP_KN_VLIB_GAUSSIAN_5x5_PYRAMID_16"]
      "DVP_Gradient_t"
      [Img "input" true; Img "scratch" true; Img "output" false];
    mkRow
      ["DVP_KN_CANNY_HYST_THRESHHOLD"; "DVP_KN_VLIB_CANNY_HYST_THRESHHOLD"; "DVP_KN_VLIB_HYST_THRESHOLD"]
      "DVP_CannyHystThresholding_t"
      [Img "inMag" true; Img "inEdgeMap" true; Img "output" false];
    mkRow
      ["DVP_KN_NONMAXSUPPRESS_3x3_S16"; "DVP_KN_NONMAXSUPPRESS_5x5_S16"; "DVP_KN_NONMAXSUPPRESS_7x7_S16";
       "DVP_KN_VLIB_NONMAXSUPPRESS_3x3_S16"; "DVP_KN_VLIB_NONMAXSUPPRESS_5x5_S16";
       "DVP_KN_VLIB_NONMAXSUPPRESS_7x7_S16"]
      "DVP_Threshold_t"
      [Img "input" true; Img "output" false];
    mkRow
      ["DVP_KN_VLIB_INIT_HISTOGRAM_8"; "DVP_KN_VLIB_INIT_HISTOGRAM_16"]
      "DVP_Histogram_t"
      [Buf "edges" true; Buf "histArray" true];
    mkRow
      ["DVP_KN_VLIB_HISTOGRAM_8"]
      "DVP_Histogram_t"
      [Img "input" true; Buf "edges" true; Buf "histArray" true; Buf "h[0]" false; Buf "h[1]" false;
       Buf "h[2]" false; Buf "hOut" false];
    mkRow
      ["DVP_KN_VLIB_WEIGHTED_HISTOGRAM_8"]
      "DVP_Histogram_t"
      [Img "input" true; Buf "edges" true; Buf "histArray" true; Buf "binWeights" true; Buf "h[0]" false;
       Buf "h[1]" false; Buf "h[2]" false; Buf "hOut" false];
    mkRow
      ["DVP_KN_VLIB_HISTOGRAM_16"]
      "DVP_Histogram_t"
      [Img "input" true; Buf "edges" true; Buf "histArray" true; Buf "h[0]" false; Buf "hOut" false];
    mkRow
      ["DVP_KN_VLIB_WEIGHTED_HISTOGRAM_16"]
      "DVP_Histogram_t"
      [Img "input" true; Buf "edges" true; Buf "histArray" true; Buf "binWeights" true; Buf "h[0]" false;
       Buf "hOut" false];
    mkRow
      ["DVP_KN_VLIB_HISTOGRAM_ND_16"]
      "DVP_Histogram_t"
      [Img "input" true; Buf "numBinsArray" true; Buf "h[0]" false; Buf "h[1]" false; Buf "h[2]" false;
       Buf "hOut" false];
    mkRow
      ["DVP_KN_VLIB_BHATTACHAYA_DISTANCE"; "DVP_KN_VLIB_L1DISTANCE"]
      "DVP_Distance_t"
      [Img "X" true; Img "Y" true];
    mkRow
      ["DVP_KN_VLIB_INIT_VAR_CONST_S16"; "DVP_KN_VLIB_INIT_VAR_CONST_S32"]
      "DVP_ConstVar_t"
      [Img "var" true];
    mkRow
      ["DVP_KN_VLIB_DISPARITY_SAD8"; "DVP_KN_VLIB_DISPARITY_SAD16"]
      "DVP_Disparity_t"
      [Img "left" true; Img "right" true; Img "cost" true; Img "mincost" true; Img "disparity" false];
    mkRow
      ["DVP_KN_VLIB_SUB_BACK_S16"; "DVP_KN_VLIB_SUB_BACK_S32"]
      "DVP_SubBackground_t"
      [Img "newestData" true; Img "currentMean" true; Img "currentVar" true; Img "output32packed" false] ].
Definition dsp_prepare_3 : list kernel_row :=
  [ mkRow
      ["DVP_KN_VLIB_MOG_S16"; "DVP_KN_VLIB_MOG_S32"]
      "DVP_Mog_t"
      [Img "image" true; Img "wts" false; Img "means" false; Img "vars" false; Img "compIndex" false;
       Img "scratch" false; Img "fgmask" false];
    mkRow
      ["DVP_KN_VLIB_NORMALFLOW_16"]
      "DVP_NormalFlow_t"
      [Img "input" true; Img "mag" true; Img "x" true; Img "y" true; Img "lut" true; Img "u" false; Img "v" false];
    mkRow
      ["DVP_KN_VLIB_NEDLER_MEAD_SIMPLEX_16"; "DVP_KN_VLIB_NEDLER_MEAD_SIMPLEX_3D"]
      "DVP_Simplex_t"
      [Buf "start" true; Buf "step" false; Buf "stop" false; Buf "intBuf[0]" false; Buf "intBuf[1]" false;
       Buf "intBuf[2]" false; Buf "intBuf[3]" false; Buf "intBuf[4]" false; Buf "intBuf[5]" false];
    mkRow
      ["DVP_KN_VLIB_HARRIS_SCORE_7x7"; "DVP_KN_VLIB_HARRIS_SCORE_7x7_U32"]
      "DVP_HarrisDSP_t"
      [Img "inGradX" true; Img "inGradY" true; Buf "scratch" false; Img "harrisScore" false];
    mkRow
      ["DVP_KN_VLIB_TRACK_FEATURES_LUCAS_7x7"]
      "DVP_TrackFeatures_t"
      [Img "im1" true; Img "im2" true; Img "gradx" true; Img "grady" true; Buf "x" false; Buf "y" false;
       Buf "outx" false; Buf "outy" false; Buf "scratch" false];
    mkRow
      ["DVP_KN_VLIB_HOUGH_LINE_FROM_LIST"]
      "DVP_HoughLine_t"
      [Buf "pEdgeMapList" true; Buf "pSIN" true; Buf "pCOS" true; Buf "ping" true; Buf "pong" true;
       Buf "pang" true; Buf "peng" true; Img "pOutHoughSpace" false];
    mkRow
      ["DVP_KN_VLIB_EWR_MEAN_S16"; "DVP_KN_VLIB_EWR_MEAN_S32"]
      "DVP_EMean_t"
      [Img "mean" true; Img "data" true; Img "mask" false];
    mkRow
      ["DVP_KN_VLIB_EWR_VAR_S16"; "DVP_KN_VLIB_EWR_VAR_S32"]
      "DVP_EMean_t"
      [Img "var" true; Img "mean" true; Img "data" true; Img "mask" false];
    mkRow
      ["DVP_KN_VLIB_UWR_MEAN_S16"]
      "DVP_UMean_t"
      [Img "old_mean" true; Img "new_data" true; Img "old_data" true; Img "new_mask" true; Img "old_mask" true;
       Img "new_mean" false];
    mkRow
      ["DVP_KN_VLIB_UWR_VAR_S16"]
      "DVP_UMean_t"
      [Img "old_var" true; Img "new_mean" true; Img "old_mean" true; Img "new_data" true; Img "old_data" true;
       Img "new_mask" true; Img "old_mask" true; Img "new_var" false];
    mkRow
      ["DVP_KN_VLIB_LEGENDRE_MOMENTS_INIT"]
      "DVP_LegendreMoments_t"
      [Buf "lPoly" false];
    mkRow
      ["DVP_KN_VLIB_LEGENDRE_MOMENTS"]
      "DVP_LegendreMoments_t"
      [Img "im" true; Buf "lPoly" true; Buf "lMoments" false];
    mkRow
      ["DVP_KN_UYVY_TO_HSLp"; "DVP_KN_VLIB_UYVY_TO_HSLp"]
      "DVP_Int2Pl_t"
      [Img "input" true; Img "output1" false; Img "output2" false; Img "output3" false] ].
Definition dsp_prepare_4 : list kernel_row :=
  [ mkRow
      ["DVP_KN_UYVY_TO_LABp"; "DVP_KN_VLIB_UYVY_TO_LABp"]
      "DVP_Int2Pl_t"
      [Img "input" true; Img "output1" false; Img "output2" false; Img "output3" false; Buf "scratch" false];
    mkRow
      ["DVP_KN_VLIB_NONMAXSUPPRESS_U32"]
      "DVP_Nonmax_NxN_t"
      [Img "input" true; Buf "scratch" false; Buf "pixIndex" false];
    mkRow
      ["DVP_KN_TISMO_DISPARITY"]
      "DVP_Tismo_t"
      [Img "left" true; Img "right" true; Img "output" false; Img "invalid" false];
    mkRow
      ["DVP_KN_TISMOV02_DISPARITY"]
      "DVP_TismoV02_t"
      [Img "in_left" true; Img "in_right" true; Img "in_leftIntegralImage" true; Img "in_rightIntegralImage" true;
       Img "out_raw" false; Img "out_invalid" false; Img "out_confidence" false; Img "out_matchScore" false;
       Img "out_lumaU8" false];
    mkRow
      ["DVP_KN_ORB"]
      "DVP_Orb_t"
      [Img "inputImage" true; Img "filtImage" true; Img "harrisImage" true; Img "integralImage" true;
       Buf "orbPattern31" true; Buf "orbOutput.orbData" false; Img "orbOutput.outImage" true];
    mkRow
      ["DVP_KN_DEI_DEINTERLACER"]
      "DVP_Deinterlacer_t"
      [IfZero "phy_virt_flag" (Img "phy_fld_in_current" true); IfZero "phy_virt_flag" (Img "phy_fld_in_prev" true);
       Buf "phy_luma_d0" true; Buf "phy_luma_d1" true; Buf "phy_luma_d2" true];
    mkRow
      ["DVP_KN_RVM"]
      "DVP_Rvm_t"
      [Img "input" true; Img "output" false; Buf "lut" true];
    mkRow
      ["DVP_KN_IMG_BOUNDARY_8"; "DVP_KN_IMG_BOUNDARY_16s"]
      "DVP_Boundary_t"
      [Img "input" true; Buf "outCoord" false; Buf "outGray" false];
    mkRow
      ["DVP_KN_YUV422p_TO_RGB565"; "DVP_KN_SOBEL_3x3_8"; "DVP_KN_IMG_YUV422p_TO_RGB565"; "DVP_KN_IMG_SOBEL_3x3_8";
       "DVP_KN_IMG_SOBEL_3x3_16s"; "DVP_KN_IMG_SOBEL_5x5_16s"; "DVP_KN_IMG_SOBEL_7x7_16s"; "DVP_KN_IMG_PIX_SAT";
       "DVP_KN_IMG_PIX_EXPAND"; "DVP_KN_IMG_PERIMETER_8"; "DVP_KN_IMG_PERIMETER_16"; "DVP_KN_IMG_MEDIAN_3x3_8";
       "DVP_KN_IMG_MEDIAN_3x3_16s"; "DVP_KN_IMG_FDCT_8x8"; "DVP_KN_IMG_IDCT_8x8_12Q4"]
      "DVP_Transform_t"
      [Img "input" true; Img "output" false];
    mkRow
      ["DVP_KN_IMG_CLIPPING_16"]
      "DVP_CannyHystThresholding_t"
      [Img "inMag" true; Img "inEdgeMap" true; Img "output" false] ].
Definition dsp_prepare_5 : list kernel_row :=
  [ mkRow
      ["DVP_KN_IMG_HISTOGRAM_8"; "DVP_KN_IMG_HISTOGRAM_16"]
      "DVP_Histogram_t"
      [Img "input" true; Buf "histArray" true; Buf "hOut" false];
    mkRow
      ["DVP_KN_CANNY_IMAGE_SMOOTHING"; "DVP_KN_CONV_3x3"; "DVP_KN_CONV_5x5"; "DVP_KN_CONV_7x7";
       "DVP_KN_IMG_CONV_3x3"; "DVP_KN_IMG_CONV_5x5"; "DVP_KN_IMG_CONV_7x7"; "DVP_KN_IMG_CONV_11x11";
       "DVP_KN_IMG_CONV_3x3_I16s_C16"; "DVP_KN_IMG_CONV_7x7_I16s_C16"; "DVP_KN_IMG_CONV_11x11_I16s_C16"]
      "DVP_ImageConvolution_t"
      [Img "input" true; Img "output" false; Img "mask" true];
    mkRow
      ["DVP_KN_IMG_SAD_3x3"; "DVP_KN_IMG_SAD_5x5"; "DVP_KN_IMG_SAD_7x7"; "DVP_KN_IMG_SAD_8x8";
       "DVP_KN_IMG_SAD_16x16"; "DVP_KN_IMG_MAD_8x8"; "DVP_KN_IMG_MAD_16x16"]
      "DVP_SAD_t"
      [Img "input" true; Img "output" false; Img "refImg" true];
    mkRow
      ["DVP_KN_IMG_CONV_5x5_I8_C16"; "DVP_KN_IMG_CONV_5x5_I16s_C16"; "DVP_KN_IMG_CONV_7x7_I8_C16"]
      "DVP_ImageConvolution_with_buffer_t"
      [Img "input" true; Img "mask" true; Buf "scratch" true; Img "output" false];
    mkRow
      ["DVP_KN_THR_GT2MAX_8"; "DVP_KN_THR_GT2MAX_16"; "DVP_KN_THR_GT2THR_8"; "DVP_KN_THR_GT2THR_16";
       "DVP_KN_THR_LE2MIN_8"; "DVP_KN_THR_LE2MIN_16"; "DVP_KN_THR_LE2THR_8"; "DVP_KN_THR_LE2THR_16";
       "DVP_KN_IMG_THR_GT2MAX_8"; "DVP_KN_IMG_THR_GT2MAX_16"; "DVP_KN_IMG_THR_GT2THR_8";
       "DVP_KN_IMG_THR_GT2THR_16"; "DVP_KN_IMG_THR_LE2MIN_8"; "DVP_KN_IMG_THR_LE2MIN_16";
       "DVP_KN_IMG_THR_LE2THR_8"; "DVP_KN_IMG_THR_LE2THR_16"; "DVP_KN_IMG_ERRDIFF_BIN_8";
       "DVP_KN_IMG_ERRDIFF_BIN_16"]
      "DVP_Threshold_t"
      [Img "input" true; Img "output" false];
    mkRow
      ["DVP_KN_IMG_YC_DEMUX_BE16_8"; "DVP_KN_IMG_YC_DEMUX_LE16_8"]
      "DVP_Int2Pl_t"
      [Img "input" true; Img "output1" false; Img "output2" false; Img "output3" false];
    mkRow
      ["DVP_KN_IMG_CORR_3x3"; "DVP_KN_IMG_CORR_3x3_I8_C16s"; "DVP_KN_IMG_CORR_3x3_I16s_C16s";
       "DVP_KN_IMG_CORR_5x5_I16s_C16s"; "DVP_KN_IMG_CORR_11x11_I8_C16s"; "DVP_KN_IMG_CORR_11x11_I16s_C16s";
       "DVP_KN_IMG_CORR_GEN_I16s_C16s"; "DVP_KN_IMG_CORR_GEN_IQ"]
      "DVP_ImageCorrelation_t"
      [Img "input" true; Img "mask" true; Img "output" false];
    mkRow
      ["DVP_KN_IMG_QUANTIZE_16"]
      "DVP_ImageQuantization_t"
      [Img "input" true; Buf "recip_tbl" true];
    mkRow
      ["DVP_KN_IMG_WAVE_HORZ"]
      "DVP_ImageWavelet_t"
      [Img "input" true; Buf "qmf" true; Buf "mqmf" true; Img "output" false];
    mkRow
      ["DVP_KN_VLIB_KALMAN_2x4"; "DVP_KN_VLIB_KALMAN_4x6"]
      "DVP_KalmanFilter_t"
      [Buf "inMeasurements" false; Buf "transition" false; Buf "errorCov" false; Buf "predictedErrorCov" false;
       Buf "state" false; Buf "predictedState" false; Buf "measurement" false; Buf "processNoiseCov" false;
       Buf "measurementNoiseCov" false; Buf "kalmanGain" false; Buf "temp1" false; Buf "temp2" false;
       Buf "temp3" false];
    mkRow
      ["DVP_KN_DSP_ADD16"; "DVP_KN_DSP_ADD32"]
      "DVP_DSPFunc"
      [Buf "input0" true; Buf "input1" true; Buf "output0" true] ].
Definition dsp_prepare_6 : list kernel_row :=
  [ mkRow
      ["DVP_KN_DSP_AUTOCORR16"]
      "DVP_DSPFunc"
      [Buf "input0" true; Buf "output0" true];
    mkRow
      ["DVP_KN_DSP_BITEXP32"]
      "DVP_DSPFunc"
      [Buf "input0" true];
    mkRow
      ["DVP_KN_DSP_BLKESWAP16"]
      "DVP_DSPFunc"
      [Buf "input0" true; Buf "output0" true];
    mkRow
      ["DVP_KN_DSP_BLKESWAP32"]
      "DVP_DSPFunc"
      [Buf "input0" true; Buf "output0" true];
    mkRow
      ["DVP_KN_DSP_BLKESWAP64"]
      "DVP_DSPFunc"
      [Buf "input0" true; Buf "output0" true];
    mkRow
      ["DVP_KN_DSP_BLKMOVE"]
      "DVP_DSPFunc"
      [Buf "input0" true; Buf "output0" true];
    mkRow
      ["DVP_KN_DSP_DOTPRODSQR"]
      "DVP_DSPFunc"
      [Buf "input0" true; Buf "input1" true; Buf "output0" true];
    mkRow
      ["DVP_KN_DSP_DOTPROD"]
      "DVP_DSPFunc"
      [Buf "input0" true; Buf "input1" true];
    mkRow
      ["DVP_KN_DSP_FFT_16x16"]
      "DVP_DSPFunc"
      [Buf "input0" true; Buf "twoway" true; Buf "output0" true];
    mkRow
      ["DVP_KN_DSP_FFT_16x16R"]
      "DVP_DSPFunc"
      [Buf "input0" true; Buf "twoway" true; Buf "output0" true];
    mkRow
      ["DVP_KN_DSP_FFT_16x16_IMRE"]
      "DVP_DSPFunc"
      [Buf "input0" true; Buf "twoway" true; Buf "output0" true];
    mkRow
      ["DVP_KN_DSP_FFT_16x32"]
      "DVP_DSPFunc"
      [Buf "input0" true; Buf "twoway" true; Buf "output0" true];
    mkRow
      ["DVP_KN_DSP_FFT_32x32"]
      "DVP_DSPFunc"
      [Buf "input0" true; Buf "twoway" true; Buf "output0" true];
    mkRow
      ["DVP_KN_DSP_FFT_32x32s"]
      "DVP_DSPFunc"
      [Buf "input0" true; Buf "twoway" true; Buf "output0" true];
    mkRow
      ["DVP_KN_DSP_FIR_CPLX"; "DVP_KN_DSP_FIR_HM4x4"; "DVP_KN_DSP_FIR_GEN"; "DVP_KN_DSP_FIR_HM17_RA8x8";
       "DVP_KN_DSP_FIR_R4"; "DVP_KN_DSP_FIR_R8"; "DVP_KN_DSP_FIR_HM16_RM8A8x8"; "DVP_KN_DSP_FIR_SYM"]
      "DVP_DSPFunc"
      [Buf "input0" true; Buf "twoway" true; Buf "output0" true];
    mkRow
      ["DVP_KN_DSP_FIR_LMS2"]
      "DVP_DSPFunc"
      [Buf "input0" true; Buf "twoway" true];
    mkRow
      ["DVP_KN_DSP_IFFT_16x16"; "DVP_KN_DSP_IFFT_16x16_IMRE"; "DVP_KN_DSP_IFFT_16x32"; "DVP_KN_DSP_IFFT_32x32"]
      "DVP_DSPFunc"
      [Buf "input0" true; Buf "twoway" true; Buf "output0" true];
    mkRow
      ["DVP_KN_DSP_IIR"]
      "DVP_DSPFunc"
      [Buf "input0" true; Buf "input1" true; Buf "output1" true; Buf "twoway" true; Buf "output0" true] ].
Definition dsp_prepare_7 : list kernel_row :=
  [ mkRow
      ["DVP_KN_DSP_IIR_LAT"]
      "DVP_DSPFunc"
      [Buf "input0" true; Buf "output0" true; Buf "input1" true; Buf "twoway" true];
    mkRow
      ["DVP_KN_DSP_IIR_SS"]
      "DVP_DSPFunc"
      [Buf "input0" true; Buf "input1" true];
    mkRow
      ["DVP_KN_DSP_MUL"; "DVP_KN_DSP_MUL_CPLX"]
      "DVP_DSP_MatMul"
      [Buf "input0" true; Buf "input1" true; Buf "output0" true];
    mkRow
      ["DVP_KN_DSP_MAT_TRANS"]
      "DVP_DSPFunc"
      [Buf "input0" true; Buf "output0" true];
    mkRow
      ["DVP_KN_DSP_MAXIDX"; "DVP_KN_DSP_MAXVAL"; "DVP_KN_DSP_MINVAL"]
      "DVP_DSPFunc"
      [Buf "input0" true];
    mkRow
      ["DVP_KN_DSP_MINERROR"]
      "DVP_DSPFunc"
      [Buf "input0" true; Buf "input1" true];
    mkRow
      ["DVP_KN_DSP_MUL32"]
      "DVP_DSPFunc"
      [Buf "input0" true; Buf "input1" true; Buf "output0" true];
    mkRow
      ["DVP_KN_DSP_NEG32"]
      "DVP_DSPFunc"
      [Buf "input0" true; Buf "output0" true];
    mkRow
      ["DVP_KN_DSP_RECIP16"]
      "DVP_DSPFunc"
      [Buf "input0" true; Buf "twoway" true; Buf "output0" true];
    mkRow
      ["DVP_KN_DSP_VECSUMSQ"]
      "DVP_DSPFunc"
      [Buf "input0" true];
    mkRow
      ["DVP_KN_DSP_W_VEC"]
      "DVP_DSPFunc"
      [Buf "input0" true; Buf "input1" true; Buf "output0" true];
    mkRow
      ["DVP_KN_GEN_TWIDDLE_FFT_16X16"]
      "DVP_DSPFunc"
      [Buf "input0" true];
    mkRow
      ["DVP_KN_GEN_TWIDDLE_FFT_16X16_IMRE"]
      "DVP_DSPFunc"
      [Buf "input0" true];
    mkRow
      ["DVP_KN_GEN_TWIDDLE_FFT_16X32"]
      "DVP_DSPFunc"
      [Buf "input0" true];
    mkRow
      ["DVP_KN_GEN_TWIDDLE_FFT_32x32"]
      "DVP_DSPFunc"
      [Buf "input0" true];
    mkRow
      ["DVP_KN_GEN_TWIDDLE_IFFT_16X16"]
      "DVP_DSPFunc"
      [Buf "input0" true];
    mkRow
      ["DVP_KN_GEN_TWIDDLE_IFFT_16X16_IMRE"]
      "DVP_DSPFunc"
      [Buf "input0" true] ].
Definition dsp_prepare : list kernel_row :=
  dsp_prepare_1 ++ dsp_prepare_2 ++ dsp_prepare_3 ++ dsp_prepare_4 ++ dsp_prepare_5 ++ dsp_prepare_6 ++ dsp_prepare_7.

Definition dsp_return_1 : list kernel_row :=
  [ mkRow
      ["DVP_KN_NOOP"]
      ""
      [];
    mkRow
      ["DVP_KN_COPY"]
      "DVP_Transform_t"
      [Img "input" false; Img "output" true];
    mkRow
      ["DVP_KN_XYXY_TO_Y800"; "DVP_KN_UYVY_TO_RGBp"; "DVP_KN_UYVY_TO_YUV420p"; "DVP_KN_UYVY_TO_YUV422p";
       "DVP_KN_YUV422p_TO_UYVY"; "DVP_KN_NV12_TO_YUV444p"; "DVP_KN_INTEGRAL_IMAGE_8"; "DVP_KN_VLIB_XYXY_TO_Y800";
       "DVP_KN_VLIB_UYVY_TO_RGBp"; "DVP_KN_VLIB_UYVY_TO_YUV420p"; "DVP_KN_VLIB_UYVY_TO_YUV422p";
       "DVP_KN_VLIB_YUV422p_TO_UYVY"; "DVP_KN_VLIB_INTEGRAL_IMAGE_8"; "DVP_KN_VLIB_INTEGRAL_IMAGE_16";
       "DVP_KN_VLIB_PACK_MASK_32"; "DVP_KN_VLIB_UNPACK_MASK_32"; "DVP_KN_VLIB_IMAGE_PYRAMID_8";
       "DVP_KN_VLIB_IMAGE_PYRAMID_16"; "DVP_KN_VLIB_INIT_MEAN_LUMA_S16"; "DVP_KN_VLIB_INIT_MEAN_LUMA_S32";
       "DVP_KN_VLIB_EXTRACT_BACK_8_16"]
      "DVP_Transform_t"
      [Img "input" false; Img "output" true];
    mkRow
      ["DVP_KN_DILATE_CROSS"; "DVP_KN_DILATE_SQUARE"; "DVP_KN_DILATE_MASK"; "DVP_KN_ERODE_CROSS";
       "DVP_KN_ERODE_MASK"; "DVP_KN_ERODE_SQUARE"; "DVP_KN_VLIB_DILATE_CROSS"; "DVP_KN_VLIB_DILATE_SQUARE";
       "DVP_KN_VLIB_DILATE_MASK"; "DVP_KN_VLIB_ERODE_CROSS"; "DVP_KN_VLIB_ERODE_MASK"; "DVP_KN_VLIB_ERODE_SQUARE";
       "DVP_KN_VLIB_ERODE_SINGLEPIXEL"]
      "DVP_Morphology_t"
      [Img "input" false; Img "output" true; Only ["DVP_KN_ERODE_MASK"; "DVP_KN_DILATE_MASK"] (Img "mask" false)];
    mkRow
      ["DVP_KN_IIR_HORZ"; "DVP_KN_IIR_VERT"; "DVP_KN_VLIB_IIR_HORZ"; "DVP_KN_VLIB_IIR_VERT";
       "DVP_KN_VLIB_IIR_HORZ_16"; "DVP_KN_VLIB_IIR_VERT_16"]
      "DVP_IIR_t"
      [Img "input" false; Img "output" true; Img "scratch" false; Bound "bounds[0]"; Bound "bounds[1]"];
    mkRow
      ["DVP_KN_VLIB_CCL"]
      "DVP_CCL_t"
      [Img "input" false; Img "output" true];
    mkRow
      ["DVP_KN_CANNY_2D_GRADIENT"; "DVP_KN_VLIB_CANNY_2D_GRADIENT"]
      "DVP_Canny2dGradient_t"
      [Img "input" false; Img "outGradX" true; Img "outGradY" true; Img "outMag" true];
    mkRow
      ["DVP_KN_CANNY_NONMAX_SUPPRESSION"; "DVP_KN_VLIB_CANNY_NONMAX_SUPPRESSION"]
      "DVP_CannyNonMaxSuppression_t"
      [Img "inMag" false; Img "inGradX" false; Img "inGradY" false; Img "output" true];
    mkRow
      ["DVP_KN_VLIB_GRADIENT_V5x5_PYRAMID_8"; "DVP_KN_VLIB_GRADIENT_H5x5_PYRAMID_8";
       "DVP_KN_VLIB_GAUSSIAN_5x5_PYRAMID_8"; "DVP_KN_VLIB_GAUSSIAN_5x5_PYRAMID_16"]
      "DVP_Gradient_t"
      [Img "input" false; Img "scratch" false; Img "output" true];
    mkRow
      ["DVP_KN_CANNY_HYST_THRESHHOLD"; "DVP_KN_VLIB_CANNY_HYST_THRESHHOLD"; "DVP_KN_VLIB_HYST_THRESHOLD"]
      "DVP_CannyHystThresholding_t"
      [Img "inMag" false; Img "inEdgeMap" false; Img "output" true];
    mkRow
      ["DVP_KN_NONMAXSUPPRESS_3x3_S16"; "DVP_KN_NONMAXSUPPRESS_5x5_S16"; "DVP_KN_NONMAXSUPPRESS_7x7_S16";
       "DVP_KN_VLIB_NONMAXSUPPRESS_3x3_S16"; "DVP_KN_VLIB_NONMAXSUPPRESS_5x5_S16";
       "DVP_KN_VLIB_NONMAXSUPPRESS_7x7_S16"]
      "DVP_Threshold_t"
      [Img "input" false; Img "output" true];
    mkRow
      ["DVP_KN_VLIB_INIT_HISTOGRAM_8"; "DVP_KN_VLIB_INIT_HISTOGRAM_16"]
      "DVP_Histogram_t"
      [Buf "edges" false; Buf "histArray" true] ].
Definition dsp_return_2 : list kernel_row :=
  [ mkRow
      ["DVP_KN_VLIB_HISTOGRAM_8"]
      "DVP_Histogram_t"
      [Img "input" false; Buf "edges" false; Buf "histArray" true; Buf "h[0]" false; Buf "h[1]" false;
       Buf "h[2]" false; Buf "hOut" true];
    mkRow
      ["DVP_KN_VLIB_WEIGHTED_HISTOGRAM_8"]
      "DVP_Histogram_t"
      [Img "input" false; Buf "edges" false; Buf "histArray" true; Buf "binWeights" false; Buf "h[0]" false;
       Buf "h[1]" false; Buf "h[2]" false; Buf "hOut" true];
    mkRow
      ["DVP_KN_VLIB_HISTOGRAM_16"]
      "DVP_Histogram_t"
      [Img "input" false; Buf "edges" false; Buf "histArray" true; Buf "h[0]" false; Buf "hOut" true];
    mkRow
      ["DVP_KN_VLIB_WEIGHTED_HISTOGRAM_16"]
      "DVP_Histogram_t"
      [Img "input" false; Buf "edges" false; Buf "histArray" true; Buf "binWeights" false; Buf "h[0]" false;
       Buf "hOut" true];
    mkRow
      ["DVP_KN_VLIB_HISTOGRAM_ND_16"]
      "DVP_Histogram_t"
      [Img "input" false; Buf "numBinsArray" false; Buf "h[0]" false; Buf "h[1]" false; Buf "h[2]" false;
       Buf "hOut" true];
    mkRow
      ["DVP_KN_VLIB_BHATTACHAYA_DISTANCE"]
      "DVP_Distance_t"
      [Img "X" false; Img "Y" false];
    mkRow
      ["DVP_KN_VLIB_L1DISTANCE"]
      "DVP_Distance_t"
      [Img "X" false; Img "Y" false];
    mkRow
      ["DVP_KN_VLIB_INIT_VAR_CONST_S16"; "DVP_KN_VLIB_INIT_VAR_CONST_S32"]
      "DVP_ConstVar_t"
      [Img "var" false];
    mkRow
      ["DVP_KN_VLIB_DISPARITY_SAD8"; "DVP_KN_VLIB_DISPARITY_SAD16"]
      "DVP_Disparity_t"
      [Img "left" false; Img "right" false; Img "cost" false; Img "mincost" false; Img "disparity" true];
    mkRow
      ["DVP_KN_VLIB_SUB_BACK_S16"; "DVP_KN_VLIB_SUB_BACK_S32"]
      "DVP_SubBackground_t"
      [Img "newestData" false; Img "currentMean" false; Img "currentVar" false; Img "output32packed" true];
    mkRow
      ["DVP_KN_VLIB_MOG_S16"; "DVP_KN_VLIB_MOG_S32"]
      "DVP_Mog_t"
      [Img "image" false; Img "wts" true; Img "means" true; Img "vars" true; Img "compIndex" true;
       Img "scratch" true; Img "fgmask" true];
    mkRow
      ["DVP_KN_VLIB_NORMALFLOW_16"]
      "DVP_NormalFlow_t"
      [Img "input" false; Img "mag" false; Img "x" false; Img "y" false; Img "lut" false; Img "u" true;
       Img "v" true];
    mkRow
      ["DVP_KN_VLIB_NEDLER_MEAD_SIMPLEX_16"; "DVP_KN_VLIB_NEDLER_MEAD_SIMPLEX_3D"]
      "DVP_Simplex_t"
      [Buf "start" true; Buf "step" true; Buf "stop" true; Buf "intBuf[0]" true; Buf "intBuf[1]" true;
       Buf "intBuf[2]" true; Buf "intBuf[3]" true; Buf "intBuf[4]" true; Buf "intBuf[5]" true];
    mkRow
      ["DVP_KN_VLIB_HARRIS_SCORE_7x7"; "DVP_KN_VLIB_HARRIS_SCORE_7x7_U32"]
      "DVP_HarrisDSP_t"
      [Img "inGradX" false; Img "inGradY" false; Buf "scratch" false; Img "harrisScore" true] ].
Definition dsp_return_3 : list kernel_row :=
  [ mkRow
      ["DVP_KN_VLIB_TRACK_FEATURES_LUCAS_7x7"]
      "DVP_TrackFeatures_t"
      [Img "im1" false; Img "im2" false; Img "gradx" false; Img "grady" false; Buf "x" true; Buf "y" true;
       Buf "outx" true; Buf "outy" true; Buf "scratch" true];
    mkRow
      ["DVP_KN_VLIB_HOUGH_LINE_FROM_LIST"]
      "DVP_HoughLine_t"
      [Buf "pEdgeMapList" false; Buf "pSIN" false; Buf "pCOS" false; Buf "ping" false; Buf "pong" false;
       Buf "pang" false; Buf "peng" false; Img "pOutHoughSpace" true];
    mkRow
      ["DVP_KN_VLIB_EWR_MEAN_S16"; "DVP_KN_VLIB_EWR_MEAN_S32"]
      "DVP_EMean_t"
      [Img "mean" false; Img "data" false; Img "mask" true];
    mkRow
      ["DVP_KN_VLIB_EWR_VAR_S16"; "DVP_KN_VLIB_EWR_VAR_S32"]
      "DVP_EMean_t"
      [Img "var" false; Img "mean" false; Img "data" false; Img "mask" true];
    mkRow
      ["DVP_KN_VLIB_UWR_MEAN_S16"]
      "DVP_UMean_t"
      [Img "old_mean" false; Img "new_data" false; Img "old_data" false; Img "new_mask" false;
       Img "old_mask" false; Img "new_mean" true];
    mkRow
      ["DVP_KN_VLIB_UWR_VAR_S16"]
      "DVP_UMean_t"
      [Img "old_var" false; Img "new_mean" false; Img "old_mean" false; Img "new_data" false; Img "old_data" false;
       Img "new_mask" false; Img "old_mask" false; Img "new_var" true];
    mkRow
      ["DVP_KN_VLIB_LEGENDRE_MOMENTS_INIT"]
      "DVP_LegendreMoments_t"
      [Buf "lPoly" false];
    mkRow
      ["DVP_KN_VLIB_LEGENDRE_MOMENTS"]
      "DVP_LegendreMoments_t"
      [Img "im" false; Buf "lPoly" false; Buf "lMoments" true];
    mkRow
      ["DVP_KN_UYVY_TO_HSLp"; "DVP_KN_VLIB_UYVY_TO_HSLp"]
      "DVP_Int2Pl_t"
      [Img "input" false; Img "output1" true; Img "output2" true; Img "output3" true];
    mkRow
      ["DVP_KN_UYVY_TO_LABp"; "DVP_KN_VLIB_UYVY_TO_LABp"]
      "DVP_Int2Pl_t"
      [Img "input" false; Img "output1" true; Img "output2" true; Img "output3" true; Buf "scratch" true];
    mkRow
      ["DVP_KN_VLIB_NONMAXSUPPRESS_U32"]
      "DVP_Nonmax_NxN_t"
      [Img "input" false; Buf "scratch" false; Buf "pixIndex" true];
    mkRow
      ["DVP_KN_TISMO_DISPARITY"]
      "DVP_Tismo_t"
      [Img "left" false; Img "right" false; Img "output" true; Img "invalid" true];
    mkRow
      ["DVP_KN_TISMOV02_DISPARITY"]
      "DVP_TismoV02_t"
      [Img "in_left" false; Img "in_right" false; Img "in_leftIntegralImage" false;
       Img "in_rightIntegralImage" false; Img "out_raw" true; Img "out_invalid" true; Img "out_confidence" true;
       Img "out_matchScore" true; Img "out_lumaU8" true] ].
Definition dsp_return_4 : list kernel_row :=
  [ mkRow
      ["DVP_KN_ORB"]
      "DVP_Orb_t"
      [Img "inputImage" false; Img "filtImage" false; Img "harrisImage" false; Img "integralImage" false;
       Buf "orbPattern31" false; Buf "orbOutput.orbData" true; Img "orbOutput.outImage" true];
    mkRow
      ["DVP_KN_DEI_DEINTERLACER"]
      "DVP_Deinterlacer_t"
      [IfZero "phy_virt_flag" (Img "phy_fld_in_current" true); IfZero "phy_virt_flag" (Img "phy_fld_in_prev" true);
       Buf "phy_luma_d0" true; Buf "phy_luma_d1" true; Buf "phy_luma_d2" true];
    mkRow
      ["DVP_KN_RVM"]
      "DVP_Rvm_t"
      [Img "input" false; Img "output" true; Buf "lut" false];
    mkRow
      ["DVP_KN_IMG_BOUNDARY_8"; "DVP_KN_IMG_BOUNDARY_16s"]
      "DVP_Boundary_t"
      [Img "input" false; Buf "outCoord" true; Buf "outGray" true];
    mkRow
      ["DVP_KN_YUV422p_TO_RGB565"; "DVP_KN_SOBEL_3x3_8"; "DVP_KN_IMG_YUV422p_TO_RGB565"; "DVP_KN_IMG_SOBEL_3x3_8";
       "DVP_KN_IMG_SOBEL_3x3_16s"; "DVP_KN_IMG_SOBEL_5x5_16s"; "DVP_KN_IMG_SOBEL_7x7_16s"; "DVP_KN_IMG_PIX_SAT";
       "DVP_KN_IMG_PIX_EXPAND"; "DVP_KN_IMG_PERIMETER_8"; "DVP_KN_IMG_PERIMETER_16"; "DVP_KN_IMG_MEDIAN_3x3_8";
       "DVP_KN_IMG_MEDIAN_3x3_16s"; "DVP_KN_IMG_FDCT_8x8"; "DVP_KN_IMG_IDCT_8x8_12Q4"]
      "DVP_Transform_t"
      [Img "input" false; Img "output" true];
    mkRow
      ["DVP_KN_IMG_CLIPPING_16"]
      "DVP_CannyHystThresholding_t"
      [Img "inMag" false; Img "inEdgeMap" false; Img "output" true];
    mkRow
      ["DVP_KN_IMG_HISTOGRAM_8"; "DVP_KN_IMG_HISTOGRAM_16"]
      "DVP_Histogram_t"
      [Img "input" false; Buf "histArray" true; Buf "hOut" true];
    mkRow
      ["DVP_KN_CANNY_IMAGE_SMOOTHING"; "DVP_KN_CONV_3x3"; "DVP_KN_CONV_5x5"; "DVP_KN_CONV_7x7";
       "DVP_KN_IMG_CONV_3x3"; "DVP_KN_IMG_CONV_5x5"; "DVP_KN_IMG_CONV_7x7"; "DVP_KN_IMG_CONV_11x11";
       "DVP_KN_IMG_CONV_3x3_I16s_C16"; "DVP_KN_IMG_CONV_7x7_I16s_C16"; "DVP_KN_IMG_CONV_11x11_I16s_C16"]
      "DVP_ImageConvolution_t"
      [Img "input" false; Img "output" true; Img "mask" false];
    mkRow
      ["DVP_KN_IMG_SAD_3x3"; "DVP_KN_IMG_SAD_5x5"; "DVP_KN_IMG_SAD_7x7"; "DVP_KN_IMG_SAD_8x8";
       "DVP_KN_IMG_SAD_16x16"; "DVP_KN_IMG_MAD_8x8"; "DVP_KN_IMG_MAD_16x16"]
      "DVP_SAD_t"
      [Img "input" false; Img "output" true; Img "refImg" false];
    mkRow
      ["DVP_KN_IMG_CONV_5x5_I8_C16"; "DVP_KN_IMG_CONV_5x5_I16s_C16"; "DVP_KN_IMG_CONV_7x7_I8_C16"]
      "DVP_ImageConvolution_with_buffer_t"
      [Img "input" false; Img "mask" false; Buf "scratch" false; Img "output" true] ].
Definition dsp_return_5 : list kernel_row :=
  [ mkRow
      ["DVP_KN_THR_GT2MAX_8"; "DVP_KN_THR_GT2MAX_16"; "DVP_KN_THR_GT2THR_8"; "DVP_KN_THR_GT2THR_16";
       "DVP_KN_THR_LE2MIN_8"; "DVP_KN_THR_LE2MIN_16"; "DVP_KN_THR_LE2THR_8"; "DVP_KN_THR_LE2THR_16";
       "DVP_KN_IMG_THR_GT2MAX_8"; "DVP_KN_IMG_THR_GT2MAX_16"; "DVP_KN_IMG_THR_GT2THR_8";
       "DVP_KN_IMG_THR_GT2THR_16"; "DVP_KN_IMG_THR_LE2MIN_8"; "DVP_KN_IMG_THR_LE2MIN_16";
       "DVP_KN_IMG_THR_LE2THR_8"; "DVP_KN_IMG_THR_LE2THR_16"; "DVP_KN_IMG_ERRDIFF_BIN_8";
       "DVP_KN_IMG_ERRDIFF_BIN_16"]
      "DVP_Threshold_t"
      [Img "input" false; Img "output" true];
    mkRow
      ["DVP_KN_IMG_YC_DEMUX_BE16_8"; "DVP_KN_IMG_YC_DEMUX_LE16_8"]
      "DVP_Int2Pl_t"
      [Img "input" false; Img "output1" true; Img "output2" true; Img "output3" true];
    mkRow
      ["DVP_KN_IMG_CORR_3x3"; "DVP_KN_IMG_CORR_3x3_I8_C16s"; "DVP_KN_IMG_CORR_3x3_I16s_C16s";
       "DVP_KN_IMG_CORR_5x5_I16s_C16s"; "DVP_KN_IMG_CORR_11x11_I8_C16s"; "DVP_KN_IMG_CORR_11x11_I16s_C16s";
       "DVP_KN_IMG_CORR_GEN_I16s_C16s"; "DVP_KN_IMG_CORR_GEN_IQ"]
      "DVP_ImageCorrelation_t"
      [Img "input" false; Img "mask" false; Img "output" true];
    mkRow
      ["DVP_KN_IMG_QUANTIZE_16"]
      "DVP_ImageQuantization_t"
      [Img "input" false; Buf "recip_tbl" false];
    mkRow
      ["DVP_KN_IMG_WAVE_HORZ"]
      "DVP_ImageWavelet_t"
      [Img "input" false; Buf "qmf" false; Buf "mqmf" false; Img "output" true];
    mkRow
      ["DVP_KN_VLIB_KALMAN_2x4"; "DVP_KN_VLIB_KALMAN_4x6"]
      "DVP_KalmanFilter_t"
      [Buf "inMeasurements" true; Buf "transition" true; Buf "errorCov" true; Buf "predictedErrorCov" true;
       Buf "state" true; Buf "predictedState" true; Buf "measurement" true; Buf "processNoiseCov" true;
       Buf "measurementNoiseCov" true; Buf "kalmanGain" true; Buf "temp1" true; Buf "temp2" true; Buf "temp3" true];
    mkRow
      ["DVP_KN_DSP_ADD16"; "DVP_KN_DSP_ADD32"]
      "DVP_DSPFunc"
      [Buf "input0" false; Buf "input1" false; Buf "output0" true];
    mkRow
      ["DVP_KN_DSP_AUTOCORR16"]
      "DVP_DSPFunc"
      [Buf "input0" false; Buf "output0" true];
    mkRow
      ["DVP_KN_DSP_BITEXP32"]
      "DVP_DSPFunc"
      [Buf "input0" false];
    mkRow
      ["DVP_KN_DSP_BLKESWAP16"]
      "DVP_DSPFunc"
      [Buf "input0" false; Buf "output0" true];
    mkRow
      ["DVP_KN_DSP_BLKESWAP32"]
      "DVP_DSPFunc"
      [Buf "input0" false; Buf "output0" true];
    mkRow
      ["DVP_KN_DSP_BLKESWAP64"]
      "DVP_DSPFunc"
      [Buf "input0" false; Buf "output0" true];
    mkRow
      ["DVP_KN_DSP_BLKMOVE"]
      "DVP_DSPFunc"
      [Buf "input0" false; Buf "output0" true];
    mkRow
      ["DVP_KN_DSP_DOTPRODSQR"]
      "DVP_DSPFunc"
      [Buf "input0" false; Buf "input1" false; Buf "output0" true] ].
Definition dsp_return_6 : list kernel_row :=
  [ mkRow
      ["DVP_KN_DSP_DOTPROD"]
      "DVP_DSPFunc"
      [Buf "input0" false; Buf "input1" false];
    mkRow
      ["DVP_KN_DSP_FFT_16x16"]
      "DVP_DSPFunc"
      [Buf "input0" false; Buf "twoway" false; Buf "output0" true];
    mkRow
      ["DVP_KN_DSP_FFT_16x16R"]
      "DVP_DSPFunc"
      [Buf "input0" false; Buf "twoway" false; Buf "output0" true];
    mkRow
      ["DVP_KN_DSP_FFT_16x16_IMRE"]
      "DVP_DSPFunc"
      [Buf "input0" false; Buf "twoway" false; Buf "output0" true];
    mkRow
      ["DVP_KN_DSP_FFT_16x32"]
      "DVP_DSPFunc"
      [Buf "input0" false; Buf "twoway" false; Buf "output0" true];
    mkRow
      ["DVP_KN_DSP_FFT_32x32"]
      "DVP_DSPFunc"
      [Buf "input0" false; Buf "twoway" false; Buf "output0" true];
    mkRow
      ["DVP_KN_DSP_FFT_32x32s"]
      "DVP_DSPFunc"
      [Buf "input0" false; Buf "twoway" false; Buf "output0" true];
    mkRow
      ["DVP_KN_DSP_MUL"; "DVP_KN_DSP_MUL_CPLX"]
      "DVP_DSP_MatMul"
      [Buf "input0" false; Buf "input1" false; Buf "output0" true];
    mkRow
      ["DVP_KN_DSP_FIR_CPLX"; "DVP_KN_DSP_FIR_HM4x4"; "DVP_KN_DSP_FIR_GEN"; "DVP_KN_DSP_FIR_HM17_RA8x8";
       "DVP_KN_DSP_FIR_R4"; "DVP_KN_DSP_FIR_R8"; "DVP_KN_DSP_FIR_HM16_RM8A8x8"; "DVP_KN_DSP_FIR_SYM"]
      "DVP_DSPFunc"
      [Buf "input0" false; Buf "twoway" false; Buf "output0" true];
    mkRow
      ["DVP_KN_DSP_FIR_LMS2"]
      "DVP_DSPFunc"
      [Buf "input0" false; Buf "twoway" false];
    mkRow
      ["DVP_KN_DSP_IFFT_16x16"; "DVP_KN_DSP_IFFT_16x16_IMRE"; "DVP_KN_DSP_IFFT_16x32"; "DVP_KN_DSP_IFFT_32x32"]
      "DVP_DSPFunc"
      [Buf "input0" false; Buf "twoway" false; Buf "output0" true];
    mkRow
      ["DVP_KN_DSP_IIR"]
      "DVP_DSPFunc"
      [Buf "input0" false; Buf "input1" false; Buf "twoway" false; Buf "output0" true; Buf "output1" true];
    mkRow
      ["DVP_KN_DSP_IIR_LAT"]
      "DVP_DSPFunc"
      [Buf "input0" false; Buf "input1" false; Buf "twoway" false; Buf "output0" true];
    mkRow
      ["DVP_KN_DSP_IIR_SS"]
      "DVP_DSPFunc"
      [Buf "input0" false; Buf "input1" false];
    mkRow
      ["DVP_KN_DSP_MAT_TRANS"]
      "DVP_DSPFunc"
      [Buf "input0" false; Buf "output0" true];
    mkRow
      ["DVP_KN_DSP_MAXIDX"; "DVP_KN_DSP_MAXVAL"; "DVP_KN_DSP_MINVAL"]
      "DVP_DSPFunc"
      [Buf "input0" false];
    mkRow
      ["DVP_KN_DSP_MINERROR"]
      "DVP_DSPFunc"
      [Buf "input0" false; Buf "input1" false] ].
Definition dsp_return_7 : list kernel_row :=
  [ mkRow
      ["DVP_KN_DSP_MUL32"]
      "DVP_DSPFunc"
      [Buf "input0" false; Buf "input1" false; Buf "output0" true];
    mkRow
      ["DVP_KN_DSP_NEG32"]
      "DVP_DSPFunc"
      [Buf "input0" false; Buf "output0" true];
    mkRow
      ["DVP_KN_DSP_RECIP16"]
      "DVP_DSPFunc"
      [Buf "input0" false; Buf "twoway" true; Buf "output0" true];
    mkRow
      ["DVP_KN_DSP_VECSUMSQ"]
      "DVP_DSPFunc"
      [Buf "input0" false];
    mkRow
      ["DVP_KN_DSP_W_VEC"]
      "DVP_DSPFunc"
      [Buf "input0" false; Buf "input1" false; Buf "output0" true];
    mkRow
      ["DVP_KN_GEN_TWIDDLE_FFT_16X16"]
      "DVP_DSPFunc"
      [Buf "input0" false];
    mkRow
      ["DVP_KN_GEN_TWIDDLE_FFT_16X16_IMRE"]
      "DVP_DSPFunc"
      [Buf "input0" false];
    mkRow
      ["DVP_KN_GEN_TWIDDLE_FFT_16X32"]
      "DVP_DSPFunc"
      [Buf "input0" false];
    mkRow
      ["DVP_KN_GEN_TWIDDLE_FFT_32x32"]
      "DVP_DSPFunc"
      [Buf "input0" false];
    mkRow
      ["DVP_KN_GEN_TWIDDLE_IFFT_16X16"]
      "DVP_DSPFunc"
      [Buf "input0" false];
    mkRow
      ["DVP_KN_GEN_TWIDDLE_IFFT_16X16_IMRE"]
      "DVP_DSPFunc"
      [Buf "input0" false] ].
Definition dsp_return : list kernel_row :=
  dsp_return_1 ++ dsp_return_2 ++ dsp_return_3 ++ dsp_return_4 ++ dsp_return_5 ++ dsp_return_6 ++ dsp_return_7.

(** ** The published kernels, with how an output is shifted *)

Definition imx_shift3 : dvp_image_shift_t := mkShift (-1) (-1) 0 2 2 0.
Definition imx_shift5 : dvp_image_shift_t := mkShift (-2) (-2) 0 4 4 0.
Definition imx_shift7 : dvp_image_shift_t := mkShift (-3) (-3) 0 6 6 0.
Definition imx_shift8 : dvp_image_shift_t := mkShift (-4) (-4) 0 7 7 0.
Definition imx_shift16 : dvp_image_shift_t := mkShift (-8) (-8) 0 15 15 0.
Definition imx_nonmax_shift3 : dvp_image_shift_t := mkShift (-1) 1 2 2 0 0.
Definition imx_nonmax_shift5 : dvp_image_shift_t := mkShift (-2) 2 4 4 0 0.
Definition imx_nonmax_shift7 : dvp_image_shift_t := mkShift (-3) 3 6 6 0 0.
Definition dsp_shift3 : dvp_image_shift_t := mkShift (-1) (-1) 0 2 2 0.
Definition dsp_shift5 : dvp_image_shift_t := mkShift (-2) (-2) 0 4 4 0.
Definition dsp_shift7 : dvp_image_shift_t := mkShift (-3) (-3) 0 6 6 0.
Definition dsp_shift8 : dvp_image_shift_t := mkShift (-4) (-4) 0 7 7 0.
Definition dsp_shift11 : dvp_image_shift_t := mkShift (-5) (-5) 0 10 10 0.
Definition dsp_shift16 : dvp_image_shift_t := mkShift (-8) (-8) 0 15 15 0.
Definition dsp_nonmax_shift3 : dvp_image_shift_t := mkShift (-1) 1 2 2 0 0.
Definition dsp_nonmax_shift5 : dvp_image_shift_t := mkShift (-2) 2 4 4 0 0.
Definition dsp_nonmax_shift7 : dvp_image_shift_t := mkShift (-3) 3 6 6 0 0.

(** The mask's sizes decide. *)
Definition dvp_vrun_conv_mxn_shift (node : DVP_KernelNode_t) (s : dvp_image_shift_t) : dvp_image_shift_t :=
  match Struct.public_layout 4 "DVP_ImageConvolution_t" "mask" ≫= image32_at (data node) with
  | Some (mask, _, _) =>
      mkShift (s32 (Z.quot (s32 (- s32 (width mask))) 2)) (s32 (Z.quot (s32 (- s32 (height mask))) 2)) (topBorder s)
        (s32 (width mask - 1)) (s32 (height mask - 1)) (leftBorder s)
  | None => s
  end.

Definition simcop_kernels : list (string * option dvp_image_shift_t) :=
  [("DVP_KN_NOOP", None); ("DVP_KN_COPY", None); ("DVP_KN_DILATE_CROSS", Some imx_shift3);
   ("DVP_KN_DILATE_MASK", Some imx_shift3); ("DVP_KN_DILATE_SQUARE", Some imx_shift3);
   ("DVP_KN_ERODE_CROSS", Some imx_shift3); ("DVP_KN_ERODE_MASK", Some imx_shift3);
   ("DVP_KN_ERODE_SQUARE", Some imx_shift3); ("DVP_KN_VRUN_DILATE_CROSS", Some imx_shift3);
   ("DVP_KN_VRUN_DILATE_MASK", Some imx_shift3); ("DVP_KN_VRUN_DILATE_SQUARE", Some imx_shift3);
   ("DVP_KN_VRUN_ERODE_CROSS", Some imx_shift3); ("DVP_KN_VRUN_ERODE_MASK", Some imx_shift3);
   ("DVP_KN_VRUN_ERODE_SQUARE", Some imx_shift3); ("DVP_KN_IIR_HORZ", None); ("DVP_KN_IIR_VERT", None);
   ("DVP_KN_VRUN_IIR_HORZ", None); ("DVP_KN_VRUN_IIR_VERT", None);
   ("DVP_KN_NONMAXSUPPRESS_3x3_S16", Some imx_nonmax_shift3);
   ("DVP_KN_NONMAXSUPPRESS_5x5_S16", Some imx_nonmax_shift5);
   ("DVP_KN_NONMAXSUPPRESS_7x7_S16", Some imx_nonmax_shift7);
   ("DVP_KN_VRUN_NONMAXSUPPRESS_3x3_S16", Some imx_nonmax_shift3);
   ("DVP_KN_VRUN_NONMAXSUPPRESS_5x5_S16", Some imx_nonmax_shift5);
   ("DVP_KN_VRUN_NONMAXSUPPRESS_7x7_S16", Some imx_nonmax_shift7); ("DVP_KN_CONV_3x3", Some imx_shift3);
   ("DVP_KN_CONV_5x5", Some imx_shift5); ("DVP_KN_CONV_7x7", Some imx_shift7);
   ("DVP_KN_VRUN_CONV_3x3", Some imx_shift3); ("DVP_KN_VRUN_CONV_5x5", Some imx_shift5);
   ("DVP_KN_VRUN_CONV_7x7", Some imx_shift7); ("DVP_KN_VRUN_CONV_MxN", None); ("DVP_KN_THR_GT2MAX_8", None);
   ("DVP_KN_THR_GT2MAX_16", None); ("DVP_KN_THR_GT2THR_8", None); ("DVP_KN_THR_GT2THR_16", None);
   ("DVP_KN_THR_LE2MIN_8", None); ("DVP_KN_THR_LE2MIN_16", None); ("DVP_KN_THR_LE2THR_8", None);
   ("DVP_KN_THR_LE2THR_16", None); ("DVP_KN_VRUN_THR_GT2MAX_8", None); ("DVP_KN_VRUN_THR_GT2MAX_16", None);
   ("DVP_KN_VRUN_THR_GT2THR_8", None); ("DVP_KN_VRUN_THR_GT2THR_16", None); ("DVP_KN_VRUN_THR_LE2MIN_8", None);
   ("DVP_KN_VRUN_THR_LE2MIN_16", None); ("DVP_KN_VRUN_THR_LE2THR_8", None); ("DVP_KN_VRUN_THR_LE2THR_16", None);
   ("DVP_KN_SOBEL_3x3_8s", Some imx_shift3); ("DVP_KN_SOBEL_3x3_8", Some imx_shift3);
   ("DVP_KN_SOBEL_3x3_16s", Some imx_shift3); ("DVP_KN_SOBEL_3x3_16", Some imx_shift3);
   ("DVP_KN_SOBEL_5x5_8s", Some imx_shift5); ("DVP_KN_SOBEL_5x5_8", Some imx_shift5);
   ("DVP_KN_SOBEL_5x5_16s", Some imx_shift5); ("DVP_KN_SOBEL_5x5_16", Some imx_shift5);
   ("DVP_KN_SOBEL_7x7_8s", Some imx_shift7); ("DVP_KN_SOBEL_7x7_8", Some imx_shift7);
   ("DVP_KN_SOBEL_7x7_16s", Some imx_shift7); ("DVP_KN_SOBEL_7x7_16", Some imx_shift7);
   ("DVP_KN_VRUN_SOBEL_3x3_8s", Some imx_shift3); ("DVP_KN_VRUN_SOBEL_3x3_8", Some imx_shift3);
   ("DVP_KN_VRUN_SOBEL_3x3_16s", Some imx_shift3); ("DVP_KN_VRUN_SOBEL_3x3_16", Some imx_shift3);
   ("DVP_KN_VRUN_SOBEL_5x5_8s", Some imx_shift5); ("DVP_KN_VRUN_SOBEL_5x5_8", Some imx_shift5);
   ("DVP_KN_VRUN_SOBEL_5x5_16s", Some imx_shift5); ("DVP_KN_VRUN_SOBEL_5x5_16", Some imx_shift5);
   ("DVP_KN_VRUN_SOBEL_7x7_8s", Some imx_shift7); ("DVP_KN_VRUN_SOBEL_7x7_8", Some imx_shift7);
   ("DVP_KN_VRUN_SOBEL_7x7_16s", Some imx_shift7); ("DVP_KN_VRUN_SOBEL_7x7_16", Some imx_shift7);
   ("DVP_KN_VRUN_HARRIS_CORNERS", None); ("DVP_KN_VRUN_HARRIS_SCORE_7x7", None);
   ("DVP_KN_VRUN_BLOCK_MAXIMA", None); ("DVP_KN_VRUN_NMS_STEP1", None);
   ("DVP_KN_CANNY_IMAGE_SMOOTHING", Some imx_shift7); ("DVP_KN_CANNY_2D_GRADIENT", Some imx_shift3);
   ("DVP_KN_CANNY_NONMAX_SUPPRESSION", Some imx_shift3); ("DVP_KN_CANNY_HYST_THRESHHOLD", None);
   ("DVP_KN_VRUN_CANNY_IMAGE_SMOOTHING", Some imx_shift7); ("DVP_KN_VRUN_CANNY_2D_GRADIENT", Some imx_shift3);
   ("DVP_KN_VRUN_CANNY_NONMAX_SUPPRESSION", Some imx_shift3); ("DVP_KN_VRUN_CANNY_HYST_THRESHHOLD", None);
   ("DVP_KN_UYVY_TO_YUV444p", None); ("DVP_KN_UYVY_TO_RGBp", None); ("DVP_KN_UYVY_TO_YUV420p", None);
   ("DVP_KN_XYXY_TO_Y800", None); ("DVP_KN_NV12_TO_YUV444p", None); ("DVP_KN_YUV444p_TO_RGBp", None);
   ("DVP_KN_VRUN_UYVY_TO_YUV444p", None); ("DVP_KN_VRUN_UYVY_TO_RGBp", None);
   ("DVP_KN_VRUN_UYVY_TO_YUV420p", None); ("DVP_KN_VRUN_XYXY_TO_Y800", None);
   ("DVP_KN_VRUN_NV12_TO_YUV444p", None); ("DVP_KN_VRUN_YUV444p_TO_RGBp", None); ("DVP_KN_INTEGRAL_IMAGE_8", None);
   ("DVP_KN_VRUN_INTEGRAL_IMAGE_8", None); ("DVP_KN_LDC_AFFINE_TRANSFORM", None);
   ("DVP_KN_LDC_DISTORTION_CORRECTION", None); ("DVP_KN_LDC_DISTORTION_AND_AFFINE", None);
   ("DVP_KN_VRUN_SAD_8x8", Some imx_shift8); ("DVP_KN_VRUN_SAD_16x16", Some imx_shift16);
   ("DVP_KN_VRUN_SAD_3x3", Some imx_shift3); ("DVP_KN_VRUN_SAD_5x5", Some imx_shift5);
   ("DVP_KN_VRUN_SAD_7x7", Some imx_shift7); ("DVP_KN_VRUN_IMAGE_PYRAMID_8", None);
   ("DVP_KN_VRUN_GAUSSIAN_3x3_PYRAMID_8", Some imx_shift3);
   ("DVP_KN_VRUN_GAUSSIAN_5x5_PYRAMID_8", Some imx_shift5);
   ("DVP_KN_VRUN_GAUSSIAN_7x7_PYRAMID_8", Some imx_shift7);
   ("DVP_KN_VRUN_GRADIENT_H3x3_PYRAMID_8", Some imx_shift3);
   ("DVP_KN_VRUN_GRADIENT_H5x5_PYRAMID_8", Some imx_shift5);
   ("DVP_KN_VRUN_GRADIENT_H7x7_PYRAMID_8", Some imx_shift7);
   ("DVP_KN_VRUN_GRADIENT_V3x3_PYRAMID_8", Some imx_shift3);
   ("DVP_KN_VRUN_GRADIENT_V5x5_PYRAMID_8", Some imx_shift5);
   ("DVP_KN_VRUN_GRADIENT_V7x7_PYRAMID_8", Some imx_shift7); ("DVP_KN_DEI_DEINTERLACER_INIT", None);
   ("DVP_KN_DEI_DEINTERLACER_DEINIT", None)].
Definition dsp_kernels_1 : list (string * option dvp_image_shift_t) :=
  [("DVP_KN_NOOP", None); ("DVP_KN_COPY", None); ("DVP_KN_VLIB_EWR_MEAN_S16", None);
   ("DVP_KN_VLIB_EWR_VAR_S16", None); ("DVP_KN_VLIB_EWR_MEAN_S32", None); ("DVP_KN_VLIB_EWR_VAR_S32", None);
   ("DVP_KN_VLIB_UWR_MEAN_S16", None); ("DVP_KN_VLIB_UWR_VAR_S16", None); ("DVP_KN_VLIB_SUB_BACK_S16", None);
   ("DVP_KN_VLIB_SUB_BACK_S32", None); ("DVP_KN_VLIB_MOG_S16", None); ("DVP_KN_VLIB_MOG_S32", None);
   ("DVP_KN_VLIB_EXTRACT_BACK_8_16", None); ("DVP_KN_VLIB_PACK_MASK_32", None);
   ("DVP_KN_VLIB_UNPACK_MASK_32", None); ("DVP_KN_DILATE_CROSS", Some dsp_shift3);
   ("DVP_KN_DILATE_MASK", Some dsp_shift3); ("DVP_KN_DILATE_SQUARE", Some dsp_shift3);
   ("DVP_KN_ERODE_CROSS", Some dsp_shift3); ("DVP_KN_ERODE_MASK", Some dsp_shift3);
   ("DVP_KN_ERODE_SQUARE", Some dsp_shift3); ("DVP_KN_VLIB_DILATE_CROSS", Some dsp_shift3);
   ("DVP_KN_VLIB_DILATE_MASK", Some dsp_shift3); ("DVP_KN_VLIB_DILATE_SQUARE", Some dsp_shift3);
   ("DVP_KN_VLIB_ERODE_CROSS", Some dsp_shift3); ("DVP_KN_VLIB_ERODE_MASK", Some dsp_shift3);
   ("DVP_KN_VLIB_ERODE_SQUARE", Some dsp_shift3); ("DVP_KN_VLIB_ERODE_SINGLEPIXEL", None);
   ("DVP_KN_VLIB_CCL", None); ("DVP_KN_CANNY_2D_GRADIENT", Some dsp_shift3);
   ("DVP_KN_CANNY_NONMAX_SUPPRESSION", Some dsp_shift3); ("DVP_KN_VLIB_CANNY_2D_GRADIENT", Some dsp_shift3);
   ("DVP_KN_VLIB_CANNY_NONMAX_SUPPRESSION", Some dsp_shift3); ("DVP_KN_VLIB_HYST_THRESHOLD", None);
   ("DVP_KN_VLIB_IMAGE_PYRAMID_8", None); ("DVP_KN_VLIB_IMAGE_PYRAMID_16", None);
   ("DVP_KN_VLIB_GAUSSIAN_5x5_PYRAMID_8", Some dsp_shift5);
   ("DVP_KN_VLIB_GAUSSIAN_5x5_PYRAMID_16", Some dsp_shift5);
   ("DVP_KN_VLIB_GRADIENT_H5x5_PYRAMID_8", Some dsp_shift5);
   ("DVP_KN_VLIB_GRADIENT_V5x5_PYRAMID_8", Some dsp_shift5); ("DVP_KN_VLIB_HARRIS_SCORE_7x7", None);
   ("DVP_KN_VLIB_TRACK_FEATURES_LUCAS_7x7", None); ("DVP_KN_IIR_HORZ", None); ("DVP_KN_VLIB_IIR_HORZ", None);
   ("DVP_KN_VLIB_IIR_HORZ_16", None); ("DVP_KN_IIR_VERT", None); ("DVP_KN_VLIB_IIR_VERT", None);
   ("DVP_KN_VLIB_IIR_VERT_16", None); ("DVP_KN_INTEGRAL_IMAGE_8", None); ("DVP_KN_VLIB_INTEGRAL_IMAGE_8", None);
   ("DVP_KN_VLIB_INTEGRAL_IMAGE_16", None); ("DVP_KN_VLIB_HOUGH_LINE_FROM_LIST", None);
   ("DVP_KN_NONMAXSUPPRESS_3x3_S16", Some dsp_nonmax_shift3);
   ("DVP_KN_NONMAXSUPPRESS_5x5_S16", Some dsp_nonmax_shift5);
   ("DVP_KN_NONMAXSUPPRESS_7x7_S16", Some dsp_nonmax_shift7);
   ("DVP_KN_VLIB_NONMAXSUPPRESS_3x3_S16", Some dsp_nonmax_shift3);
   ("DVP_KN_VLIB_NONMAXSUPPRESS_5x5_S16", Some dsp_nonmax_shift5);
   ("DVP_KN_VLIB_NONMAXSUPPRESS_7x7_S16", Some dsp_nonmax_shift7); ("DVP_KN_VLIB_NORMALFLOW_16", None);
   ("DVP_KN_VLIB_KALMAN_2x4", None); ("DVP_KN_VLIB_KALMAN_4x6", None);
   ("DVP_KN_VLIB_NEDLER_MEAD_SIMPLEX_16", None); ("DVP_KN_VLIB_NEDLER_MEAD_SIMPLEX_3D", None);
   ("DVP_KN_VLIB_LEGENDRE_MOMENTS", None); ("DVP_KN_VLIB_INIT_HISTOGRAM_8", None);
   ("DVP_KN_VLIB_HISTOGRAM_8", None); ("DVP_KN_VLIB_WEIGHTED_HISTOGRAM_8", None);
   ("DVP_KN_VLIB_INIT_HISTOGRAM_16", None); ("DVP_KN_VLIB_HISTOGRAM_16", None);
   ("DVP_KN_VLIB_WEIGHTED_HISTOGRAM_16", None); ("DVP_KN_VLIB_HISTOGRAM_ND_16", None);
   ("DVP_KN_VLIB_BHATTACHAYA_DISTANCE", None); ("DVP_KN_VLIB_L1DISTANCE", None); ("DVP_KN_XYXY_TO_Y800", None);
   ("DVP_KN_UYVY_TO_YUV420p", None); ("DVP_KN_UYVY_TO_YUV422p", None); ("DVP_KN_UYVY_TO_RGBp", None);
   ("DVP_KN_UYVY_TO_HSLp", None); ("DVP_KN_UYVY_TO_LABp", None); ("DVP_KN_YUV422p_TO_UYVY", None);
   ("DVP_KN_NV12_TO_YUV444p", None); ("DVP_KN_VLIB_XYXY_TO_Y800", None); ("DVP_KN_VLIB_UYVY_TO_YUV420p", None);
   ("DVP_KN_VLIB_UYVY_TO_YUV422p", None); ("DVP_KN_VLIB_UYVY_TO_RGBp", None); ("DVP_KN_VLIB_UYVY_TO_HSLp", None);
   ("DVP_KN_VLIB_UYVY_TO_LABp", None); ("DVP_KN_VLIB_YUV422p_TO_UYVY", None); ("DVP_KN_VLIB_DISPARITY_SAD8", None);
   ("DVP_KN_VLIB_DISPARITY_SAD16", None); ("DVP_KN_VLIB_INIT_MEAN_LUMA_S16", None);
   ("DVP_KN_VLIB_INIT_MEAN_LUMA_S32", None); ("DVP_KN_VLIB_INIT_VAR_CONST_S16", None);
   ("DVP_KN_VLIB_INIT_VAR_CONST_S32", None); ("DVP_KN_VLIB_LEGENDRE_MOMENTS_INIT", None);
   ("DVP_KN_VLIB_HARRIS_SCORE_7x7_U32", None); ("DVP_KN_VLIB_NONMAXSUPPRESS_U32", Some dsp_nonmax_shift3);
   ("DVP_KN_YUV422p_TO_RGB565", None); ("DVP_KN_IMG_YUV422p_TO_RGB565", None);
   ("DVP_KN_CONV_3x3", Some dsp_shift3); ("DVP_KN_CONV_5x5", Some dsp_shift5);
   ("DVP_KN_CONV_7x7", Some dsp_shift7); ("DVP_KN_IMG_CONV_3x3", Some dsp_shift3);
   ("DVP_KN_IMG_CONV_5x5", Some dsp_shift5); ("DVP_KN_IMG_CONV_7x7", Some dsp_shift7);
   ("DVP_KN_IMG_CONV_11x11", Some dsp_shift11); ("DVP_KN_IMG_CONV_5x5_I8_C16", Some dsp_shift5);
   ("DVP_KN_IMG_CONV_7x7_I8_C16", Some dsp_shift7); ("DVP_KN_IMG_CONV_3x3_I16s_C16", Some dsp_shift3);
   ("DVP_KN_IMG_CONV_5x5_I16s_C16", Some dsp_shift5); ("DVP_KN_IMG_CONV_7x7_I16s_C16", Some dsp_shift7);
   ("DVP_KN_IMG_CONV_11x11_I16s_C16", Some dsp_shift11); ("DVP_KN_THR_GT2MAX_8", None);
   ("DVP_KN_THR_GT2MAX_16", None); ("DVP_KN_THR_GT2THR_8", None); ("DVP_KN_THR_GT2THR_16", None);
   ("DVP_KN_THR_LE2MIN_8", None); ("DVP_KN_THR_LE2MIN_16", None); ("DVP_KN_THR_LE2THR_8", None)].
Definition dsp_kernels_2 : list (string * option dvp_image_shift_t) :=
  [("DVP_KN_THR_LE2THR_16", None); ("DVP_KN_SOBEL_3x3_8", Some dsp_shift3); ("DVP_KN_IMG_THR_GT2MAX_8", None);
   ("DVP_KN_IMG_THR_GT2MAX_16", None); ("DVP_KN_IMG_THR_GT2THR_8", None); ("DVP_KN_IMG_THR_GT2THR_16", None);
   ("DVP_KN_IMG_THR_LE2MIN_8", None); ("DVP_KN_IMG_THR_LE2MIN_16", None); ("DVP_KN_IMG_THR_LE2THR_8", None);
   ("DVP_KN_IMG_THR_LE2THR_16", None); ("DVP_KN_IMG_SOBEL_3x3_8", Some dsp_shift3);
   ("DVP_KN_IMG_SOBEL_3x3_16s", Some dsp_shift3); ("DVP_KN_IMG_SOBEL_5x5_16s", Some dsp_shift5);
   ("DVP_KN_IMG_SOBEL_7x7_16s", Some dsp_shift7); ("DVP_KN_CANNY_IMAGE_SMOOTHING", Some dsp_shift7);
   ("DVP_KN_IMG_CLIPPING_16", None); ("DVP_KN_IMG_BOUNDARY_8", None); ("DVP_KN_IMG_BOUNDARY_16s", None);
   ("DVP_KN_IMG_CORR_3x3", Some dsp_shift3); ("DVP_KN_IMG_CORR_3x3_I8_C16s", Some dsp_shift3);
   ("DVP_KN_IMG_CORR_3x3_I16s_C16s", Some dsp_shift3); ("DVP_KN_IMG_CORR_5x5_I16s_C16s", Some dsp_shift5);
   ("DVP_KN_IMG_CORR_11x11_I8_C16s", Some dsp_shift11); ("DVP_KN_IMG_CORR_11x11_I16s_C16s", Some dsp_shift11);
   ("DVP_KN_IMG_CORR_GEN_I16s_C16s", Some dsp_shift11); ("DVP_KN_IMG_CORR_GEN_IQ", None);
   ("DVP_KN_IMG_HISTOGRAM_8", None); ("DVP_KN_IMG_HISTOGRAM_16", None);
   ("DVP_KN_IMG_MEDIAN_3x3_8", Some dsp_shift3); ("DVP_KN_IMG_MEDIAN_3x3_16s", Some dsp_shift3);
   ("DVP_KN_IMG_PERIMETER_8", Some dsp_shift3); ("DVP_KN_IMG_PERIMETER_16", Some dsp_shift3);
   ("DVP_KN_IMG_YC_DEMUX_LE16_8", None); ("DVP_KN_IMG_YC_DEMUX_BE16_8", None); ("DVP_KN_IMG_PIX_SAT", None);
   ("DVP_KN_IMG_PIX_EXPAND", None); ("DVP_KN_IMG_SAD_3x3", Some dsp_shift3);
   ("DVP_KN_IMG_SAD_5x5", Some dsp_shift5); ("DVP_KN_IMG_SAD_7x7", Some dsp_shift7);
   ("DVP_KN_IMG_SAD_8x8", Some dsp_shift8); ("DVP_KN_IMG_SAD_16x16", Some dsp_shift16);
   ("DVP_KN_IMG_ERRDIFF_BIN_8", None); ("DVP_KN_IMG_ERRDIFF_BIN_16", None); ("DVP_KN_IMG_FDCT_8x8", None);
   ("DVP_KN_IMG_IDCT_8x8_12Q4", None); ("DVP_KN_IMG_MAD_8x8", None); ("DVP_KN_IMG_MAD_16x16", None);
   ("DVP_KN_IMG_QUANTIZE_16", None); ("DVP_KN_IMG_WAVE_HORZ", None); ("DVP_KN_DSP_ADD16", None);
   ("DVP_KN_DSP_ADD32", None); ("DVP_KN_DSP_AUTOCORR16", None); ("DVP_KN_DSP_BITEXP32", None);
   ("DVP_KN_DSP_BLKESWAP16", None); ("DVP_KN_DSP_BLKESWAP32", None); ("DVP_KN_DSP_BLKESWAP64", None);
   ("DVP_KN_DSP_BLKMOVE", None); ("DVP_KN_DSP_DOTPRODSQR", None); ("DVP_KN_DSP_DOTPROD", None);
   ("DVP_KN_DSP_FFT_16x16", None); ("DVP_KN_DSP_FFT_16x16R", None); ("DVP_KN_DSP_FFT_16x16_IMRE", None);
   ("DVP_KN_DSP_FFT_16x32", None); ("DVP_KN_DSP_FFT_32x32", None); ("DVP_KN_DSP_FFT_32x32s", None);
   ("DVP_KN_DSP_FIR_CPLX", None); ("DVP_KN_DSP_FIR_HM4x4", None); ("DVP_KN_DSP_FIR_GEN", None);
   ("DVP_KN_DSP_FIR_HM17_RA8x8", None); ("DVP_KN_DSP_FIR_LMS2", None); ("DVP_KN_DSP_FIR_R4", None);
   ("DVP_KN_DSP_FIR_R8", None); ("DVP_KN_DSP_FIR_HM16_RM8A8x8", None); ("DVP_KN_DSP_FIR_SYM", None);
   ("DVP_KN_DSP_IFFT_16x16", None); ("DVP_KN_DSP_IFFT_16x16_IMRE", None); ("DVP_KN_DSP_IFFT_16x32", None);
   ("DVP_KN_DSP_IFFT_32x32", None); ("DVP_KN_DSP_IIR", None); ("DVP_KN_DSP_IIR_LAT", None);
   ("DVP_KN_DSP_IIR_SS", None); ("DVP_KN_DSP_MUL", None); ("DVP_KN_DSP_MUL_CPLX", None);
   ("DVP_KN_DSP_MAT_TRANS", None); ("DVP_KN_DSP_MAXIDX", None); ("DVP_KN_DSP_MAXVAL", None);
   ("DVP_KN_DSP_MINVAL", None); ("DVP_KN_DSP_MINERROR", None); ("DVP_KN_DSP_MUL32", None);
   ("DVP_KN_DSP_NEG32", None); ("DVP_KN_DSP_RECIP16", None); ("DVP_KN_DSP_VECSUMSQ", None);
   ("DVP_KN_DSP_W_VEC", None); ("DVP_KN_GEN_TWIDDLE_FFT_16X16", None); ("DVP_KN_GEN_TWIDDLE_FFT_16X16_IMRE", None);
   ("DVP_KN_GEN_TWIDDLE_FFT_16X32", None); ("DVP_KN_GEN_TWIDDLE_FFT_32x32", None);
   ("DVP_KN_GEN_TWIDDLE_IFFT_16X16", None); ("DVP_KN_GEN_TWIDDLE_IFFT_16X16_IMRE", None);
   ("DVP_KN_TISMO_DISPARITY", None); ("DVP_KN_TISMOV02_DISPARITY", None); ("DVP_KN_RVM", None);
   ("DVP_KN_ORB", None); ("DVP_KN_DEI_DEINTERLACER", None)].
Definition dsp_kernels : list (string * option dvp_image_shift_t) := dsp_kernels_1 ++ dsp_kernels_2.

(** ** Verification by SIMCOP

    A row has lists of checks; a list stops at its first check that fails. *)
Inductive colors_of : Set := Colors (cs : list Z) | ColorOf (f : string).
Inductive check : Set :=
  | Valid (f : string) (multiples : Z * Z * Z * Z) (cs : colors_of)
  | ValidBuffer (f : string)
  | WidthFits (f g : string) (times : Z)
  | HeightFits (f g : string) (times : Z)
  | MaxWidth (f : string) (w : Z)
  | MaxHeight (f : string) (h : Z)
  | PyramidRoom (f g : string)
  | Among (kernels : list string) (c : check)
  | Unless (kernels : list string) (c : check).
Record verify_row : Set := mkVerify { vr_kernels : list string; vr_struct : string; vr_checks : list (list check) }.

Definition simcop_verify_1 : list verify_row :=
  [ mkVerify
      ["DVP_KN_NOOP"; "DVP_KN_DEI_DEINTERLACER_INIT"; "DVP_KN_DEI_DEINTERLACER_DEINIT"]
      ""
      [];
    mkVerify
      ["DVP_KN_COPY"]
      "DVP_Transform_t"
      [[Valid "input" (1, 1, 1, 1) (ColorOf "output"); Valid "output" (1, 1, 1, 1) (ColorOf "input");
        WidthFits "input" "output" 1; HeightFits "input" "output" 1]];
    mkVerify
      ["DVP_KN_DILATE_CROSS"; "DVP_KN_DILATE_SQUARE"; "DVP_KN_DILATE_MASK"; "DVP_KN_ERODE_CROSS";
       "DVP_KN_ERODE_MASK"; "DVP_KN_ERODE_SQUARE"; "DVP_KN_VRUN_DILATE_CROSS"; "DVP_KN_VRUN_DILATE_SQUARE";
       "DVP_KN_VRUN_DILATE_MASK"; "DVP_KN_VRUN_ERODE_CROSS"; "DVP_KN_VRUN_ERODE_MASK"; "DVP_KN_VRUN_ERODE_SQUARE"]
      "DVP_Morphology_t"
      [[Valid "input" (16, 16, 32, 2) (Colors [FOURCC_Y800]);
        Valid "output" (16, 16, 32, 2) (Colors [FOURCC_Y800]); WidthFits "input" "output" 1;
        HeightFits "input" "output" 1];
       [Among ["DVP_KN_ERODE_MASK"; "DVP_KN_DILATE_MASK"; "DVP_KN_VRUN_ERODE_MASK"; "DVP_KN_VRUN_DILATE_MASK"]
         (Valid "mask" (4, 1, 1, 1) (Colors [FOURCC_Y800]))]];
    mkVerify
      ["DVP_KN_IIR_HORZ"; "DVP_KN_IIR_VERT"; "DVP_KN_VRUN_IIR_HORZ"; "DVP_KN_VRUN_IIR_VERT"]
      "DVP_IIR_t"
      [[Valid "input" (16, 16, 16, 2) (Colors [FOURCC_Y800]);
        Valid "output" (16, 16, 16, 2) (Colors [FOURCC_Y800]);
        Valid "scratch" (16, 16, 16, 2) (Colors [FOURCC_Y800]); WidthFits "input" "output" 1;
        HeightFits "input" "output" 1]];
    mkVerify
      ["DVP_KN_THR_GT2MAX_8"; "DVP_KN_THR_GT2THR_8"; "DVP_KN_THR_LE2MIN_8"; "DVP_KN_THR_LE2THR_8";
       "DVP_KN_VRUN_THR_GT2MAX_8"; "DVP_KN_VRUN_THR_GT2THR_8"; "DVP_KN_VRUN_THR_LE2MIN_8";
       "DVP_KN_VRUN_THR_LE2THR_8"]
      "DVP_Threshold_t"
      [[Valid "input" (16, 16, 32, 2) (Colors [FOURCC_Y800]);
        Valid "output" (16, 16, 32, 2) (Colors [FOURCC_Y800]); WidthFits "input" "output" 1;
        HeightFits "input" "output" 1]];
    mkVerify
      ["DVP_KN_THR_GT2MAX_16"; "DVP_KN_THR_GT2THR_16"; "DVP_KN_THR_LE2MIN_16"; "DVP_KN_THR_LE2THR_16";
       "DVP_KN_VRUN_THR_GT2MAX_16"; "DVP_KN_VRUN_THR_GT2THR_16"; "DVP_KN_VRUN_THR_LE2MIN_16";
       "DVP_KN_VRUN_THR_LE2THR_16"]
      "DVP_Threshold_t"
      [[Valid "input" (16, 16, 32, 2) (Colors [FOURCC_Y16]); Valid "output" (16, 16, 32, 2) (Colors [FOURCC_Y16]);
        WidthFits "input" "output" 1; HeightFits "input" "output" 1]];
    mkVerify
      ["DVP_KN_NONMAXSUPPRESS_3x3_S16"; "DVP_KN_NONMAXSUPPRESS_5x5_S16"; "DVP_KN_NONMAXSUPPRESS_7x7_S16";
       "DVP_KN_VRUN_NONMAXSUPPRESS_3x3_S16"; "DVP_KN_VRUN_NONMAXSUPPRESS_5x5_S16";
       "DVP_KN_VRUN_NONMAXSUPPRESS_7x7_S16"]
      "DVP_Threshold_t"
      [[Valid "input" (16, 16, 16, 2) (Colors [FOURCC_Y16]); Valid "output" (16, 16, 16, 2) (Colors [FOURCC_Y800]);
        WidthFits "input" "output" 1; HeightFits "input" "output" 1];
       [Among ["DVP_KN_NONMAXSUPPRESS_7x7_S16"; "DVP_KN_VRUN_NONMAXSUPPRESS_7x7_S16"] (MaxWidth "input" 768)];
       [Unless ["DVP_KN_NONMAXSUPPRESS_7x7_S16"; "DVP_KN_VRUN_NONMAXSUPPRESS_7x7_S16"] (MaxWidth "input" 992)]];
    mkVerify
      ["DVP_KN_CANNY_IMAGE_SMOOTHING"; "DVP_KN_CONV_3x3"; "DVP_KN_CONV_5x5"; "DVP_KN_CONV_7x7";
       "DVP_KN_VRUN_CANNY_IMAGE_SMOOTHING"; "DVP_KN_VRUN_CONV_3x3"; "DVP_KN_VRUN_CONV_5x5"; "DVP_KN_VRUN_CONV_7x7";
       "DVP_KN_VRUN_CONV_MxN"]
      "DVP_ImageConvolution_t"
      [[Valid "input" (16, 16, 32, 2) (Colors [FOURCC_Y800]);
        Valid "output" (16, 16, 32, 2) (Colors [FOURCC_Y800]); Valid "mask" (4, 1, 1, 1) (Colors [FOURCC_Y800]);
        WidthFits "input" "output" 1; HeightFits "input" "output" 1]] ].
Definition simcop_verify_2 : list verify_row :=
  [ mkVerify
      ["DVP_KN_VRUN_SAD_8x8"; "DVP_KN_VRUN_SAD_16x16"; "DVP_KN_VRUN_SAD_3x3"; "DVP_KN_VRUN_SAD_5x5";
       "DVP_KN_VRUN_SAD_7x7"]
      "DVP_SAD_t"
      [[Valid "input" (16, 16, 32, 2) (Colors [FOURCC_Y800]);
        Valid "output" (16, 16, 32, 2) (Colors [FOURCC_Y800]); Valid "refImg" (16, 8, 8, 2) (Colors [FOURCC_Y800]);
        WidthFits "input" "output" 1; HeightFits "input" "output" 1]];
    mkVerify
      ["DVP_KN_CANNY_2D_GRADIENT"; "DVP_KN_VRUN_CANNY_2D_GRADIENT"]
      "DVP_Canny2dGradient_t"
      [[Valid "input" (16, 16, 16, 2) (Colors [FOURCC_Y800]);
        Valid "outGradX" (16, 16, 16, 2) (Colors [FOURCC_Y16]);
        Valid "outGradY" (16, 16, 16, 2) (Colors [FOURCC_Y16]);
        Valid "outMag" (16, 16, 16, 2) (Colors [FOURCC_Y16]); WidthFits "input" "outGradX" 1;
        HeightFits "input" "outGradX" 1; WidthFits "input" "outGradY" 1; HeightFits "input" "outGradY" 1;
        WidthFits "input" "outMag" 1; HeightFits "input" "outMag" 1]];
    mkVerify
      ["DVP_KN_CANNY_NONMAX_SUPPRESSION"; "DVP_KN_VRUN_CANNY_NONMAX_SUPPRESSION"]
      "DVP_CannyNonMaxSuppression_t"
      [[Valid "inMag" (16, 16, 32, 2) (Colors [FOURCC_Y16]); Valid "inGradX" (16, 16, 32, 2) (Colors [FOURCC_Y16]);
        Valid "inGradY" (16, 16, 32, 2) (Colors [FOURCC_Y16]);
        Valid "output" (16, 16, 32, 2) (Colors [FOURCC_Y800]); WidthFits "inMag" "output" 1;
        HeightFits "inMag" "output" 1; WidthFits "inGradX" "output" 1; HeightFits "inGradX" "output" 1;
        WidthFits "inGradY" "output" 1; HeightFits "inGradY" "output" 1]];
    mkVerify
      ["DVP_KN_CANNY_HYST_THRESHHOLD"; "DVP_KN_VRUN_CANNY_HYST_THRESHHOLD"]
      "DVP_CannyHystThresholding_t"
      [[Valid "inMag" (16, 16, 32, 2) (Colors [FOURCC_Y16]);
        Valid "inEdgeMap" (16, 16, 32, 2) (Colors [FOURCC_Y800]);
        Valid "output" (16, 16, 32, 2) (Colors [FOURCC_Y800]); WidthFits "inMag" "output" 1;
        HeightFits "inMag" "output" 1; WidthFits "inEdgeMap" "output" 1; HeightFits "inEdgeMap" "output" 1]];
    mkVerify
      ["DVP_KN_SOBEL_3x3_8s"; "DVP_KN_SOBEL_3x3_8"; "DVP_KN_SOBEL_5x5_8s"; "DVP_KN_SOBEL_5x5_8";
       "DVP_KN_SOBEL_7x7_8s"; "DVP_KN_SOBEL_7x7_8"; "DVP_KN_VRUN_SOBEL_3x3_8s"; "DVP_KN_VRUN_SOBEL_3x3_8";
       "DVP_KN_VRUN_SOBEL_5x5_8s"; "DVP_KN_VRUN_SOBEL_5x5_8"; "DVP_KN_VRUN_SOBEL_7x7_8s"; "DVP_KN_VRUN_SOBEL_7x7_8"]
      "DVP_Transform_t"
      [[Valid "input" (16, 16, 32, 2) (Colors [FOURCC_Y800]);
        Valid "output" (16, 16, 32, 2) (Colors [FOURCC_Y800]); WidthFits "input" "output" 1;
        HeightFits "input" "output" 1]];
    mkVerify
      ["DVP_KN_SOBEL_3x3_16s"; "DVP_KN_SOBEL_3x3_16"; "DVP_KN_SOBEL_5x5_16s"; "DVP_KN_SOBEL_5x5_16";
       "DVP_KN_SOBEL_7x7_16s"; "DVP_KN_SOBEL_7x7_16"; "DVP_KN_VRUN_SOBEL_3x3_16s"; "DVP_KN_VRUN_SOBEL_3x3_16";
       "DVP_KN_VRUN_SOBEL_5x5_16s"; "DVP_KN_VRUN_SOBEL_5x5_16"; "DVP_KN_VRUN_SOBEL_7x7_16s";
       "DVP_KN_VRUN_SOBEL_7x7_16"]
      "DVP_Transform_t"
      [[Valid "input" (16, 16, 32, 2) (Colors [FOURCC_Y16]); Valid "output" (16, 16, 32, 2) (Colors [FOURCC_Y16]);
        WidthFits "input" "output" 1; HeightFits "input" "output" 1]];
    mkVerify
      ["DVP_KN_XYXY_TO_Y800"; "DVP_KN_VRUN_XYXY_TO_Y800"]
      "DVP_Transform_t"
      [[Valid "input" (16, 16, 32, 2) (Colors [FOURCC_UYVY; FOURCC_VYUY]);
        Valid "output" (16, 16, 32, 2) (Colors [FOURCC_Y800]); WidthFits "input" "output" 1;
        HeightFits "input" "output" 1]];
    mkVerify
      ["DVP_KN_INTEGRAL_IMAGE_8"; "DVP_KN_VRUN_INTEGRAL_IMAGE_8"]
      "DVP_Transform_t"
      [[Valid "input" (16, 16, 32, 2) (Colors [FOURCC_Y800]); Valid "output" (16, 16, 32, 2) (Colors [FOURCC_Y32]);
        WidthFits "input" "output" 1; HeightFits "input" "output" 1];
       [MaxWidth "input" 2049; MaxHeight "input" 819]];
    mkVerify
      ["DVP_KN_UYVY_TO_YUV444p"; "DVP_KN_VRUN_UYVY_TO_YUV444p"]
      "DVP_Transform_t"
      [[Valid "input" (16, 16, 32, 2) (Colors [FOURCC_UYVY]);
        Valid "output" (16, 16, 32, 2) (Colors [FOURCC_YV24; FOURCC_YU24]); WidthFits "input" "output" 1;
        HeightFits "input" "output" 1]] ].
Definition simcop_verify_3 : list verify_row :=
  [ mkVerify
      ["DVP_KN_UYVY_TO_RGBp"; "DVP_KN_VRUN_UYVY_TO_RGBp"]
      "DVP_Transform_t"
      [[Valid "input" (16, 16, 32, 2) (Colors [FOURCC_UYVY]);
        Valid "output" (16, 16, 32, 2) (Colors [FOURCC_RGBP]); WidthFits "input" "output" 1;
        HeightFits "input" "output" 1]];
    mkVerify
      ["DVP_KN_UYVY_TO_YUV420p"; "DVP_KN_VRUN_UYVY_TO_YUV420p"]
      "DVP_Transform_t"
      [[Valid "input" (16, 16, 32, 2) (Colors [FOURCC_UYVY]);
        Valid "output" (16, 16, 32, 2) (Colors [FOURCC_IYUV; FOURCC_YV12]); WidthFits "input" "output" 1;
        HeightFits "input" "output" 1]];
    mkVerify
      ["DVP_KN_NV12_TO_YUV444p"; "DVP_KN_VRUN_NV12_TO_YUV444p"]
      "DVP_Transform_t"
      [[Valid "input" (16, 16, 32, 2) (Colors [FOURCC_NV12]);
        Valid "output" (16, 16, 32, 2) (Colors [FOURCC_YV24; FOURCC_YU24]); WidthFits "input" "output" 2;
        HeightFits "input" "output" 2]];
    mkVerify
      ["DVP_KN_YUV444p_TO_RGBp"; "DVP_KN_VRUN_YUV444p_TO_RGBp"]
      "DVP_Transform_t"
      [[Valid "input" (16, 16, 32, 2) (Colors [FOURCC_YU24; FOURCC_YV24]);
        Valid "output" (16, 16, 32, 2) (Colors [FOURCC_RGBP]); WidthFits "input" "output" 1;
        HeightFits "input" "output" 1]];
    mkVerify
      ["DVP_KN_LDC_AFFINE_TRANSFORM"; "DVP_KN_LDC_DISTORTION_CORRECTION"; "DVP_KN_LDC_DISTORTION_AND_AFFINE"]
      "DVP_Ldc_t"
      [[Valid "input" (16, 16, 16, 2) (Colors [FOURCC_UYVY; FOURCC_NV12]);
        Valid "output" (16, 16, 16, 2) (Colors [FOURCC_UYVY; FOURCC_NV12])];
       [Unless ["DVP_KN_LDC_AFFINE_TRANSFORM"] (ValidBuffer "ldcLut")]];
    mkVerify
      ["DVP_KN_VRUN_HARRIS_CORNERS"]
      "DVP_HarrisCorners_t"
      [[Valid "input" (16, 16, 16, 2) (Colors [FOURCC_Y800]);
        Valid "tempBuf1" (16, 16, 16, 2) (Colors [FOURCC_Y16]);
        Valid "tempBuf2" (16, 16, 16, 2) (Colors [FOURCC_Y16]);
        Valid "tempBuf3" (16, 16, 16, 2) (Colors [FOURCC_Y16]);
        Valid "tempBuf4" (16, 16, 16, 2) (Colors [FOURCC_Y16]);
        Valid "output" (16, 16, 16, 2) (Colors [FOURCC_Y800]); WidthFits "input" "output" 1;
        HeightFits "input" "output" 1]];
    mkVerify
      ["DVP_KN_VRUN_HARRIS_SCORE_7x7"]
      "DVP_Harris_t"
      [[Valid "input" (16, 16, 16, 2) (Colors [FOURCC_Y800]);
        Valid "harrisScore" (16, 16, 16, 2) (Colors [FOURCC_Y16])]];
    mkVerify
      ["DVP_KN_VRUN_BLOCK_MAXIMA"]
      "DVP_BlockMaxima_t"
      [[Valid "input" (16, 16, 32, 2) (Colors [FOURCC_Y16]);
        Valid "blockMaximaX" (16, 16, 32, 2) (Colors [FOURCC_Y16]);
        Valid "blockMaximaY" (16, 16, 32, 2) (Colors [FOURCC_Y16]);
        Valid "blockMaximaMAX" (16, 16, 32, 2) (Colors [FOURCC_Y16])]];
    mkVerify
      ["DVP_KN_VRUN_NMS_STEP1"]
      "DVP_NMSStep1_t"
      [[Valid "nmsStep1X" (16, 16, 16, 2) (Colors [FOURCC_Y16]);
        Valid "nmsStep1Y" (16, 16, 16, 2) (Colors [FOURCC_Y16]);
        Valid "nmsStep1Dst" (16, 16, 16, 2) (Colors [FOURCC_Y800])]];
    mkVerify
      ["DVP_KN_VRUN_GAUSSIAN_3x3_PYRAMID_8"; "DVP_KN_VRUN_GAUSSIAN_5x5_PYRAMID_8";
       "DVP_KN_VRUN_GAUSSIAN_7x7_PYRAMID_8"; "DVP_KN_VRUN_GRADIENT_H3x3_PYRAMID_8";
       "DVP_KN_VRUN_GRADIENT_H5x5_PYRAMID_8"; "DVP_KN_VRUN_GRADIENT_H7x7_PYRAMID_8";
       "DVP_KN_VRUN_GRADIENT_V3x3_PYRAMID_8"; "DVP_KN_VRUN_GRADIENT_V5x5_PYRAMID_8";
       "DVP_KN_VRUN_GRADIENT_V7x7_PYRAMID_8"]
      "DVP_Transform_t"
      [[Valid "input" (16, 16, 32, 2) (Colors [FOURCC_Y800]);
        Valid "output" (16, 16, 16, 2) (Colors [FOURCC_Y800]); WidthFits "input" "output" 2;
        HeightFits "input" "output" 2]];
    mkVerify
      ["DVP_KN_VRUN_IMAGE_PYRAMID_8"]
      "DVP_Pyramid_t"
      [[Valid "input" (16, 16, 128, 2) (Colors [FOURCC_Y800]); ValidBuffer "output"; PyramidRoom "output" "input"]] ].
Definition simcop_verify : list verify_row := simcop_verify_1 ++ simcop_verify_2 ++ simcop_verify_3.

(** [remote_kernels], for a numbering of the names *)
Section Published.
Context (num : string -> Z).
Definition core_function (k : string * option dvp_image_shift_t) : DVP_CoreFunction_t :=
  mkCoreFunction (num k.1) 0 k.2 (if String.eqb k.1 "DVP_KN_VRUN_CONV_MxN" then Some dvp_vrun_conv_mxn_shift else None).
Definition remote_kernels (ks : list (string * option dvp_image_shift_t)) : list DVP_CoreFunction_t := core_function <$> ks.
End Published.
