(* ===== verification/RemoteManager.v ===== *)
(** * The graph managers of the remote cores
    (source/dvp/dvp_kgm_simcop/dvp_kgm_simcop.c, dvp_kgm_dsp/dvp_kgm_dsp.c)

    Both managers are one program with different kernels: prepare the images
    and buffers of a stretch of nodes, call the remote core, return them.  The
    kernels are the tables of [RemoteTables]. *)
From S2P Require Import Prelude DvpTypes Perf KernelGraphManager Image ImageAlloc NodeData KgmCpu ParamTypes Rpc RemoteTables.
From stdpp Require Import strings.

Open Scope list_scope.
Open Scope Z_scope.
Open Scope dvp_scope.

(** [dvp_kgm.h]: the calls of the remote side *)
Definition DVP_KGM_REMOTE_INIT : Z := 0.
Definition DVP_KGM_REMOTE_EXEC : Z := 2.
Definition DVP_VERSION : Z := 0x20000.
Definition sizeof_DVP_KernelNode_t : Z := 4096.
(** Where a node's parameters start *)
Definition sizeof_DVP_KernelNodeHeader_t : Z := 88.

Section Remote.
(** The numbers of the kernels and the offsets of members of structures *)
Context (num : string -> Z) (layout : string -> string -> option Z).
(** The files behind buffer objects, and where the array of nodes is *)
Context (dmabuf_fd : gmap Z Z) (nodes_at : Z).

Definition labelled (k : Z) (names : list string) : bool := one_of k (num <$> names).
Definition row_for (t : list kernel_row) (k : Z) : option kernel_row := find (fun r => labelled k (row_kernels r)) t.

Definition flag (z : Z) : bool := negb (z =? 0).
Definition rpc_image_at (d : list Z) (off : Z) : option rpc_image :=
  '(i, si, sf) ← image32_at d off; Some (mkRpcImage i (flag si) (flag sf)).
Definition rpc_buffer_at (d : list Z) (off : Z) : option rpc_buffer :=
  '(b, si, sf) ← buffer32_at d off; Some (mkRpcBuffer (b_pData b) (b_numBytes b) (b_memType b) (flag si) (flag sf)).
(** The address of a byte of the parameters of node [n] *)
Definition data_addr (n off : Z) : Z := nodes_at + n * sizeof_DVP_KernelNode_t + sizeof_DVP_KernelNodeHeader_t + off.

(** ** One node *)

Fixpoint prepare_step (rpc : DVP_RPC_t) (s : string) (nd : DVP_KernelNode_t) (n : Z) (st : step) (l : rpc_log)
    : outcome rpc_log :=
  match st with
  | Img f cacheOp =>
      off ← of_option (layout s f); i ← of_option (rpc_image_at (data nd) off);
      dvp_rpc_prepare_image dmabuf_fd rpc i (data_addr n off) cacheOp nodes_at l
  | Buf f cacheOp =>
      off ← of_option (layout s f); b ← of_option (rpc_buffer_at (data nd) off);
      dvp_rpc_prepare_buffer dmabuf_fd rpc b (data_addr n off) cacheOp nodes_at l
  | Bound f =>
      off ← of_option (layout s f); p ← of_option (u32_at (data nd) off);
      if p =? 0 then Done l
      else
        handle ← dvp_rpc_get_handle dmabuf_fd rpc p;
        add_translation (mkTranslation 0 (u32 (data_addr n off - nodes_at)) p true handle) l
  | Only names st => if labelled (kernel (header nd)) names then prepare_step rpc s nd n st l else Done l
  | IfZero f st =>
      off ← of_option (layout s f); v ← of_option (u32_at (data nd) off);
      if v =? 0 then prepare_step rpc s nd n st l else Done l
  end.

Fixpoint return_step (s : string) (nd : DVP_KernelNode_t) (st : step) (l : rpc_log) : outcome rpc_log :=
  match st with
  | Img f cacheOp =>
      off ← of_option (layout s f); i ← of_option (rpc_image_at (data nd) off); dvp_rpc_return_image i cacheOp l
  | Buf f cacheOp =>
      off ← of_option (layout s f); b ← of_option (rpc_buffer_at (data nd) off); Done (dvp_rpc_return_buffer b cacheOp l)
  | Bound f => off ← of_option (layout s f); _ ← of_option (u32_at (data nd) off); Done l
  | Only names st => if labelled (kernel (header nd)) names then return_step s nd st l else Done l
  | IfZero f st =>
      off ← of_option (layout s f); v ← of_option (u32_at (data nd) off);
      if v =? 0 then return_step s nd st l else Done l
  end.

(** The bodies of the two loops; [None] is the [default] case. *)
Definition prepare_node (t : list kernel_row) (rpc : DVP_RPC_t) (ns : list DVP_KernelNode_t) (n : Z) (l : rpc_log)
    : outcome (option rpc_log) :=
  nd ← of_option (aget ns n);
  match row_for t (kernel (header nd)) with
  | Some r => l ← ofold (fun l st => prepare_step rpc (row_struct r) nd n st l) (row_steps r) l; Done (Some l)
  | None => Done None
  end.
Definition return_node (t : list kernel_row) (ns : list DVP_KernelNode_t) (n : Z) (l : rpc_log) : outcome (option rpc_log) :=
  nd ← of_option (aget ns n);
  match row_for t (kernel (header nd)) with
  | Some r => l ← ofold (fun l st => return_step (row_struct r) nd st l) (row_steps r) l; Done (Some l)
  | None => Done None
  end.

(** A loop over nodes: whether it came to its end, and the log so far. *)
Fixpoint node_loop (body : Z -> rpc_log -> outcome (option rpc_log)) (ids : list Z) (l : rpc_log) : outcome (bool * rpc_log) :=
  match ids with
  | [] => Done (true, l)
  | n :: ids => r ← body n l; if r is Some l then node_loop body ids l else Done (false, l)
  end.

(** ** The managers *)

(** The machine: what a cache operation does to it, whether the memory for a
    call is granted, and the driver, whose call may change memory and nodes;
    the clock *)
Context {M : Type} (cache : M -> rpc_event -> M) (granted : M -> bool).
Context (omaprpc_call : omaprpc_call_function_t -> M * list DVP_KernelNode_t ->
  outcome (option Z * (M * list DVP_KernelNode_t))).
Context (freq : Z) (now : Z -> Z).

(** The variables of the module ([rpc] and [core] may be null), readings of
    the clock so far, and the machine *)
Record remote_t : Type := mkRemote {
  rm_rpc : option DVP_RPC_t; rm_core : bool; coreLock : Z; rm_perf : DVP_Perf_t; rm_tick : Z; machine : M }.
Definition set_lock (v : Z) (w : remote_t) : remote_t :=
  mkRemote (rm_rpc w) (rm_core w) v (rm_perf w) (rm_tick w) (machine w).
Definition set_machine (m : M) (w : remote_t) : remote_t :=
  mkRemote (rm_rpc w) (rm_core w) (coreLock w) (rm_perf w) (rm_tick w) m.
Definition start_perf (w : remote_t) : remote_t :=
  mkRemote (rm_rpc w) (rm_core w) (coreLock w) (DVP_PerformanceStart (now (rm_tick w)) (rm_perf w)) (rm_tick w + 1) (machine w).
Definition stop_perf (w : remote_t) : outcome remote_t :=
  p ← DVP_PerformanceStop (now (rm_tick w)) (rm_perf w);
  Done (mkRemote (rm_rpc w) (rm_core w) (coreLock w) p (rm_tick w + 1) (machine w)).
Definition post (w : remote_t) : remote_t := set_lock (coreLock w + 1) w.
Definition run_cache (l : rpc_log) (w : remote_t) : remote_t := set_machine (foldl cache (machine w) l.1) w.

Definition exec_params (handle startNode numNodes : Z) : list DVP_RPC_Parameter_t :=
  [ mkParameter ((startNode ⊞ numNodes) ⊠ sizeof_DVP_KernelNode_t) nodes_at handle;
    mkParameter 4 startNode 0; mkParameter 4 numNodes 0 ].

(** Waiting for a lock that nobody posts does not return.  The [default] case
    of the first loop is [return 0], that of the second one [goto leave]. *)
Definition kernel_graph_manager (prepare return_ : list kernel_row) (w : remote_t) (ns : list DVP_KernelNode_t)
    (startNode numNodes : Z) : outcome (remote_t * list DVP_KernelNode_t * Z) :=
  if coreLock w =? 0 then NoFuel
  else
    let w := set_lock (coreLock w - 1) w in
    if nodes_at =? 0 then Done (post w, ns, 0)
    else
      let w := start_perf w in
      handle ← (if rm_rpc w is Some rpc then dvp_rpc_get_handle dmabuf_fd rpc nodes_at else Done 0);
      match rm_rpc w, rm_core w with
      | Some rpc, true =>
          '(supported, l) ← node_loop (prepare_node prepare rpc ns) (node_range startNode numNodes) ([], []);
          let w := run_cache l w in
          if negb supported then Done (w, ns, 0)
          else
            '(status, (m, ns)) ← dvp_rpc_remote_execute omaprpc_call (granted (machine w)) rpc DVP_KGM_REMOTE_EXEC
              (exec_params handle startNode numNodes) l.2 (machine w, ns);
            let processed := if 0 <=? status then status else 0 in
            '(supported, l) ← node_loop (return_node return_ ns) (node_range startNode numNodes) ([], []);
            let w := run_cache l (set_machine m w) in
            w ← (if supported : bool then stop_perf w else Done w);
            Done (post w, ns, processed)
      | _, _ => Done (post w, ns, 0)
      end.
Definition DVP_KernelGraphManager_SIMCOP := kernel_graph_manager simcop_prepare simcop_return.
Definition DVP_KernelGraphManager_DSP := kernel_graph_manager dsp_prepare dsp_return.

(** ** Verification *)

(** In this build there are eight types of memory. *)
Definition Bo_DVP_MTYPE_MAX : Z := 8.
Definition any_memory (i : DVP_Image_t) : DVP_Image_t :=
  mkImage (pData i) (pBuffer i) (planes i) (width i) (height i) (bufWidth i) (bufHeight i) (x_start i) (y_start i)
    (x_stride i) (y_stride i) (color i) (numBytes i) 0.
Definition image_validate (i : DVP_Image_t) (m : Z * Z * Z * Z) (colors : list Z) : outcome bool :=
  if Bo_DVP_MTYPE_MAX <? memType i then Done false
  else DVP_Image_Validate (any_memory i) m.1.1.1 m.1.1.2 m.1.2 m.2 colors.
Definition buffer_validate (b : DVP_Buffer_t) : bool :=
  if Bo_DVP_MTYPE_MAX <=? b_memType b then false
  else DVP_Buffer_Validate (mkBuffer (b_pData b) (elemSize b) (b_numBytes b) 0).

Definition image_field (s : string) (nd : DVP_KernelNode_t) (f : string) : outcome DVP_Image_t :=
  off ← of_option (layout s f); '(i, _, _) ← of_option (image32_at (data nd) off); Done i.
Definition buffer_field (s : string) (nd : DVP_KernelNode_t) (f : string) : outcome DVP_Buffer_t :=
  off ← of_option (layout s f); '(b, _, _) ← of_option (buffer32_at (data nd) off); Done b.

Fixpoint run_check (s : string) (nd : DVP_KernelNode_t) (c : check) : outcome bool :=
  match c with
  | Valid f m cs =>
      i ← image_field s nd f;
      colors ← match cs with Colors cs => Done cs | ColorOf g => j ← image_field s nd g; Done [color j] end;
      image_validate i m colors
  | ValidBuffer f => b ← buffer_field s nd f; Done (buffer_validate b)
  | WidthFits f g k => i ← image_field s nd f; j ← image_field s nd g; Done (negb ((width j ⊠ k) <? width i))
  | HeightFits f g k => i ← image_field s nd f; j ← image_field s nd g; Done (negb ((height j ⊠ k) <? height i))
  | MaxWidth f v => i ← image_field s nd f; Done (negb (v <? width i))
  | MaxHeight f v => i ← image_field s nd f; Done (negb (v <? height i))
  | PyramidRoom f g =>
      b ← buffer_field s nd f; i ← image_field s nd g;
      Done (negb (b_numBytes b <? ((width i ⊠ height i) ⊠ 21) / 64))
  | Among names c => if labelled (kernel (header nd)) names then run_check s nd c else Done true
  | Unless names c => if labelled (kernel (header nd)) names then Done true else run_check s nd c
  end.
(** One condition: it stops at the first check that fails. *)
Fixpoint run_checks (s : string) (nd : DVP_KernelNode_t) (cs : list check) : outcome bool :=
  match cs with
  | [] => Done true
  | c :: cs => ok ← run_check s nd c; if ok : bool then run_checks s nd cs else Done false
  end.
(** All conditions of a case are evaluated. *)
Definition run_conditions (s : string) (nd : DVP_KernelNode_t) (css : list (list check)) : outcome bool :=
  ofold (fun ok cs => b ← run_checks s nd cs; Done (ok && b)) css true.

Definition verdict (t : list verify_row) (nd : DVP_KernelNode_t) : outcome Z :=
  match find (fun r => labelled (kernel (header nd)) (vr_kernels r)) t with
  | Some r =>
      ok ← run_conditions (vr_struct r) nd (vr_checks r);
      Done (if ok : bool then DVP_SUCCESS else DVP_ERROR_INVALID_PARAMETER)
  | None => Done DVP_ERROR_NOT_IMPLEMENTED
  end.
Definition simcop_verify_node (s : list DVP_KernelNode_t * Z) (n : Z) : outcome (list DVP_KernelNode_t * Z) :=
  nd ← of_option (aget s.1 n);
  e ← verdict simcop_verify nd;
  ns ← upd_node s.1 n (set_error e);
  Done (ns, if e =? DVP_SUCCESS then s.2 + 1 else s.2).
Definition dsp_verify_node (s : list DVP_KernelNode_t * Z) (n : Z) : outcome (list DVP_KernelNode_t * Z) :=
  ns ← upd_node s.1 n (set_error DVP_SUCCESS); Done (ns, s.2 + 1).
Definition simcop_verify_nodes ns startNode numNodes :=
  '(ns, verified) ← ofold simcop_verify_node (node_range startNode numNodes) (ns, 0); Done (ns, u32 verified).
(** The answer is [numNodes]. *)
Definition dsp_verify_nodes ns startNode numNodes :=
  '(ns, _) ← ofold dsp_verify_node (node_range startNode numNodes) (ns, 0); Done (ns, numNodes).

(** ** Start and end of a module *)

(** [width] and [height] are numbers of 32 bits on SIMCOP, of 16 on the DSP. *)
Definition simcop_init_params : list DVP_RPC_Parameter_t := [ mkParameter 4 320 0; mkParameter 4 240 0 ].
Definition dsp_init_params : list DVP_RPC_Parameter_t :=
  [ mkParameter 2 320 0; mkParameter 2 240 0; mkParameter 4 DVP_VERSION 0 ].

Definition remote_init (params : list DVP_RPC_Parameter_t) (rpc : option DVP_RPC_t) (w : remote_t)
    (ns : list DVP_KernelNode_t) : outcome (bool * remote_t * list DVP_KernelNode_t) :=
  match rm_rpc w, rm_core w, rpc with
  | None, false, Some rpc =>
      '(status, (m, ns)) ← dvp_rpc_remote_execute omaprpc_call (granted (machine w)) rpc DVP_KGM_REMOTE_INIT params []
        (machine w, ns);
      let w := mkRemote (Some rpc) true (coreLock w) (rm_perf w) (rm_tick w) m in
      if status <? 0 then Done (false, w, ns)
      else Done (true, mkRemote (Some rpc) true 1 (DVP_Perf_Clear freq) (rm_tick w) m, ns)
  | _, _, _ => Done (false, w, ns)
  end.
(** Both managers send three parameters again, after the remote core was
    restarted. *)
Definition DVP_KernelGraphManagerRestart (w : remote_t) (ns : list DVP_KernelNode_t)
    : outcome (remote_t * list DVP_KernelNode_t) :=
  rpc ← of_option (rm_rpc w);
  if rm_core w then
    '(_, (m, ns)) ← dvp_rpc_remote_execute omaprpc_call (granted (machine w)) rpc DVP_KGM_REMOTE_INIT dsp_init_params []
      (machine w, ns);
    Done (set_machine m w, ns)
  else Undef.
Definition DVP_KernelGraphManagerDeinit (w : remote_t) : remote_t :=
  mkRemote None false (coreLock w) (rm_perf w) (rm_tick w) (machine w).

(** ** The modules' entry points *)

(** The number of the first node and of nodes are of type [DVP_U32]. *)
Definition is_u32b (z : Z) : bool := (0 <=? z) && (z <? 2 ^ 32).
Definition entry (startNode numNodes : Z) (run : remote_t -> outcome (remote_t * list DVP_KernelNode_t * Z))
    (w : outcome remote_t) (ns : list DVP_KernelNode_t) : outcome remote_t * list DVP_KernelNode_t * Z :=
  match (if is_u32b startNode && is_u32b numNodes then w ≫= run else Undef) with
  | Done (w', ns', k) => (Done w', ns', k)
  | Undef => (Undef, ns, 0)
  | NoFuel => (NoFuel, ns, 0)
  end.
Definition on_nodes (v : outcome (list DVP_KernelNode_t * Z)) (w : remote_t) : outcome (remote_t * list DVP_KernelNode_t * Z) :=
  '(ns, k) ← v; Done (w, ns, k).
(** [DVP_GetMaximumLoad] *)
Definition simcop_load : Z := 200.
Definition dsp_load : Z := 466.
Definition simcop_calls : DVP_GraphManager_Calls_t (outcome remote_t) :=
  mkCalls true (fun w ns st n _ => entry st n (fun w => DVP_KernelGraphManager_SIMCOP w ns st n) w ns)
    (Some (remote_kernels num simcop_kernels)) DVP_CORE_SIMCOP simcop_load
    (fun w ns st n => entry st n (on_nodes (simcop_verify_nodes ns st n)) w ns).
Definition dsp_calls : DVP_GraphManager_Calls_t (outcome remote_t) :=
  mkCalls true (fun w ns st n _ => entry st n (fun w => DVP_KernelGraphManager_DSP w ns st n) w ns)
    (Some (remote_kernels num dsp_kernels)) DVP_CORE_DSP dsp_load
    (fun w ns st n => entry st n (on_nodes (dsp_verify_nodes ns st n)) w ns).
End Remote.
Arguments remote_t : clear implicits.
Arguments mkRemote {M}.
