(* ===== verification/Omaprpc.v ===== *)
(** * The client of the OMAPRPC driver (source/omaprpc/omaprpc.c) and the
    connection of a core (dvp_rpc_omaprpc.c)

    Opening and closing a device, a call, and what happens when the remote
    core was rebooted: the device is opened again and the manager of the core
    sends its initial message, through the call it was started from. *)
From S2P Require Import Prelude DvpTypes Perf NodeData Rpc RemoteManager.
From stdpp Require Import strings.

Open Scope string_scope.
Open Scope list_scope.
Open Scope Z_scope.
Open Scope dvp_scope.

(** ** The driver *)

Definition ENXIO : Z := 6.
Definition ENOTCONN : Z := 107.

(** The calls of the system, and what they answer: the result, [errno], and
    the field [status] of what was read *)
Inductive io : Set :=
  | SysOpen (name : string)
  | SysClose (fd : Z)
  | IoctlCreate (fd : Z) (name : string)
  | IoctlDestroy (fd : Z)
  | SysWrite (fd : Z) (f : omaprpc_call_function_t)
  | SysRead (fd : Z).
Record reply : Set := mkReply { ret : Z; errno : Z; status : Z }.

(** [restart]: a callback is registered.  The array of functions is not used. *)
Record omaprpc_t : Set := mkOmaprpc {
  device : Z; dev_name : string; create : string; retries : Z; num_funcs : Z; restart : bool; in_restart : bool }.
Definition set_device (fd : Z) (r : omaprpc_t) : omaprpc_t :=
  mkOmaprpc fd (dev_name r) (create r) (retries r) (num_funcs r) (restart r) (in_restart r).
Definition set_in_restart (b : bool) (r : omaprpc_t) : omaprpc_t :=
  mkOmaprpc (device r) (dev_name r) (create r) (retries r) (num_funcs r) (restart r) b.
Definition OMAPRPC_RESTART_CONDITION (a : reply) : bool := (errno a =? ENXIO) || (errno a =? ENOTCONN).

(** Names are cut at the length of their arrays. *)
Definition strncpy (n : Z) (s : string) : string := String.substring 0 (Z.to_nat n) s.

Section Driver.
Context {W : Type} (sys : io -> W -> reply * W).

(** The handle is [NULL], and its memory free, unless nothing was done. *)
Definition omaprpc_close (r : omaprpc_t) (w : W) : option omaprpc_t * W :=
  if 0 <? num_funcs r then
    let '(_, w) := sys (IoctlDestroy (device r)) w in
    let '(_, w) := sys (SysClose (device r)) w in
    (None, w)
  else (Some r, w).

(** [granted]: the structure was allocated. *)
Definition omaprpc_open (granted : bool) (device_name server_name : string) (numFuncs : Z) (w : W) : option omaprpc_t * W :=
  if granted then
    let '(a, w) := sys (SysOpen device_name) w in
    let r := mkOmaprpc (ret a) (strncpy MAX_PATH device_name) "" 0 0 false false in
    if ret a <? 0 then omaprpc_close r w
    else
      let r := mkOmaprpc (ret a) (dev_name r) (strncpy 48 server_name) 0 0 false false in
      let '(b, w) := sys (IoctlCreate (device r) (create r)) w in
      if ret b <? 0 then omaprpc_close r w
      else (Some (mkOmaprpc (device r) (dev_name r) (create r) 0 numFuncs false false), w)
  else (None, w).

(** [func] is not null. *)
Definition omaprpc_restart_callback (retries : Z) (r : omaprpc_t) : omaprpc_t :=
  mkOmaprpc (device r) (dev_name r) (create r) retries (num_funcs r) true (in_restart r).

(** The loop that opens the device again, [more] times after the first; what
    it sleeps in between is left out. *)
Fixpoint reopen (more : nat) (name : string) (w : W) : Z * W :=
  let '(a, w) := sys (SysOpen name) w in
  match more with
  | S more => if ret a <=? 0 then reopen more name w else (ret a, w)
  | O => (ret a, w)
  end.

Definition restart_with (callback : omaprpc_t -> W -> outcome (option omaprpc_t * W)) (r : omaprpc_t) (w : W)
    : outcome (option omaprpc_t * W) :=
  if restart r then
    let '(_, w) := sys (SysClose (device r)) w in
    let n := if retries r =? 0 then 1 else retries r in
    let '(fd, w) := reopen (Z.to_nat (n - 1)) (dev_name r) w in
    let r := set_device fd r in
    if 0 <? fd then
      let '(a, w) := sys (IoctlCreate fd (create r)) w in
      if ret a <? 0 then Done (omaprpc_close r w)
      else
        '(h, w) ← callback (set_in_restart true r) w;
        r ← of_option h;
        Done (Some (set_in_restart false r), w)
    else Done (Some r, w)
  else Done (Some r, w).

(** The answer: whether the call passed, with the status read if a place for
    it was [wanted], and the handle unless it was freed. *)
Definition call_with (restarted : omaprpc_t -> W -> outcome (option omaprpc_t * W)) (wanted : bool) (r : omaprpc_t)
    (f : omaprpc_call_function_t) (w : W) : outcome (bool * option Z * option omaprpc_t * W) :=
  let failed a w :=
    if OMAPRPC_RESTART_CONDITION a && negb (in_restart r) then '(h, w) ← restarted r w; Done (false, None, h, w)
    else Done (false, None, Some r, w) in
  if func_index f <? num_funcs r then
    let '(a, w) := sys (SysWrite (device r) f) w in
    if ret a <? 0 then failed a w
    else if wanted then
      let '(a, w) := sys (SysRead (device r)) w in
      if ret a <? 0 then failed a w else Done (true, Some (status a), Some r, w)
    else Done (true, None, Some r, w)
  else Done (false, None, Some r, w).

(** The callback of an endpoint may call the driver itself; [depth] bounds
    how deep restarts are nested. *)
Context (endpoint_restarted :
  (bool -> omaprpc_t -> omaprpc_call_function_t -> W -> outcome (bool * option Z * option omaprpc_t * W)) ->
  omaprpc_t -> W -> outcome (option omaprpc_t * W)).

Fixpoint omaprpc_call (depth : nat) : bool -> omaprpc_t -> omaprpc_call_function_t -> W ->
    outcome (bool * option Z * option omaprpc_t * W) :=
  call_with (match depth with O => fun _ _ => NoFuel | S depth => restart_with (endpoint_restarted (omaprpc_call depth)) end).
Definition omaprpc_restart (depth : nat) : omaprpc_t -> W -> outcome (option omaprpc_t * W) :=
  restart_with (endpoint_restarted (omaprpc_call depth)).
End Driver.

(** ** Cores (dvp_rpc_omaprpc.c) *)

Record DVP_Core_Name_t : Set := mkCoreName {
  enabled : bool; core : DVP_Core_e; server_name : string; device_name : option string }.
(** The table for OMAP4, on a board with the DSP *)
Definition dvp_core_names : list DVP_Core_Name_t :=
  [ mkCoreName true DVP_CORE_DSP "dvp_kgm_dsp" (Some "/dev/dvp_kgm_dsp");
    mkCoreName true DVP_CORE_SIMCOP "dvp_kgm_simcop" (Some "/dev/dvp_kgm_simcop");
    mkCoreName false DVP_CORE_MCU0 "dvp_kgm_app" (Some "/dev/dvp_kgm_app");
    mkCoreName false DVP_CORE_MCU1 "dvp_kgm_sys" (Some "/dev/dvp_kgm_sys");
    mkCoreName false DVP_CORE_GPU "dvp_kgm_sgx" None;
    mkCoreName false DVP_CORE_EVE "dvp_kgm_eve" None;
    mkCoreName true DVP_CORE_CPU "" None ].
Definition DVP_CORE_REMOTE_MAX : Z := core_value DVP_CORE_CPU.
Definition DVP_VALID_REMOTE_CORE (c : Z) : bool := (DVP_CORE_MIN <? c) && (c <? DVP_CORE_REMOTE_MAX).
Definition dvp_rpc_core_is_enabled (names : list DVP_Core_Name_t) (c : DVP_Core_e) : bool :=
  if find (fun n => bool_decide (c = core n)) names is Some n then enabled n else false.
Definition DVP_MAX_RESTART_RETRY : Z := 100.

(** [callback]: the restart function of a manager is registered. *)
Record DVP_RPC_Core_t : Set := mkRpcCore { coreEnum : DVP_Core_e; core_rpc : option omaprpc_t; callback : bool }.

Section Cores.
Context {W : Type} (sys : io -> W -> reply * W).

Definition dvp_rpc_core_deinit (c : DVP_RPC_Core_t) (w : W) : W :=
  if core_rpc c is Some r then (omaprpc_close sys r w).2 else w.
Definition dvp_rpc_restart_callback_register (c : DVP_RPC_Core_t) : DVP_RPC_Core_t :=
  mkRpcCore (coreEnum c) (core_rpc c) true.

(** What the system grants: the structure of the core, and that of the
    connection.  The answer is the core, the table and the world. *)
Definition dvp_rpc_core_init (granted_core granted_rpc : bool) (c : DVP_Core_e) (numRemoteFunctions : Z)
    (names : list DVP_Core_Name_t) (w : W) : outcome (option DVP_RPC_Core_t * list DVP_Core_Name_t * W) :=
  if negb granted_core then Done (None, names, w)
  else if DVP_VALID_REMOTE_CORE (core_value c) && dvp_rpc_core_is_enabled names c then
    n ← of_option (aget names (core_value c));
    dev ← of_option (device_name n);
    let '(h, w) := omaprpc_open sys granted_rpc dev (server_name n) numRemoteFunctions w in
    names ← of_option (aset names (core_value c) (mkCoreName (bool_decide (is_Some h)) (core n) (server_name n) (device_name n)));
    match h with
    | Some r => Done (Some (mkRpcCore c (Some (omaprpc_restart_callback DVP_MAX_RESTART_RETRY r)) false), names, w)
    | None => Done (None, names, dvp_rpc_core_deinit (mkRpcCore c None false) w)
    end
  else Done (None, names, dvp_rpc_core_deinit (mkRpcCore c None false) w).
End Cores.

(** ** The connection under a manager

    The machine of a manager is the handle of its connection, unless that was
    freed, and what is behind the system.  When the connection restarts, the
    manager's function to restart makes a call over it. *)
Section Connection.
Context {X : Type} (sys : io -> X * list DVP_KernelNode_t -> reply * (X * list DVP_KernelNode_t)).
Context (granted : option omaprpc_t * X -> bool).

Definition link_call (call : bool -> omaprpc_t -> omaprpc_call_function_t -> X * list DVP_KernelNode_t ->
      outcome (bool * option Z * option omaprpc_t * (X * list DVP_KernelNode_t)))
    (f : omaprpc_call_function_t) (s : (option omaprpc_t * X) * list DVP_KernelNode_t)
    : outcome (option Z * ((option omaprpc_t * X) * list DVP_KernelNode_t)) :=
  r ← of_option s.1.1;
  '(passed, st, h, (x, ns)) ← call true r f (s.1.2, s.2);
  Done (if passed : bool then st else None, ((h, x), ns)).

(** [w] are the variables of the manager, [registered] says that its function
    was given to the core. *)
Definition dvp_rpc_restart_callback (registered : bool) (w : remote_t (option omaprpc_t * X))
    (call : bool -> omaprpc_t -> omaprpc_call_function_t -> X * list DVP_KernelNode_t ->
      outcome (bool * option Z * option omaprpc_t * (X * list DVP_KernelNode_t)))
    (r : omaprpc_t) (s : X * list DVP_KernelNode_t) : outcome (option omaprpc_t * (X * list DVP_KernelNode_t)) :=
  if registered then
    '(w, ns) ← DVP_KernelGraphManagerRestart granted (link_call call) (set_machine (Some r, s.1) w) s.2;
    Done ((machine w).1, ((machine w).2, ns))
  else Done (Some r, s).

Definition core_call (registered : bool) (w : remote_t (option omaprpc_t * X)) (depth : nat) :=
  link_call (omaprpc_call sys (dvp_rpc_restart_callback registered w) depth).
End Connection.

(** ** Restarts are not nested *)

(** The computation does not run out of fuel. *)
Definition returns {A} (m : outcome A) : Prop := m <> NoFuel.
Lemma returns_bind {A B} (m : outcome A) (k : A -> outcome B) : returns m -> (forall a, returns (k a)) -> returns (m ≫= k).
Proof. intros Hm Hk. destruct m as [a| |]; [apply Hk|done|by destruct Hm]. Qed.
Lemma returns_option {A} (o : option A) : returns (of_option o).
Proof. by destruct o. Qed.

(** The words of the message a manager sends after a restart *)
Definition init_message : omaprpc_call_function_t :=
  mkCallFunction DVP_KGM_REMOTE_INIT
    [mkOmapParam OMAPRPC_PARAM_TYPE_ATOMIC 2 320 0 0; mkOmapParam OMAPRPC_PARAM_TYPE_ATOMIC 2 240 0 0;
     mkOmapParam OMAPRPC_PARAM_TYPE_ATOMIC 4 DVP_VERSION 0 0] [].
Lemma init_execute {V} (call : omaprpc_call_function_t -> V -> outcome (option Z * V)) g rpc v :
  dvp_rpc_remote_execute call g rpc DVP_KGM_REMOTE_INIT dsp_init_params [] v =
    if g then '(returned, v) ← call init_message v; Done (match returned with Some status => s32 status | None => -1 end, v)
    else Done (0, v).
Proof. by destruct g. Qed.

Section Nesting.
Context {W : Type} (sys : io -> W -> reply * W).
Abbreviation handler := (omaprpc_t -> W -> outcome (option omaprpc_t * W)).

Lemma call_in_restart (k k' : handler) wanted r f w : in_restart r = true ->
  call_with sys k wanted r f w = call_with sys k' wanted r f w.
Proof.
  intros Hr. unfold call_with. rewrite Hr. cbn [negb]. destruct (_ <? _); [|done]. destruct (sys _ w) as [a w1].
  rewrite andb_false_r. destruct (_ <? _); [done|]. destruct wanted; [|done]. destruct (sys _ w1) as [b w2].
  by rewrite andb_false_r.
Qed.
Lemma call_with_returns (k : handler) wanted r f w : (in_restart r = false -> forall w, returns (k r w)) ->
  returns (call_with sys k wanted r f w).
Proof.
  intros Hk. unfold call_with. destruct (_ <? _); [|done].
  assert (forall a w, returns (if OMAPRPC_RESTART_CONDITION a && negb (in_restart r)
    then '(h, w) ← k r w; Done (false, None : option Z, h, w) else Done (false, None, Some r, w))) as Hf.
  { intros a w'. destruct (OMAPRPC_RESTART_CONDITION a); [|done]. destruct (in_restart r) eqn:Hr; [done|]. cbn [andb negb].
    apply returns_bind; [by apply Hk|]. by intros []. }
  destruct (sys _ w) as [a w1]. destruct (_ <? _); [apply Hf|]. destruct wanted; [|done].
  destruct (sys _ w1) as [b w2]. by destruct (_ <? _).
Qed.
Lemma restart_with_ext (k k' : handler) r w : (forall r w, in_restart r = true -> k r w = k' r w) ->
  restart_with sys k r w = restart_with sys k' r w.
Proof.
  intros Hk. unfold restart_with. destruct (restart r); [|done]. destruct (sys _ w) as [? w1].
  destruct (reopen _ _ _ w1) as [fd w2]. destruct (_ <? _); [|done]. destruct (sys _ w2) as [a w3].
  destruct (_ <? _); [done|]. by rewrite Hk.
Qed.
Lemma restart_with_returns (k : handler) r w : (forall r w, in_restart r = true -> returns (k r w)) ->
  returns (restart_with sys k r w).
Proof.
  intros Hk. unfold restart_with. destruct (restart r); [|done]. destruct (sys _ w) as [? w1].
  destruct (reopen _ _ _ w1) as [fd w2]. destruct (_ <? _); [|done]. destruct (sys _ w2) as [a w3].
  destruct (_ <? _); [done|]. apply returns_bind; [by apply Hk|]. intros [h w4].
  apply returns_bind; [apply returns_option|done].
Qed.
End Nesting.

Section Link.
Context {X : Type} (sys : io -> X * list DVP_KernelNode_t -> reply * (X * list DVP_KernelNode_t)).
Context (granted : option omaprpc_t * X -> bool) (registered : bool) (w : remote_t (option omaprpc_t * X)).
Abbreviation driver d := (omaprpc_call sys (dvp_rpc_restart_callback granted registered w) d).

Lemma driver_in_restart d d' wanted r f s : in_restart r = true -> driver d wanted r f s = driver d' wanted r f s.
Proof. intros Hr. destruct d, d'; by apply call_in_restart. Qed.

(** The function that a restart calls uses the handle it is given. *)
Lemma callback_ext call call' r s : (forall f s, call true r f s = call' true r f s) ->
  dvp_rpc_restart_callback granted registered w call r s = dvp_rpc_restart_callback granted registered w call' r s.
Proof.
  intros Hc. unfold dvp_rpc_restart_callback. destruct registered; [|done].
  unfold DVP_KernelGraphManagerRestart. destruct (rm_rpc _); [|done]. cbn [of_option mbind outcome_bind].
  destruct (rm_core _); [|done]. rewrite !init_execute. destruct (granted _); [|done].
  unfold link_call. cbn [fst snd set_machine machine of_option mbind outcome_bind]. by rewrite Hc.
Qed.
Lemma callback_returns call r s : (forall f s, returns (call true r f s)) ->
  returns (dvp_rpc_restart_callback granted registered w call r s).
Proof.
  intros Hc. unfold dvp_rpc_restart_callback. destruct registered; [|done].
  apply returns_bind; [|by intros []]. unfold DVP_KernelGraphManagerRestart. apply returns_bind; [apply returns_option|].
  intros rpc. destruct (rm_core _); [|done]. rewrite init_execute. apply returns_bind; [|by intros [? [? ?]]].
  destruct (granted _); [|done]. apply returns_bind; [|by intros []]. unfold link_call. cbn [fst snd set_machine machine of_option mbind outcome_bind].
  apply returns_bind; [apply Hc|]. by intros [[[? ?] ?] [? ?]].
Qed.

Lemma driver_depth d wanted r f s : driver (S d) wanted r f s = driver 1 wanted r f s.
Proof.
  cbn [omaprpc_call]. unfold call_with. destruct (_ <? _); [|done].
  assert (forall r s, restart_with sys (dvp_rpc_restart_callback granted registered w (driver d)) r s =
    restart_with sys (dvp_rpc_restart_callback granted registered w (driver 0)) r s) as Hr.
  { intros. apply restart_with_ext. intros r' s' Hr'. apply callback_ext. intros. by apply driver_in_restart. }
  destruct (sys _ s) as [a s1]. destruct (_ <? _); [by rewrite Hr|]. destruct wanted; [|done].
  destruct (sys _ s1) as [b s2]. by rewrite Hr.
Qed.
Lemma driver_returns d wanted r f s : returns (driver (S d) wanted r f s).
Proof.
  rewrite driver_depth. apply call_with_returns. intros _ s'. apply restart_with_returns. intros r' s2 Hr'.
  apply callback_returns. intros g s3. apply call_with_returns. intros Hr. congruence.
Qed.

(** A call of a remote core returns, whatever the driver answers: a
    restart calls the manager's function, which calls the driver, but that
    call does not restart again.  A nesting of one is enough, and any more
    gives the same. *)
Theorem core_calls_return depth f s :
  core_call sys granted registered w (S depth) f s = core_call sys granted registered w 1 f s /\
  core_call sys granted registered w (S depth) f s <> NoFuel.
Proof.
  unfold core_call, link_call. split.
  - destruct s as [[[r|] x] ns]; [|done]. cbn [fst snd of_option mbind outcome_bind]. by rewrite driver_depth.
  - apply returns_bind; [apply returns_option|]. intros r. apply returns_bind; [apply driver_returns|].
    by intros [[[? ?] ?] [? ?]].
Qed.
End Link.

(** ** A core that was rebooted *)

(** A world that is its own history: what the system answers, and what the
    remote core does to the nodes, are functions of the calls so far, the last
    one included. *)
Section History.
Context (answer : list io -> reply) (effect : list io -> list DVP_KernelNode_t -> list DVP_KernelNode_t).
Definition recorded (e : io) (s : list io * list DVP_KernelNode_t) : reply * (list io * list DVP_KernelNode_t) :=
  (answer (s.1 ++ [e]), (s.1 ++ [e], effect (s.1 ++ [e]) s.2)).
Implicit Types (h : list io) (ns : list DVP_KernelNode_t) (r : omaprpc_t).

(** A call by [r] is told that the core is gone: when it writes, or when it
    reads the answer. *)
Definition lost h r (f : omaprpc_call_function_t) (calls : list io) : Prop :=
  (calls = [SysWrite (device r) f] \/
   calls = [SysWrite (device r) f; SysRead (device r)] /\ 0 <= ret (answer (h ++ [SysWrite (device r) f]))) /\
  ret (answer (h ++ calls)) < 0 /\ OMAPRPC_RESTART_CONDITION (answer (h ++ calls)) = true.
(** After [j] failures the device opens as [fd], and the service is there. *)
Record reopened h r (j : nat) (fd : Z) : Prop := {
  ro_tries : (j < Z.to_nat (Z.max 1 (retries r)))%nat;
  ro_failed : forall i, (i < j)%nat -> ret (answer (h ++ replicate (S i) (SysOpen (dev_name r)))) <= 0;
  ro_opened : ret (answer (h ++ replicate (S j) (SysOpen (dev_name r)))) = fd /\ 0 < fd;
  ro_created : 0 <= ret (answer (h ++ replicate (S j) (SysOpen (dev_name r)) ++ [IoctlCreate fd (create r)])) }.

Lemma reopen_recorded name j : forall more h ns, (j <= more)%nat ->
  (forall i, (i < j)%nat -> ret (answer (h ++ replicate (S i) (SysOpen name))) <= 0) ->
  0 < ret (answer (h ++ replicate (S j) (SysOpen name))) ->
  exists ns', reopen recorded more name (h, ns) =
    (ret (answer (h ++ replicate (S j) (SysOpen name))), (h ++ replicate (S j) (SysOpen name), ns')).
Proof.
  induction j as [|j IH]; intros more h ns Hm Hf Ho.
  - destruct more; cbn; [by eexists|]. cbn [replicate] in Ho. rewrite (proj2 (Z.leb_gt _ _)) by done. by eexists.
  - destruct more as [|more]; [lia|]. cbn -[replicate]. pose proof (Hf 0%nat ltac:(lia)) as H0. cbn [replicate] in H0.
    rewrite (proj2 (Z.leb_le _ _)) by done.
    assert (forall k, h ++ replicate (S k) (SysOpen name) = (h ++ [SysOpen name]) ++ replicate k (SysOpen name)) as Hs
      by (intros; by rewrite <- app_assoc).
    rewrite (Hs (S j)) in *. apply IH; [lia| |done]. intros i Hi. rewrite <- Hs. apply Hf. lia.
Qed.

(** The manager's message, sent by a restart *)
Lemma init_recorded k wanted r h ns : in_restart r = true -> 0 < num_funcs r ->
  let sent := h ++ [SysWrite (device r) init_message] in
  exists passed st ns', call_with recorded k wanted r init_message (h, ns) =
    Done (passed, st, Some r,
      (sent ++ (if (ret (answer sent) <? 0) || negb wanted then [] else [SysRead (device r)]), ns')).
Proof.
  intros Hr Hn sent. unfold call_with. rewrite Hr. change (func_index init_message) with 0. rewrite (proj2 (Z.ltb_lt _ _) Hn).
  cbn [recorded fst snd negb]. rewrite !andb_false_r. fold sent. destruct (ret (answer sent) <? 0); cbn [orb].
  { do 3 eexists. by rewrite app_nil_r. }
  destruct wanted; cbn [negb]; [|do 3 eexists; by rewrite app_nil_r].
  destruct (ret _ <? 0); by do 3 eexists.
Qed.

Section Reboot.
Context (granted : option omaprpc_t * list io -> bool) (w : remote_t (option omaprpc_t * list io)) (registry : DVP_RPC_t).
Context (Hgranted : forall m, granted m = true) (Hmanager : rm_rpc w = Some registry /\ rm_core w = true).
Abbreviation callback := (dvp_rpc_restart_callback granted true w).

Lemma callback_recorded d r h ns : in_restart r = true -> 0 < num_funcs r ->
  let sent := h ++ [SysWrite (device r) init_message] in
  exists ns', callback (omaprpc_call recorded callback d) r (h, ns) =
    Done (Some r, (sent ++ (if ret (answer sent) <? 0 then [] else [SysRead (device r)]), ns')).
Proof.
  intros Hr Hn sent. destruct Hmanager as [Hrpc Hcore].
  assert (exists k, omaprpc_call recorded callback d = call_with recorded k) as [k ->] by (destruct d; by eexists).
  unfold dvp_rpc_restart_callback, DVP_KernelGraphManagerRestart.
  cbn [set_machine rm_rpc rm_core machine fst snd]. rewrite Hrpc, Hcore. cbn [of_option mbind outcome_bind].
  rewrite init_execute, Hgranted. unfold link_call. cbn [fst snd of_option mbind outcome_bind].
  destruct (init_recorded k true r h ns Hr Hn) as (passed & st & ns' & Hc). rewrite orb_false_r in Hc.
  exists ns'. by rewrite Hc.
Qed.

Lemma restart_recorded d r h ns j fd : restart r = true -> 0 < num_funcs r -> 0 <= retries r ->
  let h1 := h ++ [SysClose (device r)] in
  let h2 := h1 ++ replicate (S j) (SysOpen (dev_name r)) ++ [IoctlCreate fd (create r); SysWrite fd init_message] in
  reopened h1 r j fd ->
  exists ns', restart_with recorded (callback (omaprpc_call recorded callback d)) r (h, ns) =
    Done (Some (set_in_restart false (set_device fd r)), (h2 ++ (if ret (answer h2) <? 0 then [] else [SysRead fd]), ns')).
Proof.
  intros Hre Hn Hret h1 h2 [Htries Hfailed [Hopen Hfd] Hcreate]. unfold restart_with. rewrite Hre. cbn [recorded fst snd]. fold h1.
  destruct (reopen_recorded (dev_name r) j (Z.to_nat ((if retries r =? 0 then 1 else retries r) - 1)) h1 (effect h1 ns))
    as (ns1 & ->); [destruct (Z.eqb_spec (retries r) 0); lia|done|by rewrite Hopen|].
  rewrite Hopen, (proj2 (Z.ltb_lt _ _) Hfd). cbn [recorded fst snd create set_device].
  rewrite app_assoc in Hcreate. rewrite (proj2 (Z.ltb_ge _ _) Hcreate).
  match goal with |- context [callback _ ?q (?l, ?m)] => destruct (callback_recorded d q l m) as (ns' & ->); [done..|] end.
  exists ns'. cbn [of_option mbind outcome_bind device set_in_restart set_device]. unfold h2.
  by rewrite <- !app_assoc.
Qed.

(** C20: a core that was rebooted is taken up again: when the driver says in the
    middle of a call that the core is gone, and the device can be opened again
    within the number of retries, the call answers -1, and by then the device
    was closed, opened, connected to the service, and told the manager's
    initial message, once.  The handle has the new device and is ready for
    the next call. *)
Theorem rebooted_core_is_restarted depth rpc cliIndex params trans qs r h ns calls j fd :
  Z.of_nat (length params) <= OMAPRPC_MAX_PARAMETERS -> omap_params rpc params = Done qs -> forallb (readable qs) trans = true ->
  restart r = true -> in_restart r = false -> 0 <= cliIndex < num_funcs r -> 0 <= retries r ->
  lost h r (mkCallFunction cliIndex qs trans) calls ->
  let h1 := (h ++ calls) ++ [SysClose (device r)] in
  let h2 := h1 ++ replicate (S j) (SysOpen (dev_name r)) ++ [IoctlCreate fd (create r); SysWrite fd init_message] in
  reopened h1 r j fd ->
  exists ns', dvp_rpc_remote_execute (core_call recorded granted true w (S depth)) true rpc cliIndex params trans ((Some r, h), ns) =
    Done (-1, ((Some (set_device fd r), h2 ++ (if ret (answer h2) <? 0 then [] else [SysRead fd])), ns')).
Proof.
  intros Hlen Hqs Hread Hre Hin Hidx Hret [Hcalls [Hneg Hcond]] h1 h2 Hopen.
  unfold dvp_rpc_remote_execute. rewrite (proj2 (Z.ltb_ge _ _) Hlen), Hqs. cbn [mbind outcome_bind]. rewrite Hread.
  unfold core_call, link_call. cbn [fst snd of_option mbind outcome_bind omaprpc_call]. unfold call_with.
  cbn [func_index]. rewrite (proj2 (Z.ltb_lt _ _)) by lia. rewrite Hin. cbn [recorded fst snd negb]. rewrite andb_true_r.
  assert (set_in_restart false (set_device fd r) = set_device fd r) as Hsame by (destruct r; cbn in *; by rewrite Hin).
  destruct Hcalls as [-> | [-> Hw]].
  - rewrite (proj2 (Z.ltb_lt _ _) Hneg), Hcond.
    destruct (restart_recorded depth r (h ++ [SysWrite (device r) (mkCallFunction cliIndex qs trans)])
      (effect (h ++ [SysWrite (device r) (mkCallFunction cliIndex qs trans)]) ns) j fd Hre ltac:(lia) Hret Hopen) as (ns' & ->).
    exists ns'. cbn [mbind outcome_bind]. by rewrite Hsame.
  - rewrite (proj2 (Z.ltb_ge _ _) Hw). cbn [recorded fst snd].
    pose proof (app_assoc h [SysWrite (device r) (mkCallFunction cliIndex qs trans)] [SysRead (device r)]) as Hsplit.
    cbn [app] in Hsplit. subst h1 h2. rewrite Hsplit in *. rewrite (proj2 (Z.ltb_lt _ _) Hneg), andb_true_r, Hcond.
    match goal with |- context [restart_with _ _ _ (?l, ?m)] => destruct (restart_recorded depth r l m j fd Hre ltac:(lia) Hret Hopen) as (ns' & ->) end.
    exists ns'. cbn [mbind outcome_bind]. by rewrite Hsame.
Qed.
End Reboot.

(** A restart whose service is refused frees the handle, which the core keeps:
    the next call is undefined. *)
Theorem refused_service_leaves_dangling_handle callback r h ns j fd :
  restart r = true -> 0 < num_funcs r -> 0 <= retries r -> (j < Z.to_nat (Z.max 1 (retries r)))%nat ->
  let h1 := h ++ [SysClose (device r)] in
  let h2 := h1 ++ replicate (S j) (SysOpen (dev_name r)) in
  (forall i, (i < j)%nat -> ret (answer (h1 ++ replicate (S i) (SysOpen (dev_name r)))) <= 0) ->
  ret (answer h2) = fd -> 0 < fd -> ret (answer (h2 ++ [IoctlCreate fd (create r)])) < 0 ->
  exists s, restart_with recorded callback r (h, ns) = Done (None, s) /\
    forall call f, link_call call f ((None, s.1), s.2) = Undef.
Proof.
  intros Hre Hn Hret Hj h1 h2 Hfailed Hopen Hfd Hcreate. unfold restart_with. rewrite Hre. cbn [recorded fst snd]. fold h1.
  destruct (reopen_recorded (dev_name r) j (Z.to_nat ((if retries r =? 0 then 1 else retries r) - 1)) h1 (effect h1 ns))
    as (ns1 & ->); [destruct (Z.eqb_spec (retries r) 0); lia|done|by fold h2; rewrite Hopen|].
  fold h2. rewrite Hopen, (proj2 (Z.ltb_lt _ _) Hfd). cbn [recorded fst snd create set_device].
  rewrite (proj2 (Z.ltb_lt _ _) Hcreate). unfold omaprpc_close. cbn [num_funcs set_device recorded fst snd].
  rewrite (proj2 (Z.ltb_lt _ _) Hn). by eexists.
Qed.
End History.

(** A device that does not open gives a core all the same, whose calls never
    reach the driver. *)
Theorem missing_device_gives_core {W} (sys : io -> W -> reply * W) c n dev names num w w' a :
  DVP_VALID_REMOTE_CORE (core_value c) && dvp_rpc_core_is_enabled names c = true ->
  aget names (core_value c) = Some n -> device_name n = Some dev -> sys (SysOpen dev) w = (a, w') -> ret a < 0 ->
  exists r names', dvp_rpc_core_init sys true true c num names w = Done (Some (mkRpcCore c (Some r) false), names', w') /\
    forall k wanted f v, 0 <= func_index f -> call_with sys k wanted r f v = Done (false, None, Some r, v).
Proof.
  intros Hc Hn Hd Ho Ha. unfold dvp_rpc_core_init. cbn [negb]. rewrite Hc, Hn. cbn [of_option mbind outcome_bind]. rewrite Hd.
  cbn [of_option mbind outcome_bind]. unfold omaprpc_open. rewrite Ho, (proj2 (Z.ltb_lt _ _) Ha). unfold omaprpc_close. cbn [num_funcs].
  change (0 <? 0) with false. cbv iota. rewrite aset_in_range by (by apply aget_Some in Hn as [? _]). cbn [of_option mbind outcome_bind].
  do 2 eexists. split; [done|]. intros k wanted f v Hf. unfold call_with. cbn [num_funcs omaprpc_restart_callback].
  by rewrite (proj2 (Z.ltb_ge _ _) Hf).
Qed.

(** ** Witnesses *)

(** Device 5 is gone; the second attempt to open it again gives 7. *)
Definition is_open (e : io) : bool := if e is SysOpen _ then true else false.
Definition rebooting (h : list io) : reply :=
  match last h with
  | Some (SysOpen _) => mkReply (if (length (filter is_open h) =? 1)%nat then -1 else 7) 0 0
  | Some (SysWrite fd _) => if fd =? 5 then mkReply (-1) ENXIO 0 else mkReply 100 0 0
  | _ => mkReply 0 0 0
  end.
Definition sample_link : omaprpc_t := mkOmaprpc 5 "/dev/dvp_kgm_dsp" "dvp_kgm_dsp" DVP_MAX_RESTART_RETRY 3 true false.
Definition sample_manager : remote_t (option omaprpc_t * list io) :=
  mkRemote (Some dvp_rpc_init) true 0 (DVP_Perf_Clear 1000) 0 (Some sample_link, []).
Definition sample_message : omaprpc_call_function_t :=
  mkCallFunction DVP_KGM_REMOTE_EXEC [mkOmapParam OMAPRPC_PARAM_TYPE_ATOMIC 4 9 0 0] [].

Lemma rebooted_core_is_restarted_witness : exists ns,
  dvp_rpc_remote_execute (core_call (recorded rebooting (fun _ ns => ns)) (fun _ => true) true sample_manager 1) true dvp_rpc_init
    DVP_KGM_REMOTE_EXEC [mkParameter 4 9 0] [] ((Some sample_link, []), []) =
  Done (-1, ((Some (set_device 7 sample_link),
    [SysWrite 5 sample_message; SysClose 5; SysOpen "/dev/dvp_kgm_dsp"; SysOpen "/dev/dvp_kgm_dsp";
     IoctlCreate 7 "dvp_kgm_dsp"; SysWrite 7 init_message; SysRead 7]), ns)).
Proof.
  apply (rebooted_core_is_restarted rebooting (fun _ ns => ns) (fun _ => true) sample_manager dvp_rpc_init (fun _ => eq_refl)
    (conj eq_refl eq_refl) 0 dvp_rpc_init DVP_KGM_REMOTE_EXEC [mkParameter 4 9 0] []
    [mkOmapParam OMAPRPC_PARAM_TYPE_ATOMIC 4 9 0 0] sample_link [] [] [SysWrite 5 sample_message] 1 7).
  - vm_compute. discriminate.
  - reflexivity.
  - reflexivity.
  - reflexivity.
  - reflexivity.
  - split; [discriminate|reflexivity].
  - discriminate.
  - split; [by left|]. split; reflexivity.
  - split.
    + vm_compute. lia.
    + intros i Hi. assert (i = 0%nat) as -> by lia. vm_compute. discriminate.
    + split; reflexivity.
    + vm_compute. discriminate.
Defined.
