(* ===== verification/RemoteProperties.v ===== *)
(** * What the remote graph managers promise

    The tables of a manager agree with each other; a call releases the lock of
    the core unless a kernel is not supported; a stretch of nodes whose memory
    is registered runs on the remote core.  [LawfulKGM] holds for both
    managers when the core keeps to the nodes it is given. *)
From S2P Require Import Prelude DvpTypes Perf KernelGraphManager Image ImageAlloc NodeData KgmCpu KgmCpuFacts KgmCpuRun.
From S2P Require Import ParamTypes SosalTree SosalTreeProperties SosalFph Rpc RpcRegistry RemoteTables RemoteManager.
From stdpp Require Import strings.

Open Scope list_scope.
Open Scope Z_scope.

#[export] Instance step_eq_dec : EqDecision step.
Proof. solve_decision. Defined.

(** ** Tables *)

Section Tables.
Context (num : string -> Z).

Definition row_named (t : list kernel_row) (s : string) : option kernel_row :=
  find (fun r => existsb (String.eqb s) (row_kernels r)) t.
Definition labels (t : list kernel_row) : list string := flat_map row_kernels t.

Lemma labelled_spec k names : labelled num k names = true <-> exists s, s ∈ names /\ num s = k.
Proof.
  unfold labelled, one_of. rewrite existsb_exists. split.
  - intros (x & Hx & Hk). apply Z.eqb_eq in Hk as <-. apply list_elem_of_In, list_elem_of_fmap in Hx as (s & -> & Hs). by exists s.
  - intros (s & Hs & <-). exists (num s). split; [|apply Z.eqb_refl]. by apply list_elem_of_In, list_elem_of_fmap_2.
Qed.
Lemma named_spec s names : existsb (String.eqb s) names = true <-> s ∈ names.
Proof.
  rewrite existsb_exists. split.
  - intros (x & Hx & He). apply String.eqb_eq in He as ->. by apply list_elem_of_In.
  - intros H. exists s. split; [by apply list_elem_of_In|apply String.eqb_refl].
Qed.

(** The case of a label is supported under any numbering of the names. *)
Lemma row_for_label t s : s ∈ labels t -> is_Some (row_for num t (num s)).
Proof.
  unfold row_for, labels. intros (r & Hr & Hs)%list_elem_of_In%in_flat_map. apply list_elem_of_In in Hs.
  destruct (find _ t) as [q|] eqn:Hf; [by eexists|].
  apply (find_none _ _ Hf) in Hr. assert (labelled num (num s) (row_kernels r) = true) as Hl; [|congruence].
  apply labelled_spec. by exists s.
Qed.
Lemma row_for_kernel t k r : row_for num t k = Some r -> exists s, s ∈ row_kernels r /\ num s = k /\ s ∈ labels t.
Proof.
  intros [Hr Hl]%find_some. apply labelled_spec in Hl as (s & Hs & <-). exists s. split; [done|]. split; [done|].
  apply list_elem_of_In, in_flat_map. exists r. split; [done|]. by apply list_elem_of_In.
Qed.

(** The labels of a [switch] are distinct: a case is found by its name. *)
Lemma row_for_named t s : NoDup (num <$> labels t) -> s ∈ labels t -> row_for num t (num s) = row_named t s.
Proof.
  intros Hnd Hs. unfold row_for, row_named. induction t as [|r t IH]; [done|]. cbn [find].
  unfold labels in Hnd, Hs. cbn [flat_map] in Hnd, Hs. rewrite fmap_app in Hnd. apply NoDup_app in Hnd as (Hnd & Hdis & Hnd').
  destruct (existsb (String.eqb s) (row_kernels r)) eqn:He.
  - apply named_spec in He. rewrite (proj2 (labelled_spec (num s) (row_kernels r))); [done|by exists s].
  - assert (s ∉ row_kernels r) as Hn by (intros H%named_spec; congruence).
    apply elem_of_app in Hs as [Hs|Hs]; [done|].
    destruct (labelled num (num s) (row_kernels r)) eqn:Hl; [|by apply IH].
    apply labelled_spec in Hl as (s' & Hs' & Hk). destruct (Hdis (num s)).
    + rewrite <- Hk. by apply list_elem_of_fmap_2.
    + by apply list_elem_of_fmap_2.
Qed.
End Tables.

(** What a step is about *)
Fixpoint shape (st : step) : step :=
  match st with
  | Img f _ => Img f false
  | Buf f _ => Buf f false
  | Bound f => Bound f
  | Only names st => Only names (shape st)
  | IfZero f st => IfZero f (shape st)
  end.
Definition same_members (r q : kernel_row) : Prop :=
  row_struct r = row_struct q /\ shape <$> row_steps r ≡ₚ shape <$> row_steps q.
Definition rows_match (t t' : list kernel_row) (s : string) : Prop :=
  match row_named t s, row_named t' s with Some r, Some q => same_members r q | _, _ => False end.

(** The managers by their tables, with a number of nodes that always fits
    [DVP_MAX_TRANSLATIONS] *)
Definition remote_tables : list (list (string * option dvp_image_shift_t) * (list kernel_row * list kernel_row) * Z) :=
  [(simcop_kernels, (simcop_prepare, simcop_return), 42); (dsp_kernels, (dsp_prepare, dsp_return), 19)].

Definition kernel_supported (prepare return_ : list kernel_row) (s : string) : Prop :=
  s ∈ labels prepare /\ s ∈ labels return_ /\ rows_match prepare return_ s.
#[local] Instance rows_match_dec t t' s : Decision (rows_match t t' s).
Proof. unfold rows_match, same_members. destruct (row_named t s), (row_named t' s); apply _. Defined.
Lemma published_supported ks prepare return_ m : (ks, (prepare, return_), m) ∈ remote_tables ->
  Forall (kernel_supported prepare return_) ks.*1.
Proof.
  intros [[= -> -> -> _]|[[= -> -> -> _]|H%elem_of_nil]%elem_of_cons]%elem_of_cons; [| |done];
    apply (bool_decide_unpack _); vm_compute; exact I.
Qed.

(** ** The lock of the core *)

Section Remote.
Context (num : string -> Z) (layout : string -> string -> option Z) (dmabuf_fd : gmap Z Z) (nodes_at : Z).
Context {M : Type} (cache : M -> rpc_event -> M) (granted : M -> bool).
Context (omaprpc_call : omaprpc_call_function_t -> M * list DVP_KernelNode_t ->
  outcome (option Z * (M * list DVP_KernelNode_t))).
Context (now : Z -> Z).
Implicit Types (w : remote_t M) (ns : list DVP_KernelNode_t) (t : list kernel_row).

Abbreviation run_manager := (kernel_graph_manager num layout dmabuf_fd nodes_at cache granted omaprpc_call now).
Abbreviation prepares t rpc ns := (node_loop (prepare_node num layout dmabuf_fd nodes_at t rpc ns)).

Definition supported_nodes t ns (ids : list Z) : Prop :=
  forall i nd, i ∈ ids -> aget ns i = Some nd -> is_Some (row_for num t (kernel (header nd))).
Definition unsupported_node t ns (ids : list Z) : Prop :=
  exists i nd, i ∈ ids /\ aget ns i = Some nd /\ row_for num t (kernel (header nd)) = None.

Lemma prepare_supported t rpc ns ids : forall l b l', supported_nodes t ns ids ->
  prepares t rpc ns ids l = Done (b, l') -> b = true.
Proof.
  induction ids as [|i ids IH]; intros l b l' Hs H; [by injection H as <-|]. cbn [node_loop] in H.
  apply outcome_bind_Done in H as (r & Hr & H). unfold prepare_node in Hr.
  apply outcome_bind_Done in Hr as (nd & Hn%of_option_Done & Hr). destruct (Hs i nd ltac:(by left) Hn) as [row Hrow].
  rewrite Hrow in Hr. apply outcome_bind_Done in Hr as (l1 & _ & [= <-]).
  eapply IH; [|exact H]. intros j ndj Hj. apply Hs. by right.
Qed.
Lemma prepare_unsupported t rpc ns ids : forall l b l', unsupported_node t ns ids ->
  prepares t rpc ns ids l = Done (b, l') -> b = false.
Proof.
  induction ids as [|i ids IH]; intros l b l' (j & nd & Hj & Hn & Hu) H; [by apply elem_of_nil in Hj|]. cbn [node_loop] in H.
  apply outcome_bind_Done in H as (r & Hr & H). destruct r as [l1|]; [|by injection H as <-].
  apply elem_of_cons in Hj as [->|Hj]; [|eapply IH; [|exact H]; by exists j, nd].
  unfold prepare_node in Hr. rewrite Hn in Hr. cbn [of_option mbind outcome_bind] in Hr. by rewrite Hu in Hr.
Qed.

Lemma stop_perf_lock w w' : stop_perf now w = Done w' -> coreLock w' = coreLock w.
Proof. unfold stop_perf. intros (p & _ & [= <-])%outcome_bind_Done. done. Qed.

(** The ways a call of a manager can end *)
Lemma manager_inv prepare return_ w ns st n w' ns' k : run_manager prepare return_ w ns st n = Done (w', ns', k) ->
  coreLock w <> 0 /\
  ((coreLock w' = coreLock w /\ ns' = ns /\ k = 0 /\ (nodes_at = 0 \/ rm_rpc w = None \/ rm_core w = false)) \/
   exists rpc handle l l1, rm_rpc w = Some rpc /\ rm_core w = true /\ nodes_at <> 0 /\
     ((prepares prepare rpc ns (node_range st n) ([], []) = Done (false, l) /\
       coreLock w' = coreLock w - 1 /\ ns' = ns /\ k = 0 /\ machine w' = foldl cache (machine w) l.1) \/
      (prepares prepare rpc ns (node_range st n) ([], []) = Done (true, l) /\ coreLock w' = coreLock w /\
       exists status m', dvp_rpc_remote_execute omaprpc_call l1 rpc DVP_KGM_REMOTE_EXEC (exec_params nodes_at handle st n) l.2
         (foldl cache (machine w) l.1, ns) = Done (status, (m', ns')) /\ k = if 0 <=? status then status else 0))).
Proof.
  unfold kernel_graph_manager. destruct (Z.eqb_spec (coreLock w) 0) as [|Hl]; [done|]. intros H. split; [done|].
  destruct (Z.eqb_spec nodes_at 0) as [Hz|Hz].
  { injection H as <- <- <-. left. split_and!; [cbn; lia|done|done|by left]. }
  apply outcome_bind_Done in H as (handle & _ & H). cbn [rm_rpc rm_core start_perf set_lock] in H.
  destruct (rm_rpc w) as [rpc|] eqn:Hrpc; [|injection H as <- <- <-; left; split_and!; [cbn; lia|done|done|by right; left]].
  destruct (rm_core w) eqn:Hc; [|injection H as <- <- <-; left; split_and!; [cbn; lia|done|done|by right; right]].
  right. apply outcome_bind_Done in H as ([ok l] & Hp & H). exists rpc, handle, l.
  destruct ok; cbn [negb] in H.
  - apply outcome_bind_Done in H as ([status [m' ns1]] & He & H). apply outcome_bind_Done in H as ([ok' l'] & _ & H).
    apply outcome_bind_Done in H as (w1 & Hw & [= <- <- <-]). eexists. do 3 (split; [done|]). right. split; [done|]. split.
    + cbn [coreLock post set_lock]. destruct ok'; [apply stop_perf_lock in Hw; rewrite Hw; cbn; lia|]. injection Hw as <-. cbn. lia.
    + exists status, m'. split; [exact He|done].
  - injection H as <- <- <-. exists true. do 3 (split; [done|]). left. by split_and!.
Qed.

(** ** The call *)

(** The call with the parameters [start] and [count] *)
Record exec_call (c : omaprpc_call_function_t) (start count : Z) (trans : list DVP_RPC_PointerTranslation_t) : Prop := {
  xc_index : func_index c = DVP_KGM_REMOTE_EXEC;
  xc_start : op_data <$> call_params c !! 1%nat = Some (u32 start);
  xc_count : op_data <$> call_params c !! 2%nat = Some (u32 count);
  xc_trans : call_translations c = trans }.
(** What [dvp_rpc_remote_execute] makes of the driver's answer *)
Definition status_of (r : option Z) : Z := if r is Some status then s32 status else -1.

Lemma execute_inv g rpc handle st n trans s status s' :
  dvp_rpc_remote_execute omaprpc_call g rpc DVP_KGM_REMOTE_EXEC (exec_params nodes_at handle st n) trans s = Done (status, s') ->
  (s' = s /\ status = 0) \/
  exists c r, exec_call c st n trans /\ omaprpc_call c s = Done (r, s') /\ status = status_of r.
Proof.
  unfold dvp_rpc_remote_execute. cbn [length exec_params]. change (OMAPRPC_MAX_PARAMETERS <? Z.of_nat 3) with false. cbv iota.
  destruct g; [|intros [= <- <-]; by left]. intros (qs & Hq & H)%outcome_bind_Done.
  destruct (forallb _ _); [|done]. apply outcome_bind_Done in H as ([r s1] & Hc & [= <- <-]). right.
  eexists _, r. split; [|split; [exact Hc|done]]. unfold exec_params in Hq. cbn [omap_params] in Hq.
  apply outcome_bind_Done in Hq as (q0 & _ & Hq). cbn in Hq. injection Hq as <-. by split.
Qed.

(** C18: nodes that a remote manager publishes never lock it up: whatever the
    remote core does, a call of the SIMCOP or the DSP manager on nodes whose
    kernels the manager publishes gives the lock of the core back when it
    returns. *)
Theorem remote_call_releases_core ks prepare return_ m w ns st n w' ns' k :
  (ks, (prepare, return_), m) ∈ remote_tables ->
  (forall i nd, i ∈ node_range st n -> aget ns i = Some nd ->
     kernel (header nd) ∈ cf_kernel <$> remote_kernels num ks) ->
  run_manager prepare return_ w ns st n = Done (w', ns', k) -> coreLock w' = coreLock w.
Proof.
  intros Ht Hk H. apply manager_inv in H as (_ & [(H & _)|(rpc & handle & l & l1 & _ & _ & _ & [(Hp & _)|(_ & H & _)])]); [done| |done].
  apply prepare_supported in Hp; [done|]. intros i nd Hi Hn. specialize (Hk i nd Hi Hn).
  unfold remote_kernels in Hk. rewrite <- list_fmap_compose in Hk. apply list_elem_of_fmap in Hk as (x & -> & Hx). cbn.
  apply row_for_label. pose proof (published_supported ks prepare return_ m Ht) as Hs. rewrite Forall_forall in Hs.
  apply (Hs x.1). by apply list_elem_of_fmap_2.
Qed.

(** A kernel that is not supported locks a remote manager up: its call
    processes nothing and calls nobody, but keeps the lock of the core, for
    which every later call waits in vain. *)
Theorem unsupported_kernel_keeps_core prepare return_ w ns st n w' ns' k rpc :
  rm_rpc w = Some rpc -> rm_core w = true -> nodes_at <> 0 -> coreLock w = 1 ->
  unsupported_node prepare ns (node_range st n) ->
  run_manager prepare return_ w ns st n = Done (w', ns', k) ->
  ns' = ns /\ k = 0 /\ coreLock w' = 0 /\ (exists evs, machine w' = foldl cache (machine w) evs) /\
  forall prepare' return_' ns2 st2 n2, run_manager prepare' return_' w' ns2 st2 n2 = NoFuel.
Proof.
  intros Hr Hc Hz Hl Hu H. apply manager_inv in H as (_ & [(_ & _ & _ & H)|(rpc' & handle & l & l1 & _ & _ & _ & H)]).
  { destruct H as [?|[?|?]]; congruence. }
  destruct H as [(_ & Hw & -> & -> & Hm)|(Hp & _)]; [|by apply prepare_unsupported in Hp].
  rewrite Hl in Hw. split_and!; [done..|by exists l.1|]. intros. unfold kernel_graph_manager. by rewrite Hw.
Qed.

(** ** The interface of the runtime *)

(** The remote core processes no more nodes than it is asked to and leaves
    the other ones and the routing alone. *)
Class LawfulCore : Prop := core_law c start count trans m ns r m' ns' :
  exec_call c start count trans -> omaprpc_call c (m, ns) = Done (r, (m', ns')) -> is_u32 start -> is_u32 count ->
  status_of r <= count /\ touches_only start count ns ns'.

Lemma entry_law st n run (ow ow' : outcome (remote_t M)) ns ns' k : 0 <= n ->
  (forall w w' ns' k, is_u32 st -> is_u32 n -> run w = Done (w', ns', k) -> 0 <= k <= n /\ touches_only st n ns ns') ->
  entry st n run ow ns = (ow', ns', k) -> 0 <= k <= n /\ touches_only st n ns ns'.
Proof.
  intros Hn Hrun H. unfold entry in H. assert (0 <= 0 <= n /\ touches_only st n ns ns) as Hsame by (split; [lia|split; [reflexivity|done]]).
  destruct (is_u32b st && is_u32b n) eqn:Hu; [|by injection H as <- <- <-].
  destruct ow as [w| |]; cbn [mbind outcome_bind] in H; [|by injection H as <- <- <-..].
  destruct (run w) as [[[w1 ns1] k1]| |] eqn:Hr; [|by injection H as <- <- <-..]. injection H as <- <- <-.
  apply andb_prop in Hu as [Hu1 Hu2]. unfold is_u32b in *. eapply Hrun; [unfold is_u32; lia..|exact Hr].
Qed.

Lemma manager_law `{Hcore : !LawfulCore} prepare return_ w ns st n w' ns' k : is_u32 st -> is_u32 n ->
  run_manager prepare return_ w ns st n = Done (w', ns', k) -> 0 <= k <= n /\ touches_only st n ns ns'.
Proof.
  intros Hst Hn H. unfold is_u32 in Hn. assert (touches_only st n ns ns) as Hsame by (split; [reflexivity|done]).
  apply manager_inv in H as (_ & [(_ & -> & -> & _)|(rpc & handle & l & g & _ & _ & _ & H)]); [split; [lia|done]|].
  destruct H as [(_ & _ & -> & -> & _)|(_ & _ & status & m' & He & ->)]; [split; [lia|done]|].
  apply execute_inv in He as [([= -> ->] & ->)|(c & r & Hc & Ho & ->)]; [cbn; split; [lia|done]|].
  destruct (core_law c st n l.2 _ ns r m' ns' Hc Ho Hst Hn) as [Hle Ht]. split; [|done]. case_match; lia.
Qed.
End Remote.

(** ** Both managers are lawful *)

Lemma on_nodes_Done {M} v (w w' : remote_t M) ns' k : on_nodes v w = Done (w', ns', k) -> v = Done (ns', k).
Proof. unfold on_nodes. intros ([ns1 k1] & -> & [= _ <- <-])%outcome_bind_Done. done. Qed.
Lemma simcop_verify_touches num layout s n s' : simcop_verify_node num layout s n = Done s' ->
  touches [n] s.1 s'.1 /\ s.2 <= s'.2 <= s.2 + 1.
Proof.
  destruct s as [ns k]. unfold simcop_verify_node. cbn [fst snd]. intros H. apply outcome_bind_Done in H as (nd & _ & H).
  apply outcome_bind_Done in H as (e & _ & H). apply outcome_bind_Done in H as (ns1 & Hn & [= <-]). cbn [fst snd].
  split; [eapply touches_upd; [|exact Hn]; done|case_match; lia].
Qed.
Lemma dsp_verify_touches s n s' : dsp_verify_node s n = Done s' -> touches [n] s.1 s'.1 /\ s.2 <= s'.2 <= s.2 + 1.
Proof.
  destruct s as [ns k]. unfold dsp_verify_node. cbn [fst snd]. intros (ns1 & Hn & [= <-])%outcome_bind_Done. cbn [fst snd].
  split; [eapply touches_upd; [|exact Hn]; done|lia].
Qed.
Lemma upd_node_negative ns n f : n < 0 -> upd_node ns n f = Undef.
Proof. intros H. unfold upd_node. by rewrite aget_negative. Qed.

Lemma simcop_verify_negative num layout (s : list DVP_KernelNode_t * Z) n : n < 0 -> simcop_verify_node num layout s n = Undef.
Proof. intros H. unfold simcop_verify_node. by rewrite aget_negative. Qed.
Lemma dsp_verify_negative (s : list DVP_KernelNode_t * Z) n : n < 0 -> dsp_verify_node s n = Undef.
Proof. intros H. unfold dsp_verify_node. by rewrite upd_node_negative. Qed.

#[export] Typeclasses Opaque simcop_calls dsp_calls cpu_calls.

Section Lawful.
Context (num : string -> Z) (layout : string -> string -> option Z) (dmabuf_fd : gmap Z Z) (nodes_at : Z).
Context {M : Type} (cache : M -> rpc_event -> M) (granted : M -> bool).
Context (omaprpc_call : omaprpc_call_function_t -> M * list DVP_KernelNode_t ->
  outcome (option Z * (M * list DVP_KernelNode_t))).
Context (now : Z -> Z) `{!LawfulCore omaprpc_call}.

#[export] Instance simcop_lawful : LawfulKGM (simcop_calls num layout dmabuf_fd nodes_at cache granted omaprpc_call now).
Proof.
  split; intros w ns st n.
  - intros sync w' ns' k Hn. cbn [manager simcop_calls]. apply entry_law; [done|]. intros w1 w2 ns2 k2. by apply manager_law.
  - intros w' ns' k Hn. cbn [verify simcop_calls]. apply entry_law; [done|]. intros w1 w2 ns2 k2 Hs Hu Hv%on_nodes_Done.
    apply outcome_bind_Done in Hv as ([ns3 v] & Hv & [= <- <-]).
    by apply (loop_law (simcop_verify_node num layout) fst snd st n (ns, 0)) in Hv; [..|apply simcop_verify_touches|apply simcop_verify_negative| |].
Qed.
#[export] Instance dsp_lawful : LawfulKGM (dsp_calls num layout dmabuf_fd nodes_at cache granted omaprpc_call now).
Proof.
  split; intros w ns st n.
  - intros sync w' ns' k Hn. cbn [manager dsp_calls]. apply entry_law; [done|]. intros w1 w2 ns2 k2. by apply manager_law.
  - intros w' ns' k Hn. cbn [verify dsp_calls]. apply entry_law; [done|]. intros w1 w2 ns2 k2 Hs Hu Hv%on_nodes_Done.
    apply outcome_bind_Done in Hv as ([ns3 v] & Hv & [= <- <-]). split; [lia|].
    by apply (loop_law dsp_verify_node fst snd st n (ns, 0)) in Hv as [_ Hv]; [..|apply dsp_verify_touches|apply dsp_verify_negative| |].
Qed.
End Lawful.

(** ** A stretch whose memory is registered *)

Lemma bytes_at_bounds d off n bs : bytes_at d off n = Some bs -> 0 <= off /\ off + n <= Z.of_nat (length d).
Proof. unfold bytes_at. destruct (_ && _) eqn:H; [|done]. apply andb_prop in H as [[H1 H2]%andb_prop H3]. lia. Qed.
Lemma u32_at_bounds d off v : u32_at d off = Some v -> 0 <= off /\ off + 4 <= Z.of_nat (length d).
Proof. unfold u32_at. intros (bs & H & _)%fmap_Some. by eapply bytes_at_bounds. Qed.
Lemma s32_at_bounds d off v : s32_at d off = Some v -> 0 <= off /\ off + 4 <= Z.of_nat (length d).
Proof. unfold s32_at. intros (x & H & _)%fmap_Some. by eapply u32_at_bounds. Qed.

Lemma rpc_image_shape d off i : rpc_image_at d off = Some i ->
  0 <= off /\ off + 92 <= Z.of_nat (length d) /\ length (pBuffer (rimg i)) = 4%nat.
Proof.
  unfold rpc_image_at. intros ([[im si] sf] & H & [= <-])%bind_Some. unfold image32_at in H.
  apply bind_Some in H as (pD & HD & H). change (seqZ 0 DVP_MAX_PLANES) with [0; 1; 2; 3] in *. cbn [mapM] in HD.
  apply bind_Some in HD as (x & Hx%u32_at_bounds & _).
  apply bind_Some in H as (pB & HB%length_mapM & H). do 13 (apply bind_Some in H as (? & _ & H)).
  apply bind_Some in H as (sf' & Hsf%s32_at_bounds & [= <- <- <-]). cbn [rimg pBuffer]. rewrite <- HB. split; [lia|]. split; [lia|done].
Qed.
Lemma rpc_buffer_shape d off b : rpc_buffer_at d off = Some b -> 0 <= off /\ off + 4 <= Z.of_nat (length d).
Proof.
  unfold rpc_buffer_at. intros ([[im si] sf] & H & _)%bind_Some. unfold buffer32_at in H.
  apply bind_Some in H as (x & Hx%u32_at_bounds & _). exact Hx.
Qed.

(** A pointer's word lies in the parameters of a node. *)
Definition in_node (n : Z) (t : DVP_RPC_PointerTranslation_t) : Prop :=
  tr_index t = 0 /\ n * sizeof_DVP_KernelNode_t + sizeof_DVP_KernelNodeHeader_t <= tr_offset t /\
  tr_offset t + 4 <= (n + 1) * sizeof_DVP_KernelNode_t.
Definition is_flush (e : rpc_event) : Prop := match e with Flush _ _ _ => True | Invalidate _ _ _ => False end.
Definition is_invalidate (e : rpc_event) : Prop := match e with Flush _ _ _ => False | Invalidate _ _ _ => True end.

(** Preparing only adds flushes, and at most [k] translations of words of
    the nodes [ids]. *)
Definition added (ids : list Z) (k : nat) (l l' : rpc_log) : Prop :=
  exists evs ts, l' = (l.1 ++ evs, l.2 ++ ts) /\ Forall is_flush evs /\ (length ts <= k)%nat /\
    Forall (fun t => exists n, n ∈ ids /\ in_node n t) ts.
(** There is room for [k] more. *)
Definition fits (k : nat) (l : rpc_log) : Prop := (length l.2 + k <= 1024)%nat.

Lemma added_refl ids k l : added ids k l l.
Proof. exists [], []. rewrite !app_nil_r. destruct l. split_and!; [done|constructor|cbn; lia|constructor]. Qed.
Lemma added_trans ids ids' k k' l l' l'' : added ids k l l' -> added ids' k' l' l'' -> added (ids ++ ids') (k + k') l l''.
Proof.
  intros (e & t & -> & He & Hk & Ht) (e' & t' & -> & He' & Hk' & Ht'). exists (e ++ e'), (t ++ t'). cbn [fst snd].
  rewrite <- !app_assoc. split; [done|]. split; [by apply Forall_app|]. split; [rewrite length_app; lia|].
  apply Forall_app. split; (eapply Forall_impl; [done|]); cbn; intros x (n & Hn & Hi); exists n; set_solver.
Qed.
Lemma added_weaken ids ids' k k' l l' : added ids k l l' -> (forall n, n ∈ ids -> n ∈ ids') -> (k <= k')%nat -> added ids' k' l l'.
Proof.
  intros (e & t & -> & He & Hk & Ht) Hi Hl. exists e, t. split_and!; [done..|lia|]. eapply Forall_impl; [done|].
  cbn. intros x (n & Hn & Hx). exists n. split; [by apply Hi|done].
Qed.
Lemma added_fits ids k j l l' : added ids k l l' -> fits (k + j) l -> fits j l'.
Proof. intros (e & t & -> & _ & Hk & _). unfold fits. cbn [snd]. rewrite length_app. lia. Qed.

(** [f] adds at most [k] translations where there is room for them. *)
Definition adds (ids : list Z) (k : nat) (f : rpc_log -> outcome rpc_log) : Prop :=
  forall l, fits k l -> exists l', f l = Done l' /\ added ids k l l'.
Lemma adds_none ids k : adds ids k Done.
Proof. intros l _. exists l. split; [done|apply added_refl]. Qed.
Lemma adds_fold {A} ids k (f : rpc_log -> A -> outcome rpc_log) xs :
  (forall x, x ∈ xs -> adds ids k (fun l => f l x)) -> adds ids (k * length xs) (ofold f xs).
Proof.
  induction xs as [|x xs IH]; intros Hf l Hl; [exists l; split; [done|apply added_refl]|]. cbn [length ofold] in *.
  rewrite Nat.mul_succ_r, Nat.add_comm in Hl |- *.
  destruct (Hf x ltac:(by left) l) as (l1 & -> & H1); [unfold fits in *; lia|]. cbn [mbind outcome_bind].
  destruct (IH ltac:(intros y Hy; apply Hf; by right) l1) as (l2 & H2 & H3); [by eapply added_fits|].
  exists l2. split; [exact H2|]. eapply added_weaken; [by eapply added_trans|set_solver|lia].
Qed.
Lemma adds_weaken ids k k' f : adds ids k f -> (k <= k')%nat -> adds ids k' f.
Proof.
  intros H Hk l Hl. destruct (H l) as (l' & ? & ?); [unfold fits in *; lia|]. exists l'. split; [done|]. by eapply added_weaken.
Qed.
Lemma add_translation_adds n t : in_node n t -> adds [n] 1 (add_translation t).
Proof.
  intros Ht l Hl. unfold add_translation, fits in *. rewrite (proj2 (Z.ltb_lt _ _)) by (unfold DVP_MAX_TRANSLATIONS; lia).
  eexists. split; [done|]. exists [], [t]. rewrite app_nil_r. split_and!; [done|constructor|done|]. constructor; [|constructor].
  exists n. split; [set_solver|done].
Qed.

Section Ready.
Context (num : string -> Z) (layout : string -> string -> option Z) (dmabuf_fd : gmap Z Z) (nodes_at : Z).
Context (rpc : DVP_RPC_t) (R : gmap Z (Z * Z)) (Hreg : registry rpc R) (Hroom : room R).

(** A range that starts at [b], or one that [a] is in, is registered with a
    buffer object. *)
Definition base_resolved (b : Z) : Prop := exists n h, R !! b = Some (n, h) /\ is_Some (dmabuf_fd !! h).
Definition resolved (a : Z) : Prop := exists b n h, R !! b = Some (n, h) /\ b <= a < b + n /\ is_Some (dmabuf_fd !! h).

Definition image_ready (i : rpc_image) : Prop :=
  0 <= planes (rimg i) <= 4 /\
  (one_of (memType (rimg i)) fd_types = true ->
   forall p b, 0 <= p < planes (rimg i) -> aget (pBuffer (rimg i)) p = Some b -> base_resolved b).

(** What a step needs of its node *)
Fixpoint step_ready (s : string) (nd : DVP_KernelNode_t) (st : step) : Prop :=
  match st with
  | Img f _ => exists off i, layout s f = Some off /\ rpc_image_at (data nd) off = Some i /\ image_ready i
  | Buf f _ => exists off b, layout s f = Some off /\ rpc_buffer_at (data nd) off = Some b /\ base_resolved (rb_pData b)
  | Bound f => exists off p, layout s f = Some off /\ u32_at (data nd) off = Some p /\ (p = 0 \/ resolved p)
  | Only names st => labelled num (kernel (header nd)) names = true -> step_ready s nd st
  | IfZero f st => exists off v, layout s f = Some off /\ u32_at (data nd) off = Some v /\ (v = 0 -> step_ready s nd st)
  end.
Definition node_ready (t : list kernel_row) (nd : DVP_KernelNode_t) : Prop :=
  length (data nd) = Z.to_nat DVP_KNODE_DATA_SIZE /\
  exists r, row_for num t (kernel (header nd)) = Some r /\ Forall (step_ready (row_struct r) nd) (row_steps r).
Definition nodes_ready (t : list kernel_row) (ns : list DVP_KernelNode_t) (ids : list Z) : Prop :=
  Forall (fun n => exists nd, aget ns n = Some nd /\ node_ready t nd) ids.

Lemma hash_total a : exists r, fph_get fph_hash (hndl_hash rpc) a = Done r.
Proof. apply fph_get_total, Hreg. Qed.
Lemma base_handle b : base_resolved b -> exists h, fph_get fph_hash (hndl_hash rpc) b = Done (Some h) /\ is_Some (dmabuf_fd !! h).
Proof. intros (n & h & Hb & Hf). exists h. split; [by eapply reg_hash|done]. Qed.
Lemma resolved_handle a : resolved a -> exists fd, dvp_rpc_get_handle dmabuf_fd rpc a = Done fd.
Proof.
  intros (b & n & h & Hb & Ha & [fd Hf]). exists fd. rewrite (get_handle_spec dmabuf_fd rpc R b n h a Hreg Hroom Hb Ha). by rewrite Hf.
Qed.

Section Node.
Context (n : Z) (Hn : 0 <= n < 2 ^ 20).

Lemma offset_in_node off : 0 <= off -> off + 4 <= DVP_KNODE_DATA_SIZE ->
  forall base cacheops reserved a, a = data_addr nodes_at n off -> in_node n (mkTranslation 0 (u32 (a - nodes_at)) base cacheops reserved).
Proof.
  intros H1 H2 b c r a ->. unfold in_node, data_addr, sizeof_DVP_KernelNode_t, sizeof_DVP_KernelNodeHeader_t, DVP_KNODE_DATA_SIZE in *.
  cbn [tr_index tr_offset]. rewrite u32_small by (unfold is_u32; lia). split; [done|lia].
Qed.

Lemma prepare_plane_adds i off cacheOp p : image_ready i -> length (pBuffer (rimg i)) = 4%nat -> 0 <= p < planes (rimg i) ->
  0 <= off -> off + 92 <= DVP_KNODE_DATA_SIZE ->
  adds [n] 1 (fun l => prepare_plane dmabuf_fd rpc i (data_addr nodes_at n off) cacheOp nodes_at l p).
Proof.
  intros [Hpl Hfd] Hlen Hp Hoff Hend l Hl. unfold prepare_plane.
  destruct (aget_in_range (pBuffer (rimg i)) p) as [b Hb]; [rewrite Hlen; lia|]. cbn [of_option mbind outcome_bind]. rewrite Hb. cbn [of_option mbind outcome_bind].
  match goal with |- context [if ?c then dvp_rpc_flush ?a ?k ?m l else l] => set (l0 := if c then dvp_rpc_flush a k m l else l) end.
  assert (added [n] 0 l l0) as H0.
  { unfold l0. case_match; [|apply added_refl]. eexists [_], []. rewrite app_nil_r. split_and!; [done|by repeat constructor|done|constructor]. }
  assert (exists h reserved, fph_get fph_hash (hndl_hash rpc) b = Done h /\
    (if one_of (memType (rimg i)) fd_types then of_option (dmabuf_fd !! default 0 h) else Done (default 0 h)) = Done reserved)
    as (h & reserved & -> & He).
  { destruct (one_of (memType (rimg i)) fd_types) eqn:Hm.
    - destruct (base_handle b (Hfd eq_refl p b Hp Hb)) as (h & Hh & [fd Hd]). exists (Some h), fd. split; [done|]. cbn [from_option id]. by rewrite Hd.
    - destruct (hash_total b) as [r Hr]. by exists r, (default 0 r). }
  cbn [mbind outcome_bind]. rewrite He. cbn [mbind outcome_bind].
  edestruct (add_translation_adds n) as (l' & Hl' & H1); [|by eapply (added_fits _ _ 1 l)|exists l'; split; [exact Hl'|]].
  - apply (offset_in_node (off + 4 * p)); [lia..|]. unfold data_addr. lia.
  - eapply added_weaken; [by eapply added_trans|set_solver|lia].
Qed.

Lemma prepare_step_adds s nd st : length (data nd) = Z.to_nat DVP_KNODE_DATA_SIZE -> step_ready s nd st ->
  adds [n] 4 (prepare_step num layout dmabuf_fd nodes_at rpc s nd n st).
Proof.
  intros Hd. assert (Z.of_nat (length (data nd)) = DVP_KNODE_DATA_SIZE) as Hd' by (rewrite Hd; done).
  induction st as [f c|f c|f|names st IH|f st IH]; intros Hr l Hl; cbn [prepare_step].
  - destruct Hr as (off & i & -> & Hi & Hrd). cbn [of_option mbind outcome_bind]. rewrite Hi. cbn [of_option mbind outcome_bind].
    apply rpc_image_shape in Hi as (Ho & He & Hlen). rewrite Hd' in He. unfold dvp_rpc_prepare_image.
    eapply adds_weaken; [apply (adds_fold [n] 1)| |exact Hl].
    + intros p Hp%elem_of_seqZ. apply prepare_plane_adds; [done..|lia|done|done].
    + rewrite length_seqZ. destruct Hrd as [Hp _]. lia.
  - destruct Hr as (off & b & -> & Hb & Hrd). cbn [of_option mbind outcome_bind]. rewrite Hb. cbn [of_option mbind outcome_bind].
    apply rpc_buffer_shape in Hb as (Ho & He). rewrite Hd' in He. unfold dvp_rpc_prepare_buffer.
    match goal with |- context [if ?c then dvp_rpc_flush ?a ?k ?m l else l] => set (l0 := if c then dvp_rpc_flush a k m l else l) end.
    assert (added [n] 0 l l0) as H0.
    { unfold l0. case_match; [|apply added_refl]. eexists [_], []. rewrite app_nil_r. split_and!; [done|by repeat constructor|done|constructor]. }
    destruct (base_handle _ Hrd) as (h & -> & [fd Hf]). cbn [mbind outcome_bind from_option id]. rewrite Hf. cbn [of_option mbind outcome_bind].
    edestruct (add_translation_adds n) as (l' & Hl' & H1); [by apply (offset_in_node off)| |exists l'; split; [exact Hl'|]].
    + eapply (added_fits _ _ 1 l); [exact H0|]. unfold fits in *. lia.
    + eapply added_weaken; [by eapply added_trans|set_solver|lia].
  - destruct Hr as (off & p & -> & Hp & Hrd). cbn [of_option mbind outcome_bind]. rewrite Hp. cbn [of_option mbind outcome_bind].
    apply u32_at_bounds in Hp as (Ho & He). rewrite Hd' in He. destruct (Z.eqb_spec p 0) as [|Hne]; [by apply adds_none|].
    destruct Hrd as [|Hrd]; [done|]. destruct (resolved_handle p Hrd) as [fd ->]. cbn [mbind outcome_bind].
    eapply adds_weaken; [apply add_translation_adds; by apply (offset_in_node off)|lia|exact Hl].
  - destruct (labelled num (kernel (header nd)) names) eqn:Hk; [|by apply adds_none]. by apply IH; [apply Hr|].
  - destruct Hr as (off & v & -> & Hv & Hrd). cbn [of_option mbind outcome_bind]. rewrite Hv. cbn [of_option mbind outcome_bind].
    destruct (Z.eqb_spec v 0); [|by apply adds_none]. by apply IH; [apply Hrd|].
Qed.
End Node.

(** Returning only invalidates. *)
Definition returned (l l' : rpc_log) : Prop := exists evs, l' = (l.1 ++ evs, l.2) /\ Forall is_invalidate evs.
Lemma returned_refl l : returned l l.
Proof. exists []. rewrite app_nil_r. by destruct l. Qed.
Lemma returned_trans l l' l'' : returned l l' -> returned l' l'' -> returned l l''.
Proof.
  intros (e & -> & He) (e' & -> & He'). exists (e ++ e'). cbn [fst snd]. rewrite <- app_assoc. split; [done|by apply Forall_app].
Qed.
Lemma returned_one b a k m l : returned l (if b : bool then dvp_rpc_invalidate a k m l else l).
Proof. destruct b; [|apply returned_refl]. exists [Invalidate a k m]. split; [done|by repeat constructor]. Qed.
Lemma returned_fold {A} (f : rpc_log -> A -> outcome rpc_log) xs :
  (forall x l, x ∈ xs -> exists l', f l x = Done l' /\ returned l l') -> forall l, exists l', ofold f xs l = Done l' /\ returned l l'.
Proof.
  induction xs as [|x xs IH]; intros Hf l; [exists l; split; [done|apply returned_refl]|]. cbn [ofold].
  destruct (Hf x l) as (l1 & -> & H1); [by left|]. cbn [mbind outcome_bind].
  destruct (IH ltac:(intros y l0 Hy; apply Hf; by right) l1) as (l2 & H2 & H3). exists l2. split; [done|by eapply returned_trans].
Qed.

Lemma return_step_ready s nd st : step_ready s nd st -> forall l, exists l', return_step num layout s nd st l = Done l' /\ returned l l'.
Proof.
  induction st as [f c|f c|f|names st IH|f st IH]; intros Hr l; cbn [return_step].
  - destruct Hr as (off & i & -> & Hi & [Hp _]). cbn [of_option mbind outcome_bind]. rewrite Hi. cbn [of_option mbind outcome_bind].
    apply rpc_image_shape in Hi as (_ & _ & Hlen). apply returned_fold. intros p l0 Hx%elem_of_seqZ.
    destruct (aget_in_range (pBuffer (rimg i)) p) as [b ->]; [rewrite Hlen; lia|]. eexists. split; [done|apply returned_one].
  - destruct Hr as (off & b & -> & Hb & _). cbn [of_option mbind outcome_bind]. rewrite Hb. cbn [of_option mbind outcome_bind].
    eexists. split; [done|apply returned_one].
  - destruct Hr as (off & p & -> & Hp & _). cbn [of_option mbind outcome_bind]. rewrite Hp. exists l. split; [done|apply returned_refl].
  - destruct (labelled num (kernel (header nd)) names) eqn:Hk; [by apply IH, Hr|]. exists l. split; [done|apply returned_refl].
  - destruct Hr as (off & v & -> & Hv & Hr). cbn [of_option mbind outcome_bind]. rewrite Hv. cbn [of_option mbind outcome_bind].
    destruct (Z.eqb_spec v 0); [by apply IH, Hr|]. exists l. split; [done|apply returned_refl].
Qed.

(** ** The two loops *)

Lemma prepare_loop_ready t k ns ids : (forall r, r ∈ t -> (length (row_steps r) <= k)%nat) ->
  (forall i, i ∈ ids -> 0 <= i < 2 ^ 20) -> nodes_ready t ns ids -> forall l, fits (4 * k * length ids) l ->
  exists l', node_loop (prepare_node num layout dmabuf_fd nodes_at t rpc ns) ids l = Done (true, l') /\
    added ids (4 * k * length ids) l l'.
Proof.
  intros Hk Hi H. induction H as [|i ids (nd & Hn & Hd & r & Hrow & Hst) _ IH]; intros l Hl.
  { exists l. split; [done|apply added_refl]. }
  cbn [node_loop length] in *. rewrite Nat.mul_succ_r, Nat.add_comm in Hl |- *.
  unfold prepare_node at 2. rewrite Hn. cbn [of_option mbind outcome_bind]. rewrite Hrow.
  assert (adds [i] (4 * length (row_steps r)) (ofold (fun l st => prepare_step num layout dmabuf_fd nodes_at rpc (row_struct r) nd i st l) (row_steps r))) as Ha.
  { apply adds_fold. intros st Hin. rewrite Forall_forall in Hst.
    apply (prepare_step_adds i (Hi i ltac:(by left)) (row_struct r) nd st Hd). by apply Hst. }
  assert (length (row_steps r) <= k)%nat as Hrk by (apply Hk, list_elem_of_In; by apply find_some in Hrow as [? _]).
  destruct (adds_weaken _ _ (4 * k) _ Ha ltac:(lia) l) as (l1 & -> & H1); [unfold fits in *; lia|]. cbn [mbind outcome_bind].
  destruct (IH ltac:(intros j Hj; apply Hi; by right) l1) as (l2 & -> & H2); [by eapply added_fits|].
  exists l2. split; [done|]. eapply added_weaken; [by eapply added_trans| |lia]. intros j [Hj|Hj]%elem_of_app; [apply list_elem_of_singleton in Hj as ->; by left|by right].
Qed.
Lemma return_loop_ready t ns ids : nodes_ready t ns ids -> forall l,
  exists l', node_loop (return_node num layout t ns) ids l = Done (true, l') /\ returned l l'.
Proof.
  induction 1 as [|i ids (nd & Hn & Hd & r & Hrow & Hst) _ IH]; intros l; [exists l; split; [done|apply returned_refl]|].
  cbn [node_loop]. unfold return_node at 2. rewrite Hn. cbn [of_option mbind outcome_bind]. rewrite Hrow. rewrite Forall_forall in Hst.
  destruct (returned_fold (fun l st => return_step num layout (row_struct r) nd st l) (row_steps r)
    ltac:(intros st l0 Hin; by apply return_step_ready, Hst) l) as (l1 & -> & H1).
  cbn [mbind outcome_bind]. destruct (IH l1) as (l2 & -> & H2). exists l2. split; [done|by eapply returned_trans].
Qed.

(** ** The call, made *)

Lemma exec_params_translated a n h fd st count : R !! a = Some (n, h) -> a <= nodes_at < a + n -> fd <> 0 ->
  omap_params rpc (exec_params nodes_at fd st count) =
    Done [ mkOmapParam OMAPRPC_PARAM_TYPE_PTR (u32 (u32 (st + count) * sizeof_DVP_KernelNode_t)) nodes_at a fd;
           mkOmapParam OMAPRPC_PARAM_TYPE_ATOMIC 4 (u32 st) 0 0; mkOmapParam OMAPRPC_PARAM_TYPE_ATOMIC 4 (u32 count) 0 0 ].
Proof.
  intros Ha Hv Hfd. unfold exec_params. cbn [omap_params].
  assert (forall size, omap_param rpc (mkParameter size nodes_at fd) = Done (mkOmapParam OMAPRPC_PARAM_TYPE_PTR size nodes_at a fd)) as ->; [|done].
  intros size. unfold omap_param. cbn [rp_reserved rp_data rp_size]. rewrite (proj2 (Z.eqb_neq fd 0)) by done. cbn [negb].
  destruct (find_range rpc R a n h nodes_at (reg_ranges rpc R Hreg) Hroom Ha Hv) as (q & -> & Hq & Hd). cbn [mbind outcome_bind].
  rewrite (proj2 (Z.eqb_neq q 0)) by done. by rewrite (mem_range _ q _ Hd).
Qed.
Lemma translations_readable q qs (ids : list Z) ts : op_data q <> 0 -> Forall (fun t => exists n, n ∈ ids /\ in_node n t) ts ->
  forallb (readable (q :: qs)) ts = true.
Proof.
  intros Hq H. apply forallb_forall. intros t Ht%list_elem_of_In. rewrite Forall_forall in H.
  destruct (H t Ht) as (n & _ & Hi & _). unfold readable. rewrite Hi. change (aget (q :: qs) 0) with (Some q). cbv beta iota. by rewrite (proj2 (Z.eqb_neq (op_data q) 0)).
Qed.
End Ready.

Section Stretch.
Context (num : string -> Z) (layout : string -> string -> option Z) (dmabuf_fd : gmap Z Z) (nodes_at : Z).
Context {M : Type} (cache : M -> rpc_event -> M) (granted : M -> bool).
Context (omaprpc_call : omaprpc_call_function_t -> M * list DVP_KernelNode_t ->
  outcome (option Z * (M * list DVP_KernelNode_t))).
Context (now : Z -> Z).

(** A manager that is ready: initialised, its array of nodes registered, and
    its counter of calls not about to wrap around *)
Record manager_ready (w : remote_t M) (rpc : DVP_RPC_t) (R : gmap Z (Z * Z)) (a n h fd : Z) : Prop := {
  mr_rpc : rm_rpc w = Some rpc;
  mr_core : rm_core w = true;
  mr_lock : coreLock w <> 0;
  mr_perf : 0 <= numTimes (rm_perf w) /\ numTimes (rm_perf w) + 1 < 2 ^ 32;
  mr_registry : registry rpc R;
  mr_room : room R;
  mr_nodes : R !! a = Some (n, h) /\ a <= nodes_at < a + n;
  mr_file : dmabuf_fd !! h = Some fd /\ fd <> 0 }.

Lemma table_steps ks prepare return_ m r : (ks, (prepare, return_), m) ∈ remote_tables -> r ∈ prepare ->
  (4 * Z.to_nat (1024 / (4 * m)) * Z.to_nat m <= 1024)%nat /\ (length (row_steps r) <= Z.to_nat (1024 / (4 * m)))%nat.
Proof.
  intros H Hr. assert (Forall (fun r => (length (row_steps r) <= Z.to_nat (1024 / (4 * m)))%nat) prepare /\
    (4 * Z.to_nat (1024 / (4 * m)) * Z.to_nat m <= 1024)%nat) as [Hf Hm].
  { apply elem_of_cons in H as [[= -> -> -> ->]|[[= -> -> -> ->]|H%elem_of_nil]%elem_of_cons]; [| |done];
      apply (bool_decide_unpack _); vm_compute; exact I. }
  rewrite Forall_forall in Hf. split; [done|by apply Hf].
Qed.

(** C8: a stretch of nodes runs on the remote core: when the images and
    buffers of its nodes and the array of nodes are registered memory and
    there are at most as many nodes as [DVP_MAX_TRANSLATIONS] is certain to
    hold (42 on SIMCOP, 19 on the DSP), the call of a manager returns.  After
    flushes only, it makes one call of the remote core, with the array, the
    first node and the number of nodes, and with pointers to translate that
    all lie in the parameters of these nodes; after that, invalidations only.
    The answer is the core's number of nodes, 0 when it failed, and the lock of the
    core is given back. *)
Theorem remote_stretch_runs ks prepare return_ m w rpc R a len h fd ns st n :
  (ks, (prepare, return_), m) ∈ remote_tables -> manager_ready w rpc R a len h fd ->
  0 <= st -> 0 <= n <= m -> st + n < 2 ^ 20 -> (forall mem, granted mem = true) ->
  nodes_ready num layout dmabuf_fd R prepare ns (seqZ st n) ->
  (forall c mem, exec_call c st n (call_translations c) -> exists r mem' ns', omaprpc_call c (mem, ns) = Done (r, (mem', ns')) /\
     nodes_ready num layout dmabuf_fd R return_ ns' (seqZ st n)) ->
  exists evs trans c r mem' ns' evs' w',
    kernel_graph_manager num layout dmabuf_fd nodes_at cache granted omaprpc_call now prepare return_ w ns st n =
      Done (w', ns', Z.max 0 (status_of r)) /\
    omaprpc_call c (foldl cache (machine w) evs, ns) = Done (r, (mem', ns')) /\ machine w' = foldl cache mem' evs' /\
    exec_call c st n trans /\
    head (call_params c) = Some (mkOmapParam OMAPRPC_PARAM_TYPE_PTR ((st + n) * sizeof_DVP_KernelNode_t) nodes_at a fd) /\
    Forall (fun t => exists i, i ∈ seqZ st n /\ in_node i t) trans /\ Forall is_flush evs /\ Forall is_invalidate evs' /\
    coreLock w' = coreLock w.
Proof.
  intros Ht [Hrpc Hcore Hlock [Hp0 Hp1] Hreg Hroom [Ha Hv] [Hf Hfd]] Hst Hn Hsn Hg Hready Hdrv.
  pose proof (registered_range rpc R a len h (reg_ranges rpc R Hreg) Ha) as [Ha0 _].
  assert (node_range st n = seqZ st n) as Hids.
  { unfold node_range. rewrite u32_small by (unfold is_u32; lia). f_equal. lia. }
  destruct (prepare_loop_ready num layout dmabuf_fd nodes_at rpc R Hreg Hroom prepare (Z.to_nat (1024 / (4 * m))) ns (seqZ st n))
    with (l := ([] : list rpc_event, [] : list DVP_RPC_PointerTranslation_t)) as (l & Hl & (evs & ts & -> & Hevs & Hlen & Hts)).
  { intros r Hr. by eapply table_steps. }
  { intros i Hi%elem_of_seqZ. lia. }
  { done. }
  { unfold fits. cbn [snd length]. rewrite length_seqZ. destruct prepare as [|r0 prepare']; [apply elem_of_cons in Ht as [?|[?|?%elem_of_nil]%elem_of_cons]; done|].
    destruct (table_steps _ _ _ _ r0 Ht ltac:(by left)) as [Hb _]. nia. }
  unfold kernel_graph_manager. rewrite (proj2 (Z.eqb_neq _ _) Hlock), (proj2 (Z.eqb_neq nodes_at 0)) by lia.
  cbn [rm_rpc rm_core start_perf set_lock machine]. rewrite Hrpc, Hcore, (get_handle_spec dmabuf_fd rpc R a len h nodes_at Hreg Hroom Ha Hv), Hf, Hids.
  cbn [of_option mbind outcome_bind]. rewrite Hl. cbn [mbind outcome_bind negb app fst snd].
  unfold dvp_rpc_remote_execute. cbn [length exec_params]. change (OMAPRPC_MAX_PARAMETERS <? Z.of_nat 3) with false. cbv iota. rewrite Hg.
  change ([mkParameter _ _ _; _; _]) with (exec_params nodes_at fd st n).
  rewrite (exec_params_translated nodes_at rpc R Hreg Hroom a len h fd st n Ha Hv Hfd). cbn [mbind outcome_bind].
  erewrite translations_readable; [|cbn; lia|exact Hts]. cbn [run_cache set_machine machine fst start_perf set_lock].
  match goal with |- context [omaprpc_call ?c ?x] => destruct (Hdrv c (foldl cache (machine w) evs) ltac:(by split)) as (r & mem' & ns' & Hc & Hret); set (call := c) in * end.
  rewrite Hc. cbn [mbind outcome_bind].
  destruct (return_loop_ready num layout dmabuf_fd R return_ ns' (seqZ st n) Hret ([], [])) as (l' & -> & (evs' & -> & Hevs')).
  cbn [mbind outcome_bind app fst snd]. unfold stop_perf. cbn [rm_perf rm_tick run_cache set_machine].
  match goal with |- context [DVP_PerformanceStop ?t ?q] => destruct (stop_counts t q) as (q' & -> & Hq); [done..|] end.
  cbn [mbind outcome_bind]. do 8 eexists. split; [|split; [exact Hc|]].
  { match goal with |- Done (_, _, ?k) = _ => replace k with (Z.max 0 (status_of r)) by (unfold status_of; destruct r as [z|]; [destruct (Z.leb_spec 0 (s32 z)); lia|done]) end.
    reflexivity. }
  split; [done|]. split; [by split|]. split.
  { cbn. rewrite (u32_small (st + n)), u32_small by (unfold is_u32, sizeof_DVP_KernelNode_t; lia). done. }
  split; [done|]. split; [done|]. split; [done|]. cbn. lia.
Qed.
End Stretch.

(** ** Verification, and the tables again *)

(** C19: the tables of a manager agree: every kernel that SIMCOP or the DSP
    publishes is prepared before and returned after the remote call, by cases
    that read the same structure and treat the same images and buffers,
    whatever the numbers of the kernels as long as the labels of each
    [switch] are distinct. *)
Theorem published_kernels_prepared_and_returned num ks prepare return_ m k :
  (ks, (prepare, return_), m) ∈ remote_tables -> NoDup (num <$> labels prepare) -> NoDup (num <$> labels return_) ->
  k ∈ remote_kernels num ks ->
  exists r q, row_for num prepare (cf_kernel k) = Some r /\ row_for num return_ (cf_kernel k) = Some q /\ same_members r q.
Proof.
  intros Ht Hp Hr Hk. apply list_elem_of_fmap in Hk as (x & -> & Hx). cbn [cf_kernel core_function].
  pose proof (published_supported ks prepare return_ m Ht) as Hs. rewrite Forall_forall in Hs.
  destruct (Hs x.1 ltac:(by apply list_elem_of_fmap_2)) as (H1 & H2 & H3). unfold rows_match in H3.
  rewrite (row_for_named num prepare x.1 Hp H1), (row_for_named num return_ x.1 Hr H2).
  destruct (row_named prepare x.1) as [r|]; [|done]. destruct (row_named return_ x.1) as [q|]; [|done]. by exists r, q.
Qed.

Definition accepted (es : list Z) : Z := Z.of_nat (length (filter (eq DVP_SUCCESS) es)).
Definition judged (nd : DVP_KernelNode_t) (e : Z) : DVP_KernelNode_t := upd_header (set_error e) nd.
Lemma accepted_cons e es : accepted (e :: es) = (if e =? DVP_SUCCESS then 1 else 0) + accepted es.
Proof.
  unfold accepted. rewrite filter_cons. destruct (Z.eqb_spec e DVP_SUCCESS) as [->|Hne]; [by rewrite decide_True by done; cbn; lia|].
  by rewrite decide_False by congruence.
Qed.
Lemma accepted_range es : 0 <= accepted es <= Z.of_nat (length es).
Proof. unfold accepted. pose proof (length_filter (eq DVP_SUCCESS) es). lia. Qed.

Section Verify.
Context (num : string -> Z) (layout : string -> string -> option Z).

Lemma simcop_verify_loop mid : forall pre post v es,
  Forall2 (fun nd e => verdict num layout simcop_verify nd = Done e) mid es ->
  ofold (simcop_verify_node num layout) (seqZ (Z.of_nat (length pre)) (Z.of_nat (length mid))) (pre ++ mid ++ post, v) =
    Done (pre ++ zip_with judged mid es ++ post, v + accepted es).
Proof.
  induction mid as [|nd mid IH]; intros pre post v es He.
  { apply Forall2_nil_inv_l in He as ->. simpl. by rewrite Z.add_0_r. }
  apply Forall2_cons_inv_l in He as (e & es' & Hv & He & ->). rewrite seqZ_cons by (simpl; lia). cbn [ofold].
  unfold simcop_verify_node at 2. cbn [fst snd]. rewrite <- app_comm_cons, aget_app. cbn [of_option mbind outcome_bind]. rewrite Hv.
  cbn [mbind outcome_bind]. rewrite upd_node_app. cbn [mbind outcome_bind]. fold (judged nd e).
  specialize (IH (pre ++ [judged nd e]) post (if e =? DVP_SUCCESS then v + 1 else v) es' He).
  rewrite length_app, <- !app_assoc in IH. cbn [length app] in IH.
  replace (Z.of_nat (length pre + 1)) with (Z.succ (Z.of_nat (length pre))) in IH by lia.
  replace (Z.pred (Z.of_nat (length (nd :: mid)))) with (Z.of_nat (length mid)) by (simpl; lia).
  rewrite IH, accepted_cons. cbn [zip_with]. destruct (e =? DVP_SUCCESS); do 2 f_equal; lia.
Qed.

Lemma verify_labels_prepared : Forall (fun s => s ∈ labels simcop_prepare) (flat_map vr_kernels simcop_verify).
Proof. apply (bool_decide_unpack _). vm_compute. exact I. Qed.
Lemma verified_supported nd : verdict num layout simcop_verify nd = Done DVP_SUCCESS ->
  is_Some (row_for num simcop_prepare (kernel (header nd))).
Proof.
  unfold verdict. destruct (find _ simcop_verify) as [r|] eqn:Hf; [|done]. intros _.
  apply find_some in Hf as [Hr Hl]. apply labelled_spec in Hl as (s & Hs & <-). apply row_for_label.
  pose proof verify_labels_prepared as H. rewrite Forall_forall in H. apply H, list_elem_of_In, in_flat_map. exists r.
  split; [done|by apply list_elem_of_In].
Qed.

(** C17: what SIMCOP's verification accepts, SIMCOP can run: verification of a
    stretch writes the verdict on every node to its header, touches nothing
    else and answers how many nodes it accepts; if it accepts all of them, no
    call of the manager on this stretch keeps the lock of the core, whatever
    the remote core does. *)
Theorem simcop_verified_runs {M} (dmabuf_fd : gmap Z Z) nodes_at (cache : M -> rpc_event -> M) granted omaprpc_call now pre mid post es :
  Forall2 (fun nd e => verdict num layout simcop_verify nd = Done e) mid es ->
  Z.of_nat (length pre) + Z.of_nat (length mid) < 2 ^ 32 ->
  let st := Z.of_nat (length pre) in let n := Z.of_nat (length mid) in
  let ns := pre ++ zip_with judged mid es ++ post in
  simcop_verify_nodes num layout (pre ++ mid ++ post) st n = Done (ns, accepted es) /\
  (accepted es = n -> forall w w' ns' k,
   DVP_KernelGraphManager_SIMCOP num layout dmabuf_fd nodes_at cache granted omaprpc_call now w ns st n = Done (w', ns', k) ->
   coreLock w' = coreLock w).
Proof.
  intros He Hb st n ns. unfold st, n, ns. pose proof (Forall2_length _ _ _ He) as Hlen. split.
  - unfold simcop_verify_nodes. rewrite node_range_nat by done. rewrite simcop_verify_loop with (es := es) by done.
    cbn [mbind outcome_bind]. pose proof (accepted_range es). by rewrite u32_small by (unfold is_u32; lia).
  - intros Ha w w' ns' k H. apply manager_inv in H as (_ & [(H & _)|(rpc & handle & l & g & _ & _ & _ & [(Hp & _)|(_ & H & _)])]); [done| |done].
    apply prepare_supported in Hp; [done|]. rewrite node_range_nat by done. intros i nd Hi%elem_of_seqZ Hnd.
    apply aget_Some in Hnd as [_ Hnd]. rewrite lookup_app_r in Hnd by lia. rewrite lookup_app_l in Hnd by (rewrite length_zip_with; lia).
    apply lookup_zip_with_Some in Hnd as (nd0 & e & -> & Hnd0 & Hes). cbn [header judged upd_header set_error kernel].
    pose proof (Forall2_lookup_lr _ _ _ _ _ _ He Hnd0 Hes) as Hv. apply verified_supported.
    assert (Forall (eq DVP_SUCCESS) es) as Hall.
    { apply Forall_forall. intros x Hx. destruct (decide (DVP_SUCCESS = x)) as [|Hne]; [done|].
      pose proof (length_filter_lt (eq DVP_SUCCESS) es x Hx Hne). unfold accepted in Ha. lia. }
    rewrite Forall_lookup in Hall. by rewrite (Hall _ _ Hes).
Qed.
End Verify.

(** ** Witnesses *)

(** A machine that records cache operations, and a core that copies nothing
    but says that it ran what it was asked to *)
Definition record_event (m : list rpc_event) (e : rpc_event) : list rpc_event := m ++ [e].
Definition idle_core (c : omaprpc_call_function_t) (s : list rpc_event * list DVP_KernelNode_t)
    : outcome (option Z * (list rpc_event * list DVP_KernelNode_t)) :=
  Done (op_data <$> call_params c !! 2%nat, s).
Definition sample_layout : string -> string -> option Z := Struct.public_layout 4.
Definition sample_perf : DVP_Perf_t := DVP_Perf_Clear 1000.
Definition sample_clock (t : Z) : Z := 1000 + t.

Definition node_data (fields : list (Z * Z)) : list Z :=
  foldl (fun d f => default d (set_bytes d f.1 (to_le 4 f.2))) (replicate (Z.to_nat DVP_KNODE_DATA_SIZE) 0) fields.
(** An image of 32 * 2 samples in memory of type [mtype] at [a] *)
Definition image_fields (off a mtype : Z) : list (Z * Z) :=
  (fun f => (off + f.1, f.2)) <$> [(0, a); (16, a); (32, 1); (36, 32); (40, 2); (44, 32); (48, 2); (60, 1); (64, 32);
    (68, FOURCC_Y800); (72, 64); (76, mtype)].
Definition sample_node (k : Z) (d : list Z) : DVP_KernelNode_t := mkNode (mkHeader k 0 0 0 0 0 sample_perf) d.
Definition remote_copy_node : DVP_KernelNode_t :=
  sample_node DVP_KN_COPY (node_data (image_fields 0 0x20000000 Bo.DVP_MTYPE_MPUCACHED_1DTILED ++
    image_fields 92 0x30000000 Bo.DVP_MTYPE_MPUNONCACHED_1DTILED)).
Definition remote_noop_node : DVP_KernelNode_t := sample_node DVP_KN_NOOP (node_data []).
Definition foreign_node : DVP_KernelNode_t := sample_node 0x9999 (node_data []).
Definition idle_remote (rpc : DVP_RPC_t) : remote_t (list rpc_event) := mkRemote (Some rpc) true 1 sample_perf 0 [].

Definition sample_files : gmap Z Z := {[1 := 11; 2 := 12; 3 := 13]}.
Definition sample_ranges : gmap Z (Z * Z) :=
  <[0x30000000 := (4096, 3)]> (<[0x20000000 := (4096, 2)]> (<[0x10000000 := (8192, 1)]> ∅)).
Lemma sample_registry : exists rpc, registry rpc sample_ranges.
Proof.
  destruct (register_one dvp_rpc_init ∅ 0x10000000 8192 1 registry_init) as (r1 & H1 & E1); [by vm_compute|by vm_compute|done|done|done|by intros ? ? ?|].
  destruct (register_one r1 _ 0x20000000 4096 2 H1) as (r2 & H2 & E2); [by vm_compute|rewrite E1; by vm_compute|done|done|done| |].
  { intros a n h Ha. apply lookup_insert_Some in Ha as [[<- [= <- <-]]|[_ Ha]]; [by vm_compute; right|done]. }
  destruct (register_one r2 _ 0x30000000 4096 3 H2) as (r3 & H3 & _); [by vm_compute|rewrite E2, E1; by vm_compute|done|done|done| |by exists r3].
  intros a n h Ha. apply lookup_insert_Some in Ha as [[<- [= <- <-]]|[_ Ha]]; [by vm_compute; right|].
  apply lookup_insert_Some in Ha as [[<- [= <- <-]]|[_ Ha]]; [by vm_compute; right|done].
Qed.

Lemma two_nodes (x : DVP_KernelNode_t) i nd : i ∈ node_range 0 2 -> aget [x; x] i = Some nd -> nd = x.
Proof. change (node_range 0 2) with [0; 1]. intros [->|[->|?%elem_of_nil]%elem_of_cons]%elem_of_cons; [intros [= <-]; done..|done]. Qed.

Lemma remote_call_releases_core_witness : exists w',
  kernel_graph_manager public_num sample_layout ∅ 0x10000000 record_event (fun _ => true) idle_core sample_clock
    simcop_prepare simcop_return (idle_remote dvp_rpc_init) [remote_noop_node; remote_noop_node] 0 2 =
    Done (w', [remote_noop_node; remote_noop_node], 2) /\ coreLock w' = 1.
Proof.
  destruct (kernel_graph_manager public_num sample_layout ∅ 0x10000000 record_event (fun _ => true) idle_core sample_clock
    simcop_prepare simcop_return (idle_remote dvp_rpc_init) [remote_noop_node; remote_noop_node] 0 2) as [[[w' ns'] k]| |] eqn:H;
    [|vm_compute in H; discriminate H..].
  exists w'. split; [vm_compute in H; injection H as <- <- <-; reflexivity|].
  change 1 with (coreLock (idle_remote dvp_rpc_init)).
  apply (remote_call_releases_core _ _ _ _ _ _ _ _ simcop_kernels simcop_prepare simcop_return 42 _ _ _ _ _ _ _ ltac:(by left)) in H; [done|].
  intros i nd Hi Hn. assert (nd = remote_noop_node) as ->.
  { by apply (two_nodes remote_noop_node i nd). }
  apply (bool_decide_unpack _). vm_compute. exact I.
Defined.

Lemma unsupported_kernel_keeps_core_witness : exists w',
  kernel_graph_manager public_num sample_layout ∅ 0x10000000 record_event (fun _ => true) idle_core sample_clock
    simcop_prepare simcop_return (idle_remote dvp_rpc_init) [remote_noop_node; foreign_node] 0 2 =
    Done (w', [remote_noop_node; foreign_node], 0) /\
  kernel_graph_manager public_num sample_layout ∅ 0x10000000 record_event (fun _ => true) idle_core sample_clock
    simcop_prepare simcop_return w' [remote_noop_node] 0 1 = NoFuel.
Proof.
  destruct (kernel_graph_manager public_num sample_layout ∅ 0x10000000 record_event (fun _ => true) idle_core sample_clock
    simcop_prepare simcop_return (idle_remote dvp_rpc_init) [remote_noop_node; foreign_node] 0 2) as [[[w' ns'] k]| |] eqn:H;
    [|vm_compute in H; discriminate H..].
  destruct (unsupported_kernel_keeps_core public_num sample_layout ∅ 0x10000000 record_event (fun _ => true) idle_core sample_clock
    simcop_prepare simcop_return (idle_remote dvp_rpc_init) [remote_noop_node; foreign_node] 0 2 w' ns' k dvp_rpc_init)
    as (-> & -> & _ & _ & Hlater); [reflexivity|reflexivity|discriminate|reflexivity| |exact H|].
  - exists 1, foreign_node. split; [by right; left|]. split; reflexivity.
  - exists w'. split; [reflexivity|]. apply Hlater.
Defined.

#[local] Instance idle_lawful : LawfulCore idle_core.
Proof.
  intros c start count trans m ns r m' ns' Hx [= <- <- <-] _ Hc. rewrite (xc_count _ _ _ _ Hx). split; [|split; [reflexivity|done]].
  cbn [status_of]. unfold is_u32 in Hc. rewrite u32_small by done. unfold s32. rewrite Z.mod_small by done. case_match; lia.
Qed.

(** Both remote managers keep the contract of graph managers: if the
    remote core answers no more nodes than it was given, and touches no other
    nodes and no routing, then so do the entry points of SIMCOP and of the
    DSP, processing and verification, for all arguments, so that what
    holds of the boss for lawful managers holds with them. *)
Theorem remote_managers_lawful {M} num layout dmabuf_fd nodes_at (cache : M -> rpc_event -> M) granted omaprpc_call now :
  LawfulCore omaprpc_call ->
  LawfulKGM (simcop_calls num layout dmabuf_fd nodes_at cache granted omaprpc_call now) /\
  LawfulKGM (dsp_calls num layout dmabuf_fd nodes_at cache granted omaprpc_call now).
Proof. intros Hc. split; [by apply simcop_lawful|by apply dsp_lawful]. Qed.
Lemma remote_managers_lawful_witness :
  LawfulKGM (simcop_calls public_num sample_layout ∅ 0x10000000 record_event (fun _ => true) idle_core sample_clock).
Proof.
  destruct (remote_managers_lawful public_num sample_layout ∅ 0x10000000 record_event (fun _ => true) idle_core sample_clock idle_lawful) as [H _].
  exact H.
Defined.

Lemma sample_image_ready i a h : planes (rimg i) = 1 -> aget (pBuffer (rimg i)) 0 = Some a -> sample_ranges !! a = Some (4096, h) ->
  is_Some (sample_files !! h) -> image_ready sample_files sample_ranges i.
Proof.
  intros Hp Ha Hr Hh. split; [lia|]. intros _ p b Hb Hab. assert (p = 0) as -> by lia. assert (b = a) as -> by congruence.
  by exists 4096, h.
Qed.
Lemma copy_node_ready t : t = simcop_prepare \/ t = simcop_return ->
  node_ready public_num sample_layout sample_files sample_ranges t remote_copy_node.
Proof.
  intros Ht. split; [vm_compute; reflexivity|].
  assert (exists b b', row_for public_num t DVP_KN_COPY = Some (mkRow ["DVP_KN_COPY"%string] "DVP_Transform_t" [Img "input" b; Img "output" b']))
    as (b & b' & Hrow) by (destruct Ht as [-> | ->]; eexists _, _; vm_compute; reflexivity).
  eexists. split; [exact Hrow|]. cbn [row_struct row_steps].
  constructor; [|constructor; [|constructor]]; cbn [step_ready]; eexists _, _; (split; [vm_compute; reflexivity|]);
    (split; [vm_compute; reflexivity|]); (eapply sample_image_ready; [reflexivity|vm_compute; reflexivity|vm_compute; reflexivity|]);
    vm_compute; by eexists.
Qed.
Lemma remote_stretch_runs_witness : exists rpc evs c w',
  kernel_graph_manager public_num sample_layout sample_files 0x10000000 record_event (fun _ => true) idle_core sample_clock
    simcop_prepare simcop_return (idle_remote rpc) [remote_copy_node; remote_copy_node] 0 2 =
    Done (w', [remote_copy_node; remote_copy_node], 2) /\
  idle_core c (evs, [remote_copy_node; remote_copy_node]) = Done (Some 2, (evs, [remote_copy_node; remote_copy_node])) /\
  coreLock w' = 1.
Proof.
  destruct sample_registry as [rpc Hreg].
  assert (forall t, t = simcop_prepare \/ t = simcop_return ->
    nodes_ready public_num sample_layout sample_files sample_ranges t [remote_copy_node; remote_copy_node] (seqZ 0 2)) as Hready.
  { intros t Ht. repeat constructor; exists remote_copy_node; (split; [reflexivity|]); by apply copy_node_ready. }
  destruct (remote_stretch_runs public_num sample_layout sample_files 0x10000000 record_event (fun _ => true) idle_core sample_clock
    simcop_kernels simcop_prepare simcop_return 42 (idle_remote rpc) rpc sample_ranges 0x10000000 8192 1 11
    [remote_copy_node; remote_copy_node] 0 2) as (evs & trans & c & r & mem & ns & evs' & w' & H1 & H2 & _ & Hx & _ & _ & _ & _ & Hl).
  - by left.
  - split; [reflexivity|reflexivity|discriminate|cbn; lia|exact Hreg|vm_compute; discriminate|split; [vm_compute; reflexivity|lia]|].
    split; [vm_compute; reflexivity|discriminate].
  - lia.
  - lia.
  - lia.
  - done.
  - apply Hready. by left.
  - intros c mem Hx. eexists _, _, _. split; [done|]. apply Hready. by right.
  - unfold idle_core in H2. rewrite (xc_count _ _ _ _ Hx) in H2. injection H2 as <- <- <-.
    exists rpc, evs, c, w'. split; [exact H1|]. split; [|exact Hl]. unfold idle_core. by rewrite (xc_count _ _ _ _ Hx).
Defined.

Lemma published_kernels_prepared_and_returned_witness : exists r q,
  row_for public_num simcop_prepare (public_num "DVP_KN_VRUN_BLOCK_MAXIMA") = Some r /\
  row_for public_num simcop_return (public_num "DVP_KN_VRUN_BLOCK_MAXIMA") = Some q /\ same_members r q.
Proof.
  apply (published_kernels_prepared_and_returned public_num simcop_kernels simcop_prepare simcop_return 42
    (core_function public_num ("DVP_KN_VRUN_BLOCK_MAXIMA"%string, None))).
  - by left.
  - apply (bool_decide_unpack _). vm_compute. exact I.
  - apply (bool_decide_unpack _). vm_compute. exact I.
  - apply list_elem_of_fmap. exists ("DVP_KN_VRUN_BLOCK_MAXIMA"%string, None). split; [reflexivity|].
    apply list_elem_of_In. vm_compute. tauto.
Defined.

Lemma simcop_verified_runs_witness :
  simcop_verify_nodes public_num sample_layout [remote_copy_node; remote_noop_node; foreign_node] 0 2 =
    Done ([judged remote_copy_node DVP_SUCCESS; judged remote_noop_node DVP_SUCCESS; foreign_node], 2).
Proof.
  destruct (simcop_verified_runs public_num sample_layout ∅ 0x10000000 record_event (fun _ => true) idle_core sample_clock
    [] [remote_copy_node; remote_noop_node] [foreign_node] [DVP_SUCCESS; DVP_SUCCESS]) as [H _].
  - repeat constructor; vm_compute; reflexivity.
  - reflexivity.
  - exact H.
Defined.
