(* ===== verification/SosalHeap.v ===== *)
(** * The heap over a flat buffer (source/sosal/heap.c, include/sosal/heap.h)

    The buffer begins with the block and the node records, which are kept by
    address in [blocks] and [nodes]; [bytes] is the rest.  The mutex makes
    every call one step. *)
From Stdlib Require Import SpecFloat.
From S2P Require Import Prelude SosalList.

Record block_t : Set := mkBlock { size : Z; data : Z }.
Record heap_t : Set := mkHeap {
  raw : Z; used : list_t; free : list_t; spare : list_t;
  blocks_at : Z; nodes_at : Z; data_at : Z; maxBlocks : Z; align : Z;
  bytesUsed : Z; bytesFree : Z; bytesTotal : Z; cleanPolicy : bool; coalescePolicy : bool }.
Record heap_mem : Type := mkMem { nodes : store; blocks : gmap Z block_t; bytes : Z -> Z }.

Definition SIZEOF_node_t : Z := 24.
Definition SIZEOF_block_t : Z := 16.

Definition block (p : Z) (bs : gmap Z block_t) : outcome block_t := if p =? 0 then Undef else of_option (bs !! p).
Definition memset (m : Z -> Z) (p v n : Z) : Z -> Z := fun a => if (p <=? a) && (a <? p + n) then v else m a.

Definition with_used (h : heap_t) (l : list_t) : heap_t :=
  mkHeap (raw h) l (free h) (spare h) (blocks_at h) (nodes_at h) (data_at h) (maxBlocks h) (align h)
         (bytesUsed h) (bytesFree h) (bytesTotal h) (cleanPolicy h) (coalescePolicy h).
Definition with_free (h : heap_t) (l : list_t) : heap_t :=
  mkHeap (raw h) (used h) l (spare h) (blocks_at h) (nodes_at h) (data_at h) (maxBlocks h) (align h)
         (bytesUsed h) (bytesFree h) (bytesTotal h) (cleanPolicy h) (coalescePolicy h).
Definition with_spare (h : heap_t) (l : list_t) : heap_t :=
  mkHeap (raw h) (used h) (free h) l (blocks_at h) (nodes_at h) (data_at h) (maxBlocks h) (align h)
         (bytesUsed h) (bytesFree h) (bytesTotal h) (cleanPolicy h) (coalescePolicy h).
Definition with_counts (h : heap_t) (u f : Z) : heap_t :=
  mkHeap (raw h) (used h) (free h) (spare h) (blocks_at h) (nodes_at h) (data_at h) (maxBlocks h) (align h)
         u f (bytesTotal h) (cleanPolicy h) (coalescePolicy h).
Definition with_nodes (m : heap_mem) (s : store) : heap_mem := mkMem s (blocks m) (bytes m).
Definition with_blocks (m : heap_mem) (bs : gmap Z block_t) : heap_mem := mkMem (nodes m) bs (bytes m).
Definition with_bytes (m : heap_mem) (b : Z -> Z) : heap_mem := mkMem (nodes m) (blocks m) b.

(** ** Helpers *)

Definition ptr_is_aligned (ptr al : Z) : bool := ptr mod al =? 0.

Definition node_clear (p : Z) (s : store) : outcome store :=
  if p =? 0 then Done s else _ ← deref p s; Done (<[p := mkListNode 0 0 0]> s).
Definition block_clear (p : Z) (bs : gmap Z block_t) : outcome (gmap Z block_t) :=
  if p =? 0 then Done bs else _ ← block p bs; Done (<[p := mkBlock 0 0]> bs).

Definition block_size (al desired : Z) : Z :=
  let remainder := desired mod al in
  if negb (remainder =? 0) then u64 (desired + (al - remainder)) else desired.

Definition block_compare_ptr (bs : gmap Z block_t) (s : store) (a b : Z) : outcome Z :=
  if negb (b =? 0) then
    na ← deref a s; nb ← deref b s;
    blockA ← block (node_data na) bs; blockB ← block (node_data nb) bs;
    Done (if data blockA <? data blockB then -1 else if data blockA =? data blockB then 0 else 1)
  else Done 0.

Definition block_is_adjacent (a b : Z) (bs : gmap Z block_t) : outcome bool :=
  if (a =? 0) || (b =? 0) then Done false
  else ba ← block a bs; bb ← block b bs; Done (data ba + size ba =? data bb).

Definition block_rate_bestfit (bs : gmap Z block_t) (s : store) (current criteria : Z) : outcome Z :=
  if negb (current =? 0) && negb (criteria =? 0) then
    n ← deref current s; c ← deref criteria s;
    this_block ← block (node_data n) bs; comp_block ← block (node_data c) bs;
    Done (if size this_block =? size comp_block then MAX_SCORE
          else if size comp_block <? size this_block
               then u32 (u64 (MAX_SCORE - u64 (size this_block - size comp_block)))
               else MIN_SCORE)
  else Done MIN_SCORE.

Section Heap.
(** Where the search node and the search block of a call lie on the stack. *)
Context (search_node search_block : Z).

Definition with_search (m : heap_mem) (b : block_t) : heap_mem :=
  mkMem (<[search_node := mkListNode 0 0 search_block]> (nodes m)) (<[search_block := b]> (blocks m)) (bytes m).
Definition fuel_of (s : store) : nat := S (base.size s).

(** Answers the node and its block. *)
Definition block_bestfit_and_remove (l : list_t) (sz : Z) (m : heap_mem)
    : outcome (option (Z * Z) * list_t * heap_mem) :=
  let m1 := with_search m (mkBlock sz 0) in
  foundNode ← list_score (block_rate_bestfit (blocks m1)) (fuel_of (nodes m1)) l search_node (nodes m1);
  if negb (foundNode =? 0) then
    '(node, l, s) ← list_extract l foundNode (nodes m);
    n ← deref node s;
    Done (Some (node, node_data n), l, with_nodes m s)
  else Done (None, l, m).

Definition block_find_and_remove (l : list_t) (ptr : Z) (m : heap_mem)
    : outcome (option (Z * Z) * list_t * heap_mem) :=
  let m1 := with_search m (mkBlock 0 ptr) in
  '(foundNode, l, s) ← list_remove_match (block_compare_ptr (blocks m1)) (fuel_of (nodes m1)) l search_node (nodes m1);
  if negb (foundNode =? 0) then
    n ← deref foundNode s;
    Done (Some (foundNode, node_data n), l, with_nodes m (delete search_node s))
  else Done (None, l, m).

(** ** Initialisation *)

(** [float] is binary32; the conversions round to nearest. *)
Definition float_of (z : Z) : spec_float := binary_normalize 24 128 z 0 false.
Definition size_t_of (f : spec_float) : Z :=
  match f with
  | S754_finite false m e => if 0 <=? e then Z.pos m * 2 ^ e else Z.pos m / 2 ^ (- e)
  | _ => 0
  end.
Definition overhead_estimate (total al : Z) : Z :=
  let bookkeeping := SIZEOF_node_t + SIZEOF_block_t in
  let ratio := SFadd 24 128 (SFdiv 24 128 (float_of al) (float_of bookkeeping)) (float_of 1) in
  size_t_of (SFdiv 24 128 (float_of total) ratio).

Definition with_areas (h : heap_t) (num overhead dat : Z) : heap_t :=
  mkHeap (raw h) (used h) (free h) (spare h) (raw h) (raw h + num * SIZEOF_block_t) (raw h + overhead) num (align h)
         0 dat (bytesTotal h) (cleanPolicy h) (coalescePolicy h).
Definition with_data (h : heap_t) (p : Z) : heap_t :=
  mkHeap (raw h) (used h) (free h) (spare h) (blocks_at h) (nodes_at h) p (maxBlocks h) (align h)
         (bytesUsed h) (bytesFree h) (bytesTotal h) (cleanPolicy h) (coalescePolicy h).

Fixpoint overhead_loop (fuel : nat) (h : heap_t) (num : Z) : outcome (bool * heap_t) :=
  match fuel with
  | O => NoFuel
  | S f =>
      let overhead := u64 (num * (SIZEOF_node_t + SIZEOF_block_t)) in
      let dat := u64 (num * align h) in
      let pad := u64 (bytesTotal h - dat - overhead) in
      let again (h : heap_t) (num pad : Z) :=
        if bytesTotal h <? u64 (pad + dat + overhead) then overhead_loop f h num else Done (true, h) in
      if u64 (pad + dat + overhead) <=? bytesTotal h then
        let h := with_areas h num overhead dat in
        if negb (ptr_is_aligned (data_at h) (align h)) then
          let offset := align h - data_at h mod align h in
          if pad <? offset then again h (u64 (num - 1)) (bytesTotal h)
          else Done (true, with_data h (data_at h + offset))
        else again h num pad
      else again h (u64 (num - 1)) pad
  end.
Definition heap_calc_overhead (h : heap_t) : outcome (bool * heap_t) :=
  let num := overhead_estimate (bytesTotal h) (align h) / (SIZEOF_node_t + SIZEOF_block_t) in
  if num =? 0 then Done (false, h) else overhead_loop (S (Z.to_nat num)) h num.

Definition node_at (h : heap_t) (i : Z) : Z := nodes_at h + SIZEOF_node_t * i.
Definition block_at (h : heap_t) (i : Z) : Z := blocks_at h + SIZEOF_block_t * i.
Definition init_node (h : heap_t) (i : Z) : node_t :=
  mkListNode (if i <? maxBlocks h - 1 then node_at h (i + 1) else 0)
             (if 0 <? i then node_at h (i - 1) else 0) (block_at h i).
Definition init_records (h : heap_t) (m : heap_mem) : heap_mem :=
  fold_left (fun m i => mkMem (<[node_at h i := init_node h i]> (nodes m)) (<[block_at h i := mkBlock 0 0]> (blocks m)) (bytes m))
            (seqZ 0 (maxBlocks h)) m.

Definition heap_init (buffer sz p2align : Z) (m : heap_mem) : outcome (bool * heap_t * heap_mem) :=
  let p2align := if 12 <? p2align then 12 else p2align in
  let p2align := if p2align <? 5 then 5 else p2align in
  let h := mkHeap buffer (mkList 0 0) (mkList 0 0) (mkList 0 0) 0 0 0 0 (2 ^ p2align) 0 0 sz true true in
  if buffer =? 0 then Done (false, h, m)
  else if negb (ptr_is_aligned buffer 4) then Done (false, h, m)
  else
    let m := with_bytes m (memset (bytes m) buffer 0 sz) in
    '(ok, h) ← heap_calc_overhead h;
    if negb (ok : bool) then Done (false, h, m)
    else
      let m := init_records h m in
      let h := with_spare h (if 0 <? maxBlocks h then mkList (node_at h 0) (node_at h (maxBlocks h - 1)) else mkList 0 0) in
      '(first_node, l, s) ← list_pop (spare h) (nodes m);
      n ← deref first_node s;
      first_block ← block (node_data n) (blocks m);
      let bs := <[node_data n := mkBlock (bytesFree h) (data_at h)]> (blocks m) in
      '(fl, s) ← list_push (free h) first_node s;
      Done (true, with_free (with_spare h l) fl, mkMem s bs (bytes m)).

Definition heap_deinit (h : heap_t) (m : heap_mem) : heap_t * heap_mem :=
  (mkHeap 0 (mkList 0 0) (mkList 0 0) (mkList 0 0) 0 0 0 0 0 0 0 0 false false,
   mkMem ∅ ∅ (memset (bytes m) (raw h) 0 (bytesTotal h))).

(** ** Allocation *)

(** The part of [heap_alloc] that takes the best fit apart: the remainder of
    a block that is too large, on a spare node, goes to the free list.
    [false]: no spare node, and the block is back on the free list. *)
Definition fracture (h : heap_t) (node blk num_bytes : Z) (m : heap_mem) : outcome (bool * heap_t * heap_mem) :=
  b ← block blk (blocks m);
  if num_bytes <? size b then
    '(spareNode, l, s) ← list_pop (spare h) (nodes m);
    let h := with_spare h l in
    if spareNode =? 0 then
      '(_, l, s) ← list_insert (block_compare_ptr (blocks m)) (fuel_of s) (free h) node true s;
      Done (false, with_free h l, with_nodes m s)
    else
      n ← deref spareNode s;
      _ ← block (node_data n) (blocks m);
      let bs := <[node_data n := mkBlock (u64 (size b - num_bytes)) (data b + num_bytes)]> (blocks m) in
      b ← block blk bs;
      let bs := <[blk := mkBlock num_bytes (data b)]> bs in
      '(_, l, s) ← list_insert (block_compare_ptr bs) (fuel_of s) (free h) spareNode true s;
      Done (true, with_free h l, mkMem s bs (bytes m))
  else Done (true, h, m).

Definition heap_alloc (h : heap_t) (num_bytes : Z) (m : heap_mem) : outcome (Z * heap_t * heap_mem) :=
  if raw h =? 0 then Done (0, h, m)
  else if num_bytes =? 0 then Done (0, h, m)
  else
    let num_bytes := block_size (align h) num_bytes in
    if bytesFree h <? num_bytes then Done (0, h, m)
    else
      '(found, l, m) ← block_bestfit_and_remove (free h) num_bytes m;
      let h := with_free h l in
      match found with
      | None => Done (0, h, m)
      | Some (node, blk) =>
          if (node =? 0) || (blk =? 0) then Done (0, h, m)
          else
            '(ok, h, m) ← fracture h node blk num_bytes m;
            if negb (ok : bool) then Done (0, h, m)
            else
              '(_, l, s) ← list_insert (block_compare_ptr (blocks m)) (fuel_of (nodes m)) (used h) node true (nodes m);
              b ← block blk (blocks m);
              Done (data b,
                    with_counts (with_used h l) (u64 (bytesUsed h + num_bytes)) (u64 (bytesFree h - num_bytes)),
                    with_nodes m s)
      end.

(** ** Release *)

(** The node and the block that a merge leaves behind join no list. *)
Definition coalesce (node blk : Z) (m : heap_mem) : outcome heap_mem :=
  n ← deref node (nodes m);
  let prev_node := prev n in
  let next_node := next n in
  prev_block ← (if prev_node =? 0 then Done 0 else p ← deref prev_node (nodes m); Done (node_data p));
  next_block ← (if next_node =? 0 then Done 0 else p ← deref next_node (nodes m); Done (node_data p));
  before ← block_is_adjacent prev_block blk (blocks m);
  if (before : bool) then
    pb ← block prev_block (blocks m);
    b ← block blk (blocks m);
    bs ← block_clear prev_block (<[blk := mkBlock (u64 (size b + size pb)) (data pb)]> (blocks m));
    p ← deref prev_node (nodes m);
    let s := <[prev_node := mkListNode next_node (prev p) blk]> (nodes m) in
    s ← (if next_node =? 0 then Done s else set_prev next_node prev_node s);
    s ← node_clear node s;
    Done (mkMem s bs (bytes m))
  else
    after ← block_is_adjacent blk next_block (blocks m);
    if (after : bool) then
      b ← block blk (blocks m);
      nb ← block next_block (blocks m);
      bs ← block_clear next_block (<[blk := mkBlock (u64 (size b + size nb)) (data b)]> (blocks m));
      nn ← deref next_node (nodes m);
      s ← set_next node (next nn) (nodes m);
      s ← (if next nn =? 0 then Done s else set_prev (next nn) node s);
      s ← node_clear next_node s;
      Done (mkMem s bs (bytes m))
    else Done m.

Definition heap_free (h : heap_t) (pointer : Z) (m : heap_mem) : outcome (bool * heap_t * heap_mem) :=
  if pointer =? 0 then Done (false, h, m)
  else if raw h =? 0 then Done (false, h, m)
  else if negb (ptr_is_aligned pointer (align h)) then Done (false, h, m)
  else
    '(found, l, m) ← block_find_and_remove (used h) pointer m;
    let h := with_used h l in
    match found with
    | None => Done (false, h, m)
    | Some (node, blk) =>
        b ← block blk (blocks m);
        if negb (pointer =? data b) then Done (false, h, m)
        else
          '(_, l, s) ← list_insert (block_compare_ptr (blocks m)) (fuel_of (nodes m)) (free h) node true (nodes m);
          let h := with_counts (with_free h l) (u64 (bytesUsed h - size b)) (u64 (bytesFree h + size b)) in
          let m := with_nodes m s in
          let m := if cleanPolicy h then with_bytes m (memset (bytes m) (data b) 48 (size b)) else m in
          m ← (if coalescePolicy h then coalesce node blk m else Done m);
          Done (true, h, m)
    end.

Definition heap_valid (h : heap_t) (addr : Z) : bool :=
  negb (raw h =? 0) && (raw h <=? addr) && (addr <? raw h + bytesTotal h).
End Heap.
