(* ===== verification/SosalHeapFacts.v ===== *)
(** * Facts about the heap: its lists and its blocks *)
From S2P Require Import Prelude SosalList SosalListFacts SosalListProperties SosalHeap.

Implicit Types (s : store) (bs : gmap Z block_t) (xs ys zs us fs ss : list Z).

(** ** The block of a node *)

Definition blk s bs (x : Z) : block_t := default (mkBlock 0 0) (bs !! bptr s x).
Definition has_block s bs (x : Z) : Prop := x <> 0 /\ bptr s x <> 0 /\ is_Some (bs !! bptr s x).

Lemma blk_same s s' bs x : same_data s s' -> blk s' bs x = blk s bs x.
Proof. intros H. unfold blk. by rewrite (bptr_same s s'). Qed.
Lemma has_block_same s s' bs x : same_data s s' -> has_block s bs x -> has_block s' bs x.
Proof. intros H. unfold has_block. by rewrite (bptr_same s s'). Qed.
Lemma has_block_node s bs x : has_block s bs x -> exists n, s !! x = Some n /\ deref x s = Done n /\
  node_data n = bptr s x /\ block (node_data n) bs = Done (blk s bs x).
Proof.
  intros (Hx & Hp & [b Hb]). unfold blk, bptr in *. destruct (s !! x) as [n|] eqn:Hn; [|done]. cbn [from_option] in *.
  exists n. split_and!; [done|by apply deref_Some|done|]. unfold block. rewrite (proj2 (Z.eqb_neq _ _)) by done. by rewrite Hb.
Qed.

(** ** Search, rating and insertion with the heap's comparison *)

Definition block_key s bs (x : Z) : Z := data (blk s bs x).

Lemma block_compares s bs xs : (forall x, x ∈ xs -> has_block s bs x) ->
  compares (block_compare_ptr bs) (block_key s bs) s xs.
Proof.
  intros Hx. split; [|by intros a _]. intros a b Ha Hb.
  destruct (has_block_node s bs a (Hx a Ha)) as (na & _ & Hna & _ & Hba).
  destruct (has_block_node s bs b (Hx b Hb)) as (nb & _ & Hnb & _ & Hbb).
  unfold block_compare_ptr. rewrite (proj2 (Z.eqb_neq b 0)) by apply (Hx b Hb). cbn [negb].
  rewrite Hna, Hnb. cbn [mbind outcome_bind]. rewrite Hba, Hbb. cbn [mbind outcome_bind]. eexists. split; [done|].
  unfold block_key. destruct (Z.ltb_spec (data (blk s bs a)) (data (blk s bs b))), (Z.eqb_spec (data (blk s bs a)) (data (blk s bs b))); lia.
Qed.

Lemma heap_insert l s bs p xs : chain l s xs -> p ∉ xs -> (forall x, x ∈ p :: xs -> has_block s bs x) ->
  exists l' s' xs', list_insert (block_compare_ptr bs) (fuel_of s) l p true s = Done (p, l', s') /\
    xs' = ins (rank (block_key s bs) true) p xs /\ xs' ≡ₚ p :: xs /\
    chain l' s' xs' /\ tail_follows l xs l' xs' /\ same_data s s' /\ same_off (p :: xs) s s'.
Proof.
  intros Hl Hp Hb. destruct (insert_spec (block_compare_ptr bs) (block_key s bs) true l s p xs (fuel_of s) Hl)
    as (l' & s' & He & Hc & Ht & Hd & Ho).
  - destruct (has_block_node s bs p) as (n & Hn & _); [apply Hb; by left|]. split_and!; [apply (Hb p); by left|done|by eexists].
  - by apply block_compares.
  - pose proof (chain_length l s xs Hl). unfold fuel_of. lia.
  - exists l', s', (ins (rank (block_key s bs) true) p xs). split_and!; [done|done|apply ins_perm|done..].
Qed.

(** The score of a block for a size, 0 when it is too small. *)
Definition fit_score (n sz : Z) : Z :=
  if sz =? n then MAX_SCORE else if n <? sz then u32 (u64 (MAX_SCORE - u64 (sz - n))) else MIN_SCORE.

Section Search.
Context (sn sb : Z) (s : store) (bs : gmap Z block_t).
Context (Hsn : sn <> 0) (Hsb : sb <> 0) (Hs : s !! sn = None) (Hb : bs !! sb = None).

Lemma bptr_search x n : x <> sn -> bptr (<[sn := n]> s) x = bptr s x.
Proof. intros Hx. unfold bptr. by rewrite lookup_insert_ne. Qed.
Lemma blk_search x n b : has_block s bs x -> blk (<[sn := n]> s) (<[sb := b]> bs) x = blk s bs x.
Proof.
  intros (Hx & Hp & Hsm). assert (x <> sn) by (intros ->; unfold bptr in Hp; by rewrite Hs in Hp).
  unfold blk. rewrite bptr_search by done. rewrite lookup_insert_ne; [done|]. intros He. rewrite <- He, Hb in Hsm. by destruct Hsm.
Qed.
Lemma has_block_search x n b : has_block s bs x -> has_block (<[sn := n]> s) (<[sb := b]> bs) x.
Proof.
  intros (Hx & Hp & Hsm). assert (x <> sn) by (intros ->; unfold bptr in Hp; by rewrite Hs in Hp).
  split_and!; [done|by rewrite bptr_search|]. rewrite bptr_search by done. rewrite lookup_insert_ne; [done|].
  intros He. rewrite <- He, Hb in Hsm. by destruct Hsm.
Qed.
Lemma has_block_sn b : has_block (<[sn := mkListNode 0 0 sb]> s) (<[sb := b]> bs) sn /\
  blk (<[sn := mkListNode 0 0 sb]> s) (<[sb := b]> bs) sn = b.
Proof.
  unfold has_block, blk, bptr. rewrite lookup_insert_eq. cbn [from_option node_data]. rewrite lookup_insert_eq.
  split; [|done]. split_and!; [done|done|by eexists].
Qed.

Lemma search_off n : same_off [sn] s (<[sn := n]> s).
Proof. intros y Hy. rewrite lookup_insert_ne; [done|set_solver]. Qed.
Lemma not_search x : has_block s bs x -> x <> sn.
Proof. intros (_ & Hp & _) ->. unfold bptr in Hp. by rewrite Hs in Hp. Qed.
Lemma chain_search l xs n : (forall x, x ∈ xs -> has_block s bs x) -> chain l s xs -> chain l (<[sn := n]> s) xs.
Proof.
  intros Hx Hc. eapply chain_frame; [apply search_off| |done].
  intros x Hin Hy%list_elem_of_singleton. by apply (not_search x (Hx x Hin)).
Qed.

Lemma best_fit_spec l xs n : chain l s xs -> (forall x, x ∈ xs -> has_block s bs x) ->
  let s1 := <[sn := mkListNode 0 0 sb]> s in
  list_score (block_rate_bestfit (<[sb := mkBlock n 0]> bs)) (fuel_of s1) l sn s1 =
    Done (best_of (fun x => fit_score n (size (blk s bs x))) xs 0 0).
Proof.
  intros Hc Hx s1. pose proof (chain_search l xs (mkListNode 0 0 sb) Hx Hc) as Hc1.
  unfold list_score. rewrite (proj2 (Z.eqb_neq sn 0)) by done. rewrite (proj1 Hc1). unfold MIN_SCORE.
  pose proof (chain_length _ _ _ Hc1). apply (score_loop_spec _ _ s1 sn xs 0); try apply Hc1.
  - intros x Hin. pose proof (Hx x Hin) as Hb0.
    destruct (has_block_node _ _ _ (has_block_search x (mkListNode 0 0 sb) (mkBlock n 0) Hb0)) as (nd & _ & Hd & _ & Hbk).
    destruct (has_block_sn (mkBlock n 0)) as [Hsb1 Hb1]. destruct (has_block_node _ _ _ Hsb1) as (nc & _ & Hdc & _ & Hbc).
    unfold block_rate_bestfit. rewrite (proj2 (Z.eqb_neq x 0)) by apply Hb0. rewrite (proj2 (Z.eqb_neq sn 0)) by done.
    cbn [negb andb]. unfold s1. rewrite Hd, Hdc. cbn [mbind outcome_bind]. rewrite Hbk, Hbc. cbn [mbind outcome_bind].
    rewrite Hb1, blk_search by done. done.
  - unfold fuel_of. unfold s1 in *. lia.
Qed.

(** The used node of a pointer is taken out of its list. *)
Lemma find_spec l m ptr us : nodes m = s -> blocks m = bs -> dll l s us -> (forall x, x ∈ us -> has_block s bs x) ->
  let found := first (filter (fun x => data (blk s bs x) = ptr) us) 0 in
  (found = 0 /\ block_find_and_remove sn sb l ptr m = Done (None, l, m)) \/
  (found ∈ us /\ exists l' s',
    block_find_and_remove sn sb l ptr m = Done (Some (found, bptr s found), l', with_nodes m s') /\
    dll l' s' (without found us) /\ same_data s s' /\ same_off us s s').
Proof.
  intros Hm1 Hm2 Hl Hx found. pose proof Hl as [Hc Ht]%dll_chain. pose proof (chain_search l us (mkListNode 0 0 sb) Hx Hc) as Hc1.
  set (s1 := <[sn := mkListNode 0 0 sb]> s) in *. set (bs1 := <[sb := mkBlock 0 ptr]> bs).
  assert (forall x, x ∈ sn :: us -> has_block s1 bs1 x) as Hx1.
  { intros x [->|Hin]%elem_of_cons; [apply has_block_sn|by apply has_block_search, Hx]. }
  pose proof (chain_length _ _ _ Hc1) as Hlen.
  destruct (remove_match_spec (block_compare_ptr bs1) (block_key s1 bs1) l s1 us sn (fuel_of s1)) as (l' & s2 & He & Hl' & Hd & Ho);
    [by apply dll_chain|done|by apply block_compares|unfold fuel_of; lia|].
  assert (first (filter (fun x => block_key s1 bs1 x = block_key s1 bs1 sn) us) 0 = found) as Hf.
  { unfold found. f_equal. unfold block_key, s1, bs1. rewrite (proj2 (has_block_sn _)). cbn [data].
    clear -Hx Hs Hb Hsn Hsb. induction us as [|x us IH]; [done|].
    rewrite !filter_cons, blk_search by (apply Hx; by left). rewrite IH by (intros y Hy; apply Hx; by right). done. }
  rewrite Hf in He, Hl'. assert (sn ∉ us) as Hsnu by (intros Hin; by apply (not_search sn (Hx sn Hin))).
  unfold block_find_and_remove, with_search. cbn [nodes blocks]. rewrite Hm1, Hm2.
  fold s1 bs1. rewrite He. cbn [mbind outcome_bind].
  destruct (Z.eqb_spec found 0) as [H0|H0]; cbn [negb].
  { left. split; [done|]. do 2 f_equal. f_equal. unfold list_remove_match in He.
    rewrite (list_search_spec (block_compare_ptr bs1) (block_key s1 bs1) l s1 us) in He
      by (done || (by apply block_compares) || (unfold fuel_of; lia)).
    cbn [mbind outcome_bind] in He. rewrite Hf, H0 in He. by apply Done_inj in He as [= -> _]. }
  right. assert (found ∈ us) as Hin.
  { clear -H0. unfold found in *. destruct (filter _ us) as [|x r] eqn:Hfl; [done|]. cbn [first].
    apply (list_elem_of_filter (fun x => data (blk s bs x) = ptr)). rewrite Hfl. by left. }
  split; [done|]. exists l', (delete sn s2).
  assert (same_data s (delete sn s2)) as Hsd.
  { intros y. destruct (decide (y = sn)) as [->|Hy]; [by rewrite lookup_delete_eq, Hs|].
    rewrite lookup_delete_ne by done. rewrite Hd. unfold s1. by rewrite lookup_insert_ne. }
  destruct (chain_dom l s us found Hc Hin) as [n Hn]. pose proof (Hd found) as Hdf.
  unfold s1 in Hdf. rewrite lookup_insert_ne, Hn in Hdf by (intros <-; done).
  destruct (s2 !! found) as [n2|] eqn:Hn2; [|done]. cbn [fmap option_fmap option_map] in Hdf. injection Hdf as Hdf.
  rewrite (deref_Some found s2 n2) by done. cbn [mbind outcome_bind]. split_and!.
  - by rewrite Hdf, (bptr_lookup s found n).
  - eapply (dll_frame _ s2 _ _ [sn]); [|intros x Hxw Hy%list_elem_of_singleton; subst x|exact Hl'].
    + intros y Hy. rewrite lookup_delete_ne; [done|set_solver].
    + apply list_elem_of_filter in Hxw as [_ Hxw]. done.
  - done.
  - intros y Hy. destruct (decide (y = sn)) as [->|Hne]; [by rewrite lookup_delete_eq, Hs|].
    rewrite lookup_delete_ne by done. rewrite Ho by done. unfold s1. by rewrite lookup_insert_ne.
Qed.
End Search.
