(* ===== verification/SosalHeapLists.v ===== *)
(** * The heap's three lists and the nodes between them

    Every node a call works on is in the used, the free or the spare list or
    detached.  The tail of the free list may point at a node that a merge
    has left behind.  At the end: merging two free nodes that follow each
    other. *)
From S2P Require Import Prelude SosalList SosalListFacts SosalListProperties SosalHeap SosalHeapFacts.

Implicit Types (s : store) (bs : gmap Z block_t) (xs ys zs ds us fs ss : list Z) (l u f sp : list_t).

Definition free_tail f s xs fs : Prop :=
  tail f = final 0 fs \/ (tail f <> 0 /\ tail f ∉ xs /\ s !! tail f = Some (mkListNode 0 0 0)).

Record lists_ok u f sp s bs ds us fs ss : Prop := {
  lo_used : dll u s us;
  lo_free : chain f s fs;
  lo_tail : free_tail f s (ds ++ us ++ fs ++ ss) fs;
  lo_spare : dll sp s ss;
  lo_nodup : NoDup (ds ++ us ++ fs ++ ss);
  lo_block : forall x, x ∈ ds ++ us ++ fs ++ ss -> has_block s bs x;
  lo_inj : forall x y, x ∈ ds ++ us ++ fs ++ ss -> y ∈ ds ++ us ++ fs ++ ss -> bptr s x = bptr s y -> x = y }.

(** ** Small steps *)

Lemma free_tail_step f f' s s' xs xs' fs fs' zs : free_tail f s xs fs -> tail_follows f fs f' fs' ->
  same_off zs s s' -> zs ⊆ xs -> fs ⊆ xs -> xs' ⊆ xs -> free_tail f' s' xs' fs'.
Proof.
  intros [Ht|(Ht & Hx & Hn)] [Hf Hk] Ho Hz Hfx Hxs; [left; auto|].
  destruct Hk as [Hk|Hk]; [set_solver|by left|]. right. rewrite Hk. split_and!; [done|set_solver|].
  rewrite Ho by set_solver. done.
Qed.
Lemma free_tail_frame f s s' xs fs zs : free_tail f s xs fs -> same_off zs s s' -> zs ⊆ xs -> fs ⊆ xs -> free_tail f s' xs fs.
Proof. intros Hf Ho Hz Hx. eapply free_tail_step; [done| |done..|set_solver]. split; [done|by right]. Qed.

Lemma lists_has_frame s s' bs xs xs' : same_data s s' -> (forall x, x ∈ xs' -> x ∈ xs) ->
  (forall x, x ∈ xs -> has_block s bs x) ->
  (forall x y, x ∈ xs -> y ∈ xs -> bptr s x = bptr s y -> x = y) ->
  (forall x, x ∈ xs' -> has_block s' bs x) /\ (forall x y, x ∈ xs' -> y ∈ xs' -> bptr s' x = bptr s' y -> x = y).
Proof.
  intros Hd Hx Hb Hi. split.
  - intros x Hin. eapply has_block_same; [done|]. auto.
  - intros x y Hxx Hyy. rewrite !(bptr_same s s') by done. auto.
Qed.

Lemma dll_subset_dom l s bs xs zs : dll l s xs -> xs ⊆ zs -> (forall x, x ∈ zs -> has_block s bs x) ->
  forall x, x ∈ xs -> has_block s bs x.
Proof. auto. Qed.

Section Steps.
Context u f sp s bs ds us fs ss (Hok : lists_ok u f sp s bs ds us fs ss).

Lemma lo_mem x : x ∈ ds \/ x ∈ us \/ x ∈ fs \/ x ∈ ss -> has_block s bs x.
Proof. intros H. apply (lo_block _ _ _ _ _ _ _ _ _ Hok). set_solver. Qed.
Lemma lo_apart : (forall x, x ∈ ds -> x ∉ us /\ x ∉ fs /\ x ∉ ss) /\ (forall x, x ∈ us -> x ∉ fs /\ x ∉ ss) /\
  (forall x, x ∈ fs -> x ∉ ss) /\ NoDup ds /\ NoDup us /\ NoDup fs /\ NoDup ss.
Proof.
  pose proof (lo_nodup _ _ _ _ _ _ _ _ _ Hok) as (Hd & Hx & (Hu & Hy & (Hf & Hz & Hs)%NoDup_app)%NoDup_app)%NoDup_app.
  split_and!; try done; set_solver.
Qed.

(** A new block for a node. *)
Lemma set_block x b : x ∈ ds ++ us ++ fs ++ ss -> lists_ok u f sp s (<[bptr s x := b]> bs) ds us fs ss.
Proof.
  intros Hx. destruct Hok as [Hu Hf Ht Hs Hn Hb Hi]. split; try done.
  intros y Hy. destruct (Hb y Hy) as (H1 & H2 & H3). split_and!; [done|done|].
  destruct (decide (bptr s x = bptr s y)) as [<-|Hne]; [rewrite lookup_insert_eq; by eexists|by rewrite lookup_insert_ne].
Qed.
Lemma blk_set x y b : x ∈ ds ++ us ++ fs ++ ss -> y ∈ ds ++ us ++ fs ++ ss ->
  blk s (<[bptr s x := b]> bs) y = if decide (x = y) then b else blk s bs y.
Proof.
  intros Hx Hy. unfold blk. destruct (decide (x = y)) as [->|Hne]; [by rewrite lookup_insert_eq|].
  rewrite lookup_insert_ne; [done|]. intros He. by apply Hne, (lo_inj _ _ _ _ _ _ _ _ _ Hok).
Qed.

(** A spare node for the call. *)
Lemma take_spare q ss' : ss = q :: ss' -> exists sp' s', list_pop sp s = Done (q, sp', s') /\
  lists_ok u f sp' s' bs (q :: ds) us fs ss' /\ same_data s s'.
Proof.
  destruct lo_apart as (H1 & H2 & H3 & Hnd & Hnu & Hnf & Hns). intros ->. apply NoDup_cons in Hns as [Hq Hns].
  destruct Hok as [Hu Hf Ht Hs Hn Hb Hi]. destruct (pop_spec sp s q ss' Hs) as (sp' & s' & He & Hs' & Hd & Ho & _).
  exists sp', s'. split; [done|]. split; [|done].
  assert (forall x, x ∈ (q :: ds) ++ us ++ fs ++ ss' <-> x ∈ ds ++ us ++ fs ++ q :: ss') as Hx by set_solver.
  destruct (lists_has_frame s s' bs _ ((q :: ds) ++ us ++ fs ++ ss') Hd (fun x => proj1 (Hx x)) Hb Hi) as [Hb' Hi'].
  split; [|  | | |  |done|done].
  - eapply dll_frame; [exact Ho|clear -H1 H2 H3; set_solver|done].
  - eapply chain_frame; [exact Ho|clear -H1 H2 H3; set_solver|done].
  - eapply free_tail_step; [exact Ht| |exact Ho|set_solver..]. split; [done|by right].
  - done.
  - rewrite <- app_comm_cons. cut (NoDup (ds ++ us ++ fs ++ q :: ss')); [|done].
    rewrite !(app_assoc _ _ (q :: ss')), <- Permutation_middle. by rewrite <- !app_assoc.
Qed.

(** The detached node joins the free or the used list. *)
Lemma put_free p ds' : ds = p :: ds' -> exists f' s' fs', list_insert (block_compare_ptr bs) (fuel_of s) f p true s = Done (p, f', s') /\
  fs' ≡ₚ p :: fs /\ lists_ok u f' sp s' bs ds' us fs' ss /\ same_data s s' /\ same_off (p :: fs) s s'.
Proof.
  destruct lo_apart as (H1 & H2 & H3 & Hnd & Hnu & Hnf & Hns). intros ->. apply NoDup_cons in Hnd as [Hp Hnd].
  destruct Hok as [Hu Hf Ht Hs Hn Hb Hi]. destruct (heap_insert f s bs p fs Hf) as (f' & s' & fs' & He & _ & Hperm & Hc & Htf & Hd & Ho);
    [set_solver|intros x Hx; apply Hb; set_solver|].
  exists f', s', fs'. split; [done|]. split; [done|]. split; [|done].
  assert (forall x, x ∈ ds' ++ us ++ fs' ++ ss <-> x ∈ (p :: ds') ++ us ++ fs ++ ss) as Hx by (intros x; rewrite Hperm; set_solver).
  destruct (lists_has_frame s s' bs _ (ds' ++ us ++ fs' ++ ss) Hd (fun x => proj1 (Hx x)) Hb Hi) as [Hb' Hi'].
  split; [|done| | | |done|done].
  - eapply dll_frame; [exact Ho|clear -H1 H2 H3; set_solver|done].
  - eapply free_tail_step; [exact Ht|done|exact Ho|set_solver| |]; [set_solver|intros x; by rewrite Hx].
  - eapply dll_frame; [exact Ho|clear -H1 H2 H3; set_solver|done].
  - rewrite Hperm. cbn [app]. rewrite !app_assoc, <- Permutation_middle, <- !app_assoc. done.
Qed.
Lemma put_used p ds' : ds = p :: ds' -> exists u' s' us', list_insert (block_compare_ptr bs) (fuel_of s) u p true s = Done (p, u', s') /\
  us' ≡ₚ p :: us /\ lists_ok u' f sp s' bs ds' us' fs ss /\ same_data s s'.
Proof.
  destruct lo_apart as (H1 & H2 & H3 & Hnd & Hnu & Hnf & Hns). intros ->. apply NoDup_cons in Hnd as [Hp Hnd].
  destruct Hok as [Hu Hf Ht Hs Hn Hb Hi]. apply dll_chain in Hu as [Hu Hut].
  destruct (heap_insert u s bs p us Hu) as (u' & s' & us' & He & _ & Hperm & Hc & Htf & Hd & Ho);
    [set_solver|intros x Hx; apply Hb; set_solver|].
  exists u', s', us'. split; [done|]. split; [done|]. split; [|done].
  assert (forall x, x ∈ ds' ++ us' ++ fs ++ ss <-> x ∈ (p :: ds') ++ us ++ fs ++ ss) as Hx by (intros x; rewrite Hperm; set_solver).
  destruct (lists_has_frame s s' bs _ (ds' ++ us' ++ fs ++ ss) Hd (fun x => proj1 (Hx x)) Hb Hi) as [Hb' Hi'].
  split; [| | | | |done|done].
  - apply dll_chain. split; [done|by apply Htf].
  - eapply chain_frame; [exact Ho|clear -H1 H2 H3; set_solver|done].
  - eapply free_tail_step; [exact Ht| |exact Ho|set_solver|set_solver|intros x; by rewrite Hx]. split; [done|by right].
  - eapply dll_frame; [exact Ho|clear -H1 H2 H3; set_solver|done].
  - rewrite Hperm. cbn [app]. by rewrite <- Permutation_middle.
Qed.
End Steps.

(** ** Taking a free or a used node *)

(** When the tail is a left-over node, taking the last free node empties the
    list and gives the left-over node. *)
Lemma extract_stale f s ys p : chain f s (ys ++ [p]) -> ys <> [] -> tail f <> 0 ->
  s !! tail f = Some (mkListNode 0 0 0) -> list_extract f p s = Done (tail f, mkList 0 0, s).
Proof.
  intros Hc Hy Ht Hs. pose proof (chain_parts f s ys p [] Hc) as (_ & _ & [d Hd] & _ & _ & _ & H0y & H0).
  assert (p <> 0) as Hp by set_solver. unfold list_extract. rewrite (proj2 (Z.eqb_neq p 0)) by done.
  rewrite (proj2 (Z.eqb_neq (head f) 0)), (proj2 (Z.eqb_neq (tail f) 0)) by (done || (rewrite (proj1 Hc);
    destruct ys; [done|]; cbn [first app]; intros ->; set_solver)).
  cbn [orb]. rewrite (deref_Some p s _ Hp Hd). cbn [mbind outcome_bind next prev first].
  rewrite (proj2 (Z.eqb_neq (final 0 ys) 0)) by (intros He; by apply final_null in He). cbn [Z.eqb].
  assert (set_prev (tail f) 0 s = Done s /\ set_next (tail f) 0 s = Done s) as [H1 H2].
  { rewrite (set_prev_Some _ 0 s _ Ht Hs), (set_next_Some _ 0 s _ Ht Hs). cbn [next prev node_data]. by rewrite insert_id. }
  unfold list_trim. rewrite (proj2 (Z.eqb_neq (tail f) 0)) by done.
  rewrite (deref_Some _ s _ Ht Hs). cbn [mbind outcome_bind prev]. unfold c_assert.
  rewrite (proj2 (Z.eqb_neq (tail f) 0)) by done. cbn [negb mbind outcome_bind Z.eqb head tail orb].
  rewrite H1. cbn [mbind outcome_bind]. rewrite H2. cbn [mbind outcome_bind]. rewrite H2. cbn [mbind outcome_bind].
  rewrite H1. done.
Qed.

Section Take.
Context u f sp s bs ds us fs ss (Hok : lists_ok u f sp s bs ds us fs ss).

Lemma without_perm p xs : NoDup xs -> p ∈ xs -> xs ≡ₚ p :: without p xs.
Proof. intros Hn (ys & zs & ->)%list_elem_of_split. rewrite without_split by done. by rewrite Permutation_middle. Qed.

Lemma lose_free : lists_ok u (mkList 0 0) sp s bs ds us [] ss.
Proof.
  destruct Hok as [Hu Hf Ht Hs Hn Hb Hi]. assert (ds ++ us ++ [] ++ ss ⊆ ds ++ us ++ fs ++ ss) as Hsub by set_solver.
  split; [done| |by left|done| |auto|auto].
  - split_and!; [done..|by constructor|set_solver].
  - eapply sublist_NoDup; [exact Hn|]. apply sublist_app; [done|]. apply sublist_app; [done|]. by apply sublist_inserts_l.
Qed.

Lemma take_free p : p ∈ fs ->
  (exists f' s', list_extract f p s = Done (p, f', s') /\
     lists_ok u f' sp s' bs (p :: ds) us (without p fs) ss /\ same_data s s') \/
  (exists t, list_extract f p s = Done (t, mkList 0 0, s) /\ t <> 0 /\ s !! t = Some (mkListNode 0 0 0)).
Proof.
  intros (ys & zs & Hfs)%list_elem_of_split. destruct (lo_apart _ _ _ _ _ _ _ _ _ Hok) as (H1 & H2 & H3 & Hnd & Hnu & Hnf & Hns).
  destruct Hok as [Hu Hf Ht Hs Hn Hb Hi]. subst fs.
  assert (may_extract f ys p zs \/ (ys <> [] /\ zs = [] /\ tail f <> 0 /\ s !! tail f = Some (mkListNode 0 0 0))) as [Hm|(Hy & -> & Ht0 & Htn)].
  { destruct Ht as [Ht|(Ht & Hx & Hn0)]; [by left; left|].
    destruct ys as [|y ys]; [left; right; split_and!; [done|set_solver|by left]|].
    destruct zs as [|z zs]; [by right|left; right; split_and!; [done|set_solver|by right]]. }
  - left. destruct (extract_spec f s ys p zs Hf Hm) as (f' & s' & He & Hc & Htf & Hd & Ho & _).
    exists f', s'. rewrite without_split by done. split; [done|]. split; [|done].
    assert (forall x, x ∈ (p :: ds) ++ us ++ (ys ++ zs) ++ ss <-> x ∈ ds ++ us ++ (ys ++ p :: zs) ++ ss) as Hx by set_solver.
    destruct (lists_has_frame s s' bs _ ((p :: ds) ++ us ++ (ys ++ zs) ++ ss) Hd (fun x => proj1 (Hx x)) Hb Hi) as [Hb' Hi'].
    split; [|done| | | |done|done].
    + eapply dll_frame; [exact Ho|clear -H1 H2 H3; set_solver|done].
    + eapply free_tail_step; [exact Ht|done|exact Ho|set_solver|set_solver|intros x; by rewrite Hx].
    + eapply dll_frame; [exact Ho|clear -H1 H2 H3; set_solver|done].
    + cut (NoDup (ds ++ us ++ (ys ++ p :: zs) ++ ss)); [|done].
      rewrite <- (Permutation_middle ys zs p). cbn [app]. rewrite (app_assoc ds us), <- Permutation_middle, <- !app_assoc. done.
  - right. exists (tail f). split; [by apply (extract_stale f s ys p)|done].
Qed.

Lemma take_used p s' u' : p ∈ us -> dll u' s' (without p us) -> same_data s s' -> same_off us s s' ->
  lists_ok u' f sp s' bs (p :: ds) (without p us) fs ss.
Proof.
  intros Hp Hu' Hd Ho. destruct (lo_apart _ _ _ _ _ _ _ _ _ Hok) as (H1 & H2 & H3 & Hnd & Hnu & Hnf & Hns).
  pose proof (without_perm p us Hnu Hp) as Hperm.
  destruct Hok as [Hu Hf Ht Hs Hn Hb Hi].
  assert ((p :: ds) ++ without p us ++ fs ++ ss ≡ₚ ds ++ us ++ fs ++ ss) as Hall.
  { rewrite Hperm at 2. cbn [app]. by rewrite <- Permutation_middle. }
  assert (forall x, x ∈ (p :: ds) ++ without p us ++ fs ++ ss -> x ∈ ds ++ us ++ fs ++ ss) as Hx by (intros x; by rewrite Hall).
  destruct (lists_has_frame s s' bs _ _ Hd Hx Hb Hi) as [Hb' Hi'].
  split; [done| | | | |done|done].
  - eapply chain_frame; [exact Ho|clear -H1 H2 H3; set_solver|done].
  - eapply free_tail_step; [exact Ht| |exact Ho|set_solver|set_solver|intros x; by rewrite Hall]. split; [done|by right].
  - eapply dll_frame; [exact Ho|clear -H1 H2 H3; set_solver|done].
  - by rewrite Hall.
Qed.
End Take.


(** The links of [coalesce]: the first of the two nodes gets the block [d]
    and the successor of the second, which is cleared. *)
Lemma merge_links f s ys a b zs d : chain f s (ys ++ a :: b :: zs) ->
  let s1 := <[a := mkListNode (first zs 0) (final 0 ys) d]> s in
  exists s2 s3, (if first zs 0 =? 0 then Done s1 else set_prev (first zs 0) a s1) = Done s2 /\ node_clear b s2 = Done s3 /\
    chain f s3 (ys ++ a :: zs) /\ s3 !! b = Some (mkListNode 0 0 0) /\ bptr s3 a = d /\
    (forall x, x <> a -> x <> b -> bptr s3 x = bptr s x) /\ same_off (a :: b :: zs) s s3.
Proof.
  intros Hc s1. pose proof (chain_parts f s ys a (b :: zs) Hc) as (Hy & Hz & _ & Hny & Hnz & Hdis & H0y & H0z).
  destruct Hz as [[db Hb] Hz]. apply NoDup_cons in Hnz as [Ha [Hbz Hnz]%NoDup_cons].
  assert (a <> b /\ a ∉ zs /\ 0 ∉ zs /\ b <> 0) as (Hab & Haz & H0 & Hb0) by set_solver.
  destruct (start_prev zs b a s1 Hnz H0) as (s2 & H2 & Hz2 & Hd2 & Ho2).
  { eapply seg_frame; [|exact Hz]. intros x Hx. unfold s1. rewrite lookup_insert_ne; [done|set_solver]. }
  assert (s2 !! b = Some (mkListNode (first zs 0) a db)) as Hb2.
  { rewrite Ho2 by done. unfold s1. by rewrite lookup_insert_ne. }
  exists s2, (<[b := mkListNode 0 0 0]> s2). split_and!.
  - destruct (first zs 0 =? 0); cbn [negb] in H2; exact H2.
  - unfold node_clear. rewrite (proj2 (Z.eqb_neq b 0)) by done. by rewrite (deref_Some b s2 _ Hb0 Hb2).
  - destruct Hc as (Hh & _ & Hnd & Hnull). split_and!.
    + rewrite Hh, !first_app. done.
    + apply (seg_middle _ ys a zs d).
      * rewrite lookup_insert_ne, Ho2 by done. unfold s1. by rewrite lookup_insert_eq.
      * eapply seg_frame; [|exact Hy]. intros x Hx. rewrite lookup_insert_ne by set_solver. rewrite Ho2 by set_solver.
        unfold s1. rewrite lookup_insert_ne; [done|set_solver].
      * eapply seg_frame; [|exact Hz2]. intros x Hx. rewrite lookup_insert_ne; [done|set_solver].
    + apply (sublist_NoDup _ (ys ++ a :: b :: zs)); [done|]. apply sublist_app; [done|]. apply sublist_skip. by apply sublist_cons.
    + set_solver.
  - by rewrite lookup_insert_eq.
  - unfold bptr. rewrite lookup_insert_ne, Ho2 by done. unfold s1. by rewrite lookup_insert_eq.
  - intros x Hxa Hxb. unfold bptr. rewrite lookup_insert_ne by done. specialize (Hd2 x). unfold s1 in Hd2.
    rewrite lookup_insert_ne in Hd2 by done. destruct (s2 !! x), (s !! x); simplify_eq/=; congruence.
  - intros x Hx. rewrite lookup_insert_ne by set_solver. rewrite Ho2 by set_solver. unfold s1.
    rewrite lookup_insert_ne; [done|set_solver].
Qed.

Section Merge.
Context u f sp s bs us ys a b zs ss (Hok : lists_ok u f sp s bs [] us (ys ++ a :: b :: zs) ss).

(** [d] is the block that is kept and [c] the one that is cleared. *)
Lemma merge_ok d c mb : (d = bptr s a /\ c = bptr s b) \/ (d = bptr s b /\ c = bptr s a) ->
  let s1 := <[a := mkListNode (first zs 0) (final 0 ys) d]> s in
  let bs1 := <[d := mb]> bs in
  exists s2 s3 bs', (if first zs 0 =? 0 then Done s1 else set_prev (first zs 0) a s1) = Done s2 /\ node_clear b s2 = Done s3 /\
    block_clear c bs1 = Done bs' /\ lists_ok u f sp s3 bs' [] us (ys ++ a :: zs) ss /\
    blk s3 bs' a = mb /\ (forall x, x ∈ us ++ (ys ++ zs) ++ ss -> blk s3 bs' x = blk s bs x) /\
    same_off (a :: b :: zs) s s3 /\ (forall x, bs !! x = None -> bs' !! x = None).
Proof.
  intros Hdc s1 bs1. destruct (lo_apart _ _ _ _ _ _ _ _ _ Hok) as (_ & H2 & H3 & _ & Hnu & Hnf & Hns).
  destruct Hok as [Hu Hf Ht Hs Hn Hb Hi]. cbn [app] in *.
  assert (a ∉ ys /\ b ∉ ys /\ a <> b /\ a ∉ zs /\ b ∉ zs) as (Hay & Hby & Hab & Haz & Hbz).
  { apply NoDup_app in Hnf as (_ & Hx & [? [? _]%NoDup_cons]%NoDup_cons). set_solver. }
  destruct (merge_links f s ys a b zs d Hf) as (s2 & s3 & He2 & He3 & Hc3 & Hb3 & Hpa & Hpx & Ho3).
  destruct (Hb a) as (Ha0 & Hpa0 & Hsa), (Hb b) as (Hb0 & Hpb0 & Hsb); [clear; set_solver..|].
  assert (bptr s a <> bptr s b) as Hne by (intros He; apply Hab, Hi; [clear; set_solver..|done]).
  assert (c <> 0 /\ d <> 0 /\ is_Some (bs !! c) /\ c <> d) as (Hc0 & Hd0 & Hcs & Hcd)
    by (destruct Hdc as [[-> ->]|[-> ->]]; split_and!; done || by intros ?).
  assert (block_clear c bs1 = Done (<[c := mkBlock 0 0]> bs1)) as Hcl.
  { unfold block_clear, block. rewrite !(proj2 (Z.eqb_neq c 0)) by done. unfold bs1.
    rewrite lookup_insert_ne by done. destruct Hcs as [? ->]. done. }
  assert (forall x, x ∈ us ++ (ys ++ a :: zs) ++ ss -> x ∈ us ++ (ys ++ a :: b :: zs) ++ ss) as Hsub by (clear; set_solver).
  assert (a ∈ us ++ (ys ++ a :: b :: zs) ++ ss /\ b ∈ us ++ (ys ++ a :: b :: zs) ++ ss) as [Hain Hbin] by (clear; set_solver).
  assert (b ∉ us ++ (ys ++ a :: zs) ++ ss) as Hbni by (clear -H2 H3 Hby Hab Hbz; set_solver).
  assert (forall x, x ∈ us ++ (ys ++ a :: zs) ++ ss -> x <> a -> bptr s3 x = bptr s x /\ bptr s x <> c /\ bptr s x <> d) as Hx.
  { intros x Hx Hxa. assert (x <> b /\ x ∈ us ++ (ys ++ a :: b :: zs) ++ ss) as [Hxb Hin].
    { split; [by intros ->|by apply Hsub]. }
    split; [by apply Hpx|]. assert (bptr s x <> bptr s a /\ bptr s x <> bptr s b) as [? ?]; [|by destruct Hdc as [[-> ->]|[-> ->]]].
    split; intros He; [apply Hxa|apply Hxb]; by apply Hi. }
  exists s2, s3, (<[c := mkBlock 0 0]> bs1). split_and!; [exact He2|exact He3|exact Hcl| | | |exact Ho3|].
  - split.
    + eapply dll_frame; [exact Ho3|clear -H2 H3; set_solver|done].
    + done.
    + destruct Ht as [Ht|(Ht & Htx & Htn)].
      * destruct zs as [|z zs']; [|left; rewrite Ht, !final_split, !final_cons; done].
        rewrite final_split in Ht. cbn in Ht. right. rewrite Ht. by split_and!.
      * right. split_and!; [done|by intros Hin%Hsub|]. rewrite Ho3; [done|]. clear -Htx. set_solver.
    + eapply dll_frame; [exact Ho3|clear -H2 H3; set_solver|done].
    + cbn [app]. eapply (sublist_NoDup _ (us ++ (ys ++ a :: b :: zs) ++ ss)); [done|].
      apply sublist_app; [done|]. apply sublist_app; [|done]. apply sublist_app; [done|]. apply sublist_skip. by apply sublist_cons.
    + cbn [app]. intros x Hin. destruct (decide (x = a)) as [->|Hxa].
      * split_and!; [done|by rewrite Hpa|]. rewrite Hpa, lookup_insert_ne by done. unfold bs1. rewrite lookup_insert_eq. by eexists.
      * destruct (Hx x Hin Hxa) as (Hpe & Hpc & Hpd). destruct (Hb x (Hsub x Hin)) as (? & ? & ?).
        split_and!; [done|by rewrite Hpe|]. rewrite Hpe, lookup_insert_ne by done. unfold bs1. by rewrite lookup_insert_ne.
    + cbn [app]. intros x y Hxin Hyin He. destruct (decide (x = a)) as [->|Hxa], (decide (y = a)) as [->|Hya]; [done| | |].
      * destruct (Hx y Hyin Hya) as (Hpe & _ & Hpd). rewrite Hpa, Hpe in He. by destruct Hpd.
      * destruct (Hx x Hxin Hxa) as (Hpe & _ & Hpd). rewrite Hpa, Hpe in He. by destruct Hpd.
      * destruct (Hx x Hxin Hxa) as (Hpe & _), (Hx y Hyin Hya) as (Hpe' & _). rewrite Hpe, Hpe' in He.
        apply Hi; [by apply Hsub..|done].
  - unfold blk. rewrite Hpa, lookup_insert_ne by done. unfold bs1. by rewrite lookup_insert_eq.
  - intros x Hin. destruct (Hx x) as (Hpe & Hpc & Hpd); [clear -Hin; set_solver|intros ->; clear -Hin H2 H3 Hay Haz; set_solver|].
    unfold blk. rewrite Hpe, lookup_insert_ne by done. unfold bs1. by rewrite lookup_insert_ne.
  - assert (is_Some (bs !! d)) as [bd Hbd] by (destruct Hdc as [[-> _]|[-> _]]; done). destruct Hcs as [bc Hbc].
    intros x Hxn. rewrite lookup_insert_ne by (intros <-; by rewrite Hbc in Hxn). unfold bs1.
    rewrite lookup_insert_ne; [done|]. intros <-. by rewrite Hbd in Hxn.
Qed.
End Merge.
