(* ===== verification/SosalHeapGeometry.v ===== *)
(** * Where the blocks of a heap are *)
From S2P Require Import Prelude SosalList SosalListFacts SosalListProperties SosalHeap SosalHeapFacts SosalHeapLists.

Implicit Types (s : store) (bs : gmap Z block_t) (xs ys zs us fs ss : list Z) (l u f sp : list_t).

Definition room (h : heap_t) : Z := maxBlocks h * align h.

(** A block of whole units inside the data region. *)
Record inside (h : heap_t) (b : block_t) : Prop := {
  in_low : data_at h <= data b;
  in_high : data b + size b <= data_at h + room h;
  in_size : 0 < size b;
  in_data : (align h | data b);
  in_units : (align h | size b) }.
Definition apart (b c : block_t) : Prop := data b + size b <= data c \/ data c + size c <= data b.
Definition geom (h : heap_t) (g : Z -> block_t) xs : Prop :=
  (forall x, x ∈ xs -> inside h (g x)) /\ (forall x y, x ∈ xs -> y ∈ xs -> x <> y -> apart (g x) (g y)).

Lemma areas_apart_sym b c : apart b c -> apart c b.
Proof. unfold apart. tauto. Qed.
Lemma geom_sub h g g' xs ys : geom h g xs -> (forall x, x ∈ ys -> x ∈ xs) -> (forall x, x ∈ ys -> g' x = g x) -> geom h g' ys.
Proof. intros [Hi Ha] Hs He. split; [intros x Hx|intros x y Hx Hy Hn]; rewrite !He by done; auto. Qed.
Lemma geom_cons h g x xs : inside h (g x) -> (forall y, y ∈ xs -> y <> x -> apart (g x) (g y)) -> geom h g xs -> geom h g (x :: xs).
Proof.
  intros Hx Hxa [Hi Ha]. split.
  - intros y [->|Hy]%elem_of_cons; auto.
  - intros y z [->|Hy]%elem_of_cons [->|Hz]%elem_of_cons Hn; [done|by apply Hxa|apply areas_apart_sym, Hxa; congruence|by apply Ha].
Qed.

(** A block cut in two, and two blocks made one. *)
Lemma geom_split h g g' p q n xs : geom h g (p :: xs) -> p ∉ xs -> q ∉ p :: xs ->
  0 < n < size (g p) -> (align h | n) -> g' p = mkBlock n (data (g p)) ->
  g' q = mkBlock (size (g p) - n) (data (g p) + n) -> (forall x, x ∈ xs -> g' x = g x) -> geom h g' (p :: q :: xs).
Proof.
  intros [Hi Ha] Hp Hq Hn Hal Hgp Hgq Hgx. destruct (Hi p) as [H1 H2 H3 H4 H5]; [by left|].
  assert (forall y, y ∈ xs -> apart (g p) (g' y)) as Hpx by (intros y Hy; rewrite Hgx by done; apply Ha; set_solver).
  apply geom_cons; [|intros y [->|Hy]%elem_of_cons _|apply geom_cons; [|intros y Hy _|eapply geom_sub; [done| |done]; set_solver]].
  - rewrite Hgp. split; cbn [data size]; [lia|lia|lia|done|done].
  - rewrite Hgp, Hgq. left. cbn [data size]. lia.
  - specialize (Hpx y Hy). rewrite Hgp. unfold apart in *. cbn [data size]. lia.
  - rewrite Hgq. split; cbn [data size]; [lia|lia|lia|by apply Z.divide_add_r|by apply Z.divide_sub_r].
  - specialize (Hpx y Hy). rewrite Hgq. unfold apart in *. cbn [data size]. lia.
Qed.
Lemma geom_merge h g g' a b xs : geom h g (a :: b :: xs) -> a <> b -> a ∉ xs -> b ∉ xs ->
  data (g a) + size (g a) = data (g b) -> g' a = mkBlock (size (g a) + size (g b)) (data (g a)) ->
  (forall x, x ∈ xs -> g' x = g x) -> geom h g' (a :: xs).
Proof.
  intros [Hi Ha] Hab Hax Hbx Hadj Hga Hgx. destruct (Hi a) as [H1 H2 H3 H4 H5]; [set_solver|].
  destruct (Hi b) as [H6 H7 H8 H9 H10]; [set_solver|].
  apply geom_cons; [|intros y Hy _|eapply geom_sub; [done| |done]; set_solver].
  - rewrite Hga. split; cbn [data size]; [lia|lia|lia|done|by apply Z.divide_add_r].
  - assert (apart (g a) (g y) /\ apart (g b) (g y)) as [Hy1 Hy2] by (split; apply Ha; set_solver).
    destruct (Hi y) as [_ _ Hsy _ _]; [set_solver|]. rewrite Hga, Hgx by done. unfold apart in *. cbn [data size]. lia.
Qed.

(** ** Merging on release *)

Section Coalesce.
Context (h : heap_t) u f sp (m : heap_mem) us fs ss.
Context (Hok : lists_ok u f sp (nodes m) (blocks m) [] us fs ss) (Hg : geom h (blk (nodes m) (blocks m)) (us ++ fs)).
Context (Hroom : room h < 2 ^ 64).

Lemma sizes_fit x y : x ∈ us ++ fs -> y ∈ us ++ fs -> x <> y ->
  0 <= size (blk (nodes m) (blocks m) x) + size (blk (nodes m) (blocks m) y) < 2 ^ 64.
Proof.
  intros Hx Hy Hn. destruct Hg as [Hi Ha]. destruct (Hi x Hx), (Hi y Hy), (Ha x y Hx Hy Hn); lia.
Qed.

(** What a merge of [a] and the next free node [b] leaves. *)
Definition merged (fs' : list Z) (m' : heap_mem) : Prop :=
  lists_ok u f sp (nodes m') (blocks m') [] us fs' ss /\ geom h (blk (nodes m') (blocks m')) (us ++ fs') /\
  (forall x, x ∈ us -> blk (nodes m') (blocks m') x = blk (nodes m) (blocks m) x) /\ bytes m' = bytes m /\
  (forall x, nodes m !! x = None -> x ∉ us ++ fs ++ ss -> nodes m' !! x = None) /\
  (forall x, blocks m !! x = None -> blocks m' !! x = None).

Lemma node_part x : x ∈ us ++ fs ++ ss -> exists n, deref x (nodes m) = Done n /\ node_data n = bptr (nodes m) x /\
  nodes m !! x = Some n /\ block (bptr (nodes m) x) (blocks m) = Done (blk (nodes m) (blocks m) x) /\ bptr (nodes m) x <> 0.
Proof.
  intros Hx. pose proof (lo_block _ _ _ _ _ _ _ _ _ Hok x Hx) as Hb.
  destruct (has_block_node _ _ _ Hb) as (n & Hn & Hd & Hp & Hk). exists n. rewrite Hp in Hk. split_and!; try done. apply Hb.
Qed.

Lemma adjacent_spec x y : x ∈ us ++ fs ++ ss -> y ∈ us ++ fs ++ ss ->
  block_is_adjacent (bptr (nodes m) x) (bptr (nodes m) y) (blocks m) =
  Done (data (blk (nodes m) (blocks m) x) + size (blk (nodes m) (blocks m) x) =? data (blk (nodes m) (blocks m) y)).
Proof.
  intros Hx Hy. destruct (node_part x Hx) as (_ & _ & _ & _ & Hbx & Hpx), (node_part y Hy) as (_ & _ & _ & _ & Hby & Hpy).
  unfold block_is_adjacent. rewrite (proj2 (Z.eqb_neq _ _) Hpx), (proj2 (Z.eqb_neq _ _) Hpy). cbn [orb].
  rewrite Hbx. cbn [mbind outcome_bind]. by rewrite Hby.
Qed.

(** The result of [merge_ok] on the geometry. *)
Lemma merged_intro ys a b zs mb s3 bs' : fs = ys ++ a :: b :: zs ->
  data (blk (nodes m) (blocks m) a) + size (blk (nodes m) (blocks m) a) = data (blk (nodes m) (blocks m) b) ->
  mb = mkBlock (size (blk (nodes m) (blocks m) a) + size (blk (nodes m) (blocks m) b)) (data (blk (nodes m) (blocks m) a)) ->
  lists_ok u f sp s3 bs' [] us (ys ++ a :: zs) ss -> blk s3 bs' a = mb ->
  (forall x, x ∈ us ++ (ys ++ zs) ++ ss -> blk s3 bs' x = blk (nodes m) (blocks m) x) ->
  same_off (a :: b :: zs) (nodes m) s3 -> (forall x, blocks m !! x = None -> bs' !! x = None) ->
  merged (ys ++ a :: zs) (mkMem s3 bs' (bytes m)).
Proof.
  intros Hfs Hadj Hmb Hok' Ha Hx Ho Hn. pose proof (lo_nodup _ _ _ _ _ _ _ _ _ Hok) as Hnd. cbn [app] in Hnd.
  assert (us ++ fs ≡ₚ a :: b :: us ++ ys ++ zs) as Hp.
  { rewrite Hfs, <- !Permutation_middle. done. }
  assert (us ++ ys ++ a :: zs ≡ₚ a :: us ++ ys ++ zs) as Hp'.
  { rewrite <- !Permutation_middle. done. }
  rewrite app_assoc, Hp in Hnd. apply NoDup_app in Hnd as ([Hna [Hnb _]%NoDup_cons]%NoDup_cons & _ & _).
  unfold merged. cbn [nodes blocks bytes]. split_and!; [done| | |done| |done].
  - eapply geom_sub with (g := blk s3 bs') (xs := a :: us ++ ys ++ zs); [|intros x; by rewrite Hp'|done].
    eapply (geom_merge h (blk (nodes m) (blocks m)) _ a b); [eapply geom_sub; [exact Hg| |done]; intros x; by rewrite Hp|
      set_solver|set_solver|set_solver|done|by rewrite Ha, Hmb|].
    intros x Hin. apply Hx. clear -Hin. set_solver.
  - intros x Hin. apply Hx. clear -Hin. set_solver.
  - intros x Hxn Hxi. rewrite Ho; [done|]. clear -Hxi Hfs. set_solver.
Qed.

(** Free neighbours in the store. *)
Lemma free_links ys x zs : fs = ys ++ x :: zs ->
  nodes m !! x = Some (mkListNode (first zs 0) (final 0 ys) (bptr (nodes m) x)).
Proof.
  intros Hfs. pose proof (lo_free _ _ _ _ _ _ _ _ _ Hok) as Hc. rewrite Hfs in Hc.
  destruct (chain_parts f (nodes m) ys x zs Hc) as (_ & _ & [d Hd] & _). unfold bptr. by rewrite Hd.
Qed.
Lemma in_free x : x ∈ fs -> x ∈ us ++ fs ++ ss /\ x ∈ us ++ fs /\ x <> 0.
Proof.
  intros Hx. split_and!; [set_solver|set_solver|]. apply (lo_block _ _ _ _ _ _ _ _ _ Hok). set_solver.
Qed.

Section Pair.
Context (ys : list Z) (a b : Z) (zs : list Z) (Hfs : fs = ys ++ a :: b :: zs).
Context (Hadj : data (blk (nodes m) (blocks m) a) + size (blk (nodes m) (blocks m) a) = data (blk (nodes m) (blocks m) b)).

Lemma pair_facts : a ∈ fs /\ b ∈ fs /\ a <> b /\
  nodes m !! a = Some (mkListNode b (final 0 ys) (bptr (nodes m) a)) /\
  nodes m !! b = Some (mkListNode (first zs 0) a (bptr (nodes m) b)).
Proof.
  split_and!; [rewrite Hfs; clear; set_solver|rewrite Hfs; clear; set_solver| |by apply (free_links ys a (b :: zs))|].
  - pose proof (lo_apart _ _ _ _ _ _ _ _ _ Hok) as (_ & _ & _ & _ & _ & Hn & _). rewrite Hfs in Hn.
    apply NoDup_app in Hn as (_ & _ & [Hx _]%NoDup_cons). intros ->. apply Hx. by left.
  - rewrite (free_links (ys ++ [a]) b zs) by (by rewrite <- app_assoc). by rewrite final_snoc.
Qed.

Lemma coalesce_before : exists m', coalesce b (bptr (nodes m) b) m = Done m' /\ merged (ys ++ a :: zs) m'.
Proof.
  destruct pair_facts as (Ha & Hb & Hab & Hna & Hnb). destruct (in_free a Ha) as (Ha3 & Ha2 & Ha0), (in_free b Hb) as (Hb3 & Hb2 & Hb0).
  destruct (node_part a Ha3) as (_ & _ & _ & _ & Hka & Hpa), (node_part b Hb3) as (_ & _ & _ & _ & Hkb & Hpb).
  pose proof (sizes_fit b a Hb2 Ha2 ltac:(done)) as Hsz. pose proof Hok as Hok'. rewrite Hfs in Hok'.
  destruct (merge_ok _ _ _ _ _ _ _ _ _ _ _ Hok' (bptr (nodes m) b) (bptr (nodes m) a)
    (mkBlock (u64 (size (blk (nodes m) (blocks m) b) + size (blk (nodes m) (blocks m) a))) (data (blk (nodes m) (blocks m) a))))
    as (s2 & s3 & bs' & H2 & H3 & Hc & Hok3 & Hba & Hbx & Ho & Hbn); [by right|].
  exists (mkMem s3 bs' (bytes m)). split.
  - unfold coalesce. rewrite (deref_Some b _ _ Hb0 Hnb). cbn [mbind outcome_bind next prev].
    rewrite (proj2 (Z.eqb_neq a 0)) by done. rewrite (deref_Some a _ _ Ha0 Hna). cbn [mbind outcome_bind node_data].
    assert (exists q, (if first zs 0 =? 0 then Done 0 else p ← deref (first zs 0) (nodes m); Done (node_data p)) = Done q) as [q Hq].
    { destruct zs as [|z zs']; [by eexists|]. cbn [first]. destruct (in_free z) as (Hz3 & _ & Hz0); [rewrite Hfs; clear; set_solver|].
      destruct (node_part z Hz3) as (nz & Hdz & _). rewrite (proj2 (Z.eqb_neq z 0)), Hdz by done. by eexists. }
    rewrite Hq. cbn [mbind outcome_bind]. rewrite (adjacent_spec a b Ha3 Hb3), (proj2 (Z.eqb_eq _ _) Hadj).
    cbn [mbind outcome_bind]. rewrite Hka, Hkb. cbn [mbind outcome_bind]. rewrite Hc. cbn [mbind outcome_bind prev].
    rewrite H2. cbn [mbind outcome_bind]. rewrite H3. done.
  - apply (merged_intro ys a b zs (blk s3 bs' a)); try done. rewrite Hba. unfold u64. rewrite Z.mod_small by done. f_equal. lia.
Qed.

Lemma coalesce_after : (forall c, last ys = Some c ->
    data (blk (nodes m) (blocks m) c) + size (blk (nodes m) (blocks m) c) <> data (blk (nodes m) (blocks m) a)) ->
  exists m', coalesce a (bptr (nodes m) a) m = Done m' /\ merged (ys ++ a :: zs) m'.
Proof.
  intros Hnot. destruct pair_facts as (Ha & Hb & Hab & Hna & Hnb). destruct (in_free a Ha) as (Ha3 & Ha2 & Ha0), (in_free b Hb) as (Hb3 & Hb2 & Hb0).
  destruct (node_part a Ha3) as (_ & _ & _ & _ & Hka & Hpa), (node_part b Hb3) as (_ & _ & _ & _ & Hkb & Hpb).
  pose proof (sizes_fit a b Ha2 Hb2 Hab) as Hsz. pose proof Hok as Hok'. rewrite Hfs in Hok'.
  destruct (merge_ok _ _ _ _ _ _ _ _ _ _ _ Hok' (bptr (nodes m) a) (bptr (nodes m) b)
    (mkBlock (u64 (size (blk (nodes m) (blocks m) a) + size (blk (nodes m) (blocks m) b))) (data (blk (nodes m) (blocks m) a))))
    as (s2 & s3 & bs' & H2 & H3 & Hc & Hok3 & Hba & Hbx & Ho & Hbn); [by left|].
  exists (mkMem s3 bs' (bytes m)). split.
  - unfold coalesce. rewrite (deref_Some a _ _ Ha0 Hna). cbn [mbind outcome_bind next prev].
    rewrite (proj2 (Z.eqb_neq b 0)) by done. rewrite (deref_Some b _ _ Hb0 Hnb). cbn [mbind outcome_bind node_data].
    assert (exists q, (if final 0 ys =? 0 then Done 0 else p ← deref (final 0 ys) (nodes m); Done (node_data p)) = Done q /\
      block_is_adjacent q (bptr (nodes m) a) (blocks m) = Done false) as (q & Hq & Hqa).
    { destruct (last ys) as [c|] eqn:Hl; [|apply last_None in Hl as ->; by exists 0].
      pose proof Hl as [ys' Hys]%last_Some. rewrite Hys, final_snoc. destruct (in_free c) as (Hc3 & _ & Hc0); [rewrite Hfs, Hys; clear; set_solver|].
      destruct (node_part c Hc3) as (nc & Hdc & Hpc & _). rewrite (proj2 (Z.eqb_neq c 0)), Hdc by done. cbn [mbind outcome_bind].
      exists (node_data nc). split; [done|]. rewrite Hpc, (adjacent_spec c a Hc3 Ha3). f_equal. apply Z.eqb_neq. by apply Hnot. }
    rewrite Hq. cbn [mbind outcome_bind]. rewrite Hqa. cbn [mbind outcome_bind].
    rewrite (adjacent_spec a b Ha3 Hb3), (proj2 (Z.eqb_eq _ _) Hadj).
    cbn [mbind outcome_bind]. rewrite Hka, Hkb. cbn [mbind outcome_bind]. rewrite Hc. cbn [mbind outcome_bind prev].
    cbn [next]. rewrite (set_next_Some a _ _ _ Ha0 Hna). cbn [mbind outcome_bind prev node_data].
    rewrite H2. cbn [mbind outcome_bind]. rewrite H3. done.
  - apply (merged_intro ys a b zs (blk s3 bs' a)); try done. rewrite Hba. unfold u64. by rewrite Z.mod_small.
Qed.
End Pair.

(** No neighbour to merge with. *)
Lemma coalesce_alone ys x zs : fs = ys ++ x :: zs ->
  (forall c, last ys = Some c ->
    data (blk (nodes m) (blocks m) c) + size (blk (nodes m) (blocks m) c) <> data (blk (nodes m) (blocks m) x)) ->
  (forall z, hd_error zs = Some z ->
    data (blk (nodes m) (blocks m) x) + size (blk (nodes m) (blocks m) x) <> data (blk (nodes m) (blocks m) z)) ->
  coalesce x (bptr (nodes m) x) m = Done m.
Proof.
  intros Hfs Hb Ha. destruct (in_free x) as (Hx3 & _ & Hx0); [rewrite Hfs; clear; set_solver|].
  unfold coalesce. rewrite (deref_Some x _ _ Hx0 (free_links ys x zs Hfs)). cbn [mbind outcome_bind next prev].
  assert (exists q, (if final 0 ys =? 0 then Done 0 else p ← deref (final 0 ys) (nodes m); Done (node_data p)) = Done q /\
    block_is_adjacent q (bptr (nodes m) x) (blocks m) = Done false) as (q & -> & Hq).
  { destruct (last ys) as [c|] eqn:Hl; [|apply last_None in Hl as ->; by exists 0].
    pose proof Hl as [ys' Hys]%last_Some. rewrite Hys, final_snoc.
    destruct (in_free c) as (Hc3 & _ & Hc0); [rewrite Hfs, Hys; clear; set_solver|].
    destruct (node_part c Hc3) as (nc & Hdc & Hpc & _). rewrite (proj2 (Z.eqb_neq c 0)), Hdc by done. cbn [mbind outcome_bind].
    exists (node_data nc). split; [done|]. rewrite Hpc, (adjacent_spec c x Hc3 Hx3). f_equal. apply Z.eqb_neq. by apply Hb. }
  cbn [mbind outcome_bind].
  assert (exists r, (if first zs 0 =? 0 then Done 0 else p ← deref (first zs 0) (nodes m); Done (node_data p)) = Done r /\
    block_is_adjacent (bptr (nodes m) x) r (blocks m) = Done false) as (r & -> & Hr).
  { destruct zs as [|z zs']; [exists 0; split; [done|]; unfold block_is_adjacent; by rewrite orb_true_r|]. cbn [first].
    destruct (in_free z) as (Hz3 & _ & Hz0); [rewrite Hfs; clear; set_solver|].
    destruct (node_part z Hz3) as (nz & Hdz & Hpz & _). rewrite (proj2 (Z.eqb_neq z 0)), Hdz by done. cbn [mbind outcome_bind].
    exists (node_data nz). split; [done|]. rewrite Hpz, (adjacent_spec x z Hx3 Hz3). f_equal. apply Z.eqb_neq. by apply Ha. }
  cbn [mbind outcome_bind]. rewrite Hq. cbn [mbind outcome_bind]. by rewrite Hr.
Qed.

Lemma coalesce_spec x : x ∈ fs -> exists m' fs', coalesce x (bptr (nodes m) x) m = Done m' /\ merged fs' m'.
Proof.
  intros (ys & zs & Hfs)%list_elem_of_split.
  set (adj c y := data (blk (nodes m) (blocks m) c) + size (blk (nodes m) (blocks m) c) = data (blk (nodes m) (blocks m) y)).
  assert ((exists c, last ys = Some c /\ adj c x) \/ (forall c, last ys = Some c -> ~ adj c x)) as [Hc|Hb].
  { destruct (last ys) as [c|]; [|by right]. destruct (Z.eq_dec (data (blk (nodes m) (blocks m) c) + size (blk (nodes m) (blocks m) c))
      (data (blk (nodes m) (blocks m) x))) as [He|He]; [left; by exists c|right; by intros ? [= <-]]. }
  - destruct Hc as (c & [ys' ->]%last_Some & Hadj).
    destruct (coalesce_before ys' c x zs) as (m' & Hm & Hg'); [by rewrite Hfs, <- app_assoc|done|by eexists _, _].
  - destruct zs as [|z zs'].
    { exists m, fs. split; [by apply (coalesce_alone ys x [])|]. by split_and!. }
    destruct (decide (data (blk (nodes m) (blocks m) x) + size (blk (nodes m) (blocks m) x) = data (blk (nodes m) (blocks m) z))) as [Hadj|Hadj].
    + destruct (coalesce_after ys x z zs' Hfs Hadj Hb) as (m' & Hm & Hg'). by eexists _, _.
    + exists m, fs. split; [|by split_and!]. apply (coalesce_alone ys x (z :: zs')); [done|done|]. by intros ? [= <-].
Qed.
End Coalesce.
