(* ===== verification/SosalHeapCalls.v ===== *)
(** * Allocation and release keep the heap well formed *)
From S2P Require Import Prelude SosalList SosalListFacts SosalListProperties SosalHeap SosalHeapFacts.
From S2P Require Import SosalHeapLists SosalHeapGeometry.

Implicit Types (s : store) (bs : gmap Z block_t) (xs ys zs us fs ss : list Z) (h : heap_t) (m : heap_mem).

(** ** Sizes *)

Lemma block_size_ok al n : 0 < al -> 0 < n <= 2 ^ 64 - al ->
  (al | block_size al n) /\ n <= block_size al n < n + al.
Proof.
  intros Ha Hn. unfold block_size. pose proof (Z.mod_pos_bound n al Ha) as Hm.
  pose proof (Z.div_mod n al ltac:(lia)) as Hd. destruct (Z.eqb_spec (n mod al) 0) as [He|He]; cbn [negb].
  - split; [by apply Z.mod_divide; [lia|]|lia].
  - unfold u64. rewrite Z.mod_small by lia. split; [|lia]. exists (n / al + 1). lia.
Qed.

Lemma fit_score_fits n sz : 0 < fit_score n sz -> n <= sz.
Proof. unfold fit_score, MIN_SCORE. destruct (Z.eqb_spec sz n), (Z.ltb_spec n sz); lia. Qed.

(** ** The state of a heap *)

Section Heap.
Context (sn sb : Z) (Hsn : sn <> 0) (Hsb : sb <> 0).

Abbreviation g m := (blk (nodes m) (blocks m)).

Record heap_base h m : Prop := {
  hb_raw : raw h <> 0;
  hb_align : 0 < align h;
  hb_room : room h < 2 ^ 64;
  hb_data : 0 < data_at h;
  hb_node : nodes m !! sn = None;
  hb_block : blocks m !! sb = None }.
Definition sizes m us : Z := Zsum (map (fun x => size (g m x)) us).

(** [ds] are the nodes of blocks that a call has in hand. *)
Record heap_mid h m ds us fs ss : Prop := {
  hm_base : heap_base h m;
  hm_lists : lists_ok (used h) (free h) (spare h) (nodes m) (blocks m) ds us fs ss;
  hm_geom : geom h (g m) (ds ++ us ++ fs);
  hm_used : bytesUsed h = sizes m us;
  hm_sum : bytesUsed h + bytesFree h = room h }.
Record heap_ok h m us fs ss : Prop := {
  ho_mid : heap_mid h m [] us fs ss;
  ho_free : 0 <= bytesFree h }.

Definition live m us : list (Z * Z) := map (fun x => (data (g m x), size (g m x))) us.

Lemma live_same m m' us : (forall x, x ∈ us -> g m' x = g m x) -> live m' us = live m us.
Proof. intros He. apply map_ext_in. intros x Hx. rewrite He; [done|]. by apply list_elem_of_In. Qed.
Lemma sizes_same m m' us : (forall x, x ∈ us -> g m' x = g m x) -> sizes m' us = sizes m us.
Proof. intros He. unfold sizes. f_equal. apply map_ext_in. intros x Hx. rewrite He; [done|]. by apply list_elem_of_In. Qed.
Lemma sizes_perm m us us' : us ≡ₚ us' -> sizes m us = sizes m us'.
Proof. intros Hp. unfold sizes. induction Hp; simpl in *; lia. Qed.
Lemma live_perm m us us' : us ≡ₚ us' -> live m us ≡ₚ live m us'.
Proof. apply Permutation_map. Qed.
Lemma geom_heap h h' f xs : data_at h' = data_at h -> maxBlocks h' = maxBlocks h -> align h' = align h -> geom h f xs -> geom h' f xs.
Proof.
  intros H1 H2 H3 [Hi Ha]. split; [|done]. intros x Hx. destruct (Hi x Hx). unfold room in *.
  split; unfold room; by rewrite ?H1, ?H2, ?H3.
Qed.
Lemma base_heap h h' m : raw h' = raw h -> align h' = align h -> maxBlocks h' = maxBlocks h -> data_at h' = data_at h ->
  heap_base h m -> heap_base h' m.
Proof. intros H1 H2 H3 H4 []. unfold room in *. split; unfold room; by rewrite ?H1, ?H2, ?H3, ?H4. Qed.
Lemma sizes_bound h m us fs : geom h (g m) (us ++ fs) -> 0 <= sizes m us.
Proof.
  intros [Hi _]. assert (forall x, x ∈ us -> 0 < size (g m x)) as Hp by (intros x Hx; apply (Hi x); set_solver).
  clear Hi. unfold sizes. induction us as [|x us IH]; [done|]. simpl. pose proof (Hp x ltac:(by left)).
  specialize (IH ltac:(intros y Hy; apply Hp; by right)). lia.
Qed.

(** The store changes only in links. *)
Lemma base_links h m s' : same_data (nodes m) s' -> heap_base h m -> heap_base h (with_nodes m s').
Proof.
  intros Hd []. split; try done. cbn [with_nodes nodes]. specialize (Hd sn). rewrite hb_node0 in Hd.
  by destruct (s' !! sn).
Qed.
Lemma geom_links h m s' xs : same_data (nodes m) s' -> geom h (g m) xs -> geom h (g (with_nodes m s')) xs.
Proof. intros Hd Hg. eapply geom_sub; [done|done|]. intros x _. by apply blk_same. Qed.
Lemma sizes_links m s' us : same_data (nodes m) s' -> sizes (with_nodes m s') us = sizes m us.
Proof. intros Hd. apply sizes_same. intros x _. by apply blk_same. Qed.
Lemma live_links m s' us : same_data (nodes m) s' -> live (with_nodes m s') us = live m us.
Proof. intros Hd. apply live_same. intros x _. by apply blk_same. Qed.

(** What no call changes of the heap record, and what allocation leaves alone. *)
Definition same_region h h' : Prop :=
  data_at h' = data_at h /\ maxBlocks h' = maxBlocks h /\ align h' = align h /\ raw h' = raw h.
#[export] Instance same_region_preorder : PreOrder same_region.
Proof. split; [by intros h|]. intros h1 h2 h3 (?&?&?&?) (?&?&?&?). split_and!; congruence. Qed.
Definition kept h m h' m' us : Prop :=
  same_region h h' /\ bytesUsed h' = bytesUsed h /\ bytesFree h' = bytesFree h /\ live m' us = live m us /\
  bytes m' = bytes m.

(** The detached block goes back to the free list, on any links. *)
Lemma mid_put_free h m p ds us fs ss : heap_mid h m (p :: ds) us fs ss ->
  exists f' s' fs', list_insert (block_compare_ptr (blocks m)) (fuel_of (nodes m)) (free h) p true (nodes m) = Done (p, f', s') /\
    fs' ≡ₚ p :: fs /\ heap_mid (with_free h f') (with_nodes m s') ds us fs' ss /\
    kept h m (with_free h f') (with_nodes m s') us /\ same_data (nodes m) s'.
Proof.
  intros [Hb Hl Hg Hu Hs]. destruct (put_free _ _ _ _ _ _ _ _ _ Hl p ds eq_refl) as (f' & s' & fs' & He & Hp & Hl' & Hd & _).
  exists f', s', fs'. split; [done|]. split; [done|]. split; [|split; [|done]].
  - split; [by apply base_links, (base_heap h)|exact Hl'| |by rewrite sizes_links|done].
    apply (geom_heap h), geom_links; [done..|]. eapply geom_sub; [exact Hg| |done]. intros x. cbn [app]. rewrite Hp. clear. set_solver.
  - split_and!; [done..|by apply live_links|done].
Qed.

Section Fracture.
Context (h : heap_t) (m : heap_mem) (p : Z) (us fs ss : list Z) (n : Z).
Context (Hmid : heap_mid h m [p] us fs ss) (Hal : (align h | n)) (Hn : 0 < n <= size (g m p)).

Lemma detached_block : block (bptr (nodes m) p) (blocks m) = Done (g m p) /\ bptr (nodes m) p <> 0.
Proof.
  destruct Hmid as [_ Hl _ _ _]. pose proof (lo_block _ _ _ _ _ _ _ _ _ Hl p ltac:(by left)) as Hb.
  destruct (has_block_node _ _ _ Hb) as (nd & _ & _ & Hp & Hk). rewrite Hp in Hk. split; [done|apply Hb].
Qed.
Lemma detached_inside : inside h (g m p).
Proof. destruct Hmid as [_ _ [Hi _] _ _]. apply Hi. by left. Qed.

(** The two blocks after a cut. *)
Lemma cut_blocks q ss' sp' s1 : ss = q :: ss' ->
  lists_ok (used h) (free h) sp' s1 (blocks m) [q; p] us fs ss' -> same_data (nodes m) s1 ->
  let bs2 := <[bptr s1 p := mkBlock n (data (g m p))]>
    (<[bptr s1 q := mkBlock (size (g m p) - n) (data (g m p) + n)]> (blocks m)) in
  n < size (g m p) ->
  lists_ok (used h) (free h) sp' s1 bs2 [q; p] us fs ss' /\
  blk s1 bs2 p = mkBlock n (data (g m p)) /\
  geom h (blk s1 bs2) (p :: q :: us ++ fs) /\ (forall x, x ∈ us -> blk s1 bs2 x = g m x) /\
  (blocks m !! sb = None -> bs2 !! sb = None).
Proof.
  intros Hss Hl1 Hd1 bs2 Hlt. pose proof Hmid as [_ Hl Hg _ _]. set (bs1 := <[bptr s1 q := _]> (blocks m)) in bs2.
  set (all := [q; p] ++ us ++ fs ++ ss').
  assert (q ∈ all /\ p ∈ all) as [Hq Hp] by (clear; set_solver).
  pose proof (set_block _ _ _ _ _ _ _ _ _ Hl1 q (mkBlock (size (g m p) - n) (data (g m p) + n)) Hq) as Hl2.
  pose proof (set_block _ _ _ _ _ _ _ _ _ Hl2 p (mkBlock n (data (g m p))) Hp) as Hl3.
  pose proof (lo_nodup _ _ _ _ _ _ _ _ _ Hl1) as Hnd. cbn [app] in Hnd. apply NoDup_cons in Hnd as [Hqn [Hpn _]%NoDup_cons].
  assert (forall x, x ∈ all -> blk s1 bs2 x = if decide (p = x) then mkBlock n (data (g m p)) else
    if decide (q = x) then mkBlock (size (g m p) - n) (data (g m p) + n) else g m x) as Hblk.
  { intros x Hx. unfold bs2. rewrite (blk_set _ _ _ _ _ _ _ _ _ Hl2) by done. destruct (decide (p = x)); [done|].
    unfold bs1. rewrite (blk_set _ _ _ _ _ _ _ _ _ Hl1) by done. destruct (decide (q = x)); [done|]. by apply blk_same. }
  assert (p <> q) as Hpq by (intros ->; apply Hqn; by left).
  assert (forall x, x ∈ us ++ fs -> x ∈ all /\ x <> p /\ x <> q) as Hrest.
  { intros x Hx. split_and!; [clear -Hx; set_solver|intros ->; apply Hpn; clear -Hx; set_solver|intros ->; apply Hqn; clear -Hx; set_solver]. }
  assert (forall x, x ∈ us ++ fs -> blk s1 bs2 x = g m x) as Hkeep.
  { intros x Hx. destruct (Hrest x Hx) as (Hx1 & Hx2 & Hx3). rewrite Hblk by done.
    rewrite !decide_False by congruence. done. }
  split_and!; [exact Hl3|by rewrite Hblk, decide_True| |intros x Hx; apply Hkeep; clear -Hx; set_solver|].
  - eapply (geom_split h (g m)); [exact Hg| | | |exact Hal| | |done].
    + cbn [app]. intros Hx. by destruct (Hrest p Hx) as (_ & ? & _).
    + intros [He|Hx]%elem_of_cons; [by apply Hpq|]. by destruct (Hrest q Hx) as (_ & _ & ?).
    + lia.
    + by rewrite Hblk, decide_True.
    + by rewrite Hblk, decide_False, decide_True.
  - intros Hb. destruct (lo_block _ _ _ _ _ _ _ _ _ Hl1 q Hq) as (_ & _ & [bq Hbq]), (lo_block _ _ _ _ _ _ _ _ _ Hl1 p Hp) as (_ & _ & [bp Hbp]).
    unfold bs2, bs1. rewrite !lookup_insert_ne; [done|intros <-..]; congruence.
Qed.

Lemma fracture_spec :
  (exists h' m' fs', fracture h p (bptr (nodes m) p) n m = Done (false, h', m') /\
     heap_mid h' m' [] us fs' ss /\ kept h m h' m' us) \/
  (exists h' m' fs' ss', fracture h p (bptr (nodes m) p) n m = Done (true, h', m') /\
     heap_mid h' m' [p] us fs' ss' /\ kept h m h' m' us /\ g m' p = mkBlock n (data (g m p)) /\
     bptr (nodes m') p = bptr (nodes m) p).
Proof.
  destruct detached_block as [Hk Hp0]. pose proof detached_inside as Hin. pose proof Hmid as [Hb Hl Hg Hu Hs].
  assert (0 <= size (g m p) - n < 2 ^ 64) as Hsz.
  { destruct Hin as [? ? ? _ _]. pose proof (hb_room _ _ Hb). lia. }
  unfold fracture. rewrite Hk. cbn [mbind outcome_bind].
  destruct (Z.ltb_spec n (size (g m p))) as [Hlt|Hge].
  2: { right. exists h, m, fs, ss. split_and!; try done. replace n with (size (g m p)) by lia. by destruct (g m p). }
  assert (ss = [] \/ exists q ss', ss = q :: ss') as [Hss|(q & ss' & Hss)] by (destruct ss; eauto).
  - left. pose proof (lo_spare _ _ _ _ _ _ _ _ _ Hl) as Hsp. rewrite Hss in Hsp. rewrite (pop_empty _ _ Hsp). cbn [mbind outcome_bind Z.eqb].
    assert (with_spare h (spare h) = h) as -> by (by destruct h).
    destruct (mid_put_free h m p [] us fs ss Hmid) as (f' & s' & fs' & -> & _ & Hm' & Hkp & _).
    cbn [mbind outcome_bind]. by eexists _, _, fs'.
  - right. destruct (take_spare _ _ _ _ _ _ _ _ _ Hl q ss' Hss) as (sp' & s1 & -> & Hl1 & Hd1).
    cbn [mbind outcome_bind]. destruct (cut_blocks q ss' sp' s1 Hss Hl1 Hd1 Hlt) as (Hl2 & Hbp & Hg2 & Hbu & Hsbn).
    destruct (has_block_node _ _ _ (lo_block _ _ _ _ _ _ _ _ _ Hl1 q ltac:(by left))) as (nq & _ & Hdq & Hpq & Hkq).
    rewrite (proj2 (Z.eqb_neq q 0)) by apply (lo_block _ _ _ _ _ _ _ _ _ Hl1 q ltac:(by left)).
    rewrite Hdq. cbn [mbind outcome_bind]. rewrite Hkq. cbn [mbind outcome_bind]. rewrite Hpq.
    rewrite <- (bptr_same (nodes m) s1 p Hd1).
    assert (u64 (size (g m p) - n) = size (g m p) - n) as -> by (unfold u64; by rewrite Z.mod_small).
    set (bs1 := <[bptr s1 q := _]> (blocks m)) in *.
    assert (block (bptr s1 p) bs1 = Done (g m p)) as ->.
    { unfold block. rewrite (proj2 (Z.eqb_neq _ 0)) by (by rewrite (bptr_same (nodes m) s1)). unfold bs1.
      rewrite lookup_insert_ne.
      - rewrite (bptr_same (nodes m) s1) by done. unfold block in Hk. by rewrite (proj2 (Z.eqb_neq _ 0)) in Hk.
      - intros He. assert (q = p) as ->.
        { apply (lo_inj _ _ _ _ _ _ _ _ _ Hl1); [clear; set_solver..|done]. }
        pose proof (lo_nodup _ _ _ _ _ _ _ _ _ Hl1) as Hnd. cbn [app] in Hnd. apply NoDup_cons in Hnd as [Hqn _]. apply Hqn. by left. }
    cbn [mbind outcome_bind]. set (bs2 := <[bptr s1 p := _]> bs1) in *.
    assert (heap_mid (with_spare h sp') (mkMem s1 bs2 (bytes m)) [q; p] us fs ss') as Hmid2.
    { split; [|exact Hl2| | |done].
      - apply (base_heap h); [done..|]. destruct Hb. split; try done; cbn [nodes blocks].
        + specialize (Hd1 sn). rewrite hb_node0 in Hd1. by destruct (s1 !! sn).
        + by apply Hsbn.
      - apply (geom_heap h); [done..|]. eapply geom_sub; [exact Hg2| |done]. intros x. cbn [app]. clear. set_solver.
      - transitivity (bytesUsed h); [done|]. rewrite Hu. symmetry. by apply sizes_same. }
    destruct (mid_put_free _ _ q [p] us fs ss' Hmid2) as (f' & s' & fs' & He & _ & Hmid3 & (Hr & Hku & Hkf & Hlv & Hbt) & Hd3).
    cbn [nodes blocks] in He. rewrite He. cbn [mbind outcome_bind].
    eexists _, _, fs', ss'. split; [done|]. split; [exact Hmid3|]. split; [|split].
    + split_and!; [done..| |done]. etrans; [exact Hlv|]. by apply live_same.
    + transitivity (blk s1 bs2 p); [by apply (blk_same s1 s' bs2 p)|done].
    + cbn [nodes with_nodes]. rewrite (bptr_same s1 s') by done. done.
Qed.
End Fracture.

(** ** Allocation *)

(** What a call of [heap_alloc] leaves: nothing new, or one more used block. *)
Definition alloc_result h m us n (r : Z) h' m' us' : Prop :=
  same_region h h' /\ bytes m' = bytes m /\
  ((r = 0 /\ live m' us' = live m us) \/
   (r <> 0 /\ live m' us' ≡ₚ (r, block_size (align h) n) :: live m us)).

Lemma mid_put_used h m p n us fs ss : heap_mid h m [p] us fs ss -> size (g m p) = n -> 0 <= n <= bytesFree h ->
  exists u' s' us', list_insert (block_compare_ptr (blocks m)) (fuel_of (nodes m)) (used h) p true (nodes m) = Done (p, u', s') /\
    let h' := with_counts (with_used h u') (u64 (bytesUsed h + n)) (u64 (bytesFree h - n)) in
    heap_ok h' (with_nodes m s') us' fs ss /\ same_region h h' /\
    live (with_nodes m s') us' ≡ₚ (data (g m p), n) :: live m us.
Proof.
  intros [Hb Hl Hg Hu Hs] Hsz Hn. destruct (put_used _ _ _ _ _ _ _ _ _ Hl p [] eq_refl) as (u' & s' & us' & He & Hp & Hl' & Hd).
  exists u', s', us'. split; [done|]. intros h'.
  assert (0 <= bytesUsed h) as Hu0.
  { rewrite Hu. apply (sizes_bound h m us fs). eapply geom_sub; [exact Hg| |done]. intros x. clear. set_solver. }
  pose proof (hb_room _ _ Hb) as Hroom.
  assert (u64 (bytesUsed h + n) = bytesUsed h + n /\ u64 (bytesFree h - n) = bytesFree h - n) as [H1 H2]
    by (unfold u64; rewrite !Z.mod_small by lia; done).
  split; [|split].
  - split; [split|].
    + by apply base_links, (base_heap h).
    + exact Hl'.
    + apply (geom_heap h), geom_links; [done..|]. eapply geom_sub; [exact Hg| |done].
      intros x. cbn [app]. rewrite !elem_of_app, Hp, elem_of_cons. clear. set_solver.
    + rewrite sizes_links by done. rewrite (sizes_perm m us' (p :: us)) by done. cbn [h' with_counts bytesUsed].
      rewrite H1, Hu. unfold sizes. cbn [map Zsum foldr]. fold (Zsum (map (fun x => size (g m x)) us)). lia.
    + cbn [h' with_counts bytesUsed bytesFree]. rewrite H1, H2. transitivity (room h); [lia|done].
    + cbn [h' with_counts bytesFree]. lia.
  - done.
  - rewrite live_links by done. rewrite (live_perm m us' (p :: us)) by done. unfold live. cbn [map]. by rewrite Hsz.
Qed.

Lemma alloc_spec h m us fs ss n : heap_ok h m us fs ss -> 0 < n <= 2 ^ 64 - align h ->
  exists r h' m' us' fs' ss', heap_alloc sn sb h n m = Done (r, h', m') /\ heap_ok h' m' us' fs' ss' /\
    alloc_result h m us n r h' m' us'.
Proof.
  intros Hok Hn. pose proof Hok as [[Hb Hl Hg Hu Hs] Hf0]. destruct (block_size_ok (align h) n (hb_align _ _ Hb) Hn) as [Hal Hbs].
  assert (exists us' fs' ss', heap_ok h m us' fs' ss' /\ alloc_result h m us n 0 h m us') as Hnone.
  { exists us, fs, ss. split; [done|]. split_and!; [done..|by left]. }
  unfold heap_alloc. rewrite (proj2 (Z.eqb_neq (raw h) 0)) by apply Hb. rewrite (proj2 (Z.eqb_neq n 0)) by lia.
  set (n' := block_size (align h) n) in *. destruct (Z.ltb_spec (bytesFree h) n') as [Hlt|Hge].
  { destruct Hnone as (us' & fs' & ss' & Hx). by exists 0, h, m, us', fs', ss'. }
  unfold block_bestfit_and_remove, with_search. cbn [nodes blocks].
  assert (forall x, x ∈ fs -> has_block (nodes m) (blocks m) x) as Hfb.
  { intros x Hx. apply (lo_block _ _ _ _ _ _ _ _ _ Hl). clear -Hx. set_solver. }
  rewrite (best_fit_spec sn sb _ _ Hsn Hsb (hb_node _ _ Hb) (hb_block _ _ Hb) (free h) fs n' (lo_free _ _ _ _ _ _ _ _ _ Hl) Hfb).
  cbn [mbind outcome_bind].
  pose proof (best_of_max (fun x => fit_score n' (size (g m x))) fs 0 0) as Hbest. cbv zeta in Hbest.
  set (p := best_of _ fs 0 0) in *. destruct Hbest as [[Hp _]|(Hpf & Hsc & _)].
  { rewrite Hp. cbn [Z.eqb negb mbind outcome_bind]. assert (with_free h (free h) = h) as -> by (by destruct h).
    destruct Hnone as (us' & fs' & ss' & Hx). by exists 0, h, m, us', fs', ss'. }
  rewrite (proj2 (Z.eqb_neq p 0)) by apply (Hfb p Hpf). cbn [negb].
  apply fit_score_fits in Hsc.
  destruct (take_free _ _ _ _ _ _ _ _ _ Hl p Hpf) as [(f' & s' & -> & Hl' & Hd)|(t & -> & Ht & Hst)]; cbn [mbind outcome_bind].
  - assert (p ∈ [p] ++ us ++ without p fs ++ ss) as Hpin by (by left).
    destruct (has_block_node _ _ _ (lo_block _ _ _ _ _ _ _ _ _ Hl' p Hpin)) as (nd & _ & -> & Hpn & _).
    cbn [mbind outcome_bind]. rewrite Hpn.
    assert (heap_mid (with_free h f') (with_nodes m s') [p] us (without p fs) ss) as Hmid.
    { split; [by apply base_links, (base_heap h)|exact Hl'| |by rewrite sizes_links|done].
      apply (geom_heap h), geom_links; [done..|]. eapply geom_sub; [exact Hg| |done].
      intros x. unfold without. cbn [app]. rewrite elem_of_cons, !elem_of_app, list_elem_of_filter. clear -Hpf. set_solver. }
    rewrite (proj2 (Z.eqb_neq p 0)) by apply (Hfb p Hpf).
    rewrite (proj2 (Z.eqb_neq (bptr s' p) 0)) by apply (lo_block _ _ _ _ _ _ _ _ _ Hl' p Hpin). cbn [orb].
    assert (g (with_nodes m s') p = g m p) as Hgp by (by apply blk_same).
    destruct (fracture_spec _ _ p us (without p fs) ss n' Hmid) as [(h2 & m2 & fs2 & He & Hm2 & Hk)|(h2 & m2 & fs2 & ss2 & He & Hm2 & Hk & Hgq & Hbq)];
      [done|rewrite Hgp; lia| |].
    + cbn [nodes with_nodes] in He. rewrite He. cbn [mbind outcome_bind negb].
      destruct Hk as (Hr & _ & Hkf & Hlv & Hbt). exists 0, h2, m2, us, fs2, ss. split; [done|].
      split; [split; [done|by rewrite Hkf]|]. split_and!; [exact Hr|done|left; split; [done|]]. rewrite Hlv. by apply live_links.
    + cbn [nodes with_nodes] in He, Hbq. rewrite He. cbn [mbind outcome_bind negb].
      destruct Hk as (Hr & Hku & Hkf & Hlv & Hbt).
      destruct (mid_put_used h2 m2 p n' us fs2 ss2 Hm2) as (u3 & s3 & us3 & -> & Hok3 & Hr3 & Hl3); [by rewrite Hgq|rewrite Hkf; cbn; lia|].
      cbn [mbind outcome_bind]. destruct (detached_block h2 m2 p us fs2 ss2 Hm2) as [Hk2 _]. rewrite Hbq in Hk2. rewrite Hk2.
      cbn [mbind outcome_bind]. eexists _, _, _, us3, fs2, ss2. split; [done|]. split; [exact Hok3|].
      pose proof (detached_inside h2 m2 p us fs2 ss2 Hm2) as [Hlow _ _ _ _].
      pose proof (hb_data _ _ (hm_base _ _ _ _ _ _ Hm2)) as Hd0.
      split_and!; [by etrans; [apply Hr|apply Hr3]|done|right; split; [lia|]].
      rewrite Hl3. apply Permutation_cons; [done|]. rewrite Hlv. by rewrite live_links.
  - rewrite (deref_Some t _ _ Ht Hst). cbn [mbind outcome_bind node_data]. rewrite orb_true_r.
    eexists 0, _, _, us, [], ss. split; [done|].
    assert (with_nodes m (nodes m) = m) as -> by (by destruct m). split.
    + split; [split|done]; [by apply (base_heap h)|by eapply lose_free| |done|done].
      apply (geom_heap h); [done..|]. eapply geom_sub; [exact Hg| |done]. clear. set_solver.
    + split_and!; [done..|by left].
Qed.

(** ** Release *)

Lemma mid_bytes h m b ds us fs ss : heap_mid h m ds us fs ss -> heap_mid h (with_bytes m b) ds us fs ss.
Proof. intros [[] Hl Hg Hu Hs]. by split. Qed.

(** A used block in hand, its bytes counted as free. *)
Lemma mid_take_used h m p u' s' us fs ss : heap_ok h m us fs ss -> p ∈ us -> dll u' s' (without p us) ->
  same_data (nodes m) s' -> same_off us (nodes m) s' ->
  let h' := with_counts (with_used h u') (u64 (bytesUsed h - size (g m p))) (u64 (bytesFree h + size (g m p))) in
  heap_mid h' (with_nodes m s') [p] (without p us) fs ss /\ 0 <= bytesFree h'.
Proof.
  intros [[Hb Hl Hg Hu Hs] Hf0] Hp Hu' Hd Ho h'.
  pose proof (lo_apart _ _ _ _ _ _ _ _ _ Hl) as (_ & _ & _ & _ & Hnu & _).
  pose proof (without_perm p us Hnu Hp) as Hperm. pose proof (hb_room _ _ Hb) as Hroom.
  assert (0 < size (g m p)) as Hsp by (destruct Hg as [Hi _]; apply (Hi p); clear -Hp; set_solver).
  assert (sizes m us = size (g m p) + sizes m (without p us)) as Hsz by (by rewrite (sizes_perm m us _ Hperm)).
  assert (0 <= sizes m (without p us)) as Hs0.
  { apply (sizes_bound h m _ fs). eapply geom_sub; [exact Hg| |done]. intros x. unfold without. rewrite !elem_of_app, list_elem_of_filter. clear. tauto. }
  assert (u64 (bytesUsed h - size (g m p)) = bytesUsed h - size (g m p) /\
    u64 (bytesFree h + size (g m p)) = bytesFree h + size (g m p)) as [H1 H2] by (unfold u64; rewrite !Z.mod_small by lia; done).
  split; [split|].
  - by apply base_links, (base_heap h).
  - by apply (take_used _ _ _ _ _ [] _ _ _ Hl).
  - apply (geom_heap h), geom_links; [done..|]. eapply geom_sub; [exact Hg| |done].
    intros x. unfold without. cbn [app]. rewrite elem_of_cons, !elem_of_app, list_elem_of_filter. clear -Hp.
    intros [->|[[_ ?]|?]]; auto.
  - rewrite sizes_links by done. cbn [h' with_counts bytesUsed]. rewrite H1. lia.
  - cbn [h' with_counts bytesUsed bytesFree]. rewrite H1, H2. transitivity (room h); [lia|done].
  - cbn [h' with_counts bytesFree]. lia.
Qed.

(** Cleaning and merging, after the block has joined the free list. *)
Lemma release_rest h m b q us fs ss : heap_mid h m [] us fs ss -> 0 <= bytesFree h -> q ∈ fs ->
  exists m' fs',
    (m' ← (if coalescePolicy h
           then coalesce q (bptr (nodes m) q)
             (if cleanPolicy h then with_bytes m (memset (bytes m) (data b) 48 (size b)) else m)
           else Done (if cleanPolicy h then with_bytes m (memset (bytes m) (data b) 48 (size b)) else m));
     Done (true, h, m')) = Done (true, h, m') /\
    heap_ok h m' us fs' ss /\ live m' us = live m us /\
    (forall a, a < data b \/ data b + size b <= a -> bytes m' a = bytes m a).
Proof.
  intros Hmid Hf Hq. set (m1 := if cleanPolicy h then _ else m).
  assert (heap_mid h m1 [] us fs ss /\ nodes m1 = nodes m /\ blocks m1 = blocks m /\
    forall a, a < data b \/ data b + size b <= a -> bytes m1 a = bytes m a) as (Hm1 & Hn1 & Hb1 & Hby).
  { unfold m1. destruct (cleanPolicy h); [|done]. split_and!; [by apply mid_bytes|done|done|]. intros a Ha.
    cbn [with_bytes bytes]. unfold memset.
    destruct (Z.leb_spec (data b) a), (Z.ltb_spec a (data b + size b)); cbn [andb]; (done || lia). }
  assert (live m1 us = live m us) as Hl1 by (unfold live; by rewrite Hn1, Hb1).
  rewrite <- Hn1. destruct (coalescePolicy h); [|exists m1, fs; by split_and!].
  pose proof Hm1 as [Hb Hl Hg Hu Hs].
  destruct (coalesce_spec h _ _ _ m1 us fs ss Hl Hg (hb_room _ _ Hb) q Hq) as (m' & fs' & -> & Hl' & Hg' & Hk & Hbt & Hnn & Hbb).
  exists m', fs'. cbn [mbind outcome_bind]. split_and!; [done| | |intros a Ha; rewrite Hbt; auto].
  - split; [|done]. split; [|exact Hl'|exact Hg'| |done].
    + destruct Hb. split; [done..| |by apply Hbb]. apply Hnn; [done|]. intros Hx.
      assert (has_block (nodes m1) (blocks m1) sn) as (_ & Hbp & _) by (apply (lo_block _ _ _ _ _ _ _ _ _ Hl); clear -Hx; set_solver).
      unfold bptr in Hbp. by rewrite hb_node0 in Hbp.
    + rewrite Hu. symmetry. by apply sizes_same.
  - rewrite <- Hl1. by apply live_same.
Qed.

Lemma free_spec h m us fs ss p : heap_ok h m us fs ss ->
  (p ∈ (live m us).*1 /\ exists z h' m' us' fs', heap_free sn sb h p m = Done (true, h', m') /\ heap_ok h' m' us' fs' ss /\
     same_region h h' /\ live m us ≡ₚ (p, z) :: live m' us' /\
     (forall a, a < p \/ p + z <= a -> bytes m' a = bytes m a)) \/
  (p ∉ (live m us).*1 /\ heap_free sn sb h p m = Done (false, h, m)).
Proof.
  intros Hok. pose proof Hok as [[Hb Hl Hg Hu Hs] Hf0].
  assert (forall x, x ∈ us -> inside h (g m x)) as Hin by (intros x Hx; apply Hg; clear -Hx; set_solver).
  assert (p ∈ (live m us).*1 <-> exists x, x ∈ us /\ data (g m x) = p) as Hlive.
  { unfold live. split.
    - intros ([d z] & -> & Hx)%list_elem_of_fmap. apply list_elem_of_In, in_map_iff in Hx as (x & [= <- <-] & Hx).
      exists x. split; [by apply list_elem_of_In|done].
    - intros (x & Hx & <-). apply list_elem_of_fmap. eexists (_, _). split; [done|].
      apply list_elem_of_In, in_map_iff. exists x. split; [done|by apply list_elem_of_In]. }
  assert (p = 0 \/ negb (ptr_is_aligned p (align h)) = true -> p ∉ (live m us).*1) as Hbad.
  { intros Hp (x & Hx & Hd)%Hlive. destruct (Hin x Hx) as [H1 _ _ H4 _]. pose proof (hb_data _ _ Hb). pose proof (hb_align _ _ Hb).
    destruct Hp as [->|Hp]; [lia|]. unfold ptr_is_aligned in Hp. apply negb_true_iff, Z.eqb_neq in Hp. apply Hp.
    rewrite <- Hd. apply Z.mod_divide; [lia|done]. }
  unfold heap_free. destruct (Z.eqb_spec p 0) as [Hp0|Hp0]; [by right; split; [apply Hbad; left|]|].
  rewrite (proj2 (Z.eqb_neq (raw h) 0)) by apply Hb.
  destruct (negb (ptr_is_aligned p (align h))) eqn:Hal; [by right; split; [apply Hbad; right|]|].
  assert (forall x, x ∈ us -> has_block (nodes m) (blocks m) x) as Hub.
  { intros x Hx. apply (lo_block _ _ _ _ _ _ _ _ _ Hl). clear -Hx. set_solver. }
  assert (0 ∉ us) as H0 by (intros Hx; by destruct (Hub 0 Hx)).
  destruct (find_spec sn sb (nodes m) (blocks m) Hsn Hsb (hb_node _ _ Hb) (hb_block _ _ Hb) (used h) m p us eq_refl eq_refl
    (lo_used _ _ _ _ _ _ _ _ _ Hl) Hub) as [[Hf ->]|(Hfu & u' & s' & -> & Hu' & Hd & Ho)]; cbn [mbind outcome_bind].
  - right. split; [|by destruct h]. intros (x & Hx & Hxd)%Hlive.
    destruct (filter _ us) as [|y r] eqn:Hfl.
    + assert (x ∈ filter (fun x => data (g m x) = p) us) as Hxf by (by apply list_elem_of_filter). rewrite Hfl in Hxf. set_solver.
    + cbn [first] in Hf. subst y. apply H0. assert (0 ∈ filter (fun x => data (g m x) = p) us) as Hxf by (rewrite Hfl; by left).
      by apply list_elem_of_filter in Hxf as [_ ?].
  - set (q := first _ 0) in *. assert (data (g m q) = p) as Hq.
    { unfold q in *. clear -H0 Hfu. destruct (filter _ us) as [|y r] eqn:Hfl; [done|]. cbn [first].
      assert (y ∈ filter (fun x => data (g m x) = p) us) as Hxf by (rewrite Hfl; by left). by apply list_elem_of_filter in Hxf as [? _]. }
    left. split; [apply Hlive; by exists q|].
    destruct (mid_take_used h m q u' s' us fs ss Hok Hfu Hu' Hd Ho) as [Hmid Hfree].
    set (hh := with_counts _ _ _) in Hmid, Hfree.
    destruct (detached_block _ _ q _ _ _ Hmid) as [Hk Hq0]. cbn [nodes with_nodes blocks] in Hk, Hq0 |- *.
    assert (blk s' (blocks m) q = g m q) as Hbs by (by apply blk_same). rewrite Hbs in Hk.
    rewrite <- (bptr_same (nodes m) s' q Hd), Hk. cbn [mbind outcome_bind]. rewrite Hq, Z.eqb_refl. cbn [negb].
    destruct (mid_put_free hh (with_nodes m s') q [] _ fs ss Hmid) as (f' & s2 & fs' & He & Hperm & Hmid2 & Hkp & Hd2).
    cbn [nodes with_nodes blocks] in He. change (free (with_used h u')) with (free hh). rewrite He. cbn [mbind outcome_bind].
    destruct (release_rest (with_free hh f') (with_nodes (with_nodes m s') s2) (g m q) q (without q us) fs' ss Hmid2)
      as (m' & fs'' & Hrest & Hok' & Hlv & Hbt); [exact Hfree|rewrite Hperm; by left|].
    exists (size (g m q)), (with_free hh f'), m', (without q us), fs''. split; [|split; [exact Hok'|split; [done|split]]].
    + cbn [nodes with_nodes] in Hrest. rewrite (bptr_same s' s2 q Hd2) in Hrest. rewrite Hq in Hrest.
      exact Hrest.
    + rewrite (live_perm m us _ (without_perm q us ltac:(apply (lo_apart _ _ _ _ _ _ _ _ _ Hl)) Hfu)).
      unfold live at 1. cbn [map]. rewrite Hq. apply Permutation_cons; [done|]. fold (live m (without q us)).
      rewrite Hlv. rewrite (live_links _ s2) by done. by rewrite live_links.
    + intros a Ha. rewrite Hbt by (rewrite Hq; done). done.
Qed.
End Heap.
