(* ===== verification/SosalHeapProperties.v ===== *)
(** * The heap hands out disjoint blocks

    A new heap is well formed; then the calls of [SosalHeap] against a
    specification that knows the live blocks and the bytes only. *)
From S2P Require Import Prelude SosalList SosalListFacts SosalListProperties SosalHeap SosalHeapFacts SosalHeapLists SosalHeapGeometry SosalHeapCalls.

Section NewHeap.
Implicit Types (s : store) (bs : gmap Z block_t) (xs : list Z) (h : heap_t) (m : heap_mem).

(** ** The areas of the buffer *)

Definition areas h (num d : Z) : heap_t :=
  with_data (with_areas h num (num * (SIZEOF_node_t + SIZEOF_block_t)) (num * align h)) d.

(** The records and the data of [num] blocks fit, and the data is aligned. *)
Record areas_fit h (num d : Z) : Prop := {
  af_num : 0 < num;
  af_low : raw h + num * (SIZEOF_node_t + SIZEOF_block_t) <= d;
  af_high : d + num * align h <= raw h + bytesTotal h;
  af_aligned : (align h | d) }.

Lemma overhead_unfold h f num : 0 < align h -> bytesTotal h < 2 ^ 63 -> 0 < num -> num * (40 + align h) <= bytesTotal h ->
  overhead_loop (S f) h num =
    let h1 := with_areas h num (num * 40) (num * align h) in
    let d := raw h + num * 40 in
    let offset := align h - d mod align h in
    if d mod align h =? 0 then Done (true, h1)
    else if bytesTotal h - num * (40 + align h) <? offset then overhead_loop f h1 (num - 1)
    else Done (true, with_data h1 (d + offset)).
Proof.
  intros Ha Ht Hn Hfit. cbn [overhead_loop]. change (SIZEOF_node_t + SIZEOF_block_t) with 40.
  assert (u64 (num * 40) = num * 40 /\ u64 (num * align h) = num * align h /\ u64 (num - 1) = num - 1 /\
    u64 (bytesTotal h - num * align h - num * 40) = bytesTotal h - num * (40 + align h)) as (-> & -> & -> & ->).
  { unfold u64. rewrite !Z.mod_small by nia. split_and!; [done|done|done|lia]. }
  assert (u64 (bytesTotal h - num * (40 + align h) + num * align h + num * 40) = bytesTotal h) as ->
    by (replace (_ + _ + _) with (bytesTotal h) by ring; unfold u64; apply Z.mod_small; nia).
  cbn [with_areas bytesTotal].
  assert (u64 (bytesTotal h + num * align h + num * 40) = bytesTotal h + num * align h + num * 40) as ->
    by (unfold u64; apply Z.mod_small; nia).
  rewrite Z.leb_refl.
  rewrite Z.ltb_irrefl, (proj2 (Z.ltb_lt _ (bytesTotal h + _ + _))) by nia.
  unfold ptr_is_aligned. cbv zeta. cbn [with_areas data_at align].
  by destruct ((raw h + num * 40) mod align h =? 0).
Qed.

Lemma overhead_step h f num : 0 < align h -> bytesTotal h < 2 ^ 63 -> 0 < num -> num * (40 + align h) <= bytesTotal h ->
  align h - (raw h + num * 40) mod align h <= bytesTotal h - num * (40 + align h) \/ (raw h + num * 40) mod align h = 0 ->
  exists d, overhead_loop (S f) h num = Done (true, areas h num d) /\ areas_fit h num d.
Proof.
  intros Ha Ht Hn Hfit Hpad. rewrite overhead_unfold by done. cbv zeta.
  set (d := raw h + num * 40) in *. change (SIZEOF_node_t + SIZEOF_block_t) with 40 in *.
  pose proof (Z.mod_pos_bound d (align h) Ha) as Hm. pose proof (Z.div_mod d (align h) ltac:(lia)) as Hd.
  destruct (Z.eqb_spec (d mod align h) 0) as [He|He].
  - exists d. split; [done|]. split; [done|unfold d, SIZEOF_node_t, SIZEOF_block_t; lia|unfold d; nia|]. by apply Z.mod_divide; [lia|].
  - destruct Hpad as [Hpad|Hpad]; [|done]. rewrite (proj2 (Z.ltb_ge _ (align h - d mod align h))) by done.
    exists (d + (align h - d mod align h)). split; [done|].
    split; [done|unfold d, SIZEOF_node_t, SIZEOF_block_t in *; lia|unfold d in *; nia|]. exists (d / align h + 1). lia.
Qed.

(** At most one block is given up for the alignment of the data. *)
Lemma overhead_ok h num : 0 < align h -> bytesTotal h < 2 ^ 63 -> 2 <= num -> num * (40 + align h) <= bytesTotal h ->
  exists num' d, overhead_loop (S (Z.to_nat num)) h num = Done (true, areas h num' d) /\ areas_fit h num' d.
Proof.
  intros Ha Ht Hn Hfit.
  destruct (Z_le_gt_dec (align h - (raw h + num * 40) mod align h) (bytesTotal h - num * (40 + align h))) as [Hle|Hgt];
    [exists num; apply overhead_step; [done|done|lia|done|by left]|].
  destruct (Z.eq_dec ((raw h + num * 40) mod align h) 0) as [He|He]; [exists num; apply overhead_step; [done|done|lia|done|by right]|].
  exists (num - 1). rewrite overhead_unfold by (done || lia). cbv zeta.
  rewrite (proj2 (Z.eqb_neq _ 0)), (proj2 (Z.ltb_lt _ (align h - _))) by (done || lia).
  destruct (Z.to_nat num) as [|f] eqn:Hf; [lia|].
  destruct (overhead_step (with_areas h num (num * 40) (num * align h)) f (num - 1)) as (d & Hs & Hfit');
    cbn [with_areas align bytesTotal raw]; [done|done|lia|nia| |exists d; split; [exact Hs|destruct Hfit'; by split]].
  left. pose proof (Z.mod_pos_bound (raw h + (num - 1) * 40) (align h) Ha). nia.
Qed.

(** ** The records *)

Section Records.
Context (h : heap_t) (num : Z) (Hnum : 0 < num) (Hmax : maxBlocks h = num).

Definition record_nodes : list Z := map (node_at h) (seqZ 0 num).

Lemma node_at_inj i j : node_at h i = node_at h j -> i = j.
Proof. unfold node_at, SIZEOF_node_t. lia. Qed.
Lemma block_at_inj i j : block_at h i = block_at h j -> i = j.
Proof. unfold block_at, SIZEOF_block_t. lia. Qed.

Lemma fold_insert {A} (f : Z -> Z) (v : Z -> A) (Hf : forall i j, f i = f j -> i = j) L : forall (m0 : gmap Z A),
  (forall i, i ∈ L -> fold_left (fun acc i => <[f i := v i]> acc) L m0 !! f i = Some (v i)) /\
  (forall a, (forall i, i ∈ L -> f i <> a) -> fold_left (fun acc i => <[f i := v i]> acc) L m0 !! a = m0 !! a).
Proof.
  induction L as [|j L IH]; intros m0; [split; [set_solver|done]|]. cbn [fold_left].
  destruct (IH (<[f j := v j]> m0)) as [IH1 IH2]. split.
  - intros i [->|Hi]%elem_of_cons; [|by apply IH1]. destruct (decide (j ∈ L)) as [Hj|Hj]; [by apply IH1|].
    rewrite IH2 by (intros i Hi He; apply Hf in He as ->; done). by rewrite lookup_insert_eq.
  - intros a Ha. rewrite IH2 by (intros i Hi; apply Ha; by right). rewrite lookup_insert_ne; [done|]. apply Ha. by left.
Qed.

Lemma records_nodes m L : nodes (fold_left (fun m i => mkMem (<[node_at h i := init_node h i]> (nodes m))
    (<[block_at h i := mkBlock 0 0]> (blocks m)) (bytes m)) L m) = fold_left (fun s i => <[node_at h i := init_node h i]> s) L (nodes m) /\
  blocks (fold_left (fun m i => mkMem (<[node_at h i := init_node h i]> (nodes m))
    (<[block_at h i := mkBlock 0 0]> (blocks m)) (bytes m)) L m) = fold_left (fun acc i => <[block_at h i := mkBlock 0 0]> acc) L (blocks m).
Proof. revert m. induction L as [|i L IH]; intros m; [done|]. cbn [fold_left]. by destruct (IH (mkMem (<[node_at h i := init_node h i]> (nodes m))
    (<[block_at h i := mkBlock 0 0]> (blocks m)) (bytes m))) as [-> ->]. Qed.

Lemma init_lookup m : let m' := init_records h m in
  (forall i, 0 <= i < num -> nodes m' !! node_at h i = Some (init_node h i) /\ blocks m' !! block_at h i = Some (mkBlock 0 0)) /\
  (forall a, (forall i, 0 <= i < num -> node_at h i <> a) -> nodes m' !! a = nodes m !! a) /\
  (forall a, (forall i, 0 <= i < num -> block_at h i <> a) -> blocks m' !! a = blocks m !! a).
Proof.
  intros m'. unfold m', init_records. rewrite Hmax. destruct (records_nodes m (seqZ 0 num)) as [-> ->].
  destruct (fold_insert (node_at h) (init_node h) node_at_inj (seqZ 0 num) (nodes m)) as [Hn1 Hn2].
  destruct (fold_insert (block_at h) (fun _ => mkBlock 0 0) block_at_inj (seqZ 0 num) (blocks m)) as [Hb1 Hb2].
  split_and!.
  - intros i Hi. split; [apply Hn1|apply (Hb1 i)]; apply elem_of_seqZ; lia.
  - intros a Ha. apply Hn2. intros i Hi%elem_of_seqZ. apply Ha. lia.
  - intros a Ha. apply Hb2. intros i Hi%elem_of_seqZ. apply Ha. lia.
Qed.

Lemma records_seg s : (forall i, 0 <= i < num -> s !! node_at h i = Some (init_node h i)) ->
  forall len k, 0 <= k -> k + Z.of_nat len = num ->
  seg s (if 0 <? k then node_at h (k - 1) else 0) (map (node_at h) (seqZ k (Z.of_nat len))) 0.
Proof.
  intros Hs. induction len as [|len IH]; intros k Hk He; [done|].
  rewrite seqZ_cons by lia. replace (Z.pred (Z.of_nat (S len))) with (Z.of_nat len) by lia. cbn [map seg]. split.
  - exists (block_at h k). rewrite Hs by lia. unfold init_node. rewrite Hmax. f_equal. f_equal.
    destruct len as [|len]; [by rewrite (proj2 (Z.ltb_ge k (num - 1))) by lia|].
    rewrite seqZ_cons by lia. cbn [map first]. rewrite (proj2 (Z.ltb_lt k (num - 1))) by lia. done.
  - specialize (IH (Z.succ k)). rewrite (proj2 (Z.ltb_lt 0 (Z.succ k))) in IH by lia.
    replace (Z.succ k - 1) with k in IH by lia. apply IH; lia.
Qed.
End Records.

(** ** Initialisation *)

Definition clamp_align (p2align : Z) : Z :=
  2 ^ (let p := if 12 <? p2align then 12 else p2align in if p <? 5 then 5 else p).
Lemma clamp_align_bounds p : 32 <= clamp_align p <= 4096.
Proof.
  unfold clamp_align. cbv zeta. destruct (Z.ltb_spec 12 p); [done|]. destruct (Z.ltb_spec p 5); [done|].
  split; [change 32 with (2 ^ 5)|change 4096 with (2 ^ 12)]; apply Z.pow_le_mono_r; lia.
Qed.

(** A buffer for at least two blocks, on which the estimate of the number of
    blocks is not too large, with nothing of a heap in it, outside of the stack. *)
Record init_ok (sn sb buffer sz p2align : Z) m : Prop := {
  io_buffer : 0 < buffer;
  io_word : ptr_is_aligned buffer 4 = true;
  io_size : sz < 2 ^ 63;
  io_blocks : 2 <= overhead_estimate sz (clamp_align p2align) / 40;
  io_estimate : overhead_estimate sz (clamp_align p2align) / 40 * (40 + clamp_align p2align) <= sz;
  io_empty : nodes m = ∅ /\ blocks m = ∅;
  io_stack : forall a, buffer <= a < buffer + sz -> a <> sn /\ a <> sb }.

Section Init.
Context (sn sb buffer sz p2align : Z) (m : heap_mem) (Hio : init_ok sn sb buffer sz p2align m).

Definition fresh_heap : heap_t :=
  mkHeap buffer (mkList 0 0) (mkList 0 0) (mkList 0 0) 0 0 0 0 (clamp_align p2align) 0 0 sz true true.

Lemma calc_ok : exists num d, heap_calc_overhead fresh_heap = Done (true, areas fresh_heap num d) /\ areas_fit fresh_heap num d.
Proof.
  destruct Hio as [Hbuf Hw Hsz Hnb Hest _ _]. pose proof (clamp_align_bounds p2align) as Hal.
  unfold heap_calc_overhead. change (bytesTotal fresh_heap) with sz. change (align fresh_heap) with (clamp_align p2align).
  change (SIZEOF_node_t + SIZEOF_block_t) with 40. rewrite (proj2 (Z.eqb_neq _ 0)) by lia.
  apply overhead_ok; [cbn; lia|done|done|done].
Qed.

(** The spare list of all records, before the first is taken. *)
Lemma spare_all num d : areas_fit fresh_heap num d -> let h := areas fresh_heap num d in let m' := init_records h m in
  dll (mkList (node_at h 0) (node_at h (num - 1))) (nodes m') (record_nodes h num) /\
  (forall x, x ∈ record_nodes h num -> exists i, 0 <= i < num /\ x = node_at h i /\ bptr (nodes m') x = block_at h i /\
     has_block (nodes m') (blocks m') x) /\
  nodes m' !! sn = None /\ blocks m' !! sb = None.
Proof.
  intros [Hn Hlow Hhigh _] h m'. destruct Hio as [Hbuf _ _ _ _ [Hne Hbe] Hst].
  pose proof (clamp_align_bounds p2align) as Hal. cbn [fresh_heap raw align bytesTotal] in *.
  change (SIZEOF_node_t + SIZEOF_block_t) with 40 in *.
  assert (nodes_at h = buffer + num * 16 /\ blocks_at h = buffer) as [Hna Hba] by done.
  destruct (init_lookup h num Hn eq_refl m) as (Hl & Hln & Hlb). fold m' in Hl, Hln, Hlb.
  assert (forall i, 0 <= i < num -> 0 < node_at h i /\ 0 < block_at h i /\ node_at h i <> sn /\ block_at h i <> sb) as Haddr.
  { intros i Hi. unfold node_at, block_at, SIZEOF_node_t, SIZEOF_block_t. rewrite Hna, Hba.
    pose proof (Hst (buffer + num * 16 + 24 * i) ltac:(nia)). pose proof (Hst (buffer + 16 * i) ltac:(nia)). lia. }
  assert (forall x, x ∈ record_nodes h num <-> exists i, 0 <= i < num /\ x = node_at h i) as Hrec.
  { intros x. unfold record_nodes. split.
    - intros (i & -> & Hi)%list_elem_of_fmap. exists i. split; [apply elem_of_seqZ in Hi; lia|done].
    - intros (i & Hi & ->). apply list_elem_of_fmap. exists i. split; [done|]. apply elem_of_seqZ. lia. }
  split_and!.
  - pose proof (records_seg h num eq_refl (nodes m') (fun i Hi => proj1 (Hl i Hi)) (Z.to_nat num) 0 ltac:(lia) ltac:(lia)) as Hs.
    rewrite Z2Nat.id in Hs by lia. apply dll_chain. split; [split_and!; [|exact Hs| |]|].
    + unfold record_nodes. rewrite seqZ_cons by lia. done.
    + apply NoDup_fmap_2; [|apply NoDup_seqZ]. intros i j. apply node_at_inj.
    + intros (i & Hi & He)%Hrec. pose proof (Haddr i Hi). lia.
    + unfold record_nodes. replace num with ((num - 1) + 1) at 2 by lia. rewrite seqZ_app by lia.
      rewrite map_app. change (map (node_at h) (seqZ (0 + (num - 1)) 1)) with [node_at h (num - 1)]. by rewrite final_snoc.
  - intros x (i & Hi & ->)%Hrec. exists i. destruct (Hl i Hi) as [H1 H2]. destruct (Haddr i Hi) as (Ha1 & Ha2 & _).
    assert (bptr (nodes m') (node_at h i) = block_at h i) as Hb by (unfold bptr; by rewrite H1).
    split; [done|]. split; [done|]. split; [done|]. unfold has_block. rewrite Hb, H2. split_and!; [lia|lia|by eexists].
  - rewrite Hln, Hne; [done|]. intros i Hi. by apply Haddr.
  - rewrite Hlb, Hbe; [done|]. intros i Hi. by apply Haddr.
Qed.
End Init.

Lemma init_heap_ok sn sb buffer sz p2align m : init_ok sn sb buffer sz p2align m ->
  exists h m' fs ss, heap_init buffer sz p2align m = Done (true, h, m') /\ heap_ok sn sb h m' [] fs ss /\
  align h = clamp_align p2align /\ 0 < maxBlocks h /\
  buffer + maxBlocks h * 40 <= data_at h /\ data_at h + room h <= buffer + sz /\ bytesFree h = room h.
Proof.
  intros Hio. destruct (calc_ok sn sb buffer sz p2align m Hio) as (num & d & Hcalc & Hfit).
  set (m0 := with_bytes m (memset (bytes m) buffer 0 sz)).
  assert (init_ok sn sb buffer sz p2align m0) as Hio0 by (destruct Hio; by split).
  pose proof (spare_all sn sb buffer sz p2align m0 Hio0 num d Hfit) as Hsp. cbv zeta in Hsp.
  destruct Hfit as [Hn Hlow Hhigh Hdiv]. destruct Hio as [Hbuf Hw Hsz _ _ _ _].
  pose proof (clamp_align_bounds p2align) as Hal. cbn [fresh_heap raw align bytesTotal] in Hlow, Hhigh, Hdiv.
  set (h := areas _ num d) in *. change (SIZEOF_node_t + SIZEOF_block_t) with 40 in Hlow.
  unfold heap_init. fold (clamp_align p2align). rewrite (proj2 (Z.eqb_neq buffer 0)) by lia. rewrite Hw. cbn [negb].
  fold (fresh_heap buffer sz p2align). rewrite Hcalc. cbn [mbind outcome_bind negb]. fold h. fold m0.
  set (m1 := init_records h m0) in *. change (maxBlocks h) with num. rewrite (proj2 (Z.ltb_lt 0 num)) by done.
  destruct Hsp as (Hdll & Hrec & Hsn & Hsb). change (spare (with_spare h _)) with (mkList (node_at h 0) (node_at h (num - 1))).
  unfold record_nodes in *. rewrite seqZ_cons in Hdll, Hrec by done. cbn [map] in Hdll, Hrec.
  set (x0 := node_at h 0) in *. set (rest := map (node_at h) _) in *.
  destruct (pop_spec _ _ x0 rest Hdll) as (l' & s1 & -> & Hl1 & Hd1 & Ho1 & _). cbn [mbind outcome_bind].
  change (free (with_spare h _)) with (mkList 0 0). set (h2 := with_spare (with_spare h _) l').
  change (bytesFree (with_spare h _)) with (num * clamp_align p2align). change (data_at (with_spare h _)) with d.
  assert (forall x, x ∈ x0 :: rest -> exists i, x = node_at h i /\ bptr s1 x = block_at h i /\ has_block s1 (blocks m1) x) as Hrec1.
  { intros x Hx. destruct (Hrec x Hx) as (i & _ & He & Hp & Hb). exists i. rewrite (bptr_same (nodes m1) s1) by done.
    split_and!; [done|done|by eapply has_block_same]. }
  destruct (Hrec1 x0 ltac:(by left)) as (_ & _ & _ & Hb0).
  destruct (has_block_node _ _ _ Hb0) as (n0 & Hn0 & -> & Hp0 & Hk0). cbn [mbind outcome_bind]. rewrite Hk0.
  cbn [mbind outcome_bind]. rewrite Hp0. set (bs2 := <[bptr s1 x0 := _]> (blocks m1)).
  assert (dll (mkList 0 0) s1 []) as Hnil by (split; [done..|by constructor|set_solver]).
  destruct (push_spec (mkList 0 0) s1 [] Hnil x0) as (fl & s2 & -> & Hfl & Hd2 & Ho2);
    [split_and!; [apply Hb0|set_solver|by eexists]|]. cbn [mbind outcome_bind].
  eexists _, _, [x0], rest. split; [done|].
  pose proof (dll_nodup _ _ _ Hdll) as Hnd. pose proof Hnd as [Hx0 _]%NoDup_cons.
  split; [|split_and!; [done|cbn; lia|exact Hlow|exact Hhigh|done]].
  assert (forall x, x ∈ x0 :: rest -> bptr s2 x = bptr s1 x) as Hbp by (intros x _; by apply bptr_same).
  assert (blk s2 bs2 x0 = mkBlock (num * clamp_align p2align) d) as Hbk.
  { unfold blk. rewrite Hbp by (by left). unfold bs2. by rewrite lookup_insert_eq. }
  assert (heap_base sn sb (with_free h2 fl) (mkMem s2 bs2 (bytes m1))) as Hbase.
  { split; cbn [nodes blocks]; try done; [cbn; lia|cbn; lia|unfold room; cbn; nia|cbn; lia| |].
    - specialize (same_data_trans _ _ _ Hd1 Hd2 sn). rewrite Hsn. by destruct (s2 !! sn).
    - unfold bs2. destruct Hb0 as (_ & _ & [b0 Hb0]). rewrite lookup_insert_ne; [done|]. intros <-. by rewrite Hb0 in Hsb. }
  split; [split; [done| | |done|unfold room; cbn; lia]|cbn; nia].
  - split; cbn [app nodes blocks].
    + eapply dll_frame; [exact Ho2|set_solver|done].
    + by apply dll_chain in Hfl as [? _].
    + left. by apply dll_chain in Hfl as [_ ?].
    + eapply dll_frame; [exact Ho2|set_solver|done].
    + done.
    + intros x Hx. destruct (Hrec1 x Hx) as (_ & _ & _ & Hx1 & Hx2 & Hx3). unfold has_block. rewrite Hbp by done.
      split_and!; [done|done|]. unfold bs2. destruct (decide (bptr s1 x0 = bptr s1 x)) as [<-|Hne];
        [rewrite lookup_insert_eq; by eexists|by rewrite lookup_insert_ne].
    + intros x y Hx Hy. rewrite !Hbp by done. destruct (Hrec1 x Hx) as (i & -> & -> & _), (Hrec1 y Hy) as (j & -> & -> & _).
      by intros ->%block_at_inj.
  - cbn [app]. split; [|intros x y ->%list_elem_of_singleton ->%list_elem_of_singleton; done].
    intros x ->%list_elem_of_singleton. cbn [nodes blocks]. rewrite Hbk.
    split; cbn [data size]; unfold room; cbn; [lia|lia|nia|done|by exists num].
Qed.

End NewHeap.

Implicit Types (us fs ss : list Z) (h : heap_t) (m : heap_mem).

(** ** The specification *)

Inductive heap_call : Set := Alloc (n : Z) | Free (p : Z).

(** Address and size of every live block, and the bytes. *)
Record live_state : Type := mkLive { blocks_of : list (Z * Z); bytes_of : Z -> Z }.

(** Blocks of whole units of [al] bytes in the region from [lo] to [hi]: an
    allocation fails, or gives a block that is apart from the live ones; a
    release of a live block takes it off and changes no byte outside of it;
    any other release is refused. *)
Inductive live_step (lo hi al : Z) : live_state -> heap_call -> Z -> live_state -> Prop :=
  | alloc_none n s : live_step lo hi al s (Alloc n) 0 s
  | alloc_some n p L L' mem :
      L' ≡ₚ (p, block_size al n) :: L -> p <> 0 -> (al | p) -> lo <= p -> p + block_size al n <= hi ->
      (forall q z, (q, z) ∈ L -> p + block_size al n <= q \/ q + z <= p) ->
      live_step lo hi al (mkLive L mem) (Alloc n) p (mkLive L' mem)
  | free_some p z L L' mem mem' :
      L ≡ₚ (p, z) :: L' -> (forall a, a < p \/ p + z <= a -> mem' a = mem a) ->
      live_step lo hi al (mkLive L mem) (Free p) 1 (mkLive L' mem')
  | free_none p s : p ∉ (blocks_of s).*1 -> live_step lo hi al s (Free p) 0 s.
Inductive live_run (lo hi al : Z) : live_state -> list heap_call -> list Z -> live_state -> Prop :=
  | live_done s : live_run lo hi al s [] [] s
  | live_more s c r s' cs rs s'' :
      live_step lo hi al s c r s' -> live_run lo hi al s' cs rs s'' -> live_run lo hi al s (c :: cs) (r :: rs) s''.

(** ** The code *)

Section Heap.
Context (sn sb : Z).

Definition run_call (c : heap_call) h m : outcome (Z * heap_t * heap_mem) :=
  match c with
  | Alloc n => heap_alloc sn sb h n m
  | Free p => '(ok, h, m) ← heap_free sn sb h p m; Done (Z.b2z ok, h, m)
  end.
Fixpoint run_calls (cs : list heap_call) h m : outcome (list Z * heap_t * heap_mem) :=
  match cs with
  | [] => Done ([], h, m)
  | c :: cs => '(r, h, m) ← run_call c h m; '(rs, h, m) ← run_calls cs h m; Done (r :: rs, h, m)
  end.
(** The rounded size of a request is a [size_t]. *)
Definition legal_call (al : Z) (c : heap_call) : Prop :=
  match c with Alloc n => 0 <= n <= 2 ^ 64 - al | Free _ => True end.

Context (Hsn : sn <> 0) (Hsb : sb <> 0).

Lemma live_sound h m us fs ss : heap_ok sn sb h m us fs ss ->
  NoDup (live m us) /\
  (forall p z, (p, z) ∈ live m us -> data_at h <= p /\ p + z <= data_at h + room h /\ (align h | p) /\ 0 < p) /\
  (forall p z q y, (p, z) ∈ live m us -> (q, y) ∈ live m us -> (p, z) <> (q, y) -> p + z <= q \/ q + y <= p).
Proof.
  intros [[Hb Hl [Hi Ha] _ _] _]. pose proof (lo_apart _ _ _ _ _ _ _ _ _ Hl) as (_ & _ & _ & _ & Hnu & _). cbn [app] in *.
  assert (forall x, x ∈ us -> x ∈ us ++ fs) as Hsub by (clear; set_solver).
  assert (forall p z, (p, z) ∈ live m us -> exists x, x ∈ us /\ data (blk (nodes m) (blocks m) x) = p /\ size (blk (nodes m) (blocks m) x) = z) as Hin.
  { intros p z Hp. apply list_elem_of_In, in_map_iff in Hp as (x & [= <- <-] & Hx). exists x. by rewrite list_elem_of_In. }
  split_and!.
  - apply NoDup_fmap_2_strong; [|done]. intros x y Hx Hy [= Hd _]. destruct (decide (x = y)) as [|Hn]; [done|].
    destruct (Hi x (Hsub x Hx)), (Hi y (Hsub y Hy)), (Ha x y (Hsub x Hx) (Hsub y Hy) Hn); lia.
  - intros p z (x & Hx & <- & <-)%Hin. destruct (Hi x (Hsub x Hx)). pose proof (hb_data _ _ _ _ Hb). split_and!; (done || lia).
  - intros p z q y (x & Hx & <- & <-)%Hin (x' & Hx' & <- & <-)%Hin Hn. apply (Ha x x'); [by apply Hsub..|]. by intros ->.
Qed.

Lemma call_refines c h m us fs ss : heap_ok sn sb h m us fs ss -> legal_call (align h) c ->
  exists r h' m' us' fs' ss', run_call c h m = Done (r, h', m') /\ heap_ok sn sb h' m' us' fs' ss' /\ same_region h h' /\
    live_step (data_at h) (data_at h + room h) (align h) (mkLive (live m us) (bytes m)) c r (mkLive (live m' us') (bytes m')).
Proof.
  intros Hok Hc. destruct c as [n|p]; cbn [run_call legal_call] in *.
  - destruct (decide (n = 0)) as [->|Hn0].
    { exists 0, h, m, us, fs, ss. split; [|split; [done|split; [done|constructor]]]. unfold heap_alloc. by destruct (raw h =? 0). }
    destruct (alloc_spec sn sb Hsn Hsb h m us fs ss n Hok) as (r & h' & m' & us' & fs' & ss' & -> & Hok' & Hr & Hb & Hres); [lia|].
    exists r, h', m', us', fs', ss'. split; [done|]. split; [done|]. split; [done|]. rewrite Hb.
    destruct Hres as [[-> ->]|[Hr0 Hp]]; [constructor|].
    destruct (live_sound _ _ _ _ _ Hok') as (Hnd & Hin & Hap). rewrite Hp in Hnd. apply NoDup_cons in Hnd as [Hni _].
    destruct Hr as (Hr1 & Hr2 & Hr3 & _). assert (room h' = room h) as Hroom by (unfold room; by rewrite Hr2, Hr3).
    destruct (Hin r (block_size (align h) n)) as (H1 & H2 & H3 & _); [rewrite Hp; by left|]. rewrite Hr1, Hroom, Hr3 in *.
    apply alloc_some; try done. intros q z Hq. apply (Hap r _ q z); [rewrite Hp; by left|rewrite Hp; by right|congruence].
  - destruct (free_spec sn sb Hsn Hsb h m us fs ss p Hok) as [(_ & z & h' & m' & us' & fs' & -> & Hok' & Hr & Hp & Hb)|[Hp ->]];
      cbn [mbind outcome_bind Z.b2z].
    + exists 1, h', m', us', fs', ss. split; [done|]. split; [done|]. split; [done|]. by eapply free_some.
    + exists 0, h, m, us, fs, ss. split; [done|]. split; [done|]. split; [done|]. by apply free_none.
Qed.

Lemma calls_refine cs : forall h m us fs ss, heap_ok sn sb h m us fs ss -> Forall (legal_call (align h)) cs ->
  exists rs h' m' us' fs' ss', run_calls cs h m = Done (rs, h', m') /\ heap_ok sn sb h' m' us' fs' ss' /\
    live_run (data_at h) (data_at h + room h) (align h) (mkLive (live m us) (bytes m)) cs rs (mkLive (live m' us') (bytes m')).
Proof.
  induction cs as [|c cs IH]; intros h m us fs ss Hok Hc; [exists [], h, m, us, fs, ss; by split_and!; [| |constructor]|].
  apply Forall_cons in Hc as [Hc Hcs].
  destruct (call_refines c h m us fs ss Hok Hc) as (r & h1 & m1 & us1 & fs1 & ss1 & He & Hok1 & (Hr1 & Hr2 & Hr3 & _) & Hs).
  assert (room h1 = room h) as Hroom by (unfold room; by rewrite Hr2, Hr3).
  destruct (IH h1 m1 us1 fs1 ss1 Hok1) as (rs & h2 & m2 & us2 & fs2 & ss2 & He2 & Hok2 & Hs2); [by rewrite Hr3|].
  exists (r :: rs), h2, m2, us2, fs2, ss2. cbn [run_calls]. rewrite He. cbn [mbind outcome_bind]. rewrite He2.
  split; [done|]. split; [done|]. econstructor; [exact Hs|]. by rewrite <- Hr1, <- Hroom, <- Hr3.
Qed.
End Heap.

(** C3: after [heap_init] of a buffer, any sequence of allocations and
    releases runs without a null dereference, a tripped assertion or an
    endless loop, and acts like a set of live blocks: every address handed
    out is aligned, its rounded-up block lies in the data region of the
    buffer behind the records and overlaps no live block; a release takes
    off exactly the block it names, changes no byte of another and is
    refused for anything that is not a live block; the used count is the sum
    of the live blocks. *)
Theorem heap_calls_refine_live_blocks sn sb buffer sz p2align m cs :
  sn <> 0 -> sb <> 0 -> init_ok sn sb buffer sz p2align m ->
  Forall (legal_call (clamp_align p2align)) cs ->
  exists h m1 rs h' m' L, heap_init buffer sz p2align m = Done (true, h, m1) /\
    buffer + maxBlocks h * (SIZEOF_node_t + SIZEOF_block_t) <= data_at h /\ data_at h + room h <= buffer + sz /\
    run_calls sn sb cs h m1 = Done (rs, h', m') /\
    live_run (data_at h) (data_at h + room h) (clamp_align p2align) (mkLive [] (bytes m1)) cs rs (mkLive L (bytes m')) /\
    bytesUsed h' = Zsum (L.*2).
Proof.
  intros Hsn Hsb Hio Hcs. destruct (init_heap_ok sn sb buffer sz p2align m Hio) as (h & m1 & fs & ss & He & Hok & Hal & _ & Hlow & Hhigh & _).
  rewrite <- Hal in Hcs. destruct (calls_refine sn sb Hsn Hsb cs h m1 [] fs ss Hok Hcs) as (rs & h' & m' & us' & fs' & ss' & Hr & Hok' & Hs).
  exists h, m1, rs, h', m', (live m' us'). rewrite <- Hal. split_and!; try done.
  destruct Hok' as [[_ _ _ Hu _] _]. rewrite Hu. unfold sizes, live. f_equal.
  symmetry. exact (map_map _ snd us').
Qed.

(** ** A heap of 4096 bytes in blocks of 128 *)

Definition empty_mem : heap_mem := mkMem ∅ ∅ (fun _ => 7).
Lemma sample_init : init_ok 8 16 4096 4096 7 empty_mem.
Proof.
  split; [done|done|done|by vm_compute|by vm_compute|done|]. intros a Ha. lia.
Qed.
Definition sample_calls : list heap_call :=
  [Alloc 100; Alloc 128; Alloc 256; Free 5248; Free 5248; Alloc 1; Free 5120; Free 5121].
Lemma sample_legal_calls : Forall (legal_call (clamp_align 7)) sample_calls.
Proof. repeat (constructor; [cbn; lia || done|]). constructor. Qed.

(** Three blocks, the middle one released, reused and asked for twice. *)
Lemma heap_calls_refine_live_blocks_witness : exists h m1 h' m' L,
  heap_init 4096 4096 7 empty_mem = Done (true, h, m1) /\
  run_calls 8 16 sample_calls h m1 = Done ([5120; 5248; 5376; 1; 0; 5248; 1; 0], h', m') /\
  live_run (data_at h) (data_at h + room h) 128 (mkLive [] (bytes m1)) sample_calls
    [5120; 5248; 5376; 1; 0; 5248; 1; 0] (mkLive L (bytes m')).
Proof.
  destruct (heap_calls_refine_live_blocks 8 16 4096 4096 7 empty_mem sample_calls) as (h & m1 & rs & h' & m' & L & Hi & _ & _ & Hr & Hl & _);
    [done|done|exact sample_init|exact sample_legal_calls|].
  assert (rs = [5120; 5248; 5376; 1; 0; 5248; 1; 0]) as ->.
  { assert (('(_, h, m) ← heap_init 4096 4096 7 empty_mem; '(rs, _, _) ← run_calls 8 16 sample_calls h m; Done rs) =
      Done [5120; 5248; 5376; 1; 0; 5248; 1; 0]) as He by (vm_compute; reflexivity).
    rewrite Hi in He. cbn [mbind outcome_bind] in He. rewrite Hr in He. cbn [mbind outcome_bind] in He. by injection He. }
  exists h, m1, h', m', L. split; [exact Hi|]. split; [exact Hr|exact Hl].
Defined.

(** ** Where the heap fails *)

(** A merge with the last free node leaves the tail of the free list on the
    cleared node.  When the best fit is then the last of several free
    blocks, the extraction empties the free list: the call fails, and no
    free block can be allocated any more. *)
Lemma stale_tail_loses_free_list sn sb h m us fs ss n ys p : sn <> 0 -> sb <> 0 ->
  heap_ok sn sb h m us fs ss -> tail (free h) <> final 0 fs -> fs = ys ++ [p] -> ys <> [] ->
  0 < n <= 2 ^ 64 - align h -> block_size (align h) n <= bytesFree h ->
  best_of (fun x => fit_score (block_size (align h) n) (size (blk (nodes m) (blocks m) x))) fs 0 0 = p ->
  heap_alloc sn sb h n m = Done (0, with_free h (mkList 0 0), m) /\
  heap_ok sn sb (with_free h (mkList 0 0)) m us [] ss.
Proof.
  intros Hsn Hsb Hok Ht Hfs Hy Hn Hfree Hbest. pose proof Hok as [[Hb Hl Hg Hu Hs] Hf0].
  destruct (lo_tail _ _ _ _ _ _ _ _ _ Hl) as [|(Ht0 & _ & Htn)]; [done|].
  pose proof (lo_free _ _ _ _ _ _ _ _ _ Hl) as Hc. rewrite Hfs in Hc.
  assert (p ∈ fs) as Hp by (rewrite Hfs; clear; set_solver).
  assert (forall x, x ∈ fs -> has_block (nodes m) (blocks m) x) as Hfb.
  { intros x Hx. apply (lo_block _ _ _ _ _ _ _ _ _ Hl). clear -Hx. set_solver. }
  split.
  - unfold heap_alloc. rewrite (proj2 (Z.eqb_neq (raw h) 0)) by apply Hb. rewrite (proj2 (Z.eqb_neq n 0)) by lia.
    rewrite (proj2 (Z.ltb_ge _ _) Hfree). unfold block_bestfit_and_remove, with_search. cbn [nodes blocks].
    rewrite (best_fit_spec sn sb _ _ Hsn Hsb (hb_node _ _ _ _ Hb) (hb_block _ _ _ _ Hb) (free h) fs _ (lo_free _ _ _ _ _ _ _ _ _ Hl) Hfb), Hbest.
    cbn [mbind outcome_bind]. rewrite (proj2 (Z.eqb_neq p 0)) by apply (Hfb p Hp). cbn [negb].
    rewrite (extract_stale (free h) (nodes m) ys p Hc Hy Ht0 Htn). cbn [mbind outcome_bind].
    rewrite (deref_Some _ _ _ Ht0 Htn). cbn [mbind outcome_bind node_data]. rewrite orb_true_r. by destruct m.
  - split; [split|done]; [by apply (base_heap _ _ h)|by eapply lose_free| |done|done].
    apply (geom_heap h); [done..|]. eapply geom_sub; [exact Hg| |done]. clear. set_solver.
Qed.

(** Seven calls to that state: at the end 2944 bytes are free and not even
    10 of them can be allocated. *)
Lemma heap_loses_free_bytes :
  ('(_, h, m) ← heap_init 4096 4096 7 empty_mem;
   '(rs, h, m) ← run_calls 8 16 [Alloc 128; Alloc 128; Alloc 128; Free 5376; Free 5120; Alloc 256; Alloc 10] h m;
   Done (rs, bytesFree h, free h)) =
  Done ([5120; 5248; 5376; 1; 1; 0; 0], 2944, mkList 0 0).
Proof. vm_compute. reflexivity. Qed.

(** The rounded size of a request near the top of [size_t] is 0: the call
    answers a block of no bytes, which the next allocation gets as well. *)
Lemma heap_alloc_rounds_to_zero :
  ('(_, h, m) ← heap_init 4096 4096 7 empty_mem;
   '(rs, h, m) ← run_calls 8 16 [Alloc (2 ^ 64 - 1); Alloc 128] h m; Done (rs, bytesUsed h)) =
  Done ([5120; 5120], 128).
Proof. vm_compute. reflexivity. Qed.

(** The estimate is rounded to binary32: of this buffer the data region is
    given four bytes more than there are. *)
Lemma heap_overhead_overruns : exists h,
  heap_calc_overhead (fresh_heap 4194304 72239996 7) = Done (true, h) /\
  data_at h + maxBlocks h * align h = 4194304 + 72239996 + 4.
Proof. eexists. split; vm_compute; reflexivity. Qed.
